(* ===== verification/_CoqProject ===== *)
-Q . S2P
Prelude.v
CLib.v
Boost.v
GdbPacket.v
TcpConnection.v
GdbTransport.v
Parsing.v
RdcpResponse.v
RdcpMaps.v
RdcpTypes.v
StopReasons.v
RdcpRequest.v
Requests.v
IpAddress.v
XbdmTransport.v
ExprParser.v
Notifications.v
NotificationTransport.v
GdbRegisters.v
Path.v
Target.v
Discovery.v
Console.v
DebuggerMemory.v
DebuggerThread.v
DebuggerThreads.v
Debugger.v
DebuggerControl.v
DebuggerInvariant.v
DebuggerStops.v
DebuggerBacktrace.v
DebuggerFrame.v
Bridge.v
BridgeCommands.v
BridgeReplies.v
BridgeMemory.v
BridgeQueries.v
DxtLibrary.v
DxtRelocation.v
DxtImports.v
DxtExports.v
DxtRequests.v
DxtLoader.v
DxtMemory.v
ImageUtil.v
FileUtil.v
RemoteFiles.v
FileConsole.v
FileSync.v
SelectLoop.v
TcpServer.v
XbdmContext.v
XboxInterface.v
XbdmContextRuns.v
XbdmContextExchange.v
Swizzle.v
TraceTypes.v
FrameCapture.v
FrameImages.v
TraceImages.v
FrameAux.v
FrameStream.v
FrameRecords.v
Tracer.v
TracerRuns.v
Output.v
Utilities.v
Session.v
ShellHelp.v
ShellCommands.v
ShellFiles.v
ShellDebugger.v
ShellExtensions.v
Shell.v
ShellFrame.v
ShellRuns.v
ShellMemory.v
GdbServer.v
GdbServerRuns.v
Startup.v
