(* ===== verification/Prelude.v ===== *)
(** * A verification library for xbdm_gdb_bridge

    xbdm_gdb_bridge connects the GNU debugger to the debug monitor (XBDM) of an
    Xbox development kit.  GDB speaks its remote serial protocol to the bridge
    over TCP; the bridge speaks the line protocol of the debug monitor to the
    console over a second connection, and listens on a third for notifications.
    A shell offers the same requests, the debugger and a tracer of frames
    interactively, and starts the service of GDB.  This library models the
    program's own logic (src/src), definition by definition, and proves what
    makes it correct, or states as theorems where it is not.

    ** Files, in the order they depend on each other

    - [Prelude]: bytes, byte-string literals, machine integers ([u32], [i32],
      [u64], [i64] write the wrap-around out), the hint databases.
    - [CLib]: what the program uses of the C and C++ libraries: character
      classes, [strtol]/[strtoul]/[stoul], [snprintf] conversions, searching,
      little-endian images, [htonl].
    - [Boost]: the Boost algorithms the program calls, which are not part of the
      repository: an interface [Boost] with the laws [BoostLaws], and a reference
      implementation that satisfies them, used for instances at concrete inputs.
    - [GdbPacket] (gdb/gdb_packet): checksums, framing, escaping and unescaping.
    - [TcpConnection] (net/tcp_connection, tcp_socket_base): buffers and flags of
      a connection and its processing step; what [recv], [send] and [select]
      answer are arguments.
    - [GdbTransport] (gdb/gdb_transport): acknowledgements, retransmission,
      interrupts and packet extraction on top of a connection.
    - [Parsing] (util/parsing): integer readers, the command-line tokenizer,
      [ArgParser] with its printers, command lists.
    - [RdcpResponse] (rdcp/rdcp_response, rdcp_status_code): recognition of one
      response at the front of the receive buffer.
    - [RdcpMaps] (rdcp/rdcp_response_processors): key/value maps read from
      response bodies.
    - [RdcpTypes] (rdcp/types): memory regions, modules, sections and the two
      thread contexts with their exchange formats.
    - [StopReasons] (rdcp/xbdm_stop_reasons): why a thread stopped.
    - [RdcpRequest] (rdcp/rdcp_request, rdcp_processed_request): the line of a
      request, its completion and abandonment.
    - [Requests] (rdcp/xbdm_requests): every request class: constructor, size
      parser, [IsOK] and what it reads from its response.
    - [XbdmTransport] (rdcp/xbdm_transport): the request queue and the connection
      states; the interface [RequestOps] is all it knows of a request, and
      [RdcpRequest] provides its instance.
    - [ExprParser] (xbox/debugger/debugger_expression_parser): tokenizer and
      precedence-climbing evaluator of numeric expressions; it provides the
      interface [ExpressionParser] that [Parsing] uses.
    - [Notifications], [NotificationTransport] (notification/): parsing of
      notifications, the registry of custom ones, the notification channel.
    - [GdbRegisters] (xbox/bridge/gdb_registers): target description and
      registers in the debugger's protocol.
    - [Path] (util/path): splitting the path of a title.
    - [Target] (the part of xbox/xbdm_context the debugger calls): the console
      and the connection to it ([XbdmContext]) as an interface (answers, arriving notifications,
      handlers), the state monad [M] with its program logic [wp] and the
      invariant rules [keeps].  [Console] is a concrete console for examples.
    - [DebuggerMemory], [DebuggerThread], [DebuggerThreads], [Debugger],
      [DebuggerControl] (xbox/debugger/xbdm_debugger, thread): memory and
      breakpoints; one thread; the list of threads, shared objects in a store;
      the whole state with the notification handlers and the waits; attaching,
      launching, halting and stepping.
    - [DebuggerInvariant], [DebuggerStops]: what holds of every run of the
      debugger, and what its handlers and waits do.
    - [DebuggerBacktrace]: the back trace guessed from the stack; the
      disassembler is an interface.
    - [Bridge], [BridgeCommands] (xbox/bridge/gdb_bridge): the state of the bridge,
      its replies and its handler of notifications, which run beside the
      debugger's; the packets of GDB and their handlers, on the state of the
      debugger with the bridge beside the console.
    - [DebuggerFrame]: what the operations of the debugger leave alone.
      [BridgeReplies], [BridgeMemory], [BridgeQueries]: how packets are answered,
      memory and lists seen by GDB.
    - [DxtLibrary] (dyndxt_loader/dxt_library): a library over the bytes of its
      file: headers, sections, imports, relocation.  [DxtRelocation], [DxtImports]:
      what moving, reading the imports of and laying out a library come to.
    - [DxtExports], [DxtRequests], [DxtLoader] (dyndxt_loader/): the exports of the
      console, the requests to the loader there and the loader, which uses the
      debugger and its connection and has the generated binaries as arguments.
      [DxtMemory]: how it splits what it asks for, and what it leaves
      in the memory of the program.
    - [ImageUtil] (tracer/image_util): conversion of pixels, DDS files.
    - [FileUtil] (shell/file_util): copying, deleting and synchronising files of the
      console, with their time stamps; the local disk is an interface.
      [RemoteFiles]: a console that keeps a tree of files, as laws of an interface;
      [FileConsole] is one for examples.  [FileSync]: what the operations do to the
      tree.
    - [XbdmContext] (xbox/xbdm_context, net/select_thread): the transports of a
      context with the turns of the select thread, connecting, the executor of
      commands, handlers of notifications; the network is an interface.
      [XbdmContextRuns]: what holds of every run.  [XbdmContextExchange]: commands
      on a network that serves the answers of a console, and that a context
      implements [Target].
    - [IpAddress] (net/ip_address): addresses with their ports; [inet_network] is an
      interface.  [Discovery] (discovery/discoverer): the search for consoles.
    - [SelectLoop] (net/signaling_base, task_connection, select_thread): tasks and the
      pipe that wakes the thread up; the turns of the loop over its connections, and
      fences.  [TcpServer] (net/tcp_server, delegating_server): a socket that
      listens.  [XbdmContext] has turns of its own, for the connections of a context.
    - [XboxInterface] (xbox/xbox_interface): a context with its thread, from start to
      stop.
    - [TraceTypes], [Swizzle], [FrameCapture], [FrameImages],
      [FrameAux] (tracer/frame_capture, third_party/xemu/swizzle): the tables of
      formats, the structures of the tracer on the console, the reordering of
      pixels; the commands of a frame with their parameters and the log; images;
      the auxiliary data and the requests that fetch both.  [Tracer]
      (tracer/tracer, notification_ntrc): its notifications and the commands that
      trace frames.  [FrameStream]: what a buffer that is filled in pieces and emptied
      message by message comes to, for the stream of commands; [FrameRecords] for the
      auxiliary data; [TraceImages] is about what is encoded, [TracerRuns] about the
      whole of [Tracer.TraceFrame].
    - [Output] (the stream operators of the program's data): [std::ostream] with its
      manipulators, which stay set, and what the data puts into it.
    - [Utilities] (util/logging, config_path, thread_debug_util): which records of the
      log are printed and how, the files of the configuration, names of threads.
    - [Session] (xbox/debugger/debugger_xbox_interface, shell/command): what commands
      work on: the stream, the debugger with the parser of expressions, the loader
      and the tracer.
    - [ShellHelp], [ShellCommands], [ShellFiles], [ShellDebugger], [ShellExtensions]
      (shell/): the texts that describe the commands, and every command:
      requests; files, memory and screenshots; the debugger; the loader and the
      tracer.  [Shell] (shell/shell): the table of the commands, dispatch, help, replay
      and the loop over the lines, with the notifications that arrive between them.  [ShellFrame]: what commands leave as it was, with
      a console that answers from a script; [ShellRuns], [ShellMemory]: what holds of
      runs of the shell, and of the dump of memory.
    - [GdbServer] (xbox/bridge/gdb_xbox_interface, shell/gdb/gdb_commands): the server
      for GDB, its executor with the jobs in order, and the command that starts them.
      [GdbServerRuns]: what becomes of a client and of the bytes it sends.
    - [Startup] (main): the commands of the command line and the shell.

    ** How the model corresponds to the code

    A definition has the name of the function or class it models (a suffix
    tells overloads apart); the state of an object is a record with the members
    of the class; an operation takes the state and returns the new one.  Integers
    are [Z] with explicit conversions at their width, [char], [uint8_t] and the
    contents of buffers are bytes, [std::map] and [std::set] are [gmap] and
    [gset].  Calls of a handler (packets received, notifications, completed or
    abandoned requests) are returned as a list in the order of the calls.
    Failures are values: [option] for a null pointer, an exception or an
    undefined access (each definition says which), a sum where the code has
    [std::expected], and a result type of its own where several outcomes have to
    be told apart ([ExprParser.presult], [Notifications.outcome],
    [NotificationTransport.handled]).  What a part uses of another library or of the
    system is a class that its definitions take: files ([FileUtil.LocalDisk],
    [ShellFiles.LocalPaths]), pictures and the clock ([ShellFiles.Screen]),
    addresses ([IpAddress.Inet]), sockets ([Discovery.Datagrams],
    [TcpServer.ServerSockets], [SelectLoop.Connections], [XbdmContext.Network]).
    Everything the shell prints goes to one stream.  Locks are not modelled: the operations
    that take one run to their end, so a state here is one between them, and the
    order of operations is an explicit list of steps ([XbdmTransport]).  In the
    debugger a notification is handled between two operations or while one waits
    for the target's state; an operation that sends a request is not interleaved
    with the handler of a notification.  While the debugger waits the handlers of
    the others that listen run after its own ([Debugger.Listeners]), as the
    bridge's does.

    ** What is shown

    - Round trips: packets through escaping, framing and checksums; responses of
      each shape; key/value bodies; thread contexts; command lines; integers;
      parameters of requests read back by the protocol's reader; notifications;
      expressions printed with the parentheses they need in C.
    - Framing on a stream: what is decided about a buffer is not changed by more
      input, a message is consumed exactly, and how the stream is cut into reads
      does not matter ([GdbPacket], [RdcpResponse], [XbdmTransport],
      [NotificationTransport]).
    - Invariants over runs: the transport neither loses, duplicates nor reorders
      the requests it is given (every one is completed, abandoned or queued).
    - Refinement of protocol to data: [Requests.DirList_exchange],
      [Requests.GetMemBinary_exchange], [GdbRegisters.registers_reply].
    - The debugger: on every run, whatever the target answers, no thread pointer
      dangles and every breakpoint set on the target is known
      ([DebuggerInvariant.debugger_invariant]); memory is read as if there were no
      breakpoints, and written and read back ([DebuggerMemory]); the thread list
      refines a roster of identifiers ([DebuggerThreads]); conditional stops,
      breakpoints set again at a stop, debug strings and waits ([DebuggerStops]).
      What is assumed of the console there are laws of interfaces
      ([DebuggerMemory.BreakpointTarget], [DebuggerThreads.StopTarget],
      [DebuggerInvariant.NotifyingTarget]), which [Console] satisfies.
    - The bridge: every packet is answered, once in all but two cases, and a resumption
      when the target stops ([BridgeReplies.packet_answered]); a stop is reported once; GDB reads memory
      without breakpoints and reads back what it wrote, from the text of the
      packets to the state of the console ([BridgeMemory]); the description of
      the target and the list of threads the console gave, read in parts, arrive whole
      ([BridgeQueries]).
    - The loader of libraries: relocation adds the difference of the bases to what
      the table of relocations names, writes the imports and nothing else, whichever
      way a library takes; import tables and addresses of exports are read as they
      are laid out; splitting loses no import; the function a stage is put in
      place of is restored ([DxtRelocation], [DxtImports], [DxtMemory]).
    - The connection to the console: commands are sent one at a time and get their
      own replies, what the debugger assumes of the connection holds of a context
      ([XbdmContextRuns], [XbdmContextExchange]); a transport that was closed is
      never used again with success.
    - Files and pictures: deleting a directory prunes the tree of the console, and
      synchronising a file copies it unless it is there ([FileSync]); time stamps of
      files are accepted by the console and tell files apart ([FileUtil]); pixels are converted without loss and compressed
      textures become files as readers expect them ([ImageUtil]).
    - The tracer: the commands of a frame with their parameters and its auxiliary
      data arrive whole and in order however they are cut ([FrameStream],
      [FrameRecords]); against a console that hands a frame over ([TracerRuns.FrameSource])
      tracing ends and leaves all of it, with the log, in files ([TracerRuns]); what
      the encoder of pictures is given has the size it reads, but for the textures of
      five formats ([TraceImages]).
    - The select thread: every task is run once, in order and when it is due, and a
      wait for quiescence is over after two turns in which nothing arrives, with all
      that was posted before run ([SelectLoop]).
    - The shell: whatever is typed, dispatch fails only where a command does, and the
      line that is repeated is the last one that was read ([ShellRuns.line_dispatched]);
      commands of the debugger say that there is none ([ShellRuns]); a number or an
      expression among the arguments gives a command what it means
      ([Session.argument_means]); the dump of memory is the memory ([ShellMemory]).
      After a run of the program, whatever was typed and arrived, the stream is left
      without a width, and in base 10 but for four commands and the notifications that
      end in an address; expressions see registers and memory only when there is a
      debugger, and but for the command that starts the GDB server always then;
      commands of the command line are as if they were typed ([Startup]).
    - The service of GDB: a client is served or closed and never disturbs another, and
      the bytes of a packet come to the bytes of its acknowledgement and its answers
      ([GdbServerRuns]), which puts the parts from the connection to the debugger
      together.
    - The log: a record is printed exactly when its level and its part are asked for,
      and the lines of different threads bear different numbers ([Utilities]).
    - Bounds: memory writes fit the send buffer; 32-bit arithmetic of regions and
      of expressions; totality of the expression parser.
    - Faults of the code, as theorems about the definitions: packets are
      unescaped before they are framed and bytes stay behind in the read buffer;
      a bad checksum is accepted or repeats the previous packet; a second request
      is sent before the first is answered; malformed lines crash the transport;
      extended registers lose two bytes; regions accept ranges that wrap; the
      search for custom notifications leaves the buffer; register numbers of the
      floating point registers disagree; calls in expressions reach an assertion;
      the bridge answers hardware breakpoints twice and its hexadecimal write
      never writes; a library that is not moved has its imports left open, an empty
      block of relocations is read for ever, and requests for imports outgrow the
      line of the debug monitor; a search for consoles finds none, addresses have no
      order, a fence set after the select thread was stopped is never passed.

    ** Fuel

    Loops that are not structural take fuel, and a lemma shows that the fuel
    given is enough: the length of the text for [GdbPacket.unescape_from],
    [GdbTransport.extract], [ExprParser.tokenize_loop] and
    [NotificationTransport.message_loop] (every turn consumes a byte), the binary
    logarithm for [CLib.digits], and [2 * length + 2] tokens for
    [ExprParser.ParseExpression], whose recursive calls each come after a token
    was consumed ([ExprParser.Parse_total]).  [DebuggerControl.poll_stopped] takes
    the milliseconds it may wait ([DebuggerStops.poll_ends]); the scan of the
    stack takes the 256 words it may look at ([DebuggerBacktrace.scan_ends]); a wait is bounded by
    the number of notifications that arrive in its time, which the interface of
    the target gives ([Target.burst]).  The walks over a library take as many steps
    as its image has bytes: a walk that takes more has come back to where it was,
    which [DxtLibrary.ending] tells from a result ([DxtRelocation.relocation_ends]).
    Walks over directories take one step for each directory, and deleting takes the
    depth ([FileSync.DeleteRecursively_prunes]).  A connection is waited for during a
    thousand turns of the select thread, as in the code; a reply without a limit, so
    that its wait takes as many turns as the network needs.  The loops of the tracer
    wait for its console, and take the looks that one needs
    ([TracerRuns.TraceFrame_captures]); the walks over its buffers one step for every
    byte.
    Texts are shorter than 2^32 or 2^64
    bytes where a theorem says so, as the code keeps their lengths in machine
    integers.

    ** Not modelled

    What the program writes to its log, though the log itself is ([Utilities]): nothing
    else depends on it; the clock and sleeping (util/timer); waiting on condition variables, which here end with
    the event they wait for; threads as such: the select thread and the executors are
    the steps they take, one at a time.  The reading of options and the editing of
    lines belong to libraries.  Not printed are the lines that [FileUtil]'s functions
    write themselves.  A notification is printed where the input of the shell has it,
    between two lines ([Shell.Arrived]), and those that a command itself waits for are
    handled in its wait by the debugger and the bridge alone.
    While the server of GDB runs the debugger is not detached, and the bridge of a
    stopped server gets no notifications, though the code leaves its handler
    registered.  The encoder of PNG files is not part of
    the repository: [FrameImages.ImageTools] is what the code uses of it, with the
    contents of fresh memory; so are the names and numbers of the tracer on the
    console ([Tracer.NTRC]), and the layout of its structures is the one their
    reader in [TraceTypes] writes out.  The flags the notifications set are read by
    another thread: here the notifications that arrive are handled before each
    reading of a flag. *)

From Stdlib Require Export ZArith Lia Strings.Byte.
From stdpp Require Export base list decidable countable gmap.

#[global] Open Scope Z_scope.

(** ** Bytes

    [char], [uint8_t] and the elements of every buffer are the 256 values of
    [Init.Byte.byte]; [byte_val] is the unsigned reading of one. *)

#[global] Instance byte_eq_decision : EqDecision byte := Byte.byte_eq_dec.

#[global] Instance byte_countable : Countable byte :=
  inj_countable Byte.to_N Byte.of_N Byte.of_to_N.

Definition byte_val (b : byte) : Z := Z.of_N (Byte.to_N b).

(** [static_cast<uint8_t>(z)]: the low eight bits of [z]. *)
Definition byte_of (z : Z) : byte :=
  default Byte.x00 (Byte.of_N (Z.to_N (z mod 256))).

(** A proof by inspection of the 256 bytes. *)
Ltac byte_cases b := destruct b; try reflexivity; try done.

Lemma byte_val_range b : 0 ≤ byte_val b < 256.
Proof. byte_cases b. Qed.

Lemma byte_of_val b : byte_of (byte_val b) = b.
Proof. byte_cases b. Qed.

Lemma byte_val_of z : byte_val (byte_of z) = z mod 256.
Proof.
  unfold byte_of. pose proof (Z.mod_pos_bound z 256 eq_refl) as Hz.
  destruct (Byte.of_N (Z.to_N (z mod 256))) as [b|] eqn:Hb; simpl.
  - apply Byte.to_of_N in Hb. unfold byte_val. rewrite Hb. lia.
  - apply Byte.of_N_None_iff in Hb. lia.
Qed.

#[global] Instance byte_val_inj : Inj (=) (=) byte_val.
Proof. intros a b H. rewrite <- (byte_of_val a), H. apply byte_of_val. Qed.

(** ** Byte strings

    [std::string], [std::vector<uint8_t>] and [std::vector<char>] are all
    [bytes]; a literal ["OK"%bs] is read byte by byte. *)

Abbreviation bytes := (list byte).

Inductive bytes_literal := BytesLiteral (l : list byte).

(** The type string literals are declared for; it is [bytes]. *)
Definition byte_string := bytes.

Definition bytes_of_literal (l : bytes) : bytes := l.

Definition parse_literal (l : list byte) : bytes_literal := BytesLiteral l.

Definition print_literal (l : bytes_literal) : list byte :=
  match l with BytesLiteral l => l end.

Declare Scope bytes_scope.
Delimit Scope bytes_scope with bs.
#[warnings="-via-type-remapping,-via-type-mismatch"]
String Notation byte_string parse_literal print_literal
  (via bytes_literal mapping [bytes_of_literal => BytesLiteral]) : bytes_scope.
Arguments bytes_of_literal l /.

Definition char (s : bytes) : byte := hd Byte.x00 s.

Example literal_reads : "OK"%bs = [byte_of 79; byte_of 75].
Proof. reflexivity. Qed.

(** ** Machine integers

    A [w]-bit value is a [Z]; every conversion writes its wrap-around. *)

Definition u8 (z : Z) : Z := z mod 2 ^ 8.
Definition u16 (z : Z) : Z := z mod 2 ^ 16.
Definition u32 (z : Z) : Z := z mod 2 ^ 32.
Definition u64 (z : Z) : Z := z mod 2 ^ 64.
Definition i32 (z : Z) : Z := (z + 2 ^ 31) mod 2 ^ 32 - 2 ^ 31.
Definition i64 (z : Z) : Z := (z + 2 ^ 63) mod 2 ^ 64 - 2 ^ 63.

Definition is_u8 (z : Z) : Prop := 0 ≤ z < 2 ^ 8.
Definition is_u32 (z : Z) : Prop := 0 ≤ z < 2 ^ 32.
Definition is_u64 (z : Z) : Prop := 0 ≤ z < 2 ^ 64.
Definition is_i32 (z : Z) : Prop := - 2 ^ 31 ≤ z < 2 ^ 31.

Create HintDb mach.
Create Rewrite HintDb mach.

Lemma u32_range z : is_u32 (u32 z).
Proof. apply Z.mod_pos_bound. lia. Qed.

Lemma u64_range z : is_u64 (u64 z).
Proof. apply Z.mod_pos_bound. lia. Qed.

Lemma i32_range z : is_i32 (i32 z).
Proof.
  unfold is_i32, i32. pose proof (Z.mod_pos_bound (z + 2 ^ 31) (2 ^ 32)). lia.
Qed.

Lemma u32_id z : is_u32 z → u32 z = z.
Proof. apply Z.mod_small. Qed.

Lemma u64_id z : is_u64 z → u64 z = z.
Proof. apply Z.mod_small. Qed.

Lemma i32_id z : is_i32 z → i32 z = z.
Proof. unfold is_i32, i32. intros H. rewrite Z.mod_small; lia. Qed.

Lemma u32_idemp z : u32 (u32 z) = u32 z.
Proof. apply u32_id, u32_range. Qed.

(** A value sent through [int32_t] and read back as [uint32_t] is unchanged. *)
Lemma u32_i32 z : u32 (i32 z) = u32 z.
Proof.
  unfold u32, i32. rewrite Zminus_mod_idemp_l.
  f_equal. lia.
Qed.

Lemma i32_u32 z : i32 (u32 z) = i32 z.
Proof. unfold i32, u32. rewrite Zplus_mod_idemp_l. done. Qed.

Lemma u32_u64 z : u32 (u64 z) = u32 z.
Proof. unfold u32, u64. apply Z.mod_mod_divide. exists (2 ^ 32). done. Qed.

#[export] Hint Resolve u32_range u64_range i32_range : mach.
#[export] Hint Rewrite u32_idemp u32_i32 i32_u32 u32_u64 : mach.

Ltac mach := autorewrite with mach; eauto with mach.

Definition is_i64 (z : Z) : Prop := - 2 ^ 63 ≤ z < 2 ^ 63.

Lemma i64_id z : is_i64 z → i64 z = z.
Proof. unfold is_i64, i64. intros H. rewrite Z.mod_small; lia. Qed.

(** A decidable fact by computing its decision. *)
Ltac by_evaluation := apply (bool_decide_unpack _); vm_compute; exact I.

(** ** Filters that keep all or nothing *)

Lemma filter_all {A} (P : A → Prop) `{!∀ x, Decision (P x)} (l : list A) : (∀ x, x ∈ l → P x) → filter P l = l.
Proof.
  intros Hall%Forall_forall. induction Hall as [|x l Hx _ IH]; [done|]. by rewrite filter_cons_True, IH.
Qed.

Lemma filter_none {A} (P : A → Prop) `{!∀ x, Decision (P x)} (l : list A) : Forall (λ x, ¬ P x) l → filter P l = [].
Proof. induction 1 as [|x l Hx _ IH]; [done|]. by rewrite filter_cons_False. Qed.

(** [std::map::emplace] keeps what is there. *)
Definition emplace `{Countable K} {V} (key : K) (v : V) (m : gmap K V) : gmap K V :=
  match m !! key with Some _ => m | None => <[key := v]> m end.

Lemma emplace_absent `{Countable K} {V} (key : K) (v : V) (m : gmap K V) : m !! key = None → emplace key v m = <[key := v]> m.
Proof. intros Hm. unfold emplace. by rewrite Hm. Qed.
