(* ===== verification/CLib.v ===== *)
(** * The parts of the C and C++ standard libraries the program relies on

    Character classes of [<cctype>] in the "C" locale, [strtol]/[strtoul] and
    their relatives, the integer conversions of [snprintf], and the searching
    algorithms [std::find] and [std::search].  [long] is 64 bits wide. *)

From S2P Require Import Prelude.

(** ** Character classes *)

Definition in_range (lo hi : Z) (c : byte) : bool :=
  (lo <=? byte_val c) && (byte_val c <=? hi).

Definition isdigit (c : byte) : bool := in_range 48 57 c.
Definition isupper (c : byte) : bool := in_range 65 90 c.
Definition islower (c : byte) : bool := in_range 97 122 c.
Definition isalpha (c : byte) : bool := isupper c || islower c.
Definition isxdigit (c : byte) : bool :=
  isdigit c || in_range 65 70 c || in_range 97 102 c.
Definition isspace (c : byte) : bool := (byte_val c =? 32) || in_range 9 13 c.
Definition tolower (c : byte) : byte :=
  if isupper c then byte_of (byte_val c + 32) else c.

Abbreviation NUL := Byte.x00.

(** [std::string::c_str()] as a C string: the bytes before the first NUL. *)
Fixpoint c_str (s : bytes) : bytes :=
  match s with
  | [] => []
  | c :: s' => if decide (c = NUL) then [] else c :: c_str s'
  end.

(** ** Reading integers *)

Definition digit_val (c : byte) : option Z :=
  let v := byte_val c in
  if isdigit c then Some (v - 48)
  else if islower c then Some (v - 87)
  else if isupper c then Some (v - 55)
  else None.

Definition is_digit_of (base : Z) (c : byte) : bool :=
  match digit_val c with Some d => d <? base | None => false end.

Definition digit_of (c : byte) : Z := default 0 (digit_val c).

(** The longest prefix whose characters satisfy [p], and the rest. *)
Fixpoint span (p : byte → bool) (s : bytes) : bytes * bytes :=
  match s with
  | [] => ([], [])
  | c :: s' => if p c then let '(a, b) := span p s' in (c :: a, b) else ([], s)
  end.

Definition number_of (base : Z) (ds : bytes) : Z :=
  fold_left (λ acc c, acc * base + digit_of c) ds 0.

(** What the subject sequence of [strtol(s, &end, base)] holds: its sign, its
    magnitude and the offset of [end]; [None] when no conversion is done. *)
Record scanned := Scanned { sc_neg : bool; sc_mag : Z; sc_end : nat }.

Definition skip_sign (s : bytes) : bool * bytes :=
  match s with
  | c :: s' => if decide (c = "-"%byte) then (true, s')
               else if decide (c = "+"%byte) then (false, s') else (false, s)
  | [] => (false, [])
  end.

(** Base 16 allows a [0x] prefix when a hexadecimal digit follows it. *)
Definition skip_hex_prefix (base : Z) (s : bytes) : bytes :=
  match s with
  | z :: x :: d :: _ =>
    if (base =? 16) && bool_decide (z = "0"%byte)
       && (bool_decide (x = "x"%byte) || bool_decide (x = "X"%byte))
       && isxdigit d
    then drop 2 s else s
  | _ => s
  end.

Definition scan_int (base : Z) (str : bytes) : option scanned :=
  let s := c_str str in
  let s1 := (span isspace s).2 in
  let '(neg, s2) := skip_sign s1 in
  let s3 := skip_hex_prefix base s2 in
  let '(ds, rest) := span (is_digit_of base) s3 in
  match ds with
  | [] => None
  | _ => Some (Scanned neg (number_of base ds) (length s - length rest))
  end.

Definition LONG_MAX : Z := 2 ^ 63 - 1.
Definition LONG_MIN : Z := - 2 ^ 63.
Definition ULONG_MAX : Z := 2 ^ 64 - 1.

(** The returned value and the offset of [end] ([0]: nothing was converted). *)
Definition strtol (base : Z) (s : bytes) : Z * nat :=
  match scan_int base s with
  | None => (0, O)
  | Some r =>
    let v := if sc_neg r then - sc_mag r else sc_mag r in
    (Z.max LONG_MIN (Z.min LONG_MAX v), sc_end r)
  end.

(** [strtoul] and, on an LP64 target, [strtoull]. *)
Definition strtoul (base : Z) (s : bytes) : Z * nat :=
  match scan_int base s with
  | None => (0, O)
  | Some r =>
    (if ULONG_MAX <? sc_mag r then ULONG_MAX
     else if sc_neg r then u64 (- sc_mag r) else sc_mag r, sc_end r)
  end.

(** [std::stoul]: [invalid_argument] or [out_of_range] when it throws. *)
Inductive stoul_error := invalid_argument | out_of_range.

Definition stoul (base : Z) (s : bytes) : Z + stoul_error :=
  match scan_int base s with
  | None => inr invalid_argument
  | Some r => if ULONG_MAX <? sc_mag r then inr out_of_range
              else inl (if sc_neg r then u64 (- sc_mag r) else sc_mag r)
  end.

(** ** Printing integers *)

Definition digit_char (upper : bool) (d : Z) : byte :=
  byte_of (if d <? 10 then d + 48 else if upper then d + 55 else d + 87).

(** Digits of [n], most significant first; [fuel] bounds their number. *)
Fixpoint digits (fuel : nat) (upper : bool) (base n : Z) (acc : bytes) : bytes :=
  let acc' := digit_char upper (n mod base) :: acc in
  match fuel with
  | O => acc'
  | S fuel' => if n <? base then acc' else digits fuel' upper base (n / base) acc'
  end.

(** [%x], [%X], [%u]: the binary length of [n] bounds its digit count. *)
Definition print_base (upper : bool) (base n : Z) : bytes :=
  digits (Z.to_nat (Z.log2 n)) upper base n [].

Definition pad_left (c : byte) (width : nat) (s : bytes) : bytes :=
  replicate (width - length s) c ++ s.

Definition fmt_x (n : Z) : bytes := print_base false 16 n.
Definition fmt_X (n : Z) : bytes := print_base true 16 n.
Definition fmt_0x (width : nat) (n : Z) : bytes := pad_left "0"%byte width (fmt_x n).
Definition fmt_u (n : Z) : bytes := print_base false 10 n.
Definition fmt_d (n : Z) : bytes :=
  if n <? 0 then "-"%byte :: fmt_u (- n) else fmt_u n.

(** [snprintf(buf, n, ...)] stores at most [n - 1] characters. *)
Definition snprintf (n : nat) (s : bytes) : bytes := take (n - 1) s.

(** ** Searching *)

(** Index of the first element equal to [c] ([std::find], [memchr]). *)
Fixpoint find_byte (c : byte) (s : bytes) : option nat :=
  match s with
  | [] => None
  | x :: s' => if decide (x = c) then Some O else S <$> find_byte c s'
  end.

Definition starts_with (pat s : bytes) : bool := bool_decide (take (length pat) s = pat).

(** Index of the first occurrence of [pat] ([std::search], [string::find]). *)
Fixpoint find_sub (pat s : bytes) : option nat :=
  if starts_with pat s then Some O
  else match s with
       | [] => None
       | _ :: s' => S <$> find_sub pat s'
       end.

(** ** Laws of the model *)

(** Case analysis on a number below 16. *)
Ltac hex_digit_cases d :=
  destruct d as [|d|d];
  [ | do 4 (try (destruct d as [d|d|])); try lia | lia ].

Lemma digit_of_char up d : 0 ≤ d < 16 → digit_of (digit_char up d) = d.
Proof. intros H. hex_digit_cases d; by destruct up. Qed.

Lemma digit_char_is_digit up base d :
  0 ≤ d < base → base ≤ 16 → is_digit_of base (digit_char up d) = true.
Proof.
  intros H Hb. unfold is_digit_of.
  assert (digit_val (digit_char up d) = Some d) as -> by (hex_digit_cases d; by destruct up).
  lia.
Qed.

Definition add_digit (base acc : Z) (c : byte) : Z := acc * base + digit_of c.

Lemma digits_value fuel up base n acc :
  2 ≤ base ≤ 16 → 0 ≤ n < 2 ^ (Z.of_nat fuel + 1) →
  fold_left (add_digit base) (digits fuel up base n acc) 0 = fold_left (add_digit base) acc n.
Proof.
  intros Hb. revert n acc. induction fuel as [|fuel IH]; intros n acc Hn; simpl.
  - unfold add_digit at 2. rewrite Z.mod_small, digit_of_char by lia. done.
  - pose proof (Z.mod_pos_bound n base). pose proof (Z.div_mod n base).
    destruct (Z.ltb_spec n base).
    + simpl. unfold add_digit at 2. rewrite Z.mod_small, digit_of_char by lia. done.
    + rewrite IH.
      * simpl. unfold add_digit at 2. rewrite digit_of_char by lia. f_equal. lia.
      * replace (Z.of_nat (S fuel) + 1) with (Z.succ (Z.of_nat fuel + 1)) in Hn by lia.
        rewrite Z.pow_succ_r in Hn by lia.
        split; [apply Z.div_pos; lia|]. apply Z.div_lt_upper_bound; nia.
Qed.

Lemma print_base_value up base n :
  2 ≤ base ≤ 16 → 0 ≤ n → number_of base (print_base up base n) = n.
Proof.
  intros Hb Hn. apply (digits_value _ up base n []); [done|].
  pose proof (Z.log2_nonneg n). rewrite Z2Nat.id by done.
  split; [done|]. destruct (decide (n = 0)) as [->|]; [done|].
  pose proof (Z.log2_spec n). rewrite <- Z.add_1_r in *. lia.
Qed.

Lemma digits_are_digits fuel up base n acc :
  2 ≤ base ≤ 16 → 0 ≤ n → Forall (is_digit_of base) acc →
  Forall (is_digit_of base) (digits fuel up base n acc).
Proof.
  intros Hb. revert n acc. induction fuel as [|fuel IH]; intros n acc Hn Hacc; simpl;
    assert (is_digit_of base (digit_char up (n mod base)))
      by (apply Is_true_true, digit_char_is_digit; [apply Z.mod_pos_bound; lia|lia]).
  - by constructor.
  - destruct (n <? base); [by constructor|]. apply IH; [apply Z.div_pos; lia|by constructor].
Qed.

Lemma print_base_digits up base n :
  2 ≤ base ≤ 16 → 0 ≤ n → Forall (is_digit_of base) (print_base up base n).
Proof. intros. apply digits_are_digits; auto. Qed.

Lemma digits_length_lt fuel up base n acc : (length acc < length (digits fuel up base n acc))%nat.
Proof.
  revert n acc. induction fuel as [|fuel IH]; intros n acc; simpl; [lia|].
  destruct (n <? base); simpl; [lia|].
  specialize (IH (n / base) (digit_char up (n mod base) :: acc)). simpl in IH. lia.
Qed.

Lemma print_base_nonempty up base n : print_base up base n ≠ [].
Proof.
  intros H. pose proof (digits_length_lt (Z.to_nat (Z.log2 n)) up base n []) as Hl.
  unfold print_base in H. rewrite H in Hl. simpl in Hl. lia.
Qed.

Lemma digits_length fuel up base n acc k :
  2 ≤ base → 0 ≤ n < base ^ Z.of_nat (S k) →
  (length (digits fuel up base n acc) ≤ S k + length acc)%nat.
Proof.
  intros Hb. revert n acc k. induction fuel as [|fuel IH]; intros n acc k Hn; simpl; [lia|].
  destruct (Z.ltb_spec n base); simpl; [lia|].
  destruct k as [|k]; [rewrite Z.pow_1_r in Hn; lia|].
  etransitivity; [apply (IH _ _ k)|simpl; lia].
  rewrite Nat2Z.inj_succ, Z.pow_succ_r in Hn by lia.
  split; [apply Z.div_pos; lia|]. apply Z.div_lt_upper_bound; lia.
Qed.

Lemma fmt_x_length n k : 0 ≤ n < 16 ^ Z.of_nat (S k) → (length (fmt_x n) ≤ S k)%nat.
Proof. intros H. pose proof (digits_length (Z.to_nat (Z.log2 n)) false 16 n [] k). simpl in *. unfold fmt_x, print_base. lia. Qed.

Lemma pad_left_length c w s : (length s ≤ w)%nat → length (pad_left c w s) = w.
Proof. intros. unfold pad_left. rewrite length_app, length_replicate. lia. Qed.

Lemma number_of_zeros base k ds : number_of base (replicate k "0"%byte ++ ds) = number_of base ds.
Proof.
  unfold number_of. rewrite fold_left_app. f_equal.
  induction k as [|k IH]; [done|]. simpl. apply IH.
Qed.

(** [%0<w>x] is read back by any base-16 reader. *)
Lemma fmt_0x_value w n : 0 ≤ n → number_of 16 (fmt_0x w n) = n.
Proof. intros. unfold fmt_0x, pad_left. rewrite number_of_zeros. by apply print_base_value. Qed.

Lemma fmt_0x_digits w n : 0 ≤ n → Forall (is_digit_of 16) (fmt_0x w n).
Proof.
  intros. apply Forall_app. split; [by apply Forall_replicate|].
  by apply print_base_digits.
Qed.

Lemma fmt_0x_length w n : 0 ≤ n < 16 ^ Z.of_nat (S w) → length (fmt_0x (S w) n) = S w.
Proof. intros. by apply pad_left_length, fmt_x_length. Qed.

(** *** Splitting *)

Lemma span_spec p s : s = (span p s).1 ++ (span p s).2.
Proof.
  induction s as [|c s IH]; [done|]. simpl.
  destruct (p c); [|done]. destruct (span p s). simpl in *. congruence.
Qed.

Lemma span_prefix (p : byte → bool) a b :
  Forall p a → (match b with [] => True | c :: _ => p c = false end) → span p (a ++ b) = (a, b).
Proof.
  intros Ha Hb. induction Ha as [|c a Hc Ha IH]; simpl.
  - destruct b as [|c b]; [done|]. simpl. by rewrite Hb.
  - apply Is_true_true in Hc. by rewrite Hc, IH.
Qed.

Lemma find_byte_Some c s n :
  find_byte c s = Some n → s = take n s ++ (c :: drop (S n) s) ∧ c ∉ take n s ∧ (n < length s)%nat.
Proof.
  revert n. induction s as [|x s IH]; intros n; simpl; [done|].
  destruct (decide (x = c)) as [->|Hne].
  - intros [= <-]. simpl. rewrite drop_0. split_and!; [done|apply not_elem_of_nil|lia].
  - destruct (find_byte c s) as [m|]; simpl; [|done]. intros [= <-].
    destruct (IH m eq_refl) as (Hs & Hn & Hl). simpl. split_and!; [|set_solver|lia].
    congruence.
Qed.

Lemma find_byte_None c s : find_byte c s = None ↔ c ∉ s.
Proof.
  induction s as [|x s IH]; simpl; [set_solver|].
  destruct (decide (x = c)) as [->|Hne]; [set_solver|].
  rewrite fmap_None, IH. set_solver.
Qed.

Lemma find_byte_app c a b : c ∉ a → find_byte c (a ++ b) = Nat.add (length a) <$> find_byte c b.
Proof.
  intros Ha. induction a as [|x a IH]; simpl.
  - by destruct (find_byte c b).
  - destruct (decide (x = c)) as [->|]; [set_solver|].
    rewrite IH by set_solver. by destruct (find_byte c b).
Qed.

Lemma find_byte_extend c a b n : find_byte c a = Some n → find_byte c (a ++ b) = Some n.
Proof.
  intros (Hs & Hn & Hl)%find_byte_Some. rewrite Hs, <- app_assoc, find_byte_app by done.
  simpl. destruct (decide (c = c)); [|done]. simpl. f_equal. rewrite length_take. lia.
Qed.

Lemma find_byte_here c b : find_byte c (c :: b) = Some O.
Proof. simpl. by destruct (decide (c = c)). Qed.

Lemma find_byte_first c a b : c ∉ a → find_byte c (a ++ c :: b) = Some (length a).
Proof. intros. rewrite find_byte_app, find_byte_here by done. simpl. f_equal. lia. Qed.

Lemma starts_with_app pat b : starts_with pat (pat ++ b) = true.
Proof. unfold starts_with. apply bool_decide_eq_true. by rewrite take_app_length. Qed.

Lemma starts_with_true pat s : starts_with pat s = true ↔ ∃ b, s = pat ++ b.
Proof.
  split; [|intros [b ->]; apply starts_with_app].
  unfold starts_with. intros H%bool_decide_eq_true. exists (drop (length pat) s).
  rewrite <- H at 1. by rewrite take_drop.
Qed.

Lemma starts_with_cons_ne c p x s : x ≠ c → starts_with (c :: p) (x :: s) = false.
Proof. intros. unfold starts_with. apply bool_decide_eq_false. simpl. congruence. Qed.

Lemma find_sub_Some pat s n :
  find_sub pat s = Some n → starts_with pat (drop n s) = true ∧ (n ≤ length s)%nat.
Proof.
  revert n. induction s as [|x s IH]; intros n; simpl.
  - destruct (starts_with pat []) eqn:E; [|done]. intros [= <-]. done.
  - destruct (starts_with pat (x :: s)) eqn:E; [intros [= <-]; split; [done|lia]|].
    destruct (find_sub pat s) as [m|]; simpl; [|done]. intros [= <-].
    destruct (IH m eq_refl). simpl. split; [done|lia].
Qed.

Lemma find_sub_split pat s n :
  find_sub pat s = Some n → s = take n s ++ pat ++ drop (n + length pat) s.
Proof.
  intros [Hp Hn]%find_sub_Some. apply starts_with_true in Hp as [b Hb].
  rewrite <- (take_drop n s) at 1. f_equal. rewrite <- drop_drop, Hb. by rewrite drop_app_length.
Qed.

Lemma find_sub_here pat b : find_sub pat (pat ++ b) = Some O.
Proof. pose proof (starts_with_app pat b) as H. destruct (pat ++ b); simpl; by rewrite H. Qed.

Lemma find_sub_skip c p a s :
  c ∉ a → find_sub (c :: p) (a ++ s) = Nat.add (length a) <$> find_sub (c :: p) s.
Proof.
  intros Ha. induction a as [|x a IH].
  - simpl. by destruct (find_sub (c :: p) s).
  - apply not_elem_of_cons in Ha as [Hx Ha]. cbn [app find_sub].
    rewrite starts_with_cons_ne by done. rewrite IH by done.
    by destruct (find_sub (c :: p) s).
Qed.

Lemma find_sub_first c p a b : c ∉ a → find_sub (c :: p) (a ++ (c :: p) ++ b) = Some (length a).
Proof. intros. rewrite find_sub_skip, find_sub_here by done. simpl. f_equal. lia. Qed.

Lemma find_sub_absent c p s : c ∉ s → find_sub (c :: p) s = None.
Proof.
  intros Hs. pose proof (find_sub_skip c p s [] Hs) as H. by rewrite app_nil_r in H.
Qed.

(** *** Scanning what was printed *)

(** No digit of the number continues into [rest]. *)
Definition number_stops (base : Z) (rest : bytes) : Prop :=
  match rest with
  | [] => True
  | c :: _ => is_digit_of base c = false ∧ c ≠ "x"%byte ∧ c ≠ "X"%byte
  end.

Lemma c_str_app s rest : NUL ∉ s → c_str (s ++ rest) = s ++ c_str rest.
Proof.
  induction s as [|c s IH]; [done|]. intros [Hc Hs]%not_elem_of_cons. simpl.
  destruct (decide (c = NUL)); [congruence|]. by rewrite IH.
Qed.

Lemma c_str_id s : NUL ∉ s → c_str s = s.
Proof. intros H. pose proof (c_str_app s [] H) as E. by rewrite !app_nil_r in E. Qed.

Lemma digit_class base c :
  base ≤ 16 → is_digit_of base c = true →
  isspace c = false ∧ c ≠ "-"%byte ∧ c ≠ "+"%byte ∧ c ≠ NUL ∧ c ≠ "x"%byte ∧ c ≠ "X"%byte
  ∧ isxdigit c = true.
Proof.
  unfold is_digit_of. intros Hb. destruct (digit_val c) as [d|] eqn:E; [|done].
  intros Hd. assert (d < 16) by lia. clear Hd Hb. revert E.
  destruct c; vm_compute; intros [= <-]; split_and!; first [done | discriminate | lia].
Qed.

Lemma skip_hex_prefix_digits base ds rest :
  base ≤ 16 → Forall (is_digit_of base) ds → ds ≠ [] → number_stops base rest →
  skip_hex_prefix base (ds ++ rest) = ds ++ rest.
Proof.
  intros Hb Hds Hne Hrest.
  assert (∀ x, x ∈ ds ∨ (hd_error rest = Some x) → bool_decide (x = "x"%byte) || bool_decide (x = "X"%byte) = false) as Hx.
  { intros x [Hin|Hhd].
    - rewrite Forall_forall in Hds. specialize (Hds x Hin). apply Is_true_true in Hds.
      destruct (digit_class _ _ Hb Hds) as (_ & _ & _ & _ & ? & ? & _).
      by rewrite !bool_decide_eq_false_2.
    - destruct rest; simplify_eq/=. destruct Hrest as (_ & ? & ?). by rewrite !bool_decide_eq_false_2. }
  destruct ds as [|z [|x ds]]; [done| |]; simpl.
  - destruct rest as [|x [|d rest]]; [done|done|].
    rewrite (Hx x) by (right; done). by rewrite andb_false_r.
  - destruct (ds ++ rest); [done|]. rewrite (Hx x) by set_solver. by rewrite andb_false_r.
Qed.

Lemma scan_int_digits base ds rest :
  base ≤ 16 → Forall (is_digit_of base) ds → ds ≠ [] → number_stops base (c_str rest) →
  scan_int base (ds ++ rest) = Some (Scanned false (number_of base ds) (length ds)).
Proof.
  intros Hb Hds Hne Hrest. unfold scan_int.
  assert (NUL ∉ ds) as Hnul.
  { intros Hin. rewrite Forall_forall in Hds. specialize (Hds _ Hin).
    apply Is_true_true, (digit_class _ _ Hb) in Hds. naive_solver. }
  rewrite c_str_app by done. set (r := c_str rest) in *.
  destruct ds as [|c ds']; [done|]. pose proof Hds as Hall. apply Forall_cons in Hds as [Hc Hds'].
  apply Is_true_true in Hc. destruct (digit_class _ _ Hb Hc) as (Hs & Hm & Hp & _ & _).
  cbn [app span]. rewrite Hs. cbn [snd skip_sign]. rewrite !decide_False by done.
  change (c :: ds' ++ r) with ((c :: ds') ++ r).
  rewrite skip_hex_prefix_digits by done. rewrite span_prefix; [|done|].
  - rewrite length_app. do 2 f_equal. simpl. lia.
  - destruct r as [|x r]; [done|]. apply Hrest.
Qed.

Lemma scan_int_0x ds rest :
  Forall (is_digit_of 16) ds → ds ≠ [] → number_stops 16 (c_str rest) →
  scan_int 16 ("0x"%bs ++ ds ++ rest) = Some (Scanned false (number_of 16 ds) (2 + length ds)).
Proof.
  intros Hds Hne Hrest. unfold scan_int.
  assert (NUL ∉ ds) as Hnul.
  { intros Hin. rewrite Forall_forall in Hds. specialize (Hds _ Hin).
    apply Is_true_true, (digit_class 16) in Hds; naive_solver. }
  assert (c_str ("0x"%bs ++ ds ++ rest) = "0"%byte :: "x"%byte :: ds ++ c_str rest) as ->.
  { simpl. by rewrite c_str_app by done. }
  set (r := c_str rest) in *.
  destruct ds as [|c ds']; [done|]. pose proof Hds as Hall. apply Forall_cons in Hds as [Hc _].
  apply Is_true_true in Hc. destruct (digit_class 16 _ ltac:(lia) Hc) as (_ & _ & _ & _ & _ & _ & Hx).
  change (span isspace ("0"%byte :: ?l)) with (@nil byte, "0"%byte :: l).
  cbn [snd]. change (skip_sign ("0"%byte :: ?l)) with (false, "0"%byte :: l). cbv beta iota.
  change (skip_hex_prefix 16 ("0"%byte :: "x"%byte :: (c :: ds') ++ r))
    with (if isxdigit c then (c :: ds') ++ r else "0"%byte :: "x"%byte :: (c :: ds') ++ r).
  rewrite Hx, span_prefix; [|done|].
  - cbn [length]. rewrite length_app. do 2 f_equal. simpl. lia.
  - destruct r as [|x r]; [done|]. apply Hrest.
Qed.

(** The two reading functions agree on a non-negative number that fits. *)
Lemma strtoul_digits base ds rest :
  base ≤ 16 → Forall (is_digit_of base) ds → ds ≠ [] → number_stops base (c_str rest) →
  number_of base ds ≤ ULONG_MAX →
  strtoul base (ds ++ rest) = (number_of base ds, length ds).
Proof.
  intros. unfold strtoul. rewrite scan_int_digits by done. cbn [sc_mag sc_neg sc_end].
  rewrite (proj2 (Z.ltb_ge _ _)) by done. done.
Qed.

Lemma strtoul_0x ds rest :
  Forall (is_digit_of 16) ds → ds ≠ [] → number_stops 16 (c_str rest) →
  number_of 16 ds ≤ ULONG_MAX →
  strtoul 16 ("0x"%bs ++ ds ++ rest) = (number_of 16 ds, (2 + length ds)%nat).
Proof.
  intros. unfold strtoul. rewrite scan_int_0x by done. cbn [sc_mag sc_neg sc_end].
  rewrite (proj2 (Z.ltb_ge _ _)) by done. done.
Qed.

(** *** Searching a growing buffer *)

Lemma starts_with_extend pat s x : starts_with pat s = true → starts_with pat (s ++ x) = true.
Proof. rewrite !starts_with_true. intros [b ->]. exists (b ++ x). by rewrite <- app_assoc. Qed.

Lemma starts_with_long pat s x :
  (length pat ≤ length s)%nat → starts_with pat (s ++ x) = starts_with pat s.
Proof. intros. unfold starts_with. by rewrite take_app_le. Qed.

Lemma find_sub_length pat s n : find_sub pat s = Some n → (n + length pat ≤ length s)%nat.
Proof.
  intros H. pose proof (find_sub_split _ _ _ H) as E. apply find_sub_Some in H as [_ Hn].
  apply (f_equal length) in E. rewrite !length_app, length_take in E. lia.
Qed.

Lemma find_sub_extend pat s x n : find_sub pat s = Some n → find_sub pat (s ++ x) = Some n.
Proof.
  revert n. induction s as [|c s IH]; intros n.
  - cbn [find_sub]. destruct (starts_with pat []) eqn:E; [|done]. intros [= <-].
    apply starts_with_true in E as [b Hb]. destruct pat; [|done]. apply (find_sub_here []).
  - intros H. pose proof (find_sub_length _ _ _ H) as Hl. revert H. cbn [find_sub app].
    destruct (starts_with pat (c :: s)) eqn:E.
    + change (c :: s ++ x) with ((c :: s) ++ x). by rewrite (starts_with_extend _ _ x E).
    + change (c :: s ++ x) with ((c :: s) ++ x). rewrite starts_with_long, E by lia.
      destruct (find_sub pat s) as [m|]; [|done]. by rewrite (IH m).
Qed.

(** ** Little-endian images *)

Fixpoint le_bytes (n : nat) (z : Z) : bytes :=
  match n with
  | O => []
  | S n' => byte_of z :: le_bytes n' (z / 256)
  end.

Fixpoint le_int (s : bytes) : Z :=
  match s with
  | [] => 0
  | c :: s' => byte_val c + 256 * le_int s'
  end.

Lemma le_bytes_length n z : length (le_bytes n z) = n.
Proof. revert z; induction n as [|n IH]; intros z; [done|]. cbn. by rewrite IH. Qed.

Lemma le_int_range s : 0 ≤ le_int s < 256 ^ Z.of_nat (length s).
Proof.
  induction s as [|c s IH]; [done|]. cbn [le_int length]. pose proof (byte_val_range c).
  rewrite Nat2Z.inj_succ, Z.pow_succ_r by lia. lia.
Qed.

Lemma byte_of_mod z : byte_of (z mod 256) = byte_of z.
Proof. unfold byte_of. by rewrite Zmod_mod. Qed.

(** Only the value modulo [256 ^ n] matters. *)
Lemma le_bytes_congr n z k : le_bytes n (z + k * 256 ^ Z.of_nat n) = le_bytes n z.
Proof.
  revert z k; induction n as [|n IH]; intros z k; [done|]. cbn [le_bytes].
  rewrite Nat2Z.inj_succ, Z.pow_succ_r by lia.
  replace (z + k * (256 * 256 ^ Z.of_nat n)) with (z + (k * 256 ^ Z.of_nat n) * 256) by lia.
  f_equal.
  - rewrite <- byte_of_mod, Z_mod_plus_full. apply byte_of_mod.
  - rewrite Z_div_plus_full by lia. apply IH.
Qed.

Lemma le_bytes_int n s : length s = n → le_bytes n (le_int s) = s.
Proof.
  intros <-. induction s as [|c s IH]; [done|]. cbn [length le_int le_bytes].
  pose proof (byte_val_range c). f_equal.
  - rewrite <- byte_of_mod. replace (byte_val c + 256 * le_int s) with (byte_val c + le_int s * 256) by lia.
    rewrite Z_mod_plus_full, byte_of_mod. apply byte_of_val.
  - replace (byte_val c + 256 * le_int s) with (byte_val c + le_int s * 256) by lia.
    rewrite Z_div_plus_full, Z.div_small by lia. by rewrite Z.add_0_l.
Qed.

Lemma le_int_bytes n z : 0 ≤ z < 256 ^ Z.of_nat n → le_int (le_bytes n z) = z.
Proof.
  revert z; induction n as [|n IH]; intros z Hz; cbn [le_bytes le_int].
  - change (256 ^ Z.of_nat 0) with 1 in Hz. lia.
  - rewrite Nat2Z.inj_succ, Z.pow_succ_r in Hz by lia. rewrite byte_val_of, IH.
    + pose proof (Z.div_mod z 256). lia.
    + split; [apply Z.div_pos; lia|apply Z.div_lt_upper_bound; lia].
Qed.

(** A 32-bit field read as signed or unsigned has the same image. *)
Lemma le_bytes_i32 z : le_bytes 4 (i32 z) = le_bytes 4 z.
Proof.
  unfold i32. pose proof (Z.div_mod (z + 2 ^ 31) (2 ^ 32)) as E.
  replace ((z + 2 ^ 31) mod 2 ^ 32 - 2 ^ 31) with (z + (- ((z + 2 ^ 31) / 2 ^ 32)) * 256 ^ Z.of_nat 4);
    [apply le_bytes_congr|]. change (256 ^ Z.of_nat 4) with (2 ^ 32). lia.
Qed.

Lemma strtol_0x ds rest :
  Forall (is_digit_of 16) ds → ds ≠ [] → number_stops 16 (c_str rest) →
  number_of 16 ds ≤ LONG_MAX → 0 ≤ number_of 16 ds →
  strtol 16 ("0x"%bs ++ ds ++ rest) = (number_of 16 ds, (2 + length ds)%nat).
Proof.
  intros. unfold strtol. rewrite scan_int_0x by done. cbn [sc_mag sc_neg sc_end].
  f_equal. unfold LONG_MIN, LONG_MAX in *. lia.
Qed.

(** Padded hexadecimal digits contain nothing else. *)
Lemma digits_miss c w z : 0 ≤ z → isxdigit c = false → c ∉ fmt_0x w z.
Proof.
  intros Hz Hc Hin. pose proof (fmt_0x_digits w z Hz) as Hd.
  rewrite Forall_forall in Hd. specialize (Hd c Hin). apply Is_true_true, (digit_class 16) in Hd; [|lia].
  destruct Hd as (_ & _ & _ & _ & _ & _ & Hx). congruence.
Qed.

(** ** Byte order *)

(** [htonl] and [htonll] on a little-endian machine. *)
Definition htonl (z : Z) : Z := le_int (rev (le_bytes 4 z)).
Definition htonll (z : Z) : Z := le_int (rev (le_bytes 8 z)).

(** The two lower-case digits of a byte. *)
Definition byte_text (b : byte) : bytes :=
  [digit_char false (byte_val b / 16); digit_char false (byte_val b mod 16)].

Lemma byte_text_value b acc : fold_left (add_digit 16) (byte_text b) acc = acc * 256 + byte_val b.
Proof.
  cbn [byte_text fold_left]. unfold add_digit. pose proof (byte_val_range b).
  pose proof (Z.mod_pos_bound (byte_val b) 16 eq_refl).
  assert (0 ≤ byte_val b / 16 < 16) by (split; [apply Z.div_pos|apply Z.div_lt_upper_bound]; lia).
  rewrite !digit_of_char by lia.
  pose proof (Z.div_mod (byte_val b) 16). lia.
Qed.

(** Lower-case digits are determined by their number and their count. *)
Definition lower_digit (c : byte) : Prop := c = digit_char false (digit_of c) ∧ 0 ≤ digit_of c < 16.

Lemma lower_digit_char d : 0 ≤ d < 16 → lower_digit (digit_char false d).
Proof. intros Hd. split; by rewrite digit_of_char. Qed.

Lemma number_of_snoc a c : number_of 16 (a ++ [c]) = number_of 16 a * 16 + digit_of c.
Proof. unfold number_of. by rewrite fold_left_app. Qed.

Lemma lower_digits_inj a : ∀ b, length a = length b → Forall lower_digit a → Forall lower_digit b →
  number_of 16 a = number_of 16 b → a = b.
Proof.
  induction a as [|c a IH] using rev_ind; intros b Hl Ha Hb E.
  - by destruct b.
  - destruct b as [|d b _] using rev_ind; [rewrite length_app in Hl; cbn in Hl; lia|].
    rewrite !length_app in Hl. cbn in Hl. rewrite !number_of_snoc in E.
    apply Forall_app in Ha as [Ha [[Ec Hc] _]%Forall_cons], Hb as [Hb [[Ed Hd] _]%Forall_cons].
    assert (digit_of c = digit_of d) by lia. f_equal; [apply IH; [lia|done|done|lia]|congruence].
Qed.

Lemma print_lower n : 0 ≤ n → Forall lower_digit (fmt_x n).
Proof.
  unfold fmt_x, print_base. generalize (Z.to_nat (Z.log2 n)) as fuel. intros fuel.
  assert (∀ n acc, 0 ≤ n → Forall lower_digit acc → Forall lower_digit (digits fuel false 16 n acc)) as H.
  { induction fuel as [|fuel IH]; intros m acc Hm Hacc; cbn [digits];
      pose proof (Z.mod_pos_bound m 16 eq_refl) as Hd; apply lower_digit_char in Hd.
    - by constructor.
    - destruct (m <? 16); [by constructor|]. apply IH; [apply Z.div_pos; lia|by constructor]. }
  intros Hn. apply H; [done|constructor].
Qed.

Lemma number_of_byte_texts s acc :
  fold_left (add_digit 16) (concat (map byte_text s)) acc = fold_left (λ a b, a * 256 + byte_val b) s acc.
Proof.
  revert acc; induction s as [|b s IH]; intros acc; [done|]. cbn [map concat].
  by rewrite fold_left_app, byte_text_value, IH.
Qed.

Lemma fold_rev_le_int s : fold_left (λ a b, a * 256 + byte_val b) (rev s) 0 = le_int s.
Proof.
  induction s as [|b s IH]; [done|]. cbn [rev le_int]. rewrite fold_left_app, IH. cbn. lia.
Qed.

Lemma byte_texts_length s : length (concat (map byte_text s)) = (2 * length s)%nat.
Proof. induction s as [|b s IH]; [done|]. cbn. rewrite IH. lia. Qed.

(** [%0<2k>x] prints the bytes of the number, the most significant first. *)
Lemma fmt_0x_bytes k n :
  0 ≤ n < 256 ^ Z.of_nat (S k) → fmt_0x (2 * S k) n = concat (map byte_text (rev (le_bytes (S k) n))).
Proof.
  intros Hn. apply lower_digits_inj.
  - rewrite byte_texts_length, length_rev, le_bytes_length. replace (2 * S k)%nat with (S (2 * k + 1)) by lia.
    apply fmt_0x_length.
    replace (Z.of_nat (S (2 * k + 1))) with (2 * Z.of_nat (S k)) by lia. by rewrite Z.pow_mul_r by lia.
  - apply Forall_app. split; [|apply print_lower; lia]. apply Forall_replicate. apply (lower_digit_char 0). lia.
  - apply Forall_forall. intros c. rewrite list_elem_of_In, in_concat.
    intros (t & (b & <- & _)%in_map_iff & Hc%list_elem_of_In).
    pose proof (Z.mod_pos_bound (byte_val b) 16 eq_refl). pose proof (byte_val_range b).
    assert (0 ≤ byte_val b / 16 < 16) by (split; [apply Z.div_pos|apply Z.div_lt_upper_bound]; lia).
    unfold byte_text in Hc. apply elem_of_cons in Hc as [->|Hc]; [by apply lower_digit_char|].
    apply elem_of_cons in Hc as [->|Hc]; [by apply lower_digit_char|by apply elem_of_nil in Hc].
  - rewrite fmt_0x_value by lia. symmetry. unfold number_of. fold (add_digit 16).
    change (λ acc c, acc * 16 + digit_of c) with (add_digit 16).
    rewrite number_of_byte_texts, fold_rev_le_int. by apply le_int_bytes.
Qed.

(** Swapping the bytes first prints them in memory order. *)
Lemma le_bytes_rev_int k n : 0 ≤ n < 256 ^ Z.of_nat k → le_bytes k (le_int (rev (le_bytes k n))) = rev (le_bytes k n).
Proof. intros Hn. apply le_bytes_int. by rewrite length_rev, le_bytes_length. Qed.

Lemma fmt_0x_swapped k n :
  0 ≤ n < 256 ^ Z.of_nat (S k) →
  fmt_0x (2 * S k) (le_int (rev (le_bytes (S k) n))) = concat (map byte_text (le_bytes (S k) n)).
Proof.
  intros Hn. rewrite fmt_0x_bytes.
  - by rewrite le_bytes_rev_int, rev_involutive.
  - pose proof (le_int_range (rev (le_bytes (S k) n))) as H. by rewrite length_rev, le_bytes_length in H.
Qed.

(** ** Order of strings *)

(** [operator<] of strings. *)
Fixpoint string_ltb (a b : bytes) : bool :=
  match a, b with
  | _, [] => false
  | [], _ => true
  | x :: a', y :: b' => (byte_val x <? byte_val y) || (byte_val x =? byte_val y) && string_ltb a' b'
  end.

Lemma string_ltb_irrefl a : string_ltb a a = false.
Proof. induction a as [|x a IH]; [done|]. cbn. rewrite Z.ltb_irrefl, Z.eqb_refl. done. Qed.

Lemma string_ltb_trans a : ∀ b c, string_ltb a b = true → string_ltb b c = true → string_ltb a c = true.
Proof.
  induction a as [|x a IH]; intros [|y b] [|z c]; cbn; try done.
  rewrite !orb_true_iff, !andb_true_iff, !Z.ltb_lt, !Z.eqb_eq. intros [?|[-> ?]] [?|[Hz ?]]; [left; lia..|right].
  split; [done|]. eauto.
Qed.

Lemma string_ltb_total a : ∀ b, a ≠ b → string_ltb a b = false → string_ltb b a = true.
Proof.
  induction a as [|x a IH]; intros [|y b]; cbn; try done. intros Hne.
  rewrite orb_false_iff, andb_false_iff, orb_true_iff, andb_true_iff, !Z.ltb_lt, !Z.ltb_ge, !Z.eqb_eq, !Z.eqb_neq.
  intros [? Hor]. destruct (decide (byte_val x = byte_val y)) as [E|]; [right|left; lia]. split; [done|].
  assert (x = y) as -> by (by rewrite <- (byte_of_val x), <- (byte_of_val y), E). apply IH; [congruence|]. naive_solver.
Qed.
