(* ===== verification/Boost.v ===== *)
(** * The interface of the Boost algorithms the program calls

    Boost is not part of the repository: the model takes its operations as the
    methods of [Boost], and a theorem that depends on what they compute assumes
    [BoostLaws], which states their documented behaviour.  [Boost_reference] is a
    concrete implementation satisfying the laws; only the examples and the
    instances of theorems at concrete inputs use it. *)

From S2P Require Import Prelude CLib.

(** [std::string] pieces joined with a separator. *)
Fixpoint join (sep : bytes) (ps : list bytes) : bytes :=
  match ps with
  | [] => []
  | [p] => p
  | p :: ps' => p ++ sep ++ join sep ps'
  end.

(** A field given to [escaped_list_separator] is a sequence of unquoted and
    quoted segments. *)
Inductive segment := Plain (s : bytes) | Quoted (s : bytes).

Definition quote : byte := Byte.x22.
Definition space : byte := Byte.x20.

Definition segment_text (g : segment) : bytes :=
  match g with Plain s | Quoted s => s end.

Definition segment_image (g : segment) : bytes :=
  match g with Plain s => s | Quoted s => quote :: s ++ [quote] end.

Definition segment_ok (g : segment) : Prop :=
  NUL ∉ segment_text g ∧ quote ∉ segment_text g
  ∧ match g with Plain s => space ∉ s | Quoted _ => True end.

Definition field_text (f : list segment) : bytes := concat (map segment_text f).
Definition field_image (f : list segment) : bytes := concat (map segment_image f).

Class Boost := {
  (** [boost::algorithm::to_lower_copy], and [to_lower] in place *)
  to_lower_copy : bytes → bytes;
  (** [boost::split(out, s, boost::is_any_of(set))] *)
  split_any_of : bytes → bytes → list bytes;
  (** [boost::algorithm::split_regex] with a pattern that matches itself only *)
  split_regex : bytes → bytes → list bytes;
  (** [boost::algorithm::hex] *)
  hex : bytes → bytes;
  (** [boost::algorithm::unhex]; [None] when it throws *)
  unhex : bytes → option bytes;
  (** [boost::algorithm::starts_with(s, prefix)] and [ends_with(s, suffix)] *)
  algorithm_starts_with : bytes → bytes → bool;
  ends_with : bytes → bytes → bool;
  (** [find_format_all_copy(s, token_finder(is_any_of(set)), formatter)] *)
  find_format_all_copy : bytes → (bytes → bytes) → bytes → bytes;
  (** [boost::replace_all(s, search, format)] *)
  replace_all : bytes → bytes → bytes → bytes;
  (** [boost::tokenizer<escaped_list_separator<char>>] with escape character NUL,
      separator space and the double quote as quote character; [None] when it throws *)
  escaped_list : bytes → option (list bytes);
  (** [boost::algorithm::trim] *)
  trim : bytes → bytes
}.

(** A text that neither begins nor ends with white space. *)
Definition trimmed (s : bytes) : bool :=
  match head s, last s with Some a, Some b => negb (isspace a) && negb (isspace b) | _, _ => true end.

Definition hex_digit_pair (b : byte) : bytes :=
  [digit_char true (byte_val b / 16); digit_char true (byte_val b mod 16)].

Class BoostLaws (B : Boost) : Prop := {
  to_lower_copy_spec s : to_lower_copy s = map tolower s;

  split_any_of_none set s : Forall (.∉ set) s → split_any_of set s = [s];
  split_any_of_some set a c s :
    Forall (.∉ set) a → c ∈ set →
    split_any_of set (a ++ c :: s) = a :: split_any_of set s;

  split_regex_none pat s : pat ≠ [] → find_sub pat s = None → split_regex pat s = [s];
  split_regex_some pat s n :
    pat ≠ [] → find_sub pat s = Some n →
    split_regex pat s = take n s :: split_regex pat (drop (n + length pat) s);

  hex_spec s : hex s = concat (map hex_digit_pair s);
  unhex_hex s : unhex (hex s) = Some s;

  algorithm_starts_with_spec s prefix : algorithm_starts_with s prefix = true ↔ ∃ rest, s = prefix ++ rest;
  ends_with_spec s suffix : ends_with s suffix = true ↔ ∃ front, s = front ++ suffix;

  find_format_all_nil set f : find_format_all_copy set f [] = [];
  find_format_all_hit set f c s :
    c ∈ set → find_format_all_copy set f (c :: s) = f [c] ++ find_format_all_copy set f s;
  find_format_all_miss set f c s :
    c ∉ set → find_format_all_copy set f (c :: s) = c :: find_format_all_copy set f s;

  replace_all_none s pat fmt : pat ≠ [] → find_sub pat s = None → replace_all s pat fmt = s;
  replace_all_some s pat fmt n :
    pat ≠ [] → find_sub pat s = Some n →
    replace_all s pat fmt = take n s ++ fmt ++ replace_all (drop (n + length pat) s) pat fmt;

  escaped_list_fields fs :
    Forall (Forall segment_ok) fs → join [space] (map field_image fs) ≠ [] →
    escaped_list (join [space] (map field_image fs)) = Some (map field_text fs);

  trim_spec before s after :
    Forall isspace before → Forall isspace after → trimmed s = true → trim (before ++ s ++ after) = s
}.

(** ** A reference implementation *)

Module Boost_reference.

Fixpoint split_any (set s : bytes) : list bytes :=
  match s with
  | [] => [[]]
  | c :: s' =>
    if decide (c ∈ set) then [] :: split_any set s'
    else match split_any set s' with
         | p :: ps => (c :: p) :: ps
         | [] => [[c]]
         end
  end.

Fixpoint split_lit (fuel : nat) (pat s : bytes) : list bytes :=
  match fuel, find_sub pat s with
  | S fuel', Some n => take n s :: split_lit fuel' pat (drop (n + length pat) s)
  | _, _ => [s]
  end.

Fixpoint format_all (set : bytes) (f : bytes → bytes) (s : bytes) : bytes :=
  match s with
  | [] => []
  | c :: s' => (if decide (c ∈ set) then f [c] else [c]) ++ format_all set f s'
  end.

Fixpoint replace_lit (fuel : nat) (s pat fmt : bytes) : bytes :=
  match fuel, find_sub pat s with
  | S fuel', Some n => take n s ++ fmt ++ replace_lit fuel' (drop (n + length pat) s) pat fmt
  | _, _ => s
  end.

(** The tokenizer's loop: [cur] is the field read so far. *)
Fixpoint fields (in_quote : bool) (cur s : bytes) : option (list bytes) :=
  match s with
  | [] => Some [cur]
  | c :: s' =>
    if decide (c = NUL) then
      match s' with
      | e :: s'' =>
        if decide (e = "n"%byte) then fields in_quote (cur ++ [Byte.x0a]) s''
        else if decide (e ∈ [quote; space; NUL]) then fields in_quote (cur ++ [e]) s''
        else None
      | [] => None
      end
    else if decide (c = quote) then fields (negb in_quote) cur s'
    else if negb in_quote && bool_decide (c = space) then
      cons cur <$> fields in_quote [] s'
    else fields in_quote (cur ++ [c]) s'
  end.

(** Two hexadecimal digits, most significant first. *)
Fixpoint unhex_digits (s : bytes) : option bytes :=
  match s with
  | [] => Some []
  | a :: b :: s' =>
    if isxdigit a && isxdigit b then cons (byte_of (digit_of a * 16 + digit_of b)) <$> unhex_digits s' else None
  | _ => None
  end.

Fixpoint drop_spaces (s : bytes) : bytes :=
  match s with c :: s' => if isspace c then drop_spaces s' else s | [] => [] end.

Definition boost_reference : Boost := {|
  to_lower_copy := map tolower;
  split_any_of := split_any;
  split_regex pat s := split_lit (length s) pat s;
  hex s := concat (map hex_digit_pair s);
  unhex := unhex_digits;
  algorithm_starts_with s prefix := bool_decide (take (length prefix) s = prefix);
  ends_with s suffix :=
    (length suffix <=? length s)%nat && bool_decide (drop (length s - length suffix) s = suffix);
  find_format_all_copy := format_all;
  replace_all s pat fmt := replace_lit (length s) s pat fmt;
  escaped_list s := match s with [] => Some [] | _ => fields false [] s end;
  trim s := rev (drop_spaces (rev (drop_spaces s)))
|}.

Lemma split_any_none set s : Forall (.∉ set) s → split_any set s = [s].
Proof.
  induction 1 as [|c s Hc Hs IH]; [done|]. simpl.
  rewrite decide_False by done. by rewrite IH.
Qed.

Lemma split_any_some set a c s :
  Forall (.∉ set) a → c ∈ set → split_any set (a ++ c :: s) = a :: split_any set s.
Proof.
  intros Ha Hc. induction Ha as [|x a Hx Ha IH]; simpl.
  - by rewrite decide_True.
  - rewrite decide_False by done. by rewrite IH.
Qed.

Lemma drop_shorter pat s n :
  pat ≠ [] → find_sub pat s = Some n → (length (drop (n + length pat) s) < length s)%nat.
Proof.
  intros Hp Hf. pose proof (find_sub_split _ _ _ Hf) as Hs.
  rewrite length_drop. destruct pat; [done|]. simpl in *.
  apply (f_equal length) in Hs. rewrite length_app in Hs. simpl in Hs. lia.
Qed.

Lemma split_lit_fuel pat f1 f2 s :
  pat ≠ [] → (length s ≤ f1)%nat → (length s ≤ f2)%nat →
  split_lit f1 pat s = split_lit f2 pat s.
Proof.
  intros Hp. revert f2 s. induction f1 as [|f1 IH]; intros f2 s H1 H2; simpl.
  - destruct s; simpl in *; [|lia]. destruct f2; [done|]. simpl.
    unfold starts_with. destruct pat; done.
  - destruct (find_sub pat s) as [n|] eqn:E; destruct f2 as [|f2]; simpl; rewrite ?E; try done.
    + pose proof (drop_shorter _ _ _ Hp E). lia.
    + pose proof (drop_shorter _ _ _ Hp E). f_equal. apply IH; lia.
Qed.

Lemma replace_lit_fuel pat fmt f1 f2 s :
  pat ≠ [] → (length s ≤ f1)%nat → (length s ≤ f2)%nat →
  replace_lit f1 s pat fmt = replace_lit f2 s pat fmt.
Proof.
  intros Hp. revert f2 s. induction f1 as [|f1 IH]; intros f2 s H1 H2; simpl.
  - destruct s; simpl in *; [|lia]. destruct f2; [done|]. simpl.
    unfold starts_with. destruct pat; done.
  - destruct (find_sub pat s) as [n|] eqn:E; destruct f2 as [|f2]; simpl; rewrite ?E; try done.
    + pose proof (drop_shorter _ _ _ Hp E). lia.
    + pose proof (drop_shorter _ _ _ Hp E). do 2 f_equal. apply IH; lia.
Qed.

Lemma fields_char q cur c s :
  c ≠ NUL → c ≠ quote → (q = true ∨ c ≠ space) → fields q cur (c :: s) = fields q (cur ++ [c]) s.
Proof.
  intros Hn Hq Hs. simpl. rewrite !decide_False by done.
  destruct q; simpl; [done|]. rewrite bool_decide_eq_false_2 by naive_solver. done.
Qed.

Lemma fields_run q cur a s :
  NUL ∉ a → quote ∉ a → (q = true ∨ space ∉ a) → fields q cur (a ++ s) = fields q (cur ++ a) s.
Proof.
  revert cur. induction a as [|c a IH]; intros cur Hn Hq Hs; [by rewrite app_nil_r|].
  apply not_elem_of_cons in Hn as [? ?]. apply not_elem_of_cons in Hq as [? ?].
  cbn [app]. rewrite fields_char; [|done|done|destruct Hs; [by left|right; set_solver]].
  rewrite IH; [by rewrite <- app_assoc|done|done|destruct Hs; [by left|right; set_solver]].
Qed.

Lemma fields_segment cur g s :
  segment_ok g → fields false cur (segment_image g ++ s) = fields false (cur ++ segment_text g) s.
Proof.
  intros (Hn & Hq & Hs). destruct g as [a|a]; simpl in *.
  - apply fields_run; auto.
  - rewrite <- app_assoc. simpl. rewrite fields_run by auto. done.
Qed.

Lemma fields_field cur f s :
  Forall segment_ok f → fields false cur (field_image f ++ s) = fields false (cur ++ field_text f) s.
Proof.
  intros Hf. revert cur. induction Hf as [|g f Hg Hf IH]; intros cur; unfold field_text, field_image in *; simpl.
  - by rewrite app_nil_r.
  - rewrite <- app_assoc, fields_segment by done. rewrite IH. by rewrite <- app_assoc.
Qed.

Lemma fields_join fs f0 :
  Forall (Forall segment_ok) (f0 :: fs) →
  fields false [] (join [space] (map field_image (f0 :: fs))) = Some (map field_text (f0 :: fs)).
Proof.
  revert f0. induction fs as [|f fs IH]; intros f0 Hall; apply Forall_cons in Hall as [H0 Hall]; simpl.
  - rewrite <- (app_nil_r (field_image f0)). by rewrite fields_field.
  - rewrite fields_field by done. simpl. simpl in IH. by rewrite (IH f).
Qed.

Lemma unhex_digits_hex s : unhex_digits (concat (map hex_digit_pair s)) = Some s.
Proof.
  induction s as [|b s IH]; [done|]. cbn [map concat].
  change (hex_digit_pair b ++ ?l) with (digit_char true (byte_val b / 16) :: digit_char true (byte_val b mod 16) :: l).
  cbn [unhex_digits]. rewrite IH. clear IH. byte_cases b.
Qed.

Lemma drop_spaces_app before s :
  Forall isspace before → match head s with Some c => isspace c = false | None => True end → drop_spaces (before ++ s) = s.
Proof.
  intros Hb Hs. induction Hb as [|c b Hc Hb IH]; cbn; [destruct s as [|c s]; cbn in *; by rewrite ?Hs|].
  by rewrite (Is_true_true_1 _ Hc).
Qed.

Lemma trim_reference before s after :
  Forall isspace before → Forall isspace after → trimmed s = true →
  rev (drop_spaces (rev (drop_spaces (before ++ s ++ after)))) = s.
Proof.
  intros Hb Ha Hs. destruct s as [|c s].
  - rewrite <- (app_nil_r (before ++ [] ++ after)), (drop_spaces_app _ []); [done| |done]. by apply Forall_app.
  - unfold trimmed in Hs. destruct (last (c :: s)) as [d|] eqn:Hd; [|by destruct (last_None (c :: s)) as [H _]; specialize (H Hd)].
    cbn [head] in Hs. apply andb_true_iff in Hs as [Hc%negb_true_iff Hd'%negb_true_iff].
    rewrite drop_spaces_app by done. rewrite rev_app_distr, drop_spaces_app; [by rewrite rev_involutive| |].
    + apply List.Forall_rev, Ha.
    + rewrite rev_alt. change (rev_append (c :: s) []) with (reverse (c :: s)). by rewrite head_reverse, Hd.
Qed.

Lemma boost_reference_laws : BoostLaws boost_reference.
Proof.
  split; simpl.
  - done.
  - apply split_any_none.
  - apply split_any_some.
  - intros pat s _ E. destruct (length s); simpl; by rewrite ?E.
  - intros pat s n Hp E. pose proof (drop_shorter _ _ _ Hp E).
    destruct (length s) as [|l] eqn:El; [lia|]. simpl. rewrite E. f_equal. apply split_lit_fuel; auto; lia.
  - done.
  - apply unhex_digits_hex.
  - intros s prefix. rewrite bool_decide_eq_true. split; [intros <-; exists (drop (length prefix) s); by rewrite take_drop|].
    intros [rest ->]. apply take_app_length.
  - intros s suffix. rewrite andb_true_iff, Nat.leb_le, bool_decide_eq_true. split.
    + intros [_ <-]. exists (take (length s - length suffix) s). by rewrite take_drop.
    + intros [front ->]. rewrite length_app. split; [lia|].
      replace (length front + length suffix - length suffix)%nat with (length front) by lia. apply drop_app_length.
  - done.
  - intros. by rewrite decide_True.
  - intros. by rewrite decide_False.
  - intros s pat fmt _ E. destruct (length s); simpl; by rewrite ?E.
  - intros s pat fmt n Hp E. pose proof (drop_shorter _ _ _ Hp E).
    destruct (length s) as [|l] eqn:El; [lia|]. simpl. rewrite E. do 2 f_equal. apply replace_lit_fuel; auto; lia.
  - intros [|f0 fs] Hall Hne; [done|].
    pose proof (fields_join fs f0 Hall) as Hf.
    destruct (join [space] (map field_image (f0 :: fs))) eqn:E; [done|]. exact Hf.
  - apply trim_reference.
Qed.

End Boost_reference.
