(* ===== verification/GdbPacket.v ===== *)
(** * GDB remote protocol packets (src/gdb/gdb_packet.h, gdb_packet.cpp)

    [GDBPacket] with its checksum, its framed and escaped serial form, the
    parser of that form and the unescaping of received bytes. *)

From S2P Require Import Prelude CLib Boost.

Definition kPacketLeader : byte := "$"%byte.
Definition kPacketTrailer : byte := "#"%byte.
Definition kPacketEscapeChar : byte := "}"%byte.

(** [is_any_of] reads the array as a NUL-terminated literal. *)
Definition kEscapeCharacterSet : bytes := [kPacketEscapeChar; kPacketLeader; kPacketTrailer].

(** [b ^ 0x20] *)
Definition flip20 (b : byte) : byte := byte_of (Z.lxor (byte_val b) 32).

(** [Mod256Checksum]: an [int] accumulator masked at every step. *)
Definition Mod256Checksum (buffer : bytes) : Z :=
  fold_left (λ ret b, Z.land (ret + byte_val b) 255) buffer 0.

Record GDBPacket := MkPacket {
  data_ : bytes;
  checksum_ : Z;
  checksum_ok_ : bool
}.

(** [GDBPacket()] *)
Definition empty_packet : GDBPacket := MkPacket [] 0 false.

Definition CalculateChecksum (p : GDBPacket) : GDBPacket :=
  MkPacket (data_ p) (u8 (Mod256Checksum (data_ p))) (checksum_ok_ p).

(** [GDBPacket(data)] for a string, a vector or a pointer and length. *)
Definition packet_of (data : bytes) : GDBPacket :=
  CalculateChecksum (MkPacket data 0 false).

(** [assert(!data_.empty()); return data_[0];] *)
Definition Command (p : GDBPacket) : option byte := hd_error (data_ p).

Definition GetFirstDataChar (p : GDBPacket) : option byte :=
  if (length (data_ p) <? 2)%nat then None else data_ p !! 1%nat.

(** [None] is [data_.cend()]. *)
Definition FindFirst (p : GDBPacket) (item : byte) : option nat := find_byte item (data_ p).

(** [long GDBPacket::Parse(buffer, buffer_length)]: the bytes consumed, and the
    packet the call leaves in the object. *)
Definition Parse (self : GDBPacket) (buffer : bytes) : nat * GDBPacket :=
  match find_byte kPacketLeader buffer with
  | None => (O, self)
  | Some packet_start =>
    let body_start := S packet_start in
    let body := drop body_start buffer in
    match find_byte kPacketTrailer body with
    | None => (O, self)
    | Some body_size =>
      let terminator := (body_start + body_size)%nat in
      let max_size := (length body - (body_size + 1))%nat in
      if (max_size <? 2)%nat then (O, self)
      else
        let checksum_str := take 2 (drop (body_size + 1) body) in
        let '(checksum, checksum_end) := strtol 16 checksum_str in
        if (checksum_end =? 2)%nat then
          let p := CalculateChecksum (MkPacket (take body_size body) (checksum_ self) (checksum_ok_ self)) in
          ((terminator + 3)%nat, MkPacket (data_ p) (checksum_ p) (checksum =? checksum_ p))
        else ((terminator + 1)%nat, self)
    end
  end.

(** One pass of the loop of [UnescapeBuffer] starts at the suffix [start]; the
    result is what remains to be added to [ret] and appended to [out_buffer]. *)
Fixpoint unescape_from (fuel : nat) (start : bytes) : nat * bytes :=
  match find_byte kPacketEscapeChar start with
  | None => (length start, start)
  | Some n =>
    match drop (S n) start with
    | [] => (n, take n start)
    | e :: start' =>
      match fuel with
      | O => (n, take n start)
      | S fuel' =>
        let '(ret, out) := unescape_from fuel' start' in
        ((n + ret)%nat, take n start ++ flip20 e :: out)
      end
    end
  end.

(** [long UnescapeBuffer(buffer, out_buffer)]: the count returned, and
    [out_buffer] after the call. *)
Definition UnescapeBuffer (buffer out_buffer : bytes) : nat * bytes :=
  if decide (buffer = []) then (O, out_buffer)
  else
    let '(ret, out) := unescape_from (length buffer) buffer in
    (ret, out_buffer ++ out).

Section WithBoost.
Context `{!Boost}.

(** [GDBPacketEscaper::operator()] *)
Definition GDBPacketEscaper (matched : bytes) : bytes :=
  concat (map (λ c, [kPacketEscapeChar; flip20 c]) matched).

Definition EscapeBuffer (buffer : bytes) : bytes :=
  find_format_all_copy kEscapeCharacterSet GDBPacketEscaper buffer.

Definition Serialize (p : GDBPacket) : bytes :=
  [kPacketLeader] ++ EscapeBuffer (data_ p) ++ [kPacketTrailer]
  ++ snprintf 3 (fmt_0x 2 (checksum_ p)).
End WithBoost.

(** ** Reference definitions *)

(** Escape pairs removed, a trailing lone escape character dropped. *)
Fixpoint unescape (s : bytes) : bytes :=
  match s with
  | [] => []
  | c :: s' =>
    if decide (c = kPacketEscapeChar) then
      match s' with
      | [] => []
      | e :: s'' => flip20 e :: unescape s''
      end
    else c :: unescape s'
  end.

(** Bytes of [s] that belong to an escape pair or are a trailing escape. *)
Fixpoint escape_bytes (s : bytes) : nat :=
  match s with
  | [] => O
  | c :: s' =>
    if decide (c = kPacketEscapeChar) then
      match s' with
      | [] => 1%nat
      | _ :: s'' => (2 + escape_bytes s'')%nat
      end
    else escape_bytes s'
  end.

Definition byte_sum (s : bytes) : Z := foldr (λ b acc, byte_val b + acc) 0 s.

(** ** Lemmas *)

Lemma flip20_flip20 c : flip20 (flip20 c) = c.
Proof. byte_cases c. Qed.

Lemma unescape_cons c s : c ≠ kPacketEscapeChar → unescape (c :: s) = c :: unescape s.
Proof. intros. simpl. by rewrite decide_False. Qed.

Lemma unescape_pair e s : unescape (kPacketEscapeChar :: e :: s) = flip20 e :: unescape s.
Proof. done. Qed.

Lemma unescape_app_plain a s : kPacketEscapeChar ∉ a → unescape (a ++ s) = a ++ unescape s.
Proof.
  induction a as [|c a IH]; [done|]. intros [? ?]%not_elem_of_cons.
  cbn [app]. rewrite unescape_cons by done. by rewrite IH.
Qed.

Lemma escape_bytes_app_plain a s :
  kPacketEscapeChar ∉ a → escape_bytes (a ++ s) = escape_bytes s.
Proof.
  induction a as [|c a IH]; [done|]. intros [? ?]%not_elem_of_cons.
  simpl. rewrite decide_False by done. by apply IH.
Qed.

Lemma escape_bytes_le s : (escape_bytes s ≤ length s)%nat.
Proof.
  induction s as [s IH] using (induction_ltof1 _ length).
  destruct s as [|c [|e s]]; simpl; [lia|case_decide; lia|].
  destruct (decide (c = kPacketEscapeChar)).
  - specialize (IH s). unfold ltof in IH. simpl in IH. lia.
  - specialize (IH (e :: s)). unfold ltof in IH. simpl in *. lia.
Qed.

Lemma unescape_from_spec fuel s :
  (length s ≤ fuel)%nat →
  unescape_from fuel s = ((length s - escape_bytes s)%nat, unescape s).
Proof.
  revert s. induction fuel as [|fuel IH]; intros s Hl.
  { destruct s; [done|simpl in Hl; lia]. }
  cbn [unescape_from]. destruct (find_byte kPacketEscapeChar s) as [n|] eqn:E.
  - destruct (find_byte_Some _ _ _ E) as (Hs & Hn & Hlt).
    assert (length (take n s) = n) as Htl by (rewrite length_take; lia).
    remember (take n s) as a eqn:Ha. remember (drop (S n) s) as r eqn:Hr. clear Ha Hr E. subst s.
    rewrite unescape_app_plain, escape_bytes_app_plain by done.
    destruct r as [|e r].
    + simpl. rewrite length_app, app_nil_r. simpl. f_equal. lia.
    + rewrite length_app in *. simpl in Hl. rewrite IH by lia.
      rewrite unescape_pair. simpl. pose proof (escape_bytes_le r). f_equal. lia.
  - apply find_byte_None in E.
    pose proof (unescape_app_plain s [] E) as Hu. pose proof (escape_bytes_app_plain s [] E) as He.
    rewrite app_nil_r in Hu, He. simpl in *. rewrite Hu, He, app_nil_r. f_equal. lia.
Qed.

Lemma Mod256Checksum_acc s a :
  0 ≤ a < 256 → fold_left (λ ret b, Z.land (ret + byte_val b) 255) s a = (a + byte_sum s) mod 256.
Proof.
  assert (∀ z, Z.land z 255 = z mod 256) as Hland by (intros; apply (Z.land_ones z 8); lia).
  revert a. induction s as [|b s IH]; intros a Ha; cbn [fold_left byte_sum foldr].
  - rewrite Z.mod_small; lia.
  - rewrite Hland, IH by (apply Z.mod_pos_bound; lia).
    rewrite Zplus_mod_idemp_l. unfold byte_sum. f_equal. lia.
Qed.

Lemma Mod256Checksum_sum s : Mod256Checksum s = byte_sum s mod 256.
Proof. unfold Mod256Checksum. by rewrite Mod256Checksum_acc. Qed.

Lemma Mod256Checksum_range s : is_u8 (Mod256Checksum s).
Proof. rewrite Mod256Checksum_sum. apply Z.mod_pos_bound. lia. Qed.

Lemma checksum_packet_of s : checksum_ (packet_of s) = byte_sum s mod 256.
Proof.
  unfold packet_of, CalculateChecksum. simpl. rewrite Mod256Checksum_sum. unfold u8.
  by rewrite Z.mod_mod.
Qed.

(** The two characters a checksum is sent as are two hexadecimal digits that
    [strtol] converts back. *)
Lemma checksum_digits c :
  is_u8 c → length (snprintf 3 (fmt_0x 2 c)) = 2%nat ∧ strtol 16 (snprintf 3 (fmt_0x 2 c)) = (c, 2%nat)
            ∧ Forall (is_digit_of 16) (snprintf 3 (fmt_0x 2 c)).
Proof.
  intros Hc. assert (length (fmt_0x 2 c) = 2%nat) as Hl.
  { apply fmt_0x_length. unfold is_u8 in Hc. change (16 ^ Z.of_nat 2) with 256. lia. }
  assert (snprintf 3 (fmt_0x 2 c) = fmt_0x 2 c) as -> by (unfold snprintf; by rewrite take_ge by (simpl in *; lia)).
  pose proof (fmt_0x_digits 2 c ltac:(unfold is_u8 in Hc; lia)) as Hd.
  split_and!; [done| |done]. unfold strtol. rewrite <- (app_nil_r (fmt_0x 2 c)).
  rewrite scan_int_digits; [|lia|done|intros E; by rewrite E in Hl|done].
  cbn [sc_neg sc_mag sc_end]. rewrite fmt_0x_value by (unfold is_u8 in Hc; lia). rewrite Hl.
  unfold LONG_MIN, LONG_MAX, is_u8 in *. f_equal. lia.
Qed.

Lemma Parse_frame self noise body cs v rest :
  kPacketLeader ∉ noise → kPacketTrailer ∉ body → length cs = 2%nat → strtol 16 cs = (v, 2%nat) →
  Parse self (noise ++ kPacketLeader :: body ++ kPacketTrailer :: cs ++ rest)
  = ((length noise + length body + 4)%nat,
     MkPacket body (byte_sum body mod 256) (v =? byte_sum body mod 256)).
Proof.
  intros Hn Hb Hcs Hv. unfold Parse. rewrite find_byte_first by done.
  assert (∀ l, drop (S (length noise)) (noise ++ kPacketLeader :: l) = l) as Hd.
  { intros l. rewrite (cons_middle kPacketLeader noise l), app_assoc.
    apply drop_app_length'. rewrite length_app. simpl. lia. }
  rewrite Hd, find_byte_first by done.
  destruct (Nat.ltb_spec (length (body ++ kPacketTrailer :: cs ++ rest) - (length body + 1)) 2) as [Hlt|_].
  { rewrite length_app in Hlt. simpl in Hlt. rewrite length_app in Hlt. lia. }
  assert (drop (length body + 1) (body ++ kPacketTrailer :: cs ++ rest) = cs ++ rest) as ->.
  { rewrite Nat.add_comm. rewrite (cons_middle kPacketTrailer), app_assoc. apply drop_app_length'.
    rewrite length_app. simpl. lia. }
  rewrite (take_app_length' cs rest 2) by done. rewrite Hv. cbn [Nat.eqb].
  rewrite take_app_length' by done.
  pose proof (checksum_packet_of body) as Hc. unfold packet_of, CalculateChecksum in *. cbn [data_ checksum_] in *.
  rewrite Hc. f_equal. lia.
Qed.

(** Two characters that are not both hexadecimal digits: the frame is consumed
    through its trailer and the object is left alone. *)
Lemma Parse_bad_checksum self noise body bad :
  kPacketLeader ∉ noise → kPacketTrailer ∉ body → (2 ≤ length bad)%nat →
  (strtol 16 (take 2 bad)).2 ≠ 2%nat →
  Parse self (noise ++ kPacketLeader :: body ++ kPacketTrailer :: bad)
  = ((length noise + length body + 2)%nat, self).
Proof.
  intros Hn Hb Hl Hbad. unfold Parse. rewrite find_byte_first by done.
  assert (∀ l, drop (S (length noise)) (noise ++ kPacketLeader :: l) = l) as ->.
  { intros l. rewrite (cons_middle kPacketLeader noise l), app_assoc.
    apply drop_app_length'. rewrite length_app. simpl. lia. }
  rewrite find_byte_first by done. rewrite length_app. cbn [length].
  destruct (Nat.ltb_spec (length body + S (length bad) - (length body + 1)) 2); [lia|].
  assert (drop (length body + 1) (body ++ kPacketTrailer :: bad) = bad) as ->.
  { rewrite (cons_middle kPacketTrailer), app_assoc. apply drop_app_length'. rewrite length_app. simpl. lia. }
  destruct (strtol 16 (take 2 bad)) as [v e]. cbn [snd] in Hbad.
  destruct (Nat.eqb_spec e 2); [done|]. f_equal. lia.
Qed.

Lemma Parse_bound self buffer : ((Parse self buffer).1 ≤ length buffer)%nat.
Proof.
  unfold Parse. destruct (find_byte kPacketLeader buffer) as [p|] eqn:Ep; [|simpl; lia].
  apply find_byte_Some in Ep as (_ & _ & Hp).
  destruct (find_byte kPacketTrailer (drop (S p) buffer)) as [n|] eqn:En; [|simpl; lia].
  apply find_byte_Some in En as (_ & _ & Hn). rewrite length_drop in *.
  destruct (Nat.ltb_spec (length buffer - S p - (n + 1)) 2); [simpl; lia|].
  destruct (strtol 16 _) as [v e]. destruct (e =? 2)%nat; simpl; lia.
Qed.

(** [Parse] answers the same once a complete packet is in the buffer. *)
Lemma Parse_extend self buffer more :
  (Parse self buffer).1 ≠ O → Parse self (buffer ++ more) = Parse self buffer.
Proof.
  unfold Parse. destruct (find_byte kPacketLeader buffer) as [p|] eqn:Ep; [|done].
  rewrite (find_byte_extend _ _ more _ Ep). apply find_byte_Some in Ep as (_ & _ & Hp).
  rewrite drop_app_le by lia.
  destruct (find_byte kPacketTrailer (drop (S p) buffer)) as [n|] eqn:En; [|done].
  rewrite (find_byte_extend _ _ more _ En). apply find_byte_Some in En as (_ & _ & Hn).
  rewrite length_app.
  destruct (Nat.ltb_spec (length (drop (S p) buffer) - (n + 1)) 2); [done|].
  destruct (Nat.ltb_spec (length (drop (S p) buffer) + length more - (n + 1)) 2); [lia|].
  rewrite drop_app_le by lia. rewrite !take_app_le by (rewrite ?length_drop in *; lia). done.
Qed.

Section EscapeLemmas.
Context `{!Boost} `{!BoostLaws _}.

Lemma EscapeBuffer_nil : EscapeBuffer [] = [].
Proof. apply find_format_all_nil. Qed.

Lemma EscapeBuffer_cons c s :
  EscapeBuffer (c :: s)
  = (if decide (c ∈ kEscapeCharacterSet) then [kPacketEscapeChar; flip20 c] else [c]) ++ EscapeBuffer s.
Proof.
  unfold EscapeBuffer. case_decide.
  - by rewrite find_format_all_hit.
  - by rewrite find_format_all_miss.
Qed.

Lemma unescape_EscapeBuffer s rest : unescape (EscapeBuffer s ++ rest) = s ++ unescape rest.
Proof.
  induction s as [|c s IH]; [by rewrite EscapeBuffer_nil|].
  rewrite EscapeBuffer_cons, <- app_assoc. case_decide as Hc.
  - cbn [app]. rewrite unescape_pair, flip20_flip20, IH. done.
  - cbn [app]. rewrite unescape_cons, IH by (intros ->; apply Hc; by left). done.
Qed.

Lemma EscapeBuffer_no_frame s : kPacketLeader ∉ EscapeBuffer s ∧ kPacketTrailer ∉ EscapeBuffer s.
Proof.
  induction s as [|c s [IH1 IH2]]; [rewrite EscapeBuffer_nil; split; apply not_elem_of_nil|].
  rewrite EscapeBuffer_cons. case_decide as Hc.
  - repeat (apply elem_of_cons in Hc as [->|Hc]); [..|by apply not_elem_of_nil in Hc];
      split; cbn [app]; rewrite !not_elem_of_cons; split_and!; done.
  - unfold kEscapeCharacterSet in Hc. split; cbn [app]; rewrite not_elem_of_cons;
      (split; [intros <-; apply Hc; set_solver|done]).
Qed.
End EscapeLemmas.

Lemma UnescapeBuffer_spec buffer out :
  UnescapeBuffer buffer out = ((length buffer - escape_bytes buffer)%nat, out ++ unescape buffer).
Proof.
  unfold UnescapeBuffer. destruct (decide (buffer = [])) as [->|]; [by rewrite app_nil_r|].
  by rewrite unescape_from_spec.
Qed.

Lemma digits_not c s :
  Forall (is_digit_of 16) s → is_digit_of 16 c = false → c ∉ s.
Proof.
  intros Hs Hc Hin. rewrite Forall_forall in Hs. specialize (Hs c Hin).
  apply Is_true_true in Hs. congruence.
Qed.

Section Receive.
Context `{!Boost} `{!BoostLaws _}.

(** What the receiver sees of a serialized packet once escapes are removed. *)
Lemma unescape_Serialize noise s rest :
  kPacketEscapeChar ∉ noise →
  ∃ cs, length cs = 2%nat ∧ strtol 16 cs = (byte_sum s mod 256, 2%nat)
    ∧ Forall (is_digit_of 16) cs
    ∧ unescape (noise ++ Serialize (packet_of s) ++ rest)
      = noise ++ kPacketLeader :: s ++ kPacketTrailer :: cs ++ unescape rest.
Proof.
  intros Hn. assert (is_u8 (byte_sum s mod 256)) as Hr by (apply Z.mod_pos_bound; lia).
  destruct (checksum_digits _ Hr) as (Hl & Hv & Hd). eexists. split_and!; [exact Hl|exact Hv|exact Hd|].
  rewrite unescape_app_plain by done. f_equal. unfold Serialize.
  rewrite checksum_packet_of. change (data_ (packet_of s)) with s. rewrite <- !app_assoc.
  cbn [app]. rewrite unescape_cons by done. f_equal. rewrite unescape_EscapeBuffer. f_equal.
  rewrite unescape_cons by done. f_equal. apply unescape_app_plain. by apply digits_not.
Qed.

(** C3.  A packet the bridge (or GDB) serializes is received intact: removing
    the escapes from a stream that holds [Serialize] of a payload free of the
    trailer character, after bytes with no leader or escape, and parsing it
    yields the payload, its checksum (the byte sum modulo 256) and a positive
    checksum verdict, and consumes exactly the noise, the payload and the four
    framing bytes, whatever follows. *)
Theorem packet_receive_roundtrip self noise s rest :
  kPacketLeader ∉ noise → kPacketEscapeChar ∉ noise → kPacketTrailer ∉ s →
  Parse self (UnescapeBuffer (noise ++ Serialize (packet_of s) ++ rest) []).2
  = ((length noise + length s + 4)%nat, MkPacket s (byte_sum s mod 256) true).
Proof.
  intros Hl He Hs. rewrite UnescapeBuffer_spec. cbn [snd app].
  destruct (unescape_Serialize noise s rest He) as (cs & Hcs & Hv & _ & ->).
  rewrite (Parse_frame _ _ _ cs (byte_sum s mod 256)) by done. by rewrite Z.eqb_refl.
Qed.

(**  A payload that does contain the trailer character is never received:
    the escapes are removed from the stream before the packet is framed, so
    the first trailer byte of the payload ends the packet.  The object holds
    the part before it, or what it held before when no hexadecimal digits
    follow. *)
Theorem packet_receive_truncates self noise a b rest :
  kPacketLeader ∉ noise → kPacketEscapeChar ∉ noise → kPacketTrailer ∉ a →
  let received :=
    Parse self (UnescapeBuffer (noise ++ Serialize (packet_of (a ++ kPacketTrailer :: b)) ++ rest) []).2 in
  data_ received.2 = a ∨ received.2 = self.
Proof.
  intros Hl He Ha. rewrite UnescapeBuffer_spec. cbn [snd app].
  destruct (unescape_Serialize noise (a ++ kPacketTrailer :: b) rest He) as (cs & Hcs & Hv & _ & ->).
  rewrite <- app_assoc. cbn [app].
  set (tl := b ++ kPacketTrailer :: cs ++ unescape rest).
  assert (2 ≤ length tl)%nat as Htl by (unfold tl; rewrite length_app; simpl; rewrite length_app; lia).
  destruct (strtol 16 (take 2 tl)) as [v e] eqn:Ev. destruct (decide (e = 2%nat)) as [->|Hne].
  - left. rewrite <- (take_drop 2 tl).
    rewrite (Parse_frame _ _ _ (take 2 tl) v); [done|done|done|rewrite length_take; lia|done].
  - right. rewrite Parse_bad_checksum; [done..|by rewrite Ev].
Qed.

(**  Escaping is undone by unescaping, and its result carries neither the
    leader nor the trailer, so a serialized packet is framed by exactly one of
    each. *)
Theorem packet_escape_roundtrip s :
  (UnescapeBuffer (EscapeBuffer s) []).2 = s
  ∧ kPacketLeader ∉ EscapeBuffer s ∧ kPacketTrailer ∉ EscapeBuffer s.
Proof.
  split; [|apply EscapeBuffer_no_frame]. rewrite UnescapeBuffer_spec. cbn [snd app].
  rewrite <- (app_nil_r (EscapeBuffer s)), unescape_EscapeBuffer. apply app_nil_r.
Qed.
End Receive.

(**  The loop of [UnescapeBuffer] appends the reference unescaping of the
    whole buffer, but the number it returns counts neither byte of an escape
    pair: a caller that drops that many bytes keeps one stale byte at the end of
    the buffer for every byte of an escape. *)
Theorem UnescapeBuffer_count buffer out :
  (UnescapeBuffer buffer out).2 = out ++ unescape buffer
  ∧ ((UnescapeBuffer buffer out).1 + escape_bytes buffer = length buffer)%nat.
Proof.
  rewrite UnescapeBuffer_spec. cbn [fst snd]. split; [done|].
  pose proof (escape_bytes_le buffer). lia.
Qed.

(**  Reading a stream in pieces is reading it at once: [Parse] consumes at
    most the buffer, and once it has consumed a packet more input changes neither
    the packet nor the count. *)
Theorem Parse_incremental self buffer more :
  ((Parse self buffer).1 ≤ length buffer)%nat
  ∧ ((Parse self buffer).1 ≠ O → Parse self (buffer ++ more) = Parse self buffer).
Proof. split; [apply Parse_bound|apply Parse_extend]. Qed.

(** ** Instances at concrete inputs *)

Import Boost_reference.

Lemma packet_receive_roundtrip_witness :
  @Parse empty_packet (UnescapeBuffer ("++"%bs ++ @Serialize boost_reference (packet_of "m40}$,4"%bs) ++ "$g"%bs) []).2
  = (13%nat, MkPacket "m40}$,4"%bs 210 true).
Proof.
  apply (@packet_receive_roundtrip boost_reference boost_reference_laws empty_packet "++"%bs "m40}$,4"%bs "$g"%bs);
    apply (bool_decide_unpack _); vm_compute; exact I.
Defined.

Lemma packet_receive_truncates_witness :
  let received := Parse empty_packet
    (UnescapeBuffer ([] ++ @Serialize boost_reference (packet_of ("X0,1:"%bs ++ kPacketTrailer :: "41"%bs)) ++ []) []).2 in
  data_ received.2 = "X0,1:"%bs ∨ received.2 = empty_packet.
Proof.
  apply (@packet_receive_truncates boost_reference boost_reference_laws empty_packet [] "X0,1:"%bs "41"%bs []);
    apply (bool_decide_unpack _); vm_compute; exact I.
Defined.

Lemma packet_escape_roundtrip_witness :
  (UnescapeBuffer (@EscapeBuffer boost_reference "a#b}"%bs) []).2 = "a#b}"%bs
  ∧ kPacketLeader ∉ @EscapeBuffer boost_reference "a#b}"%bs ∧ kPacketTrailer ∉ @EscapeBuffer boost_reference "a#b}"%bs.
Proof. apply (@packet_escape_roundtrip boost_reference boost_reference_laws). Defined.

Lemma Parse_incremental_witness :
  ((Parse empty_packet "$g#67"%bs).1 ≤ 5)%nat
  ∧ ((Parse empty_packet "$g#67"%bs).1 ≠ O → Parse empty_packet ("$g#67"%bs ++ "+"%bs) = Parse empty_packet "$g#67"%bs).
Proof. apply (Parse_incremental empty_packet "$g#67"%bs "+"%bs). Defined.

Example Serialize_ok : @Serialize boost_reference (packet_of "OK"%bs) = "$OK#9a"%bs.
Proof. reflexivity. Qed.
