(* ===== verification/TcpConnection.v ===== *)
(** * Buffered TCP connections (src/net/tcp_connection.cpp, tcp_socket_base.cpp)

    The state of a connection that its own operations change: the two buffers,
    whether the socket and the signalling pipe are open, and the two shutdown
    flags.  The kernel's answers to [recv] and [send] are arguments. *)

From S2P Require Import Prelude CLib.

Record TCPConnection := MkConn {
  socket_open : bool;          (* socket_ >= 0 *)
  pipe_open : bool;            (* pipe_fds_ >= 0 *)
  is_shutdown_ : bool;
  close_after_flush_ : bool;
  read_buffer_ : bytes;
  write_buffer_ : bytes
}.

(** A connection around an accepted or connected socket. *)
Definition new_connection (sock_open : bool) : TCPConnection :=
  MkConn sock_open true false false [] [].

Definition with_read (c : TCPConnection) (b : bytes) : TCPConnection :=
  MkConn (socket_open c) (pipe_open c) (is_shutdown_ c) (close_after_flush_ c) b (write_buffer_ c).
Definition with_write (c : TCPConnection) (b : bytes) : TCPConnection :=
  MkConn (socket_open c) (pipe_open c) (is_shutdown_ c) (close_after_flush_ c) (read_buffer_ c) b.
Definition with_flush (c : TCPConnection) (f : bool) : TCPConnection :=
  MkConn (socket_open c) (pipe_open c) (is_shutdown_ c) f (read_buffer_ c) (write_buffer_ c).

(** [TCPSocketBase::Close], including [SignalingBase::Close]. *)
Definition Close (c : TCPConnection) : TCPConnection :=
  MkConn false false true (close_after_flush_ c) (read_buffer_ c) (write_buffer_ c).

Definition IsConnected (c : TCPConnection) : bool := socket_open c.

(** The comparison with [size()] is unsigned: a negative shift exceeds it. *)
Definition ShiftReadBuffer (shift_bytes : Z) (c : TCPConnection) : TCPConnection :=
  if shift_bytes =? 0 then c
  else if Z.of_nat (length (read_buffer_ c)) <? u64 shift_bytes then c
  else with_read c (drop (Z.to_nat (u64 shift_bytes)) (read_buffer_ c)).

Definition BytesAvailable (c : TCPConnection) : nat := length (read_buffer_ c).
Definition DropReceiveBuffer (c : TCPConnection) : TCPConnection := with_read c [].
Definition DropSendBuffer (c : TCPConnection) : TCPConnection := with_write c [].

Definition Send (buffer : bytes) (c : TCPConnection) : TCPConnection :=
  with_write c (write_buffer_ c ++ buffer).

Definition HasBufferedData (c : TCPConnection) : bool :=
  negb (bool_decide (read_buffer_ c = [])) || negb (bool_decide (write_buffer_ c = [])).

(** The iterator as an index, [length] for [end()]. *)
Definition FirstIndexOf (element : byte) (c : TCPConnection) : nat :=
  default (length (read_buffer_ c)) (find_byte element (read_buffer_ c)).
Definition FirstIndexOf_pattern (pattern : bytes) (c : TCPConnection) : nat :=
  default (length (read_buffer_ c)) (find_sub pattern (read_buffer_ c)).

Definition FlushAndClose (c : TCPConnection) : TCPConnection :=
  if decide (write_buffer_ c = []) then Close c else with_flush c true.

(** What [recv] (with its 1024-byte buffer) and [send] answer. *)
Inductive recv_result := RecvData (b : bytes) | RecvEOF | RecvError.
Inductive send_result := Sent (n : nat) | SendError.

Definition DoReceive (r : recv_result) (c : TCPConnection) : bool * TCPConnection :=
  match r with
  | RecvEOF | RecvError => (false, Close c)
  | RecvData b => (true, with_read c (read_buffer_ c ++ b))
  end.

Definition DoSend (r : send_result) (c : TCPConnection) : TCPConnection :=
  match r with
  | SendError => Close c
  | Sent n => with_write c (drop n (write_buffer_ c))
  end.

(** [Select]: which of the read/except and write sets the socket is put in. *)
Definition Select (c : TCPConnection) : bool * bool :=
  (socket_open c, socket_open c && negb (bool_decide (write_buffer_ c = []))).

(** Readiness of the socket as reported by [select], with the answer of the
    system call made for it. *)
Record ready := Ready {
  except_set : bool;
  write_set : option send_result;
  read_set : option recv_result
}.

Section Process.
(** [OnBytesRead] is virtual. *)
Variable OnBytesRead : TCPConnection → TCPConnection.

(** The read stage of [Process]. *)
Definition process_read (r : ready) (c : TCPConnection) : TCPConnection :=
  match read_set r with
  | None => c
  | Some rr => let '(ok, c') := DoReceive rr c in if ok then OnBytesRead c' else c'
  end.

Definition Process (r : ready) (c : TCPConnection) : bool * TCPConnection :=
  if negb (pipe_open c) then (negb (is_shutdown_ c), c)
  else if negb (socket_open c) then (negb (is_shutdown_ c), c)
  else if except_set r then (false, Close c)
  else
    match write_set r with
    | None => (true, process_read r c)
    | Some sr =>
      let c1 := DoSend sr c in
      if close_after_flush_ c1 && bool_decide (write_buffer_ c1 = []) then
        (false, with_flush (Close c1) false)
      else
        (* a failed send closed the socket: no descriptor is left to test *)
        (true, if socket_open c1 then process_read r c1 else c1)
    end.
End Process.

(** ** Lemmas *)

Create HintDb conn.
Create Rewrite HintDb conn.

Lemma with_read_read c b : read_buffer_ (with_read c b) = b.
Proof. done. Qed.
Lemma with_read_write c b : write_buffer_ (with_read c b) = write_buffer_ c.
Proof. done. Qed.
Lemma Send_read b c : read_buffer_ (Send b c) = read_buffer_ c.
Proof. done. Qed.
Lemma Send_write b c : write_buffer_ (Send b c) = write_buffer_ c ++ b.
Proof. done. Qed.

Lemma ShiftReadBuffer_write n c : write_buffer_ (ShiftReadBuffer n c) = write_buffer_ c.
Proof. unfold ShiftReadBuffer. by repeat case_match. Qed.

Lemma ShiftReadBuffer_read n c :
  (n ≤ length (read_buffer_ c))%nat → Z.of_nat (length (read_buffer_ c)) < 2 ^ 64 →
  read_buffer_ (ShiftReadBuffer (Z.of_nat n) c) = drop n (read_buffer_ c).
Proof.
  intros Hn Hl. unfold ShiftReadBuffer. rewrite u64_id by (unfold is_u64; lia).
  destruct (Z.eqb_spec (Z.of_nat n) 0) as [E|_].
  - assert (n = O) as -> by lia. done.
  - destruct (Z.ltb_spec (Z.of_nat (length (read_buffer_ c))) (Z.of_nat n)); [lia|].
    simpl. by rewrite Nat2Z.id.
Qed.

#[export] Hint Rewrite with_read_read with_read_write Send_read Send_write ShiftReadBuffer_write : conn.

(** A shift never adds data and a send never loses any. *)
Lemma ShiftReadBuffer_length n c :
  (length (read_buffer_ (ShiftReadBuffer n c)) ≤ length (read_buffer_ c))%nat.
Proof. unfold ShiftReadBuffer. repeat case_match; simpl; rewrite ?length_drop; lia. Qed.

Lemma with_read_same c : with_read c (read_buffer_ c) = c.
Proof. by destruct c. Qed.

Lemma ShiftReadBuffer_eq n c :
  (n ≤ length (read_buffer_ c))%nat → Z.of_nat (length (read_buffer_ c)) < 2 ^ 64 →
  ShiftReadBuffer (Z.of_nat n) c = with_read c (drop n (read_buffer_ c)).
Proof.
  intros Hn Hl. unfold ShiftReadBuffer. rewrite u64_id by (unfold is_u64; lia).
  destruct (Z.eqb_spec (Z.of_nat n) 0) as [E|_].
  - assert (n = O) as -> by lia. by rewrite drop_0, with_read_same.
  - destruct (Z.ltb_spec (Z.of_nat (length (read_buffer_ c))) (Z.of_nat n)); [lia|]. by rewrite Nat2Z.id.
Qed.
