(* ===== verification/GdbTransport.v ===== *)
(** * The GDB connection (src/gdb/gdb_transport.h, gdb_transport.cpp)

    Acknowledgements, unescaping and packet extraction on top of a
    [TCPConnection].  Packets given to [packet_received_handler_] are returned in
    the order of the calls. *)

From S2P Require Import Prelude CLib Boost GdbPacket TcpConnection.

Definition kAck : bytes := ["+"%byte].
Definition INTERRUPT : byte := Byte.x03.

Record GDBTransport := MkTransport {
  conn : TCPConnection;
  no_ack_mode_ : bool;
  unescaped_read_buffer_ : bytes;
  ack_buffer_ : list bytes
}.

Definition new_transport : GDBTransport := MkTransport (new_connection true) false [] [].

Definition with_conn (t : GDBTransport) (c : TCPConnection) : GDBTransport :=
  MkTransport c (no_ack_mode_ t) (unescaped_read_buffer_ t) (ack_buffer_ t).
Definition with_unescaped (t : GDBTransport) (b : bytes) : GDBTransport :=
  MkTransport (conn t) (no_ack_mode_ t) b (ack_buffer_ t).
Definition with_acks (t : GDBTransport) (a : list bytes) : GDBTransport :=
  MkTransport (conn t) (no_ack_mode_ t) (unescaped_read_buffer_ t) a.

Definition SetNoAckMode (value : bool) (t : GDBTransport) : GDBTransport :=
  MkTransport (conn t) value (unescaped_read_buffer_ t) (ack_buffer_ t).

(** [TCPConnection::Send] on the connection of a transport. *)
Definition send_bytes (b : bytes) (t : GDBTransport) : GDBTransport :=
  with_conn t (Send b (conn t)).

Definition SendPacket `{!Boost} (packet : GDBPacket) (t : GDBTransport) : GDBTransport :=
  let buffer := Serialize packet in
  send_bytes buffer (with_acks t (ack_buffer_ t ++ [buffer])).

(** The loop over the leading [+], [-] and interrupt bytes of the read buffer:
    how many there are and what they do. *)
Fixpoint read_controls (buffer : bytes) (t : GDBTransport) : nat * GDBTransport :=
  match buffer with
  | [] => (O, t)
  | c :: buffer' =>
    let continue_with t' := let '(n, t'') := read_controls buffer' t' in (S n, t'') in
    if decide (c = "+"%byte) then continue_with (with_acks t (tail (ack_buffer_ t)))
    else if decide (c = "-"%byte) then
      continue_with (match ack_buffer_ t with [] => t | front :: _ => send_bytes front t end)
    else if decide (c = INTERRUPT) then
      continue_with (with_unescaped t (unescaped_read_buffer_ t ++ [INTERRUPT]))
    else (O, t)
  end.

(** The extraction loop: the bytes [it] has passed, the packets in order, the
    number of acknowledgements due, and [packet], the one object every [Parse]
    writes to.  Each turn consumes a byte, so the length of the buffer is enough
    fuel. *)
Fixpoint extract (fuel : nat) (packet : GDBPacket) (buffer : bytes) : nat * list GDBPacket :=
  match fuel, buffer with
  | S fuel', c :: rest =>
    if decide (c = INTERRUPT) then
      let '(n, ps) := extract fuel' packet rest in (S n, packet_of [INTERRUPT] :: ps)
    else
      let '(bytes_consumed, packet') := Parse packet buffer in
      if (bytes_consumed =? 0)%nat then (O, [])
      else
        let '(n, ps) := extract fuel' packet' (drop bytes_consumed buffer) in
        ((bytes_consumed + n)%nat, packet' :: ps)
  | _, _ => (O, [])
  end.

Definition ProcessUnescapedReadBuffer (t : GDBTransport) : GDBTransport * list GDBPacket :=
  let buffer := unescaped_read_buffer_ t in
  let '(it, packets) := extract (length buffer) empty_packet buffer in
  let acks := if no_ack_mode_ t then [] else concat (map (λ _, kAck) packets) in
  (with_unescaped (send_bytes acks t) (drop it buffer), packets).

Definition OnBytesRead (t : GDBTransport) : GDBTransport * list GDBPacket :=
  let read_buffer_size := length (unescaped_read_buffer_ t) in
  let '(it, t1) := read_controls (read_buffer_ (conn t)) t in
  let t2 := with_conn t1 (ShiftReadBuffer (Z.of_nat it) (conn t1)) in
  let '(bytes_consumed, unescaped) := UnescapeBuffer (read_buffer_ (conn t2)) (unescaped_read_buffer_ t2) in
  let t3 := with_conn (with_unescaped t2 unescaped) (ShiftReadBuffer (Z.of_nat bytes_consumed) (conn t2)) in
  if (length (unescaped_read_buffer_ t3) =? read_buffer_size)%nat then (t3, [])
  else ProcessUnescapedReadBuffer t3.

(** Bytes arriving from the socket. *)
Definition receive (b : bytes) (t : GDBTransport) : GDBTransport * list GDBPacket :=
  OnBytesRead (with_conn t (with_read (conn t) (read_buffer_ (conn t) ++ b))).

(** Successive reads, as the select loop performs them. *)
Fixpoint receive_all (bs : list bytes) (t : GDBTransport) : GDBTransport * list GDBPacket :=
  match bs with
  | [] => (t, [])
  | b :: bs' =>
    let '(t1, ps) := receive b t in
    let '(t2, qs) := receive_all bs' t1 in (t2, ps ++ qs)
  end.

(** ** Lemmas *)

Lemma extract_step fuel packet buffer n p :
  hd_error buffer ≠ Some INTERRUPT → buffer ≠ [] →
  Parse packet buffer = (n, p) → n ≠ O →
  extract (S fuel) packet buffer
  = let '(m, ps) := extract fuel p (drop n buffer) in ((n + m)%nat, p :: ps).
Proof.
  intros Hi Hne HP Hn. destruct buffer as [|c rest]; [done|].
  cbn [extract]. rewrite decide_False by (intros ->; done). rewrite HP.
  destruct (Nat.eqb_spec n 0); [done|]. done.
Qed.

Lemma Parse_count_self p q buffer : (Parse p buffer).1 = (Parse q buffer).1.
Proof. unfold Parse. by repeat case_match; simplify_eq/=. Qed.

(** Where the loop stops: at the end of the buffer, or before a packet that is
    not complete. *)
Lemma extract_stops fuel packet buffer :
  (length buffer ≤ fuel)%nat →
  let n := (extract fuel packet buffer).1 in
  (n ≤ length buffer)%nat
  ∧ (drop n buffer = []
     ∨ hd_error (drop n buffer) ≠ Some INTERRUPT ∧ (Parse empty_packet (drop n buffer)).1 = O).
Proof.
  revert packet buffer. induction fuel as [|fuel IH]; intros packet buffer Hl.
  { destruct buffer; [|simpl in Hl; lia]. simpl. auto. }
  destruct buffer as [|c rest]; [simpl; auto|]. cbn [extract].
  destruct (decide (c = INTERRUPT)) as [->|Hc].
  - simpl in Hl. specialize (IH packet rest ltac:(lia)).
    destruct (extract fuel packet rest) as [n ps]. cbn [fst] in *. split; [simpl; lia|apply IH].
  - destruct (Parse packet (c :: rest)) as [n p] eqn:HP.
    pose proof (Parse_bound packet (c :: rest)) as Hb. rewrite HP in Hb. cbn [fst] in Hb.
    destruct (Nat.eqb_spec n 0) as [->|Hn].
    { split; [simpl; lia|]. right. cbn [fst drop hd_error].
      rewrite (Parse_count_self _ packet), HP. split; [congruence|done]. }
    specialize (IH p (drop n (c :: rest))). rewrite length_drop in IH. simpl in Hl.
    specialize (IH ltac:(simpl; lia)).
    destruct (extract fuel p (drop n (c :: rest))) as [m ps]. cbn [fst] in *. destruct IH as [IHn IH].
    split; [simpl in *; lia|]. by rewrite drop_drop in IH.
Qed.

Lemma extract_none fuel packet buffer :
  kPacketLeader ∉ buffer → INTERRUPT ∉ buffer → extract fuel packet buffer = (O, []).
Proof.
  intros Hl Hi. destruct fuel as [|fuel], buffer as [|c rest]; try done. cbn [extract].
  rewrite decide_False by (intros ->; apply Hi; by left).
  unfold Parse. by rewrite (proj2 (find_byte_None _ _) Hl).
Qed.

Lemma read_controls_acks k rest t :
  match rest with [] => True | c :: _ => c ≠ "+"%byte ∧ c ≠ "-"%byte ∧ c ≠ INTERRUPT end →
  read_controls (replicate k "+"%byte ++ rest) t = (k, with_acks t (drop k (ack_buffer_ t))).
Proof.
  intros Hr. revert t. induction k as [|k IH]; intros t.
  - cbn [replicate app]. rewrite drop_0. destruct rest as [|c rest]; [by destruct t|].
    destruct Hr as (? & ? & ?). simpl. rewrite !decide_False by done. by destruct t.
  - cbn [replicate app read_controls]. rewrite decide_True by done. rewrite IH.
    destruct t as [cn na un [|a acks]]; simpl; rewrite ?drop_nil; done.
Qed.

Lemma with_acks_conn t a : conn (with_acks t a) = conn t.
Proof. done. Qed.

(** The state after a read that finds [k] acknowledgements and then bytes that
    start with none of the control bytes. *)
Lemma OnBytesRead_after_acks k s t :
  read_buffer_ (conn t) = replicate k "+"%byte ++ s →
  match s with [] => True | c :: _ => c ≠ "+"%byte ∧ c ≠ "-"%byte ∧ c ≠ INTERRUPT end →
  Z.of_nat (length (read_buffer_ (conn t))) < 2 ^ 64 →
  ∃ t3, read_buffer_ (conn t3) = drop (length s - escape_bytes s) s
    ∧ write_buffer_ (conn t3) = write_buffer_ (conn t)
    ∧ no_ack_mode_ t3 = no_ack_mode_ t
    ∧ unescaped_read_buffer_ t3 = unescaped_read_buffer_ t ++ unescape s
    ∧ ack_buffer_ t3 = drop k (ack_buffer_ t)
    ∧ OnBytesRead t
      = if (length (unescape s) =? 0)%nat then (t3, []) else ProcessUnescapedReadBuffer t3.
Proof.
  intros Hrb Hs Hl. unfold OnBytesRead. rewrite Hrb, (read_controls_acks k s t Hs).
  set (t1 := with_acks t (drop k (ack_buffer_ t))).
  set (t2 := with_conn t1 (ShiftReadBuffer (Z.of_nat k) (conn t1))).
  assert (read_buffer_ (conn t2) = s) as Hrb2.
  { unfold t2, t1. cbn [conn with_conn with_acks]. rewrite ShiftReadBuffer_read by
      (rewrite ?Hrb, ?length_app, ?length_replicate in *; lia).
    rewrite Hrb. apply drop_app_length'. by rewrite length_replicate. }
  rewrite Hrb2, UnescapeBuffer_spec.
  set (n := (length s - escape_bytes s)%nat).
  set (t3 := with_conn (with_unescaped t2 (unescaped_read_buffer_ t2 ++ unescape s))
               (ShiftReadBuffer (Z.of_nat n) (conn t2))).
  exists t3. split_and!; [| |done..|].
  - unfold t3. cbn [conn with_conn with_unescaped]. rewrite ShiftReadBuffer_read; rewrite Hrb2.
    { done. } { unfold n; lia. }
    rewrite Hrb, length_app in Hl. lia.
  - unfold t3. cbn [conn with_conn with_unescaped]. rewrite ShiftReadBuffer_write. unfold t2. cbn. by rewrite ShiftReadBuffer_write.
  - fold t3. assert (length (unescaped_read_buffer_ t3)
      = (length (unescaped_read_buffer_ t) + length (unescape s))%nat) as ->
      by (subst t3; cbn; by rewrite length_app).
    destruct (Nat.eqb_spec (length (unescaped_read_buffer_ t) + length (unescape s)) (length (unescaped_read_buffer_ t)));
      destruct (Nat.eqb_spec (length (unescape s)) 0); (done || lia).
Qed.

(** A complete frame alone in the unescaped buffer. *)
Lemma extract_frame s cs v :
  kPacketTrailer ∉ s → length cs = 2%nat → strtol 16 cs = (v, 2%nat) →
  let frame := kPacketLeader :: s ++ kPacketTrailer :: cs in
  extract (length frame) empty_packet frame
  = (length frame, [MkPacket s (byte_sum s mod 256) (v =? byte_sum s mod 256)]).
Proof.
  intros Hs Hcs Hv frame.
  assert (Parse empty_packet frame
    = ((length s + 4)%nat, MkPacket s (byte_sum s mod 256) (v =? byte_sum s mod 256))) as HP.
  { pose proof (Parse_frame empty_packet [] s cs v [] (not_elem_of_nil _) Hs Hcs Hv) as HP.
    cbn [app length Nat.add] in HP. rewrite (app_nil_r cs) in HP. done. }
  assert (length frame = (length s + 4)%nat) as Hlen
    by (unfold frame; simpl; rewrite length_app; simpl; lia).
  rewrite Hlen, Nat.add_comm. cbn [Nat.add]. rewrite (extract_step _ empty_packet frame _ _) by (exact HP || done || lia).
  rewrite drop_ge by lia. cbn [extract]. f_equal. lia.
Qed.

Lemma unescape_id s : kPacketEscapeChar ∉ s → unescape s = s ∧ escape_bytes s = O.
Proof.
  intros H. pose proof (unescape_app_plain s [] H) as Hu. pose proof (escape_bytes_app_plain s [] H) as He.
  rewrite app_nil_r in Hu, He. simpl in *. rewrite app_nil_r in Hu. done.
Qed.

(**  A frame without escapes that arrives on an idle connection, after any
    number of acknowledgements, is delivered exactly once; it is acknowledged
    unless no-ack mode is on, retires as many sent packets as there were
    acknowledgements and leaves both buffers empty.  The checksum is not
    consulted: a frame whose checksum digits disagree with its payload is
    delivered and acknowledged all the same. *)
Theorem receive_frame k s cs v t :
  kPacketTrailer ∉ s → kPacketEscapeChar ∉ s →
  length cs = 2%nat → strtol 16 cs = (v, 2%nat) → kPacketEscapeChar ∉ cs →
  read_buffer_ (conn t) = [] → unescaped_read_buffer_ t = [] →
  Z.of_nat (k + length s + 4) < 2 ^ 64 →
  let '(t', packets) := receive (replicate k "+"%byte ++ kPacketLeader :: s ++ kPacketTrailer :: cs) t in
  packets = [MkPacket s (byte_sum s mod 256) (v =? byte_sum s mod 256)]
  ∧ write_buffer_ (conn t') = write_buffer_ (conn t) ++ (if no_ack_mode_ t then [] else kAck)
  ∧ ack_buffer_ t' = drop k (ack_buffer_ t)
  ∧ read_buffer_ (conn t') = [] ∧ unescaped_read_buffer_ t' = [].
Proof.
  intros Hs He Hcs Hv Hec Hrb Hun Hlen.
  set (frame := kPacketLeader :: s ++ kPacketTrailer :: cs).
  assert (length frame = (length s + 4)%nat) as Hfl
    by (unfold frame; simpl; rewrite length_app; simpl; lia).
  assert (unescape frame = frame ∧ escape_bytes frame = O) as [Hu Heb].
  { apply unescape_id. unfold frame. rewrite not_elem_of_cons, not_elem_of_app, not_elem_of_cons. done. }
  unfold receive. rewrite Hrb. cbn [app].
  destruct (OnBytesRead_after_acks k frame
    (with_conn t (with_read (conn t) (replicate k "+"%byte ++ frame)))) as
    (t3 & Hr & Hw & Hna & Hun3 & Hack & ->); [done|done| |].
  { cbn. rewrite length_app, length_replicate, Hfl. lia. }
  cbn [write_buffer_ conn with_conn with_read no_ack_mode_ ack_buffer_ unescaped_read_buffer_] in Hw, Hna, Hack, Hun3.
  rewrite Hun, Hu in Hun3. cbn [app] in Hun3. rewrite Hu, Hfl.
  destruct (Nat.eqb_spec (length s + 4) 0) as [?|_]; [lia|].
  unfold ProcessUnescapedReadBuffer. pose proof (extract_frame s cs v Hs Hcs Hv) as HX. cbv zeta in HX. fold frame in HX.
  rewrite Hun3, HX.
  rewrite Hna.
  cbn [write_buffer_ conn with_conn with_read no_ack_mode_ ack_buffer_ unescaped_read_buffer_ read_buffer_
    with_unescaped send_bytes Send with_write].
  rewrite Hw, Hack, Hr, Heb. rewrite (drop_ge frame) by lia.
  rewrite (drop_ge frame) by lia. by split_and!.
Qed.

(**  After a read the loop over the unescaped bytes has run to the end or to
    an incomplete packet: what is kept does not start with an interrupt and
    [Parse] finds nothing to consume in it. *)
Theorem extraction_complete t :
  let kept := unescaped_read_buffer_ (ProcessUnescapedReadBuffer t).1 in
  kept = [] ∨ hd_error kept ≠ Some INTERRUPT ∧ (Parse empty_packet kept).1 = O.
Proof.
  unfold ProcessUnescapedReadBuffer.
  pose proof (extract_stops (length (unescaped_read_buffer_ t)) empty_packet (unescaped_read_buffer_ t)
    ltac:(lia)) as [_ H].
  destruct (extract _ _ _) as [n ps]. exact H.
Qed.

(**  The retransmission queue is first in, first out: a resend request that
    follows [k] acknowledgements retransmits the oldest packet those have not
    retired, or nothing when every packet was retired, and retires nothing. *)
Theorem resend_oldest k t :
  read_buffer_ (conn t) = [] → Z.of_nat k + 1 < 2 ^ 64 →
  let '(t', packets) := receive (replicate k "+"%byte ++ ["-"%byte]) t in
  packets = [] ∧ ack_buffer_ t' = drop k (ack_buffer_ t)
  ∧ write_buffer_ (conn t') = write_buffer_ (conn t) ++ default [] (ack_buffer_ t !! k)
  ∧ read_buffer_ (conn t') = [] ∧ unescaped_read_buffer_ t' = unescaped_read_buffer_ t.
Proof.
  intros Hrb Hk. unfold receive. rewrite Hrb. cbn [app].
  assert (∀ t, read_controls (replicate k "+"%byte ++ ["-"%byte]) t
    = (S k, match drop k (ack_buffer_ t) with
            | [] => with_acks t []
            | f :: _ => send_bytes f (with_acks t (drop k (ack_buffer_ t))) end)) as Hc.
  { clear. induction k as [|k IH]; intros t.
    - cbn. destruct t as [c na un [|a acks]]; done.
    - cbn [replicate app read_controls]. rewrite decide_True by done. rewrite IH.
      destruct t as [c na un [|a acks]]; cbn; rewrite ?drop_nil; done. }
  unfold OnBytesRead. cbn [read_buffer_ conn with_conn with_read]. rewrite Hc. cbn [ack_buffer_ with_conn].
  set (t1 := match drop k (ack_buffer_ t) with [] => _ | _ => _ end).
  assert (read_buffer_ (conn t1) = replicate k "+"%byte ++ ["-"%byte] ∧ ack_buffer_ t1 = drop k (ack_buffer_ t)
    ∧ unescaped_read_buffer_ t1 = unescaped_read_buffer_ t
    ∧ write_buffer_ (conn t1) = write_buffer_ (conn t) ++ default [] (ack_buffer_ t !! k)) as (H1 & H2 & H3 & H4).
  { pose proof (lookup_drop (ack_buffer_ t) k 0) as Hd. rewrite Nat.add_0_r in Hd.
    subst t1. destruct (drop k (ack_buffer_ t)); cbn in *; rewrite <- Hd; cbn; by rewrite ?app_nil_r. }
  assert (length (replicate k "+"%byte ++ ["-"%byte]) = S k) as Hl
    by (rewrite length_app, length_replicate; simpl; lia).
  cbn [conn with_conn unescaped_read_buffer_].
  rewrite ShiftReadBuffer_read by (rewrite ?H1, ?Hl; lia).
  rewrite H1, drop_ge by (rewrite Hl; lia). cbn [UnescapeBuffer]. unfold UnescapeBuffer.
  rewrite decide_True by done. cbn. rewrite H3, Nat.eqb_refl. cbn.
  split_and!; [done|done| | |done].
  - by rewrite !ShiftReadBuffer_write.
  - change (ShiftReadBuffer (Z.of_nat 0) ?c) with c. rewrite ShiftReadBuffer_read by (rewrite ?H1, ?Hl; lia). by rewrite H1, drop_ge by (rewrite Hl; lia).
Qed.

(**  When a read brings escapes, the count returned by [UnescapeBuffer] is
    too small and the tail of the read buffer survives: exactly as many bytes as
    belong to escapes, although all of them were unescaped and handed on. *)
Theorem escaped_read_leaves_stale_bytes s t :
  read_buffer_ (conn t) = [] → Z.of_nat (length s) < 2 ^ 64 →
  match s with [] => True | c :: _ => c ≠ "+"%byte ∧ c ≠ "-"%byte ∧ c ≠ INTERRUPT end →
  let t' := (receive s t).1 in
  read_buffer_ (conn t') = drop (length s - escape_bytes s) s
  ∧ length (read_buffer_ (conn t')) = escape_bytes s.
Proof.
  intros Hrb Hl Hs. unfold receive. rewrite Hrb. cbn [app].
  destruct (OnBytesRead_after_acks 0 s (with_conn t (with_read (conn t) s)))
    as (t3 & Hr & _ & _ & _ & _ & ->); [done|done|done|].
  assert (read_buffer_ (conn (if (length (unescape s) =? 0)%nat then (t3, []) else ProcessUnescapedReadBuffer t3).1)
    = read_buffer_ (conn t3)) as ->.
  { destruct (_ =? _)%nat; [done|]. unfold ProcessUnescapedReadBuffer. by destruct (extract _ _ _). }
  rewrite Hr. split; [done|]. rewrite length_drop. pose proof (escape_bytes_le s). lia.
Qed.

(**  [Parse] writes to one packet object for the whole loop: after a frame
    whose checksum is not two hexadecimal digits the object still holds the
    previous packet, which is then delivered a second time. *)
Theorem bad_checksum_repeats_packet s cs v s2 bad t :
  kPacketTrailer ∉ s → length cs = 2%nat → strtol 16 cs = (v, 2%nat) →
  kPacketTrailer ∉ s2 → (2 ≤ length bad)%nat → (strtol 16 (take 2 bad)).2 ≠ 2%nat →
  unescaped_read_buffer_ t
    = (kPacketLeader :: s ++ kPacketTrailer :: cs) ++ (kPacketLeader :: s2 ++ kPacketTrailer :: bad) →
  let p := MkPacket s (byte_sum s mod 256) (v =? byte_sum s mod 256) in
  ∃ later, (ProcessUnescapedReadBuffer t).2 = p :: p :: later.
Proof.
  intros Hs Hcs Hv Hs2 Hbad Hnd Hun p. unfold ProcessUnescapedReadBuffer. rewrite Hun. clear Hun.
  set (second := kPacketLeader :: s2 ++ kPacketTrailer :: bad).
  set (buffer := (kPacketLeader :: s ++ kPacketTrailer :: cs) ++ second).
  assert (Parse empty_packet buffer = ((length s + 4)%nat, p)) as HP.
  { pose proof (Parse_frame empty_packet [] s cs v second (not_elem_of_nil _) Hs Hcs Hv) as HP.
    unfold buffer. cbn [app length Nat.add] in *. rewrite <- app_assoc. exact HP. }
  assert (drop (length s + 4) buffer = second) as Hd.
  { unfold buffer. apply drop_app_length'. simpl. rewrite length_app. simpl. lia. }
  assert (Parse p second = ((length s2 + 2)%nat, p)) as HP2.
  { pose proof (Parse_bad_checksum p [] s2 bad (not_elem_of_nil _) Hs2 Hbad Hnd) as HB.
    cbn [app length Nat.add] in HB. exact HB. }
  assert (length buffer = S (S (length s + 2 + length second))) as ->.
  { unfold buffer. rewrite length_app. cbn [length]. rewrite length_app. cbn [length]. lia. }
  rewrite (extract_step _ empty_packet buffer _ _) by (exact HP || done || lia). rewrite Hd.
  rewrite (extract_step _ p second _ _) by (exact HP2 || done || lia).
  destruct (extract _ _ _) as [m later]. exists later. done.
Qed.

(** ** Instances at concrete inputs *)

Import Boost_reference.

Lemma receive_frame_witness :
  let '(t', packets) := receive ("+"%bs ++ kPacketLeader :: "OK"%bs ++ kPacketTrailer :: "00"%bs)
                          (with_acks new_transport ["$a#61"%bs; "$b#62"%bs]) in
  packets = [MkPacket "OK"%bs 154 false]
  ∧ write_buffer_ (conn t') = [] ++ kAck
  ∧ ack_buffer_ t' = ["$b#62"%bs]
  ∧ read_buffer_ (conn t') = [] ∧ unescaped_read_buffer_ t' = [].
Proof.
  apply (receive_frame 1 "OK"%bs "00"%bs 0 (with_acks new_transport ["$a#61"%bs; "$b#62"%bs]));
    first [reflexivity | apply (bool_decide_unpack _); vm_compute; exact I].
Defined.

Lemma resend_oldest_witness :
  let t := with_acks new_transport ["$a#61"%bs; "$b#62"%bs] in
  let '(t', packets) := receive (replicate 1 "+"%byte ++ ["-"%byte]) t in
  packets = [] ∧ ack_buffer_ t' = ["$b#62"%bs] ∧ write_buffer_ (conn t') = "$b#62"%bs
  ∧ read_buffer_ (conn t') = [] ∧ unescaped_read_buffer_ t' = [].
Proof.
  apply (resend_oldest 1 (with_acks new_transport ["$a#61"%bs; "$b#62"%bs])); [reflexivity|lia].
Defined.

Lemma escaped_read_leaves_stale_bytes_witness :
  let t' := (receive "$X}]a}]#zz"%bs new_transport).1 in
  read_buffer_ (conn t') = "]#zz"%bs ∧ length (read_buffer_ (conn t')) = 4%nat.
Proof.
  apply (escaped_read_leaves_stale_bytes "$X}]a}]#zz"%bs new_transport);
    first [reflexivity | apply (bool_decide_unpack _); vm_compute; exact I].
Defined.

Lemma bad_checksum_repeats_packet_witness :
  ∃ later, (ProcessUnescapedReadBuffer (with_unescaped new_transport "$s#73$c#--"%bs)).2
    = MkPacket "s"%bs 115 true :: MkPacket "s"%bs 115 true :: later.
Proof.
  apply (bad_checksum_repeats_packet "s"%bs "73"%bs 115 "c"%bs "--"%bs
          (with_unescaped new_transport "$s#73$c#--"%bs));
    first [reflexivity | apply (bool_decide_unpack _); vm_compute; exact I].
Defined.
