(* ===== verification/Parsing.v ===== *)
(** * Number and command-line parsing (src/util/parsing.h, parsing.cpp)

    Integer readers, the shell's [ArgParser] with its tokenizer and printer, and
    the splitting of command lines at [&&]. *)

From S2P Require Import Prelude CLib Boost.

(** ** Integers *)

Definition GetIntegerBase (value : bytes) : Z :=
  if (2 <? Z.of_nat (length value))
     && bool_decide (value !! 0%nat = Some "0"%byte)
     && (bool_decide (value !! 1%nat = Some "x"%byte) || bool_decide (value !! 1%nat = Some "X"%byte))
  then 16 else 10.

Definition ParseInt32 (value : bytes) : Z := i32 (strtol (GetIntegerBase value) value).1.
Definition ParseUint32 (value : bytes) : Z := u32 (strtoul (GetIntegerBase value) value).1.

(** [end == value.c_str() || *end != 0]: the conversion must reach the
    terminator of the C string. *)
Definition conversion_rejected (value : bytes) (end_ : nat) : bool :=
  (end_ =? 0)%nat || negb (end_ =? length (c_str value))%nat.

Definition MaybeParseInt32 (value : bytes) : option Z :=
  let '(ret, end_) := strtol (GetIntegerBase value) value in
  if conversion_rejected value end_ then None else Some (i32 ret).

Definition MaybeParseUint32 (value : bytes) : option Z :=
  let '(ret, end_) := strtoul (GetIntegerBase value) value in
  if conversion_rejected value end_ then None else Some (u32 ret).

(** [MaybeParseHexInt<T>]: [cast] is the conversion to [T].  The result pairs
    the success flag with the value written to [ret]. *)
Definition MaybeParseHexInt (cast : Z → Z) (data : bytes) : bool * Z :=
  let '(v, end_) := strtoul 16 data in (negb (end_ =? 0)%nat, cast v).

Definition MaybeParseHexInt_at (cast : Z → Z) (data : bytes) (offset : nat) : bool * Z :=
  MaybeParseHexInt cast (drop offset data).

(** ** Arguments *)

Inductive ArgEnum := NOT_FOUND | BASIC | PARENTHESIZED | QUOTED | SYNTAX_ERROR.

#[global] Instance ArgEnum_eq_decision : EqDecision ArgEnum.
Proof. solve_decision. Defined.

Record ArgType := MkArgType { val : ArgEnum; message : bytes }.

Definition arg_type (v : ArgEnum) : ArgType := MkArgType v [].

(** [explicit operator bool] and [operator==]: the message is not compared. *)
Definition ArgType_bool (t : ArgType) : bool :=
  bool_decide (val t ≠ NOT_FOUND) && bool_decide (val t ≠ SYNTAX_ERROR).
Definition ArgType_eqb (a b : ArgType) : bool := bool_decide (val a = val b).

Record Argument := MkArg { value : bytes; type : ArgType }.

Record ArgParser := MkArgs { command : bytes; arguments : list Argument }.

(** ** The tokenizer *)

Definition backslash : byte := "\"%byte.
Definition tab : byte := Byte.x09.

Record tok_state := TokState {
  ts_args : list Argument;
  ts_token : bytes;
  ts_in_quote : bool;
  ts_depth : Z;
  ts_stripping : bool;
  ts_dirty : bool;
  ts_type : ArgEnum
}.

Definition tok_init : tok_state := TokState [] [] false 0 false false BASIC.

Definition flush_token (st : tok_state) : tok_state :=
  if ts_dirty st then
    TokState (ts_args st ++ [MkArg (ts_token st) (arg_type (ts_type st))]) []
      (ts_in_quote st) (ts_depth st) (ts_stripping st) false BASIC
  else st.

(** [current_token += c], leaving the flags alone. *)
Definition add_char (c : byte) (st : tok_state) : tok_state :=
  TokState (ts_args st) (ts_token st ++ [c]) (ts_in_quote st) (ts_depth st)
    (ts_stripping st) (ts_dirty st) (ts_type st).
Definition set_quote (q : bool) (st : tok_state) : tok_state :=
  TokState (ts_args st) (ts_token st) q (ts_depth st) (ts_stripping st) (ts_dirty st) (ts_type st).
Definition set_depth (d : Z) (st : tok_state) : tok_state :=
  TokState (ts_args st) (ts_token st) (ts_in_quote st) d (ts_stripping st) (ts_dirty st) (ts_type st).
Definition set_stripping (s : bool) (st : tok_state) : tok_state :=
  TokState (ts_args st) (ts_token st) (ts_in_quote st) (ts_depth st) s (ts_dirty st) (ts_type st).
Definition set_dirty (st : tok_state) : tok_state :=
  TokState (ts_args st) (ts_token st) (ts_in_quote st) (ts_depth st) (ts_stripping st) true (ts_type st).
Definition set_type (t : ArgEnum) (st : tok_state) : tok_state :=
  TokState (ts_args st) (ts_token st) (ts_in_quote st) (ts_depth st) (ts_stripping st) (ts_dirty st) t.

(** A character inside parentheses. *)
Definition paren_char (c : byte) (st : tok_state) : tok_state :=
  if decide (c = "("%byte) then add_char c (set_depth (ts_depth st + 1) st)
  else if decide (c = ")"%byte) then
    let st' := set_depth (ts_depth st - 1) st in
    if (0 <? ts_depth st') || negb (ts_stripping st') then add_char c st' else st'
  else add_char c st.

(** A character outside quotes and parentheses. *)
Definition plain_char (c : byte) (st : tok_state) : tok_state :=
  if decide (c = space) then flush_token st
  else if decide (c = tab) then flush_token st
  else if decide (c = quote) then
    if decide (ts_token st = []) then set_type QUOTED (set_dirty (set_quote true st))
    else set_dirty (add_char c st)
  else if decide (c = "("%byte) then
    let st' := set_type PARENTHESIZED (set_dirty (set_depth 1 st)) in
    if decide (ts_token st = []) then set_stripping true st'
    else add_char c (set_stripping false st')
  else set_dirty (add_char c st).

Fixpoint tokenize_from (input : bytes) (st : tok_state) : tok_state :=
  match input with
  | [] => st
  | c :: input' =>
    if ts_in_quote st then
      match input' with
      | q :: input'' =>
        if decide (c = backslash ∧ q = quote) then tokenize_from input'' (add_char quote st)
        else if decide (c = quote) then tokenize_from input' (set_quote false st)
        else tokenize_from input' (add_char c st)
      | [] =>
        if decide (c = quote) then set_quote false st else add_char c st
      end
    else if 0 <? ts_depth st then tokenize_from input' (paren_char c st)
    else tokenize_from input' (plain_char c st)
  end.

Definition Tokenize (input : bytes) : list Argument :=
  ts_args (flush_token (tokenize_from input tok_init)).

(** ** [ArgParser] *)

(** The interface an expression evaluator offers to argument parsing: a
    [uint32_t] or an error text. *)
Class ExpressionParser := eval_expression : bytes → Z + bytes.

Section ArgParserOps.
Context `{!Boost}.

(** [ArgParser(raw_line)] *)
Definition of_line (raw_line : bytes) : ArgParser :=
  match Tokenize raw_line with
  | [] => MkArgs [] []
  | t :: rest => MkArgs (to_lower_copy (value t)) rest
  end.

(** [ArgParser(cmd, args)] for strings and for parsed arguments *)
Definition of_strings (cmd : bytes) (args : list bytes) : ArgParser :=
  MkArgs (to_lower_copy cmd) (map (λ s, MkArg s (arg_type BASIC)) args).
Definition of_args (cmd : bytes) (args : list Argument) : ArgParser :=
  MkArgs (to_lower_copy cmd) args.

(** [arguments[depth - 1]] is unchecked: the outer [None] is that access out
    of range, the inner one is [std::nullopt]. *)
Definition ExtractSubcommand (depth : nat) (p : ArgParser) : option (option ArgParser) :=
  match arguments p with
  | [] => Some None
  | args =>
    match depth with
    | O => None
    | S d =>
      match args !! d with
      | None => None
      | Some a => Some (Some (of_args (value a) (drop depth args)))
      end
    end
  end.

(** [SplitAt]: the result, [pre] and [post]. *)
Definition SplitAt (delimiter : bytes) (case_sensitive : bool) (p : ArgParser)
    : bool * ArgParser * ArgParser :=
  let delimiter_insensitive := to_lower_copy delimiter in
  let matches (a : Argument) :=
    if case_sensitive then bool_decide (value a = delimiter)
    else bool_decide (to_lower_copy (value a) = delimiter_insensitive) in
  match list_find matches (arguments p) with
  | None => (false, of_args (command p) (arguments p), of_args [] [])
  | Some (it, _) =>
    let pre := of_args (command p) (take it (arguments p)) in
    match drop (S it) (arguments p) with
    | [] => (true, pre, of_args [] [])
    | post_start :: post_args => (true, pre, of_args (value post_start) post_args)
    end
  end.

Definition HasCommand (p : ArgParser) : bool := negb (bool_decide (command p = [])).

Definition ShiftPrefixModifier (modifier : byte) (p : ArgParser) : bool * ArgParser :=
  match command p with
  | c :: rest => if decide (c = modifier) then (true, MkArgs rest (arguments p)) else (false, p)
  | [] => (false, p)
  end.

Definition IsCommand (cmds : list bytes) (p : ArgParser) : bool :=
  existsb (λ c, bool_decide (command p = c)) cmds.

Definition ArgExists (args : list bytes) (p : ArgParser) : bool :=
  existsb (λ test, existsb (λ a, bool_decide (test = to_lower_copy (value a))) (arguments p)) args.
End ArgParserOps.

(** *** Printing *)

(** The loop that escapes quotes: [pos] moves past each inserted pair. *)
Fixpoint escape_quotes (s : bytes) : bytes :=
  match s with
  | [] => []
  | c :: s' => (if decide (c = quote) then [backslash; quote] else [c]) ++ escape_quotes s'
  end.

Definition arg_image (a : Argument) : bytes :=
  match val (type a) with
  | QUOTED => [quote] ++ escape_quotes (value a) ++ [quote]
  | PARENTHESIZED => "("%bs ++ value a ++ ")"%bs
  | _ => value a
  end.

Definition flatten_onto (out : bytes) (args : list Argument) : bytes :=
  fold_left (λ out a, (if decide (out = []) then out else out ++ [space]) ++ arg_image a) args out.

Definition Flatten (p : ArgParser) : bytes := flatten_onto (command p) (arguments p).
Definition FlattenArgs (p : ArgParser) : bytes := flatten_onto [] (arguments p).

(** *** Typed access: the result and the final value of [ret] *)

Definition not_numeric (s : bytes) : bytes := "Value "%bs ++ s ++ " is not numeric"%bs.

(** [detail::ParseHelper<T>::Parse] for [int32_t] and [uint32_t] *)
Definition ParseHelper (is_signed : bool) (s : bytes) : Z + bytes :=
  match (if is_signed then MaybeParseInt32 s else MaybeParseUint32 s) with
  | Some v => inl v
  | None => inr (not_numeric s)
  end.

(** [arg_index < 0 || arg_index >= arguments.size()] yields no argument. *)
Definition nth_arg (p : ArgParser) (arg_index : Z) : option Argument :=
  if arg_index <? 0 then None else arguments p !! Z.to_nat arg_index.

Definition Parse_int (is_signed : bool) (p : ArgParser) (arg_index ret : Z) : ArgType * Z :=
  match nth_arg p arg_index with
  | None => (arg_type NOT_FOUND, ret)
  | Some a =>
    match ParseHelper is_signed (value a) with
    | inr e => (MkArgType SYNTAX_ERROR e, ret)
    | inl v => (type a, v)
    end
  end.

Definition true_words : list bytes :=
  ["t"%bs; "true"%bs; "y"%bs; "yes"%bs; "on"%bs; "1"%bs].

Definition Parse_bool `{!Boost} (p : ArgParser) (arg_index : Z) (ret : bool) : ArgType * bool :=
  match nth_arg p arg_index with
  | None => (arg_type NOT_FOUND, ret)
  | Some a => (type a, bool_decide (to_lower_copy (value a) ∈ true_words))
  end.

Definition Parse_string (p : ArgParser) (arg_index : Z) (ret : bytes) : ArgType * bytes :=
  match nth_arg p arg_index with
  | None => (arg_type NOT_FOUND, ret)
  | Some a => (type a, value a)
  end.

(** With an expression parser: expressions first, then plain numbers. *)
Definition Parse_expr `{!ExpressionParser} (is_signed : bool) (p : ArgParser) (arg_index ret : Z)
    : ArgType * Z :=
  match nth_arg p arg_index with
  | None => (arg_type NOT_FOUND, ret)
  | Some a =>
    let fall_back (caused_by : bytes) :=
      match ParseHelper is_signed (value a) with
      | inl v => (type a, v)
      | inr e =>
        (MkArgType SYNTAX_ERROR (if decide (caused_by = []) then e else e ++ " caused by "%bs ++ caused_by), ret)
      end in
    if decide (val (type a) = PARENTHESIZED ∨ val (type a) = BASIC) then
      match eval_expression (value a) with
      | inl v => (type a, if is_signed then i32 v else v)
      | inr e => if decide (val (type a) = PARENTHESIZED) then (MkArgType SYNTAX_ERROR e, ret)
                 else fall_back e
      end
    else fall_back []
  end.

(** The overload with an optional parser ([nullptr] is [None]). *)
Definition Parse_opt (parser : option ExpressionParser) (is_signed : bool) (p : ArgParser) (arg_index ret : Z)
    : ArgType * Z :=
  match parser with
  | Some ep => @Parse_expr ep is_signed p arg_index ret
  | None => Parse_int is_signed p arg_index ret
  end.

(** ** Splitting command lines *)

Definition kCommandDelimiter : bytes := "&&"%bs.

Definition SplitCommands (additional_commands : list bytes) : list (list bytes) :=
  if decide (additional_commands = []) then []
  else
    let step '(ret, cmd) elem :=
      if decide (elem = kCommandDelimiter) then (ret ++ [cmd], []) else (ret, cmd ++ [elem]) in
    let '(ret, cmd) := fold_left step additional_commands ([], []) in ret ++ [cmd].

(** ** Printing and parsing *)

(** What a [BASIC] token may hold for the tokenizer to give it back. *)
Definition basic_ok (s : bytes) : bool :=
  bool_decide (s ≠ []) && bool_decide (head s ≠ Some quote)
  && forallb (λ c, bool_decide (c ≠ space ∧ c ≠ tab ∧ c ≠ "("%byte)) s.

(** The text of an expression at nesting depth [d]: it never closes the
    outermost parenthesis and leaves only that one open. *)
Fixpoint balanced (d : Z) (s : bytes) : bool :=
  match s with
  | [] => d =? 1
  | c :: s' =>
    if decide (c = "("%byte) then balanced (d + 1) s'
    else if decide (c = ")"%byte) then (1 <? d) && balanced (d - 1) s'
    else balanced d s'
  end.

Definition printable (a : Argument) : bool :=
  bool_decide (message (type a) = []) &&
  match val (type a) with
  | BASIC => basic_ok (value a)
  | QUOTED => bool_decide (last (value a) ≠ Some backslash)
  | PARENTHESIZED => balanced 1 (value a)
  | NOT_FOUND | SYNTAX_ERROR => false
  end.

(** The tokenizer between two tokens, and with a complete token [a] pending. *)
Definition between (args : list Argument) (s : bool) : tok_state :=
  TokState args [] false 0 s false BASIC.
Definition pending (args : list Argument) (s : bool) (a : Argument) : tok_state :=
  TokState args (value a) false 0 s true (val (type a)).

Lemma flush_pending args s a :
  message (type a) = [] → flush_token (pending args s a) = between (args ++ [a]) s.
Proof. destruct a as [v [t m]]; cbn. intros ->. reflexivity. Qed.

Lemma tokenize_plain v rest args tok s d t :
  forallb (λ c, bool_decide (c ≠ space ∧ c ≠ tab ∧ c ≠ "("%byte)) v = true →
  tok ≠ [] →
  tokenize_from (v ++ rest) (TokState args tok false 0 s d t)
  = tokenize_from rest (TokState args (tok ++ v) false 0 s (match v with [] => d | _ => true end) t).
Proof.
  revert tok d; induction v as [|c v IH]; intros tok d Hv Htok; [by rewrite app_nil_r|].
  cbn [forallb] in Hv. apply andb_prop in Hv as [Hc Hv].
  apply bool_decide_eq_true in Hc as (Hs & Ht & Hp).
  cbn [app tokenize_from ts_in_quote ts_depth]. change (0 <? 0) with false. cbn iota.
  unfold plain_char, add_char, set_dirty. cbn [ts_args ts_token ts_in_quote ts_depth ts_stripping ts_dirty ts_type].
  rewrite (decide_False (P := c = space)), (decide_False (P := c = tab)),
    (decide_False (P := c = "("%byte)) by assumption.
  replace (if decide (c = quote) then _ else _)
    with (TokState args (tok ++ [c]) false 0 s true t)
    by (destruct (decide (c = quote)), (decide (tok = [])); done).
  rewrite IH by (try done; by destruct tok). rewrite <- app_assoc. cbn. by destruct v.
Qed.

Lemma tokenize_basic v rest args s :
  basic_ok v = true →
  tokenize_from (v ++ rest) (between args s)
  = tokenize_from rest (pending args s (MkArg v (arg_type BASIC))).
Proof.
  unfold basic_ok. intros H. apply andb_prop in H as [H Hv]. apply andb_prop in H as [Hne Hq].
  apply bool_decide_eq_true in Hne, Hq. destruct v as [|c v]; [done|].
  cbn [forallb] in Hv. apply andb_prop in Hv as [Hc Hv].
  apply bool_decide_eq_true in Hc as (Hs & Ht & Hp).
  cbn [app tokenize_from between ts_in_quote ts_depth]. change (0 <? 0) with false. cbn iota.
  unfold between, plain_char, add_char, set_dirty.
  cbn [ts_args ts_token ts_in_quote ts_depth ts_stripping ts_dirty ts_type].
  rewrite !decide_False by (try assumption; cbn in Hq; congruence).
  cbn [app]. rewrite tokenize_plain by done. unfold pending. cbn. by destruct v.
Qed.

Lemma tokenize_quoted v rest args tok s t :
  last v ≠ Some backslash →
  tokenize_from (escape_quotes v ++ quote :: rest) (TokState args tok true 0 s true t)
  = tokenize_from rest (TokState args (tok ++ v) false 0 s true t).
Proof.
  revert tok; induction v as [|c v IH]; intros tok Hl.
  - rewrite app_nil_r. cbn [escape_quotes app tokenize_from ts_in_quote]. destruct rest; [reflexivity|].
    rewrite decide_False by (intros [? _]; done). by rewrite decide_True.
  - assert (Hv : last v ≠ Some backslash)
      by (intros H; apply Hl; destruct v; [done|exact H]).
    replace (tok ++ c :: v) with ((tok ++ [c]) ++ v) by (by rewrite <- app_assoc).
    rewrite <- IH by done. cbn [escape_quotes].
    destruct (decide (c = quote)) as [->|Hc].
    { cbn [app tokenize_from ts_in_quote]. rewrite decide_True by done. reflexivity. }
    cbn [app].
    (* the character after [c] does not turn it into an escape *)
    assert (Hnext : ∀ q s', escape_quotes v ++ quote :: rest = q :: s' → ¬ (c = backslash ∧ q = quote)).
    { intros q s' E [-> ->]. destruct v as [|c' v]; [by apply Hl|].
      cbn [escape_quotes] in E. destruct (decide (c' = quote)); cbn in E; congruence. }
    destruct (escape_quotes v ++ quote :: rest) as [|q s'] eqn:E; [by destruct (escape_quotes v)|].
    cbn [tokenize_from ts_in_quote]. rewrite decide_False by (by eapply Hnext). by rewrite decide_False.
Qed.

Lemma tokenize_parens v rest args tok d t :
  balanced d v = true → 0 < d →
  tokenize_from (v ++ ")"%byte :: rest) (TokState args tok false d true true t)
  = tokenize_from rest (TokState args (tok ++ v) false 0 true true t).
Proof.
  revert tok d; induction v as [|c v IH]; intros tok d Hb Hd.
  - cbn in Hb. apply Z.eqb_eq in Hb. subst d. rewrite app_nil_r. reflexivity.
  - replace (tok ++ c :: v) with ((tok ++ [c]) ++ v) by (by rewrite <- app_assoc).
    cbn [app tokenize_from ts_in_quote ts_depth]. rewrite (proj2 (Z.ltb_lt 0 d)) by done.
    unfold paren_char, add_char, set_depth. cbn [balanced] in Hb.
    cbn [ts_args ts_token ts_in_quote ts_depth ts_stripping ts_dirty ts_type].
    destruct (decide (c = "("%byte)) as [->|]; [apply IH; [done|lia]|].
    destruct (decide (c = ")"%byte)) as [->|]; [|by apply IH].
    apply andb_prop in Hb as [H1 Hb]. apply Z.ltb_lt in H1.
    rewrite (proj2 (Z.ltb_lt 0 (d - 1))) by lia. cbn [orb]. apply IH; [done|lia].
Qed.

Lemma tokenize_arg a rest args s :
  printable a = true →
  ∃ s', tokenize_from (arg_image a ++ rest) (between args s) = tokenize_from rest (pending args s' a).
Proof.
  unfold printable, arg_image. destruct a as [v [t m]]; cbn [val type value message].
  intros H. apply andb_prop in H as [Hm H]. apply bool_decide_eq_true in Hm. subst m.
  destruct t; try discriminate.
  - exists s. by apply tokenize_basic.
  - exists true. rewrite <- !app_assoc. etransitivity; [|apply (tokenize_parens v rest args [] 1 PARENTHESIZED H); lia].
    reflexivity.
  - exists s. apply bool_decide_eq_true in H. rewrite <- !app_assoc.
    etransitivity; [|apply (tokenize_quoted v rest args [] s QUOTED H)]. reflexivity.
Qed.

(** The text of arguments after a non-empty prefix. *)
Lemma flatten_onto_spec out args :
  out ≠ [] → flatten_onto out args = out ++ concat (map (λ a, space :: arg_image a) args).
Proof.
  revert out; induction args as [|a args IH]; intros out Hout; [by rewrite app_nil_r|].
  unfold flatten_onto in *. cbn [fold_left map concat]. rewrite decide_False by done.
  rewrite IH by (by destruct out). by rewrite <- !app_assoc.
Qed.

Lemma tokenize_args more a args s :
  forallb printable (a :: more) = true →
  ∃ s', flush_token (tokenize_from (arg_image a ++ concat (map (λ a, space :: arg_image a) more)) (between args s))
        = between (args ++ a :: more) s'.
Proof.
  revert a args s; induction more as [|b more IH]; intros a args s H;
    cbn [forallb] in H; apply andb_prop in H as [Ha H].
  - destruct (tokenize_arg a (concat (map (λ a, space :: arg_image a) [])) args s Ha) as [s' ->].
    exists s'. cbn [map concat tokenize_from]. apply flush_pending.
    unfold printable in Ha. apply andb_prop in Ha as [Hm _]. by apply bool_decide_eq_true in Hm.
  - destruct (tokenize_arg a (concat (map (λ a, space :: arg_image a) (b :: more))) args s Ha) as [s1 ->].
    cbn [map concat app tokenize_from pending ts_in_quote ts_depth].
    unfold printable in Ha. apply andb_prop in Ha as [Hm _]. apply bool_decide_eq_true in Hm.
    change (tokenize_from _ (if 0 <? 0 then _ else plain_char space _)) with
      (tokenize_from (arg_image b ++ concat (map (λ a, space :: arg_image a) more)) (flush_token (pending args s1 a))).
    rewrite flush_pending by done.
    destruct (IH b (args ++ [a]) s1 H) as [s' E]. exists s'. etransitivity; [exact E|]. by rewrite <- app_assoc.
Qed.

Lemma arg_image_nonempty a : printable a = true → arg_image a ≠ [].
Proof.
  unfold printable, arg_image. destruct a as [v [t m]]; cbn [val type value message].
  intros H; apply andb_prop in H as [_ H]. destruct t; try discriminate; try done.
  unfold basic_ok in H. apply andb_prop in H as [H _]. apply andb_prop in H as [H _].
  by apply bool_decide_eq_true in H.
Qed.

Lemma tokenize_flatten a args :
  forallb printable (a :: args) = true → Tokenize (flatten_onto (arg_image a) args) = a :: args.
Proof.
  intros H. assert (Ha : printable a = true) by (cbn [forallb] in H; by apply andb_prop in H as [? _]).
  rewrite flatten_onto_spec by (by apply arg_image_nonempty). unfold Tokenize.
  change tok_init with (between [] false).
  destruct (tokenize_args args a [] false H) as [s' ->]. reflexivity.
Qed.

(** "Generates a minimal command line string that will parse to this
    instance": an [ArgParser] with a lower-case command word whose arguments
    are printable (a basic token without blanks and parentheses, a balanced
    expression, or a quoted text not ending in a backslash) is read back
    unchanged from what [Flatten] prints, and its arguments alone from what
    [FlattenArgs] prints. *)
Theorem flatten_roundtrip `{!Boost} (p : ArgParser)
  (Hcmd : basic_ok (command p) = true) (Hlower : to_lower_copy (command p) = command p)
  (Hargs : forallb printable (arguments p) = true) :
  of_line (Flatten p) = p ∧ Tokenize (FlattenArgs p) = arguments p.
Proof.
  split.
  - unfold of_line, Flatten. change (command p) with (arg_image (MkArg (command p) (arg_type BASIC))).
    rewrite tokenize_flatten by (cbn [forallb]; by rewrite Hargs, andb_true_r). cbn [value].
    rewrite Hlower. by destruct p.
  - unfold FlattenArgs. destruct (arguments p) as [|a args]; [reflexivity|].
    change (flatten_onto [] (a :: args)) with (flatten_onto (arg_image a) args). by apply tokenize_flatten.
Qed.

Definition example_line : ArgParser :=
  MkArgs "break"%bs
    [MkArg "addr"%bs (arg_type BASIC); MkArg "$eip + (4 * 2)"%bs (arg_type PARENTHESIZED);
     MkArg ("a "%bs ++ [backslash; quote] ++ " b"%bs) (arg_type QUOTED)].

Lemma flatten_roundtrip_witness :
  let B := Boost_reference.boost_reference in
  of_line (Flatten example_line) = example_line ∧ Tokenize (FlattenArgs example_line) = arguments example_line.
Proof. apply (@flatten_roundtrip Boost_reference.boost_reference example_line); vm_compute; reflexivity. Defined.

(** ** Numbers *)

Lemma digits_base_10 ds :
  Forall (is_digit_of 10) ds → GetIntegerBase ds = 10.
Proof.
  intros Hds. unfold GetIntegerBase. destruct ds as [|a [|c ds]]; [by rewrite andb_false_r|by rewrite !andb_false_r|].
  assert (is_digit_of 10 c = true) as Hc
    by (rewrite Forall_forall in Hds; apply Is_true_true, Hds; set_solver).
  destruct (digit_class 10 c ltac:(lia) Hc) as (_ & _ & _ & _ & ? & ? & _).
  change ((a :: c :: ds) !! 1%nat) with (Some c).
  rewrite (bool_decide_eq_false_2 (Some c = Some "x"%byte)), (bool_decide_eq_false_2 (Some c = Some "X"%byte)) by congruence.
  by rewrite andb_false_r.
Qed.

Lemma digits_no_NUL base ds : base ≤ 16 → Forall (is_digit_of base) ds → NUL ∉ ds.
Proof.
  intros Hb Hds Hin. rewrite Forall_forall in Hds. specialize (Hds _ Hin).
  apply Is_true_true, (digit_class _ _ Hb) in Hds. naive_solver.
Qed.

Lemma MaybeParseUint32_hex w n :
  is_u32 n → MaybeParseUint32 ("0x"%bs ++ fmt_0x w n) = Some n.
Proof.
  intros Hn. destruct Hn as [Hn0 Hn].
  pose proof (fmt_0x_digits w n Hn0) as Hd. pose proof (fmt_0x_value w n Hn0) as Hv.
  assert (fmt_0x w n ≠ []) as Hne.
  { unfold fmt_0x, pad_left. intros [_ H]%app_nil. by apply print_base_nonempty in H. }
  unfold MaybeParseUint32, conversion_rejected.
  assert (GetIntegerBase ("0x"%bs ++ fmt_0x w n) = 16) as ->.
  { unfold GetIntegerBase. destruct (fmt_0x w n) as [|b l]; [done|]. rewrite (proj2 (Z.ltb_lt _ _)) by (cbn; lia). reflexivity. }
  pose proof (strtoul_0x (fmt_0x w n) [] Hd Hne I) as E. rewrite app_nil_r, Hv in E.
  rewrite E by (unfold ULONG_MAX; lia).
  rewrite c_str_id by (intros [H|[H|H]%elem_of_cons]%elem_of_cons; [done..|by eapply digits_no_NUL, H; [|done]]).
  rewrite length_app. change (length "0x"%bs) with 2%nat. rewrite Nat.eqb_refl. cbn. by rewrite u32_id.
Qed.

Lemma MaybeParseUint32_dec n : is_u32 n → MaybeParseUint32 (fmt_u n) = Some n.
Proof.
  intros [Hn0 Hn]. unfold fmt_u.
  assert (Forall (is_digit_of 10) (print_base false 10 n)) as Hd by (apply print_base_digits; lia).
  pose proof (print_base_nonempty false 10 n) as Hne.
  unfold MaybeParseUint32, conversion_rejected. rewrite digits_base_10 by done.
  pose proof (strtoul_digits 10 (print_base false 10 n) [] ltac:(lia) Hd Hne I) as E.
  rewrite app_nil_r, print_base_value in E by lia. rewrite E by (unfold ULONG_MAX; lia).
  rewrite c_str_id by (by eapply digits_no_NUL; [|done]). rewrite Nat.eqb_refl.
  destruct (print_base false 10 n); [done|]. cbn. by rewrite u32_id.
Qed.

Lemma Parse_int_single cmd v t ret :
  Parse_int false (MkArgs cmd [MkArg v t]) 0 ret
  = match MaybeParseUint32 v with
    | Some n => (t, n)
    | None => (MkArgType SYNTAX_ERROR (not_numeric v), ret)
    end.
Proof.
  change (Parse_int _ _ _ _) with (match (match MaybeParseUint32 v with Some v => inl v | None => inr (not_numeric v) end) with inr e => (MkArgType SYNTAX_ERROR e, ret) | inl v => (t, v) end).
  by destruct (MaybeParseUint32 v).
Qed.

(** A [uint32_t] printed the two ways the program prints one, as
    [0x%08x] (any width) or as [%u], is read back to itself by
    [MaybeParseUint32] and so by an integer argument of the shell. *)
Theorem integer_argument_roundtrip (n ret : Z) (w : nat) (cmd : bytes) (t : ArgType) (Hn : is_u32 n) :
  Parse_int false (MkArgs cmd [MkArg ("0x"%bs ++ fmt_0x w n) t]) 0 ret = (t, n)
  ∧ Parse_int false (MkArgs cmd [MkArg (fmt_u n) t]) 0 ret = (t, n).
Proof.
  split; (etransitivity; [apply Parse_int_single|]).
  - by rewrite MaybeParseUint32_hex.
  - by rewrite MaybeParseUint32_dec.
Qed.

Lemma integer_argument_roundtrip_witness :
  let n := 2147549184 in
  Parse_int false (MkArgs "dump"%bs [MkArg ("0x"%bs ++ fmt_0x 8 n) (arg_type BASIC)]) 0 7 = (arg_type BASIC, n)
  ∧ Parse_int false (MkArgs "dump"%bs [MkArg (fmt_u n) (arg_type BASIC)]) 0 7 = (arg_type BASIC, n).
Proof. apply (integer_argument_roundtrip 2147549184 7 8 "dump"%bs (arg_type BASIC)). unfold is_u32. lia. Defined.

(** ** Command lists *)

(** "Splits the given vector of strings into sub-vectors delimited by
    &&": [SplitCommands] returns exactly the groups whose concatenation with
    the delimiter between them is the input, none of which holds a delimiter;
    an empty input gives no group. *)
Theorem SplitCommands_spec (args : list bytes) :
  (args = [] → SplitCommands args = []) ∧
  (args ≠ [] →
    concat (map (λ g, kCommandDelimiter :: g) (SplitCommands args)) = kCommandDelimiter :: args
    ∧ Forall (λ g, kCommandDelimiter ∉ g) (SplitCommands args)).
Proof.
  split; [by intros ->|]. intros Hne. unfold SplitCommands. rewrite decide_False by done.
  match goal with |- context [fold_left ?f _ _] => set (step := f) end.
  assert (∀ args ret cmd, Forall (λ g, kCommandDelimiter ∉ g) ret → kCommandDelimiter ∉ cmd →
    let '(ret', cmd') := fold_left step args (ret, cmd) in
    concat (map (cons kCommandDelimiter) (ret' ++ [cmd']))
    = concat (map (cons kCommandDelimiter) (ret ++ [cmd])) ++ args
    ∧ Forall (λ g, kCommandDelimiter ∉ g) (ret' ++ [cmd'])) as Hind.
  { clear args Hne. induction args as [|e args IH]; intros ret cmd Hret Hcmd; cbn [fold_left].
    - rewrite app_nil_r. split; [done|]. by apply Forall_app; split; [|constructor].
    - unfold step at 2. destruct (decide (e = kCommandDelimiter)) as [->|He].
      + specialize (IH (ret ++ [cmd]) []). destruct (fold_left step args _) as [ret' cmd'].
        destruct IH as [-> ?]; [by apply Forall_app; split; [|constructor]|apply not_elem_of_nil|].
        split; [|done]. rewrite (map_app _ (ret ++ [cmd])), concat_app, <- !app_assoc. reflexivity.
      + specialize (IH ret (cmd ++ [e])). destruct (fold_left step args _) as [ret' cmd'].
        destruct IH as [-> ?]; [done|set_solver|]. split; [|done].
        rewrite !map_app, !concat_app. cbn. rewrite !app_nil_r, <- !app_assoc. cbn. by rewrite <- app_assoc. }
  specialize (Hind args [] []). destruct (fold_left step args _) as [ret cmd].
  apply Hind; [constructor|apply not_elem_of_nil].
Qed.

Lemma SplitCommands_spec_witness :
  concat (map (λ g, kCommandDelimiter :: g) (SplitCommands ["run"%bs; "&&"%bs; "quit"%bs]))
  = kCommandDelimiter :: ["run"%bs; "&&"%bs; "quit"%bs].
Proof. apply (proj2 (SplitCommands_spec ["run"%bs; "&&"%bs; "quit"%bs])). discriminate. Defined.

(** *** Reading [0x%0<w>x] without a check *)

Lemma MaybeParseUint32_ParseUint32 s n : MaybeParseUint32 s = Some n → ParseUint32 s = n.
Proof.
  unfold MaybeParseUint32, ParseUint32. destruct (strtoul _ s) as [ret e].
  destruct (conversion_rejected s e); [done|]. by intros [= <-].
Qed.

Lemma ParseUint32_fmt_0x w n : is_u32 n → ParseUint32 ("0x"%bs ++ fmt_0x w n) = n.
Proof. intros Hn. by apply MaybeParseUint32_ParseUint32, MaybeParseUint32_hex. Qed.

Lemma ParseInt32_fmt_0x w n : is_u32 n → ParseInt32 ("0x"%bs ++ fmt_0x w n) = i32 n.
Proof.
  intros [Hn0 Hn]. pose proof (fmt_0x_digits w n Hn0) as Hd. pose proof (fmt_0x_value w n Hn0) as Hv.
  assert (fmt_0x w n ≠ []) as Hne.
  { unfold fmt_0x, pad_left. intros [_ H]%app_nil. by apply print_base_nonempty in H. }
  unfold ParseInt32.
  assert (GetIntegerBase ("0x"%bs ++ fmt_0x w n) = 16) as ->.
  { unfold GetIntegerBase. destruct (fmt_0x w n); [done|].
    rewrite (proj2 (Z.ltb_lt _ _)) by (cbn; lia). reflexivity. }
  pose proof (strtol_0x (fmt_0x w n) [] Hd Hne I) as E. rewrite app_nil_r, Hv in E.
  by rewrite E by (unfold LONG_MAX; lia).
Qed.
