(* ===== verification/RdcpResponse.v ===== *)
(** * XBDM responses (src/rdcp/rdcp_response.cpp, rdcp_status_code.h)

    One response is recognised at the front of the receive buffer: a status
    line, followed for some codes by lines or by binary data. *)

From S2P Require Import Prelude CLib.

(** ** Status codes: a [uint32_t] enumeration *)

Definition StatusCode := Z.

Definition INVALID : StatusCode := 0.
Definition OK : StatusCode := 200.
Definition OK_CONNECTED : StatusCode := 201.
Definition OK_MULTILINE_RESPONSE : StatusCode := 202.
Definition OK_BINARY_RESPONSE : StatusCode := 203.
Definition OK_SEND_BINARY_DATA : StatusCode := 204.
Definition OK_CONNECTION_DEDICATED : StatusCode := 205.
Definition ERR_UNEXPECTED : StatusCode := 400.
Definition ERR_MAX_CONNECTIONS_EXCEEDED : StatusCode := 401.
Definition ERR_FILE_NOT_FOUND : StatusCode := 402.
Definition ERR_NO_SUCH_MODULE : StatusCode := 403.
Definition ERR_MEMORY_NOT_MAPPED : StatusCode := 404.
Definition ERR_NO_SUCH_THREAD : StatusCode := 405.
Definition ERR_FAILED_TO_SET_SYSTEM_TIME : StatusCode := 406.
Definition ERR_UNKNOWN_COMMAND : StatusCode := 407.
Definition ERR_NOT_STOPPED : StatusCode := 408.
Definition ERR_FILE_MUST_BE_COPIED : StatusCode := 409.
Definition ERR_EXISTS : StatusCode := 410.
Definition ERR_DIRECTORY_NOT_EMPTY : StatusCode := 411.
Definition ERR_FILENAME_INVALID : StatusCode := 412.
Definition ERR_CREATE_FILE_FAILED : StatusCode := 413.
Definition ERR_ACCESS_DENIED : StatusCode := 414.
Definition ERR_NO_ROOM_ON_DEVICE : StatusCode := 415.
Definition ERR_NOT_DEBUGGABLE : StatusCode := 416.
Definition ERR_TYPE_INVALID : StatusCode := 417.
Definition ERR_DATA_NOT_AVAILABLE : StatusCode := 418.
Definition ERR_BOX_NOT_LOCKED : StatusCode := 420.
Definition ERR_KEY_EXCHANGE_REQUIRED : StatusCode := 421.
Definition ERR_DEDICATED_CONNECTION_REQUIRED : StatusCode := 422.
Definition ERR_NOT_CONNECTED : StatusCode := 503.
Definition ERR_ABANDONED : StatusCode := 520.

Record RDCPResponse := MkResponse {
  status_ : StatusCode;
  response_message_ : bytes;
  data_ : bytes
}.

Definition kTerminator : bytes := [Byte.x0d; Byte.x0a].
Definition kTerminatorLen : nat := 2.
Definition kMultilineTerminator : bytes := [Byte.x0d; Byte.x0a; "."%byte; Byte.x0d; Byte.x0a].
Definition kMultilineTerminatorLen : nat := 5.

(** [ReadBinarySizeFunc] reads the bytes available and their [uint32_t] count,
    and answers the size of the data and the length of the prefix to skip.  The
    closures of the program may also update the request they belong to, the
    state [S].  The outer [None] is an exception thrown by the closure. *)
Definition ReadBinarySizeFunc (S : Type) : Type := bytes → Z → S → option (option (Z * Z) * S).

(** The data and the end of the body, as an offset into [body]. *)
Definition ParseMultilineResponse (body : bytes) : option (bytes * nat) :=
  match find_sub kMultilineTerminator body with
  | None => None
  | Some n => Some (take n body, n + kMultilineTerminatorLen)%nat
  end.

Section Parse.
Context {S : Type}.

Definition ParseBinaryResponse (size_parser : option (ReadBinarySizeFunc S)) (buffer : bytes) (s : S)
    : option (option (bytes * nat) * S) :=
  match size_parser with
  | None => Some (None, s)
  | Some f =>
    let bytes_available := u32 (Z.of_nat (length buffer)) in
    match f buffer bytes_available s with
    | None => None
    | Some (None, s') => Some (None, s')
    | Some (Some (size, consumed), s') =>
      let bytes_available := u32 (bytes_available - consumed) in
      if bytes_available <? size then Some (None, s')
      else
        let body := drop (Z.to_nat consumed) buffer in
        Some (Some (take (Z.to_nat size) body, (Z.to_nat consumed + Z.to_nat size)%nat), s')
    end
  end.

(** The range [\[buffer + 5, terminator)] of the message is invalid when the
    line is exactly [ddd-]: the code then throws; that is the outer [None]. *)
Definition message_of (buffer : bytes) (terminator : nat) : option bytes :=
  if (terminator <? 5)%nat then None else Some (drop 5 (take terminator buffer)).

(** The returned [long] (positive: bytes of a complete response; negative:
    bytes to discard; zero: wait for more), the response, and the request's
    state. *)
Definition Parse (buffer : bytes) (size_parser : option (ReadBinarySizeFunc S)) (s : S)
    : option (Z * option RDCPResponse * S) :=
  if (length buffer <? 4)%nat then Some (0, None, s)
  else
    match find_sub kTerminator buffer with
    | None => Some (0, None, s)
    | Some terminator =>
      let packet_size := (terminator + kTerminatorLen)%nat in
      if (packet_size <? 4)%nat then Some (- Z.of_nat packet_size, None, s)
      else if negb (bool_decide (buffer !! 3%nat = Some "-"%byte)) then
        Some (- Z.of_nat packet_size, None, s)
      else
        let status := u32 (strtol 10 (take 3 buffer)).1 in
        if status =? OK_MULTILINE_RESPONSE then
          match message_of buffer terminator with
          | None => None
          | Some message =>
            if starts_with kMultilineTerminator (drop terminator buffer) then
              Some (Z.of_nat (terminator + kMultilineTerminatorLen),
                    Some (MkResponse status message []), s)
            else
              match ParseMultilineResponse (drop packet_size buffer) with
              | None => Some (0, None, s)
              | Some (data, after) =>
                Some (Z.of_nat (packet_size + after), Some (MkResponse status message data), s)
              end
          end
        else if status =? OK_BINARY_RESPONSE then
          match ParseBinaryResponse size_parser (drop packet_size buffer) s with
          | None => None
          | Some (None, s') => Some (0, None, s')
          | Some (Some (data, after), s') =>
            Some (Z.of_nat (packet_size + after), Some (MkResponse status [] data), s')
          end
        else
          match message_of buffer terminator with
          | None => None
          | Some message =>
            Some (Z.of_nat packet_size, Some (MkResponse status message message), s)
          end
    end.
End Parse.

(** ** Framing *)

(** A size parser whose answer never changes when more bytes arrive. *)
Class StableParser {S} (f : ReadBinarySizeFunc S) : Prop := stable_parser :
  ∀ b x s,
    Z.of_nat (length (b ++ x)) < 2 ^ 32 →
    match f b (u32 (Z.of_nat (length b))) s with
    | Some (None, _) => True
    | None => f (b ++ x) (u32 (Z.of_nat (length (b ++ x)))) s = None
    | Some (Some (size, consumed), s') =>
      f (b ++ x) (u32 (Z.of_nat (length (b ++ x)))) s = Some (Some (size, consumed), s')
      ∧ 0 ≤ consumed ≤ Z.of_nat (length b) ∧ 0 ≤ size
    end.

Section Framing.
Context {S : Type}.
Implicit Types (sp : option (ReadBinarySizeFunc S)) (s : S).

Definition stable sp : Prop := match sp with Some f => StableParser f | None => True end.

Lemma ParseBinaryResponse_extend sp b x s :
  stable sp → Z.of_nat (length (b ++ x)) < 2 ^ 32 →
  match ParseBinaryResponse sp b s with
  | None => ParseBinaryResponse sp (b ++ x) s = None
  | Some (None, _) => True
  | Some (Some (data, after), s') =>
    ParseBinaryResponse sp (b ++ x) s = Some (Some (data, after), s') ∧ (after ≤ length b)%nat
  end.
Proof.
  destruct sp as [f|]; cbn [stable ParseBinaryResponse]; [|done]. intros Hf Hl.
  pose proof (stable_parser (f := f) b x s Hl) as Hstable.
  destruct (f b _ s) as [[[[size consumed]|] s1]|]; [|done|by rewrite Hstable].
  destruct Hstable as (-> & Hc & Hs). cbv beta iota zeta.
  rewrite length_app, Nat2Z.inj_add in *.
  rewrite (u32_id (Z.of_nat (length b))), !(u32_id (Z.of_nat (length b) + Z.of_nat (length x))) by (unfold is_u32; lia).
  rewrite !u32_id by (unfold is_u32; lia).
  destruct (Z.ltb_spec (Z.of_nat (length b) - consumed) size); [done|].
  rewrite (proj2 (Z.ltb_ge _ _)) by lia. split; [|lia].
  rewrite drop_app_le by lia. rewrite take_app_le by (rewrite length_drop; lia). done.
Qed.

Lemma ParseMultilineResponse_extend b x data after :
  ParseMultilineResponse b = Some (data, after) →
  ParseMultilineResponse (b ++ x) = Some (data, after) ∧ (after ≤ length b)%nat.
Proof.
  unfold ParseMultilineResponse. destruct (find_sub kMultilineTerminator b) as [n|] eqn:E; [|done].
  intros [= <- <-]. rewrite (find_sub_extend _ _ x _ E).
  apply find_sub_length in E. change (length kMultilineTerminator) with kMultilineTerminatorLen in E.
  split; [|done]. by rewrite take_app_le by lia.
Qed.

(** Whatever [Parse] decides about a buffer, other than to wait, it decides
    about every extension of the buffer. *)
Lemma Parse_response_extend sp b x s :
  stable sp → Z.of_nat (length (b ++ x)) < 2 ^ 32 →
  match Parse b sp s with
  | None => Parse (b ++ x) sp s = None
  | Some (n, r, s') =>
    n ≠ 0 → Parse (b ++ x) sp s = Some (n, r, s') ∧ (Z.abs n ≤ Z.of_nat (length b))
  end.
Proof.
  intros Hf Hl. unfold Parse at 1. destruct (Nat.ltb_spec (length b) 4) as [|H4]; [done|].
  destruct (find_sub kTerminator b) as [t|] eqn:E; [|done].
  pose proof (find_sub_length _ _ _ E) as Ht. change (length kTerminator) with 2%nat in Ht.
  unfold Parse. rewrite (proj2 (Nat.ltb_ge (length (b ++ x)) 4)) by (rewrite length_app; lia).
  rewrite (find_sub_extend _ _ x _ E).
  rewrite lookup_app_l by lia. rewrite (take_app_le b x 3) by lia.
  assert (message_of (b ++ x) t = message_of b t) as ->
    by (unfold message_of; by rewrite take_app_le by lia).
  rewrite (drop_app_le b x t), (drop_app_le b x (t + kTerminatorLen)) by (unfold kTerminatorLen; lia).
  destruct (Nat.ltb_spec (t + kTerminatorLen) 4) as [|Hp]; [intros _; split; [done|unfold kTerminatorLen; lia]|].
  destruct (negb _); [intros _; split; [done|unfold kTerminatorLen; lia]|].
  destruct (_ =? OK_MULTILINE_RESPONSE).
  - destruct (message_of b t) as [m|]; [|done].
    destruct (starts_with kMultilineTerminator (drop t b)) eqn:Em.
    + rewrite (starts_with_extend _ _ x Em). intros _. split; [done|].
      apply starts_with_true in Em as [y Ey]. apply (f_equal length) in Ey.
      rewrite length_drop, length_app in Ey. cbn [length kMultilineTerminator] in Ey.
      unfold kMultilineTerminatorLen. lia.
    + destruct (ParseMultilineResponse (drop (t + kTerminatorLen) b)) as [[data after]|] eqn:Ep; [|done].
      destruct (ParseMultilineResponse_extend _ x _ _ Ep) as [Ex Ha]. intros _.
      unfold ParseMultilineResponse in Ep.
      destruct (find_sub kMultilineTerminator (drop (t + kTerminatorLen) b)) as [k|] eqn:Ek; [|done].
      apply find_sub_length in Ek. rewrite length_drop in Ek, Ha.
      change (length kMultilineTerminator) with 5%nat in Ek. unfold kTerminatorLen in *.
      rewrite starts_with_long, Em by (rewrite length_drop; change (length kMultilineTerminator) with 5%nat; lia).
      rewrite Ex. split; [done|lia].
  - destruct (_ =? OK_BINARY_RESPONSE).
    + pose proof (ParseBinaryResponse_extend sp (drop (t + kTerminatorLen) b) x s Hf
        ltac:(rewrite length_app, length_drop in *; lia)) as Hb.
      destruct (ParseBinaryResponse sp (drop (t + kTerminatorLen) b) s) as [[[[data after]|] s1]|];
        [|done|by rewrite Hb].
      destruct Hb as [-> Ha]. intros _.
      rewrite length_drop in Ha. unfold kTerminatorLen in *. split; [done|lia].
    + destruct (message_of b t) as [m|]; [|done]. intros _. unfold kTerminatorLen in *. split; [done|lia].
Qed.
End Framing.

(** ** What the debug monitor sends *)

Inductive reply :=
  | SingleLine (code : Z) (message : bytes)
  | MultiLine (message : bytes) (lines : list bytes)
  | Binary (message prefix data : bytes).

Definition status_line (code : Z) (message : bytes) : bytes := fmt_u code ++ "- "%bs ++ message.

Definition reply_image (r : reply) : bytes :=
  match r with
  | SingleLine code message => status_line code message ++ kTerminator
  | MultiLine message lines =>
    status_line OK_MULTILINE_RESPONSE message
    ++ concat (map (λ l, kTerminator ++ l) lines) ++ kMultilineTerminator
  | Binary message prefix data =>
    status_line OK_BINARY_RESPONSE message ++ kTerminator ++ prefix ++ data
  end.

(** Lines joined by the terminator: the data of a multi-line response. *)
Fixpoint unlines (lines : list bytes) : bytes :=
  match lines with
  | [] => []
  | [l] => l
  | l :: lines' => l ++ kTerminator ++ unlines lines'
  end.

Definition CR : byte := Byte.x0d.

Definition line_ok (l : bytes) : Prop := CR ∉ l ∧ l ≠ "."%bs.

Definition reply_response (r : reply) : RDCPResponse :=
  match r with
  | SingleLine code message => MkResponse code message message
  | MultiLine message lines => MkResponse OK_MULTILINE_RESPONSE message (unlines lines)
  | Binary _ _ data => MkResponse OK_BINARY_RESPONSE [] data
  end.

(** A reply a request with size parser [sp] in state [s] can get. *)
Definition reply_ok {S} (sp : option (ReadBinarySizeFunc S)) (s s' : S) (r : reply) : Prop :=
  match r with
  | SingleLine code message =>
    100 ≤ code < 1000 ∧ code ≠ OK_MULTILINE_RESPONSE ∧ code ≠ OK_BINARY_RESPONSE ∧ CR ∉ message ∧ s' = s
  | MultiLine message lines => CR ∉ message ∧ Forall line_ok lines ∧ s' = s
  | Binary message prefix data =>
    CR ∉ message ∧
    match sp with
    | Some f => f (prefix ++ data) (u32 (Z.of_nat (length (prefix ++ data)))) s
                = Some (Some (Z.of_nat (length data), Z.of_nat (length prefix)), s')
    | None => False
    end
  end.

(** *** Status lines *)

Definition code_check (code : Z) : bool :=
  bool_decide (length (fmt_u code) = 3%nat ∧ CR ∉ fmt_u code) && ((strtol 10 (fmt_u code)).1 =? code).

Lemma code_checked code :
  100 ≤ code < 1000 → length (fmt_u code) = 3%nat ∧ CR ∉ fmt_u code ∧ (strtol 10 (fmt_u code)).1 = code.
Proof.
  intros H. assert (forallb code_check (seqZ 100 900) = true) as Hall by (vm_compute; reflexivity).
  rewrite forallb_forall in Hall.
  assert (code_check code = true) as E by (apply Hall, list_elem_of_In, elem_of_seqZ; lia).
  unfold code_check in E. apply andb_prop in E as [[? ?]%bool_decide_eq_true ?%Z.eqb_eq]. done.
Qed.

Lemma find_terminator a rest : CR ∉ a → find_sub kTerminator (a ++ kTerminator ++ rest) = Some (length a).
Proof. apply (find_sub_first CR [Byte.x0a]). Qed.

(** [Parse] after a status line: what is left is the choice of the body. *)
Lemma Parse_status_line {S} code message rest (sp : option (ReadBinarySizeFunc S)) s :
  100 ≤ code < 1000 → CR ∉ message →
  let t := length (status_line code message) in
  let b := status_line code message ++ kTerminator ++ rest in
  Parse b sp s =
    if code =? OK_MULTILINE_RESPONSE then
      if starts_with kMultilineTerminator (kTerminator ++ rest) then
        Some (Z.of_nat (t + kMultilineTerminatorLen), Some (MkResponse code message []), s)
      else match ParseMultilineResponse rest with
           | None => Some (0, None, s)
           | Some (data, after) =>
             Some (Z.of_nat (t + kTerminatorLen + after), Some (MkResponse code message data), s)
           end
    else if code =? OK_BINARY_RESPONSE then
      match ParseBinaryResponse sp rest s with
      | None => None
      | Some (None, s') => Some (0, None, s')
      | Some (Some (data, after), s') =>
        Some (Z.of_nat (t + kTerminatorLen + after), Some (MkResponse code [] data), s')
      end
    else Some (Z.of_nat (t + kTerminatorLen), Some (MkResponse code message message), s).
Proof.
  intros Hcode Hm t b. destruct (code_checked code Hcode) as (Hl & Hcr & Hv).
  assert (t = (5 + length message)%nat) as Ht
    by (unfold t, status_line; rewrite !length_app, Hl; reflexivity).
  assert (find_sub kTerminator b = Some t) as E.
  { apply find_terminator. unfold status_line. set_solver. }
  unfold Parse. rewrite E. clear E.
  rewrite (proj2 (Nat.ltb_ge (length b) 4)) by (unfold b; rewrite !length_app; fold t; lia).
  rewrite (proj2 (Nat.ltb_ge (t + kTerminatorLen) 4)) by (unfold kTerminatorLen; lia).
  assert (b !! 3%nat = Some "-"%byte) as ->.
  { unfold b, status_line. rewrite <- app_assoc, lookup_app_r by lia. by rewrite Hl. }
  rewrite bool_decide_eq_true_2 by done. cbn [negb].
  assert (take 3 b = fmt_u code) as ->.
  { unfold b, status_line. rewrite <- app_assoc. apply take_app_length'. by rewrite Hl. }
  rewrite Hv, u32_id by (unfold is_u32; lia).
  assert (message_of b t = Some message) as ->.
  { unfold message_of. rewrite (proj2 (Nat.ltb_ge t 5)) by lia. f_equal.
    unfold b, t. rewrite take_app_length. unfold status_line. rewrite app_assoc.
    apply drop_app_length'. by rewrite length_app, Hl. }
  replace (drop t b) with (kTerminator ++ rest) by (unfold b, t; by rewrite drop_app_length).
  unfold b.
  assert (drop (t + kTerminatorLen) (status_line code message ++ kTerminator ++ rest) = rest) as ->.
  { rewrite app_assoc. apply drop_app_length'. by rewrite length_app. }
  reflexivity.
Qed.

(** *** Multi-line bodies *)

Lemma not_terminator_line l rest :
  line_ok l → starts_with kMultilineTerminator (kTerminator ++ l ++ kTerminator ++ rest) = false.
Proof.
  intros [Hcr Hdot]. unfold starts_with. apply bool_decide_eq_false.
  destruct l as [|a [|c l]]; cbn; [done| |].
  - intros [= ->]. done.
  - intros [= -> ->]. set_solver.
Qed.

Lemma concat_unlines l lines rest :
  concat (map (λ l, kTerminator ++ l) (l :: lines)) ++ rest = kTerminator ++ unlines (l :: lines) ++ rest.
Proof.
  revert l; induction lines as [|l' lines IH]; intros l.
  - cbn [map concat unlines]. by rewrite app_nil_r, <- app_assoc.
  - change (unlines (l :: l' :: lines)) with (l ++ kTerminator ++ unlines (l' :: lines)).
    specialize (IH l'). cbn [map concat] in *. rewrite <- !app_assoc in *. by rewrite IH.
Qed.

Lemma find_multiline_terminator l lines rest :
  Forall line_ok (l :: lines) →
  find_sub kMultilineTerminator (unlines (l :: lines) ++ kMultilineTerminator ++ rest)
  = Some (length (unlines (l :: lines))).
Proof.
  intros Hall. revert l Hall. induction lines as [|l' lines IH]; intros l Hall;
    apply Forall_cons in Hall as [[Hcr _] Hall].
  - cbn [unlines]. by apply (find_sub_first CR).
  - change (unlines (l :: l' :: lines)) with (l ++ kTerminator ++ unlines (l' :: lines)).
    rewrite <- !app_assoc. unfold kMultilineTerminator at 1. rewrite find_sub_skip by done.
    fold kMultilineTerminator. specialize (IH l' Hall). apply Forall_cons in Hall as [Hl' _].
    set (tail := unlines (l' :: lines) ++ kMultilineTerminator ++ rest) in *.
    assert (starts_with kMultilineTerminator (kTerminator ++ tail) = false) as E.
    { unfold tail. destruct lines as [|l'' lines]; cbn [unlines]; rewrite <- ?app_assoc;
        apply (not_terminator_line l'); done. }
    assert (find_sub kMultilineTerminator (kTerminator ++ tail)
            = (λ n, (2 + n)%nat) <$> find_sub kMultilineTerminator tail) as ->.
    { change (kTerminator ++ tail) with (CR :: Byte.x0a :: tail) in *. cbn [find_sub].
      rewrite E.
      assert (starts_with kMultilineTerminator (Byte.x0a :: tail) = false) as -> by (by apply starts_with_cons_ne). by destruct (find_sub kMultilineTerminator tail). }
    rewrite IH. cbn [fmap option_fmap option_map]. f_equal. rewrite !length_app. cbn [length kTerminator]. lia.
Qed.

(** *** Reading a reply *)

Lemma Parse_reply {S} (sp : option (ReadBinarySizeFunc S)) s s' r rest :
  stable sp → reply_ok sp s s' r → Z.of_nat (length (reply_image r ++ rest)) < 2 ^ 32 →
  Parse (reply_image r ++ rest) sp s
  = Some (Z.of_nat (length (reply_image r)), Some (reply_response r), s').
Proof.
  intros Hsp Hok Hlen. destruct r as [code message|message lines|message prefix data]; cbn [reply_image] in *.
  - destruct Hok as (Hcode & H1 & H2 & Hm & ->). rewrite <- app_assoc, Parse_status_line by done. cbv zeta.
    rewrite (proj2 (Z.eqb_neq _ _) H1), (proj2 (Z.eqb_neq _ _) H2).
    do 3 f_equal. by rewrite length_app.
  - destruct Hok as (Hm & Hlines & ->). unfold OK_MULTILINE_RESPONSE in *.
    destruct lines as [|l lines].
    + change (concat (map (λ l, kTerminator ++ l) []) ++ kMultilineTerminator)
        with (kTerminator ++ ("."%bs ++ kTerminator)).
      rewrite <- !app_assoc, Parse_status_line by (done || lia). cbv zeta.
      change (202 =? OK_MULTILINE_RESPONSE) with true. cbv iota.
      change (kTerminator ++ "."%bs ++ kTerminator ++ rest) with (kMultilineTerminator ++ rest).
      rewrite starts_with_app. do 3 f_equal. rewrite !length_app. reflexivity.
    + rewrite <- app_assoc, <- (app_assoc (concat _)), concat_unlines, Parse_status_line by (done || lia).
      cbv zeta. change (202 =? OK_MULTILINE_RESPONSE) with true. cbv iota.
      assert (starts_with kMultilineTerminator
                (kTerminator ++ unlines (l :: lines) ++ kMultilineTerminator ++ rest) = false) as ->.
      { apply Forall_cons in Hlines as [Hl _]. destruct lines as [|l' lines]; cbn [unlines]; rewrite <- ?app_assoc.
        - by apply (not_terminator_line l ("."%bs ++ kTerminator ++ rest)).
        - by apply not_terminator_line. }
      unfold ParseMultilineResponse. rewrite find_multiline_terminator by done.
      rewrite take_app_length. do 3 f_equal.
      pose proof (concat_unlines l lines kMultilineTerminator) as E. rewrite length_app, E, !length_app.
      change (length kMultilineTerminator) with 5%nat. change (length kTerminator) with 2%nat.
      unfold kTerminatorLen, kMultilineTerminatorLen. lia.
  - destruct Hok as (Hm & Hf). destruct sp as [f|]; [|done]. cbn [stable] in Hsp.
    unfold OK_BINARY_RESPONSE in *. rewrite <- !app_assoc in *. rewrite Parse_status_line by (done || lia).
    cbv zeta. change (203 =? OK_MULTILINE_RESPONSE) with false. change (203 =? OK_BINARY_RESPONSE) with true.
    cbv iota. rewrite !length_app in Hlen.
    assert (ParseBinaryResponse (Some f) (prefix ++ data) s = Some (Some (data, length (prefix ++ data)), s')) as E.
    { unfold ParseBinaryResponse. rewrite Hf. rewrite length_app.
      rewrite (u32_id (Z.of_nat (_ + _))) by (unfold is_u32; lia).
      rewrite u32_id by (unfold is_u32; lia). rewrite (proj2 (Z.ltb_ge _ _)) by lia.
      rewrite !Nat2Z.id, drop_app_length, take_ge by lia. done. }
    pose proof (ParseBinaryResponse_extend (Some f) (prefix ++ data) rest s Hsp ltac:(rewrite !length_app; lia)) as Hx.
    rewrite E in Hx. destruct Hx as [Hx _]. clear E. rename Hx into E.
    rewrite <- app_assoc in E. rewrite E. do 3 f_equal. rewrite !length_app.
    change (length kTerminator) with 2%nat. unfold kTerminatorLen. lia.
Qed.

Lemma Parse_incomplete {S} (sp : option (ReadBinarySizeFunc S)) s s' r p q :
  stable sp → reply_ok sp s s' r → Z.of_nat (length (reply_image r)) < 2 ^ 32 → reply_image r = p ++ q → q ≠ [] →
  ∃ s1, Parse p sp s = Some (0, None, s1).
Proof.
  intros Hsp Hok Hlen E Hq. rewrite <- (app_nil_r (reply_image r)) in Hlen. set (rest := @nil byte) in *.
  pose proof (Parse_reply sp s s' r rest Hsp Hok Hlen) as Hfull.
  rewrite E, <- app_assoc in Hfull, Hlen. pose proof (Parse_response_extend sp p (q ++ rest) s Hsp Hlen) as Hext.
  assert (length p < length (p ++ q))%nat by (rewrite length_app; destruct q; [done|cbn; lia]).
  destruct (Parse p sp s) as [[[n rr] s1]|] eqn:Ep; [|congruence].
  destruct (decide (n = 0)) as [->|Hn].
  - exists s1. enough (rr = None) as -> by done.
    unfold Parse in Ep. repeat case_match; simplify_eq/=; try done; unfold kTerminatorLen, kMultilineTerminatorLen in *; try lia.
  - destruct (Hext Hn) as [Hext' Hb]. rewrite Hfull in Hext'. injection Hext' as <- _ _. lia.
Qed.

(** C4. Framing of the debug monitor's replies: a well-formed reply (status
    line, multi-line body, or binary data whose size the request announces)
    followed by anything is read as exactly that reply, consuming exactly its
    bytes; and as long as the reply is incomplete, [Parse] asks for more bytes,
    whatever the sizes of the chunks it arrives in. *)
Theorem response_framing {S} (sp : option (ReadBinarySizeFunc S)) s s' r rest
  (Hsp : stable sp) (Hok : reply_ok sp s s' r)
  (Hlen : Z.of_nat (length (reply_image r ++ rest)) < 2 ^ 32) :
  Parse (reply_image r ++ rest) sp s
    = Some (Z.of_nat (length (reply_image r)), Some (reply_response r), s')
  ∧ ∀ p q, reply_image r = p ++ q → q ≠ [] → ∃ s1, Parse p sp s = Some (0, None, s1).
Proof.
  split; [by apply Parse_reply|]. intros p q E Hq. eapply Parse_incomplete; [done..| |done|done].
  rewrite length_app in Hlen. lia.
Qed.

Lemma response_framing_witness :
  let r := MultiLine "multiline response follows"%bs ["name=a"%bs; []; "..x"%bs] in
  Parse (S := unit) (reply_image r ++ "200- OK"%bs) None tt
    = Some (Z.of_nat (length (reply_image r)), Some (reply_response r), tt)
  ∧ ∀ p q, reply_image r = p ++ q → q ≠ [] → ∃ s1, Parse p None tt = Some (0, None, s1).
Proof.
  apply (response_framing (S := unit) None tt tt (MultiLine "multiline response follows"%bs ["name=a"%bs; []; "..x"%bs])).
  - exact I.
  - cbn [reply_ok]. apply (bool_decide_unpack _). vm_compute. exact I.
  - vm_compute. reflexivity.
Defined.

(** [Parse] is incremental: a decision it has taken about a buffer, a
    response, a number of bytes to discard, or the exception of a line [ddd-],
    is the decision it takes about any longer buffer, and it never consumes
    more than it was given. *)
Theorem Parse_response_incremental {S} (sp : option (ReadBinarySizeFunc S)) b x s
  (Hsp : stable sp) (Hlen : Z.of_nat (length (b ++ x)) < 2 ^ 32) :
  match Parse b sp s with
  | None => Parse (b ++ x) sp s = None
  | Some (n, r, s') => n ≠ 0 → Parse (b ++ x) sp s = Some (n, r, s') ∧ Z.abs n ≤ Z.of_nat (length b)
  end.
Proof. by apply Parse_response_extend. Qed.

Lemma Parse_response_incremental_witness :
  let b := "200- OK"%bs ++ kTerminator in
  match Parse (S := unit) b None tt with
  | None => Parse (b ++ "201"%bs) None tt = None
  | Some (n, r, s') =>
    n ≠ 0 → Parse (b ++ "201"%bs) None tt = Some (n, r, s') ∧ Z.abs n ≤ Z.of_nat (length b)
  end.
Proof.
  apply (Parse_response_incremental (S := unit) None ("200- OK"%bs ++ kTerminator) "201"%bs tt).
  - exact I.
  - vm_compute. reflexivity.
Defined.
