(* ===== verification/RdcpMaps.v ===== *)
(** * Parsed responses (src/rdcp/rdcp_response_processors.h, .cpp)

    The [key=value] maps and line lists the requests read from the body of a
    response. *)

From S2P Require Import Prelude CLib Boost Parsing RdcpResponse.

Record RDCPMapResponse := MkMap {
  rmap : gmap bytes bytes;
  valueless_keys : gset bytes
}.

Definition empty_response : RDCPMapResponse := MkMap ∅ ∅.

Definition equals : byte := "="%byte.

Section Processors.
Context `{!Boost}.

Definition SplitMultiline (data : bytes) : list bytes :=
  match data with
  | [] => []
  | _ => split_regex kTerminator data
  end.

Definition RDCPMultilineResponse (data : bytes) : list bytes := SplitMultiline data.

(** One token; reading [token\[token.size()\]] yields the terminator. *)
Definition insert_token (token : bytes) (r : RDCPMapResponse) : RDCPMapResponse :=
  match find_byte equals token with
  | None =>
    let key := to_lower_copy token in
    MkMap (<[key := []]> (rmap r)) ({[key]} ∪ valueless_keys r)
  | Some delimiter =>
    let key := to_lower_copy (take delimiter token) in
    if decide (default NUL (token !! S delimiter) = quote) then
      let value := replace_all (take (length token - 1) (drop (delimiter + 2) token)) [backslash; quote] [quote] in
      MkMap (<[key := value]> (rmap r)) (valueless_keys r)
    else
      MkMap (<[key := drop (S delimiter) token]> (rmap r)) (valueless_keys r)
  end.

(** [None] is [boost::escaped_list_error] thrown by the tokenizer. *)
Definition RDCPMapResponse_of (data : bytes) : option RDCPMapResponse :=
  match data with
  | [] => Some empty_response
  | _ =>
    let sanitized_data := replace_all data kTerminator [space] in
    keyvals ← escaped_list sanitized_data;
    Some (fold_left (λ r token, insert_token token r) keyvals empty_response)
  end.

Definition RDCPMultiMapResponse (data : bytes) : option (list RDCPMapResponse) :=
  mapM RDCPMapResponse_of (SplitMultiline data).

(** *** Access *)

Definition lookup_key (key : bytes) (r : RDCPMapResponse) : option bytes := rmap r !! to_lower_copy key.

Definition HasKey (key : bytes) (r : RDCPMapResponse) : bool := bool_decide (is_Some (lookup_key key r)).

(** [HasAnyOf] looks its arguments up as they are. *)
Definition HasAnyOf (keys : list bytes) (r : RDCPMapResponse) : bool :=
  existsb (λ key, bool_decide (is_Some (rmap r !! key))) keys.

Definition GetString (key default_value : bytes) (r : RDCPMapResponse) : bytes :=
  match lookup_key key r with None => default_value | Some v => v end.

Definition GetOptionalDWORD (key : bytes) (r : RDCPMapResponse) : option Z :=
  match lookup_key key r with None => None | Some v => Some (i32 (ParseUint32 v)) end.

Definition GetDWORD (key : bytes) (default_value : Z) (r : RDCPMapResponse) : Z :=
  match lookup_key key r with None => default_value | Some v => i32 (ParseUint32 v) end.

Definition GetUInt32 (key : bytes) (default_value : Z) (r : RDCPMapResponse) : Z :=
  match lookup_key key r with None => default_value | Some v => ParseUint32 v end.

Definition GetQWORD (low_key high_key : bytes) (default_value : Z) (r : RDCPMapResponse) : Z :=
  match lookup_key low_key r with
  | None => default_value
  | Some lo =>
    let low := ParseUint32 lo in
    match lookup_key high_key r with
    | None => default_value
    | Some hi => i64 (Z.shiftl (ParseInt32 hi) 32 + low)
    end
  end.
End Processors.

(** ** What the debug monitor writes on one line *)

Inductive entry :=
  | Flag (key : bytes)
  | Pair (key value : bytes)
  | QuotedPair (key value : bytes).

Definition entry_field (e : entry) : list segment :=
  match e with
  | Flag key => [Plain key]
  | Pair key value => [Plain (key ++ equals :: value)]
  | QuotedPair key value => [Plain (key ++ [equals]); Quoted value]
  end.

(** A line of entries separated by one space. *)
Definition line_of (es : list entry) : bytes := join [space] (map (λ e, field_image (entry_field e)) es).

(** Characters with a meaning of their own in a response. *)
Definition plain_text (s : bytes) : Prop := NUL ∉ s ∧ quote ∉ s ∧ CR ∉ s.

#[global] Instance plain_text_dec s : Decision (plain_text s).
Proof. unfold plain_text. apply _. Defined.

Definition key_ok (k : bytes) : Prop := plain_text k ∧ space ∉ k ∧ equals ∉ k.

#[global] Instance key_ok_dec k : Decision (key_ok k).
Proof. unfold key_ok. apply _. Defined.

Definition entry_ok (e : entry) : Prop :=
  match e with
  | Flag k => key_ok k
  | Pair k v => key_ok k ∧ plain_text v ∧ space ∉ v
  | QuotedPair k v => key_ok k ∧ plain_text v
  end.

Definition insert_entry `{!Boost} (r : RDCPMapResponse) (e : entry) : RDCPMapResponse :=
  match e with
  | Flag k => MkMap (<[to_lower_copy k := []]> (rmap r)) ({[to_lower_copy k]} ∪ valueless_keys r)
  | Pair k v | QuotedPair k v => MkMap (<[to_lower_copy k := v]> (rmap r)) (valueless_keys r)
  end.

Definition entries_map `{!Boost} (es : list entry) : RDCPMapResponse :=
  fold_left insert_entry es empty_response.

Lemma entry_segments_ok e : entry_ok e → Forall segment_ok (entry_field e).
Proof.
  unfold segment_ok. destruct e as [k|k v|k v]; cbn [entry_ok entry_field].
  - intros ((?&?&?)&?&?). repeat constructor; cbn [segment_text]; done.
  - intros (((?&?&?)&?&?)&(?&?&?)&?). repeat constructor; cbn [segment_text]; unfold equals in *; set_solver.
  - intros (((?&?&?)&?&?)&(?&?&?)). repeat constructor; cbn [segment_text]; unfold equals in *; set_solver.
Qed.

Lemma entry_image_no_CR e : entry_ok e → CR ∉ field_image (entry_field e).
Proof.
  destruct e as [k|k v|k v]; unfold field_image; cbn; rewrite ?app_nil_r;
    unfold key_ok, plain_text, equals; set_solver.
Qed.

Lemma join_no_CR sep ps : CR ∉ sep → Forall (λ p, CR ∉ p) ps → CR ∉ join sep ps.
Proof.
  intros Hs. induction 1 as [|p ps Hp Hps IH]; [apply not_elem_of_nil|].
  destruct ps as [|b ps]; [done|].
  change (join sep (p :: b :: ps)) with (p ++ sep ++ join sep (b :: ps)). set_solver.
Qed.

Lemma line_of_no_CR es : Forall entry_ok es → CR ∉ line_of es.
Proof.
  intros H. apply join_no_CR; [set_solver|]. apply Forall_map. eapply Forall_impl; [done|].
  apply entry_image_no_CR.
Qed.

Section Roundtrip.
Context `{HB : !BoostLaws B}.

Lemma insert_entry_token e r : entry_ok e → insert_token (field_text (entry_field e)) r = insert_entry r e.
Proof.
  assert (∀ k v, key_ok k → plain_text v →
    insert_token (k ++ equals :: v) r = MkMap (<[to_lower_copy k := v]> (rmap r)) (valueless_keys r)) as Hpair.
  { intros k v (Hk & _ & He) (_ & Hq & _). unfold insert_token.
    rewrite find_byte_first by done. rewrite take_app_length.
    rewrite lookup_app_r by lia. replace (S (length k) - length k)%nat with 1%nat by lia.
    rewrite decide_False.
    - by rewrite drop_app_ge, Nat.sub_succ_l, Nat.sub_diag by lia.
    - cbn. destruct v as [|c v]; cbn; [done|]. set_solver. }
  destruct e as [k|k v|k v]; unfold field_text; cbn [entry_ok entry_field map concat segment_text];
    rewrite ?app_nil_r.
  - intros (Hk & _ & He). unfold insert_token. by rewrite (proj2 (find_byte_None _ _)).
  - intros (Hk & Hv & _). by rewrite Hpair.
  - intros (Hk & Hv). rewrite <- app_assoc. by apply Hpair.
Qed.

Lemma insert_entries es r :
  Forall entry_ok es →
  fold_left (λ r token, insert_token token r) (map (λ e, field_text (entry_field e)) es) r
  = fold_left insert_entry es r.
Proof.
  intros Hes. revert r. induction Hes as [|e es He Hes IH]; intros r; [done|].
  cbn [map fold_left]. by rewrite insert_entry_token, IH.
Qed.

Lemma map_response_line es :
  Forall entry_ok es → line_of es ≠ [] → RDCPMapResponse_of (line_of es) = Some (entries_map es).
Proof.
  intros Hes Hne. unfold RDCPMapResponse_of. destruct (line_of es) as [|c l] eqn:E; [done|]. rewrite <- E in *.
  rewrite replace_all_none; [|done|].
  2: { apply (find_sub_absent CR). by apply line_of_no_CR. }
  unfold line_of in *. rewrite <- (map_map entry_field field_image) in *.
  rewrite escaped_list_fields; [|by apply Forall_map, (Forall_impl _ _ _ Hes), entry_segments_ok|done].
  cbn [mbind option_bind]. rewrite map_map. f_equal. by apply insert_entries.
Qed.

(** Splitting at the terminator undoes the joining. *)
Lemma SplitMultiline_unlines l ls :
  Forall (λ l, CR ∉ l) (l :: ls) → unlines (l :: ls) ≠ [] → SplitMultiline (unlines (l :: ls)) = l :: ls.
Proof.
  intros Hall Hne. unfold SplitMultiline. destruct (unlines (l :: ls)) eqn:E; [done|]. rewrite <- E. clear E Hne.
  revert l Hall. induction ls as [|l' ls IH]; intros l Hall; apply Forall_cons in Hall as [Hl Hall].
  - cbn [unlines]. apply split_regex_none; [done|]. by apply (find_sub_absent CR).
  - change (unlines (l :: l' :: ls)) with (l ++ kTerminator ++ unlines (l' :: ls)).
    rewrite (split_regex_some _ _ (length l)) by (try done; by apply (find_sub_first CR)).
    rewrite take_app_length, app_assoc, drop_app_length', IH by (try done; by rewrite length_app). done.
Qed.

Lemma multimap_lines lines :
  Forall (λ es, Forall entry_ok es ∧ line_of es ≠ []) lines →
  RDCPMultiMapResponse (unlines (map line_of lines)) = Some (map entries_map lines).
Proof.
  intros Hok. destruct lines as [|es lines]; [done|]. unfold RDCPMultiMapResponse. cbn [map].
  rewrite SplitMultiline_unlines.
  - change (line_of es :: map line_of lines) with (map line_of (es :: lines)).
    change (entries_map es :: map entries_map lines) with (map entries_map (es :: lines)).
    apply mapM_Some, Forall2_fmap_l, Forall2_fmap_r. induction Hok as [|x xs [Hx Hne] Hxs IH]; constructor; [|done].
    by apply map_response_line.
  - change (line_of es :: map line_of lines) with (map line_of (es :: lines)).
    apply Forall_map, (Forall_impl _ _ _ Hok). intros x [Hx _]. by apply line_of_no_CR.
  - apply Forall_cons in Hok as [[_ Hne] _]. destruct (map line_of lines); cbn [unlines]; [done|].
    by destruct (line_of es).
Qed.
End Roundtrip.

(** C33. Reading a multi-line body: when the debug monitor sends lines of
    [key=value] pairs, quoted values (which may hold spaces and equals signs)
    and bare flags, the program gets, line by line, the map of lower-cased keys
    to those values, later entries replacing earlier ones, with the bare keys
    mapped to the empty text and recorded in [valueless_keys]. *)
Theorem multimap_roundtrip `{HB : !BoostLaws B} (lines : list (list entry))
  (Hok : Forall (λ es, Forall entry_ok es ∧ line_of es ≠ []) lines) :
  RDCPMultiMapResponse (unlines (map line_of lines)) = Some (map entries_map lines).
Proof. by apply multimap_lines. Qed.

Definition example_lines : list (list entry) :=
  [[QuotedPair "Name"%bs "my file.xbe"%bs; Pair "SizeLo"%bs "0x10"%bs; Pair "sizehi"%bs "0x1"%bs];
   [QuotedPair "name"%bs "a=b"%bs; Flag "Directory"%bs]].

Lemma multimap_roundtrip_witness :
  let B := Boost_reference.boost_reference in
  RDCPMultiMapResponse (unlines (map line_of example_lines)) = Some (map entries_map example_lines).
Proof.
  apply (@multimap_roundtrip Boost_reference.boost_reference Boost_reference.boost_reference_laws example_lines).
  repeat constructor; try discriminate; apply (bool_decide_unpack _); vm_compute; exact I.
Defined.
