(* ===== verification/RdcpTypes.v ===== *)
(** * Data read from responses (src/rdcp/types)

    Memory regions, modules, sections and the two thread contexts, with the
    text and binary forms the contexts are exchanged in. *)

From S2P Require Import Prelude CLib Boost Parsing RdcpResponse RdcpMaps.

(** [enum ExecutionState] *)
Inductive ExecutionState := S_INVALID | S_STOPPED | S_STARTED | S_REBOOTING | S_PENDING.

#[global] Instance ExecutionState_eq_decision : EqDecision ExecutionState.
Proof. solve_decision. Defined.

(** ** Memory regions *)

Definition PAGE_NOACCESS : Z := 1.
Definition PAGE_READONLY : Z := 2.
Definition PAGE_READWRITE : Z := 4.
Definition PAGE_WRITECOPY : Z := 8.
Definition PAGE_EXECUTE : Z := 16.
Definition PAGE_EXECUTE_READ : Z := 32.
Definition PAGE_EXECUTE_READWRITE : Z := 64.
Definition PAGE_EXECUTE_WRITECOPY : Z := 128.

Record MemoryRegion := MkRegion {
  start : Z;
  end_ : Z;       (* the first address beyond the region *)
  size : Z;
  protect : Z;
  flags : gset bytes
}.

(** [MemoryRegion(start, size, protect, flags)] *)
Definition region_of (start size protect : Z) (flags : gset bytes) : MemoryRegion :=
  MkRegion start (u32 (start + size)) size protect flags.

Definition Contains (r : MemoryRegion) (address length : Z) : bool :=
  (start r <=? address) && (u32 (address + length) <=? end_ r).

Definition has_flag (value flag : Z) : bool := negb (Z.land value flag =? 0).

Definition IsWritable (r : MemoryRegion) : bool :=
  if has_flag (protect r) PAGE_READWRITE then true
  else if has_flag (protect r) PAGE_WRITECOPY then true
  else if has_flag (protect r) PAGE_EXECUTE then true
  else if has_flag (protect r) PAGE_EXECUTE_READ then true
  else if has_flag (protect r) PAGE_EXECUTE_READWRITE then true
  else if has_flag (protect r) PAGE_EXECUTE_WRITECOPY then true
  else false.

(** ** Modules and sections *)

Record Module_ := MkModule {
  module_name : bytes;
  module_base : Z;
  module_size : Z;
  module_checksum : Z;
  module_timestamp : Z;
  is_tls : bool;
  is_xbe : bool
}.

Definition MemoryRange (m : Module_) : Z * Z := (module_base m, u32 (module_base m + module_size m)).

Record Section_ := MkSection {
  section_name : bytes;
  section_base : Z;
  section_size : Z;
  section_index : Z;
  section_flags : Z
}.

Section FromResponse.
Context `{!Boost}.

Definition region_of_map (parsed : RDCPMapResponse) : MemoryRegion :=
  let start := GetUInt32 "base"%bs 0 parsed in
  let size := GetUInt32 "size"%bs 0 parsed in
  MkRegion start (u32 (start + size)) size (GetUInt32 "protect"%bs 0 parsed) (valueless_keys parsed).

Definition module_of_map (parsed : RDCPMapResponse) : Module_ :=
  MkModule (GetString "name"%bs [] parsed) (GetUInt32 "base"%bs 0 parsed) (GetUInt32 "size"%bs 0 parsed)
    (GetUInt32 "check"%bs 0 parsed) (GetUInt32 "timestamp"%bs 0 parsed)
    (HasKey "tls"%bs parsed) (HasKey "xbe"%bs parsed).

Definition section_of_map (parsed : RDCPMapResponse) : Section_ :=
  MkSection (GetString "name"%bs [] parsed) (GetUInt32 "base"%bs 0 parsed) (GetUInt32 "size"%bs 0 parsed)
    (GetUInt32 "index"%bs 0 parsed) (GetUInt32 "flags"%bs 0 parsed).
End FromResponse.

(** ** The integer context of a thread *)

Record ThreadContext := MkContext {
  ebp : option Z; esp : option Z; eip : option Z; eflags : option Z;
  eax : option Z; ebx : option Z; ecx : option Z; edx : option Z;
  edi : option Z; esi : option Z; cr0_npx_state : option Z
}.

Definition Reset : ThreadContext :=
  MkContext None None None None None None None None None None None.

Section Context.
Context `{!Boost}.

Definition ParseContext (parsed : RDCPMapResponse) : ThreadContext :=
  MkContext
    (GetOptionalDWORD "Ebp"%bs parsed) (GetOptionalDWORD "Esp"%bs parsed)
    (GetOptionalDWORD "Eip"%bs parsed) (GetOptionalDWORD "EFlags"%bs parsed)
    (GetOptionalDWORD "Eax"%bs parsed) (GetOptionalDWORD "Ebx"%bs parsed)
    (GetOptionalDWORD "Ecx"%bs parsed) (GetOptionalDWORD "Edx"%bs parsed)
    (GetOptionalDWORD "Edi"%bs parsed) (GetOptionalDWORD "Esi"%bs parsed)
    (GetOptionalDWORD "Cr0NpxState"%bs parsed).
End Context.

(** [snprintf(buf, 63, " <name>=0x%x", value)]: [%x] prints the [unsigned]. *)
Definition register_text (name : bytes) (value : option Z) : bytes :=
  match value with
  | Some v => snprintf 63 (space :: name ++ "=0x"%bs ++ fmt_x (u32 v))
  | None => []
  end.

(** The registers in the order the code prints them. *)
Definition context_registers (c : ThreadContext) : list (bytes * option Z) :=
  [("Ebp"%bs, ebp c); ("Esp"%bs, esp c); ("Eip"%bs, eip c); ("EFlags"%bs, eflags c);
   ("Eax"%bs, eax c); ("Ebx"%bs, ebx c); ("Ecx"%bs, ecx c); ("Edx"%bs, edx c);
   ("Edi"%bs, edi c); ("Esi"%bs, esi c); ("Cr0NpxState"%bs, cr0_npx_state c)].

Definition SerializeContext (c : ThreadContext) : bytes :=
  concat (map (λ r, register_text r.1 r.2) (context_registers c)).

(** ** The floating point context *)

(** The eight [int64_t] members [st0] to [st7] and the [int32_t]
    [cr0_npx_state] lie next to each other: [st_memory] is that part of the
    object, 68 bytes. *)
Record ThreadFloatContext := MkFloat {
  control : Z; status : Z; tag : Z; error_offset : Z;
  error_selector : Z; data_offset : Z; data_selector : Z;
  st_memory : bytes
}.

Definition float_init : ThreadFloatContext := MkFloat 0 0 0 0 0 0 0 (replicate 68 NUL).

Definition slice (offset len : nat) (s : bytes) : bytes := take len (drop offset s).

(** [memcpy(mem + offset, src, length src)] *)
Definition overwrite (offset : nat) (src mem : bytes) : bytes :=
  take offset mem ++ src ++ drop (offset + length src) mem.

(** The value of [st<i>]. *)
Definition st (i : nat) (c : ThreadFloatContext) : Z := i64 (le_int (slice (8 * i) 8 (st_memory c))).
Definition float_cr0 (c : ThreadFloatContext) : Z := i32 (le_int (slice 64 4 (st_memory c))).

Definition int32_at (offset : nat) (buffer : bytes) : Z := i32 (le_int (slice offset 4 buffer)).

(** [memcpy(&st<i>, data, 10)] for [i] from 0 to 7, [data] advancing by 10:
    each copy reaches two bytes into the following member. *)
Definition read_registers (buffer mem : bytes) : bytes :=
  fold_left (λ mem i, overwrite (8 * i) (slice (28 + 10 * i) 10 buffer) mem) (seq 0 8) mem.

(** [None]: the buffer is shorter than what is read from it. *)
Definition ParseFloat (buffer : bytes) (self : ThreadFloatContext) : option ThreadFloatContext :=
  if (length buffer <? 112)%nat then None
  else Some (MkFloat
    (int32_at 0 buffer) (int32_at 4 buffer) (int32_at 8 buffer) (int32_at 12 buffer)
    (int32_at 16 buffer) (int32_at 20 buffer) (int32_at 24 buffer)
    (overwrite 64 (slice 108 4 buffer) (read_registers buffer (st_memory self)))).

(** [memcpy(data, &st<i>, 10)]: ten bytes from an eight-byte member. *)
Definition SerializeFloat (c : ThreadFloatContext) : bytes :=
  le_bytes 4 (control c) ++ le_bytes 4 (status c) ++ le_bytes 4 (tag c) ++ le_bytes 4 (error_offset c)
  ++ le_bytes 4 (error_selector c) ++ le_bytes 4 (data_offset c) ++ le_bytes 4 (data_selector c)
  ++ concat (map (λ i, slice (8 * i) 10 (st_memory c)) (seq 0 8))
  ++ slice 64 4 (st_memory c).

(** ** Regions *)

(** [MemoryRegion::Contains] for a region that does not reach the end of
    the address space and a range that does not either: the answer is that
    every address of the range is in the region. *)
Theorem Contains_spec start size protect flags address length
  (Hs : 0 ≤ start) (Hsize : 0 ≤ size) (He : start + size < 2 ^ 32)
  (Ha : 0 ≤ address) (Hl : 0 < length) (Hal : address + length < 2 ^ 32) :
  Contains (region_of start size protect flags) address length = true
  ↔ ∀ x, address ≤ x < address + length → start ≤ x < start + size.
Proof.
  unfold Contains, region_of. cbn [RdcpTypes.start end_].
  rewrite !u32_id by (unfold is_u32; lia). rewrite andb_true_iff, !Z.leb_le. split; [lia|].
  intros H. pose proof (H address). pose proof (H (address + length - 1)). lia.
Qed.

Lemma Contains_spec_witness :
  Contains (region_of 65536 4096 4 ∅) 65540 8 = true
  ↔ ∀ x, 65540 ≤ x < 65540 + 8 → 65536 ≤ x < 65536 + 4096.
Proof. apply (Contains_spec 65536 4096 4 ∅ 65540 8); lia. Defined.

(** A range that wraps around the end of the address space passes
    [Contains] of every region that starts at or below it and ends at or above
    the wrapped end, although none of its addresses need be in the region. *)
Theorem Contains_wraps start size protect flags address length
  (Hs : 0 ≤ start ≤ address) (He : 0 ≤ start + size < 2 ^ 32)
  (Hwrap : 2 ^ 32 ≤ address + length) (Hend : address + length - 2 ^ 32 ≤ start + size) :
  Contains (region_of start size protect flags) address length = true.
Proof.
  unfold Contains, region_of. cbn [RdcpTypes.start end_]. rewrite (u32_id (start + size)) by done.
  assert (u32 (address + length) = address + length - 2 ^ 32) as ->.
  { unfold u32. symmetry. apply (Z.mod_unique _ _ 1); lia. }
  rewrite andb_true_iff, !Z.leb_le. lia.
Qed.

Lemma Contains_wraps_witness : Contains (region_of 65536 4096 4 ∅) 4294901760 131072 = true.
Proof. apply (Contains_wraps 65536 4096 4 ∅ 4294901760 131072); lia. Defined.

(** ** The integer context read back from its text *)

Definition register_ok (v : option Z) : Prop := match v with Some z => is_i32 z | None => True end.

Definition hex_text (z : Z) : bytes := "0x"%bs ++ fmt_x (u32 z).

Definition register_entry (r : bytes * option Z) : option entry :=
  (λ z, Pair r.1 (hex_text z)) <$> r.2.

Lemma ParseUint32_hex_text z : ParseUint32 (hex_text z) = u32 z.
Proof.
  pose proof (u32_range z) as [H0 H1]. unfold hex_text.
  pose proof (print_base_digits false 16 (u32 z) ltac:(lia) H0) as Hd.
  pose proof (print_base_value false 16 (u32 z) ltac:(lia) H0) as Hv.
  pose proof (print_base_nonempty false 16 (u32 z)) as Hne. fold (fmt_x (u32 z)) in *.
  unfold ParseUint32.
  assert (GetIntegerBase ("0x"%bs ++ fmt_x (u32 z)) = 16) as ->.
  { unfold GetIntegerBase. destruct (fmt_x (u32 z)); [done|].
    rewrite (proj2 (Z.ltb_lt _ _)) by (cbn; lia). reflexivity. }
  pose proof (strtoul_0x (fmt_x (u32 z)) [] Hd Hne I) as E. rewrite app_nil_r, Hv in E.
  rewrite E by (unfold ULONG_MAX; lia). apply u32_idemp.
Qed.

Lemma fmt_x_class c z : 0 ≤ z → c ∈ fmt_x z → isxdigit c = true ∧ isspace c = false ∧ c ≠ NUL.
Proof.
  intros Hz Hin. pose proof (print_base_digits false 16 z ltac:(lia) Hz) as Hd.
  rewrite Forall_forall in Hd. specialize (Hd c Hin). apply Is_true_true, (digit_class 16) in Hd; [|lia].
  naive_solver.
Qed.

Lemma fmt_x_misses c z : 0 ≤ z → isxdigit c = false → c ∉ fmt_x z.
Proof. intros Hz Hc Hin. destruct (fmt_x_class c z Hz Hin) as [? _]. congruence. Qed.

Lemma hex_text_ok z : plain_text (hex_text z) ∧ space ∉ hex_text z.
Proof.
  pose proof (u32_range z) as [H0 _]. unfold hex_text, plain_text.
  split_and!; (intros [H|H]%elem_of_app; [revert H; apply (bool_decide_unpack _); vm_compute; exact I
    | revert H; by apply fmt_x_misses]).
Qed.

(** [snprintf]'s buffer is long enough. *)
Lemma register_text_image name z :
  (length name ≤ 40)%nat →
  register_text name (Some z) = space :: field_image (entry_field (Pair name (hex_text z))).
Proof.
  intros Hn. unfold register_text, snprintf. rewrite take_ge.
  - unfold field_image. cbn. by rewrite app_nil_r.
  - pose proof (u32_range z) as [? ?]. pose proof (fmt_x_length (u32 z) 7 ltac:(cbn; lia)).
    cbn [length]. rewrite !length_app. change (length "=0x"%bs) with 3%nat. lia.
Qed.

Section ContextRoundtrip.
Context `{HB : !BoostLaws B}.

Lemma registers_text regs :
  Forall (λ r, length r.1 ≤ 40)%nat regs →
  concat (map (λ r, register_text r.1 r.2) regs)
  = concat (map (λ e, space :: field_image (entry_field e)) (omap register_entry regs)).
Proof.
  induction 1 as [|[name [z|]] regs Hn Hregs IH]; [done| |done].
  cbn [map concat]. rewrite IH. cbn [fst snd] in *. by rewrite register_text_image.
Qed.

(** A leading separator makes an empty first field. *)
Lemma leading_separator es :
  es ≠ [] → Forall entry_ok es →
  RDCPMapResponse_of (concat (map (λ e, space :: field_image (entry_field e)) es))
  = Some (fold_left insert_entry es (insert_token [] empty_response)).
Proof.
  intros Hne Hes.
  assert (∀ es, es ≠ [] → concat (map (λ e, space :: field_image (entry_field e)) es)
                          = join [space] (map field_image ([] :: map entry_field es))) as Himg.
  { clear. intros es. induction es as [|e es IH]; [done|]. intros _. destruct es as [|e' es].
    - cbn. by rewrite app_nil_r.
    - cbn [map concat]. cbn [map concat] in IH. rewrite IH by done. reflexivity. }
  assert (concat (map (λ e, space :: field_image (entry_field e)) es) ≠ []) as Hnil by (by destruct es).
  unfold RDCPMapResponse_of. destruct (concat _) as [|c l] eqn:E; [done|]. rewrite <- E.
  rewrite replace_all_none; [|done|].
  - rewrite Himg by done. rewrite escaped_list_fields.
    + cbn [mbind option_bind map fold_left]. f_equal. rewrite map_map. by apply insert_entries.
    + constructor; [constructor|]. by apply Forall_map, (Forall_impl _ _ _ Hes), entry_segments_ok.
    + rewrite <- Himg, E by done. done.
  - apply (find_sub_absent CR). clear E Hnil Himg Hne. induction Hes as [|e es He Hes IH]; [apply not_elem_of_nil|].
    cbn [map concat]. apply entry_image_no_CR in He. set_solver.
Qed.

(** Distinct registers do not disturb each other. *)
Lemma lookup_register_other regs r key :
  key ∉ map (to_lower_copy ∘ fst) regs →
  rmap (fold_left insert_entry (omap register_entry regs) r) !! key = rmap r !! key.
Proof.
  revert r. induction regs as [|[name [z|]] regs IH]; intros r Hk; cbn in Hk; [done| |].
  - cbn. rewrite IH by set_solver. cbn. rewrite lookup_insert_ne; [done|set_solver].
  - apply IH. set_solver.
Qed.

Lemma lookup_register regs r name v :
  NoDup (map (to_lower_copy ∘ fst) regs) → (name, v) ∈ regs → rmap r !! to_lower_copy name = None →
  rmap (fold_left insert_entry (omap register_entry regs) r) !! to_lower_copy name = hex_text <$> v.
Proof.
  revert r. induction regs as [|[n w] regs IH]; intros r Hd Hin Hr; [set_solver|].
  cbn [map] in Hd. apply NoDup_cons in Hd as [Hn Hd]. apply elem_of_cons in Hin as [[= -> ->]|Hin].
  - destruct w as [z|].
    + cbn. rewrite lookup_register_other by done. cbn. by rewrite lookup_insert_eq.
    + cbn. by rewrite lookup_register_other.
  - assert (to_lower_copy name ≠ to_lower_copy n) as Hne.
    { intros E. apply Hn. cbn. rewrite <- E. apply (list_elem_of_fmap_2 (to_lower_copy ∘ fst) _ (name, v)). done. }
    destruct w as [z|]; [|by apply IH]. cbn [omap list_omap register_entry fmap option_fmap option_map snd fst fold_left].
    apply IH; [done|done|]. cbn. by rewrite lookup_insert_ne.
Qed.
End ContextRoundtrip.

Definition context_ok (c : ThreadContext) : Prop :=
  Forall (λ r, register_ok r.2) (context_registers c).

Lemma register_entries_ok regs :
  Forall (λ r, key_ok r.1) regs → Forall entry_ok (omap register_entry regs).
Proof.
  induction 1 as [|[name [z|]] regs Hn Hregs IH]; cbn; [constructor| |done].
  constructor; [|done]. destruct (hex_text_ok z). done.
Qed.

(** The text [setcontext] sends for a thread's registers, read back with
    the reader of [getcontext], is the same context: every register that has a
    value keeps it (negative values too), every other stays unset. *)
Theorem context_roundtrip `{HB : !BoostLaws B} (c : ThreadContext) (Hc : context_ok c) :
  ∃ parsed, RDCPMapResponse_of (SerializeContext c) = Some parsed ∧ ParseContext parsed = c.
Proof.
  assert (∃ parsed, RDCPMapResponse_of (SerializeContext c) = Some parsed
    ∧ ∀ name v, (name, v) ∈ context_registers c → rmap parsed !! to_lower_copy name = hex_text <$> v) as (parsed & Hp & Hl).
  { unfold SerializeContext. rewrite registers_text by (repeat constructor; cbn; lia).
    destruct (decide (omap register_entry (context_registers c) = [])) as [E|Hne].
    - rewrite E. exists empty_response. split; [done|]. intros name [z|] Hin; [|done].
      assert (Pair name (hex_text z) ∈ omap register_entry (context_registers c)) as Hin'
        by (apply list_elem_of_omap; by exists (name, Some z)).
      rewrite E in Hin'. by apply not_elem_of_nil in Hin'.
    - eexists. split.
      + apply leading_separator; [done|]. apply register_entries_ok.
        unfold context_registers. repeat constructor; cbn [fst]; apply (bool_decide_unpack _); vm_compute; exact I.
      + intros name v Hin. apply lookup_register; [|done|].
        * rewrite (map_ext _ (map tolower ∘ fst)) by (intros []; apply to_lower_copy_spec).
          apply (bool_decide_unpack _). vm_compute. exact I.
        * cbn. rewrite !to_lower_copy_spec. cbn [map]. etransitivity; [apply lookup_insert_ne|apply lookup_empty].
          apply list_elem_of_lookup in Hin as [i Hi]. intros E. symmetry in E. apply map_eq_nil in E. subst name.
          unfold context_registers in Hi. do 11 (destruct i as [|i]; [cbn in Hi; discriminate|]). done. }
  exists parsed. split; [done|].
  assert (∀ name v, (name, v) ∈ context_registers c → GetOptionalDWORD name parsed = v) as Hget.
  { intros name v Hin. unfold GetOptionalDWORD, lookup_key. rewrite (Hl _ _ Hin).
    unfold context_ok in Hc. rewrite Forall_forall in Hc. specialize (Hc _ Hin). cbn in Hc.
    destruct v as [z|]; [|done]. cbn [fmap option_fmap option_map].
    rewrite ParseUint32_hex_text, i32_u32. by rewrite i32_id. }
  unfold ParseContext.
  do 11 (erewrite Hget by (unfold context_registers; repeat first [apply list_elem_of_here | apply list_elem_of_further])).
  by destruct c.
Qed.

Definition example_context : ThreadContext :=
  MkContext (Some (-1)) (Some 3490) None (Some 514) (Some (- 2 ^ 31)) None None (Some 0) None (Some 7) None.

Lemma context_roundtrip_witness :
  let B := Boost_reference.boost_reference in
  ∃ parsed, RDCPMapResponse_of (SerializeContext example_context) = Some parsed ∧ ParseContext parsed = example_context.
Proof.
  apply (@context_roundtrip Boost_reference.boost_reference Boost_reference.boost_reference_laws example_context).
  unfold context_ok, example_context, context_registers. repeat constructor; cbn; unfold is_i32; lia.
Defined.

(** ** The floating point context read and sent back *)

(** What the program makes of a 112-byte context: the two top bytes of each
    register are replaced by the two bytes that follow it. *)
Definition float_exchange (buffer : bytes) : bytes :=
  take 28 buffer
  ++ concat (map (λ i, slice (28 + 10 * i) 8 buffer ++ slice (28 + 10 * (i + 1)) 2 buffer) (seq 0 8))
  ++ slice 108 4 buffer.

(** A list of known length is a list of that many variables. *)
Tactic Notation "explode" hyp(l) integer(n) := do n (destruct l as [|? l]; [discriminate|]); destruct l; [|discriminate].

Lemma le_bytes_int32_at offset buffer :
  (offset + 4 ≤ length buffer)%nat → le_bytes 4 (int32_at offset buffer) = slice offset 4 buffer.
Proof.
  intros H. unfold int32_at. rewrite le_bytes_i32. apply le_bytes_int. unfold slice.
  rewrite length_take, length_drop. lia.
Qed.

Lemma float_memory buffer mem :
  length buffer = 112%nat → length mem = 68%nat →
  let mem' := overwrite 64 (slice 108 4 buffer) (read_registers buffer mem) in
  length mem' = 68%nat
  ∧ Forall (λ i, slice (8 * i) 8 mem' = slice (28 + 10 * i) 8 buffer
            ∧ slice (8 * i) 10 mem' = slice (28 + 10 * i) 8 buffer ++ slice (28 + 10 * (i + 1)) 2 buffer) (seq 0 8)
  ∧ slice 64 4 mem' = slice 108 4 buffer.
Proof. intros Hb Hm. explode buffer 112. explode mem 68. repeat split. cbn [seq]. repeat constructor. Qed.

Lemma take_28 buffer :
  length buffer = 112%nat →
  slice 0 4 buffer ++ slice 4 4 buffer ++ slice 8 4 buffer ++ slice 12 4 buffer ++ slice 16 4 buffer
  ++ slice 20 4 buffer ++ slice 24 4 buffer = take 28 buffer.
Proof. intros Hb. explode buffer 112. reflexivity. Qed.

(** The eighty-bit floating point registers do not survive being read
    and sent back: [getextcontext] keeps the low 64 bits of each, and the image
    [setcontext] sends is the one received with the two top bytes (sign and
    exponent) of each register replaced by the two bytes that follow it. *)
Theorem float_context_exchange (buffer : bytes) (self : ThreadFloatContext)
  (Hb : length buffer = 112%nat) (Hself : length (st_memory self) = 68%nat) :
  ∃ c, ParseFloat buffer self = Some c
    ∧ (∀ i, (i < 8)%nat → st i c = i64 (le_int (slice (28 + 10 * i) 8 buffer)))
    ∧ SerializeFloat c = float_exchange buffer.
Proof.
  unfold ParseFloat. rewrite Hb. change (112 <? 112)%nat with false. cbv iota. eexists; split; [reflexivity|].
  destruct (float_memory buffer (st_memory self) Hb Hself) as (Hlen & Hst & Hcr0).
  set (mem := overwrite 64 _ _) in *. split.
  - intros i Hi. unfold st. cbn [st_memory]. rewrite Forall_forall in Hst.
    by rewrite (proj1 (Hst i (proj2 (elem_of_seq 0 8 i) ltac:(lia)))).
  - unfold SerializeFloat. cbn [control status tag error_offset error_selector data_offset data_selector st_memory].
    rewrite !le_bytes_int32_at by lia. unfold float_exchange. rewrite <- (take_28 buffer Hb), <- !app_assoc.
    do 7 f_equal. rewrite Hcr0. f_equal. f_equal. apply map_ext_in. intros i Hi.
    rewrite Forall_forall in Hst. apply Hst. by apply list_elem_of_In.
Qed.

(** Registers holding 1.0: the exponent [0x3fff] is gone. *)
Definition float_example : bytes :=
  replicate 28 NUL ++ concat (replicate 8 (replicate 7 NUL ++ [Byte.x80; Byte.xff; Byte.x3f])) ++ replicate 4 NUL.

Lemma float_context_exchange_witness :
  (∃ c, ParseFloat float_example float_init = Some c
    ∧ (∀ i, (i < 8)%nat → st i c = i64 (le_int (slice (28 + 10 * i) 8 float_example)))
    ∧ SerializeFloat c = float_exchange float_example)
  ∧ float_exchange float_example ≠ float_example.
Proof.
  split.
  - apply (float_context_exchange float_example float_init); reflexivity.
  - apply (bool_decide_unpack _). vm_compute. exact I.
Defined.
