(* ===== verification/StopReasons.v ===== *)
(** * Stop reasons (src/rdcp/xbdm_stop_reasons.h)

    Why a thread is stopped, as [isstopped] reports it and as the debugger
    derives it from notifications, with the text the program logs. *)

From S2P Require Import Prelude CLib Boost RdcpResponse RdcpMaps.

Inductive StopReasonType :=
  | SRT_UNKNOWN | SRT_DEBUGSTR | SRT_ASSERTION | SRT_BREAKPOINT | SRT_SINGLE_STEP | SRT_WATCHPOINT
  | SRT_EXECUTION_STATE_CHANGED | SRT_EXCEPTION | SRT_THREAD_CREATED | SRT_THREAD_TERMINATED
  | SRT_MODULE_LOADED | SRT_SECTION_LOADED | SRT_SECTION_UNLOADED | SRT_RIP | SRT_RIP_STOP.

#[global] Instance StopReasonType_eq_decision : EqDecision StopReasonType.
Proof. solve_decision. Defined.

Definition SIGTRAP : Z := 5.
Definition SIGABRT : Z := 6.

Inductive AccessType := AT_UNKNOWN | AT_READ | AT_WRITE | AT_EXECUTE.
Inductive ChangedState := UNKNOWN | STOPPED | STARTED | REBOOTING | PENDING.

(** The type of a [StopReasonException], with the members it fills in. *)
Inductive Violation :=
  | GENERAL (nparams params : Z)
  | ACCESS_VIOLATION_READ (address : Z)
  | ACCESS_VIOLATION_WRITE (address : Z).

(** The members of the structures below [StopReasonBase_]. *)
Inductive StopReasonBody :=
  | UnknownBody
  | ThreadContextBody (name : bytes) (thread_id : Z)
  | ThreadAndAddressBody (name : bytes) (thread_id address : Z)
  | DataBreakpointBody (thread_id address : Z) (access_type : AccessType) (access_address : Z)
  | ExecutionStateChangeBody (state : ChangedState) (state_name : bytes)
  | ExceptionBody (exception thread_id address : Z) (is_first_chance is_non_continuable : bool) (type : Violation)
  | CreateThreadBody (thread_id start_address : Z)
  | ModuleLoadBody (name : bytes) (base_address size checksum timestamp : Z) (is_tls is_xbe : bool)
  | SectionActionBody (action name : bytes) (base_address size index flags : Z)
  | RIPBody (name : bytes) (thread_id : Z) (message : bytes).

Record StopReason := MkStop {
  stop_type : StopReasonType;
  signal : Z;
  body : StopReasonBody
}.

Definition StopReasonTrapBase_ (type : StopReasonType) (b : StopReasonBody) : StopReason :=
  MkStop type SIGTRAP b.

Definition StopReasonUnknown : StopReason := StopReasonTrapBase_ SRT_UNKNOWN UnknownBody.

Section Constructors.
Context `{!Boost}.
Implicit Types parsed : RDCPMapResponse.

Definition StopReasonThreadContextBase_ type name parsed : StopReason :=
  StopReasonTrapBase_ type (ThreadContextBody name (GetDWORD "thread"%bs 0 parsed)).

Definition StopReasonDebugstr parsed := StopReasonThreadContextBase_ SRT_DEBUGSTR "debugstr"%bs parsed.
Definition StopReasonAssertion parsed := StopReasonThreadContextBase_ SRT_ASSERTION "assert prompt"%bs parsed.
Definition StopReasonTerminateThread parsed :=
  StopReasonThreadContextBase_ SRT_THREAD_TERMINATED "terminate thread"%bs parsed.

Definition StopReasonThreadAndAddressBase_ type name parsed : StopReason :=
  StopReasonTrapBase_ type
    (ThreadAndAddressBody name (GetDWORD "thread"%bs 0 parsed) (GetUInt32 "Address"%bs 0 parsed)).

Definition StopReasonBreakpoint parsed := StopReasonThreadAndAddressBase_ SRT_BREAKPOINT "breakpoint"%bs parsed.
Definition StopReasonSingleStep parsed := StopReasonThreadAndAddressBase_ SRT_SINGLE_STEP "single step"%bs parsed.

(** [access_address = value.value()] converts the [int32_t] back. *)
Definition StopReasonDataBreakpoint parsed : StopReason :=
  let thread_id := GetDWORD "thread"%bs 0 parsed in
  let address := GetUInt32 "addr"%bs 0 parsed in
  StopReasonTrapBase_ SRT_WATCHPOINT
    match GetOptionalDWORD "read"%bs parsed with
    | Some value => DataBreakpointBody thread_id address AT_READ (u32 value)
    | None =>
      match GetOptionalDWORD "write"%bs parsed with
      | Some value => DataBreakpointBody thread_id address AT_WRITE (u32 value)
      | None =>
        match GetOptionalDWORD "execute"%bs parsed with
        | Some value => DataBreakpointBody thread_id address AT_EXECUTE (u32 value)
        | None => DataBreakpointBody thread_id address AT_UNKNOWN 0
        end
      end
    end.

Definition StopReasonExecutionStateChange parsed : StopReason :=
  StopReasonTrapBase_ SRT_EXECUTION_STATE_CHANGED
    (if HasKey "stopped"%bs parsed then ExecutionStateChangeBody STOPPED "stopped"%bs
     else if HasKey "started"%bs parsed then ExecutionStateChangeBody STARTED "started"%bs
     else if HasKey "rebooting"%bs parsed then ExecutionStateChangeBody REBOOTING "rebooting"%bs
     else if HasKey "pending"%bs parsed then ExecutionStateChangeBody PENDING "pending"%bs
     else ExecutionStateChangeBody UNKNOWN "unknown"%bs).

Definition StopReasonException parsed : StopReason :=
  StopReasonTrapBase_ SRT_EXCEPTION
    (ExceptionBody (GetUInt32 "code"%bs 0 parsed) (GetDWORD "thread"%bs 0 parsed) (GetUInt32 "Address"%bs 0 parsed)
       (HasKey "first"%bs parsed) (HasKey "noncont"%bs parsed)
       (if HasKey "read"%bs parsed then ACCESS_VIOLATION_READ (GetUInt32 "read"%bs 0 parsed)
        else if HasKey "write"%bs parsed then ACCESS_VIOLATION_WRITE (GetUInt32 "write"%bs 0 parsed)
        else GENERAL (GetDWORD "nparams"%bs 0 parsed) (GetDWORD "params"%bs 0 parsed))).

Definition StopReasonCreateThread parsed : StopReason :=
  StopReasonTrapBase_ SRT_THREAD_CREATED
    (CreateThreadBody (GetDWORD "thread"%bs 0 parsed) (u32 (GetDWORD "start"%bs 0 parsed))).

Definition StopReasonModuleLoad parsed : StopReason :=
  StopReasonTrapBase_ SRT_MODULE_LOADED
    (ModuleLoadBody (GetString "name"%bs [] parsed) (GetUInt32 "base"%bs 0 parsed) (GetUInt32 "size"%bs 0 parsed)
       (GetUInt32 "check"%bs 0 parsed) (GetUInt32 "timestamp"%bs 0 parsed)
       (HasKey "tls"%bs parsed) (HasKey "xbe"%bs parsed)).

Definition StopReasonSectionActionBase_ type action parsed : StopReason :=
  StopReasonTrapBase_ type
    (SectionActionBody action (GetString "name"%bs [] parsed) (GetUInt32 "base"%bs 0 parsed)
       (GetUInt32 "size"%bs 0 parsed) (GetUInt32 "index"%bs 0 parsed) (GetUInt32 "flags"%bs 0 parsed)).

Definition StopReasonSectionLoad parsed :=
  StopReasonSectionActionBase_ SRT_SECTION_LOADED "section load"%bs parsed.
Definition StopReasonSectionUnload parsed :=
  StopReasonSectionActionBase_ SRT_SECTION_UNLOADED "section unload"%bs parsed.

Definition StopReasonRIPBase_ type name parsed : StopReason :=
  MkStop type SIGABRT (RIPBody name (GetDWORD "thread"%bs 0 parsed) (GetString "message"%bs [] parsed)).

Definition StopReasonRIP parsed := StopReasonRIPBase_ SRT_RIP "RIP"%bs parsed.
Definition StopReasonRIPStop parsed := StopReasonRIPBase_ SRT_RIP_STOP "RIPStop"%bs parsed.
End Constructors.

(** [WriteStream] on a stream in decimal mode.  [std::hex] stays set once it
    is given, and [std::setw] applies to the next item only. *)
Definition hex_int (z : Z) : bytes := fmt_x (u32 z).

Definition access_name (a : AccessType) : bytes :=
  match a with
  | AT_READ => "read"%bs
  | AT_WRITE => "write"%bs
  | AT_EXECUTE => "execute"%bs
  | AT_UNKNOWN => "unknown"%bs
  end.

Definition bool_text (b : bool) : bytes := if b then "1"%bs else "0"%bs.

Definition WriteStream (r : StopReason) : bytes :=
  match body r with
  | UnknownBody => "Unknown reason"%bs
  | ThreadContextBody name thread_id => name ++ " on thread "%bs ++ fmt_d thread_id
  | ThreadAndAddressBody name thread_id address =>
    name ++ " on thread "%bs ++ fmt_d thread_id ++ " at 0x"%bs ++ fmt_0x 8 address
  | DataBreakpointBody thread_id address access_type access_address =>
    "Watch breakpoint on thread "%bs ++ fmt_d thread_id ++ " at 0x"%bs ++ fmt_0x 8 address ++ [space]
    ++ access_name access_type ++ "@0x"%bs ++ fmt_x access_address
  | ExecutionStateChangeBody _ state_name => "execution state changed to "%bs ++ state_name
  | ExceptionBody _ thread_id address _ _ type =>
    "exception on thread "%bs ++ fmt_d thread_id ++ " at 0x"%bs ++ fmt_0x 8 address
    ++ match type with
       | ACCESS_VIOLATION_READ a => " read violation at 0x"%bs ++ fmt_x a
       | ACCESS_VIOLATION_WRITE a => " write violation at 0x"%bs ++ fmt_x a
       | GENERAL nparams params =>
         " nparams: "%bs ++ hex_int nparams ++ " params: 0x"%bs ++ fmt_0x 8 (u32 params)
       end
  | CreateThreadBody thread_id start_address =>
    "create thread "%bs ++ fmt_d thread_id ++ " start Address 0x"%bs ++ fmt_0x 8 start_address
  | ModuleLoadBody name base_address size checksum timestamp is_tls is_xbe =>
    "Module load: name: "%bs ++ name ++ " base_address: 0x"%bs ++ fmt_0x 8 base_address ++ " size: "%bs
    ++ fmt_u size ++ " checksum: 0x"%bs ++ fmt_x checksum ++ " timestamp: 0x"%bs ++ fmt_x timestamp
    ++ " is_tls: "%bs ++ bool_text is_tls ++ " is_xbe: "%bs ++ bool_text is_xbe
  | SectionActionBody action name base_address size index flags =>
    action ++ ": name: "%bs ++ name ++ " base_address: 0x"%bs ++ fmt_0x 8 base_address ++ " size: "%bs
    ++ fmt_u size ++ " index: "%bs ++ fmt_u index ++ " flags: 0x"%bs ++ fmt_x flags
  | RIPBody name thread_id message =>
    name ++ " on thread "%bs ++ fmt_d thread_id
    ++ (if decide (message = []) then [] else [space; quote] ++ message ++ [quote])
  end.

(** The chain of comparisons in [IsStopped::ProcessResponse]: [None] when no
    reason is recognised. *)
Definition stop_reason_of `{!Boost} (reason : bytes) (parsed : RDCPMapResponse) : option StopReason :=
  if decide (reason = "stopped"%bs) then Some StopReasonUnknown
  else if decide (reason = "debugstr"%bs) then Some (StopReasonDebugstr parsed)
  else if decide (reason = "assert"%bs) then Some (StopReasonAssertion parsed)
  else if decide (reason = "break"%bs) then Some (StopReasonBreakpoint parsed)
  else if decide (reason = "singlestep"%bs) then Some (StopReasonSingleStep parsed)
  else if decide (reason = "data"%bs) then Some (StopReasonDataBreakpoint parsed)
  else if decide (reason = "execution"%bs) then Some (StopReasonExecutionStateChange parsed)
  else if decide (reason = "exception"%bs) then Some (StopReasonException parsed)
  else if decide (reason = "create"%bs) then Some (StopReasonCreateThread parsed)
  else if decide (reason = "terminate"%bs) then Some (StopReasonTerminateThread parsed)
  else if decide (reason = "modload"%bs) then Some (StopReasonModuleLoad parsed)
  else if decide (reason = "sectload"%bs) then Some (StopReasonSectionLoad parsed)
  else if decide (reason = "sectunload"%bs) then Some (StopReasonSectionUnload parsed)
  else if decide (reason = "rip"%bs) then Some (StopReasonRIP parsed)
  else if decide (reason = "ripstop"%bs) then Some (StopReasonRIPStop parsed)
  else None.
