(* ===== verification/RdcpRequest.v ===== *)
(** * Requests (src/rdcp/rdcp_request.h, .cpp, rdcp_processed_request.h, .cpp)

    A request is a command word and its parameters; a processed request adds
    the outcome and the members its class reads from the response. *)

From S2P Require Import Prelude CLib Boost RdcpResponse.

Record RDCPRequest := MkRequest {
  command_ : bytes;
  request_data_ : bytes
}.

(** [RDCPRequest(command)] *)
Definition request (command : bytes) : RDCPRequest := MkRequest command [].

(** Construction reads in the order of the calls of the constructor. *)
Notation "r |> f" := (f r) (at level 50, left associativity, only parsing).

Definition SetData (data : bytes) (r : RDCPRequest) : RDCPRequest := MkRequest (command_ r) data.

Definition AppendData (data : bytes) (r : RDCPRequest) : RDCPRequest :=
  MkRequest (command_ r) (request_data_ r ++ data).

(** The overloads for [int] and [unsigned int]; the buffer holds 31 characters. *)
Definition AppendDecimalString (value : Z) (r : RDCPRequest) : RDCPRequest :=
  AppendData (snprintf 31 (fmt_d value)) r.
Definition AppendDecimalString_unsigned (value : Z) (r : RDCPRequest) : RDCPRequest :=
  AppendData (snprintf 31 (fmt_u value)) r.

(** [AppendHexString<T>] for [sizeof(T) <= 4] and for eight-byte types. *)
Definition AppendHexString (value : Z) (r : RDCPRequest) : RDCPRequest :=
  AppendData (snprintf 31 ("0x"%bs ++ fmt_0x 8 (u32 value))) r.
Definition AppendHexString64 (value : Z) (r : RDCPRequest) : RDCPRequest :=
  AppendData (snprintf 31 ("0q"%bs ++ fmt_0x 16 (u64 value))) r.

Definition AppendHexBuffer `{!Boost} (buffer : bytes) (r : RDCPRequest) : RDCPRequest :=
  AppendData (hex buffer) r.

(** A call made only when [b] holds. *)
Definition when (b : bool) (f : RDCPRequest → RDCPRequest) (r : RDCPRequest) : RDCPRequest :=
  if b then f r else r.

(** [operator std::vector<uint8_t>]: the line that is sent. *)
Definition request_line (r : RDCPRequest) : bytes := command_ r ++ request_data_ r ++ kTerminator.

(** ** Processed requests *)

(** The virtual methods of a class of requests with members [T]:
    [ProcessResponse] may throw ([None]). *)
Record RequestClass (T : Type) := MkClass {
  IsOK : StatusCode → bool;
  ProcessResponse : StatusCode → RDCPResponse → T → option T
}.
Arguments MkClass {T} _ _.
Arguments IsOK {T} _ _.
Arguments ProcessResponse {T} _ _ _ _.

Record RDCPProcessedRequest (T : Type) := MkProcessed {
  base : RDCPRequest;
  status : StatusCode;
  message : bytes;
  members : T
}.
Arguments MkProcessed {T} _ _ _ _.
Arguments base {T} _.
Arguments status {T} _.
Arguments message {T} _.
Arguments members {T} _.

(** A request as constructed. *)
Definition processed {T} (r : RDCPRequest) (members : T) : RDCPProcessedRequest T :=
  MkProcessed r INVALID [] members.

Definition default_IsOK (status : StatusCode) : bool := status =? OK.
Definition default_ProcessResponse {T} (status : StatusCode) (response : RDCPResponse) (self : T) : option T :=
  Some self.

Definition plain_class : RequestClass unit := MkClass default_IsOK default_ProcessResponse.

(** [if (!IsOK()) return;] around a body that uses the response. *)
Definition if_ok {T} (is_ok : StatusCode → bool) (f : RDCPResponse → T → option T)
    (status : StatusCode) (response : RDCPResponse) (self : T) : option T :=
  if is_ok status then f response self else Some self.

Definition Complete {T} (k : RequestClass T) (response : RDCPResponse) (self : RDCPProcessedRequest T)
    : option (RDCPProcessedRequest T) :=
  m ← ProcessResponse k (status_ response) response (members self);
  Some (MkProcessed (base self) (status_ response) (response_message_ response) m).

Definition Abandon {T} (self : RDCPProcessedRequest T) : RDCPProcessedRequest T :=
  MkProcessed (base self) ERR_ABANDONED (message self) (members self).

(** ** Hexadecimal parameters *)

(** The closures of the classes below for data of known or prefixed size. *)
Definition fixed_size {S} (len : Z) : ReadBinarySizeFunc S := λ _ _ s, Some (Some (len, 0), s).

Definition BinarySizeInt32Prefix {S} : ReadBinarySizeFunc S := λ buffer buffer_size s,
  Some (if buffer_size <? 4 then (None, s) else (Some (le_int (take 4 buffer), 4), s)).

#[global] Instance fixed_size_stable {S} len : 0 ≤ len → StableParser (S := S) (fixed_size len).
Proof. intros Hl b x s _. cbn. split; [done|lia]. Qed.

#[global] Instance BinarySizeInt32Prefix_stable {S} : StableParser (S := S) BinarySizeInt32Prefix.
Proof.
  intros b x s Hl. unfold BinarySizeInt32Prefix. rewrite length_app in *.
  rewrite !u32_id by (unfold is_u32; lia).
  destruct (Z.ltb_spec (Z.of_nat (length b)) 4); [done|].
  rewrite (proj2 (Z.ltb_ge _ _)), take_app_le by lia.
  pose proof (le_int_range (take 4 b)). split; [done|lia].
Qed.

(** A [uint32_t] parameter as [AppendHexString] writes it. *)
Definition hex_param (z : Z) : bytes := "0x"%bs ++ fmt_0x 8 (u32 z).

Lemma fmt_0x_8_length z : length (fmt_0x 8 (u32 z)) = 8%nat.
Proof. apply fmt_0x_length. pose proof (u32_range z) as [? ?]. change (16 ^ Z.of_nat 8) with (2 ^ 32). lia. Qed.

Lemma hex_param_length z : length (hex_param z) = 10%nat.
Proof. unfold hex_param. rewrite length_app, fmt_0x_8_length. reflexivity. Qed.

(** The buffer of [AppendHexString] is long enough. *)
Lemma AppendHexString_spec z r : AppendHexString z r = AppendData (hex_param z) r.
Proof. unfold AppendHexString, snprintf. fold (hex_param z). rewrite take_ge; [done|]. rewrite hex_param_length. lia. Qed.

Lemma hex_param_misses c z :
  isxdigit c = false → c ≠ "x"%byte → c ∉ hex_param z.
Proof.
  intros Hc Hx. pose proof (u32_range z) as [H0 _]. unfold hex_param.
  intros [H|H]%elem_of_app; [|by eapply digits_miss; [..|apply H]].
  apply elem_of_cons in H as [->|H]; [done|]. apply list_elem_of_singleton in H. done.
Qed.
