(* ===== verification/Requests.v ===== *)
(** * The requests of the debug monitor protocol (src/rdcp/xbdm_requests.h, .cpp)

    One definition per constructor, named after its class (a suffix tells
    overloads apart); a class with members or its own [IsOK] has a
    [RequestClass] named [<Class>_class].  Constructors whose [assert] fails,
    or that divide by zero, yield [None]. *)

From S2P Require Import Prelude CLib Boost Parsing RdcpResponse RdcpMaps RdcpTypes StopReasons RdcpRequest.

Definition MAXIMUM_SEND_LENGTH : Z := 512.

(** String literals that end with, or start with, a double quote. *)
Definition opening (s : bytes) : bytes := s ++ [quote].
Definition closing (s : bytes) : bytes := quote :: s.

(** [IsOK] of the classes that expect a particular answer. *)
Definition ok_multiline (s : StatusCode) : bool := s =? OK_MULTILINE_RESPONSE.
Definition ok_binary (s : StatusCode) : bool := s =? OK_BINARY_RESPONSE.
Definition ok_dedicated (s : StatusCode) : bool := s =? OK_CONNECTION_DEDICATED.
Definition ok_or (other s : StatusCode) : bool := (s =? OK) || (s =? other).

(** [data.assign(chunk.begin(), chunk.end())], shared by the binary classes. *)
Definition take_data (response : RDCPResponse) (_ : bytes) : option bytes := Some (RdcpResponse.data_ response).

(** ** Administration *)

Definition AdminPW (high_part low_part : Z) : RDCPRequest :=
  request "adminpw"%bs |> SetData " passwd="%bs
  |> AppendHexString64 (Z.lor (Z.shiftl high_part 32) low_part).

Definition AuthUser (username : bytes) (high low : Z) (is_passwd : bool) : RDCPRequest :=
  request "authuser"%bs |> SetData (opening " name="%bs) |> AppendData username
  |> AppendData (closing " "%bs) |> AppendData (if is_passwd then "passwd="%bs else "resp="%bs)
  |> AppendHexString64 (Z.lor (Z.shiftl high 32) low).

Definition AuthUser_admin (high low : Z) : RDCPRequest :=
  request "authuser"%bs |> SetData " admin resp="%bs |> AppendHexString64 (Z.lor (Z.shiftl high 32) low).

Definition BoxID : RDCPRequest := request "boxid"%bs.

(** ** Breakpoints *)

Definition BreakBase_ : RDCPRequest := request "break"%bs.
Definition BreakNow : RDCPRequest := BreakBase_ |> SetData " now"%bs.
Definition BreakAtStart : RDCPRequest := BreakBase_ |> SetData " start"%bs.
Definition BreakClearAll : RDCPRequest := BreakBase_ |> SetData " clearall"%bs.

Definition BreakAddress (address : Z) (clear : bool) : RDCPRequest :=
  BreakBase_ |> when clear (SetData " clear"%bs) |> AppendData " addr="%bs |> AppendHexString address.

Definition BreakRange_ (type : bytes) (address size : Z) (clear : bool) : RDCPRequest :=
  BreakBase_ |> SetData (if clear then " clear "%bs else " "%bs)
  |> AppendData type |> AppendData "="%bs |> AppendHexString address
  |> when (negb clear) (λ r, r |> AppendData " size="%bs |> AppendHexString size).

Definition BreakOnRead (address size : Z) (clear : bool) : RDCPRequest := BreakRange_ "read"%bs address (u32 size) clear.
Definition BreakOnWrite (address size : Z) (clear : bool) : RDCPRequest := BreakRange_ "write"%bs address (u32 size) clear.
Definition BreakOnExecute (address size : Z) (clear : bool) : RDCPRequest :=
  BreakRange_ "execute"%bs address (u32 size) clear.

Definition Bye : RDCPRequest := request "bye"%bs.

Inductive ProfilerCommand := ProfilerStart | ProfilerStop | IsFastCAPEnabled.

Definition ProfilerCaptureControl (command : ProfilerCommand) (name : bytes) (buffer_size_mb : Z) : RDCPRequest :=
  let r := request "capctrl"%bs in
  match command with
  | ProfilerStart =>
    r |> SetData (opening " start name="%bs) |> AppendData name |> AppendData [quote]
    |> when (0 <? buffer_size_mb) (λ r, r |> AppendData " buffersize="%bs |> AppendDecimalString_unsigned buffer_size_mb)
  | ProfilerStop => r |> SetData " stop"%bs
  | IsFastCAPEnabled => r |> SetData " fastcapenabled"%bs
  end.

Definition Continue (thread_id : Z) (exception : bool) : RDCPRequest :=
  request "continue"%bs |> SetData " thread="%bs |> AppendHexString thread_id
  |> when exception (AppendData " exception"%bs).
Definition Continue_class : RequestClass unit := MkClass (ok_or ERR_NOT_STOPPED) default_ProcessResponse.

Definition Crashdump : RDCPRequest := request "crashdump"%bs.

(** ** Console name and debug options *)

Definition GetDevkitName : RDCPRequest := request "dbgname"%bs.

(** A leading quote is removed; [substr(1, size - 1)] keeps the closing one. *)
Definition GetDevkitName_class : RequestClass bytes :=
  MkClass default_IsOK (λ status response _,
    if default_IsOK status then
      let name := RdcpResponse.data_ response in
      Some (if (2 <? Z.of_nat (length name)) && bool_decide (head name = Some quote)
            then take (length name - 1) (drop 1 name) else name)
    else Some []).

Definition SetDevkitName (new_name : bytes) : RDCPRequest :=
  request "dbgname"%bs |> SetData " name="%bs |> AppendData new_name.

Definition one_or_zero (b : bool) : bytes := if b then "1"%bs else "0"%bs.

Definition GetDebugOptions : RDCPRequest := request "dbgoptions"%bs.
Record DebugOptions := MkDebugOptions { enable_crashdump : bool; enable_dpctrace : bool }.
Definition GetDebugOptions_class `{!Boost} : RequestClass DebugOptions :=
  MkClass default_IsOK (if_ok default_IsOK (λ response _,
    parsed ← RDCPMapResponse_of (RdcpResponse.data_ response);
    Some (MkDebugOptions (HasKey "crashdump"%bs parsed) (HasKey "dpctrace"%bs parsed)))).

Definition SetDebugOptions (enable_crashdump enable_dcptrace : bool) : RDCPRequest :=
  request "dbgoptions"%bs |> SetData " crashdump="%bs |> AppendData (one_or_zero enable_crashdump)
  |> AppendData " dpctrace="%bs |> AppendData (one_or_zero enable_dcptrace).
Definition SetEnableCrashdump (enable : bool) : RDCPRequest :=
  request "dbgoptions"%bs |> SetData " crashdump="%bs |> AppendData (one_or_zero enable).
Definition SetEnableDPCTrace (enable : bool) : RDCPRequest :=
  request "dbgoptions"%bs |> SetData " dpctrace="%bs |> AppendData (one_or_zero enable).

Definition D3DOpcode (p0 p1 p2 p3 p4 p5 : Z) : RDCPRequest :=
  request "d3dopcode"%bs
  |> SetData " 0="%bs |> AppendHexString p0 |> AppendData " 1="%bs |> AppendHexString p1
  |> AppendData " 2="%bs |> AppendHexString p2 |> AppendData " 3="%bs |> AppendHexString p3
  |> AppendData " 4="%bs |> AppendHexString p4 |> AppendData " 5="%bs |> AppendHexString p5.

(** ** The debugger *)

Definition Debugger (connect : bool) : RDCPRequest :=
  request "debugger"%bs |> SetData (if connect then " connect"%bs else " disconnect"%bs).
(** [debuggable] is not initialised. *)
Definition Debugger_class : RequestClass (option bool) :=
  let is_ok := ok_or ERR_NOT_DEBUGGABLE in
  MkClass is_ok (λ status response self,
    if is_ok status then Some (Some (negb (status =? ERR_NOT_DEBUGGABLE))) else Some self).

Definition DebugMode (enable : bool) : RDCPRequest :=
  request "debugmode"%bs |> SetData (if enable then " enabled"%bs else " disabled"%bs).

Definition Dedicate (handler_name : option bytes) : RDCPRequest :=
  match handler_name with
  | Some h => request "dedicate"%bs |> SetData (opening " handler="%bs) |> AppendData h |> AppendData [quote]
  | None => request "dedicate"%bs |> SetData " global"%bs
  end.
Definition Dedicate_class : RequestClass unit := MkClass ok_dedicated default_ProcessResponse.

Definition DefTitle_none : RDCPRequest := request "deftitle"%bs |> SetData " none"%bs.
Definition DefTitle_launcher (launcher : bool) : RDCPRequest :=
  request "deftitle"%bs |> SetData (if launcher then " launcher"%bs else " none"%bs).
Definition DefTitle (name directory : bytes) : RDCPRequest :=
  request "deftitle"%bs |> SetData (opening " name="%bs) |> AppendData name
  |> AppendData (closing (opening " dir="%bs)) |> AppendData directory |> AppendData [quote].

(** ** Files *)

Definition Delete (path : bytes) (is_directory : bool) : RDCPRequest :=
  request "delete"%bs |> SetData (opening " name="%bs) |> AppendData path |> AppendData [quote]
  |> when is_directory (AppendData " dir"%bs).

Record Entry := MkEntry {
  entry_name : bytes;
  filesize : Z;
  create_timestamp : Z;
  change_timestamp : Z;
  is_directory : bool
}.

Definition DirList (path : bytes) : RDCPRequest :=
  request "dirlist"%bs |> SetData (opening " name="%bs) |> AppendData path |> AppendData [quote].

Definition Entry_of_map `{!Boost} (it : RDCPMapResponse) : Entry :=
  MkEntry (GetString "name"%bs [] it) (GetQWORD "sizelo"%bs "sizehi"%bs 0 it)
    (GetQWORD "createlo"%bs "createhi"%bs 0 it) (GetQWORD "changelo"%bs "changehi"%bs 0 it)
    (HasKey "directory"%bs it).

(** A loop over the parsed lines that appends to the member. *)
Definition append_lines `{!Boost} {T} (f : RDCPMapResponse → T) (response : RDCPResponse) (self : list T)
    : option (list T) :=
  parsed ← RDCPMultiMapResponse (RdcpResponse.data_ response);
  Some (self ++ map f parsed).

Definition DirList_class `{!Boost} : RequestClass (list Entry) :=
  MkClass ok_multiline (if_ok ok_multiline (append_lines Entry_of_map)).

Definition DebugMonitorVersion : RDCPRequest := request "dmversion"%bs.
Definition DebugMonitorVersion_class : RequestClass bytes :=
  MkClass default_IsOK (if_ok default_IsOK take_data).

Record FreeSpace := MkFreeSpace { free_to_caller : Z; total_bytes : Z; free_bytes : Z }.

Definition DriveFreeSpace (name : bytes) : RDCPRequest :=
  request "drivefreespace"%bs |> SetData (opening " name="%bs) |> AppendData name |> AppendData [quote].
Definition DriveFreeSpace_class `{!Boost} : RequestClass FreeSpace :=
  MkClass ok_multiline (if_ok ok_multiline (λ response _,
    parsed ← RDCPMapResponse_of (RdcpResponse.data_ response);
    Some (MkFreeSpace (GetQWORD "freetocallerlo"%bs "freetocallerhi"%bs 0 parsed)
            (GetQWORD "totalbyteslo"%bs "totalbyteshi"%bs 0 parsed)
            (GetQWORD "totalfreebyteslo"%bs "totalfreebyteshi"%bs 0 parsed)))).

(** [std::string::operator<]: lexicographic on unsigned characters. *)
Fixpoint string_leb (a b : bytes) : bool :=
  match a, b with
  | [], _ => true
  | _ :: _, [] => false
  | x :: a', y :: b' =>
    (byte_val x <? byte_val y) || ((byte_val x =? byte_val y) && string_leb a' b')
  end.

Fixpoint insert_sorted (s : bytes) (l : list bytes) : list bytes :=
  match l with
  | [] => [s]
  | x :: l' => if string_leb s x then s :: l else x :: insert_sorted s l'
  end.

(** [std::sort]: equal strings are indistinguishable. *)
Definition sort_strings (l : list bytes) : list bytes := foldr insert_sorted [] l.

Definition DriveList : RDCPRequest := request "drivelist"%bs.
Definition DriveList_class : RequestClass (list bytes) :=
  MkClass default_IsOK (if_ok default_IsOK (λ response self,
    Some (sort_strings (self ++ map (λ letter, c_str [letter]) (RdcpResponse.data_ response))))).

Definition DvdBlk (name : bytes) (addr size : Z) : RDCPRequest :=
  request "dvdblk"%bs |> SetData (opening " name="%bs) |> AppendData name
  |> AppendData (closing " addr="%bs) |> AppendHexString addr |> AppendData " size="%bs |> AppendHexString size.
Definition DvdBlk_class : RequestClass unit := MkClass ok_binary default_ProcessResponse.

Inductive DvdPerfAction := DVD_START | DVD_STOP | DVD_STOP_REPORT.
Definition DvdPerf (action : DvdPerfAction) : RDCPRequest :=
  request "dvdperf"%bs |> SetData
    match action with
    | DVD_START => " start"%bs
    | DVD_STOP => " stop"%bs
    | DVD_STOP_REPORT => " stop report"%bs
    end.

Definition FileEOF (path : bytes) (size : Z) : RDCPRequest :=
  request "fileeof"%bs |> SetData (opening " name="%bs) |> AppendData path
  |> AppendData (closing " size="%bs) |> AppendHexString size.

(** [static_cast<uint32_t>(binary_payload.size())] *)
Definition payload_size (payload : bytes) : Z := u32 (Z.of_nat (length payload)).

(** Classes with a payload: the request and what [BinaryPayload] returns. *)
Definition Flash (buffer : bytes) (crc : Z) (ignore_version_checking : bool) : RDCPRequest * option bytes :=
  (request "flash"%bs |> SetData " length="%bs |> AppendHexString (payload_size buffer)
   |> AppendData " crc="%bs |> AppendHexString crc
   |> when ignore_version_checking (AppendData " ignoreversionchecking=1"%bs), Some buffer).

Definition FmtFat (partition : Z) : RDCPRequest :=
  request "fmtfat"%bs |> SetData " partition="%bs |> AppendHexString partition.

Definition FuncCall (thread_id : Z) : RDCPRequest :=
  request "funccall"%bs |> SetData " thread="%bs |> AppendHexString thread_id.

(** ** Contexts *)

Definition GetContext (thread_id : Z) (enable_control enable_integer enable_float : bool) : option RDCPRequest :=
  if enable_control || enable_integer || enable_float then
    Some (request "getcontext"%bs |> SetData " thread="%bs |> AppendHexString thread_id
          |> when enable_control (AppendData " control"%bs)
          |> when enable_integer (AppendData " int"%bs)
          |> when enable_float (AppendData " fp"%bs))
  else None.
Definition GetContext_class `{!Boost} : RequestClass ThreadContext :=
  MkClass ok_multiline (if_ok ok_multiline (λ response _,
    parsed ← RDCPMapResponse_of (RdcpResponse.data_ response); Some (ParseContext parsed))).

Definition GetD3DState : RDCPRequest := request "getd3dstate"%bs.
Definition GetD3DState_size {S} : ReadBinarySizeFunc S := fixed_size 1180.
Definition GetD3DState_class : RequestClass bytes := MkClass ok_binary (if_ok ok_binary take_data).

Definition GetExtContext (thread_id : Z) : RDCPRequest :=
  request "getextcontext"%bs |> SetData " thread="%bs |> AppendHexString thread_id.
Definition GetExtContext_class : RequestClass ThreadFloatContext :=
  MkClass ok_binary (if_ok ok_binary (λ response self, ParseFloat (RdcpResponse.data_ response) self)).

(** [GetExtContext] and [GetFile] use [BinarySizeInt32Prefix]. *)
Definition GetFile (path : bytes) : RDCPRequest :=
  request "getfile"%bs |> SetData (opening " name="%bs) |> AppendData path |> AppendData [quote].
Definition GetFile_range (path : bytes) (offset size : Z) : RDCPRequest :=
  request "getfile"%bs |> SetData (opening " name="%bs) |> AppendData path
  |> AppendData (closing " offset="%bs) |> AppendHexString offset
  |> AppendData " size="%bs |> AppendHexString size.
Definition GetFile_class : RequestClass bytes := MkClass ok_binary (if_ok ok_binary take_data).

(** [exists] is not initialised. *)
Record FileAttributes := MkAttributes {
  file_exists : option bool;
  attr_filesize : Z;
  attr_create_timestamp : Z;
  attr_change_timestamp : Z;
  attr_flags : gset bytes
}.

Definition GetFileAttributes (path : bytes) : RDCPRequest :=
  request "getfileattributes"%bs |> SetData (opening " name="%bs) |> AppendData path |> AppendData [quote].
Definition attributes_ok (s : StatusCode) : bool :=
  (s =? OK_MULTILINE_RESPONSE) || (s =? ERR_FILE_NOT_FOUND) || (s =? ERR_ACCESS_DENIED).
Definition GetFileAttributes_class `{!Boost} : RequestClass FileAttributes :=
  MkClass attributes_ok (λ status response self,
    if attributes_ok status then
      if status =? OK_MULTILINE_RESPONSE then
        parsed ← RDCPMapResponse_of (RdcpResponse.data_ response);
        Some (MkAttributes (Some true) (GetQWORD "sizelo"%bs "sizehi"%bs 0 parsed)
                (u64 (GetQWORD "createlo"%bs "createhi"%bs 0 parsed))
                (u64 (GetQWORD "changelo"%bs "changehi"%bs 0 parsed)) (valueless_keys parsed))
      else Some (MkAttributes (Some false) (attr_filesize self) (attr_create_timestamp self)
                   (attr_change_timestamp self) (attr_flags self))
    else Some self).

Definition GetGamma : RDCPRequest := request "getgamma"%bs.
Definition GetGamma_size {S} : ReadBinarySizeFunc S := fixed_size 768.
Definition GetGamma_class : RequestClass bytes := MkClass ok_binary (if_ok ok_binary take_data).

(** ** Memory *)

Definition GetMem (addr length : Z) : RDCPRequest :=
  request "getmem"%bs |> SetData " addr="%bs |> AppendHexString addr
  |> AppendData " length="%bs |> AppendHexString length.

Definition GetMemBinary (addr length : Z) : RDCPRequest :=
  request "getmem2"%bs |> SetData " ADDR="%bs |> AppendHexString addr
  |> AppendData " LENGTH="%bs |> AppendHexString length.
Definition GetMemBinary_size {S} (length : Z) : ReadBinarySizeFunc S := fixed_size length.
Definition GetMemBinary_class : RequestClass bytes := MkClass ok_binary (if_ok ok_binary take_data).

Definition GetPalette (stage : Z) : RDCPRequest :=
  request "getpalette"%bs |> SetData " STAGE="%bs |> AppendHexString stage.

Definition GetProcessID : RDCPRequest := request "getpid"%bs.
Definition GetProcessID_class `{!Boost} : RequestClass Z :=
  MkClass default_IsOK (if_ok default_IsOK (λ response _,
    parsed ← RDCPMapResponse_of (RdcpResponse.data_ response); Some (GetDWORD "pid"%bs 0 parsed))).

(** The request and its [length] member. *)
Definition GetChecksum (addr len blocksize : Z) : option (RDCPRequest * Z) :=
  if (Z.land addr 7 =? 0) && (Z.land len 7 =? 0) && (Z.land blocksize 7 =? 0) && negb (blocksize =? 0) then
    Some (request "getsum"%bs |> SetData " ADDR="%bs |> AppendHexString addr
          |> AppendData " LENGTH="%bs |> AppendHexString len
          |> AppendData " BLOCKSIZE="%bs |> AppendHexString blocksize,
          u32 (len / blocksize * 4))
  else None.
Definition GetChecksum_size {S} (length : Z) : ReadBinarySizeFunc S := fixed_size length.

(** [count] little-endian words from the front; [None]: not that many. *)
Fixpoint read_words (count : nat) (data : bytes) : option (list Z) :=
  match count with
  | O => Some []
  | S c => if (length data <? 4)%nat then None else cons (le_int (take 4 data)) <$> read_words c (drop 4 data)
  end.

Definition GetChecksum_class (length : Z) : RequestClass (list Z) :=
  MkClass ok_binary (if_ok ok_binary (λ response self,
    words ← read_words (Z.to_nat (length / 4)) (RdcpResponse.data_ response); Some (self ++ words))).

Definition GetSurface (surface_id : Z) : RDCPRequest :=
  request "getsurf"%bs |> SetData " id="%bs |> AppendHexString surface_id.

Definition GetUserPrivileges_current : RDCPRequest := request "getuserpriv"%bs.
Definition GetUserPrivileges (username : bytes) : RDCPRequest :=
  request "getuserpriv"%bs |> SetData (opening " name="%bs) |> AppendData username |> AppendData [quote].
Definition GetUserPrivileges_class `{!Boost} : RequestClass (gset bytes) :=
  MkClass default_IsOK (if_ok default_IsOK (λ response _,
    parsed ← RDCPMapResponse_of (RdcpResponse.data_ response); Some (valueless_keys parsed))).

Definition GetUtilityDriveInfo : RDCPRequest := request "getutildrvinfo"%bs.
Definition GetUtilityDriveInfo_class `{!Boost} : RequestClass (gmap bytes Z) :=
  MkClass default_IsOK (if_ok default_IsOK (λ response partitions,
    parsed ← RDCPMapResponse_of (RdcpResponse.data_ response);
    Some (((λ v, u32 (ParseInt32 v)) <$> rmap parsed) ∪ partitions))).

(** ** Execution control *)

Definition Go : RDCPRequest := request "go"%bs.

Definition EnableGPUCounter (enable : bool) : RDCPRequest :=
  request "gpucount"%bs |> SetData (if enable then " enable"%bs else " disable"%bs).

Definition Halt_all : RDCPRequest := request "halt"%bs.
Definition Halt (thread_id : Z) : RDCPRequest :=
  request "halt"%bs |> SetData " thread="%bs |> AppendHexString thread_id.

Definition IsBreak (addr : Z) : RDCPRequest :=
  request "isbreak"%bs |> SetData " addr="%bs |> AppendHexString addr.
(** The member [type], an enumeration over [int]. *)
Definition IsBreak_class `{!Boost} : RequestClass Z :=
  MkClass default_IsOK (if_ok default_IsOK (λ response _,
    parsed ← RDCPMapResponse_of (RdcpResponse.data_ response); Some (GetDWORD "type"%bs 0 parsed))).

Definition IsDebugger : RDCPRequest := request "isdebugger"%bs.
(** The one class whose [ProcessResponse] does not look at [IsOK]. *)
Definition IsDebugger_class : RequestClass bool :=
  MkClass (λ s, (s =? OK_BINARY_RESPONSE) || (s =? ERR_EXISTS)) (λ status _ _, Some (status =? ERR_EXISTS)).

Record StoppedState := MkStopped { stopped : bool; stop_reason : option StopReason }.

Definition IsStopped (thread_id : Z) : RDCPRequest :=
  request "isstopped"%bs |> SetData " thread="%bs |> AppendHexString thread_id.
(** The reason is the text before the first space, the rest are its values. *)
Definition IsStopped_class `{!Boost} : RequestClass StoppedState :=
  let is_ok := ok_or ERR_NOT_STOPPED in
  MkClass is_ok (λ status response self,
    if is_ok status then
      if status =? OK then
        let data := RdcpResponse.data_ response in
        let delimiter := default (length data) (find_byte space data) in
        parsed ← RDCPMapResponse_of (drop delimiter data);
        Some (MkStopped true
          match stop_reason_of (take delimiter data) parsed with
          | Some r => Some r
          | None => stop_reason self
          end)
      else Some (MkStopped false (stop_reason self))
    else Some self).

Definition IRTSweep : RDCPRequest := request "irtsweep"%bs.

Inductive KernelDebugMode := KD_ENABLE | KD_DISABLE | KD_EXCEPT | KD_EXCEPT_IF.
Definition KernelDebug (mode : KernelDebugMode) : RDCPRequest :=
  request "kd"%bs |> SetData
    match mode with
    | KD_ENABLE => " enable"%bs
    | KD_DISABLE => " disable"%bs
    | KD_EXCEPT => " except"%bs
    | KD_EXCEPT_IF => " exceptif"%bs
    end.

Definition KeyExchange (key_data : bytes) : RDCPRequest * option bytes := (request "keyxchg"%bs, Some key_data).

Definition LockMode (box_id : Z) (encrypt : bool) : RDCPRequest :=
  request "lockmode"%bs |> SetData " boxid="%bs |> AppendHexString64 box_id |> when encrypt (AppendData " encrypt"%bs).
Definition Unlock : RDCPRequest := request "lockmode"%bs |> SetData " unlock"%bs.

Inductive LOPCommand := LOP_START_EVENT | LOP_START_COUNTER | LOP_STOP | LOP_INFO.
Definition LOP (command : LOPCommand) (data : Z) : RDCPRequest :=
  let r := request "lop"%bs in
  match command with
  | LOP_START_EVENT => r |> SetData " cmd=start event="%bs |> AppendHexString data
  | LOP_START_COUNTER => r |> SetData " cmd=start counter="%bs |> AppendHexString data
  | LOP_STOP => r |> SetData " cmd=stop"%bs
  | LOP_INFO => r |> SetData " cmd=info"%bs
  end.

Definition MagicBoot (title : bytes) (enable_xbdm_after_reboot enable_cold : bool) : RDCPRequest :=
  request "magicboot"%bs |> SetData (opening " title="%bs) |> AppendData title |> AppendData [quote]
  |> when enable_xbdm_after_reboot (AppendData " debug"%bs) |> when enable_cold (AppendData " cold"%bs).

(** [MemTrack]: each overload accepts some of the commands. *)
Inductive MemTrackCommand := MT_ENABLE | MT_ENABLE_ONCE | MT_DISABLE | MT_SAVE | MT_QUERY_STACK_DEPTH | MT_QUERY_TYPE | MT_QUERY_FLAGS.

Definition MemTrack (command : MemTrackCommand) : option RDCPRequest :=
  let r := request "memtrack"%bs in
  match command with
  | MT_DISABLE => Some (r |> SetData " cmd=disable"%bs)
  | MT_QUERY_STACK_DEPTH => Some (r |> SetData " cmd=querystackdepth"%bs)
  | MT_QUERY_FLAGS => Some (r |> SetData " cmd=queryflags"%bs)
  | _ => None
  end.

Definition MemTrack_enable (command : MemTrackCommand) (stack_depth flags : Z) : option RDCPRequest :=
  let finish r := Some (r |> AppendData " stackdepth="%bs |> AppendHexString stack_depth
                        |> AppendData " flags="%bs |> AppendHexString flags) in
  match command with
  | MT_ENABLE => finish (request "memtrack"%bs |> SetData " cmd=enable"%bs)
  | MT_ENABLE_ONCE => finish (request "memtrack"%bs |> SetData " cmd=enableonce"%bs)
  | _ => None
  end.

Definition MemTrack_save (command : MemTrackCommand) (filename : bytes) : option RDCPRequest :=
  match command with
  | MT_SAVE => Some (request "memtrack"%bs |> SetData (opening " cmd=save filename="%bs)
                     |> AppendData filename |> AppendData [quote])
  | _ => None
  end.

Definition MemTrack_type (command : MemTrackCommand) (type : Z) : option RDCPRequest :=
  match command with
  | MT_QUERY_TYPE => Some (request "memtrack"%bs |> SetData " cmd=querytype type="%bs |> AppendHexString type)
  | _ => None
  end.

Record MemoryStatistics := MkStatistics {
  mm_highest_physical_page : Z; retail_pfn_region : Z; system_pte_range : Z; available_pages : Z;
  allocated_pages_by_usage : Z; pfn_database : Z; address_space_lock : Z; vad_root : Z; vad_hint : Z;
  vad_free_hint : Z; mm_number_of_physical_pages : Z; mm_available_pages : Z
}.

(** [static_cast<uint32_t>(GetDWORD(key))] *)
Definition GetDWORD_u32 `{!Boost} (key : bytes) (parsed : RDCPMapResponse) : Z := u32 (GetDWORD key 0 parsed).

Definition MemoryMapGlobal : RDCPRequest := request "mmglobal"%bs.
Definition MemoryMapGlobal_class `{!Boost} : RequestClass MemoryStatistics :=
  MkClass ok_multiline (if_ok ok_multiline (λ response _,
    parsed ← RDCPMapResponse_of (RdcpResponse.data_ response);
    Some (MkStatistics
      (GetDWORD_u32 "MmHighestPhysicalPage"%bs parsed) (GetDWORD_u32 "RetailPfnRegion"%bs parsed)
      (GetDWORD_u32 "SystemPteRange"%bs parsed) (GetDWORD_u32 "AvailablePages"%bs parsed)
      (GetDWORD_u32 "AllocatedPagesByUsage"%bs parsed) (GetDWORD_u32 "PfnDatabase"%bs parsed)
      (GetDWORD_u32 "AddressSpaceLock"%bs parsed) (GetDWORD_u32 "VadRoot"%bs parsed)
      (GetDWORD_u32 "VadHint"%bs parsed) (GetDWORD_u32 "VadFreeHint"%bs parsed)
      (GetDWORD_u32 "MmNumberOfPhysicalPages"%bs parsed) (GetDWORD_u32 "MmAvailablePages"%bs parsed)))).

Definition Mkdir (name : bytes) : RDCPRequest :=
  request "mkdir"%bs |> SetData (opening " name="%bs) |> AppendData name |> AppendData [quote].

(** ** Modules and sections *)

Definition ModLongName (name : bytes) : RDCPRequest :=
  request "modlong"%bs |> SetData (opening " name="%bs) |> AppendData name |> AppendData [quote].
Definition ModLongName_class : RequestClass bytes :=
  MkClass default_IsOK (if_ok default_IsOK (λ response _, Some (response_message_ response))).

Record SectionInfo := MkSectionInfo {
  si_name : bytes; si_base : Z; si_size : Z; si_index : Z; si_flags : Z; additional_flags : gset bytes
}.

Definition ModSections (name : bytes) : RDCPRequest :=
  request "modsections"%bs |> SetData (opening " name="%bs) |> AppendData name |> AppendData [quote].
Definition SectionInfo_of_map `{!Boost} (it : RDCPMapResponse) : SectionInfo :=
  MkSectionInfo (GetString "name"%bs [] it) (GetDWORD_u32 "base"%bs it) (GetDWORD_u32 "size"%bs it)
    (GetDWORD_u32 "index"%bs it) (GetDWORD_u32 "flags"%bs it) (valueless_keys it).
Definition ModSections_class `{!Boost} : RequestClass (list SectionInfo) :=
  MkClass ok_multiline (if_ok ok_multiline (append_lines SectionInfo_of_map)).

Definition Modules : RDCPRequest := request "modules"%bs.
Definition Module_of_line `{!Boost} (it : RDCPMapResponse) : Module_ :=
  MkModule (GetString "name"%bs [] it) (GetDWORD_u32 "base"%bs it) (GetDWORD_u32 "size"%bs it)
    (GetDWORD_u32 "check"%bs it) (GetDWORD_u32 "timestamp"%bs it) (HasKey "tls"%bs it) (HasKey "xbe"%bs it).
Definition Modules_class `{!Boost} : RequestClass (list Module_) :=
  MkClass ok_multiline (if_ok ok_multiline (append_lines Module_of_line)).

(** ** Stop events *)

Definition kAll : Z := 4294967295.
Definition kCreateThread : Z := 1.
Definition kFirstChanceException : Z := 2.
Definition kDebugStr : Z := 4.
Definition kStacktrace : Z := 8.

Definition StopOnBase_ (command : bytes) (events : Z) : RDCPRequest :=
  if events =? kAll then request command |> SetData " all"%bs
  else request command
    |> when (has_flag events kCreateThread) (AppendData " createthread"%bs)
    |> when (has_flag events kFirstChanceException) (AppendData " fce"%bs)
    |> when (has_flag events kDebugStr) (AppendData " debugstr"%bs)
    |> when (has_flag events kStacktrace) (AppendData " stacktrace"%bs).

Definition NoStopOn (events : Z) : RDCPRequest := StopOnBase_ "nostopon"%bs events.
Definition StopOn (events : Z) : RDCPRequest := StopOnBase_ "stopon"%bs events.

(** ** Notifications *)

Definition Notify : RDCPRequest := request "notify"%bs.
Definition Notify_class : RequestClass unit := MkClass ok_dedicated default_ProcessResponse.

Definition NotifyAt (port : Z) (drop_flag debug_flag : bool) : RDCPRequest :=
  request "notifyat"%bs |> SetData " Port="%bs |> AppendDecimalString port
  |> when drop_flag (AppendData " drop"%bs) |> when debug_flag (AppendData " debug"%bs).
Definition NotifyAt_address (port : Z) (address : bytes) (drop_flag debug_flag : bool) : RDCPRequest :=
  request "notifyat"%bs |> SetData " Port="%bs |> AppendHexString port
  |> AppendData " addr="%bs |> AppendData address
  |> when drop_flag (AppendData " drop"%bs) |> when debug_flag (AppendData " debug"%bs).

Definition PBSnap : RDCPRequest := request "pbsnap"%bs.

Record Counter := MkCounter { counter_name : bytes; counter_type : Z }.
Definition PerformanceCounterList : RDCPRequest := request "pclist"%bs.
Definition PerformanceCounterList_class `{!Boost} : RequestClass (list Counter) :=
  MkClass ok_multiline (if_ok ok_multiline (append_lines (λ it,
    MkCounter (GetString "name"%bs [] it) (GetDWORD "type"%bs 0 it)))).

Definition PDBInfo (address : Z) : RDCPRequest :=
  request "pdbinfo"%bs |> SetData " addr="%bs |> AppendHexString address.

Definition PSSnap (x y flags marker : Z) : RDCPRequest :=
  request "pssnap"%bs |> SetData " x="%bs |> AppendHexString x |> AppendData " y="%bs |> AppendHexString y
  |> when (negb (flags =? 0)) (λ r, r |> AppendData " flags="%bs |> AppendHexString flags)
  |> when (negb (marker =? 0)) (λ r, r |> AppendData " marker="%bs |> AppendHexString marker).

Definition QueryPerformanceCounter (name : bytes) : RDCPRequest :=
  request "querypc"%bs |> SetData (opening " name="%bs) |> AppendData name |> AppendData [quote].
Definition QueryPerformanceCounter_type (name : bytes) (counter_type : Z) : RDCPRequest :=
  request "querypc"%bs |> SetData (opening " name="%bs) |> AppendData name
  |> AppendData (closing " type="%bs) |> AppendHexString counter_type.
Definition QueryPerformanceCounter_class `{!Boost} : RequestClass (list RDCPMapResponse) :=
  MkClass ok_multiline (if_ok ok_multiline (λ response _, RDCPMultiMapResponse (RdcpResponse.data_ response))).

Definition kWait : Z := 1.
Definition kWarm : Z := 2.
Definition kNoDebug : Z := 4.
Definition kStop : Z := 8.

Definition Reboot (flags : Z) : RDCPRequest :=
  request "reboot"%bs
  |> when (has_flag flags kWait) (AppendData " wait"%bs)
  |> when (has_flag flags kWarm) (AppendData " warm"%bs)
  |> when (has_flag flags kNoDebug) (AppendData " nodebug"%bs)
  |> when (has_flag flags kStop) (AppendData " stop"%bs).

Definition Rename (name new_name : bytes) : RDCPRequest :=
  request "rename"%bs |> SetData (opening " name="%bs) |> AppendData name
  |> AppendData (closing (opening " newname="%bs)) |> AppendData new_name |> AppendData [quote].

Definition Resume (thread_id : Z) : RDCPRequest :=
  request "resume"%bs |> SetData " thread="%bs |> AppendHexString thread_id.

(** ** Screenshots *)

Record ScreenshotMembers := MkScreenshot {
  width : Z; height : Z; format : Z; pitch : Z; screenshot_data : bytes
}.

Definition Screenshot : RDCPRequest := request "screenshot"%bs.

(** The closure updates the members of the request as it parses the line that
    precedes the data. *)
Definition Screenshot_ParseSize `{!Boost} : ReadBinarySizeFunc ScreenshotMembers :=
  λ buffer buffer_size self,
  if buffer_size <? 4 then Some (None, self)
  else
    match find_sub kTerminator buffer with
    | None => Some (None, self)
    | Some terminator =>
      parsed ← RDCPMapResponse_of (take terminator buffer);
      Some (Some (GetUInt32 "framebuffersize"%bs 0 parsed, Z.of_nat (terminator + kTerminatorLen)),
            MkScreenshot (GetUInt32 "width"%bs 0 parsed) (GetUInt32 "height"%bs 0 parsed)
              (GetUInt32 "format"%bs 0 parsed) (GetUInt32 "pitch"%bs 0 parsed) (screenshot_data self))
    end.

Definition Screenshot_class : RequestClass ScreenshotMembers :=
  MkClass ok_binary (if_ok ok_binary (λ response self,
    Some (MkScreenshot (width self) (height self) (format self) (pitch self) (RdcpResponse.data_ response)))).

(** ** Uploads and configuration *)

Definition SendFile (name buffer : bytes) : RDCPRequest * option bytes :=
  (request "sendfile"%bs |> SetData (opening " name="%bs) |> AppendData name
   |> AppendData (closing " length="%bs) |> AppendHexString (payload_size buffer), Some buffer).

Definition SetNVRAMConfig (index value : Z) : RDCPRequest :=
  request "setconfig"%bs |> SetData " index="%bs |> AppendHexString index
  |> AppendData " value="%bs |> AppendHexString value.

(** [BinaryPayload] returns the address of an empty vector for the first. *)
Definition SetContext (thread_id : Z) (context : ThreadContext) : RDCPRequest * option bytes :=
  (request "setcontext"%bs |> SetData " thread="%bs |> AppendHexString thread_id
   |> AppendData " "%bs |> AppendData (SerializeContext context), Some []).
Definition SetContext_float (thread_id : Z) (context : ThreadFloatContext) : RDCPRequest * option bytes :=
  let binary_payload := SerializeFloat context in
  (request "setcontext"%bs |> SetData " thread="%bs |> AppendHexString thread_id
   |> AppendData " ext="%bs |> AppendHexString (payload_size binary_payload), Some binary_payload).
Definition SetContext_both (thread_id : Z) (context : ThreadContext) (ext : ThreadFloatContext)
    : RDCPRequest * option bytes :=
  let binary_payload := SerializeFloat ext in
  (request "setcontext"%bs |> SetData " thread="%bs |> AppendHexString thread_id
   |> AppendData " "%bs |> AppendData (SerializeContext context)
   |> AppendData " ext="%bs |> AppendHexString (payload_size binary_payload), Some binary_payload).

(** The high and low words of a 64-bit value. *)
Definition high_word (z : Z) : Z := u32 (Z.shiftr z 32).
Definition low_word (z : Z) : Z := u32 (Z.land z 4294967295).

Definition if_some {A} (o : option A) (f : A → RDCPRequest → RDCPRequest) (r : RDCPRequest) : RDCPRequest :=
  match o with Some a => f a r | None => r end.

Definition SetFileAttributes (name : bytes) (readonly hidden : option bool)
    (create_timestamp change_timestamp : option Z) : RDCPRequest :=
  request "setfileattributes"%bs |> SetData (opening " name="%bs) |> AppendData name |> AppendData [quote]
  |> if_some readonly (λ b r, r |> AppendData " readonly="%bs |> AppendData (one_or_zero b))
  |> if_some hidden (λ b r, r |> AppendData " hidden="%bs |> AppendData (one_or_zero b))
  |> if_some create_timestamp (λ t r, r |> AppendData " createhi="%bs |> AppendHexString (high_word t)
       |> AppendData " createlo="%bs |> AppendHexString (low_word t))
  |> if_some change_timestamp (λ t r, r |> AppendData " changehi="%bs |> AppendHexString (high_word t)
       |> AppendData " changelo="%bs |> AppendHexString (low_word t)).

Definition kMaximumDataSize : Z := (MAXIMUM_SEND_LENGTH - 32) / 4.

Definition SetMem `{!Boost} (address : Z) (data : bytes) : option RDCPRequest :=
  if Z.of_nat (length data) <=? kMaximumDataSize then
    Some (request "setmem"%bs |> SetData " addr="%bs |> AppendHexString address
          |> AppendData " data="%bs |> AppendHexBuffer data)
  else None.
Definition SetMem_hex (address : Z) (hex_data : bytes) : option RDCPRequest :=
  if Z.of_nat (length hex_data) <=? MAXIMUM_SEND_LENGTH - 32 then
    Some (request "setmem"%bs |> SetData " addr="%bs |> AppendHexString address
          |> AppendData " data="%bs |> AppendData hex_data)
  else None.

Definition SetSystemTime (nt_timestamp : Z) : RDCPRequest :=
  request "setsystime"%bs |> SetData " clocklo="%bs |> AppendHexString (low_word nt_timestamp)
  |> AppendData " clockhi="%bs |> AppendHexString (high_word nt_timestamp).
Definition SetSystemTime_tz (nt_timestamp tz : Z) : RDCPRequest :=
  SetSystemTime nt_timestamp |> AppendData " tz="%bs |> AppendHexString tz.

Definition SignContent (path : bytes) (title_id : Z) : RDCPRequest :=
  request "signcontent"%bs |> SetData (opening " name="%bs) |> AppendData path |> AppendData [quote]
  |> when (negb (title_id =? 0)) (λ r, r |> AppendData " titleid="%bs |> AppendHexString title_id).

Definition Stop : RDCPRequest := request "stop"%bs.
Definition Stop_class : RequestClass unit := MkClass (ok_or ERR_UNEXPECTED) default_ProcessResponse.

Definition Suspend (thread_id : Z) : RDCPRequest :=
  request "suspend"%bs |> SetData " thread="%bs |> AppendHexString thread_id.

Definition AppendFTime (filetime : Z) (r : RDCPRequest) : RDCPRequest :=
  r |> AppendData " ftimelo="%bs |> AppendHexString (low_word filetime)
  |> AppendData " ftimehi="%bs |> AppendHexString (high_word filetime).

(** [BinaryPayload] returns [nullptr] for an empty payload. *)
Definition SysFileUpd_local (path local_src : bytes) (filetime : Z) : RDCPRequest * option bytes :=
  (request "sysfileupd"%bs |> SetData (opening " name="%bs) |> AppendData path
   |> AppendData (closing (opening " localsrc="%bs)) |> AppendData local_src |> AppendData [quote]
   |> AppendFTime filetime, None).
Definition SysFileUpd (path data : bytes) (crc filetime : Z) : RDCPRequest * option bytes :=
  (request "sysfileupd"%bs |> SetData (opening " name="%bs) |> AppendData path
   |> AppendData (closing " size="%bs) |> AppendHexString (payload_size data)
   |> AppendData " crc="%bs |> AppendHexString crc |> AppendFTime filetime,
   if decide (data = []) then None else Some data).

Definition SystemTime : RDCPRequest := request "systime"%bs.
Definition SystemTime_class `{!Boost} : RequestClass Z :=
  MkClass default_IsOK (if_ok default_IsOK (λ response _,
    parsed ← RDCPMapResponse_of (RdcpResponse.data_ response); Some (u64 (GetQWORD "low"%bs "high"%bs 0 parsed)))).

(** ** Threads *)

Record ThreadInfoMembers := MkThreadInfo {
  suspend_count : Z; priority : Z; tls_base : Z; thread_start : Z; thread_base : Z; thread_limit : Z;
  thread_create_timestamp : Z
}.

Definition ThreadInfo (thread_id : Z) : RDCPRequest :=
  request "threadinfo"%bs |> SetData " thread="%bs |> AppendHexString thread_id.
Definition ThreadInfo_class `{!Boost} : RequestClass ThreadInfoMembers :=
  MkClass ok_multiline (if_ok ok_multiline (λ response _,
    parsed ← RDCPMapResponse_of (RdcpResponse.data_ response);
    Some (MkThreadInfo (GetDWORD "suspend"%bs 0 parsed) (GetDWORD "priority"%bs 0 parsed)
            (GetDWORD_u32 "tlsbase"%bs parsed) (GetDWORD_u32 "start"%bs parsed)
            (GetDWORD_u32 "base"%bs parsed) (GetDWORD_u32 "limit"%bs parsed)
            (u64 (GetQWORD "createlo"%bs "createhi"%bs 0 parsed))))).

Definition Threads : RDCPRequest := request "threads"%bs.
Definition Threads_class `{!Boost} : RequestClass (list Z) :=
  MkClass ok_multiline (if_ok ok_multiline (λ response self,
    Some (self ++ map ParseInt32 (RDCPMultilineResponse (RdcpResponse.data_ response))))).

(** ** Titles and users *)

Definition LoadOnBootTitle_none : RDCPRequest := request "title"%bs |> SetData " none"%bs.
Definition LoadOnBootTitle (name : bytes) (directory : option bytes) (command_line : bytes) (persist : bool)
    : RDCPRequest :=
  request "title"%bs |> SetData (opening " name="%bs) |> AppendData name |> AppendData [quote]
  |> if_some directory (λ d r, r |> AppendData (opening " dir="%bs) |> AppendData d |> AppendData [quote])
  |> when (negb (bool_decide (command_line = [])))
       (λ r, r |> AppendData (opening " cmdline="%bs) |> AppendData command_line |> AppendData [quote])
  |> when persist (AppendData " persist"%bs).
Definition LoadOnBootTitleUnpersist : RDCPRequest := request "title"%bs |> SetData " nopersist"%bs.

Definition READ : Z := 1.
Definition WRITE : Z := 2.
Definition CONTROL : Z := 4.
Definition CONFIG : Z := 8.
Definition MANAGE : Z := 16.

Definition User (name : bytes) (access_flags password : Z) : RDCPRequest :=
  request "user"%bs |> SetData (opening " name="%bs) |> AppendData name |> AppendData [quote]
  |> when (negb (password =? 0)) (λ r, r |> AppendData " passwd="%bs |> AppendHexString64 password)
  |> when (has_flag access_flags READ) (AppendData " read"%bs)
  |> when (has_flag access_flags WRITE) (AppendData " write"%bs)
  |> when (has_flag access_flags CONTROL) (AppendData " control"%bs)
  |> when (has_flag access_flags CONFIG) (AppendData " config"%bs)
  |> when (has_flag access_flags MANAGE) (AppendData " manage"%bs).
Definition RemoveUser (name : bytes) : RDCPRequest :=
  request "user"%bs |> SetData (opening " name="%bs) |> AppendData name |> AppendData (closing " remove"%bs).
Definition UserList : RDCPRequest := request "userlist"%bs.

Definition VSSnap (first last flags marker : Z) : RDCPRequest :=
  request "vssnap"%bs |> SetData " first="%bs |> AppendHexString first
  |> AppendData " last="%bs |> AppendHexString last
  |> when (negb (flags =? 0)) (λ r, r |> AppendData " flags="%bs |> AppendHexString flags)
  |> when (negb (marker =? 0)) (λ r, r |> AppendData " marker="%bs |> AppendHexString marker).

Definition WalkMem : RDCPRequest := request "walkmem"%bs.
Definition WalkMem_class `{!Boost} : RequestClass (list MemoryRegion) :=
  MkClass ok_multiline (if_ok ok_multiline (append_lines region_of_map)).

Definition WriteFile (name buffer : bytes) : RDCPRequest * option bytes :=
  (request "writefile"%bs |> SetData (opening " name="%bs) |> AppendData name |> AppendData [quote]
   |> AppendData " length="%bs |> AppendHexString (payload_size buffer), Some buffer).

Record XBEInfoMembers := MkXBEInfo { xbe_name : bytes; xbe_timestamp : Z; xbe_checksum : Z }.

Definition XBEInfo_running : RDCPRequest := request "xbeinfo"%bs |> SetData " running"%bs.
Definition XBEInfo (name : bytes) (on_disk_only : bool) : RDCPRequest :=
  request "xbeinfo"%bs |> SetData (opening " name="%bs) |> AppendData name |> AppendData [quote]
  |> when on_disk_only (AppendData " ondiskonly"%bs).
Definition XBEInfo_dir (name dir : bytes) : RDCPRequest :=
  request "xbeinfo"%bs |> SetData (opening " name="%bs) |> AppendData name |> AppendData [quote]
  |> when (negb (bool_decide (dir = [])))
       (λ r, r |> AppendData (opening " dir="%bs) |> AppendData dir |> AppendData [quote]).
Definition XBEInfo_class `{!Boost} : RequestClass XBEInfoMembers :=
  MkClass ok_multiline (if_ok ok_multiline (λ response _,
    parsed ← RDCPMapResponse_of (RdcpResponse.data_ response);
    Some (MkXBEInfo (GetString "name"%bs [] parsed) (GetDWORD_u32 "timestamp"%bs parsed)
            (GetDWORD_u32 "checksum"%bs parsed)))).

Definition XTLInfo : RDCPRequest := request "xtlinfo"%bs.
Definition XTLInfo_class `{!Boost} : RequestClass Z :=
  MkClass ok_multiline (if_ok ok_multiline (λ response _,
    parsed ← RDCPMapResponse_of (RdcpResponse.data_ response); Some (GetDWORD "lasterr"%bs 0 parsed))).

(** ** The alternative address *)

(** [inet_ntop(AF_INET, ...)]: the bytes of the word in memory order, in
    decimal. *)
Definition inet_ntop (address : Z) : bytes := join "."%bs (map (λ b, fmt_u (byte_val b)) (le_bytes 4 address)).

Record AltAddrMembers := MkAltAddr { address : Z; address_string : bytes }.

Definition AltAddr : RDCPRequest := request "altaddr"%bs.
Definition AltAddr_class `{!Boost} : RequestClass AltAddrMembers :=
  MkClass default_IsOK (if_ok default_IsOK (λ response _,
    parsed ← RDCPMapResponse_of (RdcpResponse.data_ response);
    let address := htonl (u32 (GetDWORD "addr"%bs 0 parsed)) in
    Some (MkAltAddr address (inet_ntop address)))).

(** ** What the other side reads *)

Section Wire.
Context `{HB : !BoostLaws B}.

Lemma hex_param_ok z : plain_text (hex_param z) ∧ space ∉ hex_param z.
Proof. unfold plain_text. split_and!; by apply hex_param_misses. Qed.

Lemma hex_entry_ok key z : bool_decide (key_ok key) = true → entry_ok (Pair key (hex_param z)).
Proof. intros Hk%bool_decide_eq_true. destruct (hex_param_ok z). done. Qed.

Lemma GetUInt32_hex key z r :
  is_u32 z → rmap r !! map tolower key = Some (hex_param z) → GetUInt32 key 0 r = z.
Proof.
  intros Hz Hl. unfold GetUInt32, lookup_key. rewrite to_lower_copy_spec, Hl. unfold hex_param.
  rewrite u32_id by done. by apply ParseUint32_fmt_0x.
Qed.

(** The parameters of a request are entries, each after a space. *)
Definition parameters (es : list entry) : bytes := concat (map (λ e, space :: field_image (entry_field e)) es).

Definition read_parameters (es : list entry) : RDCPMapResponse :=
  fold_left insert_entry es (insert_token [] empty_response).

Lemma read_parameters_of es r :
  request_data_ r = parameters es → es ≠ [] → Forall entry_ok es →
  RDCPMapResponse_of (request_data_ r) = Some (read_parameters es).
Proof. intros -> Hne Hes. by apply leading_separator. Qed.

Lemma GetMemBinary_wire a n :
  is_u32 a → is_u32 n →
  ∃ parsed, RDCPMapResponse_of (request_data_ (GetMemBinary a n)) = Some parsed
    ∧ GetUInt32 "addr"%bs 0 parsed = a ∧ GetUInt32 "length"%bs 0 parsed = n.
Proof.
  intros Ha Hn. exists (read_parameters [Pair "ADDR"%bs (hex_param a); Pair "LENGTH"%bs (hex_param n)]). split_and!.
  - apply read_parameters_of; [|done|].
    + unfold GetMemBinary. rewrite !AppendHexString_spec.
      unfold parameters, field_image. cbn -[hex_param]. by rewrite !app_nil_r, <- !app_assoc.
    + constructor; [|constructor; [|constructor]]; apply hex_entry_ok; reflexivity.
  - apply GetUInt32_hex; [done|]. cbn. rewrite !to_lower_copy_spec. reflexivity.
  - apply GetUInt32_hex; [done|]. cbn. rewrite !to_lower_copy_spec. reflexivity.
Qed.

(** The memory request and its answer: a server that reads the
    parameters of [getmem2] with the protocol's reader gets the address and
    the length; when it answers with the announced number of bytes, whatever
    follows in the stream, the response is framed exactly and completing the
    request leaves those bytes in [data] and an accepted status. *)
Theorem GetMemBinary_exchange (addr len : Z) (msg memory rest : bytes)
  (Haddr : is_u32 addr) (Hlen : is_u32 len) (Hmem : Z.of_nat (length memory) = len) (Hmsg : CR ∉ msg)
  (Hbound : Z.of_nat (length (reply_image (Binary msg [] memory) ++ rest)) < 2 ^ 32) :
  (∃ parsed, RDCPMapResponse_of (request_data_ (GetMemBinary addr len)) = Some parsed
     ∧ GetUInt32 "addr"%bs 0 parsed = addr ∧ GetUInt32 "length"%bs 0 parsed = len)
  ∧ ∃ response,
    RdcpResponse.Parse (reply_image (Binary msg [] memory) ++ rest) (Some (GetMemBinary_size len)) tt
      = Some (Z.of_nat (length (reply_image (Binary msg [] memory))), Some response, tt)
    ∧ Complete GetMemBinary_class response (processed (GetMemBinary addr len) [])
      = Some (MkProcessed (GetMemBinary addr len) OK_BINARY_RESPONSE [] memory)
    ∧ IsOK GetMemBinary_class OK_BINARY_RESPONSE = true.
Proof.
  split; [by apply GetMemBinary_wire|].
  exists (reply_response (Binary msg [] memory)). split_and!; [|reflexivity|reflexivity].
  apply Parse_reply; [apply fixed_size_stable; unfold is_u32 in Hlen; lia| |done].
  split; [done|]. cbn. by rewrite Hmem.
Qed.
End Wire.

Lemma GetMemBinary_exchange_witness :
  let B := Boost_reference.boost_reference in
  let memory := [Byte.x0d; Byte.x0a; "."%byte; Byte.x0d] in
  (∃ parsed, RDCPMapResponse_of (request_data_ (GetMemBinary 65536 4)) = Some parsed
     ∧ GetUInt32 "addr"%bs 0 parsed = 65536 ∧ GetUInt32 "length"%bs 0 parsed = 4)
  ∧ ∃ response,
    RdcpResponse.Parse (reply_image (Binary "binary"%bs [] memory) ++ [Byte.x0a]) (Some (GetMemBinary_size 4)) tt
      = Some (Z.of_nat (length (reply_image (Binary "binary"%bs [] memory))), Some response, tt)
    ∧ Complete GetMemBinary_class response (processed (GetMemBinary 65536 4) [])
      = Some (MkProcessed (GetMemBinary 65536 4) OK_BINARY_RESPONSE [] memory)
    ∧ IsOK GetMemBinary_class OK_BINARY_RESPONSE = true.
Proof.
  apply (@GetMemBinary_exchange Boost_reference.boost_reference Boost_reference.boost_reference_laws
           65536 4 "binary"%bs [Byte.x0d; Byte.x0a; "."%byte; Byte.x0d] [Byte.x0a]).
  - unfold is_u32; lia.
  - unfold is_u32; lia.
  - reflexivity.
  - apply (bool_decide_unpack _). vm_compute. exact I.
  - vm_compute. reflexivity.
Defined.

Definition break_kinds : list bytes := ["read"%bs; "write"%bs; "execute"%bs].

(** Data breakpoints on the wire: the parameters of [break] for a range,
    read with the protocol's reader, give back the address under the name of
    the access, the [clear] flag exactly when the range is being cleared, and
    the size exactly when it is being set. *)
Theorem BreakRange_wire `{HB : !BoostLaws B} (type : bytes) (address size : Z) (clear : bool)
  (Htype : type ∈ break_kinds) (Ha : is_u32 address) (Hs : is_u32 size) :
  ∃ parsed, RDCPMapResponse_of (request_data_ (BreakRange_ type address size clear)) = Some parsed
    ∧ GetUInt32 type 0 parsed = address
    ∧ HasKey "clear"%bs parsed = clear
    ∧ (if clear then HasKey "size"%bs parsed = false else GetUInt32 "size"%bs 0 parsed = size).
Proof.
  assert (bool_decide (key_ok type) = true) as Hkey.
  { unfold break_kinds in Htype. set_unfold in Htype. destruct Htype as [->|[->|[->|[]]]]; reflexivity. }
  exists (read_parameters ((if clear then [Flag "clear"%bs] else [])
    ++ [Pair type (hex_param address)] ++ (if clear then [] else [Pair "size"%bs (hex_param size)]))).
  split_and!.
  - apply read_parameters_of; [|by destruct clear|].
    + unfold BreakRange_, when. rewrite !AppendHexString_spec. unfold parameters, field_image.
      destruct clear; cbn -[hex_param]; rewrite ?AppendHexString_spec;
        cbn -[hex_param]; by rewrite ?app_nil_r, <- ?app_assoc.
    + destruct clear; cbn [app]; repeat (constructor; [by first [apply hex_entry_ok | apply (bool_decide_unpack (key_ok _))]|]);
        constructor.
  - apply GetUInt32_hex; [done|].
    unfold break_kinds in Htype. set_unfold in Htype. destruct Htype as [->|[->|[->|[]]]]; destruct clear; cbn;
      rewrite !to_lower_copy_spec; reflexivity.
  - unfold break_kinds in Htype. set_unfold in Htype. unfold HasKey, lookup_key.
    destruct Htype as [->|[->|[->|[]]]]; destruct clear; cbn; rewrite !to_lower_copy_spec; reflexivity.
  - destruct clear; [|apply GetUInt32_hex; [done|]];
      unfold break_kinds in Htype; set_unfold in Htype; unfold HasKey, lookup_key;
      destruct Htype as [->|[->|[->|[]]]]; cbn; rewrite !to_lower_copy_spec; reflexivity.
Qed.

Lemma BreakRange_wire_witness :
  let B := Boost_reference.boost_reference in
  ∃ parsed, RDCPMapResponse_of (request_data_ (BreakRange_ "write"%bs 65536 4 false)) = Some parsed
    ∧ GetUInt32 "write"%bs 0 parsed = 65536
    ∧ HasKey "clear"%bs parsed = false
    ∧ GetUInt32 "size"%bs 0 parsed = 4.
Proof.
  apply (@BreakRange_wire Boost_reference.boost_reference Boost_reference.boost_reference_laws
           "write"%bs 65536 4 false); [apply (bool_decide_unpack _); vm_compute; exact I|unfold is_u32; lia..].
Defined.

(** ** Writing memory *)

Lemma hex_length `{HB : !BoostLaws B} data : length (hex data) = (2 * length data)%nat.
Proof. rewrite hex_spec. induction data as [|b data IH]; [done|]. cbn in *. lia. Qed.

(** Two hexadecimal digits, most significant first. *)
Fixpoint unhex_pairs (s : bytes) : bytes :=
  match s with
  | a :: b :: s' => byte_of (digit_of a * 16 + digit_of b) :: unhex_pairs s'
  | _ => []
  end.

Lemma unhex_pairs_hex `{HB : !BoostLaws B} data : unhex_pairs (hex data) = data.
Proof.
  rewrite hex_spec. induction data as [|b data IH]; [done|]. cbn [map concat].
  change (hex_digit_pair b ++ ?l) with (digit_char true (byte_val b / 16) :: digit_char true (byte_val b mod 16) :: l).
  cbn [unhex_pairs]. rewrite IH. f_equal. pose proof (byte_val_range b).
  rewrite !digit_of_char by (split; [apply Z.div_pos || apply Z.mod_pos_bound; lia|
    first [apply Z.div_lt_upper_bound; lia | apply Z.mod_pos_bound; lia]]).
  rewrite <- (byte_of_val b) at 3. f_equal. pose proof (Z.div_mod (byte_val b) 16). lia.
Qed.

Lemma SetMem_inv `{!Boost} address data r :
  SetMem address data = Some r →
  Z.of_nat (length data) ≤ kMaximumDataSize
  ∧ r = MkRequest "setmem"%bs (" addr="%bs ++ hex_param address ++ " data="%bs ++ hex data).
Proof.
  unfold SetMem. destruct (Z.leb_spec (Z.of_nat (length data)) kMaximumDataSize); [|done].
  intros [= <-]. split; [done|]. unfold AppendHexBuffer. rewrite AppendHexString_spec.
  unfold AppendData, SetData, request. cbn [command_ request_data_]. by rewrite <- !app_assoc.
Qed.

(** A memory write fits a command: the line [setmem] sends, for every
    request either constructor accepts, is at most [MAXIMUM_SEND_LENGTH] bytes
    long, and its data is the hexadecimal image from which the written bytes
    can be recovered. *)
Theorem SetMem_fits `{HB : !BoostLaws B} (address : Z) (data hex_data : bytes) :
  (∀ r, SetMem address data = Some r →
    Z.of_nat (length (request_line r)) ≤ MAXIMUM_SEND_LENGTH
    ∧ unhex_pairs (drop 22 (request_data_ r)) = data)
  ∧ (∀ r, SetMem_hex address hex_data = Some r →
    Z.of_nat (length (request_line r)) ≤ MAXIMUM_SEND_LENGTH
    ∧ drop 22 (request_data_ r) = hex_data).
Proof.
  assert (∀ tail, drop 22 (" addr="%bs ++ hex_param address ++ " data="%bs ++ tail) = tail) as Hdrop.
  { intros tail. rewrite !app_assoc. apply drop_app_length'. rewrite !length_app, hex_param_length. reflexivity. }
  split; intros r Hr.
  - apply SetMem_inv in Hr as [Hl ->]. cbn [request_data_]. split; [|by rewrite Hdrop, unhex_pairs_hex].
    unfold request_line. cbn [command_ request_data_]. rewrite !length_app, hex_param_length, hex_length.
    change kMaximumDataSize with 120 in Hl. unfold MAXIMUM_SEND_LENGTH.
    change (length "setmem"%bs) with 6%nat. change (length " addr="%bs) with 6%nat.
    change (length " data="%bs) with 6%nat. change (length kTerminator) with 2%nat. lia.
  - unfold SetMem_hex in Hr. destruct (Z.leb_spec (Z.of_nat (length hex_data)) (MAXIMUM_SEND_LENGTH - 32)); [|done].
    injection Hr as <-. rewrite AppendHexString_spec. unfold request_line, AppendData, SetData, request.
    cbn [command_ request_data_]. rewrite <- !app_assoc, Hdrop. split; [|done]. unfold MAXIMUM_SEND_LENGTH in *.
    rewrite !length_app, hex_param_length.
    change (length "setmem"%bs) with 6%nat. change (length " addr="%bs) with 6%nat.
    change (length " data="%bs) with 6%nat. change (length kTerminator) with 2%nat. cbn [length]. lia.
Qed.

Lemma SetMem_fits_witness :
  let B := Boost_reference.boost_reference in
  (∀ r, SetMem 65536 [Byte.xff; Byte.x00] = Some r →
    Z.of_nat (length (request_line r)) ≤ MAXIMUM_SEND_LENGTH
    ∧ unhex_pairs (drop 22 (request_data_ r)) = [Byte.xff; Byte.x00])
  ∧ (∀ r, SetMem_hex 65536 "ff00"%bs = Some r →
    Z.of_nat (length (request_line r)) ≤ MAXIMUM_SEND_LENGTH
    ∧ drop 22 (request_data_ r) = "ff00"%bs).
Proof.
  apply (@SetMem_fits Boost_reference.boost_reference Boost_reference.boost_reference_laws
           65536 [Byte.xff; Byte.x00] "ff00"%bs).
Defined.

(** ** Directory listings *)

Lemma words_join v : is_i64 v → i64 (Z.shiftl (i32 (high_word v)) 32 + low_word v) = v.
Proof.
  unfold is_i64, high_word, low_word. intros Hv.
  rewrite i32_u32, Z.shiftr_div_pow2, Z.shiftl_mul_pow2 by lia.
  change 4294967295 with (Z.ones 32). rewrite Z.land_ones by lia.
  assert (- 2 ^ 31 ≤ v / 2 ^ 32 < 2 ^ 31) as Hd
    by (split; [apply Z.div_le_lower_bound; lia|apply Z.div_lt_upper_bound; lia]).
  rewrite i32_id by done. unfold u32. rewrite Z.mod_mod by lia.
  pose proof (Z.div_mod v (2 ^ 32)). rewrite i64_id by (unfold is_i64; lia). lia.
Qed.

Section Listing.
Context `{HB : !BoostLaws B}.

Lemma GetQWORD_words lo hi v r :
  is_i64 v →
  rmap r !! map tolower lo = Some (hex_param (low_word v)) →
  rmap r !! map tolower hi = Some (hex_param (high_word v)) →
  GetQWORD lo hi 0 r = v.
Proof.
  intros Hv Hlo Hhi. unfold GetQWORD, lookup_key. rewrite !to_lower_copy_spec, Hlo, Hhi.
  unfold hex_param. rewrite ParseUint32_fmt_0x, ParseInt32_fmt_0x by apply u32_range.
  rewrite !(u32_id (low_word v)), !(u32_id (high_word v)) by apply u32_range. by apply words_join.
Qed.

(** The line the debug monitor sends for a directory entry. *)
Definition entry_line (e : Entry) : list entry :=
  [QuotedPair "name"%bs (entry_name e);
   Pair "sizehi"%bs (hex_param (high_word (filesize e))); Pair "sizelo"%bs (hex_param (low_word (filesize e)));
   Pair "createhi"%bs (hex_param (high_word (create_timestamp e)));
   Pair "createlo"%bs (hex_param (low_word (create_timestamp e)));
   Pair "changehi"%bs (hex_param (high_word (change_timestamp e)));
   Pair "changelo"%bs (hex_param (low_word (change_timestamp e)))]
  ++ (if is_directory e then [Flag "directory"%bs] else []).

Definition Entry_ok (e : Entry) : Prop :=
  plain_text (entry_name e) ∧ is_i64 (filesize e) ∧ is_i64 (create_timestamp e) ∧ is_i64 (change_timestamp e).

Lemma Entry_of_line e : Entry_ok e → Entry_of_map (entries_map (entry_line e)) = e.
Proof.
  intros (Hn & Hf & Hcr & Hch). unfold Entry_of_map.
  rewrite (GetQWORD_words _ _ (filesize e)), (GetQWORD_words _ _ (create_timestamp e)),
    (GetQWORD_words _ _ (change_timestamp e));
    try done; try (destruct e as [n f c g []]; cbn; rewrite !to_lower_copy_spec; reflexivity).
  destruct e as [n f c g d]. cbn [entry_name filesize create_timestamp change_timestamp is_directory] in *.
  f_equal.
  - unfold GetString, lookup_key. destruct d; cbn; rewrite !to_lower_copy_spec; reflexivity.
  - unfold HasKey, lookup_key. destruct d; cbn; rewrite !to_lower_copy_spec; reflexivity.
Qed.

Lemma entry_line_ok e : Entry_ok e → Forall entry_ok (entry_line e).
Proof.
  intros (Hn & _). unfold entry_line. cbn [app]. repeat (constructor; [first
    [ apply hex_entry_ok; reflexivity
    | split; [apply (bool_decide_unpack _); vm_compute; exact I|exact Hn]]|]).
  destruct (is_directory e); repeat constructor; apply (bool_decide_unpack _); vm_compute; exact I.
Qed.

Lemma DirList_complete path msg (listing before : list Entry) :
  Forall Entry_ok listing →
  Complete DirList_class (MkResponse OK_MULTILINE_RESPONSE msg (unlines (map (λ e, line_of (entry_line e)) listing)))
    (processed (DirList path) before)
  = Some (MkProcessed (DirList path) OK_MULTILINE_RESPONSE msg (before ++ listing)).
Proof.
  intros Hentries.
  unfold Complete. cbn [status_ response_message_].
  change (ProcessResponse DirList_class OK_MULTILINE_RESPONSE ?r ?m) with (append_lines Entry_of_map r m).
  unfold append_lines. cbn [RdcpResponse.data_]. rewrite <- (map_map entry_line line_of), multimap_lines.
  + cbn. do 3 f_equal. rewrite !map_map. rewrite <- (map_id listing) at 2. apply map_ext_in.
    intros e He. apply Entry_of_line. rewrite Forall_forall in Hentries. by apply Hentries, list_elem_of_In.
  + apply Forall_map, (Forall_impl _ _ _ Hentries). intros e He. split; [by apply entry_line_ok|].
    unfold line_of, entry_line. destruct (is_directory e); discriminate.
Qed.

(** Listing a directory: for every list of entries (names without
    quotes and control characters, sizes and times over the whole signed
    64-bit range), the multi-line answer to [dirlist] that describes them is
    framed exactly, whatever follows it, and completing the request appends
    exactly those entries, in order. *)
Theorem DirList_exchange (path msg rest : bytes) (listing before : list Entry)
  (Hmsg : CR ∉ msg) (Hentries : Forall Entry_ok listing)
  (Hbound : Z.of_nat (length (reply_image (MultiLine msg (map (λ e, line_of (entry_line e)) listing)) ++ rest)) < 2 ^ 32) :
  let reply := MultiLine msg (map (λ e, line_of (entry_line e)) listing) in
  RdcpResponse.Parse (reply_image reply ++ rest) None tt
    = Some (Z.of_nat (length (reply_image reply)), Some (reply_response reply), tt)
  ∧ Complete DirList_class (reply_response reply) (processed (DirList path) before)
    = Some (MkProcessed (DirList path) OK_MULTILINE_RESPONSE msg (before ++ listing)).
Proof.
  intros reply. split.
  - apply Parse_reply; [exact I| |done]. split_and!; [done| |done].
    apply Forall_map, (Forall_impl _ _ _ Hentries). intros e He. split.
    + apply line_of_no_CR. by apply entry_line_ok.
    + unfold line_of, entry_line. destruct (is_directory e); discriminate.
  - by apply DirList_complete.
Qed.
End Listing.

Definition example_listing : list Entry :=
  [MkEntry "default.xbe"%bs 4294967300 130000000000000000 (-1) false; MkEntry "my saves"%bs 0 0 0 true].

Lemma DirList_exchange_witness :
  let B := Boost_reference.boost_reference in
  let reply := MultiLine "follows"%bs (map (λ e, line_of (entry_line e)) example_listing) in
  RdcpResponse.Parse (reply_image reply ++ "200-"%bs) None tt
    = Some (Z.of_nat (length (reply_image reply)), Some (reply_response reply), tt)
  ∧ Complete DirList_class (reply_response reply) (processed (DirList "e:\"%bs) [])
    = Some (MkProcessed (DirList "e:\"%bs) OK_MULTILINE_RESPONSE "follows"%bs example_listing).
Proof.
  apply (@DirList_exchange Boost_reference.boost_reference Boost_reference.boost_reference_laws
           "e:\"%bs "follows"%bs "200-"%bs example_listing []).
  - apply (bool_decide_unpack _). vm_compute. exact I.
  - unfold example_listing, Entry_ok, is_i64. repeat constructor; try lia; apply (bool_decide_unpack _); vm_compute; exact I.
  - vm_compute. reflexivity.
Defined.
