(* ===== verification/IpAddress.v ===== *)
(** * Addresses (src/net/ip_address.h, ip_address.cpp)

    An address with its port as it is read from a text, printed and compared.
    Words are kept in network order, as [sockaddr_in] has them, on a machine with
    little-endian integers.  What [inet_network] makes of a text is an interface,
    with its documented answer for four numbers that are joined by dots. *)

From S2P Require Import Prelude CLib Boost Requests.

Definition AF_INET : Z := 2.
Definition INADDR_ANY : Z := 0.
Definition INADDR_NONE : Z := 0xffffffff.

(** [htons], which is [ntohs] too. *)
Definition htons (z : Z) : Z := le_int (rev (le_bytes 2 z)).

(** What [struct sockaddr_in] holds; its padding is always zero. *)
Record sockaddr_in := MkSockaddr { sin_family : Z; sin_port : Z; s_addr : Z }.

#[global] Instance sockaddr_in_eq_decision : EqDecision sockaddr_in.
Proof. solve_decision. Defined.

Record IPAddress := MkIP { Hostname : bytes; Address : sockaddr_in }.

#[global] Instance IPAddress_eq_decision : EqDecision IPAddress.
Proof. solve_decision. Defined.

(** The members of an address nobody set. *)
Definition no_address : IPAddress := MkIP [] (MkSockaddr 0 0 0).

(** The text of four numbers joined by dots. *)
Definition dotted (parts : bytes) : bytes := join "."%bs (map (λ b, fmt_u (byte_val b)) parts).

Class Inet := {
  inet_network : bytes → Z;
  (** the address in host order, for the bytes from the highest to the lowest *)
  inet_network_dotted : ∀ parts, length parts = 4%nat → inet_network (dotted parts) = le_int (rev parts)
}.

(** [strtoul(s, nullptr, 10)] in an [uint32_t] *)
Definition read_port (s : bytes) : Z := u32 (strtoul 10 s).1.

Section Addresses.
Context `{!Inet}.

(** [IPAddress(const std::string&)] *)
Definition IPAddress_of (addr : bytes) : IPAddress :=
  let split := find_byte ":"%byte addr in
  let sin_port := match split with None => 0 | Some i => htons (Z.land (read_port (drop (S i) addr)) 0xFFFF) end in
  let hostname := match split with None => addr | Some i => take i addr end in
  let '(sin_port, s_addr) :=
    match hostname with
    | [] => (sin_port, INADDR_ANY)
    | _ =>
      let s_addr := htonl (inet_network (c_str hostname)) in
      if s_addr =? INADDR_NONE then
        let val := read_port addr in
        (if (0 <? val) && (val <? 0xFFFF) then htons (Z.land val 0xFFFF) else sin_port, INADDR_ANY)
      else (sin_port, s_addr)
    end in
  MkIP hostname (MkSockaddr AF_INET sin_port s_addr).

(** The constructor with a port that stands for one that is not given. *)
Definition IPAddress_default (addr : bytes) (default_port : Z) : IPAddress :=
  let a := IPAddress_of addr in
  if sin_port (Address a) =? 0 then
    MkIP (Hostname a) (MkSockaddr (sin_family (Address a)) (htons default_port) (s_addr (Address a)))
  else a.
End Addresses.

Definition IPAddress_port (port : Z) : IPAddress := MkIP [] (MkSockaddr AF_INET (htons port) INADDR_ANY).
Definition IPAddress_sockaddr (addr : sockaddr_in) : IPAddress := MkIP [] addr.

Definition Port (a : IPAddress) : Z := htons (sin_port (Address a)).

Definition WithPort (port : Z) (a : IPAddress) : IPAddress :=
  IPAddress_sockaddr (MkSockaddr (sin_family (Address a)) (htons port) (s_addr (Address a))).

(** [operator<<] on a stream in base 10; of another family than [AF_INET]
    [inet_ntop] writes nothing. *)
Definition address_text (a : sockaddr_in) : bytes := if sin_family a =? AF_INET then inet_ntop (s_addr a) else [].
Definition IPAddress_text (a : IPAddress) : bytes := address_text (Address a) ++ ":"%bs ++ fmt_u (Port a).

(** [operator<] and [operator==] *)
Definition address_lt (a b : IPAddress) : bool :=
  let x := Address a in let y := Address b in
  if s_addr x <? s_addr y then true
  else if s_addr y <? s_addr x then true
  else sin_port x <? sin_port y.
Definition address_eq (a b : IPAddress) : bool := bool_decide (Hostname a = Hostname b) && bool_decide (Address a = Address b).

(** ** Laws *)

Lemma htons_involutive z : 0 ≤ z < 2 ^ 16 → htons (htons z) = z.
Proof. intros Hz. unfold htons. rewrite le_bytes_rev_int by (simpl; lia). rewrite rev_involutive. by apply le_int_bytes. Qed.

Lemma htons_range z : 0 ≤ htons z < 2 ^ 16.
Proof. unfold htons. pose proof (le_int_range (rev (le_bytes 2 z))) as H. rewrite length_rev, le_bytes_length in H. exact H. Qed.

Lemma htonl_involutive z : is_u32 z → htonl (htonl z) = z.
Proof. intros Hz. unfold htonl. rewrite le_bytes_rev_int by (unfold is_u32 in Hz; simpl; lia). rewrite rev_involutive. by apply le_int_bytes. Qed.

Lemma fmt_u_chars z c : 0 ≤ z → c ∈ fmt_u z → is_digit_of 10 c = true.
Proof.
  intros Hz Hc. pose proof (print_base_digits false 10 z ltac:(lia) Hz) as Hd. rewrite Forall_forall in Hd.
  apply Is_true_true, Hd, Hc.
Qed.

(** Only digits and dots stand in the text of four numbers. *)
Lemma dotted_chars parts c : c ∈ dotted parts → is_digit_of 10 c = true ∨ c = "."%byte.
Proof.
  unfold dotted. induction parts as [|b parts IH]; [by intros ?%elem_of_nil|]. cbn [map].
  assert (Hb : c ∈ fmt_u (byte_val b) → is_digit_of 10 c = true) by (apply fmt_u_chars, byte_val_range).
  destruct parts as [|b' parts]; cbn [map join] in *; [auto|]. rewrite !elem_of_app. intros [?|[?|?]]; [auto| |auto].
  right. set_solver.
Qed.

Lemma dotted_without parts c : is_digit_of 10 c = false → c ≠ "."%byte → c ∉ dotted parts.
Proof. intros Hd Hc [H|H]%dotted_chars; congruence. Qed.

Lemma dotted_nonempty parts : parts ≠ [] → dotted parts ≠ [].
Proof.
  destruct parts as [|b parts]; [done|]. intros _. unfold dotted. cbn [map join]. 
  pose proof (print_base_nonempty false 10 (byte_val b)) as Hne. unfold fmt_u.
  destruct (map _ parts); [done|]. intros Happ%(f_equal (take 1)). destruct (print_base _ _ _); [done|]. done.
Qed.

(** What is made of a host and a port. *)
Lemma IPAddress_of_parts `{!Inet} (host port : bytes) :
  ":"%byte ∉ host → NUL ∉ host → host ≠ [] → htonl (inet_network host) ≠ INADDR_NONE →
  Address (IPAddress_of (host ++ ":"%byte :: port))
  = MkSockaddr AF_INET (htons (Z.land (read_port port) 0xFFFF)) (htonl (inet_network host)).
Proof.
  intros Hcolon Hnul Hne Hvalid. unfold IPAddress_of. rewrite find_byte_first by done. cbv beta iota zeta.
  assert (drop (S (length host)) (host ++ ":"%byte :: port) = port) as -> by (clear; by induction host).
  rewrite take_app_length, c_str_id by done.
  destruct host; [done|]. by destruct (Z.eqb_spec (htonl (inet_network (b :: host))) INADDR_NONE).
Qed.

Lemma read_port_text z : 0 ≤ z < 2 ^ 16 → read_port (fmt_u z) = z.
Proof.
  intros Hz. unfold read_port, fmt_u. rewrite <- (app_nil_r (print_base false 10 z)).
  pose proof (print_base_value false 10 z ltac:(lia) ltac:(lia)) as Hv.
  rewrite strtoul_digits; [cbn [fst]; rewrite Hv; apply u32_id; unfold is_u32; lia|done|..].
  - apply print_base_digits; lia.
  - apply print_base_nonempty.
  - done.
  - rewrite Hv. unfold ULONG_MAX. lia.
Qed.

(** An address of the internet with any port is read back from its text, except the
    one of which all bits are set. *)
Theorem address_roundtrip `{!Inet} (a : IPAddress) :
  sin_family (Address a) = AF_INET → 0 ≤ sin_port (Address a) < 2 ^ 16 → is_u32 (s_addr (Address a)) →
  s_addr (Address a) ≠ INADDR_NONE →
  Address (IPAddress_of (IPAddress_text a)) = Address a.
Proof.
  destruct a as [hostname [family port s]]. cbn [Address sin_family sin_port s_addr]. intros -> Hp Hs Hne.
  assert (Hbytes : inet_network (inet_ntop s) = htonl s).
  { unfold inet_ntop. fold (dotted (le_bytes 4 s)). by rewrite inet_network_dotted by apply le_bytes_length. }
  unfold IPAddress_text, address_text, Port. cbn [Address sin_family s_addr sin_port]. change (AF_INET =? AF_INET) with true.
  cbv iota. unfold inet_ntop in *. fold (dotted (le_bytes 4 s)) in *. cbn [app bytes_of_literal].
  rewrite IPAddress_of_parts; rewrite ?Hbytes, ?htonl_involutive by done; [|by apply dotted_without..|by apply dotted_nonempty|done].
  pose proof (htons_range port) as Hr. rewrite read_port_text by done.
  change 0xFFFF with (Z.ones 16). rewrite Z.land_ones, Z.mod_small by lia. by rewrite htons_involutive.
Qed.

(** The order of addresses is none: two addresses of different hosts are each before
    the other. *)
Lemma address_lt_both a b : s_addr (Address a) ≠ s_addr (Address b) → address_lt a b = true ∧ address_lt b a = true.
Proof.
  intros Hne. unfold address_lt.
  destruct (Z.ltb_spec (s_addr (Address a)) (s_addr (Address b))), (Z.ltb_spec (s_addr (Address b)) (s_addr (Address a))); try done; lia.
Qed.

(** ** Examples *)

(** [inet_network] on numbers joined by dots, each at most 255. *)
Fixpoint split_dots (s : bytes) : list bytes :=
  match s with
  | [] => [[]]
  | c :: s =>
    match split_dots s with
    | [] => [[c]]
    | part :: parts => if decide (c = "."%byte) then [] :: part :: parts else (c :: part) :: parts
    end
  end.

Definition inet_part (p : bytes) : bool := negb (bool_decide (p = [])) && forallb isdigit p && (number_of 10 p <=? 255).
Definition inet_network_reference (s : bytes) : Z :=
  let parts := split_dots s in
  if (length parts <=? 4)%nat && forallb inet_part parts then fold_left (λ a p, a * 256 + number_of 10 p) parts 0
  else INADDR_NONE.

Lemma split_dots_part p s : "."%byte ∉ p →
  split_dots (p ++ s) = match split_dots s with q :: parts => (p ++ q) :: parts | [] => [p] end.
Proof.
  assert (Hs : split_dots s ≠ []).
  { destruct s as [|c s]; [done|]. cbn. destruct (split_dots s); [done|]. by destruct (decide _). }
  induction p as [|c p IH]; intros Hp; [cbn [app]; destruct (split_dots s); done|].
  apply not_elem_of_cons in Hp as [Hc Hp]. cbn. rewrite IH by done. destruct (split_dots s); [done|].
  by rewrite decide_False by congruence.
Qed.

Lemma split_dots_join ps : ps ≠ [] → Forall (λ p, "."%byte ∉ p) ps → split_dots (join "."%bs ps) = ps.
Proof.
  intros Hne Hps. induction Hps as [|p ps Hp _ IH]; [done|]. destruct ps as [|q ps].
  - cbn [join]. pose proof (split_dots_part p [] Hp) as Hsplit. cbn in Hsplit. by rewrite !app_nil_r in Hsplit.
  - change (join "."%bs (p :: q :: ps)) with (p ++ "."%bs ++ join "."%bs (q :: ps)).
    rewrite split_dots_part by done.
    change (split_dots ("."%bs ++ ?s)) with (match split_dots s with [] => [["."%byte]] | part :: parts => [] :: part :: parts end).
    rewrite IH by done. by rewrite app_nil_r.
Qed.

Lemma fmt_u_part b : inet_part (fmt_u (byte_val b)) = true ∧ number_of 10 (fmt_u (byte_val b)) = byte_val b.
Proof. byte_cases b. Qed.

#[export] Program Instance inet_reference : Inet := {| inet_network := inet_network_reference |}.
Next Obligation.
  intros parts Hl. unfold inet_network_reference, dotted. rewrite split_dots_join; cycle 1.
  - by destruct parts.
  - apply Forall_map, Forall_forall. intros b _ Hin. pose proof (byte_val_range b). apply fmt_u_chars in Hin; [done|lia].
  - destruct parts as [|a [|b [|c [|d [|]]]]]; try done. cbn [map].
    destruct (fmt_u_part a) as [Ha Va], (fmt_u_part b) as [Hb Vb], (fmt_u_part c) as [Hc Vc], (fmt_u_part d) as [Hd Vd].
    cbn [forallb]. rewrite Ha, Hb, Hc, Hd. cbn [length Nat.leb andb fold_left]. rewrite Va, Vb, Vc, Vd. cbn [rev app le_int]. lia.
Qed.

Definition example_address : IPAddress := MkIP [] (MkSockaddr AF_INET (htons 731) (htonl 0xc0a80102)).

Lemma address_roundtrip_witness : IPAddress_text example_address = "192.168.1.2:731"%bs
  ∧ Address (IPAddress_of (IPAddress_text example_address)) = Address example_address.
Proof.
  split; [vm_compute; reflexivity|].
  apply (address_roundtrip example_address); vm_compute; first [reflexivity|split; congruence|congruence].
Defined.

(** The address of all hosts is read as its first number: a port on any host. *)
Example broadcast_is_a_port : Address (IPAddress_of "255.255.255.255:80"%bs) = MkSockaddr AF_INET (htons 255) INADDR_ANY.
Proof. reflexivity. Qed.

(** A port alone is read as one from 256 to 65534; a smaller number is an address. *)
Example bare_ports :
  Port (IPAddress_of "1999"%bs) = 1999 ∧ Address (IPAddress_of "80"%bs) = MkSockaddr AF_INET 0 (htonl 80)
  ∧ Port (IPAddress_of "65535"%bs) = 0.
Proof. repeat split; reflexivity. Qed.
