(* ===== verification/XbdmTransport.v ===== *)
(** * The debug monitor connection (src/rdcp/xbdm_transport.h, .cpp)

    A [TCPConnection] with a queue of requests.  A request is what the
    transport uses of it: its line, its size parser and its payload; the state
    [St] of a queued request is what its size parser may change.  The requests
    the transport completes or abandons are the outcomes of a step. *)

From S2P Require Import Prelude CLib TcpConnection RdcpResponse RdcpRequest.

(** [XBDMTransport::ConnectionState], in the order of its values. *)
Inductive ConnectionState := DISCONNECTED | INIT | CONNECTED | AWAITING_RESPONSE.

#[global] Instance ConnectionState_eq_decision : EqDecision ConnectionState.
Proof. solve_decision. Defined.

Definition state_value (s : ConnectionState) : Z :=
  match s with DISCONNECTED => -1 | INIT => 0 | CONNECTED => 1 | AWAITING_RESPONSE => 2 end.

(** What a request offers to the transport. *)
Class RequestOps (R St : Type) := {
  line : R → bytes;
  BinaryResponseSizeParser : R → option (ReadBinarySizeFunc St);
  BinaryPayload : R → option bytes
}.

Inductive outcome (R St : Type) :=
  | Completed (r : R) (st : St) (response : RDCPResponse)
  | Abandoned (r : R) (st : St).
Arguments Completed {R St} _ _ _.
Arguments Abandoned {R St} _ _.

Definition outcome_request {R St} (o : outcome R St) : R :=
  match o with Completed r _ _ | Abandoned r _ => r end.

Record XBDMTransport (R St : Type) := MkTransport {
  conn : TCPConnection;
  state_ : ConnectionState;
  request_queue_ : list (R * St)
}.
Arguments MkTransport {R St} _ _ _.
Arguments conn {R St} _.
Arguments state_ {R St} _.
Arguments request_queue_ {R St} _.

Section Transport.
Context {R St : Type} `{!RequestOps R St}.
Abbreviation T := (XBDMTransport R St).
Abbreviation O := (outcome R St).

Definition new_transport : T := MkTransport (new_connection false) INIT [].

Definition CanProcessCommands (t : T) : bool := state_value CONNECTED <=? state_value (state_ t).

Definition SetConnected (t : T) : T :=
  if state_value (state_ t) <? state_value CONNECTED then MkTransport (conn t) CONNECTED (request_queue_ t) else t.

Definition NotifyRemoved (t : T) : T :=
  let c := conn t in
  MkTransport (MkConn (socket_open c) (pipe_open c) true (close_after_flush_ c) (read_buffer_ c) (write_buffer_ c))
    DISCONNECTED (request_queue_ t).

Definition Close (t : T) : list O * T :=
  (map (λ q, Abandoned q.1 q.2) (request_queue_ t), MkTransport (TcpConnection.Close (conn t)) INIT []).

Definition with_socket (open : bool) (t : T) : T :=
  let c := conn t in
  MkTransport (MkConn open (pipe_open c) (is_shutdown_ c) (close_after_flush_ c) (read_buffer_ c) (write_buffer_ c))
    (state_ t) (request_queue_ t).

(** The answers of [socket] and [connect]. *)
Definition Connect (socket_ok connect_ok : bool) (t : T) : list O * bool * T :=
  let '(os, t1) := if socket_open (conn t) then Close t else ([], t) in
  if negb socket_ok then (os, false, with_socket false t1)
  else if negb connect_ok then (os, false, with_socket false t1)
  else (os, true, with_socket true t1).

(** The first queued request is written, whether or not it was before. *)
Definition WriteNextRequest (t : T) : T :=
  if decide (state_ t = CONNECTED) then
    match request_queue_ t with
    | [] => t
    | (r, _) :: _ => MkTransport (TcpConnection.Send (line r) (conn t)) (state_ t) (request_queue_ t)
    end
  else t.

Definition Send (r : R) (s : St) (t : T) : T :=
  WriteNextRequest (MkTransport (conn t) (state_ t) (request_queue_ t ++ [(r, s)])).

Definition HandleInitialConnectResponse (response : RDCPResponse) (t : T) : list O * T :=
  if status_ response =? OK_CONNECTED then ([], MkTransport (conn t) CONNECTED (request_queue_ t))
  else Close t.

Definition with_conn (c : TCPConnection) (t : T) : T := MkTransport c (state_ t) (request_queue_ t).

(** [None]: an exception of the parser, a failed assertion, or the use of the
    null response that follows a malformed line. *)
Definition OnBytesRead (t : T) : option (list O * T) :=
  match request_queue_ t with
  | [] =>
    match RdcpResponse.Parse (S := unit) (read_buffer_ (conn t)) None tt with
    | None => None
    | Some (bytes_consumed, response, _) =>
      if bytes_consumed =? 0 then Some ([], t)
      else
        let t1 := with_conn (ShiftReadBuffer (Z.abs bytes_consumed) (conn t)) t in
        match response with
        | None => None
        | Some resp => Some (HandleInitialConnectResponse resp t1)
        end
    end
  | (r, s) :: queue =>
    match RdcpResponse.Parse (read_buffer_ (conn t)) (BinaryResponseSizeParser r) s with
    | None => None
    | Some (bytes_consumed, response, s') =>
      if bytes_consumed =? 0 then Some ([], MkTransport (conn t) (state_ t) ((r, s') :: queue))
      else
        let c1 := ShiftReadBuffer (Z.abs bytes_consumed) (conn t) in
        match response with
        | None => None
        | Some resp =>
          if status_ resp =? OK_SEND_BINARY_DATA then
            match BinaryPayload r with
            | None => None
            | Some payload =>
              Some ([], MkTransport (TcpConnection.Send payload c1) (state_ t) ((r, s') :: queue))
            end
          else
            let t1 := WriteNextRequest (MkTransport c1 (state_ t) queue) in
            Some ([Completed r s' resp], t1)
        end
    end
  end.

(** Bytes arriving on the socket, then [OnBytesRead]. *)
Definition receive (b : bytes) (t : T) : option (list O * T) :=
  OnBytesRead (with_conn (with_read (conn t) (read_buffer_ (conn t) ++ b)) t).

Fixpoint receive_all (bs : list bytes) (t : T) : option (list O * T) :=
  match bs with
  | [] => Some ([], t)
  | b :: bs' =>
    '(os, t1) ← receive b t;
    '(os', t2) ← receive_all bs' t1;
    Some (os ++ os', t2)
  end.

(** *** Every operation as a step *)

Inductive step : T → list R → list O → T → Prop :=
  | step_send r s t : step t [r] [] (Send r s t)
  | step_connect so co t os b t' : Connect so co t = (os, b, t') → step t [] os t'
  | step_close t os t' : Close t = (os, t') → step t [] os t'
  | step_set_connected t : step t [] [] (SetConnected t)
  | step_removed t : step t [] [] (NotifyRemoved t)
  | step_receive b t os t' : receive b t = Some (os, t') → step t [] os t'
  | step_write n t : step t [] [] (with_conn (DoSend n (conn t)) t).

(** The requests given to [Send], and the outcomes, of a run. *)
Inductive steps : T → list R → list O → T → Prop :=
  | steps_refl t : steps t [] [] t
  | steps_step t rs os t1 rs' os' t2 :
    step t rs os t1 → steps t1 rs' os' t2 → steps t (rs ++ rs') (os ++ os') t2.

Definition queued (t : T) : list R := map fst (request_queue_ t).

Lemma queued_write t : queued (WriteNextRequest t) = queued t.
Proof. unfold WriteNextRequest. case_decide; [|done]. unfold queued. destruct (request_queue_ t) as [|[]] eqn:E; cbn; by rewrite ?E. Qed.

Lemma Close_outcomes t os t' : Close t = (os, t') → map outcome_request os = queued t ∧ queued t' = [].
Proof. intros [= <- <-]. split; [|done]. unfold queued. by rewrite map_map. Qed.

Lemma OnBytesRead_outcomes t os t' :
  OnBytesRead t = Some (os, t') → queued t = map outcome_request os ++ queued t'.
Proof.
  unfold OnBytesRead, queued. destruct (request_queue_ t) as [|[r s] queue] eqn:Eq; intros H.
  - destruct (Parse _ _ _) as [[[n resp] u]|]; [|done]. destruct (n =? 0); [by injection H as <- <-; rewrite Eq|].
    destruct resp as [resp|]; [|done]. injection H as H. unfold HandleInitialConnectResponse in H.
    destruct (status_ resp =? OK_CONNECTED); [injection H as <- <-|apply Close_outcomes in H as [E1 E2]];
      unfold queued in *; cbn in *; rewrite ?Eq in *; [done|by rewrite E1, E2].
  - destruct (Parse _ _ _) as [[[n resp] s']|]; [|done]. destruct (n =? 0); [by injection H as <- <-|].
    destruct resp as [resp|]; [|done]. destruct (status_ resp =? OK_SEND_BINARY_DATA).
    + destruct (BinaryPayload r); [|done]. by injection H as <- <-.
    + injection H as <- <-. fold (queued (WriteNextRequest (MkTransport (ShiftReadBuffer (Z.abs n) (conn t)) (state_ t) queue))).
      by rewrite queued_write.
Qed.

Lemma step_outcomes t rs os t' : step t rs os t' → queued t ++ rs = map outcome_request os ++ queued t'.
Proof.
  destruct 1 as [r s t|so co t os b t' H|t os t' H|t|t|b t os t' H|n t]; rewrite ?app_nil_r.
  - unfold Send. rewrite queued_write. unfold queued. cbn. by rewrite map_app.
  - unfold Connect in H. destruct (socket_open (conn t)).
    + destruct (Close t) as [os1 t1] eqn:E. apply Close_outcomes in E as [E1 E2].
      destruct so, co; cbn in H; injection H as <- <- <-; unfold queued in *; cbn; by rewrite E1, E2, app_nil_r.
    + destruct so, co; cbn in H; by injection H as <- <- <-.
  - apply Close_outcomes in H as [-> ->]. by rewrite app_nil_r.
  - unfold SetConnected. by destruct (_ <? _).
  - done.
  - apply OnBytesRead_outcomes in H. by rewrite <- H.
  - done.
Qed.
End Transport.

(** C6. No request is lost, answered twice or overtaken: over any sequence of
    operations of the transport (requests handed to [Send], connections and
    failed connections, closes, removals, arriving bytes, writes), the requests
    given to [Send] are, in order, those completed or abandoned followed by
    those still queued. *)
Theorem transport_conservation {R St} `{!RequestOps R St} (t t' : XBDMTransport R St) sent outcomes
  (Hrun : steps t sent outcomes t') :
  queued t ++ sent = map outcome_request outcomes ++ queued t'.
Proof.
  induction Hrun as [t|t rs os t1 rs' os' t2 Hstep Hrun IH]; [by rewrite app_nil_r|].
  rewrite app_assoc, (step_outcomes _ _ _ _ Hstep), <- app_assoc, IH, map_app. by rewrite app_assoc.
Qed.

(** ** Requests of the program *)

(** A constructed request with its size parser and its payload. *)
Record WireRequest := MkWire {
  wire_request : RDCPRequest;
  wire_parser : option (ReadBinarySizeFunc unit);
  wire_payload : option bytes
}.

#[global] Instance wire_ops : RequestOps WireRequest unit := {|
  line w := request_line (wire_request w);
  BinaryResponseSizeParser w := wire_parser w;
  BinaryPayload w := wire_payload w
|}.

Definition example_request (command : bytes) : WireRequest := MkWire (request command) None None.

(** A connection in use, with a greeting already received. *)
Definition connected : XBDMTransport WireRequest unit := MkTransport (new_connection true) CONNECTED [].

Lemma transport_conservation_witness :
  ∃ t', steps connected [example_request "go"%bs; example_request "stop"%bs]
          [Abandoned (example_request "go"%bs) tt; Abandoned (example_request "stop"%bs) tt] t'
    ∧ queued connected ++ [example_request "go"%bs; example_request "stop"%bs]
      = map outcome_request [Abandoned (example_request "go"%bs) tt; Abandoned (example_request "stop"%bs) tt] ++ queued t'.
Proof.
  eexists. match goal with |- ?A ∧ _ => assert A as Hrun end.
  { eapply (steps_step _ [_] [] _ [_] [_; _]); [apply (step_send _ tt)|].
    eapply (steps_step _ [_] [] _ [] [_; _]); [apply (step_send _ tt)|].
    eapply (steps_step _ [] [_; _] _ [] []); [apply step_close; reflexivity|apply steps_refl]. }
  split; [exact Hrun|]. exact (transport_conservation _ _ _ _ Hrun).
Defined.

(** ** One request at a time *)

(** A size parser that leaves the request alone. *)
Definition pure_parser {St} (sp : option (ReadBinarySizeFunc St)) : Prop :=
  match sp with
  | Some f => ∀ b n s o s', f b n s = Some (o, s') → s' = s
  | None => True
  end.

Lemma Parse_pure {St} (sp : option (ReadBinarySizeFunc St)) b s n resp s' :
  pure_parser sp → Parse b sp s = Some (n, resp, s') → s' = s.
Proof.
  unfold Parse, ParseBinaryResponse. intros Hp H.
  repeat case_match; simplify_eq/=; try done; by eapply Hp.
Qed.

Section Exchange.
Context {R St : Type} `{!RequestOps R St}.
Implicit Types (c : TCPConnection) (r : R) (s : St).

(** A transport that waits for the answer to [r], having received [p]. *)
Definition waiting c r s queue (p : bytes) : XBDMTransport R St :=
  MkTransport (with_read c p) CONNECTED ((r, s) :: queue).

Lemma Parse_whole sp s s' (rep : reply) :
  stable sp → reply_ok sp s s' rep → Z.of_nat (length (reply_image rep)) < 2 ^ 32 →
  Parse (reply_image rep) sp s = Some (Z.of_nat (length (reply_image rep)), Some (reply_response rep), s').
Proof.
  intros Hs Hok Hl. pose proof (Parse_reply sp s s' rep [] Hs Hok) as E. rewrite app_nil_r in E. by apply E.
Qed.

Lemma reply_image_nonempty sp s s' (rep : reply) : @reply_ok St sp s s' rep → reply_image rep ≠ [].
Proof.
  intros _ E. apply (f_equal length) in E. destruct rep; cbn [reply_image] in E;
    unfold status_line in E; rewrite !length_app in E; cbn in E; lia.
Qed.

(** The final bytes of a reply other than a request for the payload. *)
Lemma receive_last c r s s' queue p b (rep : reply) :
  stable (BinaryResponseSizeParser r) → reply_ok (BinaryResponseSizeParser r) s s' rep →
  Z.of_nat (length (reply_image rep)) < 2 ^ 32 →
  status_ (reply_response rep) ≠ OK_SEND_BINARY_DATA → p ++ b = reply_image rep →
  receive b (waiting c r s queue p)
  = Some ([Completed r s' (reply_response rep)],
          WriteNextRequest (MkTransport (with_read c []) CONNECTED queue)).
Proof.
  intros Hs Hok Hl Hst E. unfold receive, OnBytesRead. cbn [waiting with_conn conn request_queue_ read_buffer_ with_read].
  rewrite E, (Parse_whole _ _ s') by done.
  assert (length (reply_image rep) ≠ 0)%nat by (intros H%nil_length_inv; by eapply reply_image_nonempty).
  rewrite (proj2 (Z.eqb_neq _ _)) by lia. rewrite (proj2 (Z.eqb_neq _ _) Hst).
  rewrite Z.abs_eq by lia. rewrite ShiftReadBuffer_eq by (rewrite with_read_read; lia). rewrite with_read_read.
  rewrite drop_all. reflexivity.
Qed.

Lemma receive_more c r s s' queue p b q (rep : reply) :
  stable (BinaryResponseSizeParser r) → pure_parser (BinaryResponseSizeParser r) →
  reply_ok (BinaryResponseSizeParser r) s s' rep → Z.of_nat (length (reply_image rep)) < 2 ^ 32 →
  reply_image rep = (p ++ b) ++ q → q ≠ [] →
  receive b (waiting c r s queue p) = Some ([], waiting c r s queue (p ++ b)).
Proof.
  intros Hs Hpure Hok Hl E Hq. unfold receive, OnBytesRead.
  cbn [waiting with_conn conn request_queue_ read_buffer_ with_read].
  assert (Z.of_nat (length (reply_image rep ++ [])) < 2 ^ 32) as Hl' by (by rewrite app_nil_r).
  pose proof (Parse_reply _ s s' rep [] Hs Hok Hl') as Hfull.
  pose proof (Parse_response_extend (BinaryResponseSizeParser r) (p ++ b) q s Hs) as Hext. rewrite <- E in Hext.
  specialize (Hext Hl). rewrite app_nil_r in Hfull. rewrite Hfull in Hext.
  destruct (Parse (p ++ b) _ s) as [[[n resp] s1]|] eqn:Ep; [|done].
  destruct (Z.eqb_spec n 0) as [->|Hn].
  - apply Parse_pure in Ep; [|done]. by subst s1.
  - exfalso. destruct (Hext Hn) as [[= <- _ _] Hb].
    apply (f_equal length) in E. rewrite length_app in E. destruct q; [done|]. cbn in E. lia.
Qed.

Lemma receive_nothing c bs :
  concat bs = [] → receive_all bs (MkTransport (with_read c []) CONNECTED (@nil (R * St)))
                   = Some ([], MkTransport (with_read c []) CONNECTED []).
Proof.
  induction bs as [|b bs IH]; [done|]. cbn [concat]. intros [-> Hbs]%app_nil.
  cbn [receive_all]. change (receive [] ?t) with (Some (@nil (outcome R St), t)).
  cbn [mbind option_bind]. by rewrite IH.
Qed.

Lemma receive_chunks c r s s' p bs (rep : reply) :
  stable (BinaryResponseSizeParser r) → pure_parser (BinaryResponseSizeParser r) →
  reply_ok (BinaryResponseSizeParser r) s s' rep → Z.of_nat (length (reply_image rep)) < 2 ^ 32 →
  status_ (reply_response rep) ≠ OK_SEND_BINARY_DATA →
  p ++ concat bs = reply_image rep → concat bs ≠ [] →
  receive_all bs (waiting c r s [] p)
  = Some ([Completed r s' (reply_response rep)], MkTransport (with_read c []) CONNECTED []).
Proof.
  intros Hs Hpure Hok Hl Hst. revert p. induction bs as [|b bs IH]; intros p E Hne; [done|].
  cbn [receive_all concat] in *. rewrite app_assoc in E.
  destruct (decide (concat bs = [])) as [Hnil|Hmore].
  - rewrite Hnil, app_nil_r in E. rewrite (receive_last _ _ _ s' _ _ _ rep) by done.
    cbn [mbind option_bind]. unfold WriteNextRequest at 1. cbn [state_ request_queue_].
    rewrite decide_True by done. by rewrite receive_nothing.
  - rewrite (receive_more _ _ _ s' _ _ _ (concat bs) rep) by done. cbn [mbind option_bind].
    by rewrite IH.
Qed.
End Exchange.

(** C5. The synchronous exchange: on a connected transport with nothing
    outstanding, a request is sent as its line; whatever the chunks a
    well-formed reply arrives in, exactly one outcome follows, the completion
    of that request with that reply, after which the queue and the receive
    buffer are empty and the transport is connected as before. *)
Theorem transport_exchange {R St} `{!RequestOps R St} (c : TCPConnection) (r : R) (s s' : St) (rep : reply)
    (chunks : list bytes)
  (Hempty : read_buffer_ c = []) (Hstable : stable (BinaryResponseSizeParser r))
  (Hpure : pure_parser (BinaryResponseSizeParser r)) (Hok : reply_ok (BinaryResponseSizeParser r) s s' rep)
  (Hbound : Z.of_nat (length (reply_image rep)) < 2 ^ 32)
  (Hstatus : status_ (reply_response rep) ≠ OK_SEND_BINARY_DATA) (Hchunks : concat chunks = reply_image rep) :
  receive_all chunks (Send r s (MkTransport c CONNECTED []))
  = Some ([Completed r s' (reply_response rep)], MkTransport (TcpConnection.Send (line r) c) CONNECTED []).
Proof.
  assert (Send r s (MkTransport c CONNECTED []) = waiting (TcpConnection.Send (line r) c) r s [] []) as ->.
  { unfold Send, WriteNextRequest, waiting. cbn [state_ request_queue_ app conn]. rewrite decide_True by done.
    f_equal. destruct c; cbn in *. by subst. }
  rewrite (receive_chunks _ _ _ s' _ _ rep) by (try done; rewrite Hchunks; by eapply reply_image_nonempty).
  do 3 f_equal. destruct c; cbn in *. by subst.
Qed.

Lemma transport_exchange_witness :
  let r := MkWire (request "dmversion"%bs) (Some (fixed_size 3)) None in
  let rep := Binary "binary"%bs [] "abc"%bs in
  receive_all ["203- bin"%bs; "ary"%bs; [Byte.x0d]; []; [Byte.x0a; "a"%byte]; "bc"%bs]
    (Send r tt (MkTransport (new_connection true) CONNECTED []))
  = Some ([Completed r tt (reply_response rep)],
          MkTransport (TcpConnection.Send (line r) (new_connection true)) CONNECTED []).
Proof.
  apply (transport_exchange (new_connection true) (MkWire (request "dmversion"%bs) (Some (fixed_size 3)) None)
           tt tt (Binary "binary"%bs [] "abc"%bs)).
  - reflexivity.
  - apply fixed_size_stable. lia.
  - intros b n s o s1 _. by destruct s, s1.
  - split; [apply (bool_decide_unpack _); vm_compute; exact I|reflexivity].
  - vm_compute. reflexivity.
  - discriminate.
  - vm_compute. reflexivity.
Defined.

(** [Send] writes the first queued request again while it is outstanding:
    two requests sent one after the other on an idle transport put the first
    one on the wire twice, and since the debug monitor answers it twice, the
    second answer completes the second request, whose own line is written only
    then. *)
Theorem queued_send_duplicates {R St} `{!RequestOps R St} (c : TCPConnection) (a b : R) (sa sb sa' sb' : St) (ra ra' : reply)
  (Hempty : read_buffer_ c = [])
  (Hstable : stable (BinaryResponseSizeParser a) ∧ stable (BinaryResponseSizeParser b))
  (Hra : reply_ok (BinaryResponseSizeParser a) sa sa' ra) (Hra' : reply_ok (BinaryResponseSizeParser b) sb sb' ra')
  (Hbound : Z.of_nat (length (reply_image ra)) < 2 ^ 32 ∧ Z.of_nat (length (reply_image ra')) < 2 ^ 32)
  (Hstatus : status_ (reply_response ra) ≠ OK_SEND_BINARY_DATA ∧ status_ (reply_response ra') ≠ OK_SEND_BINARY_DATA) :
  let t := Send b sb (Send a sa (MkTransport c CONNECTED [])) in
  write_buffer_ (conn t) = write_buffer_ c ++ line a ++ line a
  ∧ ∃ t', receive_all [reply_image ra; reply_image ra'] t
          = Some ([Completed a sa' (reply_response ra); Completed b sb' (reply_response ra')], t')
    ∧ write_buffer_ (conn t') = write_buffer_ c ++ line a ++ line a ++ line b.
Proof.
  intros t. set (c2 := TcpConnection.Send (line a) (TcpConnection.Send (line a) c)).
  assert (t = waiting c2 a sa [(b, sb)] []) as ->.
  { unfold t, Send, WriteNextRequest, waiting. cbn [state_ request_queue_ app conn].
    rewrite decide_True by done. cbn [state_ request_queue_ app conn]. rewrite decide_True by done.
    f_equal. destruct c; cbn in *. by subst. }
  split; [destruct c; cbn; by rewrite <- app_assoc|]. eexists. split.
  - cbn [receive_all]. rewrite (receive_last _ _ _ sa' _ _ _ ra) by (naive_solver || done).
    cbn [mbind option_bind]. unfold WriteNextRequest at 1. cbn [state_ request_queue_ conn].
    rewrite decide_True by done.
    change (MkTransport (TcpConnection.Send (line b) (with_read c2 [])) CONNECTED [(b, sb)])
      with (waiting (TcpConnection.Send (line b) c2) b sb [] []).
    rewrite (receive_last _ _ _ sb' _ _ _ ra') by (naive_solver || done). reflexivity.
  - unfold WriteNextRequest. cbn [state_ request_queue_ conn]. rewrite decide_True by done.
    destruct c. cbn. by rewrite <- !app_assoc.
Qed.

Lemma queued_send_duplicates_witness :
  let a := example_request "getpid"%bs in
  let b := example_request "dmversion"%bs in
  let ra := SingleLine 200 "pid=0x1"%bs in
  let t := Send b tt (Send a tt connected) in
  write_buffer_ (conn t) = [] ++ line a ++ line a
  ∧ ∃ t', receive_all [reply_image ra; reply_image ra] t
          = Some ([Completed a tt (reply_response ra); Completed b tt (reply_response ra)], t')
    ∧ write_buffer_ (conn t') = [] ++ line a ++ line a ++ line b.
Proof.
  apply (queued_send_duplicates (new_connection true) (example_request "getpid"%bs) (example_request "dmversion"%bs)
           tt tt tt tt (SingleLine 200 "pid=0x1"%bs) (SingleLine 200 "pid=0x1"%bs)).
  - reflexivity.
  - done.
  - cbn. unfold OK_MULTILINE_RESPONSE, OK_BINARY_RESPONSE. split_and!; try lia; [|done].
    apply (bool_decide_unpack _); vm_compute; exact I.
  - cbn. unfold OK_MULTILINE_RESPONSE, OK_BINARY_RESPONSE. split_and!; try lia; [|done].
    apply (bool_decide_unpack _); vm_compute; exact I.
  - split; vm_compute; reflexivity.
  - split; discriminate.
Defined.

(** Uploading a payload: when the debug monitor answers a request that has
    a payload with "send binary data", the payload follows the request on the
    wire, byte for byte, the request stays outstanding, and the next reply is
    the one that completes it. *)
Theorem payload_upload {R St} `{!RequestOps R St} (c : TCPConnection) (r : R) (s s' : St) (payload message : bytes) (rep : reply)
  (Hempty : read_buffer_ c = []) (Hpayload : BinaryPayload r = Some payload)
  (Hstable : stable (BinaryResponseSizeParser r)) (Hmsg : CR ∉ message)
  (Hok : reply_ok (BinaryResponseSizeParser r) s s' rep)
  (Hbound : Z.of_nat (length message) < 2 ^ 31 ∧ Z.of_nat (length (reply_image rep)) < 2 ^ 32)
  (Hstatus : status_ (reply_response rep) ≠ OK_SEND_BINARY_DATA) :
  ∃ t', receive_all [reply_image (SingleLine OK_SEND_BINARY_DATA message); reply_image rep]
          (Send r s (MkTransport c CONNECTED []))
        = Some ([Completed r s' (reply_response rep)], t')
    ∧ write_buffer_ (conn t') = write_buffer_ c ++ line r ++ payload
    ∧ state_ t' = CONNECTED ∧ request_queue_ t' = [] ∧ read_buffer_ (conn t') = [].
Proof.
  set (ask := SingleLine OK_SEND_BINARY_DATA message).
  assert (Send r s (MkTransport c CONNECTED []) = waiting (TcpConnection.Send (line r) c) r s [] []) as ->.
  { unfold Send, WriteNextRequest, waiting. cbn [state_ request_queue_ app conn]. rewrite decide_True by done.
    f_equal. destruct c; cbn in *. by subst. }
  set (c1 := TcpConnection.Send (line r) c).
  assert (Z.of_nat (length (reply_image ask)) < 2 ^ 32) as Hl.
  { unfold ask. cbn [reply_image]. unfold status_line. rewrite !length_app.
    rewrite (proj1 (code_checked OK_SEND_BINARY_DATA ltac:(unfold OK_SEND_BINARY_DATA; lia))).
    change (length kTerminator) with 2%nat. change (length "- "%bs) with 2%nat. lia. }
  assert (receive (reply_image ask) (waiting c1 r s [] []) = Some ([], waiting (TcpConnection.Send payload c1) r s [] [])) as E.
  { unfold receive, OnBytesRead. cbn [waiting with_conn conn request_queue_]. rewrite with_read_read, app_nil_l.
    rewrite (Parse_whole _ s s ask) by
      (first [done | split_and!; first [done | unfold OK_SEND_BINARY_DATA; lia]]).
    assert (length (reply_image ask) ≠ 0)%nat
      by (unfold ask; cbn [reply_image]; unfold status_line; rewrite !length_app; cbn; lia).
    rewrite (proj2 (Z.eqb_neq _ _)) by lia.
    change (status_ (reply_response ask) =? OK_SEND_BINARY_DATA) with true. cbv iota. rewrite Hpayload.
    rewrite Z.abs_eq by lia. rewrite ShiftReadBuffer_eq by (rewrite with_read_read; lia).
    rewrite with_read_read, drop_all. reflexivity. }
  eexists. split.
  - cbn [receive_all]. rewrite E. cbn [mbind option_bind].
    rewrite (receive_last _ _ _ s' _ _ _ rep) by (first [done | apply Hbound]). reflexivity.
  - unfold WriteNextRequest. cbn [state_ request_queue_]. rewrite decide_True by done.
    destruct c. cbn. by rewrite <- !app_assoc.
Qed.

Lemma payload_upload_witness :
  let r := MkWire (request "sendfile"%bs) None (Some [Byte.x00; Byte.x0d; Byte.x0a]) in
  let rep := SingleLine 200 "OK"%bs in
  ∃ t', receive_all [reply_image (SingleLine OK_SEND_BINARY_DATA "send"%bs); reply_image rep]
          (Send r tt (MkTransport (new_connection true) CONNECTED []))
        = Some ([Completed r tt (reply_response rep)], t')
    ∧ write_buffer_ (conn t') = [] ++ line r ++ [Byte.x00; Byte.x0d; Byte.x0a]
    ∧ state_ t' = CONNECTED ∧ request_queue_ t' = [] ∧ read_buffer_ (conn t') = [].
Proof.
  apply (payload_upload (new_connection true) (MkWire (request "sendfile"%bs) None (Some [Byte.x00; Byte.x0d; Byte.x0a]))
           tt tt [Byte.x00; Byte.x0d; Byte.x0a] "send"%bs (SingleLine 200 "OK"%bs)).
  - reflexivity.
  - reflexivity.
  - done.
  - apply (bool_decide_unpack _); vm_compute; exact I.
  - cbn. unfold OK_MULTILINE_RESPONSE, OK_BINARY_RESPONSE. split_and!; try lia; [|done].
    apply (bool_decide_unpack _); vm_compute; exact I.
  - split; vm_compute; reflexivity.
  - discriminate.
Defined.

(** A line without the dash after the status code brings the program
    down: [Parse] reports it as bytes to discard and yields no response, and
    [OnBytesRead] then uses the null response. *)
Theorem malformed_line_crashes {R St} `{!RequestOps R St} (t : XBDMTransport R St) (l rest : bytes)
  (Hbuffer : read_buffer_ (conn t) = l ++ kTerminator ++ rest) (Hl : (2 ≤ length l)%nat) (Hcr : CR ∉ l)
  (Hdash : (l ++ kTerminator) !! 3%nat ≠ Some "-"%byte) :
  OnBytesRead t = None.
Proof.
  assert (∀ U (sp : option (ReadBinarySizeFunc U)) u,
    Parse (read_buffer_ (conn t)) sp u = Some (- Z.of_nat (length l + 2), None, u)) as E.
  { intros U sp u. rewrite Hbuffer. unfold Parse. rewrite !length_app. change (length kTerminator) with 2%nat.
    rewrite (proj2 (Nat.ltb_ge _ 4)) by lia. rewrite find_terminator by done.
    unfold kTerminatorLen. rewrite (proj2 (Nat.ltb_ge _ 4)) by lia.
    rewrite app_assoc, lookup_app_l by (rewrite length_app; change (length kTerminator) with 2%nat; lia).
    by rewrite bool_decide_eq_false_2. }
  unfold OnBytesRead. destruct (request_queue_ t) as [|[r s] queue]; rewrite E;
    rewrite (proj2 (Z.eqb_neq _ _)) by lia; reflexivity.
Qed.

Lemma malformed_line_crashes_witness :
  OnBytesRead (with_conn (with_read (new_connection true) ("200 OK"%bs ++ kTerminator ++ [])) connected) = None.
Proof.
  apply (malformed_line_crashes
           (with_conn (with_read (new_connection true) ("200 OK"%bs ++ kTerminator ++ [])) connected) "200 OK"%bs []).
  - reflexivity.
  - cbn. lia.
  - apply (bool_decide_unpack _); vm_compute; exact I.
  - discriminate.
Defined.
