(* ===== verification/ExprParser.v ===== *)
(** * Debugger expressions (src/xbox/debugger/debugger_expression_parser.h, .cpp)

    The tokenizer and the precedence-climbing evaluator behind numeric shell
    arguments.  [tokens_] and [pos_] are one value here, the tokens not yet
    consumed; the memory reader is a parameter. *)

From S2P Require Import Prelude CLib Boost Parsing RdcpMaps RdcpTypes.

(** [Precedence], by its numeric value. *)
Definition LOWEST : Z := 1.
Definition LOGICAL_OR : Z := 2.
Definition LOGICAL_AND : Z := 3.
Definition EQUALITY : Z := 4.
Definition RELATIONAL : Z := 5.
Definition SUM : Z := 6.
Definition PRODUCT : Z := 7.
Definition PREFIX : Z := 8.
Definition CALL : Z := 9.
Definition HIGHEST : Z := 10.

Inductive TokenType :=
  | ILLEGAL | END_OF_FILE | IDENTIFIER | INT | REGISTER
  | PLUS | MINUS | ASTERISK | AT
  | EQ | NOT_EQ | LT | GT | LTE | GTE
  | AND | OR
  | LPAREN | RPAREN | COMMA | LBRACKET | RBRACKET.

#[global] Instance TokenType_eq_decision : EqDecision TokenType.
Proof. solve_decision. Defined.

Record Token := MkToken {
  token_type : TokenType;
  literal : bytes;
  int_value : Z;
  start_pos : nat
}.

Definition eof : Token := MkToken END_OF_FILE [] 0 0.

Definition GetPrecedence (type : TokenType) : Z :=
  match type with
  | OR => LOGICAL_OR
  | AND => LOGICAL_AND
  | EQ | NOT_EQ => EQUALITY
  | LT | GT | LTE | GTE => RELATIONAL
  | PLUS | MINUS => SUM
  | ASTERISK => PRODUCT
  | LPAREN => CALL
  | _ => LOWEST
  end.

(** ** Tokenizer *)

Definition unexpected_at (start : nat) : bytes :=
  "Unexpected character at position "%bs ++ fmt_u (Z.of_nat start).

(** One token at the front of the non-empty text [c :: rest], starting at
    offset [start]: the token and the number of characters it takes, or the
    error. *)
Definition next_token `{!Boost} (c : byte) (rest : bytes) (start : nat) : (Token * nat) + bytes :=
  let one type lit := inl (MkToken type lit 0 start, 1%nat) in
  let two type lit := inl (MkToken type lit 0 start, 2%nat) in
  let next_is b := bool_decide (head rest = Some b) in
  if bool_decide (c = "0"%byte) && (next_is "x"%byte || next_is "X"%byte) then
    let '(ds, _) := span isxdigit (drop 1 rest) in
    if decide (ds = []) then inr "Invalid hexadecimal number"%bs
    else
      let literal := "0x"%bs ++ ds in
      match stoul 16 literal with
      | inl v => inl (MkToken INT literal (u32 v) start, (2 + length ds)%nat)
      | inr invalid_argument => inr "Invalid hexadecimal number"%bs
      | inr out_of_range => inr "Hexadecimal number is out of range"%bs
      end
  else if isdigit c then
    let '(literal, _) := span isdigit (c :: rest) in
    match stoul 10 literal with
    | inl v => inl (MkToken INT literal (u32 v) start, length literal)
    | inr _ => inr "Number is out of range"%bs
    end
  else if decide (c = "$"%byte) then
    let '(literal, _) := span isalpha rest in
    if decide (literal = []) then inr "Empty register name"%bs
    else inl (MkToken REGISTER literal 0 start, S (length literal))
  else if isalpha c then
    let '(word, _) := span isalpha (c :: rest) in
    let literal := to_lower_copy word in
    if decide (literal = "tid"%bs) then inl (MkToken IDENTIFIER literal 0 start, length word)
    else if decide (literal = "and"%bs) then inl (MkToken AND literal 0 start, length word)
    else if decide (literal = "or"%bs) then inl (MkToken OR literal 0 start, length word)
    else inr (unexpected_at start)
  else if decide (c = "+"%byte) then one PLUS "+"%bs
  else if decide (c = "-"%byte) then one MINUS "-"%bs
  else if decide (c = "*"%byte) then one ASTERISK "*"%bs
  else if decide (c = "("%byte) then one LPAREN "("%bs
  else if decide (c = ")"%byte) then one RPAREN ")"%bs
  else if decide (c = "["%byte) then one LBRACKET "["%bs
  else if decide (c = "]"%byte) then one RBRACKET "]"%bs
  else if decide (c = ","%byte) then one COMMA ","%bs
  else if decide (c = "@"%byte) then one AT "@"%bs
  else if decide (c = "="%byte) then if next_is "="%byte then two EQ "=="%bs else inr (unexpected_at start)
  else if decide (c = "!"%byte) then if next_is "="%byte then two NOT_EQ "!="%bs else inr (unexpected_at start)
  else if decide (c = "<"%byte) then if next_is "="%byte then two LTE "<="%bs else one LT "<"%bs
  else if decide (c = ">"%byte) then if next_is "="%byte then two GTE ">="%bs else one GT ">"%bs
  else if decide (c = "&"%byte) then if next_is "&"%byte then two AND "&&"%bs else inr (unexpected_at start)
  else if decide (c = "|"%byte) then if next_is "|"%byte then two OR "||"%bs else inr (unexpected_at start)
  else inr (unexpected_at start).

(** The loop of [Tokenize] at offset [i]; every turn consumes a character, so
    the length of the text is enough fuel. *)
Fixpoint tokenize_loop `{!Boost} (fuel i : nat) (s : bytes) : list Token + bytes :=
  match fuel, s with
  | _, [] => inl [MkToken END_OF_FILE [] 0 i]
  | O, _ => inr []
  | S fuel', c :: rest =>
    if isspace c then tokenize_loop fuel' (S i) rest
    else
      match next_token c rest i with
      | inr e => inr e
      | inl (t, n) =>
        match tokenize_loop fuel' (i + n) (drop n s) with
        | inr e => inr e
        | inl ts => inl (t :: ts)
        end
      end
  end.

Definition Tokenize `{!Boost} (expr : bytes) : list Token + bytes := tokenize_loop (length expr) 0 expr.

(** ** Registers *)

Definition resolve (opt : option Z) (name : bytes) : Z + bytes :=
  match opt with
  | None => inr ("Register "%bs ++ name ++ " not available in context"%bs)
  | Some v => inl (u32 v)
  end.

Definition resolve16 (opt : option Z) (name : bytes) : Z + bytes :=
  match resolve opt name with inl v => inl (Z.land v 65535) | e => e end.

Definition resolve8 (opt : option Z) (name : bytes) (shift : Z) : Z + bytes :=
  match resolve opt name with inl v => inl (Z.land (Z.shiftr v shift) 255) | e => e end.

Definition ResolveRegisterValue `{!Boost} (context : ThreadContext) (reg : bytes) : Z + bytes :=
  let lower := to_lower_copy reg in
  let named name := bool_decide (lower = name) in
  if named "eax"%bs then resolve (eax context) "eax"%bs
  else if named "ebx"%bs then resolve (ebx context) "ebx"%bs
  else if named "ecx"%bs then resolve (ecx context) "ecx"%bs
  else if named "edx"%bs then resolve (edx context) "edx"%bs
  else if named "esi"%bs then resolve (esi context) "esi"%bs
  else if named "edi"%bs then resolve (edi context) "edi"%bs
  else if named "ebp"%bs then resolve (ebp context) "ebp"%bs
  else if named "esp"%bs then resolve (esp context) "esp"%bs
  else if named "eip"%bs then resolve (eip context) "eip"%bs
  else if named "eflags"%bs then resolve (eflags context) "eflags"%bs
  else if named "ax"%bs then resolve16 (eax context) "ax"%bs
  else if named "bx"%bs then resolve16 (ebx context) "bx"%bs
  else if named "cx"%bs then resolve16 (ecx context) "cx"%bs
  else if named "dx"%bs then resolve16 (edx context) "dx"%bs
  else if named "si"%bs then resolve16 (esi context) "si"%bs
  else if named "di"%bs then resolve16 (edi context) "di"%bs
  else if named "ah"%bs then resolve8 (eax context) "eax"%bs 8
  else if named "bh"%bs then resolve8 (ebx context) "ebx"%bs 8
  else if named "ch"%bs then resolve8 (ecx context) "ecx"%bs 8
  else if named "dh"%bs then resolve8 (edx context) "edx"%bs 8
  else if named "al"%bs then resolve8 (eax context) "eax"%bs 0
  else if named "bl"%bs then resolve8 (ebx context) "ebx"%bs 0
  else if named "cl"%bs then resolve8 (ecx context) "ecx"%bs 0
  else if named "dl"%bs then resolve8 (edx context) "edx"%bs 0
  else inr ("Unknown register: "%bs ++ reg).

(** ** Evaluation *)

(** A value with the tokens left and the state of the memory reader, an error,
    or the end of the program in a failed assertion or in the reader. *)
Inductive presult (St : Type) :=
  | Val (v : Z) (rest : list Token) (s : St)
  | Err (e : bytes) (s : St)
  | Asserted
  | OutOfFuel.
Arguments Val {St}. Arguments Err {St}. Arguments Asserted {St}. Arguments OutOfFuel {St}.

Definition pbind {St} (r : presult St) (f : Z → list Token → St → presult St) : presult St :=
  match r with Val v rest s => f v rest s | r => r end.

Definition Peek (ts : list Token) : Token := hd eof ts.

(** [Consume]: the token and what is left. *)
Definition Consume (ts : list Token) : Token * list Token := (hd eof ts, tl ts).

Definition next_type (ts : list Token) : TokenType := token_type (Peek ts).

(** Require and consume a closing token. *)
Definition expect {St} (type : TokenType) (message : bytes) (ts : list Token) (s : St)
  (k : list Token → presult St) : presult St :=
  if decide (next_type ts = type) then k (Consume ts).2 else Err message s.

Definition truth (b : bool) : Z := if b then 1 else 0.

(** The reader may change a state [St], and [None] is its failure to return. *)
Record Environment (St : Type) := MkEnv {
  context_ : ThreadContext;
  thread_id_ : option Z;
  memory_reader_ : option (Z → Z → St → option ((bytes + bytes) * St))   (* address, size *)
}.
Arguments MkEnv {St}. Arguments context_ {St}. Arguments thread_id_ {St}. Arguments memory_reader_ {St}.

Section Evaluator.
Context `{!Boost} {St : Type} (env : Environment St).

(** The lambda of the [AT] case. *)
Definition perform_read (addr size : Z) (ts : list Token) (s : St) : presult St :=
  match memory_reader_ env with
  | None => Err "Memory reader not available"%bs s
  | Some reader =>
    if 4 <? size then Err "Memory read size too large (max 4 bytes)"%bs s
    else
      match reader addr size s with
      | None => Asserted
      | Some (inr e, s) => Err e s
      | Some (inl data, s) =>
        if negb (Z.of_nat (length data) =? size) then Err "Failed to read requested memory size"%bs s
        else Val (le_int data) ts s
      end
  end.

(** The switch of [ParseInfix] after both operands are known. *)
Definition infix_value (op : Token) (left right : Z) (ts : list Token) (s : St) : presult St :=
  match token_type op with
  | PLUS => Val (u32 (left + right)) ts s
  | MINUS => Val (u32 (left - right)) ts s
  | ASTERISK => Val (u32 (left * right)) ts s
  | EQ => Val (truth (left =? right)) ts s
  | NOT_EQ => Val (truth (negb (left =? right))) ts s
  | LT => Val (truth (left <? right)) ts s
  | GT => Val (truth (right <? left)) ts s
  | LTE => Val (truth (left <=? right)) ts s
  | GTE => Val (truth (right <=? left)) ts s
  | AND => Val (truth (negb (left =? 0) && negb (right =? 0))) ts s
  | OR => Val (truth (negb (left =? 0) || negb (right =? 0))) ts s
  | _ => Asserted
  end.

(** [rec] is [ParseExpression]. *)
Definition ParsePrefix (rec : Z → list Token → St → presult St) (token : Token) (ts : list Token) (s : St)
  : presult St :=
  match token_type token with
  | INT => Val (int_value token) ts s
  | IDENTIFIER =>
    if decide (literal token = "tid"%bs) then
      match thread_id_ env with
      | None => Err "Thread ID not available in this context"%bs s
      | Some id => Val id ts s
      end
    else Err ("Unknown identifier: "%bs ++ literal token) s
  | REGISTER =>
    match ResolveRegisterValue (context_ env) (literal token) with inl v => Val v ts s | inr e => Err e s end
  | LPAREN =>
    pbind (rec LOWEST ts s) (λ v ts s, expect RPAREN "Expected ')'"%bs ts s (λ ts, Val v ts s))
  | AT =>
    if decide (next_type ts = LPAREN) then
      pbind (rec LOWEST (Consume ts).2 s) (λ addr ts s,
        if decide (next_type ts = COMMA) then
          pbind (rec LOWEST (Consume ts).2 s) (λ size ts s,
            expect RPAREN "Expected ')'"%bs ts s (λ ts, perform_read addr size ts s))
        else expect RPAREN "Expected ')'"%bs ts s (λ ts, perform_read addr 4 ts s))
    else
      pbind (rec HIGHEST ts s) (λ addr ts s,
        if decide (next_type ts = LBRACKET) then
          pbind (rec LOWEST (Consume ts).2 s) (λ offset ts s,
            expect RBRACKET "Expected ']'"%bs ts s (λ ts, perform_read (u32 (addr + offset)) 4 ts s))
        else perform_read addr 4 ts s)
  | _ => Err ("Unexpected token: "%bs ++ literal token) s
  end.

(** [ParseExpression] and its loop, which applies [ParseInfix]. *)
Fixpoint ParseExpression (fuel : nat) (precedence : Z) (ts : list Token) (s : St) : presult St :=
  match fuel with
  | O => OutOfFuel
  | S fuel' =>
    let '(token, ts1) := Consume ts in
    if decide (token_type token = END_OF_FILE) then Err "Unexpected end of expression"%bs s
    else pbind (ParsePrefix (ParseExpression fuel') token ts1 s) (λ left ts2 s, infix_loop fuel' precedence left ts2 s)
  end
with infix_loop (fuel : nat) (precedence left : Z) (ts : list Token) (s : St) : presult St :=
  match fuel with
  | O => OutOfFuel
  | S fuel' =>
    if precedence <? GetPrecedence (next_type ts) then
      let '(op, ts1) := Consume ts in
      pbind (ParseExpression fuel' (GetPrecedence (token_type op)) ts1 s) (λ right ts2 s,
        pbind (infix_value op left right ts2 s) (λ v ts3 s, infix_loop fuel' precedence v ts3 s))
    else Val left ts s
  end.

(** Each call of the pair consumes a token between two levels of fuel. *)
Definition enough (ts : list Token) : nat := 2 * length ts + 2.

Inductive parsed := Value (v : Z) (s : St) | Error (e : bytes) (s : St) | AssertionFailure | NoFuel.

Definition Parse (expr : bytes) (s : St) : parsed :=
  match Tokenize expr with
  | inr e => Error e s
  | inl tokens =>
    if decide (next_type tokens = END_OF_FILE) then Error "Empty expression"%bs s
    else
      match ParseExpression (enough tokens) LOWEST tokens s with
      | Err e s => Error e s
      | Asserted => AssertionFailure
      | OutOfFuel => NoFuel
      | Val v ts s =>
        if decide (next_type ts = END_OF_FILE) then Value v s
        else Error ("Unexpected character at position "%bs ++ fmt_u (Z.of_nat (start_pos (Peek ts)))) s
      end
  end.
End Evaluator.
Arguments Value {St}. Arguments Error {St}. Arguments AssertionFailure {St}. Arguments NoFuel {St}.

(** ** Termination *)

(** A result that did not run out of fuel and left at most [n] tokens; its
    value is a [uint32_t]. *)
Definition good {St} (n : nat) (r : presult St) : Prop :=
  match r with
  | Val v rest _ => is_u32 v ∧ (length rest ≤ n)%nat
  | OutOfFuel => False
  | _ => True
  end.

Definition token_ok (t : Token) : Prop := is_u32 (int_value t).
Definition tokens_ok (ts : list Token) : Prop := Forall token_ok ts.

Definition env_ok {St} (env : Environment St) : Prop := from_option is_u32 True (thread_id_ env).

(** The tokens left by a successful parse are well formed when those given were. *)
Definition leaves {St} (n : nat) (r : presult St) : Prop :=
  good n r ∧ match r with Val _ rest _ => tokens_ok rest | _ => True end.

Lemma leaves_pbind {St} n m (r : presult St) f :
  leaves n r →
  (∀ v rest s, is_u32 v → (length rest ≤ n)%nat → tokens_ok rest → leaves m (f v rest s)) →
  leaves m (pbind r f).
Proof. destruct r as [v rest s| | |]; intros [Hg Ht] Hf; cbn; [apply Hf; [apply Hg|apply Hg|done]|done|done|done]. Qed.

Lemma pbind_ext {St} n (r : presult St) f g :
  leaves n r →
  (∀ v rest s, is_u32 v → (length rest ≤ n)%nat → tokens_ok rest → f v rest s = g v rest s) →
  pbind r f = pbind r g.
Proof. destruct r as [v rest s| | |]; intros [Hg Ht] Hf; cbn; [apply Hf; [apply Hg|apply Hg|done]|done|done|done]. Qed.

Lemma leaves_val {St} n v ts (s : St) : is_u32 v → (length ts ≤ n)%nat → tokens_ok ts → leaves n (Val v ts s).
Proof. done. Qed.

Lemma leaves_err {St} n e (s : St) : leaves n (Err e s).
Proof. done. Qed.

Lemma tokens_ok_tl ts : tokens_ok ts → tokens_ok (tl ts).
Proof. destruct ts; [done|]. by intros [_ ?]%Forall_cons. Qed.

Lemma consumes ts type : next_type ts = type → type ≠ END_OF_FILE → (S (length (tl ts)) = length ts)%nat.
Proof. destruct ts; [by intros <- ?|done]. Qed.

Lemma leaves_expect {St} n m ts type e (s : St) k :
  type ≠ END_OF_FILE → (length ts ≤ S n)%nat → tokens_ok ts →
  (∀ ts, (length ts ≤ n)%nat → tokens_ok ts → leaves m (k ts)) →
  leaves m (expect type e ts s k).
Proof.
  intros Ht Hl Hok Hk. unfold expect. destruct (decide (next_type ts = type)) as [E|]; [|done].
  apply Hk; [|by apply tokens_ok_tl]. apply consumes in E; [|done]. cbn. lia.
Qed.

Lemma expect_ext {St} n ts type e (s : St) k k' :
  type ≠ END_OF_FILE → (length ts ≤ S n)%nat → tokens_ok ts →
  (∀ ts, (length ts ≤ n)%nat → tokens_ok ts → k ts = k' ts) →
  expect type e ts s k = expect type e ts s k'.
Proof.
  intros Ht Hl Hok Hk. unfold expect. destruct (decide (next_type ts = type)) as [E|]; [|done].
  apply Hk; [|by apply tokens_ok_tl]. apply consumes in E; [|done]. cbn. lia.
Qed.

Create HintDb parse.
#[export] Hint Resolve leaves_val leaves_err tokens_ok_tl u32_range : parse.
#[export] Hint Extern 1 (tokens_ok (Consume _).2) => apply tokens_ok_tl : parse.
#[export] Hint Extern 1 (_ ≤ _)%nat => cbn in *; lia : parse.
#[export] Hint Extern 1 (_ ≤ _ < _)%Z => unfold LOWEST, HIGHEST in *; lia : parse.
#[export] Hint Extern 1 (_ ≤ _)%Z => unfold LOWEST, HIGHEST in *; lia : parse.

Lemma truth_range b : is_u32 (truth b).
Proof. unfold is_u32. destruct b; cbn; lia. Qed.
#[export] Hint Resolve truth_range : parse.

Lemma GetPrecedence_range type : LOWEST ≤ GetPrecedence type ≤ CALL.
Proof. destruct type; cbv; split; discriminate. Qed.

Lemma land_ones_u32 v k : 0 ≤ k ≤ 32 → is_u32 (Z.land v (Z.ones k)).
Proof.
  intros. rewrite Z.land_ones by lia. unfold is_u32.
  pose proof (Z.mod_pos_bound v (2 ^ k) ltac:(lia)). pose proof (Z.pow_le_mono_r 2 k 32). lia.
Qed.

Lemma resolve_range opt name v : resolve opt name = inl v → is_u32 v.
Proof. destruct opt; intros [= <-]. apply u32_range. Qed.

Lemma resolve16_range opt name v : resolve16 opt name = inl v → is_u32 v.
Proof. unfold resolve16. destruct (resolve opt name); intros [= <-]. apply (land_ones_u32 _ 16). lia. Qed.

Lemma resolve8_range opt name k v : resolve8 opt name k = inl v → is_u32 v.
Proof. unfold resolve8. destruct (resolve opt name); intros [= <-]. apply (land_ones_u32 _ 8). lia. Qed.

Lemma ResolveRegisterValue_range `{!Boost} context reg v :
  ResolveRegisterValue context reg = inl v → is_u32 v.
Proof.
  unfold ResolveRegisterValue.
  repeat (match goal with |- context [if ?b then _ else _] => destruct b end;
    [solve [apply resolve_range | apply resolve16_range | apply resolve8_range]|]).
  discriminate.
Qed.

Section Termination.
Context `{!Boost} {St : Type} (env : Environment St) (Henv : env_ok env).

Lemma perform_read_leaves n addr size ts s :
  (length ts ≤ n)%nat → tokens_ok ts → leaves n (perform_read env addr size ts s).
Proof.
  intros Hl Hok. unfold perform_read. destruct (memory_reader_ env) as [reader|]; [|done].
  destruct (4 <? size) eqn:Hs; [done|]. destruct (reader addr size s) as [[[data|e] s']|]; [|done..].
  destruct (Z.of_nat (length data) =? size) eqn:Hd; [|done]. apply leaves_val; [|done..].
  pose proof (le_int_range data) as Hr. unfold is_u32.
  pose proof (Z.pow_le_mono_r 256 (Z.of_nat (length data)) 4). lia.
Qed.

Lemma infix_value_leaves n op l r ts (s : St) :
  (length ts ≤ n)%nat → tokens_ok ts → leaves n (infix_value op l r ts s).
Proof. intros. unfold infix_value. destruct (token_type op); auto with parse; done. Qed.

Hint Resolve perform_read_leaves infix_value_leaves : parse.

(** The behaviour of a recursive call, on at most [n] tokens. *)
Definition rec_leaves (n : nat) (rec : Z → list Token → St → presult St) : Prop :=
  ∀ p ts s, LOWEST ≤ p → (length ts ≤ n)%nat → tokens_ok ts → leaves (length ts - 1) (rec p ts s).

Lemma ParsePrefix_leaves n rec token ts s :
  token_ok token → tokens_ok ts → (length ts ≤ n)%nat → rec_leaves n rec →
  leaves (length ts) (ParsePrefix env rec token ts s).
Proof.
  intros Ht Hok Hn Hrec. unfold ParsePrefix. destruct (token_type token); try done.
  - destruct (decide _); [|done]. unfold env_ok in Henv. destruct (thread_id_ env); [|done]. by apply leaves_val.
  - destruct (ResolveRegisterValue (context_ env) (literal token)) eqn:E; [|done].
    apply leaves_val; [by eapply ResolveRegisterValue_range|done..].
  - destruct (decide _) as [E|E].
    + apply consumes in E; [|done].
      eapply leaves_pbind; [apply Hrec; auto with parse|]. cbn. intros v rest s1 Hv Hl Hr.
      destruct (decide _) as [E'|E'].
      * apply consumes in E'; [|done].
        eapply leaves_pbind; [apply Hrec; auto with parse|]. cbn. intros v' rest' s2 Hv' Hl' Hr'.
        apply leaves_expect with (n := (length rest' - 1)%nat); auto with parse.
      * apply leaves_expect with (n := (length rest - 1)%nat); auto with parse.
    + eapply leaves_pbind; [apply Hrec; auto with parse|]. cbn. intros v rest s1 Hv Hl Hr.
      destruct (decide _) as [E'|E']; [|auto with parse]. apply consumes in E'; [|done].
      eapply leaves_pbind; [apply Hrec; auto with parse|]. cbn. intros v' rest' s2 Hv' Hl' Hr'.
      apply leaves_expect with (n := (length rest' - 1)%nat); auto with parse.
  - eapply leaves_pbind; [apply Hrec; auto with parse|]. cbn. intros v rest s1 Hv Hl Hr.
    apply leaves_expect with (n := (length rest - 1)%nat); auto with parse.
Qed.

Lemma ParsePrefix_ext n rec rec' token ts s :
  token_ok token → tokens_ok ts → (length ts ≤ n)%nat → rec_leaves n rec →
  (∀ p ts s, LOWEST ≤ p → (length ts ≤ n)%nat → tokens_ok ts → rec p ts s = rec' p ts s) →
  ParsePrefix env rec token ts s = ParsePrefix env rec' token ts s.
Proof.
  intros Ht Hok Hn Hrec Heq. unfold ParsePrefix. destruct (token_type token); try done.
  - destruct (decide _) as [E|E].
    + apply consumes in E; [|done]. rewrite <- Heq by auto with parse.
      eapply pbind_ext; [apply Hrec; auto with parse|]. cbn. intros v rest s1 Hv Hl Hr.
      destruct (decide _) as [E'|E']; [|done]. apply consumes in E'; [|done].
      rewrite <- Heq by auto with parse. done.
    + rewrite <- Heq by auto with parse.
      eapply pbind_ext; [apply Hrec; auto with parse|]. cbn. intros v rest s1 Hv Hl Hr.
      destruct (decide _) as [E'|E']; [|done]. apply consumes in E'; [|done].
      rewrite <- Heq by auto with parse. done.
  - by rewrite <- Heq by auto with parse.
Qed.

Lemma leaves_weaken n m (r : presult St) : (n ≤ m)%nat → leaves n r → leaves m r.
Proof. intros Hnm. destruct r; [|done..]. intros [[? ?] ?]. apply leaves_val; [done|lia|done]. Qed.

Lemma fuel_leaves fuel :
  (∀ p ts s, LOWEST ≤ p → (2 * length ts + 1 ≤ fuel)%nat → tokens_ok ts →
    leaves (length ts - 1) (ParseExpression env fuel p ts s)) ∧
  (∀ p l ts s, LOWEST ≤ p → is_u32 l → (2 * length ts + 1 ≤ fuel)%nat → tokens_ok ts →
    leaves (length ts) (infix_loop env fuel p l ts s)).
Proof.
  induction fuel as [|fuel [IHe IHl]]; [split; intros; lia|]. split.
  - intros p [|t ts] s Hp Hf Hok; [done|]. apply Forall_cons in Hok as [Ht Hok]. cbn -[ParsePrefix] in *.
    destruct (decide _); [done|].
    eapply leaves_pbind; [apply (ParsePrefix_leaves (length ts)); [done..|]|].
    + intros p' ts' s' ? ? ?. apply IHe; auto with parse.
    + intros v rest s' ? ? ?. apply leaves_weaken with (length rest); [lia|]. apply IHl; auto with parse.
  - intros p l ts s Hp Hl Hf Hok. cbn -[infix_value]. destruct (Z.ltb_spec p (GetPrecedence (next_type ts))) as [Hlt|]; [|auto with parse].
    destruct ts as [|op ts]; [change (p < LOWEST) in Hlt; lia|]. apply Forall_cons in Hok as [Ht Hok]. cbn -[infix_value] in *.
    pose proof (GetPrecedence_range (token_type op)).
    eapply leaves_pbind; [apply IHe; [lia|lia|done]|]. intros v rest s' ? ? ?.
    apply leaves_weaken with (length rest); [lia|].
    eapply (leaves_pbind (length rest)); [by apply infix_value_leaves|]. intros v' rest' s'' ? ? ?.
    apply leaves_weaken with (length rest'); [lia|]. apply IHl; [done|done|lia|done].
Qed.

(** More fuel than is enough changes nothing. *)
Lemma fuel_ext f1 f2 :
  (∀ p ts s, LOWEST ≤ p → (2 * length ts + 1 ≤ f1)%nat → (2 * length ts + 1 ≤ f2)%nat → tokens_ok ts →
    ParseExpression env f1 p ts s = ParseExpression env f2 p ts s) ∧
  (∀ p l ts s, LOWEST ≤ p → is_u32 l → (2 * length ts + 1 ≤ f1)%nat → (2 * length ts + 1 ≤ f2)%nat → tokens_ok ts →
    infix_loop env f1 p l ts s = infix_loop env f2 p l ts s).
Proof.
  revert f2. induction f1 as [|f1 IH]; intros f2; [split; intros; lia|].
  destruct f2 as [|f2]; [split; intros; lia|]. destruct (IH f2) as [IHe IHl], (fuel_leaves f1) as [Le Ll]. split.
  - intros p [|t ts] s Hp Hf1 Hf2 Hok; [done|]. apply Forall_cons in Hok as [Ht Hok]. cbn -[ParsePrefix] in *.
    destruct (decide _); [done|].
    assert (rec_leaves (length ts) (ParseExpression env f1)) by (intros p' ts' s' ? ? ?; apply Le; auto with parse).
    rewrite (ParsePrefix_ext (length ts) _ (ParseExpression env f2)) at 1; [|done..|].
    + assert (Hr : rec_leaves (length ts) (ParseExpression env f2)) by (intros p' ts' s' ? ? ?; apply fuel_leaves; auto with parse).
      pose proof (ParsePrefix_leaves (length ts) _ t ts s Ht Hok (le_n _) Hr) as [Hg Htok].
      destruct (ParsePrefix _ _ _ _ _); [|done..]. cbn in *. apply IHl; try tauto; lia.
    + intros p' ts' s' ? ? ?. apply IHe; auto with parse.
  - intros p l ts s Hp Hl Hf1 Hf2 Hok. cbn -[infix_value]. destruct (Z.ltb_spec p (GetPrecedence (next_type ts))) as [Hlt|]; [|done].
    destruct ts as [|op ts]; [change (p < LOWEST) in Hlt; lia|]. apply Forall_cons in Hok as [Ht Hok]. cbn -[infix_value] in *.
    pose proof (GetPrecedence_range (token_type op)).
    rewrite <- IHe by (done || lia).
    eapply pbind_ext; [apply Le; [lia|lia|done]|]. intros v rest s' ? ? Hr.
    pose proof (infix_value_leaves (length rest) op l v rest s' (le_n _) Hr) as [Hg Htok].
    destruct (infix_value _ _ _ _ _); [|done..]. cbn in *. apply IHl; try tauto; lia.
Qed.

(** The two functions at their canonical fuel, and the equations they satisfy. *)
Definition parse_expression (p : Z) (ts : list Token) (s : St) : presult St :=
  ParseExpression env (2 * length ts + 1) p ts s.
Definition parse_infix (p left : Z) (ts : list Token) (s : St) : presult St :=
  infix_loop env (2 * length ts + 1) p left ts s.

Lemma parse_expression_good n : rec_leaves n parse_expression.
Proof. intros p ts s ? ? ?. by apply fuel_leaves. Qed.

Lemma parse_expression_cons p t ts s :
  LOWEST ≤ p → token_type t ≠ END_OF_FILE → tokens_ok (t :: ts) →
  parse_expression p (t :: ts) s = pbind (ParsePrefix env parse_expression t ts s) (parse_infix p).
Proof.
  intros Hp Ht [Hok Hoks]%Forall_cons. unfold parse_expression at 1.
  replace (2 * length (t :: ts) + 1)%nat with (S (2 * length ts + 2)) by (cbn; lia).
  cbn -[ParsePrefix Nat.mul]. rewrite decide_False by done.
  rewrite <- (ParsePrefix_ext (length ts) parse_expression (ParseExpression env (2 * length ts + 2)));
    [|done|done|done|apply parse_expression_good|].
  - eapply pbind_ext; [apply (ParsePrefix_leaves (length ts)); [done..|apply parse_expression_good]|].
    intros v rest s' ? ? ?. unfold parse_infix. apply fuel_ext; done || lia.
  - intros p' ts' s' ? ? ?. apply fuel_ext; done || lia.
Qed.

Lemma parse_infix_stop p left ts s :
  GetPrecedence (next_type ts) ≤ p → parse_infix p left ts s = Val left ts s.
Proof.
  intros Hp. unfold parse_infix. rewrite Nat.add_1_r. cbn -[Nat.mul].
  by rewrite (proj2 (Z.ltb_ge _ _)).
Qed.

Lemma parse_infix_op p left op ts s :
  LOWEST ≤ p → p < GetPrecedence (token_type op) → is_u32 left → tokens_ok (op :: ts) →
  parse_infix p left (op :: ts) s
  = pbind (parse_expression (GetPrecedence (token_type op)) ts s) (λ right ts2 s,
      pbind (infix_value op left right ts2 s) (parse_infix p)).
Proof.
  intros Hp Hlt Hl [Hok Hoks]%Forall_cons. unfold parse_infix at 1.
  replace (2 * length (op :: ts) + 1)%nat with (S (2 * length ts + 2)) by (cbn; lia).
  cbn -[infix_value Nat.mul]. rewrite (proj2 (Z.ltb_lt _ _)) by done.
  unfold parse_expression.
  rewrite (proj1 (fuel_ext (2 * length ts + 2) (2 * length ts + 1))) by (done || lia).
  eapply pbind_ext; [apply fuel_leaves; done || lia|]. intros right ts2 s2 ? ? ?.
  eapply pbind_ext; [by apply (infix_value_leaves (length ts2))|]. intros v ts3 s3 ? ? ?.
  unfold parse_infix. apply fuel_ext; done || lia.
Qed.
End Termination.

(** ** What an expression means *)

(** The expressions the syntax can write: [@(addr)], [@(addr, size)], [@leaf]
    and [@leaf[offset]] are the four loads. *)
Inductive expr :=
  | Number (v : Z)
  | ThreadId
  | Register (name : bytes)
  | Binary (op : TokenType) (l r : expr)
  | Load (addr : expr)
  | LoadSized (addr size : expr)
  | LoadLeaf (leaf : expr)
  | LoadIndexed (leaf offset : expr).

Definition is_operator (type : TokenType) : bool :=
  match type with
  | PLUS | MINUS | ASTERISK | EQ | NOT_EQ | LT | GT | LTE | GTE | AND | OR => true
  | _ => false
  end.

Definition is_leaf (e : expr) : bool :=
  match e with Number _ | ThreadId | Register _ => true | _ => false end.

Fixpoint wf_expr (e : expr) : Prop :=
  match e with
  | Number v => is_u32 v
  | ThreadId => True
  | Register name => name ≠ [] ∧ Forall isalpha name
  | Binary op l r => is_operator op = true ∧ wf_expr l ∧ wf_expr r
  | Load a => wf_expr a
  | LoadSized a s => wf_expr a ∧ wf_expr s
  | LoadLeaf l => is_leaf l = true ∧ wf_expr l
  | LoadIndexed l o => is_leaf l = true ∧ wf_expr l ∧ wf_expr o
  end.

(** Modular arithmetic and C's comparisons. *)
Definition operate (op : TokenType) (a b : Z) : Z :=
  match op with
  | PLUS => (a + b) mod 2 ^ 32
  | MINUS => (a - b) mod 2 ^ 32
  | ASTERISK => (a * b) mod 2 ^ 32
  | EQ => truth (bool_decide (a = b))
  | NOT_EQ => truth (bool_decide (a ≠ b))
  | LT => truth (bool_decide (a < b))
  | GT => truth (bool_decide (b < a))
  | LTE => truth (bool_decide (a ≤ b))
  | GTE => truth (bool_decide (b ≤ a))
  | AND => truth (bool_decide (a ≠ 0 ∧ b ≠ 0))
  | OR => truth (bool_decide (a ≠ 0 ∨ b ≠ 0))
  | _ => 0
  end.

(** What a computation that may read memory comes to: a value or an error with
    the state of the reader, [None] when the reader does not return. *)
Definition evaluated (St A : Type) : Type := option ((A + bytes) * St).

Definition and_then {St A B : Type} (x : evaluated St A) (f : A → St → evaluated St B) : evaluated St B :=
  match x with
  | Some (inl a, s) => f a s
  | Some (inr e, s) => Some (inr e, s)
  | None => None
  end.

Section Meaning.
Context `{!Boost} {St : Type} (env : Environment St).

(** The little-endian value of at most four bytes of memory. *)
Definition load (addr size : Z) (s : St) : evaluated St Z :=
  match memory_reader_ env with
  | None => Some (inr "Memory reader not available"%bs, s)
  | Some reader =>
    if decide (size ≤ 4) then
      and_then (reader addr size s) (λ data s, Some (
        if decide (Z.of_nat (length data) = size) then inl (le_int data)
        else inr "Failed to read requested memory size"%bs, s))
    else Some (inr "Memory read size too large (max 4 bytes)"%bs, s)
  end.

(** Operands are computed from left to right, each once. *)
Fixpoint eval (e : expr) (s : St) : evaluated St Z :=
  match e with
  | Number v => Some (inl v, s)
  | ThreadId => Some (match thread_id_ env with
                      | Some id => inl id
                      | None => inr "Thread ID not available in this context"%bs
                      end, s)
  | Register name => Some (ResolveRegisterValue (context_ env) name, s)
  | Binary op l r => and_then (eval l s) (λ a s, and_then (eval r s) (λ b s, Some (inl (operate op a b), s)))
  | Load a => and_then (eval a s) (λ addr s, load addr 4 s)
  | LoadSized a n => and_then (eval a s) (λ addr s, and_then (eval n s) (load addr))
  | LoadLeaf l => and_then (eval l s) (λ addr s, load addr 4 s)
  | LoadIndexed l o => and_then (eval l s) (λ addr s, and_then (eval o s) (λ off s, load (u32 (addr + off)) 4 s))
  end.
End Meaning.

(** ** Writing an expression *)

Definition op_text (type : TokenType) : bytes :=
  match type with
  | PLUS => "+"%bs | MINUS => "-"%bs | ASTERISK => "*"%bs | AT => "@"%bs
  | EQ => "=="%bs | NOT_EQ => "!="%bs | LT => "<"%bs | GT => ">"%bs | LTE => "<="%bs | GTE => ">="%bs
  | AND => "&&"%bs | OR => "||"%bs
  | LPAREN => "("%bs | RPAREN => ")"%bs | COMMA => ","%bs | LBRACKET => "["%bs | RBRACKET => "]"%bs
  | _ => []
  end.

Definition op_token (type : TokenType) : Token := MkToken type (op_text type) 0 0.

(** The binary operators of C, in the groups of its grammar: each group binds
    tighter than those before it, and associates to the left. *)
Definition c_operators : list (list TokenType) :=
  [[OR]; [AND]; [EQ; NOT_EQ]; [LT; GT; LTE; GTE]; [PLUS; MINUS]; [ASTERISK]].

Fixpoint group_in (groups : list (list TokenType)) (op : TokenType) : nat :=
  match groups with
  | [] => 0
  | group :: groups => if bool_decide (op ∈ group) then 0 else S (group_in groups op)
  end.
Definition c_group (op : TokenType) : nat := group_in c_operators op.

(** The tokens of [e] as one writes them in C, where the operators of the first
    [n] groups have to be parenthesised. *)
Fixpoint written (n : nat) (e : expr) : list Token :=
  match e with
  | Number v => [MkToken INT (fmt_u v) v 0]
  | ThreadId => [MkToken IDENTIFIER "tid"%bs 0 0]
  | Register name => [MkToken REGISTER name 0 0]
  | Binary op l r =>
    let q := c_group op in
    let body := written q l ++ op_token op :: written (S q) r in
    if (q <? n)%nat then op_token LPAREN :: body ++ [op_token RPAREN] else body
  | Load a => op_token AT :: op_token LPAREN :: written 0 a ++ [op_token RPAREN]
  | LoadSized a s =>
    op_token AT :: op_token LPAREN :: written 0 a ++ op_token COMMA :: written 0 s ++ [op_token RPAREN]
  | LoadLeaf l => op_token AT :: written 6 l
  | LoadIndexed l o => op_token AT :: written 6 l ++ op_token LBRACKET :: written 0 o ++ [op_token RBRACKET]
  end.

(** The same with the precedences of the parser, where an operator of precedence
    at most [m] has to be parenthesised. *)
Fixpoint render (m : Z) (e : expr) : list Token :=
  match e with
  | Number v => [MkToken INT (fmt_u v) v 0]
  | ThreadId => [MkToken IDENTIFIER "tid"%bs 0 0]
  | Register name => [MkToken REGISTER name 0 0]
  | Binary op l r =>
    let q := GetPrecedence op in
    let body := render (q - 1) l ++ op_token op :: render q r in
    if q <=? m then op_token LPAREN :: body ++ [op_token RPAREN] else body
  | Load a => op_token AT :: op_token LPAREN :: render LOWEST a ++ [op_token RPAREN]
  | LoadSized a s =>
    op_token AT :: op_token LPAREN :: render LOWEST a ++ op_token COMMA :: render LOWEST s ++ [op_token RPAREN]
  | LoadLeaf l => op_token AT :: render HIGHEST l
  | LoadIndexed l o => op_token AT :: render HIGHEST l ++ op_token LBRACKET :: render LOWEST o ++ [op_token RBRACKET]
  end.

Definition token_text (t : Token) : bytes :=
  match token_type t with REGISTER => "$"%bs ++ literal t | _ => literal t end.

(** The text of [e], a blank after every token. *)
Definition show (e : expr) : bytes := concat (map (λ t, token_text t ++ [space]) (written 0 e)).

(** A printed expression can stand in parentheses among the arguments of a command:
    it closes what it opens. *)
Definition no_paren (c : byte) : Prop := c ≠ "("%byte ∧ c ≠ ")"%byte.

Lemma balanced_plain d v rest : Forall no_paren v → balanced d (v ++ rest) = balanced d rest.
Proof. induction 1 as [|c v [Ho Hc] _ IH]; [done|]. cbn. by rewrite !decide_False. Qed.

Definition tokens_text (ts : list Token) : bytes := concat (map (λ t, token_text t ++ [space]) ts).

Lemma tokens_text_cons t ts rest : tokens_text (t :: ts) ++ rest = token_text t ++ space :: (tokens_text ts ++ rest).
Proof. unfold tokens_text. cbn. by rewrite <- !app_assoc. Qed.
Lemma tokens_text_app ts us rest : tokens_text (ts ++ us) ++ rest = tokens_text ts ++ (tokens_text us ++ rest).
Proof. unfold tokens_text. by rewrite map_app, concat_app, <- app_assoc. Qed.

Lemma balanced_token d t ts rest :
  Forall no_paren (token_text t) → balanced d (tokens_text (t :: ts) ++ rest) = balanced d (tokens_text ts ++ rest).
Proof. intros Ht. rewrite tokens_text_cons, balanced_plain by done. done. Qed.

Lemma balanced_open d ts rest :
  balanced d (tokens_text (op_token LPAREN :: ts) ++ rest) = balanced (d + 1) (tokens_text ts ++ rest).
Proof. done. Qed.
Lemma balanced_close d rest : 1 ≤ d → balanced (d + 1) (tokens_text [op_token RPAREN] ++ rest) = balanced d rest.
Proof.
  intros Hd. rewrite tokens_text_cons. cbn. rewrite (proj2 (Z.ltb_lt 1 (d + 1))) by lia. cbn. f_equal. lia.
Qed.

Lemma number_no_paren v : 0 ≤ v → Forall no_paren (fmt_u v).
Proof.
  intros Hv. eapply Forall_impl; [by apply (print_base_digits false 10 v)|]. intros c Hc. split; intros ->; by destruct Hc.
Qed.
Lemma register_no_paren name : Forall isalpha name → Forall no_paren name.
Proof. intros Hn. eapply Forall_impl; [exact Hn|]. intros c Hc. split; intros ->; by destruct Hc. Qed.
Lemma operator_no_paren op : is_operator op = true → Forall no_paren (token_text (op_token op)).
Proof. by destruct op; intros [=]; repeat constructor. Qed.

Lemma balanced_written e : wf_expr e →
  ∀ n d rest, 1 ≤ d → balanced d (tokens_text (written n e) ++ rest) = balanced d rest.
Proof.
  induction e as [v| |name|op l IHl r IHr|a IHa|a IHa m IHm|l IHl|l IHl o IHo]; intros Hwf n d rest Hd; cbn [written].
  - apply (balanced_token d _ []), number_no_paren, Hwf.
  - done.
  - apply (balanced_token d _ []). cbn. constructor; [done|]. by apply register_no_paren, Hwf.
  - destruct Hwf as (Hop & Hl & Hr). pose proof (operator_no_paren op Hop) as Htext.
    assert (∀ d rest, 1 ≤ d → balanced d (tokens_text (written (c_group op) l ++ op_token op :: written (S (c_group op)) r) ++ rest)
      = balanced d rest) as Hbody.
    { intros d1 rest1 Hd1. rewrite tokens_text_app, IHl by done. by rewrite balanced_token, IHr. }
    destruct (_ <? n)%nat; [|by apply Hbody].
    by rewrite balanced_open, tokens_text_app, Hbody, balanced_close by lia.
  - rewrite balanced_token by (by repeat constructor). by rewrite balanced_open, tokens_text_app, IHa, balanced_close by (done || lia).
  - destruct Hwf as [Ha Hm]. rewrite balanced_token by (by repeat constructor).
    rewrite balanced_open, tokens_text_app, IHa by (done || lia). rewrite balanced_token by (by repeat constructor).
    by rewrite tokens_text_app, IHm, balanced_close by (done || lia).
  - destruct Hwf as [_ Hl]. rewrite balanced_token by (by repeat constructor). by apply IHl.
  - destruct Hwf as (_ & Hl & Ho). rewrite balanced_token by (by repeat constructor).
    rewrite tokens_text_app, IHl by done. rewrite balanced_token by (by repeat constructor).
    rewrite tokens_text_app, IHo by done. apply (balanced_token d _ []). by repeat constructor.
Qed.

Lemma show_balanced e : wf_expr e → balanced 1 (show e) = true.
Proof. intros Hwf. rewrite <- (app_nil_r (show e)). by apply (balanced_written e Hwf 0 1 []). Qed.

(** The parser has the order of C. *)
Lemma GetPrecedence_group op : is_operator op = true → GetPrecedence op = Z.of_nat (c_group op) + LOGICAL_OR.
Proof. by destruct op. Qed.

Lemma render_leaf m m' e : is_leaf e = true → render m e = render m' e.
Proof. by destruct e. Qed.

Lemma written_render n e : wf_expr e → written n e = render (Z.of_nat n + LOWEST) e.
Proof.
  revert n; induction e as [| | |op l IHl r IHr|a IHa|a IHa m IHm|l IHl|l IHl o IHo]; intros n Hwf; try done.
  - destruct Hwf as (Hop & Hl & Hr). cbn [written render]. rewrite (GetPrecedence_group op Hop), IHl, IHr by done.
    unfold LOGICAL_OR, LOWEST.
    replace (Z.of_nat (c_group op) + 2 - 1) with (Z.of_nat (c_group op) + 1) by lia.
    replace (Z.of_nat (S (c_group op)) + 1) with (Z.of_nat (c_group op) + 2) by lia.
    destruct (Nat.ltb_spec (c_group op) n), (Z.leb_spec (Z.of_nat (c_group op) + 2) (Z.of_nat n + 1)); first [done|lia].
  - cbn [written render]. by rewrite IHa.
  - destruct Hwf as [Ha Hm]. cbn [written render]. by rewrite IHa, IHm.
  - destruct Hwf as [Hleaf Hl]. cbn [written render]. by rewrite IHl, (render_leaf _ HIGHEST).
  - destruct Hwf as (Hleaf & Hl & Ho). cbn [written render]. by rewrite IHl, IHo, (render_leaf _ HIGHEST).
Qed.

(** ** The evaluator computes the meaning *)

Lemma render_ok m e : wf_expr e → tokens_ok (render m e).
Proof.
  assert (∀ type, token_ok (op_token type)) as Hop by (intros; unfold token_ok, is_u32; cbn; lia).
  revert m. induction e; intros m; cbn -[op_token]; intros Hwf; unfold tokens_ok in *;
    repeat match goal with |- context [if ?b then _ else _] => destruct b end;
    repeat first [done | apply Hop | apply Forall_cons; split | apply Forall_app; split | constructor
                 | solve [unfold token_ok, is_u32; cbn; lia] | naive_solver].
Qed.

Lemma operate_range op a b : is_u32 (operate op a b).
Proof.
  destruct op; cbn [operate]; try apply truth_range; try (split; done);
    apply Z.mod_pos_bound; done.
Qed.

Lemma infix_value_operate {St} op a b ts (s : St) :
  is_operator (token_type op) = true → infix_value op a b ts s = Val (operate (token_type op) a b) ts s.
Proof.
  unfold infix_value. destruct (token_type op); try discriminate; intros _; cbn [operate]; try done;
    f_equal; f_equal; apply eq_true_iff_eq; rewrite bool_decide_eq_true; lia.
Qed.

Section Correctness.
Context `{!Boost} {St : Type} (env : Environment St) (Henv : env_ok env).

Lemma load_range addr size s v s' : load env addr size s = Some (inl v, s') → is_u32 v.
Proof.
  unfold load, and_then. destruct (memory_reader_ env) as [reader|]; [|done].
  destruct (decide (size ≤ 4)); [|done]. destruct (reader addr size s) as [[[data|] s1]|]; [|done..].
  destruct (decide (Z.of_nat (length data) = size)); [|done]. intros [= <- _].
  pose proof (le_int_range data). pose proof (Z.pow_le_mono_r 256 (Z.of_nat (length data)) 4).
  unfold is_u32. lia.
Qed.

Lemma eval_range e s v s' : wf_expr e → eval env e s = Some (inl v, s') → is_u32 v.
Proof.
  destruct e; cbn; unfold and_then; intros Hwf Hv;
    repeat match type of Hv with context [match eval env ?x ?y with _ => _ end] =>
      destruct (eval env x y) as [[[]]|]; [|done..] end;
    try solve [by eapply load_range | simplify_eq; by eapply ResolveRegisterValue_range].
  - by simplify_eq.
  - unfold env_ok in Henv. destruct (thread_id_ env); by simplify_eq.
  - simplify_eq. apply operate_range.
Qed.

(** Going on with a value. *)
Definition resume (r : evaluated St Z) (k : Z → St → presult St) : presult St :=
  match r with Some (inl v, s) => k v s | Some (inr e, s) => Err e s | None => Asserted end.

Lemma resume_and_then (x : evaluated St Z) f k : resume (and_then x f) k = resume x (λ v s, resume (f v s) k).
Proof. by destruct x as [[[]]|]. Qed.

Lemma pbind_resume (x : evaluated St Z) k f : pbind (resume x k) f = resume x (λ v s, pbind (k v s) f).
Proof. by destruct x as [[[]]|]. Qed.

Lemma perform_read_load addr size ts s :
  perform_read env addr size ts s = resume (load env addr size s) (λ v s, Val v ts s).
Proof.
  unfold perform_read, load, and_then. destruct (memory_reader_ env) as [reader|]; [|done].
  destruct (Z.ltb_spec 4 size); [by rewrite decide_False by lia|]. rewrite decide_True by lia.
  destruct (reader addr size s) as [[[data|] s1]|]; [|done..].
  destruct (Z.eqb_spec (Z.of_nat (length data)) size); [by rewrite decide_True|by rewrite decide_False].
Qed.

(** What may follow an expression rendered in a context of precedence [m]. *)
Definition follows (m : Z) (rest : list Token) : Prop :=
  GetPrecedence (next_type rest) ≤ m + 1 ∧ next_type rest ≠ LBRACKET.

Lemma expect_token type e rest (s : St) k : expect type e (op_token type :: rest) s k = k rest.
Proof. unfold expect. by rewrite decide_True. Qed.

Lemma closes m type rest :
  type = RPAREN ∨ type = COMMA ∨ type = RBRACKET → LOWEST ≤ m → follows m (op_token type :: rest).
Proof. intros Ht Hm. unfold follows, LOWEST in *. cbn. destruct Ht as [->|[->| ->]]; (split; [cbn; unfold LOWEST; lia|done]). Qed.

(** [e] is read correctly in a context of precedence [m]: its value goes on to
    the operators that follow. *)
Definition reads_at (e : expr) (m p : Z) (rest : list Token) : Prop := ∀ s,
  parse_expression env p (render m e ++ rest) s = resume (eval env e s) (λ v s, parse_infix env p v rest s).

Lemma parse_leaf e p m rest :
  is_leaf e = true → wf_expr e → LOWEST ≤ p → tokens_ok rest → reads_at e m p rest.
Proof.
  intros Hleaf Hwf Hp Hrest s. pose proof (render_ok m e Hwf) as Hok.
  destruct e; try discriminate; cbn [render app] in *; apply Forall_cons in Hok as [Hok _];
    (rewrite parse_expression_cons; [|done|done|done|by apply Forall_cons]); unfold ParsePrefix; cbn.
  - done.
  - by destruct (thread_id_ env).
  - by destruct (ResolveRegisterValue _ _).
Qed.

Lemma op_ok type : token_ok (op_token type).
Proof. unfold token_ok, is_u32. cbn. lia. Qed.
Hint Resolve op_ok render_ok : parse.

Lemma tokens_ok_app a b : tokens_ok a → tokens_ok b → tokens_ok (a ++ b).
Proof. intros. by apply Forall_app. Qed.
Lemma tokens_ok_cons t a : token_ok t → tokens_ok a → tokens_ok (t :: a).
Proof. intros. by apply Forall_cons. Qed.
Lemma tokens_ok_nil : tokens_ok [].
Proof. constructor. Qed.
Hint Resolve tokens_ok_app tokens_ok_cons tokens_ok_nil : parse.

(** [e] is read correctly wherever it is rendered. *)
Definition reads (e : expr) : Prop := ∀ m p rest,
  LOWEST ≤ p → p ≤ m → follows m rest → tokens_ok rest → reads_at e m p rest.

(** Inside parentheses or brackets it is read up to the closing token. *)
Lemma reads_closed e type rest s :
  reads e → type = RPAREN ∨ type = COMMA ∨ type = RBRACKET → tokens_ok rest →
  parse_expression env LOWEST (render LOWEST e ++ op_token type :: rest) s
  = resume (eval env e s) (λ v s, Val v (op_token type :: rest) s).
Proof.
  intros He Ht Hok. rewrite He by eauto using closes with parse.
  destruct (eval env e s) as [[[]]|]; [|done..]. cbn [resume]. apply parse_infix_stop. unfold next_type. cbn.
  by destruct Ht as [->|[->| ->]].
Qed.

Lemma reads_binary op l r p rest s :
  wf_expr (Binary op l r) → reads l → reads r → let q := GetPrecedence op in
  LOWEST ≤ p → p < q → follows (q - 1) rest → tokens_ok rest →
  parse_expression env p (render (q - 1) l ++ op_token op :: render q r ++ rest) s
  = resume (eval env (Binary op l r) s) (λ v s, parse_infix env p v rest s).
Proof.
  intros (Hop & Hwl & Hwr) Hl Hr q Hp Hpq [Hf Hb] Hrest.
  rewrite Hl; [|done|lia| |auto with parse].
  2: { split; [unfold next_type; cbn; lia|unfold next_type; cbn; by destruct op]. }
  cbn [eval]. rewrite resume_and_then. destruct (eval env l s) as [[[a|] s1]|] eqn:El; [|done..]. cbn [resume].
  pose proof (eval_range l s a s1 Hwl El).
  rewrite parse_infix_op by auto with parse. cbn [op_token token_type].
  rewrite Hr; [|unfold LOWEST in *; lia|lia|split; [lia|done]|done].
  destruct (eval env r s1) as [[[b|] s2]|] eqn:Er; [|done..]. cbn [resume and_then].
  rewrite parse_infix_stop by lia. cbn [pbind]. rewrite infix_value_operate by done. done.
Qed.

(** [@leaf] up to the optional bracket. *)
Lemma parse_pointer l p rest s :
  is_leaf l = true → wf_expr l → LOWEST ≤ p → tokens_ok rest →
  parse_expression env p (op_token AT :: render HIGHEST l ++ rest) s
  = resume (eval env l s) (λ addr s,
      pbind (if decide (next_type rest = LBRACKET) then
        pbind (parse_expression env LOWEST (tl rest) s) (λ offset ts s,
          expect RBRACKET "Expected ']'"%bs ts s (λ ts, perform_read env (u32 (addr + offset)) 4 ts s))
      else perform_read env addr 4 rest s) (parse_infix env p)).
Proof.
  intros Hleaf Hwf Hp Hrest. rewrite parse_expression_cons by (done || auto 10 with parse).
  unfold ParsePrefix. cbn [op_token token_type].
  rewrite decide_False by (by destruct l). rewrite parse_leaf by (done || auto with parse).
  destruct (eval env l s) as [[[addr|] s1]|]; [|done..]. cbn [resume].
  rewrite parse_infix_stop; [done|]. pose proof (GetPrecedence_range (next_type rest)). unfold CALL, HIGHEST in *. lia.
Qed.

(** Reading back a rendered expression computes its meaning and goes on with
    what follows it. *)
Lemma render_reads e : wf_expr e → reads e.
Proof.
  induction e as [| | |op l IHl r IHr|a IHa|a IHa n IHn|l IHl|l IHl o IHo]; intros Hwf m p rest Hp Hpm Hf Hrest;
    try (by apply parse_leaf); intros s.
  - cbn [render]. pose proof Hwf as (Hop & Hwl & Hwr).
    assert (LOWEST < GetPrecedence op) as Hq by (by destruct op).
    destruct (Z.leb_spec (GetPrecedence op) m) as [Hle|Hlt].
    + cbn [app]. rewrite parse_expression_cons by (done || auto 10 with parse).
      unfold ParsePrefix. cbn [op_token token_type]. rewrite <- !app_assoc. cbn [app].
      change (MkToken ?t _ 0 0) with (op_token t).
      rewrite reads_binary; [|done|auto..|done|done| |auto with parse].
      2: { apply closes; [auto|unfold LOWEST in *; lia]. }
      destruct (eval env (Binary op l r) s) as [[[]]|]; [|done..]. cbn [resume]. rewrite parse_infix_stop by done.
      cbn [pbind]. by rewrite expect_token.
    + rewrite <- app_assoc. cbn [app]. apply reads_binary; auto; [lia|]. destruct Hf. split; [lia|done].
  - cbn [render app eval]. rewrite parse_expression_cons by (done || auto 10 with parse).
    unfold ParsePrefix. cbn [op_token token_type]. rewrite <- !app_assoc. cbn [app]. rewrite resume_and_then.
    change (MkToken ?t _ 0 0) with (op_token t). rewrite decide_True by done. cbn [Consume snd tl].
    rewrite reads_closed by auto with parse. destruct (eval env a s) as [[[addr|] s1]|]; [|done..]. cbn [resume pbind].
    rewrite decide_False by done. by rewrite expect_token, perform_read_load, pbind_resume.
  - cbn [render app eval]. destruct Hwf as [Hwa Hws]. rewrite parse_expression_cons by (done || auto 10 with parse).
    unfold ParsePrefix. cbn [op_token token_type]. rewrite <- !app_assoc. cbn [app]. rewrite <- !app_assoc. cbn [app].
    change (MkToken ?t _ 0 0) with (op_token t). rewrite decide_True by done. cbn [Consume snd tl].
    rewrite reads_closed by auto 10 with parse. rewrite resume_and_then.
    destruct (eval env a s) as [[[addr|] s1]|]; [|done..]. cbn [resume pbind].
    rewrite decide_True by done. cbn [Consume snd tl]. rewrite resume_and_then.
    rewrite reads_closed by auto with parse. destruct (eval env n s1) as [[[size|] s2]|]; [|done..]. cbn [resume pbind].
    by rewrite expect_token, perform_read_load, pbind_resume.
  - destruct Hwf as [Hleaf Hwf]. cbn [render app eval]. rewrite parse_pointer by done. rewrite resume_and_then.
    destruct (eval env l s) as [[[addr|] s1]|]; [|done..]. cbn [resume].
    rewrite decide_False by apply Hf. by rewrite perform_read_load, pbind_resume.
  - destruct Hwf as (Hleaf & Hwl & Hwo). cbn [render app eval]. rewrite <- !app_assoc. cbn [app]. rewrite <- !app_assoc. cbn [app].
    rewrite parse_pointer by (done || auto 10 with parse). rewrite resume_and_then.
    destruct (eval env l s) as [[[addr|] s1]|]; [|done..]. cbn [resume].
    rewrite decide_True by done. cbn [tl]. rewrite reads_closed by auto with parse. rewrite resume_and_then.
    destruct (eval env o s1) as [[[off|] s2]|]; [|done..]. cbn [resume pbind].
    by rewrite expect_token, perform_read_load, pbind_resume.
Qed.
End Correctness.

(** ** Positions do not matter *)

Definition erase (t : Token) : Token := MkToken (token_type t) (literal t) (int_value t) 0.

Definition erase_result {St} (r : presult St) : presult St :=
  match r with Val v ts s => Val v (map erase ts) s | r => r end.

Lemma erase_hd ts : hd eof (map erase ts) = erase (hd eof ts).
Proof. by destruct ts. Qed.

Lemma erase_next ts : next_type (map erase ts) = next_type ts.
Proof. by destruct ts. Qed.

Lemma erase_tl ts : tl (map erase ts) = map erase (tl ts).
Proof. by destruct ts. Qed.

Lemma erase_bind {St} (r : presult St) f g :
  (∀ v ts s, f v (map erase ts) s = erase_result (g v ts s)) →
  pbind (erase_result r) f = erase_result (pbind r g).
Proof. intros H. destruct r; [apply H|done..]. Qed.

Lemma erase_expect {St} type e ts (s : St) k k' :
  (∀ ts, k (map erase ts) = erase_result (k' ts)) →
  expect type e (map erase ts) s k = erase_result (expect type e ts s k').
Proof.
  intros H. unfold expect, Consume. cbn. rewrite erase_next, erase_tl. destruct (decide _); [apply H|done].
Qed.

Section Erasure.
Context `{!Boost} {St : Type} (env : Environment St).

Lemma erase_perform_read addr size ts s :
  perform_read env addr size (map erase ts) s = erase_result (perform_read env addr size ts s).
Proof.
  unfold perform_read. destruct (memory_reader_ env); [|done]. destruct (4 <? size); [done|].
  destruct (_ addr size s) as [[[]]|]; [|done..]. by destruct (negb _).
Qed.

Lemma erase_infix_value op l r ts (s : St) :
  infix_value (erase op) l r (map erase ts) s = erase_result (infix_value op l r ts s).
Proof. unfold infix_value. cbn. by destruct (token_type op). Qed.

Lemma erase_ParsePrefix rec token ts s :
  (∀ p ts s, rec p (map erase ts) s = erase_result (rec p ts s)) →
  ParsePrefix env rec (erase token) (map erase ts) s = erase_result (ParsePrefix env rec token ts s).
Proof.
  intros Hrec. unfold ParsePrefix, Consume. cbn [erase token_type literal int_value snd].
  rewrite erase_next, erase_tl.
  destruct (token_type token); try done.
  - destruct (decide _); [|done]. by destruct (thread_id_ env).
  - by destruct (ResolveRegisterValue _ _).
  - destruct (decide (next_type ts = LPAREN)); rewrite Hrec; apply erase_bind; intros v ts' s';
      rewrite erase_next, erase_tl.
    + destruct (decide _).
      * rewrite Hrec. apply erase_bind. intros. apply erase_expect. intros. apply erase_perform_read.
      * apply erase_expect. intros. apply erase_perform_read.
    + destruct (decide _); [|apply erase_perform_read].
      rewrite Hrec. apply erase_bind. intros. apply erase_expect. intros. apply erase_perform_read.
  - rewrite Hrec. apply erase_bind. intros. apply erase_expect. done.
Qed.

Lemma erase_fuel fuel :
  (∀ p ts s, ParseExpression env fuel p (map erase ts) s = erase_result (ParseExpression env fuel p ts s)) ∧
  (∀ p l ts s, infix_loop env fuel p l (map erase ts) s = erase_result (infix_loop env fuel p l ts s)).
Proof.
  induction fuel as [|fuel [IHe IHl]]; [done|]. split.
  - intros p ts s. cbn -[ParsePrefix]. rewrite erase_hd, erase_tl. cbn [erase token_type].
    destruct (decide _); [done|]. fold (erase (hd eof ts)). rewrite erase_ParsePrefix by done. by apply erase_bind.
  - intros p l ts s. cbn -[infix_value]. rewrite erase_next, erase_hd, erase_tl. cbn [erase token_type].
    destruct (p <? _); [|done]. rewrite IHe. apply erase_bind. intros. fold (erase (hd eof ts)).
    rewrite erase_infix_value. by apply erase_bind.
Qed.
End Erasure.

(** ** The tokenizer *)

Lemma span_cons p c rest : p c = true → span p (c :: rest) = (c :: (span p rest).1, (span p rest).2).
Proof. intros H. cbn. rewrite H. by destruct (span p rest). Qed.

Lemma next_token_consumes `{!Boost} c rest i t n :
  next_token c rest i = inl (t, n) → (1 ≤ n)%nat ∧ token_ok t.
Proof.
  assert (Hz : is_u32 0) by (unfold is_u32; lia).
  unfold next_token, token_ok. intros E.
  destruct (_ && _).
  { destruct (span _ _) as [ds ?], (decide (ds = [])); [done|].
    destruct (stoul _ _) as [v|[]]; simplify_eq. split; [lia|apply u32_range]. }
  destruct (isdigit c) eqn:?.
  { rewrite span_cons in E by done. destruct (stoul _ _) as [v|]; simplify_eq.
    split; [cbn; lia|apply u32_range]. }
  destruct (decide (c = "$"%byte)).
  { destruct (span _ _) as [ds ?], (decide (ds = [])); simplify_eq. split; [cbn; lia|done]. }
  destruct (isalpha c) eqn:?.
  { rewrite span_cons in E by done.
    repeat match type of E with context [if ?b then _ else _] => destruct b end; simplify_eq; (split; [cbn; lia|done]). }
  repeat match type of E with context [if ?b then _ else _] => destruct b end; simplify_eq; (split; [lia|done]).
Qed.

(** The length of the text is enough fuel. *)
Lemma tokenize_fuel `{!Boost} f1 f2 i s :
  (length s ≤ f1)%nat → (length s ≤ f2)%nat → tokenize_loop f1 i s = tokenize_loop f2 i s.
Proof.
  revert f2 i s; induction f1 as [|f1 IH]; intros f2 i s H1 H2; [by destruct s, f2; cbn in *; try lia|].
  destruct s as [|c rest]; [by destruct f2|]. destruct f2 as [|f2]; [cbn in *; lia|]. cbn in *.
  destruct (isspace c); [apply IH; lia|].
  destruct (next_token c rest i) as [[t n]|] eqn:E; [|done]. apply next_token_consumes in E as [Hn _].
  rewrite (IH f2); [done|..]; rewrite length_drop; cbn; lia.
Qed.

Definition tokens_at `{!Boost} (i : nat) (s : bytes) : list Token + bytes := tokenize_loop (length s) i s.

Lemma tokens_at_token `{!Boost} i c rest t n :
  isspace c = false → next_token c rest i = inl (t, n) →
  tokens_at i (c :: rest)
  = match tokens_at (i + n) (drop n (c :: rest)) with inl ts => inl (t :: ts) | inr e => inr e end.
Proof.
  intros Hc Ht. unfold tokens_at. cbn [length tokenize_loop]. rewrite Hc, Ht.
  apply next_token_consumes in Ht as [Hn _].
  rewrite (tokenize_fuel (length rest) (length (drop n (c :: rest)))); [|rewrite length_drop; cbn; lia|done].
  by destruct (tokenize_loop _ _ _).
Qed.

Lemma tokens_at_space `{!Boost} i c rest : isspace c = true → tokens_at i (c :: rest) = tokens_at (S i) rest.
Proof. intros Hc. unfold tokens_at. cbn. by rewrite Hc. Qed.

(** Every token is well formed and the last one marks the end. *)
Lemma tokenize_shape `{!Boost} f i s ts :
  (length s ≤ f)%nat → tokenize_loop f i s = inl ts → tokens_ok ts ∧ ts ≠ [].
Proof.
  revert i s ts; induction f as [|f IH]; intros i s ts Hf.
  - destruct s; [|cbn in *; lia]. intros [= <-]. split; [|done]. apply Forall_singleton. split; done.
  - destruct s as [|c rest]; [intros [= <-]; split; [|done]; apply Forall_singleton; split; done|].
    cbn in *. destruct (isspace c); [apply IH; lia|].
    destruct (next_token c rest i) as [[t n]|] eqn:E; [|done]. apply next_token_consumes in E as [Hn Ht].
    destruct (tokenize_loop f _ _) as [ts'|] eqn:E'; [|done]. intros [= <-].
    apply IH in E' as [? ?]; [|rewrite length_drop; cbn; lia]. split; [by apply Forall_cons|done].
Qed.

(** [t] is read from its text, wherever it stands before a blank. *)
Definition lexable `{!Boost} (t : Token) : Prop :=
  start_pos t = 0%nat ∧
  ∃ c word, token_text t = c :: word ∧ isspace c = false ∧
  ∀ more i, next_token c (word ++ space :: more) i
            = inl (MkToken (token_type t) (literal t) (int_value t) i, length (token_text t)).

Lemma tokenize_text `{!Boost} ts i :
  Forall lexable ts →
  ∃ ts', tokens_at i (concat (map (λ t, token_text t ++ [space]) ts)) = inl ts'
         ∧ map erase ts' = ts ++ [eof].
Proof.
  intros Hts. revert i; induction Hts as [|t ts Ht Hts IH]; intros i.
  - by eexists.
  - destruct Ht as (Hpos & c & word & E & Hc & Hlex). cbn [map concat]. set (more := concat _) in *.
    rewrite E, <- app_assoc. cbn [app].
    rewrite (tokens_at_token _ _ _ _ _ Hc (Hlex more i)). rewrite E. cbn [length drop].
    rewrite drop_app_length, tokens_at_space by done.
    destruct (IH (S (i + S (length word)))) as (ts' & -> & E'). eexists; split; [done|].
    cbn. rewrite E'. f_equal. destruct t; unfold erase; cbn in *. congruence.
Qed.

Definition is_symbol (type : TokenType) : bool :=
  is_operator type ||
  match type with LPAREN | RPAREN | COMMA | LBRACKET | RBRACKET | AT => true | _ => false end.

Lemma symbol_lexable `{!Boost} type : is_symbol type = true → lexable (op_token type).
Proof.
  intros Hs. split; [done|].
  destruct type; try discriminate; do 2 eexists; (split; [reflexivity|]); (split; [reflexivity|]); reflexivity.
Qed.

Lemma tid_lexable `{!Boost, !BoostLaws _} : lexable (MkToken IDENTIFIER "tid"%bs 0 0).
Proof.
  split; [done|]. do 2 eexists. split; [reflexivity|]. split; [reflexivity|]. intros more i.
  change (next_token _ _ _) with
    (let literal := to_lower_copy "tid"%bs in
     if decide (literal = "tid"%bs) then inl (MkToken IDENTIFIER literal 0 i, 3%nat)
     else if decide (literal = "and"%bs) then inl (MkToken AND literal 0 i, 3%nat)
     else if decide (literal = "or"%bs) then inl (MkToken OR literal 0 i, 3%nat)
     else inr (unexpected_at i)).
  rewrite to_lower_copy_spec. reflexivity.
Qed.

Lemma register_lexable `{!Boost} name :
  name ≠ [] → Forall isalpha name → lexable (MkToken REGISTER name 0 0).
Proof.
  intros Hne Hn. split; [done|]. exists "$"%byte, name. split; [done|]. split; [done|]. intros more i.
  change (next_token "$"%byte ?rest i) with
    (let '(literal, _) := span isalpha rest in
     if decide (literal = []) then @inr (Token * nat) bytes "Empty register name"%bs
     else inl (MkToken REGISTER literal 0 i, S (length literal))).
  rewrite span_prefix by done. by rewrite decide_False.
Qed.

Lemma isdigit_digit c : is_digit_of 10 c = isdigit c.
Proof. byte_cases c. Qed.

Lemma number_reads `{!Boost} n more i :
  0 ≤ n → number_stops 10 more →
  ∃ c word, fmt_u n = c :: word ∧ isspace c = false ∧
  next_token c (word ++ more) i
  = if ULONG_MAX <? n then inr "Number is out of range"%bs
    else inl (MkToken INT (fmt_u n) (u32 n) i, length (fmt_u n)).
Proof.
  intros Hn Hstop. pose proof (print_base_digits false 10 n ltac:(lia) Hn) as Hd.
  pose proof (print_base_value false 10 n ltac:(lia) Hn) as Hv.
  pose proof (print_base_nonempty false 10 n) as Hne. fold (fmt_u n) in *.
  pose proof (scan_int_digits 10 (fmt_u n) [] ltac:(lia) Hd Hne I) as Hscan. rewrite app_nil_r, Hv in Hscan.
  destruct (fmt_u n) as [|c word] eqn:E; [done|]. exists c, word. split; [done|].
  apply Forall_cons in Hd as [Hc Hw]. apply Is_true_true in Hc.
  destruct (digit_class 10 c ltac:(lia) Hc) as (Hs & _). split; [done|].
  assert (bool_decide (head (word ++ more) = Some "x"%byte) || bool_decide (head (word ++ more) = Some "X"%byte) = false) as Hx.
  { destruct word as [|x word].
    - destruct more as [|x more]; [done|]. destruct Hstop as (_ & ? & ?). cbn. by rewrite !bool_decide_eq_false_2 by congruence.
    - apply Forall_cons in Hw as [Hx _]. apply Is_true_true in Hx.
      destruct (digit_class 10 x ltac:(lia) Hx) as (_ & _ & _ & _ & ? & ? & _). cbn. by rewrite !bool_decide_eq_false_2 by congruence. }
  unfold next_token. rewrite Hx, andb_false_r, <- isdigit_digit, Hc.
  change (c :: word ++ more) with ((c :: word) ++ more).
  assert (Forall isdigit (c :: word)) as Hall.
  { apply Forall_cons. split; [by rewrite <- isdigit_digit, Hc|].
    eapply Forall_impl; [exact Hw|]. intros x. by rewrite <- isdigit_digit. }
  rewrite span_prefix; [|done|destruct more; [done|rewrite <- isdigit_digit; apply Hstop]].
  unfold stoul. rewrite Hscan. cbn [sc_mag sc_neg]. by destruct (ULONG_MAX <? n).
Qed.

Lemma number_lexable `{!Boost} v : is_u32 v → lexable (MkToken INT (fmt_u v) v 0).
Proof.
  intros [Hv0 Hv]. split; [done|].
  assert (∀ more, number_stops 10 (space :: more)) as Hstop by (intros; split; [reflexivity|split; discriminate]).
  destruct (number_reads v (space :: []) 0 Hv0 (Hstop [])) as (c & word & E & Hs & _).
  exists c, word. split; [done|]. split; [done|]. intros more i.
  destruct (number_reads v (space :: more) i Hv0 (Hstop more)) as (c' & word' & E' & _ & R).
  rewrite E in E'. injection E' as <- <-. rewrite R. unfold token_text. cbn [token_type literal int_value].
  rewrite (proj2 (Z.ltb_ge _ _)) by (unfold ULONG_MAX; lia). by rewrite u32_id.
Qed.

Lemma operator_symbol type : is_operator type = true → is_symbol type = true.
Proof. unfold is_symbol. by intros ->. Qed.

Lemma render_lexable `{!Boost, !BoostLaws _} m e : wf_expr e → Forall lexable (render m e).
Proof.
  revert m. induction e; intros m; cbn -[op_token lexable]; intros Hwf; destruct_and? Hwf;
    repeat match goal with |- context [if ?b then _ else _] => destruct b end;
    repeat first [ apply Forall_nil; exact I | apply Forall_cons; split | apply Forall_app; split
                 | apply number_lexable; assumption | apply tid_lexable | apply register_lexable; assumption
                 | apply symbol_lexable; first [reflexivity | apply operator_symbol; assumption]
                 | match goal with IH : _ |- _ => apply IH; assumption end ].
Qed.

(** ** Properties of [Parse] *)

Section Properties.
Context `{!Boost} {St : Type} (env : Environment St) (Henv : env_ok env).

Lemma Parse_tokens text ts s :
  Tokenize text = inl ts →
  Parse env text s =
  if decide (next_type ts = END_OF_FILE) then Error "Empty expression"%bs s
  else match parse_expression env LOWEST ts s with
       | Err e s => Error e s
       | Asserted => AssertionFailure
       | OutOfFuel => NoFuel
       | Val v rest s => if decide (next_type rest = END_OF_FILE) then Value v s
                         else Error (unexpected_at (start_pos (Peek rest))) s
       end.
Proof.
  intros E. unfold Parse. rewrite E. destruct (decide _); [done|].
  apply tokenize_shape in E as [Hok _]; [|done]. unfold parse_expression, enough.
  by rewrite (proj1 (fuel_ext env Henv _ (2 * length ts + 1))) by (done || lia).
Qed.

(** Parsing an expression always ends (the fuel of the model is never
    exhausted, whatever the text), and a value it returns is a [uint32_t]. *)
Theorem Parse_total (text : bytes) (s : St) :
  Parse env text s ≠ NoFuel ∧ (∀ v s', Parse env text s = Value v s' → is_u32 v).
Proof.
  destruct (Tokenize text) as [ts|e] eqn:E; [|unfold Parse; rewrite E; done].
  rewrite (Parse_tokens _ _ _ E). destruct (decide _); [done|].
  apply tokenize_shape in E as [Hok _]; [|done].
  pose proof (parse_expression_good env Henv (length ts) LOWEST ts s (Z.le_refl _) (le_n _) Hok) as [Hg _].
  destruct (parse_expression env LOWEST ts s) as [v rest s1| | |]; try done.
  destruct (decide _); split; try done. intros v' s' [= <- _]. apply Hg.
Qed.

Definition outcome (r : presult St) : parsed (St := St) :=
  match r with
  | Val v _ s => Value v s
  | Err e s => Error e s
  | Asserted => AssertionFailure
  | OutOfFuel => NoFuel
  end.

(** The result for a text depends on its tokens without their positions. *)
Lemma Parse_erased text ts ts' s :
  Tokenize text = inl ts' → map erase ts' = ts → next_type ts ≠ END_OF_FILE →
  (∀ v rest s', parse_expression env LOWEST ts s = Val v rest s' → next_type rest = END_OF_FILE) →
  Parse env text s = outcome (parse_expression env LOWEST ts s).
Proof.
  intros E <- Hne Hp. rewrite (Parse_tokens text ts' s E).
  rewrite erase_next in Hne. rewrite decide_False by done. revert Hp. unfold parse_expression.
  rewrite length_map, (proj1 (erase_fuel env _)). intros Hp.
  destruct (ParseExpression env _ LOWEST ts' s) as [v rest s'| | |]; try done. cbn.
  rewrite decide_True; [done|]. rewrite <- erase_next. by eapply Hp.
Qed.

Lemma head_nonempty m e rest : next_type (render m e ++ rest) ≠ END_OF_FILE.
Proof.
  revert m rest; induction e; intros m rest; cbn [render]; try done.
  destruct (_ <=? m); [done|]. rewrite <- app_assoc. apply IHe1.
Qed.
End Properties.

(** What [Parse] returns for a meaning. *)
Definition returned {St} (r : evaluated St Z) : parsed (St := St) :=
  match r with
  | Some (inl v, s) => Value v s
  | Some (inr err, s) => Error err s
  | None => AssertionFailure
  end.

Lemma Parse_meaning `{!Boost, !BoostLaws _} {St} (env : Environment St) (e : expr) (s : St)
  (Henv : env_ok env) (Hwf : wf_expr e) :
  Parse env (show e) s = returned (eval env e s).
Proof.
  destruct (tokenize_text (render LOWEST e) 0 (render_lexable _ _ Hwf)) as (ts' & E & Hts).
  assert (parse_expression env LOWEST (render LOWEST e ++ [eof]) s
          = resume (eval env e s) (λ v s, parse_infix env LOWEST v [eof] s)) as R.
  { apply (render_reads env Henv e Hwf LOWEST LOWEST [eof] (Z.le_refl _) (Z.le_refl _)).
    - by split.
    - by apply Forall_singleton; split. }
  unfold show. rewrite (written_render 0 e Hwf : written 0 e = render LOWEST e). rewrite (Parse_erased env Henv _ _ _ _ E Hts); [|apply head_nonempty|];
    rewrite R; destruct (eval env e s) as [[[v|] s1]|]; cbn [resume]; try rewrite parse_infix_stop by done; try done.
  by intros ? ? ? [= _ <- _].
Qed.

(** C34. Parsing an expression printed with the parentheses that the grammar of C
    calls for, by the precedence and the left associativity its operators have
    there, computes its meaning: registers,
    the thread id and little-endian memory reads of at most four bytes,
    arithmetic modulo 2^32 and comparisons giving 0 or 1, or the error of the
    first operand, from left to right, that has none.  The memory reader is
    called for the loads of the expression and nothing else, in that order. *)
Theorem Parse_show `{!Boost, !BoostLaws _} {St} (env : Environment St) (e : expr) (s : St)
  (Henv : env_ok env) (Hwf : wf_expr e) :
  Parse env (show e) s = returned (eval env e s).
Proof. by apply Parse_meaning. Qed.

(** What follows an operand of the highest precedence. *)
Definition operand_text (e : expr) : bytes := concat (map (λ t, token_text t ++ [space]) (render CALL e)).

(** An operand directly followed by a parenthesised one, as in [$eax (4)],
    is taken for a call: once both values are known the parser reaches the
    assertion that no operator is unhandled. *)
Theorem Parse_call_asserts `{!Boost, !BoostLaws _} {St} (env : Environment St) (a b : expr) (va vb : Z)
  (s s1 s2 : St) (Henv : env_ok env) (Ha : wf_expr a) (Hb : wf_expr b)
  (Hva : eval env a s = Some (inl va, s1)) (Hvb : eval env b s1 = Some (inl vb, s2)) :
  Parse env (operand_text a ++ "( "%bs ++ operand_text b ++ ") "%bs) s = AssertionFailure.
Proof.
  set (ts := render CALL a ++ op_token LPAREN :: render CALL b ++ [op_token RPAREN]).
  assert (operand_text a ++ "( "%bs ++ operand_text b ++ ") "%bs
          = concat (map (λ t, token_text t ++ [space]) ts)) as ->.
  { unfold ts, operand_text. by rewrite map_app, map_cons, map_app, concat_app, concat_cons, concat_app. }
  assert (Forall lexable ts) as Hlex.
  { unfold ts. apply Forall_app; split; [by apply render_lexable|].
    apply Forall_cons; split; [by apply symbol_lexable|]. apply Forall_app; split; [by apply render_lexable|].
    apply Forall_cons; split; [by apply symbol_lexable|done]. }
  destruct (tokenize_text ts 0 Hlex) as (ts' & E & Hts).
  assert (parse_expression env LOWEST (ts ++ [eof]) s = Asserted) as R.
  { unfold ts. rewrite <- app_assoc. cbn [app]. rewrite <- app_assoc.
    assert (tokens_ok [op_token RPAREN; eof]) as Hend by (repeat (apply Forall_cons; split; [split; done|]); done).
    rewrite (render_reads env Henv a Ha CALL); [|done|done|split; done|].
    2: { apply Forall_cons. split; [split; done|]. apply Forall_app. split; [by apply render_ok|done]. }
    rewrite Hva. cbn [resume]. rewrite parse_infix_op; [|done|done|done|exact (eval_range env Henv a s va s1 Ha Hva)|].
    2: { apply Forall_cons. split; [split; done|]. apply Forall_app. split; [by apply render_ok|done]. }
    change (GetPrecedence (token_type (op_token LPAREN))) with CALL.
    rewrite (render_reads env Henv b Hb CALL); [|done|done|split; done|done].
    rewrite Hvb. cbn [resume]. by rewrite parse_infix_stop. }
  rewrite (Parse_erased env Henv _ _ _ _ E Hts); rewrite ?R; [done| |done].
  unfold ts. rewrite <- app_assoc. apply head_nonempty.
Qed.

(** A decimal number is read modulo 2^32: [std::stoul] refuses only what
    does not fit 64 bits. *)
Theorem Parse_number `{!Boost} {St} (env : Environment St) (n : Z) (s : St) (Henv : env_ok env) (Hn : 0 ≤ n) :
  Parse env (fmt_u n) s = if n <? 2 ^ 64 then Value (u32 n) s else Error "Number is out of range"%bs s.
Proof.
  destruct (number_reads n [] 0 Hn I) as (c & word & E & Hs & R). rewrite app_nil_r in R.
  assert ((ULONG_MAX <? n) = negb (n <? 2 ^ 64)) as Hmax by (unfold ULONG_MAX; lia). rewrite Hmax in R.
  destruct (n <? 2 ^ 64); cbn [negb] in R.
  - assert (Tokenize (fmt_u n) = inl [MkToken INT (fmt_u n) (u32 n) 0; MkToken END_OF_FILE [] 0 (length (fmt_u n))]) as ET.
    { rewrite E in R. rewrite E. unfold Tokenize. change (tokens_at 0 (c :: word) = inl [MkToken INT (c :: word) (u32 n) 0; MkToken END_OF_FILE [] 0 (length (c :: word))]). rewrite (tokens_at_token _ _ _ _ _ Hs R). by rewrite drop_all. }
    assert (parse_expression env LOWEST [MkToken INT (fmt_u n) (u32 n) 0; eof] s = Val (u32 n) [eof] s) as EP.
    { rewrite parse_expression_cons;
        [|done|done|done|apply Forall_cons; split; [apply u32_range|apply Forall_singleton; split; done]].
      unfold ParsePrefix. cbn [token_type int_value pbind]. by rewrite parse_infix_stop. }
    rewrite (Parse_erased env Henv _ _ _ _ ET eq_refl); cbn [map erase token_type literal int_value]; fold eof; rewrite ?EP; [done|done|].
    by intros ? ? ? [= _ <- _].
  - assert (Tokenize (fmt_u n) = inr "Number is out of range"%bs) as ET.
    { rewrite E. unfold Tokenize. cbn [length tokenize_loop]. by rewrite Hs, R. }
    unfold Parse. by rewrite ET.
Qed.

(** ** What the reader keeps

    Parsing changes the state of the reader only by reading. *)

Section Keeps.
Context `{!Boost} {St : Type} (env : Environment St) (I : St → Prop).
Context (Hreader : ∀ reader, memory_reader_ env = Some reader →
  ∀ addr size s r s', reader addr size s = Some (r, s') → I s → I s').

Definition kept (r : presult St) : Prop := match r with Val _ _ s | Err _ s => I s | _ => True end.

Lemma kept_bind r f : kept r → (∀ v ts s, I s → kept (f v ts s)) → kept (pbind r f).
Proof. destruct r; cbn; auto. Qed.

Lemma kept_expect type e ts s k : I s → (∀ ts, kept (k ts)) → kept (expect type e ts s k).
Proof. intros. unfold expect. by destruct (decide _). Qed.

Lemma kept_perform_read addr size ts s : I s → kept (perform_read env addr size ts s).
Proof.
  intros Hs. unfold perform_read. destruct (memory_reader_ env) as [reader|] eqn:E; [|done].
  destruct (4 <? size); [done|]. destruct (reader addr size s) as [[[data|e] s']|] eqn:R; [|by eapply Hreader|done].
  eapply Hreader in R; [|done..]. by destruct (negb _).
Qed.

Lemma kept_infix_value op l r ts s : I s → kept (infix_value op l r ts s).
Proof. intros. unfold infix_value. by destruct (token_type op). Qed.

Lemma kept_ParsePrefix rec token ts s :
  (∀ p ts s, I s → kept (rec p ts s)) → I s → kept (ParsePrefix env rec token ts s).
Proof.
  intros Hrec Hs. unfold ParsePrefix. destruct (token_type token); try done.
  - destruct (decide _); [|done]. by destruct (thread_id_ env).
  - by destruct (ResolveRegisterValue _ _).
  - destruct (decide _); (apply kept_bind; [by apply Hrec|]); intros v ts1 s1 H1; destruct (decide _);
      repeat first [ apply kept_perform_read; assumption | apply kept_expect; [assumption|intros ?]
                   | apply kept_bind; [by apply Hrec|intros ? ? ? ?] ].
  - apply kept_bind; [by apply Hrec|]. intros v ts1 s1 H1. by apply kept_expect.
Qed.

Lemma kept_fuel fuel :
  (∀ p ts s, I s → kept (ParseExpression env fuel p ts s)) ∧
  (∀ p l ts s, I s → kept (infix_loop env fuel p l ts s)).
Proof.
  induction fuel as [|fuel [IHe IHl]]; [done|]. split.
  - intros p ts s Hs. cbn -[ParsePrefix]. destruct (decide _); [done|].
    apply kept_bind; [by apply kept_ParsePrefix|]. auto.
  - intros p l ts s Hs. cbn -[infix_value]. destruct (p <? _); [|done].
    apply kept_bind; [by apply IHe|]. intros r ts1 s1 H1. apply kept_bind; [by apply kept_infix_value|]. auto.
Qed.

Lemma Parse_keeps text s :
  I s → match Parse env text s with Value _ s' | Error _ s' => I s' | _ => True end.
Proof.
  intros Hs. unfold Parse. destruct (Tokenize text) as [ts|]; [|done]. destruct (decide _); [done|].
  pose proof (proj1 (kept_fuel (enough ts)) LOWEST ts s Hs) as Hk.
  destruct (ParseExpression env (enough ts) LOWEST ts s); try done. by destruct (decide _).
Qed.
End Keeps.

(** ** Examples *)

(** The state counts the reads. *)
Definition example_memory : Z → Z → nat → option ((bytes + bytes) * nat) :=
  λ addr size n, Some
    (if decide (addr = 4096) then inl (take (Z.to_nat size) [byte_of 120; byte_of 86; byte_of 52; byte_of 18])
     else inr "no memory"%bs, S n).

Definition example_env : Environment nat :=
  MkEnv (MkContext None None None None (Some (-1)) None None None None None None) (Some 28) (Some example_memory).

(** [@($eax + 4097, 2) * (tid - 1)] *)
Definition example_expr : expr :=
  Binary ASTERISK (LoadSized (Binary PLUS (Register "eax"%bs) (Number 4097)) (Number 2))
    (Binary MINUS ThreadId (Number 1)).

Example example_text :
  show example_expr = "@ ( $eax + 4097 , 2 ) * ( tid - 1 ) "%bs.
Proof. reflexivity. Qed.

(** [1 + 2 * 3] and [1 || 0 && 0] need no parentheses, and [1 - (2 - 3)] does. *)
Example example_order :
  let B := Boost_reference.boost_reference in
  map (λ e, (show e, Parse example_env (show e) 0%nat))
    [Binary PLUS (Number 1) (Binary ASTERISK (Number 2) (Number 3));
     Binary OR (Number 1) (Binary AND (Number 0) (Number 0));
     Binary MINUS (Number 1) (Binary MINUS (Number 2) (Number 3))]
  = [("1 + 2 * 3 "%bs, Value 7 0%nat); ("1 || 0 && 0 "%bs, Value 1 0%nat); ("1 - ( 2 - 3 ) "%bs, Value 2 0%nat)].
Proof. reflexivity. Qed.

Lemma Parse_total_witness :
  let B := Boost_reference.boost_reference in
  Parse example_env "1 +"%bs 0%nat ≠ NoFuel ∧ (∀ v s, Parse example_env "1 +"%bs 0%nat = Value v s → is_u32 v).
Proof. apply (@Parse_total Boost_reference.boost_reference _ example_env). cbn. unfold is_u32. lia. Defined.

Lemma Parse_show_witness :
  let B := Boost_reference.boost_reference in
  Parse example_env (show example_expr) 0%nat = Value (22136 * 27) 1%nat.
Proof.
  refine (@Parse_show Boost_reference.boost_reference Boost_reference.boost_reference_laws nat example_env example_expr 0%nat _ _).
  - cbn. unfold is_u32. lia.
  - cbn. unfold is_u32. split_and!; try lia; try done. repeat constructor.
Defined.

Lemma Parse_call_asserts_witness :
  let B := Boost_reference.boost_reference in
  Parse example_env (operand_text (Register "eax"%bs) ++ "( "%bs ++ operand_text (Number 4) ++ ") "%bs) 0%nat
  = AssertionFailure.
Proof.
  refine (@Parse_call_asserts Boost_reference.boost_reference Boost_reference.boost_reference_laws nat example_env
    (Register "eax"%bs) (Number 4) (2 ^ 32 - 1) 4 0%nat 0%nat 0%nat _ _ _ eq_refl eq_refl).
  - cbn. unfold is_u32. lia.
  - cbn. split; [done|]. repeat constructor.
  - cbn. unfold is_u32. lia.
Defined.

Lemma Parse_number_witness :
  let B := Boost_reference.boost_reference in
  Parse example_env "4294967297"%bs 0%nat = Value 1 0%nat.
Proof.
  refine (@Parse_number Boost_reference.boost_reference nat example_env 4294967297 0%nat _ _); [|lia].
  cbn. unfold is_u32. lia.
Defined.

(** The parser the shell hands to [ArgParser], for a reader that changes
    nothing; a build without assertions reports an unhandled operator, which
    only an opening parenthesis is. *)
Definition expression_parser `{!Boost} (env : Environment unit) : Parsing.ExpressionParser := λ text,
  match Parse env text tt with
  | Value v _ => inl v
  | Error e _ => inr e
  | AssertionFailure | NoFuel => inr "Internal parser error: unhandled operator ("%bs
  end.
