(* ===== verification/Notifications.v ===== *)
(** * Notifications (src/notification/xbdm_notification.h, .cpp)

    What the debug monitor reports on its own: the notification classes with
    their constructors, the choice between them by prefix, and the registry of
    custom constructors.  [C] is the type of custom notifications. *)

From S2P Require Import Prelude CLib Boost Parsing RdcpResponse RdcpMaps RdcpTypes.

(** [NotificationWatchpoint::AccessType] *)
Inductive AccessType := AT_INVALID | AT_READ | AT_WRITE | AT_EXECUTE.

#[global] Instance AccessType_eq_decision : EqDecision AccessType.
Proof. solve_decision. Defined.

Record DebugStr := MkDebugStr {
  thread_id : Z;
  text : bytes;
  termination : bytes;
  is_terminated : bool
}.

(** The subclasses of [XBDMNotification], with their members in order. *)
Inductive Notification (C : Type) :=
  | NotificationVX (message : bytes)
  | NotificationDebugStr (d : DebugStr)
  | NotificationModuleLoaded (module : Module_)
  | NotificationSectionLoaded (section : Section_)
  | NotificationSectionUnloaded (section : Section_)
  | NotificationThreadCreated (thread_id start_address : Z)
  | NotificationThreadTerminated (thread_id : Z)
  | NotificationExecutionStateChanged (state : ExecutionState)
  | NotificationBreakpoint (thread_id address : Z) (flags : gset bytes)
  | NotificationWatchpoint (type : AccessType) (thread_id address watched_address : Z)
      (should_break : bool) (flags : gset bytes)
  | NotificationSingleStep (thread_id address : Z)
  | NotificationException (code thread_id address read : Z) (flags : gset bytes)
  | Custom (c : C).

Arguments NotificationVX {C}. Arguments NotificationDebugStr {C}. Arguments NotificationModuleLoaded {C}.
Arguments NotificationSectionLoaded {C}. Arguments NotificationSectionUnloaded {C}.
Arguments NotificationThreadCreated {C}. Arguments NotificationThreadTerminated {C}.
Arguments NotificationExecutionStateChanged {C}. Arguments NotificationBreakpoint {C}.
Arguments NotificationWatchpoint {C}. Arguments NotificationSingleStep {C}.
Arguments NotificationException {C}. Arguments Custom {C}.

(** What looking at a message comes to: a notification, the null pointer, an
    exception, or an access outside the receive buffer. *)
Inductive outcome (C : Type) := Parsed (n : Notification C) | Unhandled | Threw | OutOfBounds.
Arguments Parsed {C}. Arguments Unhandled {C}. Arguments Threw {C}. Arguments OutOfBounds {C}.

(** ** Debug strings *)

(** [pat] at the front of [s], and what follows it. *)
Definition strip_prefix (pat s : bytes) : option bytes :=
  if starts_with pat s then Some (drop (length pat) s) else None.

(** [.] matches anything but a line terminator. *)
Definition dots (s : bytes) : bool := forallb (λ c, negb (bool_decide (c = Byte.x0a)) && negb (bool_decide (c = Byte.x0d))) s.

(** Blanks, [string=], and the rest of the text as the last group. *)
Definition match_string (s : bytes) : option bytes :=
  text ← strip_prefix "string="%bs (span isspace s).2;
  if dots text then Some text else None.

(** [std::regex_match]: [thread=], digits, blanks, an optional [lf], [cr] or
    [crlf], and [match_string].  The alternatives are tried in order, the absent
    group last; the repetitions before them match in one way only. *)
Definition notification_regex (s : bytes) : option (bytes * bytes * bytes) :=
  s1 ← strip_prefix "thread="%bs s;
  let '(digits, s2) := span isdigit s1 in
  if decide (digits = []) then None
  else
    let '(blanks, s3) := span isspace s2 in
    if decide (blanks = []) then None
    else
      let try group := s4 ← strip_prefix group s3; text ← match_string s4; Some (digits, group, text) in
      match try "lf"%bs with
      | Some m => Some m
      | None =>
        match try "cr"%bs with
        | Some m => Some m
        | None => match try "crlf"%bs with Some m => Some m | None => try [] end
        end
      end.

Definition LF : byte := Byte.x0a.

Definition NotificationDebugStr_of (buffer : bytes) : DebugStr :=
  match notification_regex buffer with
  | None => MkDebugStr (-1) [] [LF] true
  | Some (digits, group, text) =>
    let termination :=
      if decide (group = "lf"%bs) then [LF]
      else if decide (group = "cr"%bs) then [CR]
      else if decide (group = "crlf"%bs) then [CR; LF]
      else [] in
    MkDebugStr (ParseInt32 digits) text termination (negb (bool_decide (termination = [])))
  end.

(** [customNotificationConstructors], by prefix. *)
Abbreviation registry C := (gmap bytes (bytes → outcome C)).

(** ** The other classes *)

Section Constructors.
Context `{!Boost} {C : Type}.

Definition NotificationThreadCreated_of (parsed : RDCPMapResponse) : Notification C :=
  NotificationThreadCreated (GetDWORD "thread"%bs 0 parsed) (u32 (GetDWORD "start"%bs 0 parsed)).

Definition NotificationThreadTerminated_of (parsed : RDCPMapResponse) : Notification C :=
  NotificationThreadTerminated (GetDWORD "thread"%bs 0 parsed).

Definition NotificationExecutionStateChanged_of (parsed : RDCPMapResponse) : Notification C :=
  NotificationExecutionStateChanged
    (if HasKey "stopped"%bs parsed then S_STOPPED
     else if HasKey "started"%bs parsed then S_STARTED
     else if HasKey "rebooting"%bs parsed then S_REBOOTING
     else if HasKey "pending"%bs parsed then S_PENDING
     else S_INVALID).

Definition NotificationBreakpoint_of (parsed : RDCPMapResponse) : Notification C :=
  NotificationBreakpoint (GetDWORD "thread"%bs 0 parsed) (GetUInt32 "addr"%bs 0 parsed) (valueless_keys parsed).

Definition NotificationWatchpoint_of (parsed : RDCPMapResponse) : Notification C :=
  let '(type, watched_address) :=
    if HasKey "read"%bs parsed then (AT_READ, GetUInt32 "read"%bs 0 parsed)
    else if HasKey "write"%bs parsed then (AT_WRITE, GetUInt32 "write"%bs 0 parsed)
    else if HasKey "execute"%bs parsed then (AT_EXECUTE, GetUInt32 "execute"%bs 0 parsed)
    else (AT_INVALID, 0) in
  let flags := valueless_keys parsed in
  NotificationWatchpoint type (GetDWORD "thread"%bs 0 parsed) (GetUInt32 "addr"%bs 0 parsed) watched_address
    (bool_decide ("stop"%bs ∈ flags)) (flags ∖ {["stop"%bs]}).

Definition NotificationSingleStep_of (parsed : RDCPMapResponse) : Notification C :=
  NotificationSingleStep (GetDWORD "thread"%bs 0 parsed) (GetUInt32 "addr"%bs 0 parsed).

Definition NotificationException_of (parsed : RDCPMapResponse) : Notification C :=
  NotificationException (u32 (GetDWORD "code"%bs 0 parsed)) (GetDWORD "thread"%bs 0 parsed)
    (GetUInt32 "address"%bs 0 parsed) (GetUInt32 "read"%bs 0 parsed) (valueless_keys parsed).

(** [RDCPMapResponse parsed(buffer_start, buffer_end)] may throw. *)
Definition from_map (make : RDCPMapResponse → Notification C) (body : bytes) : outcome C :=
  match RDCPMapResponse_of body with
  | None => Threw
  | Some parsed => Parsed (make parsed)
  end.

(** The [SETIF] lines, in order. *)
Definition constructors : list (bytes * (bytes → outcome C)) :=
  [("vx!"%bs, λ body, Parsed (NotificationVX body));
   ("debugstr "%bs, λ body, Parsed (NotificationDebugStr (NotificationDebugStr_of body)));
   ("modload "%bs, from_map (λ parsed, NotificationModuleLoaded (module_of_map parsed)));
   ("sectload "%bs, from_map (λ parsed, NotificationSectionLoaded (section_of_map parsed)));
   ("sectunload "%bs, from_map (λ parsed, NotificationSectionUnloaded (section_of_map parsed)));
   ("create "%bs, from_map NotificationThreadCreated_of);
   ("terminate "%bs, from_map NotificationThreadTerminated_of);
   ("execution "%bs, from_map NotificationExecutionStateChanged_of);
   ("break "%bs, from_map NotificationBreakpoint_of);
   ("data "%bs, from_map NotificationWatchpoint_of);
   ("singlestep "%bs, from_map NotificationSingleStep_of);
   ("exception "%bs, from_map NotificationException_of)].

(** [StartsWith], with the comparison of the lengths. *)
Definition StartsWith (buffer prefix : bytes) : bool :=
  if (length buffer <? length prefix)%nat then false else bool_decide (take (length prefix) buffer = prefix).

Fixpoint find_constructor (cs : list (bytes * (bytes → outcome C))) (message : bytes)
  : option (bytes → outcome C) * nat :=
  match cs with
  | [] => (None, 0%nat)
  | (prefix, make) :: cs' =>
    if StartsWith message prefix then (Some make, length prefix) else find_constructor cs' message
  end.

(** ** Custom notifications *)

Definition RegisterXBDMNotificationConstructor (prefix : bytes) (constructor : bytes → outcome C) (r : registry C)
  : bool * registry C :=
  match r !! prefix with
  | Some _ => (false, r)
  | None => (true, <[prefix := constructor]> r)
  end.

Definition UnregisterXBDMNotificationConstructor (prefix : bytes) (r : registry C) : bool * registry C :=
  match r !! prefix with
  | None => (false, r)
  | Some _ => (true, delete prefix r)
  end.

(** [strchr(buffer, '!')] on the message and what follows it in the receive
    buffer: the offset found, [None] at a NUL, [OutOfBounds] past the end. *)
Fixpoint strchr_bang (buffer : bytes) : option (option nat) :=
  match buffer with
  | [] => None
  | c :: buffer' =>
    if decide (c = "!"%byte) then Some (Some 0%nat)
    else if decide (c = NUL) then Some None
    else option_map (option_map S) (strchr_bang buffer')
  end.

(** [after] is what the receive buffer holds behind the message. *)
Definition ParseXBDMNotification (custom : registry C) (message after : bytes) : outcome C :=
  match find_constructor constructors message with
  | (Some make, n) => make (drop n message)
  | (None, _) =>
    match strchr_bang (message ++ after) with
    | None => OutOfBounds
    | Some None => Unhandled
    | Some (Some delimiter) =>
      match custom !! take delimiter (message ++ after) with
      | None => Unhandled
      | Some make =>
        if (delimiter <? length message)%nat then make (drop (S delimiter) message) else OutOfBounds
      end
    end
  end.
End Constructors.

(** ** What the debug monitor sends *)

(** The events it announces, as one line each; a thread is named in decimal and
    an address in hexadecimal. *)
Inductive event :=
  | ThreadCreated (thread start : Z)
  | ThreadTerminated (thread : Z)
  | StateChanged (flag : bytes) (state : ExecutionState)
  | Break (thread address : Z) (flags : list bytes)
  | Watch (type : AccessType) (thread address watched : Z) (flags : list bytes)
  | SingleStep (thread address : Z)
  | Exception (code thread address read : Z) (flags : list bytes)
  | Print (thread : Z) (ending : bytes) (text : bytes).

Definition access_key (type : AccessType) : bytes :=
  match type with AT_READ => "read"%bs | AT_WRITE => "write"%bs | _ => "execute"%bs end.

Definition thread_entry (thread : Z) : entry := Pair "thread"%bs (fmt_u thread).
Definition hex_entry (key : bytes) (z : Z) : entry := Pair key (hex_text z).

Definition ending_text (ending : bytes) : bytes := if decide (ending = []) then [] else ending ++ [space].

(** The command word and the entries of an event announced as entries. *)
Definition event_entries (e : event) : bytes * list entry :=
  match e with
  | ThreadCreated t s => ("create "%bs, [thread_entry t; hex_entry "start"%bs s])
  | ThreadTerminated t => ("terminate "%bs, [thread_entry t])
  | StateChanged flag _ => ("execution "%bs, [Flag flag])
  | Break t a flags => ("break "%bs, hex_entry "addr"%bs a :: thread_entry t :: map Flag flags)
  | Watch type t a w flags =>
    ("data "%bs, hex_entry (access_key type) w :: hex_entry "addr"%bs a :: thread_entry t :: map Flag flags)
  | SingleStep t a => ("singlestep "%bs, [hex_entry "addr"%bs a; thread_entry t])
  | Exception c t a r flags =>
    ("exception "%bs, hex_entry "code"%bs c :: thread_entry t :: hex_entry "address"%bs a :: hex_entry "read"%bs r :: map Flag flags)
  | Print _ _ _ => ([], [])
  end.

Definition announce (e : event) : bytes :=
  match e with
  | Print t ending text => "debugstr thread="%bs ++ fmt_u t ++ [space] ++ ending_text ending ++ "string="%bs ++ text
  | _ => (event_entries e).1 ++ line_of (event_entries e).2
  end.

Definition notification_of {C} (e : event) : Notification C :=
  match e with
  | ThreadCreated t s => NotificationThreadCreated t s
  | ThreadTerminated t => NotificationThreadTerminated t
  | StateChanged _ s => NotificationExecutionStateChanged s
  | Break t a flags => NotificationBreakpoint t a (list_to_set flags)
  | Watch type t a w flags =>
    NotificationWatchpoint type t a w (bool_decide ("stop"%bs ∈ flags)) (list_to_set flags ∖ {["stop"%bs]})
  | SingleStep t a => NotificationSingleStep t a
  | Exception c t a r flags => NotificationException c t a r (list_to_set flags)
  | Print t ending text =>
    let termination := if decide (ending = "lf"%bs) then [LF] else if decide (ending = "cr"%bs) then [CR]
                       else if decide (ending = "crlf"%bs) then [CR; LF] else [] in
    NotificationDebugStr (MkDebugStr t text termination (negb (bool_decide (termination = []))))
  end.

(** The keys the constructors look for. *)
Definition reserved : list bytes :=
  ["thread"%bs; "start"%bs; "addr"%bs; "read"%bs; "write"%bs; "execute"%bs; "code"%bs; "address"%bs].

Definition flag_ok (f : bytes) : Prop := key_ok f ∧ map tolower f = f ∧ f ∉ reserved.

#[global] Instance flag_ok_dec f : Decision (flag_ok f).
Proof. unfold flag_ok. apply _. Defined.

Definition thread_ok (t : Z) : Prop := 0 ≤ t < 2 ^ 31.

Definition event_ok (e : event) : Prop :=
  match e with
  | ThreadCreated t s => thread_ok t ∧ is_u32 s
  | ThreadTerminated t => thread_ok t
  | StateChanged flag s =>
    (flag, s) ∈ [("stopped"%bs, S_STOPPED); ("started"%bs, S_STARTED); ("rebooting"%bs, S_REBOOTING); ("pending"%bs, S_PENDING)]
  | Break t a flags => thread_ok t ∧ is_u32 a ∧ Forall flag_ok flags
  | Watch type t a w flags => type ≠ AT_INVALID ∧ thread_ok t ∧ is_u32 a ∧ is_u32 w ∧ Forall flag_ok flags
  | SingleStep t a => thread_ok t ∧ is_u32 a
  | Exception c t a r flags => is_u32 c ∧ thread_ok t ∧ is_u32 a ∧ is_u32 r ∧ Forall flag_ok flags
  | Print t ending text => thread_ok t ∧ ending ∈ ["lf"%bs; "cr"%bs; "crlf"%bs; []] ∧ dots text = true
  end.

(** *** Entries *)

Lemma fmt_u_class c n : 0 ≤ n → c ∈ fmt_u n → isdigit c = true ∧ isspace c = false ∧ c ≠ NUL ∧ isxdigit c = true.
Proof.
  intros Hn Hin. pose proof (print_base_digits false 10 n ltac:(lia) Hn) as Hd.
  rewrite Forall_forall in Hd. specialize (Hd c Hin). apply Is_true_true in Hd.
  split; [revert Hd; clear; byte_cases c|]. apply (digit_class 10) in Hd; [|lia]. naive_solver.
Qed.

Lemma fmt_u_misses c n : 0 ≤ n → isdigit c = false → c ∉ fmt_u n.
Proof. intros Hn Hc Hin. destruct (fmt_u_class c n Hn Hin). congruence. Qed.

Lemma thread_entry_ok t : thread_ok t → entry_ok (thread_entry t).
Proof.
  intros [Ht _]. split; [apply (bool_decide_unpack _); vm_compute; exact I|].
  unfold plain_text. split_and!; by apply fmt_u_misses.
Qed.

Lemma hex_entry_ok' key z : key_ok key → entry_ok (hex_entry key z).
Proof. intros Hk. split; [done|]. apply hex_text_ok. Qed.

Lemma flags_ok flags : Forall flag_ok flags → Forall entry_ok (map Flag flags).
Proof. intros Hf. apply Forall_map, (Forall_impl _ _ _ Hf). by intros f [? _]. Qed.

Lemma StartsWith_starts message prefix : StartsWith message prefix = starts_with prefix message.
Proof.
  unfold StartsWith, starts_with. destruct (Nat.ltb_spec (length message) (length prefix)); [|done].
  symmetry. apply bool_decide_eq_false. intros E. apply (f_equal length) in E. rewrite length_take in E. lia.
Qed.

Lemma constructor_hit {C} prefix make (cs : list (bytes * (bytes → outcome C))) body :
  find_constructor ((prefix, make) :: cs) (prefix ++ body) = (Some make, length prefix).
Proof. cbn [find_constructor]. by rewrite StartsWith_starts, starts_with_app. Qed.

Lemma constructor_miss {C} prefix make (cs : list (bytes * (bytes → outcome C))) message :
  starts_with prefix message = false →
  find_constructor ((prefix, make) :: cs) message = find_constructor cs message.
Proof. intros H. cbn [find_constructor]. by rewrite StartsWith_starts, H. Qed.

(** Each prefix selects its own constructor. *)
Ltac select_constructor :=
  unfold ParseXBDMNotification, constructors;
  repeat (rewrite constructor_miss by reflexivity); rewrite constructor_hit, drop_app_length.

Section Reading.
Context `{HB : !BoostLaws B}.

Lemma to_lower_flag f : flag_ok f → to_lower_copy f = f.
Proof. intros (_ & H & _). by rewrite to_lower_copy_spec. Qed.

(** Flags leave the reserved keys alone and are all recorded. *)
Lemma flags_lookup flags key r :
  Forall flag_ok flags → key ∉ flags →
  rmap (fold_left insert_entry (map Flag flags) r) !! key = rmap r !! key.
Proof.
  intros Hf. revert r. induction Hf as [|f flags Hf Hfs IH]; intros r Hk; [done|].
  apply not_elem_of_cons in Hk as [Hne Hk]. cbn. rewrite IH by done. cbn.
  rewrite to_lower_flag by done. by rewrite lookup_insert_ne.
Qed.

Lemma flags_set flags r :
  Forall flag_ok flags →
  valueless_keys (fold_left insert_entry (map Flag flags) r) = valueless_keys r ∪ list_to_set flags.
Proof.
  intros Hf. revert r. induction Hf as [|f flags Hf Hfs IH]; intros r; cbn; [set_solver|].
  rewrite IH. cbn. rewrite to_lower_flag by done. set_solver.
Qed.

Lemma reserved_not_flag flags key : Forall flag_ok flags → key ∈ reserved → key ∉ flags.
Proof. intros Hf Hk Hin. rewrite Forall_forall in Hf. by destruct (Hf _ Hin) as (_ & _ & ?). Qed.

(** The map of [pairs] followed by [flags], looked up at a reserved key. *)
Lemma entries_lookup pairs flags key :
  Forall flag_ok flags → key ∈ reserved →
  lookup_key key (entries_map (pairs ++ map Flag flags)) = rmap (entries_map pairs) !! key.
Proof.
  intros Hf Hk. unfold lookup_key, entries_map. rewrite fold_left_app.
  assert (to_lower_copy key = key) as ->.
  { rewrite to_lower_copy_spec. repeat (apply elem_of_cons in Hk as [->|Hk]; [reflexivity|]). by apply elem_of_nil in Hk. }
  apply flags_lookup; [done|]. by apply reserved_not_flag.
Qed.

Lemma thread_value t : thread_ok t → i32 (ParseUint32 (fmt_u t)) = t.
Proof.
  intros Ht. unfold thread_ok in Ht. rewrite (MaybeParseUint32_ParseUint32 _ t).
  - apply i32_id. unfold is_i32. lia.
  - apply MaybeParseUint32_dec. unfold is_u32. lia.
Qed.

Lemma hex_value z : is_u32 z → ParseUint32 (hex_text z) = z.
Proof. intros Hz. rewrite ParseUint32_hex_text. by apply u32_id. Qed.

Lemma from_map_entries {C} (make : RDCPMapResponse → Notification C) es :
  Forall entry_ok es → line_of es ≠ [] → from_map make (line_of es) = Parsed (make (entries_map es)).
Proof. intros Hok Hne. unfold from_map. by rewrite map_response_line. Qed.

Lemma line_of_pair k v es : line_of (Pair k v :: es) ≠ [].
Proof.
  unfold line_of. cbn [map]. destruct (map _ es); unfold field_image; cbn; intros H;
    repeat apply app_nil in H as [H ?]; by destruct k.
Qed.

(** Reading the members. *)
Lemma get_thread flags pairs t :
  Forall flag_ok flags → thread_ok t → rmap (entries_map pairs) !! "thread"%bs = Some (fmt_u t) →
  GetDWORD "thread"%bs 0 (entries_map (pairs ++ map Flag flags)) = t.
Proof.
  intros Hf Ht Hl. unfold GetDWORD. rewrite entries_lookup, Hl by (done || set_solver). by apply thread_value.
Qed.

Lemma get_hex key flags pairs z :
  Forall flag_ok flags → is_u32 z → key ∈ reserved → rmap (entries_map pairs) !! key = Some (hex_text z) →
  GetUInt32 key 0 (entries_map (pairs ++ map Flag flags)) = z.
Proof. intros Hf Hz Hk Hl. unfold GetUInt32. rewrite entries_lookup, Hl by done. by apply hex_value. Qed.

Lemma get_hex_signed key flags pairs z :
  Forall flag_ok flags → is_u32 z → key ∈ reserved → rmap (entries_map pairs) !! key = Some (hex_text z) →
  u32 (GetDWORD key 0 (entries_map (pairs ++ map Flag flags))) = z.
Proof.
  intros Hf Hz Hk Hl. unfold GetDWORD. rewrite entries_lookup, Hl by done. rewrite hex_value by done.
  rewrite u32_i32. by apply u32_id.
Qed.

Lemma get_flags flags pairs :
  Forall flag_ok flags → valueless_keys (entries_map pairs) = ∅ →
  valueless_keys (entries_map (pairs ++ map Flag flags)) = list_to_set flags.
Proof. intros Hf Hp. unfold entries_map. rewrite fold_left_app, flags_set by done. fold (entries_map pairs). set_solver. Qed.

Lemma has_reserved key flags pairs :
  Forall flag_ok flags → key ∈ reserved →
  HasKey key (entries_map (pairs ++ map Flag flags)) = bool_decide (is_Some (rmap (entries_map pairs) !! key)).
Proof. intros Hf Hk. unfold HasKey. by rewrite entries_lookup. Qed.

(** The map of concrete keys. *)
Ltac concrete_map :=
  unfold entries_map; cbn [fold_left insert_entry rmap valueless_keys hex_entry thread_entry access_key];
  rewrite ?to_lower_copy_spec; first [reflexivity | by simplify_map_eq].

Lemma announced_entries (e : event) : event_ok e → (∀ t d x, e ≠ Print t d x) →
  Forall entry_ok (event_entries e).2 ∧ line_of (event_entries e).2 ≠ [].
Proof.
  assert (∀ k, bool_decide (key_ok k) = true → key_ok k) as Hk by (intros k; apply bool_decide_eq_true).
  destruct e; cbn [event_ok event_entries snd]; intros Hok Hp;
    try (split; [repeat (apply Forall_cons; split); try apply Forall_nil; try done;
           first [apply thread_entry_ok; naive_solver | apply hex_entry_ok', Hk; reflexivity | apply flags_ok; naive_solver]
         |apply line_of_pair]).
  - repeat (apply elem_of_cons in Hok as [[= -> ->]|Hok]; [split; [|done]; apply Forall_singleton, Hk; reflexivity|]).
    by apply elem_of_nil in Hok.
  - split; [|apply line_of_pair].
    apply Forall_cons; split; [destruct type; apply hex_entry_ok', Hk; reflexivity|].
    repeat (apply Forall_cons; split); first [apply thread_entry_ok; naive_solver | apply hex_entry_ok', Hk; reflexivity | apply flags_ok; naive_solver].
  - by destruct (Hp thread ending text0).
Qed.

Lemma read_created {C} t s : thread_ok t → is_u32 s →
  NotificationThreadCreated_of (C:=C) (entries_map (event_entries (ThreadCreated t s)).2) = NotificationThreadCreated t s.
Proof.
  intros Ht Hs. unfold NotificationThreadCreated_of. cbn [event_entries snd].
  change [thread_entry t; hex_entry "start"%bs s] with ([thread_entry t; hex_entry "start"%bs s] ++ map Flag []).
  rewrite (get_thread [] _ t), (get_hex_signed _ [] _ s);
    first [done | set_solver | concrete_map].
Qed.

Lemma read_terminated {C} t : thread_ok t →
  NotificationThreadTerminated_of (C:=C) (entries_map (event_entries (ThreadTerminated t)).2) = NotificationThreadTerminated t.
Proof.
  intros Ht. unfold NotificationThreadTerminated_of. cbn [event_entries snd].
  change [thread_entry t] with ([thread_entry t] ++ map Flag []). rewrite (get_thread [] _ t); first [done | concrete_map].
Qed.

Lemma read_break {C} t a flags : thread_ok t → is_u32 a → Forall flag_ok flags →
  NotificationBreakpoint_of (C:=C) (entries_map (event_entries (Break t a flags)).2)
  = NotificationBreakpoint t a (list_to_set flags).
Proof.
  intros Ht Ha Hf. unfold NotificationBreakpoint_of. cbn [event_entries snd].
  change (hex_entry "addr"%bs a :: thread_entry t :: map Flag flags)
    with ([hex_entry "addr"%bs a; thread_entry t] ++ map Flag flags).
  rewrite (get_thread flags _ t), (get_hex _ flags _ a), get_flags; first [done | set_solver | concrete_map].
Qed.

Lemma read_single_step {C} t a : thread_ok t → is_u32 a →
  NotificationSingleStep_of (C:=C) (entries_map (event_entries (SingleStep t a)).2) = NotificationSingleStep t a.
Proof.
  intros Ht Ha. unfold NotificationSingleStep_of. cbn [event_entries snd].
  change [hex_entry "addr"%bs a; thread_entry t] with ([hex_entry "addr"%bs a; thread_entry t] ++ map Flag []).
  rewrite (get_thread [] _ t), (get_hex _ [] _ a);
    first [done | set_solver | concrete_map].
Qed.

Lemma read_exception {C} c t a r flags :
  is_u32 c → thread_ok t → is_u32 a → is_u32 r → Forall flag_ok flags →
  NotificationException_of (C:=C) (entries_map (event_entries (Exception c t a r flags)).2)
  = NotificationException c t a r (list_to_set flags).
Proof.
  intros Hc Ht Ha Hr Hf. unfold NotificationException_of. cbn [event_entries snd].
  change (hex_entry "code"%bs c :: thread_entry t :: hex_entry "address"%bs a :: hex_entry "read"%bs r :: map Flag flags)
    with ([hex_entry "code"%bs c; thread_entry t; hex_entry "address"%bs a; hex_entry "read"%bs r] ++ map Flag flags).
  rewrite (get_hex_signed _ flags _ c), (get_thread flags _ t), (get_hex "address"%bs flags _ a), (get_hex "read"%bs flags _ r), get_flags;
    first [done | set_solver | concrete_map].
Qed.

Lemma read_watch {C} type t a w flags :
  type ≠ AT_INVALID → thread_ok t → is_u32 a → is_u32 w → Forall flag_ok flags →
  NotificationWatchpoint_of (C:=C) (entries_map (event_entries (Watch type t a w flags)).2)
  = NotificationWatchpoint type t a w (bool_decide ("stop"%bs ∈ flags)) (list_to_set flags ∖ {["stop"%bs]}).
Proof.
  intros Hty Ht Ha Hw Hf. unfold NotificationWatchpoint_of. cbn [event_entries snd].
  change (hex_entry (access_key type) w :: hex_entry "addr"%bs a :: thread_entry t :: map Flag flags)
    with ([hex_entry (access_key type) w; hex_entry "addr"%bs a; thread_entry t] ++ map Flag flags).
  assert (bool_decide ("stop"%bs ∈@{gset bytes} list_to_set flags) = bool_decide ("stop"%bs ∈ flags)) as Hstop
    by (apply bool_decide_ext; apply elem_of_list_to_set).
  rewrite (get_thread flags _ t), (get_hex "addr"%bs flags _ a), get_flags, Hstop by first [done | set_solver | destruct type; concrete_map].
  rewrite !has_reserved by (done || set_solver).
  assert (∀ key, key ≠ "addr"%bs → key ≠ "thread"%bs →
    bool_decide (is_Some (rmap (entries_map [hex_entry (access_key type) w; hex_entry "addr"%bs a; thread_entry t]) !! key))
    = bool_decide (key = access_key type)) as Hhas.
  { intros key H1 H2. apply bool_decide_ext. unfold entries_map, empty_response. cbn [fold_left insert_entry hex_entry thread_entry rmap].
    rewrite !to_lower_copy_spec. change (map tolower "thread"%bs) with "thread"%bs. change (map tolower "addr"%bs) with "addr"%bs.
    assert (map tolower (access_key type) = access_key type) as -> by (by destruct type).
    rewrite !lookup_insert_ne by congruence. destruct (decide (access_key type = key)) as [->|Hne].
    - rewrite lookup_insert_eq. naive_solver.
    - rewrite lookup_insert_ne by done. rewrite lookup_empty. split; [by intros [? ?]|congruence]. }
  rewrite !Hhas by discriminate.
  destruct type; try done; cbn [access_key]; rewrite ?bool_decide_eq_true_2 by done; rewrite ?bool_decide_eq_false_2 by done;
    erewrite get_hex; first [reflexivity | done | set_solver | concrete_map].
Qed.

Lemma read_state {C} flag s : event_ok (StateChanged flag s) →
  NotificationExecutionStateChanged_of (C:=C) (entries_map (event_entries (StateChanged flag s)).2)
  = NotificationExecutionStateChanged s.
Proof.
  intros H. cbn [event_ok] in H. unfold NotificationExecutionStateChanged_of, HasKey, lookup_key, entries_map.
  cbn [event_entries snd fold_left insert_entry rmap]. rewrite !to_lower_copy_spec.
  repeat (apply elem_of_cons in H as [[= -> ->]|H]; [by vm_compute|]). by apply elem_of_nil in H.
Qed.

(** *** Debug strings *)

Lemma strip_prefix_app pat s : strip_prefix pat (pat ++ s) = Some s.
Proof. unfold strip_prefix. by rewrite starts_with_app, drop_app_length. Qed.

Lemma read_print t ending text :
  event_ok (Print t ending text) →
  notification_regex ("thread="%bs ++ fmt_u t ++ [space] ++ ending_text ending ++ "string="%bs ++ text)
  = Some (fmt_u t, ending, text).
Proof.
  intros (Ht & He & Hdots). unfold notification_regex. rewrite strip_prefix_app. cbn [mbind option_bind].
  assert (Forall isdigit (fmt_u t)) as Hd.
  { apply Forall_forall. intros c Hc. apply fmt_u_class in Hc; [|apply Ht]. destruct Hc as [-> _]. done. }
  rewrite span_prefix by done. rewrite decide_False by apply print_base_nonempty.
  assert (∀ rest, match rest with [] => True | c :: _ => isspace c = false end →
    span isspace ([space] ++ rest) = ([space], rest)) as Hsp by (intros; apply span_prefix; [by repeat constructor|done]).
  assert (∀ blanks, Forall isspace blanks → match_string (blanks ++ "string="%bs ++ text) = Some text) as Hms.
  { intros blanks Hb. unfold match_string. rewrite span_prefix by done. cbn [snd].
    rewrite strip_prefix_app. cbn [mbind option_bind]. by rewrite Hdots. }
  repeat (apply elem_of_cons in He as [->|He]; [|]); [..|by apply elem_of_nil in He];
    unfold ending_text; first [rewrite decide_False by done | rewrite decide_True by done]; rewrite ?app_nil_l;
    rewrite Hsp by reflexivity; rewrite decide_False by done; rewrite <- ?app_assoc.
  - rewrite strip_prefix_app. cbn [mbind option_bind]. by rewrite Hms by (by repeat constructor).
  - change (strip_prefix "lf"%bs ("cr"%bs ++ ?l)) with (@None bytes). cbn [mbind option_bind].
    rewrite strip_prefix_app. cbn [mbind option_bind]. by rewrite Hms by (by repeat constructor).
  - change (strip_prefix "lf"%bs ("crlf"%bs ++ ?l)) with (@None bytes). cbn [mbind option_bind].
    change (strip_prefix "cr"%bs ("crlf"%bs ++ ?l)) with (Some ("lf"%bs ++ l)). cbn [mbind option_bind].
    change (match_string ("lf"%bs ++ ?l)) with (@None bytes). cbn [mbind option_bind].
    rewrite strip_prefix_app. cbn [mbind option_bind]. by rewrite Hms by (by repeat constructor).
  - change (strip_prefix "lf"%bs ("string="%bs ++ ?l)) with (@None bytes).
    change (strip_prefix "cr"%bs ("string="%bs ++ ?l)) with (@None bytes).
    change (strip_prefix "crlf"%bs ("string="%bs ++ ?l)) with (@None bytes). cbn [mbind option_bind].
    change (strip_prefix [] ?l) with (Some l). cbn [mbind option_bind].
    pose proof (Hms [] ltac:(constructor)) as E. rewrite app_nil_l in E. by rewrite E.
Qed.

Lemma fmt_u_int32 t : thread_ok t → ParseInt32 (fmt_u t) = t.
Proof.
  intros [Ht0 Ht]. unfold ParseInt32.
  pose proof (print_base_digits false 10 t ltac:(lia) Ht0) as Hd.
  pose proof (print_base_nonempty false 10 t) as Hne.
  fold (fmt_u t) in *. rewrite digits_base_10 by done.
  pose proof (scan_int_digits 10 (fmt_u t) [] ltac:(lia) Hd Hne I) as E. rewrite app_nil_r in E.
  unfold strtol. rewrite E. cbn [sc_neg sc_mag fst]. unfold fmt_u. rewrite print_base_value by lia.
  unfold LONG_MIN, LONG_MAX. rewrite i32_id; unfold is_i32; lia.
Qed.
End Reading.

Lemma notification_parsed `{HB : !BoostLaws B} {C} (custom : registry C) (e : event) (after : bytes) :
  event_ok e →
  ParseXBDMNotification custom (announce e) after = Parsed (notification_of e).
Proof.
  intros Hok.
  destruct e as [t s|t|flag s|t a flags|type t a w flags|t a|c t a r flags|t ending text].
  8: {
    unfold announce. change "debugstr thread="%bs with ("debugstr "%bs ++ "thread="%bs). rewrite <- app_assoc.
    select_constructor. unfold NotificationDebugStr_of. rewrite read_print by done.
    rewrite fmt_u_int32 by apply Hok. done. }
  all: destruct (announced_entries _ Hok) as [Hes Hne]; [done|]; unfold announce; cbn [event_entries fst];
    select_constructor; rewrite from_map_entries by done; f_equal; cbn [notification_of].
  - apply read_created; apply Hok.
  - by apply read_terminated.
  - by apply read_state.
  - apply read_break; apply Hok.
  - apply read_watch; apply Hok.
  - apply read_single_step; apply Hok.
  - apply read_exception; apply Hok.
Qed.

(** C35. Every event the debug monitor announces on a line is understood:
    thread creation and termination, execution state changes, breakpoints,
    watchpoints, single steps and exceptions, with their threads, addresses and
    flags (a watchpoint's [stop] flag moves to [should_break]), and debug
    strings with their line ending, whatever custom constructors are registered
    and whatever follows the message in the buffer. *)
Theorem notification_roundtrip `{HB : !BoostLaws B} {C} (custom : registry C) (e : event) (after : bytes)
  (Hok : event_ok e) :
  ParseXBDMNotification custom (announce e) after = Parsed (notification_of e).
Proof. by apply notification_parsed. Qed.

Definition example_event : event := Watch AT_WRITE 28 65540 2147549184 ["stop"%bs].

Lemma notification_roundtrip_witness :
  let B := Boost_reference.boost_reference in
  ParseXBDMNotification (C:=Empty_set) ∅ (announce example_event) kTerminator
  = Parsed (NotificationWatchpoint AT_WRITE 28 65540 2147549184 true ∅).
Proof.
  etransitivity.
  - apply (@notification_roundtrip Boost_reference.boost_reference Boost_reference.boost_reference_laws).
    cbn. unfold thread_ok, is_u32. split_and!; try lia; [done|].
    repeat constructor; apply (bool_decide_unpack _); vm_compute; exact I.
  - reflexivity.
Defined.

(** *** Messages of no known kind *)

Lemma find_constructor_extend {C} (cs : list (bytes * (bytes → outcome C))) message :
  Forall (λ c, starts_with c.1 message = false) cs → find_constructor cs message = (None, 0%nat).
Proof.
  induction 1 as [|[p make] cs Hp Hcs IH]; [done|]. rewrite constructor_miss; [done|]. exact Hp.
Qed.

Lemma strchr_bang_none s : "!"%byte ∉ s → NUL ∉ s → strchr_bang s = None.
Proof.
  induction s as [|c s IH]; [done|]. intros [H1 H2]%not_elem_of_cons [H3 H4]%not_elem_of_cons. cbn.
  by rewrite !decide_False, IH by congruence.
Qed.

(** A message that starts with none of the known prefixes is searched for
    an exclamation mark without regard to its length: when neither the message
    nor what was received after it holds one or a NUL, the search leaves the
    receive buffer. *)
Theorem unknown_notification_overruns `{!Boost} {C} (custom : registry C) (message after : bytes)
  (Hkind : Forall (λ c, starts_with c.1 message = false) (constructors (C:=C)))
  (Hbang : "!"%byte ∉ message ++ after) (Hnul : NUL ∉ message ++ after) :
  ParseXBDMNotification custom message after = OutOfBounds.
Proof.
  unfold ParseXBDMNotification. rewrite find_constructor_extend by done. by rewrite strchr_bang_none.
Qed.

Lemma unknown_notification_overruns_witness :
  let B := Boost_reference.boost_reference in
  ParseXBDMNotification (C:=Empty_set) ∅ "fileio open"%bs kTerminator = OutOfBounds.
Proof.
  apply (@unknown_notification_overruns Boost_reference.boost_reference).
  - unfold constructors. repeat (apply Forall_cons; split; [reflexivity|]). apply Forall_nil. exact I.
  - apply (bool_decide_unpack _); vm_compute; exact I.
  - apply (bool_decide_unpack _); vm_compute; exact I.
Defined.

(** *** The registry *)

(** Registering a custom constructor makes messages with its prefix and an
    exclamation mark go to it with the text behind the mark, a second
    registration of the prefix is refused and changes nothing, and
    unregistering restores the registry. *)
Theorem custom_notification `{!Boost} {C} (r : registry C) (prefix body after : bytes) (make make' : bytes → outcome C)
  (Hnew : r !! prefix = None) (Hbang : "!"%byte ∉ prefix) (Hnul : NUL ∉ prefix)
  (Hkind : Forall (λ c, starts_with c.1 (prefix ++ "!"%byte :: body) = false) (constructors (C:=C))) :
  let '(added, r1) := RegisterXBDMNotificationConstructor prefix make r in
  added = true
  ∧ ParseXBDMNotification r1 (prefix ++ "!"%byte :: body) after = make body
  ∧ RegisterXBDMNotificationConstructor prefix make' r1 = (false, r1)
  ∧ UnregisterXBDMNotificationConstructor prefix r1 = (true, r).
Proof.
  unfold RegisterXBDMNotificationConstructor, UnregisterXBDMNotificationConstructor. rewrite Hnew. cbv beta iota.
  rewrite lookup_insert_eq, delete_insert_id by done. split_and!; [done| |done|done].
  unfold ParseXBDMNotification. rewrite find_constructor_extend by done.
  assert (∀ rest, strchr_bang (prefix ++ "!"%byte :: rest) = Some (Some (length prefix))) as E.
  { clear -Hbang Hnul. induction prefix as [|c prefix IH]; intros rest; [done|].
    apply not_elem_of_cons in Hbang as [? ?], Hnul as [? ?]. cbn.
    rewrite !decide_False by congruence. by rewrite IH. }
  rewrite <- app_assoc. cbn [app]. rewrite E, take_app_length, lookup_insert_eq.
  rewrite length_app. cbn [length]. rewrite (proj2 (Nat.ltb_lt _ _)) by lia.
  by rewrite cons_middle, app_assoc, drop_app_length' by (rewrite length_app; cbn; lia).
Qed.

Lemma custom_notification_witness :
  let B := Boost_reference.boost_reference in
  let make := λ body, Parsed (Custom body) in
  let r1 := (RegisterXBDMNotificationConstructor "ntrc"%bs make (∅ : registry bytes)).2 in
  ParseXBDMNotification r1 ("ntrc"%bs ++ "!"%byte :: "new_state"%bs) [] = Parsed (Custom "new_state"%bs).
Proof.
  refine (proj1 (proj2 (@custom_notification Boost_reference.boost_reference bytes ∅ "ntrc"%bs "new_state"%bs []
    (λ body, Parsed (Custom body)) (λ _, Unhandled) _ _ _ _))).
  - reflexivity.
  - apply (bool_decide_unpack _); vm_compute; exact I.
  - apply (bool_decide_unpack _); vm_compute; exact I.
  - unfold constructors. repeat (apply Forall_cons; split; [reflexivity|]). apply Forall_nil. exact I.
Defined.
