(* ===== verification/NotificationTransport.v ===== *)
(** * The notification channel (src/notification/xbdm_notification_transport.h, .cpp)

    A [TCPConnection] whose read buffer is cut into messages at each CR LF; a
    message is [hello] or a notification for [notification_handler_].  The
    notifications given to the handler are returned in the order of the calls. *)

From S2P Require Import Prelude CLib Boost RdcpResponse RdcpMaps TcpConnection Notifications.

(** What becomes of one message. *)
Inductive handled (C : Type) := Hello | Handler (n : Notification C) | Ignored | Terminates.
Arguments Hello {C}. Arguments Handler {C}. Arguments Ignored {C}. Arguments Terminates {C}.

Record XBDMNotificationTransport := MkNotificationTransport {
  conn : TCPConnection;
  hello_received_ : bool
}.

Definition new_notification_transport (c : TCPConnection) : XBDMNotificationTransport :=
  MkNotificationTransport c false.

Definition IsHelloReceived (t : XBDMNotificationTransport) : bool := hello_received_ t.

Definition Close (t : XBDMNotificationTransport) : XBDMNotificationTransport :=
  MkNotificationTransport (TcpConnection.Close (conn t)) (hello_received_ t).

(** The offset of the terminator, [None] for the null pointer. *)
Definition ParseMessage (buffer : bytes) : option nat := find_sub kTerminator buffer.

Section Transport.
Context `{!Boost} {C : Type} (custom : registry C).

(** An exception leaves [OnBytesRead] through the select thread, and a search
    past the buffer is undefined: both end the program in the model. *)
Definition HandleNotification (message after : bytes) : handled C :=
  if decide (message = "hello"%bs) then Hello
  else
    match ParseXBDMNotification custom message after with
    | Parsed n => Handler n
    | Unhandled => Ignored
    | Threw | OutOfBounds => Terminates
    end.

(** The loop of [OnBytesRead]: what became of the messages, in order, and
    [bytes_processed]; [None] when the program ends.  A turn consumes the
    terminator at least, so the length of the buffer is enough fuel. *)
Fixpoint message_loop (fuel : nat) (buffer : bytes) : option (list (handled C) * nat) :=
  match fuel, ParseMessage buffer with
  | S fuel', Some message_len =>
    let packet_len := (message_len + kTerminatorLen)%nat in
    match HandleNotification (take message_len buffer) (drop message_len buffer) with
    | Terminates => None
    | h =>
      '(hs, n) ← message_loop fuel' (drop packet_len buffer);
      Some (h :: hs, (packet_len + n)%nat)
    end
  | _, _ => Some ([], 0%nat)
  end.

Definition is_hello (h : handled C) : bool := match h with Hello => true | _ => false end.

Definition to_handler (h : handled C) : option (Notification C) := match h with Handler n => Some n | _ => None end.

Definition OnBytesRead (t : XBDMNotificationTransport) : option (list (Notification C) * XBDMNotificationTransport) :=
  let buffer := read_buffer_ (conn t) in
  '(hs, bytes_processed) ← message_loop (length buffer) buffer;
  Some (omap to_handler hs,
        MkNotificationTransport (ShiftReadBuffer (Z.of_nat bytes_processed) (conn t))
          (hello_received_ t || existsb is_hello hs)).

(** Bytes read from the socket are appended before the handler runs. *)
Definition receive (b : bytes) (t : XBDMNotificationTransport) : option (list (Notification C) * XBDMNotificationTransport) :=
  OnBytesRead (MkNotificationTransport (with_read (conn t) (read_buffer_ (conn t) ++ b)) (hello_received_ t)).

Fixpoint receive_all (chunks : list bytes) (t : XBDMNotificationTransport)
  : option (list (Notification C) * XBDMNotificationTransport) :=
  match chunks with
  | [] => Some ([], t)
  | b :: chunks' =>
    '(ns, t1) ← receive b t;
    '(ns', t2) ← receive_all chunks' t1;
    Some (ns ++ ns', t2)
  end.

(** ** Framing *)

Definition framed (ms : list bytes) : bytes := concat (map (λ m, m ++ kTerminator) ms).

(** A message that ends neither itself nor the program. *)
Definition message_ok (m : bytes) (h : handled C) : Prop :=
  CR ∉ m ∧ h ≠ Terminates ∧ ∀ after, HandleNotification m after = h.

(** No complete message yet. *)
Definition partial (r : bytes) : Prop := ParseMessage r = None.

Lemma message_step fuel m h rest :
  message_ok m h →
  message_loop (S fuel) (m ++ kTerminator ++ rest)
  = ('(hs, n) ← message_loop fuel rest; Some (h :: hs, (length m + 2 + n)%nat)).
Proof.
  intros (Hm & Hh & Hhandle). cbn [message_loop].
  assert (ParseMessage (m ++ kTerminator ++ rest) = Some (length m)) as -> by exact (find_sub_first CR [LF] m rest Hm).
  rewrite take_app_length, drop_app_length, Hhandle.
  assert (drop (length m + kTerminatorLen) (m ++ kTerminator ++ rest) = rest) as ->.
  { by rewrite app_assoc, drop_app_length' by (rewrite length_app; done). }
  by destruct h.
Qed.

Lemma message_loop_partial fuel r : partial r → message_loop fuel r = Some ([], 0%nat).
Proof. intros Hr. destruct fuel; [done|]. cbn [message_loop]. by rewrite Hr. Qed.

(** All complete messages are handled and the incomplete one is kept. *)
Lemma message_loop_framed ms hs r fuel :
  Forall2 message_ok ms hs → partial r → (length (framed ms ++ r) ≤ fuel)%nat →
  message_loop fuel (framed ms ++ r) = Some (hs, length (framed ms)).
Proof.
  intros Hms Hr. revert fuel. induction Hms as [|m h ms hs Hm Hms IH]; intros fuel Hf; [by apply message_loop_partial|].
  unfold framed in *. cbn [map concat] in *. rewrite !length_app in *. change (length kTerminator) with 2%nat in *.
  destruct fuel as [|fuel]; [lia|]. rewrite <- !app_assoc, (message_step _ _ h) by done.
  rewrite IH by lia. cbn [mbind option_bind]. reflexivity.
Qed.

(** A prefix of a framed stream is some messages and an incomplete rest. *)
Lemma framed_prefix ms last b rest :
  Forall (λ m, CR ∉ m) ms → partial last → framed ms ++ last = b ++ rest →
  ∃ ms1 ms2 r, ms = ms1 ++ ms2 ∧ b = framed ms1 ++ r ∧ partial r ∧ framed ms2 ++ last = r ++ rest.
Proof.
  intros Hms Hlast. revert b. induction Hms as [|m ms Hm Hms IH]; intros b E.
  - exists [], [], b. split_and!; try done. unfold partial, ParseMessage in *.
    destruct (find_sub kTerminator b) eqn:Eb; [|done]. cbn in E. subst last. by erewrite find_sub_extend in Hlast.
  - unfold framed in E. cbn [map concat] in E. fold (framed ms) in E.
    destruct (decide (length m + 2 ≤ length b)%nat) as [Hl|Hl].
    + assert (b = (m ++ kTerminator) ++ drop (length m + 2) b) as Eb.
      { rewrite <- (take_drop (length m + 2) b) at 1. f_equal.
        rewrite <- (take_app_le b rest), <- E, <- app_assoc by done.
        by rewrite take_app_length' by (rewrite length_app; done). }
      rewrite Eb, <- !app_assoc in E. apply app_inv_head, app_inv_head in E.
      destruct (IH _ E) as (ms1 & ms2 & r & -> & Er & Hr & E'). exists (m :: ms1), ms2, r.
      split_and!; [done| |done|done]. rewrite Eb, Er. unfold framed. cbn [map concat]. by rewrite <- !app_assoc.
    + exists [], (m :: ms), b. split_and!; [done|done| |].
      * unfold partial, ParseMessage. destruct (find_sub kTerminator b) as [n|] eqn:Eb; [|done]. exfalso.
        pose proof (find_sub_length _ _ _ Eb) as Hn. change (length kTerminator) with 2%nat in Hn.
        apply (find_sub_extend _ _ rest) in Eb. rewrite <- E, <- !app_assoc in Eb.
        rewrite (find_sub_first CR [LF] m) in Eb by done. simplify_eq. lia.
      * unfold framed. cbn [map concat]. done.
Qed.
(** One read, in the middle of a stream. *)
Lemma receive_step ms last hs b rest r0 hello c :
  Forall2 message_ok ms hs → partial last → read_buffer_ c = r0 →
  framed ms ++ last = r0 ++ b ++ rest → Z.of_nat (length (r0 ++ b)) < 2 ^ 64 →
  ∃ ms1 ms2 hs1 hs2 r, ms = ms1 ++ ms2 ∧ hs = hs1 ++ hs2 ∧ Forall2 message_ok ms2 hs2 ∧ partial r
  ∧ framed ms2 ++ last = r ++ rest
  ∧ receive b (MkNotificationTransport c hello)
    = Some (omap to_handler hs1, MkNotificationTransport (with_read c r) (hello || existsb is_hello hs1)).
Proof.
  intros Hms Hlast <- E Hl. rewrite app_assoc in E.
  assert (Forall (λ m, CR ∉ m) ms) as Hcr by (clear -Hms; induction Hms as [|m h ms hs [? _] _ IH]; by constructor).
  destruct (framed_prefix ms last _ rest Hcr Hlast E) as (ms1 & ms2 & r & -> & Eb & Hr & E').
  apply Forall2_app_inv_l in Hms as (hs1 & hs2 & H1 & H2 & ->).
  exists ms1, ms2, hs1, hs2, r. split_and!; try done.
  unfold receive, OnBytesRead. cbn [conn hello_received_]. rewrite with_read_read, Eb.
  rewrite (message_loop_framed _ hs1) by done. cbn [mbind option_bind]. rewrite <- Eb.
  assert (length (framed ms1) ≤ length (read_buffer_ c ++ b))%nat by (rewrite Eb, length_app; lia).
  rewrite ShiftReadBuffer_eq by (rewrite with_read_read; done).
  by rewrite with_read_read, Eb, drop_app_length.
Qed.

Lemma receive_stream chunks ms last hs r0 hello c :
  Forall2 message_ok ms hs → partial last → read_buffer_ c = r0 →
  framed ms ++ last = r0 ++ concat chunks → Z.of_nat (length (r0 ++ concat chunks)) < 2 ^ 64 → partial r0 →
  receive_all chunks (MkNotificationTransport c hello)
  = Some (omap to_handler hs, MkNotificationTransport (with_read c last) (hello || existsb is_hello hs)).
Proof.
  revert ms hs r0 hello c. induction chunks as [|b chunks IH]; intros ms hs r0 hello c Hms Hlast Hr0 E Hl Hp.
  - rewrite app_nil_r in E. destruct Hms as [|m h ms hs [Hm _] Hms].
    + cbn in *. subst. by rewrite orb_false_r, with_read_same.
    + exfalso. rewrite <- E in Hp. unfold framed in Hp. cbn [map concat] in Hp. rewrite <- !app_assoc in Hp.
      unfold partial, ParseMessage in Hp. by rewrite (find_sub_first CR [LF] m _ Hm) in Hp.
  - cbn [concat] in E, Hl. rewrite !length_app in Hl.
    destruct (receive_step ms last hs b (concat chunks) r0 hello c) as (ms1 & ms2 & hs1 & hs2 & r & -> & -> & H2 & Hr & E' & R);
      [done|done|done|done|rewrite length_app; lia|].
    cbn [receive_all]. rewrite R. cbn [mbind option_bind].
    assert (length r ≤ length r0 + length b)%nat as Hrl.
    { apply (f_equal length) in E, E'. unfold framed in *. rewrite !map_app, !concat_app, !length_app in *. lia. }
    rewrite (IH ms2 hs2 r) by (done || rewrite length_app; lia). cbn [mbind option_bind].
    rewrite omap_app, existsb_app, orb_assoc. by destruct c.
Qed.
End Transport.

(** Messages sent one after the other, each ended by CR LF, reach the
    handler exactly once and in order however the stream is cut into reads:
    [hello] is only noted, messages of no known kind are skipped, and what has
    come of an unfinished message stays in the buffer. *)
Theorem notification_stream `{!Boost} {C} (custom : registry C) (ms : list bytes) (hs : list (handled C))
  (last : bytes) (chunks : list bytes) (c : TCPConnection)
  (Hms : Forall2 (message_ok custom) ms hs) (Hlast : partial last) (Hempty : read_buffer_ c = [])
  (Hchunks : concat chunks = framed ms ++ last) (Hbound : Z.of_nat (length (concat chunks)) < 2 ^ 64) :
  receive_all custom chunks (new_notification_transport c)
  = Some (omap to_handler hs, MkNotificationTransport (with_read c last) (existsb is_hello hs)).
Proof. by apply (receive_stream custom chunks ms last hs [] false c). Qed.

(** An announced event is such a message. *)
Lemma announce_ok `{HB : !BoostLaws B} {C} (custom : registry C) (e : event) :
  event_ok e → CR ∉ announce e → announce e ≠ "hello"%bs →
  message_ok custom (announce e) (Handler (notification_of e)).
Proof.
  intros He Hcr Hh. split_and!; [done|done|]. intros after. unfold HandleNotification.
  rewrite decide_False by done. by rewrite notification_parsed.
Qed.

Lemma hello_ok `{!Boost} {C} (custom : registry C) : message_ok custom "hello"%bs Hello.
Proof. split_and!; [|done|done]. apply (bool_decide_unpack _). vm_compute. exact I. Qed.

Definition example_stream : bytes :=
  "hello"%bs ++ kTerminator ++ announce example_event ++ kTerminator ++ "break addr=0x"%bs.

Lemma notification_stream_witness :
  let B := Boost_reference.boost_reference in
  receive_all (C:=Empty_set) ∅ [take 6 example_stream; drop 6 (take 40 example_stream); drop 40 example_stream]
    (new_notification_transport (new_connection true))
  = Some ([notification_of example_event],
          MkNotificationTransport (with_read (new_connection true) "break addr=0x"%bs) true).
Proof.
  refine (@notification_stream Boost_reference.boost_reference Empty_set ∅
    ["hello"%bs; announce example_event] [Hello; Handler (notification_of example_event)] "break addr=0x"%bs _ _ _ _ _ _ _).
  - constructor; [apply hello_ok|]. constructor; [|constructor].
    apply (@announce_ok Boost_reference.boost_reference Boost_reference.boost_reference_laws).
    + cbn. unfold thread_ok, is_u32. split_and!; try lia; [done|].
      repeat constructor; apply (bool_decide_unpack _); vm_compute; exact I.
    + apply (bool_decide_unpack _); vm_compute; exact I.
    + discriminate.
  - reflexivity.
  - reflexivity.
  - reflexivity.
  - vm_compute. reflexivity.
Defined.
