(* ===== verification/GdbRegisters.v ===== *)
(** * Registers in the debugger's protocol (src/xbox/bridge/gdb_registers.h, .cpp)

    The target description, the reply to a request for all registers, and the
    access to one register by its number. *)

From S2P Require Import Prelude CLib Boost RdcpMaps RdcpTypes.

Definition FLOAT_REGISTER_OFFSET : Z := 19.

(** The text is written with single quotes here. *)
Definition kTargetXML : bytes := map (λ c, if decide (c = "'"%byte) then quote else c)
  ("<?xml version='1.0'?><!DOCTYPE target SYSTEM 'gdb-target.dtd'><target>"%bs
   ++ "<architecture>i386:intel</architecture><feature name='i386.xbdm'/>"%bs
   ++ "<flags id='i386_eflags' size='4'><field name='CF' start='0' end='0'/>"%bs
   ++ "<field name='PF' start='2' end='2'/><field name='AF' start='4' end='4'/>"%bs
   ++ "<field name='ZF' start='6' end='6'/><field name='SF' start='7' end='7'/>"%bs
   ++ "<field name='TF' start='8' end='8'/><field name='IF' start='9' end='9'/>"%bs
   ++ "<field name='DF' start='10' end='10'/><field name='OF' start='11' end='11'/>"%bs
   ++ "<field name='IOPL' start='12' end='13'/><field name='NT' start='14' end='14'/>"%bs
   ++ "<field name='RF' start='16' end='16'/><field name='VM' start='17' end='17'/>"%bs
   ++ "<field name='AC' start='18' end='18'/><field name='VIF' start='19' end='19'/>"%bs
   ++ "<field name='VIP' start='20' end='20'/><field name='ID' start='21' end='21'/></flags>"%bs
   ++ "<flags id='i386_cr0' size='4'><field name='PG' start='31' end='31'/>"%bs
   ++ "<field name='CD' start='30' end='30'/><field name='NW' start='29' end='29'/>"%bs
   ++ "<field name='AM' start='18' end='18'/><field name='WP' start='16' end='16'/>"%bs
   ++ "<field name='NE' start='5' end='5'/><field name='ET' start='4' end='4'/>"%bs
   ++ "<field name='TS' start='3' end='3'/><field name='EM' start='2' end='2'/>"%bs
   ++ "<field name='MP' start='1' end='1'/><field name='PE' start='0' end='0'/></flags>"%bs
   ++ "<reg name='Eax' bitsize='4' type='int32' regnum='0'/><reg name='Ecx' bitsize='4' type='int32'/>"%bs
   ++ "<reg name='Edx' bitsize='4' type='int32'/><reg name='Ebx' bitsize='4' type='int32'/>"%bs
   ++ "<reg name='Esp' bitsize='4' type='data_ptr'/><reg name='Ebp' bitsize='4' type='data_ptr'/>"%bs
   ++ "<reg name='Esi' bitsize='4' type='int32'/><reg name='Edi' bitsize='4' type='int32'/>"%bs
   ++ "<reg name='Eip' bitsize='4' type='code_ptr'/><reg name='EFlags' bitsize='4' type='int32'/>"%bs
   ++ "<reg name='cs' bitsize='4' type='int32'/><reg name='ss' bitsize='4' type='int32'/>"%bs
   ++ "<reg name='ds' bitsize='4' type='int32'/><reg name='es' bitsize='4' type='int32'/>"%bs
   ++ "<reg name='fs' bitsize='4' type='int32'/><reg name='gs' bitsize='4' type='int32'/>"%bs
   ++ "<reg name='ss_base' bitsize='4' type='int32'/><reg name='ds_base' bitsize='4' type='int32'/>"%bs
   ++ "<reg name='es_base' bitsize='4' type='int32'/><reg name='fs_base' bitsize='4' type='int32'/>"%bs
   ++ "<reg name='gs_base' bitsize='4' type='int32'/><reg name='k_gs_base' bitsize='4' type='int32'/>"%bs
   ++ "<reg name='cr0' bitsize='4' type='int32'/><reg name='cr2' bitsize='4' type='int32'/>"%bs
   ++ "<reg name='cr3' bitsize='4' type='int32'/><reg name='cr4' bitsize='4' type='int32'/>"%bs
   ++ "<reg name='cr8' bitsize='4' type='int32'/><reg name='efer' bitsize='4' type='int32'/>"%bs
   ++ "<reg name='ST0' bitsize='10' type='i387_ext'/><reg name='ST1' bitsize='10' type='i387_ext'/>"%bs
   ++ "<reg name='ST2' bitsize='10' type='i387_ext'/><reg name='ST3' bitsize='10' type='i387_ext'/>"%bs
   ++ "<reg name='ST4' bitsize='10' type='i387_ext'/><reg name='ST5' bitsize='10' type='i387_ext'/>"%bs
   ++ "<reg name='ST6' bitsize='10' type='i387_ext'/><reg name='ST7' bitsize='10' type='i387_ext'/>"%bs
   ++ "<reg name='fctrl' bitsize='4' type='int' group='float'/>"%bs
   ++ "<reg name='fstat' bitsize='4' type='int' group='float'/>"%bs
   ++ "<reg name='ftag' bitsize='4' type='int' group='float'/>"%bs
   ++ "<reg name='fiseg' bitsize='4' type='int' group='float'/>"%bs
   ++ "<reg name='fioff' bitsize='4' type='int' group='float'/>"%bs
   ++ "<reg name='foseg' bitsize='4' type='int' group='float'/>"%bs
   ++ "<reg name='fooff' bitsize='4' type='int' group='float'/>"%bs
   ++ "<reg name='fop' bitsize='4' type='int' group='float'/></target>"%bs).

(** [configure.h]: which 64-bit byte order function the platform has. *)
Inductive platform := HAVE_HTONLL | HAVE_BE64TOH.

(** [%08x] of the byte-swapped word. *)
Definition AppendRegister (output : bytes) (value : option Z) : bytes :=
  match value with
  | None => output ++ "xxxxxxxx"%bs
  | Some v => output ++ snprintf 31 (fmt_0x 8 (htonl (u32 v)))
  end.

(** [htole64] changes nothing on a little-endian machine.  [buffer\[20\] = 0]
    ends the text after 20 digits. *)
Definition Append10ByteRegister (p : platform) (output : bytes) (value : option Z) : bytes :=
  match value with
  | None => output ++ "xxxxxxxxxxxxxxxxxxxx"%bs
  | Some v =>
    let swapped := match p with HAVE_HTONLL => htonll (u64 v) | HAVE_BE64TOH => u64 v end in
    output ++ take 20 (snprintf 63 (fmt_0x 20 swapped))
  end.

(** The ten registers of the integer context, in the order of their numbers. *)
Definition integer_register (index : nat) (c : ThreadContext) : option Z :=
  match index with
  | 0%nat => eax c | 1%nat => ecx c | 2%nat => edx c | 3%nat => ebx c | 4%nat => esp c
  | 5%nat => ebp c | 6%nat => esi c | 7%nat => edi c | 8%nat => eip c | 9%nat => eflags c
  | _ => None
  end.

(** [None]: [float_context] is read although it is empty.  The conversion from
    [int32_t] to [uint64_t] extends the sign. *)
Definition GetRegister (gdb_index : Z) (context : option ThreadContext) (float_context : option ThreadFloatContext)
  : option (option Z) :=
  match context with
  | None => Some None
  | Some c =>
    if (0 <=? gdb_index) && (gdb_index <? 10) then Some (u64 <$> integer_register (Z.to_nat gdb_index) c)
    else if (FLOAT_REGISTER_OFFSET <=? gdb_index) && (gdb_index <? FLOAT_REGISTER_OFFSET + 8) then
      match float_context with
      | None => None
      | Some f => Some (Some (u64 (st (Z.to_nat (gdb_index - FLOAT_REGISTER_OFFSET)) f)))
      end
    else Some None
  end.

Definition with_register (index : nat) (v : Z) (c : ThreadContext) : ThreadContext :=
  let set i old := if decide (index = i) then Some v else old in
  MkContext (set 5%nat (ebp c)) (set 4%nat (esp c)) (set 8%nat (eip c)) (set 9%nat (eflags c))
    (set 0%nat (eax c)) (set 3%nat (ebx c)) (set 1%nat (ecx c)) (set 2%nat (edx c))
    (set 7%nat (edi c)) (set 6%nat (esi c)) (cr0_npx_state c).

(** [SetRegister(uint32_t, uint32_t, std::optional<ThreadContext>&)] *)
Definition SetRegister (gdb_index value : Z) (context : option ThreadContext) : bool * option ThreadContext :=
  match context with
  | None => (false, None)
  | Some c =>
    if (0 <=? gdb_index) && (gdb_index <? 10) then (true, Some (with_register (Z.to_nat gdb_index) (i32 value) c))
    else (false, Some c)
  end.

Definition with_st (i : nat) (v : Z) (f : ThreadFloatContext) : ThreadFloatContext :=
  MkFloat (control f) (status f) (tag f) (error_offset f) (error_selector f) (data_offset f) (data_selector f)
    (overwrite (8 * i) (le_bytes 8 v) (st_memory f)).

(** [SetRegister(uint32_t, uint64_t, std::optional<ThreadFloatContext>&)] *)
Definition SetFloatRegister (gdb_index value : Z) (float_context : option ThreadFloatContext)
  : bool * option ThreadFloatContext :=
  match float_context with
  | None => (false, None)
  | Some f =>
    if (FLOAT_REGISTER_OFFSET <=? gdb_index) && (gdb_index <? FLOAT_REGISTER_OFFSET + 8) then
      (true, Some (with_st (Z.to_nat (gdb_index - FLOAT_REGISTER_OFFSET)) (i64 value) f))
    else (false, Some f)
  end.

Definition SerializeRegisters (p : platform) (context : option ThreadContext)
  (float_context : option ThreadFloatContext) : bytes :=
  let unsupported : option Z := None in
  let ret := fold_left (λ ret i, AppendRegister ret (c ← context; integer_register i c)) (seq 0 10) [] in
  let ret := fold_left AppendRegister (replicate 18 unsupported) ret in
  let ret := fold_left (λ ret i, Append10ByteRegister p ret (st i <$> float_context)) (seq 0 8) ret in
  fold_left AppendRegister (replicate 8 unsupported) ret.

(** ** Lemmas *)

(** The text of an integer register. *)
Definition register_image (value : option Z) : bytes := AppendRegister [] value.
Definition float_image (p : platform) (value : option Z) : bytes := Append10ByteRegister p [] value.

Lemma AppendRegister_app output value : AppendRegister output value = output ++ register_image value.
Proof. by destruct value. Qed.

Lemma Append10ByteRegister_app p output value : Append10ByteRegister p output value = output ++ float_image p value.
Proof. by destruct value. Qed.

Lemma fold_append {A} (f : bytes → A → bytes) (image : A → bytes) :
  (∀ out x, f out x = out ++ image x) →
  ∀ xs out, fold_left f xs out = out ++ concat (map image xs).
Proof.
  intros Hf xs. induction xs as [|x xs IH]; intros out; cbn; [by rewrite app_nil_r|].
  by rewrite IH, Hf, app_assoc.
Qed.

Lemma SerializeRegisters_images p context float_context :
  SerializeRegisters p context float_context
  = concat (map register_image (map (λ i, c ← context; integer_register i c) (seq 0 10)))
    ++ concat (replicate 18 "xxxxxxxx"%bs)
    ++ concat (map (float_image p) (map (λ i, st i <$> float_context) (seq 0 8)))
    ++ concat (replicate 8 "xxxxxxxx"%bs).
Proof.
  unfold SerializeRegisters.
  rewrite (fold_append _ register_image) by apply AppendRegister_app.
  rewrite (fold_append _ (λ i, float_image p (st i <$> float_context))) by (intros; apply Append10ByteRegister_app).
  rewrite (fold_append _ register_image) by apply AppendRegister_app.
  rewrite (fold_append _ (λ i, register_image (c ← context; integer_register i c))) by (intros; apply AppendRegister_app).
  rewrite !map_map, <- !app_assoc. reflexivity.
Qed.

(** The bytes of a word in memory order, as the protocol shows them. *)
Definition target_text (k : nat) (z : Z) : bytes := concat (map byte_text (le_bytes k z)).

Lemma le_bytes_mod k z : le_bytes k (z mod 256 ^ Z.of_nat k) = le_bytes k z.
Proof.
  pose proof (Z.div_mod z (256 ^ Z.of_nat k) ltac:(lia)) as E.
  rewrite E at 2. rewrite Z.add_comm, Z.mul_comm. symmetry. apply le_bytes_congr.
Qed.

Lemma register_image_Some v : register_image (Some v) = target_text 4 v.
Proof.
  unfold register_image, AppendRegister, target_text. rewrite app_nil_l.
  change (u32 v) with (v mod 256 ^ Z.of_nat 4). unfold htonl.
  change 8%nat with (2 * 4)%nat.
  rewrite (fmt_0x_swapped 3 (v mod 256 ^ Z.of_nat 4)) by (apply Z.mod_pos_bound; done).
  rewrite le_bytes_mod. unfold snprintf. rewrite take_ge; [done|].
  rewrite byte_texts_length, le_bytes_length. lia.
Qed.

Lemma float_image_Some p v :
  float_image p (Some v)
  = "0000"%bs ++ match p with
                 | HAVE_HTONLL => target_text 8 v
                 | HAVE_BE64TOH => concat (map byte_text (rev (le_bytes 8 v)))
                 end.
Proof.
  unfold float_image, Append10ByteRegister, target_text. rewrite app_nil_l.
  assert (∀ n, 0 ≤ n < 256 ^ Z.of_nat 8 → take 20 (snprintf 63 (fmt_0x 20 n)) = "0000"%bs ++ fmt_0x (2 * 8) n) as H.
  { intros n Hn. assert (length (fmt_x n) ≤ 16)%nat as Hl by (apply (fmt_x_length n 15); cbn in *; lia).
    unfold snprintf, fmt_0x, pad_left. rewrite !take_ge by (rewrite ?length_take, ?length_app, ?length_replicate; lia).
    change "0000"%bs with (replicate 4 "0"%byte). rewrite app_assoc, <- replicate_add. do 2 f_equal. lia. }
  change (u64 v) with (v mod 256 ^ Z.of_nat 8).
  assert (0 ≤ v mod 256 ^ Z.of_nat 8 < 256 ^ Z.of_nat 8) as Hv by (apply Z.mod_pos_bound; done).
  destruct p.
  - unfold htonll. rewrite H.
    + f_equal. rewrite fmt_0x_swapped by done. by rewrite le_bytes_mod.
    + pose proof (le_int_range (rev (le_bytes 8 (v mod 256 ^ Z.of_nat 8)))) as Hr.
      by rewrite length_rev, le_bytes_length in Hr.
  - rewrite H by done. f_equal. rewrite fmt_0x_bytes by done. by rewrite le_bytes_mod.
Qed.

Lemma register_image_length v : length (register_image v) = 8%nat.
Proof.
  destruct v as [v|]; [|done]. rewrite register_image_Some. unfold target_text.
  by rewrite byte_texts_length, le_bytes_length.
Qed.

Lemma float_image_length p v : length (float_image p v) = 20%nat.
Proof.
  destruct v as [v|]; [|done]. rewrite float_image_Some, length_app. unfold target_text.
  destruct p; rewrite byte_texts_length, ?length_rev, le_bytes_length; done.
Qed.

Lemma slice_concat {A} (image : A → bytes) w xs i x rest :
  (∀ x, length (image x) = w) → xs !! i = Some x →
  slice (w * i) w (concat (map image xs) ++ rest) = image x.
Proof.
  intros Hw. revert i; induction xs as [|y xs IH]; intros i Hi; [done|]. unfold slice. cbn [map concat].
  destruct i as [|i]; cbn in Hi.
  - simplify_eq. rewrite Nat.mul_0_r, drop_0, <- app_assoc. by rewrite take_app_length' by (symmetry; apply Hw).
  - rewrite <- app_assoc, drop_app_ge by (rewrite Hw; lia). rewrite Hw.
    replace (w * S i - w)%nat with (w * i)%nat by lia. by apply IH.
Qed.

Lemma concat_length {A} (image : A → bytes) w xs :
  (∀ x, length (image x) = w) → length (concat (map image xs)) = (w * length xs)%nat.
Proof. intros Hw. induction xs as [|x xs IH]; cbn; [lia|]. rewrite length_app, IH, Hw. lia. Qed.

Lemma slice_skip a b n w : slice (length a + n) w (a ++ b) = slice n w b.
Proof. unfold slice. by rewrite drop_app_ge, Nat.add_sub_swap, Nat.sub_diag by lia. Qed.

Lemma u64_target v : target_text 4 (u64 v) = target_text 4 v.
Proof.
  unfold target_text. rewrite <- (le_bytes_mod 4 (u64 v)), <- (le_bytes_mod 4 v). do 3 f_equal. apply u32_u64.
Qed.

(** The reply to a request for all registers: 448 characters, where the
    [i]-th group of eight is the value [GetRegister] gives for register [i] in
    target byte order, or eight [x] when it is not known, for the ten registers
    of the integer context. *)
Theorem registers_reply (p : platform) (c : ThreadContext) (f : option ThreadFloatContext) (i : nat)
  (Hi : (i < 10)%nat) :
  length (SerializeRegisters p (Some c) f) = 448%nat
  ∧ slice (8 * i) 8 (SerializeRegisters p (Some c) f)
    = match GetRegister (Z.of_nat i) (Some c) f with
      | Some (Some v) => target_text 4 v
      | _ => "xxxxxxxx"%bs
      end.
Proof.
  rewrite SerializeRegisters_images. split.
  - rewrite !length_app, (concat_length _ 8 _ register_image_length), (concat_length _ 20 _ (float_image_length p)). reflexivity.
  - rewrite (slice_concat register_image 8 _ i (integer_register i c));
      [|apply register_image_length|].
    + unfold GetRegister. rewrite (proj2 (Z.leb_le 0 _)), (proj2 (Z.ltb_lt _ 10)), Nat2Z.id by lia. cbn [andb].
      destruct (integer_register i c) as [v|]; [|done]. cbn [fmap option_fmap option_map].
      by rewrite register_image_Some, u64_target.
    + rewrite list_lookup_fmap. rewrite lookup_seq_lt by done. done.
Qed.

Definition example_registers : ThreadContext :=
  MkContext None None (Some (-2147417856)) None (Some 305419896) None None None None None None.

Lemma registers_reply_witness :
  slice 0 8 (SerializeRegisters HAVE_BE64TOH (Some example_registers) None) = "78563412"%bs.
Proof.
  etransitivity; [exact (proj2 (registers_reply HAVE_BE64TOH example_registers None 0 ltac:(lia)))|].
  vm_compute. reflexivity.
Defined.

(** ** Setting and getting *)

Lemma overwrite_length offset src mem :
  (offset + length src ≤ length mem)%nat → length (overwrite offset src mem) = length mem.
Proof. intros H. unfold overwrite. rewrite !length_app, length_take, length_drop. lia. Qed.

Lemma slice_overwrite_same offset src mem :
  (offset + length src ≤ length mem)%nat → slice offset (length src) (overwrite offset src mem) = src.
Proof.
  intros H. unfold slice, overwrite. rewrite drop_app_length' by (rewrite length_take; lia).
  by rewrite take_app_length.
Qed.

Lemma slice_overwrite_other offset src mem offset' len :
  (offset + length src ≤ length mem)%nat →
  (offset' + len ≤ offset ∨ offset + length src ≤ offset')%nat →
  slice offset' len (overwrite offset src mem) = slice offset' len mem.
Proof.
  intros H Hd. unfold slice, overwrite. apply list_eq. intros k.
  destruct (decide (k < len)%nat); [|by rewrite !lookup_take_ge by lia].
  rewrite !lookup_take_lt, !lookup_drop by done.
  destruct (decide (offset' + k < offset)%nat).
  - rewrite lookup_app_l by (rewrite length_take; lia). by rewrite lookup_take_lt.
  - rewrite lookup_app_r by (rewrite length_take; lia). rewrite length_take, Nat.min_l by lia.
    rewrite lookup_app_r by lia. rewrite lookup_drop. f_equal. lia.
Qed.

Lemma integer_register_with i k v c :
  (i < 10)%nat →
  integer_register k (with_register i v c) = if decide (k = i) then Some v else integer_register k c.
Proof.
  intros Hi. do 10 (destruct k as [|k]; [cbn; repeat case_decide; congruence|]).
  cbn. rewrite decide_False by lia. done.
Qed.

Lemma st_with_st i k v f :
  (i < 8)%nat → (k < 8)%nat → length (st_memory f) = 68%nat →
  st k (with_st i v f) = if decide (k = i) then i64 v else st k f.
Proof.
  intros Hi Hk Hf. unfold st, with_st. cbn [st_memory].
  assert (8 * i + length (le_bytes 8 v) ≤ length (st_memory f))%nat as Hl by (rewrite le_bytes_length; lia).
  case_decide as E.
  - subst k. rewrite <- (le_bytes_length 8 v) at 2. rewrite slice_overwrite_same by done.
    rewrite <- (le_bytes_mod 8 v), le_int_bytes by (apply Z.mod_pos_bound; done).
    change (256 ^ Z.of_nat 8) with (2 ^ 64). unfold i64. by rewrite Zplus_mod_idemp_l.
  - rewrite slice_overwrite_other; [done|done|rewrite le_bytes_length; lia].
Qed.

Lemma u64_i64 v : u64 (i64 v) = u64 v.
Proof. unfold u64, i64. rewrite Zminus_mod_idemp_l. f_equal. lia. Qed.

Lemma GetRegister_integer j c f :
  0 ≤ j < 10 → GetRegister j (Some c) f = Some (u64 <$> integer_register (Z.to_nat j) c).
Proof. intros Hj. unfold GetRegister. by rewrite (proj2 (Z.leb_le 0 j)), (proj2 (Z.ltb_lt j 10)) by lia. Qed.

Lemma GetRegister_not_integer j c c' f : ¬ 0 ≤ j < 10 → GetRegister j (Some c) f = GetRegister j (Some c') f.
Proof.
  intros Hj. unfold GetRegister. assert ((0 <=? j) && (j <? 10) = false) as -> by lia. done.
Qed.

Lemma GetRegister_float j c f :
  19 ≤ j < 27 → GetRegister j (Some c) (Some f) = Some (Some (u64 (st (Z.to_nat (j - 19)) f))).
Proof.
  intros Hj. unfold GetRegister, FLOAT_REGISTER_OFFSET.
  assert ((0 <=? j) && (j <? 10) = false) as -> by lia.
  assert ((19 <=? j) && (j <? 19 + 8) = true) as -> by lia. done.
Qed.

Lemma GetRegister_not_float j c f f' : ¬ 19 ≤ j < 27 → GetRegister j c (Some f) = GetRegister j c (Some f').
Proof.
  intros Hj. unfold GetRegister, FLOAT_REGISTER_OFFSET. destruct c; [|done].
  assert ((19 <=? j) && (j <? 19 + 8) = false) as -> by lia. done.
Qed.

(** Writing a register and reading one back: the register written gives
    the value, as 32 bits with its sign extended for the integer context and as
    64 bits for the floating point context, and every other register is as
    before. *)
Theorem set_get_register (i j v : Z) (c : ThreadContext) (f : ThreadFloatContext)
  (Hi : 0 ≤ i < 10 ∨ 19 ≤ i < 27) (Hf : length (st_memory f) = 68%nat) :
  let '(ok, c') := if i <? 10 then SetRegister i v (Some c) else (true, Some c) in
  let '(ok', f') := if i <? 10 then (true, Some f) else SetFloatRegister i v (Some f) in
  ok = true ∧ ok' = true
  ∧ GetRegister j c' f'
    = if decide (j = i) then Some (Some (if i <? 10 then u64 (i32 v) else u64 v))
      else GetRegister j (Some c) (Some f).
Proof.
  destruct Hi as [Hi|Hi].
  - rewrite (proj2 (Z.ltb_lt i 10)) by lia. unfold SetRegister.
    rewrite (proj2 (Z.leb_le 0 i)), (proj2 (Z.ltb_lt i 10)) by lia. cbn [andb]. split_and!; [done..|].
    destruct (decide (0 ≤ j < 10)) as [Hj|Hj].
    + rewrite !GetRegister_integer, integer_register_with by lia.
      destruct (decide (j = i)) as [->|Hne]; [by rewrite decide_True|]. by rewrite decide_False by lia.
    + rewrite decide_False by lia. by apply GetRegister_not_integer.
  - rewrite (proj2 (Z.ltb_ge i 10)) by lia. unfold SetFloatRegister, FLOAT_REGISTER_OFFSET.
    assert ((19 <=? i) && (i <? 19 + 8) = true) as -> by lia. split_and!; [done..|].
    destruct (decide (19 ≤ j < 27)) as [Hj|Hj].
    + rewrite !GetRegister_float, st_with_st by (done || lia).
      destruct (decide (j = i)) as [->|Hne]; [|by rewrite decide_False by lia].
      rewrite decide_True by done. do 2 f_equal. etransitivity; apply u64_i64.
    + rewrite decide_False by lia. by apply GetRegister_not_float.
Qed.

Lemma set_get_register_witness :
  let '(ok, f') := SetFloatRegister 20 4614256656552045848 (Some float_init) in
  true = true ∧ ok = true
  ∧ GetRegister 20 (Some example_registers) f' = Some (Some (u64 4614256656552045848)).
Proof. apply (set_get_register 20 20 4614256656552045848 example_registers float_init); [lia|reflexivity]. Defined.

(** ** Register numbers *)

(** The names of the registers a target description lists, in order; their
    numbers count from the first one's [regnum], which is 0. *)
Fixpoint register_names (fuel : nat) (xml : bytes) : list bytes :=
  match fuel, find_sub ("<reg name="%bs ++ [quote]) xml with
  | S fuel', Some n =>
    let rest := drop (n + 11) xml in
    match find_byte quote rest with
    | Some k => take k rest :: register_names fuel' (drop k rest)
    | None => []
    end
  | _, _ => []
  end.

Definition described_registers : list bytes := register_names (length kTargetXML) kTargetXML.

Definition st_name (k : nat) : bytes := "ST"%bs ++ fmt_u (Z.of_nat k).

(** What the description says about the sixteen registers concerned. *)
Lemma described_floats :
  forallb (λ k, bool_decide (described_registers !! (28 + k)%nat = Some (st_name k))
                && bool_decide (described_registers !! (19 + k)%nat ≠ Some (st_name k))) (seq 0 8) = true.
Proof. vm_compute. reflexivity. Qed.

#[local] Opaque described_registers st_name.

Lemma described_float k : (k < 8)%nat →
  described_registers !! (28 + k)%nat = Some (st_name k) ∧ described_registers !! (19 + k)%nat ≠ Some (st_name k).
Proof.
  intros Hk. assert (H : In k (seq 0 8)) by (apply in_seq; lia).
  apply (proj1 (forallb_forall _ _) described_floats) in H. apply andb_prop in H as [H1 H2].
  apply bool_decide_eq_true in H1. apply bool_decide_eq_true in H2. exact (conj H1 H2).
Qed.

(** The target description and the reply to a request for all registers
    number the floating point registers from 28 on, behind eighteen registers
    the context does not hold; the access to one register numbers them from
    [FLOAT_REGISTER_OFFSET], 19: asked for register 28 + k it has nothing, and
    asked for 19 + k, which the description calls otherwise, it gives [st<k>]. *)
Theorem float_register_numbers (k : nat) (p : platform) (c : ThreadContext) (f : ThreadFloatContext) (Hk : (k < 8)%nat) :
  described_registers !! (28 + k)%nat = Some (st_name k)
  ∧ described_registers !! (19 + k)%nat ≠ Some (st_name k)
  ∧ slice (28 * 8 + 20 * k) 20 (SerializeRegisters p (Some c) (Some f)) = float_image p (Some (st k f))
  ∧ GetRegister (19 + Z.of_nat k) (Some c) (Some f) = Some (Some (u64 (st k f)))
  ∧ GetRegister (28 + Z.of_nat k) (Some c) (Some f) = Some None.
Proof.
  pose proof (described_float k Hk) as [H1 H2].
  split; [exact H1|]. split; [exact H2|]. clear H1 H2. split_and!.
  - rewrite SerializeRegisters_images.
    set (ints := concat (map register_image (map _ (seq 0 10)))).
    assert (length (ints ++ concat (replicate 18 "xxxxxxxx"%bs)) = 28 * 8)%nat as Hl.
    { rewrite length_app. unfold ints. rewrite (concat_length _ 8 _ register_image_length). reflexivity. }
    rewrite app_assoc, <- Hl, slice_skip.
    rewrite (slice_concat (float_image p) 20 _ k (Some (st k f))); [done|apply float_image_length|].
    rewrite list_lookup_fmap. by rewrite lookup_seq_lt.
  - rewrite GetRegister_float by lia. by replace (Z.to_nat (19 + Z.of_nat k - 19)) with k by lia.
  - unfold GetRegister, FLOAT_REGISTER_OFFSET.
    assert ((0 <=? 28 + Z.of_nat k) && (28 + Z.of_nat k <? 10) = false) as -> by lia.
    assert ((19 <=? 28 + Z.of_nat k) && (28 + Z.of_nat k <? 19 + 8) = false) as -> by lia. done.
Qed.

Lemma float_register_numbers_witness :
  described_registers !! 28%nat = Some "ST0"%bs
  ∧ GetRegister 28 (Some example_registers) (Some float_init) = Some None.
Proof.
  pose proof (float_register_numbers 0 HAVE_BE64TOH example_registers float_init ltac:(lia)) as (H & _ & _ & _ & H').
  exact (conj H H').
Defined.
