(* ===== verification/Path.v ===== *)
(** * Paths (src/util/path.cpp)

    Splitting the path of a title into its directory and the name of its
    executable. *)

From S2P Require Import Prelude CLib Boost Parsing.

Definition kDefaultXBE : bytes := "default.xbe"%bs.

(** [path.rfind('\\')] *)
Definition rfind_backslash (path : bytes) : option nat :=
  (λ i, (length path - 1 - i)%nat) <$> find_byte backslash (rev path).

(** The directory and the executable, when the path is not empty. *)
Definition SplitXBEPath `{!Boost} (path : bytes) : option (bytes * bytes) :=
  match path with
  | [] => None
  | _ =>
    let has_xbe := ends_with path ".xbe"%bs in
    match rfind_backslash path with
    | None => if has_xbe then Some ([backslash], path) else Some (path ++ [backslash], kDefaultXBE)
    | Some last_slash =>
      if has_xbe then Some (take (S last_slash) path, drop (S last_slash) path)
      else if decide (last_slash = length path - 1)%nat then Some (path, kDefaultXBE)
      else Some (path ++ [backslash], kDefaultXBE)
    end
  end.

Lemma rfind_backslash_app dir name :
  backslash ∉ name → rfind_backslash (dir ++ backslash :: name) = Some (length dir).
Proof.
  intros Hn. unfold rfind_backslash. rewrite rev_app_distr. cbn [rev].
  rewrite <- app_assoc, find_byte_app by (by rewrite <- in_rev, <- list_elem_of_In || (rewrite list_elem_of_In, <- in_rev, <- list_elem_of_In; done)).
  cbn [find_byte app]. rewrite decide_True by done. cbn. rewrite length_rev, length_app. cbn. f_equal. lia.
Qed.

Lemma rfind_backslash_none path : backslash ∉ path → rfind_backslash path = None.
Proof.
  intros Hn. unfold rfind_backslash. rewrite (proj2 (find_byte_None _ _)); [done|].
  by rewrite list_elem_of_In, <- in_rev, <- list_elem_of_In.
Qed.

Lemma SplitXBEPath_cons `{!Boost} path :
  path ≠ [] →
  SplitXBEPath path =
  match rfind_backslash path with
  | None => if ends_with path ".xbe"%bs then Some ([backslash], path) else Some (path ++ [backslash], kDefaultXBE)
  | Some last_slash =>
    if ends_with path ".xbe"%bs then Some (take (S last_slash) path, drop (S last_slash) path)
    else if decide (last_slash = length path - 1)%nat then Some (path, kDefaultXBE)
    else Some (path ++ [backslash], kDefaultXBE)
  end.
Proof. by destruct path. Qed.

(** The path of an executable, a directory ending in a backslash and a name
    without one that ends in [.xbe], is split into these two; a name alone is
    put into the root, and the path of a directory, with or without the last
    backslash, gets the default executable. *)
Theorem SplitXBEPath_parts `{!Boost, !BoostLaws _} (dir name : bytes)
  (Hname : backslash ∉ name) (Hxbe : ∃ stem, name = stem ++ ".xbe"%bs)
  (Hdir : ¬ ∃ stem, dir = stem ++ ".xbe"%bs) :
  SplitXBEPath (dir ++ backslash :: name) = Some (dir ++ [backslash], name)
  ∧ SplitXBEPath name = Some ([backslash], name)
  ∧ SplitXBEPath (dir ++ [backslash]) = Some (dir ++ [backslash], kDefaultXBE)
  ∧ (dir ≠ [] → last dir ≠ Some backslash → SplitXBEPath dir = Some (dir ++ [backslash], kDefaultXBE)).
Proof.
  destruct Hxbe as [stem ->].
  assert (∀ s, ends_with s ".xbe"%bs = false ↔ ¬ ∃ front, s = front ++ ".xbe"%bs) as Hnot.
  { intros s. rewrite <- ends_with_spec. by destruct (ends_with s _). }
  assert (ends_with (dir ++ [backslash]) ".xbe"%bs = false) as Hslash.
  { apply Hnot. intros [front E]. apply (f_equal last) in E. rewrite last_snoc in E.
    change ".xbe"%bs with (".xb"%bs ++ ["e"%byte]) in E. by rewrite app_assoc, last_snoc in E. }
  assert (∀ front, ends_with (front ++ stem ++ ".xbe"%bs) ".xbe"%bs = true) as Hends.
  { intros front. apply ends_with_spec. exists (front ++ stem). by rewrite app_assoc. }
  split_and!.
  - rewrite SplitXBEPath_cons by (by destruct dir). rewrite rfind_backslash_app by done.
    rewrite cons_middle, app_assoc, Hends, <- app_assoc. f_equal. f_equal.
    + rewrite app_assoc, take_app_length'; [done|]. rewrite length_app. cbn. lia.
    + rewrite app_assoc, drop_app_length'; [done|]. rewrite length_app. cbn. lia.
  - rewrite SplitXBEPath_cons by (by destruct stem). rewrite rfind_backslash_none by done.
    by rewrite (Hends [] : ends_with (stem ++ ".xbe"%bs) ".xbe"%bs = true).
  - rewrite SplitXBEPath_cons by (by destruct dir). rewrite Hslash.
    rewrite (rfind_backslash_app dir []) by apply not_elem_of_nil.
    rewrite decide_True by (rewrite length_app; cbn; lia). done.
  - intros Hne Hlast. rewrite SplitXBEPath_cons by done. rewrite (proj2 (Hnot dir) Hdir).
    unfold rfind_backslash. destruct (find_byte backslash (rev dir)) as [k|] eqn:E; [|done]. cbn.
    apply find_byte_Some in E as (E & _ & Hk). rewrite length_rev in Hk. rewrite decide_False; [done|].
    intros Hl. assert (k = 0%nat) as -> by lia. cbn in E. apply Hlast.
    destruct (rev dir) as [|c rest] eqn:Er; [done|]. cbn in E. injection E as ->.
    rewrite <- (rev_involutive dir), Er. cbn [rev]. by rewrite last_snoc.
Qed.

Lemma SplitXBEPath_parts_witness :
  let B := Boost_reference.boost_reference in
  SplitXBEPath ("e:\games" ++ backslash :: "halo.xbe")%bs = Some ("e:\games\"%bs, "halo.xbe"%bs).
Proof.
  refine (proj1 (@SplitXBEPath_parts Boost_reference.boost_reference Boost_reference.boost_reference_laws
    "e:\games"%bs "halo.xbe"%bs _ _ _)).
  - apply (bool_decide_unpack _). vm_compute. exact I.
  - by exists "halo"%bs.
  - intros [stem E]. apply (f_equal last) in E. change ".xbe"%bs with (".xb"%bs ++ ["e"%byte]) in E.
    by rewrite app_assoc, last_snoc in E.
Defined.
