(* ===== verification/Target.v ===== *)
(** * Talking to the console

    What the debugger uses of [XBDMContext] (src/xbox/xbdm_context.h): sending a
    request and waiting for its completion, the notifications that arrive during
    a wait, and the registration of a handler.  The console and the connection
    to it are a state [E] with the operations of [Target]; [C] is the type of
    custom notifications.  Stateful code is written in the monad [M]. *)

From S2P Require Import Prelude CLib Boost RdcpResponse RdcpRequest Notifications.

(** ** State with failure

    [None] stands for a failed assertion, an exception nobody catches, or the
    use of a null pointer. *)
Definition M (S A : Type) : Type := S → option (A * S).

#[global] Instance M_ret {S} : MRet (M S) := λ A a s, Some (a, s).
#[global] Instance M_bind {S} : MBind (M S) := λ A B f m s, '(a, s') ← m s; f a s'.
#[global] Instance M_fail {S} : MFail (M S) := λ A _ _, None.

Definition get {S} : M S S := λ s, Some (s, s).
Definition gets {S A} (f : S → A) : M S A := λ s, Some (f s, s).
Definition put {S} (s : S) : M S unit := λ _, Some (tt, s).
Definition modify {S} (f : S → S) : M S unit := λ s, Some (tt, f s).

Definition lift_option {S A} (o : option A) : M S A := λ s, a ← o; Some (a, s).

(** [if (!condition) return r;] and the like. *)
Definition unless {S A} (b : bool) (r : A) (k : M S A) : M S A := if b then k else mret r.

(** An action on one half of a pair of states. *)
Definition on_right {S E A} (m : M E A) : M (S * E) A :=
  λ '(s, e), '(a, e') ← m e; Some (a, (s, e')).
Definition on_left {S E A} (m : M S A) : M (S * E) A :=
  λ '(s, e), '(a, s') ← m s; Some (a, (s', e)).

(** An action on a part of the state of a pair. *)
Definition zoom {S P E A} (part : S → P) (set : P → S → S) (m : M (P * E) A) : M (S * E) A :=
  λ '(s, e), '(a, (p, e')) ← m (part s, e); Some (a, (set p s, e')).

Fixpoint for_each {S A} (xs : list A) (f : A → M S unit) : M S unit :=
  match xs with
  | [] => mret tt
  | x :: xs' => f x ;; for_each xs' f
  end.

(** ** The console *)

Class Target (C E : Type) := {
  (** the answer to a request with its payload, [None] when the connection
      gives the request up *)
  answer : RDCPRequest → option bytes → E → option RDCPResponse * E;
  (** the next notification that arrives within so many milliseconds, with the
      time that is left then *)
  next_notification : Z → E → option (Notification C * Z * E);
  (** at most so many arrive in that time *)
  burst : Z → E → nat;
  (** the port of the notification server, once there is one *)
  GetNotificationServerAddress : E → option Z;
  StartNotificationListener : E → bool * E;
  RegisterNotificationHandler : E → Z * E;
  UnregisterNotificationHandler : Z → E → E;
  (** whether the handler with this number gets the notifications *)
  has_handler : Z → E → bool;
  CloseActiveConnections : E → E
}.

Section Commands.
Context {C E : Type} `{!Target C E}.

(** [SendCommandSync]: the request when it is done. *)
Definition SendCommandSync {T} (k : RequestClass T) (r : RDCPRequest) (payload : option bytes) (init : T)
  : M E (RDCPProcessedRequest T) := λ e,
  match answer r payload e with
  | (None, e') => Some (Abandon (processed r init), e')
  | (Some response, e') => done ← Complete k response (processed r init); Some (done, e')
  end.

(** [request->IsOK()] and the members. *)
Definition command {T} (k : RequestClass T) (r : RDCPRequest) (payload : option bytes) (init : T) : M E (bool * T) :=
  done ← SendCommandSync k r payload init; mret (IsOK k (status done), members done).

Definition plain_command (r : RDCPRequest) : M E bool :=
  '(ok, _) ← command plain_class r None tt; mret ok.

(** [SendCommand] with the future dropped: the completion is not waited for. *)
Definition post (r : RDCPRequest) : M E unit := λ e, Some (tt, (answer r None e).2).
End Commands.

(** ** Reasoning about stateful code

    [wp f m s Q]: the run of [m] from [s] ends in a result and a state that
    satisfy [Q]; [f] says what is known when it fails, [False] for total and
    [True] for partial correctness. *)
Definition wp {S A} (f : Prop) (m : M S A) (s : S) (Q : A → S → Prop) : Prop :=
  match m s with Some (a, s') => Q a s' | None => f end.

Section Rules.
Context {S A B : Type} (f : Prop).

Lemma wp_ret (a : A) (s : S) (Q : A → S → Prop) : wp f (mret a) s Q ↔ Q a s.
Proof. done. Qed.

Lemma wp_bind (m : M S A) (k : A → M S B) s Q :
  wp f (m ≫= k) s Q ↔ wp f m s (λ a s', wp f (k a) s' Q).
Proof. unfold wp, mbind, M_bind. by destruct (m s) as [[a s']|]. Qed.

Lemma wp_mono (m : M S A) s (Q Q' : A → S → Prop) :
  wp f m s Q → (∀ a s', Q a s' → Q' a s') → wp f m s Q'.
Proof. unfold wp. destruct (m s) as [[a s']|]; auto. Qed.

Lemma wp_true (m : M S A) s : wp True m s (λ _ _, True).
Proof. unfold wp. by destruct (m s) as [[a s']|]. Qed.

Lemma wp_and (m : M S A) s (Q Q' : A → S → Prop) : wp f m s Q → wp f m s Q' → wp f m s (λ a s', Q a s' ∧ Q' a s').
Proof. unfold wp. by destruct (m s) as [[a s']|]. Qed.

Lemma wp_unless b (r : A) (k : M S A) s Q :
  (b = false → Q r s) → (b = true → wp f k s Q) → wp f (unless b r k) s Q.
Proof. destruct b; cbn; auto. Qed.

Lemma wp_on_right {E} (m : M E A) (s : S) (e : E) Q :
  wp f (on_right m) (s, e) Q ↔ wp f m e (λ a e', Q a (s, e')).
Proof. unfold wp, on_right. cbn. by destruct (m e) as [[a e']|]. Qed.

Lemma wp_on_left {E} (m : M S A) (s : S) (e : E) Q :
  wp f (on_left m) (s, e) Q ↔ wp f m s (λ a s', Q a (s', e)).
Proof. unfold wp, on_left. cbn. by destruct (m s) as [[a s']|]. Qed.

Lemma wp_zoom {P E} (part : S → P) (set : P → S → S) (m : M (P * E) A) s (e : E) Q :
  wp f (zoom part set m) (s, e) Q ↔ wp f m (part s, e) (λ a x, Q a (set x.1 s, x.2)).
Proof. unfold wp, zoom. cbn. by destruct (m (part s, e)) as [[a [p e']]|]. Qed.

End Rules.

Lemma bind_run {S A B} (m : M S A) (k : A → M S B) s a s' : m s = Some (a, s') → (m ≫= k) s = k a s'.
Proof. intros Hm. unfold mbind, M_bind. by rewrite Hm. Qed.

Lemma lift_Some {S A B} (a : A) (k : A → M S B) s : (lift_option (Some a) ≫= k) s = k a s.
Proof. done. Qed.

Lemma wp_eq {S A} (f : Prop) (m m' : M S A) s Q : m s = m' s → wp f m' s Q → wp f m s Q.
Proof. unfold wp. by intros ->. Qed.

(** A loop over a list keeps an invariant its body keeps. *)
Lemma wp_for_each {S A} (f : Prop) (body : A → M S unit) (I : list A → S → Prop) xs :
  (∀ x xs' s, I (x :: xs') s → wp f (body x) s (λ _, I xs')) →
  ∀ s, I xs s → wp f (for_each xs body) s (λ _, I []).
Proof.
  intros Hbody. induction xs as [|x xs IH]; intros s HI; [done|]. cbn [for_each].
  apply wp_bind. eapply wp_mono; [by apply Hbody|]. cbn. auto.
Qed.
(** [m] keeps [I]: whenever it returns, the state still satisfies [I]. *)
Definition keeps {S A} (I : S → Prop) (m : M S A) : Prop := ∀ s, I s → wp True m s (λ _, I).

Create HintDb keeps.

Section Keeping.
Context {S A B : Type} (I : S → Prop).

Lemma keeps_ret (a : A) : keeps I (mret a).
Proof. by intros s. Qed.

Lemma keeps_fail : keeps I (mfail : M S A).
Proof. by intros s. Qed.

Lemma keeps_bind (m : M S A) (k : A → M S B) : keeps I m → (∀ a, keeps I (k a)) → keeps I (m ≫= k).
Proof. intros Hm Hk s Hs. apply wp_bind. eapply wp_mono; [by apply Hm|]. intros a s' Hs'. by apply Hk. Qed.

Lemma keeps_gets (g : S → A) : keeps I (gets g).
Proof. by intros s. Qed.

Lemma keeps_lift (o : option A) : keeps I (lift_option o).
Proof. intros s ?. by destruct o. Qed.

Lemma keeps_unless b (r : A) (k : M S A) : keeps I k → keeps I (unless b r k).
Proof. intros Hk. destruct b; [exact Hk|apply keeps_ret]. Qed.

Lemma keeps_modify (g : S → S) : (∀ s, I s → I (g s)) → keeps I (modify g).
Proof. intros Hg s Hs. by apply Hg. Qed.
End Keeping.

Lemma keeps_bind_wp {S A B} (I : S → Prop) (m : M S A) (k : A → M S B) :
  (∀ s, I s → wp True m s (λ a s', wp True (k a) s' (λ _, I))) → keeps I (m ≫= k).
Proof. intros Hm s Hs. apply wp_bind. auto. Qed.

Lemma keeps_lift_bind {S A B} (I : S → Prop) (o : option A) (k : A → M S B) :
  (∀ a, o = Some a → keeps I (k a)) → keeps I (lift_option o ≫= k).
Proof. intros Hk. apply keeps_bind_wp. intros s Hs. destruct o; [|done]. by apply Hk. Qed.

Lemma keeps_for_each {S A} (I : S → Prop) (xs : list A) (body : A → M S unit) :
  (∀ x, keeps I (body x)) → keeps I (for_each xs body).
Proof.
  intros Hb. induction xs as [|x xs IH]; cbn; [apply keeps_ret|]. apply keeps_bind; [done|]. by intros _.
Qed.

(** An action on a part keeps [I] when it keeps what [I] says of the part. *)
Lemma keeps_zoom {S P E A} (I : S * E → Prop) (J : P * E → Prop) (part : S → P) (set : P → S → S) (m : M (P * E) A) :
  (∀ s e, I (s, e) → J (part s, e)) →
  (∀ s e p e', I (s, e) → J (p, e') → I (set p s, e')) →
  keeps J m → keeps I (zoom part set m).
Proof.
  intros Hget Hset Hm [s e] Hs. apply wp_zoom. eapply wp_mono; [apply Hm, Hget, Hs|].
  intros a [p e'] HJ. by apply (Hset s e).
Qed.

#[export] Hint Resolve keeps_ret keeps_fail keeps_gets keeps_lift keeps_unless : keeps.
#[export] Hint Extern 2 (keeps _ (_ ≫= _)) => apply keeps_bind; [|intros ?] : keeps.
#[export] Hint Extern 2 (keeps _ (for_each _ _)) => apply keeps_for_each; intros ? : keeps.

(** A failure stays one under any postcondition. *)
Lemma wp_elim {S A} (m : M S A) s (Q : A → S → Prop) :
  wp False m s Q → ∃ a s', m s = Some (a, s') ∧ Q a s'.
Proof. unfold wp. destruct (m s) as [[a s']|]; naive_solver. Qed.

Lemma wp_partial {S A} (m : M S A) s (Q : A → S → Prop) a s' :
  wp True m s Q → m s = Some (a, s') → Q a s'.
Proof. intros H E. unfold wp in H. by rewrite E in H. Qed.

(** ** Commands whose completion reads nothing *)

Definition accepted (r : option RDCPResponse) : bool :=
  match r with Some response => status_ response =? OK | None => false end.

Section CommandRules.
Context {C E : Type} `{!Target C E}.

Lemma plain_command_run r e :
  plain_command r e = Some (accepted (answer r None e).1, (answer r None e).2).
Proof.
  unfold plain_command, command, SendCommandSync, mbind, M_bind.
  destruct (answer r None e) as [[response|] e']; reflexivity.
Qed.

Lemma wp_plain_command f r e (Q : bool → E → Prop) :
  Q (accepted (answer r None e).1) (answer r None e).2 → wp f (plain_command r) e Q.
Proof. unfold wp. by rewrite plain_command_run. Qed.

Lemma command_run {T} (k : RequestClass T) r payload init e response e' done :
  answer r payload e = (Some response, e') → Complete k response (processed r init) = Some done →
  command k r payload init e = Some (IsOK k (status done), members done, e').
Proof. intros Ha Hc. unfold command, SendCommandSync, mbind, M_bind. rewrite Ha. cbn -[Complete]. by rewrite Hc. Qed.

(** A command leaves the console as its answer does. *)
Lemma wp_command_state {T} f (k : RequestClass T) r payload init e :
  f → wp f (command k r payload init) e (λ _ e', e' = (answer r payload e).2).
Proof.
  intros Hf. unfold wp, command, SendCommandSync, mbind, M_bind.
  destruct (answer r payload e) as [[response|] e']; cbn; [|done]. by destruct (Complete k response _).
Qed.

Lemma wp_post f r e (Q : unit → E → Prop) : Q tt (answer r None e).2 → wp f (post r) e Q.
Proof. done. Qed.
End CommandRules.
