(* ===== verification/Discovery.v ===== *)
(** * Finding consoles (src/discovery/discoverer.h, discoverer.cpp)

    The packets of the protocol that tells the names of consoles, and the search for
    consoles by a broadcast.  Sockets for datagrams and the clock are an interface;
    what a negative descriptor comes to is its only law. *)

From S2P Require Import Prelude CLib IpAddress Target.

Definition XBDM_DISCOVERY_PORT : Z := 731.
Definition INADDR_BROADCAST : Z := 0xffffffff.

(** ** Packets *)

(** [NAPPacket::Type] *)
Definition INVALID : Z := 0.
Definition LOOKUP : Z := 1.
Definition REPLY : Z := 2.
Definition WILDCARD : Z := 3.

Record NAPPacket := MkNAP { nap_type : Z; nap_name : bytes }.

Definition new_NAPPacket : NAPPacket := MkNAP INVALID [].

(** Of a name of 256 bytes or more as many are copied as the low byte of its length
    says; the others are zero. *)
Definition Serialize (p : NAPPacket) : bytes :=
  let name_len := Z.to_nat (Z.land (Z.of_nat (length (nap_name p))) 0xFF) in
  byte_of (nap_type p) :: byte_of (Z.of_nat name_len)
  :: take name_len (nap_name p) ++ replicate (length (nap_name p) - name_len) NUL.

(** The number of bytes that were read, and the packet after it. *)
Definition Deserialize (buffer : bytes) (p : NAPPacket) : Z * NAPPacket :=
  match buffer with
  | type :: len :: data =>
    let p := MkNAP (byte_val type) (nap_name p) in
    let name_len := Z.to_nat (byte_val len) in
    if (length buffer <? 2 + name_len)%nat then (0, p)
    else (2 + Z.of_nat name_len, MkNAP (nap_type p) (take name_len data))
  | _ => (0, MkNAP INVALID (nap_name p))
  end.

(** ** Sockets *)

Class Datagrams (W : Type) := {
  (** [socket], [setsockopt] for broadcasts, [bind], [shutdown] with [close] *)
  open_socket : W → Z * W;
  allow_broadcast : Z → W → bool * W;
  bind_socket : Z → sockaddr_in → W → bool * W;
  close_socket : Z → W → W;
  (** [sendto] and [recvfrom] with the size of the buffer: the answer, or [None] for
      a negative one *)
  sendto : Z → bytes → sockaddr_in → W → option nat * W;
  recvfrom : Z → nat → W → option (bytes * sockaddr_in) * W;
  (** [select] for reading with a time limit in microseconds *)
  select_read : Z → Z → W → Z * W;
  (** the milliseconds since the timer was started *)
  milliseconds_elapsed : W → Z * W;
  (** a descriptor that is none is refused *)
  sendto_refused socket data to w : socket < 0 → sendto socket data to w = (None, w)
}.

Record XBDMServer := MkFound { server_name : bytes; server_ip : IPAddress }.

(** [XBDMServer::operator<] *)
Definition found_lt (a b : XBDMServer) : bool := address_lt (server_ip a) (server_ip b).

Record Discoverer := MkDiscoverer { bind_address_ : IPAddress; socket_ : Z }.

Definition new_discoverer (bind_address : IPAddress) : Discoverer := MkDiscoverer bind_address (-1).

Section Search.
Context {W : Type} `{!Datagrams W}.
Abbreviation D := (M (Discoverer * W)).

Definition on_sockets {A} (f : W → A * W) : D A := λ '(d, w), let '(a, w') := f w in Some (a, (d, w')).
Definition the_socket : D Z := gets (λ s, socket_ s.1).
Definition set_socket (fd : Z) : D unit := modify (λ s, (MkDiscoverer (bind_address_ s.1) fd, s.2)).

(** The first test takes every descriptor but 0 for a socket. *)
Definition BindSocket : D bool :=
  fd ← the_socket;
  if negb (fd =? 0) then mret true
  else
    fd ← on_sockets open_socket;
    set_socket fd ;;
    if fd <? 0 then mret false
    else
      addr ← gets (λ s, Address (bind_address_ s.1));
      broadcast ← on_sockets (allow_broadcast fd);
      bound ← (if broadcast : bool then on_sockets (bind_socket fd addr) else mret false);
      if bound : bool then mret true
      else on_sockets (λ w, (tt, close_socket fd w)) ;; set_socket (-1) ;; mret false.

(** The port is not converted to network order. *)
Definition SendDiscoveryPacket : D bool :=
  let buffer := Serialize (MkNAP WILDCARD []) in
  fd ← the_socket;
  sent ← on_sockets (sendto fd buffer (MkSockaddr AF_INET XBDM_DISCOVERY_PORT INADDR_BROADCAST));
  mret (bool_decide (sent = Some (length buffer))).

(** The result as it is after the call. *)
Definition ReceiveResponse (result : XBDMServer) : D (bool * XBDMServer) :=
  fd ← the_socket;
  received ← on_sockets (recvfrom fd 257);
  match received with
  | None => mret (false, result)
  | Some (buffer, recv_addr) =>
    let packet := (Deserialize buffer new_NAPPacket).2 in
    if negb (nap_type packet =? REPLY) then mret (false, result)
    else mret (true, MkFound (nap_name packet) (IPAddress_sockaddr recv_addr))
  end.

(** The loop of [Run]; the servers in the order in which they are inserted. *)
Fixpoint receive_responses (fuel : nat) (timeout wait_milliseconds : Z) (response : XBDMServer) : D (list XBDMServer) :=
  match fuel with
  | 0%nat => mfail
  | S fuel =>
    fd ← the_socket;
    fds ← on_sockets (select_read fd timeout);
    if fds <=? 0 then mret []
    else
      '(ok, response) ← ReceiveResponse response;
      elapsed ← on_sockets milliseconds_elapsed;
      let wait_milliseconds := i32 (wait_milliseconds - i32 elapsed) in
      rest ← (if 0 <? wait_milliseconds then receive_responses fuel (i32 (1000 * wait_milliseconds)) wait_milliseconds response
              else mret []);
      mret (if ok : bool then response :: rest else rest)
  end.

(** [Run], where [None] also stands for its failed assertion. *)
Definition Run (fuel : nat) (wait_milliseconds : Z) : D (list XBDMServer) :=
  if wait_milliseconds <? 0 then mfail
  else
    bound ← BindSocket;
    if negb bound then mret []
    else
      sent ← SendDiscoveryPacket;
      if negb sent then mret []
      else receive_responses fuel (i32 (1000 * wait_milliseconds)) wait_milliseconds (MkFound [] no_address).
End Search.

(** ** What holds *)

Lemma Serialize_short p : (length (nap_name p) < 256)%nat →
  Serialize p = byte_of (nap_type p) :: byte_of (Z.of_nat (length (nap_name p))) :: nap_name p.
Proof.
  intros Hl. unfold Serialize. change 0xFF with (Z.ones 8).
  rewrite Z.land_ones, Z.mod_small by lia. rewrite Nat2Z.id, Nat.sub_diag, firstn_all. by rewrite app_nil_r.
Qed.

(** A packet with a name of less than 256 bytes is read back from its bytes,
    whatever follows them; any part of the bytes that lacks the end is no packet. *)
Theorem nap_roundtrip (p q : NAPPacket) (rest : bytes) :
  is_u8 (nap_type p) → (length (nap_name p) < 256)%nat →
  Deserialize (Serialize p ++ rest) q = (Z.of_nat (length (Serialize p)), p)
  ∧ ∀ n, (n < length (Serialize p))%nat → (Deserialize (take n (Serialize p)) q).1 = 0.
Proof.
  intros Ht Hl. rewrite Serialize_short by done. destruct p as [type name]. cbn [nap_type nap_name] in *.
  assert (Hlen : byte_val (byte_of (Z.of_nat (length name))) = Z.of_nat (length name)) by (rewrite byte_val_of, Z.mod_small; lia).
  split.
  - unfold Deserialize. cbn [app]. rewrite Hlen, Nat2Z.id. rewrite (proj2 (Nat.ltb_ge _ _)) by (cbn [length]; rewrite length_app; lia).
    cbn [nap_type length]. f_equal; [lia|]. rewrite byte_val_of, Z.mod_small by (unfold is_u8 in Ht; lia). by rewrite take_app_length.
  - intros n Hn. destruct n as [|[|n]]; [done|done|]. cbn [take length] in *. unfold Deserialize. rewrite Hlen, Nat2Z.id.
    rewrite (proj2 (Nat.ltb_lt _ _)); [done|]. cbn [length]. rewrite length_take. lia.
Qed.

Lemma nap_roundtrip_witness :
  Deserialize (Serialize (MkNAP REPLY "deneb"%bs) ++ "x"%bs) new_NAPPacket = (7, MkNAP REPLY "deneb"%bs).
Proof.
  refine (proj1 (nap_roundtrip (MkNAP REPLY "deneb"%bs) new_NAPPacket "x"%bs _ _)); [split; [done|reflexivity]|].
  cbn. lia.
Defined.

(** No search finds a console: a new discoverer takes the descriptor that stands for no
    socket for one, makes none, and the broadcast is refused. *)
Theorem Run_finds_nothing `{!Datagrams W} (bind_address : IPAddress) (fuel : nat) (wait : Z) (w : W) :
  0 ≤ wait → Run fuel wait (new_discoverer bind_address, w) = Some ([], (new_discoverer bind_address, w)).
Proof.
  intros Hw. unfold Run. rewrite (proj2 (Z.ltb_ge _ _)) by done.
  rewrite (bind_run _ _ _ true (new_discoverer bind_address, w)) by done. cbn [negb].
  rewrite (bind_run _ _ _ false (new_discoverer bind_address, w)); [done|].
  unfold SendDiscoveryPacket. rewrite (bind_run _ _ _ (-1) (new_discoverer bind_address, w)) by done.
  rewrite (bind_run _ _ _ None (new_discoverer bind_address, w)); [done|].
  unfold on_sockets. by rewrite sendto_refused.
Qed.

(** A network on which one console answers every search; it keeps what was sent. *)
#[export] Program Instance example_network : Datagrams (list bytes) := {|
  open_socket w := (3, w);
  allow_broadcast _ w := (true, w);
  bind_socket _ _ w := (true, w);
  close_socket _ w := w;
  sendto fd data _ w := if fd <? 0 then (None, w) else (Some (length data), w ++ [data]);
  recvfrom _ _ w := (Some (Serialize (MkNAP REPLY "deneb"%bs), Address example_address), w);
  select_read _ _ w := (1, w);
  milliseconds_elapsed w := (60, w)
|}.
Next Obligation. intros fd data to w Hfd. cbn. by rewrite (proj2 (Z.ltb_lt _ _)). Qed.

(** With a descriptor of 0 to begin with, the console would be found. *)
Example search_from_zero :
  fst <$> Run 5 50 (MkDiscoverer no_address 0, []) = Some [MkFound "deneb"%bs (IPAddress_sockaddr (Address example_address))]
  ∧ Run 5 50 (new_discoverer no_address, []) = Some ([], (new_discoverer no_address, [])).
Proof. split; reflexivity. Qed.
