(* ===== verification/Console.v ===== *)
(** * A console for the examples

    A concrete [Target], on which the theorems of the debugger are tried out:
    memory and breakpoints behind the requests [break], [getmem2] and [setmem],
    stopped threads behind [isstopped], a script of replies for the other requests, a queue of notifications, and
    the lines received so far. *)

From S2P Require Import Prelude CLib Boost Parsing RdcpResponse RdcpMaps RdcpTypes RdcpRequest Requests Notifications Target.

Record Console := MkConsole {
  cells : gmap Z byte;
  traps : gset Z;
  stubborn : bool;            (* refuses breakpoints *)
  halted : gset Z;            (* the stopped threads *)
  replies : list RDCPResponse;
  events : list (Notification unit);
  sent : list bytes
}.

Definition with_traps (t : gset Z) (c : Console) : Console :=
  MkConsole (cells c) t (stubborn c) (halted c) (replies c) (events c) (sent c).
Definition with_cells (m : gmap Z byte) (c : Console) : Console :=
  MkConsole m (traps c) (stubborn c) (halted c) (replies c) (events c) (sent c).

Definition receive (r : RDCPRequest) (c : Console) : Console :=
  MkConsole (cells c) (traps c) (stubborn c) (halted c) (replies c) (events c) (sent c ++ [command_ r ++ request_data_ r]).

Definition ok : RDCPResponse := MkResponse OK [] [].
Definition refused : RDCPResponse := MkResponse ERR_UNEXPECTED [] [].

Definition cell (c : Console) (x : Z) : byte := default NUL (cells c !! x).

(** What the processor sees, with [int 3] for the breakpoints. *)
Definition visible (c : Console) (x : Z) : byte := if decide (x ∈ traps c) then byte_of 204 else cell c x.

Fixpoint write_cells (a : Z) (data : bytes) (m : gmap Z byte) : gmap Z byte :=
  match data with
  | [] => m
  | b :: data' => <[a := b]> (write_cells (a + 1) data' m)
  end.

Section Answers.
Context `{!Boost}.

Definition answer_break (r : RDCPRequest) (c : Console) : option RDCPResponse * Console :=
  match RDCPMapResponse_of (request_data_ r) with
  | None => (Some refused, c)
  | Some parsed =>
    let a := GetUInt32 "addr"%bs 0 parsed in
    if negb (HasKey "addr"%bs parsed) then (Some ok, c)
    else if stubborn c then (Some refused, c)
    else (Some ok, with_traps (if HasKey "clear"%bs parsed then traps c ∖ {[a]} else {[a]} ∪ traps c) c)
  end.

Definition answer_getmem (r : RDCPRequest) (c : Console) : option RDCPResponse * Console :=
  match RDCPMapResponse_of (request_data_ r) with
  | None => (Some refused, c)
  | Some parsed =>
    (Some (MkResponse OK_BINARY_RESPONSE []
      (map (visible c) (seqZ (GetUInt32 "addr"%bs 0 parsed) (GetUInt32 "length"%bs 0 parsed)))), c)
  end.

(** The parameters of [setmem] have a fixed form. *)
Definition answer_setmem (r : RDCPRequest) (c : Console) : option RDCPResponse * Console :=
  (Some ok, with_cells (write_cells (ParseUint32 (take 10 (drop 6 (request_data_ r))))
                          (unhex_pairs (drop 22 (request_data_ r))) (cells c)) c).

Definition answer_isstopped (r : RDCPRequest) (c : Console) : option RDCPResponse * Console :=
  match RDCPMapResponse_of (request_data_ r) with
  | None => (Some refused, c)
  | Some parsed =>
    (Some (if decide (GetUInt32 "thread"%bs 0 parsed ∈ halted c) then MkResponse OK [] "stopped"%bs
           else MkResponse ERR_NOT_STOPPED [] []), c)
  end.

(** No breakpoint survives a reboot. *)
Definition rebooted (n : Notification unit) : bool :=
  match n with NotificationExecutionStateChanged S_REBOOTING => true | _ => false end.

Definition answer_script (c : Console) : option RDCPResponse * Console :=
  match replies c with
  | [] => (None, c)
  | reply :: replies' => (Some reply, MkConsole (cells c) (traps c) (stubborn c) (halted c) replies' (events c) (sent c))
  end.

#[export] Instance console_target : Target unit Console := {
  answer r _ c :=
    let c := receive r c in
    if decide (command_ r = "break"%bs) then answer_break r c
    else if decide (command_ r = "getmem2"%bs) then answer_getmem r c
    else if decide (command_ r = "setmem"%bs) then answer_setmem r c
    else if decide (command_ r = "isstopped"%bs) then answer_isstopped r c
    else answer_script c;
  next_notification ms c :=
    match events c with
    | [] => None
    | n :: events' => Some (n, ms, MkConsole (cells c) (if rebooted n then ∅ else traps c) (stubborn c) (halted c) (replies c) events' (sent c))
    end;
  burst _ c := length (events c);
  GetNotificationServerAddress _ := Some 30000;
  StartNotificationListener c := (true, c);
  RegisterNotificationHandler c := (1, c);
  UnregisterNotificationHandler _ c := c;
  has_handler _ _ := true;
  CloseActiveConnections c := c
}.
End Answers.

Definition example_console (mem : list (Z * byte)) (t : list Z) : Console :=
  MkConsole (list_to_map mem) (list_to_set t) false ∅ [] [] [].

Lemma lookup_write_cells a data m x :
  write_cells a data m !! x
  = if decide (a ≤ x) then match data !! Z.to_nat (x - a) with Some b => Some b | None => m !! x end else m !! x.
Proof.
  revert a; induction data as [|b data IH]; intros a; cbn [write_cells]; [by destruct (decide _)|].
  destruct (decide (x = a)) as [->|Hne].
  - rewrite lookup_insert_eq, decide_True by lia. by rewrite Z.sub_diag.
  - rewrite lookup_insert_ne, IH by done. destruct (decide (a ≤ x)), (decide (a + 1 ≤ x)); try lia; [|done].
    by replace (Z.to_nat (x - a)) with (S (Z.to_nat (x - (a + 1)))) by lia.
Qed.

(** ** What the console reads *)

Section Wire.
Context `{HB : !BoostLaws B}.

Lemma BreakAddress_wire a clear :
  is_u32 a →
  ∃ parsed, RDCPMapResponse_of (request_data_ (BreakAddress a clear)) = Some parsed
    ∧ GetUInt32 "addr"%bs 0 parsed = a ∧ HasKey "addr"%bs parsed = true ∧ HasKey "clear"%bs parsed = clear.
Proof.
  intros Ha. exists (read_parameters ((if clear then [Flag "clear"%bs] else []) ++ [Pair "addr"%bs (hex_param a)])).
  split_and!.
  - apply read_parameters_of; [|by destruct clear|].
    + unfold BreakAddress, when. rewrite AppendHexString_spec. unfold parameters, field_image.
      destruct clear; cbn -[hex_param]; by rewrite ?app_nil_r, <- ?app_assoc.
    + destruct clear; cbn [app]; repeat (constructor; [by first [apply hex_entry_ok | apply (bool_decide_unpack (key_ok _))]|]);
        constructor.
  - apply GetUInt32_hex; [done|]. destruct clear; cbn; rewrite !to_lower_copy_spec; reflexivity.
  - unfold HasKey, lookup_key. destruct clear; cbn; rewrite !to_lower_copy_spec; reflexivity.
  - unfold HasKey, lookup_key. destruct clear; cbn; rewrite !to_lower_copy_spec; reflexivity.
Qed.

Lemma BreakRange_no_addr type a n clear :
  type ∈ ["read"%bs; "write"%bs] →
  ∃ parsed, RDCPMapResponse_of (request_data_ (BreakRange_ type a n clear)) = Some parsed
    ∧ HasKey "addr"%bs parsed = false.
Proof.
  intros Ht. rewrite elem_of_cons, list_elem_of_singleton in Ht.
  exists (read_parameters ((if clear then [Flag "clear"%bs] else [])
    ++ [Pair type (hex_param a)] ++ (if clear then [] else [Pair "size"%bs (hex_param n)]))). split.
  - apply read_parameters_of; [|by destruct clear|].
    + unfold BreakRange_, when. rewrite !AppendHexString_spec. unfold parameters, field_image.
      destruct clear; cbn -[hex_param]; rewrite ?AppendHexString_spec;
        cbn -[hex_param]; by rewrite ?app_nil_r, <- ?app_assoc.
    + destruct Ht as [->| ->], clear; cbn [app];
        repeat (constructor; [by first [apply hex_entry_ok | apply (bool_decide_unpack (key_ok _))]|]); constructor.
  - unfold HasKey, lookup_key. destruct Ht as [->| ->], clear; cbn; rewrite !to_lower_copy_spec; reflexivity.
Qed.

Lemma BreakAtStart_no_addr :
  ∃ parsed, RDCPMapResponse_of (request_data_ BreakAtStart) = Some parsed ∧ HasKey "addr"%bs parsed = false.
Proof.
  exists (read_parameters [Flag "start"%bs]). split.
  - apply read_parameters_of; [reflexivity|done|]. constructor; [by apply (bool_decide_unpack (key_ok _))|constructor].
  - unfold HasKey, lookup_key. cbn. rewrite !to_lower_copy_spec. reflexivity.
Qed.

Lemma IsStopped_wire i :
  is_u32 i →
  ∃ parsed, RDCPMapResponse_of (request_data_ (IsStopped i)) = Some parsed ∧ GetUInt32 "thread"%bs 0 parsed = i.
Proof.
  intros Hi. exists (read_parameters [Pair "thread"%bs (hex_param i)]). split.
  - apply read_parameters_of; [|done|].
    + unfold IsStopped. rewrite AppendHexString_spec. unfold parameters, field_image.
      cbn -[hex_param]. by rewrite ?app_nil_r, <- ?app_assoc.
    + constructor; [by apply hex_entry_ok|constructor].
  - apply GetUInt32_hex; [done|]. cbn. rewrite !to_lower_copy_spec. reflexivity.
Qed.

Lemma SetMem_wire a data r :
  SetMem a data = Some r →
  command_ r = "setmem"%bs ∧ take 10 (drop 6 (request_data_ r)) = hex_param a
  ∧ unhex_pairs (drop 22 (request_data_ r)) = data.
Proof.
  intros [Hl ->]%SetMem_inv. cbn [command_ request_data_]. split_and!; [done| |].
  - rewrite (drop_app_length' " addr="%bs) by done. by rewrite take_app_length' by (by rewrite hex_param_length).
  - rewrite !app_assoc, drop_app_length'; [apply unhex_pairs_hex|].
    rewrite !length_app, hex_param_length. reflexivity.
Qed.
End Wire.

(** Which part of the console answers. *)
Section Dispatch.
Context `{!Boost}.
Implicit Types (c : Console).

Lemma console_break r p c : command_ r = "break"%bs → answer r p c = answer_break r (receive r c).
Proof. intros Hr. cbn. by rewrite decide_True. Qed.

Lemma console_getmem r p c : command_ r = "getmem2"%bs → answer r p c = answer_getmem r (receive r c).
Proof. intros Hr. cbn. rewrite decide_False by (by rewrite Hr). by rewrite decide_True. Qed.

Lemma console_setmem r p c : command_ r = "setmem"%bs → answer r p c = answer_setmem r (receive r c).
Proof. intros Hr. cbn. rewrite !decide_False by (by rewrite Hr). by rewrite decide_True. Qed.

Lemma console_isstopped r p c : command_ r = "isstopped"%bs → answer r p c = answer_isstopped r (receive r c).
Proof. intros Hr. cbn. rewrite !decide_False by (by rewrite Hr). by rewrite decide_True. Qed.

Lemma console_script r p c :
  command_ r ∉ ["break"%bs; "getmem2"%bs; "setmem"%bs; "isstopped"%bs] → answer r p c = answer_script (receive r c).
Proof. intros Hr. rewrite !not_elem_of_cons in Hr. cbn. by rewrite !decide_False by tauto. Qed.
End Dispatch.
