(* ===== verification/DebuggerMemory.v ===== *)
(** * Memory and breakpoints (src/xbox/debugger/xbdm_debugger.cpp)

    The part of [XBDMDebugger] that memory accesses and breakpoints use: the
    known memory regions and the addresses of the breakpoints, with the
    operations on them.  A breakpoint is an instruction the console writes into
    the program, so reading memory takes the breakpoints of the range out and
    puts them back. *)

From stdpp Require Import sorting.
From S2P Require Import Prelude CLib Boost Parsing RdcpResponse RdcpMaps RdcpTypes RdcpRequest Requests Notifications Target Console.

(** [memory_regions_] and [breakpoints_], a [std::set<uint32_t>]. *)
Record Memory := MkMemory {
  memory_regions_ : list MemoryRegion;
  breakpoints_ : gset Z
}.

Definition with_regions (l : list MemoryRegion) (m : Memory) : Memory := MkMemory l (breakpoints_ m).
Definition with_breakpoints (b : gset Z) (m : Memory) : Memory := MkMemory (memory_regions_ m) b.

(** The elements of a [std::set<uint32_t>] in the order of iteration. *)
Definition ascending (s : gset Z) : list Z := merge_sort Z.le (elements s).

(** [std::list::sort] by [start], which is stable. *)
Fixpoint insert_region (r : MemoryRegion) (l : list MemoryRegion) : list MemoryRegion :=
  match l with
  | [] => [r]
  | r' :: l' => if RdcpTypes.start r <=? RdcpTypes.start r' then r :: l else r' :: insert_region r l'
  end.
Definition sort_regions (l : list MemoryRegion) : list MemoryRegion := foldr insert_region [] l.

(** The loop of [ValidateMemoryAccess]. *)
Fixpoint regions_allow (regions : list MemoryRegion) (start end_ : Z) (is_write : bool) : bool :=
  match regions with
  | [] => false
  | region :: regions' =>
    if Contains region start 1 then
      if Contains region end_ 1 then negb (is_write && negb (IsWritable region))
      else regions_allow regions' (RdcpTypes.end_ region) end_ is_write
    else regions_allow regions' start end_ is_write
  end.

Definition GetActiveBreakpointsInRange (address length : Z) (m : Memory) : list Z :=
  let end_ := u32 (address + length) in
  List.filter (λ bp, (address <=? bp) && (bp <? end_)) (ascending (breakpoints_ m)).

Section Operations.
Context `{!Boost} {C E : Type} `{!Target C E}.

(** [None] when [assert(length)] fails. *)
Definition ValidateMemoryAccess (address length : Z) (is_write : bool) : M (Memory * E) bool :=
  if length =? 0 then mfail
  else
    regions ← gets (λ s, memory_regions_ s.1);
    mret (match regions with
          | [] => true
          | _ => regions_allow regions address (u32 (address + length - 1)) is_write
          end).

Definition SuspendBreakpoints (breakpoints : list Z) : M (Memory * E) unit :=
  for_each breakpoints (λ bp, plain_ok ← on_right (plain_command (BreakAddress bp true)); mret tt).

Definition RestoreBreakpoints (breakpoints : list Z) (wait : bool) : M (Memory * E) unit :=
  for_each breakpoints (λ bp,
    if wait then plain_ok ← on_right (plain_command (BreakAddress bp false)); mret tt
    else on_right (post (BreakAddress bp false))).

Definition GetMemory (address length : Z) (validate : bool) : M (Memory * E) (option bytes) :=
  valid ← if validate then ValidateMemoryAccess address length false else mret true;
  unless valid None (
    overlaps ← gets (λ s, GetActiveBreakpointsInRange address length s.1);
    SuspendBreakpoints overlaps ;;
    '(ok, data) ← on_right (command GetMemBinary_class (GetMemBinary address length) None []);
    RestoreBreakpoints overlaps true ;;
    mret (if ok : bool then Some data else None)).

(** The first four bytes as a [uint32_t] of the host; reading a shorter
    buffer is undefined. *)
Definition GetDWORD (address : Z) : M (Memory * E) (option Z) :=
  raw ← GetMemory address 4 true;
  match raw with
  | None => mret None
  | Some data => if (length data <? 4)%nat then mfail else mret (Some (le_int (take 4 data)))
  end.

Definition SetMemory (address : Z) (data : bytes) : M (Memory * E) bool :=
  valid ← ValidateMemoryAccess address (u32 (Z.of_nat (length data))) true;
  unless valid false (
    request ← lift_option (SetMem address data);
    on_right (plain_command request)).

Definition AddBreakpoint (address : Z) : M (Memory * E) bool :=
  ok ← on_right (plain_command (BreakAddress address false));
  if ok : bool then on_left (modify (λ m, with_breakpoints ({[address]} ∪ breakpoints_ m) m)) ;; mret true
  else mret false.

Definition RemoveBreakpoint (address : Z) : M (Memory * E) bool :=
  ok ← on_right (plain_command (BreakAddress address true));
  if ok : bool then on_left (modify (λ m, with_breakpoints (breakpoints_ m ∖ {[address]}) m)) ;; mret true
  else mret false.

Definition AddReadWatch (address length : Z) : M (Memory * E) bool :=
  on_right (plain_command (BreakOnRead address length false)).
Definition AddWriteWatch (address length : Z) : M (Memory * E) bool :=
  on_right (plain_command (BreakOnWrite address length false)).
Definition RemoveReadWatch (address length : Z) : M (Memory * E) bool :=
  on_right (plain_command (BreakOnRead address length true)).
Definition RemoveWriteWatch (address length : Z) : M (Memory * E) bool :=
  on_right (plain_command (BreakOnWrite address length true)).

Definition FetchMemoryMap : M (Memory * E) bool :=
  '(ok, regions) ← on_right (command WalkMem_class WalkMem None []);
  if ok : bool then on_left (modify (with_regions (sort_regions regions))) ;; mret true
  else mret false.

(** What [OnExecutionStateChanged] does to the breakpoints: a reboot forgets
    them, a stop arms them all again without waiting. *)
Definition ForgetBreakpoints : M (Memory * E) unit := on_left (modify (with_breakpoints ∅)).

Definition RearmBreakpoints : M (Memory * E) unit :=
  breakpoints_to_restore ← gets (λ s, ascending (breakpoints_ s.1));
  RestoreBreakpoints breakpoints_to_restore false.
End Operations.

(** ** What a validated access may touch *)

Definition in_region (x : Z) (r : MemoryRegion) : Prop := RdcpTypes.start r ≤ x < RdcpTypes.end_ r.

(** A region that is not empty and ends below the last address. *)
Definition region_ok (r : MemoryRegion) : Prop :=
  0 ≤ RdcpTypes.start r ∧ RdcpTypes.start r < RdcpTypes.end_ r ∧ RdcpTypes.end_ r < 2 ^ 32.

Definition before (r r' : MemoryRegion) : Prop := RdcpTypes.end_ r ≤ RdcpTypes.start r'.

Definition disjoint_regions (l : list MemoryRegion) : Prop :=
  ∀ i j r r', l !! i = Some r → l !! j = Some r' → i ≠ j → before r r' ∨ before r' r.

Lemma Contains_one r x : region_ok r → 0 ≤ x < 2 ^ 32 - 1 → Contains r x 1 = true ↔ in_region x r.
Proof.
  intros (? & ? & ?) ?. unfold Contains, in_region. rewrite u32_id by (unfold is_u32; lia).
  rewrite andb_true_iff, !Z.leb_le. lia.
Qed.

Lemma insert_region_elem r l x : x ∈ insert_region r l ↔ x = r ∨ x ∈ l.
Proof.
  induction l as [|r' l IH]; cbn; [set_solver|]. destruct (_ <=? _); set_solver.
Qed.

Lemma sort_regions_elem l x : x ∈ sort_regions l ↔ x ∈ l.
Proof. induction l as [|r l IH]; [done|]. cbn. rewrite insert_region_elem, IH. set_solver. Qed.

Lemma insert_region_sorted r l :
  Forall region_ok (r :: l) → StronglySorted before l → (∀ x, x ∈ l → before r x ∨ before x r) →
  StronglySorted before (insert_region r l).
Proof.
  induction l as [|r' l IH]; cbn; intros Hok Hs Hd; [repeat constructor|].
  apply Forall_cons in Hok as [Hr Hok]. apply Forall_cons in Hok as [Hr' Hok].
  apply StronglySorted_inv in Hs as [Hs Hf]. rewrite Forall_forall in Hf.
  destruct Hr as (? & ? & ?), Hr' as (? & ? & ?).
  destruct (Z.leb_spec (RdcpTypes.start r) (RdcpTypes.start r')) as [Hle|Hlt].
  - assert (before r r') by (destruct (Hd r') as [|Hb]; [set_solver..|done|unfold before in *; lia]).
    constructor; [by constructor; [|apply Forall_forall]|]. apply Forall_cons. split; [done|].
    apply Forall_forall. intros x Hx. specialize (Hf x Hx). unfold before in *. lia.
  - constructor; [apply IH; [by apply Forall_cons|done|intros; apply Hd; set_solver]|].
    apply Forall_forall. intros x [->|Hx]%insert_region_elem; [|by apply Hf].
    destruct (Hd r') as [Hb|]; [set_solver|unfold before in *; lia|done].
Qed.

Lemma sort_regions_sorted l :
  Forall region_ok l → disjoint_regions l → StronglySorted before (sort_regions l).
Proof.
  induction l as [|r l IH]; intros Hok Hd; [constructor|].
  change (sort_regions (r :: l)) with (insert_region r (sort_regions l)). pose proof Hok as [Hr Hl]%Forall_cons.
  apply insert_region_sorted.
  - apply Forall_cons. split; [done|]. rewrite Forall_forall. intros x. rewrite sort_regions_elem. intros Hx.
    rewrite Forall_forall in Hl. auto.
  - apply IH; [done|]. intros i j r1 r2 H1 H2 Hij. apply (Hd (S i) (S j)); [done..|lia].
  - intros x. rewrite sort_regions_elem. intros [i Hx]%list_elem_of_lookup. by apply (Hd 0%nat (S i)).
Qed.

(** Every address from [a] to [e] lies in a region, and the last in a writable
    one when that is asked for. *)
Definition allowed (regions : list MemoryRegion) (a e : Z) (is_write : bool) : Prop :=
  (∀ x, a ≤ x ≤ e → ∃ r, r ∈ regions ∧ in_region x r)
  ∧ (is_write = true → ∃ r, r ∈ regions ∧ in_region e r ∧ IsWritable r = true).

Lemma regions_allow_spec regions a e w :
  Forall region_ok regions → StronglySorted before regions → 0 ≤ a ≤ e → e < 2 ^ 32 - 1 →
  regions_allow regions a e w = true ↔ allowed regions a e w.
Proof.
  intros Hok Hs. revert a. induction regions as [|r l IH]; intros a Ha He; cbn.
  - split; [done|]. intros [Hc _]. destruct (Hc a) as (? & Hr & _); [lia|]. set_solver.
  - apply Forall_cons in Hok as [Hr Hok]. apply StronglySorted_inv in Hs as [Hs Hf]. rewrite Forall_forall in Hf.
    specialize (IH Hok Hs). pose proof Hr as (Hr0 & Hr1 & Hr2).
    assert (Hbefore : ∀ x, x < RdcpTypes.end_ r → ¬ ∃ r', r' ∈ l ∧ in_region x r').
    { intros x Hx (r' & Hr' & ?). specialize (Hf r' Hr'). unfold before, in_region in *. lia. }
    (* whether a region before the accessed addresses is listed does not matter *)
    assert (Hskip : ∀ b, RdcpTypes.end_ r ≤ b ≤ e → allowed l b e w ↔ allowed (r :: l) b e w).
    { intros b Hb. unfold allowed. setoid_rewrite elem_of_cons. split; intros [Hc Hw]; (split; [intros x Hx|intros ->]).
      - destruct (Hc x Hx) as (r' & ? & ?). eauto.
      - destruct Hw as (r' & ? & ?); eauto.
      - destruct (Hc x Hx) as (r' & [->|] & ?); [unfold in_region in *; lia|eauto].
      - destruct Hw as (r' & [->|] & ? & ?); [done|unfold in_region in *; lia|eauto]. }
    destruct (Contains r a 1) eqn:Ca.
    + apply Contains_one in Ca; [|done|lia]. destruct (Contains r e 1) eqn:Ce.
      * apply Contains_one in Ce; [|done|lia]. rewrite negb_true_iff, andb_false_iff, negb_false_iff.
        unfold allowed. setoid_rewrite elem_of_cons. split.
        -- intros Hw. split; [intros x Hx; exists r; unfold in_region in *; (split; [auto|lia])|].
           intros ->. destruct Hw as [|]; [done|]. eauto.
        -- intros [_ Hw]. destruct w; [|auto]. right. destruct Hw as (r' & [->|Hr'] & Hin & ?); [done..|].
           destruct (Hbefore e); [unfold in_region in *; lia|eauto].
      * assert (¬ in_region e r) as Ne by (rewrite <- Contains_one by (done || lia); congruence).
        assert (RdcpTypes.end_ r ≤ e) by (unfold in_region in *; lia).
        rewrite IH by lia. rewrite Hskip by lia. unfold allowed. split; intros [Hc Hw]; (split; [|done]); intros x Hx.
        -- destruct (Z.lt_ge_cases x (RdcpTypes.end_ r)) as [|]; [|apply Hc; lia].
           exists r. split; [set_solver|unfold in_region in *; lia].
        -- apply Hc. unfold in_region in *. lia.
    + assert (¬ in_region a r) as Na by (rewrite <- Contains_one by (done || lia); congruence).
      rewrite IH by lia. destruct (Z.lt_ge_cases a (RdcpTypes.end_ r)) as [Hlt|]; [|apply Hskip; lia].
      split; intros [Hc _]; destruct (Hc a) as (r' & Hr' & Hin); [lia| |lia|];
        [destruct (Hbefore a Hlt); eauto|].
      apply elem_of_cons in Hr' as [->|Hr']; [done|destruct (Hbefore a Hlt); eauto].
Qed.

(** C36. Validation against the memory map: for the regions the console
    reports, in any order, disjoint and below the last address, an access is
    allowed exactly when every address of it lies in a region and, for a
    write, the last one lies in a writable region.  The protection of the
    regions before the last is not looked at.  Without a map everything is
    allowed, and an empty access fails the assertion. *)
Theorem ValidateMemoryAccess_spec `{!Target C E} (regions : list MemoryRegion) (bps : gset Z) (e : E)
  (address length : Z) (is_write : bool)
  (Hok : Forall region_ok regions) (Hd : disjoint_regions regions)
  (Ha : 0 ≤ address) (Hl : 0 ≤ length) (Hend : address + length < 2 ^ 32) :
  let m := MkMemory (sort_regions regions) bps in
  (length = 0 → ValidateMemoryAccess address length is_write (m, e) = None)
  ∧ (0 < length → ∃ ok,
      ValidateMemoryAccess address length is_write (m, e) = Some (ok, (m, e))
      ∧ (ok = true ↔ regions = [] ∨ allowed regions address (address + length - 1) is_write)).
Proof.
  split; [by intros ->|]. intros Hpos. unfold ValidateMemoryAccess. rewrite (proj2 (Z.eqb_neq _ _)) by lia.
  eexists. split; [reflexivity|]. cbn. rewrite u32_id by (unfold is_u32; lia).
  assert (Forall region_ok (sort_regions regions)) as Hok'.
  { rewrite Forall_forall in *. intros x. rewrite sort_regions_elem. auto. }
  assert (allowed (sort_regions regions) address (address + length - 1) is_write
          ↔ allowed regions address (address + length - 1) is_write) as <-.
  { unfold allowed. by setoid_rewrite sort_regions_elem. }
  rewrite <- regions_allow_spec; [|done|by apply sort_regions_sorted|lia|lia].
  destruct regions as [|r l]; [cbn; tauto|].
  destruct (sort_regions (r :: l)) eqn:Hsort; [|naive_solver].
  exfalso. apply (not_elem_of_nil r). rewrite <- Hsort. apply sort_regions_elem. set_solver.
Qed.

(** ** Reading memory under breakpoints *)

(** The instruction [int 3]. *)
Definition INT3 : byte := byte_of 204.

(** The requests of the debugger that set or clear no breakpoint. *)
Inductive other_request : RDCPRequest → Prop :=
  | other_command r : command_ r ≠ "break"%bs → other_request r
  | other_OnRead a n clear : other_request (BreakOnRead a n clear)
  | other_OnWrite a n clear : other_request (BreakOnWrite a n clear)
  | other_AtStart : other_request BreakAtStart.
#[export] Hint Constructors other_request : keeps.

(** A console with memory and breakpoints: [break] sets or clears a breakpoint
    when it accepts the request and leaves everything alone when not, [getmem2]
    returns memory as the processor sees it, [setmem] writes it where no
    breakpoint is, and the other requests set no breakpoint.  From a [willing] state no request about memory that exists is
    refused. *)
Class BreakpointTarget (E : Type) {C : Type} `{!Boost} `{!Target C E} := {
  armed : E → gset Z;
  memory : E → Z → byte;
  willing : E → Prop;
  break_answer a clear e : is_u32 a →
    let '(r, e') := answer (BreakAddress a clear) None e in
    armed e' = (if accepted r then if clear then armed e ∖ {[a]} else {[a]} ∪ armed e else armed e)
    ∧ (∀ x, memory e' x = memory e x)
    ∧ (willing e → accepted r = true ∧ willing e');
  read_answer a n e : is_u32 a → is_u32 n → a + n ≤ 2 ^ 32 →
    let '(r, e') := answer (GetMemBinary a n) None e in
    armed e' = armed e
    ∧ (∀ x, memory e' x = memory e x)
    ∧ (willing e → willing e' ∧ ∃ response,
        r = Some response ∧ status_ response = OK_BINARY_RESPONSE
        ∧ data_ response = map (λ x, if decide (x ∈ armed e) then INT3 else memory e x) (seqZ a n));
  write_answer a data request e :
    0 ≤ a → a + Z.of_nat (length data) ≤ 2 ^ 32 → (∀ x, x ∈ armed e → ¬ a ≤ x < a + Z.of_nat (length data)) →
    SetMem a data = Some request → willing e →
    let '(r, e') := answer request None e in
    accepted r = true ∧ willing e' ∧ armed e' = armed e
    ∧ (∀ x, memory e' x = if decide (a ≤ x) then default (memory e x) (data !! Z.to_nat (x - a)) else memory e x);
  other_answer r payload e : other_request r → armed (answer r payload e).2 ⊆ armed e
}.

(** The addresses of [s] in a range. *)
Definition in_range (address length : Z) (s : gset Z) : gset Z :=
  filter (λ x, address ≤ x < address + length) s.

Lemma elem_of_ascending s x : x ∈ ascending s ↔ x ∈ s.
Proof. unfold ascending. by rewrite merge_sort_Permutation, elem_of_elements. Qed.

(** A range that ends with the address space has no breakpoint in it: the sum
    wraps to 0. *)
Lemma elem_of_overlaps address length m x :
  0 ≤ address → 0 ≤ length → address + length ≤ 2 ^ 32 →
  x ∈ GetActiveBreakpointsInRange address length m
  ↔ address + length < 2 ^ 32 ∧ x ∈ in_range address length (breakpoints_ m).
Proof.
  intros ? ? ?. unfold GetActiveBreakpointsInRange, in_range.
  rewrite list_elem_of_In, filter_In, <- list_elem_of_In, elem_of_ascending, elem_of_filter.
  rewrite andb_true_iff, Z.leb_le, Z.ltb_lt. destruct (decide (address + length = 2 ^ 32)) as [E|].
  - rewrite E. change (u32 (2 ^ 32)) with 0. lia.
  - rewrite u32_id by (unfold is_u32; lia). intuition lia.
Qed.

Section Transparent.
Context `{!Boost} {C E : Type} `{!Target C E, !BreakpointTarget E}.
Implicit Types (e : E) (m : Memory).

(** Nothing but the breakpoints of a console changed. *)
Definition rearranged e e' : Prop := (∀ x, memory e' x = memory e x) ∧ (willing e → willing e').

Lemma rearranged_refl e : rearranged e e.
Proof. done. Qed.
Lemma rearranged_trans e1 e2 e3 : rearranged e1 e2 → rearranged e2 e3 → rearranged e1 e3.
Proof. intros [H1 ?] [H2 ?]. split; [|auto]. intros x. by rewrite H2, H1. Qed.

(** A list of requests to set or to clear, sent to a console that is willing. *)
Definition toggled (clear : bool) (l : list Z) (s : gset Z) : gset Z :=
  if clear then s ∖ list_to_set l else list_to_set l ∪ s.

Lemma toggled_cons clear a l s :
  toggled clear l (if clear then s ∖ {[a]} else {[a]} ∪ s) = toggled clear (a :: l) s.
Proof. unfold toggled. destruct clear; set_solver. Qed.

Lemma wp_toggle clear (body : Z → M (Memory * E) unit) l f m e :
  (∀ a e Q, Q tt (m, (answer (BreakAddress a clear) None e).2) → wp f (body a) (m, e) Q) →
  Forall is_u32 l → willing e →
  wp f (for_each l body) (m, e) (λ _ '(m', e'),
    m' = m ∧ armed e' = toggled clear l (armed e) ∧ rearranged e e').
Proof.
  intros Hbody Hl Hw.
  set (I := λ l' '(m', e'), m' = m ∧ Forall is_u32 l' ∧ rearranged e e'
              ∧ toggled clear l' (armed e') = toggled clear l (armed e)).
  eapply wp_mono; [apply (wp_for_each f body I)|].
  - intros a l' [m' e'] (-> & Hl' & Hr & Ht). apply Forall_cons in Hl' as [Ha Hl'].
    apply Hbody. cbn. pose proof (break_answer a clear e' Ha) as Hb.
    destruct (answer (BreakAddress a clear) None e') as [r e'']. destruct Hb as (Hset & Hmem & Hok).
    destruct (Hok (proj2 Hr Hw)) as [Hacc Hw']. rewrite Hacc in Hset. cbn.
    split_and!; [done|done|by apply rearranged_trans with e'|]. by rewrite Hset, toggled_cons.
  - cbn. auto using rearranged_refl.
  - intros _ [m' e'] (-> & _ & ? & Ht). unfold toggled in Ht at 1. split_and!; [done|rewrite <- Ht|done].
    destruct clear; set_solver.
Qed.

Lemma wp_Suspend l f m e :
  Forall is_u32 l → willing e →
  wp f (SuspendBreakpoints l) (m, e) (λ _ '(m', e'),
    m' = m ∧ armed e' = toggled true l (armed e) ∧ rearranged e e').
Proof.
  apply wp_toggle. intros a e0 Q HQ. apply wp_bind, wp_on_right, wp_plain_command. exact HQ.
Qed.

Lemma wp_Restore l wait f m e :
  Forall is_u32 l → willing e →
  wp f (RestoreBreakpoints l wait) (m, e) (λ _ '(m', e'),
    m' = m ∧ armed e' = toggled false l (armed e) ∧ rearranged e e').
Proof.
  apply wp_toggle. intros a e0 Q HQ. destruct wait.
  - apply wp_bind, wp_on_right, wp_plain_command. exact HQ.
  - apply wp_on_right, wp_post. exact HQ.
Qed.

Lemma wp_read a n f m e :
  is_u32 a → is_u32 n → a + n ≤ 2 ^ 32 → willing e →
  wp f (on_right (command GetMemBinary_class (GetMemBinary a n) None [])) (m, e) (λ '(ok, data) '(m', e'),
    m' = m ∧ armed e' = armed e ∧ rearranged e e' ∧ ok = true
    ∧ data = map (λ x, if decide (x ∈ armed e) then INT3 else memory e x) (seqZ a n)).
Proof.
  intros Ha Hn Hend Hw. apply wp_on_right. unfold wp, command, SendCommandSync, mbind, M_bind.
  pose proof (read_answer a n e Ha Hn Hend) as Hr. destruct (answer (GetMemBinary a n) None e) as [r e'].
  destruct Hr as (Harm & Hmem & Hok). destruct (Hok Hw) as (Hw' & response & -> & Hs & Hd).
  cbn. unfold if_ok. rewrite Hs. cbn. by rewrite Hd.
Qed.
End Transparent.

(** The breakpoints [GetMemory] takes out of a range. *)
Definition hidden (address length : Z) (m : Memory) : gset Z :=
  if address + length <? 2 ^ 32 then in_range address length (breakpoints_ m) else ∅.

Lemma overlaps_hidden address length m :
  0 ≤ address → 0 ≤ length → address + length ≤ 2 ^ 32 →
  list_to_set (GetActiveBreakpointsInRange address length m) = hidden address length m.
Proof.
  intros. apply set_eq. intros x. rewrite elem_of_list_to_set, elem_of_overlaps by done. unfold hidden.
  destruct (Z.ltb_spec (address + length) (2 ^ 32)); set_solver by lia.
Qed.

Lemma overlaps_u32 address length m :
  set_Forall is_u32 (breakpoints_ m) → Forall is_u32 (GetActiveBreakpointsInRange address length m).
Proof.
  intros Hall. apply Forall_forall. unfold GetActiveBreakpointsInRange. intros x.
  rewrite list_elem_of_In, filter_In, <- list_elem_of_In, elem_of_ascending. intros [? _]. by apply Hall.
Qed.

Section Access.
Context `{!Boost} {C E : Type} `{!Target C E, !BreakpointTarget E}.

Lemma wp_GetMemory (m : Memory) (e : E) address length validate f :
  willing e → set_Forall is_u32 (breakpoints_ m) →
  0 ≤ address → 0 < length < 2 ^ 32 → address + length ≤ 2 ^ 32 →
  (validate = true → ValidateMemoryAccess address length false (m, e) = Some (true, (m, e))) →
  wp f (GetMemory address length validate) (m, e) (λ data '(m', e'),
    m' = m ∧ rearranged e e' ∧ armed e' = armed e ∪ hidden address length m
    ∧ data = Some (map (λ x, if decide (x ∈ armed e ∖ hidden address length m) then INT3 else memory e x)
                     (seqZ address length))).
Proof.
  intros Hw Hbp Ha Hl Hend Hvalid. pose proof (overlaps_u32 address length m Hbp) as Hov.
  assert (wp f (if validate then ValidateMemoryAccess address length false else mret true) (m, e)
            (λ ok s, ok = true ∧ s = (m, e))) as Hv.
  { destruct validate; [|done]. unfold wp. by rewrite Hvalid. }
  unfold GetMemory. apply wp_bind. eapply wp_mono; [exact Hv|]. intros ? ? [-> ->]. cbn [unless].
  apply wp_bind. change (wp f (gets ?g) ?s ?Q) with (Q (g s) s). cbn [fst].
  apply wp_bind. eapply wp_mono; [by apply wp_Suspend|]. intros _ [? e1] (-> & H1 & R1).
  apply wp_bind. eapply wp_mono; [by apply wp_read; [unfold is_u32; lia..|done|apply R1]|].
  intros [ok data] [? e2] (-> & H2 & R2 & -> & ->).
  apply wp_bind. eapply wp_mono; [apply wp_Restore; [done|]|].
  { apply R2, R1, Hw. }
  intros _ [? e3] (-> & H3 & R3). apply wp_ret. unfold toggled in *. rewrite overlaps_hidden in * by lia.
  split_and!; [done|eauto using rearranged_trans|rewrite H3, H2, H1; apply set_eq; intros x;
    destruct (decide (x ∈ hidden address length m)); set_solver|].
  f_equal. apply map_ext. intros x. rewrite H1. by rewrite (proj1 R1).
Qed.

(** C10. Breakpoints are transparent: reading memory that may be read returns
    the bytes of the program, not the instructions that stop it, and leaves
    memory and breakpoints as they were (a breakpoint of the range that was
    out is put back) - unless the range ends with the address space, where the
    end wraps to 0 and no breakpoint is taken out. *)
Theorem GetMemory_transparent (m : Memory) (e : E) (address length : Z) (validate : bool)
  (Hw : willing e) (Hbp : set_Forall is_u32 (breakpoints_ m)) (Harmed : armed e ⊆ breakpoints_ m)
  (Ha : 0 ≤ address) (Hl : 0 < length < 2 ^ 32) (Hend : address + length ≤ 2 ^ 32)
  (Hvalid : validate = true → ValidateMemoryAccess address length false (m, e) = Some (true, (m, e))) :
  ∃ e',
    GetMemory address length validate (m, e)
    = Some (Some (map (λ x, if decide (address + length = 2 ^ 32 ∧ x ∈ armed e) then INT3 else memory e x)
                    (seqZ address length)), (m, e'))
    ∧ armed e' = armed e ∪ hidden address length m
    ∧ (∀ x, memory e' x = memory e x) ∧ willing e'.
Proof.
  pose proof (wp_GetMemory m e address length validate False Hw Hbp Ha Hl Hend Hvalid) as Hrun.
  apply wp_elim in Hrun as (data & [m' e'] & Hrun & -> & [Hmem Hw'] & Harm & ->).
  exists e'. split_and!; [|done|done|auto]. rewrite Hrun. do 3 f_equal. apply list_fmap_ext.
  intros i x [-> Hi]%lookup_seqZ. apply decide_ext. unfold hidden, in_range.
  destruct (Z.ltb_spec (address + length) (2 ^ 32)); [|set_solver by lia].
  rewrite elem_of_difference, elem_of_filter. split; [|lia]. intros [? []]. split; [lia|auto].
Qed.

(** Arming everything again, when some breakpoints may be out. *)
Lemma wp_Rearm (m : Memory) (e : E) f :
  willing e → set_Forall is_u32 (breakpoints_ m) → armed e ⊆ breakpoints_ m →
  wp f RearmBreakpoints (m, e) (λ _ '(m', e'), m' = m ∧ rearranged e e' ∧ armed e' = breakpoints_ m).
Proof.
  intros Hw Hbp Hsub. unfold RearmBreakpoints. apply wp_bind. change (wp f (gets ?g) ?s ?Q) with (Q (g s) s).
  eapply wp_mono; [apply wp_Restore; [|done]|].
  - apply Forall_forall. intros x. cbn. rewrite elem_of_ascending. apply Hbp.
  - intros _ [? e'] (-> & Harm & ?). split_and!; [done..|]. rewrite Harm. unfold toggled. cbn [fst].
    apply set_eq. intros x. rewrite elem_of_union, elem_of_list_to_set, elem_of_ascending. set_solver.
Qed.
End Access.

(** ** The debugger never forgets a breakpoint *)

Section Invariant.
Context `{!Boost} {C E : Type} `{!Target C E, !BreakpointTarget E}.

(** A call of an operation of this file, with any answers. *)
Inductive memory_step : Memory * E → Memory * E → Prop :=
  | step_GetMemory a n v r s s' : GetMemory a n v s = Some (r, s') → memory_step s s'
  | step_GetDWORD a r s s' : GetDWORD a s = Some (r, s') → memory_step s s'
  | step_SetMemory a data r s s' : SetMemory a data s = Some (r, s') → memory_step s s'
  | step_AddBreakpoint a r s s' : is_u32 a → AddBreakpoint a s = Some (r, s') → memory_step s s'
  | step_RemoveBreakpoint a r s s' : is_u32 a → RemoveBreakpoint a s = Some (r, s') → memory_step s s'
  | step_AddReadWatch a n r s s' : AddReadWatch a n s = Some (r, s') → memory_step s s'
  | step_AddWriteWatch a n r s s' : AddWriteWatch a n s = Some (r, s') → memory_step s s'
  | step_RemoveReadWatch a n r s s' : RemoveReadWatch a n s = Some (r, s') → memory_step s s'
  | step_RemoveWriteWatch a n r s s' : RemoveWriteWatch a n s = Some (r, s') → memory_step s s'
  | step_FetchMemoryMap r s s' : FetchMemoryMap s = Some (r, s') → memory_step s s'
  | step_Rearm r s s' : RearmBreakpoints s = Some (r, s') → memory_step s s'.

(** Every breakpoint set on the console is known. *)
Definition known : Memory * E → Prop := λ '(m, e),
  armed e ⊆ breakpoints_ m ∧ set_Forall is_u32 (breakpoints_ m).

Lemma known_break (m : Memory) e a clear :
  a ∈ breakpoints_ m → known (m, e) → known (m, (answer (BreakAddress a clear) None e).2).
Proof.
  intros Ha [Hsub Hall]. split; [|done]. pose proof (break_answer a clear e (Hall a Ha)) as Hb.
  destruct (answer _ None e) as [r e']. destruct Hb as [Harm _]. cbn. rewrite Harm.
  destruct (accepted r), clear; set_solver.
Qed.

Lemma known_toggle (body : Z → M (Memory * E) unit) clear l s :
  (∀ a m e Q, Q tt (m, (answer (BreakAddress a clear) None e).2) → wp True (body a) (m, e) Q) →
  (∀ a, a ∈ l → a ∈ breakpoints_ s.1) → known s →
  wp True (for_each l body) s (λ _ s', s'.1 = s.1 ∧ known s').
Proof.
  intros Hbody Hl Hk. eapply wp_mono;
    [apply (wp_for_each True body (λ l' s', s'.1 = s.1 ∧ (∀ a, a ∈ l' → a ∈ breakpoints_ s.1) ∧ known s'))|].
  - intros a l' [m e] (E1 & Hl' & Hk'). cbn in E1. subst m. apply Hbody. split; [done|]. split.
    + intros b Hb. apply Hl'. set_solver.
    + apply known_break; [|done]. apply Hl'. set_solver.
  - done.
  - intros _ s' (? & _ & ?). done.
Qed.

Lemma known_command {T} (k : RequestClass T) r payload init (s : Memory * E) :
  other_request r → known s →
  wp True (on_right (command k r payload init)) s (λ _ s', s'.1 = s.1 ∧ known s').
Proof.
  destruct s as [m e]. intros Hr [Hsub Hall]. apply wp_on_right.
  pose proof (other_answer r payload e Hr) as Harm. pose proof (wp_command_state True k r payload init e I) as Hrun.
  eapply wp_mono; [exact Hrun|]. intros a e' ->. split; [done|]. split; [set_solver|done].
Qed.

Lemma known_overlaps a n (m : Memory) x : x ∈ GetActiveBreakpointsInRange a n m → x ∈ breakpoints_ m.
Proof.
  unfold GetActiveBreakpointsInRange. rewrite list_elem_of_In, filter_In, <- list_elem_of_In, elem_of_ascending.
  by intros [? _].
Qed.

Lemma known_validate a n w (s : Memory * E) :
  wp True (ValidateMemoryAccess a n w) s (λ _ s', s' = s).
Proof. unfold ValidateMemoryAccess. by destruct (n =? 0). Qed.

Lemma validate_state a n w (m : Memory) (e e' : E) b :
  ValidateMemoryAccess a n w (m, e) = Some (b, (m, e)) → ValidateMemoryAccess a n w (m, e') = Some (b, (m, e')).
Proof.
  unfold ValidateMemoryAccess. destruct (n =? 0); [done|]. unfold mbind, M_bind, gets, mret, M_ret. cbn.
  intros Hb. injection Hb as Hb. rewrite Hb. done.
Qed.

Lemma known_GetMemory a n v s : known s → wp True (GetMemory a n v) s (λ _ s', known s').
Proof.
  intros Hk. unfold GetMemory. apply wp_bind. eapply wp_mono.
  { instantiate (1 := λ _ s', s' = s). destruct v; [apply known_validate|done]. }
  intros ok ? ->. apply wp_unless; [done|]. intros _. apply wp_bind.
  change (wp True (gets ?g) ?s ?Q) with (Q (g s) s). cbn beta. apply wp_bind. eapply wp_mono.
  { apply (known_toggle _ true); [|by apply known_overlaps|done].
    intros b m e Q HQ. by apply wp_bind, wp_on_right, wp_plain_command. }
  intros _ s1 [E1 Hk1]. apply wp_bind. eapply wp_mono; [apply known_command; [auto with keeps|done]|].
  intros [ok' data] s2 [E2 Hk2]. apply wp_bind. eapply wp_mono.
  { apply (known_toggle _ false); [|rewrite E2, E1; by apply known_overlaps|done].
    intros b m e Q HQ. by apply wp_bind, wp_on_right, wp_plain_command. }
  by intros _ s3 [_ ?].
Qed.

Lemma SetMem_other a data r : SetMem a data = Some r → other_request r.
Proof. intros [_ ->]%SetMem_inv. by constructor. Qed.

Lemma known_plain r s : other_request r → known s →
  wp True (on_right (plain_command r)) s (λ _ s', known s').
Proof.
  destruct s as [m e]. intros Hr [Hsub Hall]. apply wp_on_right, wp_plain_command.
  pose proof (other_answer r None e Hr). split; [set_solver|done].
Qed.

(** The invariant, for use by other components. *)
Lemma known_step (s s' : Memory * E) : known s → memory_step s s' → known s'.
Proof.
  intros Hk Hstep. destruct Hstep as [a n v r s s' Hop|a r s s' Hop|a data r s s' Hop|a r s s' Ha Hop|a r s s' Ha Hop
    |a n r s s' Hop|a n r s s' Hop|a n r s s' Hop|a n r s s' Hop|r s s' Hop|r s s' Hop]; refine (wp_partial _ _ (λ _, known) _ _ _ Hop).
  - by apply known_GetMemory.
  - unfold GetDWORD. apply wp_bind. eapply wp_mono; [by apply known_GetMemory|].
    intros [data|] s1 Hk1; [|done]. by destruct (length data <? 4)%nat.
  - unfold SetMemory. apply wp_bind. eapply wp_mono; [apply known_validate|]. intros ok ? ->.
    apply wp_unless; [done|]. intros _. apply wp_bind. destruct (SetMem a data) as [request|] eqn:Hr; [|done].
    change (wp True (lift_option (Some request)) s ?Q) with (Q request s). apply known_plain; [by apply SetMem_other with a data|done].
  - destruct s as [m e], Hk as [Hsub Hall]. unfold AddBreakpoint. apply wp_bind, wp_on_right, wp_plain_command.
    pose proof (break_answer a false e Ha) as Hb. destruct (answer _ None e) as [r' e']. destruct Hb as [Harm _]. cbn.
    destruct (accepted r'); [|split; [by rewrite Harm|done]]. split; cbn; [rewrite Harm; set_solver|].
    apply set_Forall_union; [by apply set_Forall_singleton|done].
  - destruct s as [m e], Hk as [Hsub Hall]. unfold RemoveBreakpoint. apply wp_bind, wp_on_right, wp_plain_command.
    pose proof (break_answer a true e Ha) as Hb. destruct (answer _ None e) as [r' e']. destruct Hb as [Harm _]. cbn.
    destruct (accepted r'); [|split; [by rewrite Harm|done]]. split; cbn; [rewrite Harm; set_solver|].
    intros x Hx. apply Hall. set_solver.
  - apply known_plain; [auto with keeps|done].
  - apply known_plain; [auto with keeps|done].
  - apply known_plain; [auto with keeps|done].
  - apply known_plain; [auto with keeps|done].
  - unfold FetchMemoryMap. apply wp_bind. eapply wp_mono; [apply known_command; [auto with keeps|done]|].
    intros [ok regions] [m e] [_ Hk1]. by destruct ok.
  - unfold RearmBreakpoints. apply wp_bind. change (wp True (gets ?g) ?s ?Q) with (Q (g s) s).
    eapply wp_mono; [apply (known_toggle _ false); [|intros x; apply elem_of_ascending|done]|].
    + intros b m e Q HQ. by apply wp_on_right, wp_post.
    + by intros _ s1 [_ ?].
Qed.

(** Reading below the end of the address space. *)
Lemma GetMemory_run (m : Memory) (e : E) (address length : Z) (validate : bool) :
  willing e → set_Forall is_u32 (breakpoints_ m) → armed e ⊆ breakpoints_ m →
  0 ≤ address → 0 < length → address + length < 2 ^ 32 →
  (validate = true → ValidateMemoryAccess address length false (m, e) = Some (true, (m, e))) →
  ∃ e', GetMemory address length validate (m, e) = Some (Some (map (memory e) (seqZ address length)), (m, e'))
    ∧ armed e' = armed e ∪ hidden address length m ∧ willing e' ∧ (∀ x, memory e' x = memory e x).
Proof.
  intros Hw Hbp Harmed Ha Hl Hend Hv.
  pose proof (wp_GetMemory m e address length validate False Hw Hbp Ha ltac:(lia) ltac:(lia) Hv) as Hrun.
  apply wp_elim in Hrun as (data & [m' e'] & Hrun & -> & [Hmem Hw'] & Harm & ->). exists e'.
  split; [|by auto]. rewrite Hrun. do 3 f_equal. apply list_fmap_ext. intros i x [-> Hi]%lookup_seqZ.
  rewrite decide_False; [done|]. unfold hidden, in_range. rewrite (proj2 (Z.ltb_lt _ _)) by lia.
  rewrite elem_of_difference, elem_of_filter. intros [? []]. split; [lia|auto].
Qed.

(** Writing where no breakpoint is. *)
Lemma SetMemory_run (m : Memory) (e : E) (address : Z) (data : bytes) :
  willing e → (∀ x, x ∈ armed e → ¬ address ≤ x < address + Z.of_nat (length data)) →
  0 ≤ address → 0 < Z.of_nat (length data) ≤ kMaximumDataSize → address + Z.of_nat (length data) ≤ 2 ^ 32 →
  ValidateMemoryAccess address (Z.of_nat (length data)) true (m, e) = Some (true, (m, e)) →
  ∃ e1, SetMemory address data (m, e) = Some (true, (m, e1))
    ∧ willing e1 ∧ armed e1 = armed e
    ∧ (∀ x, memory e1 x = if decide (address ≤ x) then default (memory e x) (data !! Z.to_nat (x - address)) else memory e x).
Proof.
  intros Hw Hfree Ha Hl Hend Hvalid.
  assert (∃ request, SetMem address data = Some request) as [request Hreq].
  { unfold SetMem. rewrite (proj2 (Z.leb_le _ _)) by lia. eauto. }
  pose proof (write_answer address data request e Ha ltac:(lia) Hfree Hreq Hw) as Hans.
  assert (kMaximumDataSize < 2 ^ 32) by (by vm_compute).
  assert (SetMemory address data (m, e) = Some (accepted (answer request None e).1, (m, (answer request None e).2))) as Hset.
  { unfold SetMemory, mbind, M_bind. rewrite u32_id, Hvalid, Hreq by (unfold is_u32; lia). cbn [mret unless].
    unfold lift_option, on_right. cbn. by rewrite plain_command_run. }
  destruct (answer request None e) as [r e1]. destruct Hans as (Hacc & Hw1 & Harm1 & Hmem). cbn [fst snd] in *.
  rewrite Hacc in Hset. by exists e1.
Qed.

(** What was written, at its place. *)
Lemma written_bytes (f g : Z → byte) (address : Z) (data : bytes) :
  (∀ x, f x = if decide (address ≤ x) then default (g x) (data !! Z.to_nat (x - address)) else g x) →
  map f (seqZ address (Z.of_nat (length data))) = data.
Proof.
  intros Hf. apply list_eq. intros i. change (map ?f ?l) with (f <$> l). rewrite list_lookup_fmap.
  destruct (decide (i < length data)%nat) as [Hi|Hi].
  - rewrite lookup_seqZ_lt by lia. cbn. rewrite Hf, decide_True by lia.
    replace (Z.to_nat (address + Z.of_nat i - address)) with i by lia.
    apply lookup_lt_is_Some in Hi as [b Hb]. by rewrite Hb.
  - rewrite lookup_seqZ_ge, lookup_ge_None_2 by lia. done.
Qed.

(** What is written is read back: a write of up to 120 bytes to memory that may be
    written, where no breakpoint is, succeeds, and the same bytes are then read
    from there. *)
Theorem memory_roundtrip (m : Memory) (e : E) (address : Z) (data : bytes)
  (Hw : willing e) (Hbp : set_Forall is_u32 (breakpoints_ m)) (Harmed : armed e ⊆ breakpoints_ m)
  (Hfree : ∀ x, x ∈ breakpoints_ m → ¬ address ≤ x < address + Z.of_nat (length data))
  (Ha : 0 ≤ address) (Hl : 0 < Z.of_nat (length data) ≤ kMaximumDataSize)
  (Hend : address + Z.of_nat (length data) < 2 ^ 32)
  (Hvalid : ∀ w, ValidateMemoryAccess address (Z.of_nat (length data)) w (m, e) = Some (true, (m, e))) :
  ∃ e1 e2,
    SetMemory address data (m, e) = Some (true, (m, e1))
    ∧ GetMemory address (Z.of_nat (length data)) true (m, e1) = Some (Some data, (m, e2)).
Proof.
  destruct (SetMemory_run m e address data Hw) as (e1 & Hset & Hw1 & Harm1 & Hmem); [by auto|done..|lia|by apply Hvalid|].
  exists e1. destruct (GetMemory_run m e1 address (Z.of_nat (length data)) true) as (e2 & Hget & _);
    [done|done|by rewrite Harm1|done|lia|done| |].
  { intros _. by apply (validate_state _ _ _ _ e). }
  exists e2. split; [done|]. rewrite Hget. by erewrite written_bytes by exact Hmem.
Qed.
End Invariant.

(** ** The example console is such a console *)

Section Instance_.
Context `{HB : !BoostLaws B}.

#[global] Instance console_breakpoints : BreakpointTarget Console.
Proof.
  refine {| armed := traps; memory := cell; willing := λ c, stubborn c = false |}.
  - intros a clear c Ha. rewrite console_break by (destruct clear; reflexivity).
    destruct (BreakAddress_wire a clear Ha) as (parsed & Hp & Hget & Hkey & Hclear).
    unfold answer_break. rewrite Hp, Hkey, Hget, Hclear. cbn [negb receive stubborn].
    destruct (stubborn c) eqn:Hs; cbn; (split; [done|split; [done|by rewrite ?Hs]]).
  - intros a n c Ha Hn _. rewrite console_getmem by done.
    destruct (GetMemBinary_wire a n Ha Hn) as (parsed & Hp & Hget & Hlen).
    unfold answer_getmem. rewrite Hp, Hget, Hlen. split; [done|]. split; [done|]. intros Hw. split; [done|].
    eexists. split_and!; reflexivity.
  - intros a data request c Ha Hend _ Hreq Hw. pose proof (SetMem_wire a data request Hreq) as (Hc & Hta & Htd).
    rewrite console_setmem by done. unfold answer_setmem. rewrite Htd, Hta.
    split; [done|]. split; [done|]. split; [done|]. intros x. unfold cell. cbn [with_cells cells receive]. rewrite lookup_write_cells.
    destruct (decide (Z.of_nat (length data) = 0)) as [E|].
    + destruct data; [|done]. cbn. by repeat destruct (decide _).
    + unfold hex_param. rewrite u32_id by (unfold is_u32; lia). rewrite ParseUint32_fmt_0x by (unfold is_u32; lia).
      destruct (decide (a ≤ x)); [|done]. by destruct (data !! _).
  - assert (∀ type a n clear c, type ∈ ["read"%bs; "write"%bs] →
      traps (answer_break (BreakRange_ type a n clear) (receive (BreakRange_ type a n clear) c)).2 ⊆ traps c) as Hrange.
    { intros type a n clear c Ht. destruct (BreakRange_no_addr type a n clear Ht) as (parsed & Hp & Hk).
      unfold answer_break. by rewrite Hp, Hk. }
    intros r p c [r' Hr|a n clear|a n clear|].
    + destruct (decide (command_ r' = "getmem2"%bs)).
      { rewrite console_getmem by done. unfold answer_getmem. by destruct (RDCPMapResponse_of _). }
      destruct (decide (command_ r' = "setmem"%bs)); [by rewrite console_setmem|].
      destruct (decide (command_ r' = "isstopped"%bs)).
      { rewrite console_isstopped by done. unfold answer_isstopped. by destruct (RDCPMapResponse_of _). }
      rewrite console_script by (rewrite !not_elem_of_cons; split_and!; [done..|apply not_elem_of_nil]).
      unfold answer_script. by destruct (replies _).
    + rewrite console_break by (destruct clear; reflexivity). apply Hrange. set_solver.
    + rewrite console_break by (destruct clear; reflexivity). apply Hrange. set_solver.
    + rewrite console_break by reflexivity. destruct BreakAtStart_no_addr as (parsed & Hp & Hk).
      unfold answer_break. by rewrite Hp, Hk.
Defined.
End Instance_.

Definition example_map : list MemoryRegion :=
  [region_of 8192 4096 4 ∅; region_of 4096 4096 2 ∅].

(** Four bytes of program at 4096 with breakpoints on the first two. *)
Definition example_target : Console :=
  example_console [(4096, byte_of 144); (4097, byte_of 85); (4098, byte_of 137); (4099, byte_of 229)] [4096; 4097].

Definition example_state : Memory := MkMemory (sort_regions example_map) {[4096; 4097; 9000]}.

(** Two regions in the wrong order: an access across their border is allowed,
    for writing too, although the first region is read-only. *)
Lemma ValidateMemoryAccess_spec_witness :
  let B := Boost_reference.boost_reference in
  ∃ ok,
    ValidateMemoryAccess 8190 4 true (MkMemory (sort_regions example_map) ∅, example_target)
    = Some (ok, (MkMemory (sort_regions example_map) ∅, example_target))
    ∧ (ok = true ↔ example_map = [] ∨ allowed example_map 8190 (8190 + 4 - 1) true).
Proof.
  refine (proj2 (@ValidateMemoryAccess_spec unit Console (@console_target Boost_reference.boost_reference) example_map ∅ example_target 8190 4 true _ _ _ _ _) _);
    try lia.
  - repeat constructor; cbn; lia.
  - intros [|[|i]] [|[|j]] r r' Hi Hj Hij; cbn in Hi, Hj; simplify_eq; try done; [right|left]; vm_compute; discriminate.
Defined.

Lemma GetMemory_transparent_witness :
  let B := Boost_reference.boost_reference in
  ∃ e',
    GetMemory 4096 4 true (example_state, example_target)
    = Some (Some (map (λ x, if decide (4096 + 4 = 2 ^ 32 ∧ x ∈ traps example_target) then INT3 else cell example_target x)
                    (seqZ 4096 4)), (example_state, e'))
    ∧ traps e' = traps example_target ∪ hidden 4096 4 example_state
    ∧ (∀ x, cell e' x = cell example_target x) ∧ stubborn e' = false.
Proof.
  refine (@GetMemory_transparent Boost_reference.boost_reference unit Console console_target
    (@console_breakpoints _ Boost_reference.boost_reference_laws) example_state example_target 4096 4 true _ _ _ _ _ _ _);
    [reflexivity | | | lia.. | reflexivity].
  - by_evaluation.
  - by_evaluation.
Defined.

Lemma memory_roundtrip_witness :
  let B := Boost_reference.boost_reference in
  ∃ e1 e2,
    SetMemory 8500 "data"%bs (example_state, example_target) = Some (true, (example_state, e1))
    ∧ GetMemory 8500 4 true (example_state, e1) = Some (Some "data"%bs, (example_state, e2)).
Proof.
  refine (@memory_roundtrip Boost_reference.boost_reference unit Console console_target
    (@console_breakpoints _ Boost_reference.boost_reference_laws) example_state example_target 8500 "data"%bs _ _ _ _ _ _ _ _).
  - reflexivity.
  - by_evaluation.
  - by_evaluation.
  - intros x Hx. set_unfold in Hx. change (Z.of_nat (length "data"%bs)) with 4. lia.
  - lia.
  - change (0 < 4 ≤ 120). lia.
  - change (8500 + 4 < 2 ^ 32). lia.
  - intros []; reflexivity.
Defined.
