(* ===== verification/DebuggerThread.v ===== *)
(** * Threads of the target (src/xbox/debugger/thread.h, thread.cpp)

    What is known of one thread and the requests that concern it. *)

From S2P Require Import Prelude CLib Boost RdcpResponse RdcpMaps RdcpTypes StopReasons RdcpRequest Requests Notifications Target.

Definition TRAP_FLAG : Z := 256.

Record Thread := MkThread {
  id : Z;
  suspend_count : option Z;
  priority : option Z;
  tls_base : option Z;
  start : option Z;
  base : option Z;
  limit : option Z;
  create_timestamp : option Z;
  context : option ThreadContext;
  float_context : option ThreadFloatContext;
  last_known_address : option Z;
  stopped : bool;
  last_stop_reason : option StopReason
}.

(** [Thread(thread_id)] *)
Definition new_thread (thread_id : Z) : Thread :=
  MkThread thread_id None None None None None None None None None None false None.

Definition with_info (i : option ThreadInfoMembers) (t : Thread) : Thread :=
  MkThread (id t) (Requests.suspend_count <$> i) (Requests.priority <$> i) (Requests.tls_base <$> i)
    (thread_start <$> i) (thread_base <$> i) (thread_limit <$> i) (thread_create_timestamp <$> i)
    (context t) (float_context t) (last_known_address t) (stopped t) (last_stop_reason t).

Definition with_context (c : option ThreadContext) (t : Thread) : Thread :=
  MkThread (id t) (suspend_count t) (priority t) (tls_base t) (start t) (base t) (limit t) (create_timestamp t)
    c (float_context t) (last_known_address t) (stopped t) (last_stop_reason t).

Definition with_float (f : option ThreadFloatContext) (t : Thread) : Thread :=
  MkThread (id t) (suspend_count t) (priority t) (tls_base t) (start t) (base t) (limit t) (create_timestamp t)
    (context t) f (last_known_address t) (stopped t) (last_stop_reason t).

Definition with_address (a : option Z) (t : Thread) : Thread :=
  MkThread (id t) (suspend_count t) (priority t) (tls_base t) (start t) (base t) (limit t) (create_timestamp t)
    (context t) (float_context t) a (stopped t) (last_stop_reason t).

Definition with_stop (s : bool) (r : option StopReason) (t : Thread) : Thread :=
  MkThread (id t) (suspend_count t) (priority t) (tls_base t) (start t) (base t) (limit t) (create_timestamp t)
    (context t) (float_context t) (last_known_address t) s r.

Section Operations.
Context `{!Boost} {C E : Type} `{!Target C E}.

(** A request about the thread. *)
Definition ask {T} (k : RequestClass T) (r : Z → RDCPRequest) (init : T) : M (Thread * E) (bool * T) :=
  t ← gets fst; on_right (command k (r (id t)) None init).

Definition set_thread (f : Thread → Thread) : M (Thread * E) unit := on_left (modify f).

Definition FetchInfoSync : M (Thread * E) bool :=
  '(ok, info) ← ask ThreadInfo_class ThreadInfo (MkThreadInfo 0 0 0 0 0 0 0);
  if ok : bool then set_thread (with_info (Some info)) ;; mret true
  else set_thread (with_info None) ;; mret false.

Definition FetchContextSync : M (Thread * E) bool :=
  t ← gets fst;
  request ← lift_option (GetContext (id t) true true true);
  '(ok, c) ← on_right (command GetContext_class request None Reset);
  if ok : bool then set_thread (with_context (Some c)) ;; mret true
  else set_thread (with_context None) ;; mret false.

(** [SetContext] with its payload. *)
Definition set_context (request : RDCPRequest * option bytes) : M (Thread * E) bool :=
  '(ok, _) ← on_right (command plain_class request.1 request.2 tt); mret ok.

Definition PushContextSync : M (Thread * E) bool :=
  t ← gets fst;
  match context t with
  | None => mret false
  | Some c => set_context (SetContext (id t) c)
  end.

Definition FetchFloatContextSync : M (Thread * E) bool :=
  '(ok, f) ← ask GetExtContext_class GetExtContext float_init;
  if ok : bool then set_thread (with_float (Some f)) ;; mret true
  else set_thread (with_float None) ;; mret false.

Definition PushFloatContextSync : M (Thread * E) bool :=
  t ← gets fst;
  match float_context t with
  | None => mret false
  | Some f => set_context (SetContext_float (id t) f)
  end.

Definition FetchStopReasonSync : M (Thread * E) bool :=
  '(ok, state) ← ask IsStopped_class IsStopped (MkStopped false None);
  if ok : bool then
    set_thread (with_stop (Requests.stopped state) (stop_reason state)) ;; mret true
  else set_thread (λ t, with_stop (stopped t) None t) ;; mret false.

Definition simple (k : RequestClass unit) (r : Z → RDCPRequest) : M (Thread * E) bool :=
  '(ok, _) ← ask k r tt; mret ok.

Definition Halt : M (Thread * E) bool := simple plain_class Requests.Halt.

(** [break_on_exceptions] is not passed on; the request's own argument has the
    default [false]. *)
Definition Continue (break_on_exceptions : bool) : M (Thread * E) bool :=
  simple Continue_class (λ id, Requests.Continue id false).

Definition Suspend : M (Thread * E) bool := simple plain_class Requests.Suspend.
Definition Resume : M (Thread * E) bool := simple plain_class Requests.Resume.

Definition with_eflags (v : Z) (c : ThreadContext) : ThreadContext :=
  MkContext (ebp c) (esp c) (eip c) (Some v) (eax c) (ebx c) (ecx c) (edx c) (edi c) (esi c) (cr0_npx_state c).

(** [new_flags == flags] compares an [uint32_t] with an [optional<int32_t>]:
    both sides are converted to unsigned. *)
Definition StepInstruction : M (Thread * E) bool :=
  ok ← FetchContextSync;
  unless ok false (
    t ← gets fst;
    c ← lift_option (context t);
    match eflags c with
    | None => mret false
    | Some flags =>
      let new_flags := Z.lor (u32 flags) TRAP_FLAG in
      if new_flags =? u32 flags then mret true
      else
        ok ← set_context (SetContext (id t) (with_eflags (i32 new_flags) c));
        unless ok false (Continue true)
    end).

(** Comparisons with an empty [optional]: anything is greater than it, and it
    is not at least anything. *)
Definition HasStack (address : Z) (t : Thread) : bool :=
  match limit t with Some l => l <? address | None => true end
  && match base t with Some b => address <=? b | None => false end.
End Operations.

(** ** What the operations leave alone

    A thread keeps its identifier, and the console keeps what no request about
    threads changes. *)

(** The commands of the operations on threads. *)
Definition thread_command (c : bytes) : bool :=
  bool_decide (c ∈ ["threads"%bs; "threadinfo"%bs; "isstopped"%bs; "getcontext"%bs; "setcontext"%bs; "getextcontext"%bs;
                    "halt"%bs; "continue"%bs; "suspend"%bs; "resume"%bs]).

Section Keeps.
Context `{!Boost} {C E : Type} `{!Target C E}.
Context (J : E → Prop) (HJ : ∀ r payload e, thread_command (command_ r) = true → J e → J (answer r payload e).2).

Definition thread_kept (i : Z) (s : Thread * E) : Prop := id s.1 = i ∧ J s.2.

Lemma keeps_request {S T} (I : S * E → Prop) (k : RequestClass T) r payload init :
  (∀ s e e', I (s, e) → J e' → I (s, e')) → (∀ s e, I (s, e) → J e) → thread_command (command_ r) = true →
  keeps I (on_right (command k r payload init)).
Proof.
  intros Hset Hget Hr [s e] HI. apply wp_on_right. eapply wp_mono; [by apply wp_command_state|].
  intros a e' ->. eapply Hset; [done|]. eauto.
Qed.

Lemma keeps_ask {T} i (k : RequestClass T) r init :
  (∀ i, thread_command (command_ (r i)) = true) → keeps (thread_kept i) (ask k r init).
Proof.
  intros Hr. apply keeps_bind; [auto with keeps|]. intros t.
  apply keeps_request; [by intros ? ? ? [? ?] ?|by intros ? ? [? ?]|done].
Qed.

Lemma keeps_set_thread i (f : Thread → Thread) : (∀ t, id (f t) = id t) → keeps (thread_kept i) (set_thread f).
Proof. intros Hf [t e] [? ?]. apply wp_on_left. split; [|done]. by cbn; rewrite Hf. Qed.

Lemma keeps_set_context i request :
  thread_command (command_ request.1) = true → keeps (thread_kept i) (set_context request).
Proof.
  intros Hr. apply keeps_bind; [|intros [? ?]; auto with keeps].
  apply keeps_request; [by intros ? ? ? [? ?] ?|by intros ? ? [? ?]|done].
Qed.

Hint Resolve keeps_set_context : keeps.

(** A request, its answer kept in the thread, and the verdict. *)
Lemma keeps_fetch {T} i (k : RequestClass T) r init (f : T → Thread → Thread) (g : Thread → Thread) :
  (∀ i, thread_command (command_ (r i)) = true) → (∀ m t, id (f m t) = id t) → (∀ t, id (g t) = id t) →
  keeps (thread_kept i) ('(ok, m) ← ask k r init; if ok : bool then set_thread (f m) ;; mret true else set_thread g ;; mret false).
Proof.
  intros Hr Hf Hg. apply keeps_bind; [by apply keeps_ask|]. intros [[] m]; apply keeps_bind; auto with keeps;
    apply keeps_set_thread; auto.
Qed.

Lemma keeps_FetchInfoSync i : keeps (thread_kept i) FetchInfoSync.
Proof. unfold FetchInfoSync. by apply (keeps_fetch i _ _ _ (λ m, with_info (Some m))). Qed.

Lemma keeps_FetchFloatContextSync i : keeps (thread_kept i) FetchFloatContextSync.
Proof. unfold FetchFloatContextSync. by apply (keeps_fetch i _ _ _ (λ m, with_float (Some m))). Qed.

Lemma keeps_FetchStopReasonSync i : keeps (thread_kept i) FetchStopReasonSync.
Proof. unfold FetchStopReasonSync. by apply (keeps_fetch i _ _ _ (λ m, with_stop (Requests.stopped m) (stop_reason m))). Qed.

Lemma keeps_FetchContextSync i : keeps (thread_kept i) FetchContextSync.
Proof.
  apply keeps_bind; [auto with keeps|]. intros t. apply keeps_lift_bind. intros request [= <-].
  apply keeps_bind; [apply keeps_request; [by intros ? ? ? [? ?] ?|by intros ? ? [? ?]|done]|].
  intros [[] c]; apply keeps_bind; auto with keeps; by apply keeps_set_thread.
Qed.

Lemma keeps_simple i k r : (∀ i, thread_command (command_ (r i)) = true) → keeps (thread_kept i) (simple k r).
Proof. intros Hr. apply keeps_bind; [by apply keeps_ask|]. intros [? ?]. auto with keeps. Qed.

Lemma keeps_Continue i b : keeps (thread_kept i) (Continue b).
Proof. by apply keeps_simple. Qed.

Lemma keeps_StepInstruction i : keeps (thread_kept i) StepInstruction.
Proof.
  apply keeps_bind; [apply keeps_FetchContextSync|]. intros ok. apply keeps_unless.
  apply keeps_bind; [auto with keeps|]. intros t. apply keeps_bind; [auto with keeps|]. intros c.
  destruct (eflags c) as [flags|]; [|auto with keeps]. cbn zeta. destruct (Z.lor (u32 flags) TRAP_FLAG =? u32 flags); [auto with keeps|].
  apply keeps_bind; [by apply keeps_set_context|]. intros ok'. apply keeps_unless, keeps_Continue.
Qed.
End Keeps.
