(* ===== verification/DebuggerThreads.v ===== *)
(** * The threads of the debugger (src/xbox/debugger/xbdm_debugger.cpp)

    The part of [XBDMDebugger] that keeps the threads of the target: the list
    [threads_] of shared pointers and the identifier of the active thread.  A
    pointer is the position of its object in a store that only grows, so that an
    object stays reachable through a pointer taken before the list changed. *)

From S2P Require Import Prelude CLib Boost Parsing RdcpResponse RdcpMaps RdcpTypes RdcpRequest Requests Notifications Target Console DebuggerThread.

Abbreviation ptr := nat.

Record ThreadTable := MkTable {
  active_thread_id_ : option Z;
  threads_ : list ptr;
  objects : list Thread
}.

Definition with_active (a : option Z) (t : ThreadTable) : ThreadTable := MkTable a (threads_ t) (objects t).
Definition with_threads (l : list ptr) (t : ThreadTable) : ThreadTable := MkTable (active_thread_id_ t) l (objects t).
Definition with_objects (o : list Thread) (t : ThreadTable) : ThreadTable := MkTable (active_thread_id_ t) (threads_ t) o.

(** [std::make_shared<Thread>(thread_id)], appended to the list. *)
Definition emplace_thread (thread_id : Z) (t : ThreadTable) : ThreadTable :=
  MkTable (active_thread_id_ t) (threads_ t ++ [length (objects t)]) (objects t ++ [new_thread (u32 thread_id)]).

(** [thread->thread_id == id] *)
Definition has_id (t : ThreadTable) (thread_id : Z) (p : ptr) : bool :=
  match objects t !! p with Some thread => id thread =? thread_id | None => false end.

Definition GetThread (thread_id : Z) (t : ThreadTable) : option ptr :=
  snd <$> list_find (λ p, has_id t thread_id p = true) (threads_ t).

Definition ActiveThread (t : ThreadTable) : option ptr :=
  thread_id ← active_thread_id_ t; GetThread thread_id t.

(** The identifiers of the threads in the list. *)
Definition thread_ids (t : ThreadTable) : list Z := omap (λ p, id <$> objects t !! p) (threads_ t).

Definition ActiveThreadID (t : ThreadTable) : option Z :=
  p ← ActiveThread t; id <$> objects t !! p.

Definition AnyThreadID (t : ThreadTable) : option Z :=
  match threads_ t with
  | [] => None
  | p :: _ => match active_thread_id_ t with
              | Some a => Some a
              | None => id <$> objects t !! p
              end
  end.

Definition GetAnyThread (t : ThreadTable) : option ptr :=
  thread_id ← AnyThreadID t; GetThread thread_id t.

Definition GetThreadIDs (t : ThreadTable) : list Z :=
  match threads_ t with
  | [] => []
  | _ => match active_thread_id_ t with
         | Some a => a :: List.filter (λ i, negb (i =? a)) (thread_ids t)
         | None => thread_ids t
         end
  end.

Definition SetActiveThread (thread_id : Z) (t : ThreadTable) : bool * ThreadTable :=
  match GetThread thread_id t with
  | Some _ => (true, with_active (Some thread_id) t)
  | None => (false, with_active None t)
  end.

(** [threads_.push_back] unless the thread is known; the identifier of the
    message is an [int], compared and kept as [uint32_t]. *)
Definition OnThreadCreated (thread_id : Z) (t : ThreadTable) : ThreadTable :=
  match GetThread (u32 thread_id) t with
  | Some _ => t
  | None => emplace_thread thread_id t
  end.

(** [threads_.erase(it)] *)
Definition erase_ptr (p : ptr) (l : list ptr) : list ptr :=
  match list_find (λ q, q = p) l with Some (i, _) => delete i l | None => l end.

Definition OnThreadTerminated (thread_id : Z) (t : ThreadTable) : ThreadTable :=
  match GetThread (u32 thread_id) t with
  | None => t
  | Some p =>
    let t' := if bool_decide (active_thread_id_ t = Some (u32 thread_id)) then with_active None t else t in
    with_threads (erase_ptr p (threads_ t)) t'
  end.

Section Operations.
Context `{!Boost} {C E : Type} `{!Target C E}.

(** A member function called through a pointer; [None] is a dangling one. *)
Definition on_thread {A} (p : ptr) (m : M (Thread * E) A) : M (ThreadTable * E) A :=
  λ '(t, e), thread ← objects t !! p; '(a, (thread', e')) ← m (thread, e);
             Some (a, (with_objects (<[p := thread']> (objects t)) t, e')).

Definition thread_at (p : ptr) : M (ThreadTable * E) Thread :=
  t ← gets fst; lift_option (objects t !! p).

(** The first thread of [l], but the one excluded, that the target says is
    stopped. *)
Fixpoint first_stopped (excluded : option Z) (l : list ptr) : M (ThreadTable * E) (option ptr) :=
  match l with
  | [] => mret None
  | p :: l' =>
    thread ← thread_at p;
    if bool_decide (excluded = Some (id thread)) then first_stopped excluded l'
    else
      known ← on_thread p FetchStopReasonSync;
      thread ← thread_at p;
      if known && stopped thread then mret (Some p) else first_stopped excluded l'
  end.

Definition GetFirstStoppedThread : M (ThreadTable * E) (option ptr) :=
  t ← gets fst;
  match threads_ t with
  | [] => mret None
  | threads =>
    let others := first_stopped (active_thread_id_ t) threads in
    match ActiveThread t with
    | None => others
    | Some p =>
      known ← on_thread p FetchStopReasonSync;
      thread ← thread_at p;
      if known && stopped thread then mret (Some p) else others
    end
  end.

(** The threads of the answer replace those known; the active thread stays. *)
Definition FetchThreads : M (ThreadTable * E) bool :=
  '(ok, ids) ← on_right (command Threads_class Requests.Threads None []);
  if ok : bool then
    on_left (modify (λ t, foldl (λ t i, emplace_thread i t) (with_threads [] t) ids)) ;;
    t ← gets fst;
    for_each (threads_ t) (λ p, info_ok ← on_thread p FetchInfoSync; mret tt) ;;
    mret true
  else mret false.

(** [no_break_on_exception] ends in the argument [Thread::Continue] ignores. *)
Definition ContinueThread (thread_id : Z) (no_break_on_exception : bool) : M (ThreadTable * E) bool :=
  t ← gets fst;
  match GetThread thread_id t with
  | None => mret false
  | Some p => on_thread p (Continue no_break_on_exception)
  end.

Fixpoint continue_all (l : list ptr) (no_break_on_exception ret : bool) : M (ThreadTable * E) bool :=
  match l with
  | [] => mret ret
  | p :: l' =>
    ok ← on_thread p (Continue no_break_on_exception);
    continue_all l' no_break_on_exception (ok && ret)
  end.

Definition ContinueAll (no_break_on_exception : bool) : M (ThreadTable * E) bool :=
  t ← gets fst; continue_all (threads_ t) no_break_on_exception true.

(** [Halt()] of the active thread. *)
Definition HaltActive : M (ThreadTable * E) bool :=
  t ← gets fst;
  match ActiveThread t with
  | None => mret false
  | Some p => on_thread p DebuggerThread.Halt
  end.
End Operations.

(** ** The table as a roster

    What the table stands for: the identifiers of the known threads in order,
    and the active one. *)

Record Roster := MkRoster { known_ids : list Z; active_id : option Z }.

Definition roster_of (t : ThreadTable) : Roster := MkRoster (thread_ids t) (active_thread_id_ t).

Inductive thread_event := Created (i : Z) | Terminated (i : Z) | Activated (i : Z).

Definition apply_event (ev : thread_event) (t : ThreadTable) : ThreadTable :=
  match ev with
  | Created i => OnThreadCreated i t
  | Terminated i => OnThreadTerminated i t
  | Activated i => (SetActiveThread i t).2
  end.

Definition roster_event (ev : thread_event) (r : Roster) : Roster :=
  match ev with
  | Created i => MkRoster (if decide (u32 i ∈ known_ids r) then known_ids r else known_ids r ++ [u32 i]) (active_id r)
  | Terminated i => MkRoster (filter (λ j, j ≠ u32 i) (known_ids r))
                      (if decide (active_id r = Some (u32 i) ∧ u32 i ∈ known_ids r) then None else active_id r)
  | Activated i => MkRoster (known_ids r) (if decide (i ∈ known_ids r) then Some i else None)
  end.

(** No dangling and no repeated pointer. *)
Definition table_ok (t : ThreadTable) : Prop :=
  NoDup (threads_ t) ∧ Forall (λ p, (p < length (objects t))%nat) (threads_ t).

(** Identifiers are unique and the active thread is one of them. *)
Definition roster_ok (r : Roster) : Prop :=
  NoDup (known_ids r) ∧ from_option (λ a, a ∈ known_ids r) True (active_id r).

Lemma has_id_true t i p : has_id t i p = true ↔ ∃ thread, objects t !! p = Some thread ∧ id thread = i.
Proof.
  unfold has_id. destruct (objects t !! p) as [thread|]; [rewrite Z.eqb_eq|]; naive_solver.
Qed.

Lemma GetThread_Some t i p :
  GetThread i t = Some p → p ∈ threads_ t ∧ ∃ thread, objects t !! p = Some thread ∧ id thread = i.
Proof.
  unfold GetThread. intros ([j q] & Hf & ->)%fmap_Some. apply list_find_Some in Hf as (Hj & Hp & _). cbn [snd].
  split; [by eapply list_elem_of_lookup_2|by apply has_id_true].
Qed.

Lemma elem_of_thread_ids t i :
  i ∈ thread_ids t ↔ ∃ p thread, p ∈ threads_ t ∧ objects t !! p = Some thread ∧ id thread = i.
Proof.
  unfold thread_ids. rewrite list_elem_of_omap. split.
  - intros (p & Hp & (thread & Ht & ->)%fmap_Some). eauto.
  - intros (p & thread & Hp & Ht & <-). exists p. by rewrite Ht.
Qed.

Lemma GetThread_None t i : GetThread i t = None ↔ i ∉ thread_ids t.
Proof.
  unfold GetThread. rewrite fmap_None, list_find_None, Forall_forall, elem_of_thread_ids.
  setoid_rewrite has_id_true. naive_solver.
Qed.

Lemma GetThread_known t i : i ∈ thread_ids t ↔ is_Some (GetThread i t).
Proof.
  rewrite is_Some_alt. pose proof (GetThread_None t i) as Hn. destruct (GetThread i t) as [p|] eqn:E.
  - split; [done|]. intros _. apply GetThread_Some in E as (? & ? & ? & ?). apply elem_of_thread_ids. eauto.
  - split; [|done]. intros Hi. by apply Hn.
Qed.

(** Objects a list of pointers does not reach do not matter. *)
Lemma ids_ext (l : list ptr) (o o' : list Thread) :
  (∀ p, p ∈ l → id <$> o !! p = id <$> o' !! p) →
  omap (λ p, id <$> o !! p) l = omap (λ p, id <$> o' !! p) l.
Proof.
  induction l as [|p l IH]; intros Heq; [done|]. cbn. rewrite Heq, IH by set_solver. done.
Qed.

Lemma thread_ids_emplace i t : table_ok t → thread_ids (emplace_thread i t) = thread_ids t ++ [u32 i].
Proof.
  intros [_ Hlt]. unfold thread_ids, emplace_thread. cbn [threads_ objects]. rewrite omap_app. f_equal.
  - apply ids_ext. intros p Hp. rewrite Forall_forall in Hlt. by rewrite lookup_app_l by auto.
  - cbn. by rewrite list_lookup_middle by done.
Qed.

Lemma emplace_ok i t : table_ok t → table_ok (emplace_thread i t).
Proof.
  intros [Hnd Hlt]. unfold table_ok, emplace_thread. cbn [threads_ objects]. rewrite length_app. cbn. split.
  - apply NoDup_app. split_and!; [done| |apply NoDup_singleton]. intros p Hp ->%list_elem_of_singleton.
    rewrite Forall_forall in Hlt. apply Hlt in Hp. lia.
  - apply Forall_app. split; [|by apply Forall_singleton; lia]. eapply Forall_impl; [exact Hlt|]. cbn. lia.
Qed.

(** Erasing the thread found for [i] erases exactly the identifier [i]. *)
Lemma erase_spec t i p :
  NoDup (thread_ids t) → GetThread i t = Some p →
  omap (λ p, id <$> objects t !! p) (erase_ptr p (threads_ t)) = filter (λ j, j ≠ i) (thread_ids t)
  ∧ erase_ptr p (threads_ t) `sublist_of` threads_ t.
Proof.
  intros Hnd Hget. apply GetThread_Some in Hget as (Hp & thread & Ht & Hid). unfold erase_ptr.
  destruct (list_find_elem_of (λ q, q = p) (threads_ t) p Hp eq_refl) as [[k q] E]. rewrite E.
  apply list_find_Some in E as (Hk & -> & _). split; [|apply sublist_delete].
  unfold thread_ids in *. apply list_elem_of_split_length in Hk as (l1 & l2 & El & ->). rewrite El in *.
  rewrite delete_middle. rewrite !omap_app in *. cbn in *. rewrite Ht in *. cbn in *. rewrite Hid in *.
  apply NoDup_app in Hnd as (_ & Hd & [Hni _]%NoDup_cons). rewrite filter_app, filter_cons_False by naive_solver.
  rewrite !filter_all; [done| |]; intros x Hx ->; [done|]. apply (Hd i Hx). set_solver.
Qed.

(** One event on the table is that event on the roster. *)
Lemma event_refines ev t :
  table_ok t → NoDup (thread_ids t) →
  roster_of (apply_event ev t) = roster_event ev (roster_of t) ∧ table_ok (apply_event ev t).
Proof.
  intros Hok Hnd. destruct ev as [i|i|i]; cbn [apply_event roster_event known_ids active_id roster_of].
  - unfold OnThreadCreated. destruct (decide (u32 i ∈ thread_ids t)) as [Hi|Hi].
    + apply GetThread_known in Hi as [p ->]. done.
    + rewrite (proj2 (GetThread_None _ _) Hi). split; [|by apply emplace_ok]. unfold roster_of.
      by rewrite thread_ids_emplace.
  - unfold OnThreadTerminated. destruct (GetThread (u32 i) t) as [p|] eqn:E.
    + assert (u32 i ∈ thread_ids t) as Hi by (apply GetThread_known; eauto).
      destruct (erase_spec t (u32 i) p Hnd E) as [Hids Hsub]. unfold roster_of, thread_ids in *.
      rewrite <- Hids. set (t' := if bool_decide _ then _ else _).
      assert (objects t' = objects t) as Ho by (unfold t'; by destruct (bool_decide _)).
      cbn [with_threads threads_ objects active_thread_id_]. rewrite Ho. split.
      * f_equal. unfold t'. case_bool_decide; [by rewrite decide_True|by rewrite decide_False by tauto].
      * destruct Hok as [Hd Hlt]. split; cbn [with_threads threads_ objects]; [by eapply sublist_NoDup|].
        rewrite Ho. rewrite Forall_forall in *. intros q Hq. apply Hlt. by eapply elem_of_sublist.
    + apply GetThread_None in E. split; [|done]. unfold roster_of. rewrite decide_False by tauto.
      by rewrite filter_all by (intros x Hx ->; done).
  - unfold SetActiveThread. destruct (decide (i ∈ thread_ids t)) as [Hi|Hi].
    + by apply GetThread_known in Hi as [p ->].
    + by rewrite (proj2 (GetThread_None _ _) Hi).
Qed.

Lemma roster_event_ok ev r : roster_ok r → roster_ok (roster_event ev r).
Proof.
  intros [Hnd Ha]. destruct ev as [i|i|i]; unfold roster_ok; cbn [roster_event known_ids active_id].
  - destruct (decide _) as [|Hi]; [done|]. split.
    + apply NoDup_app. split_and!; [done| |apply NoDup_singleton]. set_solver.
    + destruct (active_id r); [|done]. cbn in *. set_solver.
  - split; [by apply NoDup_filter|]. destruct (decide _) as [|Hna]; [done|].
    destruct (active_id r) as [a|]; [|done]. cbn in *. apply list_elem_of_filter. split; [|done]. naive_solver.
  - split; [done|]. by destruct (decide _).
Qed.

Lemma events_refine evs t :
  table_ok t → roster_ok (roster_of t) →
  roster_of (foldl (λ t ev, apply_event ev t) t evs) = foldl (λ r ev, roster_event ev r) (roster_of t) evs
  ∧ table_ok (foldl (λ t ev, apply_event ev t) t evs)
  ∧ roster_ok (roster_of (foldl (λ t ev, apply_event ev t) t evs)).
Proof.
  revert t; induction evs as [|ev evs IH]; intros t Hok Hr; [done|]. cbn [foldl].
  destruct (event_refines ev t Hok (proj1 Hr)) as [E Hok']. rewrite <- E. apply IH; [done|].
  rewrite E. by apply roster_event_ok.
Qed.

Lemma List_filter_negb (a : Z) (l : list Z) : List.filter (λ i, negb (i =? a)) l = filter (λ i, i ≠ a) l.
Proof.
  induction l as [|x l IH]; [done|]. cbn [List.filter]. rewrite IH. destruct (Z.eqb_spec x a) as [->|].
  - by rewrite filter_cons_False by naive_solver.
  - by rewrite filter_cons_True.
Qed.

(** [GetThreadIDs] of a sound table lists every thread once, the active one
    first. *)
Lemma GetThreadIDs_roster t :
  roster_ok (roster_of t) → threads_ t ≠ [] →
  GetThreadIDs t ≡ₚ thread_ids t ∧ (∀ a, active_thread_id_ t = Some a → head (GetThreadIDs t) = Some a).
Proof.
  intros [Hnd Ha] Hne. unfold GetThreadIDs. cbn in *. destruct (threads_ t) eqn:E; [done|]. clear Hne.
  destruct (active_thread_id_ t) as [a|]; [|done]. split; [|by intros ? [= <-]].
  rewrite List_filter_negb. cbn in Ha. apply list_elem_of_split in Ha as (l1 & l2 & El). rewrite El in *.
  apply NoDup_app in Hnd as (_ & Hd & [Hni _]%NoDup_cons). rewrite filter_app, filter_cons_False by naive_solver.
  rewrite !filter_all; [by rewrite Permutation_middle| |]; intros x Hx ->; [done|]. apply (Hd a Hx). set_solver.
Qed.

(** C30. The thread list refines a roster of unique identifiers with an active one:
    creations, terminations and activations in any order have the effect they
    have on the roster (a second creation and an unknown termination are
    ignored, terminating or missing the active thread leaves none), no pointer
    dangles, and [GetThreadIDs] lists every thread once, the active one first. *)
Theorem threads_refine_roster (t : ThreadTable) (evs : list thread_event)
  (Hok : table_ok t) (Hr : roster_ok (roster_of t)) :
  let t' := foldl (λ t ev, apply_event ev t) t evs in
  roster_of t' = foldl (λ r ev, roster_event ev r) (roster_of t) evs
  ∧ table_ok t' ∧ roster_ok (roster_of t')
  ∧ (threads_ t' ≠ [] → GetThreadIDs t' ≡ₚ known_ids (roster_of t')
     ∧ (∀ a, active_id (roster_of t') = Some a → head (GetThreadIDs t') = Some a)).
Proof.
  intros t'. destruct (events_refine evs t Hok Hr) as (Hevs & Hok' & Hr'). split; [exact Hevs|]. split; [exact Hok'|]. split; [exact Hr'|].
  intros Hne. by apply GetThreadIDs_roster.
Qed.

Lemma threads_refine_roster_witness :
  let t' := foldl (λ t ev, apply_event ev t) (MkTable None [] [])
              [Created 28; Created 32; Created 28; Activated 32; Terminated 28; Created 4; Terminated 5] in
  roster_of t' = MkRoster [32; 4] (Some 32)
  ∧ table_ok t' ∧ roster_ok (roster_of t')
  ∧ (threads_ t' ≠ [] → GetThreadIDs t' ≡ₚ known_ids (roster_of t')
     ∧ (∀ a, active_id (roster_of t') = Some a → head (GetThreadIDs t') = Some a)).
Proof.
  apply (threads_refine_roster (MkTable None [] [])
    [Created 28; Created 32; Created 28; Activated 32; Terminated 28; Created 4; Terminated 5]).
  - split; constructor.
  - split; [constructor|exact I].
Defined.

(** ** Looking for a stopped thread *)

(** A console that says of every thread whether it is stopped. *)
Class StopTarget (E : Type) {C : Type} `{!Boost} `{!Target C E} := {
  is_stopped : E → Z → bool;
  isstopped_answer i e : is_u32 i →
    let '(r, e') := answer (IsStopped i) None e in
    (∀ j, is_stopped e' j = is_stopped e j)
    ∧ ∃ response done, r = Some response
        ∧ Complete IsStopped_class response (processed (IsStopped i) (MkStopped false None)) = Some done
        ∧ IsOK IsStopped_class (status done) = true
        ∧ Requests.stopped (members done) = is_stopped e i
}.

Definition id_at (t : ThreadTable) (p : ptr) : option Z := id <$> objects t !! p.

(** Only what is known of the threads differs. *)
Definition same_threads (t t' : ThreadTable) : Prop :=
  active_thread_id_ t' = active_thread_id_ t ∧ threads_ t' = threads_ t ∧ ∀ p, id_at t' p = id_at t p.

Lemma same_threads_refl t : same_threads t t.
Proof. done. Qed.

Lemma same_threads_trans t1 t2 t3 : same_threads t1 t2 → same_threads t2 t3 → same_threads t1 t3.
Proof.
  intros (A1 & T1 & I1) (A2 & T2 & I2). split_and!; [by rewrite A2|by rewrite T2|]. intros p. by rewrite I2.
Qed.

Lemma same_threads_update t p thread thread' :
  objects t !! p = Some thread → id thread' = id thread → same_threads t (with_objects (<[p := thread']> (objects t)) t).
Proof.
  intros Hp Hid. split_and!; [done..|]. intros q. unfold id_at. cbn. destruct (decide (q = p)) as [->|Hne].
  - rewrite list_lookup_insert_eq by (by eapply lookup_lt_Some). replace (objects t !! p) with (Some thread). cbn. by rewrite Hid.
  - by rewrite list_lookup_insert_ne by done.
Qed.

Lemma same_threads_ids t t' : same_threads t t' → thread_ids t' = thread_ids t.
Proof. intros (_ & E & Hid). unfold thread_ids. rewrite E. apply ids_ext. intros p _. apply Hid. Qed.

Lemma same_threads_roster t t' : same_threads t t' → roster_of t' = roster_of t.
Proof. intros Hs. unfold roster_of. rewrite (same_threads_ids _ _ Hs). by destruct Hs as [-> _]. Qed.

Section FirstStopped.
Context `{!Boost} {C E : Type} `{!Target C E, !StopTarget E}.

Lemma wp_thread_at f p (t : ThreadTable) (e : E) thread (Q : Thread → ThreadTable * E → Prop) :
  objects t !! p = Some thread → Q thread (t, e) → wp f (thread_at p) (t, e) Q.
Proof. intros Hp HQ. unfold wp, thread_at, lift_option, mbind, M_bind. cbn. by rewrite Hp. Qed.

Lemma wp_FetchStopReason p t e thread :
  objects t !! p = Some thread → is_u32 (id thread) →
  wp False (on_thread p FetchStopReasonSync) (t, e) (λ known '(t', e'),
    known = true ∧ same_threads t t' ∧ (∀ j, is_stopped e' j = is_stopped e j)
    ∧ ∃ thread', objects t' !! p = Some thread' ∧ stopped thread' = is_stopped e (id thread)).
Proof.
  intros Hp Hid. pose proof (isstopped_answer (id thread) e Hid) as Hans.
  destruct (answer (IsStopped (id thread)) None e) as [r e'] eqn:Ea.
  destruct Hans as (Hstop & response & done & -> & Hc & Hok & Hst).
  unfold wp, on_thread. rewrite Hp. cbn [mbind option_bind].
  unfold FetchStopReasonSync, ask, on_right, mbind, M_bind. cbn [gets fst mret M_ret mbind option_bind].
  rewrite (command_run _ _ _ _ _ _ _ _ Ea Hc), Hok. cbn.
  split; [done|]. split; [by eapply same_threads_update|]. split; [done|]. eexists. split.
  { rewrite list_lookup_insert_eq by (by eapply lookup_lt_Some). reflexivity. }
  exact Hst.
Qed.

Lemma wp_first_stopped excluded l t e :
  Forall (λ p, ∃ i, id_at t p = Some i ∧ is_u32 i) l →
  wp False (first_stopped excluded l) (t, e) (λ r '(t', e'),
    same_threads t t' ∧ (∀ j, is_stopped e' j = is_stopped e j) ∧ (∀ p, r = Some p → p ∈ l)
    ∧ r ≫= id_at t = List.find (is_stopped e) (filter (λ i, excluded ≠ Some i) (omap (id_at t) l))).
Proof.
  revert t e; induction l as [|p l IH]; intros t e Hl; [by split_and!|].
  apply Forall_cons in Hl as [(i & Hi & Hu) Hl]. cbn [first_stopped omap list_omap]. rewrite Hi.
  unfold id_at in Hi. apply fmap_Some in Hi as (thread & Hp & ->).
  apply wp_bind. eapply wp_thread_at; [exact Hp|].
  case_bool_decide as Hex.
  { rewrite filter_cons_False by naive_solver. eapply wp_mono; [by apply IH|].
    intros r [t' e'] (Hs & He & Hin & Hr). split; [exact Hs|]. split; [exact He|]. split; [intros q ?; apply elem_of_cons; auto|exact Hr]. }
  rewrite filter_cons_True by done. apply wp_bind. eapply wp_mono; [by apply wp_FetchStopReason|].
  intros known [t1 e1] (-> & Hs1 & He1 & thread1 & Hp1 & Hst). apply wp_bind. eapply wp_thread_at; [exact Hp1|]. cbn [andb].
  rewrite Hst. cbn [List.find]. destruct (is_stopped e (id thread)).
  { split; [exact Hs1|]. split; [exact He1|].
    split; [intros ? [= <-]; apply elem_of_cons; auto|]. cbn. unfold id_at. by rewrite Hp. }
  eapply wp_mono; [apply IH|].
  - eapply Forall_impl; [exact Hl|]. intros q (j & Hj & ?). exists j. split; [|done]. by rewrite (proj2 (proj2 Hs1)).
  - intros r [t' e'] (Hs & He & Hin & Hr). split; [by eapply same_threads_trans|]. split; [intros; by rewrite He, He1|]. split; [intros q ?; apply elem_of_cons; auto|].
    assert (∀ q, id_at t1 q = id_at t q) as Hid by apply Hs1.
    transitivity (r ≫= id_at t1); [by destruct r; cbn; rewrite ?Hid|]. rewrite Hr.
    assert (omap (id_at t1) l = omap (id_at t) l) as -> by (apply ids_ext; intros; apply Hid).
    assert (∀ k, List.find (is_stopped e1) k = List.find (is_stopped e) k) as Hfind.
    { intros k. induction k as [|j k IHk]; [done|]. cbn. by rewrite He1, IHk. }
    apply Hfind.
Qed.

(** The thread shown to the user after a stop: for a sound table, the search
    returns the first thread, in the order of [GetThreadIDs] (the active thread
    before the others), that the console says is stopped, and none when there is
    none; the table keeps its threads. *)
Theorem GetFirstStoppedThread_spec (t : ThreadTable) (e : E)
  (Hok : table_ok t) (Hr : roster_ok (roster_of t)) (Hu : Forall is_u32 (thread_ids t)) :
  ∃ r t' e',
    GetFirstStoppedThread (t, e) = Some (r, (t', e'))
    ∧ r ≫= id_at t = List.find (is_stopped e) (GetThreadIDs t)
    ∧ roster_of t' = roster_of t.
Proof.
  assert (Forall (λ p, ∃ i, id_at t p = Some i ∧ is_u32 i) (threads_ t)) as Hall.
  { apply Forall_forall. intros p Hp. destruct Hok as [_ Hlt]. pose proof Hu as Hu'. rewrite Forall_forall in Hlt. rewrite Forall_forall in Hu'.
    destruct (lookup_lt_is_Some_2 (objects t) p) as [thread Ht]; [auto|]. exists (id thread). unfold id_at. rewrite Ht.
    split; [done|]. apply Hu', elem_of_thread_ids. eauto. }
  assert (wp False GetFirstStoppedThread (t, e) (λ r '(t', e'),
    r ≫= id_at t = List.find (is_stopped e) (GetThreadIDs t) ∧ roster_of t' = roster_of t)) as Hwp.
  2: { apply wp_elim in Hwp as (r & [t' e'] & ? & ? & ?). eauto 10. }
  unfold GetFirstStoppedThread. apply wp_bind. change (wp False (gets fst) (t, e) ?Q) with (Q t (t, e)). cbn beta.
  unfold GetThreadIDs. destruct (threads_ t) as [|p0 l] eqn:El; [done|]. rewrite <- El in *. clear El.
  destruct Hr as [Hnd Ha]. cbn in Hnd, Ha. unfold ActiveThread.
  destruct (active_thread_id_ t) as [a|] eqn:Ea; cbn [mbind option_bind from_option] in *.
  - apply GetThread_known in Ha as [p Hp]. rewrite Hp. apply GetThread_Some in Hp as (Hin & thread & Ht & <-).
    assert (is_u32 (id thread)) by (rewrite Forall_forall in Hu; apply Hu, elem_of_thread_ids; eauto).
    apply wp_bind. eapply wp_mono; [by apply wp_FetchStopReason|].
    intros known [t1 e1] (-> & Hs1 & He1 & thread1 & Hp1 & Hst).
    apply wp_bind. eapply wp_thread_at; [exact Hp1|]. cbn [andb]. rewrite Hst. cbn [List.find].
    destruct (is_stopped e (id thread)); [cbn; unfold id_at; rewrite Ht; split; [done|by apply same_threads_roster]|].
    eapply wp_mono; [apply wp_first_stopped|].
    + eapply Forall_impl; [exact Hall|]. intros q (j & Hj & ?). exists j. split; [|done]. by rewrite (proj2 (proj2 Hs1)).
    + intros r [t' e'] (Hs & _ & _ & Hr). split; [|apply same_threads_roster; by eapply same_threads_trans].
      assert (∀ q, id_at t1 q = id_at t q) as Hid by apply Hs1.
      transitivity (r ≫= id_at t1); [by destruct r; cbn; rewrite ?Hid|]. rewrite Hr, List_filter_negb.
      assert (omap (id_at t1) (threads_ t) = thread_ids t) as -> by (apply ids_ext; intros; apply Hid).
      assert (∀ k, List.find (is_stopped e1) k = List.find (is_stopped e) k) as ->.
      { intros k. induction k as [|j k IHk]; [done|]. cbn. by rewrite He1, IHk. }
      f_equal. apply list_filter_iff. intros j. split; congruence.
  - eapply wp_mono; [by apply wp_first_stopped|]. intros r [t' e'] (Hs & _ & _ & Hr).
    split; [|by apply same_threads_roster]. rewrite Hr. f_equal. fold (thread_ids t). by rewrite filter_all.
Qed.
End FirstStopped.

(** ** What happens to the threads themselves *)

Lemma same_threads_ok t t' : same_threads t t' → table_ok t → table_ok t'.
Proof.
  intros (_ & E & Hid) [Hnd Hlt]. unfold table_ok. rewrite E. split; [done|]. rewrite Forall_forall in *.
  intros p Hp. specialize (Hid p). apply Hlt, lookup_lt_is_Some in Hp as [thread Ht].
  apply lookup_lt_is_Some. unfold id_at in Hid. rewrite Ht in Hid. by destruct (objects t' !! p).
Qed.

Section Members.
Context `{!Boost} {C E : Type} `{!Target C E}.
Context (J : E → Prop) (HJ : ∀ r payload e, thread_command (command_ r) = true → J e → J (answer r payload e).2).

(** The members of a thread keep its place and identifier, and [J]. *)
Definition threads_kept (t : ThreadTable) (s : ThreadTable * E) : Prop := same_threads t s.1 ∧ J s.2.

Lemma keeps_on_thread {A} t p (m : M (Thread * E) A) :
  (∀ i, keeps (thread_kept J i) m) → keeps (threads_kept t) (on_thread p m).
Proof.
  intros Hm [t1 e] [Hs HE]. cbn in Hs, HE. unfold wp, on_thread. destruct (objects t1 !! p) as [thread|] eqn:Hp; [|done].
  cbn [mbind option_bind]. pose proof (Hm (id thread) (thread, e) (conj eq_refl HE)) as Hrun. unfold wp in Hrun.
  destruct (m (thread, e)) as [[a [thread' e']]|]; [|done]. cbn in *. destruct Hrun as [Hid HE'].
  split; [|done]. eapply same_threads_trans; [exact Hs|]. by eapply same_threads_update.
Qed.

Lemma keeps_thread_at t p : keeps (threads_kept t) (thread_at p).
Proof. apply keeps_bind; auto with keeps. Qed.

Lemma keeps_first_stopped t excluded l : keeps (threads_kept t) (first_stopped excluded l).
Proof.
  induction l as [|p l IH]; [apply keeps_ret|]. cbn [first_stopped].
  apply keeps_bind; [apply keeps_thread_at|]. intros thread. case_bool_decide; [done|].
  apply keeps_bind; [apply keeps_on_thread; intros; by apply keeps_FetchStopReasonSync|]. intros known.
  apply keeps_bind; [apply keeps_thread_at|]. intros thread'. destruct (known && stopped thread'); [apply keeps_ret|done].
Qed.

Lemma keeps_GetFirstStoppedThread t : keeps (threads_kept t) GetFirstStoppedThread.
Proof.
  apply keeps_bind; [auto with keeps|]. intros t1. destruct (threads_ t1) as [|p0 l]; [apply keeps_ret|].
  destruct (ActiveThread t1) as [p|]; [|apply keeps_first_stopped].
  apply keeps_bind; [apply keeps_on_thread; intros; by apply keeps_FetchStopReasonSync|]. intros known.
  apply keeps_bind; [apply keeps_thread_at|]. intros thread.
  destruct (known && stopped thread); [apply keeps_ret|apply keeps_first_stopped].
Qed.

Lemma keeps_ContinueThread t i b : keeps (threads_kept t) (ContinueThread i b).
Proof.
  apply keeps_bind; [auto with keeps|]. intros t1. destruct (GetThread i t1); [|apply keeps_ret].
  apply keeps_on_thread. intros. by apply keeps_Continue.
Qed.

Lemma keeps_ContinueAll t b : keeps (threads_kept t) (ContinueAll b).
Proof.
  apply keeps_bind; [auto with keeps|]. intros t1. generalize true. induction (threads_ t1) as [|p l IH]; intros ret;
    cbn [continue_all]; [apply keeps_ret|].
  apply keeps_bind; [apply keeps_on_thread; intros; by apply keeps_Continue|]. intros ok. apply IH.
Qed.

Lemma keeps_HaltActive t : keeps (threads_kept t) HaltActive.
Proof.
  apply keeps_bind; [auto with keeps|]. intros t1. destruct (ActiveThread t1); [|apply keeps_ret].
  apply keeps_on_thread. intros. by apply keeps_simple.
Qed.

Lemma emplace_all ids t :
  table_ok t →
  let t' := foldl (λ t i, emplace_thread i t) t ids in
  table_ok t' ∧ thread_ids t' = thread_ids t ++ map u32 ids ∧ active_thread_id_ t' = active_thread_id_ t.
Proof.
  revert t; induction ids as [|i ids IH]; intros t Hok; cbn; [by rewrite app_nil_r|].
  destruct (IH (emplace_thread i t) (emplace_ok i t Hok)) as (? & Hids & ?).
  split; [done|]. split; [|done]. rewrite Hids, thread_ids_emplace by done. by rewrite <- app_assoc.
Qed.

Lemma wp_Threads f e :
  wp f (command Threads_class Requests.Threads None []) e (λ '(ok, ids) e', e' = (answer Requests.Threads None e).2
    ∧ if ok : bool then ∃ response, (answer Requests.Threads None e).1 = Some response
        ∧ ids = map ParseInt32 (RDCPMultilineResponse (RdcpResponse.data_ response)) else True).
Proof.
  unfold wp, command, SendCommandSync, mbind, M_bind.
  destruct (answer Requests.Threads None e) as [[response|] e1]; [|by split].
  cbn. unfold if_ok. destruct (ok_multiline (status_ response)) eqn:Hst; cbn; rewrite Hst; [|by split].
  split; [done|]. by exists response.
Qed.

(** The list becomes the one answered; the active thread is not looked at. *)
Lemma wp_FetchThreads t e :
  J e →
  wp True FetchThreads (t, e) (λ ok '(t', e'), J e' ∧
    if ok : bool then
      table_ok t' ∧ active_thread_id_ t' = active_thread_id_ t
      ∧ ∃ response, (answer Requests.Threads None e).1 = Some response
          ∧ thread_ids t' = map u32 (map ParseInt32 (RDCPMultilineResponse (RdcpResponse.data_ response)))
    else t' = t).
Proof.
  intros HE. unfold FetchThreads. apply wp_bind, wp_on_right. eapply wp_mono; [apply wp_Threads|].
  intros [[] ids] e1 [-> Hans]; cbv beta iota; [|apply wp_ret; by split; [apply HJ|]].
  destruct Hans as (response & Hans & ->). assert (J (answer Requests.Threads None e).2) as HE1 by (by apply HJ).
  destruct (answer Requests.Threads None e) as [r e1]. cbn [fst snd] in *.
  apply wp_bind, wp_on_left. change (wp True (modify ?g) t ?Q) with (Q tt (g t)). cbn beta.
  set (t1 := foldl _ _ _).
  destruct (emplace_all (map ParseInt32 (RDCPMultilineResponse (RdcpResponse.data_ response))) (with_threads [] t)) as (Hok & Hids & Hact);
    [split; constructor|]. change (foldl _ _ _) with t1 in Hok, Hids, Hact.
  apply wp_bind. change (wp True (gets fst) (t1, e1) ?Q) with (Q t1 (t1, e1)). cbn beta. apply wp_bind.
  eapply wp_mono; [refine (keeps_for_each (threads_kept t1) _ _ _ (t1, e1) _)|].
  - intros p. apply keeps_bind; [apply keeps_on_thread; intros; by apply keeps_FetchInfoSync|]. intros _. apply keeps_ret.
  - by split; [apply same_threads_refl|].
  - intros _ [t' e'] [Hs HE']. cbn in Hs, HE'. apply wp_ret. split; [done|].
    split; [by eapply same_threads_ok|]. split; [by destruct Hs as [-> _]|].
    exists response. split; [done|]. by rewrite (same_threads_ids _ _ Hs), Hids.
Qed.
End Members.

(** Fetching the thread list: the identifiers known afterwards are those the
    console answered, in order, but the active thread stays what it was: when it
    is not among them, it still comes first in [GetThreadIDs] although no such
    thread exists. *)
Theorem FetchThreads_keeps_active `{!Boost} {C E : Type} `{!Target C E} (t : ThreadTable) (e : E)
  (response : RDCPResponse) (s' : ThreadTable * E)
  (Hans : (answer Requests.Threads None e).1 = Some response)
  (Hrun : FetchThreads (t, e) = Some (true, s')) :
  let ids := map u32 (map ParseInt32 (RDCPMultilineResponse (RdcpResponse.data_ response))) in
  roster_of s'.1 = MkRoster ids (active_thread_id_ t) ∧ table_ok s'.1
  ∧ (∀ a, active_thread_id_ t = Some a → a ∉ ids → ids ≠ [] → GetThreadIDs s'.1 = a :: ids).
Proof.
  intros ids. pose proof (wp_FetchThreads (λ _, True) ltac:(done) t e I) as Hwp.
  apply (wp_partial _ _ _ _ _ Hwp) in Hrun. destruct s' as [t' e'].
  destruct Hrun as (_ & Hok & Hact & response' & Ha & Hids). rewrite Hans in Ha. injection Ha as <-.
  fold ids in Hids. cbn [fst]. split; [unfold roster_of; congruence|]. split; [done|].
  intros a Ea Hna Hne. unfold GetThreadIDs. rewrite Hact, Ea, List_filter_negb, Hids.
  destruct (threads_ t') eqn:El.
  - exfalso. apply Hne. rewrite <- Hids. unfold thread_ids. by rewrite El.
  - f_equal. apply filter_all. intros x Hx ->. done.
Qed.

(** ** On the example console *)

#[global] Instance console_stops `{HB : !BoostLaws B} : StopTarget Console.
Proof.
  refine {| is_stopped := λ c i, bool_decide (i ∈ halted c) |}. intros i c Hi.
  rewrite console_isstopped by reflexivity. destruct (IsStopped_wire i Hi) as (parsed & Hp & Hget).
  unfold answer_isstopped. rewrite Hp, Hget. split; [done|]. change (halted (receive (IsStopped i) c)) with (halted c).
  case_bool_decide as Hin; [rewrite decide_True by done|rewrite decide_False by done];
    eexists _, _; (split; [reflexivity|]); (split; [reflexivity|]); by split.
Defined.

Definition example_table : ThreadTable :=
  foldl (λ t ev, apply_event ev t) (MkTable None [] []) [Created 28; Created 32; Created 36; Activated 36].

Definition halted_console (ids : gset Z) (script : list RDCPResponse) : Console :=
  MkConsole ∅ ∅ false ids script [] [].

Lemma GetFirstStoppedThread_spec_witness :
  let B := Boost_reference.boost_reference in
  ∃ r t' e',
    GetFirstStoppedThread (example_table, halted_console {[32; 28]} []) = Some (r, (t', e'))
    ∧ r ≫= id_at example_table = Some 28
    ∧ roster_of t' = roster_of example_table.
Proof.
  refine (@GetFirstStoppedThread_spec Boost_reference.boost_reference unit Console console_target
    (@console_stops _ Boost_reference.boost_reference_laws) example_table (halted_console {[32; 28]} []) _ _ _).
  - split; [by_evaluation|]. vm_compute. repeat constructor.
  - split; [by_evaluation|]. change (36 ∈ [28; 32; 36]). by_evaluation.
  - by_evaluation.
Defined.

Definition two_threads : RDCPResponse := MkResponse OK_MULTILINE_RESPONSE [] ("28"%bs ++ kTerminator ++ "32"%bs).

Lemma FetchThreads_keeps_active_witness :
  let B := Boost_reference.boost_reference in
  let c := halted_console ∅ [two_threads] in
  let s' := default (example_table, c) (snd <$> FetchThreads (example_table, c)) in
  let ids := map u32 (map ParseInt32 (RDCPMultilineResponse (RdcpResponse.data_ two_threads))) in
  roster_of s'.1 = MkRoster ids (active_thread_id_ example_table) ∧ table_ok s'.1
  ∧ (∀ a, active_thread_id_ example_table = Some a → a ∉ ids → ids ≠ [] → GetThreadIDs s'.1 = a :: ids).
Proof.
  intros B c s' ids. apply (@FetchThreads_keeps_active Boost_reference.boost_reference unit Console console_target
    example_table (halted_console ∅ [two_threads]) two_threads).
  - reflexivity.
  - vm_compute. reflexivity.
Defined.

(** The thread that was active is gone and comes first. *)
Example stale_active_thread :
  let B := Boost_reference.boost_reference in
  GetThreadIDs <$> (fst ∘ snd <$> FetchThreads (example_table, halted_console ∅ [two_threads])) = Some [36; 28; 32].
Proof. vm_compute. reflexivity. Qed.
