(* ===== verification/Debugger.v ===== *)
(** * The debugger (src/xbox/debugger/xbdm_debugger.h, xbdm_debugger.cpp)

    The whole state of [XBDMDebugger] on a target, the handlers of the
    notifications, and the operations that wait for the target to change its
    state.  The notifications that arrive while an operation waits are handled
    before it goes on; otherwise an operation is one step. *)

From S2P Require Import Prelude CLib Boost Parsing RdcpResponse RdcpMaps RdcpTypes RdcpRequest Requests Notifications.
From S2P Require Import ExprParser Path Target DebuggerMemory DebuggerThread DebuggerThreads.

Definition kRestartRebootingMaxWaitMilliseconds : Z := 5000.
Definition kRestartPendingMaxWaitMilliseconds : Z := 15000.
Definition kBreakAtStartMaxWaitMilliseconds : Z := 20000.
Definition kPostBreakAtStartThreadCreateMakeWaitMilliseconds : Z := 5000.
Definition kDefaultHaltAllMaxWaitMilliseconds : Z := 250.
Definition kAttachSafeStateMaxWaitMilliseconds : Z := 250.

Inductive BreakpointType := BREAKPOINT | READ_WATCH | WRITE_WATCH | EXECUTE_WATCH.

#[global] Instance BreakpointType_eq_decision : EqDecision BreakpointType.
Proof. solve_decision. Defined.
#[global] Instance BreakpointType_countable : Countable BreakpointType.
Proof.
  refine (inj_countable' (λ t, match t with BREAKPOINT => 0 | READ_WATCH => 1 | WRITE_WATCH => 2 | EXECUTE_WATCH => 3 end)
    (λ z, if decide (z = 0) then BREAKPOINT else if decide (z = 1) then READ_WATCH
          else if decide (z = 2) then WRITE_WATCH else EXECUTE_WATCH) _).
  by intros [].
Defined.

Inductive LaunchMode := NORMAL | BREAK_AT_ENTRYPOINT | BREAK_AT_APPLICATION_START.

(** The members that are not locks; those of memory and of the threads are
    records of their own. *)
Record XBDMDebugger := MkDebugger {
  is_attached_ : bool;
  state_ : ExecutionState;
  threads : ThreadTable;
  modules_ : gmap Z Module_;
  sections_ : gmap Z Section_;
  memory_ : Memory;
  debugstr_accumulator_ : gmap Z bytes;
  breakpoint_conditions_ : gmap (BreakpointType * Z) bytes;
  target_not_debuggable_ : option bool;   (* [None] when read from an uninitialised member *)
  notification_handler_id_ : Z;
  print_thread_info_on_break_ : bool
}.

Definition new_debugger : XBDMDebugger :=
  MkDebugger false S_INVALID (MkTable None [] []) ∅ ∅ (MkMemory [] ∅) ∅ ∅ (Some false) 0 true.

Definition set_attached (v : bool) (d : XBDMDebugger) : XBDMDebugger :=
  MkDebugger v (state_ d) (threads d) (modules_ d) (sections_ d) (memory_ d) (debugstr_accumulator_ d)
    (breakpoint_conditions_ d) (target_not_debuggable_ d) (notification_handler_id_ d) (print_thread_info_on_break_ d).
Definition set_state (v : ExecutionState) (d : XBDMDebugger) : XBDMDebugger :=
  MkDebugger (is_attached_ d) v (threads d) (modules_ d) (sections_ d) (memory_ d) (debugstr_accumulator_ d)
    (breakpoint_conditions_ d) (target_not_debuggable_ d) (notification_handler_id_ d) (print_thread_info_on_break_ d).
Definition set_threads (v : ThreadTable) (d : XBDMDebugger) : XBDMDebugger :=
  MkDebugger (is_attached_ d) (state_ d) v (modules_ d) (sections_ d) (memory_ d) (debugstr_accumulator_ d)
    (breakpoint_conditions_ d) (target_not_debuggable_ d) (notification_handler_id_ d) (print_thread_info_on_break_ d).
Definition set_modules (v : gmap Z Module_) (d : XBDMDebugger) : XBDMDebugger :=
  MkDebugger (is_attached_ d) (state_ d) (threads d) v (sections_ d) (memory_ d) (debugstr_accumulator_ d)
    (breakpoint_conditions_ d) (target_not_debuggable_ d) (notification_handler_id_ d) (print_thread_info_on_break_ d).
Definition set_sections (v : gmap Z Section_) (d : XBDMDebugger) : XBDMDebugger :=
  MkDebugger (is_attached_ d) (state_ d) (threads d) (modules_ d) v (memory_ d) (debugstr_accumulator_ d)
    (breakpoint_conditions_ d) (target_not_debuggable_ d) (notification_handler_id_ d) (print_thread_info_on_break_ d).
Definition set_memory (v : Memory) (d : XBDMDebugger) : XBDMDebugger :=
  MkDebugger (is_attached_ d) (state_ d) (threads d) (modules_ d) (sections_ d) v (debugstr_accumulator_ d)
    (breakpoint_conditions_ d) (target_not_debuggable_ d) (notification_handler_id_ d) (print_thread_info_on_break_ d).
Definition set_accumulator (v : gmap Z bytes) (d : XBDMDebugger) : XBDMDebugger :=
  MkDebugger (is_attached_ d) (state_ d) (threads d) (modules_ d) (sections_ d) (memory_ d) v
    (breakpoint_conditions_ d) (target_not_debuggable_ d) (notification_handler_id_ d) (print_thread_info_on_break_ d).
Definition set_conditions (v : gmap (BreakpointType * Z) bytes) (d : XBDMDebugger) : XBDMDebugger :=
  MkDebugger (is_attached_ d) (state_ d) (threads d) (modules_ d) (sections_ d) (memory_ d) (debugstr_accumulator_ d)
    v (target_not_debuggable_ d) (notification_handler_id_ d) (print_thread_info_on_break_ d).
Definition set_not_debuggable (v : option bool) (d : XBDMDebugger) : XBDMDebugger :=
  MkDebugger (is_attached_ d) (state_ d) (threads d) (modules_ d) (sections_ d) (memory_ d) (debugstr_accumulator_ d)
    (breakpoint_conditions_ d) v (notification_handler_id_ d) (print_thread_info_on_break_ d).
Definition set_handler (v : Z) (d : XBDMDebugger) : XBDMDebugger :=
  MkDebugger (is_attached_ d) (state_ d) (threads d) (modules_ d) (sections_ d) (memory_ d) (debugstr_accumulator_ d)
    (breakpoint_conditions_ d) (target_not_debuggable_ d) v (print_thread_info_on_break_ d).
Definition SetDisplayExpandedBreakpointOutput (v : bool) (d : XBDMDebugger) : XBDMDebugger :=
  MkDebugger (is_attached_ d) (state_ d) (threads d) (modules_ d) (sections_ d) (memory_ d) (debugstr_accumulator_ d)
    (breakpoint_conditions_ d) (target_not_debuggable_ d) (notification_handler_id_ d) v.

(** ** Conditions *)

Definition SetBreakpointCondition (type : BreakpointType) (address : Z) (condition : bytes) (d : XBDMDebugger)
  : XBDMDebugger :=
  set_conditions (if decide (condition = []) then delete (type, address) (breakpoint_conditions_ d)
                  else <[(type, address) := condition]> (breakpoint_conditions_ d)) d.

Definition RemoveBreakpointCondition (type : BreakpointType) (address : Z) (d : XBDMDebugger) : XBDMDebugger :=
  set_conditions (delete (type, address) (breakpoint_conditions_ d)) d.

Definition FindBreakpointCondition (type : BreakpointType) (address : Z) (d : XBDMDebugger) : option bytes :=
  breakpoint_conditions_ d !! (type, address).

(** ** Debug strings *)

(** The accumulated text is logged, and dropped, with the message that ends the
    line: the result is what is logged before the message, if it is. *)
Definition OnDebugStr (msg : DebugStr) (d : XBDMDebugger) : option bytes * XBDMDebugger :=
  let acc := debugstr_accumulator_ d in
  if negb (is_terminated msg) then
    (None, set_accumulator
       match acc !! thread_id msg with
       | Some existing => <[thread_id msg := existing ++ text msg]> acc
       | None => <[thread_id msg := text msg]> acc
       end d)
  else
    match acc !! thread_id msg with
    | Some existing => (Some existing, set_accumulator (delete (thread_id msg) acc) d)
    | None => (Some [], d)
    end.

(** The other parts of the program that registered handlers: what those do whose
    number is admitted, given the state of the debugger. *)
Class Listeners (C E : Type) := {
  notify_others : (Z → bool) → Notification C → XBDMDebugger → E → E
}.

Section Operations.
Context `{!Boost} {C E : Type} `{!Target C E, !Listeners C E}.
Abbreviation D := (M (XBDMDebugger * E)).

Definition on_threads {A} (m : M (ThreadTable * E) A) : D A := zoom threads set_threads m.
Definition on_memory {A} (m : M (Memory * E) A) : D A := zoom memory_ set_memory m.
Definition on_target {A} (m : M E A) : D A := on_right m.
Definition update (f : XBDMDebugger → XBDMDebugger) : D unit := on_left (modify f).
Definition update_threads (f : ThreadTable → ThreadTable) : D unit :=
  update (λ d, set_threads (f (threads d)) d).

(** ** Simple requests *)

Definition Stop : D bool := '(ok, _) ← on_target (command Stop_class Requests.Stop None tt); mret ok.
Definition Go : D bool := on_target (plain_command Requests.Go).
Definition BreakAtStart : D bool := on_target (plain_command Requests.BreakAtStart).

(** [enabled] is not used: the request always connects. *)
Definition SetDebugger (enabled : bool) : D bool :=
  '(ok, debuggable) ← on_target (command Debugger_class (Debugger true) None None);
  if ok : bool then update (set_not_debuggable (negb <$> debuggable)) ;; mret true else mret false.

(** The connection of the handler is dropped and opened again. *)
Definition RequestDebugNotifications (port : Z) : D bool :=
  dropped ← on_target (plain_command (NotifyAt port true true));
  on_target (plain_command (NotifyAt port false true)).

(** ** Modules and sections *)

Definition section_of_info (s : SectionInfo) : Section_ :=
  MkSection (si_name s) (si_base s) (si_size s) (si_index s) (si_flags s).

Definition FetchSections (module_name : bytes) : D bool :=
  '(ok, sections) ← on_target (command ModSections_class (ModSections module_name) None []);
  if ok : bool then
    update (λ d, set_sections (foldl (λ m s, <[si_base s := section_of_info s]> m) (sections_ d) sections) d) ;;
    mret true
  else mret false.

Definition FetchModules : D bool :=
  '(ok, modules) ← on_target (command Modules_class Requests.Modules None []);
  if ok : bool then
    update (λ d, set_sections ∅ (set_modules ∅ d)) ;;
    for_each modules (λ module,
      update (λ d, set_modules (<[module_base module := module]> (modules_ d)) d) ;;
      fetched ← FetchSections (module_name module); mret tt) ;;
    mret true
  else mret false.

(** The elements of a [std::map<uint32_t, T>] in the order of iteration. *)
Definition map_values {T} (m : gmap Z T) : list T := omap (λ k, m !! k) (ascending (dom m)).

Definition Modules : D (gmap Z Module_) :=
  d ← gets fst;
  (if decide (modules_ d = ∅) then fetched ← FetchModules; mret tt else mret tt) ;;
  gets (λ s, modules_ s.1).

Definition Sections : D (gmap Z Section_) :=
  d ← gets fst;
  (if decide (sections_ d = ∅) then fetched ← FetchModules; mret tt else mret tt) ;;
  gets (λ s, sections_ s.1).

Definition ModuleRanges : D (gmap (Z * Z) Module_) :=
  modules ← Modules;
  mret (foldl (λ m entry, emplace (MemoryRange entry) entry m) ∅ (map_values modules)).

Definition GetModule (name : bytes) : D (option Module_) :=
  modules ← Modules;
  mret (List.find (λ m, bool_decide (module_name m = name)) (map_values modules)).

(** ** Conditional stops *)

Definition CreateMemoryReader : Z → Z → XBDMDebugger * E → option ((bytes + bytes) * (XBDMDebugger * E)) :=
  λ address size, mem ← on_memory (GetMemory address size true);
    mret (match mem with
          | Some data => inl data
          | None => inr ("Failed to read memory at "%bs ++ fmt_u address)
          end).

(** [parser.Parse(condition)]; a failed assertion ends the program. *)
Definition evaluate (context : ThreadContext) (thread_id : Z) (condition : bytes) : D (Z + bytes) := λ s,
  match Parse (MkEnv context (Some thread_id) (Some CreateMemoryReader)) condition s with
  | Value v s' => Some (inl v, s')
  | Error e s' => Some (inr e, s')
  | AssertionFailure | NoFuel => None
  end.

Definition PerformAfterStopActions (p : ptr) : D unit :=
  d ← gets fst;
  if print_thread_info_on_break_ d then fetched ← on_threads (on_thread p FetchContextSync); mret tt
  else mret tt.

(** What [OnBreakpoint] and [OnWatchpoint] do with the condition of a stop: a
    condition whose value is 0 lets the target go on. *)
Definition resume_or_stop (p : ptr) (condition : option bytes) : D unit :=
  match condition with
  | None => PerformAfterStopActions p
  | Some condition =>
    fetched ← on_threads (on_thread p FetchContextSync);
    thread ← on_threads (thread_at p);
    match context thread with
    | None => PerformAfterStopActions p
    | Some c =>
      result ← evaluate c (id thread) condition;
      match result with
      | inl 0 =>
        continued ← on_threads (ContinueThread (id thread) false);
        going ← Go; mret tt
      | _ => PerformAfterStopActions p
      end
    end
  end.

(** The start of the handlers of a stop: the thread becomes active. *)
Definition with_stopped_thread (thread_id address : Z) (k : ptr → D unit) : D unit :=
  d ← gets fst;
  match GetThread (u32 thread_id) (threads d) with
  | None => mret tt
  | Some p =>
    update_threads (λ t, (SetActiveThread (u32 thread_id) t).2) ;;
    on_threads (on_thread p (set_thread (with_address (Some address)))) ;;
    known ← on_threads (on_thread p FetchStopReasonSync);
    k p
  end.

(** A thread that [stopon createthread] left suspended is resumed. *)
Definition OnBreakpoint (thread_id address : Z) : D unit :=
  with_stopped_thread thread_id address (λ p,
    fetched ← on_threads (on_thread p FetchInfoSync);
    thread ← on_threads (thread_at p);
    (if default 0 (suspend_count thread) >? 0 then resumed ← on_threads (on_thread p DebuggerThread.Resume); mret tt
     else mret tt) ;;
    d ← gets fst;
    resume_or_stop p (FindBreakpointCondition BREAKPOINT address d)).

Definition watch_type (type : Notifications.AccessType) : option BreakpointType :=
  match type with
  | AT_READ => Some READ_WATCH
  | AT_WRITE => Some WRITE_WATCH
  | AT_EXECUTE => Some EXECUTE_WATCH
  | AT_INVALID => None
  end.

Definition OnWatchpoint (type : Notifications.AccessType) (thread_id address watched_address : Z) : D unit :=
  with_stopped_thread thread_id address (λ p,
    d ← gets fst;
    resume_or_stop p (t ← watch_type type; FindBreakpointCondition t watched_address d)).

Definition OnSingleStep (thread_id address : Z) : D unit :=
  with_stopped_thread thread_id address PerformAfterStopActions.

Definition OnException (thread_id address : Z) : D unit :=
  with_stopped_thread thread_id address PerformAfterStopActions.

(** ** The other notifications *)

Definition OnModuleLoaded (module : Module_) : D unit :=
  update (λ d, set_modules (<[module_base module := module]> (modules_ d)) d) ;;
  fetched ← on_memory FetchMemoryMap; mret tt.

Definition OnSectionLoaded (section : Section_) : D unit :=
  update (λ d, set_sections (<[section_base section := section]> (sections_ d)) d) ;;
  fetched ← on_memory FetchMemoryMap; mret tt.

Definition OnSectionUnloaded (section : Section_) : D unit :=
  update (λ d, set_sections (delete (section_base section) (sections_ d)) d) ;;
  fetched ← on_memory FetchMemoryMap; mret tt.

Definition OnExecutionStateChanged (state : ExecutionState) : D unit :=
  update (set_state state) ;;
  (if decide (state = S_REBOOTING) then
     update (λ d, set_sections ∅ (set_modules ∅ d)) ;;
     on_memory ForgetBreakpoints
   else mret tt) ;;
  if decide (state = S_STOPPED) then
    on_memory RearmBreakpoints ;;
    stopped_thread ← on_threads GetFirstStoppedThread;
    match stopped_thread with
    | Some p => thread ← on_threads (thread_at p); update_threads (λ t, (SetActiveThread (id thread) t).2)
    | None => mret tt
    end ;;
    fetched ← on_memory FetchMemoryMap; mret tt
  else mret tt.

Definition OnNotification (n : Notification C) : D unit :=
  match n with
  | Custom _ => mret tt
  | NotificationVX _ => mret tt
  | NotificationDebugStr msg => update (λ d, (OnDebugStr msg d).2)
  | NotificationModuleLoaded module => OnModuleLoaded module
  | NotificationSectionLoaded section => OnSectionLoaded section
  | NotificationSectionUnloaded section => OnSectionUnloaded section
  | NotificationThreadCreated thread_id _ => update_threads (OnThreadCreated thread_id)
  | NotificationThreadTerminated thread_id => update_threads (OnThreadTerminated thread_id)
  | NotificationExecutionStateChanged state => OnExecutionStateChanged state
  | NotificationBreakpoint thread_id address _ => OnBreakpoint thread_id address
  | NotificationWatchpoint type thread_id address watched_address _ _ =>
    OnWatchpoint type thread_id address watched_address
  | NotificationSingleStep thread_id address => OnSingleStep thread_id address
  | NotificationException _ thread_id address _ _ => OnException thread_id address
  end.

(** ** Waiting *)

(** [DispatchNotification]: the handlers in the order of their numbers. *)
Definition notify (admitted : Z → bool) (n : Notification C) : D unit :=
  d ← gets fst; on_target (modify (notify_others admitted n d)).

Definition DispatchNotification (n : Notification C) : D unit :=
  d ← gets fst;
  let number := notification_handler_id_ d in
  registered ← gets (λ s, has_handler number s.2);
  notify (λ i, i <? number) n ;;
  (if registered : bool then OnNotification n else mret tt) ;;
  notify (λ i, number <? i) n.

Definition arrival (ms : Z) : D (option (Notification C * Z)) := λ '(d, e),
  match next_notification ms e with
  | Some (n, remaining, e') => Some (Some (n, remaining), (d, e'))
  | None => Some (None, (d, e))
  end.

(** [state_condition_variable_.wait_for]: the predicate is looked at first and
    after every notification; [burst] bounds their number. *)
Fixpoint wait_loop (fuel : nat) (pred : ExecutionState → bool) (ms : Z) : D bool :=
  d ← gets fst;
  if pred (state_ d) then mret true
  else
    match fuel with
    | O => mret false
    | S fuel' =>
      next ← arrival ms;
      match next with
      | None => mret false
      | Some (n, remaining) =>
        DispatchNotification n ;;
        wait_loop fuel' pred remaining
      end
    end.

Definition wait_for (pred : ExecutionState → bool) (ms : Z) : D bool :=
  n ← gets (λ s, burst ms s.2); wait_loop n pred ms.

Definition WaitForState (s : ExecutionState) (ms : Z) : D bool := wait_for (λ state, bool_decide (state = s)) ms.
Definition WaitForStateIn (target_states : list ExecutionState) (ms : Z) : D bool :=
  wait_for (λ state, bool_decide (state ∈ target_states)) ms.
Definition WaitForStateNotIn (banned_states : list ExecutionState) (ms : Z) : D bool :=
  wait_for (λ state, bool_decide (state ∉ banned_states)) ms.

(** [WaitMilliseconds]: whatever arrives in the time is handled. *)
Definition WaitMilliseconds (ms : Z) : D unit := slept ← wait_for (λ _, false) ms; mret tt.
End Operations.
