(* ===== verification/DebuggerControl.v ===== *)
(** * Controlling the target (src/xbox/debugger/xbdm_debugger.cpp)

    The operations of [XBDMDebugger] that start, stop and step the target: they
    send requests and wait for the notifications that show their effect. *)

From S2P Require Import Prelude CLib Boost Parsing RdcpResponse RdcpMaps RdcpTypes RdcpRequest Requests Notifications.
From S2P Require Import Path Target DebuggerMemory DebuggerThread DebuggerThreads Debugger.

Section Operations.
Context `{!Boost} {C E : Type} `{!Target C E, !Listeners C E}.
Abbreviation D := (M (XBDMDebugger * E)).

(** A request of which only the success counts. *)
Definition request_ok (r : RDCPRequest) : D bool := on_target (plain_command r).

(** ** Attaching *)

(** The port of the listener, started if there is none; [None] when it cannot be. *)
Definition notification_server_port : D (option Z) :=
  port ← gets (λ s, GetNotificationServerAddress s.2);
  match port with
  | Some p => mret (Some p)
  | None =>
    started ← on_target (λ e, Some (StartNotificationListener e));
    unless started None (
      port ← gets (λ s, GetNotificationServerAddress s.2);
      match port with Some p => mret (Some p) | None => mfail end)
  end.

Definition unregister_handler : D unit :=
  d ← gets fst;
  on_target (modify (UnregisterNotificationHandler (notification_handler_id_ d))).

(** [if (!f()) { UnregisterNotificationHandler(id); return false; }] *)
Definition or_unregister (m : D bool) (k : D bool) : D bool :=
  ok ← m;
  if ok : bool then k else unregister_handler ;; mret false.

Definition Attach : D bool :=
  port ← notification_server_port;
  match port with
  | None => mret false
  | Some port =>
    d ← gets fst;
    (if negb (notification_handler_id_ d =? 0) then
       safe ← WaitForStateNotIn [S_INVALID; S_REBOOTING] kAttachSafeStateMaxWaitMilliseconds; mret tt
     else mret tt) ;;
    unregister_handler ;;
    handler ← on_target (λ e, Some (RegisterNotificationHandler e));
    update (set_handler handler) ;;
    or_unregister (RequestDebugNotifications port) (
    or_unregister (SetDebugger true) (
      ok ← on_threads FetchThreads; unless ok false (
      ok ← FetchModules; unless ok false (
      ok ← on_memory FetchMemoryMap; unless ok false (
      update (set_attached true) ;; mret true)))))
  end.

Definition Shutdown : D unit :=
  update (set_attached false) ;;
  set_ok ← SetDebugger false;
  unregister_handler ;;
  update (set_handler 0).

(** ** Restarting *)

Definition RestartAndReconnect (reboot_flags : Z) : D bool :=
  ok ← request_ok (Reboot reboot_flags);
  unless ok false (
    rebooting ← WaitForState S_REBOOTING kRestartRebootingMaxWaitMilliseconds;
    bye ← request_ok Bye;
    on_target (modify CloseActiveConnections) ;;
    pending ← WaitForStateIn [S_PENDING; S_STARTED] kRestartPendingMaxWaitMilliseconds;
    unless pending false (SetDebugger true)).

Definition RestartAndAttach (flags : Z) : D bool :=
  ok ← RestartAndReconnect flags;
  unless ok false (
    ok ← BreakAtStart;
    unless ok false Go).

(** ** Launching a title *)

Definition remove_break_on_create : D bool := request_ok (NoStopOn kCreateThread).

Definition BreakOnNextThreadCreate : D bool :=
  ok ← request_ok (StopOn (Z.lor kCreateThread kFirstChanceException));
  unless ok false (
    continued ← on_threads (ContinueAll false);
    ok ← Go;
    unless ok false (
      stopped ← WaitForState S_STOPPED kPostBreakAtStartThreadCreateMakeWaitMilliseconds;
      if stopped : bool then remove_break_on_create
      else
        removed ← remove_break_on_create;
        d ← gets fst;
        match ActiveThread (threads d) with
        | Some _ => mret true
        | None =>
          stop ← Stop;
          fetched ← on_threads FetchThreads;
          Go
        end)).

Definition DebugXBE (path command_line : bytes) (wait_forever : bool) (launch_mode : LaunchMode) : D bool :=
  match SplitXBEPath path with
  | None => mret false
  | Some (xbe_dir, xbe_name) =>
    ok ← RestartAndReconnect (Z.lor (Z.lor kWait kWarm) (if wait_forever then kStop else 0));
    unless ok false (
    ok ← request_ok (LoadOnBootTitle xbe_name (Some xbe_dir) command_line false);
    unless ok false (
    match launch_mode with
    | NORMAL => Go
    | _ =>
      ok ← BreakAtStart; unless ok false (
      ok ← Go; unless ok false (
      stopped ← WaitForState S_STOPPED kBreakAtStartMaxWaitMilliseconds;
      fetched ← on_threads FetchThreads;
      ok ← match launch_mode with
           | BREAK_AT_APPLICATION_START => BreakOnNextThreadCreate
           | _ => mret true
           end;
      unless ok false (
      mapped ← on_memory FetchMemoryMap; mret true)))
    end))
  end.

(** ** Halting and stepping *)

Definition kDelayPerLoopMilliseconds : Z := 10.

(** The loop at the end of [HaltAll]: [max_wait] counts down to 0. *)
Fixpoint poll_stopped (fuel : nat) (p : ptr) (max_wait : Z) : D unit :=
  thread ← on_threads (thread_at p);
  if stopped thread || (max_wait =? 0) then mret tt
  else
    match fuel with
    | O => mfail
    | S fuel' =>
      WaitMilliseconds kDelayPerLoopMilliseconds ;;
      known ← on_threads (on_thread p FetchStopReasonSync);
      if max_wait <? kDelayPerLoopMilliseconds then mret tt
      else poll_stopped fuel' p (max_wait - kDelayPerLoopMilliseconds)
    end.

Definition HaltAll (optimistic_max_wait : Z) : D bool :=
  d ← gets fst;
  match threads_ (threads d) with
  | [] => mret true
  | front :: _ =>
    ok ← request_ok Halt_all;
    unless ok false (
      in_time ← WaitForState S_STOPPED optimistic_max_wait;
      unless in_time false (
        first ← on_threads GetFirstStoppedThread;
        let p := default front first in
        thread ← on_threads (thread_at p);
        update_threads (λ t, (SetActiveThread (id thread) t).2) ;;
        poll_stopped (Z.to_nat optimistic_max_wait) p optimistic_max_wait ;;
        thread ← on_threads (thread_at p);
        mret (stopped thread)))
  end.

Definition Halt : D bool := on_threads HaltActive.

(** The breakpoint under the instruction is taken out for the step; it is put
    back here when the step fails, and with all others at the next stop when it
    succeeds. *)
Definition StepInstruction : D bool :=
  d ← gets fst;
  match ActiveThread (threads d) with
  | None => mret false
  | Some p =>
    ok ← Stop;
    unless ok false (
    ok ← on_threads (on_thread p FetchContextSync);
    unless ok false (
    thread ← on_threads (thread_at p);
    c ← lift_option (context thread);
    match eip c with
    | None => mret false
    | Some eip =>
      breakpoints ← gets (λ s, GetActiveBreakpointsInRange (u32 eip) 1 (memory_ s.1));
      on_memory (SuspendBreakpoints breakpoints) ;;
      stepped ← on_threads (on_thread p DebuggerThread.StepInstruction);
      ok ← if stepped : bool then Go else mret false;
      (if ok : bool then mret tt else on_memory (RestoreBreakpoints breakpoints true)) ;;
      mret ok
    end))
  end.

Definition StepFunction : D bool :=
  d ← gets fst;
  match ActiveThreadID (threads d) with
  | None => mret false
  | Some thread_id =>
    ok ← Stop;
    unless ok false (
      ret ← request_ok (FuncCall thread_id);
      going ← Go;
      mret (going && ret))
  end.

(** [ScopedResume]: stop the target around [body] and let it go on afterwards. *)
Definition ScopedResume {A} (body : D A) : D A :=
  done ← on_target (SendCommandSync Stop_class Requests.Stop None tt);
  let should_resume := status done =? OK in
  (if should_resume then
     in_time ← WaitForState S_STOPPED kDefaultHaltAllMaxWaitMilliseconds; mret tt
   else mret tt) ;;
  a ← body;
  (if should_resume then going ← Go; mret tt else mret tt) ;;
  mret a.
End Operations.
