(* ===== verification/DebuggerInvariant.v ===== *)
(** * An invariant of the whole debugger

    Whatever the target answers and whatever it notifies, after any sequence of
    operations no thread pointer dangles and every breakpoint set on the target
    is one the debugger knows. *)

From S2P Require Import Prelude CLib Boost Parsing RdcpResponse RdcpMaps RdcpTypes RdcpRequest Requests Notifications.
From S2P Require Import ExprParser Path Target Console DebuggerMemory DebuggerThread DebuggerThreads Debugger DebuggerControl.

(** Notifications and connections set no breakpoint, and a target that reports a
    reboot has none left. *)
Class NotifyingTarget (E : Type) {C : Type} `{!Boost} `{!Target C E, !BreakpointTarget E, !Listeners C E} := {
  arrival_armed ms e n remaining e' :
    next_notification ms e = Some (n, remaining, e') →
    armed e' ⊆ armed e ∧ (n = NotificationExecutionStateChanged S_REBOOTING → armed e' = ∅);
  listener_armed e : armed (StartNotificationListener e).2 ⊆ armed e;
  register_armed e : armed (RegisterNotificationHandler e).2 ⊆ armed e;
  unregister_armed i e : armed (UnregisterNotificationHandler i e) ⊆ armed e;
  others_armed admitted n d e : armed (notify_others admitted n d e) ⊆ armed e;
  close_armed e : armed (CloseActiveConnections e) ⊆ armed e
}.

Section Invariant.
Context `{!Boost} {C E : Type} `{!Target C E, !BreakpointTarget E, !Listeners C E, !NotifyingTarget E}.
Abbreviation state := (XBDMDebugger * E)%type.

Abbreviation D := (M (XBDMDebugger * E)).

Definition debugger_ok (s : state) : Prop := table_ok (threads s.1) ∧ known (memory_ s.1, s.2).

Lemma known_subset (m : Memory) e e' : armed e' ⊆ armed e → known (m, e) → known (m, e').
Proof. intros Hsub [H1 H2]. split; [set_solver|done]. Qed.

Lemma ok_subset d e e' : armed e' ⊆ armed e → debugger_ok (d, e) → debugger_ok (d, e').
Proof. intros Hsub [H1 H2]. split; [done|]. by eapply known_subset. Qed.

(** *** The parts *)

Lemma keeps_update f :
  (∀ d, threads (f d) = threads d) → (∀ d, memory_ (f d) = memory_ d) → keeps debugger_ok (update f).
Proof. intros Ht Hm [d e] [H1 H2]. apply wp_on_left. unfold debugger_ok in *. cbn in *. by rewrite Ht, Hm. Qed.

Lemma keeps_update_threads f : (∀ t, table_ok t → table_ok (f t)) → keeps debugger_ok (update_threads f).
Proof. intros Hf [d e] [H1 H2]. apply wp_on_left. split; [by apply Hf|done]. Qed.

Lemma keeps_on_memory {A} (m : M (Memory * E) A) : keeps known m → keeps debugger_ok (on_memory m).
Proof.
  intros Hm [d e] [H1 H2]. apply wp_zoom. eapply wp_mono; [by apply Hm|]. intros a [m' e'] Hk. by split.
Qed.

(** What the requests of the threads change. *)
Definition closed (J : E → Prop) : Prop :=
  ∀ r payload e, thread_command (command_ r) = true → J e → J (answer r payload e).2.

Lemma known_closed m : closed (λ e, known (m, e)).
Proof.
  intros r payload e Hr. apply known_subset, other_answer. constructor. intros E0. by rewrite E0 in Hr.
Qed.

Lemma keeps_on_threads {A} (m : M (ThreadTable * E) A) :
  (∀ J t, closed J → keeps (threads_kept J t) m) → keeps debugger_ok (on_threads m).
Proof.
  intros Hm [d e] [H1 H2]. apply wp_zoom.
  eapply wp_mono; [apply (Hm (λ e, known (memory_ d, e)) (threads d))|].
  - apply known_closed.
  - by split; [apply same_threads_refl|].
  - intros a [t e'] [Hs Hk]. split; [by eapply same_threads_ok|done].
Qed.

Lemma keeps_FetchThreads : keeps debugger_ok (on_threads FetchThreads).
Proof.
  intros [d e] [H1 H2]. apply wp_zoom.
  eapply wp_mono; [apply (wp_FetchThreads (λ e, known (memory_ d, e))); [apply known_closed|exact H2]|].
  intros ok [t e'] [Hk Ht]. split; [|done]. cbn. destruct ok; [apply Ht|by rewrite Ht].
Qed.

Lemma keeps_on_target_command {T} (k : RequestClass T) r payload init :
  other_request r → keeps debugger_ok (on_target (command k r payload init)).
Proof.
  intros Hr [d e] Hs. apply wp_on_right. eapply wp_mono; [by apply wp_command_state|].
  intros a e' ->. by eapply ok_subset, Hs; apply other_answer.
Qed.

Lemma keeps_request_ok r : other_request r → keeps debugger_ok (on_target (plain_command r)).
Proof.
  intros Hr [d e] Hs. apply wp_on_right, wp_plain_command. by eapply ok_subset, Hs; apply other_answer.
Qed.

Lemma keeps_modify_target (f : E → E) : (∀ e, armed (f e) ⊆ armed e) → keeps debugger_ok (on_target (modify f)).
Proof. intros Hf [d e] Hs. by eapply ok_subset, Hs. Qed.

Lemma event_ok ev t : table_ok t → table_ok (apply_event ev t).
Proof.
  intros Hok. destruct ev as [i|i|i]; cbn [apply_event].
  - unfold OnThreadCreated. destruct (GetThread _ _); [done|]. by apply emplace_ok.
  - unfold OnThreadTerminated. destruct (GetThread _ _) as [p|]; [|done]. destruct Hok as [Hnd Hlt].
    unfold erase_ptr. set (t' := if bool_decide _ then _ else _).
    assert (threads_ t' = threads_ t ∧ objects t' = objects t) as [_ Ho] by (unfold t'; by destruct (bool_decide _)).
    unfold table_ok. cbn [with_threads threads_ objects]. rewrite Ho.
    destruct (list_find _ _) as [[k q]|]; [|done]. split; [by eapply sublist_NoDup, sublist_delete|].
    rewrite Forall_forall in *. intros x Hx. apply Hlt. by eapply elem_of_sublist, sublist_delete.
  - unfold SetActiveThread. by destruct (GetThread i t).
Qed.

(** *** Members of a thread, memory, requests *)

Lemma keeps_member {A} p (m : M (Thread * E) A) :
  (∀ J i, closed J → keeps (thread_kept J i) m) → keeps debugger_ok (on_threads (on_thread p m)).
Proof. intros Hm. apply keeps_on_threads. intros J t HJ. apply keeps_on_thread. intros i. by apply Hm. Qed.

Lemma keeps_at p : keeps debugger_ok (on_threads (thread_at p)).
Proof. apply keeps_on_threads. intros. apply keeps_thread_at. Qed.

Lemma keeps_GetMemory a n v : keeps debugger_ok (on_memory (GetMemory a n v)).
Proof. apply keeps_on_memory. intros s. apply known_GetMemory. Qed.

(** The remaining operations on memory, by the invariant of that component. *)
Lemma keeps_memory_step {A} (m : M (Memory * E) A) :
  (∀ s r s', m s = Some (r, s') → memory_step s s') → keeps debugger_ok (on_memory m).
Proof.
  intros Hm. apply keeps_on_memory. intros s Hk. unfold wp. destruct (m s) as [[r s']|] eqn:Hrun; [|done].
  by eapply known_step, Hm.
Qed.

Lemma keeps_FetchMemoryMap : keeps debugger_ok (on_memory FetchMemoryMap).
Proof. apply keeps_memory_step. intros. by eapply step_FetchMemoryMap. Qed.

Lemma keeps_Rearm : keeps debugger_ok (on_memory RearmBreakpoints).
Proof. apply keeps_memory_step. intros. by eapply step_Rearm. Qed.

Hint Resolve keeps_GetMemory keeps_FetchMemoryMap keeps_Rearm keeps_at keeps_FetchThreads keeps_request_ok
  keeps_on_target_command : keeps.
Hint Extern 1 (other_request _) => constructor; reflexivity || discriminate : keeps.
Hint Extern 1 (keeps debugger_ok (update _)) => by apply keeps_update : keeps.
Hint Extern 1 (keeps debugger_ok (on_threads (on_thread _ _))) =>
  apply keeps_member; intros ? ? ?;
  by (apply keeps_FetchContextSync || apply keeps_FetchStopReasonSync || apply keeps_FetchInfoSync ||
      apply keeps_simple || apply keeps_StepInstruction || apply keeps_set_thread) : keeps.
Hint Extern 2 (keeps _ (if ?b then _ else _)) => destruct b : keeps.
Hint Extern 2 (keeps _ (match ?x with _ => _ end)) => destruct x : keeps.

Lemma keeps_Go : keeps debugger_ok Go.
Proof. unfold Go. auto with keeps. Qed.
Lemma keeps_Stop : keeps debugger_ok Stop.
Proof. unfold Stop. auto with keeps. Qed.
Lemma keeps_BreakAtStart : keeps debugger_ok BreakAtStart.
Proof. apply keeps_request_ok. apply other_AtStart. Qed.
Lemma keeps_SetDebugger b : keeps debugger_ok (SetDebugger b).
Proof. unfold SetDebugger. auto with keeps. Qed.
Hint Resolve keeps_Go keeps_Stop keeps_BreakAtStart keeps_SetDebugger : keeps.

Lemma keeps_FetchSections name : keeps debugger_ok (FetchSections name).
Proof. unfold FetchSections. auto with keeps. Qed.
Hint Resolve keeps_FetchSections : keeps.

Lemma keeps_FetchModules : keeps debugger_ok FetchModules.
Proof. unfold FetchModules. auto 16 with keeps. Qed.
Hint Resolve keeps_FetchModules : keeps.

(** *** The handlers *)

Lemma keeps_evaluate c i condition : keeps debugger_ok (evaluate c i condition).
Proof.
  intros s Hs. unfold wp, evaluate.
  pose proof (Parse_keeps (MkEnv c (Some i) (Some CreateMemoryReader)) debugger_ok) as Hk.
  assert (∀ reader, Some CreateMemoryReader = Some reader → ∀ addr size s r s',
    reader addr size s = Some (r, s') → debugger_ok s → debugger_ok s') as Hreader.
  { intros reader [= <-] addr size s1 r s2 Hrun Hs1.
    assert (keeps debugger_ok (CreateMemoryReader addr size)) as Hr by (unfold CreateMemoryReader; auto with keeps).
    by apply (wp_partial _ _ _ _ _ (Hr s1 Hs1)) in Hrun. }
  specialize (Hk Hreader condition s Hs). by destruct (Parse _ _ _).
Qed.
Hint Resolve keeps_evaluate : keeps.

Lemma keeps_ContinueThread_ok i b : keeps debugger_ok (on_threads (ContinueThread i b)).
Proof. apply keeps_on_threads. intros J t HJ. by apply keeps_ContinueThread. Qed.
Hint Resolve keeps_ContinueThread_ok : keeps.

Lemma keeps_PerformAfterStopActions p : keeps debugger_ok (PerformAfterStopActions p).
Proof. unfold PerformAfterStopActions. auto with keeps. Qed.
Hint Resolve keeps_PerformAfterStopActions : keeps.

Lemma keeps_resume_or_stop p condition : keeps debugger_ok (resume_or_stop p condition).
Proof. unfold resume_or_stop. destruct condition; [|auto with keeps]. auto 12 with keeps. Qed.
Hint Resolve keeps_resume_or_stop : keeps.

Lemma keeps_activate i : keeps debugger_ok (update_threads (λ t, (SetActiveThread i t).2)).
Proof. apply keeps_update_threads. intros t. apply (event_ok (Activated i)). Qed.
Hint Resolve keeps_activate : keeps.

Lemma keeps_with_stopped_thread i a k : (∀ p, keeps debugger_ok (k p)) → keeps debugger_ok (with_stopped_thread i a k).
Proof. intros Hk. unfold with_stopped_thread. auto 10 with keeps. Qed.

Lemma keeps_OnBreakpoint i a : keeps debugger_ok (OnBreakpoint i a).
Proof. apply keeps_with_stopped_thread. intros p. auto 12 with keeps. Qed.
Lemma keeps_OnWatchpoint type i a w : keeps debugger_ok (OnWatchpoint type i a w).
Proof. apply keeps_with_stopped_thread. intros p. auto with keeps. Qed.

Lemma keeps_GetFirstStopped_ok : keeps debugger_ok (on_threads GetFirstStoppedThread).
Proof. apply keeps_on_threads. intros J t HJ. by apply keeps_GetFirstStoppedThread. Qed.
Hint Resolve keeps_GetFirstStopped_ok : keeps.

(** After a reboot there is nothing to forget. *)
Lemma wp_OnExecutionStateChanged state s :
  (state = S_REBOOTING → armed s.2 = ∅) → debugger_ok s →
  wp True (OnExecutionStateChanged state) s (λ _, debugger_ok).
Proof.
  intros Hreboot Hs. unfold OnExecutionStateChanged. destruct s as [d e].
  apply wp_bind, wp_on_left. change (wp True (modify ?g) d ?Q) with (Q tt (g d)). cbn beta. apply wp_bind.
  eapply wp_mono with (Q := λ _, debugger_ok); [destruct (decide (state = S_REBOOTING)) as [->|]|].
  - apply wp_bind, wp_on_left. change (wp True (modify ?g) ?x ?Q) with (Q tt (g x)). cbn beta.
    apply wp_zoom, wp_on_left. change (wp True (modify ?g) ?x ?Q) with (Q tt (g x)). cbn.
    destruct Hs as [Ht [Hk Hall]]. split; [done|]. split; [cbn; by rewrite (Hreboot eq_refl : armed e = ∅)|by intros x ?%elem_of_empty].
  - by apply wp_ret.
  - intros _ s1 Hs1. refine ((_ : keeps debugger_ok _) s1 Hs1). auto 12 with keeps.
Qed.

Lemma keeps_OnModuleLoaded m : keeps debugger_ok (OnModuleLoaded m).
Proof. unfold OnModuleLoaded. auto with keeps. Qed.
Lemma keeps_OnSectionLoaded m : keeps debugger_ok (OnSectionLoaded m).
Proof. unfold OnSectionLoaded. auto with keeps. Qed.
Lemma keeps_OnSectionUnloaded m : keeps debugger_ok (OnSectionUnloaded m).
Proof. unfold OnSectionUnloaded. auto with keeps. Qed.

(** A notification, when nothing is armed after a reboot. *)
Lemma wp_OnNotification n s :
  (n = NotificationExecutionStateChanged S_REBOOTING → armed s.2 = ∅) → debugger_ok s →
  wp True (OnNotification n) s (λ _, debugger_ok).
Proof.
  intros Hn Hs. destruct n as [message|msg|module|section|section|i start|i|state|i a fl|type i a w sb fl|i a|code i a rd fl|c];
    cbn [OnNotification].
  - apply keeps_ret, Hs.
  - apply keeps_update, Hs; intros d; unfold OnDebugStr; by repeat case_match.
  - apply keeps_OnModuleLoaded, Hs.
  - apply keeps_OnSectionLoaded, Hs.
  - apply keeps_OnSectionUnloaded, Hs.
  - apply keeps_update_threads, Hs. intros t. apply (event_ok (Created i)).
  - apply keeps_update_threads, Hs. intros t. apply (event_ok (Terminated i)).
  - apply wp_OnExecutionStateChanged, Hs. intros ->. by apply Hn.
  - apply keeps_OnBreakpoint, Hs.
  - apply keeps_OnWatchpoint, Hs.
  - apply keeps_with_stopped_thread, Hs. auto with keeps.
  - apply keeps_with_stopped_thread, Hs. auto with keeps.
  - apply keeps_ret, Hs.
Qed.

(** The other handlers are called before and after. *)
Lemma keeps_notify admitted n : keeps debugger_ok (notify admitted n).
Proof.
  apply keeps_bind; [auto with keeps|]. intros d. apply keeps_modify_target. intros e. apply others_armed.
Qed.

Lemma wp_DispatchNotification n s :
  (n = NotificationExecutionStateChanged S_REBOOTING → armed s.2 = ∅) → debugger_ok s →
  wp True (DispatchNotification n) s (λ _, debugger_ok).
Proof.
  intros Hn Hs. unfold DispatchNotification. apply wp_bind. change (wp True (gets ?g) ?s ?Q) with (Q (g s) s). cbn beta zeta.
  apply wp_bind. change (wp True (gets ?g) ?s ?Q) with (Q (g s) s). cbn beta. apply wp_bind.
  eapply wp_mono with (Q := λ _ s', debugger_ok s' ∧ armed s'.2 ⊆ armed s.2).
  { destruct s as [d e]. split; [by eapply ok_subset, Hs; apply others_armed|]. apply others_armed. }
  intros _ s1 [Hs1 Hsub]. apply wp_bind. eapply wp_mono with (Q := λ _, debugger_ok).
  - destruct (has_handler _ _); [|done]. apply wp_OnNotification; [|done]. intros E1. specialize (Hn E1). set_solver.
  - intros _ s2 Hs2. by apply keeps_notify.
Qed.

(** *** Waiting and the operations *)

Lemma keeps_wait_loop fuel pred ms : keeps debugger_ok (wait_loop fuel pred ms).
Proof.
  revert ms; induction fuel as [|fuel IH]; intros ms; cbn [wait_loop];
    (apply keeps_bind; [auto with keeps|]; intros d; destruct (pred (state_ d)); [apply keeps_ret|]); [apply keeps_ret|].
  apply keeps_bind_wp. intros [d' e] Hs. unfold wp at 1, arrival.
  destruct (next_notification ms e) as [[[n remaining] e']|] eqn:Hn; [|exact Hs].
  apply arrival_armed in Hn as [Hsub Hreboot]. pose proof (ok_subset d' e e' Hsub Hs) as Hs'.
  apply wp_bind. eapply wp_mono with (Q := λ _, debugger_ok); [by apply wp_DispatchNotification|].
  intros _ s1 Hs1. by apply IH.
Qed.

Lemma keeps_wait_for pred ms : keeps debugger_ok (wait_for pred ms).
Proof. apply keeps_bind; [auto with keeps|]. intros n. apply keeps_wait_loop. Qed.
Hint Extern 1 (keeps debugger_ok (WaitForState _ _)) => apply keeps_wait_for : keeps.
Hint Extern 1 (keeps debugger_ok (WaitForStateIn _ _)) => apply keeps_wait_for : keeps.
Hint Extern 1 (keeps debugger_ok (WaitForStateNotIn _ _)) => apply keeps_wait_for : keeps.

Lemma keeps_WaitMilliseconds ms : keeps debugger_ok (WaitMilliseconds ms).
Proof. apply keeps_bind; [apply keeps_wait_for|]. intros _. apply keeps_ret. Qed.
Hint Resolve keeps_WaitMilliseconds : keeps.

Lemma keeps_unregister : keeps debugger_ok unregister_handler.
Proof.
  apply keeps_bind; [auto with keeps|]. intros d. apply keeps_modify_target. intros e. apply unregister_armed.
Qed.

(** A method of the connection that returns a result. *)
Lemma keeps_target_state {A} (f : E → A * E) :
  (∀ e, armed (f e).2 ⊆ armed e) → keeps debugger_ok (on_target (λ e, Some (f e))).
Proof.
  intros Hf [d e] Hs. apply wp_on_right. unfold wp. specialize (Hf e). destruct (f e) as [a e'].
  by eapply ok_subset, Hs.
Qed.

Lemma keeps_or_unregister m k :
  keeps debugger_ok m → keeps debugger_ok k → keeps debugger_ok (or_unregister m k).
Proof.
  intros Hm Hk. apply keeps_bind; [done|]. intros []; [done|]. apply keeps_bind; [apply keeps_unregister|].
  intros _. apply keeps_ret.
Qed.
Hint Resolve keeps_unregister keeps_or_unregister : keeps.

Lemma keeps_server_port : keeps debugger_ok notification_server_port.
Proof.
  apply keeps_bind; [auto with keeps|]. intros [port|]; [auto with keeps|].
  apply keeps_bind; [apply keeps_target_state, listener_armed|]. auto with keeps.
Qed.

Lemma keeps_RequestDebugNotifications port : keeps debugger_ok (RequestDebugNotifications port).
Proof. unfold RequestDebugNotifications. auto with keeps. Qed.
Hint Resolve keeps_RequestDebugNotifications : keeps.

Lemma keeps_Attach : keeps debugger_ok Attach.
Proof.
  apply keeps_bind; [apply keeps_server_port|]. intros [port|]; [|apply keeps_ret].
  apply keeps_bind; [auto with keeps|]. intros d. apply keeps_bind; [auto with keeps|]. intros _.
  apply keeps_bind; [auto with keeps|]. intros _.
  apply keeps_bind; [apply keeps_target_state, register_armed|]. auto 16 with keeps.
Qed.

Lemma keeps_Shutdown : keeps debugger_ok Shutdown.
Proof. unfold Shutdown. auto with keeps. Qed.

Lemma other_Reboot flags : other_request (Reboot flags).
Proof. constructor. unfold Reboot. by repeat destruct (has_flag _ _). Qed.
Lemma keeps_close : keeps debugger_ok (on_target (modify CloseActiveConnections)).
Proof. apply keeps_modify_target, close_armed. Qed.
Hint Resolve other_Reboot keeps_close : keeps.

Lemma keeps_RestartAndReconnect flags : keeps debugger_ok (RestartAndReconnect flags).
Proof. unfold RestartAndReconnect, request_ok. auto 16 with keeps. Qed.
Hint Resolve keeps_RestartAndReconnect : keeps.

Lemma keeps_RestartAndAttach flags : keeps debugger_ok (RestartAndAttach flags).
Proof. unfold RestartAndAttach. auto with keeps. Qed.

Lemma keeps_ContinueAll_ok b : keeps debugger_ok (on_threads (ContinueAll b)).
Proof. apply keeps_on_threads. intros J t HJ. by apply keeps_ContinueAll. Qed.
Hint Resolve keeps_ContinueAll_ok : keeps.

Lemma keeps_BreakOnNextThreadCreate : keeps debugger_ok BreakOnNextThreadCreate.
Proof. unfold BreakOnNextThreadCreate, remove_break_on_create, request_ok. auto 16 with keeps. Qed.
Hint Resolve keeps_BreakOnNextThreadCreate : keeps.

Lemma keeps_DebugXBE path line wait mode : keeps debugger_ok (DebugXBE path line wait mode).
Proof.
  unfold DebugXBE. destruct (SplitXBEPath path) as [[dir name]|]; [|apply keeps_ret].
  apply keeps_bind; [auto with keeps|]. intros ok. apply keeps_unless. apply keeps_bind.
  { apply keeps_request_ok. constructor. unfold LoadOnBootTitle. by destruct (negb _). }
  intros ok1. apply keeps_unless. destruct mode; auto 16 with keeps.
Qed.

Lemma keeps_poll_stopped fuel p ms : keeps debugger_ok (poll_stopped fuel p ms).
Proof.
  revert ms; induction fuel as [|fuel IH]; intros ms; cbn [poll_stopped]; auto 10 with keeps.
Qed.
Hint Resolve keeps_poll_stopped : keeps.

Lemma keeps_HaltAll ms : keeps debugger_ok (HaltAll ms).
Proof. unfold HaltAll, request_ok. auto 16 with keeps. Qed.

Lemma keeps_Halt : keeps debugger_ok Halt.
Proof. apply keeps_on_threads. intros J t HJ. by apply keeps_HaltActive. Qed.

Lemma keeps_StepFunction : keeps debugger_ok StepFunction.
Proof. unfold StepFunction, request_ok. auto 10 with keeps. Qed.
(** The breakpoints taken out for a step are known, and stay known. *)
Definition during (b : gset Z) (s : state) : Prop := debugger_ok s ∧ breakpoints_ (memory_ s.1) = b.

Lemma keeps_during {A} b (m : D A) :
  keeps debugger_ok m → (∀ s, wp True m s (λ _ s', memory_ s'.1 = memory_ s.1)) → keeps (during b) m.
Proof.
  intros Hm Hf s [Hs Hb]. pose proof (Hm s Hs) as H1. pose proof (Hf s) as H2. unfold wp in *.
  destruct (m s) as [[a s']|]; [|done]. split; [done|]. by rewrite H2.
Qed.

Lemma threads_frame {A} (m : M (ThreadTable * E) A) s : wp True (on_threads m) s (λ _ s', memory_ s'.1 = memory_ s.1).
Proof. destruct s as [d e]. apply wp_zoom. unfold wp. by destruct (m _) as [[? ?]|]. Qed.

Lemma target_frame {A} (m : M E A) s : wp True (on_target m) s (λ _ s', memory_ s'.1 = memory_ s.1).
Proof. destruct s as [d e]. apply wp_on_right. unfold wp. by destruct (m _) as [[? ?]|]. Qed.

Lemma stop_frame s : wp True Stop s (λ _ s', memory_ s'.1 = memory_ s.1).
Proof. unfold Stop. apply wp_bind. eapply wp_mono; [apply target_frame|]. by intros [? ?]. Qed.

Lemma during_toggle b (f : list Z → M (Memory * E) unit) l :
  (∀ s, (∀ a, a ∈ l → a ∈ breakpoints_ s.1) → known s → wp True (f l) s (λ _ s', s'.1 = s.1 ∧ known s')) →
  (∀ a, a ∈ l → a ∈ b) → keeps (during b) (on_memory (f l)).
Proof.
  intros Hf Hl [d e] [[H1 H2] Hb]. apply wp_zoom. eapply wp_mono; [apply Hf; [|exact H2]|].
  - intros a Ha. cbn in *. rewrite Hb. auto.
  - intros _ [m' e'] [E1 Hk]. cbn in *. subst m'. split; [by split|done].
Qed.

Lemma keeps_StepInstruction_ok : keeps debugger_ok StepInstruction.
Proof.
  intros s0 Hs0. eapply wp_mono with (Q := λ _, during (breakpoints_ (memory_ s0.1))); [|by intros _ s [? _]].
  revert s0 Hs0. enough (∀ b, keeps (during b) StepInstruction) as Hkeep by (intros s Hs; by apply Hkeep).
  intros b. apply keeps_bind; [auto with keeps|]. intros d. destruct (ActiveThread (threads d)) as [p|]; [|auto with keeps].
  apply keeps_bind; [apply keeps_during; [auto with keeps|apply stop_frame]|]. intros ok. apply keeps_unless.
  apply keeps_bind; [apply keeps_during; [auto with keeps|apply threads_frame]|]. intros ok1. apply keeps_unless.
  apply keeps_bind; [apply keeps_during; [auto with keeps|apply threads_frame]|]. intros thread.
  apply keeps_bind; [auto with keeps|]. intros c. destruct (eip c) as [eip|]; [|auto with keeps].
  apply keeps_bind_wp. intros s Hs. change (wp True (gets ?g) ?s ?Q) with (Q (g s) s). cbn beta.
  set (l := GetActiveBreakpointsInRange _ _ _).
  assert (∀ a, a ∈ l → a ∈ b) as Hl by (intros a Ha; destruct Hs as [_ <-]; by eapply known_overlaps).
  refine ((_ : keeps (during b) _) s Hs).
  apply keeps_bind.
  { apply (during_toggle b SuspendBreakpoints); [|done]. intros s1 Hin Hk. apply (known_toggle _ true); [|done..].
    intros x m e Q HQ. by apply wp_bind, wp_on_right, wp_plain_command. }
  intros _. apply keeps_bind; [apply keeps_during; [auto with keeps|apply threads_frame]|]. intros stepped.
  apply keeps_bind; [destruct stepped; [apply keeps_during; [auto with keeps|apply target_frame]|auto with keeps]|].
  intros [|]; [auto with keeps|]. apply keeps_bind; [|auto with keeps].
  apply (during_toggle b (λ l, RestoreBreakpoints l true)); [|done]. intros s1 Hin Hk. apply (known_toggle _ false); [|done..].
  intros x m e Q HQ. by apply wp_bind, wp_on_right, wp_plain_command.
Qed.

Lemma keeps_Modules : keeps debugger_ok Modules.
Proof. unfold Modules. auto with keeps. Qed.
Lemma keeps_Sections : keeps debugger_ok Sections.
Proof. unfold Sections. auto with keeps. Qed.
End Invariant.

(** ** Every run of the debugger *)

Section Runs.
Context `{!Boost} {C E : Type} `{!Target C E, !Listeners C E}.
Abbreviation D := (M (XBDMDebugger * E)).

(** What the shell and the GDB bridge call. *)
Inductive operation : ∀ A, D A → Prop :=
| op_Attach : operation bool Attach
| op_Shutdown : operation unit Shutdown
| op_RestartAndReconnect flags : operation bool (RestartAndReconnect flags)
| op_RestartAndAttach flags : operation bool (RestartAndAttach flags)
| op_BreakOnNextThreadCreate : operation bool BreakOnNextThreadCreate
| op_DebugXBE path command_line wait mode : operation bool (DebugXBE path command_line wait mode)
| op_SetDebugger b : operation bool (SetDebugger b)
| op_Stop : operation bool Stop
| op_Go : operation bool Go
| op_BreakAtStart : operation bool BreakAtStart
| op_HaltAll ms : operation bool (HaltAll ms)
| op_Halt : operation bool Halt
| op_StepInstruction : operation bool StepInstruction
| op_StepFunction : operation bool StepFunction
| op_ContinueAll b : operation bool (on_threads (ContinueAll b))
| op_ContinueThread i b : operation bool (on_threads (ContinueThread i b))
| op_FetchThreads : operation bool (on_threads FetchThreads)
| op_GetFirstStoppedThread : operation (option ptr) (on_threads GetFirstStoppedThread)
| op_SetActiveThread i : operation unit (update_threads (λ t, (SetActiveThread i t).2))
| op_FetchModules : operation bool FetchModules
| op_FetchSections name : operation bool (FetchSections name)
| op_Modules : operation (gmap Z Module_) Modules
| op_Sections : operation (gmap Z Section_) Sections
| op_WaitForState state ms : operation bool (WaitForState state ms)
| op_WaitForStateIn states ms : operation bool (WaitForStateIn states ms)
| op_WaitForStateNotIn states ms : operation bool (WaitForStateNotIn states ms)
| op_WaitMilliseconds ms : operation unit (WaitMilliseconds ms)
| op_SetBreakpointCondition type a c : operation unit (update (SetBreakpointCondition type a c))
| op_RemoveBreakpointCondition type a : operation unit (update (RemoveBreakpointCondition type a))
| op_GetMemory a n v : operation _ (on_memory (GetMemory a n v))
| op_GetDWORD a : operation _ (on_memory (GetDWORD a))
| op_SetMemory a data : operation _ (on_memory (SetMemory a data))
| op_AddBreakpoint a : is_u32 a → operation _ (on_memory (AddBreakpoint a))
| op_RemoveBreakpoint a : is_u32 a → operation _ (on_memory (RemoveBreakpoint a))
| op_AddReadWatch a n : operation _ (on_memory (AddReadWatch a n))
| op_RemoveReadWatch a n : operation _ (on_memory (RemoveReadWatch a n))
| op_AddWriteWatch a n : operation _ (on_memory (AddWriteWatch a n))
| op_RemoveWriteWatch a n : operation _ (on_memory (RemoveWriteWatch a n))
| op_FetchMemoryMap : operation _ (on_memory FetchMemoryMap).

(** The states of the debugger and its target from a start on [e0]. *)
Inductive reachable (e0 : E) : XBDMDebugger * E → Prop :=
| reach_start : reachable e0 (new_debugger, e0)
| reach_operation {A} (m : D A) r s s' :
    reachable e0 s → operation A m → m s = Some (r, s') → reachable e0 s'
| reach_notification ms n remaining d e e' s' :
    reachable e0 (d, e) → next_notification ms e = Some (n, remaining, e') →
    DispatchNotification n (d, e') = Some (tt, s') → reachable e0 s'.
End Runs.

Section Reached.
Context `{!Boost} {C E : Type} `{!Target C E, !BreakpointTarget E, !Listeners C E, !NotifyingTarget E}.

Lemma operation_keeps {A} (m : M (XBDMDebugger * E) A) : operation A m → keeps debugger_ok m.
Proof.
  intros Hop. destruct Hop;
    first
    [ solve [ eauto using keeps_Attach, keeps_Shutdown, keeps_RestartAndReconnect, keeps_RestartAndAttach,
        keeps_BreakOnNextThreadCreate, keeps_DebugXBE, keeps_SetDebugger, keeps_Stop, keeps_Go, keeps_BreakAtStart,
        keeps_HaltAll, keeps_Halt, keeps_StepInstruction_ok, keeps_StepFunction, keeps_ContinueAll_ok,
        keeps_ContinueThread_ok, keeps_FetchThreads, keeps_GetFirstStopped_ok, keeps_activate, keeps_FetchModules,
        keeps_FetchSections, keeps_Modules, keeps_Sections, keeps_WaitMilliseconds ]
    | by apply keeps_wait_for
    | by apply keeps_update
    | apply keeps_memory_step; intros; eauto using @memory_step ].
Qed.

(** C9. In every state the debugger reaches from its start, by whatever operations
    and notifications and however the target answers: no pointer in the list of
    threads dangles, and every breakpoint that is set on the target is one the
    debugger knows (so reading memory can hide it). *)
Theorem debugger_invariant (e0 : E) s (Hstart : armed e0 = ∅) (Hreach : reachable e0 s) : debugger_ok s.
Proof.
  induction Hreach as [|A m r s s' _ IH Hop Hrun|ms n remaining d e e' s' _ IH Hnext Hrun].
  - split; [split; constructor|]. split; [cbn; set_solver|]. intros x Hx. set_solver.
  - by apply (wp_partial _ _ _ _ _ (operation_keeps m Hop s IH)) in Hrun.
  - apply arrival_armed in Hnext as [Hsub Hreboot]. refine (wp_partial _ _ (λ _, debugger_ok) _ _ _ Hrun).
    apply wp_DispatchNotification; [done|]. by eapply ok_subset.
Qed.
End Reached.

(** ** On the example console *)

(** Nobody else listens. *)
#[global] Instance console_alone : Listeners unit Console := {| notify_others _ _ _ c := c |}.

#[global] Instance console_notifies `{HB : !BoostLaws B} : NotifyingTarget Console.
Proof.
  refine {| arrival_armed := _ |}; try done.
  intros ms c n remaining c'. cbn. destruct (events c) as [|n' events']; [done|]. intros [= <- <- <-]. cbn.
  split; [by destruct (rebooted n')|]. by intros ->.
Defined.

(** A console with one thread that stops at a breakpoint and then reboots. *)
Definition rebooting_console : Console :=
  MkConsole (list_to_map [(4096, byte_of 144)]) ∅ false ∅ []
    [NotificationThreadCreated 28 0; NotificationExecutionStateChanged S_REBOOTING] [].

(** The state after [m]; [s] itself when [m] fails. *)
Definition state_after {S A} (m : M S A) (s : S) : S := default s (snd <$> m s).

Lemma debugger_invariant_witness :
  let B := Boost_reference.boost_reference in
  let s1 := state_after (on_memory (AddBreakpoint 4096)) (new_debugger, rebooting_console) in
  let s2 := state_after (WaitForState S_REBOOTING 100) s1 in
  traps s1.2 = {[4096]} ∧ thread_ids (threads s2.1) = [28] ∧ traps s2.2 = ∅
  ∧ @debugger_ok B unit Console console_target (@console_breakpoints _ Boost_reference.boost_reference_laws) s2.
Proof.
  intros B s1 s2. split; [vm_compute; reflexivity|]. split; [vm_compute; reflexivity|]. split; [vm_compute; reflexivity|].
  apply (@debugger_invariant Boost_reference.boost_reference unit Console console_target
    (@console_breakpoints _ Boost_reference.boost_reference_laws) console_alone
    (@console_notifies _ Boost_reference.boost_reference_laws) rebooting_console); [reflexivity|].
  apply (reach_operation _ (WaitForState S_REBOOTING 100) true s1);
    [|apply (op_WaitForState S_REBOOTING 100)|vm_compute; reflexivity].
  apply (reach_operation _ (on_memory (AddBreakpoint 4096)) true (new_debugger, rebooting_console));
    [apply reach_start|apply (op_AddBreakpoint 4096); unfold is_u32; lia|vm_compute; reflexivity].
Defined.
