(* ===== verification/DebuggerStops.v ===== *)
(** * What the debugger does when the target stops or prints

    The functional behaviour of the handlers of [XBDMDebugger] and of its waits:
    conditional breakpoints, the breakpoints that are set again at a stop, debug
    strings, and the loops that wait. *)

From S2P Require Import Prelude CLib Boost Parsing RdcpResponse RdcpMaps RdcpTypes RdcpRequest Requests Notifications.
From S2P Require Import ExprParser Path Target Console DebuggerMemory DebuggerThread DebuggerThreads Debugger DebuggerControl DebuggerInvariant.

(** ** Debug strings *)

(** The lines the messages of one thread make: the fragments up to each that
    ends a line, and what is left of the last one. *)
Fixpoint lines_of (pending : bytes) (msgs : list DebugStr) : list bytes * bytes :=
  match msgs with
  | [] => ([], pending)
  | m :: msgs' =>
    let line := pending ++ text m in
    if is_terminated m then let '(lines, rest) := lines_of [] msgs' in (line :: lines, rest)
    else lines_of line msgs'
  end.

(** What a run over messages logs, with the thread of each line. *)
Fixpoint log_debugstr (msgs : list DebugStr) (d : XBDMDebugger) : list (Z * bytes) * XBDMDebugger :=
  match msgs with
  | [] => ([], d)
  | m :: msgs' =>
    let '(logged, d1) := OnDebugStr m d in
    let '(lines, d2) := log_debugstr msgs' d1 in
    (match logged with Some before => (thread_id m, before ++ text m) :: lines | None => lines end, d2)
  end.

Definition pending (t : Z) (d : XBDMDebugger) : bytes := default [] (debugstr_accumulator_ d !! t).

Lemma OnDebugStr_other t m d : thread_id m ≠ t → pending t (OnDebugStr m d).2 = pending t d.
Proof.
  intros Hne. unfold OnDebugStr, pending. destruct (is_terminated m), (debugstr_accumulator_ d !! thread_id m);
    cbn; by rewrite ?lookup_insert_ne, ?lookup_delete_ne by done.
Qed.

Lemma OnDebugStr_own m d :
  OnDebugStr m d = (if is_terminated m then Some (pending (thread_id m) d) else None, (OnDebugStr m d).2)
  ∧ pending (thread_id m) (OnDebugStr m d).2
    = if is_terminated m then [] else pending (thread_id m) d ++ text m.
Proof.
  unfold OnDebugStr, pending. destruct (is_terminated m), (debugstr_accumulator_ d !! thread_id m) eqn:El;
    cbn; rewrite ?El, ?lookup_insert_eq, ?lookup_delete_eq; done.
Qed.

Lemma lines_of_concat p msgs :
  concat (lines_of p msgs).1 ++ (lines_of p msgs).2 = p ++ concat (map text msgs).
Proof.
  revert p; induction msgs as [|m msgs IH]; intros p; cbn; [by rewrite app_nil_r|].
  destruct (is_terminated m); [specialize (IH []); destruct (lines_of [] msgs)|rewrite IH]; cbn in *;
    by rewrite <- ?app_assoc, ?IH.
Qed.

(** Debug strings, whichever way the messages of different threads alternate:
    the lines logged for a thread are the joined fragments of its own messages,
    each up to the one that ends the line, and nothing of a thread's text is
    lost, repeated or reordered. *)
Theorem debug_lines (msgs : list DebugStr) (d : XBDMDebugger) (t : Z) :
  let own := List.filter (λ m, thread_id m =? t) msgs in
  let '(logged, d') := log_debugstr msgs d in
  let lines := map snd (List.filter (λ l, l.1 =? t) logged) in
  (lines, pending t d') = lines_of (pending t d) own
  ∧ concat lines ++ pending t d' = pending t d ++ concat (map text own).
Proof.
  cbn zeta. enough (∀ d, let '(logged, d') := log_debugstr msgs d in
    (map snd (List.filter (λ l, l.1 =? t) logged), pending t d')
    = lines_of (pending t d) (List.filter (λ m, thread_id m =? t) msgs)) as Hlines.
  { specialize (Hlines d). destruct (log_debugstr msgs d) as [logged d']. split; [done|].
    rewrite <- lines_of_concat, <- Hlines. done. }
  clear d. induction msgs as [|m msgs IH]; intros d; [done|]. cbn [log_debugstr List.filter].
  destruct (OnDebugStr_own m d) as [E Hown]. pose proof (OnDebugStr_other t m d) as Hother. rewrite E.
  generalize dependent (OnDebugStr m d).2. intros d1 E Hown Hother. specialize (IH d1).
  destruct (log_debugstr msgs d1) as [logged d2]. destruct (Z.eqb_spec (thread_id m) t) as [<-|Hne].
  - cbn [lines_of]. rewrite Hown in IH. destruct (is_terminated m); cbn [List.filter fst map snd]; [|done].
    rewrite Z.eqb_refl. cbn [map snd]. by destruct (lines_of [] _); simplify_eq.
  - rewrite Hother in IH by done. destruct (is_terminated m); cbn [List.filter fst]; [|done].
    by destruct (Z.eqb_spec (thread_id m) t).
Qed.

(** ** Conditions *)

Section Conditions.
Context `{!Boost, !BoostLaws _} {C E : Type} `{!Target C E, !Listeners C E}.
Abbreviation state := (XBDMDebugger * E)%type.

Definition condition_env (c : ThreadContext) (i : Z) : Environment state := MkEnv c (Some i) (Some CreateMemoryReader).

(** C32. A conditional stop: the context of the thread is fetched; without one the
    thread stays stopped, and so it does when the condition's value is not 0 or
    has an error; when the value is 0 the thread is continued and the target
    goes on.  The condition is computed once, on the state after the context was
    fetched, and what follows runs on the state it leaves. *)
Theorem conditional_stop (p : ptr) (e : expr) (s s1 : state) (ok : bool) (thread : Thread)
  (Hwf : wf_expr e)
  (Hfetch : on_threads (on_thread p FetchContextSync) s = Some (ok, s1))
  (Hp : objects (threads s1.1) !! p = Some thread) (Hid : is_u32 (id thread)) :
  resume_or_stop p (Some (show e)) s =
    match context thread with
    | None => PerformAfterStopActions p s1
    | Some c =>
      match eval (condition_env c (id thread)) e s1 with
      | Some (inl 0, s2) => (on_threads (ContinueThread (id thread) false) ;; Go ;; mret tt) s2
      | Some (_, s2) => PerformAfterStopActions p s2
      | None => None
      end
    end.
Proof.
  unfold resume_or_stop, mbind, M_bind. rewrite Hfetch. destruct s1 as [d1 e1]. cbn in Hp.
  unfold thread_at, on_threads at 1, zoom. unfold mbind, M_bind, gets, lift_option. cbn. rewrite Hp. cbn.
  replace (set_threads (threads d1) d1) with d1 by (by destruct d1). destruct (context thread) as [c|]; [|done].
  unfold evaluate. fold (condition_env c (id thread)). rewrite Parse_meaning by done.
  by destruct (eval _ e (d1, e1)) as [[[[|v|v]|m] s2]|].
Qed.

(** A condition that reads no bytes, as in [@($eax, 0)], ends the program: the
    reader passes the length 0 to [GetMemory], whose validation asserts that it
    is not. *)
Theorem condition_reads_nothing (c : ThreadContext) (i : Z) (x n : expr) (a : Z) (s s1 s2 : state)
  (Hi : is_u32 i) (Hwf : wf_expr x) (Hwn : wf_expr n)
  (Hx : eval (condition_env c i) x s = Some (inl a, s1)) (Hn : eval (condition_env c i) n s1 = Some (inl 0, s2)) :
  evaluate c i (show (LoadSized x n)) s = None.
Proof.
  unfold evaluate. fold (condition_env c i). rewrite Parse_meaning by done. cbn [eval]. rewrite Hx. cbn [and_then].
  rewrite Hn. cbn [and_then]. unfold load. cbn. by destruct s2.
Qed.
End Conditions.

(** ** Waiting *)

Section Waiting.
Context `{!Boost} {C E : Type} `{!Target C E, !Listeners C E}.
Abbreviation state := (XBDMDebugger * E)%type.

Lemma wp_wait_loop fuel pred ms (s : state) :
  wp True (wait_loop fuel pred ms) s (λ r s', r = pred (state_ s'.1)).
Proof.
  revert ms s; induction fuel as [|fuel IH]; intros ms s; cbn [wait_loop]; apply wp_bind;
    change (wp True (gets ?g) ?s ?Q) with (Q (g s) s); cbn beta; destruct (pred (state_ s.1)) eqn:Ep; try done.
  apply wp_bind. destruct s as [d e]. unfold wp at 1, arrival.
  destruct (next_notification ms e) as [[[n remaining] e']|]; [|done].
  apply wp_bind. eapply wp_mono; [apply wp_true|]. intros _ s1 _. apply IH.
Qed.

(** Waiting for a state of the target answers whether it is reached: the result
    is true exactly when the state the debugger then has is the awaited one, one
    of the awaited ones, or none of the banned ones. *)
Theorem wait_answers (s : state) (r : bool) (s' : state) (ms : Z) (x : ExecutionState) (xs : list ExecutionState) :
  (WaitForState x ms s = Some (r, s') → (r = true ↔ state_ s'.1 = x))
  ∧ (WaitForStateIn xs ms s = Some (r, s') → (r = true ↔ state_ s'.1 ∈ xs))
  ∧ (WaitForStateNotIn xs ms s = Some (r, s') → (r = true ↔ state_ s'.1 ∉ xs)).
Proof.
  assert (∀ pred, wait_for pred ms s = Some (r, s') → r = pred (state_ s'.1)) as Hwait.
  { intros pred Hrun. refine (wp_partial _ _ (λ r s', r = pred (state_ s'.1)) _ _ _ Hrun). unfold wait_for. apply wp_bind.
    change (wp True (gets ?g) ?s ?Q) with (Q (g s) s). apply wp_wait_loop. }
  split; [|split]; intros Hrun; rewrite (Hwait _ Hrun); apply bool_decide_eq_true.
Qed.

(** More steps than the milliseconds left make no difference. *)
Lemma poll_fuel n k p ms (s : state) : 0 ≤ ms → ms ≤ Z.of_nat n → poll_stopped (n + k) p ms s = poll_stopped n p ms s.
Proof.
  revert ms s; induction n as [|n IH]; intros ms s Hms Hn.
  - assert (ms = 0) as -> by lia. destruct k; [done|]. cbn [poll_stopped Nat.add]. unfold mbind, M_bind.
    destruct (on_threads (thread_at p) s) as [[thread s1]|]; [|done].
    change (0 =? 0) with true. cbn [mbind option_bind]. by rewrite orb_true_r.
  - cbn [poll_stopped Nat.add]. unfold mbind, M_bind. destruct (on_threads (thread_at p) s) as [[thread s1]|]; [|done].
    cbn [mbind option_bind]. destruct (stopped thread || (ms =? 0)) eqn:Hdone; [done|]. apply orb_false_iff in Hdone as [_ Hz].
    destruct (WaitMilliseconds _ s1) as [[? s2]|]; [|done]. cbn [mbind option_bind]. destruct (on_threads (on_thread p _) s2) as [[? s3]|]; [|done]. cbn [mbind option_bind].
    destruct (ms <? kDelayPerLoopMilliseconds) eqn:Hlt; [done|]. unfold kDelayPerLoopMilliseconds in *. apply IH; lia.
Qed.

(** The polling loop of [HaltAll] ends by itself: with as many steps as there
    are milliseconds to wait, which is what [HaltAll] gives it, any further step
    makes no difference to its result. *)
Theorem poll_ends (fuel : nat) (p : ptr) (ms : Z) (s : state) (Hms : 0 ≤ ms) (Hfuel : (Z.to_nat ms ≤ fuel)%nat) :
  poll_stopped fuel p ms s = poll_stopped (Z.to_nat ms) p ms s.
Proof. replace fuel with (Z.to_nat ms + (fuel - Z.to_nat ms))%nat by lia. apply poll_fuel; lia. Qed.
End Waiting.


(** ** Breakpoints at a stop *)

Section Rearming.
Context `{!Boost} {C E : Type} `{!Target C E, !BreakpointTarget E}.
Abbreviation state := (XBDMDebugger * E)%type.

(** C31. When the target reports that it stopped, every breakpoint the debugger
    knows is set again, whichever were taken out for a step, and no other is:
    the target accepts breakpoints, and asking which thread stopped and for the
    memory map changes none. *)
Theorem stop_rearms (d : XBDMDebugger) (e : E) (s' : state)
  (Hok : debugger_ok (d, e)) (Hw : willing e)
  (Hquiet : ∀ r payload e, thread_command (command_ r) = true ∨ command_ r = "walkmem"%bs →
     armed (answer r payload e).2 = armed e)
  (Hrun : OnNotification (NotificationExecutionStateChanged S_STOPPED) (d, e) = Some (tt, s')) :
  armed s'.2 = breakpoints_ (memory_ d) ∧ breakpoints_ (memory_ s'.1) = breakpoints_ (memory_ d)
  ∧ state_ s'.1 = S_STOPPED.
Proof.
  destruct Hok as [Htable [Hsub Hbp]]. set (b := breakpoints_ (memory_ d)).
  set (J := λ s : state, armed s.2 = b ∧ breakpoints_ (memory_ s.1) = b ∧ state_ s.1 = S_STOPPED).
  refine (wp_partial _ _ (λ _, J) _ _ _ Hrun). cbn [OnNotification]. unfold OnExecutionStateChanged.
  apply wp_bind, wp_on_left. change (wp True (modify ?g) ?x ?Q) with (Q tt (g x)). cbn beta.
  apply wp_bind. rewrite decide_False by done. apply wp_ret. rewrite decide_True by done.
  apply wp_bind, wp_zoom. eapply wp_mono; [apply (wp_Rearm (memory_ d) e True Hw Hbp Hsub)|].
  intros _ [m1 e1] (-> & _ & Harm). cbn [fst snd].
  assert (J (set_memory (memory_ d) (set_state S_STOPPED d), e1)) as HJ by done. revert HJ.
  generalize (set_memory (memory_ d) (set_state S_STOPPED d), e1). clear -Hquiet. intros s HJ.
  assert (∀ A (m : M (ThreadTable * E) A), (∀ t, keeps (threads_kept (λ e, armed e = b) t) m) → keeps J (on_threads m)) as Hthreads.
  { intros A m Hm [d0 e0] (Ha & Hb & Hs). apply wp_zoom.
    eapply wp_mono; [apply (Hm (threads d0)); by split; [apply same_threads_refl|]|]. by intros a [t' e'] [_ ?]. }
  assert (∀ r payload e, thread_command (command_ r) = true → armed e = b → armed (answer r payload e).2 = b) as Hcl.
  { intros r payload e Hr <-. auto. }
  refine ((_ : keeps J _) s HJ).
  apply keeps_bind; [apply Hthreads; intros; by apply keeps_GetFirstStoppedThread|]. intros first.
  apply keeps_bind.
  { destruct first as [p|]; [|apply keeps_ret]. apply keeps_bind; [apply Hthreads; intros; apply keeps_thread_at|].
    intros thread. by intros [? ?]. }
  intros _. apply keeps_bind; [|intros fetched; apply keeps_ret].
  intros [d0 e0] (Ha & Hb & Hs). apply wp_zoom. unfold FetchMemoryMap. apply wp_bind, wp_on_right.
  eapply wp_mono; [by apply wp_command_state|]. intros [ok regions] e' ->.
  assert (∀ m', breakpoints_ m' = b → J (set_memory m' d0, (answer WalkMem None e0).2)) as Hend.
  { intros m' Hm'. split; [|done]. cbn [snd]. by rewrite Hquiet by auto. }
  destruct ok; [apply wp_bind, wp_on_left|]; by apply Hend.
Qed.
End Rearming.

(** ** On the example console *)

(** One stopped thread, and a target that answers with its registers and accepts
    what follows. *)
Definition one_thread : ThreadTable := apply_event (Created 28) (MkTable None [] []).

Definition registers_reply_of (eax : bytes) : RDCPResponse :=
  MkResponse OK_MULTILINE_RESPONSE [] ("Eax=0x"%bs ++ eax ++ " Eip=0x00001000 EFlags=0x00000202"%bs).

Definition stopped_console (script : list RDCPResponse) : Console :=
  MkConsole (list_to_map [(4096, byte_of 144)]) {[4096]} false {[28]} script [] [].

Definition stopped_debugger : XBDMDebugger :=
  set_threads one_thread (set_memory (MkMemory [] {[4096; 5000]}) new_debugger).

Definition eax_is (v : Z) : expr := Binary EQ (Register "eax"%bs) (Number v).

(** [$eax == 6] where [eax] is 5: the thread is continued and the target goes on. *)
Lemma conditional_stop_witness :
  let B := Boost_reference.boost_reference in
  let s := (stopped_debugger, stopped_console [registers_reply_of "00000005"%bs; ok; ok]) in
  let s2 := state_after (resume_or_stop 0%nat (Some (show (eax_is 6)))) s in
  resume_or_stop 0%nat (Some (show (eax_is 6))) s = Some (tt, s2)
  ∧ drop 1 (sent s2.2) = ["continue thread=0x0000001c"%bs; "go"%bs].
Proof.
  intros B s s2. set (s1 := state_after (on_threads (on_thread 0%nat FetchContextSync)) s).
  set (thread := default (new_thread 28) (objects (threads s1.1) !! 0%nat)).
  split; [|vm_compute; reflexivity].
  rewrite (@conditional_stop Boost_reference.boost_reference Boost_reference.boost_reference_laws unit Console
    console_target 0%nat (eax_is 6) s s1 true thread).
  - vm_compute. reflexivity.
  - split; [reflexivity|]. split; [|done]. split; [done|]. by_evaluation.
  - vm_compute. reflexivity.
  - vm_compute. reflexivity.
  - split; vm_compute; congruence.
Defined.

(** [@(4096, 0)] *)
Lemma condition_reads_nothing_witness :
  let B := Boost_reference.boost_reference in
  evaluate Reset 28 (show (LoadSized (Number 4096) (Number 0))) (stopped_debugger, stopped_console []) = None.
Proof.
  intros B. apply (@condition_reads_nothing Boost_reference.boost_reference Boost_reference.boost_reference_laws unit
    Console console_target Reset 28 (Number 4096) (Number 0) 4096 (stopped_debugger, stopped_console [])
    (stopped_debugger, stopped_console []) (stopped_debugger, stopped_console [])); done.
Defined.

Lemma wait_answers_witness :
  let B := Boost_reference.boost_reference in
  let s := (stopped_debugger, rebooting_console) in
  let s2 := state_after (WaitForState S_REBOOTING 100) s in
  WaitForState S_REBOOTING 100 s = Some (true, s2) ∧ state_ s2.1 = S_REBOOTING.
Proof.
  intros B s s2. assert (WaitForState S_REBOOTING 100 s = Some (true, s2)) as Hrun by (vm_compute; reflexivity).
  split; [exact Hrun|].
  exact (proj1 (proj1 (@wait_answers Boost_reference.boost_reference unit Console console_target console_alone s true s2
    100 S_REBOOTING []) Hrun) eq_refl).
Defined.

Lemma poll_ends_witness :
  let B := Boost_reference.boost_reference in
  let s := (stopped_debugger, stopped_console []) in
  poll_stopped 1000 0%nat 250 s = poll_stopped 250 0%nat 250 s.
Proof.
  intros B s. apply (@poll_ends Boost_reference.boost_reference unit Console console_target console_alone 1000 0%nat 250 s); [done|].
  change (Z.to_nat 250) with 250%nat. lia.
Defined.

Lemma console_quiet `{!Boost} r payload (c : Console) :
  thread_command (command_ r) = true ∨ command_ r = "walkmem"%bs → traps (answer r payload c).2 = traps c.
Proof.
  intros Hr. destruct (decide (command_ r = "isstopped"%bs)) as [E|E].
  - rewrite console_isstopped by done. unfold answer_isstopped. by destruct (RDCPMapResponse_of _).
  - rewrite console_script.
    + unfold answer_script. by destruct (replies _).
    + rewrite !not_elem_of_cons. split_and!; [..|done|apply not_elem_of_nil]; intros Ec; rewrite Ec in Hr; by destruct Hr.
Qed.

(** The breakpoint at 5000 was taken out. *)
Lemma stop_rearms_witness :
  let B := Boost_reference.boost_reference in
  let s := (stopped_debugger, stopped_console [ok]) in
  let s2 := state_after (OnNotification (NotificationExecutionStateChanged S_STOPPED)) s in
  traps s2.2 = {[4096; 5000]} ∧ breakpoints_ (memory_ s2.1) = {[4096; 5000]} ∧ state_ s2.1 = S_STOPPED.
Proof.
  intros B s s2. apply (@stop_rearms Boost_reference.boost_reference unit Console console_target
    (@console_breakpoints _ Boost_reference.boost_reference_laws) stopped_debugger (stopped_console [ok]) s2).
  - split; [split; [by_evaluation|vm_compute; repeat constructor]|]. split; by_evaluation.
  - reflexivity.
  - intros. by apply console_quiet.
  - vm_compute. reflexivity.
Defined.
