(* ===== verification/DebuggerBacktrace.v ===== *)
(** * Guessing a back trace (src/xbox/debugger/xbdm_debugger.cpp)

    [GuessBackTrace] reads words of the stack and keeps those that follow a call
    instruction in an executable section.  The disassembler is not part of the
    repository: the interface [Disassembler] says what is used of it. *)

From S2P Require Import Prelude CLib Boost Parsing RdcpResponse RdcpMaps RdcpTypes RdcpRequest Requests Notifications.
From S2P Require Import ExprParser Path Target Console DebuggerMemory DebuggerThread DebuggerThreads Debugger DebuggerControl DebuggerInvariant DebuggerStops.

(** One instruction: its place, and of its first operand the immediate value. *)
Record Instruction := MkInstruction {
  insn_address : Z;
  insn_size : Z;
  is_call : bool;
  immediate : option Z
}.

Class Disassembler := {
  cs_open : bool;
  cs_disasm : bytes → Z → list Instruction
}.

Definition kMaxReasonableFunctionOffset : Z := 1024.
Definition kMaxScanBytes : Z := 1024.
Definition kMaxFrames : nat := 16.
Definition kInstructionLookbehind : Z := 16.

Record BacktraceFrame := MkFrame {
  frame_address : Z;
  is_indirect_call : bool;
  call_target : option Z;
  is_suspicious : bool;
  chain_id : Z
}.

(** The local variables of the scan. *)
Record Scan := MkScan {
  confirmed_eip : Z;
  speculative_eip : option Z;
  speculative_is_strong : bool;
  pending_frames : list BacktraceFrame;
  guessed_frames : list BacktraceFrame;
  next_chain_id : Z
}.

Definition flush_pending (as_suspicious : bool) (s : Scan) : Scan :=
  match pending_frames s with
  | [] => s
  | frames =>
    let id := if as_suspicious then next_chain_id s else 0 in
    MkScan (confirmed_eip s) (speculative_eip s) (speculative_is_strong s) []
      (guessed_frames s ++ map (λ f, MkFrame (frame_address f) (is_indirect_call f) (call_target f)
                                       (as_suspicious || is_suspicious f) id) frames)
      (if as_suspicious then u32 (next_chain_id s + 1) else next_chain_id s)
  end.

Definition is_match (target anchor : Z) : bool :=
  (target <=? anchor) && (anchor - target <=? kMaxReasonableFunctionOffset).

Definition push_pending (f : BacktraceFrame) (eip : Z) (strong : bool) (s : Scan) : Scan :=
  MkScan (confirmed_eip s) (Some eip) strong (pending_frames s ++ [f]) (guessed_frames s) (next_chain_id s).

(** What is made of a call instruction that ends at [val]. *)
Definition on_call (val : Z) (insn : Instruction) (s : Scan) : Scan :=
  let target_addr := default 0 (u32 <$> immediate insn) in
  let is_immediate := bool_decide (is_Some (immediate insn)) in
  let site := u32 (insn_address insn) in
  let match_confirmed := is_immediate && is_match target_addr (confirmed_eip s) in
  let match_speculative := is_immediate && negb match_confirmed
    && match speculative_eip s with Some eip => is_match target_addr eip | None => false end in
  if match_confirmed then
    let s := flush_pending true s in
    MkScan site None false (pending_frames s) (guessed_frames s ++ [MkFrame val false (Some target_addr) false 0])
      (next_chain_id s)
  else if match_speculative then
    push_pending (MkFrame val false (Some target_addr) false 0) site (speculative_is_strong s) s
  else
    let s := flush_pending (negb (speculative_is_strong s)) s in
    if is_immediate then push_pending (MkFrame val false (Some target_addr) true 0) site false s
    else push_pending (MkFrame val true None false 0) site true s.

(** [sections.upper_bound(val)] and the element before it. *)
Definition section_before (val : Z) (sections : gmap Z Section_) : option Section_ :=
  k ← last (List.filter (λ k, k <=? val) (ascending (dom sections)));
  sections !! k.

Definition in_executable_section (val : Z) (sections : gmap Z Section_) : bool :=
  match section_before val sections with
  | None => false
  | Some section =>
    (section_base section <=? val) && (val <? u32 (section_base section + section_size section))
    && (bool_decide (section_name section = ".text"%bs) || bool_decide (section_name section = "KDCODE"%bs))
  end.

Section Operations.
Context `{!Boost, !Disassembler} {C E : Type} `{!Target C E, !Listeners C E}.
Abbreviation D := (M (XBDMDebugger * E)).

(** The last instruction of those before [val], when it is a call that ends
    there. *)
Definition call_before (val : Z) : D (option Instruction) :=
  let read_addr := u32 (val - kInstructionLookbehind) in
  bytes ← on_memory (GetMemory read_addr kInstructionLookbehind true);
  mret (bytes ← bytes;
        if Z.of_nat (length bytes) =? kInstructionLookbehind then
          last_insn ← last (cs_disasm bytes read_addr);
          if (insn_address last_insn + insn_size last_insn =? val) && is_call last_insn then Some last_insn else None
        else None).

(** The scanning loop; [bytes_scanned] grows by four at every turn. *)
Fixpoint scan (fuel : nat) (sections : gmap Z Section_) (stack_base current_sp bytes_scanned : Z) (s : Scan) : D Scan :=
  if (bytes_scanned <? kMaxScanBytes) && (length (guessed_frames s) + length (pending_frames s) <? kMaxFrames)%nat
     && (current_sp <? stack_base)
  then
    match fuel with
    | O => mfail
    | S fuel' =>
      maybe_val ← on_memory (GetDWORD current_sp);
      s' ← match maybe_val with
           | None => mret s
           | Some val =>
             if in_executable_section val sections then
               insn ← call_before val;
               mret (match insn with Some insn => on_call val insn s | None => s end)
             else mret s
           end;
      scan fuel' sections stack_base (u32 (current_sp + 4)) (bytes_scanned + 4) s'
    end
  else mret s.

Definition GuessBackTrace_stopped (thread_id : Z) : D (list BacktraceFrame) :=
  d ← gets fst;
  match GetThread thread_id (threads d) with
  | None => mret []
  | Some p =>
    ok ← on_threads (on_thread p FetchContextSync);
    unless ok [] (
    ok ← on_threads (on_thread p FetchInfoSync);
    unless ok [] (
    thread ← on_threads (thread_at p);
    match base thread, limit thread with
    | Some stack_base, Some stack_limit =>
      c ← lift_option (context thread);
      unless cs_open [] (
        sections ← Sections;
        s ← scan 256 sections stack_base (u32 (default 0 (esp c))) 0
              (MkScan (u32 (default 0 (eip c))) None false [] [] 1);
        mret (guessed_frames (flush_pending (negb (speculative_is_strong s)) s)))
    | _, _ => mret []
    end))
  end.

Definition GuessBackTrace (thread_id : Z) : D (list BacktraceFrame) := ScopedResume (GuessBackTrace_stopped thread_id).
End Operations.

(** ** What a guess looks like *)

Lemma Forall_snoc {A} (P : A → Prop) l x : Forall P l → P x → Forall P (l ++ [x]).
Proof. intros. apply Forall_app. by repeat constructor. Qed.

(** Frames that are believed, and runs of suspicious ones, numbered from 1: [n]
    is the number of the next run. *)
Inductive runs : Z → list BacktraceFrame → Prop :=
| runs_nil : runs 1 []
| runs_believed n l f : runs n l → is_suspicious f = false → chain_id f = 0 → runs n (l ++ [f])
| runs_suspicious n l g : runs n l → g ≠ [] → Forall (λ f, is_suspicious f = true ∧ chain_id f = n) g →
    runs (n + 1) (l ++ g).

Lemma runs_believed_all n l g : runs n l → Forall (λ f, is_suspicious f = false ∧ chain_id f = 0) g → runs n (l ++ g).
Proof.
  intros Hl Hg. revert l Hl. induction Hg as [|f g [Hs Hc] _ IH]; intros l Hl; [by rewrite app_nil_r|].
  rewrite cons_middle, app_assoc. by apply IH, runs_believed.
Qed.

Lemma runs_bound n l : runs n l → 1 ≤ n ≤ Z.of_nat (length l) + 1.
Proof.
  induction 1 as [|n l f _ IH|n l g _ IH Hg]; [cbn; lia| |]; rewrite length_app; [cbn; lia|].
  assert (0 < length g)%nat by (by destruct g; cbn; lia || done). lia.
Qed.

(** A frame of the sections: its address is in code, and an indirect call has no
    target. *)
Definition frame_in (sections : gmap Z Section_) (f : BacktraceFrame) : Prop :=
  in_executable_section (frame_address f) sections = true ∧ (is_indirect_call f = true → call_target f = None).

(** The scan between two turns: what is pending is believed when its first frame
    was strong. *)
Definition scan_ok (sections : gmap Z Section_) (s : Scan) : Prop :=
  runs (next_chain_id s) (guessed_frames s)
  ∧ (speculative_is_strong s = true → Forall (λ f, is_suspicious f = false) (pending_frames s))
  ∧ Forall (λ f, chain_id f = 0) (pending_frames s)
  ∧ Forall (frame_in sections) (guessed_frames s ++ pending_frames s)
  ∧ (length (guessed_frames s) + length (pending_frames s) ≤ kMaxFrames)%nat.

Lemma flush_ok sections b s :
  scan_ok sections s → (b = false → speculative_is_strong s = true) →
  scan_ok sections (flush_pending b s) ∧ pending_frames (flush_pending b s) = []
  ∧ length (guessed_frames (flush_pending b s)) = (length (guessed_frames s) + length (pending_frames s))%nat.
Proof.
  intros (Hr & Hs & Hc & Hf & Hl) Hb. unfold flush_pending.
  destruct (pending_frames s) as [|p0 l] eqn:Ep; [rewrite Ep; split; [by repeat split; rewrite ?Ep|split; [done|cbn; lia]]|].
  rewrite <- Ep in *. assert (pending_frames s ≠ []) as Hne by (by rewrite Ep).
  cbn [pending_frames guessed_frames next_chain_id speculative_is_strong]. split; [|split; [done|by rewrite length_app, length_map]].
  apply Forall_app in Hf as [Hg Hp].
  split; cbn [pending_frames guessed_frames next_chain_id speculative_is_strong].
  - pose proof (runs_bound _ _ Hr). unfold kMaxFrames in Hl. destruct b.
    + rewrite u32_id by (unfold is_u32; lia). apply runs_suspicious; [done|by destruct (pending_frames s)|].
      by apply Forall_map, Forall_true.
    + apply runs_believed_all; [done|]. apply Forall_map. eapply Forall_impl; [apply Hs; auto|]. done.
  - split; [constructor|]. split; [constructor|]. rewrite app_nil_r, length_app, length_map. split; [|cbn; lia].
    apply Forall_app. split; [done|]. apply Forall_map. by eapply Forall_impl; [exact Hp|].
Qed.

Lemma push_ok sections s f eip strong :
  scan_ok sections s → chain_id f = 0 → frame_in sections f →
  (length (guessed_frames s) + length (pending_frames s) < kMaxFrames)%nat →
  (strong = true → is_suspicious f = false ∧ Forall (λ f, is_suspicious f = false) (pending_frames s)) →
  scan_ok sections (push_pending f eip strong s).
Proof.
  intros (Hr & Hs & Hc & Hf & Hl) Hid Hin Hlt Hstrong. unfold push_pending.
  split; [done|]. cbn [pending_frames guessed_frames next_chain_id speculative_is_strong]. split.
  { intros E. apply Hstrong in E as [? ?]. by apply Forall_snoc. }
  split; [by apply Forall_snoc|]. rewrite app_assoc, length_app. split; [|cbn; lia]. by apply Forall_snoc.
Qed.

Lemma on_call_ok sections val insn s :
  scan_ok sections s → in_executable_section val sections = true →
  (length (guessed_frames s) + length (pending_frames s) < kMaxFrames)%nat → scan_ok sections (on_call val insn s).
Proof.
  intros Hs Hval Hlt. unfold on_call. cbn zeta.
  destruct (bool_decide (is_Some (immediate insn)) && is_match _ (confirmed_eip s)).
  - destruct (flush_ok sections true s Hs) as (Hs' & Hp & Hl); [done|].
    destruct Hs' as (Hr & _ & _ & Hf & _). rewrite Hp, app_nil_r in Hf.
    split; cbn [pending_frames guessed_frames next_chain_id speculative_is_strong]; [by apply runs_believed|].
    rewrite Hp, app_nil_r, length_app, Hl. split; [done|]. split; [constructor|]. split; [|cbn; lia].
    by apply Forall_snoc.
  - destruct (bool_decide _ && _ && _).
    + apply push_ok; [done|done|by split|done|]. intros Hstrong. split; [done|]. by apply Hs.
    + destruct (flush_ok sections (negb (speculative_is_strong s)) s Hs) as (Hs' & Hp & Hl).
      { by destruct (speculative_is_strong s). }
      destruct (bool_decide _); (apply push_ok; [done|done|by split|rewrite Hp; cbn; lia|]); [done|].
      intros _. by rewrite Hp.
Qed.

Section Correctness.
Context `{!Boost, !Disassembler} {C E : Type} `{!Target C E, !Listeners C E}.
Abbreviation state := (XBDMDebugger * E)%type.
Abbreviation D := (M (XBDMDebugger * E)).

Definition has_sections (x : gmap Z Section_) (s : state) : Prop := sections_ s.1 = x.

Lemma sections_memory {A} x (m : M (Memory * E) A) : keeps (has_sections x) (on_memory m).
Proof. intros [d e] Hs. apply wp_zoom. unfold wp. by destruct (m _) as [[? ?]|]. Qed.

Lemma sections_target {A} x (m : M E A) : keeps (has_sections x) (on_target m).
Proof. intros [d e] Hs. apply wp_on_right. unfold wp. by destruct (m _) as [[? ?]|]. Qed.

Lemma sections_call_before x val : keeps (has_sections x) (call_before val).
Proof. apply keeps_bind; [apply sections_memory|]. auto with keeps. Qed.

Lemma wp_scan fuel sections stack_base x sp scanned sc (s : state) :
  scan_ok sections sc → has_sections x s →
  wp True (scan fuel sections stack_base sp scanned sc) s (λ sc' s', scan_ok sections sc' ∧ has_sections x s').
Proof.
  revert sp scanned sc s; induction fuel as [|fuel IH]; intros sp scanned sc s Hsc Hs; cbn [scan];
    (destruct (_ && _ && _) eqn:Hgo; [|by apply wp_ret]); [done|].
  apply andb_true_iff in Hgo as [[_ Hlt%Nat.ltb_lt]%andb_true_iff _].
  apply wp_bind. eapply wp_mono; [by apply (sections_memory x)|]. intros maybe_val s1 Hs1. cbn beta.
  apply wp_bind. eapply wp_mono with (Q := λ sc' s', scan_ok sections sc' ∧ has_sections x s');
    [|intros sc' s2 [? ?]; by apply IH].
  destruct maybe_val as [val|]; [|by apply wp_ret]. destruct (in_executable_section val sections) eqn:Hval; [|by apply wp_ret].
  apply wp_bind. eapply wp_mono; [by apply (sections_call_before x)|]. intros insn s2 Hs2. apply wp_ret. split; [|done].
  destruct insn as [insn|]; [|done]. by apply on_call_ok.
Qed.

Lemma start_ok sections eip : scan_ok sections (MkScan eip None false [] [] 1).
Proof. split; [constructor|]. repeat split; [constructor..|cbn; unfold kMaxFrames; lia]. Qed.

(** What a guess answers: runs of believed and suspicious frames in code. *)
Definition guess (sections : gmap Z Section_) (frames : list BacktraceFrame) : Prop :=
  (∃ n, runs n frames) ∧ (length frames ≤ kMaxFrames)%nat ∧ Forall (frame_in sections) frames.

Lemma guess_nil sections : guess sections [].
Proof. split; [exists 1; constructor|]. split; [cbn; lia|constructor]. Qed.

Lemma wp_GuessBackTrace_stopped i (s : state) :
  wp True (GuessBackTrace_stopped i) s (λ frames s', guess (sections_ s'.1) frames).
Proof.
  unfold GuessBackTrace_stopped. apply wp_bind. change (wp True (gets ?g) ?s ?Q) with (Q (g s) s). cbn beta.
  destruct (GetThread i (threads s.1)) as [p|]; [|apply wp_ret, guess_nil].
  apply wp_bind. eapply wp_mono; [apply wp_true|]. intros ok s1 _. apply wp_unless; [intros _; apply guess_nil|]. intros _.
  apply wp_bind. eapply wp_mono; [apply wp_true|]. intros ok1 s2 _. apply wp_unless; [intros _; apply guess_nil|]. intros _.
  apply wp_bind. eapply wp_mono; [apply wp_true|]. intros thread s3 _.
  destruct (base thread) as [stack_base|], (limit thread) as [stack_limit|]; try (apply wp_ret, guess_nil).
  apply wp_bind. eapply wp_mono; [apply wp_true|]. intros c s4 _. apply wp_unless; [intros _; apply guess_nil|]. intros _.
  apply wp_bind. eapply wp_mono with (Q := λ sections s', has_sections sections s').
  { unfold Sections. apply wp_bind. eapply wp_mono; [apply wp_true|]. intros ? s5 _. apply wp_bind.
    eapply wp_mono; [apply wp_true|]. by intros ? s6 _. }
  intros sections s5 Hs5. apply wp_bind. eapply wp_mono; [apply wp_scan; [apply start_ok|exact Hs5]|].
  intros sc s6 [Hsc Hs6]. apply wp_ret. rewrite Hs6.
  destruct (flush_ok sections (negb (speculative_is_strong sc)) sc Hsc) as ((Hr & _ & _ & Hf & Hl) & Hp & _).
  { by destruct (speculative_is_strong sc). }
  rewrite Hp, app_nil_r in Hf. split; [by eexists|]. split; [|done]. revert Hl. rewrite Hp. cbn. lia.
Qed.

(** C37. A guessed back trace has at most sixteen frames; each is the address of
    code in a section named .text or KDCODE; frames called through a register
    have no target; and it is made of frames that are believed and of whole runs
    of suspicious frames, numbered 1, 2, 3 in order, so a frame is marked
    suspicious exactly when it has the number of its run. *)
Theorem GuessBackTrace_guess (thread_id : Z) (s s' : state) (frames : list BacktraceFrame)
  (Hrun : GuessBackTrace thread_id s = Some (frames, s')) : guess (sections_ s'.1) frames.
Proof.
  refine (wp_partial _ _ (λ frames s', guess (sections_ s'.1) frames) _ _ _ Hrun). unfold GuessBackTrace, ScopedResume.
  apply wp_bind. eapply wp_mono; [apply wp_true|]. intros done s1 _. cbn zeta.
  apply wp_bind. eapply wp_mono; [apply wp_true|]. intros _ s2 _.
  apply wp_bind. eapply wp_mono; [apply wp_GuessBackTrace_stopped|]. intros fs s3 Hfs. apply wp_bind.
  eapply wp_mono with (Q := λ _, has_sections (sections_ s3.1)).
  - refine ((_ : keeps _ _) s3 eq_refl). destruct (_ =? OK); [|apply keeps_ret]. apply keeps_bind; [apply sections_target|].
    auto with keeps.
  - intros _ s4 Hs4. apply wp_ret. by rewrite Hs4.
Qed.

(** Steps beyond the bytes to scan make no difference. *)
Lemma scan_fuel n k sections stack_base sp scanned sc (s : state) :
  kMaxScanBytes ≤ scanned + 4 * Z.of_nat n →
  scan (n + k) sections stack_base sp scanned sc s = scan n sections stack_base sp scanned sc s.
Proof.
  revert sp scanned sc s; induction n as [|n IH]; intros sp scanned sc s Hn.
  - assert ((scanned <? kMaxScanBytes) = false) as Hdone by (apply Z.ltb_ge; lia). by destruct k; cbn [scan Nat.add]; rewrite Hdone.
  - cbn [scan Nat.add]. destruct (_ && _ && _); [|done]. unfold mbind, M_bind.
    destruct (on_memory _ s) as [[maybe_val s1]|]; [|done]. cbn [mbind option_bind].
    match goal with |- (?turn ≫= _) = _ => destruct turn as [[sc1 s2]|]; [|done] end.
    apply IH. lia.
Qed.

(** The scan of the stack ends by itself: 256 turns, which is what it is given,
    cover the bytes it may look at, and more make no difference. *)
Theorem scan_ends (fuel : nat) sections stack_base sp sc (s : state) (Hfuel : (256 ≤ fuel)%nat) :
  scan fuel sections stack_base sp 0 sc s = scan 256 sections stack_base sp 0 sc s.
Proof. replace fuel with (256 + (fuel - 256))%nat by lia. apply scan_fuel. unfold kMaxScanBytes. lia. Qed.
End Correctness.

(** ** On the example console *)

(** A disassembler of relative calls only: five bytes, the first of them E8. *)
Definition call_disassembler : Disassembler := {|
  cs_open := true;
  cs_disasm bytes a :=
    if bool_decide (bytes !! 11%nat = Some (byte_of 232)) then
      [MkInstruction (a + 11) 5 true (Some (a + 16 + le_int (drop 12 bytes)))]
    else []
|}.

(** A stack of four words, the second of which is a return address: 4112, after
    a call of 4150 in a section of code. *)
Definition stack_console : Console :=
  MkConsole (list_to_map [(4107, byte_of 232); (4108, byte_of 38); (32772, byte_of 16); (32773, byte_of 16)])
    ∅ false {[28]}
    [refused;
     MkResponse OK_MULTILINE_RESPONSE [] "Esp=0x00008000 Eip=0x00001068"%bs;
     MkResponse OK_MULTILINE_RESPONSE [] "suspend=0 priority=9 tlsbase=0x0 start=0x0 base=0x8010 limit=0x7000 createhi=0 createlo=0"%bs]
    [] [].

Definition stack_debugger : XBDMDebugger :=
  set_threads one_thread (set_sections {[4096 := MkSection ".text"%bs 4096 4096 0 0]} new_debugger).

Lemma GuessBackTrace_guess_witness :
  let B := Boost_reference.boost_reference in
  let K := call_disassembler in
  let s := (stack_debugger, stack_console) in
  let s' := state_after (GuessBackTrace 28) s in
  GuessBackTrace 28 s = Some ([MkFrame 4112 false (Some 4150) false 0], s')
  ∧ guess (sections_ s'.1) [MkFrame 4112 false (Some 4150) false 0].
Proof.
  intros B K s s'.
  assert (GuessBackTrace 28 s = Some ([MkFrame 4112 false (Some 4150) false 0], s')) as Hrun by (vm_compute; reflexivity).
  split; [exact Hrun|].
  exact (@GuessBackTrace_guess Boost_reference.boost_reference call_disassembler unit Console console_target console_alone 28 s s' _ Hrun).
Defined.

Lemma scan_ends_witness :
  let B := Boost_reference.boost_reference in
  let K := call_disassembler in
  let s := (stack_debugger, stack_console) in
  let start := MkScan 4200 None false [] [] 1 in
  scan 1000 (sections_ stack_debugger) 32784 32768 0 start s = scan 256 (sections_ stack_debugger) 32784 32768 0 start s.
Proof.
  intros B K s start. apply (@scan_ends call_disassembler unit Console (@console_target B) 1000). lia.
Defined.
