(* ===== verification/DebuggerFrame.v ===== *)
(** * What the debugger leaves alone

    The operations of the debugger that do not wait change what is connected to
    them by sending requests only: they keep everything of the other side that
    no answer changes. *)

From S2P Require Import Prelude CLib Boost Parsing RdcpResponse RdcpMaps RdcpTypes RdcpRequest Requests Notifications.
From S2P Require Import ExprParser Target DebuggerMemory DebuggerThread DebuggerThreads Debugger DebuggerControl.

(** [J] holds on the side of the target. *)
Definition held {S E} (J : E → Prop) (s : S * E) : Prop := J s.2.

Section Frame.
Context `{!Boost} {C E : Type} `{!Target C E}.
Context (J : E → Prop) (HJ : ∀ r payload e, J e → J (answer r payload e).2).

Lemma held_command {T} (k : RequestClass T) r payload init : keeps J (command k r payload init).
Proof. intros e He. eapply wp_mono; [by apply wp_command_state|]. intros a e' ->. by apply HJ. Qed.

Lemma held_plain r : keeps J (plain_command r).
Proof. intros e He. apply wp_plain_command. by apply HJ. Qed.

Lemma held_post r : keeps J (post r).
Proof. intros e He. apply wp_post. by apply HJ. Qed.

Lemma held_right {S A} (m : M E A) : keeps J m → keeps (held (S:=S) J) (on_right m).
Proof. intros Hm [s e] He. apply wp_on_right. by apply Hm. Qed.

Lemma held_left {S A} (m : M S A) : keeps (held (S:=S) J) (on_left m).
Proof. intros [s e] He. apply wp_on_left. unfold wp. by destruct (m s) as [[? ?]|]. Qed.

Lemma held_zoom {S Q A} (part : S → Q) (set : Q → S → S) (m : M (Q * E) A) :
  keeps (held J) m → keeps (held (S:=S) J) (zoom part set m).
Proof. apply keeps_zoom; [done|by intros]. Qed.

Lemma held_on_thread {A} p (m : M (Thread * E) A) : keeps (held J) m → keeps (held J) (on_thread p m).
Proof.
  intros Hm [t e] He. unfold wp, on_thread. destruct (objects t !! p) as [thread|]; [|done]. cbn [mbind option_bind].
  specialize (Hm (thread, e) He). unfold wp in Hm. by destruct (m (thread, e)) as [[a [thread' e']]|].
Qed.

Hint Resolve held_command held_plain held_post held_left : keeps.
Hint Extern 1 (keeps _ (on_right _)) => apply held_right : keeps.
Hint Extern 1 (keeps _ (on_target _)) => apply held_right : keeps.
Hint Extern 1 (keeps _ (on_thread _ _)) => apply held_on_thread : keeps.
Hint Extern 1 (keeps _ (on_memory _)) => apply held_zoom : keeps.
Hint Extern 1 (keeps _ (on_threads _)) => apply held_zoom : keeps.
Hint Extern 1 (keeps _ (update _)) => apply held_left : keeps.
Hint Extern 1 (keeps _ (update_threads _)) => apply held_left : keeps.
Hint Extern 2 (keeps _ (if ?b then _ else _)) => destruct b : keeps.
Hint Extern 2 (keeps _ (match ?x with _ => _ end)) => destruct x : keeps.
Hint Extern 2 (keeps _ (let _ := _ in _)) => cbv zeta : keeps.

(** ** Threads *)

Lemma held_ask {T} (k : RequestClass T) r init : keeps (held J) (ask k r init).
Proof. unfold ask. auto 20 with keeps. Qed.
Lemma held_set_thread f : keeps (held J) (set_thread f).
Proof. apply held_left. Qed.
Hint Resolve held_ask held_set_thread : keeps.

Lemma held_set_context r : keeps (held J) (set_context r).
Proof. unfold set_context. auto 20 with keeps. Qed.
Lemma held_simple k r : keeps (held J) (simple k r).
Proof. unfold simple. auto 20 with keeps. Qed.
Hint Resolve held_set_context held_simple : keeps.

Lemma held_FetchInfoSync : keeps (held J) FetchInfoSync.
Proof. unfold FetchInfoSync. auto 20 with keeps. Qed.
Lemma held_FetchContextSync : keeps (held J) FetchContextSync.
Proof. unfold FetchContextSync. auto 20 with keeps. Qed.
Lemma held_FetchFloatContextSync : keeps (held J) FetchFloatContextSync.
Proof. unfold FetchFloatContextSync. auto 20 with keeps. Qed.
Lemma held_FetchStopReasonSync : keeps (held J) FetchStopReasonSync.
Proof. unfold FetchStopReasonSync. auto 20 with keeps. Qed.
Lemma held_PushContextSync : keeps (held J) PushContextSync.
Proof. unfold PushContextSync. auto 20 with keeps. Qed.
Lemma held_PushFloatContextSync : keeps (held J) PushFloatContextSync.
Proof. unfold PushFloatContextSync. auto 20 with keeps. Qed.
Lemma held_Continue b : keeps (held J) (Continue b).
Proof. apply held_simple. Qed.
Lemma held_Resume : keeps (held J) Resume.
Proof. apply held_simple. Qed.
Hint Resolve held_Resume held_FetchInfoSync held_FetchContextSync held_FetchFloatContextSync held_FetchStopReasonSync
  held_PushContextSync held_PushFloatContextSync held_Continue : keeps.

Lemma held_thread_StepInstruction : keeps (held J) DebuggerThread.StepInstruction.
Proof. unfold DebuggerThread.StepInstruction. auto 24 with keeps. Qed.
Hint Resolve held_thread_StepInstruction : keeps.

Lemma held_thread_at p : keeps (held J) (thread_at p).
Proof. unfold thread_at. auto 20 with keeps. Qed.
Hint Resolve held_thread_at : keeps.

Lemma held_first_stopped excluded l : keeps (held J) (first_stopped excluded l).
Proof. induction l; cbn [first_stopped]; auto 20 with keeps. Qed.
Hint Resolve held_first_stopped : keeps.

Lemma held_GetFirstStoppedThread : keeps (held J) GetFirstStoppedThread.
Proof. unfold GetFirstStoppedThread. auto 20 with keeps. Qed.
Lemma held_FetchThreads : keeps (held J) FetchThreads.
Proof. unfold FetchThreads. auto 20 with keeps. Qed.
Lemma held_ContinueThread i b : keeps (held J) (ContinueThread i b).
Proof. unfold ContinueThread. auto 20 with keeps. Qed.
Lemma held_continue_all l b ret : keeps (held J) (continue_all l b ret).
Proof. revert ret. induction l; intros ret; cbn [continue_all]; auto 20 with keeps. Qed.
Lemma held_ContinueAll b : keeps (held J) (ContinueAll b).
Proof. apply keeps_bind; [auto with keeps|]. intros t. apply held_continue_all. Qed.
Hint Resolve held_GetFirstStoppedThread held_FetchThreads held_ContinueThread held_ContinueAll : keeps.

(** ** Memory *)

Lemma held_validate a n w : keeps (held J) (ValidateMemoryAccess a n w).
Proof. unfold ValidateMemoryAccess. auto 20 with keeps. Qed.
Lemma held_Suspend l : keeps (held J) (SuspendBreakpoints l).
Proof. unfold SuspendBreakpoints. auto 20 with keeps. Qed.
Lemma held_Restore l w : keeps (held J) (RestoreBreakpoints l w).
Proof. unfold RestoreBreakpoints. destruct w; auto 20 with keeps. Qed.
Hint Resolve held_validate held_Suspend held_Restore : keeps.

Lemma held_GetMemory a n v : keeps (held J) (GetMemory a n v).
Proof. unfold GetMemory. auto 24 with keeps. Qed.
Lemma held_SetMemory a data : keeps (held J) (SetMemory a data).
Proof. unfold SetMemory. auto 20 with keeps. Qed.
Lemma held_AddBreakpoint a : keeps (held J) (AddBreakpoint a).
Proof. unfold AddBreakpoint. auto 20 with keeps. Qed.
Lemma held_RemoveBreakpoint a : keeps (held J) (RemoveBreakpoint a).
Proof. unfold RemoveBreakpoint. auto 20 with keeps. Qed.
Lemma held_AddReadWatch a n : keeps (held J) (AddReadWatch a n).
Proof. apply held_right, held_plain. Qed.
Lemma held_AddWriteWatch a n : keeps (held J) (AddWriteWatch a n).
Proof. apply held_right, held_plain. Qed.
Lemma held_RemoveReadWatch a n : keeps (held J) (RemoveReadWatch a n).
Proof. apply held_right, held_plain. Qed.
Lemma held_RemoveWriteWatch a n : keeps (held J) (RemoveWriteWatch a n).
Proof. apply held_right, held_plain. Qed.
Hint Resolve held_GetMemory held_SetMemory held_AddBreakpoint held_RemoveBreakpoint held_AddReadWatch
  held_AddWriteWatch held_RemoveReadWatch held_RemoveWriteWatch : keeps.

(** ** The debugger *)

Lemma held_Go : keeps (held J) Go.
Proof. unfold Go. auto 20 with keeps. Qed.
Lemma held_Stop : keeps (held J) Stop.
Proof. unfold Stop. auto 20 with keeps. Qed.
Hint Resolve held_Go held_Stop : keeps.

Lemma held_StepInstruction : keeps (held J) StepInstruction.
Proof. unfold StepInstruction. auto 24 with keeps. Qed.

(** ** Handlers and waits *)

Context `{!Listeners C E}.
Context (HN : ∀ ms e n remaining e', next_notification ms e = Some (n, remaining, e') → J e → J e').
Context (HL : ∀ admitted n d e, J e → J (notify_others admitted n d e)).

Lemma held_FetchMemoryMap : keeps (held J) FetchMemoryMap.
Proof. unfold FetchMemoryMap. auto 20 with keeps. Qed.
Lemma held_Rearm : keeps (held J) RearmBreakpoints.
Proof. unfold RearmBreakpoints. auto 20 with keeps. Qed.
Lemma held_Forget : keeps (held J) ForgetBreakpoints.
Proof. apply held_left. Qed.
Hint Resolve held_FetchMemoryMap held_Rearm held_Forget : keeps.

Lemma held_evaluate c i condition : keeps (held J) (evaluate c i condition).
Proof.
  intros s Hs. unfold wp, evaluate.
  assert (∀ reader, Some CreateMemoryReader = Some reader → ∀ addr size s r s',
    reader addr size s = Some (r, s') → held J s → held J s') as Hreader.
  { intros reader [= <-] addr size s1 r s2 Hrun Hs1.
    assert (keeps (held J) (CreateMemoryReader addr size)) as Hr by (unfold CreateMemoryReader; auto 20 with keeps).
    by apply (wp_partial _ _ _ _ _ (Hr s1 Hs1)) in Hrun. }
  pose proof (Parse_keeps (MkEnv c (Some i) (Some CreateMemoryReader)) (held J) Hreader condition s Hs) as Hk.
  by destruct (Parse _ _ _).
Qed.
Hint Resolve held_evaluate : keeps.

Lemma held_after_stop p : keeps (held J) (PerformAfterStopActions p).
Proof. unfold PerformAfterStopActions. auto 20 with keeps. Qed.
Hint Resolve held_after_stop : keeps.

Lemma held_resume_or_stop p condition : keeps (held J) (resume_or_stop p condition).
Proof. unfold resume_or_stop. auto 24 with keeps. Qed.
Hint Resolve held_resume_or_stop : keeps.

Lemma held_stopped_thread i a k : (∀ p, keeps (held J) (k p)) → keeps (held J) (with_stopped_thread i a k).
Proof. intros Hk. unfold with_stopped_thread. auto 20 with keeps. Qed.
Hint Extern 1 (keeps _ (with_stopped_thread _ _ _)) => apply held_stopped_thread; intros ? : keeps.

Lemma held_state_changed state : keeps (held J) (OnExecutionStateChanged state).
Proof. unfold OnExecutionStateChanged. auto 24 with keeps. Qed.
Hint Resolve held_state_changed : keeps.

Lemma held_OnNotification n : keeps (held J) (OnNotification n).
Proof.
  destruct n; cbn [OnNotification];
    unfold OnModuleLoaded, OnSectionLoaded, OnSectionUnloaded, OnBreakpoint, OnWatchpoint, OnSingleStep, OnException;
    try apply held_left; auto 24 with keeps.
Qed.

Lemma held_Dispatch n : keeps (held J) (DispatchNotification n).
Proof.
  assert (∀ admitted, keeps (held J) (notify admitted n)) as Hnotify.
  { intros admitted. apply keeps_bind; [auto with keeps|]. intros d. apply held_right, keeps_modify. intros e. apply HL. }
  unfold DispatchNotification. pose proof (held_OnNotification n). auto 20 with keeps.
Qed.

Lemma held_wait_loop fuel pred ms : keeps (held J) (wait_loop fuel pred ms).
Proof.
  revert ms; induction fuel as [|fuel IH]; intros ms; cbn [wait_loop];
    (apply keeps_bind; [auto with keeps|]; intros d; destruct (pred (state_ d)); [apply keeps_ret|]); [apply keeps_ret|].
  apply keeps_bind.
  - intros [d' e] He. unfold wp, arrival. destruct (next_notification ms e) as [[[n remaining] e']|] eqn:Hn; [|done].
    by apply (HN _ _ _ _ _ Hn).
  - intros [[n remaining]|]; [|apply keeps_ret]. apply keeps_bind; [apply held_Dispatch|]. intros _. apply IH.
Qed.

Lemma held_wait_for pred ms : keeps (held J) (wait_for pred ms).
Proof. apply keeps_bind; [auto with keeps|]. intros n. apply held_wait_loop. Qed.

Lemma held_WaitMilliseconds ms : keeps (held J) (WaitMilliseconds ms).
Proof. apply keeps_bind; [apply held_wait_for|]. auto with keeps. Qed.
Hint Resolve held_wait_for held_WaitMilliseconds : keeps.

Lemma held_poll fuel p ms : keeps (held J) (poll_stopped fuel p ms).
Proof. revert ms; induction fuel; intros ms; cbn [poll_stopped]; auto 20 with keeps. Qed.
Hint Resolve held_poll : keeps.

Lemma held_HaltAll ms : keeps (held J) (HaltAll ms).
Proof. unfold HaltAll, request_ok, WaitForState, update_threads. auto 30 with keeps. Qed.
End Frame.

(** ** Reading memory *)

Section Reading.
Context `{!Boost} {C E : Type} `{!Target C E}.

(** The program may be read, or written, in that range. *)
Definition accessible (d : XBDMDebugger) (a n : Z) (is_write : bool) : Prop :=
  memory_regions_ (memory_ d) = [] ∨ regions_allow (memory_regions_ (memory_ d)) a (a + n - 1) is_write = true.

Lemma accessible_validate (d : XBDMDebugger) (x : E) a n w :
  accessible d a n w → 0 ≤ a → 0 < n → a + n ≤ 2 ^ 32 →
  ValidateMemoryAccess a n w (memory_ d, x) = Some (true, (memory_ d, x)).
Proof.
  intros Hacc ? ? ?. unfold ValidateMemoryAccess. rewrite (proj2 (Z.eqb_neq n 0)), u32_id by (unfold is_u32; lia).
  unfold mbind, M_bind, gets, mret, M_ret. cbn [fst]. 
  unfold accessible in Hacc. destruct (memory_regions_ (memory_ d)) as [|r l]; [done|]. 
  destruct Hacc as [?|Hr]; [done|]. change (Some (regions_allow (r :: l) a (a + n - 1) w, (memory_ d, x)) = Some (true, (memory_ d, x))).
  by rewrite Hr.
Qed.

Lemma set_memory_same d : set_memory (memory_ d) d = d.
Proof. by destruct d. Qed.

Lemma on_memory_run {A} (m : M (Memory * E) A) d x a x' :
  m (memory_ d, x) = Some (a, (memory_ d, x')) → on_memory m (d, x) = Some (a, (d, x')).
Proof. intros Hm. unfold on_memory, zoom. rewrite Hm. cbn. by rewrite set_memory_same. Qed.
End Reading.
