(* ===== verification/Bridge.v ===== *)
(** * The GDB bridge (src/xbox/bridge/gdb_bridge.h, gdb_bridge.cpp)

    The state of [GDBBridge] and what it sends.  The bridge lives beside the
    connection to the console: [GDBBridge * E] is a [Target] of the debugger, on
    which the bridge is one more listener to notifications. *)

From S2P Require Import Prelude CLib Boost GdbPacket TcpConnection GdbTransport Parsing RdcpResponse RdcpMaps RdcpTypes.
From S2P Require Import StopReasons RdcpRequest Requests Notifications GdbRegisters Target.
From S2P Require Import DebuggerMemory DebuggerThread DebuggerThreads Debugger DebuggerControl.

(** [errno.h] *)
Definition EPERM : Z := 1.
Definition EFAULT : Z := 14.
Definition EBUSY : Z := 16.
Definition EINVAL : Z := 22.
Definition EBADMSG : Z := 74.

Record GDBBridge := MkBridge {
  gdb_ : option GDBTransport;
  thread_id_for_command_ : gmap byte Z;
  thread_info_buffer_ : list Z;
  bridge_handler_id_ : Z;
  send_thread_events_ : bool;
  waiting_on_stop_packet_ : bool
}.

Definition new_bridge : GDBBridge := MkBridge None ∅ [] 0 false false.

Definition with_gdb (t : option GDBTransport) (b : GDBBridge) : GDBBridge :=
  MkBridge t (thread_id_for_command_ b) (thread_info_buffer_ b) (bridge_handler_id_ b) (send_thread_events_ b)
    (waiting_on_stop_packet_ b).
Definition with_command_threads (m : gmap byte Z) (b : GDBBridge) : GDBBridge :=
  MkBridge (gdb_ b) m (thread_info_buffer_ b) (bridge_handler_id_ b) (send_thread_events_ b) (waiting_on_stop_packet_ b).
Definition with_thread_info (l : list Z) (b : GDBBridge) : GDBBridge :=
  MkBridge (gdb_ b) (thread_id_for_command_ b) l (bridge_handler_id_ b) (send_thread_events_ b) (waiting_on_stop_packet_ b).
Definition with_bridge_handler (i : Z) (b : GDBBridge) : GDBBridge :=
  MkBridge (gdb_ b) (thread_id_for_command_ b) (thread_info_buffer_ b) i (send_thread_events_ b) (waiting_on_stop_packet_ b).
Definition with_waiting (w : bool) (b : GDBBridge) : GDBBridge :=
  MkBridge (gdb_ b) (thread_id_for_command_ b) (thread_info_buffer_ b) (bridge_handler_id_ b) (send_thread_events_ b) w.

(** [gdb_ && gdb_->IsConnected()] *)
Definition HasGDBClient (b : GDBBridge) : bool :=
  match gdb_ b with Some t => IsConnected (conn t) | None => false end.

Definition GetThreadIDForCommand (command : byte) (b : GDBBridge) : Z :=
  default 0 (thread_id_for_command_ b !! command).

(** ** Stop packets *)

Definition access_text (r : StopReason) : bytes :=
  match stop_type r, body r with
  | SRT_WATCHPOINT, DataBreakpointBody _ _ access_type access_address =>
    match access_type with
    | StopReasons.AT_READ => "rwatch:"%bs ++ fmt_0x 8 access_address ++ ";"%bs
    | StopReasons.AT_WRITE => "watch:"%bs ++ fmt_0x 8 access_address ++ ";"%bs
    | _ => []
    end
  | _, _ => []
  end.

(** The contents of [buffer]: [len] is what the first [snprintf] would write. *)
Definition stop_packet_text (thread : Thread) (r : StopReason) : bytes :=
  let head := "T"%bs ++ fmt_0x 2 (u32 (signal r)) ++ "thread:"%bs ++ fmt_x (id thread) ++ ";"%bs in
  snprintf 63 head ++ snprintf (63 - length head) (access_text r).

Section Sending.
Context `{!Boost}.

(** [gdb_->Send(packet)]; [None] for a null pointer. *)
Definition gdb_Send (p : GDBPacket) : M GDBBridge unit := λ b,
  match gdb_ b with
  | None => None
  | Some t => Some (tt, with_gdb (Some (SendPacket p t)) b)
  end.

(** The replies that need a client. *)
Definition send_to_client (p : GDBPacket) : M GDBBridge unit :=
  connected ← gets HasGDBClient;
  if connected : bool then gdb_Send p else mret tt.

Definition SendOK : M GDBBridge unit := send_to_client (packet_of "OK"%bs).
Definition SendEmpty : M GDBBridge unit := send_to_client empty_packet.

Definition SendError (error : Z) : M GDBBridge unit :=
  send_to_client (packet_of (snprintf 4 ("E"%bs ++ fmt_0x 2 (u8 error)))).

Definition SendThreadStopPacket (thread : option Thread) : M GDBBridge bool :=
  connected ← gets HasGDBClient;
  if negb connected then mret false
  else
    match thread with
    | None => mret false
    | Some thread =>
      if negb (stopped thread) then mret false
      else
        match last_stop_reason thread with
        | None => mret false
        | Some stop_reason =>
          modify (with_waiting false) ;;
          gdb_Send (packet_of (c_str (stop_packet_text thread stop_reason))) ;;
          mret true
        end
    end.

(** [SendThreadInfoBuffer] *)
Definition SendThreadInfoBuffer (send_all : bool) : M GDBBridge unit :=
  b ← get;
  match thread_info_buffer_ b with
  | [] => gdb_Send (packet_of "l"%bs)
  | first :: others =>
    let hex i := snprintf 15 (fmt_x (u32 i)) in
    let '(sent, rest) := if send_all then (others, []) else ([], others) in
    modify (with_thread_info rest) ;;
    gdb_Send (packet_of ("m"%bs ++ hex first ++ concat (map (λ i, snprintf 15 (","%bs ++ fmt_x (u32 i))) sent)))
  end.
End Sending.

(** ** The bridge as a listener *)

Definition thread_object (t : ThreadTable) (p : option ptr) : option Thread := p ← p; objects t !! p.

Section Notification_.
Context `{!Boost} {C : Type}.

(** [OnNotification] with the handlers of the notifications of a stop, which are
    all the same. *)
Definition OnStop (d : XBDMDebugger) : M GDBBridge unit :=
  b ← get;
  if waiting_on_stop_packet_ b then
    sent ← SendThreadStopPacket (thread_object (threads d) (ActiveThread (threads d))); mret tt
  else mret tt.

Definition OnNotification (n : Notification C) (d : XBDMDebugger) : M GDBBridge unit :=
  match n with
  | NotificationExecutionStateChanged state => if decide (state = S_STOPPED) then OnStop d else mret tt
  | NotificationBreakpoint _ _ _ => OnStop d
  | NotificationWatchpoint _ _ _ _ _ _ => OnStop d
  | NotificationSingleStep _ _ => OnStop d
  | NotificationException _ _ _ _ _ => OnStop d
  | _ => mret tt
  end.
End Notification_.

(** ** Beside the console *)

Section Beside.
Context `{!Boost} {C E : Type} `{!Target C E}.

(** The context serves the bridge and the debugger. *)
#[export] Instance bridge_target : Target C (GDBBridge * E) := {
  answer r payload '(b, e) := let '(a, e') := answer r payload e in (a, (b, e'));
  next_notification ms '(b, e) :=
    '(n, remaining, e') ← next_notification ms e; Some (n, remaining, (b, e'));
  burst ms x := burst ms x.2;
  GetNotificationServerAddress x := GetNotificationServerAddress x.2;
  StartNotificationListener '(b, e) := let '(ok, e') := StartNotificationListener e in (ok, (b, e'));
  RegisterNotificationHandler '(b, e) := let '(i, e') := RegisterNotificationHandler e in (i, (b, e'));
  UnregisterNotificationHandler i x := (x.1, UnregisterNotificationHandler i x.2);
  has_handler i x := has_handler i x.2;
  CloseActiveConnections x := (x.1, CloseActiveConnections x.2)
}.

(** The bridge's handler, called with the connection it sends on; a bridge whose
    handler is registered has one. *)
#[export] Instance bridge_listens : Listeners C (GDBBridge * E) := {
  notify_others admitted n d '(b, e) :=
    if admitted (bridge_handler_id_ b) && has_handler (bridge_handler_id_ b) e then
      (default b (snd <$> OnNotification n d b), e)
    else (b, e)
}.
End Beside.
