(* ===== verification/BridgeCommands.v ===== *)
(** * The commands of GDB (src/xbox/bridge/gdb_bridge.cpp)

    [HandlePacket] and the handlers of the packets, on the state of the debugger
    with the bridge beside the connection to the console. *)

From S2P Require Import Prelude CLib Boost Parsing RdcpResponse RdcpMaps RdcpTypes StopReasons RdcpRequest Requests Notifications.
From S2P Require Import GdbPacket TcpConnection GdbTransport GdbRegisters Target.
From S2P Require Import DebuggerMemory DebuggerThread DebuggerThreads Debugger DebuggerControl Bridge.

(** [BreakpointType] *)
Definition BP_SOFTWARE : Z := 0.
Definition BP_HARDWARE : Z := 1.
Definition BP_WRITE : Z := 2.
Definition BP_READ : Z := 3.
Definition BP_ACCESS : Z := 4.

(** The text between two iterators of the data, [None] when they do not bound a
    range; [end_] is [None] for an iterator that reached the end. *)
Definition position (p : GDBPacket) (i : option nat) : nat := default (length (data_ p)) i.
Definition text_between (p : GDBPacket) (first last : nat) : option bytes :=
  if (first <=? last)%nat && (last <=? length (data_ p))%nat then Some (take (last - first) (drop first (data_ p)))
  else None.

(** [MaybeParseHexInt(ret, data)]: the value, [None] when it answers false. *)
Definition hex_value (cast : Z → Z) (data : bytes) : option Z :=
  let '(ok, v) := MaybeParseHexInt cast data in if ok : bool then Some v else None.

(** [s.find(c, start)] *)
Definition find_from (c : byte) (start : nat) (s : bytes) : option nat :=
  (λ n, (start + n)%nat) <$> find_byte c (drop start s).

(** ** Texts of replies *)

Definition stop_name (type : StopReasonType) : bytes :=
  match type with
  | SRT_DEBUGSTR => "debugstr"%bs
  | SRT_ASSERTION => "assert"%bs
  | SRT_BREAKPOINT => "breakpoint"%bs
  | SRT_SINGLE_STEP => "single_step"%bs
  | SRT_WATCHPOINT => "watchpoint"%bs
  | SRT_EXECUTION_STATE_CHANGED => "execution_state_changed"%bs
  | SRT_EXCEPTION => "exception"%bs
  | SRT_THREAD_CREATED => "thread_created"%bs
  | SRT_THREAD_TERMINATED => "thread_terminated"%bs
  | SRT_MODULE_LOADED => "module_loaded"%bs
  | SRT_SECTION_LOADED => "section_loaded"%bs
  | SRT_SECTION_UNLOADED => "section_unloaded"%bs
  | SRT_RIP => "RIP"%bs
  | SRT_RIP_STOP => "RIP_Stop"%bs
  | SRT_UNKNOWN => "UNKNOWN_STATE"%bs
  end.

(** What a stub feature adds to the reply; [None] for [back()] of an empty text. *)
Definition feature_reply (feature : bytes) : option bytes :=
  if decide (feature = "multiprocess+"%bs) then Some "multiprocess-;"%bs
  else if decide (feature = "swbreak+"%bs) then Some "swbreak+;"%bs
  else if decide (feature = "hwbreak+"%bs) then Some "hwbreak-;"%bs
  else if decide (feature = "qRelocInsn+"%bs) then Some "qRelocInsn-;"%bs
  else if decide (feature = "fork-events+"%bs) then Some "fork-events-;"%bs
  else if decide (feature = "vfork-events+"%bs) then Some "vfork-events-;"%bs
  else if decide (feature = "exec-events+"%bs) then Some "exec-events-;"%bs
  else if decide (feature = "vContSupported+"%bs) then Some "vContSupported+;"%bs
  else if decide (feature = "QThreadEvents+"%bs) then Some "QThreadEvents-;"%bs
  else if decide (feature = "no-resumed+"%bs) then Some "no-resumed-;"%bs
  else if decide (feature = "xmlRegisters=i386"%bs) then Some []
  else
    back ← last feature;
    if decide (back = "+"%byte) then Some (take (length feature - 1) feature ++ "-"%bs) else Some [].

Fixpoint features_reply (features : list bytes) : option bytes :=
  match features with
  | [] => Some []
  | feature :: features' => a ← feature_reply feature; b ← features_reply features'; Some (a ++ b)
  end.

(** The reply to [qXfer:features:read] from the offset on. *)
Definition target_chunk (start length_ : Z) : bytes :=
  let end_ := u32 (start + length_) in
  let available := Z.of_nat (length kTargetXML) in
  if available <=? start then "l"%bs
  else
    let '(buffer, n) := if available <=? end_ then ("l"%bs, available - start) else ("m"%bs, length_) in
    buffer ++ take (Z.to_nat n) (drop (Z.to_nat start) kTargetXML).

(** [ExtractBreakpointCommandParams] with its three results and what is left of
    the arguments. *)
Definition ExtractBreakpointCommandParams `{!Boost} (p : GDBPacket) : option (Z * Z * Z * list bytes) :=
  match split_any_of ";"%bs (data_ p) with
  | [] => None
  | front :: args =>
    match split_any_of ","%bs front with
    | [a; b; c] =>
      type ← hex_value i32 (drop 1 a);
      address ← hex_value u32 b;
      kind ← hex_value i32 c;
      Some (type, address, kind, args)
    | _ => None
    end
  end.

Section Handlers.
Context `{!Boost} {C E : Type} `{!Target C E} (pf : platform).
Abbreviation P := (M (XBDMDebugger * (GDBBridge * E))).

Definition on_bridge {A} (m : M GDBBridge A) : P A := on_target (on_left m).
Definition reply (data : bytes) : P unit := on_bridge (gdb_Send (packet_of data)).
Definition send_ok : P unit := on_bridge SendOK.
Definition send_empty : P unit := on_bridge SendEmpty.
Definition send_error (e : Z) : P unit := on_bridge (SendError e).

(** A text that may be out of range. *)
Definition between (p : GDBPacket) (first last : nat) : P bytes := lift_option (text_between p first last).

(** [if (!MaybeParseHexInt(...)) { SendError(error); return; }] *)
Definition with_hex (cast : Z → Z) (data : bytes) (otherwise : P unit) (k : Z → P unit) : P unit :=
  match hex_value cast data with Some v => k v | None => otherwise end.

Definition any_thread_id : P Z :=
  d ← gets fst;
  mret (match AnyThreadID (threads d) with Some i => i32 i | None => -1 end).

(** The thread that was selected for the command, or any. *)
Definition with_command_thread (p : GDBPacket) (k : ptr → P unit) : P unit :=
  command ← lift_option (Command p);
  thread_id ← gets (λ s, GetThreadIDForCommand command s.2.1);
  if thread_id <? 0 then send_empty
  else
    thread_id ← (if thread_id =? 0 then any_thread_id else mret thread_id);
    d ← gets fst;
    match GetThread (u32 thread_id) (threads d) with
    | None => send_error EBADMSG
    | Some thread => k thread
    end.

(** ** Registers *)

Definition HandleReadGeneralRegisters (p : GDBPacket) : P unit :=
  with_command_thread p (λ thread,
    ok ← on_threads (on_thread thread FetchContextSync);
    if negb ok then send_error EBUSY
    else
      floats ← on_threads (on_thread thread FetchFloatContextSync);
      t ← on_threads (thread_at thread);
      reply (SerializeRegisters pf (context t) (float_context t))).

Definition HandleReadRegister (p : GDBPacket) : P unit :=
  with_hex i32 (drop 1 (data_ p)) (send_error EINVAL) (λ register_index,
    with_command_thread p (λ thread,
      ok ← (if register_index <? FLOAT_REGISTER_OFFSET then on_threads (on_thread thread FetchContextSync)
            else floats ← on_threads (on_thread thread FetchFloatContextSync); mret true);
      if negb ok then send_error EBUSY
      else
        t ← on_threads (thread_at thread);
        value ← lift_option (GetRegister (u32 register_index) (context t) (float_context t));
        match value with
        | None => send_empty
        | Some value => reply (snprintf 31 (fmt_x (u64 value)))
        end)).

(** [SetRegister] on a context of the thread, which is then pushed. *)
Definition update_thread (thread : ptr) (set : Thread → bool * Thread) (push : M (Thread * (GDBBridge * E)) bool)
  : P unit :=
  t ← on_threads (thread_at thread);
  let '(ok, t') := set t in
  on_threads (on_thread thread (set_thread (λ _, t'))) ;;
  if negb ok then send_error EBUSY
  else
    pushed ← on_threads (on_thread thread push);
    if pushed : bool then send_ok else send_error EBUSY.

Definition HandleWriteRegister (p : GDBPacket) : P unit :=
  match FindFirst p "="%byte with
  | None => send_error EINVAL
  | Some index_value_split =>
    with_hex i32 (drop 1 (data_ p)) (send_error EINVAL) (λ register_index,
    with_hex u64 (drop (index_value_split + 1) (data_ p)) (send_error EINVAL) (λ value,
    with_command_thread p (λ thread,
      if register_index <? FLOAT_REGISTER_OFFSET then
        ok ← on_threads (on_thread thread FetchContextSync);
        if negb ok then send_error EBUSY
        else
          update_thread thread
            (λ t, let '(ok, c) := SetRegister (u32 register_index) (Z.land value 4294967295) (context t) in
                  (ok, with_context c t))
            PushContextSync
      else
        floats ← on_threads (on_thread thread FetchFloatContextSync);
        update_thread thread
          (λ t, let '(ok, f) := SetFloatRegister (u32 register_index) value (float_context t) in (ok, with_float f t))
          PushFloatContextSync)))
  end.

Definition HandleSelectThreadForCommandGroup (p : GDBPacket) : P unit :=
  match data_ p with
  | _ :: operation :: _ :: _ =>
    with_hex i32 (drop 2 (data_ p)) (send_error EBADMSG) (λ thread_id,
      on_bridge (modify (λ b, with_command_threads (<[operation := thread_id]> (thread_id_for_command_ b)) b)) ;;
      send_ok)
  | _ => send_error EBADMSG
  end.

(** ** Memory *)

Definition HandleReadMemory (p : GDBPacket) : P unit :=
  let split := position p (FindFirst p ","%byte) in
  address_str ← between p 1 split;
  length_str ← between p (split + 1) (length (data_ p));
  with_hex u32 address_str (send_error EBADMSG) (λ address,
  with_hex u32 length_str (send_error EBADMSG) (λ length,
    memory ← on_memory (GetMemory address length true);
    match memory with
    | Some memory => reply (hex memory)
    | None => send_error EFAULT
    end)).

(** The common start of the two writes: the address and the position of the
    data. *)
Definition with_write (p : GDBPacket) (k : Z → Z → nat → P unit) : P unit :=
  let place_data_split := position p (FindFirst p ":"%byte) in
  let address_length_split := position p (FindFirst p ","%byte) in
  length_str ← between p (address_length_split + 1) place_data_split;
  with_hex u32 length_str send_ok (λ length,
    address_str ← between p 1 address_length_split;
    with_hex u32 address_str (send_error EBADMSG) (λ address, k address length (place_data_split + 1)%nat)).

Definition write_memory (address : Z) (data : bytes) : P unit :=
  ok ← on_memory (SetMemory address data);
  if ok : bool then send_ok else send_error EFAULT.

(** [unhex] writes through [data.begin()] of an empty vector: it is defined for
    no digits only, and the vector stays empty. *)
Definition HandleWriteMemory (p : GDBPacket) : P unit :=
  with_write p (λ address length_ place,
    digits ← between p place (length (data_ p));
    match digits with
    | [] => if 0 =? length_ then write_memory address [] else send_error EBADMSG
    | _ => mfail
    end).

Definition HandleWriteMemoryBinary (p : GDBPacket) : P unit :=
  with_write p (λ address length_ place,
    data ← between p place (length (data_ p));
    if negb (length_ =? Z.of_nat (length data)) then send_error EBADMSG else write_memory address data).

(** ** Breakpoints *)

Definition ignoring {A} (m : P A) (k : P unit) : P unit := result ← m; k.

(** The switch of the two handlers; [sw], [read] and [write] are what they call.
    A hardware breakpoint is answered in its case and after the switch. *)
Definition handle_breakpoint (p : GDBPacket) (sw : Z → M (Memory * (GDBBridge * E)) bool)
  (read write : Z → Z → M (Memory * (GDBBridge * E)) bool) : P unit :=
  match ExtractBreakpointCommandParams p with
  | None => send_error EBADMSG
  | Some (type, address, int_arg, args) =>
    if type =? BP_SOFTWARE then ignoring (on_memory (sw address)) send_ok
    else if type =? BP_HARDWARE then send_empty ;; send_empty
    else if type =? BP_WRITE then ignoring (on_memory (write address (u32 int_arg))) send_ok
    else if type =? BP_READ then ignoring (on_memory (read address (u32 int_arg))) send_ok
    else if type =? BP_ACCESS then
      ignoring (on_memory (read address (u32 int_arg)))
        (ignoring (on_memory (write address (u32 int_arg))) send_ok)
    else send_empty
  end.

Definition HandleRemoveBreakpointType (p : GDBPacket) : P unit :=
  handle_breakpoint p RemoveBreakpoint RemoveReadWatch RemoveWriteWatch.
Definition HandleInsertBreakpointType (p : GDBPacket) : P unit :=
  handle_breakpoint p AddBreakpoint AddReadWatch AddWriteWatch.

(** ** Queries *)

Definition HandleQueryAttached (p : GDBPacket) : P unit := reply "1"%bs.

Definition HandleQuerySupported (p : GDBPacket) : P unit :=
  match FindFirst p ":"%byte with
  | None => send_empty
  | Some split =>
    text ← lift_option (features_reply (split_any_of ";"%bs (drop (split + 1) (data_ p))));
    reply ("PacketSize=4096;qXfer:features:read+;"%bs ++ text)
  end.

(** The reply holds the whole buffer of 128 characters. *)
Definition HandleQueryThreadExtraInfo (p : GDBPacket) : P unit :=
  id_str ← between p (position p (FindFirst p ","%byte) + 1) (length (data_ p));
  with_hex i32 id_str (send_error EBADMSG) (λ thread_id,
    d ← gets fst;
    match GetThread (u32 thread_id) (threads d) with
    | None => send_error EBADMSG
    | Some thread =>
      t ← on_threads (thread_at thread);
      stop_reason ← (if stopped t then r ← lift_option (last_stop_reason t); mret (stop_name (stop_type r))
                     else mret "Running"%bs);
      let text := snprintf 127 (fmt_d thread_id ++ " "%bs ++ stop_reason) in
      reply (hex (text ++ replicate (128 - length text) NUL))
    end).

Definition HandleThreadInfoStart : P unit :=
  ok ← on_threads FetchThreads;
  if negb ok then send_error EFAULT
  else
    d ← gets fst;
    on_bridge (modify (with_thread_info (map i32 (GetThreadIDs (threads d))))) ;;
    on_bridge (SendThreadInfoBuffer false).

Definition HandleThreadInfoContinue : P unit := on_bridge (SendThreadInfoBuffer true).

Definition HandleQueryCurrentThreadID : P unit :=
  d ← gets fst;
  match AnyThreadID (threads d) with
  | Some id => if 0 <=? i32 id then reply (snprintf 31 ("QC"%bs ++ fmt_x (i32 id))) else send_empty
  | None => send_empty
  end.

(** [if (x == npos) { SendError(EBADMSG); return; }] *)
Definition found {A} (x : option A) (k : A → P unit) : P unit :=
  match x with Some a => k a | None => send_error EBADMSG end.

Definition HandleFeaturesRead (p : GDBPacket) : P unit :=
  let command := data_ p in
  found (find_sub "read:"%bs command) (λ body,
  let body_start := (body + 5)%nat in
  found (find_from ":"%byte body_start command) (λ target_region_delim,
  let target_file := take (target_region_delim - body_start) (drop body_start command) in
  if negb (bool_decide (target_file = "target.xml"%bs)) then send_error EBADMSG
  else
    found (find_from ","%byte (target_region_delim + 1) command) (λ start_length_delim,
    let start_str := take (start_length_delim - (target_region_delim + 1)) (drop (target_region_delim + 1) command) in
    with_hex u32 start_str (send_error EBADMSG) (λ start,
    with_hex u32 (drop (start_length_delim + 1) command) (send_error EBADMSG) (λ length,
    reply (target_chunk start length)))))).

Definition HandleReadQuery (p : GDBPacket) : P unit :=
  let query := drop 1 (data_ p) in
  if algorithm_starts_with query "Attached"%bs then HandleQueryAttached p
  else if algorithm_starts_with query "Supported"%bs then HandleQuerySupported p
  else if algorithm_starts_with query "ThreadExtraInfo"%bs then HandleQueryThreadExtraInfo p
  else if decide (query = "fThreadInfo"%bs) then HandleThreadInfoStart
  else if decide (query = "sThreadInfo"%bs) then HandleThreadInfoContinue
  else if decide (query = "TStatus"%bs) then send_empty
  else if decide (query = "C"%bs) then HandleQueryCurrentThreadID
  else if algorithm_starts_with query "Xfer:features:read:"%bs then HandleFeaturesRead p
  else send_empty.

Definition HandleWriteQuery (p : GDBPacket) : P unit :=
  if decide (data_ p = "QStartNoAckMode"%bs) then
    on_bridge (λ b, t ← gdb_ b; Some (tt, with_gdb (Some (SetNoAckMode true t)) b)) ;;
    send_ok
  else send_empty.

(** ** Running *)

(** [SendThreadStopPacket] for a pointer that may be null. *)
Definition send_stop_packet (p : option ptr) : P bool :=
  d ← gets fst; on_bridge (SendThreadStopPacket (thread_object (threads d) p)).

Definition MarkWaitingForStopPacket : P unit :=
  thread ← on_threads GetFirstStoppedThread;
  match thread with
  | Some p => sent ← send_stop_packet (Some p); on_bridge (modify (with_waiting false))
  | None => on_bridge (modify (with_waiting true))
  end.

Definition HandleQueryHaltReason : P unit :=
  thread ← on_threads GetFirstStoppedThread;
  match thread with
  | None => send_error EPERM
  | Some p =>
    t ← on_threads (thread_at p);
    if negb (stopped t) then send_error EPERM
    else
      sent ← send_stop_packet (Some p);
      if sent : bool then mret tt else send_empty
  end.

Definition HandleDetach : P unit :=
  continued ← on_threads (ContinueAll true);
  going ← Go;
  send_ok.

(** The threads not processed so far are each continued by the identifier of the
    command, which names none of them. *)
Fixpoint continue_others (l : list ptr) (processed : gset Z) (thread_id : Z) : P unit :=
  match l with
  | [] => mret tt
  | p :: l' =>
    t ← on_threads (thread_at p);
    (if bool_decide (id t ∈ processed) then mret tt
     else continued ← on_threads (ContinueThread (u32 thread_id) false); mret tt) ;;
    continue_others l' processed thread_id
  end.

(** One command of [vCont]: the threads processed after it. *)
Definition vcont_command (command : bytes) (processed : gset Z) : P (gset Z) :=
  let command_params := split_any_of ":"%bs command in
  let thread_id := match command_params with _ :: param :: _ => hex_value i32 param | _ => Some (-1) end in
  match thread_id with
  | None => send_error EBADMSG ;; mret processed
  | Some thread_id =>
    let processed := if 0 <? thread_id then {[thread_id]} ∪ processed else processed in
    command_code ← lift_option (hd_error command);
    if decide (command_code = "c"%byte) then
      if bool_decide (processed = ∅) && (thread_id <=? 0) then
        continued ← on_threads (ContinueAll false); mret processed
      else if 0 <? thread_id then
        continued ← on_threads (ContinueThread thread_id false); mret processed
      else
        d ← gets fst;
        continue_others (threads_ (threads d)) processed thread_id ;; mret processed
    else if decide (command_code = "s"%byte) then
      if 0 <? thread_id then
        update_threads (λ t, (SetActiveThread thread_id t).2) ;;
        ok ← StepInstruction;
        (if ok : bool then mret tt else send_error EFAULT) ;;
        mret processed
      else send_error EBADMSG ;; mret processed
    else send_empty ;; mret processed
  end.

Fixpoint vcont_commands (commands : list bytes) (processed : gset Z) : P unit :=
  match commands with
  | [] => mret tt
  | command :: commands' => processed' ← vcont_command command processed; vcont_commands commands' processed'
  end.

Definition HandleVCont (args : bytes) : P unit :=
  (if decide (args = []) then send_error EBADMSG else mret tt) ;;
  vcont_commands (split_any_of ";"%bs args) ∅ ;;
  MarkWaitingForStopPacket ;;
  going ← Go;
  mret tt.

Definition HandleExtendedVCommand (p : GDBPacket) : P unit :=
  let data := data_ p in
  if decide (data = "vCont?"%bs) then reply "vCont;c;C;s;S"%bs
  else if algorithm_starts_with data "vCont;"%bs then HandleVCont (drop 6 data)
  else send_empty.
End Handlers.

Section Dispatch.
Context `{!Boost} {C E : Type} `{!Target C E} (pf : platform).
Abbreviation P := (M (XBDMDebugger * (GDBBridge * E))).

(** [assert(thread)] fails without an active thread. *)
Definition HandleInterruptRequest : P unit :=
  halted ← HaltAll kDefaultHaltAllMaxWaitMilliseconds;
  if negb halted then send_error EBADMSG
  else
    d ← gets fst;
    (if decide (state_ d = S_STARTED) then mret tt else going ← Go; mret tt) ;;
    d ← gets fst;
    match ActiveThread (threads d) with
    | None => mfail
    | Some thread =>
      sent ← send_stop_packet (Some thread);
      if sent : bool then mret tt else send_ok
    end.

Definition HandleBCommandGroup (p : GDBPacket) : P unit := send_empty.

(** The packets that are only answered with the empty packet are not told
    apart. *)
Definition HandlePacket (p : GDBPacket) : P bool :=
  command ← lift_option (Command p);
  (if decide (command = INTERRUPT) then HandleInterruptRequest
   else if decide (command = "?"%byte) then HandleQueryHaltReason
   else if decide (command = "b"%byte) then HandleBCommandGroup p
   else if decide (command = "D"%byte) then HandleDetach
   else if decide (command = "g"%byte) then HandleReadGeneralRegisters pf p
   else if decide (command = "H"%byte) then HandleSelectThreadForCommandGroup p
   else if decide (command = "m"%byte) then HandleReadMemory p
   else if decide (command = "M"%byte) then HandleWriteMemory p
   else if decide (command = "p"%byte) then HandleReadRegister p
   else if decide (command = "P"%byte) then HandleWriteRegister p
   else if decide (command = "q"%byte) then HandleReadQuery p
   else if decide (command = "Q"%byte) then HandleWriteQuery p
   else if decide (command = "v"%byte) then HandleExtendedVCommand p
   else if decide (command = "X"%byte) then HandleWriteMemoryBinary p
   else if decide (command = "z"%byte) then HandleRemoveBreakpointType p
   else if decide (command = "Z"%byte) then HandleInsertBreakpointType p
   else send_empty) ;;
  mret true.

(** ** The connection to GDB *)

Definition AddTransport (transport : GDBTransport) : P bool :=
  b ← gets (λ s, s.2.1);
  if HasGDBClient b then mret false
  else
    on_bridge (modify (with_gdb (Some transport))) ;;
    on_target (modify (UnregisterNotificationHandler (bridge_handler_id_ b))) ;;
    handler ← on_target (λ x, Some (RegisterNotificationHandler x));
    on_bridge (modify (with_bridge_handler handler)) ;;
    mret true.

(** [Stop] *)
Definition StopBridge : P unit :=
  on_bridge (modify (λ b,
    if HasGDBClient b then with_gdb None b else b)).
End Dispatch.
