(* ===== verification/BridgeReplies.v ===== *)
(** * What the bridge answers

    Every packet of GDB is answered, and by how many packets; a resumed target
    is reported once when it stops. *)

From S2P Require Import Prelude CLib Boost Parsing RdcpResponse RdcpMaps RdcpTypes StopReasons RdcpRequest Requests Notifications.
From S2P Require Import GdbPacket TcpConnection GdbTransport GdbRegisters Target.
From S2P Require Import Console DebuggerMemory DebuggerThread DebuggerThreads Debugger DebuggerControl DebuggerInvariant DebuggerStops.
From S2P Require Import DebuggerFrame Bridge BridgeCommands.

(** ** Packets sent on a connection *)

Section Grown.
Context `{!Boost}.

(** [t'] is [t] after the packets [ps] were sent, in whichever acknowledgement
    mode. *)
Definition grown (ps : list GDBPacket) (t t' : GDBTransport) : Prop :=
  ack_buffer_ t' = ack_buffer_ t ++ map Serialize ps
  ∧ conn t' = Send (concat (map Serialize ps)) (conn t)
  ∧ unescaped_read_buffer_ t' = unescaped_read_buffer_ t.

Lemma Send_nil c : Send [] c = c.
Proof. destruct c. unfold Send, with_write. cbn. by rewrite app_nil_r. Qed.

Lemma Send_Send a b c : Send b (Send a c) = Send (a ++ b) c.
Proof. unfold Send, with_write. cbn. by rewrite app_assoc. Qed.

Lemma grown_nil t : grown [] t t.
Proof. split; [by rewrite app_nil_r|]. split; [by cbn; rewrite Send_nil|done]. Qed.

Lemma grown_trans ps qs t1 t2 t3 : grown ps t1 t2 → grown qs t2 t3 → grown (ps ++ qs) t1 t3.
Proof.
  intros (A1 & C1 & U1) (A2 & C2 & U2). split; [by rewrite A2, A1, map_app, app_assoc|].
  split; [by rewrite C2, C1, Send_Send, map_app, concat_app|congruence].
Qed.

Lemma grown_send p t : grown [p] t (SendPacket p t).
Proof. split; [done|]. split; [cbn; by rewrite app_nil_r|done]. Qed.

Lemma grown_connected ps t t' : grown ps t t' → IsConnected (conn t') = IsConnected (conn t).
Proof. intros (_ & -> & _). done. Qed.
End Grown.

(** ** The thread that is found stopped *)

Section Found.
Context `{!Boost} {C E : Type} `{!Target C E}.

(** The thread found is one of the list, and stopped. *)
Definition found_stopped (l : list ptr) (r : option ptr) (x : ThreadTable * E) : Prop :=
  ∀ p, r = Some p → p ∈ l ∧ ∃ thread, objects x.1 !! p = Some thread ∧ stopped thread = true.

Lemma wp_found {A} p t (x : ThreadTable * E) (k : Thread → M (ThreadTable * E) A) Q :
  threads_kept (λ _, True) t x → (∀ thread, objects x.1 !! p = Some thread → wp True (k thread) x Q) →
  wp True (thread_at p ≫= k) x Q.
Proof.
  intros _ Hk. destruct x as [t1 e]. apply wp_bind. unfold wp at 1, thread_at, lift_option, mbind, M_bind. cbn.
  destruct (objects t1 !! p) as [thread|] eqn:Hp; [|done]. cbn. by apply Hk.
Qed.

Lemma wp_checked {A} p t (x : ThreadTable * E) (k : bool → M (ThreadTable * E) A) Q :
  threads_kept (λ _, True) t x → (∀ known x', threads_kept (λ _, True) t x' → wp True (k known) x' Q) →
  wp True (on_thread p FetchStopReasonSync ≫= k) x Q.
Proof.
  intros Hx Hk. apply wp_bind. eapply wp_mono; [|intros known x'; apply Hk].
  apply (keeps_on_thread (λ _, True) t p); [|done]. intros i. by apply keeps_FetchStopReasonSync.
Qed.

Lemma wp_first_found excluded l t x :
  threads_kept (λ _, True) t x →
  wp True (first_stopped excluded l) x (λ r x', found_stopped l r x' ∧ threads_kept (λ _, True) t x').
Proof.
  revert x; induction l as [|p l IH]; intros x Hx; [by split|]. cbn [first_stopped].
  assert (∀ x1, threads_kept (λ _, True) t x1 →
    wp True (first_stopped excluded l) x1 (λ r x', found_stopped (p :: l) r x' ∧ threads_kept (λ _, True) t x')) as Hrest.
  { intros x1 Hx1. eapply wp_mono; [by apply IH|]. intros r x' [Hr Hk]. split; [|done].
    intros q Hq. destruct (Hr q Hq). split; [by right|done]. }
  eapply wp_found; [done|]. intros thread Ht. case_bool_decide; [by apply Hrest|].
  eapply wp_checked; [done|]. intros known x1 Hx1. eapply wp_found; [done|]. intros thread1 Ht1.
  destruct known; [|by apply Hrest]. cbn [andb]. destruct (stopped thread1) eqn:Hs; [|by apply Hrest].
  split; [|done]. intros q [= <-]. split; [by left|]. eauto.
Qed.

Lemma wp_GetFirstStopped (t : ThreadTable) (e : E) :
  wp True GetFirstStoppedThread (t, e) (λ r x, found_stopped (threads_ t) r x ∧ threads_kept (λ _, True) t x).
Proof.
  assert (threads_kept (λ _, True) t (t, e)) as Hx by done.
  unfold GetFirstStoppedThread. apply wp_bind. change (wp True (gets fst) (t, e) ?Q) with (Q t (t, e)). cbn beta.
  destruct (threads_ t) as [|p0 l] eqn:El; [by split|]. rewrite <- El. clear El p0 l.
  destruct (ActiveThread t) as [p|] eqn:Ha; [|by apply wp_first_found].
  assert (p ∈ threads_ t) as Hp.
  { unfold ActiveThread in Ha. destruct (active_thread_id_ t); [|done]. by apply GetThread_Some in Ha as [? _]. }
  eapply wp_checked; [done|]. intros known x1 Hx1. eapply wp_found; [done|]. intros thread1 Ht1.
  destruct known; [|by apply wp_first_found]. cbn [andb]. destruct (stopped thread1) eqn:Hs; [|by apply wp_first_found].
  split; [|done]. intros q [= <-]. eauto.
Qed.
End Found.

(** ** Counting answers *)

Section Answers.
Context `{!Boost} {C E : Type} `{!Target C E}.
Abbreviation state := (XBDMDebugger * (GDBBridge * E))%type.
Abbreviation P := (M state).

(** A bridge whose client is connected by [t]. *)
Definition serves (t : GDBTransport) (s : state) : Prop := gdb_ s.2.1 = Some t ∧ IsConnected (conn t) = true.

(** [m] sends so many packets to a connected client, whatever else it does. *)
Definition answers {A} (n : nat → Prop) (m : P A) : Prop :=
  ∀ t s, serves t s → wp True m s (λ _ s', ∃ ps t', n (length ps) ∧ grown ps t t' ∧ serves t' s').

Lemma answers_mono {A} (n n' : nat → Prop) (m : P A) : (∀ k, n k → n' k) → answers n m → answers n' m.
Proof.
  intros Hn Hm t s Hs. eapply wp_mono; [by apply Hm|]. intros a s' (ps & t' & ? & ? & ?). exists ps, t'. auto.
Qed.

Lemma answers_ret {A} (a : A) : answers (eq 0%nat) (mret a).
Proof. intros t s Hs. exists [], t. split; [done|]. split; [apply grown_nil|done]. Qed.

Lemma answers_fail {A} n : answers n (mfail : P A).
Proof. by intros t s. Qed.

Lemma answers_bind {A B} (i j n : nat → Prop) (m : P A) (k : A → P B) :
  (∀ x y, i x → j y → n (x + y)%nat) → answers i m → (∀ a, answers j (k a)) → answers n (m ≫= k).
Proof.
  intros Hn Hm Hk t s Hs. apply wp_bind. eapply wp_mono; [by apply Hm|].
  intros a s1 (ps & t1 & Hi & Hg & Hs1). eapply wp_mono; [by apply Hk|].
  intros b s2 (qs & t2 & Hj & Hg2 & Hs2). exists (ps ++ qs), t2. rewrite length_app. split; [auto|].
  split; [by eapply grown_trans|done].
Qed.

(** Nothing is sent by [m] and whatever follows decides. *)
Lemma answers_quiet {A B} n (m : P A) (k : A → P B) :
  answers (eq 0%nat) m → (∀ a, answers n (k a)) → answers n (m ≫= k).
Proof. apply answers_bind. by intros x y <-. Qed.

(** The last answer of a sequence. *)
Lemma answers_end {A B} n (m : P A) (b : B) : answers n m → answers n (m ;; mret b).
Proof.
  intros Hm. eapply answers_bind; [|exact Hm|intros _; apply answers_ret]. intros x y Hx <-. by rewrite Nat.add_0_r.
Qed.

Lemma answers_unless {A} n b (r : A) (k : P A) : answers n (mret r) → answers n k → answers n (unless b r k).
Proof. by destruct b. Qed.

(** What keeps the bridge answers nothing. *)
Lemma answers_held {A} (m : P A) : (∀ b, keeps (held (λ x, x.1 = b)) m) → answers (eq 0%nat) m.
Proof.
  intros Hm t s [Ht Hc]. eapply wp_mono; [by apply (Hm s.2.1 s)|]. intros a s' Hs'.
  exists [], t. split; [done|]. split; [apply grown_nil|]. unfold serves. by rewrite Hs'.
Qed.

Lemma bridge_closed (b : GDBBridge) r payload (x : GDBBridge * E) : x.1 = b → (answer r payload x).2.1 = b.
Proof. destruct x as [b0 e]. cbn. by destruct (answer r payload e). Qed.

Lemma answers_gets {A} (f : state → A) : answers (eq 0%nat) (gets f).
Proof. intros t s Hs. exists [], t. split; [done|]. split; [apply grown_nil|done]. Qed.

Lemma answers_lift {A} (o : option A) : answers (eq 0%nat) (lift_option o).
Proof. intros t s Hs. destruct o; [|done]. exists [], t. split; [done|]. split; [apply grown_nil|done]. Qed.

Lemma answers_modify f : (∀ b, gdb_ (f b) = gdb_ b) → answers (eq 0%nat) (on_bridge (modify f)).
Proof.
  intros Hf t [d [b e]] [Ht Hc]. exists [], t. split; [done|]. split; [apply grown_nil|]. split; [|done].
  cbn. by rewrite Hf.
Qed.

(** *** What sends *)

Lemma answers_Send p : answers (eq 1%nat) (on_bridge (gdb_Send p)).
Proof.
  intros t [d [b e]] [Ht Hc]. cbn in Ht. unfold wp, on_bridge, on_target, on_right, on_left, gdb_Send. rewrite Ht. cbn.
  exists [p], (SendPacket p t). split; [done|]. split; [apply grown_send|]. by split.
Qed.

Lemma answers_client p : answers (eq 1%nat) (on_bridge (send_to_client p)).
Proof.
  intros t s Hs. pose proof (answers_Send p t s Hs) as Hsend. destruct s as [d [b e]]. destruct Hs as [Ht Hc]. cbn in Ht.
  unfold on_bridge, on_target in *. rewrite wp_on_right, wp_on_left in *. unfold send_to_client. apply wp_bind.
  change (wp True (gets ?g) ?s ?Q) with (Q (g s) s). cbn beta.
  assert (HasGDBClient b = true) as -> by (unfold HasGDBClient; by rewrite Ht). exact Hsend.
Qed.

Lemma answers_reply data : answers (eq 1%nat) (reply data).
Proof. apply answers_Send. Qed.
Lemma answers_ok : answers (eq 1%nat) send_ok.
Proof. apply answers_client. Qed.
Lemma answers_empty : answers (eq 1%nat) send_empty.
Proof. apply answers_client. Qed.
Lemma answers_error e : answers (eq 1%nat) (send_error e).
Proof. apply answers_client. Qed.

(** A stop packet is one when it is sent, and the result says whether. *)
Lemma wp_stop_packet (p : option ptr) t (s : state) :
  serves t s →
  wp True (send_stop_packet p) s (λ sent s', ∃ ps t', length ps = (if sent : bool then 1 else 0)%nat
                                              ∧ grown ps t t' ∧ serves t' s').
Proof.
  intros [Ht Hc]. destruct s as [d [b e]]. cbn in Ht.
  unfold send_stop_packet, on_bridge, on_target. apply wp_bind. change (wp True (gets ?g) ?s ?Q) with (Q (g s) s). cbn beta.
  apply wp_on_right, wp_on_left. unfold SendThreadStopPacket. apply wp_bind.
  change (wp True (gets ?g) ?s ?Q) with (Q (g s) s). cbn beta.
  assert (HasGDBClient b = true) as -> by (unfold HasGDBClient; by rewrite Ht).
  assert (∃ ps t', length ps = 0%nat ∧ grown ps t t' ∧ serves t' (d, (b, e))) as Hnone.
  { exists [], t. split; [done|]. split; [apply grown_nil|by split]. }
  cbn [negb fst]. destruct (thread_object (threads d) p) as [thread|]; [|exact Hnone].
  destruct (negb (stopped thread)); [exact Hnone|]. destruct (last_stop_reason thread) as [r|]; [|exact Hnone].
  apply wp_bind. change (wp True (modify ?g) ?x ?Q) with (Q tt (g x)). cbn beta. apply wp_bind.
  unfold wp, gdb_Send. cbn [with_waiting gdb_]. rewrite Ht. cbn.
  eexists [_], _. split; [done|]. split; [apply grown_send|]. by split.
Qed.

Lemma answers_info b : answers (eq 1%nat) (on_bridge (SendThreadInfoBuffer b)).
Proof.
  intros t [d [b0 e]] [Ht Hc]. cbn in Ht. unfold on_bridge, on_target. apply wp_on_right, wp_on_left.
  unfold SendThreadInfoBuffer. apply wp_bind. unfold wp at 1, get. cbn beta iota.
  assert (∀ l p, wp True (gdb_Send p) (with_thread_info l b0)
    (λ _ b1, ∃ ps t', 1%nat = length ps ∧ grown ps t t' ∧ serves t' (d, (b1, e)))) as Hsend.
  { intros l p. unfold wp, gdb_Send. cbn [with_thread_info gdb_]. rewrite Ht. eexists [_], _. split; [done|].
    split; [apply grown_send|]. by split. }
  destruct (thread_info_buffer_ b0) as [|first others] eqn:El.
  - specialize (Hsend [] (packet_of "l"%bs)). unfold with_thread_info in Hsend. rewrite <- El in Hsend. by destruct b0.
  - destruct b; apply wp_bind; change (wp True (modify ?g) ?x ?Q) with (Q tt (g x)); cbn beta; apply Hsend.
Qed.
(** *** The debugger answers nothing *)

Ltac frame :=
  apply answers_held; intros ?; try apply held_zoom; try apply held_on_thread;
  first
  [ apply held_FetchContextSync | apply held_FetchFloatContextSync | apply held_PushContextSync
  | apply held_PushFloatContextSync | apply held_set_thread | apply held_thread_at | apply held_GetMemory
  | apply held_SetMemory | apply held_AddBreakpoint | apply held_RemoveBreakpoint | apply held_AddReadWatch
  | apply held_AddWriteWatch | apply held_RemoveReadWatch | apply held_RemoveWriteWatch | apply held_FetchThreads
  | apply held_GetFirstStoppedThread | apply held_ContinueAll | apply held_ContinueThread | apply held_Go
  | apply held_StepInstruction | apply held_left ];
  apply bridge_closed.

Hint Resolve answers_ret answers_gets answers_lift answers_reply answers_ok answers_empty answers_error answers_info
  answers_fail answers_unless answers_Send : answers.
Hint Extern 1 (answers _ (on_threads _)) => frame : answers.
Hint Extern 1 (answers _ (on_memory _)) => frame : answers.
Hint Extern 1 (answers _ (update_threads _)) => frame : answers.
Hint Extern 1 (answers _ Go) => frame : answers.
Hint Extern 1 (answers _ StepInstruction) => frame : answers.
Hint Extern 1 (answers _ (on_bridge (modify _))) => apply answers_modify; reflexivity : answers.
Hint Extern 2 (answers _ (_ ≫= _)) => apply answers_quiet; [|intros ?] : answers.
Hint Extern 2 (answers _ (if ?b then _ else _)) => destruct b : answers.
Hint Extern 2 (answers _ (match ?x with _ => _ end)) => destruct x : answers.
Hint Extern 2 (answers _ (let _ := _ in _)) => cbv zeta : answers.

Lemma answers_hex n cast data otherwise k :
  answers n otherwise → (∀ v, answers n (k v)) → answers n (with_hex cast data otherwise k).
Proof. intros Ho Hk. unfold with_hex. by destruct (hex_value cast data). Qed.
Lemma answers_found {A} (x : option A) k : (∀ a, answers (eq 1%nat) (k a)) → answers (eq 1%nat) (found x k).
Proof. unfold found. auto with answers. Qed.
Hint Extern 1 (answers _ (with_hex _ _ _ _)) => apply answers_hex; [|intros ?] : answers.
Hint Extern 1 (answers _ (found _ _)) => apply answers_found; intros ? : answers.

Lemma answers_command_thread p k :
  (∀ thread, answers (eq 1%nat) (k thread)) → answers (eq 1%nat) (with_command_thread p k).
Proof. intros Hk. unfold with_command_thread, any_thread_id. auto 12 with answers. Qed.
Hint Extern 1 (answers _ (with_command_thread _ _)) => apply answers_command_thread; intros ? : answers.

Lemma answers_update thread set push :
  answers (eq 0%nat) (on_threads (on_thread thread push)) → answers (eq 1%nat) (update_thread thread set push).
Proof. intros Hpush. unfold update_thread. auto 12 with answers. Qed.

Lemma answers_write p k : (∀ a n i, answers (eq 1%nat) (k a n i)) → answers (eq 1%nat) (with_write p k).
Proof. intros Hk. unfold with_write, between. auto 12 with answers. Qed.
Hint Extern 1 (answers _ (with_write _ _)) => apply answers_write; intros ? ? ? : answers.

(** *** The handlers *)

Context (pf : platform).

Lemma answers_read_registers p : answers (eq 1%nat) (HandleReadGeneralRegisters pf p).
Proof. unfold HandleReadGeneralRegisters. auto 12 with answers. Qed.
Lemma answers_read_register p : answers (eq 1%nat) (HandleReadRegister p).
Proof. unfold HandleReadRegister. auto 20 with answers. Qed.
Lemma answers_write_register p : answers (eq 1%nat) (HandleWriteRegister p).
Proof.
  unfold HandleWriteRegister. destruct (FindFirst p _); [|auto with answers].
  apply answers_hex; [auto with answers|]. intros i. apply answers_hex; [auto with answers|]. intros v.
  apply answers_command_thread. intros thread. destruct (_ <? _).
  - apply answers_quiet; [frame|]. intros []; cbn [negb]; [|auto with answers]. apply answers_update. frame.
  - apply answers_quiet; [frame|]. intros _. apply answers_update. frame.
Qed.
Lemma answers_select p : answers (eq 1%nat) (HandleSelectThreadForCommandGroup p).
Proof. unfold HandleSelectThreadForCommandGroup. auto 12 with answers. Qed.
Lemma answers_read_memory p : answers (eq 1%nat) (HandleReadMemory p).
Proof. unfold HandleReadMemory, between. auto 12 with answers. Qed.
Lemma answers_write_memory p : answers (eq 1%nat) (HandleWriteMemory p).
Proof. unfold HandleWriteMemory, write_memory, between. auto 12 with answers. Qed.
Lemma answers_write_binary p : answers (eq 1%nat) (HandleWriteMemoryBinary p).
Proof. unfold HandleWriteMemoryBinary, write_memory, between. auto 12 with answers. Qed.

(** Whether the packet is about a hardware breakpoint. *)
Definition about_hardware (p : GDBPacket) : bool :=
  match ExtractBreakpointCommandParams p with Some (type, _, _, _) => type =? BP_HARDWARE | None => false end.

Lemma answers_breakpoint p sw read write :
  (∀ a, answers (eq 0%nat) (on_memory (sw a))) → (∀ a n, answers (eq 0%nat) (on_memory (read a n))) →
  (∀ a n, answers (eq 0%nat) (on_memory (write a n))) →
  answers (eq (if about_hardware p then 2 else 1)%nat) (handle_breakpoint p sw read write).
Proof.
  intros Hsw Hr Hw. unfold handle_breakpoint, about_hardware, ignoring.
  destruct (ExtractBreakpointCommandParams p) as [[[[type address] arg] args]|]; [|auto with answers].
  destruct (Z.eqb_spec type BP_SOFTWARE) as [->|]; [auto with answers|].
  destruct (type =? BP_HARDWARE); [|auto 20 with answers].
  eapply answers_bind; [|apply answers_empty|intros _; apply answers_empty]. by intros x y <- <-.
Qed.

Lemma answers_remove p : answers (eq (if about_hardware p then 2 else 1)%nat) (HandleRemoveBreakpointType p).
Proof.
  unfold HandleRemoveBreakpointType. apply answers_breakpoint; intros; apply answers_held; intros b; apply held_zoom.
  - apply held_RemoveBreakpoint, bridge_closed.
  - apply held_RemoveReadWatch, bridge_closed.
  - apply held_RemoveWriteWatch, bridge_closed.
Qed.
Lemma answers_insert p : answers (eq (if about_hardware p then 2 else 1)%nat) (HandleInsertBreakpointType p).
Proof.
  unfold HandleInsertBreakpointType. apply answers_breakpoint; intros; apply answers_held; intros b; apply held_zoom.
  - apply held_AddBreakpoint, bridge_closed.
  - apply held_AddReadWatch, bridge_closed.
  - apply held_AddWriteWatch, bridge_closed.
Qed.

Lemma answers_query p : answers (eq 1%nat) (HandleReadQuery p).
Proof.
  unfold HandleReadQuery, HandleQueryAttached, HandleQuerySupported, HandleQueryThreadExtraInfo, HandleThreadInfoStart,
    HandleThreadInfoContinue, HandleQueryCurrentThreadID, HandleFeaturesRead, between. auto 24 with answers.
Qed.

Lemma answers_halt_reason : answers (eq 1%nat) HandleQueryHaltReason.
Proof.
  unfold HandleQueryHaltReason. apply answers_quiet; [frame|]. intros [p|]; [|auto with answers].
  apply answers_quiet; [frame|]. intros t. destruct (negb (stopped t)); [auto with answers|].
  intros c s Hs. apply wp_bind. eapply wp_mono; [by apply wp_stop_packet|]. intros sent s1 (ps & c1 & Hl & Hg & Hs1).
  destruct sent; [by exists ps, c1|]. eapply wp_mono; [by apply answers_empty|].
  intros _ s2 (qs & c2 & Hl2 & Hg2 & Hs2). exists (ps ++ qs), c2. rewrite length_app, Hl. split; [done|].
  split; [by eapply grown_trans|done].
Qed.

Lemma answers_detach : answers (eq 1%nat) HandleDetach.
Proof. unfold HandleDetach. auto 12 with answers. Qed.

Lemma answers_set_no_ack : answers (eq 0%nat) (on_bridge (λ b, t ← gdb_ b; Some (tt, with_gdb (Some (SetNoAckMode true t)) b))).
Proof.
  intros t [d [b e]] [Ht Hc]. cbn in Ht. unfold wp, on_bridge, on_target, on_right, on_left. rewrite Ht. cbn.
  exists [], (SetNoAckMode true t). split; [done|]. split; [|by split]. split; [by rewrite app_nil_r|].
  split; [cbn; by rewrite Send_nil|done].
Qed.
Hint Resolve answers_set_no_ack : answers.

Lemma answers_write_query p : answers (eq 1%nat) (HandleWriteQuery p).
Proof. unfold HandleWriteQuery. auto 12 with answers. Qed.

(** *** Waiting: the bridge itself listens *)

Definition grew (t : GDBTransport) (x : GDBBridge * E) : Prop :=
  ∃ ps t', grown ps t t' ∧ gdb_ x.1 = Some t' ∧ IsConnected (conn t') = true.

Lemma grew_listener admitted (n : Notification C) d t x : grew t x → grew t (notify_others admitted n d x).
Proof.
  destruct x as [b e]. cbn. destruct (admitted _ && _); [|done]. intros (ps & t1 & Hg & Ht & Hc). cbn in Ht.
  assert (wp True (OnStop d) b (λ _ b', grew t (b', e))) as Hstop.
  { unfold OnStop. apply wp_bind. unfold wp at 1, get. cbn beta iota.
    destruct (waiting_on_stop_packet_ b); [|by exists ps, t1]. apply wp_bind.
    pose proof (wp_stop_packet (ActiveThread (threads d)) t1 (d, (b, e)) (conj Ht Hc)) as Hsend.
    unfold send_stop_packet, on_bridge, on_target in Hsend. rewrite wp_bind in Hsend.
    change (wp True (gets ?g) ?s ?Q) with (Q (g s) s) in Hsend. cbn beta in Hsend. rewrite wp_on_right, wp_on_left in Hsend.
    eapply wp_mono; [exact Hsend|]. intros sent b' (qs & t2 & _ & Hg2 & Ht2 & Hc2). apply wp_ret.
    exists (ps ++ qs), t2. split; [by eapply grown_trans|]. by split. }
  assert (∀ m : M GDBBridge unit, wp True m b (λ _ b', grew t (b', e)) → grew t (default b (snd <$> m b), e)) as Hdefault.
  { intros m Hm. unfold wp in Hm. destruct (m b) as [[? b']|]; [done|]. by exists ps, t1. }
  apply Hdefault. destruct n; cbn [OnNotification]; try exact Hstop; try (by exists ps, t1).
  destruct (decide _); [exact Hstop|by exists ps, t1].
Qed.

Lemma answers_HaltAll ms : answers (λ _, True) (HaltAll ms).
Proof.
  intros t s [Ht Hc]. eapply wp_mono.
  - apply (held_HaltAll (grew t)).
    + intros r payload x Hx. unfold grew. by rewrite (bridge_closed x.1).
    + intros ms' [b e] n remaining [b' e'] Hn. cbn in Hn. destruct (next_notification ms' e) as [[[n1 r1] e1]|]; [|done].
      cbn in Hn. by injection Hn as _ _ <- _.
    + intros admitted n d x. apply grew_listener.
    + exists [], t. split; [apply grown_nil|done].
  - intros a s' (ps & t' & Hg & Ht' & Hc'). exists ps, t'. split; [done|]. split; [exact Hg|by split].
Qed.

Lemma answers_interrupt : answers (λ n, (1 ≤ n)%nat) HandleInterruptRequest.
Proof.
  unfold HandleInterruptRequest.
  apply (answers_bind (λ _, True) (λ n, (1 ≤ n)%nat)); [intros; lia|apply answers_HaltAll|]. intros halted.
  destruct (negb halted); [eapply answers_mono; [|apply answers_error]; lia|].
  apply answers_quiet; [auto with answers|]. intros d. apply answers_quiet; [auto 12 with answers|]. intros _.
  apply answers_quiet; [auto with answers|]. intros d'. destruct (ActiveThread (threads d')) as [p|]; [|apply answers_fail].
  intros c s Hs. apply wp_bind. eapply wp_mono; [by apply wp_stop_packet|]. intros sent s1 (ps & c1 & Hl & Hg & Hs1).
  destruct sent; [exists ps, c1; split; [lia|done]|]. eapply wp_mono; [by apply answers_ok|].
  intros _ s2 (qs & c2 & Hl2 & Hg2 & Hs2). exists (ps ++ qs), c2. rewrite length_app. split; [lia|].
  split; [by eapply grown_trans|done].
Qed.

(** How many packets answer a packet: an interrupt and a resumption wait for the
    target, whose stop may be reported at the same time. *)
Definition due (p : GDBPacket) (n : nat) : Prop :=
  match Command p with
  | None => False
  | Some command =>
    if decide (command = INTERRUPT) then (1 ≤ n)%nat
    else if decide (command = "z"%byte ∨ command = "Z"%byte) then n = if about_hardware p then 2%nat else 1%nat
    else if decide (command = "v"%byte) then algorithm_starts_with (data_ p) "vCont;"%bs = true ∨ n = 1%nat
    else n = 1%nat
  end.

(** *** Resumption *)

(** By how many packets a command of [vCont] is refused, before the target
    goes: a continuation never, a step of a thread when it fails, all others
    once. *)
Definition refusals (command : bytes) (n : nat) : Prop :=
  match (match split_any_of ":"%bs command with _ :: param :: _ => hex_value i32 param | _ => Some (-1) end) with
  | None => n = 1%nat
  | Some thread_id =>
    match hd_error command with
    | None => False
    | Some code =>
      if decide (code = "c"%byte) then n = 0%nat
      else if bool_decide (code = "s"%byte) && (0 <? thread_id) then (n ≤ 1)%nat
      else n = 1%nat
    end
  end.

Definition each_refusal (commands : list bytes) (n : nat) : Prop :=
  ∃ ns, Forall2 refusals commands ns ∧ n = sum_list ns.

(** By how many all are, and once more when there are none. *)
Definition all_refusals (args : bytes) (n : nat) : Prop :=
  ∃ k, each_refusal (split_any_of ";"%bs args) k ∧ n = ((if decide (args = []) then 1 else 0) + k)%nat.

Lemma answers_continue_others l processed i : answers (eq 0%nat) (continue_others l processed i).
Proof. induction l; cbn [continue_others]; auto 20 with answers. Qed.
Hint Resolve answers_continue_others : answers.

Lemma answers_lift_bind {A B} n (o : option A) (k : A → P B) :
  (∀ a, o = Some a → answers n (k a)) → answers n (lift_option o ≫= k).
Proof. intros Hk t s Hs. destruct o as [a|]; [|done]. by apply (Hk a). Qed.

Lemma answers_vcont_command command processed : answers (refusals command) (vcont_command command processed).
Proof.
  unfold vcont_command, refusals. cbv zeta.
  destruct (match split_any_of ":"%bs command with _ :: param :: _ => hex_value i32 param | _ => Some (-1) end) as [i|].
  2: { apply (answers_mono (eq 1%nat)); [by intros k <-|]. apply answers_end, answers_error. }
  apply answers_lift_bind. intros code Hcode. rewrite Hcode. destruct (decide (code = "c"%byte)) as [->|Hc].
  { apply (answers_mono (eq 0%nat)); [by intros k <-|].
    destruct (_ && _); [auto 12 with answers|]. destruct (0 <? i); auto 12 with answers. }
  case_bool_decide as Hs; [rewrite decide_True by done|rewrite decide_False by done]; cbn [andb].
  2: { apply (answers_mono (eq 1%nat)); [by intros k <-|]. apply answers_end, answers_empty. }
  destruct (0 <? i).
  - apply answers_quiet; [frame|]. intros _. apply answers_quiet; [auto with answers|]. intros ok. apply answers_end.
    destruct ok; [eapply answers_mono; [|apply answers_ret]; lia|eapply answers_mono; [|apply answers_error]; lia].
  - apply (answers_mono (eq 1%nat)); [by intros k <-|]. apply answers_end, answers_error.
Qed.

Lemma answers_vcont_commands commands processed : answers (each_refusal commands) (vcont_commands commands processed).
Proof.
  revert processed. induction commands as [|command commands IH]; intros processed; cbn [vcont_commands].
  { eapply answers_mono; [|apply answers_ret]. intros k <-. by exists []. }
  eapply answers_bind; [|apply answers_vcont_command|intros; apply IH].
  intros x y Hx (ns & Hns & ->). exists (x :: ns). split; [by constructor|done].
Qed.

Lemma answers_refused args :
  answers (all_refusals args)
    ((if decide (args = []) then send_error EBADMSG else mret tt) ;; vcont_commands (split_any_of ";"%bs args) ∅).
Proof.
  eapply (answers_bind (eq (if decide (args = []) then 1 else 0)%nat)); [| |intros _; apply answers_vcont_commands].
  - intros x y <- Hy. by exists y.
  - destruct (decide _); [apply answers_error|apply answers_ret].
Qed.

(** The packets that report a thread that stopped: one, if the reason is known. *)
Definition stop_packets (thread : Thread) : list GDBPacket :=
  match last_stop_reason thread with
  | Some r => [packet_of (c_str (stop_packet_text thread r))]
  | None => []
  end.

(** One of the threads of the table, which is stopped. *)
Definition stopped_among (t : ThreadTable) (thread : Thread) : Prop :=
  ∃ p, p ∈ threads_ t ∧ objects t !! p = Some thread ∧ stopped thread = true.

(** What a resumption by [args] leaves, with the packets [ps] sent: the
    refusals, and either the bridge waits for the stop or a thread is stopped
    already and reported. *)
Definition resumed (args : bytes) (ps : list GDBPacket) (d : XBDMDebugger) (b : GDBBridge) : Prop :=
  ∃ refused stop, ps = refused ++ stop ∧ all_refusals args (length refused)
  ∧ if waiting_on_stop_packet_ b then stop = [] else ∃ thread, stopped_among (threads d) thread ∧ stop = stop_packets thread.

Lemma wp_stop_packets p thread t (s : state) :
  serves t s → objects (threads s.1) !! p = Some thread → stopped thread = true →
  wp True (send_stop_packet (Some p)) s (λ _ s',
    ∃ t', grown (stop_packets thread) t t' ∧ serves t' s' ∧ s'.1 = s.1).
Proof.
  intros [Ht Hc] Hp Hstopped. destruct s as [d [b e]]. cbn in Ht, Hp.
  unfold send_stop_packet, on_bridge, on_target. apply wp_bind. change (wp True (gets ?g) ?s ?Q) with (Q (g s) s). cbn beta.
  apply wp_on_right, wp_on_left. unfold SendThreadStopPacket. apply wp_bind.
  change (wp True (gets ?g) ?s ?Q) with (Q (g s) s). cbn beta.
  assert (HasGDBClient b = true) as -> by (unfold HasGDBClient; by rewrite Ht).
  cbn [negb fst thread_object mbind option_bind]. rewrite Hp, Hstopped. cbn [negb]. unfold stop_packets.
  destruct (last_stop_reason thread) as [r|]; [|exists t; split; [apply grown_nil|by split]].
  apply wp_bind. change (wp True (modify ?g) ?x ?Q) with (Q tt (g x)). cbn beta. apply wp_bind.
  unfold wp, gdb_Send. cbn [with_waiting gdb_]. rewrite Ht. cbn. eexists. split; [apply grown_send|]. by split.
Qed.

Definition marked (stop : list GDBPacket) (s : state) : Prop :=
  if waiting_on_stop_packet_ s.2.1 then stop = []
  else ∃ thread, stopped_among (threads s.1) thread ∧ stop = stop_packets thread.

Lemma wp_MarkWaiting t (s : state) :
  serves t s → wp True MarkWaitingForStopPacket s (λ _ s', ∃ stop t', grown stop t t' ∧ serves t' s' ∧ marked stop s').
Proof.
  intros Hs. destruct s as [d [b e]]. unfold MarkWaitingForStopPacket. apply wp_bind. unfold on_threads. apply wp_zoom.
  assert (held (λ x, x.1 = b) (threads d, (b, e))) as Hb by done.
  eapply wp_mono; [apply wp_and; [apply wp_GetFirstStopped|apply (held_GetFirstStoppedThread (λ x, x.1 = b)); [intros; by apply bridge_closed|done]]|].
  intros r [t1 [b1 e1]] [[Hr [Hk _]] Hb1]. assert (b1 = b) as -> by exact Hb1. cbn in Hk. cbn [fst snd].
  destruct r as [p|].
  - destruct (Hr p eq_refl) as (Hp & thread & Ht & Hstopped). cbn in Ht. apply wp_bind.
    eapply wp_mono; [by eapply (wp_stop_packets p thread t)|]. intros sent [d2 [b2 e2]] (t2 & Hg & [Ht2 Hc2] & Hd). cbn in Ht2, Hd.
    exists (stop_packets thread), t2. split; [done|]. split; [by split|]. unfold marked. cbn. exists thread. split; [|done].
    exists p. rewrite Hd. cbn. split; [|done]. by destruct Hk as (_ & -> & _).
  - exists [], t. split; [apply grown_nil|]. by split.
Qed.

Lemma HandleVCont_split args (s : state) :
  HandleVCont args s
  = ((((if decide (args = []) then send_error EBADMSG else mret tt) ;; vcont_commands (split_any_of ";"%bs args) ∅) ;;
      MarkWaitingForStopPacket ;; going ← Go; mret tt) s).
Proof.
  unfold HandleVCont, mbind, M_bind. destruct (decide (args = [])); [|done]. by destruct (send_error EBADMSG s) as [[[] s1]|].
Qed.

Lemma wp_vcont args t (s : state) :
  serves t s →
  wp True (HandleVCont args) s (λ _ s',
    ∃ ps t', grown ps t t' ∧ serves t' s' ∧ resumed args ps s'.1 s'.2.1).
Proof.
  intros Hs. eapply wp_eq; [apply HandleVCont_split|]. apply wp_bind.
  eapply wp_mono; [by apply (answers_refused args)|]. intros _ s1 (refused & t1 & Hn & Hg1 & Hs1). apply wp_bind. eapply wp_mono; [by apply wp_MarkWaiting|].
  intros _ s2 (stop & t2 & Hg2 & Hs2 & Hm). apply wp_bind. destruct s2 as [d2 [b2 e2]].
  unfold Go, on_target. apply wp_on_right, wp_plain_command.
  pose proof (bridge_closed b2 Requests.Go None (b2, e2) eq_refl) as Hb.
  destruct (answer Requests.Go None (b2, e2)).2 as [b3 e3]. cbn in Hb. subst b3.
  exists (refused ++ stop), t2. split; [by eapply grown_trans|]. split; [done|]. by exists refused, stop.
Qed.

Lemma answers_vcont p :
  answers (λ n, algorithm_starts_with (data_ p) "vCont;"%bs = true ∨ n = 1%nat) (HandleExtendedVCommand p).
Proof.
  assert (∀ m : P unit, answers (eq 1%nat) m →
    answers (λ n, algorithm_starts_with (data_ p) "vCont;"%bs = true ∨ n = 1%nat) m) as Hone.
  { intros m. apply answers_mono. auto. }
  unfold HandleExtendedVCommand. destruct (decide _); [apply Hone, answers_reply|].
  destruct (algorithm_starts_with _ _); [|apply Hone, answers_empty].
  intros t s Hs. eapply wp_mono; [by apply wp_vcont|]. intros _ s' (ps & t' & Hg & Hs' & _). exists ps, t'. split; [by left|done].
Qed.

Lemma due_one p c m :
  Command p = Some c → c ∉ [INTERRUPT; "z"%byte; "Z"%byte; "v"%byte] → answers (eq 1%nat) (m : P unit) → answers (due p) m.
Proof.
  intros Hc Hn. rewrite !not_elem_of_cons in Hn. apply answers_mono. intros k <-. unfold due. rewrite Hc.
  by rewrite !decide_False by tauto.
Qed.

Lemma due_breakpoint p c m :
  Command p = Some c → c = "z"%byte ∨ c = "Z"%byte →
  answers (eq (if about_hardware p then 2 else 1)%nat) (m : P unit) → answers (due p) m.
Proof.
  intros Hc Hz. apply answers_mono. intros k <-. unfold due. rewrite Hc.
  destruct (decide (c = INTERRUPT)) as [->|_]; [by destruct Hz|]. by destruct (decide (c = "z"%byte ∨ _)).
Qed.

Lemma due_resumption p c m :
  Command p = Some c → c = "v"%byte →
  answers (λ n, algorithm_starts_with (data_ p) "vCont;"%bs = true ∨ n = 1%nat) (m : P unit) → answers (due p) m.
Proof.
  intros Hc ->. apply answers_mono. intros k Hk. unfold due. rewrite Hc.
  destruct (decide (_ = INTERRUPT)) as [[=]|_]. destruct (decide (_ ∨ _)) as [[[=]|[=]]|_].
  by destruct (decide (_ = _)).
Qed.

Lemma answers_HandlePacket p : answers (due p) (HandlePacket pf p).
Proof.
  unfold HandlePacket. apply answers_lift_bind. intros command Hc. apply answers_end.
  destruct (decide (command = INTERRUPT)) as [->|Hi].
  { eapply answers_mono; [|apply answers_interrupt]. intros k Hk. unfold due. rewrite Hc. by rewrite decide_True. }
  repeat match goal with |- answers _ (if decide (_ = ?c) then ?m else _) =>
    destruct (decide (command = c)) as [->|?];
    [first
     [ apply (due_one p c); [exact Hc|by apply (bool_decide_unpack _)|];
       lazymatch m with
       | HandleQueryHaltReason => apply answers_halt_reason
       | HandleBCommandGroup _ => apply answers_empty
       | HandleDetach => apply answers_detach
       | HandleReadGeneralRegisters _ _ => apply answers_read_registers
       | HandleSelectThreadForCommandGroup _ => apply answers_select
       | HandleReadMemory _ => apply answers_read_memory
       | HandleWriteMemory _ => apply answers_write_memory
       | HandleReadRegister _ => apply answers_read_register
       | HandleWriteRegister _ => apply answers_write_register
       | HandleReadQuery _ => apply answers_query
       | HandleWriteQuery _ => apply answers_write_query
       | HandleWriteMemoryBinary _ => apply answers_write_binary
       end
     | idtac ]|] end.
  - by apply (due_resumption p "v"%byte), answers_vcont.
  - apply (due_breakpoint p "z"%byte); [done|by left|]. apply answers_remove.
  - apply (due_breakpoint p "Z"%byte); [done|by right|]. apply answers_insert.
  - apply (due_one p command); [done| |apply answers_empty]. rewrite !not_elem_of_cons. split_and!; [done..|apply not_elem_of_nil].
Qed.
End Answers.

(** ** Reports of a stop *)

Section Reports.
Context `{!Boost} {C : Type}.

(** The notifications that may report a stop. *)
Definition is_stop (n : Notification C) : bool :=
  match n with
  | NotificationExecutionStateChanged S_STOPPED => true
  | NotificationBreakpoint _ _ _ | NotificationWatchpoint _ _ _ _ _ _ | NotificationSingleStep _ _
  | NotificationException _ _ _ _ _ => true
  | _ => false
  end.

(** What a notification has to report with the debugger in the state [d]: the
    active thread, stopped for a known reason. *)
Definition report (n : Notification C) (d : XBDMDebugger) : option GDBPacket :=
  if is_stop n then
    thread ← thread_object (threads d) (ActiveThread (threads d));
    r ← last_stop_reason thread;
    if stopped thread then Some (packet_of (c_str (stop_packet_text thread r))) else None
  else None.

(** The bridge after notifications, each with the debugger as it was then. *)
Fixpoint notified (l : list (Notification C * XBDMDebugger)) (b : GDBBridge) : GDBBridge :=
  match l with
  | [] => b
  | (n, d) :: l' => notified l' (default b (snd <$> OnNotification n d b))
  end.

Lemma OnNotification_waiting n d b t :
  gdb_ b = Some t → IsConnected (conn t) = true → waiting_on_stop_packet_ b = true →
  default b (snd <$> OnNotification n d b)
  = match report n d with
    | None => b
    | Some p => with_gdb (Some (SendPacket p t)) (with_waiting false b)
    end.
Proof.
  intros Ht Hc Hw.
  assert (default b (snd <$> OnStop d b)
    = match report (NotificationSingleStep 0 0) d with
      | None => b
      | Some p => with_gdb (Some (SendPacket p t)) (with_waiting false b)
      end) as Hstop.
  { unfold OnStop, SendThreadStopPacket, report, mbind, M_bind, get, gets, mret, M_ret. cbn. rewrite Hw. unfold HasGDBClient.
    rewrite Ht, Hc. cbn. destruct (thread_object _ _) as [thread|]; [|done]. cbn.
    destruct (stopped thread), (last_stop_reason thread) as [r|]; cbn; try done. unfold gdb_Send. cbn. by rewrite Ht. }
  unfold report in *. destruct n as [| | | | | | |state| | | | |]; cbn [OnNotification is_stop] in *; try done.
  by destruct state.
Qed.

Lemma OnNotification_idle (n : Notification C) d b :
  waiting_on_stop_packet_ b = false → default b (snd <$> OnNotification n d b) = b.
Proof.
  intros Hw. assert (default b (snd <$> OnStop d b) = b) as Hstop.
  { unfold OnStop, mbind, M_bind, get. cbn. by rewrite Hw. }
  destruct n as [| | | | | | |state| | | | |]; cbn [OnNotification]; try done. by destruct (decide _).
Qed.

Lemma notified_idle (l : list (Notification C * XBDMDebugger)) b : waiting_on_stop_packet_ b = false → notified l b = b.
Proof.
  revert b. induction l as [|[n d] l IH]; intros b Hw; [done|]. cbn [notified]. rewrite OnNotification_idle by done. auto.
Qed.

(** The first report of notifications. *)
Definition first_report (l : list (Notification C * XBDMDebugger)) : option GDBPacket := head (omap (λ '(n, d), report n d) l).

Lemma notified_waiting (l : list (Notification C * XBDMDebugger)) b t :
  gdb_ b = Some t → IsConnected (conn t) = true → waiting_on_stop_packet_ b = true →
  notified l b
  = match first_report l with
    | Some p => with_gdb (Some (SendPacket p t)) (with_waiting false b)
    | None => b
    end.
Proof.
  intros Ht Hc Hw. unfold first_report. induction l as [|[n d] l IH]; [done|]. cbn [notified omap list_omap].
  rewrite (OnNotification_waiting n d b t) by done.
  destruct (report n d) as [p|]; [|exact IH]. by apply notified_idle.
Qed.

(** C12. A stop is reported once: of all notifications after a resumption, in
    whatever number and order, the first with something to report is answered
    by one stop packet for the thread then active, and no other is until the
    target is resumed again; while none has, the bridge goes on waiting. *)
Theorem stop_reported_once (l : list (Notification C * XBDMDebugger)) (b : GDBBridge) (t : GDBTransport)
  (Ht : gdb_ b = Some t) (Hc : IsConnected (conn t) = true) :
  notified l b
  = if waiting_on_stop_packet_ b then
      match head (omap (λ '(n, d), report n d) l) with
      | Some p => with_gdb (Some (SendPacket p t)) (with_waiting false b)
      | None => b
      end
    else b.
Proof.
  destruct (waiting_on_stop_packet_ b) eqn:Hw; [|by apply notified_idle]. by apply notified_waiting.
Qed.
End Reports.

(** ** Every packet *)

Section Answered.
Context `{!Boost} {C E : Type} `{!Target C E} (pf : platform).
Abbreviation state := (XBDMDebugger * (GDBBridge * E))%type.

(** The arguments of a resumption. *)
Definition resumes (p : GDBPacket) : option bytes :=
  if decide (Command p = Some "v"%byte ∧ data_ p ≠ "vCont?"%bs) then
    if algorithm_starts_with (data_ p) "vCont;"%bs then Some (drop 6 (data_ p)) else None
  else None.

Lemma HandlePacket_resumes p args (s : state) :
  resumes p = Some args → HandlePacket pf p s = (HandleVCont args ;; mret true) s.
Proof.
  unfold resumes. destruct (decide _) as [[Hv Hq]|]; [|done]. destruct (algorithm_starts_with _ _) eqn:Hstarts; [|done].
  intros [= <-]. unfold HandlePacket. rewrite Hv, lift_Some.
  repeat match goal with |- context [decide ("v"%byte = ?c)] => rewrite (decide_False (P := "v"%byte = c)) by done end.
  rewrite (decide_True (P := "v"%byte = "v"%byte)) by done. unfold HandleExtendedVCommand.
  by rewrite decide_False, Hstarts by done.
Qed.

(** How the stop of a resumed target is reported: by the packets [stop] at
    once, when one of the threads is stopped already, or else by one packet,
    at the first of the notifications that has something to report.  [t] is the
    connection after [stop]. *)
Definition reported (stop : list GDBPacket) (t : GDBTransport) (d : XBDMDebugger) (b : GDBBridge) : Prop :=
  (∃ thread, stopped_among (threads d) thread ∧ stop = stop_packets thread
     ∧ ∀ l : list (Notification C * XBDMDebugger), notified l b = b)
  ∨ stop = [] ∧ ∀ l : list (Notification C * XBDMDebugger),
      gdb_ (notified l b) = Some (match first_report l with Some q => SendPacket q t | None => t end).

End Answered.

(** ** On the example console *)

Definition example_bridge : GDBBridge := with_waiting true (with_gdb (Some GdbTransport.new_transport) new_bridge).

Definition served (c : Console) : XBDMDebugger * (GDBBridge * Console) := (stopped_debugger, (example_bridge, c)).


(** A thread that stopped at a breakpoint. *)
Definition stopped_thread : Thread := with_stop true (Some StopReasonUnknown) (new_thread 28).
Definition debugger_at_stop : XBDMDebugger :=
  set_threads (MkTable (Some 28) [0%nat] [stopped_thread]) stopped_debugger.

(** The second of three notifications reports the stop. *)
Lemma stop_reported_once_witness :
  let B := Boost_reference.boost_reference in
  notified (C:=unit)
    [(NotificationBreakpoint 28 4096 ∅, stopped_debugger);
     (NotificationExecutionStateChanged S_STOPPED, debugger_at_stop);
     (NotificationBreakpoint 28 4096 ∅, debugger_at_stop)] example_bridge
  = with_gdb (Some (SendPacket (packet_of "T05thread:1c;"%bs) GdbTransport.new_transport)) (with_waiting false example_bridge).
Proof.
  intros B. rewrite (@stop_reported_once B unit _ example_bridge GdbTransport.new_transport); [|reflexivity|reflexivity].
  vm_compute. reflexivity.
Defined.
