(* ===== verification/BridgeMemory.v ===== *)
(** * Memory through the bridge

    The packets that read and write memory, from their text to the reply: GDB
    sees the program as it is without breakpoints, and reads back what it wrote. *)

From S2P Require Import Prelude CLib Boost Parsing RdcpResponse RdcpMaps RdcpTypes StopReasons RdcpRequest Requests Notifications.
From S2P Require Import GdbPacket TcpConnection GdbTransport GdbRegisters Target.
From S2P Require Import Console DebuggerMemory DebuggerThread DebuggerThreads Debugger DebuggerControl DebuggerInvariant DebuggerStops.
From S2P Require Import DebuggerFrame Bridge BridgeCommands BridgeReplies.

(** ** Numbers in packets *)

Lemma hex_value_print cast v rest :
  0 ≤ v ≤ ULONG_MAX → number_stops 16 (c_str rest) → hex_value cast (fmt_x v ++ rest) = Some (cast v).
Proof.
  intros Hv Hrest. unfold hex_value, MaybeParseHexInt, fmt_x.
  rewrite strtoul_digits; [|done|apply print_base_digits; lia|apply print_base_nonempty|done|rewrite print_base_value by lia; lia].
  rewrite print_base_value by lia. pose proof (print_base_nonempty false 16 v). by destruct (print_base false 16 v).
Qed.

Lemma hex_value_number v : is_u32 v → hex_value u32 (fmt_x v) = Some v.
Proof.
  intros Hv. pose proof (hex_value_print u32 v []) as H. rewrite app_nil_r, u32_id in H by done. apply H; [|done].
  unfold is_u32, ULONG_MAX in *. lia.
Qed.

(** A separator is not a hexadecimal digit. *)
Lemma fmt_x_without c v : is_digit_of 16 c = false → 0 ≤ v → c ∉ fmt_x v.
Proof.
  intros Hc Hv Hin. pose proof (print_base_digits false 16 v ltac:(lia) Hv) as Hd.
  rewrite Forall_forall in Hd. specialize (Hd c Hin). by rewrite Hc in Hd.
Qed.

(** ** The iterators of a packet *)

Lemma between_parts p (front s rest : bytes) i j :
  data_ p = front ++ s ++ rest → i = length front → j = (i + length s)%nat → text_between p i j = Some s.
Proof.
  intros Hp -> ->. unfold text_between. rewrite Hp.
  rewrite (proj2 (Nat.leb_le _ _)), (proj2 (Nat.leb_le _ _)) by (rewrite ?length_app; lia). cbn [andb].
  rewrite drop_app_length. f_equal. replace (length front + length s - length front)%nat with (length s) by lia.
  by rewrite take_app_length.
Qed.

Definition read_text (a n : Z) : bytes := "m"%bs ++ fmt_x a ++ ","%bs ++ fmt_x n.
Definition write_text (command : byte) (a : Z) (n : Z) (data : bytes) : bytes :=
  [command] ++ fmt_x a ++ ","%bs ++ fmt_x n ++ ":"%bs ++ data.

Ltac measure := rewrite ?length_app; change (length ","%bs) with 1%nat; change (length ":"%bs) with 1%nat;
  change (length "m"%bs) with 1%nat; cbn [length]; lia.

(** Where the parts of a write are. *)
Lemma write_parts command a n data :
  command ∉ [","%byte; ":"%byte] → 0 ≤ a → 0 ≤ n →
  let p := packet_of (write_text command a n data) in
  let comma := S (length (fmt_x a)) in
  let colon := (comma + 1 + length (fmt_x n))%nat in
  FindFirst p ","%byte = Some comma ∧ FindFirst p ":"%byte = Some colon
  ∧ text_between p 1 comma = Some (fmt_x a) ∧ text_between p (comma + 1) colon = Some (fmt_x n)
  ∧ text_between p (colon + 1) (length (data_ p)) = Some data.
Proof.
  intros [Hc1 [Hc2 _]%not_elem_of_cons]%not_elem_of_cons Ha Hn p comma colon.
  change (data_ p) with (write_text command a n data). unfold write_text, comma, colon.
  split_and!.
  - change (find_byte ","%byte ((command :: fmt_x a) ++ ","%byte :: fmt_x n ++ ":"%bs ++ data) = Some (S (length (fmt_x a)))).
    rewrite find_byte_first; [done|]. apply not_elem_of_cons. split; [congruence|]. by apply fmt_x_without.
  - assert (data_ p = ((command :: fmt_x a) ++ ","%byte :: fmt_x n) ++ ":"%byte :: data) as Hp.
    { change (data_ p) with (write_text command a n data). unfold write_text. by rewrite <- app_assoc. }
    unfold FindFirst. rewrite Hp, find_byte_first.
    + f_equal. rewrite length_app. cbn. lia.
    + rewrite not_elem_of_app, !not_elem_of_cons. split_and!; [congruence|by apply fmt_x_without|done|by apply fmt_x_without].
  - by apply (between_parts _ [command] (fmt_x a) (","%bs ++ fmt_x n ++ ":"%bs ++ data)).
  - apply (between_parts _ ([command] ++ fmt_x a ++ ","%bs) (fmt_x n) (":"%bs ++ data)); [|by measure..].
    change (data_ p) with (write_text command a n data). unfold write_text. by rewrite <- !app_assoc.
  - apply (between_parts _ ([command] ++ fmt_x a ++ ","%bs ++ fmt_x n ++ ":"%bs) data []); [|by measure..].
    change (data_ p) with (write_text command a n data). unfold write_text. by rewrite app_nil_r, <- !app_assoc.
Qed.

(** The same for a read. *)
Lemma read_parts a n :
  0 ≤ a →
  let p := packet_of (read_text a n) in
  let comma := S (length (fmt_x a)) in
  FindFirst p ","%byte = Some comma ∧ text_between p 1 comma = Some (fmt_x a)
  ∧ text_between p (comma + 1) (length (data_ p)) = Some (fmt_x n).
Proof.
  intros Ha p comma. change (data_ p) with (read_text a n). unfold read_text, comma. split_and!.
  - change (find_byte ","%byte (("m"%byte :: fmt_x a) ++ ","%byte :: fmt_x n) = Some (S (length (fmt_x a)))).
    rewrite find_byte_first; [done|]. apply not_elem_of_cons. split; [done|]. by apply fmt_x_without.
  - by apply (between_parts _ "m"%bs (fmt_x a) (","%bs ++ fmt_x n)).
  - apply (between_parts _ ("m"%bs ++ fmt_x a ++ ","%bs) (fmt_x n) []); [|by measure..].
    change (data_ p) with (read_text a n). unfold read_text. by rewrite app_nil_r, <- !app_assoc.
Qed.

Section Programs.
Context `{!Boost} {C E : Type} `{!Target C E} (pf : platform).
Abbreviation state := (XBDMDebugger * (GDBBridge * E))%type.
Abbreviation P := (M state).

(** What a read comes to. *)
Lemma HandleReadMemory_text a n (s : state) :
  is_u32 a → is_u32 n →
  HandleReadMemory (packet_of (read_text a n)) s
  = (memory ← on_memory (GetMemory a n true);
     match memory with Some memory => reply (hex memory) | None => send_error EFAULT end) s.
Proof.
  intros Ha Hn. destruct (read_parts a n ltac:(apply Ha)) as (Hcomma & H1 & H2).
  unfold HandleReadMemory. rewrite Hcomma. unfold between. change (position _ (Some ?x)) with x. cbv zeta.
  rewrite H1, lift_Some, H2, lift_Some. unfold with_hex. by rewrite !hex_value_number.
Qed.

(** What the start of a write comes to. *)
Lemma with_write_text command a n data k (s : state) :
  command ∉ [","%byte; ":"%byte] → is_u32 a → is_u32 n →
  let p := packet_of (write_text command a n data) in
  ∃ place, with_write p k s = k a n place s ∧ text_between p place (length (data_ p)) = Some data.
Proof.
  intros Hc Ha Hn p. destruct (write_parts command a n data Hc ltac:(apply Ha) ltac:(apply Hn)) as (Hcomma & Hcolon & H1 & H2 & H3).
  exists (S (length (fmt_x a)) + 1 + length (fmt_x n) + 1)%nat. split; [|exact H3].
  unfold with_write, p. rewrite Hcomma, Hcolon. unfold between. change (position _ (Some ?x)) with x. cbv zeta.
  rewrite H2, lift_Some. unfold with_hex. rewrite hex_value_number by done. by rewrite H1, lift_Some, hex_value_number.
Qed.

Lemma HandleWriteMemoryBinary_text a data (s : state) :
  is_u32 a → is_u32 (Z.of_nat (length data)) →
  HandleWriteMemoryBinary (packet_of (write_text "X"%byte a (Z.of_nat (length data)) data)) s = write_memory a data s.
Proof.
  intros Ha Hn. unfold HandleWriteMemoryBinary.
  destruct (with_write_text "X"%byte a (Z.of_nat (length data)) data
    (λ address length_ place,
      data' ← between (packet_of (write_text "X"%byte a (Z.of_nat (length data)) data)) place
        (length (data_ (packet_of (write_text "X"%byte a (Z.of_nat (length data)) data))));
      if negb (length_ =? Z.of_nat (length data')) then send_error EBADMSG else write_memory address data') s)
    as (place & Hrun & Hdata); [by rewrite !not_elem_of_cons; split_and!; try done; apply not_elem_of_nil|done..|].
  rewrite Hrun. unfold between. rewrite Hdata, lift_Some, Z.eqb_refl. done.
Qed.

(** [M] with digits: they are written through the iterator of an empty vector,
    whichever they are. *)
Lemma HandleWriteMemory_undefined a n digits (s : state) :
  is_u32 a → is_u32 n → digits ≠ [] → HandlePacket pf (packet_of (write_text "M"%byte a n digits)) s = None.
Proof.
  intros Ha Hn Hd. enough (HandleWriteMemory (packet_of (write_text "M"%byte a n digits)) s = None) as Hnone.
  { change (HandlePacket pf (packet_of (write_text "M"%byte a n digits)))
      with (HandleWriteMemory (packet_of (write_text "M"%byte a n digits)) ≫= λ _, mret (M:=P) true).
    unfold mbind, M_bind. by rewrite Hnone. }
  unfold HandleWriteMemory.
  match goal with |- with_write _ ?k s = _ =>
    destruct (with_write_text "M"%byte a n digits k s) as (place & -> & Hdata);
      [by rewrite !not_elem_of_cons; split_and!; try done; apply not_elem_of_nil|done..|] end.
  unfold between. rewrite Hdata, lift_Some. by destruct digits.
Qed.
End Programs.

(** ** Memory seen by GDB *)

Section Served.
Context `{!Boost} {C E : Type} `{!Target C E, HB : !BreakpointTarget E} (pf : platform).
Abbreviation state := (XBDMDebugger * (GDBBridge * E))%type.

(** The console beside a bridge that stays as it is. *)
Definition beside (b : GDBBridge) : BreakpointTarget (GDBBridge * E).
Proof.
  refine {| armed x := armed x.2; memory x := memory x.2; willing x := x.1 = b ∧ willing x.2 |}.
  - intros a clear [b' e] Ha. pose proof (break_answer a clear e Ha) as Hans. cbn [answer bridge_target].
    destruct (answer _ None e) as [r e']. cbn. naive_solver.
  - intros a n [b' e] Ha Hn Hend. pose proof (read_answer a n e Ha Hn Hend) as Hans. cbn [answer bridge_target].
    destruct (answer _ None e) as [r e']. cbn. naive_solver.
  - intros a data request [b' e] Ha Hend Hfree Hreq [Hb Hw].
    pose proof (write_answer a data request e Ha Hend Hfree Hreq Hw) as Hans. cbn [answer bridge_target].
    destruct (answer _ None e) as [r e']. cbn. naive_solver.
  - intros r payload [b' e] Hr. pose proof (other_answer r payload e Hr) as Hans. cbn [answer bridge_target].
    by destruct (answer r payload e) as [a e'].
Defined.

(** The debugger with a connected bridge at a console that does as it is told:
    every breakpoint of the console is the debugger's. *)
Record attached (t : GDBTransport) (s : state) : Prop := {
  attached_serves : serves t s;
  attached_willing : willing s.2.2;
  attached_known : set_Forall is_u32 (breakpoints_ (memory_ s.1));
  attached_armed : armed s.2.2 ⊆ breakpoints_ (memory_ s.1)
}.

Lemma reply_run data d b (e : E) t :
  gdb_ b = Some t →
  reply data (d, (b, e)) = Some (tt, (d, (with_gdb (Some (SendPacket (packet_of data) t)) b, e))).
Proof. intros Hb. unfold reply, on_bridge, on_target, on_right, on_left, gdb_Send. by rewrite Hb. Qed.

Lemma send_ok_run d b (e : E) t :
  gdb_ b = Some t → IsConnected (conn t) = true →
  send_ok (d, (b, e)) = Some (tt, (d, (with_gdb (Some (SendPacket (packet_of "OK"%bs) t)) b, e))).
Proof.
  intros Hb Hc. assert (SendOK b = Some (tt, with_gdb (Some (SendPacket (packet_of "OK"%bs) t)) b)) as Hok.
  { unfold SendOK, send_to_client. erewrite bind_run by reflexivity. unfold HasGDBClient. rewrite Hb, Hc. unfold gdb_Send. by rewrite Hb. }
  unfold send_ok, on_bridge, on_target, on_right, on_left. by rewrite Hok.
Qed.

Lemma read_run t d b (e : E) a n :
  attached t (d, (b, e)) → 0 ≤ a → 0 < n → a + n < 2 ^ 32 → accessible d a n false →
  ∃ e',
    HandlePacket pf (packet_of (read_text a n)) (d, (b, e))
    = Some (true, (d, (with_gdb (Some (SendPacket (packet_of (hex (map (memory e) (seqZ a n)))) t)) b, e')))
    ∧ willing e' ∧ armed e' = armed e ∪ hidden a n (memory_ d) ∧ (∀ x, memory e' x = memory e x).
Proof.
  intros [[Hb Hcon] Hw Hk Harm] ? ? ? Hacc. cbn [fst snd] in *.
  destruct (@GetMemory_run _ _ _ _ (beside b) (memory_ d) (b, e) a n true) as ([b' e'] & Hget & Harm' & [Hb' Hw'] & Hmem');
    [done..| |]; [by intros _; apply accessible_validate; try lia|]. cbn in Hb', Hw', Harm', Hmem'. subst b'.
  exists e'. split; [|done].
  change (HandlePacket pf (packet_of (read_text a n)))
    with (HandleReadMemory (packet_of (read_text a n)) ≫= λ _, mret (M:=M state) true).
  erewrite bind_run with (a := tt); [reflexivity|]. rewrite HandleReadMemory_text by (unfold is_u32; lia).
  erewrite bind_run by exact (on_memory_run _ _ _ _ _ Hget). by apply reply_run.
Qed.

(** C13. GDB sees the program without the breakpoints: the packet that reads memory the
    program may read is answered by the hexadecimal digits of the program's own
    bytes, whichever instructions of it are replaced by breakpoints, and the
    breakpoints are in place again afterwards. *)
Theorem read_hides_breakpoints t d b (e : E) a n :
  attached t (d, (b, e)) → 0 ≤ a → 0 < n → a + n < 2 ^ 32 → accessible d a n false →
  ∃ e',
    HandlePacket pf (packet_of (read_text a n)) (d, (b, e))
    = Some (true, (d, (with_gdb (Some (SendPacket (packet_of (hex (map (memory e) (seqZ a n)))) t)) b, e')))
    ∧ armed e' = armed e ∪ hidden a n (memory_ d) ∧ (∀ x, memory e' x = memory e x).
Proof. intros Hat ? ? ? Hacc. destruct (read_run t d b e a n) as (e' & ? & _ & ? & ?); eauto. Qed.

(** C14. What GDB writes it reads back: the packet that writes up to 120 bytes of
    binary data, whichever bytes they are, where no breakpoint is, is answered by
    [OK], and reading the range then answers with the same bytes. *)
Theorem write_read_back t d b (e : E) a data :
  attached t (d, (b, e)) → 0 ≤ a → 0 < Z.of_nat (length data) ≤ kMaximumDataSize → a + Z.of_nat (length data) < 2 ^ 32 →
  (∀ x, x ∈ armed e → ¬ a ≤ x < a + Z.of_nat (length data)) →
  accessible d a (Z.of_nat (length data)) true → accessible d a (Z.of_nat (length data)) false →
  let t1 := SendPacket (packet_of "OK"%bs) t in
  let t2 := SendPacket (packet_of (hex data)) t1 in
  ∃ e1 e2,
    HandlePacket pf (packet_of (write_text "X"%byte a (Z.of_nat (length data)) data)) (d, (b, e))
    = Some (true, (d, (with_gdb (Some t1) b, e1)))
    ∧ HandlePacket pf (packet_of (read_text a (Z.of_nat (length data)))) (d, (with_gdb (Some t1) b, e1))
      = Some (true, (d, (with_gdb (Some t2) b, e2))).
Proof.
  intros [[Hb Hcon] Hw Hk Harm] ? ? ? Hfree Hwr Hrd t1 t2. cbn [fst snd] in *.
  destruct (@SetMemory_run _ _ _ _ (beside b) (memory_ d) (b, e) a data) as ([b' e1] & Hset & [Hb' Hw'] & Harm' & Hmem');
    [done..|lia|by apply accessible_validate; try lia|]. cbn in Hb', Hw', Harm', Hmem'. subst b'.
  destruct (read_run t1 d (with_gdb (Some t1) b) e1 a (Z.of_nat (length data))) as (e2 & Hread & _);
    [by split; cbn; rewrite ?Harm'|done|lia|done|done|].
  exists e1, e2. split; [|by rewrite Hread; erewrite written_bytes by exact Hmem'].
  change (HandlePacket pf (packet_of (write_text "X"%byte a (Z.of_nat (length data)) data)))
    with (HandleWriteMemoryBinary (packet_of (write_text "X"%byte a (Z.of_nat (length data)) data)) ≫= λ _, mret (M:=M state) true).
  assert (kMaximumDataSize < 2 ^ 32) by (by vm_compute).
  erewrite bind_run with (a := tt); [reflexivity|]. rewrite HandleWriteMemoryBinary_text by (unfold is_u32; lia).
  unfold write_memory. erewrite bind_run by exact (on_memory_run _ _ _ _ _ Hset).
  by rewrite (send_ok_run _ _ _ t).
Qed.
End Served.

(** ** On the example console *)

(** The breakpoint at 4096 is not seen, and is there again. *)
Lemma read_hides_breakpoints_witness :
  let B := Boost_reference.boost_reference in
  let t := GdbTransport.new_transport in
  let d := stopped_debugger in
  let e := stopped_console [ok] in
  ∃ e',
    HandlePacket HAVE_BE64TOH (packet_of (read_text 4096 2)) (d, (example_bridge, e))
    = Some (true, (d, (with_gdb (Some (SendPacket (packet_of (hex (map (cell e) (seqZ 4096 2)))) t)) example_bridge, e')))
    ∧ traps e' = traps e ∪ hidden 4096 2 (memory_ d) ∧ (∀ x, cell e' x = cell e x).
Proof.
  intros B t d e.
  apply (@read_hides_breakpoints B unit Console console_target
    (@console_breakpoints _ Boost_reference.boost_reference_laws) HAVE_BE64TOH); [|lia..|by left].
  split; [split; reflexivity|reflexivity|by_evaluation|by_evaluation].
Defined.

Lemma write_read_back_witness :
  let B := Boost_reference.boost_reference in
  let t1 := SendPacket (packet_of "OK"%bs) GdbTransport.new_transport in
  let t2 := SendPacket (packet_of (hex "a,b:"%bs)) t1 in
  let d := stopped_debugger in
  ∃ e1 e2,
    HandlePacket HAVE_BE64TOH (packet_of (write_text "X"%byte 8192 4 "a,b:"%bs)) (d, (example_bridge, stopped_console [ok]))
    = Some (true, (d, (with_gdb (Some t1) example_bridge, e1)))
    ∧ HandlePacket HAVE_BE64TOH (packet_of (read_text 8192 4)) (d, (with_gdb (Some t1) example_bridge, e1))
      = Some (true, (d, (with_gdb (Some t2) example_bridge, e2))).
Proof.
  intros B t1 t2 d.
  refine (@write_read_back B unit Console console_target
    (@console_breakpoints _ Boost_reference.boost_reference_laws) HAVE_BE64TOH GdbTransport.new_transport
    d example_bridge (stopped_console [ok]) 8192 "a,b:"%bs _ _ _ _ _ _ _); [|lia|by_evaluation|by_evaluation| |by left|by left].
  - split; [split; reflexivity|reflexivity|by_evaluation|by_evaluation].
  - by_evaluation.
Defined.
