(* ===== verification/BridgeQueries.v ===== *)
(** * What GDB asks the bridge

    The queries that take several packets, from the side of GDB: it reads the
    description of the target in chunks and the identifiers of the threads in
    parts, and puts together what the bridge meant. *)

From S2P Require Import Prelude CLib Boost Parsing RdcpResponse RdcpMaps RdcpTypes StopReasons RdcpRequest Requests Notifications.
From S2P Require Import GdbPacket TcpConnection GdbTransport GdbRegisters Target.
From S2P Require Import Console DebuggerMemory DebuggerThread DebuggerThreads Debugger DebuggerControl DebuggerInvariant DebuggerStops.
From S2P Require Import DebuggerFrame Bridge BridgeCommands BridgeReplies BridgeMemory.

(** ** The description of the target *)

(** What a client reads from the offset on, in chunks of [n] bytes, until the
    chunk that says it is the last. *)
Fixpoint read_chunks (fuel : nat) (offset n : Z) : option bytes :=
  match fuel with
  | O => None
  | S fuel =>
    match target_chunk offset n with
    | mark :: text =>
      if decide (mark = "m"%byte) then app text <$> read_chunks fuel (offset + Z.of_nat (length text)) n
      else Some text
    | [] => None
    end
  end.

Lemma read_chunks_rest n : 0 < n → n + Z.of_nat (length kTargetXML) < 2 ^ 32 →
  ∀ fuel offset, 0 ≤ offset ≤ Z.of_nat (length kTargetXML) →
  (Z.to_nat (Z.of_nat (length kTargetXML) - offset) < fuel)%nat →
  read_chunks fuel offset n = Some (drop (Z.to_nat offset) kTargetXML).
Proof.
  intros Hn Hmax fuel. induction fuel as [|fuel IH]; intros offset Hoff Hfuel; [lia|]. cbn [read_chunks].
  unfold target_chunk. rewrite u32_id by (unfold is_u32; lia). cbv zeta.
  destruct (Z.leb_spec (Z.of_nat (length kTargetXML)) offset) as [Hend|Hend].
  { change ("l"%bs) with ["l"%byte]. cbv iota. rewrite decide_False by done. rewrite drop_ge; [done|lia]. }
  destruct (Z.leb_spec (Z.of_nat (length kTargetXML)) (offset + n)) as [Hlast|Hmore]; cbv iota beta.
  - change ("l"%bs ++ ?t) with ("l"%byte :: t). cbv iota. rewrite decide_False by done.
    f_equal. apply take_ge. rewrite length_drop. lia.
  - change ("m"%bs ++ ?t) with ("m"%byte :: t). cbv iota. rewrite decide_True by done.
    rewrite length_take, length_drop. rewrite IH by lia. cbn [fmap option_fmap option_map]. f_equal.
    rewrite <- (take_drop (Z.to_nat n) (drop (Z.to_nat offset) kTargetXML)) at 2. f_equal.
    rewrite drop_drop. f_equal. lia.
Qed.

(** [qXfer:features:read:target.xml:offset,length] *)
Definition features_prefix : bytes := "qXfer:features:read:target.xml:"%bs.
Definition features_text (offset n : Z) : bytes := features_prefix ++ fmt_x offset ++ ","%bs ++ fmt_x n.

Section Queries.
Context `{HB : !BoostLaws B} {C E : Type} `{!Target C E} (pf : platform).
Abbreviation state := (XBDMDebugger * (GDBBridge * E))%type.
Abbreviation P := (M state).

Lemma algorithm_starts_with_ne c p x s : x ≠ c → algorithm_starts_with (x :: s) (c :: p) = false.
Proof.
  intros Hne. apply not_true_is_false. rewrite algorithm_starts_with_spec. intros [rest [=]]. congruence.
Qed.

Lemma algorithm_starts_with_app p s : algorithm_starts_with (p ++ s) p = true.
Proof. apply algorithm_starts_with_spec. eauto. Qed.

Lemma HandleFeaturesRead_text offset n (s : state) :
  is_u32 offset → is_u32 n →
  HandleFeaturesRead (packet_of (features_text offset n)) s = reply (target_chunk offset n) s.
Proof.
  intros Ho Hn. unfold HandleFeaturesRead. change (data_ (packet_of ?d)) with d. cbv zeta.
  assert (find_sub "read:"%bs (features_text offset n) = Some 15%nat) as -> by (apply find_sub_extend; reflexivity).
  cbn [found]. unfold features_text.
  assert (∀ (k : nat) rest, (k ≤ length features_prefix)%nat → drop k (features_prefix ++ rest) = drop k features_prefix ++ rest) as Hdrop.
  { intros. by apply drop_app_le. }
  unfold find_from at 1. rewrite Hdrop by (vm_compute; lia).
  rewrite (find_byte_extend _ _ _ 10%nat) by reflexivity. cbn [fmap option_fmap option_map found].
  unfold found.
  rewrite (bool_decide_eq_true_2 (take _ _ = _)) by (apply (take_app_length "target.xml"%bs); reflexivity).
  cbn [negb]. change (15 + 5 + 10 + 1)%nat with (length features_prefix).
  assert (find_from ","%byte (length features_prefix) (features_prefix ++ fmt_x offset ++ ","%bs ++ fmt_x n)
    = Some (length features_prefix + length (fmt_x offset))%nat) as ->.
  { unfold find_from. rewrite drop_app_length. change (","%bs ++ fmt_x n) with (","%byte :: fmt_x n).
    rewrite find_byte_first; [done|]. apply fmt_x_without; [done|apply Ho]. }
  rewrite drop_app_length. replace (length features_prefix + length (fmt_x offset) - length features_prefix)%nat
    with (length (fmt_x offset)) by lia. rewrite take_app_length.
  assert (drop (length features_prefix + length (fmt_x offset) + 1) (features_prefix ++ fmt_x offset ++ ","%bs ++ fmt_x n) = fmt_x n) as ->.
  { rewrite !app_assoc. apply drop_app_length'. by measure. }
  unfold with_hex. by rewrite !hex_value_number.
Qed.

(** The queries that start with no prefix that is looked for. *)
Lemma HandlePacket_query (text : bytes) (s : state) (m : P unit) :
  HandleReadQuery (packet_of ("q"%byte :: text)) s = m s →
  HandlePacket pf (packet_of ("q"%byte :: text)) s = (m ;; mret true) s.
Proof.
  intros Hm. change (HandlePacket pf (packet_of ("q"%byte :: text)) s)
    with ((HandleReadQuery (packet_of ("q"%byte :: text)) ;; mret (M:=P) true) s).
  unfold mbind, M_bind. by rewrite Hm.
Qed.

Lemma features_query offset n (s : state) :
  is_u32 offset → is_u32 n →
  HandlePacket pf (packet_of (features_text offset n)) s = (reply (target_chunk offset n) ;; mret true) s.
Proof.
  intros Ho Hn. apply (HandlePacket_query (drop 1 features_prefix ++ fmt_x offset ++ ","%bs ++ fmt_x n)).
  rewrite <- HandleFeaturesRead_text by done. unfold HandleReadQuery. change (drop 1 (data_ _)) with
    ("X"%byte :: "fer:features:read:"%bs ++ "target.xml:"%bs ++ fmt_x offset ++ ","%bs ++ fmt_x n).
  change "Attached"%bs with ("A"%byte :: "ttached"%bs). change "Supported"%bs with ("S"%byte :: "upported"%bs).
  change "ThreadExtraInfo"%bs with ("T"%byte :: "hreadExtraInfo"%bs).
  rewrite !algorithm_starts_with_ne by done. cbv iota. rewrite !decide_False by done.
  change ("X"%byte :: "fer:features:read:"%bs ++ ?t) with ("Xfer:features:read:"%bs ++ t).
  rewrite algorithm_starts_with_app. done.
Qed.

Lemma serves_reply data t (s : state) :
  serves t s → ∃ s', (reply data ;; mret true) s = Some (true, s') ∧ s'.1 = s.1 ∧ s'.2.2 = s.2.2
    ∧ s'.2.1 = with_gdb (Some (SendPacket (packet_of data) t)) s.2.1 ∧ serves (SendPacket (packet_of data) t) s'.
Proof.
  destruct s as [d [b e]]. intros [Ht Hc]. eexists. split; [by rewrite (bind_run _ _ _ _ _ (reply_run data d b e t Ht))|].
  split_and!; [done..|]. by split.
Qed.

(** C15. The description of the registers reaches GDB whole: each query for a chunk of
    it is answered by that chunk, and the chunks of any size, read one after the
    other until the one marked as the last, are together the description. *)
Theorem description_served offset n t (s : state) :
  serves t s → is_u32 offset → 0 < n → n + Z.of_nat (length kTargetXML) < 2 ^ 32 →
  (∃ s', HandlePacket pf (packet_of (features_text offset n)) s = Some (true, s')
         ∧ serves (SendPacket (packet_of (target_chunk offset n)) t) s')
  ∧ read_chunks (S (length kTargetXML)) 0 n = Some kTargetXML.
Proof.
  intros Hs Ho Hn Hmax. split.
  - rewrite features_query by (done || unfold is_u32; lia).
    destruct (serves_reply (target_chunk offset n) t s Hs) as (s' & ? & _ & _ & _ & ?). eauto.
  - rewrite read_chunks_rest by lia. done.
Qed.

(** *** Threads *)

(** The identifiers in a part of the list of threads. *)
Definition thread_list (text : bytes) : option (list Z) :=
  match text with
  | mark :: ids => if decide (mark = "m"%byte) then mapM (hex_value u32) (split_any_of ","%bs ids) else None
  | [] => None
  end.

Definition list_text (first : Z) (others : list Z) : bytes :=
  "m"%bs ++ fmt_x first ++ concat (map (λ i, ","%bs ++ fmt_x i) others).

Lemma thread_list_text first others :
  Forall is_u32 (first :: others) → thread_list (list_text first others) = Some (first :: others).
Proof.
  intros Hall. unfold thread_list, list_text. change ("m"%bs ++ ?t) with ("m"%byte :: t). cbv iota. rewrite decide_True by done.
  revert first Hall. induction others as [|next others IH]; intros first [Hf Ho]%Forall_cons; cbn [map concat].
  - rewrite app_nil_r, split_any_of_none.
    + cbn [mapM]. by rewrite hex_value_number.
    + apply Forall_forall. intros c Hc. intros ->%list_elem_of_singleton. revert Hc. apply fmt_x_without; [done|apply Hf].
  - change (","%bs ++ fmt_x next) with (","%byte :: fmt_x next). cbn [app]. rewrite split_any_of_some.
    + cbn [mapM]. rewrite hex_value_number by done. by rewrite IH.
    + apply Forall_forall. intros c Hc. intros ->%list_elem_of_singleton. revert Hc. apply fmt_x_without; [done|apply Hf].
    + apply list_elem_of_here.
Qed.

Lemma info_text (front : bytes) i : length front = 0%nat ∨ length front = 1%nat → snprintf 15 (front ++ fmt_x (u32 i)) = front ++ fmt_x (u32 i).
Proof.
  intros Hf. unfold snprintf. apply take_ge. rewrite length_app.
  pose proof (fmt_x_length (u32 i) 7 (u32_range i)). lia.
Qed.

(** Sending a part of the list leaves the rest of it. *)
Lemma info_run send_all first others (s : state) t :
  serves t s → thread_info_buffer_ s.2.1 = first :: others →
  let text := list_text (u32 first) (if send_all : bool then map u32 others else []) in
  ∃ s', (on_bridge (SendThreadInfoBuffer send_all) ;; mret true) s = Some (true, s') ∧ serves (SendPacket (packet_of text) t) s'
    ∧ thread_info_buffer_ s'.2.1 = (if send_all then [] else others).
Proof.
  destruct s as [d [b e]]. intros [Ht Hc] Hl text. cbn in Ht, Hl.
  assert (SendThreadInfoBuffer send_all b
    = gdb_Send (packet_of text) (with_thread_info (if send_all then [] else others) b)) as Hrun.
  { unfold SendThreadInfoBuffer. erewrite bind_run by reflexivity. rewrite Hl. pose proof (info_text [] first ltac:(auto)) as Hfirst. cbn [app] in Hfirst.
    assert (∀ l, map (λ i, snprintf 15 (","%bs ++ fmt_x (u32 i))) l = map (λ i, ","%bs ++ fmt_x i) (map u32 l)) as Hmap.
    { intros l. rewrite map_map. apply map_ext. intros i. apply info_text. by right. }
    destruct send_all; cbv zeta iota; rewrite Hfirst, ?Hmap; by erewrite bind_run by reflexivity. }
  exists (d, (with_gdb (Some (SendPacket (packet_of text) t)) (with_thread_info (if send_all then [] else others) b), e)).
  split; [|split; [by split|done]].
  erewrite bind_run with (a := tt); [reflexivity|]. unfold on_bridge, on_target, on_right, on_left. rewrite Hrun.
  unfold gdb_Send. cbn [gdb_ with_thread_info]. by rewrite Ht.
Qed.

Lemma info_end_run send_all (s : state) t :
  serves t s → thread_info_buffer_ s.2.1 = [] →
  ∃ s', (on_bridge (SendThreadInfoBuffer send_all) ;; mret true) s = Some (true, s') ∧ serves (SendPacket (packet_of "l"%bs) t) s'.
Proof.
  destruct s as [d [b e]]. intros [Ht Hc] Hl. cbn in Ht, Hl.
  exists (d, (with_gdb (Some (SendPacket (packet_of "l"%bs) t)) b, e)). split; [|by split].
  erewrite bind_run with (a := tt); [reflexivity|]. unfold on_bridge, on_target, on_right, on_left, SendThreadInfoBuffer.
  erewrite bind_run by reflexivity. rewrite Hl. unfold gdb_Send. by rewrite Ht.
Qed.

Lemma threads_query text (m : P unit) (s : state) :
  text ∈ ["fThreadInfo"%bs; "sThreadInfo"%bs] →
  m = (if decide (text = "fThreadInfo"%bs) then HandleThreadInfoStart else HandleThreadInfoContinue) →
  HandlePacket pf (packet_of ("q"%byte :: text)) s = (m ;; mret true) s.
Proof.
  intros Htext ->. apply HandlePacket_query. unfold HandleReadQuery. change (drop 1 (data_ (packet_of ("q"%byte :: text)))) with text.
  rewrite !elem_of_cons, elem_of_nil in Htext. change "Attached"%bs with ("A"%byte :: "ttached"%bs).
  change "Supported"%bs with ("S"%byte :: "upported"%bs). change "ThreadExtraInfo"%bs with ("T"%byte :: "hreadExtraInfo"%bs).
  destruct Htext as [->|[->|[]]].
  - change "fThreadInfo"%bs with ("f"%byte :: "ThreadInfo"%bs). by rewrite !algorithm_starts_with_ne by done.
  - change "sThreadInfo"%bs with ("s"%byte :: "ThreadInfo"%bs). by rewrite !algorithm_starts_with_ne by done.
Qed.

(** GDB asks for the list of threads and then [n] times for more of it. *)
Fixpoint more_threads (n : nat) : P unit :=
  match n with
  | O => mret tt
  | S n => handled ← HandlePacket pf (packet_of "qsThreadInfo"%bs); more_threads n
  end.
Definition list_threads (n : nat) : P unit :=
  handled ← HandlePacket pf (packet_of "qfThreadInfo"%bs); more_threads n.

(** What is sent, one packet after the other. *)
Definition send_all (texts : list bytes) (t : GDBTransport) : GDBTransport :=
  fold_left (λ t text, SendPacket (packet_of text) t) texts t.

Lemma more_threads_spec (s : state) t :
  serves t s →
  ∃ texts parts s', more_threads (S (length texts)) s = Some (tt, s') ∧ serves (send_all (texts ++ ["l"%bs]) t) s'
    ∧ mapM thread_list texts = Some parts ∧ concat parts = map u32 (thread_info_buffer_ s.2.1).
Proof.
  intros Hs. pose proof (threads_query "sThreadInfo"%bs HandleThreadInfoContinue) as Hq.
  destruct (thread_info_buffer_ s.2.1) as [|first others] eqn:Hl.
  - destruct (info_end_run true s t Hs Hl) as (s' & Hrun & Hs'). exists [], [], s'. cbn [length more_threads].
    erewrite bind_run; [|by rewrite Hq by (done || set_solver)]. done.
  - destruct (info_run true first others s t Hs Hl) as (s1 & Hrun1 & Hs1 & Hl1).
    destruct (info_end_run true s1 _ Hs1 Hl1) as (s2 & Hrun2 & Hs2).
    exists [list_text (u32 first) (map u32 others)], [u32 first :: map u32 others], s2. cbn [length more_threads].
    erewrite bind_run; [|by rewrite Hq by (done || set_solver)].
    erewrite bind_run; [|by rewrite Hq by (done || set_solver)]. split; [done|]. split; [done|].
    split; [|cbn [concat]; by rewrite app_nil_r]. cbn [mapM]. rewrite thread_list_text; [done|].
    apply Forall_forall. intros i Hi. change (u32 first :: map u32 others) with (u32 <$> first :: others) in Hi.
    apply list_elem_of_fmap in Hi as (j & -> & _). apply u32_range.
Qed.

(** The identifiers GDB is told when those of the list [ids] were fetched. *)
Definition announced (active : option Z) (ids : list Z) : list Z :=
  match active, ids with
  | Some a, _ :: _ => u32 a :: filter (λ i, i ≠ a) ids
  | _, _ => ids
  end.

(** The threads the console listed in a reply. *)
Definition listed_threads (response : RDCPResponse) : list Z :=
  map u32 (map ParseInt32 (RDCPMultilineResponse (RdcpResponse.data_ response))).

Lemma u32_listed response (l : list Z) : l ⊆ listed_threads response → map u32 l = l.
Proof.
  intros Hl. rewrite <- (map_id l) at 2. apply map_ext_in. intros i Hi%list_elem_of_In%Hl.
  unfold listed_threads in Hi. apply list_elem_of_fmap in Hi as (j & -> & _). apply u32_id, u32_range.
Qed.

Lemma listed_empty (t : ThreadTable) : table_ok t → thread_ids t = [] → threads_ t = [].
Proof.
  intros [_ Hlt] Hids. destruct (threads_ t) as [|p l] eqn:El; [done|]. apply Forall_cons in Hlt as [Hp _].
  apply lookup_lt_is_Some in Hp as [thread Ht]. unfold thread_ids in Hids. rewrite El in Hids. cbn in Hids. by rewrite Ht in Hids.
Qed.

Lemma fetched_ids response (s s1 : state) :
  (answer Requests.Threads None s.2).1 = Some response → on_threads FetchThreads s = Some (true, s1) →
  map u32 (GetThreadIDs (threads s1.1)) = announced (active_thread_id_ (threads s.1)) (listed_threads response).
Proof.
  intros Hans Hfetch. destruct s as [d x]. unfold on_threads, zoom in Hfetch. cbn [fst snd] in *.
  destruct (FetchThreads (threads d, x)) as [[ok [t' x']]|] eqn:Hrun; [|done]. injection Hfetch as -> <-.
  pose proof (FetchThreads_keeps_active (threads d) x response (t', x') Hans Hrun) as (Hroster & Hok & _).
  cbn [fst] in Hroster, Hok. fold (listed_threads response) in Hroster. unfold roster_of in Hroster.
  injection Hroster as Hids Hactive. cbn [fst]. change (threads (set_threads t' d)) with t'.
  pose proof (listed_empty t' Hok) as Hempty. unfold GetThreadIDs, announced. rewrite Hactive. rewrite Hids in *.
  pose proof (u32_listed response _ (reflexivity _)) as Hu.
  destruct (active_thread_id_ (threads d)) as [a|]; [|by destruct (threads_ t') as [|p l] eqn:El; rewrite ?El in *;
    [rewrite <- Hids; unfold thread_ids; rewrite El|]].
  destruct (listed_threads response) as [|i ids] eqn:Hl; [by rewrite Hempty|]. rewrite <- Hl in *.
  destruct (threads_ t') as [|p l] eqn:El.
  { rewrite <- Hids in Hl. unfold thread_ids in Hl. by rewrite El in Hl. }
  cbn [map]. rewrite List_filter_negb. f_equal. apply (u32_listed response). intros j Hj. by apply list_elem_of_filter in Hj as [_ ?].
Qed.

Lemma announced_permutation active (ids : list Z) :
  map u32 ids = ids → NoDup ids → from_option (λ a, a ∈ ids) True active → announced active ids ≡ₚ ids.
Proof.
  intros Hu Hnd Ha. destruct active as [a|]; [|by destruct ids]. destruct ids as [|i ids]; [done|]. cbn [from_option] in Ha.
  cbn [announced]. set (l := i :: ids) in *. assert (u32 a = a) as ->.
  { rewrite <- Hu in Ha. apply list_elem_of_fmap in Ha as (j & -> & _). apply u32_id, u32_range. }
  apply NoDup_Permutation; [constructor; [|by apply NoDup_filter]|done|].
  - intros [? _]%list_elem_of_filter. done.
  - intros j. rewrite elem_of_cons, list_elem_of_filter. destruct (decide (j = a)) as [->|]; tauto.
Qed.

(** C16. GDB gets the list of all threads: the first query fetches them, and the
    identifiers in the replies to it and to the queries for more, up to the
    packet that ends the list, are those the target listed in its reply, the
    active thread moved to the front.  An active thread the target no longer
    lists is told all the same, before the others. *)
Theorem thread_enumeration t (s s1 : state) (response : RDCPResponse) :
  serves t s → (answer Requests.Threads None s.2).1 = Some response → on_threads FetchThreads s = Some (true, s1) →
  let ids := listed_threads response in
  ∃ texts parts s', list_threads (length texts) s = Some (tt, s') ∧ serves (send_all (texts ++ ["l"%bs]) t) s'
    ∧ mapM thread_list texts = Some parts ∧ concat parts = announced (active_thread_id_ (threads s.1)) ids
    ∧ (NoDup ids → from_option (λ a, a ∈ ids) True (active_thread_id_ (threads s.1)) → concat parts ≡ₚ ids).
Proof.
  intros Hs Hans Hfetch ids. pose proof (fetched_ids response s s1 Hans Hfetch) as Hids. fold ids in Hids.
  pose proof (announced_permutation (active_thread_id_ (threads s.1)) ids (u32_listed response ids (reflexivity _))) as Hperm.
  assert (s1.2.1 = s.2.1) as Hb.
  { pose proof (held_zoom (λ x, x.1 = s.2.1) threads set_threads FetchThreads) as Hheld.
    specialize (Hheld (held_FetchThreads _ (bridge_closed s.2.1)) s eq_refl). unfold wp in Hheld.
    change (zoom threads set_threads FetchThreads s) with (on_threads FetchThreads s) in Hheld. by rewrite Hfetch in Hheld. }
  set (s2 := (s1.1, (with_thread_info (map i32 (GetThreadIDs (threads s1.1))) s1.2.1, s1.2.2)) : state).
  assert (serves t s2) as Hs2 by (unfold serves, s2; cbn; by rewrite Hb).
  assert (HandlePacket pf (packet_of "qfThreadInfo"%bs) s = (on_bridge (SendThreadInfoBuffer false) ;; mret true) s2) as Hstart.
  { rewrite (threads_query "fThreadInfo"%bs HandleThreadInfoStart) by (done || set_solver).
    unfold HandleThreadInfoStart. destruct s1 as [d [b e]].
    unfold mbind at 1 2, M_bind at 1 2. rewrite Hfetch. done. }
  unfold list_threads. destruct (GetThreadIDs (threads s1.1)) as [|first others] eqn:Hget; cbn [map] in Hids.
  - destruct (info_end_run false s2 t Hs2) as (s' & Hrun & Hs'); [done|]. exists [], [], s'.
    rewrite <- Hstart in Hrun. erewrite bind_run by exact Hrun. rewrite <- Hids in *. by split_and!.
  - destruct (info_run false (i32 first) (map i32 others) s2 t Hs2) as (s3 & Hrun & Hs3 & Hl3); [done|].
    rewrite <- Hstart in Hrun. destruct (more_threads_spec s3 _ Hs3) as (texts & parts & s' & Hmore & Hs' & Hparts & Hc).
    exists (list_text (u32 (i32 first)) [] :: texts), ([u32 (i32 first)] :: parts), s'. cbn [length].
    assert (concat ([u32 (i32 first)] :: parts) = announced (active_thread_id_ (threads s.1)) ids) as Hparts_ids.
    { rewrite <- Hids. cbn [concat]. rewrite Hc, Hl3, map_map. cbn. f_equal; [apply u32_i32|]. apply map_ext, u32_i32. }
    split; [by erewrite bind_run by exact Hrun|]. split; [done|]. split; [|by rewrite Hparts_ids].
    cbn [mapM]. rewrite thread_list_text by (repeat constructor; apply u32_range). by rewrite Hparts.
Qed.
End Queries.

(** ** What goes wrong *)

Section Faults.
Context `{!Boost} {C E : Type} `{!Target C E} (pf : platform).
Abbreviation state := (XBDMDebugger * (GDBBridge * E))%type.

Lemma thread_at_run d (x : GDBBridge * E) p thread :
  objects (threads d) !! p = Some thread → on_threads (thread_at p) (d, x) = Some (thread, (d, x)).
Proof. intros Hp. unfold on_threads, zoom, thread_at, mbind, M_bind. cbn. rewrite Hp. cbn. by destruct d. Qed.

(** A default action of [vCont] continues no thread: the threads left over are
    looked up by the identifier of the command, [-1] when it has none. *)
Lemma continue_others_none l processed i (s : state) :
  (∀ p, p ∈ l → is_Some (objects (threads s.1) !! p)) → GetThread (u32 i) (threads s.1) = None →
  continue_others l processed i s = Some (tt, s).
Proof.
  intros Hl Hnone. destruct s as [d x]. cbn in Hl, Hnone. assert (set_threads (threads d) d = d) as Hd by by destruct d.
  induction l as [|p l IH]; [done|]. cbn [continue_others].
  destruct (Hl p (list_elem_of_here p l)) as [thread Hp].
  erewrite bind_run by exact (thread_at_run d x p thread Hp). destruct (bool_decide (id thread ∈ processed)).
  - erewrite bind_run by reflexivity. apply IH. intros q Hq. apply Hl. by right.
  - assert (on_threads (ContinueThread (u32 i) false) (d, x) = Some (false, (d, x))) as Hno.
    { unfold on_threads, zoom, ContinueThread, mbind, M_bind, gets. cbn -[GetThread]. rewrite Hnone. cbn. by rewrite Hd. }
    erewrite bind_run; [|by erewrite bind_run by exact Hno]. apply IH. intros q Hq. apply Hl. by right.
Qed.

(** A thread that is stopped, the reason unknown, cannot be described. *)
Lemma extra_info_fails thread_id p thread (s : state) :
  is_u32 thread_id → GetThread thread_id (threads s.1) = Some p → objects (threads s.1) !! p = Some thread →
  stopped thread = true → last_stop_reason thread = None →
  HandleQueryThreadExtraInfo (packet_of ("qThreadExtraInfo,"%bs ++ fmt_x thread_id)) s = None.
Proof.
  intros Hi Hp Ht Hs Hr. set (p0 := packet_of _). unfold HandleQueryThreadExtraInfo, between.
  assert (FindFirst p0 ","%byte = Some 16%nat) as ->.
  { change (FindFirst p0 ","%byte) with (find_byte ","%byte ("qThreadExtraInfo"%bs ++ ","%byte :: fmt_x thread_id)).
    by rewrite find_byte_first by (by vm_compute; set_solver). }
  change (position p0 (Some 16%nat) + 1)%nat with 17%nat.
  rewrite (between_parts p0 "qThreadExtraInfo,"%bs (fmt_x thread_id) []);
    [|by rewrite app_nil_r|reflexivity|change (data_ p0) with ("qThreadExtraInfo,"%bs ++ fmt_x thread_id); by rewrite length_app].
  rewrite lift_Some. unfold with_hex.
  pose proof (hex_value_print i32 thread_id []) as Hv. rewrite app_nil_r in Hv. rewrite Hv; [|unfold is_u32, ULONG_MAX in *; lia|done].
  erewrite bind_run by reflexivity. destruct s as [d x]. cbn [fst] in *. rewrite u32_i32, u32_id, Hp by done.
  erewrite bind_run by exact (thread_at_run d x p thread Ht). rewrite Hs, Hr. done.
Qed.
End Faults.

(** ** On the example console *)

Lemma description_served_witness :
  let B := Boost_reference.boost_reference in
  (∃ s', HandlePacket HAVE_BE64TOH (packet_of (features_text 16 64)) (served (stopped_console [])) = Some (true, s')
         ∧ serves (SendPacket (packet_of (target_chunk 16 64)) GdbTransport.new_transport) s')
  ∧ read_chunks (S (length kTargetXML)) 0 64 = Some kTargetXML.
Proof.
  apply (@description_served _ Boost_reference.boost_reference_laws unit Console console_target HAVE_BE64TOH).
  - split; vm_compute; reflexivity.
  - by_evaluation.
  - lia.
  - by_evaluation.
Defined.

(** The second of two threads is active; the console refuses their information. *)
Definition threads_state : XBDMDebugger * (GDBBridge * Console) :=
  (set_threads (MkTable (Some 32) [0%nat] [new_thread 32]) stopped_debugger,
   (example_bridge, halted_console ∅ [two_threads; refused; refused; refused])).

Lemma thread_enumeration_witness :
  let B := Boost_reference.boost_reference in
  let t := GdbTransport.new_transport in
  let ids := listed_threads two_threads in
  ids = [28; 32] ∧ announced (Some 32) ids = [32; 28] ∧ announced (Some 36) ids = [36; 28; 32]
  ∧ ∃ texts parts s', list_threads HAVE_BE64TOH (length texts) threads_state = Some (tt, s')
      ∧ serves (send_all (texts ++ ["l"%bs]) t) s'
      ∧ mapM thread_list texts = Some parts ∧ concat parts = announced (Some 32) ids
      ∧ (NoDup ids → 32 ∈ ids → concat parts ≡ₚ ids).
Proof.
  intros B t ids. split; [vm_compute; reflexivity|]. split; [vm_compute; reflexivity|]. split; [vm_compute; reflexivity|].
  apply (@thread_enumeration B Boost_reference.boost_reference_laws unit Console console_target HAVE_BE64TOH t
    threads_state (state_after (on_threads FetchThreads) threads_state) two_threads).
  - split; vm_compute; reflexivity.
  - reflexivity.
  - vm_compute. reflexivity.
Defined.
