(* ===== verification/DxtLibrary.v ===== *)
(** * Libraries for the console (src/dyndxt_loader/dxt_library.h, .cpp)

    A library is a PE file: [Parse] lays its sections out as they are loaded and
    reads the import table, [Relocate] moves it to an address and fills in its
    imports.  The structures of the file format (third_party/nxdk/winapi/winnt.h)
    are records of the members the code uses, read at their offsets; an access
    outside the image or an overflow of a signed integer is [None]. *)

From S2P Require Import Prelude CLib.

(** ** Images *)

(** Members of a structure, and structures in the image. *)
Definition field (n off : nat) (s : bytes) : Z := le_int (take n (drop off s)).

Definition range_of (n off : nat) (img : bytes) : option bytes :=
  if (off + n <=? length img)%nat then Some (take n (drop off img)) else None.
Definition word (off : nat) (img : bytes) : option Z := le_int <$> range_of 2 off img.
Definition dword (off : nat) (img : bytes) : option Z := le_int <$> range_of 4 off img.

(** The C string at an offset. *)
Definition c_string (off : nat) (img : bytes) : option bytes :=
  let rest := drop off img in
  if bool_decide (NUL ∈ rest) then Some (c_str rest) else None.

Definition write_bytes (off : nat) (data img : bytes) : option bytes :=
  if (off + length data <=? length img)%nat then Some (take off img ++ data ++ drop (off + length data) img) else None.
Definition write_dword (off : nat) (v : Z) (img : bytes) : option bytes := write_bytes off (le_bytes 4 v) img.

(** ** Structures of the file format *)

Definition IMAGE_DOS_SIGNATURE : Z := 0x5A4D.
Definition IMAGE_NT_SIGNATURE : Z := 0x00004550.
Definition IMAGE_FILE_MACHINE_I386 : Z := 0x014c.
Definition IMAGE_DLLCHARACTERISTICS_DYNAMIC_BASE : Z := 0x0040.
Definition IMAGE_DIRECTORY_ENTRY_IMPORT : nat := 1.
Definition IMAGE_DIRECTORY_ENTRY_BASERELOC : nat := 5.
Definition IMAGE_DIRECTORY_ENTRY_TLS : nat := 9.

Record IMAGE_DOS_HEADER := MkDosHeader { e_magic : Z; e_lfanew : Z }.
Definition sizeof_IMAGE_DOS_HEADER : nat := 64.
Definition read_dos_header (s : bytes) : IMAGE_DOS_HEADER := MkDosHeader (field 2 0 s) (i32 (field 4 60 s)).

Record IMAGE_DATA_DIRECTORY := MkDirectory { VirtualAddress : Z; Size : Z }.

Record IMAGE_NT_HEADERS32 := MkNtHeaders {
  Signature : Z;
  Machine : Z;
  NumberOfSections : Z;
  SizeOfOptionalHeader : Z;
  AddressOfEntryPoint : Z;
  ImageBase : Z;
  SizeOfImage : Z;
  SizeOfHeaders : Z;
  DllCharacteristics : Z;
  DataDirectory : list IMAGE_DATA_DIRECTORY
}.
Definition sizeof_IMAGE_NT_HEADERS32 : nat := 248.
Definition sizeof_OptionalHeader : Z := 224.

Definition read_directory (s : bytes) (i : nat) : IMAGE_DATA_DIRECTORY :=
  MkDirectory (field 4 (120 + 8 * i) s) (field 4 (124 + 8 * i) s).

Definition read_nt_headers (s : bytes) : IMAGE_NT_HEADERS32 :=
  MkNtHeaders (field 4 0 s) (field 2 4 s) (field 2 6 s) (field 2 20 s) (field 4 40 s) (field 4 52 s) (field 4 80 s)
    (field 4 84 s) (field 2 94 s) (map (read_directory s) (seq 0 16)).

Definition directory_entry (h : IMAGE_NT_HEADERS32) (i : nat) : IMAGE_DATA_DIRECTORY :=
  default (MkDirectory 0 0) (DataDirectory h !! i).

Definition with_base (base : Z) (h : IMAGE_NT_HEADERS32) : IMAGE_NT_HEADERS32 :=
  MkNtHeaders (Signature h) (Machine h) (NumberOfSections h) (SizeOfOptionalHeader h) (AddressOfEntryPoint h) base
    (SizeOfImage h) (SizeOfHeaders h) (DllCharacteristics h) (DataDirectory h).

Record IMAGE_SECTION_HEADER := MkSectionHeader {
  section_address : Z;
  SizeOfRawData : Z;
  PointerToRawData : Z
}.
Definition sizeof_IMAGE_SECTION_HEADER : nat := 40.
Definition read_section_header (s : bytes) : IMAGE_SECTION_HEADER := MkSectionHeader (field 4 12 s) (field 4 16 s) (field 4 20 s).

Definition sizeof_IMAGE_IMPORT_DESCRIPTOR : nat := 20.

(** ** The file *)

(** An input stream over the contents of a file: one that was read beyond its end
    is no longer good.  A file can be positioned beyond its end, a memory buffer
    cannot. *)
Record istream := MkStream { contents : bytes; position : nat; good : bool; past_end : bool }.

Definition read (n : nat) (st : istream) : bytes * istream :=
  if good st then
    let got := take n (drop (position st) (contents st)) in
    (got, MkStream (contents st) (position st + length got)%nat (length got =? n)%nat (past_end st))
  else ([], st).

Definition ignore (n : nat) (st : istream) : istream := snd (read n st).

Definition seekg (p : nat) (st : istream) : istream :=
  if good st then
    let ok := past_end st || (p <=? length (contents st))%nat in
    MkStream (contents st) (if ok then p else position st) ok (past_end st)
  else st.

(** ** The library *)

Record DXTLibraryImport := MkImport { ordinal : Z; import_name : bytes; function_address : Z; real_address : Z }.

(** [imports_], a [std::map<std::string, std::vector<DXTLibraryImport>>], in the
    order of iteration. *)
Definition Imports := list (bytes * list DXTLibraryImport).

Record DXTLibrary := MkLibrary {
  infile_ : istream;
  header_ : IMAGE_NT_HEADERS32;
  section_headers_ : list IMAGE_SECTION_HEADER;
  imports_ : Imports;
  image_ : bytes
}.

Definition no_header : IMAGE_NT_HEADERS32 := MkNtHeaders 0 0 0 0 0 0 0 0 0 (replicate 16 (MkDirectory 0 0)).
Definition new_library (st : istream) : DXTLibrary := MkLibrary st no_header [] [] [].

Definition with_infile (st : istream) (l : DXTLibrary) : DXTLibrary :=
  MkLibrary st (header_ l) (section_headers_ l) (imports_ l) (image_ l).
Definition with_header (h : IMAGE_NT_HEADERS32) (l : DXTLibrary) : DXTLibrary :=
  MkLibrary (infile_ l) h (section_headers_ l) (imports_ l) (image_ l).
Definition with_sections (s : list IMAGE_SECTION_HEADER) (l : DXTLibrary) : DXTLibrary :=
  MkLibrary (infile_ l) (header_ l) s (imports_ l) (image_ l).
Definition with_imports (i : Imports) (l : DXTLibrary) : DXTLibrary :=
  MkLibrary (infile_ l) (header_ l) (section_headers_ l) i (image_ l).
Definition with_image (img : bytes) (l : DXTLibrary) : DXTLibrary :=
  MkLibrary (infile_ l) (header_ l) (section_headers_ l) (imports_ l) img.

(** [imports_[name]] as an action on the vector, which is created empty. *)
Fixpoint at_name (name : bytes) (f : list DXTLibraryImport → list DXTLibraryImport) (m : Imports) : Imports :=
  match m with
  | [] => [(name, f [])]
  | (name', v) :: m' =>
    if decide (name = name') then (name', f v) :: m'
    else if string_ltb name name' then (name, f []) :: m
    else (name', v) :: at_name name f m'
  end.

(** ** Reading the file *)

(** The entries of the section table, up to the first that cannot be read. *)
Fixpoint read_section_table (n : nat) (st : istream) : bool * list IMAGE_SECTION_HEADER * istream :=
  match n with
  | O => (true, [], st)
  | S n =>
    let '(s, st) := read sizeof_IMAGE_SECTION_HEADER st in
    if good st then
      let '(ok, sections, st) := read_section_table n st in (ok, read_section_header s :: sections, st)
    else (false, [], st)
  end.

(** The bytes that a short read leaves out are those of the zeroed member. *)
Definition ParseDLLHeader (l : DXTLibrary) : bool * DXTLibrary :=
  let '(s, st) := read sizeof_IMAGE_DOS_HEADER (infile_ l) in
  let dos_header := read_dos_header s in
  if negb (good st) then (false, with_infile st l)
  else if negb (e_magic dos_header =? IMAGE_DOS_SIGNATURE) then (false, with_infile st l)
  else
    let beyond := Z.of_nat sizeof_IMAGE_DOS_HEADER <? u64 (e_lfanew dos_header) in
    let st := if beyond then ignore (Z.to_nat (u32 (e_lfanew dos_header - Z.of_nat sizeof_IMAGE_DOS_HEADER))) st else st in
    if beyond && negb (good st) then (false, with_infile st l)
    else
      let '(s, st) := read sizeof_IMAGE_NT_HEADERS32 st in
      let h := read_nt_headers s in
      let l := with_header h l in
      if negb (good st) then (false, with_infile st l)
      else if negb (Signature h =? IMAGE_NT_SIGNATURE) then (false, with_infile st l)
      else if negb (Machine h =? IMAGE_FILE_MACHINE_I386) then (false, with_infile st l)
      else if Z.land (DllCharacteristics h) IMAGE_DLLCHARACTERISTICS_DYNAMIC_BASE =? 0 then (false, with_infile st l)
      else
        let more := sizeof_OptionalHeader <? SizeOfOptionalHeader h in
        let st := if more then ignore (Z.to_nat (SizeOfOptionalHeader h - sizeof_OptionalHeader)) st else st in
        if more && negb (good st) then (false, with_infile st l)
        else
          let '(ok, sections, st) := read_section_table (Z.to_nat (NumberOfSections h)) st in
          (ok, with_infile st (with_sections (section_headers_ l ++ sections) l)).

(** [infile_->read(image_.data() + off, n)] *)
Definition read_into (off n : nat) (l : DXTLibrary) : option DXTLibrary :=
  let '(got, st) := read n (infile_ l) in
  image ← write_bytes off got (image_ l);
  Some (with_infile st (with_image image l)).

Definition ProcessSection (header : IMAGE_SECTION_HEADER) (l : DXTLibrary) : option (bool * DXTLibrary) :=
  if SizeOfRawData header =? 0 then Some (true, l)
  else
    let st := seekg (Z.to_nat (PointerToRawData header)) (infile_ l) in
    if negb (good st) then Some (false, with_infile st l)
    else
      l ← read_into (Z.to_nat (section_address header)) (Z.to_nat (SizeOfRawData header)) (with_infile st l);
      Some (true, l).

Fixpoint process_sections (headers : list IMAGE_SECTION_HEADER) (l : DXTLibrary) : option (bool * DXTLibrary) :=
  match headers with
  | [] => Some (true, l)
  | header :: headers' =>
    '(ok, l) ← ProcessSection header l;
    if ok : bool then process_sections headers' l else Some (false, with_image [] l)
  end.

(** ** The import table *)

Definition IMAGE_SNAP_BY_ORDINAL (thunk : Z) : bool := negb (Z.land thunk 0x80000000 =? 0).

Definition read_import (thunk function_address : Z) (img : bytes) : option DXTLibraryImport :=
  if IMAGE_SNAP_BY_ORDINAL thunk then Some (MkImport (Z.land thunk 0xFFFF) [] function_address 0)
  else
    name ← c_string (Z.to_nat thunk + 2) img;
    Some (MkImport 0 name function_address 0).

(** The thunks up to the one that is 0; their addresses wrap. *)
Fixpoint read_thunks (fuel off : nat) (function_address : Z) (img : bytes) : option (list DXTLibraryImport) :=
  match fuel with
  | O => None
  | S fuel =>
    thunk ← dword off img;
    if thunk =? 0 then Some []
    else
      import ← read_import thunk function_address img;
      imports ← read_thunks fuel (off + 4) (u32 (function_address + 4)) img;
      Some (import :: imports)
  end.

(** The members of an [IMAGE_IMPORT_DESCRIPTOR] are read as they are needed. *)
Fixpoint read_descriptors (fuel off : nat) (img : bytes) (imports : Imports) : option (bool * Imports) :=
  match fuel with
  | O => None
  | S fuel =>
    Name ← dword (off + 12) img;
    if Name =? 0 then Some (true, imports)
    else
      ForwarderChain ← dword (off + 8) img;
      if negb (ForwarderChain =? 0) then Some (false, imports)
      else
        FirstThunk ← dword (off + 16) img;
        OriginalFirstThunk ← dword off img;
        let table := if OriginalFirstThunk =? 0 then FirstThunk else OriginalFirstThunk in
        name ← c_string (Z.to_nat Name) img;
        thunks ← read_thunks (S (length img)) (Z.to_nat table) FirstThunk img;
        read_descriptors fuel (off + sizeof_IMAGE_IMPORT_DESCRIPTOR) img (at_name name (λ v, v ++ thunks) imports)
  end.

Definition ExtractImportTable (l : DXTLibrary) : option (bool * DXTLibrary) :=
  let l := with_imports [] l in
  let directory := directory_entry (header_ l) IMAGE_DIRECTORY_ENTRY_IMPORT in
  if Size directory =? 0 then Some (true, l)
  else
    '(ok, imports) ← read_descriptors (S (length (image_ l))) (Z.to_nat (VirtualAddress directory)) (image_ l) [];
    Some (ok, with_imports imports l).

(** [image_.resize(n)] *)
Definition resize (n : nat) (img : bytes) : bytes := take n img ++ replicate (n - length img) NUL.

Definition Parse (l : DXTLibrary) : option (bool * DXTLibrary) :=
  let '(ok, l) := ParseDLLHeader l in
  if negb ok then Some (false, l)
  else
    let l := with_image (resize (Z.to_nat (SizeOfImage (header_ l))) (image_ l)) l in
    let l := with_infile (seekg 0 (infile_ l)) l in
    if negb (good (infile_ l)) then Some (false, l)
    else
      l ← read_into 0 (Z.to_nat (SizeOfHeaders (header_ l))) l;
      '(ok, l) ← process_sections (section_headers_ l) l;
      if negb ok then Some (false, l) else ExtractImportTable l.

(** ** Moving the image *)

Definition IMAGE_REL_BASED_ABSOLUTE : Z := 0.
Definition IMAGE_REL_BASED_HIGHLOW : Z := 3.

(** How a loop over the image ends: with its result, in undefined behaviour, or
    not at all. *)
Inductive ending (A : Type) := Ends (a : A) | Undefined | Endless.
Arguments Ends {A} _.
Arguments Undefined {A}.
Arguments Endless {A}.

#[export] Instance ending_bind : MBind ending := λ A B f m,
  match m with Ends a => f a | Undefined => Undefined | Endless => Endless end.
#[export] Instance ending_ret : MRet ending := λ A a, Ends a.
Definition defined {A} (o : option A) : ending A := match o with Some a => Ends a | None => Undefined end.

(** [image_delta]; [-1 * INT32_MIN] overflows. *)
Definition image_delta (image_base old_base : Z) : option Z :=
  if old_base <? image_base then Some (i32 (image_base - old_base))
  else if i32 (old_base - image_base) =? - 2 ^ 31 then None else Some (- i32 (old_base - image_base)).

(** The entries of one block: those from [entry] to [relocation_end], for the page
    at [dest]. *)
Fixpoint relocate_entries (fuel entry relocation_end dest : nat) (delta : Z) (img : bytes) : ending (bool * bytes) :=
  match fuel with
  | O => Endless
  | S fuel =>
    if (entry <? relocation_end)%nat then
      value ← defined (word entry img);
      let type := Z.shiftr value 12 in
      let rva_offset := Z.land value 0x0FFF in
      if type =? IMAGE_REL_BASED_ABSOLUTE then relocate_entries fuel (entry + 2) relocation_end dest delta img
      else if type =? IMAGE_REL_BASED_HIGHLOW then
        let target := (dest + Z.to_nat rva_offset)%nat in
        old ← defined (dword target img);
        img ← defined (write_dword target (u32 (old + delta)) img);
        relocate_entries fuel (entry + 2) relocation_end dest delta img
      else mret (false, img)
    else mret (true, img)
  end.

(** The blocks from [relocation_start] to the one whose address is 0. *)
Fixpoint relocate_blocks (fuel relocation_start : nat) (delta : Z) (img : bytes) : ending (bool * bytes) :=
  match fuel with
  | O => Endless
  | S fuel =>
    block_address ← defined (dword relocation_start img);
    if 0 <? block_address then
      SizeOfBlock ← defined (dword (relocation_start + 4) img);
      let relocation_end := (relocation_start + Z.to_nat SizeOfBlock)%nat in
      '(ok, img) ← relocate_entries (S (length img)) (relocation_start + 8) relocation_end (Z.to_nat block_address) delta img;
      if ok : bool then relocate_blocks fuel relocation_end delta img else mret (false, img)
    else mret (true, img)
  end.

(** The imports of one library, and of all. *)
Fixpoint patch_imports (imports : list DXTLibraryImport) (img : bytes) : option (bool * bytes) :=
  match imports with
  | [] => Some (true, img)
  | import :: imports' =>
    if real_address import =? 0 then Some (false, img)
    else
      img ← write_dword (Z.to_nat (function_address import)) (real_address import) img;
      patch_imports imports' img
  end.

Definition PatchImports (l : DXTLibrary) : option (bool * DXTLibrary) :=
  '(ok, img) ← patch_imports (concat (imports_ l).*2) (image_ l);
  Some (ok, with_image img l).

Definition Relocate (image_base : Z) (l : DXTLibrary) : ending (bool * DXTLibrary) :=
  if image_base =? ImageBase (header_ l) then mret (true, l)
  else
    delta ← defined (image_delta image_base (ImageBase (header_ l)));
    let directory := directory_entry (header_ l) IMAGE_DIRECTORY_ENTRY_BASERELOC in
    if Size directory =? 0 then mret (false, l)
    else
      '(ok, img) ← relocate_blocks (S (length (image_ l))) (Z.to_nat (VirtualAddress directory)) delta (image_ l);
      if negb ok then mret (false, with_image img l)
      else defined (PatchImports (with_header (with_base image_base (header_ l)) (with_image img l))).

(** ** What the loader asks of it *)

Definition GetImageSize (l : DXTLibrary) : Z := u32 (Z.of_nat (length (image_ l))).
Definition GetImage (l : DXTLibrary) : bytes := image_ l.
Definition GetImports (l : DXTLibrary) : Imports := imports_ l.
Definition GetEntrypoint (l : DXTLibrary) : Z := u32 (ImageBase (header_ l) + AddressOfEntryPoint (header_ l)).
Definition GetImageBase (l : DXTLibrary) : Z := ImageBase (header_ l).

(** The address of the callbacks is used as a pointer of the host: only a null one
    is not followed. *)
Definition GetTLSInitializers (l : DXTLibrary) : option (list Z) :=
  let directory := directory_entry (header_ l) IMAGE_DIRECTORY_ENTRY_TLS in
  if Size directory =? 0 then Some []
  else
    AddressOfCallBacks ← dword (Z.to_nat (VirtualAddress directory) + 12) (image_ l);
    if AddressOfCallBacks =? 0 then Some [] else None.
