(* ===== verification/DxtRelocation.v ===== *)
(** * Moving a library (src/dyndxt_loader/dxt_library.cpp)

    What [Relocate] does to an image: every place its relocation table names is
    moved by the distance, every import gets its address, and the rest stays. *)

From S2P Require Import Prelude CLib.
From S2P Require Import Console DxtLibrary.

(** ** Reading and writing images *)

Lemma range_of_Some n off img s :
  range_of n off img = Some s ↔ (off + n ≤ length img)%nat ∧ s = take n (drop off img).
Proof. unfold range_of. destruct (Nat.leb_spec (off + n) (length img)); naive_solver lia. Qed.

Lemma write_bytes_Some off data img img' :
  write_bytes off data img = Some img' ↔
  (off + length data ≤ length img)%nat ∧ img' = take off img ++ data ++ drop (off + length data) img.
Proof. unfold write_bytes. destruct (Nat.leb_spec (off + length data) (length img)); naive_solver lia. Qed.

Lemma write_bytes_length off data img img' : write_bytes off data img = Some img' → length img' = length img.
Proof. intros [Hl ->]%write_bytes_Some. rewrite !length_app, length_take, length_drop. lia. Qed.

Lemma write_bytes_lookup off data img img' i :
  write_bytes off data img = Some img' →
  img' !! i = if decide (off ≤ i < off + length data)%nat then data !! (i - off)%nat else img !! i.
Proof.
  intros [Hl ->]%write_bytes_Some. destruct (decide _) as [[H1 H2]|Hout].
  - rewrite lookup_app_r, length_take, Nat.min_l by (rewrite ?length_take; lia). by rewrite lookup_app_l by lia.
  - destruct (decide (i < off)%nat).
    + rewrite lookup_app_l by (rewrite length_take; lia). by rewrite lookup_take_lt by lia.
    + rewrite lookup_app_r, length_take, Nat.min_l by (rewrite ?length_take; lia).
      rewrite lookup_app_r by lia. rewrite lookup_drop. f_equal. lia.
Qed.

Lemma dword_lookup off img v :
  dword off img = Some v ↔
  (off + 4 ≤ length img)%nat ∧ 0 ≤ v < 2 ^ 32 ∧ ∀ k, (k < 4)%nat → img !! (off + k)%nat = le_bytes 4 v !! k.
Proof.
  unfold dword. rewrite fmap_Some. setoid_rewrite range_of_Some. split.
  - intros (s & [Hl ->] & ->). assert (length (take 4 (drop off img)) = 4%nat) as Hs by (rewrite length_take, length_drop; lia).
    split; [done|]. split; [pose proof (le_int_range (take 4 (drop off img))) as Hr; by rewrite Hs in Hr|].
    intros k Hk. rewrite le_bytes_int by done. by rewrite lookup_take_lt, lookup_drop by done.
  - intros (Hl & Hv & Hk). exists (le_bytes 4 v). split; [|by rewrite le_int_bytes]. split; [done|].
    apply list_eq. intros k. destruct (decide (k < 4)%nat) as [Hlt|].
    + by rewrite <- Hk, lookup_take_lt, lookup_drop by done.
    + rewrite !lookup_ge_None_2; rewrite ?length_take, ?le_bytes_length; [done|lia..].
Qed.

Lemma dword_Some off img : (off + 4 ≤ length img)%nat → is_Some (dword off img).
Proof. intros Hl. unfold dword, range_of. rewrite (proj2 (Nat.leb_le _ _)) by done. eauto. Qed.

(** Two ranges that do not meet. *)
Definition apart (off n off' n' : nat) : Prop := (off + n ≤ off' ∨ off' + n' ≤ off)%nat.

Lemma range_of_write n off off' data img img' :
  write_bytes off' data img = Some img' → apart off n off' (length data) → range_of n off img' = range_of n off img.
Proof.
  intros Hw Hap. unfold range_of. rewrite (write_bytes_length _ _ _ _ Hw).
  destruct (Nat.leb_spec (off + n) (length img)); [|done]. f_equal. apply list_eq. intros k.
  destruct (decide (k < n)%nat).
  - rewrite !lookup_take_lt, !lookup_drop by done. rewrite (write_bytes_lookup _ _ _ _ _ Hw).
    destruct Hap; by rewrite decide_False by lia.
  - rewrite !lookup_ge_None_2; rewrite ?length_take; [done|lia..].
Qed.

Lemma le_bytes_u32 v : le_bytes 4 (u32 v) = le_bytes 4 v.
Proof.
  unfold u32. rewrite (Z.div_mod v (2 ^ 32)) at 2 by done. rewrite Z.add_comm, (Z.mul_comm (2 ^ 32)).
  symmetry. apply (le_bytes_congr 4).
Qed.

Lemma dword_write_same off v img img' : write_dword off v img = Some img' → dword off img' = Some (u32 v).
Proof.
  intros Hw. pose proof (write_bytes_length _ _ _ _ Hw) as Hl. pose proof (proj1 (write_bytes_Some _ _ _ _) Hw) as [Hin _].
  rewrite le_bytes_length in Hin. apply dword_lookup. split; [lia|]. split; [apply u32_range|].
  intros k Hk. rewrite (write_bytes_lookup _ _ _ _ _ Hw), le_bytes_length, decide_True, le_bytes_u32 by lia. f_equal. lia.
Qed.

Lemma dword_write_apart off off' v img img' :
  write_dword off' v img = Some img' → apart off 4 off' 4 → dword off img' = dword off img.
Proof. intros Hw Hap. unfold dword. by rewrite (range_of_write _ _ _ _ _ _ Hw) by (by rewrite le_bytes_length). Qed.

Lemma word_write_apart off off' v img img' :
  write_dword off' v img = Some img' → apart off 2 off' 4 → word off img' = word off img.
Proof. intros Hw Hap. unfold word. by rewrite (range_of_write _ _ _ _ _ _ Hw) by (by rewrite le_bytes_length). Qed.

Lemma write_dword_Some off v img : (off + 4 ≤ length img)%nat → is_Some (write_dword off v img).
Proof. intros Hl. unfold write_dword, write_bytes. rewrite le_bytes_length, (proj2 (Nat.leb_le _ _)) by done. eauto. Qed.

(** ** Changing several places *)

(** [img'] is [img] but for the dwords at [places], each of which is changed by [f]. *)
Definition changed (f : Z → Z) (places : list nat) (img img' : bytes) : Prop :=
  length img' = length img
  ∧ (∀ t, t ∈ places → ∃ v, dword t img = Some v ∧ dword t img' = Some (u32 (f v)))
  ∧ (∀ i, (∀ t, t ∈ places → ¬ (t ≤ i < t + 4)%nat) → img' !! i = img !! i).

(** Distances added one place after the other. *)
Fixpoint move_all (delta : Z) (places : list nat) (img : bytes) : option bytes :=
  match places with
  | [] => Some img
  | t :: ts => old ← dword t img; img ← write_dword t (u32 (old + delta)) img; move_all delta ts img
  end.

(** No two of the dwords at these places overlap. *)
Fixpoint spread (places : list nat) : Prop :=
  match places with [] => True | t :: ts => Forall (λ t', apart t 4 t' 4) ts ∧ spread ts end.

Lemma move_all_app delta a b img : move_all delta (a ++ b) img = move_all delta a img ≫= move_all delta b.
Proof.
  revert img. induction a as [|t a IH]; intros img; [done|]. cbn [move_all app].
  destruct (dword t img) as [old|]; [|done]. cbn. destruct (write_dword _ _ _); [apply IH|done].
Qed.

Lemma move_all_range delta n off places img img' :
  move_all delta places img = Some img' → Forall (λ t, apart off n t 4) places → range_of n off img' = range_of n off img.
Proof.
  revert img. induction places as [|t ts IH]; intros img Hm Hall; cbn in Hm; [by simplify_eq|].
  destruct (dword t img) as [old|]; [|done]. cbn in Hm. destruct (write_dword _ _ _) as [img1|] eqn:Hw; [|done].
  apply Forall_cons in Hall as [Ht Hts]. rewrite (IH img1 Hm Hts).
  by rewrite (range_of_write _ _ _ _ _ _ Hw) by (by rewrite le_bytes_length).
Qed.

Lemma move_all_length delta places img img' : move_all delta places img = Some img' → length img' = length img.
Proof.
  revert img. induction places as [|t ts IH]; intros img Hm; cbn in Hm; [by simplify_eq|].
  destruct (dword t img) as [old|]; [|done]. cbn in Hm. destruct (write_dword _ _ _) as [img1|] eqn:Hw; [|done].
  rewrite (IH img1 Hm). by apply write_bytes_length in Hw.
Qed.

Lemma apart_sym a n b m : apart a n b m → apart b m a n.
Proof. unfold apart. lia. Qed.

Lemma changed_nil f img : changed f [] img img.
Proof. split; [done|]. split; [set_solver|done]. Qed.

(** One more place, apart from the others. *)
Lemma changed_cons f t ts v img img1 img' :
  dword t img = Some v → write_dword t (f v) img = Some img1 → Forall (λ t', apart t 4 t' 4) ts →
  changed f ts img1 img' → changed f (t :: ts) img img'.
Proof.
  intros Hv Hw Hap (Hlen & Hat & Hrest). pose proof (write_bytes_length _ _ _ _ Hw) as Hl1.
  rewrite Forall_forall in Hap. split; [lia|]. split.
  - intros t' [->|Ht']%elem_of_cons.
    + exists v. split; [done|]. apply dword_write_same in Hw. rewrite <- Hw.
      apply dword_lookup in Hw as (Hin & Hr & Hk). symmetry. rewrite (proj2 (dword_lookup t img1 _)) by done.
      symmetry. apply dword_lookup. split; [lia|]. split; [done|]. intros k Hlt. rewrite Hrest; [by apply Hk|].
      intros t'' Ht''. specialize (Hap t'' Ht''). unfold apart in Hap. lia.
    + destruct (Hat t' Ht') as (v' & Hv' & Hd). exists v'. split; [|done].
      by rewrite <- (dword_write_apart _ _ _ _ _ Hw) by (apply apart_sym; auto).
  - intros i Hi. rewrite Hrest by (intros t' Ht'; apply Hi; by right).
    rewrite (write_bytes_lookup _ _ _ _ _ Hw), le_bytes_length, decide_False; [done|]. apply Hi. by left.
Qed.

Lemma move_all_changed delta places img :
  spread places → Forall (λ t, (t + 4 ≤ length img)%nat) places →
  ∃ img', move_all delta places img = Some img' ∧ changed (λ v, v + delta) places img img'.
Proof.
  revert img. induction places as [|t ts IH]; intros img Hs Hin; [exists img; split; [done|apply changed_nil]|].
  destruct Hs as [Hap Hs]. apply Forall_cons in Hin as [Ht Hts]. cbn [move_all].
  destruct (dword_Some t img Ht) as [v Hv]. rewrite Hv. cbn.
  destruct (write_dword_Some t (u32 (v + delta)) img Ht) as [img1 Hw]. rewrite Hw. cbn.
  destruct (IH img1 Hs) as (img' & Hm & Hc); [by rewrite (write_bytes_length _ _ _ _ Hw)|].
  exists img'. split; [done|]. eapply changed_cons; [exact Hv| |done..].
  unfold write_dword in *. by rewrite le_bytes_u32 in Hw.
Qed.

(** ** The table *)

Inductive relocation := Padding (offset : nat) | HighLow (offset : nat).

Definition relocation_value (r : relocation) : Z :=
  match r with Padding offset => Z.of_nat offset | HighLow offset => 3 * 4096 + Z.of_nat offset end.
Definition relocation_ok (r : relocation) : Prop :=
  match r with Padding offset | HighLow offset => (offset < 4096)%nat end.

(** A block names places on one page. *)
Definition block : Type := nat * list relocation.

Definition entry_bytes (r : relocation) : bytes := le_bytes 2 (relocation_value r).
Definition block_bytes (b : block) : bytes :=
  le_bytes 4 (Z.of_nat b.1) ++ le_bytes 4 (Z.of_nat (8 + 2 * length b.2)) ++ concat (map entry_bytes b.2).
Definition table_bytes (bs : list block) : bytes := concat (map block_bytes bs) ++ le_bytes 4 0.

Definition block_ok (b : block) : Prop :=
  (0 < b.1)%nat ∧ Z.of_nat b.1 < 2 ^ 32 ∧ Z.of_nat (8 + 2 * length b.2) < 2 ^ 32 ∧ Forall relocation_ok b.2.

Definition entry_places (page : nat) (rs : list relocation) : list nat :=
  omap (λ r, match r with HighLow offset => Some (page + offset)%nat | Padding _ => None end) rs.
Definition table_places (bs : list block) : list nat := concat (map (λ b, entry_places b.1 b.2) bs).

Lemma entries_length rs : length (concat (map entry_bytes rs)) = (2 * length rs)%nat.
Proof. induction rs as [|r rs IH]; [done|]. cbn [map concat]. rewrite length_app, IH. unfold entry_bytes. rewrite le_bytes_length. cbn. lia. Qed.

Lemma block_length b : length (block_bytes b) = (8 + 2 * length b.2)%nat.
Proof. unfold block_bytes. rewrite !length_app, !le_bytes_length, entries_length. lia. Qed.

Lemma range_of_app a b off img :
  range_of (length (a ++ b)) off img = Some (a ++ b) →
  range_of (length a) off img = Some a ∧ range_of (length b) (off + length a) img = Some b.
Proof.
  rewrite !range_of_Some, length_app. intros [Hl Heq]. split; (split; [lia|]).
  - apply (f_equal (take (length a))) in Heq. rewrite take_app_length, take_take, Nat.min_l in Heq by lia. done.
  - apply (f_equal (drop (length a))) in Heq. rewrite drop_app_length, skipn_firstn_comm, drop_drop in Heq.
    etransitivity; [exact Heq|]. f_equal. lia.
Qed.

Lemma word_entry off img r :
  relocation_ok r → range_of (length (entry_bytes r)) off img = Some (entry_bytes r) → word off img = Some (relocation_value r).
Proof.
  intros Hr Hrange. unfold word. unfold entry_bytes in *. rewrite le_bytes_length in Hrange. rewrite Hrange. cbn.
  f_equal. apply (le_int_bytes 2). change (256 ^ Z.of_nat 2) with 65536. destruct r; cbn in *; lia.
Qed.

Lemma value_parts (r : relocation) :
  relocation_ok r →
  Z.shiftr (relocation_value r) 12 = (match r with Padding _ => 0 | HighLow _ => 3 end)
  ∧ Z.to_nat (Z.land (relocation_value r) 0x0FFF) = match r with Padding offset | HighLow offset => offset end.
Proof.
  change 0x0FFF with (Z.ones 12). rewrite Z.land_ones, Z.shiftr_div_pow2 by lia. change (2 ^ 12) with 4096.
  destruct r as [o|o]; cbn [relocation_ok relocation_value]; intros Ho.
  - rewrite Z.div_small, Z.mod_small by lia. lia.
  - replace (3 * 4096 + Z.of_nat o) with (Z.of_nat o + 3 * 4096) by lia.
    rewrite Z_div_plus_full, Z_mod_plus_full, Z.div_small, Z.mod_small by lia. lia.
Qed.

(** The places are apart from the table. *)
Definition clear_of (off n : nat) (places : list nat) : Prop := Forall (λ t, apart off n t 4) places.

Lemma clear_of_sub off n off' n' places :
  clear_of off n places → (off ≤ off')%nat → (off' + n' ≤ off + n)%nat → clear_of off' n' places.
Proof. intros Hc ? ?. eapply Forall_impl; [exact Hc|]. unfold apart. intros t. lia. Qed.

Definition entry_place (page : nat) (r : relocation) : list nat :=
  match r with HighLow offset => [(page + offset)%nat] | Padding _ => [] end.

Lemma entry_places_cons page r rs : entry_places page (r :: rs) = entry_place page r ++ entry_places page rs.
Proof. by destruct r. Qed.

Lemma relocate_entries_spec page delta rs : Forall relocation_ok rs →
  ∀ fuel entry img, (length rs < fuel)%nat →
  range_of (length (concat (map entry_bytes rs))) entry img = Some (concat (map entry_bytes rs)) →
  clear_of entry (2 * length rs) (entry_places page rs) →
  relocate_entries fuel entry (entry + 2 * length rs) page delta img
  = (img' ← defined (move_all delta (entry_places page rs) img); mret (true, img')).
Proof.
  induction 1 as [|r rs Hr Hrs IH]; intros fuel entry img Hfuel Hrange Hclear; (destruct fuel as [|fuel]; [cbn in Hfuel; lia|]);
    cbn [relocate_entries length].
  - by rewrite (proj2 (Nat.ltb_ge _ _)) by lia.
  - rewrite (proj2 (Nat.ltb_lt _ _)) by lia. apply range_of_app in Hrange as [Hone Hmore].
    rewrite (word_entry _ _ _ Hr Hone). cbn [defined mbind ending_bind]. destruct (value_parts r Hr) as [-> ->].
    unfold entry_bytes in Hmore. rewrite le_bytes_length in Hmore. cbn [length] in Hfuel, Hclear.
    rewrite entry_places_cons in Hclear |- *. apply Forall_app in Hclear as [Hc1 Hc2].
    assert (clear_of (entry + 2) (2 * length rs) (entry_places page rs)) as Hc by (eapply clear_of_sub; [exact Hc2|lia..]).
    replace (entry + 2 * S (length rs))%nat with (entry + 2 + 2 * length rs)%nat by lia.
    destruct r as [o|o]; cbn [Z.eqb IMAGE_REL_BASED_ABSOLUTE entry_place app]; [by apply IH; try lia|].
    change (3 =? IMAGE_REL_BASED_HIGHLOW) with true. cbn iota. cbn [move_all].
    destruct (dword (page + o) img) as [old|]; [|done]. cbn [defined mbind ending_bind option_bind].
    destruct (write_dword (page + o) _ img) as [img1|] eqn:Hw; [|done]. cbn [defined mbind ending_bind option_bind].
    apply IH; [lia| |done]. rewrite (range_of_write _ _ _ _ _ _ Hw); [done|]. rewrite le_bytes_length, entries_length.
    apply Forall_cons in Hc1 as [Hap _]. unfold apart in *. lia.
Qed.

Lemma table_cons b bs : table_bytes (b :: bs) = block_bytes b ++ table_bytes bs.
Proof. unfold table_bytes. cbn [map concat]. by rewrite <- app_assoc. Qed.

(** The members of a block in the image. *)
Lemma block_fields b off img :
  block_ok b → range_of (length (block_bytes b)) off img = Some (block_bytes b) →
  dword off img = Some (Z.of_nat b.1) ∧ dword (off + 4) img = Some (Z.of_nat (8 + 2 * length b.2))
  ∧ range_of (length (concat (map entry_bytes b.2))) (off + 8) img = Some (concat (map entry_bytes b.2)).
Proof.
  intros (Hp & Hp2 & Hs & _) Hrange. unfold block_bytes in Hrange. apply range_of_app in Hrange as [H1 Hrest].
  apply range_of_app in Hrest as [H2 H3]. rewrite !le_bytes_length in *. unfold dword. rewrite H1, H2. cbn [fmap option_fmap option_map].
  rewrite !le_int_bytes by (change (256 ^ Z.of_nat 4) with (2 ^ 32); lia). split; [done|]. split; [done|].
  by replace (off + 8)%nat with (off + 4 + 4)%nat by lia.
Qed.

Lemma relocate_blocks_spec delta bs : Forall block_ok bs →
  ∀ fuel start img, (length bs < fuel)%nat →
  range_of (length (table_bytes bs)) start img = Some (table_bytes bs) →
  clear_of start (length (table_bytes bs)) (table_places bs) →
  relocate_blocks fuel start delta img = (img' ← defined (move_all delta (table_places bs) img); mret (true, img')).
Proof.
  induction 1 as [|b bs Hb Hbs IH]; intros fuel start img Hfuel Hrange Hclear; (destruct fuel as [|fuel]; [cbn in Hfuel; lia|]);
    cbn [relocate_blocks].
  - unfold dword. change (length (table_bytes [])) with 4%nat in Hrange. rewrite Hrange. done.
  - rewrite table_cons in Hrange, Hclear. pose proof (proj1 (range_of_Some _ _ _ _) Hrange) as [Hin _].
    rewrite length_app, block_length in Hin, Hclear. apply range_of_app in Hrange as [Hone Hmore].
    destruct (block_fields b start img Hb Hone) as (-> & -> & Hentries). pose proof Hb as (Hp & _ & _ & Hok).
    cbn [defined mbind ending_bind]. rewrite (proj2 (Z.ltb_lt _ _)) by lia. rewrite !Nat2Z.id.
    change (table_places (b :: bs)) with (entry_places b.1 b.2 ++ table_places bs) in *.
    apply Forall_app in Hclear as [Hc1 Hc2].
    replace (start + (8 + 2 * length b.2))%nat with (start + 8 + 2 * length b.2)%nat by lia.
    rewrite relocate_entries_spec; [|done|lia|done|eapply clear_of_sub; [exact Hc1|lia..]].
    rewrite move_all_app. destruct (move_all delta (entry_places b.1 b.2) img) as [img1|] eqn:Hm; [|done].
    cbn [defined mbind ending_bind ending_ret mret option_bind].
    rewrite block_length in Hmore. replace (start + (8 + 2 * length b.2))%nat with (start + 8 + 2 * length b.2)%nat in Hmore by lia.
    apply IH; [cbn in Hfuel; lia| |eapply clear_of_sub; [exact Hc2|lia..]].
    rewrite (move_all_range _ _ _ _ _ _ Hm); [done|]. eapply clear_of_sub; [exact Hc1|lia..].
Qed.

(** ** Imports *)

Definition import_places (l : DXTLibrary) : list nat := map (λ i, Z.to_nat (function_address i)) (concat (imports_ l).*2).

Lemma patch_imports_spec is_ : ∀ img,
  Forall (λ i, real_address i ≠ 0 ∧ is_u32 (real_address i)) is_ →
  let places := map (λ i, Z.to_nat (function_address i)) is_ in
  spread places → Forall (λ t, (t + 4 ≤ length img)%nat) places →
  ∃ img', patch_imports is_ img = Some (true, img') ∧ length img' = length img
    ∧ (∀ i, i ∈ is_ → dword (Z.to_nat (function_address i)) img' = Some (real_address i))
    ∧ (∀ k, (∀ t, t ∈ places → ¬ (t ≤ k < t + 4)%nat) → img' !! k = img !! k).
Proof.
  induction is_ as [|i is_ IH]; intros img Hreal places Hs Hin; cbn [patch_imports].
  { exists img. split; [done|]. split; [done|]. split; [set_solver|done]. }
  apply Forall_cons in Hreal as [[Hnz Hu] Hreal]. destruct Hs as [Hap Hs]. apply Forall_cons in Hin as [Ht Hts].
  rewrite (proj2 (Z.eqb_neq _ _)) by done. destruct (write_dword_Some _ (real_address i) img Ht) as [img1 Hw].
  rewrite Hw. cbn [mbind option_bind]. pose proof (write_bytes_length _ _ _ _ Hw) as Hl1.
  destruct (IH img1 Hreal Hs) as (img' & Hp & Hl & Hat & Hrest); [by rewrite Hl1|]. rewrite Forall_forall in Hap.
  exists img'. split; [done|]. split; [lia|]. split.
  - intros j [->|Hj]%elem_of_cons; [|by apply Hat]. apply dword_write_same in Hw. rewrite u32_id in Hw by done.
    apply dword_lookup in Hw as (Hin & Hr & Hk). apply dword_lookup. split; [lia|]. split; [done|].
    intros k Hlt. rewrite Hrest; [by apply Hk|]. intros t' Ht'. specialize (Hap t' Ht'). unfold apart in Hap. lia.
  - intros k Hk. rewrite Hrest by (intros t' Ht'; apply Hk; by right).
    rewrite (write_bytes_lookup _ _ _ _ _ Hw), le_bytes_length, decide_False; [done|]. apply Hk. by left.
Qed.

(** ** Relocation *)

Definition table_offset (l : DXTLibrary) : nat :=
  Z.to_nat (VirtualAddress (directory_entry (header_ l) IMAGE_DIRECTORY_ENTRY_BASERELOC)).

(** A library whose relocation table is that of [bs], with its imports resolved:
    the places to change are in the image and do not overlap each other or the
    table. *)
Record movable (bs : list block) (l : DXTLibrary) : Prop := {
  movable_directory : Size (directory_entry (header_ l) IMAGE_DIRECTORY_ENTRY_BASERELOC) ≠ 0;
  movable_blocks : Forall block_ok bs;
  movable_table : range_of (length (table_bytes bs)) (table_offset l) (image_ l) = Some (table_bytes bs);
  movable_spread : spread (table_places bs ++ import_places l);
  movable_inside : Forall (λ t, (t + 4 ≤ length (image_ l))%nat) (table_places bs ++ import_places l);
  movable_clear : clear_of (table_offset l) (length (table_bytes bs)) (table_places bs ++ import_places l);
  movable_resolved : Forall (λ i, real_address i ≠ 0 ∧ is_u32 (real_address i)) (concat (imports_ l).*2);
  movable_base : is_u32 (ImageBase (header_ l))
}.

(** [l'] is [l] at another address. *)
Record moved (bs : list block) (l : DXTLibrary) (image_base : Z) (l' : DXTLibrary) : Prop := {
  moved_members : l' = with_header (with_base image_base (header_ l)) (with_image (image_ l') l);
  moved_length : length (image_ l') = length (image_ l);
  moved_places t : t ∈ table_places bs →
    ∃ v, dword t (image_ l) = Some v ∧ dword t (image_ l') = Some (u32 (v + (image_base - ImageBase (header_ l))));
  moved_imports i : i ∈ concat (imports_ l).*2 → dword (Z.to_nat (function_address i)) (image_ l') = Some (real_address i);
  moved_rest k : (∀ t, t ∈ table_places bs ++ import_places l → ¬ (t ≤ k < t + 4)%nat) → image_ l' !! k = image_ l !! k
}.

Lemma u32_add_i32 v x : u32 (v + i32 x) = u32 (v + x).
Proof.
  unfold u32, i32. replace (v + ((x + 2 ^ 31) mod 2 ^ 32 - 2 ^ 31)) with (v - 2 ^ 31 + (x + 2 ^ 31) mod 2 ^ 32) by lia.
  rewrite Zplus_mod_idemp_r. f_equal. lia.
Qed.

Lemma u32_sub_i32 v x : u32 (v + - i32 x) = u32 (v - x).
Proof.
  unfold u32, i32. replace (v + - ((x + 2 ^ 31) mod 2 ^ 32 - 2 ^ 31)) with (v + 2 ^ 31 - (x + 2 ^ 31) mod 2 ^ 32) by lia.
  rewrite Zminus_mod_idemp_r. f_equal. lia.
Qed.

Lemma image_delta_Some nb ob :
  is_u32 nb → is_u32 ob → ob - nb ≠ 2 ^ 31 →
  ∃ d, image_delta nb ob = Some d ∧ ∀ v, u32 (v + d) = u32 (v + (nb - ob)).
Proof.
  unfold is_u32, image_delta. intros Hn Ho Hne. destruct (Z.ltb_spec ob nb).
  - eexists. split; [done|]. intros v. apply u32_add_i32.
  - destruct (Z.eqb_spec (i32 (ob - nb)) (- 2 ^ 31)) as [Heq|].
    + exfalso. unfold i32 in Heq. destruct (decide (ob - nb < 2 ^ 31)).
      * rewrite Z.mod_small in Heq by lia. lia.
      * rewrite <- (Z.mod_unique_pos _ _ 1 (ob - nb - 2 ^ 31)) in Heq by lia. lia.
    + eexists. split; [done|]. intros v. rewrite u32_sub_i32. f_equal. lia.
Qed.

Lemma spread_app a b : spread (a ++ b) → spread a ∧ spread b ∧ ∀ t t', t ∈ a → t' ∈ b → apart t 4 t' 4.
Proof.
  induction a as [|x a IH]; cbn [app spread].
  { intros Hs. split; [done|]. split; [done|]. by intros t t' []%elem_of_nil. }
  intros [Hx Hs]. apply Forall_app in Hx as [Hxa Hxb]. destruct (IH Hs) as (Ha & Hb & Hab). split; [by split|]. split; [done|].
  intros t t' [->|Ht]%elem_of_cons Ht'; [|by apply Hab]. rewrite Forall_forall in Hxb. by apply Hxb.
Qed.

(** Bytes that stay make words that stay. *)
Lemma dword_stays t img img' :
  length img' = length img → (∀ k, (t ≤ k < t + 4)%nat → img' !! k = img !! k) → dword t img' = dword t img.
Proof.
  intros Hl Hk. unfold dword, range_of. rewrite Hl. destruct (Nat.leb_spec (t + 4) (length img)); [|done].
  do 2 f_equal. apply list_eq. intros k. destruct (decide (k < 4)%nat).
  - rewrite !lookup_take_lt, !lookup_drop by done. apply Hk. lia.
  - rewrite !lookup_ge_None_2; rewrite ?length_take; [done|lia..].
Qed.

Lemma table_length bs : (length bs < length (table_bytes bs))%nat.
Proof.
  induction bs as [|b bs IH]; [vm_compute; lia|]. rewrite table_cons, length_app, block_length. cbn [length]. lia.
Qed.

Lemma Relocate_run bs l image_base :
  movable bs l → is_u32 image_base → image_base ≠ ImageBase (header_ l) → ImageBase (header_ l) - image_base ≠ 2 ^ 31 →
  ∃ l', Relocate image_base l = Ends (true, l') ∧ moved bs l image_base l'.
Proof.
  intros [Hdir Hbs Htable Hspread Hinside Hclear Hres Hbase] Hu Hne Hover.
  destruct (image_delta_Some image_base (ImageBase (header_ l)) Hu Hbase Hover) as (d & Hd & Hdv).
  destruct (spread_app _ _ Hspread) as (Hsp1 & Hsp2 & Hsp3). apply Forall_app in Hinside as [Hin1 Hin2].
  destruct (move_all_changed d (table_places bs) (image_ l) Hsp1 Hin1) as (img1 & Hm & Hl1 & Hat1 & Hrest1).
  destruct (patch_imports_spec (concat (imports_ l).*2) img1 Hres Hsp2) as (img2 & Hp & Hl2 & Hat2 & Hrest2); [by rewrite Hl1|].
  exists (with_header (with_base image_base (header_ l)) (with_image img2 l)). split.
  - unfold Relocate. rewrite (proj2 (Z.eqb_neq _ _)), Hd, (proj2 (Z.eqb_neq _ _)) by done. cbn [defined mbind ending_bind].
    change (Z.to_nat (VirtualAddress _)) with (table_offset l).
    pose proof (proj1 (range_of_Some _ _ _ _) Htable) as [Hfit _]. pose proof (table_length bs).
    rewrite relocate_blocks_spec with (bs := bs); [|done|lia|done|by apply Forall_app in Hclear as [? _]].
    rewrite Hm. cbn [defined mbind ending_bind ending_ret mret negb]. unfold PatchImports.
    cbn [imports_ image_ with_header with_image]. rewrite Hp. done.
  - assert (∀ k t, t ∈ table_places bs → (t ≤ k < t + 4)%nat → img2 !! k = img1 !! k) as Hkeep.
    { intros k t Ht Hk. apply Hrest2. intros t' Ht'. specialize (Hsp3 t t' Ht Ht'). unfold apart in Hsp3. lia. }
    split; cbn [image_ with_header with_image]; [by destruct l|lia| |exact Hat2|].
    + intros t Ht. destruct (Hat1 t Ht) as (v & Hv & Hv'). exists v. split; [done|].
      rewrite (dword_stays t img1 img2), Hv', Hdv by eauto. done.
    + intros k Hk. rewrite Hrest2, Hrest1; [done|intros t Ht; apply Hk; set_solver..].
Qed.

(** The places of a moved library determine its image. *)
Lemma moved_unique bs l image_base la lb : moved bs l image_base la → moved bs l image_base lb → la = lb.
Proof.
  intros [Ha La Pa Ia Ra] [Hb Lb Pb Ib Rb]. rewrite Ha, Hb. do 2 f_equal. apply list_eq. intros k.
  assert (∀ t v, dword t (image_ la) = Some v → dword t (image_ lb) = Some v → (t ≤ k < t + 4)%nat → image_ la !! k = image_ lb !! k) as Hsame.
  { intros t v (_ & _ & H1)%dword_lookup (_ & _ & H2)%dword_lookup Hk. replace k with (t + (k - t))%nat by lia.
    by rewrite H1, H2 by lia. }
  destruct (decide (Exists (λ t, (t ≤ k < t + 4)%nat) (table_places bs ++ import_places l))) as [Hex|Hno].
  - apply Exists_exists in Hex as (t & [Ht|Ht]%elem_of_app & Hk).
    + destruct (Pa t Ht) as (v & Hv & Hva). destruct (Pb t Ht) as (v' & Hv' & Hvb). simplify_eq. by eapply Hsame.
    + apply list_elem_of_fmap in Ht as (i & -> & Hi). by eapply Hsame; [by apply Ia|by apply Ib|].
  - assert (∀ t, t ∈ table_places bs ++ import_places l → ¬ (t ≤ k < t + 4)%nat) as Hout.
    { intros t Ht Hk. apply Hno, Exists_exists. eauto. }
    by rewrite Ra, Rb.
Qed.

Lemma moved_movable bs l image_base l' : movable bs l → is_u32 image_base → moved bs l image_base l' → movable bs l'.
Proof.
  intros [Hdir Hbs Htable Hspread Hinside Hclear Hres Hbase] Hu [Hm Hl Hp Hi Hrest].
  assert (table_offset l' = table_offset l ∧ import_places l' = import_places l ∧ concat (imports_ l').*2 = concat (imports_ l).*2
    ∧ ImageBase (header_ l') = image_base ∧ DataDirectory (header_ l') = DataDirectory (header_ l)) as (Ho & Him & Hc & Hb & Hd)
    by (by rewrite Hm).
  split; rewrite ?Ho, ?Him, ?Hc, ?Hb, ?Hl; try done.
  - unfold directory_entry. by rewrite Hd.
  - rewrite <- Htable. unfold range_of. rewrite Hl. destruct (Nat.leb_spec (table_offset l + length (table_bytes bs)) (length (image_ l))); [|done].
    f_equal. apply list_eq. intros k. destruct (decide (k < length (table_bytes bs))%nat).
    + rewrite !lookup_take_lt, !lookup_drop by done. apply Hrest. intros t Ht. unfold clear_of in Hclear.
      rewrite Forall_forall in Hclear. specialize (Hclear t Ht). unfold apart in Hclear. lia.
    + rewrite !lookup_ge_None_2; rewrite ?length_take; [done|lia..].
Qed.

(** Moving a moved library. *)
Lemma moved_moved bs l b1 l1 b2 l2 : movable bs l → moved bs l b1 l1 → moved bs l1 b2 l2 → moved bs l b2 l2.
Proof.
  intros Hmov [M1 L1 P1 I1 R1] [M2 L2 P2 I2 R2].
  assert (import_places l1 = import_places l ∧ concat (imports_ l1).*2 = concat (imports_ l).*2 ∧ ImageBase (header_ l1) = b1) as (Him & Hc & Hb)
    by (by rewrite M1).
  rewrite ?Him, ?Hc, ?Hb in *. split.
  - rewrite M2, M1. done.
  - lia.
  - intros t Ht. destruct (P1 t Ht) as (v & Hv & Hv1). destruct (P2 t Ht) as (v' & Hv' & Hv2). exists v. split; [done|].
    rewrite Hv2. simplify_eq. f_equal. unfold u32. rewrite Zplus_mod_idemp_l. f_equal. lia.
  - exact I2.
  - intros k Hk. by rewrite R2, R1.
Qed.

(** C29. Relocation moves a library: with its table of relocations and its imports
    resolved, the dword at every place of the table grows by the distance modulo
    2^32, the address of every import is at its place, no other byte changes and
    the library is at the address it was moved to. *)
Theorem Relocate_moves bs l image_base
  (Hl : movable bs l) (Hb : is_u32 image_base) (Hne : image_base ≠ ImageBase (header_ l))
  (Hover : ImageBase (header_ l) - image_base ≠ 2 ^ 31) :
  ∃ l', Relocate image_base l = Ends (true, l') ∧ moved bs l image_base l'
    ∧ GetImageBase l' = image_base ∧ GetEntrypoint l' = u32 (image_base + AddressOfEntryPoint (header_ l)).
Proof.
  destruct (Relocate_run bs l image_base Hl Hb Hne Hover) as (l' & Hr & Hm). exists l'. split; [done|]. split; [done|].
  destruct Hm as [-> _ _ _ _]. done.
Qed.

(** It does not matter by which way a library is moved: moved to one address and
    then to another it is the library moved to the other at once. *)
Theorem Relocate_twice bs l b1 b2
  (Hl : movable bs l) (Hb1 : is_u32 b1) (Hb2 : is_u32 b2)
  (Hne1 : b1 ≠ ImageBase (header_ l)) (Hne2 : b2 ≠ ImageBase (header_ l)) (Hne : b2 ≠ b1)
  (Ho1 : ImageBase (header_ l) - b1 ≠ 2 ^ 31) (Ho2 : ImageBase (header_ l) - b2 ≠ 2 ^ 31) (Ho : b1 - b2 ≠ 2 ^ 31) :
  ∃ l1 l2, Relocate b1 l = Ends (true, l1) ∧ Relocate b2 l1 = Ends (true, l2) ∧ Relocate b2 l = Ends (true, l2).
Proof.
  destruct (Relocate_run bs l b1 Hl Hb1 Hne1 Ho1) as (l1 & Hr1 & Hm1).
  pose proof (moved_movable _ _ _ _ Hl Hb1 Hm1) as Hl1.
  assert (ImageBase (header_ l1) = b1) as Hb by (by destruct Hm1 as [-> _ _ _ _]).
  destruct (Relocate_run bs l1 b2 Hl1 Hb2) as (l2 & Hr2 & Hm2); [by rewrite Hb..|].
  destruct (Relocate_run bs l b2 Hl Hb2 Hne2 Ho2) as (l2' & Hr2' & Hm2').
  exists l1, l2. split; [done|]. split; [done|].
  by rewrite (moved_unique _ _ _ _ _ (moved_moved _ _ _ _ _ _ Hl Hm1 Hm2) Hm2').
Qed.

(** ** Ends that are not reached *)

(** An unfinished block without a size is read again and again. *)
Lemma zero_block_endless fuel start delta img v :
  dword start img = Some v → 0 < v → dword (start + 4) img = Some 0 → relocate_blocks fuel start delta img = Endless.
Proof.
  intros Hv Hpos Hz. induction fuel as [|fuel IH]; [done|]. cbn [relocate_blocks]. rewrite Hv. cbn [defined mbind ending_bind].
  rewrite (proj2 (Z.ltb_lt _ _)), Hz by done. cbn [defined mbind ending_bind]. rewrite Nat.add_0_r.
  cbn [relocate_entries]. rewrite (proj2 (Nat.ltb_ge _ _)) by lia. cbn. exact IH.
Qed.

Lemma write_dword_length off v img img' : write_dword off v img = Some img' → length img' = length img.
Proof. apply write_bytes_length. Qed.

Lemma relocate_entries_ends end_ page delta : ∀ fuel entry img, (length img - entry < fuel)%nat →
  match relocate_entries fuel entry end_ page delta img with
  | Ends (_, img') => length img' = length img
  | Undefined => True
  | Endless => False
  end.
Proof.
  induction fuel as [|fuel IH]; intros entry img Hf; [lia|]. cbn [relocate_entries]. destruct (entry <? end_)%nat; [|done].
  destruct (word entry img) as [value|] eqn:Hv; [|done]. cbn [defined mbind ending_bind].
  assert (entry + 2 ≤ length img)%nat as Hin.
  { unfold word, range_of in Hv. destruct (Nat.leb_spec (entry + 2) (length img)); [done|discriminate]. }
  destruct (_ =? IMAGE_REL_BASED_ABSOLUTE); [apply IH; lia|]. destruct (_ =? IMAGE_REL_BASED_HIGHLOW); [|done].
  destruct (dword _ img) as [old|]; [|done]. cbn [defined mbind ending_bind].
  destruct (write_dword _ _ img) as [img1|] eqn:Hw; [|done]. cbn [defined mbind ending_bind]. apply write_bytes_length in Hw as Hl.
  specialize (IH (entry + 2)%nat img1). destruct (relocate_entries fuel (entry + 2) end_ page delta img1) as [[ok img']| |];
    [rewrite <- Hl; apply IH; lia|done|apply IH; lia].
Qed.

Lemma relocate_blocks_fuel delta : ∀ f1 f2 start img, (length img - start < f1)%nat → (length img - start < f2)%nat →
  relocate_blocks f1 start delta img = relocate_blocks f2 start delta img.
Proof.
  induction f1 as [|f1 IH]; intros [|f2] start img H1 H2; [lia..|].
  destruct (dword start img) as [address|] eqn:Ha; [|cbn [relocate_blocks]; by rewrite Ha].
  destruct (Z.ltb_spec 0 address) as [Hpos|Hnon]; [|cbn [relocate_blocks]; rewrite Ha; cbn [defined mbind ending_bind]; by rewrite (proj2 (Z.ltb_ge _ _))].
  destruct (dword (start + 4) img) as [size|] eqn:Hs;
    [|cbn [relocate_blocks]; rewrite Ha; cbn [defined mbind ending_bind]; by rewrite Hs, (proj2 (Z.ltb_lt _ _))].
  destruct (decide (size = 0)) as [->|Hnz]; [by rewrite !(zero_block_endless _ _ _ _ address)|].
  apply dword_lookup in Ha as Hin. destruct Hin as (Hin & _). apply dword_lookup in Hs as Hrange. destruct Hrange as (_ & Hrange & _).
  cbn [relocate_blocks]. rewrite Ha. cbn [defined mbind ending_bind]. rewrite Hs, (proj2 (Z.ltb_lt _ _)) by done. cbn [defined mbind ending_bind].
  pose proof (relocate_entries_ends (start + Z.to_nat size) (Z.to_nat address) delta (S (length img)) (start + 8) img ltac:(lia)) as Hends.
  destruct (relocate_entries _ _ _ _ _ img) as [[ok img']| |]; [|done..]. cbn [mbind ending_bind]. destruct ok; [|done].
  apply IH; lia.
Qed.

(** The walk over the relocations ends unless it never does: the steps it is
    given are as good as any larger number, so it comes to an end, defined or not,
    or it meets a block of size 0, at which it stays forever. *)
Theorem relocation_ends fuel start delta img (Hfuel : (length img < fuel)%nat) :
  relocate_blocks fuel start delta img = relocate_blocks (S (length img)) start delta img.
Proof. apply relocate_blocks_fuel; lia. Qed.

(** ** A small library *)

(** 64 bytes: a table at 32 with one block, for the dwords at 4 and 8 of page 4096 - 4096,
    an import at 16. *)
Definition example_blocks : list block := [(4%nat, [HighLow 0; HighLow 4; Padding 0])].
Definition example_image : bytes :=
  le_bytes 4 7 ++ le_bytes 4 (2 ^ 32 - 1) ++ le_bytes 4 0x400010 ++ replicate 20 NUL ++ table_bytes example_blocks ++ replicate 16 NUL.
Definition example_header : IMAGE_NT_HEADERS32 :=
  MkNtHeaders IMAGE_NT_SIGNATURE IMAGE_FILE_MACHINE_I386 0 224 0x30 0x400000 64 0 0x40
    (<[5%nat := MkDirectory 32 18]> (replicate 16 (MkDirectory 0 0))).
Definition example_library : DXTLibrary :=
  MkLibrary (MkStream [] 0 true true) example_header [] [("xbdm.dll"%bs, [MkImport 9 [] 16 0xB0001234])] example_image.

#[local] Instance apart_dec a n b m : Decision (apart a n b m) := or_dec _ _.
#[local] Instance spread_dec places : Decision (spread places).
Proof. induction places as [|t ts IH]; cbn [spread]; [apply _|]. apply and_dec; [apply _|exact IH]. Defined.
#[local] Instance relocation_ok_dec r : Decision (relocation_ok r) := match r with Padding o | HighLow o => decide (o < 4096)%nat end.
#[local] Instance block_ok_dec b : Decision (block_ok b) := and_dec _ _.

Lemma example_movable : movable example_blocks example_library.
Proof.
  split; [vm_compute; discriminate|by_evaluation|vm_compute; reflexivity|by_evaluation..| |].
  - apply Forall_singleton. split; [discriminate|]. split; [discriminate|reflexivity].
  - split; [discriminate|reflexivity].
Defined.

Lemma Relocate_moves_witness :
  (∃ l', Relocate 0x10000 example_library = Ends (true, l') ∧ moved example_blocks example_library 0x10000 l'
    ∧ GetImageBase l' = 0x10000 ∧ GetEntrypoint l' = u32 (0x10000 + 0x30))
  ∧ (match Relocate 0x10000 example_library with Ends (_, l') => dword 8 (image_ l') | _ => None end) = Some 0x10010.
Proof.
  split; [|vm_compute; reflexivity].
  apply (Relocate_moves example_blocks example_library 0x10000 example_movable); [unfold is_u32; lia|discriminate..].
Defined.

Lemma Relocate_twice_witness :
  ∃ l1 l2, Relocate 0x10000 example_library = Ends (true, l1) ∧ Relocate 0x20000 l1 = Ends (true, l2)
    ∧ Relocate 0x20000 example_library = Ends (true, l2).
Proof.
  apply (Relocate_twice example_blocks example_library 0x10000 0x20000 example_movable); [unfold is_u32; lia..|discriminate|discriminate|discriminate|discriminate|discriminate|discriminate].
Defined.

Lemma relocation_ends_witness :
  (length example_image < 1000)%nat
  ∧ relocate_blocks 1000 32 5 example_image = relocate_blocks (S (length example_image)) 32 5 example_image.
Proof.
  assert (length example_image < 1000)%nat as H by by_evaluation. split; [exact H|]. by apply relocation_ends.
Defined.

(** A library at the address it is linked for keeps its imports as they are in the
    file: the early return comes before [PatchImports]. *)
Lemma Relocate_home l : Relocate (ImageBase (header_ l)) l = Ends (true, l).
Proof. unfold Relocate. by rewrite Z.eqb_refl. Qed.
