(* ===== verification/DxtImports.v ===== *)
(** * Loading a library (src/dyndxt_loader/dxt_library.cpp)

    What [Parse] makes of a file: the image, byte by byte, and the imports. *)

From Stdlib Require Import Sorted.
From S2P Require Import Prelude CLib.
From S2P Require Import Console DxtLibrary DxtRelocation.

(** ** [std::map] *)

Definition sorted_names (m : Imports) : Prop := StronglySorted (λ a b, string_ltb a.1 b.1 = true) m.

(** [imports_.find(name)] *)
Definition find_name (name : bytes) (m : Imports) : option (list DXTLibraryImport) :=
  snd <$> List.find (λ p, bool_decide (p.1 = name)) m.

Lemma find_name_below name m : Forall (λ p, string_ltb name p.1 = true) m → find_name name m = None.
Proof.
  unfold find_name. induction 1 as [|[k v] m Hk _ IH]; [done|]. cbn. rewrite bool_decide_eq_false_2; [done|].
  cbn in Hk. intros ->. by rewrite string_ltb_irrefl in Hk.
Qed.

Lemma sorted_below name k v m :
  sorted_names ((k, v) :: m) → string_ltb name k = true → Forall (λ p, string_ltb name p.1 = true) ((k, v) :: m).
Proof.
  intros [_ Hall]%StronglySorted_inv Hlt. constructor; [done|]. eapply Forall_impl; [exact Hall|]. cbn. intros p Hp.
  by eapply string_ltb_trans.
Qed.

Lemma at_name_names P name f m : P name → Forall (λ p, P p.1) m → Forall (λ p, P p.1) (at_name name f m).
Proof.
  intros Hn. induction 1 as [|[k v] m Hk Hm IH]; cbn [at_name]; [by constructor|]. destruct (decide (name = k)) as [->|]; [by constructor|].
  destruct (string_ltb name k); by repeat constructor.
Qed.

Lemma at_name_sorted name f m : sorted_names m → sorted_names (at_name name f m).
Proof.
  induction m as [|[k v] m IH]; intros Hs; cbn [at_name]; [repeat constructor|].
  destruct (decide (name = k)) as [->|Hne].
  - apply StronglySorted_inv in Hs as [? ?]. by constructor.
  - destruct (string_ltb name k) eqn:Hlt.
    + constructor; [done|]. by apply (sorted_below name k v m).
    + apply StronglySorted_inv in Hs as [Hs Hall]. constructor; [by apply IH|].
      apply (at_name_names (λ n, string_ltb k n = true)); [by apply string_ltb_total|done].
Qed.

Lemma find_at_name name f m name' :
  sorted_names m →
  find_name name' (at_name name f m)
  = if decide (name = name') then Some (f (default [] (find_name name m))) else find_name name' m.
Proof.
  induction m as [|[k v] m IH]; intros Hs; cbn [at_name].
  - unfold find_name. cbn. destruct (decide (name = name')) as [->|]; [by rewrite bool_decide_eq_true_2|by rewrite bool_decide_eq_false_2].
  - destruct (decide (name = k)) as [->|Hne].
    + unfold find_name. cbn. rewrite (bool_decide_eq_true_2 (k = k)) by done.
      destruct (decide (k = name')) as [->|]; [by rewrite bool_decide_eq_true_2|by rewrite bool_decide_eq_false_2].
    + destruct (string_ltb name k) eqn:Hlt.
      * rewrite (find_name_below name ((k, v) :: m)) by (by apply sorted_below).
        unfold find_name. cbn [List.find fst]. destruct (decide (name = name')) as [->|];
          [by rewrite bool_decide_eq_true_2|by rewrite bool_decide_eq_false_2].
      * apply StronglySorted_inv in Hs as [Hs _]. specialize (IH Hs). unfold find_name in *. cbn [List.find fst].
        rewrite (bool_decide_eq_false_2 (k = name)) by congruence.
        destruct (decide (name = name')) as [<-|]; [by rewrite bool_decide_eq_false_2 by congruence|].
        destruct (bool_decide (k = name')); [done|exact IH].
Qed.

(** ** Import tables *)

(** What a thunk imports, and how an image says so. *)
Inductive thunk := ByOrdinal (n : Z) | ByName (rva : nat) (name : bytes).

Definition thunk_at (img : bytes) (off : nat) (t : thunk) : Prop :=
  match t with
  | ByOrdinal n => 0 ≤ n < 2 ^ 16 ∧ dword off img = Some (2 ^ 31 + n)
  | ByName rva name =>
    (0 < rva)%nat ∧ Z.of_nat rva < 2 ^ 31 ∧ dword off img = Some (Z.of_nat rva) ∧ c_string (rva + 2) img = Some name
  end.

Fixpoint thunks_at (img : bytes) (off : nat) (ts : list thunk) : Prop :=
  match ts with
  | [] => dword off img = Some 0
  | t :: ts' => thunk_at img off t ∧ thunks_at img (off + 4) ts'
  end.

Definition import_of (t : thunk) (address : Z) : DXTLibraryImport :=
  match t with ByOrdinal n => MkImport n [] address 0 | ByName _ name => MkImport 0 name address 0 end.
Fixpoint imports_of (ts : list thunk) (address : Z) : list DXTLibraryImport :=
  match ts with [] => [] | t :: ts' => import_of t address :: imports_of ts' (u32 (address + 4)) end.

(** The imports from one library; without a table of their own the thunks are
    those that are overwritten. *)
Record descriptor := MkDescriptor { dll_rva : nat; dll_name : bytes; first_thunk : nat; original_thunk : nat; thunks : list thunk }.

Definition descriptor_at (img : bytes) (off : nat) (d : descriptor) : Prop :=
  (0 < dll_rva d)%nat ∧ dword (off + 12) img = Some (Z.of_nat (dll_rva d)) ∧ c_string (dll_rva d) img = Some (dll_name d)
  ∧ dword (off + 8) img = Some 0 ∧ dword (off + 16) img = Some (Z.of_nat (first_thunk d))
  ∧ dword off img = Some (Z.of_nat (original_thunk d))
  ∧ thunks_at img (if decide (original_thunk d = 0%nat) then first_thunk d else original_thunk d) (thunks d).

Fixpoint descriptors_at (img : bytes) (off : nat) (ds : list descriptor) : Prop :=
  match ds with
  | [] => dword (off + 12) img = Some 0
  | d :: ds' => descriptor_at img off d ∧ descriptors_at img (off + 20) ds'
  end.

Definition add_descriptor (m : Imports) (d : descriptor) : Imports :=
  at_name (dll_name d) (λ v, v ++ imports_of (thunks d) (Z.of_nat (first_thunk d))) m.

Lemma dword_inside off img v : dword off img = Some v → (off + 4 ≤ length img)%nat.
Proof. by intros [? _]%dword_lookup. Qed.

Lemma thunk_ordinal n : 0 ≤ n < 2 ^ 16 → IMAGE_SNAP_BY_ORDINAL (2 ^ 31 + n) = true ∧ Z.land (2 ^ 31 + n) 0xFFFF = n.
Proof.
  intros Hn. split.
  - unfold IMAGE_SNAP_BY_ORDINAL. apply negb_true_iff, Z.eqb_neq. intros H.
    assert (Z.testbit (Z.land (2 ^ 31 + n) 0x80000000) 31 = true) as Hb; [|by rewrite H in Hb].
    rewrite Z.land_spec. change (Z.testbit 0x80000000 31) with true. rewrite andb_true_r.
    rewrite Z.testbit_true by lia. replace (2 ^ 31 + n) with (n + 1 * 2 ^ 31) by lia.
    rewrite Z_div_plus_full, Z.div_small by lia. done.
  - change 0xFFFF with (Z.ones 16). rewrite Z.land_ones by lia.
    replace (2 ^ 31 + n) with (n + 2 ^ 15 * 2 ^ 16) by lia. by rewrite Z_mod_plus_full, Z.mod_small by lia.
Qed.

Lemma thunk_rva n : 0 ≤ n < 2 ^ 31 → IMAGE_SNAP_BY_ORDINAL n = false.
Proof.
  intros Hn. unfold IMAGE_SNAP_BY_ORDINAL. apply negb_false_iff, Z.eqb_eq, Z.bits_inj_0. intros k. rewrite Z.land_spec.
  destruct (decide (k = 31)) as [->|].
  - assert (Z.testbit n 31 = false) as ->; [|done]. rewrite Z.testbit_false by lia. by rewrite Z.div_small by lia.
  - change 0x80000000 with (2 ^ 31). destruct (Z_lt_le_dec k 0); [by rewrite Z.testbit_neg_r|].
    by rewrite Z.pow2_bits_false, andb_false_r by done.
Qed.

Lemma read_import_spec img off t address :
  thunk_at img off t → ∃ v, dword off img = Some v ∧ v ≠ 0 ∧ read_import v address img = Some (import_of t address).
Proof.
  destruct t as [n|rva name]; cbn [thunk_at].
  - intros [Hn Hd]. eexists. split; [done|]. split; [lia|]. unfold read_import.
    destruct (thunk_ordinal n Hn) as [-> ->]. done.
  - intros (Hpos & Hlt & Hd & Hc). eexists. split; [done|]. split; [lia|]. unfold read_import.
    rewrite thunk_rva by lia. rewrite Nat2Z.id, Hc. done.
Qed.

Lemma read_thunks_spec img ts : ∀ fuel off address,
  thunks_at img off ts → (length img - off < fuel)%nat → read_thunks fuel off address img = Some (imports_of ts address).
Proof.
  induction ts as [|t ts IH]; intros [|fuel] off address Hat Hfuel; [lia|cbn in *; by rewrite Hat|lia|].
  destruct Hat as [Ht Hts]. cbn [read_thunks]. destruct (read_import_spec img off t address Ht) as (v & Hv & Hnz & Hr).
  apply dword_inside in Hv as Hin. rewrite Hv. cbn [mbind option_bind]. rewrite (proj2 (Z.eqb_neq _ _)), Hr by done. cbn.
  rewrite IH by (done || lia). done.
Qed.

Lemma read_descriptors_spec img ds : ∀ fuel off m,
  descriptors_at img off ds → (length img - off < fuel)%nat →
  read_descriptors fuel off img m = Some (true, foldl add_descriptor m ds).
Proof.
  induction ds as [|d ds IH]; intros [|fuel] off m Hat Hfuel; [lia|cbn [read_descriptors]; cbn in Hat; by rewrite Hat|lia|].
  destruct Hat as [(Hpos & Hname & Hs & Hf & H1 & H0 & Ht) Hds]. cbn [read_descriptors].
  apply dword_inside in Hname as Hin. rewrite Hname. cbn [mbind option_bind]. rewrite (proj2 (Z.eqb_neq _ _)), Hf by lia.
  cbn [mbind option_bind]. rewrite H1, H0. cbn [mbind option_bind]. change (negb (0 =? 0)) with false. cbv iota. cbn [mbind option_bind].
  rewrite Nat2Z.id, Hs. cbn [mbind option_bind].
  assert (Z.to_nat (if Z.of_nat (original_thunk d) =? 0 then Z.of_nat (first_thunk d) else Z.of_nat (original_thunk d))
    = if decide (original_thunk d = 0%nat) then first_thunk d else original_thunk d) as ->.
  { destruct (decide _) as [->|]; [by apply Nat2Z.id|]. rewrite (proj2 (Z.eqb_neq _ _)) by lia. by rewrite Nat2Z.id. }
  rewrite read_thunks_spec with (ts := thunks d) by (done || lia). cbn [mbind option_bind].
  change sizeof_IMAGE_IMPORT_DESCRIPTOR with 20%nat. apply IH; [done|lia].
Qed.

(** What the descriptors say about one library. *)
Definition imports_from (name : bytes) (ds : list descriptor) : option (list DXTLibraryImport) :=
  match filter (λ d, dll_name d = name) ds with
  | [] => None
  | ds' => Some (concat (map (λ d, imports_of (thunks d) (Z.of_nat (first_thunk d))) ds'))
  end.

Lemma add_descriptors_sorted ds : ∀ m, sorted_names m → sorted_names (foldl add_descriptor m ds).
Proof. induction ds as [|d ds IH]; intros m Hm; [done|]. cbn [foldl]. apply IH. by apply at_name_sorted. Qed.

Lemma add_descriptors_find name ds : ∀ m, sorted_names m →
  find_name name (foldl add_descriptor m ds)
  = match find_name name m, imports_from name ds with
    | Some v, Some w => Some (v ++ w)
    | Some v, None => Some v
    | None, w => w
    end.
Proof.
  induction ds as [|d ds IH]; intros m Hm; cbn [foldl]; [by destruct (find_name name m)|].
  rewrite IH by (by apply at_name_sorted). unfold add_descriptor at 1. rewrite find_at_name by done.
  unfold imports_from. rewrite filter_cons. destruct (decide (dll_name d = name)) as [->|]; [|done].
  destruct (find_name name m) as [v|]; cbn [default]; destruct (filter _ ds) as [|d' ds']; cbn [map concat];
    by rewrite ?app_nil_r, <- ?app_assoc.
Qed.

Definition import_offset (l : DXTLibrary) : nat := Z.to_nat (VirtualAddress (directory_entry (header_ l) IMAGE_DIRECTORY_ENTRY_IMPORT)).

(** The import table is read as it is: for every library it names, the imports
    kept are those of all its descriptors in their order, each by its ordinal or
    its name and with the address of its slot, under the names in the order of
    the map. *)
Theorem ExtractImportTable_reads l ds
  (Hsize : Size (directory_entry (header_ l) IMAGE_DIRECTORY_ENTRY_IMPORT) ≠ 0)
  (Hat : descriptors_at (image_ l) (import_offset l) ds) :
  ∃ m, ExtractImportTable l = Some (true, with_imports m l)
    ∧ sorted_names m ∧ ∀ name, find_name name m = imports_from name ds.
Proof.
  exists (foldl add_descriptor [] ds). split; [|split; [apply add_descriptors_sorted; constructor|]].
  - unfold ExtractImportTable. cbn [with_imports header_ image_]. rewrite (proj2 (Z.eqb_neq _ _)) by done.
    change (Z.to_nat (VirtualAddress _)) with (import_offset l). rewrite read_descriptors_spec with (ds := ds) by (done || lia).
    done.
  - intros name. rewrite add_descriptors_find by constructor. done.
Qed.

(** ** The image *)

(** What a section makes of one byte of the image. *)
Definition place (file : bytes) (k : nat) (o : option byte) (s : IMAGE_SECTION_HEADER) : option byte :=
  let start := Z.to_nat (section_address s) in
  if decide (start ≤ k < start + Z.to_nat (SizeOfRawData s))%nat then
    match file !! (Z.to_nat (PointerToRawData s) + (k - start))%nat with Some b => Some b | None => o end
  else o.

Lemma read_spec n st got st' :
  read n st = (got, st') → good st = true → got = take n (drop (position st) (contents st)) ∧ contents st' = contents st.
Proof. unfold read. intros Hr Hg. rewrite Hg in Hr. by simplify_eq. Qed.

Lemma read_into_lookup off n l l' k :
  read_into off n l = Some l' → good (infile_ l) = true →
  contents (infile_ l') = contents (infile_ l) ∧ length (image_ l') = length (image_ l)
  ∧ image_ l' !! k = if decide (off ≤ k < off + n)%nat then
                       match contents (infile_ l) !! (position (infile_ l) + (k - off))%nat with
                       | Some b => Some b | None => image_ l !! k end
                     else image_ l !! k.
Proof.
  unfold read_into. destruct (read n (infile_ l)) as [got st] eqn:Hr. intros H Hg.
  destruct (read_spec _ _ _ _ Hr Hg) as [-> Hc]. destruct (write_bytes off _ (image_ l)) as [img|] eqn:Hw; [|done].
  cbn in H. simplify_eq. cbn [infile_ with_infile with_image image_]. split; [done|].
  split; [by apply write_bytes_length in Hw|]. rewrite (write_bytes_lookup _ _ _ _ _ Hw), length_take, length_drop.
  destruct (decide (off ≤ k < off + n)%nat) as [Hin|]; [|rewrite decide_False; [done|lia]].
  destruct (decide (_ ∧ _)%nat) as [Hd|Hd].
  - rewrite lookup_take_lt, lookup_drop by lia. destruct (contents (infile_ l) !! _) eqn:E; [done|].
    apply lookup_ge_None in E. lia.
  - rewrite (lookup_ge_None_2 (contents (infile_ l))); [done|lia].
Qed.

Lemma process_sections_layout file hs : ∀ l l', contents (infile_ l) = file →
  process_sections hs l = Some (true, l') →
  length (image_ l') = length (image_ l) ∧ header_ l' = header_ l ∧ section_headers_ l' = section_headers_ l
  ∧ ∀ k, (k < length (image_ l))%nat → image_ l' !! k = foldl (place file k) (image_ l !! k) hs.
Proof.
  induction hs as [|h hs IH]; intros l l' Hf Hp; cbn [process_sections] in Hp; [by simplify_eq|].
  unfold ProcessSection in Hp. cbn [foldl]. destruct (Z.eqb_spec (SizeOfRawData h) 0) as [Hz|Hnz].
  - cbn in Hp. destruct (IH l l' Hf Hp) as (Hl & Hh & Hs & Hk). split_and!; [done..|]. intros k Hlt. rewrite (Hk k Hlt).
    f_equal. unfold place. rewrite Hz. rewrite decide_False; [done|]. cbn. lia.
  - set (st := seekg _ (infile_ l)) in Hp. destruct (good st) eqn:Hg; [|done]. cbn [negb mbind option_bind] in Hp.
    destruct (read_into _ _ (with_infile st l)) as [l1|] eqn:Hr; [|done]. cbn [mbind option_bind] in Hp.
    unfold st, seekg in Hg. destruct (good (infile_ l)) eqn:Hgl; [|congruence].
    assert (st = MkStream (contents (infile_ l)) (Z.to_nat (PointerToRawData h)) true (past_end (infile_ l))) as Hst.
    { unfold st, seekg. rewrite Hgl. cbn [good] in Hg. by rewrite Hg. }
    destruct (read_into_lookup _ _ _ _ 0%nat Hr) as (Hc1 & Hl1 & _); [by rewrite Hst|].
    rewrite Hst in Hc1, Hl1. cbn [infile_ with_infile contents image_] in Hc1, Hl1.
    assert (header_ l1 = header_ l ∧ section_headers_ l1 = section_headers_ l) as [Hh1 Hs1].
    { unfold read_into in Hr. destruct (read _ _) as [got st']. destruct (write_bytes _ got _); [|done]. cbn in Hr. by simplify_eq. }
    destruct (IH l1 l') as (Hl & Hh & Hs & Hk); [congruence|done|]. split; [congruence|]. split; [congruence|]. split; [congruence|].
    intros k Hlt. rewrite Hk by lia. f_equal. destruct (read_into_lookup _ _ _ _ k Hr) as (_ & _ & ->); [by rewrite Hst|].
    rewrite Hst. cbn [infile_ with_infile contents position image_]. by rewrite Hf.
Qed.

(** *** The headers *)

(** A read that leaves the stream good got everything. *)
Lemma read_good n st : good (read n st).2 = true →
  good st = true ∧ contents (read n st).2 = contents st ∧ position (read n st).2 = (position st + n)%nat
  ∧ (read n st).1 = take n (drop (position st) (contents st)).
Proof.
  unfold read. destruct (good st) eqn:Hg; [|intros Hc; cbn in Hc; congruence]. cbn. rewrite Nat.eqb_eq. intros Hl.
  split; [done|]. split; [done|]. split; [by rewrite Hl|done].
Qed.

Lemma read_section_table_spec n : ∀ st st' sections,
  read_section_table n st = (true, sections, st') → good st = true →
  good st' = true ∧ contents st' = contents st
  ∧ sections = map (λ i, read_section_header (take 40 (drop (position st + 40 * i) (contents st)))) (seq 0 n).
Proof.
  induction n as [|n IH]; intros st st' sections Hr Hg; cbn [read_section_table] in Hr; [by simplify_eq|].
  destruct (read sizeof_IMAGE_SECTION_HEADER st) as [s st1] eqn:Hread.
  pose proof (read_good sizeof_IMAGE_SECTION_HEADER st) as Hgood. rewrite Hread in Hgood. cbn [fst snd] in Hgood.
  destruct (good st1) eqn:Hg1; [|done]. destruct (Hgood eq_refl) as (_ & Hc & Hp & Hs).
  destruct (read_section_table n st1) as [[ok more] st2] eqn:Hmore. simplify_eq.
  destruct (IH _ _ _ Hmore Hg1) as (Hg2 & Hc2 & ->). split; [done|]. split; [congruence|]. cbn [seq map].
  rewrite Hc, Hp, Nat.add_0_r. f_equal. rewrite <- seq_shift, map_map. apply map_ext. intros i.
  change sizeof_IMAGE_SECTION_HEADER with 40%nat. do 3 f_equal. lia.
Qed.

(** Where the headers are in the file. *)
Definition nt_offset (file : bytes) : nat :=
  let lfanew := e_lfanew (read_dos_header (take 64 file)) in
  if 64 <? u64 lfanew then (64 + Z.to_nat (u32 (lfanew - 64)))%nat else 64%nat.
Definition file_headers (file : bytes) : IMAGE_NT_HEADERS32 := read_nt_headers (take 248 (drop (nt_offset file) file)).
Definition section_table_offset (file : bytes) : nat :=
  (nt_offset file + 24 + Z.to_nat (Z.max 224 (SizeOfOptionalHeader (file_headers file))))%nat.
Definition file_sections (file : bytes) : list IMAGE_SECTION_HEADER :=
  map (λ i, read_section_header (take 40 (drop (section_table_offset file + 40 * i) file)))
    (seq 0 (Z.to_nat (NumberOfSections (file_headers file)))).

(** Skipping that leaves the stream good. *)
Lemma skip_good (b : bool) n st st' :
  (if b then ignore n st else st) = st' → b && negb (good st') = false → good st = true →
  good st' = true ∧ contents st' = contents st ∧ position st' = (position st + if b then n else 0)%nat.
Proof.
  intros <- Hb Hg. destruct b; [|split_and!; [done|done|lia]]. cbn in Hb. apply negb_false_iff in Hb.
  destruct (read_good n st Hb) as (_ & Hc & Hp & _). done.
Qed.

Lemma ParseDLLHeader_spec file pe l :
  ParseDLLHeader (new_library (MkStream file 0 true pe)) = (true, l) →
  good (infile_ l) = true ∧ contents (infile_ l) = file ∧ image_ l = []
  ∧ header_ l = file_headers file ∧ section_headers_ l = file_sections file
  ∧ e_magic (read_dos_header (take 64 file)) = IMAGE_DOS_SIGNATURE ∧ Signature (header_ l) = IMAGE_NT_SIGNATURE
  ∧ Machine (header_ l) = IMAGE_FILE_MACHINE_I386.
Proof.
  unfold ParseDLLHeader. cbn [infile_ new_library].
  pose proof (read_good sizeof_IMAGE_DOS_HEADER (MkStream file 0 true pe)) as Hdos.
  destruct (read sizeof_IMAGE_DOS_HEADER (MkStream file 0 true pe)) as [s st1]. cbn [fst snd] in Hdos.
  destruct (good st1) eqn:Hg1; [|done]. destruct (Hdos eq_refl) as (_ & Hc1 & Hp1 & ->). clear Hdos. cbn [negb contents position] in *.
  rewrite drop_0. change sizeof_IMAGE_DOS_HEADER with 64%nat in *.
  destruct (Z.eqb_spec (e_magic (read_dos_header (take 64 file))) IMAGE_DOS_SIGNATURE) as [Hmagic|]; [|done]. cbn [negb].
  change (Z.of_nat 64) with 64. set (lfanew := e_lfanew _). set (st2 := if 64 <? u64 lfanew then _ else _).
  destruct (_ && negb (good st2)) eqn:Hskip; [done|].
  destruct (skip_good _ _ st1 st2 eq_refl Hskip Hg1) as (Hg2 & Hc2 & Hp2).
  pose proof (read_good sizeof_IMAGE_NT_HEADERS32 st2) as Hnt. destruct (read sizeof_IMAGE_NT_HEADERS32 st2) as [s st3]. cbn [fst snd] in Hnt.
  destruct (good st3) eqn:Hg3; [|done]. destruct (Hnt eq_refl) as (_ & Hc3 & Hp3 & Hs). clear Hnt. cbn [negb].
  assert (position st2 = nt_offset file) as Hoff.
  { rewrite Hp2, Hp1. unfold nt_offset. fold lfanew. destruct (64 <? u64 lfanew); [done|lia]. }
  assert (read_nt_headers s = file_headers file) as -> by (unfold file_headers; by rewrite Hs, Hoff, Hc2, Hc1).
  set (h := file_headers file).
  destruct (Z.eqb_spec (Signature h) IMAGE_NT_SIGNATURE) as [Hsig|]; [|done]. cbn [negb].
  destruct (Z.eqb_spec (Machine h) IMAGE_FILE_MACHINE_I386) as [Hmachine|]; [|done]. cbn [negb].
  destruct (Z.land _ _ =? 0); [done|]. set (st4 := if sizeof_OptionalHeader <? SizeOfOptionalHeader h then _ else _).
  destruct (_ && negb (good st4)) eqn:Hskip2; [done|].
  destruct (skip_good _ _ st3 st4 eq_refl Hskip2 Hg3) as (Hg4 & Hc4 & Hp4).
  destruct (read_section_table _ st4) as [[ok sections] st5] eqn:Htable. intros Heq. injection Heq as -> <-.
  destruct (read_section_table_spec _ _ _ _ Htable Hg4) as (Hg5 & Hc5 & Hsections).
  cbn [infile_ with_infile with_sections with_header image_ header_ section_headers_ new_library app].
  split; [done|]. split; [congruence|]. split; [done|]. split; [done|]. split; [|done].
  rewrite Hsections. unfold file_sections. fold h. apply map_ext. intros k. rewrite Hc4, Hc3, Hc2, Hc1.
  do 3 f_equal. rewrite Hp4, Hp3, Hoff. unfold section_table_offset. fold h. change sizeof_IMAGE_NT_HEADERS32 with 248%nat.
  change sizeof_OptionalHeader with 224. destruct (Z.ltb_spec 224 (SizeOfOptionalHeader h)); lia.
Qed.

(** A file that is accepted is laid out as it says: the library has the headers
    and sections of the file, its image the size the header gives, and every byte
    of the image is that of the last section over it that has one there, else of
    the headers, else 0. *)
Theorem Parse_layout file pe l
  (Hparse : Parse (new_library (MkStream file 0 true pe)) = Some (true, l)) :
  header_ l = file_headers file ∧ section_headers_ l = file_sections file
  ∧ length (image_ l) = Z.to_nat (SizeOfImage (file_headers file))
  ∧ ∀ k, (k < length (image_ l))%nat →
      image_ l !! k = foldl (place file k)
        (Some (if decide (k < Z.to_nat (SizeOfHeaders (file_headers file)))%nat then default NUL (file !! k) else NUL))
        (file_sections file).
Proof.
  unfold Parse in Hparse. destruct (ParseDLLHeader _) as [ok l1] eqn:Hdll. destruct ok; [|done]. cbn [negb] in Hparse.
  destruct (ParseDLLHeader_spec file pe l1 Hdll) as (Hg & Hc & Himg & Hh & Hs & _). clear Hdll.
  set (l2 := with_infile _ _) in Hparse. destruct (good (infile_ l2)) eqn:Hg2; [|done]. cbn [negb] in Hparse.
  assert (image_ l2 = replicate (Z.to_nat (SizeOfImage (header_ l1))) NUL) as Himg2.
  { unfold l2, resize. cbn [image_ with_infile with_image infile_]. rewrite Himg, take_nil. cbn. by rewrite Nat.sub_0_r. }
  assert (infile_ l2 = MkStream file 0 true (past_end (infile_ l1))) as Hin2.
  { unfold l2, seekg. cbn [infile_ with_infile with_image]. rewrite Hg, Hc. by destruct (past_end _). }
  destruct (read_into 0 _ l2) as [l3|] eqn:Hread; [|done]. cbn [mbind option_bind] in Hparse.
  destruct (process_sections _ l3) as [[ok l4]|] eqn:Hproc; [|done]. cbn [mbind option_bind] in Hparse. destruct ok; [|done].
  assert (header_ l3 = header_ l1 ∧ section_headers_ l3 = section_headers_ l1) as [Hh3 Hs3].
  { unfold read_into in Hread. destruct (read _ _) as [got st']. destruct (write_bytes _ got _); [|done]. cbn in Hread. by simplify_eq. }
  destruct (read_into_lookup _ _ _ _ 0%nat Hread Hg2) as (Hc3 & Hl3 & _). rewrite Hin2 in Hc3. cbn [contents] in Hc3.
  destruct (process_sections_layout file _ _ _ Hc3 Hproc) as (Hl4 & Hh4 & Hs4 & Hk4).
  assert (header_ l = header_ l4 ∧ section_headers_ l = section_headers_ l4 ∧ image_ l = image_ l4) as (-> & -> & ->).
  { cbn [negb] in Hparse. unfold ExtractImportTable in Hparse. destruct (_ =? 0); [by simplify_eq|].
    destruct (read_descriptors _ _ _ _) as [[ok imports]|]; [|done]. cbn in Hparse. by simplify_eq. }
  rewrite Hh4, Hs4, Hh3, Hs3. split; [done|]. split; [done|]. rewrite Himg2, length_replicate in Hl3. rewrite Hh in *.
  split; [lia|]. intros k Hlt. rewrite Hk4, Hs3, Hs by lia. f_equal.
  destruct (read_into_lookup _ _ _ _ k Hread Hg2) as (_ & _ & ->). rewrite Hin2, Himg2. cbn [contents position].
  rewrite lookup_replicate_2 by lia.
  change (header_ l2) with (header_ l1). rewrite Hh. replace (0 + (k - 0))%nat with k by lia.
  destruct (decide (k < Z.to_nat (SizeOfHeaders (file_headers file)))%nat).
  - rewrite decide_True by lia. by destruct (file !! k).
  - by rewrite decide_False by lia.
Qed.

(** ** A small file *)

(** 352 bytes of headers with one section in the table, then the section: the
    descriptor of one library with two thunks. *)
Definition pad (n : nat) (s : bytes) : bytes := s ++ replicate (n - length s) NUL.
Definition example_section : bytes :=
  le_bytes 4 0 ++ le_bytes 4 0 ++ le_bytes 4 0 ++ le_bytes 4 52 ++ le_bytes 4 40
  ++ replicate 20 NUL
  ++ le_bytes 4 (2 ^ 31 + 9) ++ le_bytes 4 59 ++ le_bytes 4 0
  ++ "xb.dll"%bs ++ [NUL] ++ [NUL; NUL] ++ "f@4"%bs ++ [NUL].
Definition example_directories : bytes :=
  replicate 8 NUL ++ le_bytes 4 0 ++ le_bytes 4 40 ++ replicate 112 NUL.
Definition example_dos : bytes := pad 64 (le_bytes 2 IMAGE_DOS_SIGNATURE).
Definition example_nt : bytes :=
  le_bytes 4 IMAGE_NT_SIGNATURE ++ le_bytes 2 IMAGE_FILE_MACHINE_I386 ++ le_bytes 2 1 ++ replicate 12 NUL ++ le_bytes 4 224
  ++ pad 96 (replicate 56 NUL ++ le_bytes 4 128 ++ le_bytes 4 0 ++ replicate 6 NUL ++ le_bytes 2 0x40) ++ example_directories.
Definition example_file : bytes :=
  example_dos ++ example_nt ++ (replicate 12 NUL ++ le_bytes 4 0 ++ le_bytes 4 (Z.of_nat (length example_section)) ++ le_bytes 4 352 ++ replicate 16 NUL)
  ++ example_section.

Definition parsed_library : DXTLibrary :=
  match Parse (new_library (MkStream example_file 0 true false)) with Some (_, l) => l | None => new_library (MkStream [] 0 true false) end.

Lemma Parse_layout_witness :
  header_ parsed_library = file_headers example_file ∧ section_headers_ parsed_library = file_sections example_file
  ∧ length (image_ parsed_library) = Z.to_nat (SizeOfImage (file_headers example_file))
  ∧ ∀ k, (k < length (image_ parsed_library))%nat →
      image_ parsed_library !! k = foldl (place example_file k)
        (Some (if decide (k < Z.to_nat (SizeOfHeaders (file_headers example_file)))%nat then default NUL (example_file !! k) else NUL))
        (file_sections example_file).
Proof. apply (Parse_layout example_file false parsed_library). vm_compute. reflexivity. Defined.

Definition example_descriptor : descriptor := MkDescriptor 52 "xb.dll"%bs 40 0 [ByOrdinal 9; ByName 59 "f@4"%bs].

Lemma ExtractImportTable_reads_witness :
  imports_from "xb.dll"%bs [example_descriptor] = Some [MkImport 9 [] 40 0; MkImport 0 "f@4"%bs 44 0]
  ∧ ∃ m, ExtractImportTable parsed_library = Some (true, with_imports m parsed_library)
    ∧ sorted_names m ∧ ∀ name, find_name name m = imports_from name [example_descriptor].
Proof.
  split; [vm_compute; reflexivity|]. apply ExtractImportTable_reads.
  - vm_compute. discriminate.
  - assert (dword 12 (image_ parsed_library) = Some 52) by (vm_compute; reflexivity).
    repeat split; try (vm_compute; reflexivity); try (vm_compute; lia); vm_compute; discriminate.
Defined.
