(* ===== verification/DxtExports.v ===== *)
(** * Exports of the kernel and the debug monitor (src/dyndxt_loader/*_exports.def.h)

    The tables from which an import by name gets its ordinal. *)

From S2P Require Import Prelude CLib.

(** The declarations of xbdm_exports.def.h and the ordinals the loader names. *)
Definition xbdm_declarations : list (bytes * Z) := [
  ("DmAllocatePoolWithTag@8"%bs, 2); ("DmCloseLoadedModules@4"%bs, 4); ("DmFreePool@4"%bs, 9);
  ("DmHaltThread@4"%bs, 20); ("DmRegisterCommandProcessor@8"%bs, 30); ("DmResumeThread@4"%bs, 35);
  ("DmSendNotificationString@4"%bs, 36); ("DmSuspendThread@4"%bs, 48); ("DmWalkLoadedModules@8"%bs, 51)
].
Definition XBDM_DmAllocatePoolWithTag : Z := 2.
Definition XBDM_DmCloseLoadedModules : Z := 4.
Definition XBDM_DmFreePool : Z := 9.
Definition XBDM_DmHaltThread : Z := 20.
Definition XBDM_DmRegisterCommandProcessor : Z := 30.
Definition XBDM_DmResumeThread : Z := 35.
Definition XBDM_DmSendNotificationString : Z := 36.
Definition XBDM_DmSuspendThread : Z := 48.
Definition XBDM_DmWalkLoadedModules : Z := 51.

(** The declarations of xboxkrnl_exports.def.h, in four parts. *)

(** Debugging, the HAL, the executive and input and output. *)
Definition executive_declarations : list (bytes * Z) := [
  ("AvGetSavedDataAddress@0"%bs, 1); ("AvSendTVEncoderOption@16"%bs, 2); ("AvSetDisplayMode@24"%bs, 3);
  ("AvSetSavedDataAddress@4"%bs, 4); ("DbgBreakPoint@0"%bs, 5); ("DbgBreakPointWithStatus@4"%bs, 6);
  ("DbgLoadImageSymbols@12"%bs, 7); ("DbgPrint"%bs, 8); ("HalReadSMCTrayState@8"%bs, 9); ("DbgPrompt@12"%bs, 10);
  ("DbgUnLoadImageSymbols@12"%bs, 11); ("ExAcquireReadWriteLockExclusive@4"%bs, 12);
  ("ExAcquireReadWriteLockShared@4"%bs, 13); ("ExAllocatePool@4"%bs, 14); ("ExAllocatePoolWithTag@8"%bs, 15);
  ("ExEventObjectType"%bs, 16); ("ExFreePool@4"%bs, 17); ("ExInitializeReadWriteLock@4"%bs, 18);
  ("ExInterlockedAddLargeInteger@16"%bs, 19); ("@ExInterlockedAddLargeStatistic@8"%bs, 20);
  ("@ExInterlockedCompareExchange64@12"%bs, 21); ("ExMutantObjectType"%bs, 22); ("ExQueryPoolBlockSize@4"%bs, 23);
  ("ExQueryNonVolatileSetting@20"%bs, 24); ("ExReadWriteRefurbInfo@12"%bs, 25); ("ExRaiseException@4"%bs, 26);
  ("ExRaiseStatus@4"%bs, 27); ("ExReleaseReadWriteLock@4"%bs, 28); ("ExSaveNonVolatileSetting@16"%bs, 29);
  ("ExSemaphoreObjectType"%bs, 30); ("ExTimerObjectType"%bs, 31); ("@ExfInterlockedInsertHeadList@8"%bs, 32);
  ("@ExfInterlockedInsertTailList@8"%bs, 33); ("@ExfInterlockedRemoveHeadList@4"%bs, 34);
  ("FscGetCacheSize@0"%bs, 35); ("FscInvalidateIdleBlocks@0"%bs, 36); ("FscSetCacheSize@4"%bs, 37);
  ("@HalClearSoftwareInterrupt@4"%bs, 38); ("HalDisableSystemInterrupt@4"%bs, 39);
  ("HalDiskCachePartitionCount"%bs, 40); ("HalDiskModelNumber"%bs, 41); ("HalDiskSerialNumber"%bs, 42);
  ("HalEnableSystemInterrupt@8"%bs, 43); ("HalGetInterruptVector@8"%bs, 44); ("HalReadSMBusValue@16"%bs, 45);
  ("HalReadWritePCISpace@24"%bs, 46); ("HalRegisterShutdownNotification@8"%bs, 47);
  ("@HalRequestSoftwareInterrupt@4"%bs, 48); ("HalReturnToFirmware@4"%bs, 49); ("HalWriteSMBusValue@16"%bs, 50);
  ("@InterlockedCompareExchange@12"%bs, 51); ("@InterlockedDecrement@4"%bs, 52); ("@InterlockedIncrement@4"%bs, 53);
  ("@InterlockedExchange@8"%bs, 54); ("@InterlockedExchangeAdd@8"%bs, 55); ("@InterlockedFlushSList@4"%bs, 56);
  ("@InterlockedPopEntrySList@4"%bs, 57); ("@InterlockedPushEntrySList@8"%bs, 58); ("IoAllocateIrp@4"%bs, 59);
  ("IoBuildAsynchronousFsdRequest@24"%bs, 60); ("IoBuildDeviceIoControlRequest@36"%bs, 61);
  ("IoBuildSynchronousFsdRequest@28"%bs, 62); ("IoCheckShareAccess@20"%bs, 63); ("IoCompletionObjectType"%bs, 64);
  ("IoCreateDevice@24"%bs, 65); ("IoCreateFile@40"%bs, 66); ("IoCreateSymbolicLink@8"%bs, 67);
  ("IoDeleteDevice@4"%bs, 68); ("IoDeleteSymbolicLink@4"%bs, 69); ("IoDeviceObjectType"%bs, 70);
  ("IoFileObjectType"%bs, 71); ("IoFreeIrp@4"%bs, 72); ("IoInitializeIrp@12"%bs, 73);
  ("IoInvalidDeviceRequest@8"%bs, 74); ("IoQueryFileInformation@20"%bs, 75); ("IoQueryVolumeInformation@20"%bs, 76);
  ("IoQueueThreadIrp@4"%bs, 77); ("IoRemoveShareAccess@8"%bs, 78); ("IoSetIoCompletion@20"%bs, 79);
  ("IoSetShareAccess@16"%bs, 80); ("IoStartNextPacket@4"%bs, 81); ("IoStartNextPacketByKey@8"%bs, 82);
  ("IoStartPacket@12"%bs, 83); ("IoSynchronousDeviceIoControlRequest@32"%bs, 84);
  ("IoSynchronousFsdRequest@20"%bs, 85); ("@IofCallDriver@8"%bs, 86); ("@IofCompleteRequest@8"%bs, 87);
  ("KdDebuggerEnabled"%bs, 88); ("KdDebuggerNotPresent"%bs, 89); ("IoDismountVolume@4"%bs, 90);
  ("IoDismountVolumeByName@4"%bs, 91); ("KeAlertResumeThread@4"%bs, 92); ("KeAlertThread@8"%bs, 93);
  ("KeBoostPriorityThread@8"%bs, 94); ("KeBugCheck@4"%bs, 95); ("KeBugCheckEx@20"%bs, 96); ("KeCancelTimer@4"%bs, 97);
  ("KeConnectInterrupt@4"%bs, 98); ("KeDelayExecutionThread@12"%bs, 99); ("KeDisconnectInterrupt@4"%bs, 100);
  ("KeEnterCriticalRegion@0"%bs, 101)
].

(** The kernel and memory. *)
Definition kernel_declarations : list (bytes * Z) := [
  ("MmGlobalData"%bs, 102); ("KeGetCurrentIrql@0"%bs, 103); ("KeGetCurrentThread@0"%bs, 104);
  ("KeInitializeApc@28"%bs, 105); ("KeInitializeDeviceQueue@4"%bs, 106); ("KeInitializeDpc@12"%bs, 107);
  ("KeInitializeEvent@12"%bs, 108); ("KeInitializeInterrupt@28"%bs, 109); ("KeInitializeMutant@8"%bs, 110);
  ("KeInitializeQueue@8"%bs, 111); ("KeInitializeSemaphore@12"%bs, 112); ("KeInitializeTimerEx@8"%bs, 113);
  ("KeInsertByKeyDeviceQueue@12"%bs, 114); ("KeInsertDeviceQueue@8"%bs, 115); ("KeInsertHeadQueue@8"%bs, 116);
  ("KeInsertQueue@8"%bs, 117); ("KeInsertQueueApc@16"%bs, 118); ("KeInsertQueueDpc@12"%bs, 119);
  ("KeInterruptTime"%bs, 120); ("KeIsExecutingDpc@0"%bs, 121); ("KeLeaveCriticalRegion@0"%bs, 122);
  ("KePulseEvent@12"%bs, 123); ("KeQueryBasePriorityThread@4"%bs, 124); ("KeQueryInterruptTime@0"%bs, 125);
  ("KeQueryPerformanceCounter@0"%bs, 126); ("KeQueryPerformanceFrequency@0"%bs, 127); ("KeQuerySystemTime@4"%bs, 128);
  ("KeRaiseIrqlToDpcLevel@0"%bs, 129); ("KeRaiseIrqlToSynchLevel@0"%bs, 130); ("KeReleaseMutant@16"%bs, 131);
  ("KeReleaseSemaphore@16"%bs, 132); ("KeRemoveByKeyDeviceQueue@8"%bs, 133); ("KeRemoveDeviceQueue@4"%bs, 134);
  ("KeRemoveEntryDeviceQueue@8"%bs, 135); ("KeRemoveQueue@12"%bs, 136); ("KeRemoveQueueDpc@4"%bs, 137);
  ("KeResetEvent@4"%bs, 138); ("KeRestoreFloatingPointState@4"%bs, 139); ("KeResumeThread@4"%bs, 140);
  ("KeRundownQueue@4"%bs, 141); ("KeSaveFloatingPointState@4"%bs, 142); ("KeSetBasePriorityThread@8"%bs, 143);
  ("KeSetDisableBoostThread@8"%bs, 144); ("KeSetEvent@12"%bs, 145); ("KeSetEventBoostPriority@8"%bs, 146);
  ("KeSetPriorityProcess@8"%bs, 147); ("KeSetPriorityThread@8"%bs, 148); ("KeSetTimer@16"%bs, 149);
  ("KeSetTimerEx@20"%bs, 150); ("KeStallExecutionProcessor@4"%bs, 151); ("KeSuspendThread@4"%bs, 152);
  ("KeSynchronizeExecution@12"%bs, 153); ("KeSystemTime"%bs, 154); ("KeTestAlertThread@4"%bs, 155);
  ("KeTickCount"%bs, 156); ("KeTimeIncrement"%bs, 157); ("KeWaitForMultipleObjects@32"%bs, 158);
  ("KeWaitForSingleObject@20"%bs, 159); ("@KfRaiseIrql@4"%bs, 160); ("@KfLowerIrql@4"%bs, 161);
  ("KiBugCheckData"%bs, 162); ("@KiUnlockDispatcherDatabase@4"%bs, 163); ("LaunchDataPage"%bs, 164);
  ("MmAllocateContiguousMemory@4"%bs, 165); ("MmAllocateContiguousMemoryEx@20"%bs, 166);
  ("MmAllocateSystemMemory@8"%bs, 167); ("MmClaimGpuInstanceMemory@8"%bs, 168); ("MmCreateKernelStack@8"%bs, 169);
  ("MmDeleteKernelStack@8"%bs, 170); ("MmFreeContiguousMemory@4"%bs, 171); ("MmFreeSystemMemory@8"%bs, 172);
  ("MmGetPhysicalAddress@4"%bs, 173); ("MmIsAddressValid@4"%bs, 174); ("MmLockUnlockBufferPages@12"%bs, 175);
  ("MmLockUnlockPhysicalPage@8"%bs, 176); ("MmMapIoSpace@12"%bs, 177); ("MmPersistContiguousMemory@12"%bs, 178);
  ("MmQueryAddressProtect@4"%bs, 179); ("MmQueryAllocationSize@4"%bs, 180); ("MmQueryStatistics@4"%bs, 181);
  ("MmSetAddressProtect@12"%bs, 182); ("MmUnmapIoSpace@8"%bs, 183)
].

(** System calls, objects and processes. *)
Definition object_declarations : list (bytes * Z) := [
  ("NtAllocateVirtualMemory@20"%bs, 184); ("NtCancelTimer@8"%bs, 185); ("NtClearEvent@4"%bs, 186);
  ("NtClose@4"%bs, 187); ("NtCreateDirectoryObject@8"%bs, 188); ("NtCreateEvent@16"%bs, 189);
  ("NtCreateFile@36"%bs, 190); ("NtCreateIoCompletion@16"%bs, 191); ("NtCreateMutant@12"%bs, 192);
  ("NtCreateSemaphore@16"%bs, 193); ("NtCreateTimer@12"%bs, 194); ("NtDeleteFile@4"%bs, 195);
  ("NtDeviceIoControlFile@40"%bs, 196); ("NtDuplicateObject@12"%bs, 197); ("NtFlushBuffersFile@8"%bs, 198);
  ("NtFreeVirtualMemory@12"%bs, 199); ("NtFsControlFile@40"%bs, 200); ("NtOpenDirectoryObject@8"%bs, 201);
  ("NtOpenFile@24"%bs, 202); ("NtOpenSymbolicLinkObject@8"%bs, 203); ("NtProtectVirtualMemory@16"%bs, 204);
  ("NtPulseEvent@8"%bs, 205); ("NtQueueApcThread@20"%bs, 206); ("NtQueryDirectoryFile@40"%bs, 207);
  ("NtQueryDirectoryObject@24"%bs, 208); ("NtQueryEvent@8"%bs, 209); ("NtQueryFullAttributesFile@8"%bs, 210);
  ("NtQueryInformationFile@20"%bs, 211); ("NtQueryIoCompletion@8"%bs, 212); ("NtQueryMutant@8"%bs, 213);
  ("NtQuerySemaphore@8"%bs, 214); ("NtQuerySymbolicLinkObject@12"%bs, 215); ("NtQueryTimer@8"%bs, 216);
  ("NtQueryVirtualMemory@8"%bs, 217); ("NtQueryVolumeInformationFile@20"%bs, 218); ("NtReadFile@32"%bs, 219);
  ("NtReadFileScatter@32"%bs, 220); ("NtReleaseMutant@8"%bs, 221); ("NtReleaseSemaphore@12"%bs, 222);
  ("NtRemoveIoCompletion@20"%bs, 223); ("NtResumeThread@8"%bs, 224); ("NtSetEvent@8"%bs, 225);
  ("NtSetInformationFile@20"%bs, 226); ("NtSetIoCompletion@20"%bs, 227); ("NtSetSystemTime@8"%bs, 228);
  ("NtSetTimerEx@32"%bs, 229); ("NtSignalAndWaitForSingleObjectEx@20"%bs, 230); ("NtSuspendThread@8"%bs, 231);
  ("NtUserIoApcDispatcher@12"%bs, 232); ("NtWaitForSingleObject@12"%bs, 233); ("NtWaitForSingleObjectEx@16"%bs, 234);
  ("NtWaitForMultipleObjectsEx@24"%bs, 235); ("NtWriteFile@32"%bs, 236); ("NtWriteFileGather@32"%bs, 237);
  ("NtYieldExecution@0"%bs, 238); ("ObCreateObject@16"%bs, 239); ("ObDirectoryObjectType"%bs, 240);
  ("ObInsertObject@16"%bs, 241); ("ObMakeTemporaryObject@4"%bs, 242); ("ObOpenObjectByName@16"%bs, 243);
  ("ObOpenObjectByPointer@12"%bs, 244); ("ObpObjectHandleTable"%bs, 245); ("ObReferenceObjectByHandle@12"%bs, 246);
  ("ObReferenceObjectByName@20"%bs, 247); ("ObReferenceObjectByPointer@8"%bs, 248);
  ("ObSymbolicLinkObjectType"%bs, 249); ("@ObfDereferenceObject@4"%bs, 250); ("@ObfReferenceObject@4"%bs, 251);
  ("PhyGetLinkState@4"%bs, 252); ("PhyInitialize@8"%bs, 253); ("PsCreateSystemThread@20"%bs, 254);
  ("PsCreateSystemThreadEx@40"%bs, 255); ("PsQueryStatistics@4"%bs, 256);
  ("PsSetCreateThreadNotifyRoutine@4"%bs, 257); ("PsTerminateSystemThread@4"%bs, 258); ("PsThreadObjectType"%bs, 259)
].

(** The runtime library and what follows it. *)
Definition runtime_declarations : list (bytes * Z) := [
  ("RtlAnsiStringToUnicodeString@12"%bs, 260); ("RtlAppendStringToString@8"%bs, 261);
  ("RtlAppendUnicodeStringToString@8"%bs, 262); ("RtlAppendUnicodeToString@8"%bs, 263); ("RtlAssert@16"%bs, 264);
  ("RtlCaptureContext@4"%bs, 265); ("RtlCaptureStackBackTrace@16"%bs, 266); ("RtlCharToInteger@12"%bs, 267);
  ("RtlCompareMemory@12"%bs, 268); ("RtlCompareMemoryUlong@12"%bs, 269); ("RtlCompareString@12"%bs, 270);
  ("RtlCompareUnicodeString@12"%bs, 271); ("RtlCopyString@8"%bs, 272); ("RtlCopyUnicodeString@8"%bs, 273);
  ("RtlCreateUnicodeString@8"%bs, 274); ("RtlDowncaseUnicodeChar@4"%bs, 275); ("RtlDowncaseUnicodeString@12"%bs, 276);
  ("RtlEnterCriticalSection@4"%bs, 277); ("RtlEnterCriticalSectionAndRegion@4"%bs, 278);
  ("RtlEqualString@12"%bs, 279); ("RtlEqualUnicodeString@12"%bs, 280); ("RtlExtendedIntegerMultiply@12"%bs, 281);
  ("RtlExtendedLargeIntegerDivide@16"%bs, 282); ("RtlExtendedMagicDivide@20"%bs, 283); ("RtlFillMemory@12"%bs, 284);
  ("RtlFillMemoryUlong@12"%bs, 285); ("RtlFreeAnsiString@4"%bs, 286); ("RtlFreeUnicodeString@4"%bs, 287);
  ("RtlGetCallersAddress@8"%bs, 288); ("RtlInitAnsiString@8"%bs, 289); ("RtlInitUnicodeString@8"%bs, 290);
  ("RtlInitializeCriticalSection@4"%bs, 291); ("RtlIntegerToChar@16"%bs, 292);
  ("RtlIntegerToUnicodeString@12"%bs, 293); ("RtlLeaveCriticalSection@4"%bs, 294);
  ("RtlLeaveCriticalSectionAndRegion@4"%bs, 295); ("RtlLowerChar@4"%bs, 296); ("RtlMapGenericMask@8"%bs, 297);
  ("RtlMoveMemory@12"%bs, 298); ("RtlMultiByteToUnicodeN@20"%bs, 299); ("RtlMultiByteToUnicodeSize@12"%bs, 300);
  ("RtlNtStatusToDosError@4"%bs, 301); ("RtlRaiseException@4"%bs, 302); ("RtlRaiseStatus@4"%bs, 303);
  ("RtlTimeFieldsToTime@8"%bs, 304); ("RtlTimeToTimeFields@8"%bs, 305); ("RtlTryEnterCriticalSection@4"%bs, 306);
  ("@RtlUlongByteSwap@4"%bs, 307); ("RtlUnicodeStringToAnsiString@12"%bs, 308);
  ("RtlUnicodeStringToInteger@12"%bs, 309); ("RtlUnicodeToMultiByteN@20"%bs, 310);
  ("RtlUnicodeToMultiByteSize@12"%bs, 311); ("RtlUnwind@16"%bs, 312); ("RtlUpcaseUnicodeChar@4"%bs, 313);
  ("RtlUpcaseUnicodeString@12"%bs, 314); ("RtlUpcaseUnicodeToMultiByteN@20"%bs, 315); ("RtlUpperChar@4"%bs, 316);
  ("RtlUpperString@8"%bs, 317); ("@RtlUshortByteSwap@4"%bs, 318); ("RtlWalkFrameChain@12"%bs, 319);
  ("RtlZeroMemory@8"%bs, 320); ("XboxEEPROMKey"%bs, 321); ("XboxHardwareInfo"%bs, 322); ("XboxHDKey"%bs, 323);
  ("XboxKrnlVersion"%bs, 324); ("XboxSignatureKey"%bs, 325); ("XeImageFileName"%bs, 326); ("XeLoadSection@4"%bs, 327);
  ("XeUnloadSection@4"%bs, 328); ("READ_PORT_BUFFER_UCHAR@12"%bs, 329); ("READ_PORT_BUFFER_USHORT@12"%bs, 330);
  ("READ_PORT_BUFFER_ULONG@12"%bs, 331); ("WRITE_PORT_BUFFER_UCHAR@12"%bs, 332);
  ("WRITE_PORT_BUFFER_USHORT@12"%bs, 333); ("WRITE_PORT_BUFFER_ULONG@12"%bs, 334); ("XcSHAInit@4"%bs, 335);
  ("XcSHAUpdate@12"%bs, 336); ("XcSHAFinal@8"%bs, 337); ("XcRC4Key@12"%bs, 338); ("XcRC4Crypt@12"%bs, 339);
  ("XcHMAC@28"%bs, 340); ("XcPKEncPublic@12"%bs, 341); ("XcPKDecPrivate@12"%bs, 342); ("XcPKGetKeyLen@4"%bs, 343);
  ("XcVerifyPKCS1Signature@12"%bs, 344); ("XcModExp@20"%bs, 345); ("XcDESKeyParity@8"%bs, 346);
  ("XcKeyTable@12"%bs, 347); ("XcBlockCrypt@20"%bs, 348); ("XcBlockCryptCBC@28"%bs, 349);
  ("XcCryptService@8"%bs, 350); ("XcUpdateCrypto@8"%bs, 351); ("RtlRip@12"%bs, 352); ("XboxLANKey"%bs, 353);
  ("XboxAlternateSignatureKeys"%bs, 354); ("XePublicKeyData"%bs, 355); ("HalBootSMCVideoMode"%bs, 356);
  ("IdexChannelObject"%bs, 357); ("HalIsResetOrShutdownPending@0"%bs, 358); ("IoMarkIrpMustComplete@4"%bs, 359);
  ("HalInitiateShutdown@0"%bs, 360); ("RtlSnprintf"%bs, 361); ("RtlSprintf"%bs, 362); ("RtlVsnprintf"%bs, 363);
  ("RtlVsprintf"%bs, 364); ("HalEnableSecureTrayEject@0"%bs, 365); ("HalWriteSMCScratchRegister@4"%bs, 366);
  ("MmDbgAllocateMemory@8"%bs, 374); ("MmDbgFreeMemory@8"%bs, 375); ("MmDbgQueryAvailablePages@0"%bs, 376);
  ("MmDbgReleaseAddress@8"%bs, 377); ("MmDbgWriteCheck@8"%bs, 378)
].

Definition xboxkrnl_declarations : list (bytes * Z) :=
  executive_declarations ++ kernel_declarations ++ object_declarations ++ runtime_declarations.

(** The key of a declaration has an underscore before its name. *)
Definition populate_map (declarations : list (bytes * Z)) : gmap bytes Z :=
  list_to_map (map (λ '(name, ordinal), ("_"%bs ++ name, ordinal)) declarations).

Definition XBDM_Exports : gmap bytes Z := populate_map xbdm_declarations.
Definition XBOXKRNL_Exports : gmap bytes Z := populate_map xboxkrnl_declarations.

(** No name and no ordinal is declared twice, so every declaration is in its map. *)
Lemma declarations_distinct :
  NoDup xbdm_declarations.*1 ∧ NoDup xbdm_declarations.*2
  ∧ NoDup xboxkrnl_declarations.*1 ∧ NoDup xboxkrnl_declarations.*2.
Proof. split_and!; apply (bool_decide_unpack _); vm_compute; exact I. Qed.

Lemma populate_map_lookup declarations name ordinal :
  NoDup declarations.*1 → (name, ordinal) ∈ declarations → populate_map declarations !! ("_"%bs ++ name) = Some ordinal.
Proof.
  intros Hnd Hin. unfold populate_map. apply elem_of_list_to_map_1.
  - replace (map _ declarations).*1 with (map (app "_"%bs) declarations.*1).
    + apply NoDup_fmap_2; [|done]. intros a b Hab. by injection Hab.
    + rewrite <- !list_fmap_compose. by apply list_fmap_ext; intros ? [].
  - apply list_elem_of_fmap. by exists (name, ordinal).
Qed.

Lemma XBOXKRNL_Exports_lookup name ordinal :
  (name, ordinal) ∈ xboxkrnl_declarations → XBOXKRNL_Exports !! ("_"%bs ++ name) = Some ordinal.
Proof. apply populate_map_lookup, declarations_distinct. Qed.
