(* ===== verification/DxtRequests.v ===== *)
(** * Requests of the loader (src/dyndxt_loader/dyndxt_requests.h, .cpp, ResolveExportList)

    The requests that invoke handlers on the console.  A class that sends binary
    data is the request with its payload. *)

From S2P Require Import Prelude CLib Boost Parsing RdcpResponse RdcpMaps RdcpTypes StopReasons RdcpRequest Requests.

(** [if (!args.empty()) { SetData(separator + args); }] *)
Definition with_args (separator args : bytes) (r : RDCPRequest) : RDCPRequest :=
  when (negb (bool_decide (args = []))) (SetData (separator ++ args)) r.

Definition InvokeSimple (command args : bytes) : RDCPRequest := request command |> with_args " "%bs args.
Definition InvokeMultiline (command args : bytes) : RDCPRequest := request command |> with_args " "%bs args.
Definition InvokeMultiline_class : RequestClass unit := MkClass ok_multiline default_ProcessResponse.

(** The length is that of the parameter, which was moved to the payload and is
    empty by then. *)
Definition InvokeSendBinary (command binary args : bytes) : RDCPRequest * bytes :=
  (request command |> SetData "length="%bs |> AppendHexString 0
   |> when (negb (bool_decide (args = []))) (λ r, r |> AppendData " "%bs |> AppendData args), binary).

Definition InvokeSendKnownSizeBinary (command binary args : bytes) : RDCPRequest * bytes :=
  (request command |> with_args [] args, binary).

(** [response_data.insert(begin(), ...)] *)
Definition prepend_data : StatusCode → RDCPResponse → bytes → option bytes :=
  if_ok ok_binary (λ response data, Some (RdcpResponse.data_ response ++ data)).

Definition InvokeReceiveSizePrefixedBinary (command args : bytes) : RDCPRequest := request command |> with_args [] args.
Definition InvokeReceiveSizePrefixedBinary_size {S} : ReadBinarySizeFunc S := BinarySizeInt32Prefix.
Definition InvokeReceiveSizePrefixedBinary_class : RequestClass bytes := MkClass ok_binary prepend_data.

Definition InvokeReceiveKnownSizedBinary (command args : bytes) : RDCPRequest :=
  request command |> when (negb (bool_decide (args = []))) (AppendData args).
Definition InvokeReceiveKnownSizedBinary_size {S} (size : Z) : ReadBinarySizeFunc S := fixed_size size.
Definition InvokeReceiveKnownSizedBinary_class : RequestClass bytes := MkClass ok_binary prepend_data.

Definition LoadDynDXT (dll_image : bytes) : option (RDCPRequest * bytes) :=
  if Z.of_nat (length dll_image) <? 0xFFFFFFFF then
    Some (request "ddxt!load"%bs |> SetData " size="%bs |> AppendHexString (payload_size dll_image), dll_image)
  else None.

Definition Reserve (image_size : Z) : RDCPRequest :=
  request "ddxt!reserve"%bs |> SetData " size="%bs |> AppendHexString image_size.
Definition Reserve_class `{!Boost} : RequestClass Z :=
  MkClass default_IsOK (if_ok default_IsOK (λ response _,
    parsed ← RDCPMapResponse_of (RdcpResponse.data_ response); Some (GetDWORD "addr"%bs 0 parsed))).

Definition InstallImage (image_base : Z) (buffer : bytes) (tls_callbacks : list Z) (entrypoint : Z)
  : option (RDCPRequest * bytes) :=
  match tls_callbacks with
  | [] =>
    Some (request "ddxt!install"%bs |> SetData " base="%bs |> AppendHexString image_base
          |> AppendData " length="%bs |> AppendHexString (payload_size buffer)
          |> AppendData " entrypoint="%bs |> AppendHexString entrypoint, buffer)
  | _ => None
  end.

Definition RegisterExport (module_name : bytes) (ordinal address : Z) (export_name : bytes) : RDCPRequest :=
  request "ddxt!export"%bs |> SetData (opening " module="%bs) |> AppendData module_name
  |> AppendData (closing " ordinal="%bs) |> AppendHexString ordinal
  |> AppendData " addr="%bs |> AppendHexString address
  |> when (negb (bool_decide (export_name = [])))
       (λ r, r |> AppendData (opening " name="%bs) |> AppendData export_name |> AppendData [quote]).

(** ** Resolving exports *)

(** A resolution table: ordinals by the address of their library, in ascending
    order of these. *)
Definition ResolutionTable (R : Type) := list (Z * list R).

(** The request for a table; [ordinal_of] is the ordinal of an entry. *)
Definition append_block {R} (ordinal_of : R → Z) (r : RDCPRequest) (block : Z * list R) : RDCPRequest :=
  foldl (λ r entry, r |> AppendData " o="%bs |> AppendHexString (ordinal_of entry))
    (r |> AppendData " b="%bs |> AppendHexString block.1) block.2.

Definition ResolveExportList {R} (ordinal_of : R → Z) (table : ResolutionTable R) : RDCPRequest :=
  foldl (append_block ordinal_of) (request "ldxt!r"%bs |> SetData []) table.

(** The entries the answer has an address for, in the order of the addresses. *)
Definition out_vector {R} (table : ResolutionTable R) : list R := concat table.*2.

Definition ResolveExportList_size {S R} (table : ResolutionTable R) : ReadBinarySizeFunc S :=
  fixed_size (u32 (4 * Z.of_nat (length (out_vector table)))).

(** So many [uint32_t] from the front of the data; reading beyond it is
    undefined. *)
Fixpoint read_addresses (n : nat) (data : bytes) : option (list Z) :=
  match n with
  | O => Some []
  | S n =>
    if (length data <? 4)%nat then None
    else rest ← read_addresses n (drop 4 data); Some (le_int (take 4 data) :: rest)
  end.

(** The members are the addresses that [out_vector] receives. *)
Definition ResolveExportList_class (n : nat) : RequestClass (list Z) :=
  MkClass ok_binary (if_ok ok_binary (λ response _, read_addresses n (RdcpResponse.data_ response))).

Lemma read_addresses_spec addresses : Forall is_u32 addresses →
  read_addresses (length addresses) (concat (map (le_bytes 4) addresses)) = Some addresses.
Proof.
  induction 1 as [|a l Ha Hl IH]; [done|]. cbn [length map concat read_addresses].
  rewrite length_app, le_bytes_length. rewrite (proj2 (Nat.ltb_ge _ _)) by lia.
  rewrite drop_app_length' by (by rewrite le_bytes_length). rewrite IH. cbn [mbind option_bind].
  rewrite take_app_length' by (by rewrite le_bytes_length). by rewrite le_int_bytes.
Qed.

(** The text of the parameters. *)
Definition block_text {R} (ordinal_of : R → Z) (block : Z * list R) : bytes :=
  " b="%bs ++ hex_param block.1 ++ concat (map (λ entry, " o="%bs ++ hex_param (ordinal_of entry)) block.2).

Lemma AppendData_twice a b r : AppendData b (AppendData a r) = AppendData (a ++ b) r.
Proof. unfold AppendData. cbn. by rewrite app_assoc. Qed.

Lemma append_entries_text {R} (ordinal_of : R → Z) entries : ∀ r,
  foldl (λ r entry, r |> AppendData " o="%bs |> AppendHexString (ordinal_of entry)) r entries
  = AppendData (concat (map (λ entry, " o="%bs ++ hex_param (ordinal_of entry)) entries)) r.
Proof.
  induction entries as [|e entries IH]; intros r; cbn [foldl map concat].
  - unfold AppendData. by destruct r; cbn; rewrite app_nil_r.
  - by rewrite IH, AppendHexString_spec, !AppendData_twice.
Qed.

Lemma append_block_text {R} (ordinal_of : R → Z) r block :
  append_block ordinal_of r block = AppendData (block_text ordinal_of block) r.
Proof.
  unfold append_block, block_text. rewrite append_entries_text, AppendHexString_spec, !AppendData_twice. by rewrite ?app_assoc.
Qed.

Lemma append_blocks_text {R} (ordinal_of : R → Z) c table : ∀ front,
  foldl (append_block ordinal_of) (MkRequest c front) table
  = MkRequest c (front ++ concat (map (block_text ordinal_of) table)).
Proof.
  induction table as [|b table IH]; intros front; cbn [foldl map concat]; [by rewrite app_nil_r|].
  rewrite append_block_text. unfold AppendData at 1. cbn [command_ request_data_]. by rewrite IH, app_assoc.
Qed.

Lemma ResolveExportList_text {R} (ordinal_of : R → Z) table :
  ResolveExportList ordinal_of table = MkRequest "ldxt!r"%bs (concat (map (block_text ordinal_of) table)).
Proof. apply (append_blocks_text ordinal_of "ldxt!r"%bs table []). Qed.

Lemma block_text_length {R} (ordinal_of : R → Z) block :
  length (block_text ordinal_of block) = (13 + 13 * length block.2)%nat.
Proof.
  unfold block_text. rewrite !length_app, hex_param_length. change (length " b="%bs) with 3%nat.
  enough (∀ l : list R, length (concat (map (λ entry, " o="%bs ++ hex_param (ordinal_of entry)) l)) = (13 * length l)%nat) as -> by lia.
  intros l. induction l as [|e l IH]; [done|]. cbn [map concat]. rewrite !length_app, hex_param_length, IH. cbn. lia.
Qed.

(** ** Parameters read back *)

(** What a server reads from the text of a table, parameter by parameter: [b=]
    names the library of the [o=] after it. *)
Fixpoint read_table (base : Z) (params : list bytes) : option (list (Z * Z)) :=
  match params with
  | [] => Some []
  | param :: params' =>
    match param with
    | name :: _ :: text =>
      value ← MaybeParseUint32 text;
      if decide (name = "b"%byte) then read_table value params'
      else rest ← read_table base params'; Some ((base, value) :: rest)
    | _ => None
    end
  end.

Definition params {R} (ordinal_of : R → Z) (table : ResolutionTable R) : list bytes :=
  concat (map (λ block, ("b="%bs ++ hex_param block.1) :: map (λ entry, "o="%bs ++ hex_param (ordinal_of entry)) block.2) table).

Lemma params_text {R} (ordinal_of : R → Z) table :
  concat (map (block_text ordinal_of) table) = concat (map (app [space]) (params ordinal_of table)).
Proof.
  induction table as [|[b es] table IH]; [done|]. unfold params in *. cbn [map concat app fst snd]. rewrite IH, map_app, concat_app.
  unfold block_text. cbn [fst snd]. rewrite <- !app_assoc. do 3 f_equal. rewrite map_map. done.
Qed.

Section Exchange.
Context `{HB : !BoostLaws B}.

Lemma split_spaces ps : Forall (λ p, space ∉ p) ps →
  ∀ p, space ∉ p → split_any_of [space] (p ++ concat (map (app [space]) ps)) = p :: ps.
Proof.
  assert (∀ p, space ∉ p → Forall (.∉ [space]) p) as Hout.
  { intros p Hp. apply Forall_forall. intros c Hc ->%list_elem_of_singleton. done. }
  induction 1 as [|q ps Hq Hps IH]; intros p Hp; cbn [map concat].
  - rewrite app_nil_r. apply split_any_of_none. auto.
  - cbn [app]. rewrite split_any_of_some; [|auto|apply list_elem_of_here]. by rewrite IH.
Qed.

Lemma read_table_params {R} (ordinal_of : R → Z) table base :
  Forall (λ block, is_u32 block.1 ∧ Forall (λ e, is_u32 (ordinal_of e)) block.2) table →
  read_table base (params ordinal_of table) = Some (concat (map (λ block, map (λ e, (block.1, ordinal_of e)) block.2) table)).
Proof.
  assert (∀ v, is_u32 v → MaybeParseUint32 (hex_param v) = Some v) as Hread.
  { intros v Hv. unfold hex_param. rewrite u32_id by done. by apply MaybeParseUint32_hex. }
  intros Hall. revert base. induction Hall as [|[b es] table [Hb Hes] Hall IH]; intros base; [done|].
  unfold params in *. cbn [map concat fst snd] in *. rewrite <- app_comm_cons.
  change ("b="%bs ++ hex_param b) with ("b"%byte :: "="%byte :: hex_param b). cbn [read_table]. rewrite Hread by done.
  cbn [mbind option_bind]. rewrite decide_True by done.
  induction Hes as [|e es He Hes IHes]; cbn [map app]; [apply IH|].
  change ("o="%bs ++ hex_param (ordinal_of e)) with ("o"%byte :: "="%byte :: hex_param (ordinal_of e)). cbn [read_table].
  rewrite Hread by done. cbn [mbind option_bind]. rewrite decide_False by done. by rewrite IHes.
Qed.

(** The request that resolves imports is understood and its answer reaches the
    imports: a server that reads the parameters gets, in order, the library and the
    ordinal of every entry of the table, and when it answers with one address for
    each the entries receive these. *)
Theorem ResolveExportList_exchange {R} (ordinal_of : R → Z) (table : ResolutionTable R) (addresses : list Z) message
  (Htable : Forall (λ block, is_u32 block.1 ∧ Forall (λ e, is_u32 (ordinal_of e)) block.2) table)
  (Haddr : Forall is_u32 addresses) (Hlen : length addresses = length (out_vector table)) :
  let request := ResolveExportList ordinal_of table in
  let response := MkResponse OK_BINARY_RESPONSE message (concat (map (le_bytes 4) addresses)) in
  read_table 0 (drop 1 (split_any_of [space] (request_data_ request)))
  = Some (concat (map (λ block, map (λ e, (block.1, ordinal_of e)) block.2) table))
  ∧ Complete (ResolveExportList_class (length (out_vector table))) response (processed request [])
    = Some (MkProcessed request OK_BINARY_RESPONSE message addresses).
Proof.
  intros request response. split.
  - unfold request. rewrite ResolveExportList_text. cbn [request_data_]. rewrite params_text.
    change (concat (map (app [space]) (params ordinal_of table))) with ([] ++ concat (map (app [space]) (params ordinal_of table))).
    rewrite split_spaces; [by apply read_table_params| |apply not_elem_of_nil].
    unfold params. apply Forall_concat, Forall_fmap, Forall_forall. intros [b es] _. cbn.
    assert (∀ c v, c ≠ space → space ∉ c :: "="%byte :: hex_param v) as Hno.
    { intros c v Hc. rewrite !not_elem_of_cons. split_and!; [congruence|done|by apply hex_param_misses]. }
    constructor; [by apply Hno|]. apply Forall_fmap, Forall_forall. intros e _. by apply Hno.
  - unfold Complete. cbn. rewrite <- Hlen. by rewrite read_addresses_spec.
Qed.
End Exchange.

Lemma ResolveExportList_exchange_witness :
  let B := Boost_reference.boost_reference in
  let table := [(0xB0010000, [9; 2]); (0x80010000, [165])] in
  let request := ResolveExportList id table in
  let response := MkResponse OK_BINARY_RESPONSE [] (concat (map (le_bytes 4) [0xB0011234; 0xB0015678; 0x80012222])) in
  read_table 0 (drop 1 (split_any_of [space] (request_data_ request)))
  = Some (concat (map (λ block, map (λ e, (block.1, id e)) block.2) table))
  ∧ Complete (ResolveExportList_class (length (out_vector table))) response (processed request [])
    = Some (MkProcessed request OK_BINARY_RESPONSE [] [0xB0011234; 0xB0015678; 0x80012222]).
Proof.
  intros B. apply (@ResolveExportList_exchange B Boost_reference.boost_reference_laws);
    [repeat constructor; unfold is_u32; cbn; lia|repeat constructor; lia|reflexivity].
Defined.

(** The length that is announced is 0 whatever is sent, and stands right behind the
    command. *)
Lemma InvokeSendBinary_length command binary :
  request_line (InvokeSendBinary command binary []).1 = command ++ "length=0x00000000"%bs ++ kTerminator.
Proof. reflexivity. Qed.
