(* ===== verification/DxtLoader.v ===== *)
(** * The loader of libraries (src/dyndxt_loader/loader.h, loader.cpp, dll_linker.cpp)

    The loader patches a function of the debug monitor with its first stage, lets
    that allocate memory for the second, installs the third as a library it
    relocates itself and restores the function.  The three binaries are generated
    when the program is built; the debugger is attached. *)

From S2P Require Import Prelude CLib Boost Parsing RdcpResponse RdcpMaps RdcpTypes RdcpRequest Requests Notifications Target.
From S2P Require Import DebuggerMemory DebuggerThread DebuggerThreads Debugger DebuggerControl.
From S2P Require Import DxtLibrary DxtExports DxtRequests.

Record Loader := MkLoader {
  module_base_addresses_ : gmap bytes Z;
  module_export_names_ : gmap bytes (gmap bytes Z);
  module_exports_ : gmap bytes (gmap Z Z)
}.

Definition new_loader : Loader := MkLoader ∅ ∅ ∅.

Definition with_base_addresses (m : gmap bytes Z) (l : Loader) : Loader :=
  MkLoader m (module_export_names_ l) (module_exports_ l).
Definition with_export_names (m : gmap bytes (gmap bytes Z)) (l : Loader) : Loader :=
  MkLoader (module_base_addresses_ l) m (module_exports_ l).
Definition with_exports (m : gmap bytes (gmap Z Z)) (l : Loader) : Loader :=
  MkLoader (module_base_addresses_ l) (module_export_names_ l) m.

Definition GetExport (module : bytes) (ordinal : Z) (l : Loader) : Z :=
  default 0 (exports ← module_exports_ l !! module; exports !! ordinal).

(** ** Exports of a loaded library *)

Definition kPEHeaderPointer : Z := 0x3C.
Definition kExportTableOffset : Z := 0x78.
Definition kExportNumFunctionsOffset : Z := 0x14.
Definition kExportDirectoryAddressOfFunctionsOffset : Z := 0x1C.

Section Debugger_.
Context `{!Boost} {C E : Type} `{!Target C E, !Listeners C E}.
Abbreviation D := (M (XBDMDebugger * E)).

Definition read_dword (address : Z) : D (option Z) := on_memory (GetDWORD (u32 address)).

(** [if (!x.has_value()) return std::nullopt;] *)
Definition with_value {A} (m : D (option A)) (k : A → D (option Z)) : D (option Z) :=
  x ← m; match x with Some a => k a | None => mret None end.

(** [None] when [assert(ordinal > 0)] fails. *)
Definition GetExportAddress (ordinal image_base : Z) : D (option Z) :=
  if ordinal =? 0 then mfail
  else
    with_value (read_dword (image_base + kPEHeaderPointer)) (λ pe_header,
    with_value (read_dword (image_base + pe_header + kExportTableOffset)) (λ export_table,
    let export_table_base := u32 (image_base + export_table) in
    with_value (read_dword (export_table_base + kExportNumFunctionsOffset)) (λ num_exports,
    let index := u32 (ordinal - 1) in
    if num_exports <=? index then mret None
    else
      with_value (read_dword (export_table_base + kExportDirectoryAddressOfFunctionsOffset)) (λ export_address_offset,
      with_value (read_dword (image_base + export_address_offset + index * 4)) (λ function_address,
      mret (Some (u32 (image_base + function_address)))))))).

(** The table with the export added, [None] when it cannot be resolved. *)
Definition FetchExport (ordinal : Z) (ordinal_to_address : gmap Z Z) (image_base : Z) : D (option (gmap Z Z)) :=
  match ordinal_to_address !! ordinal with
  | Some _ => mret (Some ordinal_to_address)
  | None =>
    address ← GetExportAddress ordinal image_base;
    mret (match address with Some a => Some (<[ordinal := a]> ordinal_to_address) | None => None end)
  end.
End Debugger_.

(** ** Writing without the debugger *)

Section Context_.
Context `{!Boost} {C E : Type} `{!Target C E}.

Definition set_slice (address : Z) (data : bytes) : M E bool :=
  request ← lift_option (SetMem address data); plain_command request.

(** The slices of a long write; the fuel is the number of bytes left. *)
Fixpoint set_slices (fuel : nat) (address : Z) (data : bytes) : M E bool :=
  match fuel with
  | O => mfail
  | S fuel =>
    match data with
    | [] => mret true
    | _ =>
      ok ← set_slice address (take (Z.to_nat kMaximumDataSize) data);
      if ok : bool then set_slices fuel (u32 (address + kMaximumDataSize)) (drop (Z.to_nat kMaximumDataSize) data)
      else mret false
    end
  end.

Definition SetMemoryUnsafe (address : Z) (data : bytes) : M E bool :=
  if Z.of_nat (length data) <=? kMaximumDataSize then set_slice address data
  else set_slices (S (length data)) address data.

Definition InvokeL1Bootstrap (parameter : Z) : M E bool := plain_command (Requests.Resume parameter).

Definition L2BootstrapAllocate (image_size : Z) : M E Z :=
  done ← SendCommandSync plain_class (InvokeSimple "ldxt!a"%bs (snprintf 32 ("s=0x"%bs ++ fmt_x image_size))) None tt;
  if negb (IsOK plain_class (status done)) then mret 0
  else
    match find_sub "base="%bs (message done) with
    | None => mret 0
    | Some base_param =>
      let '(ok, target) := MaybeParseHexInt u32 (drop (base_param + 5) (message done)) in
      mret (if ok : bool then target else 0)
    end.

Definition L2BootstrapInstall (entrypoint : Z) (image : bytes) : M E bool :=
  let '(request, payload) := InvokeSendKnownSizeBinary "ldxt!i"%bs image (snprintf 32 (" e=0x"%bs ++ fmt_x entrypoint)) in
  '(ok, _) ← command plain_class request (Some payload) tt; mret ok.
End Context_.

(** ** Splitting a resolution table *)

Definition COMMAND_LEN : Z := 7.
Definition ADDR_LEN : Z := 13.

(** The tables so far, the one being filled and the room left in it. *)
Record Splitting (R : Type) := MkSplitting { full : list (ResolutionTable R); current : ResolutionTable R; remaining_length : Z }.
Arguments MkSplitting {R} _ _ _.
Arguments full {R} _.
Arguments current {R} _.
Arguments remaining_length {R} _.

Section Splitting_.
Context {R : Type}.

Definition room : Z := u32 (MAXIMUM_SEND_LENGTH - COMMAND_LEN).
Definition start_splitting : Splitting R := MkSplitting [] [] room.

Definition new_table (s : Splitting R) : Splitting R := MkSplitting (full s ++ [current s]) [] room.
Definition new_entry (image_base : Z) (s : Splitting R) : Splitting R :=
  MkSplitting (full s) (current s ++ [(image_base, [])]) (remaining_length s).
Definition take_room (s : Splitting R) : Splitting R :=
  MkSplitting (full s) (current s) (u32 (remaining_length s - ADDR_LEN)).

(** [values->emplace_back(req)] on the entry made last. *)
Definition add_value (req : R) (s : Splitting R) : Splitting R :=
  MkSplitting (full s) (alter (λ entry, (entry.1, entry.2 ++ [req])) (length (current s) - 1)%nat (current s)) (remaining_length s).

Definition split_request (image_base : Z) (s : Splitting R) (req : R) : Splitting R :=
  let s := add_value req (take_room s) in
  if remaining_length s <=? ADDR_LEN then new_entry image_base (new_table s) else s.

Definition split_entry (s : Splitting R) (entry : Z * list R) : Splitting R :=
  foldl (split_request entry.1) (new_entry entry.1 (take_room s)) entry.2.

Definition SplitResolutionTable (resolution_table : ResolutionTable R) : list (ResolutionTable R) :=
  let s := foldl split_entry start_splitting resolution_table in full s ++ [current s].
End Splitting_.

(** ** The loader *)

Section Loader_.
Context `{!Boost} {C E : Type} `{!Target C E, !Listeners C E}.
(** the generated binaries *)
Context (kBootstrapL1 kBootstrapL2 kDynDXTLoader : bytes).
Abbreviation L := (M (Loader * (XBDMDebugger * E))).

Definition on_loader (f : Loader → Loader) : L unit := on_left (modify f).
Definition on_debugger {A} (m : M (XBDMDebugger * E) A) : L A := on_right m.
Definition on_context {A} (m : M E A) : L A := on_right (on_target m).

Definition FetchBaseAddress (module_name : bytes) : L bool :=
  l ← gets fst;
  match module_base_addresses_ l !! module_name with
  | Some _ => mret true
  | None =>
    module ← on_debugger (GetModule module_name);
    match module with
    | None => mret false
    | Some module =>
      on_loader (λ l, with_exports (<[module_name := ∅]> (module_exports_ l))
                        (with_base_addresses (<[module_name := module_base module]> (module_base_addresses_ l)) l)) ;;
      mret true
    end
  end.

(** A request names the import it is for by its index. *)
Record ResolveRequest := MkResolve { resolve_ordinal : Z; out : nat }.

Definition with_real_address (a : Z) (i : DXTLibraryImport) : DXTLibraryImport :=
  MkImport (ordinal i) (import_name i) (function_address i) a.
Definition set_address (imports : list DXTLibraryImport) (entry : nat * Z) : list DXTLibraryImport :=
  alter (with_real_address entry.2) entry.1 imports.

(** The tables one after the other; the imports as they are then. *)
Fixpoint resolve_tables (tables : list (ResolutionTable ResolveRequest)) (imports : list DXTLibraryImport)
  : L (bool * list DXTLibraryImport) :=
  match tables with
  | [] => mret (true, imports)
  | table :: tables' =>
    let outs := map out (out_vector table) in
    '(ok, addresses) ← on_context (command (ResolveExportList_class (length outs)) (ResolveExportList resolve_ordinal table) None []);
    if negb ok then mret (false, imports)
    else
      let imports := foldl set_address imports (zip outs addresses) in
      if forallb (λ i, match imports !! i with Some import => negb (real_address import =? 0) | None => false end) outs
      then resolve_tables tables' imports
      else mret (false, imports)
  end.

Definition BulkResolve (resolution_table : ResolutionTable ResolveRequest) (imports : list DXTLibraryImport)
  : L (bool * list DXTLibraryImport) := resolve_tables (SplitResolutionTable resolution_table) imports.

(** The ordinal of an import, [Some None] when there are no names for the module; a
    name that is not in the table is reported and then used all the same, which is
    undefined. *)
Definition import_ordinal (module_name : bytes) (import : DXTLibraryImport) (l : Loader) : option (option Z) :=
  if decide (import_name import = []) then Some (Some (ordinal import))
  else
    match module_export_names_ l !! module_name with
    | None => Some None
    | Some names => ordinal ← names !! import_name import; Some (Some ordinal)
    end.

(** The imports that the table of exports knows, and requests for the others. *)
Fixpoint lookup_imports (module_name : bytes) (exports : gmap Z Z) (i : nat) (imports : list DXTLibraryImport)
  (l : Loader) : option (bool * list DXTLibraryImport * list ResolveRequest) :=
  match imports with
  | [] => Some (true, [], [])
  | import :: imports' =>
    o ← import_ordinal module_name import l;
    match o with
    | None => Some (false, imports, [])
    | Some ordinal =>
      let '(address, request) :=
        match exports !! ordinal with
        | Some address => (address, [])
        | None => (0, [MkResolve ordinal i])
        end in
      '(ok, done, requests) ← lookup_imports module_name exports (S i) imports' l;
      Some (ok, with_real_address address import :: done, request ++ requests)
    end
  end.

Definition ResolveImports (module_name : bytes) (imports : list DXTLibraryImport) : L (bool * list DXTLibraryImport) :=
  fetched ← FetchBaseAddress module_name;
  if negb fetched then mret (false, imports)
  else
    l ← gets fst;
    let base_address := default 0 (module_base_addresses_ l !! module_name) in
    exports ← lift_option (module_exports_ l !! module_name);
    '(ok, imports, requests) ← lift_option (lookup_imports module_name exports 0 imports l);
    if negb ok then mret (false, imports)
    else
      match requests with
      | [] => mret (true, imports)
      | _ => BulkResolve [(base_address, requests)] imports
      end.

(** *** Installing *)

(** The last four bytes of the first stage. *)
Definition io_address (l : Loader) : Z :=
  u32 (GetExport "xbdm.dll"%bs XBDM_DmResumeThread l + Z.of_nat (length kBootstrapL1) - 4).

Definition L1BootstrapAllocatePool (size : Z) : L Z :=
  l ← gets fst;
  sent ← on_context (SetMemoryUnsafe (io_address l) (le_bytes 4 size));
  if negb sent then mret 0
  else
    invoked ← on_context (InvokeL1Bootstrap (GetExport "xbdm.dll"%bs XBDM_DmAllocatePoolWithTag l));
    if negb invoked then mret 0
    else
      target_address ← on_debugger (on_memory (GetDWORD (io_address l)));
      mret (default 0 target_address).

Definition SetL1LoaderExecuteMode : L bool :=
  l ← gets fst; on_context (SetMemoryUnsafe (io_address l) (le_bytes 4 0)).

(** The second stage with its import table, the last three dwords. *)
Definition patched_l2 (l : Loader) : option bytes :=
  if (length kBootstrapL2 <? 12)%nat then None
  else
    Some (take (length kBootstrapL2 - 12) kBootstrapL2
          ++ le_bytes 4 (GetExport "xbdm.dll"%bs XBDM_DmFreePool l)
          ++ le_bytes 4 (GetExport "xbdm.dll"%bs XBDM_DmAllocatePoolWithTag l)
          ++ le_bytes 4 (GetExport "xbdm.dll"%bs XBDM_DmRegisterCommandProcessor l)).

Definition InstallL2Loader : L bool :=
  l ← gets fst;
  bootstrap_l2 ← lift_option (patched_l2 l);
  l2_entrypoint ← L1BootstrapAllocatePool (u32 (Z.of_nat (length bootstrap_l2)));
  if l2_entrypoint =? 0 then mret false
  else
    uploaded ← on_context (SetMemoryUnsafe l2_entrypoint bootstrap_l2);
    if negb uploaded then mret false
    else
      executes ← SetL1LoaderExecuteMode;
      if negb executes then mret false else on_context (InvokeL1Bootstrap l2_entrypoint).

(** The imports of one library after the other. *)
Fixpoint resolve_all (todo done : Imports) : L (bool * Imports) :=
  match todo with
  | [] => mret (true, done)
  | (name, imports) :: todo' =>
    '(ok, imports) ← ResolveImports name imports;
    if ok : bool then resolve_all todo' (done ++ [(name, imports)]) else mret (false, done ++ (name, imports) :: todo')
  end.

Definition finished {A} (e : ending A) : L A := match e with Ends a => mret a | _ => mfail end.

Definition InstallDynamicDXTLoader : L bool :=
  '(parsed, lib) ← lift_option (Parse (new_library (MkStream kDynDXTLoader 0 true false)));
  if negb parsed then mret false
  else
    '(resolved, imports) ← resolve_all (GetImports lib) [];
    if negb resolved then mret false
    else
      let lib := with_imports imports lib in
      target ← on_context (L2BootstrapAllocate (GetImageSize lib));
      if target =? 0 then mret false
      else
        '(relocated, lib) ← finished (Relocate target lib);
        if negb relocated then mret false
        else
          installed ← on_context (L2BootstrapInstall (GetEntrypoint lib) (GetImage lib));
          if negb installed then mret false
          else
            initializers ← lift_option (GetTLSInitializers lib);
            mret (match initializers with [] => true | _ => false end).

(** [RESOLVE(ordinal, table, base)] for each of the exports the stages use. *)
Fixpoint resolve_exports (ordinals : list Z) (base : Z) : L bool :=
  match ordinals with
  | [] => mret true
  | ordinal :: ordinals' =>
    l ← gets fst;
    table ← on_debugger (FetchExport ordinal (default ∅ (module_exports_ l !! "xbdm.dll"%bs)) base);
    match table with
    | None => mret false
    | Some table =>
      on_loader (λ l, with_exports (<["xbdm.dll"%bs := table]> (module_exports_ l)) l) ;;
      resolve_exports ordinals' base
    end
  end.

(** The second stage is installed while the first stands in for a function, which
    is restored in any case. *)
Definition with_bootstrap (kDmResumeThread : Z) (body : L bool) : L (option bool) :=
  original_function ← on_debugger (on_memory (GetMemory kDmResumeThread (Z.of_nat (length kBootstrapL1)) true));
  match original_function with
  | None => mret None
  | Some original_function =>
    patched ← on_context (SetMemoryUnsafe kDmResumeThread kBootstrapL1);
    if negb patched then mret None
    else
      ret ← body;
      restored ← on_context (SetMemoryUnsafe kDmResumeThread original_function);
      mret (if restored : bool then Some ret else None)
  end.

Definition inject_loader : L bool :=
  halted ← on_debugger (HaltAll kDefaultHaltAllMaxWaitMilliseconds);
  xbdm ← FetchBaseAddress "xbdm.dll"%bs;
  if negb xbdm then mret false
  else
    kernel ← FetchBaseAddress "xboxkrnl.exe"%bs;
    if negb kernel then mret false
    else
      on_loader (λ l, with_export_names
        (<["xboxkrnl.exe"%bs := XBOXKRNL_Exports]> (<["xbdm.dll"%bs := XBDM_Exports]> (module_export_names_ l))) l) ;;
      l ← gets fst;
      resolved ← resolve_exports
        [XBDM_DmResumeThread; XBDM_DmAllocatePoolWithTag; XBDM_DmFreePool; XBDM_DmRegisterCommandProcessor]
        (default 0 (module_base_addresses_ l !! "xbdm.dll"%bs));
      if negb resolved then mret false
      else
        l ← gets fst;
        ret ← with_bootstrap (GetExport "xbdm.dll"%bs XBDM_DmResumeThread l) InstallL2Loader;
        match ret with
        | Some true => InstallDynamicDXTLoader
        | _ => mret false
        end.

Definition scoped_resume {A} (body : L A) : L A := λ '(l, s),
  '((a, l'), s') ← ScopedResume (λ s, '(a, (l', s')) ← body (l, s); Some ((a, l'), s')) s; Some (a, (l', s')).

Definition InjectLoader : L bool := scoped_resume inject_loader.

(** ** The interface of the loader *)

Abbreviation G := (M (option Loader * (XBDMDebugger * E))).

(** A method of the loader there is, made if there is none. *)
Definition on_singleton {A} (m : L A) : G A := λ '(singleton_, s),
  '(a, (l, s)) ← m (default new_loader singleton_, s); Some (a, (Some l, s)).

Definition Bootstrap : G bool :=
  on_singleton (mret tt) ;;
  '(running, _) ← on_right (on_target (command InvokeMultiline_class (InvokeMultiline "ddxt!hello"%bs []) None tt));
  if running : bool then mret true
  else
    ret ← on_singleton InjectLoader;
    (if ret : bool then mret tt else on_left (put None)) ;;
    mret ret.

(** The console relocates the library itself. *)
Definition InstallDynDXT (data : bytes) : G bool :=
  match data with
  | [] => mret false
  | _ =>
    '(request, payload) ← lift_option (LoadDynDXT data);
    '(ok, _) ← on_right (on_target (command plain_class request (Some payload) tt));
    mret ok
  end.

Definition Install (data : bytes) : G bool :=
  running ← Bootstrap;
  if negb running then mret false else InstallDynDXT data.

(** [file] is what can be read of the file, [None] when it cannot. *)
Definition Load (file : option bytes) : G bool :=
  running ← Bootstrap;
  if negb running then mret false
  else match file with None => mret false | Some data => InstallDynDXT data end.
End Loader_.
