(* ===== verification/DxtMemory.v ===== *)
(** * What the loader asks for and what it leaves in memory

    The table of the imports is split into lines the debug monitor accepts, and no
    request is lost.  Long writes go in slices; the exports of a loaded library are found in the program's own
    bytes whatever breakpoints are set, and the function the first stage is put in place
    of is restored. *)

From S2P Require Import Prelude CLib Boost Parsing RdcpResponse RdcpMaps RdcpTypes RdcpRequest Requests Notifications Target.
From S2P Require Import Console DebuggerMemory DebuggerThread DebuggerThreads Debugger DebuggerControl DebuggerInvariant DebuggerFrame.
From S2P Require Import DxtLibrary DxtExports DxtRequests DxtLoader.

(** ** Splitting *)

Section Split.
Context {R : Type}.

(** Every request with its library. *)
Definition flat (t : ResolutionTable R) : list (Z * R) := concat (map (λ block, map (pair block.1) block.2) t).
Definition all_requests (s : Splitting R) : list (Z * R) := concat (map flat (full s)) ++ flat (current s).

Lemma flat_app a b : flat (a ++ b) = flat a ++ flat b.
Proof. unfold flat. by rewrite map_app, concat_app. Qed.

Lemma new_table_requests (s : Splitting R) : all_requests (new_table s) = all_requests s.
Proof. unfold all_requests, new_table. cbn [full current]. rewrite map_app, concat_app. cbn. by rewrite !app_nil_r. Qed.

Lemma new_entry_requests b (s : Splitting R) : all_requests (new_entry b s) = all_requests s.
Proof. unfold all_requests, new_entry. cbn [full current]. rewrite flat_app. change (flat [(b, [])]) with (@nil (Z * R)). by rewrite app_nil_r. Qed.

(** The table being filled ends with the entry of a library. *)
Definition filling (b : Z) (s : Splitting R) : Prop := ∃ front vs, current s = front ++ [(b, vs)].

Lemma filling_new_entry b s : filling b (new_entry b s).
Proof. by exists (current s), []. Qed.

Lemma add_value_current req (s : Splitting R) front b vs :
  current s = front ++ [(b, vs)] → current (add_value req s) = front ++ [(b, vs ++ [req])].
Proof.
  intros Hs. unfold add_value. cbn [current]. rewrite Hs, length_app. change (length [(b, vs)]) with 1%nat.
  etransitivity; [apply alter_app_r_alt; lia|]. by replace (length front + 1 - 1 - length front)%nat with 0%nat by lia.
Qed.

Lemma split_request_requests b (s : Splitting R) req :
  filling b s → filling b (split_request b s req) ∧ all_requests (split_request b s req) = all_requests s ++ [(b, req)].
Proof.
  intros (front & vs & Hs). unfold split_request.
  assert (current (take_room s) = front ++ [(b, vs)]) as Hs' by done. pose proof (add_value_current req _ _ _ _ Hs') as Hadd.
  assert (all_requests (add_value req (take_room s)) = all_requests s ++ [(b, req)]) as Hall.
  { unfold all_requests. change (full (add_value req (take_room s))) with (full s). rewrite Hadd, Hs, !flat_app, <- !app_assoc. do 2 f_equal.
    unfold flat. cbn. by rewrite !app_nil_r, map_app. }
  destruct (_ <=? ADDR_LEN).
  - split; [apply filling_new_entry|]. by rewrite new_entry_requests, new_table_requests.
  - split; [by exists front, (vs ++ [req])|done].
Qed.

Lemma split_requests b rs : ∀ s : Splitting R, filling b s →
  filling b (foldl (split_request b) s rs) ∧ all_requests (foldl (split_request b) s rs) = all_requests s ++ map (pair b) rs.
Proof.
  induction rs as [|r rs IH]; intros s Hs; cbn [foldl map]; [by rewrite app_nil_r|].
  destruct (split_request_requests b s r Hs) as [Hf Ha]. destruct (IH _ Hf) as [Hf' ->]. split; [done|]. by rewrite Ha, <- app_assoc.
Qed.

(** Splitting loses no request: the requests of the tables, one table after the
    other, are those of the table that was split, in order and each for its
    library. *)
Theorem split_preserves (table : ResolutionTable R) : concat (map flat (SplitResolutionTable table)) = flat table.
Proof.
  enough (∀ s : Splitting R, all_requests (foldl split_entry s table) = all_requests s ++ flat table) as Hs.
  { unfold SplitResolutionTable. rewrite map_app, concat_app. cbn [map concat]. rewrite app_nil_r. apply (Hs start_splitting). }
  induction table as [|[b rs] table IH]; intros s; cbn [foldl]; [by rewrite app_nil_r|]. rewrite IH.
  unfold split_entry. cbn [fst snd]. destruct (split_requests b rs (new_entry b (take_room s)) (filling_new_entry _ _)) as [_ ->].
  rewrite new_entry_requests. change (flat ((b, rs) :: table)) with (map (pair b) rs ++ flat table). by rewrite app_assoc.
Qed.

(** ** The length of the requests *)

(** A table of one library with at most so many requests. *)
Definition chunk (b : Z) (n : nat) (t : ResolutionTable R) : Prop := ∃ rs, t = [(b, rs)] ∧ (length rs ≤ n)%nat.

(** The room left is what the requests so far leave of 38; the first table pays
    for its library, those after it do not. *)
Definition one_library (b : Z) (s : Splitting R) : Prop :=
  Forall (chunk b 38) (full s)
  ∧ ∃ vs k, current s = [(b, vs)] ∧ remaining_length s = 11 + 13 * Z.of_nat k ∧ (1 ≤ k)%nat ∧ (k + length vs ≤ 38)%nat.

Lemma one_library_request b s req : one_library b s → one_library b (split_request b s req).
Proof.
  intros (Hfull & vs & k & Hcur & Hrem & Hk & Hlen). unfold split_request.
  assert (current (take_room s) = [] ++ [(b, vs)]) as Hs' by done. pose proof (add_value_current req _ _ _ _ Hs') as Hadd.
  assert (remaining_length (add_value req (take_room s)) = 11 + 13 * Z.of_nat (k - 1)) as Hrem'.
  { cbn. rewrite Hrem. unfold ADDR_LEN. rewrite u32_id by (unfold is_u32; lia). lia. }
  rewrite Hrem'. unfold ADDR_LEN. destruct (Z.leb_spec (11 + 13 * Z.of_nat (k - 1)) 13).
  - split.
    + cbn. apply Forall_app. split; [done|]. apply Forall_singleton. exists (vs ++ [req]). split; [exact Hadd|]. rewrite length_app. cbn. lia.
    + exists [], 38%nat. split; [done|]. split; [reflexivity|]. cbn. lia.
  - split; [done|]. exists (vs ++ [req]), (k - 1)%nat. split; [exact Hadd|]. split; [exact Hrem'|]. rewrite length_app. cbn. lia.
Qed.

(** The imports from one library are asked for in lines of at most 515 bytes,
    terminator included. *)
Theorem split_fits (ordinal_of : R → Z) (b : Z) (rs : list R) :
  Forall (λ t, (length (request_line (ResolveExportList ordinal_of t)) ≤ 515)%nat) (SplitResolutionTable [(b, rs)]).
Proof.
  assert (one_library b (foldl split_entry start_splitting [(b, rs)])) as (Hfull & vs & k & Hcur & _ & _ & Hlen).
  { cbn [foldl]. unfold split_entry. cbn [fst snd].
    assert (one_library b (new_entry b (take_room (R:=R) start_splitting))) as Hstart.
    { split; [constructor|]. exists [], 37%nat. split; [done|]. split; [reflexivity|]. cbn. lia. }
    revert Hstart. generalize (new_entry b (take_room (R:=R) start_splitting)) as s. induction rs as [|r rs IH]; intros s Hs; [done|].
    cbn [foldl]. apply IH. by apply one_library_request. }
  assert (Forall (chunk b 38) (SplitResolutionTable [(b, rs)])) as Hall.
  { apply Forall_app. split; [done|]. apply Forall_singleton. exists vs. split; [done|lia]. }
  eapply Forall_impl; [exact Hall|]. intros t (rs' & -> & Hrs). unfold request_line. rewrite ResolveExportList_text. cbn [command_ request_data_ map concat].
  rewrite app_nil_r, !length_app, block_text_length. cbn [snd]. change (length "ldxt!r"%bs) with 6%nat. change (length kTerminator) with 2%nat. lia.
Qed.
End Split.

(** The tables after the first are not charged for the library they repeat: a line
    is longer than the debug monitor accepts. *)
Lemma split_overflows :
  ∃ t, t ∈ SplitResolutionTable [(0xB0010000, seqZ 1 80)]
    ∧ Z.of_nat (length (request_line (ResolveExportList (λ x, x) t))) = 515 ∧ MAXIMUM_SEND_LENGTH < 515.
Proof.
  exists [(0xB0010000, seqZ 38 38)]. split; [|split; vm_compute; reflexivity].
  apply (bool_decide_unpack _). vm_compute. exact I.
Qed.

(** With a second library the room left can run below 0, and nothing is split any
    more. *)
Lemma split_wraps : map (λ t, length (out_vector t)) (SplitResolutionTable [(1, seqZ 1 36); (2, seqZ 1 200)]) = [236%nat].
Proof. vm_compute. reflexivity. Qed.

(** ** Bytes at a place *)

(** [f] with [data] written at [a]. *)
Definition overlay (a : Z) (data : bytes) (f : Z → byte) (x : Z) : byte :=
  if decide (a ≤ x) then default (f x) (data !! Z.to_nat (x - a)) else f x.

Lemma overlay_nil a f x : overlay a [] f x = f x.
Proof. unfold overlay. by destruct (decide _). Qed.

Lemma overlay_ext a data f g x : f x = g x → overlay a data f x = overlay a data g x.
Proof. unfold overlay. by intros ->. Qed.

Lemma overlay_app a d1 d2 f x :
  overlay (a + Z.of_nat (length d1)) d2 (overlay a d1 f) x = overlay a (d1 ++ d2) f x.
Proof.
  unfold overlay. destruct (decide (a ≤ x)) as [Ha|Ha]; [|by rewrite decide_False by lia].
  destruct (decide (a + Z.of_nat (length d1) ≤ x)) as [Hx|Hx].
  - rewrite lookup_app_r, (lookup_ge_None_2 d1) by lia. cbn. do 2 f_equal. lia.
  - rewrite lookup_app_l by lia. done.
Qed.

(** Writing back what was there before. *)
Lemma overlay_restore a d1 (f : Z → byte) x :
  overlay a (map f (seqZ a (Z.of_nat (length d1)))) (overlay a d1 f) x = f x.
Proof.
  unfold overlay. destruct (decide (a ≤ x)) as [Ha|]; [|done]. change (map ?g ?l) with (g <$> l). rewrite list_lookup_fmap.
  destruct (decide (Z.to_nat (x - a) < length d1)%nat) as [Hi|Hi].
  - rewrite lookup_seqZ_lt by lia. cbn. f_equal. lia.
  - rewrite lookup_seqZ_ge, (lookup_ge_None_2 d1) by lia. done.
Qed.

Section Writing.
Context `{!Boost} {C E : Type} `{!Target C E, HB : !BreakpointTarget E}.

(** What a write leaves: the console willing, its breakpoints and the bytes. *)
Definition written (e : E) (a : Z) (data : bytes) (e' : E) : Prop :=
  willing e' ∧ armed e' = armed e ∧ ∀ x, memory e' x = overlay a data (memory e) x.

(** No breakpoint is in the range. *)
Definition clear_range (e : E) (a n : Z) : Prop := ∀ x, x ∈ armed e → ¬ a ≤ x < a + n.

Lemma set_slice_run e a data :
  willing e → clear_range e a (Z.of_nat (length data)) → 0 ≤ a → a + Z.of_nat (length data) ≤ 2 ^ 32 →
  Z.of_nat (length data) ≤ kMaximumDataSize →
  ∃ e', set_slice a data e = Some (true, e') ∧ written e a data e'.
Proof.
  intros Hw Hfree Ha Hend Hl.
  assert (∃ request, SetMem a data = Some request) as [request Hreq].
  { unfold SetMem. rewrite (proj2 (Z.leb_le _ _)) by lia. eauto. }
  pose proof (write_answer a data request e Ha ltac:(lia) Hfree Hreq Hw) as Hans.
  unfold set_slice. rewrite Hreq. erewrite bind_run by reflexivity. rewrite plain_command_run.
  destruct (answer request None e) as [r e']. destruct Hans as (Hacc & ? & ? & ?). cbn [fst snd]. rewrite Hacc. by exists e'.
Qed.

Lemma set_slices_run fuel : ∀ e a data,
  willing e → clear_range e a (Z.of_nat (length data)) → 0 ≤ a → a + Z.of_nat (length data) ≤ 2 ^ 32 →
  (length data < fuel)%nat →
  ∃ e', set_slices fuel a data e = Some (true, e') ∧ written e a data e'.
Proof.
  induction fuel as [|fuel IH]; intros e a data Hw Hfree Ha Hend Hfuel; [lia|].
  cbn [set_slices]. destruct data as [|b data0] eqn:Hd.
  { exists e. split; [done|]. split_and!; [done..|]. intros x. by rewrite overlay_nil. }
  rewrite <- Hd in *. assert (0 < length data)%nat as Hpos by (subst; cbn; lia). clear Hd data0 b.
  set (n := Z.to_nat kMaximumDataSize). set (d1 := take n data). set (d2 := drop n data).
  assert (Z.of_nat n = kMaximumDataSize) as Hn by reflexivity. assert (kMaximumDataSize = 120) as Hk by reflexivity.
  assert (data = d1 ++ d2) as Hdata by (symmetry; apply take_drop).
  assert (length data = (length d1 + length d2)%nat) as Hlen by (by rewrite Hdata at 1; rewrite length_app).
  assert (length d1 = Nat.min n (length data)) as Hl1 by apply length_take.
  destruct (set_slice_run e a d1) as (e1 & Hrun1 & Hw1 & Harm1 & Hmem1); [done| |done|lia|lia|].
  { intros x Hx. specialize (Hfree x Hx). lia. }
  erewrite bind_run by exact Hrun1.
  destruct (decide (length data ≤ n)%nat) as [Hle|Hgt].
  - assert (d2 = []) as Hd2 by (apply nil_length_inv; lia). rewrite Hd2 in *. destruct fuel as [|fuel']; [lia|].
    exists e1. split; [done|]. split_and!; [done..|]. intros x. rewrite Hmem1, Hdata. by rewrite app_nil_r.
  - assert (length d1 = n) as Hl1' by lia.
    destruct (IH e1 (u32 (a + kMaximumDataSize)) d2) as (e2 & Hrun2 & Hw2 & Harm2 & Hmem2); [done|..].
    + rewrite u32_id by (unfold is_u32; lia). intros x. rewrite Harm1. intros Hx. specialize (Hfree x Hx). lia.
    + rewrite u32_id by (unfold is_u32; lia). lia.
    + rewrite u32_id by (unfold is_u32; lia). lia.
    + lia.
    + exists e2. split; [exact Hrun2|]. split_and!; [done|by rewrite Harm2|]. intros x.
      rewrite Hmem2, (overlay_ext _ _ _ _ _ (Hmem1 x)), u32_id by (unfold is_u32; lia).
      rewrite Hdata at 1. rewrite <- overlay_app. by rewrite Hl1', Hn.
Qed.

Lemma SetMemoryUnsafe_run e a data :
  willing e → clear_range e a (Z.of_nat (length data)) → 0 ≤ a → a + Z.of_nat (length data) ≤ 2 ^ 32 →
  ∃ e', SetMemoryUnsafe a data e = Some (true, e') ∧ written e a data e'.
Proof.
  intros Hw Hfree Ha Hend. unfold SetMemoryUnsafe. destruct (Z.leb_spec (Z.of_nat (length data)) kMaximumDataSize).
  - by apply set_slice_run.
  - apply set_slices_run; (done || lia).
Qed.

(** A write of any length, sent in slices of at most 120 bytes, ends, succeeds
    and leaves memory with exactly those bytes in place, where no breakpoint is
    in the range. *)
Theorem SetMemoryUnsafe_writes (e : E) (a : Z) (data : bytes)
  (Hw : willing e) (Hfree : clear_range e a (Z.of_nat (length data))) (Ha : 0 ≤ a) (Hend : a + Z.of_nat (length data) ≤ 2 ^ 32) :
  ∃ e', SetMemoryUnsafe a data e = Some (true, e') ∧ willing e' ∧ armed e' = armed e
    ∧ ∀ x, memory e' x = overlay a data (memory e) x.
Proof. by apply SetMemoryUnsafe_run. Qed.
End Writing.

Lemma SetMemoryUnsafe_writes_witness :
  let B := Boost_reference.boost_reference in
  let e := example_console [(4096, "a"%byte)] [8192] in
  let data := repeat "x"%byte 300 in
  ∃ e', SetMemoryUnsafe 4096 data e = Some (true, e') ∧ stubborn e' = false ∧ traps e' = traps e
    ∧ ∀ x, cell e' x = overlay 4096 data (cell e) x.
Proof.
  intros B e data.
  apply (@SetMemoryUnsafe_writes B unit Console console_target
    (@console_breakpoints _ Boost_reference.boost_reference_laws)); [done| |lia|vm_compute; discriminate].
  intros x Hx. change (x ∈ ({[8192]} ∪ ∅ : gset Z)) in Hx. assert (x = 8192) as -> by set_solver. change (length data) with 300%nat. lia.
Defined.

(** ** The export table of a library *)

(** The dword at an address of the program. *)
Definition dword_at (f : Z → byte) (a : Z) : Z := le_int (map f (seqZ a 4)).

Lemma dword_at_range f a : 0 ≤ dword_at f a < 2 ^ 32.
Proof. apply (le_int_range (map f (seqZ a 4))). Qed.

Lemma dword_at_ext f g a : (∀ x, f x = g x) → dword_at f a = dword_at g a.
Proof. intros Hfg. unfold dword_at. f_equal. by apply map_ext. Qed.

(** The export table of the image at [base], the number of its functions and the
    place of the address of one of them. *)
Definition export_table (f : Z → byte) (base : Z) : Z :=
  base + dword_at f (base + dword_at f (base + kPEHeaderPointer) + kExportTableOffset).
Definition export_count (f : Z → byte) (base : Z) : Z := dword_at f (export_table f base + kExportNumFunctionsOffset).
Definition function_slot (f : Z → byte) (base ordinal : Z) : Z :=
  base + dword_at f (export_table f base + kExportDirectoryAddressOfFunctionsOffset) + (ordinal - 1) * 4.

(** The dwords that are looked at. *)
Definition export_places (f : Z → byte) (base ordinal : Z) : list Z :=
  [base + kPEHeaderPointer; base + dword_at f (base + kPEHeaderPointer) + kExportTableOffset;
   export_table f base + kExportNumFunctionsOffset]
  ++ if ordinal <=? export_count f base
     then [export_table f base + kExportDirectoryAddressOfFunctionsOffset; function_slot f base ordinal]
     else [].

Section Exports.
Context `{!Boost} {C E : Type} `{!Target C E, HB : !BreakpointTarget E}.

(** Every breakpoint of a willing console is the debugger's. *)
Record tame (d : XBDMDebugger) (e : E) : Prop := {
  tame_willing : willing e;
  tame_known : set_Forall is_u32 (breakpoints_ (memory_ d));
  tame_armed : armed e ⊆ breakpoints_ (memory_ d)
}.

(** The program may read a dword there. *)
Definition readable (d : XBDMDebugger) (a : Z) : Prop := 0 ≤ a ∧ a + 4 < 2 ^ 32 ∧ accessible d a 4 false.

Lemma hidden_known a n (m : Memory) : hidden a n m ⊆ breakpoints_ m.
Proof. unfold hidden, in_range. destruct (_ <? _); set_solver. Qed.

Lemma read_dword_run d e a :
  tame d e → readable d a →
  ∃ e', read_dword a (d, e) = Some (Some (dword_at (memory e) a), (d, e')) ∧ tame d e' ∧ ∀ x, memory e' x = memory e x.
Proof.
  intros [Hw Hk Harm] (Ha & Hend & Hacc).
  destruct (GetMemory_run (memory_ d) e a 4 true) as (e' & Hget & Harm' & Hw' & Hmem'); [done..|lia|done| |].
  { intros _. apply accessible_validate; (done || lia). }
  exists e'. split; [|split; [split|]; try done].
  - unfold read_dword. rewrite u32_id by (unfold is_u32; lia). apply on_memory_run. unfold GetDWORD.
    erewrite bind_run by exact Hget. done.
  - rewrite Harm'. pose proof (hidden_known a 4 (memory_ d)). set_solver.
Qed.

Lemma with_value_run (m : M (XBDMDebugger * E) (option Z)) k s a s' :
  m s = Some (Some a, s') → with_value m k s = k a s'.
Proof. intros Hm. unfold with_value. by erewrite bind_run by exact Hm. Qed.

Lemma GetExportAddress_run d e base ordinal :
  tame d e → is_u32 base → 1 ≤ ordinal < 2 ^ 32 →
  Forall (readable d) (export_places (memory e) base ordinal) →
  ∃ e', GetExportAddress ordinal base (d, e)
        = Some (if ordinal <=? export_count (memory e) base
                then Some (u32 (base + dword_at (memory e) (function_slot (memory e) base ordinal))) else None, (d, e'))
    ∧ tame d e' ∧ ∀ x, memory e' x = memory e x.
Proof.
  intros Ht Hbase Ho Hall. unfold export_places in Hall. rewrite !Forall_app, !Forall_cons in Hall.
  destruct Hall as [(Hr1 & Hr2 & Hr3 & _) Hrest]. unfold GetExportAddress. rewrite (proj2 (Z.eqb_neq ordinal 0)) by lia.
  destruct (read_dword_run d e _ Ht Hr1) as (e1 & Hd1 & Ht1 & Hm1). erewrite with_value_run by exact Hd1.
  destruct (read_dword_run d e1 _ Ht1 Hr2) as (e2 & Hd2 & Ht2 & Hm2'). rewrite (dword_at_ext _ _ _ Hm1) in Hd2.
  assert (∀ x, memory e2 x = memory e x) as Hm2 by (intros x; by rewrite Hm2'). erewrite with_value_run by exact Hd2.
  cbv zeta. fold (export_table (memory e) base).
  assert (is_u32 (export_table (memory e) base)) as Htab.
  { destruct Hr3 as (_ & Hr3 & _). unfold export_table, is_u32, kExportNumFunctionsOffset in *.
    pose proof (dword_at_range (memory e) (base + dword_at (memory e) (base + kPEHeaderPointer) + kExportTableOffset)).
    unfold is_u32 in Hbase. lia. }
  rewrite (u32_id _ Htab), (u32_id (ordinal - 1)) by (unfold is_u32; lia).
  destruct (read_dword_run d e2 _ Ht2 Hr3) as (e3 & Hd3 & Ht3 & Hm3'). rewrite (dword_at_ext _ _ _ Hm2) in Hd3.
  assert (∀ x, memory e3 x = memory e x) as Hm3 by (intros x; by rewrite Hm3'). erewrite with_value_run by exact Hd3.
  fold (export_count (memory e) base).
  destruct (Z.leb_spec ordinal (export_count (memory e) base)) as [Hle|Hgt].
  - rewrite (proj2 (Z.leb_gt _ _)) by lia. rewrite !Forall_cons in Hrest. destruct Hrest as (Hr4 & Hr5 & _).
    destruct (read_dword_run d e3 _ Ht3 Hr4) as (e4 & Hd4 & Ht4 & Hm4'). rewrite (dword_at_ext _ _ _ Hm3) in Hd4.
    assert (∀ x, memory e4 x = memory e x) as Hm4 by (intros x; by rewrite Hm4'). erewrite with_value_run by exact Hd4.
    destruct (read_dword_run d e4 _ Ht4 Hr5) as (e5 & Hd5 & Ht5 & Hm5'). rewrite (dword_at_ext _ _ _ Hm4) in Hd5.
    erewrite with_value_run by exact Hd5. exists e5. split_and!; [done|done|]. intros x. by rewrite Hm5'.
  - rewrite (proj2 (Z.leb_le _ _)) by lia. by exists e3.
Qed.

(** The address of an export is the one the export table of the loaded library
    has for its ordinal: the headers are followed through the program's own
    bytes, whatever breakpoints are set, an ordinal the table does not have has
    no address, and neither the program nor its breakpoints are changed. *)
Theorem GetExportAddress_reads (d : XBDMDebugger) (e : E) (base ordinal : Z) :
  tame d e → is_u32 base → 1 ≤ ordinal < 2 ^ 32 →
  Forall (readable d) (export_places (memory e) base ordinal) →
  ∃ e', GetExportAddress ordinal base (d, e)
        = Some (if ordinal <=? export_count (memory e) base
                then Some (u32 (base + dword_at (memory e) (function_slot (memory e) base ordinal))) else None, (d, e'))
    ∧ tame d e' ∧ ∀ x, memory e' x = memory e x.
Proof. apply GetExportAddress_run. Qed.
End Exports.

(** ** A function that is lent *)

(** No answer makes a console refuse what it accepted before. *)
Class SteadyTarget (E : Type) {C : Type} `{!Boost} `{!Target C E, !BreakpointTarget E} :=
  steady_answer r payload (e : E) : willing e → willing (answer r payload e).2.

Section Lending.
Context `{!Boost} {C E : Type} `{!Target C E, !Listeners C E, HB : !BreakpointTarget E, HS : !SteadyTarget E}.
Context (kBootstrapL1 kBootstrapL2 : bytes).
Abbreviation state := (Loader * (XBDMDebugger * E))%type.
Abbreviation L := (M state).

(** The loader and the debugger are as they were, beside a tame console. *)
Definition lent (l : Loader) (d : XBDMDebugger) (s : state) : Prop := s.1 = l ∧ s.2.1 = d ∧ tame d s.2.2.

Lemma tame_answer d r payload e : other_request r → tame d e → tame d (answer r payload e).2.
Proof.
  intros Hr [Hw Hk Harm]. split; [by apply steady_answer|done|]. pose proof (other_answer r payload e Hr). set_solver.
Qed.

Lemma wp_set_slice (J : E → Prop) a data e :
  (∀ r e, other_request r → J e → J (answer r None e).2) → Z.of_nat (length data) ≤ kMaximumDataSize → J e →
  wp False (set_slice a data) e (λ _, J).
Proof.
  intros HJ Hl He. unfold set_slice. destruct (SetMem a data) as [r|] eqn:Hr.
  - apply wp_bind. change (wp False (lift_option (Some r)) e ?Q) with (Q r e). apply wp_plain_command, HJ; [|done].
    by apply SetMem_other with a data.
  - exfalso. revert Hr. unfold SetMem. by rewrite (proj2 (Z.leb_le _ _)).
Qed.

Lemma wp_set_slices (J : E → Prop) fuel : ∀ a data e,
  (∀ r e, other_request r → J e → J (answer r None e).2) → (length data < fuel)%nat → J e →
  wp False (set_slices fuel a data) e (λ _, J).
Proof.
  induction fuel as [|fuel IH]; intros a data e HJ Hfuel He; [lia|]. cbn [set_slices]. destruct data as [|b data0] eqn:Hd; [done|].
  rewrite <- Hd in *. assert (0 < length data)%nat as Hpos by (subst; cbn; lia). clear Hd data0 b.
  assert (kMaximumDataSize = 120) as Hk by reflexivity.
  apply wp_bind. eapply wp_mono; [apply (wp_set_slice J); [done| |done]|].
  - rewrite length_take. lia.
  - intros [] e' He'; [|done]. apply IH; [done| |done]. rewrite length_drop. lia.
Qed.

(** A write ends, wherever it goes. *)
Lemma wp_SetMemoryUnsafe (J : E → Prop) a data e :
  (∀ r e, other_request r → J e → J (answer r None e).2) → J e → wp False (SetMemoryUnsafe a data) e (λ _, J).
Proof.
  intros HJ He. unfold SetMemoryUnsafe. destruct (Z.leb_spec (Z.of_nat (length data)) kMaximumDataSize).
  - by apply wp_set_slice.
  - apply wp_set_slices; (done || lia).
Qed.

Lemma wp_on_context {A} (m : M E A) l d (s : state) :
  (∀ e, tame d e → wp False m e (λ _, tame d)) → lent l d s → wp False (on_context m) s (λ _, lent l d).
Proof.
  destruct s as [l' [d' e]]. intros Hm (Hl & Hd & Ht). cbn in *. subst. apply wp_on_right, wp_on_right.
  eapply wp_mono; [by apply Hm|]. done.
Qed.

Lemma wp_write a data l d s : lent l d s → wp False (on_context (SetMemoryUnsafe a data)) s (λ _, lent l d).
Proof. apply wp_on_context. intros e He. apply wp_SetMemoryUnsafe; [|done]. intros r e'. apply tame_answer. Qed.

Lemma wp_invoke p l d s : lent l d s → wp False (on_context (InvokeL1Bootstrap p)) s (λ _, lent l d).
Proof.
  apply wp_on_context. intros e He. apply wp_plain_command, tame_answer; [|done]. by constructor.
Qed.

Lemma wp_GetDWORD a l d s :
  0 ≤ a → a + 4 ≤ 2 ^ 32 → lent l d s → wp False (on_debugger (on_memory (GetDWORD a))) s (λ _, lent l d).
Proof.
  destruct s as [l' [d' e]]. intros Ha Hend (Hl & Hd & [Hw Hk Harm]). cbn in *. subst.
  assert (∃ ok, ValidateMemoryAccess a 4 false (memory_ d, e) = Some (ok, (memory_ d, e))) as [ok Hv] by (eexists; reflexivity).
  apply wp_on_right, wp_zoom. unfold GetDWORD. apply wp_bind. destruct ok.
  - eapply wp_mono; [apply (wp_GetMemory (memory_ d) e a 4 true False); (done || lia)|]. intros data [m' e'] (-> & [_ Hw'] & Harm' & ->).
    rewrite length_map, length_seqZ. split; [done|]. split; cbn; [by rewrite set_memory_same|].
    split; [auto|done|]. rewrite Harm'. pose proof (hidden_known a 4 (memory_ d)). set_solver.
  - unfold GetMemory, wp. erewrite bind_run by exact Hv. cbn. split; [done|]. split; [by rewrite set_memory_same|done].
Qed.

Lemma wp_gets_loader {B} (k : Loader → L B) l d s Q :
  lent l d s → wp False (k l) s Q → wp False (gets fst ≫= k) s Q.
Proof. intros (Hl & _) Hk. apply wp_bind. change (wp False (gets ?g) ?s ?Q) with (Q (g s) s). by rewrite Hl. Qed.

(** Installing the second stage ends, whatever the console answers. *)
Lemma wp_InstallL2Loader l d s :
  0 ≤ io_address kBootstrapL1 l → io_address kBootstrapL1 l + 4 ≤ 2 ^ 32 → (12 ≤ length kBootstrapL2)%nat → lent l d s →
  wp False (InstallL2Loader kBootstrapL1 kBootstrapL2) s (λ _, lent l d).
Proof.
  intros Hio Hend HL2 Hs. unfold InstallL2Loader. eapply (wp_gets_loader _ l d); [exact Hs|].
  unfold patched_l2. rewrite (proj2 (Nat.ltb_ge _ _)) by done. apply wp_bind.
  change (wp False (lift_option (Some ?r)) ?s ?Q) with (Q r s). apply wp_bind.
  assert (∀ size, wp False (L1BootstrapAllocatePool kBootstrapL1 size) s (λ _, lent l d)) as Hpool.
  { intros size. unfold L1BootstrapAllocatePool. eapply (wp_gets_loader _ l d); [exact Hs|]. apply wp_bind.
    eapply wp_mono; [by apply (wp_write _ _ l d)|]. intros [] s1 Hs1; [|done]. cbn [negb]. apply wp_bind.
    eapply wp_mono; [by apply (wp_invoke _ l d)|]. intros [] s2 Hs2; [|done]. cbn [negb]. apply wp_bind.
    eapply wp_mono; [by apply (wp_GetDWORD _ l d)|]. done. }
  eapply wp_mono; [apply Hpool|]. intros entry s1 Hs1. destruct (entry =? 0); [done|]. apply wp_bind.
  eapply wp_mono; [by apply (wp_write _ _ l d)|]. intros [] s2 Hs2; [|done]. cbn [negb]. apply wp_bind.
  eapply wp_mono.
  { unfold SetL1LoaderExecuteMode. eapply (wp_gets_loader _ l d); [exact Hs2|]. by apply (wp_write _ _ l d). }
  intros [] s3 Hs3; [|done]. cbn [negb]. by apply (wp_invoke _ l d).
Qed.

Lemma on_context_run {A} (m : M E A) l d e a e' :
  m e = Some (a, e') → on_context m (l, (d, e)) = Some (a, (l, (d, e'))).
Proof. intros Hm. unfold on_context, on_target, on_right. by rewrite Hm. Qed.

(** C28. The function the first stage stands in for is restored: when no breakpoint
    is set in it, installing the second stage ends, with whatever result, and the
    bytes of the function are then those there were before, whatever the code of
    the stages did to the console. *)
Theorem bootstrap_restores (l : Loader) (d : XBDMDebugger) (e : E) :
  let k := GetExport "xbdm.dll"%bs XBDM_DmResumeThread l in
  let n := Z.of_nat (length kBootstrapL1) in
  tame d e → 0 ≤ k → 4 ≤ n → k + n < 2 ^ 32 → accessible d k n false → (12 ≤ length kBootstrapL2)%nat →
  (∀ x, x ∈ breakpoints_ (memory_ d) → ¬ k ≤ x < k + n) →
  ∃ ret e', with_bootstrap kBootstrapL1 k (InstallL2Loader kBootstrapL1 kBootstrapL2) (l, (d, e)) = Some (Some ret, (l, (d, e')))
    ∧ ∀ x, k ≤ x < k + n → memory e' x = memory e x.
Proof.
  intros k n Ht Hk Hn Hend Hacc HL2 Hfree. destruct (Ht) as [Hw Hkn Harm].
  destruct (GetMemory_run (memory_ d) e k n true) as (e1 & Hget & Harm1 & Hw1 & Hm1);
    [done..|lia|lia|intros _; apply accessible_validate; (done || lia)|].
  assert (tame d e1) as Ht1.
  { split; [done..|]. rewrite Harm1. pose proof (hidden_known k n (memory_ d)). set_solver. }
  assert (∀ e, tame d e → clear_range e k n) as Hclear by (intros ? [_ _ Ha] x Hx; apply Hfree; set_solver).
  destruct (SetMemoryUnsafe_run e1 k kBootstrapL1) as (e2 & Hset2 & Hw2 & Harm2 & _); [done|by apply Hclear|done|lia|].
  assert (tame d e2) as Ht2 by (split; [done..|]; rewrite Harm2; apply Ht1).
  assert (io_address kBootstrapL1 l = k + n - 4) as Hio.
  { unfold io_address. apply u32_id. unfold is_u32. fold k. fold n. lia. }
  destruct (wp_elim _ _ _ (wp_InstallL2Loader l d (l, (d, e2)) ltac:(lia) ltac:(lia) HL2 (conj eq_refl (conj eq_refl Ht2))))
    as (ret & [l' [d' e3]] & Hbody & Hl & Hd & Ht3). cbn [fst snd] in Hl, Hd, Ht3. subst l' d'.
  set (original := map (memory e) (seqZ k n)).
  assert (length original = length kBootstrapL1) as Hlen by (unfold original; rewrite length_map, length_seqZ; lia).
  destruct (SetMemoryUnsafe_run e3 k original) as (e4 & Hset4 & _ & _ & Hm4);
    [apply Ht3|rewrite Hlen; by apply Hclear|done|rewrite Hlen; fold n; lia|].
  exists ret, e4. split.
  - unfold with_bootstrap. erewrite bind_run.
    2: { unfold on_debugger, on_right. fold n. rewrite (on_memory_run _ _ _ _ _ Hget). reflexivity. }
    cbv beta iota. fold original. erewrite bind_run by exact (on_context_run _ l d _ _ _ Hset2). cbv beta iota delta [negb].
    erewrite bind_run by exact Hbody. by erewrite bind_run by exact (on_context_run _ l d _ _ _ Hset4).
  - intros x Hx. rewrite Hm4. unfold overlay. rewrite decide_True by lia. unfold original.
    change (map ?g ?xs) with (g <$> xs). rewrite list_lookup_fmap, lookup_seqZ_lt by lia. cbn. f_equal. lia.
Qed.
End Lending.

(** ** On the example console *)

#[export] Instance console_steady `{HL : !BoostLaws B} : SteadyTarget Console.
Proof.
  intros r payload c Hc. cbn in *. unfold answer_break, answer_getmem, answer_setmem, answer_isstopped, answer_script, receive.
  repeat first [case_decide | case_match]; done.
Qed.

Definition as_bytes (l : list (Z * bytes)) : list (Z * byte) :=
  concat (map (λ '(a, data), zip (seqZ a (Z.of_nat (length data))) data) l).

(** An image at 65536 whose export table has two functions, a breakpoint in its
    header. *)
Definition exporting_console : Console :=
  example_console (as_bytes [(65596, le_bytes 4 128); (65784, le_bytes 4 512); (66068, le_bytes 4 2);
                             (66076, le_bytes 4 768); (66308, le_bytes 4 4660)]) [65597].
Definition exporting_debugger : XBDMDebugger := set_memory (MkMemory [] {[65597]}) new_debugger.

Lemma exporting_tame : @tame Boost_reference.boost_reference unit Console console_target
  (@console_breakpoints _ Boost_reference.boost_reference_laws) exporting_debugger exporting_console.
Proof. split; [reflexivity|by_evaluation|by_evaluation]. Qed.

Lemma GetExportAddress_reads_witness :
  let B := Boost_reference.boost_reference in
  ∃ e', GetExportAddress 2 65536 (exporting_debugger, exporting_console) = Some (Some 70196, (exporting_debugger, e')).
Proof.
  intros B.
  destruct (@GetExportAddress_reads B unit Console console_target (@console_breakpoints _ Boost_reference.boost_reference_laws)
    exporting_debugger exporting_console 65536 2) as (e' & Hrun & _).
  - exact exporting_tame.
  - unfold is_u32; lia.
  - lia.
  - assert (export_places (cell exporting_console) 65536 2 = [65596; 65784; 66068; 66076; 66308]) as Hp by (vm_compute; reflexivity).
    cbn [memory console_breakpoints]. rewrite Hp. repeat (constructor; [split; [lia|split; [lia|by left]]|]). constructor.
  - exists e'. etransitivity; [exact Hrun|]. vm_compute. reflexivity.
Defined.

Definition lending_loader : Loader :=
  with_exports {["xbdm.dll"%bs := {[XBDM_DmResumeThread := 70000; XBDM_DmAllocatePoolWithTag := 80000]}]} new_loader.
Definition lending_console : Console :=
  MkConsole (list_to_map (as_bytes [(70000, "function"%bs)])) {[65597]} false ∅ [ok; ok] [] [].

(** The console accepts the two calls and leaves the size where the address of the
    allocated memory is to be. *)
Lemma bootstrap_restores_witness :
  let B := Boost_reference.boost_reference in
  let L1 := "L1....io"%bs in let L2 := "L2...imports"%bs in
  ∃ ret e', with_bootstrap L1 70000 (InstallL2Loader L1 L2) (lending_loader, (exporting_debugger, lending_console))
      = Some (Some ret, (lending_loader, (exporting_debugger, e')))
    ∧ ∀ x, 70000 ≤ x < 70008 → cell e' x = cell lending_console x.
Proof.
  intros B L1 L2.
  apply (@bootstrap_restores B unit Console console_target (@console_breakpoints _ Boost_reference.boost_reference_laws)
    (@console_steady _ Boost_reference.boost_reference_laws) L1 L2 lending_loader exporting_debugger lending_console).
  - split; [reflexivity|by_evaluation|by_evaluation].
  - vm_compute; discriminate.
  - vm_compute; discriminate.
  - vm_compute; reflexivity.
  - by left.
  - vm_compute; lia.
  - intros x Hx. change (x ∈ ({[65597]} : gset Z)) in Hx. apply elem_of_singleton in Hx as ->. vm_compute. intros []. done.
Defined.
