(* ===== verification/ImageUtil.v ===== *)
(** * Conversion of images (src/tracer/image_util.h, image_util.cpp)

    Pixels of two or four bytes become the bytes of their channels, and compressed
    textures get the header of a DDS file.  [None] stands for a read past the end of
    the input or a write past the end of the buffer that was allocated. *)

From S2P Require Import Prelude CLib.

(** ** Pixels of two bytes *)

(** [count] pixels of a little-endian host. *)
Fixpoint read_pixels (count : nat) (src : bytes) : option (list Z) :=
  match count with
  | O => Some []
  | S count =>
    match src with
    | a :: b :: src' => pixels ← read_pixels count src'; Some (byte_val a + 256 * byte_val b :: pixels)
    | _ => None
    end
  end.

(** What was written to a buffer of that size. *)
Definition written (size : Z) (data : bytes) : option bytes :=
  if Z.of_nat (length data) <=? size then Some data else None.

(** The loop over the pixels and the buffer of [src_size << 1] bytes. *)
Definition convert_pixels (channels : Z → list Z) (src : bytes) (src_size : Z) : option bytes :=
  pixels ← read_pixels (Z.to_nat (Z.shiftr src_size 1)) src;
  written (u32 (Z.shiftl src_size 1)) (concat (map (λ pixel, map byte_of (channels pixel)) pixels)).

(** A channel of 4, 5 or 6 bits as eight. *)
Definition expand4 (c : Z) : Z := Z.lor (Z.shiftl c 4) (Z.shiftr c 1).
Definition expand5 (c : Z) : Z := Z.lor (Z.shiftl c 3) (Z.shiftr c 2).
Definition expand6 (c : Z) : Z := Z.lor (Z.shiftl c 2) (Z.shiftr c 4).

Definition channel (pixel shift mask : Z) : Z := Z.land (Z.shiftr pixel shift) mask.

Definition RGB565_channels (pixel : Z) : list Z :=
  [expand5 (channel pixel 11 0x1F); expand6 (channel pixel 5 0x3F); expand5 (Z.land pixel 0x1F)].
Definition RGB565ToRGB88 : bytes → Z → option bytes := convert_pixels RGB565_channels.

Definition X1R5G5B5_channels (pixel : Z) : list Z :=
  [expand5 (channel pixel 10 0x1F); expand5 (channel pixel 5 0x1F); expand5 (Z.land pixel 0x1F)].
Definition AXR5G5B5ToRGB888 : bytes → Z → option bytes := convert_pixels X1R5G5B5_channels.

Definition A1R5G5B5_channels (pixel : Z) : list Z :=
  channel pixel 15 0x01 * 0xFF :: X1R5G5B5_channels pixel.
Definition A1R5G5B5ToRGBA888 : bytes → Z → option bytes := convert_pixels A1R5G5B5_channels.

Definition A4R4G4B4_channels (pixel : Z) : list Z :=
  [expand4 (channel pixel 12 0xF); expand4 (channel pixel 8 0xF); expand4 (channel pixel 4 0xF); expand4 (Z.land pixel 0xF)].
Definition A4R4G4B4ToRGBA888 : bytes → Z → option bytes := convert_pixels A4R4G4B4_channels.

(** ** Pixels of four bytes *)

Fixpoint swizzle (order : list nat) (count : nat) (src : bytes) : option bytes :=
  match count with
  | O => Some []
  | S count =>
    pixel_out ← mapM (λ i, src !! i) order;
    rest ← swizzle order count (drop 4 src);
    Some (pixel_out ++ rest)
  end.

Definition convert_swizzled (order : list nat) (src : bytes) (src_size : Z) : option bytes :=
  pixels ← swizzle order (Z.to_nat (src_size / 4)) src; written src_size pixels.

Definition BGRAToRGBA : bytes → Z → option bytes := convert_swizzled [2; 1; 0; 3]%nat.
Definition ABGRToRGBA : bytes → Z → option bytes := convert_swizzled [3; 2; 1; 0]%nat.
Definition ARGBToRGBA : bytes → Z → option bytes := convert_swizzled [1; 2; 3; 0]%nat.

(** ** DDS files *)

Definition FOURCC (a b c d : byte) : Z :=
  Z.lor (Z.lor (Z.lor (byte_val a) (Z.shiftl (byte_val b) 8)) (Z.shiftl (byte_val c) 16)) (Z.shiftl (byte_val d) 24).

Definition kDXT1Magic : Z := FOURCC "D" "X" "T" "1".
Definition kDXT3Magic : Z := FOURCC "D" "X" "T" "3".
Definition kDXT5Magic : Z := FOURCC "D" "X" "T" "5".

Definition DDSD_CAPS : Z := 0x1.
Definition DDSD_HEIGHT : Z := 0x2.
Definition DDSD_WIDTH : Z := 0x4.
Definition DDSD_PIXELFORMAT : Z := 0x1000.
Definition DDSD_LINEARSIZE : Z := 0x80000.
Definition DDSCAPS_TEXTURE : Z := 0x1000.
Definition DDPF_ALPHAPIXELS : Z := 0x1.
Definition DDPF_FOURCC : Z := 0x4.

Record DDS_PIXELFORMAT := MkPixelFormat {
  pf_dwSize : Z; pf_dwFlags : Z; dwFourCC : Z; dwRGBBitCount : Z;
  dwRBitMask : Z; dwGBitMask : Z; dwBBitMask : Z; dwABitMask : Z
}.

Record DDS_HEADER := MkDdsHeader {
  dwSize : Z; dwFlags : Z; dwHeight : Z; dwWidth : Z; dwPitchOrLinearSize : Z; dwDepth : Z; dwMipMapCount : Z;
  dwReserved1 : list Z;  (* 11 *)
  ddspf : DDS_PIXELFORMAT;
  dwCaps : Z; dwCaps2 : Z; dwCaps3 : Z; dwCaps4 : Z; dwReserved2 : Z
}.

(** The members in the order of the packed structures. *)
Definition pixel_format_members (p : DDS_PIXELFORMAT) : list Z :=
  [pf_dwSize p; pf_dwFlags p; dwFourCC p; dwRGBBitCount p; dwRBitMask p; dwGBitMask p; dwBBitMask p; dwABitMask p].
Definition header_members (h : DDS_HEADER) : list Z :=
  [dwSize h; dwFlags h; dwHeight h; dwWidth h; dwPitchOrLinearSize h; dwDepth h; dwMipMapCount h]
  ++ dwReserved1 h ++ pixel_format_members (ddspf h) ++ [dwCaps h; dwCaps2 h; dwCaps3 h; dwCaps4 h; dwReserved2 h].

Definition sizeof_DDS_PIXELFORMAT : Z := 32.
Definition sizeof_DDS_HEADER : Z := 124.

Inductive DXTCompression := INVALID | DXT1 | DXT3 | DXT5.

#[global] Instance compression_eq : EqDecision DXTCompression.
Proof. solve_decision. Defined.

(** The code, the size of a block and whether there is alpha. *)
Definition compression_format (compression : DXTCompression) : option (Z * Z * Z) :=
  match compression with
  | DXT1 => Some (kDXT1Magic, 8, DDPF_FOURCC)
  | DXT3 => Some (kDXT3Magic, 16, Z.lor DDPF_FOURCC DDPF_ALPHAPIXELS)
  | DXT5 => Some (kDXT5Magic, 16, Z.lor DDPF_FOURCC DDPF_ALPHAPIXELS)
  | INVALID => None
  end.

Definition dds_header (fourcc block_size pixel_format_flags width height : Z) : DDS_HEADER :=
  let block_width := u32 (width + 3) / 4 in
  let pitch := u32 (block_width * block_size) in
  MkDdsHeader sizeof_DDS_HEADER
    (Z.lor (Z.lor (Z.lor (Z.lor DDSD_CAPS DDSD_HEIGHT) DDSD_WIDTH) DDSD_PIXELFORMAT) DDSD_LINEARSIZE)
    height width pitch 0 1 (repeat 0 11)
    (MkPixelFormat sizeof_DDS_PIXELFORMAT pixel_format_flags fourcc 0 0 0 0 0)
    DDSCAPS_TEXTURE 0 0 0 0.

(** The status and the file; [input_len] bytes are copied. *)
Definition EncodeDDS (encoded_data input : bytes) (input_len width height : Z) (compression : DXTCompression)
  : option (Z * bytes) :=
  match compression_format compression with
  | None => Some (1, encoded_data)
  | Some (fourcc, block_size, flags) =>
    if Z.of_nat (length input) <? input_len then None
    else
      let header := concat (map (le_bytes 4) (header_members (dds_header fourcc block_size flags width height))) in
      Some (0, "DDS "%bs ++ header ++ take (Z.to_nat input_len) input)
  end.

(** ** Every conversion of whole pixels succeeds *)

Lemma read_pixels_some count src :
  (2 * count ≤ length src)%nat →
  ∃ pixels, read_pixels count src = Some pixels ∧ length pixels = count
    ∧ Forall (λ p, 0 ≤ p < 65536) pixels
    ∧ concat (map (le_bytes 2) pixels) = take (2 * count) src.
Proof.
  revert src; induction count as [|count IH]; intros src Hl; [by exists []|].
  destruct src as [|a [|b src]]; [cbn in Hl; lia..|]. destruct (IH src) as (pixels & Hp & Hlen & Hall & Hback); [cbn in Hl; lia|].
  cbn [read_pixels]. rewrite Hp. eexists. split; [reflexivity|]. split; [cbn; lia|]. pose proof (byte_val_range a). pose proof (byte_val_range b).
  split; [constructor; [lia|done]|]. replace (2 * S count)%nat with (S (S (2 * count))) by lia. cbn [map concat take].
  rewrite Hback. replace (byte_val a + 256 * byte_val b) with (le_int [a; b]) by (cbn [le_int]; lia). by rewrite (le_bytes_int 2 [a; b]).
Qed.

Lemma concat_length_const {A B} (f : A → list B) (k : nat) l :
  (∀ x, length (f x) = k) → length (concat (map f l)) = (k * length l)%nat.
Proof. intros Hf. induction l as [|x l IH]; cbn; [lia|]. rewrite length_app, Hf, IH. lia. Qed.

Lemma convert_pixels_some channels k src src_size :
  (∀ p, length (channels p) = k) → (k ≤ 4)%nat → 0 ≤ src_size < 2 ^ 31 → src_size ≤ Z.of_nat (length src) →
  ∃ pixels, Forall (λ p, 0 ≤ p < 65536) pixels ∧ Z.of_nat (length pixels) = src_size / 2
    ∧ concat (map (le_bytes 2) pixels) = take (2 * Z.to_nat (src_size / 2)) src
    ∧ convert_pixels channels src src_size = Some (concat (map (λ p, map byte_of (channels p)) pixels)).
Proof.
  intros Hk Hk4 Hs Hl. unfold convert_pixels. rewrite Z.shiftr_div_pow2, Z.shiftl_mul_pow2 by lia. change (2 ^ 1) with 2.
  pose proof (Z.mul_div_le src_size 2 ltac:(lia)). assert (0 ≤ src_size / 2) by (apply Z.div_pos; lia).
  destruct (read_pixels_some (Z.to_nat (src_size / 2)) src) as (pixels & Hp & Hlen & Hall & Hback); [lia|].
  exists pixels. split_and!; [done|lia|done|]. rewrite Hp. cbn [mbind option_bind]. unfold written.
  rewrite (concat_length_const _ k) by (intros p; by rewrite length_map). rewrite u32_id by (unfold is_u32; lia).
  rewrite (proj2 (Z.leb_le _ _)); [done|]. nia.
Qed.

(** ** No color is lost *)

(** The pixel whose channels have these top bits. *)
Definition pack (widths : list Z) (channels : list Z) : Z :=
  foldl (λ acc '(w, c), acc * 2 ^ w + c / 2 ^ (8 - w)) 0 (zip widths channels).

(** A decision for all numbers of so many bits. *)
Fixpoint for_bits (n : nat) (P : Z → bool) : bool :=
  match n with
  | O => P 0
  | S n => for_bits n (λ x, P (2 * x)) && for_bits n (λ x, P (2 * x + 1))
  end.

Lemma for_bits_spec n : ∀ P x, for_bits n P = true → 0 ≤ x < 2 ^ Z.of_nat n → P x = true.
Proof.
  induction n as [|n IH]; intros P x; cbn [for_bits]; [intros HP Hx; by replace x with 0 by lia|].
  intros [H0 H1]%andb_true_iff Hx. rewrite Nat2Z.inj_succ, Z.pow_succ_r in Hx by lia.
  pose proof (Z.div_mod x 2 ltac:(lia)) as Hdiv. pose proof (Z.mod_pos_bound x 2 ltac:(lia)). pose proof (Z.div_pos x 2 ltac:(lia) ltac:(lia)).
  assert (x / 2 < 2 ^ Z.of_nat n) by lia. destruct (Z.eq_dec (x mod 2) 0) as [E|E].
  - apply (IH _ (x / 2)) in H0; [|lia]. by replace x with (2 * (x / 2)) by lia.
  - apply (IH _ (x / 2)) in H1; [|lia]. by replace x with (2 * (x / 2) + 1) by lia.
Qed.

Definition packed (channels : Z → list Z) (widths : list Z) (mask : Z) (pixel : Z) : bool :=
  (pack widths (channels pixel) =? Z.land pixel mask) && forallb (λ c, (0 <=? c) && (c <=? 255)) (channels pixel).

Lemma RGB565_packed p : 0 ≤ p < 65536 → packed RGB565_channels [5; 6; 5] 0xFFFF p = true.
Proof. apply (for_bits_spec 16 (packed _ _ _)). vm_compute. reflexivity. Qed.

Lemma X1R5G5B5_packed p : 0 ≤ p < 65536 → packed X1R5G5B5_channels [5; 5; 5] 0x7FFF p = true.
Proof. apply (for_bits_spec 16 (packed _ _ _)). vm_compute. reflexivity. Qed.

Lemma A1R5G5B5_packed p : 0 ≤ p < 65536 → packed A1R5G5B5_channels [1; 5; 5; 5] 0xFFFF p = true.
Proof. apply (for_bits_spec 16 (packed _ _ _)). vm_compute. reflexivity. Qed.

Lemma A4R4G4B4_packed p : 0 ≤ p < 65536 → packed A4R4G4B4_channels [4; 4; 4; 4] 0xFFFF p = true.
Proof. apply (for_bits_spec 16 (packed _ _ _)). vm_compute. reflexivity. Qed.

(** The pixels whose channels [out] has, one byte for each. *)
Fixpoint recovered (widths : list Z) (count : nat) (out : bytes) : list Z :=
  match count with
  | O => []
  | S count =>
    pack widths (map byte_val (take (length widths) out)) :: recovered widths count (drop (length widths) out)
  end.

Lemma packed_bytes channels widths mask p :
  packed channels widths mask p = true →
  pack widths (map byte_val (map byte_of (channels p))) = Z.land p mask.
Proof.
  unfold packed. intros [Hp Hc]%andb_true_iff. rewrite map_map, (map_ext_in _ (λ c, c)), map_id; [by apply Z.eqb_eq in Hp|].
  intros c Hin. rewrite byte_val_of. rewrite forallb_forall in Hc. specialize (Hc c Hin). apply andb_true_iff in Hc as [? ?].
  apply Z.mod_small. lia.
Qed.

Lemma recovered_pixels channels widths mask pixels :
  (∀ p, length (channels p) = length widths) →
  (∀ p, 0 ≤ p < 65536 → packed channels widths mask p = true) → Forall (λ p, 0 ≤ p < 65536) pixels →
  recovered widths (length pixels) (concat (map (λ p, map byte_of (channels p)) pixels)) = map (λ p, Z.land p mask) pixels.
Proof.
  intros Hlen Hpacked Hall. induction Hall as [|p pixels Hp Hall IH]; [done|]. cbn [length recovered map concat].
  rewrite take_app_length', drop_app_length' by (by rewrite length_map, Hlen). by rewrite IH, (packed_bytes _ _ mask) by auto.
Qed.

(** A conversion and what is kept of a pixel. *)
Definition keeps_color (convert : bytes → Z → option bytes) (widths : list Z) (mask : Z) (src : bytes) (pixels : list Z) : Prop :=
  ∃ out, convert src (2 * Z.of_nat (length pixels)) = Some out
    ∧ length out = (length widths * length pixels)%nat
    ∧ recovered widths (length pixels) out = map (λ p, Z.land p mask) pixels.

Lemma keeps_color_of channels widths mask src pixels :
  (∀ p, length (channels p) = length widths) → (length widths ≤ 4)%nat →
  (∀ p, 0 ≤ p < 65536 → packed channels widths mask p = true) →
  read_pixels (length pixels) src = Some pixels → Z.of_nat (length pixels) < 2 ^ 30 → (2 * length pixels ≤ length src)%nat →
  keeps_color (convert_pixels channels) widths mask src pixels.
Proof.
  intros Hlen Hk Hpacked Hread Hn Hl. destruct (read_pixels_some (length pixels) src Hl) as (pixels' & Hread' & _ & Hall & _).
  rewrite Hread in Hread'. injection Hread' as <-. eexists. split; [|split; [|by apply recovered_pixels]].
  - unfold convert_pixels. rewrite Z.shiftr_div_pow2, Z.shiftl_mul_pow2, (Z.mul_comm 2), Z.div_mul, Nat2Z.id by lia.
    rewrite Hread. cbn [mbind option_bind]. unfold written.
    rewrite (concat_length_const _ (length widths)) by (intros p; by rewrite length_map). rewrite u32_id by (unfold is_u32; lia).
    rewrite (proj2 (Z.leb_le _ _)); [reflexivity|]. nia.
  - by rewrite (concat_length_const _ (length widths)) by (intros p; by rewrite length_map).
Qed.

(** Converting pixels of two bytes loses no color: for every image of less than
    2 GiB the four conversions succeed, stay within their buffer, write one byte
    for each channel, and the top bits of these bytes are the channels of the
    pixels (without the unused bit of the format that has one). *)
Theorem conversions_keep_color (src : bytes) (pixels : list Z) :
  read_pixels (length pixels) src = Some pixels → Z.of_nat (length pixels) < 2 ^ 30 → (2 * length pixels ≤ length src)%nat →
  keeps_color RGB565ToRGB88 [5; 6; 5] 0xFFFF src pixels
  ∧ keeps_color AXR5G5B5ToRGB888 [5; 5; 5] 0x7FFF src pixels
  ∧ keeps_color A1R5G5B5ToRGBA888 [1; 5; 5; 5] 0xFFFF src pixels
  ∧ keeps_color A4R4G4B4ToRGBA888 [4; 4; 4; 4] 0xFFFF src pixels.
Proof.
  intros Hread Hn Hl. split_and!; apply keeps_color_of; try done; try (cbn; lia).
  - exact RGB565_packed.
  - exact X1R5G5B5_packed.
  - exact A1R5G5B5_packed.
  - exact A4R4G4B4_packed.
Qed.

(** From 2 GiB on the size of the buffer wraps: the pixels are written past its
    end. *)
Lemma conversion_overruns channels src pixels k :
  (∀ p, length (channels p) = k) → (3 ≤ k)%nat →
  read_pixels (Z.to_nat (2 ^ 30)) src = Some pixels → length pixels = Z.to_nat (2 ^ 30) →
  convert_pixels channels src (2 ^ 31) = None.
Proof.
  intros Hk H3 Hread Hlen. unfold convert_pixels. change (Z.shiftr (2 ^ 31) 1) with (2 ^ 30). rewrite Hread. cbn [mbind option_bind].
  unfold written. rewrite (concat_length_const _ k) by (intros p; by rewrite length_map). change (u32 (Z.shiftl (2 ^ 31) 1)) with 0.
  rewrite Hlen. rewrite (proj2 (Z.leb_gt _ _)); [done|]. assert (0 < 2 ^ 30) by done. nia.
Qed.

(** The brightest four-bit channel is not the brightest of eight bits. *)
Lemma expand4_white : expand4 15 = 247 ∧ expand5 31 = 255 ∧ expand6 63 = 255.
Proof. done. Qed.

Lemma conversions_keep_color_witness :
  let src := [byte_of 0x34; byte_of 0x12; byte_of 0xFF; byte_of 0xFF] in
  keeps_color RGB565ToRGB88 [5; 6; 5] 0xFFFF src [0x1234; 0xFFFF]
  ∧ keeps_color AXR5G5B5ToRGB888 [5; 5; 5] 0x7FFF src [0x1234; 0xFFFF]
  ∧ keeps_color A1R5G5B5ToRGBA888 [1; 5; 5; 5] 0xFFFF src [0x1234; 0xFFFF]
  ∧ keeps_color A4R4G4B4ToRGBA888 [4; 4; 4; 4] 0xFFFF src [0x1234; 0xFFFF].
Proof. intros src. apply conversions_keep_color; [vm_compute; reflexivity|done|cbn; lia]. Defined.

(** ** Channels in another order *)

Lemma swizzle_spec order count src :
  Forall (λ i, (i < 4)%nat) order → (4 * count ≤ length src)%nat →
  ∃ out, swizzle order count src = Some out ∧ length out = (length order * count)%nat
    ∧ ∀ i j k, (i < count)%nat → order !! j = Some k → out !! (length order * i + j)%nat = src !! (4 * i + k)%nat.
Proof.
  intros Horder. revert src; induction count as [|count IH]; intros src Hl.
  { exists []. split_and!; [done|cbn; lia|intros; lia]. }
  destruct (IH (drop 4 src)) as (rest & Hrest & Hlen & Hat); [rewrite length_drop; lia|]. cbn [swizzle].
  assert (∃ pixel, mapM (λ i, src !! i) order = Some pixel) as [pixel Hpixel].
  { apply mapM_is_Some. eapply Forall_impl; [exact Horder|]. intros i Hi. apply lookup_lt_is_Some. cbn beta in Hi. lia. }
  rewrite Hpixel, Hrest. eexists. split; [reflexivity|]. pose proof (length_mapM _ _ _ Hpixel) as Hlp.
  split; [rewrite length_app; lia|]. intros i j k Hi Hj. pose proof (lookup_lt_Some _ _ _ Hj) as Hjl. destruct i as [|i].
  - rewrite Nat.mul_0_r, lookup_app_l by lia. apply mapM_Some in Hpixel.
    destruct (Forall2_lookup_l _ _ _ _ _ Hpixel Hj) as (b & Hb & Hsrc). cbn. by rewrite Hb.
  - rewrite lookup_app_r by lia. replace (length order * S i + j - length pixel)%nat with (length order * i + j)%nat by lia.
    rewrite (Hat i j k) by (lia || done). rewrite lookup_drop. f_equal. lia.
Qed.

(** The conversions of pixels of four bytes move channels and lose none: byte by
    byte, each output channel is the input channel of the same pixel that the
    format has in its place, and for whole pixels nothing is left out. *)
Theorem swizzles_reorder (src : bytes) (n : nat) :
  (4 * n ≤ length src)%nat →
  ∃ a b c,
    BGRAToRGBA src (4 * Z.of_nat n) = Some a ∧ ABGRToRGBA src (4 * Z.of_nat n) = Some b ∧ ARGBToRGBA src (4 * Z.of_nat n) = Some c
    ∧ length a = (4 * n)%nat ∧ length b = (4 * n)%nat ∧ length c = (4 * n)%nat
    ∧ ∀ i, (i < n)%nat →
      (∀ j k, (j, k) ∈ [(0, 2); (1, 1); (2, 0); (3, 3)]%nat → a !! (4 * i + j)%nat = src !! (4 * i + k)%nat)
      ∧ (∀ j k, (j, k) ∈ [(0, 3); (1, 2); (2, 1); (3, 0)]%nat → b !! (4 * i + j)%nat = src !! (4 * i + k)%nat)
      ∧ (∀ j k, (j, k) ∈ [(0, 1); (1, 2); (2, 3); (3, 0)]%nat → c !! (4 * i + j)%nat = src !! (4 * i + k)%nat).
Proof.
  intros Hl.
  assert (∀ order, length order = 4%nat → Forall (λ i, (i < 4)%nat) order →
    ∃ out, convert_swizzled order src (4 * Z.of_nat n) = Some out ∧ length out = (4 * n)%nat
      ∧ ∀ i j k, (i < n)%nat → order !! j = Some k → out !! (4 * i + j)%nat = src !! (4 * i + k)%nat) as Hall.
  { intros order Hlen Horder. destruct (swizzle_spec order n src Horder Hl) as (out & Hout & Hol & Hat). rewrite Hlen in *.
    exists out. split_and!; [|done|done]. unfold convert_swizzled. rewrite (Z.mul_comm 4), Z.div_mul, Nat2Z.id, Hout by lia.
    cbn [mbind option_bind]. unfold written. rewrite Hol. destruct (Z.leb_spec (Z.of_nat (4 * n)) (Z.of_nat n * 4)); [done|lia]. }
  destruct (Hall [2; 1; 0; 3]%nat) as (a & Ha & Hla & Hata); [done|by repeat (constructor; [lia|])|].
  destruct (Hall [3; 2; 1; 0]%nat) as (b & Hb & Hlb & Hatb); [done|by repeat (constructor; [lia|])|].
  destruct (Hall [1; 2; 3; 0]%nat) as (c & Hc & Hlc & Hatc); [done|by repeat (constructor; [lia|])|].
  exists a, b, c. split_and!; [done..|]. intros i Hi.
  split_and!; intros j k Hjk; [apply Hata|apply Hatb|apply Hatc]; try done;
    rewrite !elem_of_cons in Hjk; destruct Hjk as [?|[?|[?|[?|?%not_elem_of_nil]]]]; by simplify_eq.
Qed.

Lemma swizzles_reorder_witness :
  ∃ a b c, BGRAToRGBA "BGRAbgra"%bs 8 = Some a ∧ ABGRToRGBA "ABGRabgr"%bs 8 = Some b ∧ ARGBToRGBA "ARGBargb"%bs 8 = Some c
    ∧ a = "RGBArgba"%bs ∧ length a = 8%nat.
Proof.
  destruct (swizzles_reorder "BGRAbgra"%bs 2 ltac:(cbn; lia)) as (a & _ & _ & Ha & _ & _ & Hla & _).
  exists a. do 2 eexists. split; [exact Ha|]. split; [vm_compute; reflexivity|]. split; [vm_compute; reflexivity|].
  split; [|exact Hla]. assert (BGRAToRGBA "BGRAbgra"%bs 8 = Some "RGBArgba"%bs) as E by (vm_compute; reflexivity).
  change (4 * Z.of_nat 2) with 8 in Ha. congruence.
Defined.

(** ** The file of a texture *)

(** The dword at an offset of a file. *)
Definition file_dword (off : nat) (file : bytes) : Z := le_int (take 4 (drop off file)).

Definition fourcc_text (compression : DXTCompression) : bytes :=
  match compression with DXT1 => "DXT1"%bs | DXT3 => "DXT3"%bs | DXT5 => "DXT5"%bs | INVALID => [] end.
Definition block_bytes (compression : DXTCompression) : Z := match compression with DXT1 => 8 | _ => 16 end.

Lemma take_drop_middle_eq {A} (n : nat) (front middle back : list A) :
  length middle = n → take n (drop (length front) (front ++ middle ++ back)) = middle.
Proof. intros <-. by rewrite drop_app_length, take_app_length. Qed.

Lemma file_dword_member (pre : list Z) (v : Z) (post : list Z) (front back : bytes) off :
  is_u32 v → off = (length front + 4 * length pre)%nat →
  file_dword off (front ++ concat (map (le_bytes 4) (pre ++ v :: post)) ++ back) = v.
Proof.
  intros Hv ->. unfold file_dword. rewrite map_app, concat_app. cbn [map concat]. rewrite <- !app_assoc.
  assert (length (front ++ concat (map (le_bytes 4) pre)) = (length front + 4 * length pre)%nat) as Hlen.
  { rewrite length_app, (concat_length_const _ 4) by (intros x; apply le_bytes_length). lia. }
  rewrite <- Hlen, (app_assoc front). rewrite take_drop_middle_eq by (by rewrite le_bytes_length).
  apply le_int_bytes. exact Hv.
Qed.

Lemma fourcc_bytes compression fourcc block_size flags :
  compression_format compression = Some (fourcc, block_size, flags) →
  is_u32 fourcc ∧ is_u32 flags ∧ le_bytes 4 fourcc = fourcc_text compression ∧ block_size = block_bytes compression.
Proof. destruct compression; intros [= <- <- <-]; split_and!; done. Qed.

(** An encoded texture is a DDS file: it starts with the magic, its header has
    the size of a header, the dimensions, the code of the compression and the
    number of bytes of a row of blocks where a reader looks for them, and the
    data of the texture follows the header unchanged; a texture without a
    compression is refused and leaves the buffer alone. *)
Theorem EncodeDDS_file (encoded_data input : bytes) (input_len width height : Z) (compression : DXTCompression) :
  is_u32 width → is_u32 height → 0 ≤ input_len ≤ Z.of_nat (length input) → width ≤ 2 ^ 28 →
  match compression with
  | INVALID => EncodeDDS encoded_data input input_len width height compression = Some (1, encoded_data)
  | _ =>
    ∃ file, EncodeDDS encoded_data input input_len width height compression = Some (0, file)
      ∧ length file = (128 + Z.to_nat input_len)%nat
      ∧ take 4 file = "DDS "%bs ∧ file_dword 4 file = 124
      ∧ file_dword 12 file = height ∧ file_dword 16 file = width
      ∧ file_dword 20 file = (width + 3) / 4 * block_bytes compression
      ∧ file_dword 76 file = 32 ∧ take 4 (drop 84 file) = fourcc_text compression
      ∧ drop 128 file = take (Z.to_nat input_len) input
  end.
Proof.
  intros Hw Hh Hlen Hsmall. destruct (decide (compression = INVALID)) as [->|Hc]; [done|].
  assert (∃ f b g, compression_format compression = Some (f, b, g)) as (fourcc & block_size & flags & Hf) by (destruct compression; [done|do 3 eexists; reflexivity..]).
  destruct (fourcc_bytes _ _ _ _ Hf) as (Hcu & Hgu & Htext & ->). 
  set (pitch := (width + 3) / 4 * block_bytes compression).
  assert (0 ≤ (width + 3) / 4 ≤ 2 ^ 27) as Hblocks.
  { split; [apply Z.div_pos; unfold is_u32 in Hw; lia|]. apply Z.div_le_upper_bound; lia. }
  assert (0 ≤ block_bytes compression ≤ 16) as Hbb by (by destruct compression).
  assert (is_u32 pitch) as Hpitch by (unfold pitch, is_u32; nia).
  set (h := dds_header fourcc (block_bytes compression) flags width height).
  set (flags0 := dwFlags h). assert (is_u32 flags0) as Hflags by (split; done).
  assert (header_members h = [124; flags0; height; width; pitch; 0; 1] ++ repeat 0 11 ++ [32; flags; fourcc; 0; 0; 0; 0; 0] ++ [DDSCAPS_TEXTURE; 0; 0; 0; 0]) as Hmem.
  { unfold h, dds_header, header_members. cbn [dwSize dwFlags dwHeight dwWidth dwPitchOrLinearSize dwDepth dwMipMapCount dwReserved1 ddspf].
    rewrite (u32_id (width + 3)) by (unfold is_u32 in *; lia). rewrite (u32_id ((width + 3) / 4 * block_bytes compression)) by exact Hpitch. reflexivity. }
  set (data := take (Z.to_nat input_len) input).
  set (file := "DDS "%bs ++ concat (map (le_bytes 4) (header_members h)) ++ data).
  assert (EncodeDDS encoded_data input input_len width height compression = Some (0, file)) as Henc.
  { unfold EncodeDDS. rewrite Hf. destruct (Z.ltb_spec (Z.of_nat (length input)) input_len); [lia|done]. }
  assert (length (concat (map (le_bytes 4) (header_members h))) = 124%nat) as Hhl.
  { rewrite (concat_length_const _ 4) by (intros x; apply le_bytes_length). by rewrite Hmem. }
  enough (length file = (128 + Z.to_nat input_len)%nat
      ∧ take 4 file = "DDS "%bs ∧ file_dword 4 file = 124
      ∧ file_dword 12 file = height ∧ file_dword 16 file = width ∧ file_dword 20 file = pitch
      ∧ file_dword 76 file = 32 ∧ take 4 (drop 84 file) = fourcc_text compression ∧ drop 128 file = data) as Hfile.
  { destruct compression; [done|..]; by exists file. }
  assert (∀ pre v post off, header_members h = pre ++ v :: post → is_u32 v → off = (4 + 4 * length pre)%nat → file_dword off file = v) as Hat.
  { intros pre v post off Hm Hv ->. unfold file. rewrite Hm. by apply file_dword_member. }
  split_and!.
  - unfold file. rewrite !length_app, Hhl. unfold data. rewrite length_take. cbn. lia.
  - reflexivity.
  - by apply (Hat [] _ _ _ Hmem).
  - by apply (Hat [124; flags0] _ _ _ Hmem).
  - by apply (Hat [124; flags0; height] _ _ _ Hmem).
  - by apply (Hat [124; flags0; height; width] _ _ _ Hmem).
  - by apply (Hat ([124; flags0; height; width; pitch; 0; 1] ++ repeat 0 11) _ _ _ Hmem).
  - rewrite <- Htext. pose proof (Hat ([124; flags0; height; width; pitch; 0; 1] ++ repeat 0 11 ++ [32; flags]) fourcc _ 84%nat Hmem Hcu eq_refl) as Hcc.
    rewrite <- Hcc. unfold file_dword. symmetry. apply le_bytes_int. rewrite length_take, length_drop. unfold file.
    rewrite !length_app, Hhl. cbn. lia.
  - unfold file. rewrite app_assoc. apply drop_app_length'. by rewrite length_app, Hhl.
Qed.

Lemma EncodeDDS_file_witness :
  ∃ file, EncodeDDS [] "12345678"%bs 8 4 4 DXT1 = Some (0, file) ∧ length file = 136%nat ∧ take 4 (drop 84 file) = "DXT1"%bs.
Proof.
  destruct (EncodeDDS_file [] "12345678"%bs 8 4 4 DXT1) as (file & He & Hl & _ & _ & _ & _ & _ & _ & Hcc & _);
    [unfold is_u32; lia|unfold is_u32; lia|cbn; lia|lia|]. by exists file.
Defined.
