(* ===== verification/FileUtil.v ===== *)
(** * Files of the console (src/shell/file_util.h, file_util.cpp)

    Copying files and directories to and from the console and deleting them there.
    The local disk is the interface [LocalDisk] on the state of the world, which
    [Target] is the console's part of; [None] stands for an exception nobody catches.
    Loops over directories that are found while they run take fuel.  The time a file
    is given on the console tells whether the local file has changed since it was
    copied. *)

From stdpp Require Import sorting.
From S2P Require Import Prelude CLib Boost Parsing RdcpResponse RdcpMaps RdcpTypes RdcpRequest Requests Notifications Target.

(** ** The local disk *)

Inductive FileType := REGULAR | DIRECTORY | OTHER.

(** What the program uses of [std::filesystem] and of file streams. *)
Class LocalDisk (E : Type) := {
  (** the contents of a file that can be opened *)
  read_local : bytes → E → option bytes;
  (** [last_write_time] in seconds and [file_size], which throw *)
  last_write_seconds : bytes → E → option Z;
  local_file_size : bytes → E → option Z;
  (** the names in a directory in some order, with their types *)
  directory_entries : bytes → E → option (list (bytes * FileType));
  (** [relative(path, base)] *)
  relative_path : bytes → bytes → E → option bytes;
  write_local : bytes → bytes → E → bool * E;
  create_directories : bytes → E → E
}.

(** ** Paths and names *)

Definition slash : byte := "/"%byte.

(** [s.back()].  Undefined for the empty string: the byte before its characters,
    the last one of its length, is 0. *)
Definition back (s : bytes) : byte := default NUL (last s).

Definition EnsureTrailingBackslash (dir_path : bytes) : bytes :=
  if decide (back dir_path = backslash) then dir_path else dir_path ++ [backslash].

Definition replace_byte (old new : byte) (s : bytes) : bytes := map (λ c, if decide (c = old) then new else c) s.
Definition EnsureXFATStylePath (path : bytes) : bytes := replace_byte slash backslash path.
Definition XFATPathToLocalPath (relative_path : bytes) : bytes := replace_byte backslash slash relative_path.

(** The text after and before the last slash. *)
Definition rfind_slash (path : bytes) : option nat := (λ i, (length path - 1 - i)%nat) <$> find_byte slash (rev path).
Definition filename (path : bytes) : bytes := match rfind_slash path with Some i => drop (S i) path | None => path end.
Definition parent_path (path : bytes) : bytes := match rfind_slash path with Some i => take i path | None => [] end.

(** [dir / name] for a relative name. *)
Definition path_append (dir name : bytes) : bytes :=
  match dir with [] => name | _ => if decide (back dir = slash) then dir ++ name else dir ++ slash :: name end.

(** ** Time stamps *)

Definition kMinTimestamp : Z := 0x01c0000000000000.
Definition kMaxTimestamp : Z := 0x023fffffffffffff.
Definition kTimeRange : Z := u64 (kMaxTimestamp - kMinTimestamp).
Definition kUsableTimestampRange : Z := 0xFFFFFFFFF0000000.

(** [while (t > kMaxTimestamp) t -= kTimeRange] *)
Fixpoint reduce_timestamp (fuel : nat) (t : Z) : Z :=
  match fuel with
  | O => t
  | S fuel => if kMaxTimestamp <? t then reduce_timestamp fuel (u64 (t - kTimeRange)) else t
  end.

(** Of the seconds, which may be negative. *)
Definition safe_timestamp (seconds : Z) : Z :=
  let change_timestamp := u64 (Z.shiftl seconds 28) in
  let change_timestamp := if change_timestamp <? kMinTimestamp then u64 (change_timestamp + kMinTimestamp) else change_timestamp in
  Z.land (reduce_timestamp 512 change_timestamp) kUsableTimestampRange.

(** ** Loops *)

Section Loops.
Context {S A : Type}.

(** A loop whose body may [return false]. *)
Fixpoint every (body : A → M S bool) (l : list A) : M S bool :=
  match l with
  | [] => mret true
  | x :: l' => ok ← body x; if ok : bool then every body l' else mret false
  end.
End Loops.

(** [if (!ok) return false;] *)
Definition and_then {S} (m k : M S bool) : M S bool := ok ← m; if ok : bool then k else mret false.

(** The elements of a [std::set<std::string>] in order. *)
Definition string_le (a b : bytes) : Prop := string_ltb b a = false.
#[global] Instance string_le_dec : RelDecision string_le.
Proof. intros a b. unfold string_le. apply _. Defined.
Definition in_order (s : gset bytes) : list bytes := merge_sort string_le (elements s).

Section Files.
Context `{!Boost} {C E : Type} `{!Target C E, !LocalDisk E}.

Definition SafeXFATTimestampForFile (local_path : bytes) : M E Z :=
  seconds ← gets (last_write_seconds local_path);
  seconds ← lift_option seconds;
  mret (safe_timestamp seconds).

(** *** Looking at the console *)

Record RemoteAttributes := MkRemote {
  exists_ : bool; is_dir : bool; size : Z; remote_create_timestamp : Z; remote_change_timestamp : Z
}.

Definition CheckRemotePath (path : bytes) : M E (option RemoteAttributes) :=
  '(ok, a) ← command GetFileAttributes_class (GetFileAttributes path) None (MkAttributes None 0 0 0 ∅);
  if negb ok then mret None
  else
    found ← lift_option (file_exists a);
    mret (Some (MkRemote found (bool_decide ("directory"%bs ∈ attr_flags a)) (u64 (attr_filesize a))
                  (attr_create_timestamp a) (attr_change_timestamp a))).

(** [if (!CheckRemotePath(...)) return false;] *)
Definition with_remote (path : bytes) (k : RemoteAttributes → M E bool) : M E bool :=
  a ← CheckRemotePath path; match a with Some a => k a | None => mret false end.

(** The directories and the files. *)
Definition FetchDirectoryEntries (path : bytes) : M E (option (list Entry * list Entry)) :=
  '(ok, entries) ← command DirList_class (DirList (EnsureXFATStylePath path)) None [];
  mret (if ok : bool then Some (List.filter is_directory entries, List.filter (λ e, negb (is_directory e)) entries) else None).

(** *** Deleting *)

Fixpoint DeleteRecursively (fuel : nat) (path : bytes) : M E bool :=
  match fuel with
  | O => mfail
  | S fuel =>
    listing ← FetchDirectoryEntries path;
    match listing with
    | None => mret false
    | Some (directories, files) =>
      let root_path := EnsureTrailingBackslash path in
      and_then (every (λ file, plain_command (Delete (root_path ++ entry_name file) false)) files)
        (and_then (every (λ dir, DeleteRecursively fuel (root_path ++ entry_name dir)) directories)
           (plain_command (Delete path true)))
    end
  end.

(** *** Copying from the console *)

Definition on_disk (f : E → bool * E) : M E bool := λ e, Some (f e).

Definition SaveFile (remote local : bytes) : M E bool :=
  '(ok, data) ← command GetFile_class (GetFile remote) None [];
  if negb ok then mret false else on_disk (write_local local data).

Fixpoint SaveDirectory (fuel : nat) (remote local : bytes) : M E bool :=
  match fuel with
  | O => mfail
  | S fuel =>
    listing ← FetchDirectoryEntries remote;
    match listing with
    | None => mret false
    | Some (directories, files) =>
      let remote_dir := EnsureTrailingBackslash remote in
      and_then
        (every (λ dir,
           let local_path := path_append local (entry_name dir) in
           modify (create_directories local_path) ;;
           SaveDirectory fuel (remote_dir ++ entry_name dir) local_path) directories)
        (every (λ file, SaveFile (remote_dir ++ entry_name file) (path_append local (entry_name file))) files)
    end
  end.

(** The numbers are printed as signed ones. *)
Definition SaveRawFile (filename_root : bytes) (width height bpp format : Z) (data : bytes) : M E bool :=
  let buf := snprintf 255 (filename_root ++ "-w"%bs ++ fmt_d (i32 width) ++ "_h"%bs ++ fmt_d (i32 height)
                           ++ "_bpp"%bs ++ fmt_d (i32 bpp) ++ "_fmt"%bs ++ fmt_d (i32 format) ++ ".bin"%bs) in
  on_disk (write_local buf data).

(** *** Copying to the console *)

Definition UploadFileWithoutChecking (local_path full_remote_path : bytes) (set_timestamp : bool) : M E bool :=
  data ← gets (read_local local_path);
  match data with
  | None => mret false
  | Some data =>
    let safe_full_remote_path := EnsureXFATStylePath full_remote_path in
    let '(request, payload) := SendFile safe_full_remote_path data in
    '(ok, _) ← command plain_class request payload tt;
    if negb ok then mret false
    else if set_timestamp then
      change_timestamp ← SafeXFATTimestampForFile local_path;
      plain_command (SetFileAttributes safe_full_remote_path None None (Some change_timestamp) (Some change_timestamp))
    else mret true
  end.

Inductive UploadFileOverwriteAction := OVERWRITE | ABORT | SKIP.

Definition UploadFile (local_path remote_path : bytes) (overwrite_action : UploadFileOverwriteAction) : M E bool :=
  let safe_remote_path := EnsureXFATStylePath remote_path in
  with_remote safe_remote_path (λ a,
    let makes := negb (exists_ a) && bool_decide (back safe_remote_path = backslash) in
    and_then (if makes then plain_command (Mkdir safe_remote_path) else mret true)
      (let upload full_remote_path (a : RemoteAttributes) :=
         if exists_ a && negb (is_dir a) then
           match overwrite_action with
           | OVERWRITE => UploadFileWithoutChecking local_path full_remote_path true
           | SKIP => mret true
           | ABORT => mret false
           end
         else UploadFileWithoutChecking local_path full_remote_path true in
       if is_dir a || makes then
         let full_remote_path := EnsureTrailingBackslash safe_remote_path ++ filename local_path in
         with_remote full_remote_path (upload full_remote_path)
       else upload safe_remote_path a)).
End Files.

(** *** Walking over a local directory *)

Section Walk.
Context {S E : Type} `{!LocalDisk E}.

(** The entries of a directory: the callback runs for the files, and the
    directories are found. *)
Fixpoint walk_entries (cb : bytes → M (S * E) bool) (local_path : bytes) (entries : list (bytes * FileType))
  : M (S * E) (option (list bytes)) :=
  match entries with
  | [] => mret (Some [])
  | (name, type) :: entries' =>
    let path := path_append local_path name in
    ok ← match type with REGULAR => cb path | _ => mret true end;
    if ok : bool then
      found ← walk_entries cb local_path entries';
      mret (app (match type with DIRECTORY => [path] | _ => [] end) <$> found)
    else mret None
  end.

Fixpoint walk_directories (fuel : nat) (cb : bytes → M (S * E) bool) (directories : list bytes) : M (S * E) bool :=
  match directories with
  | [] => mret true
  | local_path :: directories' =>
    match fuel with
    | O => mfail
    | Datatypes.S fuel =>
      entries ← gets (λ s, directory_entries local_path s.2);
      entries ← lift_option entries;
      found ← walk_entries cb local_path entries;
      match found with
      | None => mret false
      | Some found => walk_directories fuel cb (directories' ++ found)
      end
    end
  end.

Definition WalkDirectory (fuel : nat) (root_path : bytes) (cb : bytes → M (S * E) bool) : M (S * E) bool :=
  walk_directories fuel cb [root_path].
End Walk.

(** ** Whole directories *)

Section Directories.
Context `{!Boost} {C E : Type} `{!Target C E, !LocalDisk E}.

Definition substr (s : bytes) (pos : nat) : option bytes := if (pos <=? length s)%nat then Some (drop pos s) else None.

(** *** Walking over a directory of the console

    The callbacks have a state of their own.  That for directories answers [None]
    to abort and whether to skip the directory otherwise. *)

Section WalkRemote.
Context {S : Type}.
Context (process_file : bytes → Entry → M (S * E) bool) (process_dir : bytes → M (S * E) (option bool)).

Fixpoint walk_remote (fuel : nat) (full_remote_directory : bytes) (directories : list bytes) : M (S * E) bool :=
  match directories with
  | [] => mret true
  | dir :: directories' =>
    match fuel with
    | O => mfail
    | Datatypes.S fuel =>
      listing ← on_right (FetchDirectoryEntries dir);
      match listing with
      | None => mret false
      | Some (subdirectories, files) =>
        should_skip ← process_dir dir;
        match should_skip with
        | None => mret false
        | Some true => walk_remote fuel full_remote_directory directories'
        | Some false =>
          relative_path ← lift_option (substr dir (length full_remote_directory));
          and_then (every (process_file relative_path) files)
            (walk_remote fuel full_remote_directory
               (directories' ++ map (λ subdir, EnsureTrailingBackslash dir ++ entry_name subdir) subdirectories))
        end
      end
    end
  end.

Definition WalkRemoteDir (fuel : nat) (remote_directory : bytes) : M (S * E) bool :=
  let full_remote_directory := EnsureTrailingBackslash remote_directory in
  a ← on_right (CheckRemotePath full_remote_directory);
  match a with
  | None => mret false
  | Some a =>
    if exists_ a && negb (is_dir a) then mret false
    else if negb (exists_ a) then mret true
    else walk_remote fuel full_remote_directory [full_remote_directory]
  end.
End WalkRemote.

(** *** Uploading *)

Definition UploadDirectory (fuel : nat) (local_path remote_path : bytes) (overwrite_action : UploadFileOverwriteAction)
    (contents_only : bool) : M E bool :=
  let safe_remote_path := EnsureXFATStylePath remote_path in
  with_remote safe_remote_path (λ a,
    if exists_ a && negb (is_dir a) then mret false
    else
      and_then (if exists_ a then mret true else plain_command (Mkdir safe_remote_path))
        (let full_remote_path := EnsureTrailingBackslash safe_remote_path in
         let full_remote_path :=
           if contents_only then full_remote_path
           else EnsureTrailingBackslash (full_remote_path ++ filename local_path) in
         λ e, '(ok, (_, e)) ← WalkDirectory fuel local_path
                (λ local_file, on_right (UploadFile local_file full_remote_path overwrite_action)) (tt, e);
              Some (ok, e))).

(** *** Directories on the console *)

(** A directory that is there already is no failure. *)
Definition make_dir (path : bytes) : M E bool :=
  done ← SendCommandSync plain_class (Mkdir path) None tt;
  mret (IsOK plain_class (status done) || (status done =? ERR_EXISTS)).

(** One directory for each backslash; [front] is the text before [rest]. *)
Fixpoint make_prefixes (front rest : bytes) : M E bool :=
  match rest with
  | [] => mret true
  | c :: rest' =>
    and_then (if decide (c = backslash ∧ back front ≠ ":"%byte) then make_dir front else mret true)
      (make_prefixes (front ++ [c]) rest')
  end.

Definition MakeDirs (remote_directory : bytes) : M E bool :=
  let safe_remote_path := EnsureXFATStylePath remote_directory in
  with_remote safe_remote_path (λ a,
    if exists_ a && negb (is_dir a) then mret false
    else if exists_ a then mret true
    else make_prefixes [] safe_remote_path).

Definition CreateRemoteDirectoryHierarchy (remote_directory : bytes) (hierarchy : gset bytes) : M E bool :=
  let full_remote_dir := EnsureTrailingBackslash (EnsureXFATStylePath remote_directory) in
  and_then (MakeDirs full_remote_dir)
    (every (λ populated_dir,
       if decide (populated_dir = [] ∨ populated_dir = "."%bs) then mret true
       else make_dir (EnsureXFATStylePath (full_remote_dir ++ populated_dir))) (in_order hierarchy)).

(** *** Synchronising *)

(** Whether a file is as it was when it was copied, from the time and the size the
    console has for it. *)
Definition same_file (local_path : bytes) (remote_change_timestamp remote_filesize : Z) : M E bool :=
  change_timestamp ← SafeXFATTimestampForFile local_path;
  if change_timestamp =? Z.land remote_change_timestamp kUsableTimestampRange then
    filesize ← gets (local_file_size local_path);
    filesize ← lift_option filesize;
    mret (remote_filesize =? filesize)
  else mret false.

Definition SyncFile (local_path remote_path : bytes) : M E bool :=
  let sync full_remote_path (a : RemoteAttributes) :=
    if negb (exists_ a) then UploadFileWithoutChecking local_path full_remote_path true
    else
      same ← same_file local_path (remote_change_timestamp a) (size a);
      if same : bool then mret true else UploadFileWithoutChecking local_path full_remote_path true in
  with_remote remote_path (λ a,
    if is_dir a then
      let full_remote_path := EnsureTrailingBackslash remote_path ++ filename local_path in
      with_remote full_remote_path (sync full_remote_path)
    else sync remote_path a).

Inductive SyncFileMissingAction := DELETE | LEAVE.

(** The files found locally: their paths, the paths relative to the directory and
    the directories that have some. *)
Record LocalFiles := MkLocal {
  local_files : gset bytes; relative_local_files : gset bytes; local_populated_dirs : gset bytes
}.

Definition no_files : LocalFiles := MkLocal ∅ ∅ ∅.

Definition collect_file (local_directory local_file : bytes) : M (LocalFiles * E) bool :=
  if decide (filename local_file = ".DS_Store"%bs) then mret true
  else
    relative_file ← gets (λ s, relative_path local_file local_directory s.2);
    relative_file ← lift_option relative_file;
    on_left (modify (λ l, MkLocal ({[local_file]} ∪ local_files l) ({[relative_file]} ∪ relative_local_files l)
                            ({[parent_path relative_file]} ∪ local_populated_dirs l))) ;;
    mret true.

Definition forget_file (local_file relative_path : bytes) (l : LocalFiles) : LocalFiles :=
  MkLocal (local_files l ∖ {[local_file]}) (relative_local_files l ∖ {[relative_path]}) (local_populated_dirs l).

Definition process_remote_file (local_root remote_root : bytes) (missing_action : SyncFileMissingAction)
    (subdir : bytes) (remote_file : Entry) : M (LocalFiles * E) bool :=
  let relative_path :=
    match subdir with
    | [] => entry_name remote_file
    | _ => XFATPathToLocalPath (subdir ++ [backslash] ++ entry_name remote_file)
    end in
  let full_remote_path := EnsureXFATStylePath (remote_root ++ relative_path) in
  known ← gets (λ s, bool_decide (relative_path ∈ relative_local_files s.1));
  if known : bool then
    let local_file := path_append local_root relative_path in
    on_left (modify (forget_file local_file relative_path)) ;;
    same ← on_right (same_file local_file (u64 (change_timestamp remote_file)) (u64 (filesize remote_file)));
    if same : bool then mret true else on_right (UploadFileWithoutChecking local_file full_remote_path true)
  else
    match missing_action with
    | DELETE => on_right (plain_command (Delete full_remote_path false))
    | LEAVE => mret true
    end.

(** [None] to abort. *)
Definition process_remote_dir (fuel : nat) (remote_root : bytes) (missing_action : SyncFileMissingAction)
    (remote_dir : bytes) : M (LocalFiles * E) (option bool) :=
  let full_remote_dir := EnsureTrailingBackslash remote_dir in
  if negb (starts_with remote_root full_remote_dir) then mret None
  else
    let subdir := drop (length remote_root) full_remote_dir in
    let subdir := if decide (back subdir = backslash) then removelast subdir else subdir in
    let subdir := XFATPathToLocalPath subdir in
    populated ← gets (λ s, bool_decide (subdir ∈ local_populated_dirs s.1));
    let should_skip := bool_decide (subdir ≠ []) && negb populated in
    match missing_action with
    | DELETE =>
      if should_skip then
        deleted ← on_right (DeleteRecursively fuel full_remote_dir);
        mret (if deleted : bool then Some true else None)
      else mret (Some should_skip)
    | LEAVE => mret (Some should_skip)
    end.

Definition sync_directory (fuel : nat) (local_directory remote_directory : bytes) (missing_action : SyncFileMissingAction)
  : M (LocalFiles * E) bool :=
  let remote_root := EnsureTrailingBackslash remote_directory in
  and_then (WalkDirectory fuel local_directory (collect_file local_directory))
    (and_then (WalkRemoteDir (process_remote_file local_directory remote_root missing_action)
                 (process_remote_dir fuel remote_root missing_action) fuel remote_directory)
       (l ← gets fst;
        and_then (on_right (CreateRemoteDirectoryHierarchy remote_directory (local_populated_dirs l)))
          (every (λ file,
             relative_file ← gets (λ s, relative_path file local_directory s.2);
             relative_file ← lift_option relative_file;
             on_right (UploadFileWithoutChecking file (remote_root ++ relative_file) true)) (in_order (local_files l))))).

Definition SyncDirectory (fuel : nat) (local_directory remote_directory : bytes) (missing_action : SyncFileMissingAction)
  : M E bool :=
  with_remote remote_directory (λ a,
    if exists_ a && negb (is_dir a) then mret false
    else λ e, '(ok, (_, e)) ← sync_directory fuel local_directory remote_directory missing_action (no_files, e); Some (ok, e)).
End Directories.

Lemma time_range : kTimeRange = 2 ^ 55 - 1.
Proof. reflexivity. Qed.

(** What is taken off, and that it is enough. *)
Lemma reduce_timestamp_spec fuel : ∀ t,
  kMinTimestamp ≤ t → t ≤ kMaxTimestamp + Z.of_nat fuel * kTimeRange → t < 2 ^ 64 →
  ∃ k, 0 ≤ k ≤ Z.of_nat fuel ∧ reduce_timestamp fuel t = t - k * kTimeRange
    ∧ kMinTimestamp ≤ reduce_timestamp fuel t ≤ kMaxTimestamp.
Proof.
  pose proof time_range as Hr. assert (kMaxTimestamp = kMinTimestamp + kTimeRange) as Hm by reflexivity.
  assert (0 < kMinTimestamp) by done.
  induction fuel as [|fuel IH]; intros t Hmin Hmax Hlt; cbn [reduce_timestamp].
  - exists 0. lia.
  - destruct (Z.ltb_spec kMaxTimestamp t).
    + rewrite u64_id by (unfold is_u64; lia). destruct (IH (t - kTimeRange)) as (k & Hk & E & Hb); [lia..|].
      exists (k + 1). rewrite E in *. lia.
    + exists 0. lia.
Qed.

(** The seconds in the upper bits, before the range is looked at. *)
Definition shifted (seconds : Z) : Z := u64 (Z.shiftl seconds 28).

Lemma shifted_eq seconds : shifted seconds = seconds mod 2 ^ 36 * 2 ^ 28.
Proof.
  unfold shifted, u64. rewrite Z.shiftl_mul_pow2 by lia. change (2 ^ 64) with (2 ^ 36 * 2 ^ 28). by rewrite Z.mul_mod_distr_r.
Qed.

(** The time before the low bits are dropped. *)
Definition lifted (seconds : Z) : Z :=
  if shifted seconds <? kMinTimestamp then shifted seconds + kMinTimestamp else shifted seconds.

Lemma lifted_range seconds : kMinTimestamp ≤ lifted seconds < 2 ^ 64.
Proof.
  unfold lifted. assert (0 ≤ shifted seconds < 2 ^ 64) by (apply Z.mod_pos_bound; done).
  assert (kMinTimestamp + kMinTimestamp < 2 ^ 64) by done. destruct (Z.ltb_spec (shifted seconds) kMinTimestamp); lia.
Qed.

Lemma lifted_multiple seconds : ∃ m, lifted seconds = m * 2 ^ 28.
Proof.
  unfold lifted. rewrite shifted_eq. destruct (_ <? _); [|by eexists].
  exists (seconds mod 2 ^ 36 + kMinTimestamp / 2 ^ 28). rewrite Z.mul_add_distr_r. reflexivity.
Qed.

(** Dropping the low bits of a multiple with a small number added. *)
Lemma usable_bits m k : 0 ≤ m → m < 2 ^ 36 → 0 ≤ k < 2 ^ 28 → Z.land (m * 2 ^ 28 + k) kUsableTimestampRange = m * 2 ^ 28.
Proof.
  intros Hm Hm' Hk. change kUsableTimestampRange with (Z.shiftl (Z.ones 36) 28).
  assert (Z.land (m * 2 ^ 28 + k) (Z.shiftl (Z.ones 36) 28) = Z.shiftl (Z.land (Z.shiftr (m * 2 ^ 28 + k) 28) (Z.ones 36)) 28) as ->.
  { apply Z.bits_inj'. intros n Hn. rewrite Z.land_spec, !Z.shiftl_spec by lia. destruct (Z.ltb_spec n 28).
    - rewrite !(Z.testbit_neg_r _ (n - 28)) by lia. by rewrite andb_false_r.
    - rewrite Z.land_spec, Z.shiftr_spec by lia. by replace (n - 28 + 28) with n by lia. }
  rewrite Z.shiftr_div_pow2, Z.div_add_l, (Z.div_small k), Z.add_0_r by lia.
  rewrite Z.land_ones, Z.mod_small, Z.shiftl_mul_pow2 by lia. done.
Qed.

Lemma safe_timestamp_eq seconds :
  ∃ k, 0 ≤ k ≤ 512 ∧ safe_timestamp seconds = lifted seconds - k * 2 ^ 55
    ∧ kMinTimestamp ≤ safe_timestamp seconds ≤ kMaxTimestamp.
Proof.
  pose proof (lifted_range seconds) as Hl. destruct (lifted_multiple seconds) as [m Hm].
  assert (safe_timestamp seconds = Z.land (reduce_timestamp 512 (lifted seconds)) kUsableTimestampRange) as ->.
  { unfold safe_timestamp, lifted. fold (shifted seconds). destruct (Z.ltb_spec (shifted seconds) kMinTimestamp); [|done].
    rewrite u64_id; [done|]. assert (kMinTimestamp + kMinTimestamp < 2 ^ 64) by done.
    assert (0 ≤ shifted seconds < 2 ^ 64) by (apply Z.mod_pos_bound; done). unfold is_u64. lia. }
  assert (2 ^ 64 ≤ kMaxTimestamp + Z.of_nat 512 * kTimeRange) by done.
  destruct (reduce_timestamp_spec 512 (lifted seconds)) as (k & Hk & E & Hb); [lia..|].
  exists k. assert (reduce_timestamp 512 (lifted seconds) = (m - k * 2 ^ 27) * 2 ^ 28 + k) as E'.
  { rewrite E, Hm, time_range. change (2 ^ 55) with (2 ^ 27 * 2 ^ 28). ring. }
  assert (kMinTimestamp = 7 * 2 ^ 26 * 2 ^ 28) as Hmin by reflexivity.
  assert (kMaxTimestamp < 2 ^ 36 * 2 ^ 28) as Hmax by reflexivity.
  assert (Z.of_nat 512 = 512) as H512 by reflexivity.
  assert (7 * 2 ^ 26 ≤ m - k * 2 ^ 27 < 2 ^ 36) as Hrange by nia.
  rewrite E', usable_bits by lia. split; [lia|]. split; [rewrite Hm; change (2 ^ 55) with (2 ^ 27 * 2 ^ 28); ring|]. nia.
Qed.

Lemma stamped_range seconds :
  kMinTimestamp ≤ safe_timestamp seconds ≤ kMaxTimestamp
  ∧ Z.land (safe_timestamp seconds) kUsableTimestampRange = safe_timestamp seconds.
Proof.
  destruct (safe_timestamp_eq seconds) as (k & Hk & E & Hb). split; [done|].
  destruct (lifted_multiple seconds) as [m Hm].
  assert (kMaxTimestamp < 2 ^ 36 * 2 ^ 28) by reflexivity. assert (0 < kMinTimestamp) by reflexivity.
  assert (safe_timestamp seconds = (m - k * 2 ^ 27) * 2 ^ 28 + 0) as E'.
  { rewrite E, Hm. change (2 ^ 55) with (2 ^ 27 * 2 ^ 28). ring. }
  rewrite E', usable_bits by nia. lia.
Qed.

(** Every time a local file can have becomes a time the console accepts, without
    the bits the console changes; and two times less than 2^27 seconds (about four
    years) apart never become the same one, as long as neither is in the first
    fifteen years of the epoch. *)
Theorem safe_timestamp_tells_apart (seconds seconds' : Z) :
  kMinTimestamp ≤ safe_timestamp seconds ≤ kMaxTimestamp
  ∧ Z.land (safe_timestamp seconds) kUsableTimestampRange = safe_timestamp seconds
  ∧ (kMinTimestamp ≤ shifted seconds → kMinTimestamp ≤ shifted seconds' → seconds ≠ seconds' → Z.abs (seconds - seconds') < 2 ^ 27 →
     safe_timestamp seconds ≠ safe_timestamp seconds').
Proof.
  split; [apply stamped_range|]. split; [apply stamped_range|].
  destruct (safe_timestamp_eq seconds) as (k & Hk & E & Hb).
  intros Hs Hs' Hne Hd Heq. destruct (safe_timestamp_eq seconds') as (k' & Hk' & E' & _).
  unfold lifted in E, E'. rewrite (proj2 (Z.ltb_ge _ _) Hs) in E. rewrite (proj2 (Z.ltb_ge _ _) Hs') in E'. rewrite shifted_eq in E, E'.
  rewrite Heq, E' in E.
  assert ((seconds' mod 2 ^ 36) mod 2 ^ 27 = (seconds mod 2 ^ 36) mod 2 ^ 27) as Hmod.
  { assert (seconds' mod 2 ^ 36 = seconds mod 2 ^ 36 + (k' - k) * 2 ^ 27) as -> by (change (2 ^ 55) with (2 ^ 27 * 2 ^ 28) in E; nia).
    by rewrite Z.mod_add. }
  change (2 ^ 36) with (2 ^ 27 * 2 ^ 9) in Hmod.
  assert (seconds' mod 2 ^ 27 = seconds mod 2 ^ 27) as Hmod'.
  { by rewrite !Z.mod_mod_divide in Hmod by (by exists (2 ^ 9)). }
  pose proof (Z.div_mod seconds (2 ^ 27) ltac:(lia)). pose proof (Z.div_mod seconds' (2 ^ 27) ltac:(lia)). nia.
Qed.

(** The same time again after 2^27 seconds: a file of the same size changed then is
    taken for the one that was copied. *)
Lemma safe_timestamp_collides : safe_timestamp 1700000000 = safe_timestamp (1700000000 + 2 ^ 27).
Proof. vm_compute. reflexivity. Qed.

Lemma safe_timestamp_tells_apart_witness : safe_timestamp 1700000000 ≠ safe_timestamp 1700000001.
Proof. apply (safe_timestamp_tells_apart 1700000000 1700000001); vm_compute; discriminate || reflexivity. Defined.
