(* ===== verification/RemoteFiles.v ===== *)
(** * The files of a console

    What the operations on files rely on: a console that keeps a tree of
    directories and files and answers requests about it, beside a local disk that
    no request changes.  Names are compared as they are: names that differ in
    nothing but case are left out. *)

From S2P Require Import Prelude CLib Boost Parsing RdcpResponse RdcpMaps RdcpTypes RdcpRequest Requests Notifications Target FileUtil.

(** ** Trees *)

Inductive node := File (data : bytes) (time : Z) | Dir.

#[global] Instance node_eq_dec : EqDecision node.
Proof. solve_decision. Defined.

(** By the names on the way from the top. *)
Abbreviation tree := (gmap (list bytes) node).

Definition name_ok (name : bytes) : Prop := name ≠ [] ∧ (backslash ∉ name) ∧ (slash ∉ name) ∧ plain_text name.

Definition node_ok (n : node) : Prop :=
  match n with File data time => Z.of_nat (length data) < 2 ^ 32 ∧ 0 ≤ time < 2 ^ 63 | Dir => True end.

(** The parent of every node is a directory. *)
Definition placed (t : tree) (q : list bytes) : Prop := ∃ front name, q = front ++ [name] ∧ name_ok name ∧ t !! front = Some Dir.

Record tree_ok (t : tree) : Prop := {
  tree_top : t !! [] = Some Dir;
  tree_nodes q n : t !! q = Some n → node_ok n;
  tree_placed q n : t !! q = Some n → q = [] ∨ placed t q
}.

Definition childless (t : tree) (q : list bytes) : Prop := ∀ name, t !! (q ++ [name]) = None.

Lemma placed_snoc t front name : placed t (front ++ [name]) ↔ name_ok name ∧ t !! front = Some Dir.
Proof.
  split; [|intros []; by exists front, name]. intros (front' & name' & E & Hn & Hd). by apply app_inj_tail in E as [-> ->].
Qed.

Lemma tree_ok_insert t q n :
  tree_ok t → placed t q → node_ok n → (n = Dir ∨ t !! q ≠ Some Dir) → tree_ok (<[q := n]> t).
Proof.
  intros [Htop Hnodes Hplaced] (front & name & -> & Hname & Hfront) Hn Hd.
  assert (front ++ [name] ≠ []) as Hne by (by destruct front).
  assert (front ++ [name] ≠ front) as Hne' by (intros E; apply (f_equal length) in E; rewrite length_app in E; cbn in E; lia).
  split.
  - by rewrite lookup_insert_ne.
  - intros q' n' Hq. apply lookup_insert_Some in Hq as [[_ <-]|[_ Hq]]; [done|]. by eapply Hnodes.
  - assert (∀ q', placed t q' → placed (<[front ++ [name] := n]> t) q') as Hp.
    { intros q' (f & nm & -> & ? & Hf). exists f, nm. split_and!; [done..|].
      destruct (decide (f = front ++ [name])) as [->|]; [|by rewrite lookup_insert_ne by congruence].
      rewrite lookup_insert_eq. destruct Hd as [->|Hd]; [done|]. congruence. }
    intros q' n' Hq. apply lookup_insert_Some in Hq as [[<- _]|[_ Hq]].
    + right. apply Hp. by exists front, name.
    + destruct (Hplaced _ _ Hq) as [->|?]; [by left|]. right. by apply Hp.
Qed.

Lemma tree_ok_delete t q : tree_ok t → q ≠ [] → childless t q → tree_ok (delete q t).
Proof.
  intros [Htop Hnodes Hplaced] Hq Hc. split.
  - by rewrite lookup_delete_ne.
  - intros q' n [_ Hq']%lookup_delete_Some. by eapply Hnodes.
  - intros q' n [Hne Hq']%lookup_delete_Some. destruct (Hplaced _ _ Hq') as [->|(f & nm & -> & ? & Hf)]; [by left|].
    right. exists f, nm. split_and!; [done..|]. rewrite lookup_delete_ne; [done|]. intros <-. by rewrite (Hc nm) in Hq'.
Qed.

(** What is above a node is there, and a directory. *)
Lemma ancestor_there t q rest n : tree_ok t → t !! (q ++ rest) = Some n → ∃ n', t !! q = Some n' ∧ (rest = [] ∨ n' = Dir).
Proof.
  intros Ht. revert n. induction rest as [|x rest IH] using rev_ind; intros n Hn.
  - rewrite app_nil_r in Hn. exists n. by split; [|left].
  - rewrite app_assoc in Hn. destruct (tree_placed _ Ht _ _ Hn) as [E|Hpl]; [by destruct q, rest|].
    apply placed_snoc in Hpl as [_ Hd]. destruct (IH _ Hd) as (n' & Hn' & [-> | ->]); exists Dir; [|by split; [|right]].
    rewrite app_nil_r in Hd. split; [done|by right].
Qed.

(** A tree without a node and what is below it. *)
Definition pruned (q : list bytes) (t : tree) : tree := filter (λ kv : list bytes * node, ¬ q `prefix_of` kv.1) t.

Lemma lookup_pruned q t q' : pruned q t !! q' = if decide (q `prefix_of` q') then None else t !! q'.
Proof.
  unfold pruned. destruct (decide (q `prefix_of` q')) as [Hp|Hp].
  - apply map_lookup_filter_None. right. intros n _ Hn. by apply Hn.
  - destruct (t !! q') as [n|] eqn:Hq.
    + by apply map_lookup_filter_Some.
    + apply map_lookup_filter_None. by left.
Qed.

Lemma below_child (q q' : list bytes) : q `prefix_of` q' → q = q' ∨ ∃ name, (q ++ [name]) `prefix_of` q'.
Proof.
  intros [[|name rest] ->]; [left; by rewrite app_nil_r|]. right. exists name. exists rest. by rewrite <- app_assoc.
Qed.

(** Nothing is below a node that has no children or is a file. *)
Lemma nothing_below t q : tree_ok t → childless t q → ∀ q' n, t !! q' = Some n → q `prefix_of` q' → q' = q.
Proof.
  intros [_ _ Hplaced] Hc q'. induction q' as [|name q' IH] using rev_ind; intros n Hn Hp.
  - by apply prefix_nil_inv in Hp as ->.
  - destruct (decide (q = q' ++ [name])) as [->|Hne]; [done|]. exfalso.
    assert (q `prefix_of` q') as Hp'.
    { destruct Hp as [rest E]. destruct rest as [|x rest _] using rev_ind; [rewrite app_nil_r in E; congruence|].
      rewrite app_assoc in E. apply app_inj_tail in E as [-> _]. by exists rest. }
    destruct (Hplaced _ _ Hn) as [E|Hpl]; [by destruct q'|]. apply placed_snoc in Hpl as [_ Hd].
    assert (q' = q) as -> by (by eapply IH). by rewrite Hc in Hn.
Qed.

Lemma pruned_leaf t q : tree_ok t → childless t q → pruned q t = delete q t.
Proof.
  intros Ht Hc. apply map_eq. intros q'. rewrite lookup_pruned. destruct (decide (q `prefix_of` q')) as [Hp|Hp].
  - destruct (decide (q = q')) as [->|Hne]; [by rewrite lookup_delete_eq|]. rewrite lookup_delete_ne by done.
    destruct (t !! q') as [n|] eqn:Hn; [|done]. by destruct Hne; symmetry; eapply nothing_below.
  - rewrite lookup_delete_ne; [done|]. intros ->. by apply Hp.
Qed.

Lemma pruned_ok t q : tree_ok t → q ≠ [] → tree_ok (pruned q t).
Proof.
  intros [Htop Hnodes Hplaced] Hq. split.
  - rewrite lookup_pruned, decide_False; [done|]. by intros ->%prefix_nil_inv.
  - intros q' n. rewrite lookup_pruned. destruct (decide _); [done|]. apply Hnodes.
  - intros q' n. rewrite lookup_pruned. destruct (decide _) as [|Hp]; [done|]. intros Hn.
    destruct (Hplaced _ _ Hn) as [->|(f & nm & -> & ? & Hf)]; [by left|]. right. exists f, nm. split_and!; [done..|].
    rewrite lookup_pruned, decide_False; [done|]. intros Hp'. apply Hp. by apply prefix_app_r.
Qed.

(** ** Paths *)

Definition flush (current : bytes) : list bytes := match current with [] => [] | _ => [current] end.

(** The names between backslashes. *)
Fixpoint pieces (current : bytes) (s : bytes) : list bytes :=
  match s with
  | [] => flush current
  | c :: s' => if decide (c = backslash) then flush current ++ pieces [] s' else pieces (current ++ [c]) s'
  end.
Definition parts (path : bytes) : list bytes := pieces [] path.

Lemma pieces_backslash a : ∀ current b, pieces current (a ++ backslash :: b) = pieces current a ++ pieces [] b.
Proof.
  induction a as [|c a IH]; intros current b; cbn [app pieces]; [by rewrite decide_True|].
  destruct (decide (c = backslash)); rewrite IH; by rewrite ?app_assoc.
Qed.

Lemma pieces_name name : ∀ current, backslash ∉ name → pieces current name = flush (current ++ name).
Proof.
  induction name as [|c name IH]; intros current; cbn [pieces]; [by rewrite app_nil_r|]. intros [Hc Hn]%not_elem_of_cons.
  rewrite decide_False by congruence. rewrite IH by done. by rewrite <- app_assoc.
Qed.

Lemma parts_name name : name_ok name → parts name = [name].
Proof. intros (Hne & Hb & _). unfold parts. rewrite pieces_name by done. by destruct name. Qed.

(** A path that ends in a backslash, by what is before it. *)
Lemma trailing path : ∃ front, EnsureTrailingBackslash path = front ++ [backslash] ∧ parts front = parts path.
Proof.
  unfold EnsureTrailingBackslash, back. destruct path as [|c path _] using rev_ind; [by exists []|].
  rewrite last_snoc. change (default NUL (Some c)) with c. destruct (decide (c = backslash)) as [->|]; [|by exists (path ++ [c])].
  exists path. split; [done|]. unfold parts. rewrite (pieces_backslash path [] []). by rewrite app_nil_r.
Qed.

Lemma parts_below path rest : parts (EnsureTrailingBackslash path ++ rest) = parts path ++ parts rest.
Proof.
  destruct (trailing path) as (front & -> & <-). rewrite <- app_assoc. unfold parts. apply pieces_backslash.
Qed.

Lemma parts_child path name : name_ok name → parts (EnsureTrailingBackslash path ++ name) = parts path ++ [name].
Proof. intros Hn. by rewrite parts_below, (parts_name name). Qed.

Lemma parts_trailing path : parts (EnsureTrailingBackslash path) = parts path.
Proof. pose proof (parts_below path []) as H. by rewrite !app_nil_r in H. Qed.

Lemma replace_byte_none old new s : old ∉ s → replace_byte old new s = s.
Proof.
  intros Hs. unfold replace_byte. rewrite <- (map_id s) at 2. apply map_ext_in. intros c Hc. rewrite decide_False; [done|].
  intros ->. by apply Hs, list_elem_of_In.
Qed.

Lemma trailing_slash path : slash ∉ path → slash ∉ EnsureTrailingBackslash path.
Proof. unfold EnsureTrailingBackslash. destruct (decide _); [done|]. rewrite not_elem_of_app, list_elem_of_singleton. by intros ?; split. Qed.

(** ** The console *)

(** What a request for attributes, and an entry of a listing, say of a node. *)
Definition describes (a : FileAttributes) (n : option node) : Prop :=
  match n with
  | None => file_exists a = Some false ∧ "directory"%bs ∉ attr_flags a
  | Some Dir => file_exists a = Some true ∧ "directory"%bs ∈ attr_flags a
  | Some (File data time) =>
    file_exists a = Some true ∧ ("directory"%bs ∉ attr_flags a)
    ∧ attr_filesize a = Z.of_nat (length data) ∧ attr_change_timestamp a = time
  end.

Definition entry_describes (entry : Entry) (n : node) : Prop :=
  match n with
  | Dir => is_directory entry = true
  | File data time => is_directory entry = false ∧ filesize entry = Z.of_nat (length data) ∧ change_timestamp entry = time
  end.

(** Every child once, in any order. *)
Record lists (entries : list Entry) (t : tree) (q : list bytes) : Prop := {
  listed_once : NoDup (map entry_name entries);
  listed_is entry : entry ∈ entries → ∃ n, t !! (q ++ [entry_name entry]) = Some n ∧ entry_describes entry n;
  listed_all name n : t !! (q ++ [name]) = Some n → ∃ entry, entry ∈ entries ∧ entry_name entry = name
}.

(** The local disk is the same. *)
Record same_disk {E} `{!LocalDisk E} (e e' : E) : Prop := {
  same_read p : read_local p e' = read_local p e;
  same_time p : last_write_seconds p e' = last_write_seconds p e;
  same_size p : local_file_size p e' = local_file_size p e;
  same_entries p : directory_entries p e' = directory_entries p e;
  same_relative p b : relative_path p b e' = relative_path p b e
}.

Class RemoteDisk (E : Type) {C : Type} `{!Boost} `{!Target C E} `{!LocalDisk E} := {
  remote : E → tree;
  attributes_law path e : tree_ok (remote e) →
    ∃ a e', command GetFileAttributes_class (GetFileAttributes path) None (MkAttributes None 0 0 0 ∅) e = Some (true, a, e')
      ∧ remote e' = remote e ∧ describes a (remote e !! parts path);
  listing_law path e : tree_ok (remote e) → remote e !! parts path = Some Dir →
    ∃ entries e', command DirList_class (DirList path) None [] e = Some (true, entries, e')
      ∧ remote e' = remote e ∧ lists entries (remote e) (parts path);
  delete_file_law path e data time : remote e !! parts path = Some (File data time) →
    let '(r, e') := answer (Delete path false) None e in accepted r = true ∧ remote e' = delete (parts path) (remote e);
  delete_dir_law path e : parts path ≠ [] → remote e !! parts path = Some Dir → childless (remote e) (parts path) →
    let '(r, e') := answer (Delete path true) None e in accepted r = true ∧ remote e' = delete (parts path) (remote e);
  mkdir_law path e : placed (remote e) (parts path) →
    let '(r, e') := answer (Mkdir path) None e in
    match remote e !! parts path with
    | None => accepted r = true ∧ remote e' = <[parts path := Dir]> (remote e)
    | Some _ => status_ <$> r = Some ERR_EXISTS ∧ remote e' = remote e
    end;
  send_law path data e : placed (remote e) (parts path) → remote e !! parts path ≠ Some Dir → Z.of_nat (length data) < 2 ^ 32 →
    let '(r, e') := answer (SendFile path data).1 (SendFile path data).2 e in
    accepted r = true ∧ ∃ time, 0 ≤ time < 2 ^ 63 ∧ remote e' = <[parts path := File data time]> (remote e);
  (** the console changes the low bits of the time *)
  stamp_law path e data time stamp : remote e !! parts path = Some (File data time) →
    kMinTimestamp ≤ stamp ≤ kMaxTimestamp → Z.land stamp kUsableTimestampRange = stamp →
    let '(r, e') := answer (SetFileAttributes path None None (Some stamp) (Some stamp)) None e in
    accepted r = true ∧ ∃ time', 0 ≤ time' < 2 ^ 63 ∧ Z.land time' kUsableTimestampRange = stamp
      ∧ remote e' = <[parts path := File data time']> (remote e);
  disk_law r payload e : same_disk e (answer r payload e).2
}.

(** ** Looking and listing *)

Section Runs.
Context `{!Boost} {C E : Type} `{!Target C E, !LocalDisk E, HR : !RemoteDisk E}.
Implicit Types (e : E).

Lemma same_disk_refl e : same_disk e e.
Proof. by split. Qed.

Lemma same_disk_trans e1 e2 e3 : same_disk e1 e2 → same_disk e2 e3 → same_disk e1 e3.
Proof. intros [????? ] [????? ]. split; intros; congruence. Qed.

Lemma command_disk {T} (k : RequestClass T) r payload init e a e' :
  command k r payload init e = Some (a, e') → same_disk e e'.
Proof.
  intros Hrun. pose proof (wp_command_state True k r payload init e I) as Hw. unfold wp in Hw. rewrite Hrun in Hw.
  subst e'. apply disk_law.
Qed.

(** What [CheckRemotePath] finds. *)
Definition found (a : RemoteAttributes) (n : option node) : Prop :=
  match n with
  | None => exists_ a = false ∧ is_dir a = false
  | Some Dir => exists_ a = true ∧ is_dir a = true
  | Some (File data time) =>
    exists_ a = true ∧ is_dir a = false ∧ size a = Z.of_nat (length data) ∧ remote_change_timestamp a = time
  end.

Lemma CheckRemotePath_run path e :
  tree_ok (remote e) →
  ∃ a e', CheckRemotePath path e = Some (Some a, e') ∧ remote e' = remote e ∧ same_disk e e' ∧ found a (remote e !! parts path).
Proof.
  intros Ht. destruct (attributes_law path e Ht) as (a & e' & Hrun & Hrem & Hd). pose proof (command_disk _ _ _ _ _ _ _ Hrun) as Hdisk.
  assert (∃ b, file_exists a = Some b) as [b Hb] by (destruct (remote e !! parts path) as [[]|]; naive_solver).
  eexists _, e'. split; [|split; [done|split; [done|]]].
  - unfold CheckRemotePath. erewrite bind_run by exact Hrun. cbn [negb]. rewrite Hb. reflexivity.
  - destruct (remote e !! parts path) as [[data time|]|] eqn:Hn; cbn.
    + destruct Hd as (Hex & Hnd & Hsz & Hct). rewrite Hex in Hb. injection Hb as <-. rewrite bool_decide_eq_false_2 by done.
      rewrite Hsz, u64_id; [done|]. pose proof (tree_nodes _ Ht _ _ Hn) as [? _]. unfold is_u64. lia.
    + destruct Hd as (Hex & Hnd). rewrite Hex in Hb. injection Hb as <-. by rewrite bool_decide_eq_true_2.
    + destruct Hd as (Hex & Hnd). rewrite Hex in Hb. injection Hb as <-. by rewrite bool_decide_eq_false_2.
Qed.

Lemma FetchDirectoryEntries_run path e :
  tree_ok (remote e) → slash ∉ path → remote e !! parts path = Some Dir →
  ∃ entries e', FetchDirectoryEntries path e
      = Some (Some (List.filter is_directory entries, List.filter (λ en, negb (is_directory en)) entries), e')
    ∧ remote e' = remote e ∧ same_disk e e' ∧ lists entries (remote e) (parts path).
Proof.
  intros Ht Hs Hd. destruct (listing_law path e Ht Hd) as (entries & e' & Hrun & Hrem & Hl).
  exists entries, e'. split; [|split; [done|split; [by eapply command_disk|done]]].
  unfold FetchDirectoryEntries. unfold EnsureXFATStylePath. rewrite replace_byte_none by done. by erewrite bind_run by exact Hrun.
Qed.

(** *** Parts of a listing *)

Lemma listed_entries entries t q :
  lists entries t q →
  (∀ entry, entry ∈ List.filter is_directory entries ↔ entry ∈ entries ∧ t !! (q ++ [entry_name entry]) = Some Dir)
  ∧ (∀ entry, entry ∈ List.filter (λ en, negb (is_directory en)) entries
       ↔ entry ∈ entries ∧ ∃ data time, t !! (q ++ [entry_name entry]) = Some (File data time)
           ∧ filesize entry = Z.of_nat (length data) ∧ change_timestamp entry = time).
Proof.
  intros [_ His _]. split; intros entry; rewrite list_elem_of_In, filter_In, <- list_elem_of_In; (split; intros [Hin Hx]; split; try done).
  - destruct (His entry Hin) as ([data time|] & Hn & Hd); [|done]. destruct Hd as (Hd & _). congruence.
  - destruct (His entry Hin) as (n & Hn & Hd). rewrite Hx in Hn. injection Hn as <-. done.
  - destruct (His entry Hin) as ([data time|] & Hn & Hd); cbn in Hd; [|by rewrite Hd in Hx]. exists data, time. naive_solver.
  - destruct Hx as (data & time & Hn & _). destruct (His entry Hin) as (n & Hn' & Hd). rewrite Hn in Hn'. injection Hn' as <-.
    destruct Hd as (-> & _). done.
Qed.

Lemma listed_names entries t q (f : Entry → bool) : lists entries t q → NoDup (map entry_name (List.filter f entries)).
Proof.
  intros [Hnd _ _]. induction entries as [|en entries IH]; [constructor|]. cbn in *. apply NoDup_cons in Hnd as [Hn Hnd].
  destruct (f en); [|by apply IH]. cbn. apply NoDup_cons. split; [|by apply IH]. intros Hin. apply Hn.
  apply list_elem_of_fmap in Hin as (en' & -> & Hin). apply list_elem_of_fmap. exists en'. split; [done|].
  rewrite list_elem_of_In, filter_In, <- list_elem_of_In in Hin. by destruct Hin.
Qed.

Lemma listed_name_ok entries t q entry : tree_ok t → lists entries t q → entry ∈ entries → name_ok (entry_name entry).
Proof.
  intros Ht [_ His _] Hin. destruct (His entry Hin) as (n & Hn & _).
  destruct (tree_placed _ Ht _ _ Hn) as [Heq|Hp]; [by destruct q|]. by apply placed_snoc in Hp as [? _].
Qed.

(** ** Deleting a directory *)

(** Every directory below has less than so many levels. *)
Definition shallow (n : nat) (t : tree) (q : list bytes) : Prop :=
  ∀ rest, t !! (q ++ rest) = Some Dir → (length rest < n)%nat.

Lemma shallow_child n t q name : shallow (S n) t q → shallow n t (q ++ [name]).
Proof. intros Hs rest Hr. rewrite <- app_assoc in Hr. specialize (Hs _ Hr). cbn in Hs. lia. Qed.

Lemma shallow_pruned n t q q' : shallow n t q → shallow n (pruned q' t) q.
Proof. intros Hs rest. rewrite lookup_pruned. destruct (decide _); [done|]. apply Hs. Qed.

(** Other children stay. *)
Lemma pruned_sibling (q : list bytes) name name' t :
  name ≠ name' → pruned (q ++ [name']) t !! (q ++ [name]) = t !! (q ++ [name]).
Proof.
  intros Hne. rewrite lookup_pruned, decide_False; [done|]. intros Hp%prefix_app_inv.
  destruct Hp as [rest Heq]. by injection Heq.
Qed.

(** A loop that prunes one child after the other. *)
Lemma every_prunes (q : list bytes) (P : bytes → tree → Prop) (body : Entry → M E bool) entries :
  q ≠ [] →
  (∀ en e, tree_ok (remote e) → P (entry_name en) (remote e) →
     ∃ e', body en e = Some (true, e') ∧ same_disk e e' ∧ remote e' = pruned (q ++ [entry_name en]) (remote e)) →
  (∀ name name' t, name ≠ name' → P name t → P name (pruned (q ++ [name']) t)) →
  NoDup (map entry_name entries) →
  ∀ e, tree_ok (remote e) → Forall (λ en, P (entry_name en) (remote e)) entries →
  ∃ e', every body entries e = Some (true, e') ∧ same_disk e e' ∧ tree_ok (remote e')
    ∧ remote e' = foldl (λ t en, pruned (q ++ [entry_name en]) t) (remote e) entries.
Proof.
  intros Hq Hbody Hother. induction entries as [|en entries IH]; intros Hnd e Ht Hall.
  { exists e. split_and!; try done. }
  cbn [map] in Hnd. apply NoDup_cons in Hnd as [Hn Hnd]. apply Forall_cons in Hall as [Hen Hall].
  destruct (Hbody en e Ht Hen) as (e1 & Hrun1 & Hdisk1 & Hrem1).
  destruct (IH Hnd e1) as (e2 & Hrun2 & Hdisk2 & Ht2 & Hrem2).
  - rewrite Hrem1. by apply pruned_ok; [|destruct q].
  - rewrite Hrem1. rewrite Forall_forall in Hall |- *. intros en' Hin. apply Hother; [|by apply Hall].
    intros Heq. apply Hn. rewrite <- Heq. apply list_elem_of_fmap. by exists en'.
  - exists e2. split; [|split; [by eapply same_disk_trans|split; [done|]]].
    + cbn [every]. by erewrite bind_run by exact Hrun1.
    + cbn [foldl]. by rewrite Hrem2, Hrem1.
Qed.

Lemma lookup_prunes q entries : ∀ (t : tree) q',
  foldl (λ t en, pruned (q ++ [entry_name en]) t) t entries !! q'
  = if decide (Exists (λ en, (q ++ [entry_name en]) `prefix_of` q') entries) then None else t !! q'.
Proof.
  induction entries as [|en entries IH]; intros t q'; cbn [foldl].
  { rewrite decide_False; [done|]. by intros ?%Exists_nil. }
  rewrite IH, lookup_pruned. destruct (decide (Exists _ entries)) as [Hx|Hx].
  - rewrite decide_True; [done|]. by apply Exists_cons_tl.
  - destruct (decide ((q ++ [entry_name en]) `prefix_of` q')) as [Hp|Hp].
    + rewrite decide_True; [done|]. by apply Exists_cons_hd.
    + rewrite decide_False; [done|]. by intros [?|?]%Exists_cons.
Qed.

Lemma file_childless t q data time : tree_ok t → t !! q = Some (File data time) → childless t q.
Proof.
  intros Ht Hf name. destruct (t !! (q ++ [name])) as [n|] eqn:Hn; [|done].
  destruct (tree_placed _ Ht _ _ Hn) as [Heq|Hp]; [by destruct q|]. apply placed_snoc in Hp as [_ Hd]. congruence.
Qed.

Lemma delete_one path e data time :
  tree_ok (remote e) → remote e !! parts path = Some (File data time) →
  ∃ e', plain_command (Delete path false) e = Some (true, e') ∧ same_disk e e' ∧ remote e' = pruned (parts path) (remote e).
Proof.
  intros Ht Hf. pose proof (delete_file_law path e data time Hf) as Hlaw. pose proof (disk_law (Delete path false) None e) as Hdisk.
  rewrite plain_command_run. destruct (answer (Delete path false) None e) as [r e']. destruct Hlaw as [Hacc Hrem]. cbn [fst snd] in *.
  exists e'. rewrite Hacc. split_and!; [done|done|]. rewrite Hrem, pruned_leaf; [done|done|by eapply file_childless].
Qed.

Lemma Exists_filters {A} (f : A → bool) (P : A → Prop) l :
  Exists P l ↔ Exists P (List.filter f l) ∨ Exists P (List.filter (λ x, negb (f x)) l).
Proof.
  induction l as [|x l IH]; cbn; [rewrite Exists_nil; tauto|].
  rewrite Exists_cons, IH. destruct (f x); cbn; rewrite Exists_cons; tauto.
Qed.

(** Both loops, and then the directory itself. *)
Lemma pruned_in_parts t q entries :
  tree_ok t → q ≠ [] → lists entries t q →
  let t1 := foldl (λ t en, pruned (q ++ [entry_name en]) t) t (List.filter (λ en, negb (is_directory en)) entries) in
  let t2 := foldl (λ t en, pruned (q ++ [entry_name en]) t) t1 (List.filter is_directory entries) in
  childless t2 q ∧ delete q t2 = pruned q t ∧ t2 !! q = t !! q.
Proof.
  intros Ht Hq Hl t1 t2.
  assert (∀ q', t2 !! q' = if decide (Exists (λ en, (q ++ [entry_name en]) `prefix_of` q') entries) then None else t !! q') as Hat.
  { intros q'. unfold t2, t1. rewrite !lookup_prunes.
    pose proof (Exists_filters is_directory (λ en, (q ++ [entry_name en]) `prefix_of` q') entries) as Hf.
    repeat destruct (decide _); tauto. }
  assert (∀ name, t2 !! (q ++ [name]) = None) as Hc.
  { intros name. rewrite Hat. destruct (decide _) as [|Hx]; [done|]. destruct (t !! (q ++ [name])) as [n|] eqn:Hn; [|done].
    destruct (listed_all _ _ _ Hl _ _ Hn) as (en & Hin & <-). destruct Hx. apply Exists_exists. by exists en. }
  split; [exact Hc|]. split.
  - apply map_eq. intros q'. rewrite lookup_pruned. destruct (decide (q = q')) as [->|Hne].
    { rewrite lookup_delete_eq. by rewrite decide_True. }
    rewrite lookup_delete_ne by done. rewrite Hat. destruct (decide (q `prefix_of` q')) as [Hp|Hp].
    + destruct (decide _) as [|Hx]; [done|]. destruct (t !! q') as [n|] eqn:Hn; [|done]. exfalso.
      destruct (below_child q q' Hp) as [?|[name Hp']]; [done|]. 
      assert (∃ n', t !! (q ++ [name]) = Some n') as (n' & Hn').
      { destruct Hp' as [rest ->]. destruct (ancestor_there _ _ _ _ Ht Hn) as (n' & ? & _). by exists n'. }
      destruct (listed_all _ _ _ Hl _ _ Hn') as (en & Hin & <-). apply Hx, Exists_exists. by exists en.
    + rewrite decide_False; [done|]. intros (en & _ & Hp')%Exists_exists. apply Hp. etransitivity; [|exact Hp']. by exists [entry_name en].
  - rewrite Hat, decide_False; [done|]. intros (en & _ & Hp')%Exists_exists.
    apply prefix_length in Hp'. rewrite length_app in Hp'. cbn in Hp'. lia.
Qed.

Lemma and_then_run {S} (m k : M S bool) s s' : m s = Some (true, s') → and_then m k s = k s'.
Proof. intros Hm. unfold and_then. by erewrite bind_run by exact Hm. Qed.

Lemma delete_dir_run path e :
  tree_ok (remote e) → parts path ≠ [] → remote e !! parts path = Some Dir → childless (remote e) (parts path) →
  ∃ e', plain_command (Delete path true) e = Some (true, e') ∧ same_disk e e' ∧ remote e' = delete (parts path) (remote e).
Proof.
  intros Ht Hne Hd Hc. pose proof (delete_dir_law path e Hne Hd Hc) as Hlaw. pose proof (disk_law (Delete path true) None e) as Hdisk.
  rewrite plain_command_run. destruct (answer (Delete path true) None e) as [r e']. destruct Hlaw as [Hacc Hrem]. cbn [fst snd] in *.
  exists e'. by rewrite Hacc.
Qed.

Lemma DeleteRecursively_run fuel : ∀ path e,
  tree_ok (remote e) → parts path ≠ [] → slash ∉ path → remote e !! parts path = Some Dir → shallow fuel (remote e) (parts path) →
  ∃ e', DeleteRecursively fuel path e = Some (true, e') ∧ same_disk e e' ∧ remote e' = pruned (parts path) (remote e).
Proof.
  induction fuel as [|fuel IH]; intros path e Ht Hne Hs Hd Hsh.
  { specialize (Hsh []). rewrite app_nil_r in Hsh. apply Hsh in Hd. cbn in Hd. lia. }
  destruct (FetchDirectoryEntries_run path e Ht Hs Hd) as (entries & e1 & Hrun1 & Hrem1 & Hdisk1 & Hl).
  destruct (listed_entries _ _ _ Hl) as [Hdirs Hfiles].
  set (root := EnsureTrailingBackslash path).
  assert (∀ en, en ∈ entries → parts (root ++ entry_name en) = parts path ++ [entry_name en] ∧ slash ∉ root ++ entry_name en) as Hchild.
  { intros en Hin. pose proof (listed_name_ok _ _ _ _ Ht Hl Hin) as Hn. split; [by apply parts_child|].
    apply not_elem_of_app. split; [by apply trailing_slash|]. apply Hn. }
  set (files := List.filter (λ en, negb (is_directory en)) entries) in *. set (dirs := List.filter is_directory entries) in *.
  set (PF := λ name (t : tree), (∃ data time, t !! (parts path ++ [name]) = Some (File data time)) ∧ ∃ en, en ∈ entries ∧ entry_name en = name).
  destruct (every_prunes (parts path) PF (λ file, plain_command (Delete (root ++ entry_name file) false)) files Hne)
    with (e := e1) as (e2 & Hrun2 & Hdisk2 & Ht2 & Hrem2).
  { intros en e0 Ht0 [(data & time & Hf) (en' & Hin & Hname)]. rewrite <- Hname in *. 
    rewrite <- (proj1 (Hchild en' Hin)) in Hf. destruct (delete_one _ _ _ _ Ht0 Hf) as (e0' & ? & ? & Hr). exists e0'.
    by rewrite (proj1 (Hchild en' Hin)) in Hr. }
  { intros name name' t Hnn [(data & time & Hf) Hen]. split; [|done]. exists data, time. by rewrite pruned_sibling. }
  { by eapply listed_names. }
  { by rewrite Hrem1. }
  { rewrite Hrem1. apply Forall_forall. intros en Hin. apply Hfiles in Hin as [Hin (data & time & Hf & _)]. split; [eauto|by exists en]. }
  set (PD := λ name (t : tree), t !! (parts path ++ [name]) = Some Dir ∧ shallow fuel t (parts path ++ [name])
               ∧ ∃ en, en ∈ entries ∧ entry_name en = name).
  destruct (every_prunes (parts path) PD (λ dir, DeleteRecursively fuel (root ++ entry_name dir)) dirs Hne)
    with (e := e2) as (e3 & Hrun3 & Hdisk3 & Ht3 & Hrem3).
  { intros en e0 Ht0 (Hf & Hsh0 & en' & Hin & Hname). rewrite <- Hname in *. destruct (Hchild en' Hin) as [Hp Hsl].
    rewrite <- Hp in *. apply IH; [done| |done..]. rewrite Hp. by destruct (parts path). }
  { intros name name' t Hnn (Hf & Hsh0 & Hen). split; [by rewrite pruned_sibling|]. split; [by apply shallow_pruned|done]. }
  { by eapply listed_names. }
  { done. }
  { rewrite Hrem2, Hrem1. apply Forall_forall. intros en Hin. apply Hdirs in Hin as [Hin Hf]. split.
    - rewrite lookup_prunes, decide_False; [done|]. intros (en' & Hin' & Hp)%Exists_exists.
      apply Hfiles in Hin' as (_ & data & time & Hf' & _). apply prefix_app_inv in Hp as [rest Heq]. injection Heq as Heq _.
      rewrite Heq in Hf. congruence.
    - split; [|by exists en]. intros rest. rewrite lookup_prunes. destruct (decide _); [done|]. by apply shallow_child. }
  pose proof (pruned_in_parts (remote e) (parts path) entries Ht Hne Hl) as Hparts. cbv zeta in Hparts. fold files dirs in Hparts.
  assert (remote e3 = foldl (λ t en, pruned (parts path ++ [entry_name en]) t)
    (foldl (λ t en, pruned (parts path ++ [entry_name en]) t) (remote e) files) dirs) as Hrem3' by (by rewrite Hrem3, Hrem2, Hrem1).
  rewrite <- Hrem3' in Hparts. destruct Hparts as (Hc & Hdel & Hsame). rewrite Hd in Hsame.
  destruct (delete_dir_run path e3 Ht3 Hne Hsame Hc) as (e4 & Hrun4 & Hdisk4 & Hrem4).
  exists e4. split; [|split; [by eauto using same_disk_trans|by rewrite Hrem4]].
  cbn [DeleteRecursively]. erewrite bind_run by exact Hrun1. cbv beta iota. fold root.
  rewrite (and_then_run _ _ _ _ Hrun2), (and_then_run _ _ _ _ Hrun3). exact Hrun4.
Qed.
End Runs.
