(* ===== verification/FileConsole.v ===== *)
(** * A console with files for the examples

    A concrete [Target] with a local disk, on which the theorems about files are
    tried out: a tree of files behind the requests for files, which it recognises
    by their fixed forms, and the lines received so far. *)

From S2P Require Import Prelude CLib Boost Parsing RdcpResponse RdcpMaps RdcpTypes RdcpRequest Requests Notifications Target FileUtil RemoteFiles.

Record FileConsole := MkFileConsole {
  files_of : tree;
  disk_of : gmap bytes (bytes * Z);
  folders_of : gmap bytes (list (bytes * FileType));
  log_of : list bytes
}.

Definition with_files (t : tree) (c : FileConsole) : FileConsole := MkFileConsole t (disk_of c) (folders_of c) (log_of c).
Definition receive_line (r : RDCPRequest) (c : FileConsole) : FileConsole :=
  MkFileConsole (files_of c) (disk_of c) (folders_of c) (log_of c ++ [request_line r]).

#[export] Instance console_disk : LocalDisk FileConsole := {
  read_local p c := fst <$> disk_of c !! p;
  last_write_seconds p c := snd <$> disk_of c !! p;
  local_file_size p c := (λ f : bytes * Z, Z.of_nat (length f.1)) <$> disk_of c !! p;
  directory_entries p c := folders_of c !! p;
  relative_path p b _ := Some (drop (S (length b)) p);
  write_local p data c := (true, MkFileConsole (files_of c) (<[p := (data, 0)]> (disk_of c)) (folders_of c) (log_of c));
  create_directories p c := MkFileConsole (files_of c) (disk_of c) (<[p := []]> (folders_of c)) (log_of c)
}.

(** ** Answers *)

Definition entry_of (name : bytes) (n : node) : Entry :=
  match n with
  | File data time => MkEntry name (Z.of_nat (length data)) time time false
  | Dir => MkEntry name 0 0 0 true
  end.

(** What is in a directory, from the list of all nodes. *)
Definition child_of (q : list bytes) (kn : list bytes * node) : option Entry :=
  match rev kn.1 with
  | name :: front => if decide (rev front = q) then Some (entry_of name kn.2) else None
  | [] => None
  end.
Definition children (t : tree) (q : list bytes) : list Entry := omap (child_of q) (map_to_list t).

Definition reply_plain (code : StatusCode) : option RDCPResponse := Some (MkResponse code [] []).
Definition lines_of (entries : list Entry) : option RDCPResponse :=
  Some (MkResponse OK_MULTILINE_RESPONSE "follows"%bs (unlines (map (λ e, line_of (entry_line e)) entries))).

(** The text between the opening quote and the last so many bytes. *)
Definition quoted (behind : nat) (data : bytes) : list bytes := parts (take (length data - 7 - behind) (drop 7 data)).
(** The number so many bytes before the end. *)
Definition number_at (behind : nat) (data : bytes) : Z := ParseUint32 (take 10 (drop (length data - behind) data)).

Definition answer_attributes (data : bytes) (t : tree) : option RDCPResponse * tree :=
  (match t !! quoted 1 data with Some n => lines_of [entry_of [] n] | None => reply_plain ERR_FILE_NOT_FOUND end, t).

Definition answer_dirlist (data : bytes) (t : tree) : option RDCPResponse * tree :=
  (match t !! quoted 1 data with Some Dir => lines_of (children t (quoted 1 data)) | _ => reply_plain ERR_FILE_NOT_FOUND end, t).

Definition answer_delete (data : bytes) (t : tree) : option RDCPResponse * tree :=
  if decide (last data = Some quote) then
    match t !! quoted 1 data with
    | Some (File _ _) => (reply_plain OK, delete (quoted 1 data) t)
    | _ => (reply_plain ERR_FILE_NOT_FOUND, t)
    end
  else
    let q := quoted 5 data in
    match t !! q with
    | Some Dir => if decide (q ≠ [] ∧ children t q = []) then (reply_plain OK, delete q t) else (reply_plain ERR_ACCESS_DENIED, t)
    | _ => (reply_plain ERR_FILE_NOT_FOUND, t)
    end.

Definition has_parent (t : tree) (q : list bytes) : Prop := t !! removelast q = Some Dir.
#[export] Instance has_parent_dec t q : Decision (has_parent t q).
Proof. unfold has_parent. apply _. Defined.

Definition answer_mkdir (data : bytes) (t : tree) : option RDCPResponse * tree :=
  let q := quoted 1 data in
  match t !! q with
  | Some _ => (reply_plain ERR_EXISTS, t)
  | None => if decide (has_parent t q) then (reply_plain OK, <[q := Dir]> t) else (reply_plain ERR_FILE_NOT_FOUND, t)
  end.

Definition answer_sendfile (data : bytes) (payload : option bytes) (t : tree) : option RDCPResponse * tree :=
  let q := quoted 19 data in
  match payload with
  | Some contents =>
    if decide (t !! q ≠ Some Dir ∧ has_parent t q) then (reply_plain OK, <[q := File contents 0]> t)
    else (reply_plain ERR_FILE_NOT_FOUND, t)
  | None => (reply_plain ERR_UNEXPECTED, t)
  end.

(** The time gets some of the bits that are not asked for. *)
Definition answer_stamp (data : bytes) (t : tree) : option RDCPResponse * tree :=
  let q := quoted 81 data in
  match t !! q with
  | Some (File contents _) =>
    let time := i64 (Z.shiftl (i32 (number_at 30 data)) 32 + number_at 10 data) in
    (reply_plain OK, <[q := File contents (Z.lor time 0x1050000)]> t)
  | _ => (reply_plain ERR_FILE_NOT_FOUND, t)
  end.

Definition answer_files (r : RDCPRequest) (payload : option bytes) (t : tree) : option RDCPResponse * tree :=
  let data := request_data_ r in
  if decide (command_ r = "getfileattributes"%bs) then answer_attributes data t
  else if decide (command_ r = "dirlist"%bs) then answer_dirlist data t
  else if decide (command_ r = "delete"%bs) then answer_delete data t
  else if decide (command_ r = "mkdir"%bs) then answer_mkdir data t
  else if decide (command_ r = "sendfile"%bs) then answer_sendfile data payload t
  else if decide (command_ r = "setfileattributes"%bs) then answer_stamp data t
  else (None, t).

#[export] Instance file_console_target : Target unit FileConsole := {
  answer r payload c := let '(reply, t) := answer_files r payload (files_of c) in (reply, receive_line r (with_files t c));
  next_notification _ _ := None;
  burst _ _ := 0%nat;
  GetNotificationServerAddress _ := None;
  StartNotificationListener c := (true, c);
  RegisterNotificationHandler c := (1, c);
  UnregisterNotificationHandler _ c := c;
  has_handler _ _ := true;
  CloseActiveConnections c := c
}.

(** ** What the requests look like from there *)

Lemma quoted_spec path behind tail :
  length tail = behind → quoted behind (opening " name="%bs ++ path ++ tail) = parts path.
Proof.
  intros <-. unfold quoted. rewrite !length_app. change (length (opening " name="%bs)) with 7%nat.
  rewrite drop_app_length'; [|done]. replace (_ - 7 - _)%nat with (length path) by lia. by rewrite take_app_length.
Qed.

Lemma number_at_spec front z behind tail :
  length tail = (behind - 10)%nat → (10 ≤ behind)%nat → is_u32 z → number_at behind (front ++ hex_param z ++ tail) = z.
Proof.
  intros Htail Hb Hz. unfold number_at. rewrite drop_app_length' by (rewrite !length_app, hex_param_length; lia).
  rewrite take_app_length' by (by rewrite hex_param_length). unfold hex_param. rewrite u32_id by done. by apply ParseUint32_fmt_0x.
Qed.

Lemma lookup_children t q e :
  e ∈ children t q ↔ ∃ name n, t !! (q ++ [name]) = Some n ∧ e = entry_of name n.
Proof.
  unfold children. rewrite list_elem_of_omap. split.
  - intros ([k n] & Hin%elem_of_map_to_list & He). unfold child_of in He. cbn in He.
    destruct (rev k) as [|name front] eqn:Hk; [done|]. destruct (decide _) as [<-|]; [|done]. injection He as <-.
    exists name, n. split; [|done]. rewrite <- Hin. f_equal. by rewrite <- (rev_involutive k), Hk.
  - intros (name & n & Hn & ->). exists (q ++ [name], n). split; [by apply elem_of_map_to_list|].
    unfold child_of. cbn. rewrite rev_app_distr. cbn. by rewrite rev_involutive, decide_True.
Qed.

Lemma entry_of_name name n : entry_name (entry_of name n) = name.
Proof. by destruct n. Qed.

Lemma children_once t q : NoDup (map entry_name (children t q)).
Proof.
  unfold children. pose proof (NoDup_fst_map_to_list t) as Hnd. induction (map_to_list t) as [|[k n] l IH]; [constructor|].
  cbn [fmap list_fmap] in Hnd. apply NoDup_cons in Hnd as [Hk Hnd]. specialize (IH Hnd). cbn [omap list_omap].
  destruct (child_of q (k, n)) as [e|] eqn:He; [|done]. cbn [map]. apply NoDup_cons. split; [|done].
  intros Hin. apply Hk. apply list_elem_of_fmap in Hin as (e' & Hname & Hin). apply list_elem_of_omap in Hin as ([k' n'] & Hin & He').
  apply list_elem_of_fmap. exists (k', n'). split; [|done]. unfold child_of in He, He'. cbn in *.
  destruct (rev k) as [|name front] eqn:Hrk; [done|]. destruct (rev k') as [|name' front'] eqn:Hrk'; [done|].
  repeat destruct (decide _); try done. simplify_eq. rewrite !entry_of_name in Hname. subst name'.
  rewrite <- (rev_involutive k), <- (rev_involutive k'), Hrk, Hrk'. cbn. congruence.
Qed.

Lemma children_list t q : lists (children t q) t q.
Proof.
  split; [apply children_once| |].
  - intros e (name & n & Hn & ->)%lookup_children. exists n. rewrite entry_of_name. split; [done|]. by destruct n.
  - intros name n Hn. exists (entry_of name n). split; [|apply entry_of_name]. apply lookup_children. by exists name, n.
Qed.

Lemma childless_children t q : childless t q → children t q = [].
Proof.
  intros Hc. destruct (children t q) as [|e l] eqn:He; [done|]. assert (e ∈ children t q) as Hin by (rewrite He; apply list_elem_of_here).
  apply lookup_children in Hin as (name & n & Hn & _). by rewrite Hc in Hn.
Qed.

Lemma placed_parent t q : placed t q → has_parent t q.
Proof. intros (front & name & -> & _ & Hf). unfold has_parent. by rewrite removelast_last. Qed.

Lemma path_data path (tail : bytes) : (opening " name="%bs ++ path) ++ tail = opening " name="%bs ++ path ++ tail.
Proof. by rewrite <- app_assoc. Qed.

(** ** The laws *)

Lemma Entry_of_node t q n name : tree_ok t → t !! q = Some n → plain_text name → Entry_ok (entry_of name n).
Proof.
  intros Ht Hn Hname. pose proof (tree_nodes _ Ht _ _ Hn) as Hok. unfold Entry_ok, is_i64. destruct n as [data time|]; cbn in *; [|split_and!; done].
  destruct Hok. split_and!; try done; lia.
Qed.

Lemma children_ok t q : tree_ok t → Forall Entry_ok (children t q).
Proof.
  intros Ht. apply Forall_forall. intros e (name & n & Hn & ->)%lookup_children. eapply Entry_of_node; [done..|].
  destruct (tree_placed _ Ht _ _ Hn) as [Heq|Hp]; [by destruct q|]. apply placed_snoc in Hp as [Hok _]. apply Hok.
Qed.

Section Laws.
Context `{HB : !BoostLaws B}.

Lemma attributes_answer path c : tree_ok (files_of c) →
  ∃ a c', command GetFileAttributes_class (GetFileAttributes path) None (MkAttributes None 0 0 0 ∅) c = Some (true, a, c')
    ∧ files_of c' = files_of c ∧ describes a (files_of c !! parts path).
Proof.
  intros Ht. set (r := GetFileAttributes path).
  assert (answer_files r None (files_of c) = answer_attributes (request_data_ r) (files_of c)) as Ha by done.
  assert (quoted 1 (request_data_ r) = parts path) as Hq by (unfold r, GetFileAttributes; cbn [request_data_ SetData AppendData request]; rewrite path_data; by apply quoted_spec).
  unfold command, SendCommandSync, answer, file_console_target. unfold mbind at 1, M_bind. rewrite Ha. unfold answer_attributes.
  rewrite Hq. destruct (files_of c !! parts path) as [n|] eqn:Hn.
  - pose proof (Entry_of_node _ _ _ [] Ht Hn ltac:(by_evaluation)) as He.
    assert (line_of (entry_line (entry_of [] n)) ≠ []) as Hne by (unfold line_of, entry_line; by destruct n).
    pose proof (map_response_line _ (entry_line_ok _ He) Hne) as Hline.
    cbn [lines_of]. unfold Complete, GetFileAttributes_class. cbn [ProcessResponse status_ RdcpResponse.data_ map unlines].
    change (attributes_ok OK_MULTILINE_RESPONSE) with true. cbv iota. change (OK_MULTILINE_RESPONSE =? OK_MULTILINE_RESPONSE) with true. cbv iota.
    rewrite Hline. eexists _, _. split; [reflexivity|]. split; [done|].
    destruct He as (_ & Hs & _ & Hc). destruct n as [data time|]; cbn [describes file_exists attr_flags attr_filesize attr_change_timestamp].
    + split; [done|]. split_and!.
      * cbn. set_solver.
      * apply (GetQWORD_words _ _ (filesize (entry_of [] (File data time)))); [done|..]; cbn; rewrite !to_lower_copy_spec; reflexivity.
      * assert (GetQWORD "changelo"%bs "changehi"%bs 0 (entries_map (entry_line (entry_of [] (File data time)))) = time) as ->.
        { apply GetQWORD_words; [done|..]; cbn; rewrite !to_lower_copy_spec; reflexivity. }
        pose proof (tree_nodes _ Ht _ _ Hn) as [_ ?]. apply u64_id. unfold is_u64. lia.
    + split; [done|]. cbn. rewrite !to_lower_copy_spec. change (map tolower "directory"%bs) with "directory"%bs. set_solver.
  - eexists _, _. split; [reflexivity|]. split; [done|]. cbn. set_solver.
Qed.

Lemma listing_answer path c : tree_ok (files_of c) → files_of c !! parts path = Some Dir →
  ∃ entries c', command DirList_class (DirList path) None [] c = Some (true, entries, c')
    ∧ files_of c' = files_of c ∧ lists entries (files_of c) (parts path).
Proof.
  intros Ht Hd. set (r := DirList path).
  assert (answer_files r None (files_of c) = answer_dirlist (request_data_ r) (files_of c)) as Ha by done.
  assert (quoted 1 (request_data_ r) = parts path) as Hq by (unfold r, DirList; cbn [request_data_ SetData AppendData request]; rewrite path_data; by apply quoted_spec).
  unfold command, SendCommandSync, answer, file_console_target. unfold mbind at 1, M_bind. rewrite Ha. unfold answer_dirlist.
  rewrite Hq, Hd. unfold lines_of, r. cbv beta iota zeta. rewrite DirList_complete by (by apply children_ok).
  eexists _, _. split; [reflexivity|]. split; [done|]. apply children_list.
Qed.

Lemma delete_file_answer path c data time : files_of c !! parts path = Some (File data time) →
  answer_files (Delete path false) None (files_of c) = (reply_plain OK, delete (parts path) (files_of c)).
Proof.
  intros Hf. set (r := Delete path false). change (answer_delete (request_data_ r) (files_of c) = (reply_plain OK, delete (parts path) (files_of c))).
  assert (request_data_ r = opening " name="%bs ++ path ++ [quote]) as -> by (unfold r, Delete; cbn [request_data_ SetData AppendData request when]; apply path_data).
  unfold answer_delete. rewrite !app_assoc, last_snoc, decide_True by done. rewrite <- !app_assoc.
  by rewrite (quoted_spec path 1 [quote] eq_refl), Hf.
Qed.

Lemma delete_dir_answer path c : parts path ≠ [] → files_of c !! parts path = Some Dir → childless (files_of c) (parts path) →
  answer_files (Delete path true) None (files_of c) = (reply_plain OK, delete (parts path) (files_of c)).
Proof.
  intros Hne Hd Hc. set (r := Delete path true). change (answer_delete (request_data_ r) (files_of c) = (reply_plain OK, delete (parts path) (files_of c))).
  assert (request_data_ r = opening " name="%bs ++ path ++ quote :: " dir"%bs) as ->.
  { unfold r, Delete. cbn [request_data_ SetData AppendData request when]. by rewrite path_data, <- !app_assoc. }
  unfold answer_delete. rewrite decide_False.
  - rewrite (quoted_spec path 5 (quote :: " dir"%bs) eq_refl), Hd.
    rewrite decide_True; [done|]. split; [done|]. by apply childless_children.
  - rewrite app_assoc. change (quote :: " dir"%bs) with ((quote :: " di"%bs) ++ ["r"%byte]). by rewrite app_assoc, last_snoc.
Qed.

Lemma mkdir_answer path c : placed (files_of c) (parts path) →
  answer_files (Mkdir path) None (files_of c)
  = match files_of c !! parts path with
    | None => (reply_plain OK, <[parts path := Dir]> (files_of c))
    | Some _ => (reply_plain ERR_EXISTS, files_of c)
    end.
Proof.
  intros Hp. set (r := Mkdir path). change (answer_files r None (files_of c)) with (answer_mkdir (request_data_ r) (files_of c)).
  assert (request_data_ r = opening " name="%bs ++ path ++ [quote]) as -> by (unfold r, Mkdir; cbn [request_data_ SetData AppendData request]; apply path_data).
  unfold answer_mkdir. rewrite (quoted_spec path 1 [quote] eq_refl). destruct (files_of c !! parts path); [done|].
  by rewrite decide_True by (by apply placed_parent).
Qed.

Lemma sendfile_answer path data c : placed (files_of c) (parts path) → files_of c !! parts path ≠ Some Dir →
  answer_files (SendFile path data).1 (SendFile path data).2 (files_of c)
  = (reply_plain OK, <[parts path := File data 0]> (files_of c)).
Proof.
  intros Hp Hd. set (r := (SendFile path data).1). change (answer_files r (SendFile path data).2 (files_of c)) with (answer_sendfile (request_data_ r) (Some data) (files_of c)).
  assert (request_data_ r = opening " name="%bs ++ path ++ closing " length="%bs ++ hex_param (payload_size data)) as ->.
  { unfold r, SendFile. cbn [fst]. rewrite AppendHexString_spec. cbn [request_data_ SetData AppendData request]. by rewrite <- !app_assoc. }
  unfold answer_sendfile. rewrite quoted_spec by (by rewrite length_app, hex_param_length).
  rewrite decide_True; [done|]. split; [done|]. by apply placed_parent.
Qed.

Lemma stamp_answer path c data time stamp : files_of c !! parts path = Some (File data time) → is_i64 stamp →
  answer_files (SetFileAttributes path None None (Some stamp) (Some stamp)) None (files_of c)
  = (reply_plain OK, <[parts path := File data (Z.lor stamp 0x1050000)]> (files_of c)).
Proof.
  intros Hf Hs. set (r := SetFileAttributes path None None (Some stamp) (Some stamp)).
  change (answer_files r None (files_of c)) with (answer_stamp (request_data_ r) (files_of c)).
  set (hi := hex_param (high_word stamp)). set (lo := hex_param (low_word stamp)).
  assert (request_data_ r = opening " name="%bs ++ path
      ++ quote :: " createhi="%bs ++ hi ++ " createlo="%bs ++ lo ++ " changehi="%bs ++ hi ++ " changelo="%bs ++ lo) as E.
  { unfold r, SetFileAttributes. cbn [if_some]. rewrite !AppendHexString_spec. cbn [request_data_ SetData AppendData request].
    by rewrite <- !app_assoc. }
  assert (length hi = 10 ∧ length lo = 10)%nat as [Hhi Hlo] by (split; apply hex_param_length).
  assert (quoted 81 (request_data_ r) = parts path) as Hq.
  { rewrite E. apply quoted_spec. cbn [length]. rewrite !length_app, Hhi, Hlo. reflexivity. }
  assert (number_at 30 (request_data_ r) = high_word stamp) as H1.
  { rewrite E. change (quote :: ?l) with ([quote] ++ l). rewrite !app_assoc. rewrite <- (app_assoc _ " changelo="%bs lo), <- (app_assoc _ hi (_ ++ lo)).
    apply number_at_spec; [|lia|apply u32_range]. by rewrite length_app, Hlo. }
  assert (number_at 10 (request_data_ r) = low_word stamp) as H2.
  { rewrite E. change (quote :: ?l) with ([quote] ++ l). rewrite !app_assoc. rewrite <- (app_nil_r lo) at 2. rewrite app_assoc, app_nil_r.
    rewrite <- (app_nil_r lo) at 2. apply number_at_spec; [done|lia|apply u32_range]. }
  unfold answer_stamp. rewrite Hq, Hf, H1, H2. by rewrite words_join.
Qed.

Lemma stamped stamp :
  kMinTimestamp ≤ stamp ≤ kMaxTimestamp → Z.land stamp kUsableTimestampRange = stamp →
  0 ≤ Z.lor stamp 0x1050000 < 2 ^ 63 ∧ Z.land (Z.lor stamp 0x1050000) kUsableTimestampRange = stamp.
Proof.
  intros [H0 H1] Hs. assert (0 < kMinTimestamp) by reflexivity. assert (kMaxTimestamp < 2 ^ 62) by reflexivity. split.
  - split; [apply Z.lor_nonneg; lia|]. apply Z.log2_lt_pow2.
    + apply Z.le_neq. split; [apply Z.lor_nonneg; lia|]. intros E. symmetry in E. apply Z.lor_eq_0_l in E. lia.
    + rewrite Z.log2_lor by lia. apply Z.max_lub_lt; [|reflexivity]. apply Z.log2_lt_pow2; lia.
  - rewrite Z.land_lor_distr_l, Hs. change (Z.land 0x1050000 kUsableTimestampRange) with 0. apply Z.lor_0_r.
Qed.

#[export] Instance file_console_remote : RemoteDisk FileConsole.
Proof.
  refine {| remote := files_of |}.
  - apply attributes_answer.
  - apply listing_answer.
  - intros path c data time Hf. cbn [answer file_console_target]. by rewrite (delete_file_answer _ _ _ _ Hf).
  - intros path c Hne Hd Hc. cbn [answer file_console_target]. by rewrite delete_dir_answer.
  - intros path c Hp. cbn [answer file_console_target]. rewrite mkdir_answer by done. by destruct (files_of c !! parts path).
  - intros path data c Hp Hd _. cbn [answer file_console_target]. rewrite sendfile_answer by done. split; [done|]. by exists 0.
  - intros path c data time stamp Hf Hr Hs. cbn [answer file_console_target]. destruct (stamped stamp Hr Hs) as [? ?].
    assert (kMaxTimestamp < 2 ^ 63) by reflexivity. assert (0 < kMinTimestamp) by reflexivity.
    rewrite (stamp_answer _ _ _ _ _ Hf) by (unfold is_i64; lia). split; [done|]. by eexists.
  - intros r payload c. cbn [answer file_console_target]. destruct (answer_files r payload (files_of c)). by split.
Defined.
End Laws.

Definition example_files : FileConsole :=
  MkFileConsole
    (list_to_map [([], Dir); (["E:"%bs], Dir); (["E:"%bs; "game"%bs], Dir); (["E:"%bs; "game"%bs; "a"%bs], File "one"%bs 0);
                  (["E:"%bs; "game"%bs; "maps"%bs], Dir); (["E:"%bs; "game"%bs; "maps"%bs; "b"%bs], File "two"%bs 5);
                  (["E:"%bs; "games"%bs], File "three"%bs 0)])
    (list_to_map [("src/a"%bs, ("one more"%bs, 1700000000)); ("src/maps/c"%bs, ("new"%bs, 1700000001))])
    (list_to_map [("src"%bs, [("a"%bs, REGULAR); ("maps"%bs, DIRECTORY)]); ("src/maps"%bs, [("c"%bs, REGULAR)])])
    [].

Definition node_okb (n : node) : bool :=
  match n with File data time => (Z.of_nat (length data) <? 2 ^ 32) && (0 <=? time) && (time <? 2 ^ 63) | Dir => true end.

Definition name_okb (name : bytes) : bool :=
  bool_decide (name ≠ [] ∧ (backslash ∉ name) ∧ (slash ∉ name) ∧ plain_text name).

Definition tree_okb (t : tree) : bool :=
  bool_decide (t !! [] = Some Dir)
  && forallb (λ kn : list bytes * node, node_okb kn.2 &&
       match rev kn.1 with [] => true | name :: front => name_okb name && bool_decide (t !! rev front = Some Dir) end) (map_to_list t).

Lemma tree_okb_spec t : tree_okb t = true → tree_ok t.
Proof.
  intros [Htop Hall]%andb_true_iff. apply bool_decide_eq_true in Htop. rewrite forallb_forall in Hall.
  assert (∀ q n, t !! q = Some n → node_okb n = true
    ∧ match rev q with [] => true | name :: front => name_okb name && bool_decide (t !! rev front = Some Dir) end = true) as Hat.
  { intros q n Hn. apply andb_true_iff, (Hall (q, n)). by apply list_elem_of_In, elem_of_map_to_list. }
  split; [done| |]; intros q n Hn; destruct (Hat q n Hn) as [Hok Hpl].
  - destruct n as [data time|]; [|done]. cbn in *. rewrite !andb_true_iff in Hok. lia.
  - destruct (rev q) as [|name front] eqn:Hq; [left; by rewrite <- (rev_involutive q), Hq|]. right.
    apply andb_true_iff in Hpl as [Hname%bool_decide_eq_true Hf%bool_decide_eq_true].
    exists (rev front), name. split; [by rewrite <- (rev_involutive q), Hq|done].
Qed.
