(* ===== verification/FileSync.v ===== *)
(** * What the operations on files do

    On a console that keeps a tree of files: deleting a directory, and copying one
    file there unless it is there already. *)

From S2P Require Import Prelude CLib Boost Parsing RdcpResponse RdcpMaps RdcpTypes RdcpRequest Requests Notifications Target FileUtil RemoteFiles FileConsole.

Section Sync.
Context `{!Boost} {C E : Type} `{!Target C E, !LocalDisk E, HR : !RemoteDisk E}.
Implicit Types (e : E).

(** C39. Deleting a directory takes away that directory with all that is in it and
    nothing else: on a console that keeps a tree of files, the command ends with
    success as soon as its fuel exceeds the depth of the directory, and the tree
    is the one before without the directory and what was below it. *)
Theorem DeleteRecursively_prunes (fuel : nat) (path : bytes) (e : E) :
  tree_ok (remote e) → parts path ≠ [] → slash ∉ path → remote e !! parts path = Some Dir → shallow fuel (remote e) (parts path) →
  ∃ e', DeleteRecursively fuel path e = Some (true, e') ∧ same_disk e e' ∧ tree_ok (remote e')
    ∧ ∀ q, remote e' !! q = if decide (parts path `prefix_of` q) then None else remote e !! q.
Proof.
  intros Ht Hne Hs Hd Hsh. destruct (DeleteRecursively_run fuel path e Ht Hne Hs Hd Hsh) as (e' & Hrun & Hdisk & Hrem).
  exists e'. split_and!; [done|done| |]; rewrite Hrem; [by apply pruned_ok|]. intros q. apply lookup_pruned.
Qed.

(** ** Copying a file *)

Lemma plain_payload_run r payload e :
  command plain_class r payload tt e = Some (accepted (answer r payload e).1, tt, (answer r payload e).2).
Proof. unfold command, SendCommandSync, mbind, M_bind. by destruct (answer r payload e) as [[response|] e']. Qed.

Lemma UploadFileWithoutChecking_run local_path remote_path data seconds e :
  (slash ∉ remote_path) → placed (remote e) (parts remote_path) → remote e !! parts remote_path ≠ Some Dir →
  read_local local_path e = Some data → last_write_seconds local_path e = Some seconds → Z.of_nat (length data) < 2 ^ 32 →
  ∃ e' time, UploadFileWithoutChecking local_path remote_path true e = Some (true, e') ∧ same_disk e e'
    ∧ 0 ≤ time < 2 ^ 63 ∧ Z.land time kUsableTimestampRange = safe_timestamp seconds
    ∧ remote e' = <[parts remote_path := File data time]> (remote e).
Proof.
  intros Hs Hp Hd Hread Htime Hlen.
  pose proof (send_law remote_path data e Hp Hd Hlen) as Hsend. pose proof (disk_law (SendFile remote_path data).1 (SendFile remote_path data).2 e) as Hdisk.
  pose proof (plain_payload_run (SendFile remote_path data).1 (SendFile remote_path data).2 e) as Hrun.
  destruct (answer (SendFile remote_path data).1 (SendFile remote_path data).2 e) as [r1 e1]. cbn [fst snd] in Hrun, Hdisk.
  destruct Hsend as (Hacc & time1 & Ht1 & Hrem1). rewrite Hacc in Hrun.
  destruct (stamped_range seconds) as [Hr Hl].
  assert (remote e1 !! parts remote_path = Some (File data time1)) as Hf by (by rewrite Hrem1, lookup_insert_eq).
  pose proof (stamp_law remote_path e1 data time1 (safe_timestamp seconds) Hf Hr Hl) as Hstamp.
  pose proof (disk_law (SetFileAttributes remote_path None None (Some (safe_timestamp seconds)) (Some (safe_timestamp seconds))) None e1) as Hdisk2.
  pose proof (plain_command_run (SetFileAttributes remote_path None None (Some (safe_timestamp seconds)) (Some (safe_timestamp seconds))) e1) as Hrun2.
  destruct (answer _ None e1) as [r2 e2]. cbn [fst snd] in Hrun2, Hdisk2. destruct Hstamp as (Hacc2 & time2 & Ht2 & Hland & Hrem2).
  exists e2, time2. split; [|split; [by eapply same_disk_trans|split; [done|split; [done|]]]].
  - unfold UploadFileWithoutChecking. erewrite bind_run by reflexivity. rewrite Hread. unfold EnsureXFATStylePath. rewrite replace_byte_none by done.
    cbv zeta. rewrite (surjective_pairing (SendFile remote_path data)). erewrite bind_run by exact Hrun. cbn [negb].
    unfold SafeXFATTimestampForFile. erewrite (bind_run _ _ _ (safe_timestamp seconds) e1).
    + by rewrite Hrun2, Hacc2.
    + erewrite bind_run by reflexivity. by rewrite (same_time _ _ Hdisk), Htime.
  - by rewrite Hrem2, Hrem1, insert_insert_eq.
Qed.

(** Where a file goes. *)
Definition destination (t : tree) (local_path remote_path : bytes) : bytes :=
  match t !! parts remote_path with
  | Some Dir => EnsureTrailingBackslash remote_path ++ filename local_path
  | _ => remote_path
  end.

(** A tree with a file that has the stamp, and the data unless the file there had
    the stamp and the size already, which then is left. *)
Definition copied (t : tree) (q : list bytes) (data : bytes) (stamp : Z) (t' : tree) : Prop :=
  ∃ data' time, t' = <[q := File data' time]> t
    ∧ 0 ≤ time < 2 ^ 63 ∧ Z.land time kUsableTimestampRange = stamp ∧ length data' = length data
    ∧ (data' = data ∨ t !! q = Some (File data' time))
    ∧ (∀ data0 time0, t !! q = Some (File data0 time0) → length data0 = length data →
       Z.land time0 kUsableTimestampRange = stamp → data' = data0 ∧ time = time0).

Lemma copied_left t q data data0 time :
  tree_ok t → t !! q = Some (File data0 time) → length data0 = length data → copied t q data (Z.land time kUsableTimestampRange) t.
Proof.
  intros Ht Hn Hl. pose proof (tree_nodes _ Ht _ _ Hn) as [_ ?]. exists data0, time. rewrite insert_id by done.
  do 4 (split; [done|]). split; [by right|]. intros ?? Hf. rewrite Hf in Hn. by injection Hn as -> ->.
Qed.

Lemma copied_new t q data time stamp :
  0 ≤ time < 2 ^ 63 → Z.land time kUsableTimestampRange = stamp →
  (∀ data0 time0, t !! q = Some (File data0 time0) → length data0 = length data → Z.land time0 kUsableTimestampRange = stamp → False) →
  copied t q data stamp (<[q := File data time]> t).
Proof. intros Hr Hl Hne. exists data, time. do 4 (split; [done|]). split; [by left|]. intros ?? Hf Hlen Hs. by destruct (Hne _ _ Hf Hlen Hs). Qed.

Lemma SyncFile_to local_path remote_path data seconds e full :
  tree_ok (remote e) → slash ∉ full → full = destination (remote e) local_path remote_path →
  placed (remote e) (parts full) → remote e !! parts full ≠ Some Dir →
  read_local local_path e = Some data → last_write_seconds local_path e = Some seconds →
  local_file_size local_path e = Some (Z.of_nat (length data)) → Z.of_nat (length data) < 2 ^ 32 →
  ∃ e', SyncFile local_path remote_path e = Some (true, e') ∧ same_disk e e' ∧ copied (remote e) (parts full) data (safe_timestamp seconds) (remote e').
Proof.
  intros Ht Hs Hfull Hp Hd Hread Htime Hsize Hlen.
  set (sync := λ (full : bytes) (a : RemoteAttributes),
    if negb (exists_ a) then UploadFileWithoutChecking local_path full true
    else same ← same_file local_path (remote_change_timestamp a) (size a);
      if same : bool then mret true else UploadFileWithoutChecking local_path full true).
  assert (∀ e0 a, remote e0 = remote e → same_disk e e0 → found a (remote e !! parts full) →
    ∃ e', sync full a e0 = Some (true, e') ∧ same_disk e e' ∧ copied (remote e) (parts full) data (safe_timestamp seconds) (remote e')) as Hsync.
  { intros e0 a Hrem Hdisk Ha.
    destruct (UploadFileWithoutChecking_run local_path full data seconds e0) as (e' & time & Hrun & Hdisk' & Hr & Hl & Hrem');
      [done|by rewrite Hrem|by rewrite Hrem|by rewrite (same_read _ _ Hdisk)|by rewrite (same_time _ _ Hdisk)|done|].
    rewrite Hrem in Hrem'. unfold sync. destruct (remote e !! parts full) as [[data0 time0|]|] eqn:Hn; cbn [found] in Ha; [|done|].
    - destruct Ha as (-> & _ & Hsz & Hct). cbn [negb].
      assert (same_file local_path (remote_change_timestamp a) (size a) e0
        = Some (bool_decide (Z.land time0 kUsableTimestampRange = safe_timestamp seconds ∧ length data0 = length data), e0)) as Hsame.
      { unfold same_file, SafeXFATTimestampForFile. erewrite (bind_run _ _ e0 (safe_timestamp seconds) e0).
        2: { erewrite bind_run by reflexivity. by rewrite (same_time _ _ Hdisk), Htime. }
        rewrite Hct, Hsz. destruct (Z.eqb_spec (safe_timestamp seconds) (Z.land time0 kUsableTimestampRange)) as [Heq|Heq].
        - erewrite bind_run by reflexivity. rewrite (same_size _ _ Hdisk), Hsize. erewrite bind_run by reflexivity.
          match goal with |- mret ?b e0 = _ => change (Some (b, e0) = Some (bool_decide (Z.land time0 kUsableTimestampRange = safe_timestamp seconds ∧ length data0 = length data), e0)) end.
          do 2 f_equal. destruct (bool_decide_reflect (Z.land time0 kUsableTimestampRange = safe_timestamp seconds ∧ length data0 = length data)); lia.
        - rewrite bool_decide_eq_false_2; [done|]. by intros [? _]. }
      erewrite bind_run by exact Hsame. destruct (bool_decide_reflect (Z.land time0 kUsableTimestampRange = safe_timestamp seconds ∧ length data0 = length data)) as [[Heq Hel]|Hne].
      + exists e0. split; [done|]. split; [done|]. rewrite Hrem, <- Heq. by eapply copied_left.
      + exists e'. split; [done|]. split; [by eapply same_disk_trans|]. rewrite Hrem'. apply copied_new; [done..|].
        intros ?? Hf ??. apply Hne. rewrite Hn in Hf. by injection Hf as -> ->.
    - destruct Ha as (-> & _). cbn [negb]. exists e'. split; [done|]. split; [by eapply same_disk_trans|].
      rewrite Hrem'. apply copied_new; [done..|]. intros ?? Hf. by rewrite Hn in Hf. }
  unfold SyncFile, with_remote. destruct (CheckRemotePath_run remote_path e Ht) as (a & e1 & Hrun1 & Hrem1 & Hdisk1 & Ha).
  erewrite bind_run by exact Hrun1. cbv beta iota. unfold destination in Hfull.
  destruct (remote e !! parts remote_path) as [[data0 time0|]|] eqn:Hn; cbn [found] in Ha.
  - destruct Ha as (Hex & Hnd & Hrest). rewrite Hnd. subst full. apply (Hsync e1 a); [done|done|]. by rewrite Hn.
  - destruct Ha as (Hex & Hnd). rewrite Hnd. destruct (CheckRemotePath_run full e1) as (a' & e2 & Hrun2 & Hrem2 & Hdisk2 & Ha'); [by rewrite Hrem1|].
    rewrite <- Hfull. erewrite bind_run by exact Hrun2. cbv beta iota. rewrite Hrem1 in Ha'.
    apply (Hsync e2 a'); [congruence|by eapply same_disk_trans|done].
  - destruct Ha as (Hex & Hnd). rewrite Hnd. subst full. apply (Hsync e1 a); [done|done|]. by rewrite Hn.
Qed.

Lemma copied_file t q data stamp t' :
  tree_ok t → placed t q → t !! q ≠ Some Dir → Z.of_nat (length data) < 2 ^ 32 → copied t q data stamp t' →
  tree_ok t' ∧ placed t' q
    ∧ (∃ data' time, t' !! q = Some (File data' time) ∧ Z.land time kUsableTimestampRange = stamp ∧ length data' = length data
         ∧ (data' = data ∨ t !! q = Some (File data' time)))
    ∧ (∀ q', q' ≠ q → t' !! q' = t !! q') ∧ (∀ t'', copied t' q data stamp t'' → t'' = t').
Proof.
  intros Ht Hp Hd Hlen (data' & time & -> & Hr & Hl & Hsz & Hor & _).
  assert (tree_ok (<[q:=File data' time]> t)) as Ht'.
  { apply tree_ok_insert; [done|done| |by right]. split; [by rewrite Hsz|done]. }
  split; [done|]. split.
  { destruct (tree_placed _ Ht' q (File data' time)) as [->|]; [by rewrite lookup_insert_eq| |done].
    pose proof (tree_top _ Ht). congruence. }
  split; [exists data', time; by rewrite lookup_insert_eq|]. split; [intros q' Hq; by rewrite lookup_insert_ne|].
  intros t'' (data2 & time2 & -> & _ & _ & _ & _ & Hkeep).
  destruct (Hkeep data' time) as [-> ->]; [by rewrite lookup_insert_eq|done|done|]. by rewrite insert_id by by rewrite lookup_insert_eq.
Qed.

Lemma destination_stays t t' local_path remote_path :
  let full := destination t local_path remote_path in
  t !! parts full ≠ Some Dir → t' !! parts full ≠ Some Dir → (∀ q', q' ≠ parts full → t' !! q' = t !! q') →
  destination t' local_path remote_path = full.
Proof.
  cbv zeta. unfold destination. destruct (t !! parts remote_path) as [[]|] eqn:Hn.
  - intros _ Hd _. by destruct (t' !! parts remote_path) as [[]|].
  - intros Hd _ Hother. by rewrite Hother, Hn by (intros Heq; by rewrite <- Heq in Hd).
  - intros _ Hd _. by destruct (t' !! parts remote_path) as [[]|].
Qed.

(** C38. Synchronising a file, to its destination (below a directory, under its own
    name): the command succeeds; then the console has there a file of the same size
    with the stamp of the local one, with its data unless it had a file of that
    stamp and size before; nothing else has changed; and synchronising again
    changes nothing. *)
Theorem SyncFile_copies (local_path remote_path data : bytes) (seconds : Z) (e : E) :
  let full := destination (remote e) local_path remote_path in
  tree_ok (remote e) → slash ∉ full → placed (remote e) (parts full) → remote e !! parts full ≠ Some Dir →
  read_local local_path e = Some data → last_write_seconds local_path e = Some seconds →
  local_file_size local_path e = Some (Z.of_nat (length data)) → Z.of_nat (length data) < 2 ^ 32 →
  ∃ e', SyncFile local_path remote_path e = Some (true, e') ∧ same_disk e e' ∧ tree_ok (remote e')
    ∧ (∃ data' time, remote e' !! parts full = Some (File data' time)
         ∧ Z.land time kUsableTimestampRange = safe_timestamp seconds ∧ length data' = length data
         ∧ (data' = data ∨ remote e !! parts full = Some (File data' time)))
    ∧ (∀ q', q' ≠ parts full → remote e' !! q' = remote e !! q')
    ∧ ∃ e'', SyncFile local_path remote_path e' = Some (true, e'') ∧ remote e'' = remote e'.
Proof.
  intros full Ht Hs Hp Hd Hread Htime Hsize Hlen.
  destruct (SyncFile_to local_path remote_path data seconds e full) as (e1 & Hrun1 & Hdisk1 & Hcopied); [done..|].
  destruct (copied_file _ _ _ _ _ Ht Hp Hd Hlen Hcopied) as (Ht1 & Hp1 & (data1 & time1 & Hf & Hrest) & Hother & Hagain).
  exists e1. split; [done|]. split; [done|]. split; [done|]. split; [by eauto|]. split; [done|].
  destruct (SyncFile_to local_path remote_path data seconds e1 full) as (e2 & Hrun2 & _ & Hcopied2).
  - done.
  - done.
  - symmetry. apply (destination_stays (remote e)); fold full; [done|by rewrite Hf|done].
  - done.
  - by rewrite Hf.
  - by rewrite (same_read _ _ Hdisk1).
  - by rewrite (same_time _ _ Hdisk1).
  - by rewrite (same_size _ _ Hdisk1).
  - done.
  - exists e2. split; [done|]. by apply Hagain.
Qed.
End Sync.

#[local] Existing Instance Boost_reference.boost_reference.
#[local] Existing Instance Boost_reference.boost_reference_laws.

Lemma example_files_ok : tree_ok (files_of example_files).
Proof. apply tree_okb_spec. by_evaluation. Qed.

Lemma shallow_decide t q n :
  Forall (λ kn : list bytes * node, kn.2 = Dir → (length kn.1 < length q + n)%nat) (map_to_list t) → shallow n t q.
Proof.
  intros Hall rest Hd. rewrite Forall_forall in Hall. specialize (Hall (q ++ rest, Dir)). rewrite elem_of_map_to_list in Hall.
  specialize (Hall Hd eq_refl). cbn [fst] in Hall. rewrite length_app in Hall. lia.
Qed.

Lemma DeleteRecursively_prunes_witness :
  ∃ e', DeleteRecursively 2 "E:\game\"%bs example_files = Some (true, e')
    ∧ files_of e' !! ["E:"%bs; "game"%bs; "maps"%bs; "b"%bs] = None
    ∧ files_of e' !! ["E:"%bs; "games"%bs] = Some (File "three"%bs 0).
Proof.
  destruct (DeleteRecursively_prunes 2 "E:\game\"%bs example_files) as (e' & Hrun & _ & _ & Hat).
  - exact example_files_ok.
  - discriminate.
  - by_evaluation.
  - by_evaluation.
  - apply shallow_decide. by_evaluation.
  - exists e'. split; [exact Hrun|]. split; change (files_of e') with (remote e'); rewrite Hat; reflexivity.
Defined.

Lemma SyncFile_copies_witness :
  ∃ e', SyncFile "src/a"%bs "E:\game"%bs example_files = Some (true, e')
    ∧ (∀ q', q' ≠ ["E:"%bs; "game"%bs; "a"%bs] → files_of e' !! q' = files_of example_files !! q')
    ∧ ∃ e'', SyncFile "src/a"%bs "E:\game"%bs e' = Some (true, e'') ∧ files_of e'' = files_of e'.
Proof.
  destruct (SyncFile_copies "src/a"%bs "E:\game"%bs "one more"%bs 1700000000 example_files) as (e' & Hrun & _ & _ & _ & Hother & Hagain).
  - exact example_files_ok.
  - by_evaluation.
  - exists ["E:"%bs; "game"%bs], "a"%bs. split_and!; [reflexivity|by_evaluation|reflexivity].
  - by_evaluation.
  - reflexivity.
  - reflexivity.
  - reflexivity.
  - reflexivity.
  - exists e'. split; [exact Hrun|]. split; [exact Hother|exact Hagain].
Defined.
