(* ===== verification/SelectLoop.v ===== *)
(** * The select thread and its tasks (src/net/signaling_base, task_connection, select_thread)

    A connection without a socket, whose pipe wakes the select thread up, and the
    queue of tasks that one of them holds.  Then the list of connections that are
    served, the turns of the loop, and the fences that wait until nothing is left to
    do.  Connections are numbered, 0 is the thread's own, which wakes it up; what the
    others do is an interface, with the answer of [select]. *)

From stdpp Require Import sorting.
From S2P Require Import Prelude Target.

(** ** The pipe *)

(** The bytes in the pipe, [None] once it is closed. *)
Abbreviation pipe := (option nat).

Definition new_pipe : pipe := Some 0%nat.
Definition SignalProcessingNeeded (p : pipe) : pipe := S <$> p.
Definition close_pipe (p : pipe) : pipe := None.

(** Whether its descriptor is put into the set for reading. *)
Definition pipe_Select (p : pipe) : bool := bool_decide (is_Some p).

(** [SignalingBase::Process], given whether the pipe can be read. *)
Definition pipe_Process (readable : bool) (p : pipe) : bool * pipe :=
  match p with
  | None => (false, None)
  | Some n => (true, Some (if readable then 0%nat else n))
  end.

(** ** The queue *)

Record TaskConnection (T : Type) := MkTasks {
  signals : pipe;
  task_queue_ : list T;
  delayed_tasks_ : list (Z * T)      (* the [multimap], in its order *)
}.
Arguments MkTasks {T} _ _ _.
Arguments signals {T} _.
Arguments task_queue_ {T} _.
Arguments delayed_tasks_ {T} _.

Section Queue.
Context {T : Type}.

Definition new_tasks : TaskConnection T := MkTasks new_pipe [] [].

Definition Post (t : T) (c : TaskConnection T) : TaskConnection T :=
  MkTasks (SignalProcessingNeeded (signals c)) (task_queue_ c ++ [t]) (delayed_tasks_ c).

(** [multimap::emplace]: behind the tasks that are due at the same time. *)
Fixpoint emplace_task (expires : Z) (t : T) (l : list (Z * T)) : list (Z * T) :=
  match l with
  | [] => [(expires, t)]
  | (due, t') :: l' => if expires <? due then (expires, t) :: l else (due, t') :: emplace_task expires t l'
  end.

Definition PostDelayed (now delay : Z) (t : T) (c : TaskConnection T) : TaskConnection T :=
  MkTasks (SignalProcessingNeeded (signals c)) (task_queue_ c) (emplace_task (now + delay) t (delayed_tasks_ c)).

Definition is_due (now : Z) (it : Z * T) : bool := it.1 <=? now.

(** The answer, the tasks that are run, in their order, and what is left. *)
Definition Process (now : Z) (readable : bool) (c : TaskConnection T) : bool * list T * TaskConnection T :=
  let '(open, p) := pipe_Process readable (signals c) in
  if negb open then (false, [], MkTasks p (task_queue_ c) (delayed_tasks_ c))
  else
    (true, task_queue_ c ++ map snd (List.filter (is_due now) (delayed_tasks_ c)),
     MkTasks p [] (List.filter (λ it, negb (is_due now it)) (delayed_tasks_ c))).

Definition GetNextEventTime (c : TaskConnection T) : option Z := fst <$> head (delayed_tasks_ c).
End Queue.

(** ** What is run

    A run of the queue: tasks are posted and the select thread looks at the queue. *)

Inductive operation (A B : Type) :=
  | Posted (t : A)
  | Delayed (now delay : Z) (t : B)
  | Looked (now : Z) (readable : bool).
Arguments Posted {A B} _.
Arguments Delayed {A B} _ _ _.
Arguments Looked {A B} _ _.

Section Runs.
Context {A B : Type}.

(** A delayed task carries when it is due. *)
Abbreviation task := (A + Z * B)%type.

(** What was run, and when. *)
Definition step (x : list (Z * task) * TaskConnection task) (o : operation A B) : list (Z * task) * TaskConnection task :=
  let '(log, c) := x in
  match o with
  | Posted t => (log, Post (inl t) c)
  | Delayed now delay t => (log, PostDelayed now delay (inr (now + delay, t)) c)
  | Looked now readable => let '(_, ts, c) := Process now readable c in (log ++ map (pair now) ts, c)
  end.
Definition after (l : list (operation A B)) : list (Z * task) * TaskConnection task := foldl step ([], new_tasks) l.

Definition at_once (t : task) : option A := match t with inl a => Some a | inr _ => None end.
Definition later (t : task) : option (Z * B) := match t with inl _ => None | inr b => Some b end.

Definition posted (o : operation A B) : option A := match o with Posted t => Some t | _ => None end.
Definition delayed (o : operation A B) : option (Z * B) :=
  match o with Delayed now delay t => Some (now + delay, t) | _ => None end.

(** The tasks that wait, with their times as keys, soonest first. *)
Definition sound (c : TaskConnection task) : Prop :=
  is_Some (signals c)
  ∧ Forall (λ t, is_Some (at_once t)) (task_queue_ c)
  ∧ Forall (λ it, ∃ b, it.2 = inr (it.1, b)) (delayed_tasks_ c)
  ∧ StronglySorted (λ x y, x.1 ≤ y.1) (delayed_tasks_ c).

Lemma emplace_task_perm expires (t : task) l : emplace_task expires t l ≡ₚ (expires, t) :: l.
Proof.
  induction l as [|[due t'] l IH]; [done|]. cbn. destruct (expires <? due); [done|]. rewrite IH. constructor.
Qed.

Lemma emplace_task_sorted expires (t : task) l :
  StronglySorted (λ x y, x.1 ≤ y.1) l → StronglySorted (λ x y, x.1 ≤ y.1) (emplace_task expires t l).
Proof.
  induction 1 as [|[due t'] l Hl IH Hall]; cbn; [by repeat constructor|].
  destruct (Z.ltb_spec expires due) as [Hlt|Hle].
  - constructor; [by constructor|]. constructor; [cbn; lia|]. eapply Forall_impl; [exact Hall|]. cbn. intros; lia.
  - constructor; [done|]. rewrite emplace_task_perm. by constructor.
Qed.

(** What is known after a run: [log] and the queue against the operations. *)
Record accounts (l : list (operation A B)) (log : list (Z * task)) (c : TaskConnection task) : Prop := {
  acc_sound : sound c;
  acc_posted : omap posted l = omap (at_once ∘ snd) log ++ omap at_once (task_queue_ c);
  acc_delayed : omap delayed l ≡ₚ omap (later ∘ snd) log ++ omap (later ∘ snd) (delayed_tasks_ c);
  acc_due : Forall (λ it, match it.2 with inr (due, _) => due ≤ it.1 | inl _ => True end) log
}.
Lemma Forall_filter_bool {X} (P : X → Prop) f l : Forall P l → Forall P (List.filter f l).
Proof. induction 1; cbn; [done|]. destruct (f _); [by constructor|done]. Qed.

Lemma StronglySorted_filter_bool {X} (R : X → X → Prop) f l : StronglySorted R l → StronglySorted R (List.filter f l).
Proof. induction 1; cbn; [constructor|]. destruct (f _); [|done]. constructor; [done|by apply Forall_filter_bool]. Qed.

Lemma filter_split {X} (f : X → bool) l : l ≡ₚ List.filter f l ++ List.filter (λ x, negb (f x)) l.
Proof. induction l as [|x l IH]; [done|]. cbn. destruct (f x); cbn; rewrite IH at 1; [done|]. by rewrite Permutation_middle. Qed.

(** What the queue and the delayed tasks come to when they are run. *)
Lemma omap_run {X} (f : task → option X) now ts : omap (f ∘ @snd Z task) (map (pair now) ts) = omap f ts.
Proof. induction ts as [|t ts IH]; [done|]. cbn. destruct (f t); cbn; by rewrite <- IH. Qed.

Lemma at_once_delayed (l : list (Z * task)) : Forall (λ it, ∃ b, it.2 = inr (it.1, b)) l → omap at_once (map snd l) = [].
Proof. induction 1 as [|[due t] l [b Hb] _ IH]; [done|]. cbn in *. by rewrite Hb. Qed.

Lemma later_delayed (l : list (Z * task)) : omap later (map snd l) = omap (later ∘ snd) l.
Proof. induction l as [|t l IH]; [done|]. cbn. destruct (later t.2); cbn; by rewrite <- IH. Qed.

Lemma later_queue (q : list task) : Forall (λ t, is_Some (at_once t)) q → omap later q = [].
Proof. induction 1 as [|[a|b] q [x Hx] _ IH]; done. Qed.

Lemma accounts_step l log c o : accounts l log c → accounts (l ++ [o]) (step (log, c) o).1 (step (log, c) o).2.
Proof.
  intros [(Hopen & Hqueue & Hkeys & Hsorted) Hposted Hdelayed Hdue]. destruct Hopen as [n Hn].
  destruct o as [t|now delay t|now readable]; cbn [step fst snd].
  - split; unfold Post, sound; cbn [signals task_queue_ delayed_tasks_]; rewrite ?omap_app.
    + split_and!; [by rewrite Hn| |done|done]. apply Forall_app. by repeat constructor.
    + rewrite Hposted, <- app_assoc. done.
    + by rewrite app_nil_r.
    + done.
  - split; unfold PostDelayed, sound; cbn [signals task_queue_ delayed_tasks_]; rewrite ?omap_app.
    + split_and!; [by rewrite Hn|done| |by apply emplace_task_sorted]. rewrite emplace_task_perm. constructor; [by exists t|done].
    + by rewrite app_nil_r.
    + rewrite Hdelayed, emplace_task_perm, <- app_assoc. f_equiv. cbn. by rewrite Permutation_app_comm.
    + done.
  - cbn [step]. unfold Process. rewrite Hn. cbn [pipe_Process negb fst snd].
    pose proof (Forall_filter_bool _ (is_due now) _ Hkeys) as Hrun.
    split; unfold sound; cbn [signals task_queue_ delayed_tasks_]; rewrite ?map_app, ?omap_app, ?omap_run, ?app_nil_r.
    + split_and!; [done|done|by apply Forall_filter_bool|by apply StronglySorted_filter_bool].
    + by rewrite (at_once_delayed _ Hrun), app_nil_r.
    + rewrite (later_queue _ Hqueue), later_delayed, Hdelayed, <- app_assoc. f_equiv. cbn [app].
      by rewrite <- omap_app, <- filter_split.
    + repeat (apply Forall_app; split); [done|..]; apply Forall_map.
      * eapply Forall_impl; [exact Hqueue|]. by intros [a|[due b]] [x Hx].
      * apply Forall_map, Forall_forall. intros [due t] Hin. apply list_elem_of_In, List.filter_In in Hin as [Hin Hnow].
        rewrite Forall_forall in Hkeys. apply list_elem_of_In, Hkeys in Hin as [b Hb]. cbn in *. subst t.
        unfold is_due in Hnow. cbn in *. lia.
Qed.

Lemma accounts_after l : accounts l (after l).1 (after l).2.
Proof.
  induction l as [|o l IH] using rev_ind.
  - split; [|done|done|by constructor]. split_and!; [done|by constructor..].
  - unfold after. rewrite foldl_app. cbn [foldl]. fold (after l). rewrite (surjective_pairing (after l)). by apply accounts_step.
Qed.

(** C18. Whatever is posted and whenever the queue is looked at, every task is run once or
    still waits: those without a delay in the order in which they were posted, those
    with one never before they are due.  A look at the queue leaves nothing that is
    due, and the next event is the soonest of those that wait. *)
Theorem tasks_run_once (l : list (operation A B)) :
  let '(log, c) := after l in
  omap posted l = omap (at_once ∘ snd) log ++ omap at_once (task_queue_ c)
  ∧ omap delayed l ≡ₚ omap (later ∘ snd) log ++ omap (later ∘ snd) (delayed_tasks_ c)
  ∧ (∀ now due t, (now, inr (due, t)) ∈ log → due ≤ now)
  ∧ (∀ soonest it, GetNextEventTime c = Some soonest → it ∈ delayed_tasks_ c → soonest ≤ it.1)
  ∧ ∀ now readable, ∃ ts c', Process now readable c = (true, ts, c')
    ∧ omap at_once ts = omap at_once (task_queue_ c) ∧ task_queue_ c' = []
    ∧ ∀ it, it ∈ delayed_tasks_ c → if is_due now it then it.2 ∈ ts else it ∈ delayed_tasks_ c' .
Proof.
  pose proof (accounts_after l) as [(Hopen & Hqueue & Hkeys & Hsorted) Hposted Hdelayed Hdue].
  destruct (after l) as [log c]. cbn [fst snd] in *. split_and!; [done|done|..].
  - intros now due t Hin. rewrite Forall_forall in Hdue. exact (Hdue _ Hin).
  - intros soonest it Hnext Hin. unfold GetNextEventTime in Hnext. destruct Hsorted as [|[due t] d _ Hall]; [done|].
    injection Hnext as <-. apply elem_of_cons in Hin as [->|Hin]; [done|]. rewrite Forall_forall in Hall. exact (Hall _ Hin).
  - intros now readable. destruct Hopen as [n Hn]. unfold Process. rewrite Hn. cbn [pipe_Process negb].
    do 2 eexists. split_and!; [done| |done|].
    + by rewrite omap_app, (at_once_delayed _ (Forall_filter_bool _ _ _ Hkeys)), app_nil_r.
    + intros it Hin. cbn [delayed_tasks_]. destruct (is_due now it) eqn:Hd.
      * apply elem_of_app. right. apply list_elem_of_fmap_2, list_elem_of_In, List.filter_In. by rewrite <- list_elem_of_In.
      * apply list_elem_of_In, List.filter_In. by rewrite <- list_elem_of_In, Hd.
Qed.
End Runs.

Example tasks_in_turn :
  map snd (after (A := nat) (B := nat) [Delayed 0 10 1%nat; Posted 2%nat; Delayed 0 5 3%nat; Looked 4 true; Posted 4%nat; Looked 10 true]).1
  = [inl 2%nat; inl 4%nat; inr (5, 3%nat); inr (10, 1%nat)].
Proof. reflexivity. Qed.

Definition kQuiescenseTimeoutMicroseconds : Z := 10000.

(** What is posted to the thread's own connection. *)
Inductive signal := StopRunning | Nothing.

Class Connections (W : Type) := {
  (** [Select]: the largest descriptor, or a negative one *)
  conn_Select : nat → W → Z * W;
  conn_IsShutdown : nat → W → bool;
  (** times in nanoseconds *)
  conn_GetNextEventTime : nat → W → option Z;
  (** [Process], with the connections that are added in it, and their callbacks *)
  conn_Process : nat → W → bool * list (nat * option nat) * W;
  conn_NotifyRemoved : nat → W → W;
  (** [select] with its time limit in microseconds, the connections being in the sets
      with the thread's own, given whether that can be read: how many of the others
      are ready, or a negative number *)
  select_others : option Z → bool → W → Z * W;
  steady_clock : W → Z
}.

Record SelectThread := MkLoop {
  running_ : bool;
  selectables_ : list nat;
  select_signaller_ : TaskConnection signal;
  close_callbacks_ : gmap nat nat;
  pending_fences_ : list nat;
  passed : list nat;                   (* the fences whose promise is kept *)
  ran : list signal                    (* the tasks that were run, in their order *)
}.

Definition new_loop : SelectThread := MkLoop false [] new_tasks ∅ [] [] [].

Definition with_running (b : bool) (t : SelectThread) : SelectThread :=
  MkLoop b (selectables_ t) (select_signaller_ t) (close_callbacks_ t) (pending_fences_ t) (passed t) (ran t).
Definition with_selectables (l : list nat) (t : SelectThread) : SelectThread :=
  MkLoop (running_ t) l (select_signaller_ t) (close_callbacks_ t) (pending_fences_ t) (passed t) (ran t).
Definition with_signaller (c : TaskConnection signal) (t : SelectThread) : SelectThread :=
  MkLoop (running_ t) (selectables_ t) c (close_callbacks_ t) (pending_fences_ t) (passed t) (ran t).
Definition with_callbacks (m : gmap nat nat) (t : SelectThread) : SelectThread :=
  MkLoop (running_ t) (selectables_ t) (select_signaller_ t) m (pending_fences_ t) (passed t) (ran t).
Definition with_fences (l done : list nat) (t : SelectThread) : SelectThread :=
  MkLoop (running_ t) (selectables_ t) (select_signaller_ t) (close_callbacks_ t) l done (ran t).
Definition with_ran (l : list signal) (t : SelectThread) : SelectThread :=
  MkLoop (running_ t) (selectables_ t) (select_signaller_ t) (close_callbacks_ t) (pending_fences_ t) (passed t) l.

Definition post (s : signal) (t : SelectThread) : SelectThread := with_signaller (Post s (select_signaller_ t)) t.

(** ** Operations *)

Definition AddConnection (conn : nat) (t : SelectThread) : SelectThread :=
  post Nothing (with_selectables (selectables_ t ++ [conn]) t).

Definition AddConnection_callback (conn on_close : nat) (t : SelectThread) : SelectThread :=
  let t := AddConnection conn t in with_callbacks (<[conn := on_close]> (close_callbacks_ t)) t.

(** [Start] and [Stop], without the thread they start and wait for. *)
Definition Start (t : SelectThread) : SelectThread := AddConnection 0 (with_running true t).
Definition Stop (t : SelectThread) : SelectThread := post StopRunning t.

(** [AwaitQuiescence] up to its wait for the fence. *)
Definition AwaitQuiescence (fence : nat) (t : SelectThread) : SelectThread :=
  let t := with_fences (pending_fences_ t ++ [fence]) (passed t) t in
  with_signaller (MkTasks (SignalProcessingNeeded (signals (select_signaller_ t))) (task_queue_ (select_signaller_ t))
                    (delayed_tasks_ (select_signaller_ t))) t.

(** The [timeval] of a time: whole seconds and microseconds. *)
Definition FutureTimeToTimevalTimeout (now timestamp : Z) : Z :=
  let remaining := timestamp - now in
  if remaining <=? 0 then 0
  else
    let secs := remaining ÷ 1000000000 in
    let usecs := (remaining - secs * 1000000000) ÷ 1000 in
    secs * 1000000 + usecs.

(** ** The loop *)

Section Loop.
Context {W : Type} `{!Connections W}.
Abbreviation L := (M (SelectThread * W)).

Definition on_loop (f : SelectThread → SelectThread) : L unit := modify (λ s, (f s.1, s.2)).
Definition on_world {A} (f : W → A * W) : L A := λ '(t, w), let '(a, w') := f w in Some (a, (t, w')).

(** [NotifyRemoved] does nothing on the thread's own connection. *)
Definition NotifyRemoved (conn : nat) : L unit :=
  match conn with 0%nat => mret tt | _ => on_world (λ w, (tt, conn_NotifyRemoved conn w)) end.

(** The connections of a copy of the list for which [func] holds, then erased. *)
Fixpoint apply_all {A} (func : A → nat → L (A * bool)) (entries : list nat) (a : A) : L (A * list nat) :=
  match entries with
  | [] => mret (a, [])
  | entry :: entries =>
    '(a, remove) ← func a entry;
    (if remove : bool then NotifyRemoved entry else mret tt) ;;
    '(a, others) ← apply_all func entries a;
    mret (a, if remove : bool then entry :: others else others)
  end.

Definition ApplyAndEraseIf {A} (func : A → nat → L (A * bool)) (a : A) : L A :=
  entries ← gets (λ s, selectables_ s.1);
  '(a, entries_to_remove) ← apply_all func entries a;
  on_loop (λ t, with_selectables (List.filter (λ c, negb (bool_decide (c ∈ entries_to_remove))) (selectables_ t)) t) ;;
  mret a.

(** The largest descriptor and the soonest event so far.  The descriptor of the
    pipe stands for one that is not negative. *)
Definition select_one (x : Z * option Z) (entry : nat) : L ((Z * option Z) * bool) :=
  let '(max_fd, soonest_scheduled) := x in
  '(conn_max_fd, is_shutdown, event) ←
    match entry with
    | 0%nat =>
      c ← gets (λ s, select_signaller_ s.1);
      mret (if pipe_Select (signals c) then 0 else -1, false, GetNextEventTime c)
    | _ =>
      fd ← on_world (conn_Select entry);
      w ← gets snd;
      mret (fd, conn_IsShutdown entry w, conn_GetNextEventTime entry w)
    end;
  if conn_max_fd <? 0 then mret ((max_fd, soonest_scheduled), is_shutdown)
  else
    let soonest_scheduled :=
      match event, soonest_scheduled with
      | Some e, Some s => if e <? s then Some e else Some s
      | Some e, None => Some e
      | None, s => s
      end in
    mret ((Z.max max_fd conn_max_fd, soonest_scheduled), false).

Definition run_signal (s : signal) : L unit :=
  on_loop (λ t, with_ran (ran t ++ [s]) t) ;;
  match s with StopRunning => on_loop (with_running false) | Nothing => mret tt end.

Definition add (x : nat * option nat) : L unit :=
  on_loop (match x.2 with None => AddConnection x.1 | Some on_close => AddConnection_callback x.1 on_close end).

(** [Process] of one connection: whether it is to be erased. *)
Definition process_one (readable : bool) (_ : unit) (entry : nat) : L (unit * bool) :=
  match entry with
  | 0%nat =>
    now ← gets (λ s, steady_clock s.2);
    c ← gets (λ s, select_signaller_ s.1);
    let '(open, tasks_to_run, c) := Process now readable c in
    on_loop (with_signaller c) ;;
    for_each tasks_to_run run_signal ;;
    mret (tt, negb open)
  | _ =>
    '(keep, added) ← on_world (conn_Process entry);
    for_each added add ;;
    mret (tt, negb keep)
  end.

(** [set_value] of every fence. *)
Definition pass_fences : L unit := on_loop (λ t, with_fences [] (passed t ++ pending_fences_ t) t).

(** One turn of [ThreadMain]; [None] for its assertion that there is a descriptor. *)
Definition turn : L unit :=
  '(max_fd, soonest_scheduled) ← ApplyAndEraseIf select_one (-1, None);
  if max_fd <? 0 then mfail
  else
    has_fences ← gets (λ s, negb (bool_decide (pending_fences_ s.1 = [])));
    now ← gets (λ s, steady_clock s.2);
    let timeout :=
      if has_fences : bool then Some kQuiescenseTimeoutMicroseconds
      else FutureTimeToTimevalTimeout now <$> soonest_scheduled in
    readable ← gets (λ s, bool_decide (default 0%nat (signals (select_signaller_ s.1)) ≠ 0%nat));
    others ← on_world (select_others timeout readable);
    if others <? 0 then mret tt
    else
      ApplyAndEraseIf (process_one readable) tt ;;
      if has_fences && (others =? 0) && negb readable then pass_fences else mret tt.

(** [ThreadMain] for so many turns. *)
Fixpoint ThreadMain (turns : nat) : L unit :=
  match turns with
  | 0%nat => mret tt
  | S turns => go ← gets (λ s, running_ s.1); if go : bool then turn ;; ThreadMain turns else mret tt
  end.
End Loop.

(** ** Quiescence *)

(** Connections for which nothing arrives, and which add no others. *)
Class Silence (W : Type) `{!Connections W} := {
  quiet : W → Prop;
  quiet_Select conn w : quiet w → quiet (conn_Select conn w).2;
  quiet_NotifyRemoved conn w : quiet w → quiet (conn_NotifyRemoved conn w);
  quiet_select timeout readable w : quiet w → ∃ w', select_others timeout readable w = (0, w') ∧ quiet w';
  quiet_Process conn w : quiet w → ∃ keep w', conn_Process conn w = (keep, [], w') ∧ quiet w'
}.

(** The thread serves its own connection, and was not told to stop. *)
Definition no_stop (c : TaskConnection signal) : Prop :=
  Forall (λ s, s = Nothing) (task_queue_ c) ∧ Forall (λ it, it.2 = Nothing) (delayed_tasks_ c).
Definition serving (t : SelectThread) : Prop :=
  running_ t = true ∧ 0%nat ∈ selectables_ t ∧ is_Some (signals (select_signaller_ t)) ∧ no_stop (select_signaller_ t).

Section Quiescence.
Context {W : Type} `{!Connections W, !Silence W}.
Abbreviation L := (M (SelectThread * W)).
Abbreviation total := (wp False).

Lemma total_run {A B} (m : L A) (k : A → L B) s a s' Q : m s = Some (a, s') → total (k a) s' Q → total (m ≫= k) s Q.
Proof. intros Hm Hk. apply wp_bind. unfold wp at 1. by rewrite Hm. Qed.

Lemma total_NotifyRemoved conn t w (Q : unit → SelectThread * W → Prop) :
  quiet w → (∀ w', quiet w' → Q tt (t, w')) → total (NotifyRemoved conn) (t, w) Q.
Proof. intros Hw HQ. destruct conn; apply HQ; [done|]. by apply quiet_NotifyRemoved. Qed.

(** A loop over connections whose body keeps [I], which says what was seen to; the
    thread's own connection is not erased. *)
Lemma total_apply_all {A} (func : A → nat → L (A * bool)) (I : list nat → A → SelectThread → Prop) entries :
  (∀ seen a t w entry, I seen a t → quiet w →
    total (func a entry) (t, w) (λ r s, I (seen ++ [entry]) r.1 s.1 ∧ quiet s.2 ∧ (entry = 0%nat → r.2 = false))) →
  ∀ seen a t w, I seen a t → quiet w →
    total (apply_all func entries a) (t, w)
      (λ r s, I (seen ++ entries) r.1 s.1 ∧ quiet s.2 ∧ 0%nat ∉ r.2).
Proof.
  intros Hbody. induction entries as [|entry entries IH]; intros seen a t w HI Hw; cbn [apply_all].
  - apply wp_ret. rewrite app_nil_r. split_and!; [done|done|apply not_elem_of_nil].
  - apply wp_bind. eapply wp_mono; [by apply (Hbody seen)|]. intros [a' remove] [t' w'] (HI' & Hw' & Hown). cbn [fst snd] in *.
    apply wp_bind.
    assert (Hremove : total (if remove then NotifyRemoved entry else mret tt) (t', w') (λ _ s, s.1 = t' ∧ quiet s.2)).
    { destruct remove; [|done]. by apply total_NotifyRemoved. }
    eapply wp_mono; [exact Hremove|]. intros _ [t2 w2] [Ht Hw2]. cbn [fst snd] in *. subst t2.
    apply wp_bind. eapply wp_mono; [by apply (IH (seen ++ [entry]))|]. intros [a2 others] s (HI2 & Hs & Hothers). cbn [fst snd] in *.
    apply wp_ret. cbn [fst snd]. rewrite <- app_assoc in HI2. split_and!; [done|done|].
    destruct remove; [|done]. apply not_elem_of_cons. split; [|done]. intros <-. by specialize (Hown eq_refl).
Qed.

Lemma total_ApplyAndEraseIf {A} (func : A → nat → L (A * bool)) (I : list nat → A → SelectThread → Prop) a t w :
  (∀ seen a t w entry, I seen a t → quiet w →
    total (func a entry) (t, w) (λ r s, I (seen ++ [entry]) r.1 s.1 ∧ quiet s.2 ∧ (entry = 0%nat → r.2 = false))) →
  I [] a t → quiet w →
  total (ApplyAndEraseIf func a) (t, w) (λ r s, ∃ t' (gone : list nat),
    I (selectables_ t) r t' ∧ (0%nat ∉ gone) ∧ quiet s.2
    ∧ s.1 = with_selectables (List.filter (λ c, negb (bool_decide (c ∈ gone))) (selectables_ t')) t').
Proof.
  intros Hbody HI Hw. unfold ApplyAndEraseIf. apply wp_bind. cbn [gets]. unfold wp at 1. cbn [gets fst].
  apply wp_bind. eapply wp_mono; [by apply (total_apply_all _ _ _ Hbody [])|].
  intros [r gone] [t' w'] (HI' & Hw' & Hgone). by exists t', gone.
Qed.

Lemma kept_0 (gone l : list nat) : 0%nat ∉ gone → 0%nat ∈ l → 0%nat ∈ List.filter (λ c, negb (bool_decide (c ∈ gone))) l.
Proof. intros Hg Hl. apply list_elem_of_In, List.filter_In. split; [by apply list_elem_of_In|]. by rewrite bool_decide_eq_false_2. Qed.

(** Before [select]: there is a descriptor, and the thread only loses connections. *)
Lemma total_select_phase t w : serving t → quiet w →
  total (ApplyAndEraseIf select_one (-1, None)) (t, w) (λ r s, 0 ≤ r.1 ∧ quiet s.2
    ∧ ∃ l, 0%nat ∈ l ∧ s.1 = with_selectables l t).
Proof.
  intros (Hrun & H0 & [n Hn] & Hns) Hw.
  eapply wp_mono; [apply (total_ApplyAndEraseIf _ (λ seen r t', t' = t ∧ (0%nat ∈ seen → 0 ≤ r.1)))|].
  - intros seen [max_fd soonest] t' w' entry [-> Hseen] Hw'. cbn [fst] in Hseen. unfold select_one.
    destruct entry as [|entry].
    + refine (total_run _ _ _ (0, false, GetNextEventTime (select_signaller_ t)) (t, w') _ _ _).
      { rewrite (bind_run _ _ _ (select_signaller_ t) (t, w')) by done. by rewrite Hn. }
      change (0 <? 0) with false. cbv iota. apply wp_ret. cbn [fst snd]. split_and!; [done|intros _; lia|done|done].
    + set (w2 := (conn_Select (S entry) w').2).
      refine (total_run _ _ _ ((conn_Select (S entry) w').1, conn_IsShutdown (S entry) w2, conn_GetNextEventTime (S entry) w2) (t, w2) _ _ _).
      { by rewrite (bind_run _ _ _ (conn_Select (S entry) w').1 (t, w2)) by (unfold w2, on_world; by destruct (conn_Select (S entry) w')). }
      assert (Hq := quiet_Select (S entry) w' Hw').
      assert (Hown : 0%nat ∈ seen ++ [S entry] → 0%nat ∈ seen) by set_solver.
      destruct (_ <? 0); apply wp_ret; cbn [fst snd]; (split_and!; [done| |done|done]); intros Hin; specialize (Hseen (Hown Hin)); lia.
  - split; [done|]. by intros ?%elem_of_nil.
  - done.
  - intros r [t2 w2] (t' & gone & [-> Hmax] & Hgone & Hq & Heq). cbn [fst snd] in *. split_and!; [by apply Hmax|done|].
    eexists. split; [|exact Heq]. by apply kept_0.
Qed.

(** From [t] to [t'] the tasks of the queue were run in their order, and then some
    of the delayed ones; the others still wait. *)
Definition tasks_done (t t' : SelectThread) : Prop :=
  ∃ later, ran t' = ran t ++ task_queue_ (select_signaller_ t) ++ later
  ∧ later ++ map snd (delayed_tasks_ (select_signaller_ t')) ≡ₚ map snd (delayed_tasks_ (select_signaller_ t)).

Lemma tasks_done_trans t t1 t2 :
  task_queue_ (select_signaller_ t1) = [] → tasks_done t t1 → tasks_done t1 t2 → tasks_done t t2.
Proof.
  intros Hq (l1 & R1 & P1) (l2 & R2 & P2). exists (l1 ++ l2). rewrite R2, R1, Hq, <- !app_assoc. split; [done|].
  by rewrite P2.
Qed.

Lemma filter_due_split (now : Z) (l : list (Z * signal)) :
  map snd (List.filter (is_due now) l) ++ map snd (List.filter (λ it, negb (is_due now it)) l) ≡ₚ map snd l.
Proof.
  induction l as [|it l IH]; [done|]. cbn [List.filter]. destruct (is_due now it); cbn [negb map].
  - cbn. by rewrite IH.
  - rewrite <- Permutation_middle. by rewrite IH.
Qed.

(** What the thread's own connection is after a look at its tasks. *)
Definition drained (readable : bool) (t t' : SelectThread) : Prop :=
  task_queue_ (select_signaller_ t') = []
  ∧ signals (select_signaller_ t') = (if readable then Some 0%nat else signals (select_signaller_ t))
  ∧ tasks_done t t'.

Lemma with_ran_nil t : with_ran (ran t ++ []) t = t.
Proof. rewrite app_nil_r. by destruct t. Qed.

Lemma total_run_signals ts t (w : W) : Forall (λ s, s = Nothing) ts →
  total (for_each ts run_signal) (t, w) (λ _ s, s = (with_ran (ran t ++ ts) t, w)).
Proof.
  intros Hts. revert t. induction Hts as [|s ts -> _ IH]; intros t; [by cbn; rewrite with_ran_nil|].
  cbn [for_each run_signal]. apply wp_bind. unfold wp at 1, on_loop, modify, mbind, M_bind. cbn.
  eapply wp_mono; [apply IH|]. intros _ s ->. cbn. by rewrite <- app_assoc.
Qed.

Lemma total_process_phase readable t w : serving t → quiet w →
  total (ApplyAndEraseIf (process_one readable) tt) (t, w) (λ _ s, quiet s.2 ∧ serving s.1 ∧ drained readable t s.1
    ∧ pending_fences_ s.1 = pending_fences_ t ∧ passed s.1 = passed t).
Proof.
  intros (Hrun & H0 & Hopen & Hns) Hw.
  set (I := λ (seen : list nat) (_ : unit) t', running_ t' = true ∧ selectables_ t' = selectables_ t
    ∧ pending_fences_ t' = pending_fences_ t ∧ passed t' = passed t ∧ no_stop (select_signaller_ t')
    ∧ if decide (0%nat ∈ seen) then drained readable t t'
      else select_signaller_ t' = select_signaller_ t ∧ ran t' = ran t).
  eapply wp_mono; [apply (total_ApplyAndEraseIf _ I)|].
  - intros seen [] t' w' entry HI Hw'. unfold process_one. destruct entry as [|entry].
    + (* the tasks *)
      refine (total_run _ _ _ (steady_clock w') (t', w') _ _ _); [done|].
      refine (total_run _ _ _ (select_signaller_ t') (t', w') _ _ _); [done|].
      destruct HI as (Hr & Hs & Hf & Hp & [Hq Hd] & Hseen).
      assert (Hsig : ∃ n, signals (select_signaller_ t') = Some n
        ∧ (if readable then Some 0%nat else Some n) = (if readable then Some 0%nat else signals (select_signaller_ t))).
      { destruct Hopen as [n Hn]. destruct (decide _).
        - destruct Hseen as (_ & Hsig & _). rewrite Hsig, Hn. destruct readable; by eexists.
        - destruct Hseen as [-> _]. rewrite Hn. by eexists. }
      destruct Hsig as (m & Hm & Hafter).
      unfold Process. rewrite Hm. cbn [pipe_Process negb]. cbv iota zeta.
      refine (total_run _ _ _ tt (with_signaller _ t', w') _ _ _); [reflexivity|].
      apply wp_bind. eapply wp_mono; [apply total_run_signals|].
      { apply Forall_app. split; [done|]. apply Forall_map. by apply Forall_filter_bool. }
      intros _ ? ->. apply wp_ret. cbn [fst snd]. split; [|done].
      set (t2 := with_ran _ _). unfold I, drained, no_stop.
      assert (Hdone : tasks_done t' t2) by (eexists; split; [reflexivity|apply filter_due_split]).
      rewrite decide_True by set_solver. split_and!; [done..|by apply Forall_filter_bool|done|by destruct readable|].
      destruct (decide (0%nat ∈ seen)); [destruct Hseen as (? & _ & ?); by eapply tasks_done_trans|].
      destruct Hseen as [Hc Hran]. unfold tasks_done in *. by rewrite Hc, Hran in Hdone.
    + destruct (quiet_Process (S entry) w' Hw') as (keep & w2 & Hp & Hw2).
      refine (total_run _ _ _ (keep, []) (t', w2) _ _ _); [unfold on_world; by rewrite Hp|].
      apply wp_ret. cbn [fst snd]. split_and!; [|done|done]. unfold I in *. destruct HI as (? & ? & ? & ? & ? & Hseen). split_and!; try done.
      destruct (decide (0%nat ∈ seen)), (decide (0%nat ∈ seen ++ [S entry])); first [done|set_solver].
  - unfold I. rewrite decide_False by (by intros ?%elem_of_nil). done.
  - done.
  - intros _ [t2 w2] (t' & gone & (Hr & Hs & Hf & Hp & Hq & Hseen) & Hgone & Hw2 & ->). cbn [fst snd] in *.
    rewrite decide_True in Hseen by done. split_and!; try done. destruct Hseen as (_ & Hsig & _).
    split_and!; [done|apply kept_0; [done|by rewrite Hs]| |done]. cbn [select_signaller_ with_selectables]. rewrite Hsig. by destruct readable.
Qed.

(** A turn while all is quiet: the tasks are run and the pipe is emptied, and when it
    was empty every fence is passed. *)
Lemma total_turn t w : serving t → quiet w →
  total turn (t, w) (λ _ s, serving s.1 ∧ quiet s.2 ∧ task_queue_ (select_signaller_ s.1) = []
    ∧ signals (select_signaller_ s.1) = Some 0%nat
    ∧ tasks_done t s.1
    ∧ if decide (signals (select_signaller_ t) = Some 0%nat) then pending_fences_ s.1 = [] ∧ passed s.1 = passed t ++ pending_fences_ t
      else pending_fences_ s.1 = pending_fences_ t ∧ passed s.1 = passed t).
Proof.
  intros Ht Hw. unfold turn. apply wp_bind. eapply wp_mono; [by apply total_select_phase|].
  intros [max_fd soonest] [t1 w1] (Hmax & Hw1 & l & Hl & Heq). cbn [fst snd] in *. subst t1. rewrite (proj2 (Z.ltb_ge _ _)) by done.
  do 3 (refine (total_run _ _ _ _ _ _ eq_refl _)). cbn [fst snd with_selectables select_signaller_ pending_fences_].
  set (readable := bool_decide (default 0%nat (signals (select_signaller_ t)) ≠ 0%nat)).
  set (timeout := if negb (bool_decide (pending_fences_ t = [])) then Some kQuiescenseTimeoutMicroseconds else _).
  destruct (quiet_select timeout readable w1 Hw1) as (w2 & Hsel & Hw2).
  refine (total_run _ _ _ 0 (with_selectables l t, w2) _ _ _); [unfold on_world; by rewrite Hsel|]. change (0 <? 0) with false. cbv iota.
  destruct Ht as (Hr & _ & Hopen & Hns). apply wp_bind.
  eapply wp_mono; [by apply (total_process_phase readable (with_selectables l t) w2)|].
  intros _ [t3 w3] (Hw3 & Ht3 & (Hq & Hsig & Hdone) & Hf & Hp). cbn [fst snd with_selectables select_signaller_ pending_fences_ passed] in *.
  assert (Hz : signals (select_signaller_ t3) = Some 0%nat).
  { rewrite Hsig. unfold readable. destruct Hopen as [[|n] Hn]; rewrite Hn; done. }
  destruct Hopen as [n Hn]. unfold readable. rewrite Hn. cbn [default].
  destruct n as [|n]; (destruct (decide _) as [Hd|Hd]; [|done || rewrite andb_false_r; by split_and!]); [|done].
  clear Hd.
  destruct (decide (pending_fences_ t = [])) as [He|He].
  - rewrite bool_decide_eq_true_2 by done. cbn. split_and!; try done; [by rewrite Hf|by rewrite Hp, He, app_nil_r].
  - rewrite bool_decide_eq_false_2 by done. unfold pass_fences. cbn. split_and!; try done. by rewrite <- Hf, <- Hp.
Qed.

(** C17. When nothing arrives on any connection, the wait for quiescence is over after
    two turns of the thread: its fence is passed with every one before it, and by then
    every task that was posted was run, once and in the order of posting, and each
    delayed one was either run as well or still waits; the thread goes on. *)
Theorem AwaitQuiescence_returns (fence : nat) (t : SelectThread) (w : W) :
  serving t → quiet w →
  ∃ t' w', ThreadMain 2 (AwaitQuiescence fence t, w) = Some (tt, (t', w'))
  ∧ passed t' = passed t ++ pending_fences_ t ++ [fence] ∧ pending_fences_ t' = []
  ∧ (∃ later, ran t' = ran t ++ task_queue_ (select_signaller_ t) ++ later
       ∧ later ++ map snd (delayed_tasks_ (select_signaller_ t')) ≡ₚ map snd (delayed_tasks_ (select_signaller_ t)))
  ∧ task_queue_ (select_signaller_ t') = [] ∧ running_ t' = true ∧ quiet w'.
Proof.
  intros Ht Hw. set (t0 := AwaitQuiescence fence t).
  assert (Ht0 : serving t0).
  { destruct Ht as (Hr & H0 & [n Hn] & Hns). unfold t0, AwaitQuiescence. split_and!; [done|done| |exact Hns]. cbn. by rewrite Hn. }
  assert (Hs0 : signals (select_signaller_ t0) ≠ Some 0%nat).
  { destruct Ht as (_ & _ & [n Hn] & _). unfold t0, AwaitQuiescence. cbn. by rewrite Hn. }
  pose proof (total_turn t0 w Ht0 Hw) as H1. unfold wp in H1. destruct (turn (t0, w)) as [[[] [t1 w1]]|] eqn:E1; [|done].
  cbn [fst snd] in H1. rewrite decide_False in H1 by done. destruct H1 as (Ht1 & Hw1 & Hq1 & Hsig & Hd1 & Hf1 & Hp1).
  pose proof (total_turn t1 w1 Ht1 Hw1) as H2. unfold wp in H2. destruct (turn (t1, w1)) as [[[] [t2 w2]]|] eqn:E2; [|done].
  cbn [fst snd] in H2. rewrite decide_True in H2 by done. destruct H2 as (Ht2 & Hw2 & Hq2 & _ & Hd2 & Hf2 & Hp2).
  exists t2, w2. split_and!; [|by rewrite Hp2, Hp1, Hf1|done|exact (tasks_done_trans t0 t1 t2 Hq1 Hd1 Hd2)|done|apply Ht2|done].
  cbn [ThreadMain]. rewrite (bind_run _ _ _ true (t0, w)) by (by unfold gets; change (running_ (t0, w).1) with (running_ t0); rewrite (proj1 Ht0)).
  rewrite (bind_run _ _ _ tt (t1, w1)) by done.
  rewrite (bind_run _ _ _ true (t1, w1)) by (by unfold gets; change (running_ (t1, w1).1) with (running_ t1); rewrite (proj1 Ht1)).
  by rewrite (bind_run _ _ _ tt (t2, w2)).
Qed.

End Quiescence.

(** ** Stopping, and an example *)

(** Connections that are always silent. *)
#[export] Instance silent_connections : Connections unit := {
  conn_Select _ w := (7, w);
  conn_IsShutdown _ _ := false;
  conn_GetNextEventTime _ _ := None;
  conn_Process _ w := (true, [], w);
  conn_NotifyRemoved _ w := w;
  select_others _ _ w := (0, w);
  steady_clock _ := 0
}.
#[export] Program Instance silence : Silence unit := {| quiet _ := True |}.
Next Obligation. done. Qed.
Next Obligation. done. Qed.
Next Obligation. intros timeout readable [] _. by exists tt. Qed.
Next Obligation. intros conn [] _. by exists true, tt. Qed.

Definition example_loop : SelectThread := AddConnection 1 (Start new_loop).

Lemma AwaitQuiescence_returns_witness :
  ∃ t', ThreadMain 2 (AwaitQuiescence 5 example_loop, tt) = Some (tt, (t', tt)) ∧ passed t' = [5%nat] ∧ ran t' = [Nothing; Nothing].
Proof.
  destruct (AwaitQuiescence_returns 5 example_loop tt) as (t' & [] & Hrun & Hp & _ & (later & Hran & Hlater) & _).
  - split_and!; [done|set_solver|by eexists|split; repeat constructor].
  - done.
  - exists t'. split; [exact Hrun|]. split; [exact Hp|]. rewrite Hran.
    apply Permutation_sym, Permutation_nil, app_nil in Hlater as [-> _]. reflexivity.
Defined.

(** After [Stop] the thread ends, and a fence that is set then is never passed. *)
Example stopped_thread_passes_nothing :
  (λ x, (running_ x.2.1, passed x.2.1, pending_fences_ x.2.1)) <$> ThreadMain 10 (AwaitQuiescence 5 (Stop example_loop), tt)
  = Some (false, [], [5%nat]).
Proof. reflexivity. Qed.
