(* ===== verification/TcpServer.v ===== *)
(** * Servers (src/net/tcp_server.h, tcp_server.cpp, delegating_server.h)

    A socket that listens, and the connections it accepts, which are given to the
    handler of the server.  The answers of the system are an interface. *)

From S2P Require Import Prelude IpAddress Target SelectLoop.

Class ServerSockets (W : Type) := {
  (** [socket], [bind], [getsockname] and [listen] *)
  open_server : W → bool * W;
  bind_server : sockaddr_in → W → bool * W;
  bound_to : W → option sockaddr_in * W;
  listen_server : W → bool * W;
  (** [accept]: a socket and where it is connected to *)
  accept_client : W → option (Z * sockaddr_in) * W
}.

Record TCPServer := MkServer {
  server_pipe : pipe;
  listening : bool;          (* socket_ >= 0 *)
  is_shutdown_ : bool;
  address_ : IPAddress
}.

Definition new_server : TCPServer := MkServer new_pipe false false no_address.

Definition with_socket (b : bool) (s : TCPServer) : TCPServer := MkServer (server_pipe s) b (is_shutdown_ s) (address_ s).
Definition with_address (a : IPAddress) (s : TCPServer) : TCPServer := MkServer (server_pipe s) (listening s) (is_shutdown_ s) a.

(** [TCPSocketBase::Close] *)
Definition Close (s : TCPServer) : TCPServer := MkServer (close_pipe (server_pipe s)) false true (address_ s).

Section Server.
Context {W : Type} `{!ServerSockets W}.
Abbreviation A := (M (TCPServer * W)).

Definition ask {X} (f : W → X * W) : A X := λ '(s, w), let '(x, w') := f w in Some (x, (s, w')).
Definition change (f : TCPServer → TCPServer) : A unit := modify (λ x, (f x.1, x.2)).

(** [close_and_fail], which leaves the pipe open. *)
Definition close_and_fail : A bool := change (λ s, MkServer (server_pipe s) false true (address_ s)) ;; mret false.

Definition Listen (address : IPAddress) : A bool :=
  change (with_address address) ;;
  ok ← ask open_server;
  change (with_socket ok) ;;
  if negb ok then mret false
  else
    ok ← ask (bind_server (Address address));
    if negb ok then close_and_fail
    else
      name ← ask bound_to;
      match name with
      | None => close_and_fail
      | Some bind_addr =>
        change (with_address (IPAddress_sockaddr bind_addr)) ;;
        ok ← ask listen_server;
        if negb ok then close_and_fail else mret true
      end.

(** Whether there is a descriptor, and whether the socket is in the sets. *)
Definition Select (s : TCPServer) : bool * bool :=
  if listening s then (true, true) else (if is_shutdown_ s then false else pipe_Select (server_pipe s), false).

(** What [select] says of the pipe and of the socket. *)
Record readiness := MkReadiness { pipe_readable : bool; socket_failed : bool; socket_readable : bool }.

(** Whether the server stays, and the connection its handler is given. *)
Definition Process (r : readiness) : A (bool * option (Z * IPAddress)) :=
  s ← gets fst;
  let '(open, p) := pipe_Process (pipe_readable r) (server_pipe s) in
  change (λ s, MkServer p (listening s) (is_shutdown_ s) (address_ s)) ;;
  if negb open || negb (listening s) then mret (negb (is_shutdown_ s), None)
  else if socket_failed r then change Close ;; mret (false, None)
  else if socket_readable r then
    accepted ← ask accept_client;
    mret (true, (λ a, (a.1, IPAddress_sockaddr a.2)) <$> accepted)
  else mret (true, None).

(** ** What holds *)

(** A server that listens has the address it was bound to; one that could not is erased
    by the select thread, unless there was no socket for it. *)
Lemma Listen_ends address s w :
  wp False (Listen address) (s, w) (λ ok x,
    server_pipe x.1 = server_pipe s
    ∧ if ok then listening x.1 = true ∧ Hostname (address_ x.1) = [] else listening x.1 = false ∧ (is_shutdown_ x.1 = true ∨ is_shutdown_ x.1 = is_shutdown_ s)).
Proof.
  unfold Listen, wp, ask, change, close_and_fail, mbind, M_bind, modify, mret, M_ret. cbn.
  repeat match goal with |- context [let '(_, _) := ?f ?w in _] => destruct (f w) as [[] ?]; cbn; auto end.
Qed.
End Server.
