(* ===== verification/XbdmContext.v ===== *)
(** * The connections to the console (src/xbox/xbdm_context.h, .cpp)

    The transports of a context with the select thread that serves them, the
    executor that sends commands one at a time, and the handlers of notifications.
    Transports are shared objects, numbered in a store.  The network is an interface:
    what it answers to [connect], and what [select] reports for a connection.  A wait
    is a number of turns of the select thread; that of a completion has no limit in
    the code and takes fuel.  [None] stands for a failed assertion, the use of a null
    pointer, or a wait that is not over when the fuel is. *)

From stdpp Require Import sorting.
From S2P Require Import Prelude CLib RdcpResponse RdcpRequest Notifications NotificationTransport Target TcpConnection XbdmTransport.

(** ** The network *)

Class Network (W : Type) := {
  (** the answers of [socket] and [connect] *)
  connecting : W → bool * bool * W;
  (** the answer of [socket] for a server at a port, and that of [bind], [getsockname]
      and [listen]: the port it listens at *)
  listening : Z → W → bool * option Z * W;
  (** what [select] and the calls made for it answer for the connection of a transport *)
  readiness : nat → TCPConnection → W → ready * W
}.

(** What becomes of a command. *)
Inductive result (R St : Type) := Finished (o : outcome R St) | NotConnected (r : R) (s : St).
Arguments Finished {R St} _.
Arguments NotConnected {R St} _ _.

(** [TCPServer] with its handler: whether it was closed, and where it listens. *)
Record DelegatingServer := MkServer { server_shutdown : bool; server_address : option Z }.

(** A command with its promise and the transport it goes to. *)
Record task (R St : Type) := MkTask { promise : nat; task_request : R; task_state : St; task_transport : nat }.
Arguments MkTask {R St} _ _ _ _.
Arguments promise {R St} _.
Arguments task_request {R St} _.
Arguments task_state {R St} _.
Arguments task_transport {R St} _.

Record XBDMContext (R St H : Type) := MkContext {
  transports : list (XBDMTransport R St);       (* all that were made *)
  selectables_ : list nat;                      (* those the select thread serves *)
  xbdm_transport_ : option nat;
  dedicated_transports_ : gmap bytes nat;
  xbdm_control_executor_ : option (list (task R St));
  next_promise : nat;
  notification_server_ : option DelegatingServer;
  notification_transports_ : list XBDMNotificationTransport;
  next_notification_handler_id_ : Z;
  notification_handlers_ : gmap Z H
}.
Arguments MkContext {R St H} _ _ _ _ _ _ _ _ _ _.
Arguments transports {R St H} _.
Arguments selectables_ {R St H} _.
Arguments xbdm_transport_ {R St H} _.
Arguments dedicated_transports_ {R St H} _.
Arguments xbdm_control_executor_ {R St H} _.
Arguments next_promise {R St H} _.
Arguments notification_server_ {R St H} _.
Arguments notification_transports_ {R St H} _.
Arguments next_notification_handler_id_ {R St H} _.
Arguments notification_handlers_ {R St H} _.

Section Context.
Context {R St H W : Type} `{!RequestOps R St, !Network W}.
Abbreviation T := (XBDMTransport R St).
Abbreviation O := (outcome R St).
Abbreviation Ctx := (XBDMContext R St H).

Definition with_transports (ts : list T) (c : Ctx) : Ctx :=
  MkContext ts (selectables_ c) (xbdm_transport_ c) (dedicated_transports_ c) (xbdm_control_executor_ c) (next_promise c)
    (notification_server_ c) (notification_transports_ c) (next_notification_handler_id_ c) (notification_handlers_ c).
Definition with_selectables (l : list nat) (c : Ctx) : Ctx :=
  MkContext (transports c) l (xbdm_transport_ c) (dedicated_transports_ c) (xbdm_control_executor_ c) (next_promise c)
    (notification_server_ c) (notification_transports_ c) (next_notification_handler_id_ c) (notification_handlers_ c).
Definition with_main (p : option nat) (c : Ctx) : Ctx :=
  MkContext (transports c) (selectables_ c) p (dedicated_transports_ c) (xbdm_control_executor_ c) (next_promise c)
    (notification_server_ c) (notification_transports_ c) (next_notification_handler_id_ c) (notification_handlers_ c).
Definition with_dedicated (d : gmap bytes nat) (c : Ctx) : Ctx :=
  MkContext (transports c) (selectables_ c) (xbdm_transport_ c) d (xbdm_control_executor_ c) (next_promise c)
    (notification_server_ c) (notification_transports_ c) (next_notification_handler_id_ c) (notification_handlers_ c).
Definition with_executor (e : option (list (task R St))) (next : nat) (c : Ctx) : Ctx :=
  MkContext (transports c) (selectables_ c) (xbdm_transport_ c) (dedicated_transports_ c) e next
    (notification_server_ c) (notification_transports_ c) (next_notification_handler_id_ c) (notification_handlers_ c).
Definition with_server (s : option DelegatingServer) (c : Ctx) : Ctx :=
  MkContext (transports c) (selectables_ c) (xbdm_transport_ c) (dedicated_transports_ c) (xbdm_control_executor_ c) (next_promise c)
    s (notification_transports_ c) (next_notification_handler_id_ c) (notification_handlers_ c).
Definition with_channels (l : list XBDMNotificationTransport) (c : Ctx) : Ctx :=
  MkContext (transports c) (selectables_ c) (xbdm_transport_ c) (dedicated_transports_ c) (xbdm_control_executor_ c) (next_promise c)
    (notification_server_ c) l (next_notification_handler_id_ c) (notification_handlers_ c).
Definition with_handlers (next : Z) (hs : gmap Z H) (c : Ctx) : Ctx :=
  MkContext (transports c) (selectables_ c) (xbdm_transport_ c) (dedicated_transports_ c) (xbdm_control_executor_ c) (next_promise c)
    (notification_server_ c) (notification_transports_ c) next hs.

(** An action of the context and the network; the outcomes of requests are returned
    with the number of their transport. *)
Abbreviation A := (M (Ctx * W)).

Definition the_transport (p : nat) : A T := t ← gets (λ s, transports s.1 !! p); lift_option t.
Definition set_transport (p : nat) (t : T) : A unit := modify (λ s, (with_transports (<[p := t]> (transports s.1)) s.1, s.2)).
Definition on_context (f : Ctx → Ctx) : A unit := modify (λ s, (f s.1, s.2)).
Definition on_network {X} (f : W → X * W) : A X := λ '(c, w), let '(x, w') := f w in Some (x, (c, w')).

Definition close_transport (p : nat) : A (list O) :=
  t ← the_transport p;
  let '(os, t') := XbdmTransport.Close t in
  set_transport p t' ;; mret os.

Definition connect_transport (p : nat) : A (list O * bool) :=
  t ← the_transport p;
  '(socket_ok, connect_ok) ← on_network connecting;
  let '(os, ok, t') := XbdmTransport.Connect socket_ok connect_ok t in
  set_transport p t' ;; mret (os, ok).

(** [make_shared] and [AddConnection] *)
Definition make_transport : A nat :=
  p ← gets (λ s, length (transports s.1));
  on_context (λ c, with_selectables (selectables_ c ++ [p]) (with_transports (transports c ++ [XbdmTransport.new_transport]) c)) ;;
  mret p.

(** ** The select thread *)

(** [TCPConnection::Process] of a transport, whose [Close] and [OnBytesRead] it
    calls. *)
Definition process_read (r : ready) (t : T) : option (list O * T) :=
  match read_set r with
  | None => Some ([], t)
  | Some (RecvData b) => XbdmTransport.receive b t
  | Some _ => Some (XbdmTransport.Close t)
  end.

Definition Process (r : ready) (t : T) : option (list O * bool * T) :=
  let c := conn t in
  if negb (pipe_open c) || negb (socket_open c) then Some ([], negb (is_shutdown_ c), t)
  else if except_set r then let '(os, t') := XbdmTransport.Close t in Some (os, false, t')
  else
    match write_set r with
    | None => '(os, t') ← process_read r t; Some (os, true, t')
    | Some sent =>
      let '(os, t1) := match sent with Sent _ => ([], with_conn (DoSend sent c) t) | SendError => XbdmTransport.Close t end in
      if close_after_flush_ (conn t1) && bool_decide (write_buffer_ (conn t1) = []) then
        let '(os', t2) := XbdmTransport.Close t1 in
        Some (os ++ os', false, with_conn (with_flush (conn t2) false) t2)
      else if socket_open (conn t1) then '(os', t2) ← process_read r t1; Some (os ++ os', true, t2)
      else Some (os, true, t1)
    end.

(** Whether a connection is erased before [select]: it has no descriptor. *)
Definition no_descriptor (t : T) : bool :=
  let c := conn t in negb (pipe_open c) && negb (socket_open c) && is_shutdown_ c.

Definition remove_transport (p : nat) (t : T) : A unit :=
  set_transport p (NotifyRemoved t) ;; on_context (λ c, with_selectables (filter (λ q, q ≠ p) (selectables_ c)) c).

(** The loop before [select], and the one after it. *)
Fixpoint select_all (ps : list nat) : A unit :=
  match ps with
  | [] => mret tt
  | p :: ps' => t ← the_transport p; (if no_descriptor t then remove_transport p t else mret tt) ;; select_all ps'
  end.

Fixpoint process_all (ps : list nat) : A (list (nat * O)) :=
  match ps with
  | [] => mret []
  | p :: ps' =>
    t ← the_transport p;
    r ← on_network (readiness p (conn t));
    '(os, keep, t') ← lift_option (Process r t);
    set_transport p t' ;;
    (if keep : bool then mret tt else remove_transport p t') ;;
    rest ← process_all ps';
    mret (map (pair p) os ++ rest)
  end.

(** One turn of [ThreadMain]. *)
Definition turn : A (list (nat * O)) :=
  ps ← gets (λ s, selectables_ s.1); select_all ps ;;
  ps ← gets (λ s, selectables_ s.1); process_all ps.

(** ** Connecting *)

Definition Reconnect : A (list O * bool) :=
  main ← gets (λ s, xbdm_transport_ s.1);
  os ← match main with Some p => close_transport p | None => mret [] end;
  p ← make_transport;
  on_context (with_main (Some p)) ;;
  '(os', ok) ← connect_transport p;
  mret (os ++ os', ok).

Definition outcomes_of (p : nat) (os : list (nat * O)) : list O := omap (λ o, if decide (o.1 = p) then Some o.2 else None) os.

(** The loop of [XBDMConnect], with a turn of the select thread for every 5 ms. *)
Fixpoint poll_connected (turns : nat) (p : nat) : A bool :=
  match turns with
  | 0%nat => mret false
  | S turns =>
    t ← the_transport p;
    if CanProcessCommands t then mret true else turn ;; poll_connected turns p
  end.

Definition XBDMConnect (p : nat) (max_wait_millis : Z) : A bool :=
  t ← the_transport p;
  if CanProcessCommands t then mret true
  else
    (if is_shutdown_ (conn t) then Reconnect ;; mret tt else mret tt) ;;
    t ← the_transport p;
    connected ← (if IsConnected (conn t) then mret true else '(_, ok) ← connect_transport p; mret ok);
    if negb connected then mret false
    else
      ready ← poll_connected (Z.to_nat ((max_wait_millis + 4) / 5)) p;
      if ready : bool then mret true else connect_transport p ;; mret false.

(** ** Commands *)

(** The wait for the [k]-th outcome of the requests of a transport. *)
Fixpoint wait_outcome (fuel : nat) (p k : nat) : A O :=
  match fuel with
  | 0%nat => mfail
  | S fuel =>
    os ← turn;
    let os := outcomes_of p os in
    match os !! k with
    | Some o => mret o
    | None => wait_outcome fuel p (k - length os)
    end
  end.

Definition ExecuteXBDMPromise (fuel : nat) (request : R) (s : St) (p : nat) : A (result R St) :=
  ok ← XBDMConnect p 5000;
  if negb ok then mret (NotConnected request s)
  else
    t ← the_transport p;
    set_transport p (XbdmTransport.Send request s t) ;;
    o ← wait_outcome fuel p (length (request_queue_ t));
    mret (Finished o).

(** The promise of the command; it is at the end of the executor's queue. *)
Definition SendCommand_on (p : option nat) (request : R) (s : St) : A nat :=
  queue ← gets (λ s, xbdm_control_executor_ s.1);
  queue ← lift_option queue;
  p ← lift_option p;
  n ← gets (λ s, next_promise s.1);
  on_context (with_executor (Some (queue ++ [MkTask n request s p])) (S n)) ;;
  mret n.

(** What the thread of the executor does with the commands in its queue. *)
Fixpoint run_tasks (fuel : nat) (ts : list (task R St)) : A (list (nat * result R St)) :=
  match ts with
  | [] => mret []
  | t :: ts' =>
    r ← ExecuteXBDMPromise fuel (task_request t) (task_state t) (task_transport t);
    rs ← run_tasks fuel ts';
    mret ((promise t, r) :: rs)
  end.

Definition run_executor (fuel : nat) : A (list (nat * result R St)) :=
  queue ← gets (λ s, xbdm_control_executor_ s.1);
  match queue with
  | None => mret []
  | Some ts => next ← gets (λ s, next_promise s.1); on_context (with_executor (Some []) next) ;; run_tasks fuel ts
  end.

Definition promised (n : nat) (rs : list (nat * result R St)) : option (result R St) :=
  snd <$> find (λ r, (r.1 =? n)%nat) rs.

(** [future.get()]: every command before this one is executed too. *)
Definition SendCommandSync_on (fuel : nat) (p : option nat) (request : R) (s : St) : A (result R St) :=
  n ← SendCommand_on p request s;
  rs ← run_executor fuel;
  lift_option (promised n rs).

Definition SendCommand (request : R) (s : St) : A nat := p ← gets (λ s, xbdm_transport_ s.1); SendCommand_on p request s.

(** [None] for the null pointer that is returned when there is no transport. *)
Definition SendCommandSync (fuel : nat) (request : R) (s : St) : A (option (result R St)) :=
  p ← gets (λ s, xbdm_transport_ s.1);
  match p with
  | None => mret None
  | Some _ => r ← SendCommandSync_on fuel p request s; mret (Some r)
  end.

Definition CreateDedicatedChannel (command_handler : bytes) : A (list O * bool) :=
  known ← gets (λ s, dedicated_transports_ s.1 !! command_handler);
  match known with
  | Some _ => mret ([], false)
  | None =>
    p ← make_transport;
    '(os, ok) ← connect_transport p;
    if negb ok then mret (os, false)
    else on_context (λ c, with_dedicated (<[command_handler := p]> (dedicated_transports_ c)) c) ;; mret (os, true)
  end.

Definition DestroyDedicatedChannel (command_handler : bytes) : A (list O) :=
  known ← gets (λ s, dedicated_transports_ s.1 !! command_handler);
  match known with
  | None => mret []
  | Some p =>
    os ← close_transport p;
    on_context (λ c, with_dedicated (delete command_handler (dedicated_transports_ c)) c) ;; mret os
  end.

(** The channel is made in an assertion, as long as assertions are compiled. *)
Definition dedicated_transport (dedicated_handler : bytes) : A nat :=
  known ← gets (λ s, dedicated_transports_ s.1 !! dedicated_handler);
  match known with
  | Some p => mret p
  | None =>
    '(_, ok) ← CreateDedicatedChannel dedicated_handler;
    if negb ok then mfail
    else p ← gets (λ s, dedicated_transports_ s.1 !! dedicated_handler); lift_option p
  end.

Definition SendCommand_dedicated (request : R) (s : St) (dedicated_handler : bytes) : A nat :=
  p ← dedicated_transport dedicated_handler; SendCommand_on (Some p) request s.
Definition SendCommandSync_dedicated (fuel : nat) (request : R) (s : St) (dedicated_handler : bytes) : A (result R St) :=
  p ← dedicated_transport dedicated_handler; SendCommandSync_on fuel (Some p) request s.

(** ** Life of a context *)

Definition new_context : Ctx :=
  MkContext [XbdmTransport.new_transport] [0%nat] (Some 0%nat) ∅ (Some []) 0 (Some (MkServer false None)) [] 1 ∅.

Definition byte_le (a b : bytes) : Prop := string_ltb b a = false.
#[local] Instance byte_le_dec : RelDecision byte_le.
Proof. intros a b. unfold byte_le. apply _. Defined.

Fixpoint close_all (ps : list nat) : A (list O) :=
  match ps with
  | [] => mret []
  | p :: ps' => os ← close_transport p; rest ← close_all ps'; mret (os ++ rest)
  end.

(** The commands left in the executor are never run. *)
Definition Shutdown : A (list O) :=
  dedicated ← gets (λ s, dedicated_transports_ s.1);
  os ← close_all (omap (λ name, dedicated !! name) (merge_sort byte_le (elements (dom dedicated))));
  on_context (with_dedicated ∅) ;;
  main ← gets (λ s, xbdm_transport_ s.1);
  os' ← match main with Some p => close_transport p | None => mret [] end;
  on_context (with_main None) ;;
  on_context (λ c, with_executor None (next_promise c) c) ;;
  on_context (with_server None) ;;
  mret (os ++ os').

Definition ResetNotificationConnections : A unit :=
  on_context (λ c, with_channels (map NotificationTransport.Close (notification_transports_ c)) c).

Definition CloseActiveConnections : A (list O) :=
  main ← gets (λ s, xbdm_transport_ s.1);
  os ← match main with Some p => close_transport p | None => mret [] end;
  ResetNotificationConnections ;;
  mret os.

(** *** Notifications *)

(** [TCPServer::Listen] *)
Definition Listen (server : DelegatingServer) (port : Z) : A (bool * DelegatingServer) :=
  '(socket_ok, address) ← on_network (listening port);
  mret (if negb socket_ok then (false, server)
        else match address with
             | Some a => (true, MkServer (server_shutdown server) (Some a))
             | None => (false, MkServer true None)
             end).

Definition StartNotificationListener (port : Z) : A bool :=
  server ← gets (λ s, notification_server_ s.1);
  server ← lift_option server;
  match server_address server with
  | Some _ => mret false
  | None =>
    '(ok, server') ← Listen server port;
    on_context (with_server (Some server')) ;; mret ok
  end.

Definition GetNotificationServerAddress (c : Ctx) : option Z := server ← notification_server_ c; server_address server.

(** A connection to the server, of which the channel is made. *)
Definition OnNotificationChannelConnected : A (list O) :=
  main ← gets (λ s, xbdm_transport_ s.1);
  usable ← match main with Some p => t ← the_transport p; mret (CanProcessCommands t) | None => mret false end;
  os ← (if usable : bool then mret [] else '(os, _) ← Reconnect; mret os);
  on_context (λ c, with_channels (notification_transports_ c ++ [new_notification_transport (new_connection true)]) c) ;;
  mret os.

Definition RegisterNotificationHandler (handler : H) : A Z :=
  id ← gets (λ s, next_notification_handler_id_ s.1);
  on_context (λ c, with_handlers (i32 (id + 1)) (<[id := handler]> (notification_handlers_ c)) c) ;;
  mret id.

Definition UnregisterNotificationHandler (id : Z) : A unit :=
  if id <=? 0 then mret tt
  else on_context (λ c, with_handlers (next_notification_handler_id_ c) (delete id (notification_handlers_ c)) c).

(** The handlers there are when the notification arrives, in the order of their
    numbers. *)
Definition handlers_in_order (hs : gmap Z H) : list (Z * H) :=
  omap (λ id, pair id <$> hs !! id) (merge_sort Z.le (elements (dom hs))).

Definition DispatchNotification {N} (run : H → N → A unit) (notification : N) : A unit :=
  handlers ← gets (λ s, notification_handlers_ s.1);
  for_each (handlers_in_order handlers) (λ h, run h.2 notification).
End Context.
