(* ===== verification/XboxInterface.v ===== *)
(** * The interface to a console (src/xbox/xbox_interface.h, xbox_interface.cpp)

    The connection to the console with the select thread that serves it, from when
    the interface is started until it is stopped.  An assertion that fails is
    [None]. *)

From S2P Require Import Prelude CLib IpAddress RdcpRequest Target TcpConnection XbdmTransport XbdmContext.

Record XBOXInterface (R St H : Type) := MkInterface {
  name_ : bytes;
  xbox_address_ : IPAddress;
  select_thread_ : bool;                          (* whether there is one, which runs *)
  interface_context : option (XBDMContext R St H)      (* xbdm_context_ *)
}.
Arguments MkInterface {R St H} _ _ _ _.
Arguments name_ {R St H} _.
Arguments xbox_address_ {R St H} _.
Arguments select_thread_ {R St H} _.
Arguments interface_context {R St H} _.

Section Interface.
Context {R St H W : Type} `{!RequestOps R St, !Network W}.
Abbreviation Interface := (XBOXInterface R St H).
Abbreviation A := (M (Interface * W)).

Definition new_interface (name : bytes) (address : IPAddress) : Interface := MkInterface name address false None.

Definition with_thread (b : bool) (i : Interface) : Interface := MkInterface (name_ i) (xbox_address_ i) b (interface_context i).
Definition set_context (c : option (XBDMContext R St H)) (i : Interface) : Interface :=
  MkInterface (name_ i) (xbox_address_ i) (select_thread_ i) c.
Definition change (f : Interface → Interface) : A unit := modify (λ s, (f s.1, s.2)).

(** A method of the context, which is there. *)
Definition with_context {X} (m : M (XBDMContext R St H * W) X) : A X := λ '(i, w),
  c ← interface_context i;
  '(x, (c, w)) ← m (c, w);
  Some (x, (set_context (Some c) i, w)).

(** The requests that are given up by the shutdown. *)
Definition Stop : A (list (outcome R St)) :=
  change (with_thread false) ;;
  c ← gets (λ s, interface_context s.1);
  match c with
  | None => mret []
  | Some _ => os ← with_context Shutdown; change (set_context None) ;; mret os
  end.

Definition Start : A (list (outcome R St)) :=
  os ← Stop;
  change (λ i, set_context (Some new_context) (with_thread true i)) ;;
  mret os.

(** [if (!xbdm_context_) return false;] *)
Definition when_started {X} (otherwise : X) (m : M (XBDMContext R St H * W) X) : A X :=
  c ← gets (λ s, interface_context s.1);
  match c with None => mret otherwise | Some _ => with_context m end.

Definition ReconnectXBDM : A (list (outcome R St) * bool) := when_started ([], false) Reconnect.
Definition StartNotificationListener_at (port : Z) : A bool := when_started false (StartNotificationListener port).

Definition SendCommandSync_to (fuel : nat) (r : R) (s : St) : A (option (result R St)) := with_context (SendCommandSync fuel r s).
Definition SendCommand_to (r : R) (s : St) : A nat := with_context (SendCommand r s).
Definition SendCommandSync_handler (fuel : nat) (r : R) (s : St) (dedicated_handler : bytes) : A (result R St) :=
  with_context (SendCommandSync_dedicated fuel r s dedicated_handler).
Definition SendCommand_handler (r : R) (s : St) (dedicated_handler : bytes) : A nat :=
  with_context (SendCommand_dedicated r s dedicated_handler).

(** ** What holds *)

(** An interface that was started is as a new one that was started, whatever it did
    before; and one that was stopped has neither a thread nor a connection. *)
Lemma Stop_ends (i : Interface) w os i' w' :
  Stop (i, w) = Some (os, (i', w')) → i' = MkInterface (name_ i) (xbox_address_ i) false None.
Proof.
  unfold Stop. rewrite (bind_run _ _ _ tt (with_thread false i, w)) by done.
  rewrite (bind_run _ _ _ (interface_context i) (with_thread false i, w)) by done.
  destruct (interface_context i) as [c|] eqn:Hc.
  - unfold with_context, mbind, M_bind. cbn. rewrite Hc. cbn. destruct (Shutdown (c, w)) as [[os1 [c1 w1]]|]; cbn; [|done].
    by intros [= _ <- _].
  - intros [= _ <- _]. unfold with_thread. by rewrite Hc.
Qed.

Lemma Start_fresh (i : Interface) w os i' w' :
  Start (i, w) = Some (os, (i', w')) → i' = MkInterface (name_ i) (xbox_address_ i) true (Some new_context).
Proof.
  unfold Start, mbind, M_bind. destruct (Stop (i, w)) as [[os1 [i1 w1]]|] eqn:Hs; [|done]. apply Stop_ends in Hs as ->.
  by intros [= _ <- _].
Qed.
End Interface.
