(* ===== verification/XbdmContextRuns.v ===== *)
(** * What becomes of commands

    The executor runs one command at a time: no request is ever queued behind
    another.  A command to a transport that was closed fails. *)

From Stdlib Require Import Sorted.
From stdpp Require Import sorting.
From S2P Require Import Prelude CLib RdcpResponse RdcpRequest Notifications NotificationTransport Target TcpConnection XbdmTransport XbdmContext.

Section Runs.
Context {R St H W : Type} `{!RequestOps R St, !Network W}.
Abbreviation T := (XBDMTransport R St).
Abbreviation O := (outcome R St).
Abbreviation Ctx := (XBDMContext R St H).
Implicit Types (t : T) (c : Ctx) (w : W) (s : Ctx * W).

(** ** One request at a time *)

(** The promises given so far. *)
Definition pending_ok (c : Ctx) : Prop :=
  Forall (λ t : task R St, (promise t < next_promise c)%nat) (default [] (xbdm_control_executor_ c)).

(** Nothing is queued but these requests, at one transport. *)
Definition alone (p : nat) (rs : list R) (s : Ctx * W) : Prop :=
  (∀ q t, transports s.1 !! q = Some t → queued t = if decide (q = p) then rs else []) ∧ pending_ok s.1.

Definition idle (s : Ctx * W) : Prop := (∀ q t, transports s.1 !! q = Some t → queued t = []) ∧ pending_ok s.1.

Lemma alone_idle p s : alone p [] s ↔ idle s.
Proof. split; intros [Ha Hp]; (split; [|done]); intros q t Ht; specialize (Ha q t Ht); by destruct (decide (q = p)). Qed.

Lemma alone_change p rs rs' q t s :
  alone p rs s → queued t = (if decide (q = p) then rs' else []) → (q ≠ p → rs' = rs) →
  alone p rs' (with_transports (<[q := t]> (transports s.1)) s.1, s.2).
Proof.
  intros [Ha Hp] Hq Hne. split; [|done]. intros q' t'. cbn [fst transports with_transports].
  intros [(<- & <- & _)|[Hqq Ht']]%list_lookup_insert_Some; [done|]. rewrite (Ha _ _ Ht').
  destruct (decide (q' = p)) as [->|]; [|done]. by rewrite Hne.
Qed.

Lemma alone_set p rs q t s :
  alone p rs s → queued t = (if decide (q = p) then rs else []) →
  alone p rs (with_transports (<[q := t]> (transports s.1)) s.1, s.2).
Proof. intros Ha Hq. by eapply alone_change. Qed.

Lemma the_transport_wp p s (Q : T → Ctx * W → Prop) :
  (∀ t, transports s.1 !! p = Some t → Q t s) → wp True (the_transport p) s Q.
Proof. intros HQ. unfold wp, the_transport, gets, lift_option, mbind, M_bind. cbn. destruct (transports s.1 !! p); [by apply HQ|done]. Qed.

Lemma Process_outcomes r t os keep t' : Process r t = Some (os, keep, t') → queued t = map outcome_request os ++ queued t'.
Proof.
  assert (∀ r t os t', process_read r t = Some (os, t') → queued t = map outcome_request os ++ queued t') as Hread.
  { intros r0 t0 os0 t0'. unfold process_read. destruct (read_set r0) as [[b| |]|]; intros Hr.
    - by apply OnBytesRead_outcomes in Hr.
    - destruct (XbdmTransport.Close t0) as [os1 t1] eqn:E1. injection Hr as <- <-. apply Close_outcomes in E1 as [-> ->]. by rewrite app_nil_r.
    - destruct (XbdmTransport.Close t0) as [os1 t1] eqn:E1. injection Hr as <- <-. apply Close_outcomes in E1 as [-> ->]. by rewrite app_nil_r.
    - by injection Hr as <- <-. }
  unfold Process. destruct (_ || _); [by intros [= <- _ <-]|]. destruct (except_set r).
  { destruct (XbdmTransport.Close t) as [os1 t1] eqn:E1. intros [= <- _ <-]. apply Close_outcomes in E1 as [-> ->]. by rewrite app_nil_r. }
  destruct (write_set r) as [sent|].
  - destruct (match sent with Sent _ => _ | SendError => _ end) as [os1 t1] eqn:E1.
    assert (queued t = map outcome_request os1 ++ queued t1) as ->.
    { destruct sent; [by injection E1 as <- <-|]. apply Close_outcomes in E1 as [-> ->]. by rewrite app_nil_r. }
    destruct (_ && _).
    + destruct (XbdmTransport.Close t1) as [os2 t2] eqn:E2. intros [= <- _ <-]. apply Close_outcomes in E2 as [E2 E2'].
      unfold queued in *. cbn [with_conn request_queue_]. by rewrite E2', map_app, E2, app_nil_r.
    + destruct (socket_open (conn t1)); [|by intros [= <- _ <-]].
      destruct (process_read r t1) as [[os2 t2]|] eqn:E2; [|done]. intros [= <- _ <-]. apply Hread in E2.
      by rewrite E2, map_app, app_assoc.
  - destruct (process_read r t) as [[os2 t2]|] eqn:E2; [|done]. intros [= <- _ <-]. by apply Hread in E2.
Qed.

Lemma alone_remove p rs q t s : alone p rs s → queued t = (if decide (q = p) then rs else []) →
  wp True (remove_transport q t) s (λ _, alone p rs).
Proof. intros Ha Hq. unfold remove_transport. apply wp_bind. by apply (alone_set p rs q (NotifyRemoved t)). Qed.

Lemma select_all_alone p rs ps : keeps (alone p rs) (select_all ps).
Proof.
  induction ps as [|q ps IH]; cbn [select_all]; [apply keeps_ret|]. apply keeps_bind_wp. intros s Ha. apply the_transport_wp.
  intros t Ht. apply wp_bind. destruct (no_descriptor t); [|by apply IH].
  eapply wp_mono; [apply alone_remove; [done|by apply (proj1 Ha)]|]. intros ? s' Ha'. by apply IH.
Qed.

Lemma outcomes_of_pairs p (os : list O) : outcomes_of p (map (pair p) os) = os.
Proof. unfold outcomes_of. induction os as [|o os IH]; [done|]. cbn. rewrite decide_True by done. f_equal. exact IH. Qed.

Lemma process_all_alone p ps : ∀ rs s, alone p rs s →
  wp True (process_all ps) s (λ os s', ∃ rs', rs = map outcome_request (outcomes_of p os) ++ rs' ∧ alone p rs' s').
Proof.
  induction ps as [|q ps IH]; intros rs s Ha; cbn [process_all]; [by exists rs|].
  apply wp_bind, the_transport_wp. intros t Ht. apply wp_bind. destruct s as [c w]. unfold on_network, wp at 1.
  destruct (readiness q (conn t) w) as [r w']. apply wp_bind. unfold lift_option, wp at 1.
  destruct (Process r t) as [[[os keep] t']|] eqn:Hp; [|done]. cbn [mbind option_bind].
  pose proof (Process_outcomes _ _ _ _ _ Hp) as Hq. rewrite (proj1 Ha _ _ Ht) in Hq.
  set (rs1 := if decide (q = p) then queued t' else rs).
  assert (queued t' = (if decide (q = p) then rs1 else []) ∧ rs = map outcome_request (outcomes_of p (map (pair q) os)) ++ rs1) as [Hq1 Hrs].
  { unfold rs1. destruct (decide (q = p)) as [->|Hne].
    - split; [done|]. rewrite Hq. f_equal. f_equal. by rewrite outcomes_of_pairs.
    - symmetry in Hq. apply app_nil in Hq as [Hos ->]. by destruct os. }
  assert (alone p rs1 (with_transports (<[q := t']> (transports c)) c, w')) as Ha1.
  { apply (alone_change p rs rs1 q t' (c, w')); [done|done|]. intros Hne. unfold rs1. by rewrite decide_False. }
  apply wp_bind. change (wp True (set_transport q t') (c, w') ?Q) with (Q tt (with_transports (<[q := t']> (transports c)) c, w')).
  cbv beta. apply wp_bind. apply wp_mono with (Q := λ _, alone p rs1).
  { destruct keep; [done|]. apply alone_remove; [done|]. by rewrite Hq1. }
  intros ? s' Ha'. apply wp_bind. eapply wp_mono; [by apply IH|]. intros rest s2 (rs2 & Hrs2 & Ha2). exists rs2. split; [|done].
  rewrite Hrs, Hrs2. unfold outcomes_of. by rewrite omap_app, map_app, app_assoc.
Qed.

Lemma turn_alone p rs s : alone p rs s →
  wp True turn s (λ os s', ∃ rs', rs = map outcome_request (outcomes_of p os) ++ rs' ∧ alone p rs' s').
Proof.
  intros Ha. unfold turn. apply wp_bind, wp_bind. eapply wp_mono; [by apply select_all_alone|]. intros ? s' Ha'.
  apply wp_bind. by apply process_all_alone.
Qed.

(** *** Every operation leaves nothing queued *)

Lemma idle_set q t s : idle s → queued t = [] → idle (with_transports (<[q := t]> (transports s.1)) s.1, s.2).
Proof. intros Hi Hq. apply (alone_idle q), alone_set; [by apply alone_idle|]. by destruct (decide _). Qed.

(** An action that leaves the transports as they are. *)
Lemma idle_context (f : Ctx → Ctx) :
  (∀ c, transports (f c) = transports c) → (∀ c, pending_ok c → pending_ok (f c)) → keeps idle (on_context f).
Proof. intros Hf Hp s [Hi Hpi]. split; [|by apply Hp]. intros q t. cbn. rewrite Hf. apply Hi. Qed.

Lemma idle_network {X} (f : W → X * W) : keeps idle (on_network f).
Proof. intros [c w] Hi. unfold wp, on_network. destruct (f w). exact Hi. Qed.

Lemma idle_the p : keeps idle (the_transport p).
Proof. intros s Hi. by apply the_transport_wp. Qed.

Lemma idle_close p : keeps idle (close_transport p).
Proof.
  unfold close_transport. apply keeps_bind; [apply idle_the|]. intros t. destruct (XbdmTransport.Close t) as [os t'] eqn:Ht.
  apply Close_outcomes in Ht as [_ Ht]. apply keeps_bind; [|intros; apply keeps_ret]. apply keeps_modify. intros s Hi. by apply idle_set.
Qed.

Lemma Connect_queued so co t os ok t' : XbdmTransport.Connect so co t = (os, ok, t') → queued t = [] → queued t' = [].
Proof.
  unfold XbdmTransport.Connect. destruct (socket_open (conn t)).
  - destruct (XbdmTransport.Close t) as [os1 t1] eqn:E1. apply Close_outcomes in E1 as [_ E1]. by destruct so, co; intros [= <- <- <-].
  - by destruct so, co; intros [= <- <- <-].
Qed.

Lemma idle_connect p : keeps idle (connect_transport p).
Proof.
  intros s Hi. unfold connect_transport. apply wp_bind, the_transport_wp. intros t Ht. apply wp_bind. destruct s as [c w].
  unfold on_network, wp at 1. destruct (connecting w) as [[so co] w']. destruct (XbdmTransport.Connect so co t) as [[os ok] t'] eqn:E1.
  apply wp_bind. apply (idle_set p t' (c, w')); [exact Hi|]. eapply Connect_queued; [done|]. by eapply (proj1 Hi).
Qed.

Lemma idle_make : keeps idle make_transport.
Proof.
  intros s [Hi Hp]. unfold make_transport. apply wp_bind, wp_bind. split; [|done]. intros q t. cbn [fst transports with_transports with_selectables].
  intros [Hq|[_ Hq]]%lookup_app_Some; [by eapply Hi|]. by apply list_lookup_singleton_Some in Hq as [_ <-].
Qed.

Lemma idle_turn : keeps idle turn.
Proof.
  intros s Hi. apply (alone_idle 0%nat) in Hi. eapply wp_mono; [by apply turn_alone|]. intros os s' (rs' & Hrs & Ha).
  symmetry in Hrs. apply app_nil in Hrs as [_ ->]. by eapply alone_idle.
Qed.

Local Hint Resolve idle_the idle_close idle_connect idle_make idle_turn idle_network : keeps.
Local Hint Extern 1 (keeps idle (on_context _)) => (apply idle_context; [reflexivity|done]) : keeps.
Local Ltac idling :=
  repeat match goal with
    | |- keeps _ (mbind _ _) => apply keeps_bind; [|intros ?]
    | |- keeps _ (match ?x with _ => _ end) => destruct x
    end;
  eauto with keeps.

Lemma idle_reconnect : keeps idle Reconnect.
Proof. unfold Reconnect. idling. Qed.

Lemma idle_poll n p : keeps idle (poll_connected n p).
Proof. induction n as [|n IH]; cbn [poll_connected]; [apply keeps_ret|]. idling. Qed.

Local Hint Resolve idle_reconnect idle_poll : keeps.

Lemma idle_xbdm_connect p ms : keeps idle (XBDMConnect p ms).
Proof. unfold XBDMConnect. idling. Qed.

Lemma wait_outcome_alone fuel p r : ∀ s, alone p [r] s →
  wp True (wait_outcome fuel p 0) s (λ o s', outcome_request o = r ∧ idle s').
Proof.
  induction fuel as [|fuel IH]; intros s Ha; [done|]. cbn [wait_outcome]. apply wp_bind. eapply wp_mono; [by apply turn_alone|].
  intros os s' (rs & Hrs & Ha'). cbv zeta. destruct (outcomes_of p os) as [|o os'] eqn:Ho; cbn [lookup list_lookup map app] in *.
  - rewrite <- Hrs in Ha'. by apply IH.
  - injection Hrs as -> Hrs. split; [done|]. symmetry in Hrs. apply app_nil in Hrs as [_ ->]. by eapply alone_idle.
Qed.

Definition result_request (x : result R St) : R := match x with Finished o => outcome_request o | NotConnected r _ => r end.

Lemma ExecuteXBDMPromise_idle fuel r st p s : idle s →
  wp True (ExecuteXBDMPromise fuel r st p) s (λ x s', result_request x = r ∧ idle s').
Proof.
  intros Hi. unfold ExecuteXBDMPromise. apply wp_bind. eapply wp_mono; [by apply idle_xbdm_connect|]. intros ok s1 Hi1.
  destruct ok; [|done]. cbn [negb]. apply wp_bind, the_transport_wp. intros t Ht. apply wp_bind.
  pose proof (proj1 Hi1 _ _ Ht) as Hq. assert (length (request_queue_ t) = 0)%nat as -> by (unfold queued in Hq; by destruct (request_queue_ t)).
  apply (wp_bind True (wait_outcome fuel p 0)). eapply wp_mono.
  - apply (wait_outcome_alone fuel p r). apply (alone_change p [] [r]); [by apply alone_idle| |done].
    rewrite decide_True by done. unfold Send. rewrite queued_write. unfold queued in *. cbn. by rewrite map_app, Hq.
  - by intros o s2 [<- Hi2].
Qed.

(** The results of the executor, in the order of its queue. *)
Definition answered (ts : list (task R St)) (rs : list (nat * result R St)) : Prop :=
  map fst rs = map promise ts ∧ map (λ x, result_request x.2) rs = map task_request ts.

Lemma run_tasks_idle fuel ts : ∀ s, idle s → wp True (run_tasks fuel ts) s (λ rs s', answered ts rs ∧ idle s').
Proof.
  induction ts as [|t ts IH]; intros s Hi; cbn [run_tasks]; [done|]. apply wp_bind. eapply wp_mono; [by apply ExecuteXBDMPromise_idle|].
  intros x s1 [Hx Hi1]. apply wp_bind. eapply wp_mono; [by apply IH|]. intros rs s2 [[Hp Hr] Hi2].
  split; [|done]. split; cbn; congruence.
Qed.

Lemma run_executor_idle fuel s : idle s →
  wp True (run_executor fuel) s (λ rs s', answered (default [] (xbdm_control_executor_ s.1)) rs ∧ idle s').
Proof.
  intros Hi. unfold run_executor. apply wp_bind. change (wp True (gets ?g) s ?Q) with (Q (g s) s). cbv beta.
  destruct (xbdm_control_executor_ s.1) as [ts|]; [|done]. cbn [default].
  apply wp_bind. change (wp True (gets ?g) s ?Q) with (Q (g s) s). cbv beta. apply wp_bind.
  eapply wp_mono; [apply idle_context; [done|by constructor|done]|]. intros ? s1 Hi1. by apply run_tasks_idle.
Qed.

Lemma SendCommand_on_idle p r st s : idle s →
  wp True (SendCommand_on p r st) s (λ n s', idle s' ∧ ∃ ts q,
    xbdm_control_executor_ s.1 = Some ts ∧ xbdm_control_executor_ s'.1 = Some (ts ++ [MkTask n r st q])
    ∧ Forall (λ t : task R St, (promise t < n)%nat) ts).
Proof.
  intros [Hi Hp]. unfold SendCommand_on. apply wp_bind. change (wp True (gets ?g) s ?Q) with (Q (g s) s). cbv beta.
  apply wp_bind. unfold pending_ok in Hp. destruct (xbdm_control_executor_ s.1) as [ts|] eqn:Hts; [|done]. cbn in Hp.
  change (wp True (lift_option (Some ts)) s ?Q) with (Q ts s). cbv beta. apply wp_bind. destruct p as [q|]; [|done].
  change (wp True (lift_option (Some q)) s ?Q) with (Q q s). cbv beta.
  apply wp_bind. change (wp True (gets ?g) s ?Q) with (Q (g s) s). cbv beta. apply wp_bind.
  unfold on_context, modify, wp at 1. cbv beta iota. apply wp_ret. split; [split|].
  - done.
  - unfold pending_ok. cbn. apply Forall_app. split; [|constructor; [cbn; lia|constructor]].
    eapply Forall_impl; [done|]. cbn. lia.
  - exists ts, q. split; [done|]. by split.
Qed.

Lemma promised_last ts n r st q rs :
  answered (ts ++ [MkTask n r st q]) rs → Forall (λ t : task R St, (promise t < n)%nat) ts →
  ∃ x, promised n rs = Some x ∧ result_request x = r.
Proof.
  unfold answered, promised. revert rs. induction ts as [|t ts IH]; intros [|[m x] rs] [Hp Hr] Hts; try done; cbn in *.
  - injection Hp as -> Hp. injection Hr as Hx Hr. rewrite Nat.eqb_refl. cbn. by exists x.
  - injection Hp as -> Hp. injection Hr as Hx Hr. apply Forall_cons in Hts as [Ht Hts].
    rewrite (proj2 (Nat.eqb_neq _ _)) by lia. by apply IH.
Qed.

Lemma SendCommandSync_on_idle fuel p r st s : idle s →
  wp True (SendCommandSync_on fuel p r st) s (λ x s', result_request x = r ∧ idle s').
Proof.
  intros Hi. unfold SendCommandSync_on. apply wp_bind. eapply wp_mono; [by apply SendCommand_on_idle|].
  intros n s1 [Hi1 (ts & q & _ & Hq & Hlt)]. apply wp_bind. eapply wp_mono; [by apply run_executor_idle|]. intros rs s2 [Ha Hi2].
  rewrite Hq in Ha. destruct (promised_last _ _ _ _ _ _ Ha Hlt) as (x & Hx & Hr). by rewrite Hx.
Qed.

Lemma wp_keeps {X} (m : M (Ctx * W) X) s (Q : X → Ctx * W → Prop) : wp True m s (λ x s', Q x s' ∧ idle s') → wp True m s (λ _, idle).
Proof. intros Hm. eapply wp_mono; [exact Hm|]. by intros x s' [_ ?]. Qed.

Lemma idle_send_on p r st : keeps idle (SendCommand_on p r st).
Proof. intros s Hi. eapply wp_mono; [by apply SendCommand_on_idle|]. by intros n s' [? _]. Qed.

Lemma idle_sync_on fuel p r st : keeps idle (SendCommandSync_on fuel p r st).
Proof. intros s Hi. eapply wp_keeps. by apply SendCommandSync_on_idle. Qed.

Lemma idle_run fuel : keeps idle (run_executor fuel).
Proof. intros s Hi. eapply wp_keeps. by apply run_executor_idle. Qed.

Local Hint Resolve idle_send_on idle_sync_on idle_run idle_xbdm_connect : keeps.

Lemma idle_create name : keeps idle (CreateDedicatedChannel name).
Proof. unfold CreateDedicatedChannel. idling. Qed.

Lemma idle_close_all ps : keeps idle (close_all ps).
Proof. induction ps as [|p ps IH]; cbn [close_all]; [apply keeps_ret|]. idling. Qed.

Local Hint Resolve idle_create idle_close_all : keeps.

Lemma idle_dedicated name : keeps idle (dedicated_transport name).
Proof. unfold dedicated_transport. idling. Qed.

Lemma idle_stop : keeps idle (on_context (λ c, with_executor None (next_promise c) c)).
Proof. apply idle_context; [done|by constructor]. Qed.

Local Hint Resolve idle_dedicated idle_stop : keeps.

(** What the program does with a context: each operation, a turn of the select
    thread, and the executor at work. *)
Inductive operation : ∀ {X}, M (Ctx * W) X → Prop :=
  | op_turn : operation turn
  | op_run fuel : operation (run_executor fuel)
  | op_send r st : operation (SendCommand r st)
  | op_send_sync fuel r st : operation (SendCommandSync fuel r st)
  | op_send_dedicated r st name : operation (SendCommand_dedicated r st name)
  | op_send_sync_dedicated fuel r st name : operation (SendCommandSync_dedicated fuel r st name)
  | op_create name : operation (CreateDedicatedChannel name)
  | op_destroy name : operation (DestroyDedicatedChannel name)
  | op_shutdown : operation Shutdown
  | op_close : operation CloseActiveConnections
  | op_reset : operation ResetNotificationConnections
  | op_reconnect : operation Reconnect
  | op_listen port : operation (StartNotificationListener port)
  | op_channel : operation OnNotificationChannelConnected
  | op_register h : operation (RegisterNotificationHandler h)
  | op_unregister id : operation (UnregisterNotificationHandler id).

Inductive context_step (s s' : Ctx * W) : Prop :=
  context_step_of X (m : M (Ctx * W) X) (x : X) : operation m → m s = Some (x, s') → context_step s s'.

Lemma operation_idle {X} (m : M (Ctx * W) X) : operation m → keeps idle m.
Proof.
  destruct 1.
  - apply idle_turn.
  - apply idle_run.
  - unfold SendCommand. idling.
  - unfold SendCommandSync. idling.
  - unfold SendCommand_dedicated. idling.
  - unfold SendCommandSync_dedicated. idling.
  - apply idle_create.
  - unfold DestroyDedicatedChannel. idling.
  - unfold Shutdown. idling.
  - unfold CloseActiveConnections, ResetNotificationConnections. idling.
  - unfold ResetNotificationConnections. idling.
  - apply idle_reconnect.
  - unfold StartNotificationListener, Listen. idling.
  - unfold OnNotificationChannelConnected. idling.
  - unfold RegisterNotificationHandler. idling.
  - unfold UnregisterNotificationHandler. idling.
Qed.

Lemma new_idle w : idle (new_context, w).
Proof. split; [|by constructor]. intros q t [_ <-]%list_lookup_singleton_Some. done. Qed.

Lemma reached_idle s s' : rtc context_step s s' → idle s → idle s'.
Proof.
  induction 1 as [|s s1 s' [X m x Hop Hrun] _ IH]; [done|]. intros Hi. apply IH. by apply (wp_partial m s (λ _, idle) x), Hrun; apply operation_idle.
Qed.

(** C8. Commands get their own replies: in every state a context reaches, by any
    operations and however the network behaves, no transport has a request
    outstanding, so that a request is never queued behind another; and whatever a
    command that is waited for comes to, reply, abandonment or failure to connect,
    it is the outcome of that command's request. *)
Theorem commands_in_turn (w : W) (s : Ctx * W) :
  rtc context_step (new_context, w) s →
  (∀ p t, transports s.1 !! p = Some t → request_queue_ t = [])
  ∧ (∀ fuel r st x s', SendCommandSync fuel r st s = Some (Some x, s') → result_request x = r)
  ∧ (∀ fuel r st name x s', SendCommandSync_dedicated fuel r st name s = Some (x, s') → result_request x = r).
Proof.
  intros Hs. pose proof (reached_idle _ _ Hs (new_idle w)) as Hi. split; [|split].
  - intros p t Ht. pose proof (proj1 Hi _ _ Ht) as Hq. unfold queued in Hq. by destruct (request_queue_ t).
  - intros fuel r st x s' Hrun. eapply (wp_partial _ s (λ x _, match x with Some x => result_request x = r | None => True end) (Some x)), Hrun.
    unfold SendCommandSync. apply wp_bind. change (wp True (gets ?g) s ?Q) with (Q (g s) s). cbv beta.
    destruct (xbdm_transport_ s.1) as [p|]; [|done]. apply wp_bind. eapply wp_mono; [by apply SendCommandSync_on_idle|]. by intros y s2 [? _].
  - intros fuel r st name x s' Hrun. eapply (wp_partial _ s (λ x _, result_request x = r) x), Hrun.
    unfold SendCommandSync_dedicated. apply wp_bind. eapply wp_mono; [by apply idle_dedicated|]. intros p s1 Hi1.
    eapply wp_mono; [by apply SendCommandSync_on_idle|]. by intros y s2 [? _].
Qed.

(** ** A transport that was closed *)

(** Its pipe is gone for good: the select thread does not serve it, whether it has a
    socket or not. *)
Definition dead (t : T) : Prop :=
  pipe_open (conn t) = false ∧ is_shutdown_ (conn t) = true ∧ CanProcessCommands t = false.

Definition dead_at (p : nat) (s : Ctx * W) : Prop := ∃ t, transports s.1 !! p = Some t ∧ dead t.

Lemma dead_close t os t' : XbdmTransport.Close t = (os, t') → dead t'.
Proof. by intros [= <- <-]. Qed.

Lemma dead_connect so co t os ok t' : XbdmTransport.Connect so co t = (os, ok, t') → dead t → dead t'.
Proof.
  unfold XbdmTransport.Connect. intros Hc Hd. destruct (socket_open (conn t)).
  - destruct (XbdmTransport.Close t) as [os1 t1] eqn:E1. apply dead_close in E1. by destruct so, co; injection Hc as <- <- <-.
  - by destruct so, co; injection Hc as <- <- <-.
Qed.

Lemma dead_set p q t s : dead_at p s → (q = p → dead t) → dead_at p (with_transports (<[q := t]> (transports s.1)) s.1, s.2).
Proof.
  intros (t0 & Ht0 & Hd) Hq. destruct (decide (q = p)) as [->|Hne].
  - exists t. split; [|by apply Hq]. cbn. apply list_lookup_insert_Some. left. split_and!; [done..|]. by eapply lookup_lt_Some.
  - exists t0. split; [|done]. cbn. by rewrite list_lookup_insert_ne.
Qed.

Lemma dead_context p (f : Ctx → Ctx) : (∀ c, transports (f c) = transports c) → keeps (dead_at p) (on_context f).
Proof. intros Hf s (t & Ht & Hd). exists t. cbn. by rewrite Hf. Qed.

(** An action on one transport that leaves a dead one dead. *)
Lemma dead_the p q {X} (k : T → M (Ctx * W) X) :
  (∀ t s, dead_at p s → transports s.1 !! q = Some t → (q = p → dead t) → wp True (k t) s (λ _, dead_at p)) →
  keeps (dead_at p) (the_transport q ≫= k).
Proof.
  intros Hk s Hd. apply wp_bind, the_transport_wp. intros t Ht. apply Hk; [done|done|]. intros ->.
  destruct Hd as (t0 & Ht0 & Hd). congruence.
Qed.

Lemma dead_close_transport p q : keeps (dead_at p) (close_transport q).
Proof.
  unfold close_transport. apply dead_the. intros t s Hd Ht Hq. destruct (XbdmTransport.Close t) as [os t'] eqn:Hc.
  apply wp_bind. apply (dead_set p q t' s Hd). intros _. by eapply dead_close.
Qed.

Lemma dead_connect_transport p q : keeps (dead_at p) (connect_transport q).
Proof.
  unfold connect_transport. apply dead_the. intros t [c w] Hd Ht Hq. apply wp_bind. unfold on_network, wp at 1.
  destruct (connecting w) as [[so co] w']. destruct (XbdmTransport.Connect so co t) as [[os ok] t'] eqn:Hc.
  apply wp_bind. apply (dead_set p q t' (c, w') Hd). intros Hqp. by eapply dead_connect, Hq.
Qed.

Lemma dead_make p : keeps (dead_at p) make_transport.
Proof.
  intros s (t & Ht & Hd). unfold make_transport. apply wp_bind, wp_bind. exists t. split; [|done].
  cbn. rewrite lookup_app_l; [done|]. by eapply lookup_lt_Some.
Qed.

Lemma dead_remove p q t s : dead_at p s → (q = p → dead t) → wp True (remove_transport q t) s (λ _, dead_at p).
Proof.
  intros Hd Hq. unfold remove_transport. apply wp_bind. apply (dead_set p q (NotifyRemoved t) s Hd). intros Hqp.
  destruct (Hq Hqp) as (? & ? & ?). done.
Qed.

Lemma dead_process r t os keep t' : Process r t = Some (os, keep, t') → dead t → dead t'.
Proof. unfold Process. intros Hp Hd. pose proof Hd as (Hpipe & _). rewrite Hpipe in Hp. by injection Hp as <- <- <-. Qed.

Lemma dead_turn p : keeps (dead_at p) turn.
Proof.
  assert (∀ ps, keeps (dead_at p) (select_all ps)) as Hsel.
  { induction ps as [|q ps IH]; cbn [select_all]; [apply keeps_ret|]. apply dead_the. intros t s Hd Ht Hq.
    apply wp_bind. destruct (no_descriptor t); [|by apply IH].
    eapply wp_mono; [by apply dead_remove|]. intros ? s' Hd'. by apply IH. }
  assert (∀ ps, keeps (dead_at p) (process_all ps)) as Hproc.
  { induction ps as [|q ps IH]; cbn [process_all]; [apply keeps_ret|]. apply dead_the. intros t [c w] Hd Ht Hq.
    apply wp_bind. unfold on_network, wp at 1. destruct (readiness q (conn t) w) as [r w']. apply wp_bind. unfold lift_option, wp at 1.
    destruct (Process r t) as [[[os keep] t']|] eqn:Hp; [|done]. cbn [mbind option_bind].
    assert (q = p → dead t') as Hq' by (intros Hqp; eapply dead_process; [done|by apply Hq]).
    apply wp_bind. change (wp True (set_transport q t') (c, w') ?Q) with (Q tt (with_transports (<[q := t']> (transports c)) c, w')).
    cbv beta. apply wp_bind. apply wp_mono with (Q := λ _, dead_at p).
    { pose proof (dead_set p q t' (c, w') Hd Hq') as Hd'. destruct keep; [done|]. by apply dead_remove. }
    intros ? s' Hd'. apply wp_bind. eapply wp_mono; [by apply IH|]. done. }
  intros s Hd. unfold turn. apply wp_bind, wp_bind. eapply wp_mono; [by apply Hsel|]. intros ? s' Hd'. apply wp_bind. by apply Hproc.
Qed.

Lemma dead_poll p n s : dead_at p s → wp True (poll_connected n p) s (λ ok s', ok = false ∧ dead_at p s').
Proof.
  revert s. induction n as [|n IH]; intros s Hd; cbn [poll_connected]; [done|]. apply wp_bind, the_transport_wp. intros t Ht.
  pose proof Hd as (t0 & Ht0 & _ & _ & Hcan). rewrite Ht in Ht0. injection Ht0 as ->. rewrite Hcan.
  apply wp_bind. eapply wp_mono; [by apply dead_turn|]. intros ? s' Hd'. by apply IH.
Qed.

Lemma dead_reconnect p : keeps (dead_at p) Reconnect.
Proof.
  unfold Reconnect. apply keeps_bind; [apply keeps_gets|]. intros main. apply keeps_bind.
  { destruct main; [apply dead_close_transport|apply keeps_ret]. }
  intros os. apply keeps_bind; [apply dead_make|]. intros q. apply keeps_bind; [by apply dead_context|]. intros _.
  apply keeps_bind; [apply dead_connect_transport|]. intros [os' ok]. apply keeps_ret.
Qed.

Lemma dead_XBDMConnect p ms s : dead_at p s → wp True (XBDMConnect p ms) s (λ ok s', ok = false).
Proof.
  intros Hd. unfold XBDMConnect. apply wp_bind, the_transport_wp. intros t Ht.
  pose proof Hd as (t0 & Ht0 & _ & Hshut & Hcan). rewrite Ht in Ht0. injection Ht0 as <-. rewrite Hcan, Hshut.
  apply wp_bind, wp_bind. eapply wp_mono; [by apply dead_reconnect|]. intros ? s1 Hd1. apply wp_bind, the_transport_wp. intros t1 Ht1.
  apply wp_bind. apply wp_mono with (Q := λ _, dead_at p).
  { destruct (IsConnected (conn t1)); [done|]. apply wp_bind. eapply wp_mono; [by apply (dead_connect_transport p)|]. intros [? ?] s2 Hd2. exact Hd2. }
  intros connected s2 Hd2. destruct connected; [|done]. cbn [negb]. apply wp_bind. eapply wp_mono; [by apply dead_poll|].
  intros ok s3 [-> Hd3]. apply wp_bind. eapply wp_mono; [by apply (dead_connect_transport p)|]. done.
Qed.

Lemma dead_command fuel p r st s : dead_at p s → wp True (ExecuteXBDMPromise fuel r st p) s (λ x _, x = NotConnected r st).
Proof.
  intros Hd. unfold ExecuteXBDMPromise. apply wp_bind. eapply wp_mono; [by apply dead_XBDMConnect|]. by intros ok s1 ->.
Qed.

(** The command after [CloseActiveConnections] fails, whatever the network
    does: the connection that is made again is a new transport, while the command
    goes on with the one that was closed, which the select thread no longer
    serves. *)
Theorem command_after_close_fails (fuel : nat) (r : R) (st : St) (x : option (result R St)) (p : nat) (s s' : Ctx * W) :
  xbdm_transport_ s.1 = Some p → xbdm_control_executor_ s.1 = Some [] →
  (CloseActiveConnections ;; SendCommandSync fuel r st) s = Some (x, s') →
  x = Some (NotConnected r st).
Proof.
  intros Hmain Hexec Hrun. eapply (wp_partial _ s (λ x _, x = Some (NotConnected r st)) x), Hrun. clear x s' Hrun.
  unfold CloseActiveConnections, close_transport. do 2 apply wp_bind. change (wp True (gets ?g) s ?Q) with (Q (g s) s). cbv beta. rewrite Hmain.
  apply wp_bind, wp_bind, the_transport_wp. intros t Ht. destruct (XbdmTransport.Close t) as [os t'] eqn:Hc. apply dead_close in Hc.
  apply wp_bind. change (wp True (set_transport p t') s ?Q) with (Q tt (with_transports (<[p := t']> (transports s.1)) s.1, s.2)). cbv beta.
  apply wp_ret. apply wp_bind. unfold ResetNotificationConnections, on_context.
  change (wp True (modify ?g) ?s ?Q) with (Q tt (g s)). cbv beta. apply wp_ret.
  unfold SendCommandSync. apply wp_bind. change (wp True (gets ?g) ?s ?Q) with (Q (g s) s). cbv beta.
  cbn [fst with_transports with_channels xbdm_transport_]. rewrite Hmain. apply wp_bind.
  unfold SendCommandSync_on, SendCommand_on. do 2 apply wp_bind. change (wp True (gets ?g) ?s ?Q) with (Q (g s) s). cbv beta.
  cbn [fst with_transports with_channels xbdm_control_executor_]. rewrite Hexec. apply wp_bind.
  change (wp True (lift_option (Some [])) ?s ?Q) with (Q [] s). cbv beta. apply wp_bind.
  change (wp True (lift_option (Some p)) ?s ?Q) with (Q p s). cbv beta. apply wp_bind.
  change (wp True (gets ?g) ?s ?Q) with (Q (g s) s). cbv beta. apply wp_bind. unfold on_context at 1.
  change (wp True (modify ?g) ?s ?Q) with (Q tt (g s)). cbv beta. apply wp_ret. apply wp_bind.
  unfold run_executor. apply wp_bind. change (wp True (gets ?g) ?s ?Q) with (Q (g s) s). cbv beta. cbn [fst with_executor xbdm_control_executor_ app].
  apply wp_bind. change (wp True (gets ?g) ?s ?Q) with (Q (g s) s). cbv beta. apply wp_bind.
  change (wp True (on_context ?g) ?s ?Q) with (Q tt (g s.1, s.2)). cbv beta. cbn [run_tasks]. apply wp_bind. eapply wp_mono.
  - apply dead_command. exists t'. split; [|done]. cbn. apply list_lookup_insert_Some. left. split_and!; [done..|]. by eapply lookup_lt_Some.
  - intros y s1 ->. apply wp_bind. cbn [run_tasks]. apply wp_ret, wp_ret. unfold promised. cbn [find fst promise]. by rewrite Nat.eqb_refl.
Qed.
End Runs.

(** ** Handlers of notifications *)

Section Handlers.
Context {R St H W : Type} `{!RequestOps R St, !Network W}.
Abbreviation Ctx := (XBDMContext R St H).

Inductive registration := Register (h : H) | Unregister (id : Z).

Definition perform (x : registration) : M (Ctx * W) unit :=
  match x with
  | Register h => RegisterNotificationHandler h ;; mret tt
  | Unregister id => UnregisterNotificationHandler id
  end.

(** The handlers in the order they were registered in, numbered from 1. *)
Definition registered (l : list (Z * H)) (n : Z) (x : registration) : list (Z * H) * Z :=
  match x with
  | Register h => (l ++ [(n, h)], n + 1)
  | Unregister id => (filter (λ h, h.1 ≠ id) l, n)
  end.

Definition registry (xs : list registration) : list (Z * H) * Z := foldl (λ s x, registered s.1 s.2 x) ([], 1) xs.

Record registry_of (c : Ctx) (l : list (Z * H)) (n : Z) : Prop := {
  registry_map : notification_handlers_ c = list_to_map l;
  registry_next : next_notification_handler_id_ c = n;
  registry_sorted : StronglySorted Z.lt l.*1;
  registry_range : Forall (λ id, 1 ≤ id < n) l.*1
}.

Lemma Forall_kept {X} (P Q : X → Prop) `{∀ x, Decision (Q x)} l : Forall P l → Forall P (filter Q l).
Proof. rewrite !Forall_forall. intros Hall x [_ Hin]%list_elem_of_filter. by apply Hall. Qed.

Lemma sorted_NoDup (l : list Z) : StronglySorted Z.lt l → NoDup l.
Proof.
  induction 1 as [|x l Hs IH Hall]; constructor; [|done]. intros Hin. rewrite Forall_forall in Hall. specialize (Hall _ Hin). lia.
Qed.

Lemma registry_order c l n : registry_of c l n → handlers_in_order (notification_handlers_ c) = l.
Proof.
  intros [-> _ Hs _]. unfold handlers_in_order.
  assert (merge_sort Z.le (elements (dom (list_to_map l : gmap Z H))) = l.*1) as ->.
  { apply (Sorted_unique Z.le).
    - apply Sorted_merge_sort. intros ??. lia.
    - apply StronglySorted_Sorted. clear -Hs. induction Hs as [|x l' Hs IH Hall]; constructor; [done|].
      eapply Forall_impl; [done|]. cbn. lia.
    - rewrite merge_sort_Permutation. apply NoDup_Permutation; [apply NoDup_elements|by apply sorted_NoDup|].
      intros x. rewrite elem_of_elements, dom_list_to_map. apply elem_of_list_to_set. }
  assert (∀ id h, (id, h) ∈ l → (list_to_map l : gmap Z H) !! id = Some h) as Hl.
  { intros id h Hin. apply elem_of_list_to_map_1; [by apply sorted_NoDup|done]. }
  revert Hl. generalize (list_to_map l : gmap Z H) as hs. clear Hs. induction l as [|[id h] l IH]; intros hs Hl; [done|].
  cbn. rewrite (Hl id h) by apply list_elem_of_here. cbn. f_equal. apply IH. intros id' h' Hin. apply Hl. by apply list_elem_of_further.
Qed.

Lemma registered_step c l n x w l' n' :
  registry_of c l n → 1 ≤ n < 2 ^ 31 - 1 → registered l n x = (l', n') →
  ∃ c', perform x (c, w) = Some (tt, (c', w)) ∧ registry_of c' l' n' ∧ 1 ≤ n' ≤ n + 1.
Proof.
  intros [Hmap Hnext Hs Hr] Hn. destruct x as [h|id]; intros [= <- <-].
  - eexists. split; [reflexivity|]. split; [|lia]. split.
    + cbn. rewrite Hmap, Hnext. rewrite list_to_map_snoc; [done|]. intros Hin. rewrite Forall_forall in Hr. specialize (Hr _ Hin). lia.
    + cbn. rewrite Hnext. apply i32_id. unfold is_i32. lia.
    + rewrite fmap_app. cbn. clear -Hs Hr. induction Hs as [|x l' Hs IH Hall]; cbn; [repeat constructor|].
      apply Forall_cons in Hr as [Hx Hr]. constructor; [by apply IH|]. apply Forall_app. split; [done|]. repeat constructor. lia.
    + rewrite fmap_app. apply Forall_app. split; [|repeat constructor; cbn; lia]. eapply Forall_impl; [done|]. cbn. lia.
  - set (l' := filter (λ h : Z * H, h.1 ≠ id) l).
    assert (∀ P : Z → Prop, Forall P l.*1 → Forall P l'.*1) as Hsub.
    { intros P. rewrite !Forall_fmap. unfold l'. intros Hall. by apply Forall_kept. }
    assert (StronglySorted Z.lt l'.*1) as Hs'.
    { unfold l'. clear Hr Hmap Hsub. induction l as [|[y h] l IH]; [constructor|]. cbn in Hs. apply StronglySorted_inv in Hs as [Hs Hall].
      rewrite filter_cons. destruct (decide _); [|by apply IH]. cbn. constructor; [by apply IH|].
      rewrite Forall_fmap in Hall |- *. by apply Forall_kept. }
    assert ((list_to_map l' : gmap Z H) = delete id (list_to_map l)) as Hdel.
    { apply map_eq. intros y. destruct (decide (y = id)) as [->|Hne].
      - rewrite lookup_delete_eq. apply not_elem_of_list_to_map_1. intros ([y h] & -> & Hin)%list_elem_of_fmap.
        apply list_elem_of_filter in Hin as [Hid _]. done.
      - rewrite lookup_delete_ne by done. apply option_eq. intros h.
        rewrite <- !elem_of_list_to_map by by apply sorted_NoDup. unfold l'. rewrite list_elem_of_filter. cbn. naive_solver. }
    unfold perform, UnregisterNotificationHandler. destruct (Z.leb_spec id 0) as [Hid|Hid].
    + exists c. split; [done|]. split; [|lia]. split; [|done..|by apply Hsub]. rewrite Hmap, Hdel. symmetry. apply delete_id.
      apply not_elem_of_list_to_map_1. intros Hin. rewrite Forall_forall in Hr. specialize (Hr _ Hin). lia.
    + eexists. split; [reflexivity|]. split; [|lia]. split; [cbn; by rewrite Hmap, Hdel|done..|by apply Hsub].
Qed.

(** The handlers that a notification goes to: after any registrations and
    withdrawals, fewer than 2^31, it is given to every handler that was registered
    and not withdrawn since, once each, in the order they were registered in; those
    registered or withdrawn by a handler that runs do not count. *)
Theorem notification_dispatched {N} (xs : list registration) (run : H → N → M (Ctx * W) unit) (notification : N) (w : W) :
  Z.of_nat (length xs) < 2 ^ 31 - 2 →
  ∃ c, for_each xs perform (new_context, w) = Some (tt, (c, w))
    ∧ DispatchNotification run notification (c, w)
      = for_each (registry xs).1 (λ h, run h.2 notification) (c, w).
Proof.
  intros Hlen.
  assert (∀ c l n, registry_of c l n → 1 ≤ n → n + Z.of_nat (length xs) < 2 ^ 31 - 1 →
    ∃ c', for_each xs perform (c, w) = Some (tt, (c', w)) ∧ ∃ n', registry_of c' (foldl (λ s x, registered s.1 s.2 x) (l, n) xs).1 n') as Hall.
  { clear Hlen. induction xs as [|x xs IH]; intros c l n Hc Hn Hlen; [by exists c; split; [|exists n]|]. cbn [length] in Hlen.
    destruct (registered l n x) as [l1 n1] eqn:Hx. destruct (registered_step c l n x w l1 n1 Hc ltac:(lia) Hx) as (c1 & Hrun & Hc1 & Hn1).
    destruct (IH c1 l1 n1 Hc1 ltac:(lia) ltac:(lia)) as (c2 & Hrun2 & Hc2). exists c2. cbn [foldl fst snd]. rewrite Hx. split; [|done].
    cbn [for_each]. by erewrite bind_run by exact Hrun. }
  destruct (Hall new_context [] 1) as (c & Hrun & n & Hc); [by split; try constructor|lia|lia|]. exists c. split; [done|].
  unfold DispatchNotification. erewrite bind_run by reflexivity. cbn [fst]. by rewrite (registry_order _ _ _ Hc).
Qed.
End Handlers.

Definition greeting (message : bytes) : reply := SingleLine OK_CONNECTED message.

(** ** A network for the examples

    Its console greets and says that all is well; the state is whether a greeting is
    due. *)

Definition example_reply : reply := SingleLine OK "OK"%bs.

#[export] Instance example_network : Network bool := {
  connecting _ := (true, true, true);
  listening port greets := (true, Some port, greets);
  readiness p conn greets :=
    if greets : bool then (Ready false None (Some (RecvData (reply_image (greeting "connected"%bs)))), false)
    else match write_buffer_ conn with
         | [] => (Ready false None None, false)
         | out => (Ready false (Some (Sent (length out))) (Some (RecvData (reply_image example_reply))), false)
         end
}.

Lemma example_readiness p (k : TCPConnection) : write_buffer_ k ≠ [] →
  readiness p k false = (Ready false (Some (Sent (length (write_buffer_ k)))) (Some (RecvData (reply_image example_reply))), false).
Proof. intros Hne. cbn. by destruct (write_buffer_ k). Qed.

(** A context whose first command was answered. *)
Definition used_context : XBDMContext WireRequest unit unit * bool :=
  match SendCommandSync 5 (example_request "go"%bs) tt (new_context, false) with Some (_, s) => s | None => (new_context, false) end.

Lemma commands_in_turn_witness :
  (∀ p t, transports used_context.1 !! p = Some t → request_queue_ t = [])
  ∧ ∃ x s', SendCommandSync 5 (example_request "stop"%bs) tt used_context = Some (Some x, s')
      ∧ result_request x = example_request "stop"%bs.
Proof.
  destruct (SendCommandSync 5 (example_request "go"%bs) tt (new_context (H := unit), false)) as [[y s]|] eqn:Hgo; [|vm_compute in Hgo; discriminate].
  assert (used_context = s) as Hs by (unfold used_context; by rewrite Hgo).
  assert (rtc context_step (new_context, false) used_context) as Hrun.
  { rewrite Hs. apply rtc_once. exact (context_step_of _ _ _ _ y (op_send_sync 5 (example_request "go"%bs) tt) Hgo). }
  destruct (commands_in_turn false used_context Hrun) as (Hidle & Hsync & _). split; [exact Hidle|].
  destruct (SendCommandSync 5 (example_request "stop"%bs) tt used_context) as [[[x|] s']|] eqn:Hstop;
    [|vm_compute in Hstop; discriminate|vm_compute in Hstop; discriminate].
  exists x, s'. split; [reflexivity|]. exact (Hsync 5%nat _ _ _ _ Hstop).
Defined.

Lemma command_after_close_fails_witness :
  ∃ x s', (CloseActiveConnections ;; SendCommandSync 5 (example_request "stop"%bs) tt) used_context = Some (x, s')
    ∧ x = Some (NotConnected (example_request "stop"%bs) tt).
Proof.
  destruct ((CloseActiveConnections ;; SendCommandSync 5 (example_request "stop"%bs) tt) used_context) as [[x s']|] eqn:Hrun;
    [|vm_compute in Hrun; discriminate].
  exists x, s'. split; [reflexivity|]. apply (command_after_close_fails 5 (example_request "stop"%bs) tt x 0 used_context s'); [reflexivity|reflexivity|exact Hrun].
Defined.

(** Handlers that close the channels. *)
Lemma notification_dispatched_witness :
  let run (h : nat) (n : nat) : M (XBDMContext WireRequest unit nat * bool) unit := ResetNotificationConnections in
  ∃ c, for_each [Register 5%nat; Register 7%nat; Unregister 1; Register 9%nat] perform (new_context, false) = Some (tt, (c, false))
    ∧ DispatchNotification run 0%nat (c, false) = for_each [(2, 7%nat); (3, 9%nat)] (λ h, run h.2 0%nat) (c, false).
Proof.
  exact (notification_dispatched [Register 5%nat; Register 7%nat; Unregister 1; Register 9%nat]
           (λ _ _ : nat, ResetNotificationConnections (R := WireRequest) (St := unit) (W := bool)) 0%nat false ltac:(vm_compute; reflexivity)).
Defined.
