(* ===== verification/XbdmContextExchange.v ===== *)
(** * Commands through a context

    A command through a context in use, or through a new one the console accepts the
    connection of, is written to the console and gets the reply the console sends:
    the context implements what the interface [Target] promises of it. *)

From S2P Require Import Prelude CLib RdcpResponse RdcpRequest Notifications NotificationTransport Target TcpConnection XbdmTransport XbdmContext XbdmContextRuns.

Section Exchange.
Context {R St H W : Type} `{!RequestOps R St, !Network W}.
Abbreviation T := (XBDMTransport R St).
Abbreviation Ctx := (XBDMContext R St H).
Implicit Types (t : T) (c : Ctx) (w : W).

(** ** What the network does *)

(** In a turn it takes so many bytes of what is to be written and has some to read. *)
Definition attends (p : nat) (out : bytes) (k : nat) (chunk : bytes) (w w1 : W) : Prop :=
  ∀ conn : TCPConnection, write_buffer_ conn = out →
    readiness p conn w = (Ready false (if decide (out = []) then None else Some (Sent k))
                         (if decide (chunk = []) then None else Some (RecvData chunk)), w1).

(** In so many turns, of which it needs the last, it takes all that is to be written
    and has these bytes to read. *)
Inductive serves (p : nat) : nat → bytes → bytes → W → W → Prop :=
  | serves_last out k chunk w w1 :
    attends p out k chunk w w1 → chunk ≠ [] → (length out ≤ k)%nat → serves p 1 out chunk w w1
  | serves_turn n out k chunk data w w1 w2 :
    attends p out k chunk w w1 → data ≠ [] → serves p n (drop k out) data w1 w2 → serves p (S n) out (chunk ++ data) w w2.

(** ** One turn *)

(** A connection that is served. *)
Definition served (k : TCPConnection) : Prop := socket_open k = true ∧ pipe_open k = true ∧ close_after_flush_ k = false.

Definition with_transport (p : nat) (t : T) (c : Ctx) : Ctx := with_transports (<[p := t]> (transports c)) c.

Lemma with_transport_twice p t t' c : with_transport p t' (with_transport p t c) = with_transport p t' c.
Proof. unfold with_transport, with_transports. cbn. by rewrite list_insert_insert_eq. Qed.

Lemma with_transport_at p t t' c : transports c !! p = Some t → transports (with_transport p t' c) !! p = Some t'.
Proof. intros Ht. cbn. apply list_lookup_insert_Some. left. split_and!; [done..|]. by eapply lookup_lt_Some. Qed.

Lemma the_transport_run {X} p c w t (k : T → M (Ctx * W) X) :
  transports c !! p = Some t → (the_transport p ≫= k) (c, w) = k t (c, w).
Proof. intros Ht. apply bind_run. unfold the_transport, gets, mbind, M_bind, lift_option. cbn. by rewrite Ht. Qed.

Lemma turn_run p c w r w1 t os t' :
  selectables_ c = [p] → transports c !! p = Some t → served (conn t) →
  readiness p (conn t) w = (r, w1) → Process r t = Some (os, true, t') →
  turn (c, w) = Some (map (pair p) os, (with_transport p t' c, w1)).
Proof.
  intros Hsel Ht (Hsock & Hpipe & _) Hr Hp.
  assert (select_all [p] (c, w) = Some (tt, (c, w))) as Hselect.
  { cbn [select_all]. erewrite the_transport_run by exact Ht. unfold no_descriptor. by rewrite Hpipe. }
  assert (process_all [p] (c, w) = Some (map (pair p) os, (with_transport p t' c, w1))) as Hprocess.
  { cbn [process_all]. erewrite the_transport_run by exact Ht. erewrite bind_run by (unfold on_network; by rewrite Hr).
    rewrite Hp. erewrite bind_run by reflexivity. cbv beta iota. erewrite bind_run by reflexivity. erewrite bind_run by reflexivity.
    erewrite bind_run by reflexivity. by rewrite app_nil_r. }
  unfold turn. erewrite bind_run by reflexivity. cbn [fst]. rewrite Hsel. erewrite bind_run by exact Hselect.
  erewrite bind_run by reflexivity. cbn [fst]. by rewrite Hsel.
Qed.

(** A turn in which bytes are taken and others arrive, by what [OnBytesRead] does. *)
Lemma Process_attended t out k chunk os t' :
  served (conn t) → write_buffer_ (conn t) = out →
  match chunk with [] => ([], with_conn (with_write (conn t) (drop k out)) t) = (os, t')
                 | _ => XbdmTransport.receive chunk (with_conn (with_write (conn t) (drop k out)) t) = Some (os, t') end →
  Process (Ready false (if decide (out = []) then None else Some (Sent k)) (if decide (chunk = []) then None else Some (RecvData chunk))) t
  = Some (os, true, t').
Proof.
  intros (Hsock & Hpipe & Hflush) Hout Hread. unfold Process. rewrite Hpipe, Hsock. cbn [negb orb except_set write_set].
  assert (∀ t1, with_conn (with_write (conn t) (drop k out)) t = t1 → process_read (Ready false (if decide (out = []) then None else Some (Sent k)) (if decide (chunk = []) then None else Some (RecvData chunk))) t1 = Some (os, t')) as Hp.
  { intros t1 <-. unfold process_read. cbn [read_set]. destruct chunk; [|done]. rewrite decide_True by done. by rewrite Hread. }
  destruct (decide (out = [])) as [->|Hne].
  - rewrite Hp; [done|]. rewrite drop_nil. unfold with_conn, with_write. destruct t as [[] ? ?]. cbn in *. by subst.
  - unfold DoSend. rewrite Hout. cbn [with_conn conn with_write close_after_flush_ socket_open]. rewrite Hflush, Hsock. cbn [andb].
    rewrite Hp; [done|]. reflexivity.
Qed.

(** ** The wait for a reply *)

Section Reply.
Context (p : nat) (r : R) (st st' : St) (rep : reply).
Context (Hstable : stable (BinaryResponseSizeParser r)) (Hpure : pure_parser (BinaryResponseSizeParser r))
  (Hok : reply_ok (BinaryResponseSizeParser r) st st' rep) (Hbound : Z.of_nat (length (reply_image rep)) < 2 ^ 32)
  (Hstatus : status_ (reply_response rep) ≠ OK_SEND_BINARY_DATA).

Lemma wait_serves n out data w w2 : serves p n out data w w2 → ∀ fuel c conn pre,
  (n ≤ fuel)%nat → selectables_ c = [p] → transports c !! p = Some (waiting conn r st [] pre) →
  served conn → write_buffer_ conn = out → pre ++ data = reply_image rep →
  ∃ conn', served conn' ∧ write_buffer_ conn' = []
    ∧ wait_outcome fuel p 0 (c, w)
      = Some (Completed r st' (reply_response rep), (with_transport p (MkTransport (with_read conn' []) CONNECTED []) c, w2)).
Proof.
  induction 1 as [out k chunk w w1 Hatt Hne Hk|n out k chunk data w w1 w2 Hatt Hne Hserves IH]; intros fuel c conn pre Hfuel Hsel Ht Hserved Hout Hrep.
  - destruct fuel as [|fuel]; [lia|]. set (conn' := with_write conn (drop k out)).
    assert (Process (Ready false (if decide (out = []) then None else Some (Sent k)) (if decide (chunk = []) then None else Some (RecvData chunk)))
              (waiting conn r st [] pre)
            = Some ([Completed r st' (reply_response rep)], true, MkTransport (with_read conn' []) CONNECTED [])) as Hp.
    { apply Process_attended; [done|done|]. destruct chunk as [|b chunk]; [done|].
      exact (receive_last conn' r st st' [] pre (b :: chunk) rep Hstable Hok Hbound Hstatus Hrep). }
    exists conn'. split; [exact Hserved|]. split; [by apply drop_ge|]. cbn [wait_outcome].
    erewrite bind_run by (eapply turn_run; [done|exact Ht|exact Hserved|by apply Hatt|exact Hp]). cbv zeta.
    unfold outcomes_of. cbn [map omap list_omap fst snd]. by rewrite decide_True by done.
  - destruct fuel as [|fuel]; [lia|]. set (conn' := with_write conn (drop k out)).
    assert (Process (Ready false (if decide (out = []) then None else Some (Sent k)) (if decide (chunk = []) then None else Some (RecvData chunk)))
              (waiting conn r st [] pre) = Some ([], true, waiting conn' r st [] (pre ++ chunk))) as Hp.
    { apply Process_attended; [done|done|]. destruct chunk as [|b chunk]; [by rewrite app_nil_r|].
      apply (receive_more conn' r st st' [] pre (b :: chunk) data rep Hstable Hpure Hok Hbound); [by rewrite <- app_assoc|done]. }
    destruct (IH fuel (with_transport p (waiting conn' r st [] (pre ++ chunk)) c) conn' (pre ++ chunk)) as (conn2 & ? & ? & Hrun);
      [lia|done|by eapply with_transport_at|exact Hserved|done|by rewrite <- app_assoc|].
    exists conn2. split; [done|]. split; [done|]. rewrite with_transport_twice in Hrun. cbn [wait_outcome].
    erewrite bind_run by (eapply turn_run; [done|exact Ht|exact Hserved|by apply Hatt|exact Hp]). exact Hrun.
Qed.
End Reply.

(** ** The greeting *)

Lemma greeting_ok message : CR ∉ message → @reply_ok unit None tt tt (greeting message).
Proof. intros Hm. unfold greeting, reply_ok, OK_CONNECTED, OK_MULTILINE_RESPONSE, OK_BINARY_RESPONSE. split_and!; first [lia|done]. Qed.

Lemma greeting_last conn pre b message :
  CR ∉ message → Z.of_nat (length (reply_image (greeting message))) < 2 ^ 32 → pre ++ b = reply_image (greeting message) →
  XbdmTransport.receive b (MkTransport (R := R) (St := St) (with_read conn pre) INIT []) = Some ([], MkTransport (with_read conn []) CONNECTED []).
Proof.
  intros Hm Hl Hb. unfold receive, OnBytesRead. cbn [with_conn XbdmTransport.conn request_queue_ read_buffer_ with_read].
  rewrite Hb, (Parse_whole None tt tt) by (first [done|by apply greeting_ok]).
  assert (length (reply_image (greeting message)) ≠ 0)%nat.
  { intros Hz%nil_length_inv. by eapply (reply_image_nonempty None tt tt), Hz; apply greeting_ok. }
  rewrite (proj2 (Z.eqb_neq _ _)) by lia. rewrite Z.abs_eq by lia.
  rewrite ShiftReadBuffer_eq by (rewrite with_read_read; lia). rewrite with_read_read, drop_all. reflexivity.
Qed.

Lemma greeting_more conn pre b rest message :
  CR ∉ message → Z.of_nat (length (reply_image (greeting message))) < 2 ^ 32 →
  reply_image (greeting message) = (pre ++ b) ++ rest → rest ≠ [] →
  XbdmTransport.receive b (MkTransport (R := R) (St := St) (with_read conn pre) INIT []) = Some ([], MkTransport (with_read conn (pre ++ b)) INIT []).
Proof.
  intros Hm Hl Hb Hne. unfold receive, OnBytesRead. cbn [with_conn XbdmTransport.conn request_queue_ read_buffer_ with_read].
  destruct (Parse_incomplete None tt tt (greeting message) (pre ++ b) rest) as [[] ->]; [done|by apply greeting_ok|done..].
Qed.

Lemma poll_served n out data w w2 p message : serves p n out data w w2 → ∀ turns c conn pre,
  (n < turns)%nat → selectables_ c = [p] → transports c !! p = Some (MkTransport (with_read conn pre) INIT []) →
  served conn → write_buffer_ conn = out → CR ∉ message → Z.of_nat (length (reply_image (greeting message))) < 2 ^ 32 →
  pre ++ data = reply_image (greeting message) →
  ∃ conn', served conn' ∧ write_buffer_ conn' = []
    ∧ poll_connected turns p (c, w) = Some (true, (with_transport p (MkTransport (with_read conn' []) CONNECTED []) c, w2)).
Proof.
  induction 1 as [out k chunk w w1 Hatt Hne Hk|n out k chunk data w w1 w2 Hatt Hne Hserves IH];
    intros turns c conn pre Hturns Hsel Ht Hserved Hout Hm Hl Hrep;
    (destruct turns as [|turns]; [lia|]); set (conn' := with_write conn (drop k out)).
  - assert (Process (Ready false (if decide (out = []) then None else Some (Sent k)) (if decide (chunk = []) then None else Some (RecvData chunk)))
              (MkTransport (R := R) (St := St) (with_read conn pre) INIT []) = Some ([], true, MkTransport (with_read conn' []) CONNECTED [])) as Hp.
    { apply Process_attended; [done|done|]. destruct chunk as [|b chunk]; [done|].
      by apply (greeting_last conn' pre (b :: chunk) message). }
    exists conn'. split; [exact Hserved|]. split; [by apply drop_ge|]. cbn [poll_connected].
    erewrite the_transport_run by exact Ht. change (CanProcessCommands _) with false. cbv iota.
    erewrite bind_run by (eapply turn_run; [done|exact Ht|exact Hserved|by apply Hatt|exact Hp]).
    destruct turns as [|turns]; [lia|]. cbn [poll_connected]. erewrite the_transport_run by by eapply with_transport_at. reflexivity.
  - assert (Process (Ready false (if decide (out = []) then None else Some (Sent k)) (if decide (chunk = []) then None else Some (RecvData chunk)))
              (MkTransport (R := R) (St := St) (with_read conn pre) INIT []) = Some ([], true, MkTransport (with_read conn' (pre ++ chunk)) INIT [])) as Hp.
    { apply Process_attended; [done|done|]. destruct chunk as [|b chunk]; [by rewrite app_nil_r|].
      apply (greeting_more conn' pre (b :: chunk) data message); [done|done|by rewrite <- app_assoc|done]. }
    destruct (IH turns (with_transport p (MkTransport (with_read conn' (pre ++ chunk)) INIT []) c) conn' (pre ++ chunk)) as (conn2 & ? & ? & Hrun);
      [lia|done|by eapply with_transport_at|exact Hserved|done|done|done|by rewrite <- app_assoc|].
    exists conn2. split; [done|]. split; [done|]. rewrite with_transport_twice in Hrun. cbn [poll_connected].
    erewrite the_transport_run by exact Ht. change (CanProcessCommands _) with false. cbv iota.
    erewrite bind_run by (eapply turn_run; [done|exact Ht|exact Hserved|by apply Hatt|exact Hp]). exact Hrun.
Qed.

(** ** Commands *)

(** The transport is connected and nothing is under way. *)
Definition in_use (p : nat) (c : Ctx) : Prop :=
  selectables_ c = [p] ∧ ∃ k, transports c !! p = Some (MkTransport k CONNECTED []) ∧ served k ∧ read_buffer_ k = [] ∧ write_buffer_ k = [].

(** Or it is new, the console accepts the connection and greets within the time the
    program waits. *)
Definition within_reach (p : nat) (c : Ctx) (w w2 : W) : Prop :=
  (in_use p c ∧ w = w2)
  ∨ (selectables_ c = [p] ∧ transports c !! p = Some XbdmTransport.new_transport
     ∧ ∃ w1 n message, connecting w = (true, true, w1) ∧ (CR ∉ message) ∧ Z.of_nat (length (reply_image (greeting message))) < 2 ^ 32
         ∧ (n < 1000)%nat ∧ serves p n [] (reply_image (greeting message)) w1 w2).

Lemma XBDMConnect_run p c w w2 : within_reach p c w w2 →
  ∃ k, served k ∧ read_buffer_ k = [] ∧ write_buffer_ k = [] ∧ selectables_ c = [p] ∧ is_Some (transports c !! p)
    ∧ XBDMConnect p 5000 (c, w) = Some (true, (with_transport p (MkTransport k CONNECTED []) c, w2)).
Proof.
  intros [[(Hsel & k & Ht & Hk & Hread & Hwrite) ->]|(Hsel & Ht & w1 & n & message & Hconn & Hm & Hl & Hn & Hserves)].
  - exists k. do 5 (split; [by eauto|]). unfold XBDMConnect. erewrite the_transport_run by exact Ht.
    change (CanProcessCommands _) with true. cbv iota. unfold with_transport. rewrite list_insert_id by done. by destruct c.
  - set (k1 := MkConn true true false false [] []).
    destruct (poll_served n [] _ w1 w2 p message Hserves 1000 (with_transport p (MkTransport (with_read k1 []) INIT []) c) k1 []) as (k & Hk & Hw & Hrun);
      [done|done|by eapply with_transport_at|done..|].
    rewrite with_transport_twice in Hrun. exists (with_read k []). do 5 (split; [by eauto|]).
    assert (connect_transport p (c, w) = Some (([], true), (with_transport p (MkTransport k1 INIT []) c, w1))) as Hconnect.
    { unfold connect_transport. erewrite the_transport_run by exact Ht. erewrite bind_run by (unfold on_network; by rewrite Hconn). reflexivity. }
    unfold XBDMConnect. erewrite the_transport_run by exact Ht. change (CanProcessCommands _) with false. cbv iota.
    erewrite bind_run by reflexivity. erewrite the_transport_run by exact Ht.
    erewrite (bind_run _ _ _ true (with_transport p (MkTransport k1 INIT []) c, w1)).
    2: { change (IsConnected _) with false. cbv iota. by erewrite bind_run by exact Hconnect. }
    cbn [negb]. change (Z.to_nat ((5000 + 4) / 5)) with 1000%nat. erewrite bind_run by exact Hrun. reflexivity.
Qed.

Lemma ExecuteXBDMPromise_run p c w w1 w2 n r st st' rep fuel :
  within_reach p c w w1 →
  stable (BinaryResponseSizeParser r) → pure_parser (BinaryResponseSizeParser r) → reply_ok (BinaryResponseSizeParser r) st st' rep →
  Z.of_nat (length (reply_image rep)) < 2 ^ 32 → status_ (reply_response rep) ≠ OK_SEND_BINARY_DATA →
  serves p n (line r) (reply_image rep) w1 w2 → (n ≤ fuel)%nat →
  ∃ k, in_use p (with_transport p (MkTransport k CONNECTED []) c)
    ∧ ExecuteXBDMPromise fuel r st p (c, w)
      = Some (Finished (Completed r st' (reply_response rep)), (with_transport p (MkTransport k CONNECTED []) c, w2)).
Proof.
  intros Hreach Hstable Hpure Hok Hl Hst Hserves Hfuel.
  destruct (XBDMConnect_run p c w w1 Hreach) as (k & Hk & Hread & Hwrite & Hsel & [t0 Ht0] & Hconn).
  set (k1 := TcpConnection.Send (line r) k).
  assert (XbdmTransport.Send r st (MkTransport k CONNECTED []) = waiting k1 r st [] []) as Hsend.
  { unfold Send, WriteNextRequest, waiting. cbn [state_ request_queue_ app XbdmTransport.conn]. rewrite decide_True by done.
    f_equal. unfold k1. destruct k; cbn in *. by subst. }
  destruct (wait_serves p r st st' rep Hstable Hpure Hok Hl Hst n (line r) _ w1 w2 Hserves fuel
    (with_transport p (waiting k1 r st [] []) (with_transport p (MkTransport k CONNECTED []) c)) k1 []) as (k2 & Hk2 & Hw2 & Hrun);
    [done|done|by eapply with_transport_at, with_transport_at|done|unfold k1; cbn; by rewrite Hwrite|done|].
  exists (with_read k2 []). split.
  - split; [done|]. exists (with_read k2 []). split; [by eapply with_transport_at|]. done.
  - unfold ExecuteXBDMPromise. erewrite bind_run by exact Hconn. cbn [negb].
    erewrite the_transport_run by by eapply with_transport_at. rewrite Hsend. erewrite bind_run by reflexivity.
    cbn [request_queue_ length]. erewrite bind_run by exact Hrun. by rewrite !with_transport_twice.
Qed.

(** A context with nothing to do. *)
Definition ready_for (p : nat) (c : Ctx) : Prop := xbdm_transport_ c = Some p ∧ xbdm_control_executor_ c = Some [].

Lemma SendCommandSync_run p c w w1 w2 n r st st' rep fuel :
  ready_for p c → within_reach p c w w1 →
  stable (BinaryResponseSizeParser r) → pure_parser (BinaryResponseSizeParser r) → reply_ok (BinaryResponseSizeParser r) st st' rep →
  Z.of_nat (length (reply_image rep)) < 2 ^ 32 → status_ (reply_response rep) ≠ OK_SEND_BINARY_DATA →
  serves p n (line r) (reply_image rep) w1 w2 → (n ≤ fuel)%nat →
  ∃ c', ready_for p c' ∧ in_use p c'
    ∧ SendCommandSync fuel r st (c, w) = Some (Some (Finished (Completed r st' (reply_response rep))), (c', w2)).
Proof.
  intros [Hmain Hexec] Hreach Hstable Hpure Hok Hl Hst Hserves Hfuel.
  set (c1 := with_executor (Some []) (S (next_promise c)) (with_executor (Some [MkTask (next_promise c) r st p]) (S (next_promise c)) c)).
  destruct (ExecuteXBDMPromise_run p c1 w w1 w2 n r st st' rep fuel) as (k & Huse & Hrun); [exact Hreach|done..|].
  exists (with_transport p (MkTransport k CONNECTED []) c1). split; [done|]. split; [done|].
  set (x := Finished (Completed r st' (reply_response rep))). set (c2 := with_transport p (MkTransport k CONNECTED []) c1) in *.
  set (c0 := with_executor (Some [MkTask (next_promise c) r st p]) (S (next_promise c)) c).
  assert (SendCommand_on (Some p) r st (c, w) = Some (next_promise c, (c0, w))) as Hsend.
  { unfold SendCommand_on. erewrite bind_run by reflexivity. cbn [fst]. rewrite Hexec. reflexivity. }
  assert (run_executor fuel (c0, w) = Some ([(next_promise c, x)], (c2, w2))) as Hexecutor.
  { unfold run_executor. erewrite bind_run by reflexivity. cbv beta iota. cbn [fst c0 with_executor xbdm_control_executor_].
    erewrite bind_run by reflexivity. erewrite bind_run by reflexivity. cbn [run_tasks task_request task_state task_transport].
    erewrite bind_run by exact Hrun. reflexivity. }
  assert (SendCommandSync_on fuel (Some p) r st (c, w) = Some (x, (c2, w2))) as Hsync.
  { unfold SendCommandSync_on. erewrite bind_run by exact Hsend. erewrite bind_run by exact Hexecutor.
    unfold promised. cbn [find fst]. by rewrite Nat.eqb_refl. }
  unfold SendCommandSync. erewrite bind_run by reflexivity. cbn [fst]. rewrite Hmain. by erewrite bind_run by exact Hsync.
Qed.
End Exchange.

(** ** Against the interface *)

Section Refinement.
Context {H W C E : Type} `{!Network W, !Target C E}.
Implicit Types (c : XBDMContext WireRequest unit H) (q : WireRequest).

(** The request object that a result leaves. *)
Definition processed_result {T} (k : RequestClass T) (init : T) (x : result WireRequest unit) : option (RDCPProcessedRequest T) :=
  match x with
  | Finished (Completed q _ response) => Complete k response (processed (wire_request q) init)
  | Finished (Abandoned q _) => Some (Abandon (processed (wire_request q) init))
  | NotConnected q _ => Some (MkProcessed (wire_request q) ERR_NOT_CONNECTED [] init)
  end.

(** The network has behind it a console that answers as the interface says: it sends
    the answer as a well-formed reply, once the line of the request has arrived. *)
Definition serves_answers (p : nat) (Sim : W → E → Prop) (allowed : WireRequest → Prop) : Prop :=
  ∀ q w e, allowed q → Sim w e →
    stable (wire_parser q) ∧ pure_parser (wire_parser q)
    ∧ ∃ rep n w', (answer (wire_request q) (wire_payload q) e).1 = Some (reply_response rep)
        ∧ reply_ok (wire_parser q) tt tt rep ∧ Z.of_nat (length (reply_image rep)) < 2 ^ 32
        ∧ status_ (reply_response rep) ≠ OK_SEND_BINARY_DATA
        ∧ serves p n (request_line (wire_request q)) (reply_image rep) w w' ∧ Sim w' (answer (wire_request q) (wire_payload q) e).2.

(** C7. A context in use, or a new one that reaches the console, implements the
    interface the debugger is proved against: when the network serves the answers of
    a console, a command that is waited for comes back, and the request object is
    the one the interface gives, completed with the answer of that console; the
    context is then in use, and the next command meets the console as this one left
    it. *)
Theorem context_implements_target {T} (k : RequestClass T) (init : T) (p : nat) (Sim : W → E → Prop) (allowed : WireRequest → Prop)
    (q : WireRequest) c (w w1 : W) (e : E) :
  serves_answers p Sim allowed → allowed q → ready_for p c → within_reach p c w w1 → Sim w1 e →
  ∃ n, ∀ fuel, (n ≤ fuel)%nat → ∃ x c' w',
    SendCommandSync fuel q tt (c, w) = Some (Some x, (c', w'))
    ∧ (d ← processed_result k init x; Some (d, (answer (wire_request q) (wire_payload q) e).2))
      = Target.SendCommandSync k (wire_request q) (wire_payload q) init e
    ∧ ready_for p c' ∧ within_reach p c' w' w' ∧ Sim w' (answer (wire_request q) (wire_payload q) e).2.
Proof.
  intros Hserves Hq Hready Hreach Hsim.
  destruct (Hserves q w1 e Hq Hsim) as (Hstable & Hpure & rep & n & w' & Ha & Hok & Hl & Hst & Hsv & Hsim').
  exists n. intros fuel Hfuel.
  destruct (SendCommandSync_run p c w w1 w' n q tt tt rep fuel) as (c' & Hready' & Huse & Hrun); [done..|].
  eexists _, c', w'. split; [exact Hrun|]. split; [|split; [done|split; [by left|done]]].
  unfold Target.SendCommandSync. destruct (answer (wire_request q) (wire_payload q) e) as [a e'] eqn:Heq. cbn [fst snd] in *. subst a.
  reflexivity.
Qed.
End Refinement.

(** ** An example *)

(** It counts the commands. *)
#[local] Instance example_target : Target unit nat := {
  answer _ _ n := (Some (reply_response example_reply), S n);
  next_notification _ _ := None;
  burst _ _ := 0%nat;
  GetNotificationServerAddress _ := None;
  StartNotificationListener n := (true, n);
  RegisterNotificationHandler n := (1, n);
  UnregisterNotificationHandler _ n := n;
  has_handler _ _ := true;
  CloseActiveConnections n := n
}.

Definition without_parser (q : WireRequest) : Prop := wire_parser q = None.

Lemma example_serves p : serves_answers p (λ (greets : bool) (_ : nat), greets = false) without_parser.
Proof.
  intros q w e Hq ->. rewrite Hq. split; [done|]. split; [done|]. exists example_reply, 1%nat, false. split; [done|].
  assert (request_line (wire_request q) ≠ []) as Hline.
  { unfold request_line. intros Hnil. apply (f_equal length) in Hnil. rewrite !length_app in Hnil. cbn in Hnil. lia. }
  split; [unfold example_reply, reply_ok, OK, OK_MULTILINE_RESPONSE, OK_BINARY_RESPONSE; split_and!; first [lia|by_evaluation|done]|].
  split; [vm_compute; reflexivity|]. split; [discriminate|]. split; [|done].
  apply (serves_last p (request_line (wire_request q)) (length (request_line (wire_request q)))); [|discriminate|done].
  intros conn Hconn. rewrite decide_False by done. rewrite <- Hconn in Hline |- *. by apply example_readiness.
Qed.

Lemma example_reach : within_reach (R := WireRequest) (St := unit) (H := unit) 0 new_context false false.
Proof.
  right. split; [done|]. split; [done|]. exists true, 1%nat, "connected"%bs. split; [done|]. split; [by_evaluation|].
  split; [vm_compute; reflexivity|]. split; [lia|]. apply (serves_last 0 [] 0); [|discriminate|done]. by intros conn _.
Qed.

Lemma context_implements_target_witness :
  let q := MkWire (request "go"%bs) None None in
  ∃ n, ∀ fuel, (n ≤ fuel)%nat → ∃ x c' w',
    SendCommandSync (H := unit) fuel q tt (new_context, false) = Some (Some x, (c', w'))
    ∧ (d ← processed_result plain_class tt x; Some (d, 8%nat)) = Target.SendCommandSync plain_class (wire_request q) None tt 7%nat
    ∧ ready_for 0 c' ∧ within_reach 0 c' w' w' ∧ w' = false.
Proof.
  destruct (context_implements_target plain_class tt 0 (λ (greets : bool) (_ : nat), greets = false) without_parser
           (MkWire (request "go"%bs) None None) (new_context (H := unit)) false false 7%nat) as [n Hn].
  - apply example_serves.
  - reflexivity.
  - split; reflexivity.
  - apply example_reach.
  - reflexivity.
  - exists n. intros fuel Hfuel. destruct (Hn fuel Hfuel) as (x & c' & w' & Hrun & Htarget & Hready & Hreach & Hw).
    exists x, c', w'. split; [exact Hrun|]. split; [exact Htarget|]. split; [exact Hready|]. split; [exact Hreach|exact Hw].
Defined.
