(* ===== verification/Swizzle.v ===== *)
(** * Swizzled images (third_party/xemu/swizzle.c, swizzle.h)

    Images the graphics hardware keeps in Z order, with the bits of the two (or
    three) coordinates of a pixel interleaved in its index, and their conversion to
    and from rows of pixels.  [None] stands for an access outside a buffer, a failed
    assertion, or a loop that does not end. *)

From S2P Require Import Prelude CLib DxtLibrary.

(** ** Masks of the coordinates *)

Definition add_bit (bit size mask_bit : Z) (mask : Z) : Z := if bit <? size then Z.lor mask mask_bit else mask.
Definition next_bit (bit size mask_bit : Z) : Z := if bit <? size then u32 (Z.shiftl mask_bit 1) else mask_bit.

(** The loop: [bit] becomes 0 after 32 turns, and is less than every size then. *)
Fixpoint mask_loop (fuel : nat) (width height depth bit mask_bit x y z : Z) : option (Z * Z * Z * Z) :=
  match fuel with
  | O => None
  | S fuel =>
    let x' := add_bit bit width mask_bit x in
    let mask_x := next_bit bit width mask_bit in
    let y' := add_bit bit height mask_x y in
    let mask_y := next_bit bit height mask_x in
    let z' := add_bit bit depth mask_y z in
    let mask_z := next_bit bit depth mask_y in
    if (bit <? width) || (bit <? height) || (bit <? depth)
    then mask_loop fuel width height depth (u32 (Z.shiftl bit 1)) mask_z x' y' z'
    else Some (x', y', z', mask_z)
  end.

Definition generate_swizzle_masks (width height depth : Z) : option (Z * Z * Z) :=
  '(x, y, z, mask_bit) ← mask_loop 33 width height depth 1 1 0 0 0;
  if Z.lxor (Z.lxor x y) z =? u32 (mask_bit - 1) then Some (x, y, z) else None.

(** [(off - mask) & mask] *)
Definition next_offset (mask off : Z) : Z := Z.land (u32 (off - mask)) mask.

(** ** Loops over the pixels

    [move swizzled linear buffer] copies a pixel, given its offsets in the swizzled
    and in the linear image, into the buffer that is filled. *)

Section Loops.
Context (move : nat → nat → bytes → option bytes) (mask_x mask_y mask_z bytes_per_pixel : Z).

Fixpoint move_row (width : nat) (x off_x swizzled_row linear_row : Z) (buffer : bytes) : option bytes :=
  match width with
  | O => Some buffer
  | S width =>
    buffer ← move (Z.to_nat (swizzled_row + u32 (off_x * bytes_per_pixel)))
                  (Z.to_nat (linear_row + u32 (x * bytes_per_pixel))) buffer;
    move_row width (x + 1) (next_offset mask_x off_x) swizzled_row linear_row buffer
  end.

Fixpoint move_rows (width height : nat) (row_pitch y off_y off_z linear_slice : Z) (buffer : bytes) : option bytes :=
  match height with
  | O => Some buffer
  | S height =>
    buffer ← move_row width 0 0 (u32 ((off_y + off_z) * bytes_per_pixel)) (linear_slice + u32 (y * row_pitch)) buffer;
    move_rows width height row_pitch (y + 1) (next_offset mask_y off_y) off_z linear_slice buffer
  end.

Fixpoint move_slices (width height depth : nat) (row_pitch slice_pitch off_z linear_slice : Z) (buffer : bytes) : option bytes :=
  match depth with
  | O => Some buffer
  | S depth =>
    buffer ← move_rows width height row_pitch 0 0 off_z linear_slice buffer;
    move_slices width height depth row_pitch slice_pitch (next_offset mask_z off_z) (linear_slice + slice_pitch) buffer
  end.
End Loops.

(** [memcpy] between offsets of two buffers. *)
Definition copy_pixel (n from to : nat) (src_buf dst_buf : bytes) : option bytes :=
  pixel ← range_of n from src_buf; write_bytes to pixel dst_buf.

Definition swizzle_box (src_buf : bytes) (width height depth : Z) (dst_buf : bytes) (row_pitch slice_pitch bytes_per_pixel : Z)
  : option bytes :=
  '(mask_x, mask_y, mask_z) ← generate_swizzle_masks width height depth;
  move_slices (λ swizzled linear, copy_pixel (Z.to_nat bytes_per_pixel) linear swizzled src_buf)
    mask_x mask_y mask_z bytes_per_pixel (Z.to_nat width) (Z.to_nat height) (Z.to_nat depth) row_pitch slice_pitch 0 0 dst_buf.

Definition unswizzle_box (src_buf : bytes) (width height depth : Z) (dst_buf : bytes) (row_pitch slice_pitch bytes_per_pixel : Z)
  : option bytes :=
  '(mask_x, mask_y, mask_z) ← generate_swizzle_masks width height depth;
  move_slices (λ swizzled linear, copy_pixel (Z.to_nat bytes_per_pixel) swizzled linear src_buf)
    mask_x mask_y mask_z bytes_per_pixel (Z.to_nat width) (Z.to_nat height) (Z.to_nat depth) row_pitch slice_pitch 0 0 dst_buf.

Definition swizzle_rect (src_buf : bytes) (width height : Z) (dst_buf : bytes) (pitch bytes_per_pixel : Z) : option bytes :=
  swizzle_box src_buf width height 1 dst_buf pitch 0 bytes_per_pixel.
Definition unswizzle_rect (src_buf : bytes) (width height : Z) (dst_buf : bytes) (pitch bytes_per_pixel : Z) : option bytes :=
  unswizzle_box src_buf width height 1 dst_buf pitch 0 bytes_per_pixel.

(** ** More memory behind the source changes nothing *)

Section More.
Context (move move' : nat → nat → bytes → option bytes).
Hypothesis Hmove : ∀ a b buffer r, move a b buffer = Some r → move' a b buffer = Some r.

Lemma move_row_more mask_x bpp width : ∀ x off s l buffer r,
  move_row move mask_x bpp width x off s l buffer = Some r → move_row move' mask_x bpp width x off s l buffer = Some r.
Proof.
  induction width as [|width IH]; intros x off s l buffer r; [done|]. cbn [move_row].
  intros (buffer' & Hm & Hr)%bind_Some. rewrite (Hmove _ _ _ _ Hm). by apply IH.
Qed.

Lemma move_rows_more mask_x mask_y bpp width height : ∀ pitch y off_y off_z l buffer r,
  move_rows move mask_x mask_y bpp width height pitch y off_y off_z l buffer = Some r →
  move_rows move' mask_x mask_y bpp width height pitch y off_y off_z l buffer = Some r.
Proof.
  induction height as [|height IH]; intros pitch y off_y off_z l buffer r; [done|]. cbn [move_rows].
  intros (buffer' & Hm & Hr)%bind_Some. apply move_row_more in Hm. rewrite Hm. by apply IH.
Qed.

Lemma move_slices_more mask_x mask_y mask_z bpp width height depth : ∀ pitch slice off_z l buffer r,
  move_slices move mask_x mask_y mask_z bpp width height depth pitch slice off_z l buffer = Some r →
  move_slices move' mask_x mask_y mask_z bpp width height depth pitch slice off_z l buffer = Some r.
Proof.
  induction depth as [|depth IH]; intros pitch slice off_z l buffer r; [done|]. cbn [move_slices].
  intros (buffer' & Hm & Hr)%bind_Some. apply move_rows_more in Hm. rewrite Hm. by apply IH.
Qed.
End More.

Lemma copy_pixel_more n from to src more dst r :
  copy_pixel n from to src dst = Some r → copy_pixel n from to (src ++ more) dst = Some r.
Proof.
  unfold copy_pixel, range_of. destruct (Nat.leb_spec (from + n) (length src)); [|done]. cbn [mbind option_bind].
  rewrite (proj2 (Nat.leb_le _ _)) by (rewrite length_app; lia). cbn [mbind option_bind].
  rewrite drop_app_le by lia. by rewrite take_app_le by (rewrite length_drop; lia).
Qed.

Lemma unswizzle_rect_more src more width height dst pitch bpp r :
  unswizzle_rect src width height dst pitch bpp = Some r → unswizzle_rect (src ++ more) width height dst pitch bpp = Some r.
Proof.
  unfold unswizzle_rect, unswizzle_box. destruct (generate_swizzle_masks width height 1) as [[[x y] z]|]; [|done]. cbn [mbind option_bind].
  apply move_slices_more. intros a b buffer r'. apply copy_pixel_more.
Qed.
