(* ===== verification/TraceTypes.v ===== *)
(** * Formats of images and data of the tracer (src/tracer/frame_capture.cpp, tracer_xbox_shared.h)

    The formats of the images a frame consists of, by the codes the graphics
    hardware has for them: the size of a pixel, the conversion into what an image
    file holds, and the names written to the descriptions.  Then the packed
    structures that the tracer on the console sends: records of their members, read
    from the dwords of a little-endian host.  A union is its dwords. *)

From S2P Require Import Prelude CLib DxtRequests ImageUtil.

(** ** Surfaces *)

Definition SURFACE_FORMAT_Y8 : Z := 0x01.
Definition SURFACE_FORMAT_X1R5G5B5_Z1R5G5B5 : Z := 0x02.
Definition SURFACE_FORMAT_X1R5G5B5_O1R5G5B5 : Z := 0x03.
Definition SURFACE_FORMAT_A1R5G5B5 : Z := 0x04.
Definition SURFACE_FORMAT_R5G6B5 : Z := 0x05.
Definition SURFACE_FORMAT_Y16 : Z := 0x06.
Definition SURFACE_FORMAT_X8R8G8B8_Z8R8G8B8 : Z := 0x07.
Definition SURFACE_FORMAT_X8R8G8B8_O1Z7R8G8B8 : Z := 0x08.
Definition SURFACE_FORMAT_X1A7R8G8B8_Z1A7R8G8B8 : Z := 0x09.
Definition SURFACE_FORMAT_X1A7R8G8B8_O1A7R8G8B8 : Z := 0x0A.
Definition SURFACE_FORMAT_X8R8G8B8_O8R8G8B8 : Z := 0x0B.
Definition SURFACE_FORMAT_A8R8G8B8 : Z := 0x0C.

(** [converter(src, src_size)] *)
Abbreviation Converter := (bytes → Z → option bytes).

Record SurfaceFormatDefinition := MkSurfaceFormat {
  surface_bytes_per_pixel : Z;
  surface_converter : option Converter;
  surface_has_alpha : bool
}.

Definition kSurfaceFormats : gmap Z SurfaceFormatDefinition := list_to_map
  [(SURFACE_FORMAT_Y8, MkSurfaceFormat 1 None false);
   (SURFACE_FORMAT_X1R5G5B5_Z1R5G5B5, MkSurfaceFormat 2 (Some A1R5G5B5ToRGBA888) true);
   (SURFACE_FORMAT_X1R5G5B5_O1R5G5B5, MkSurfaceFormat 2 (Some A1R5G5B5ToRGBA888) true);
   (SURFACE_FORMAT_A1R5G5B5, MkSurfaceFormat 2 (Some A1R5G5B5ToRGBA888) true);
   (SURFACE_FORMAT_R5G6B5, MkSurfaceFormat 2 (Some RGB565ToRGB88) false);
   (SURFACE_FORMAT_Y16, MkSurfaceFormat 2 None false);
   (SURFACE_FORMAT_X8R8G8B8_Z8R8G8B8, MkSurfaceFormat 4 (Some BGRAToRGBA) true);
   (SURFACE_FORMAT_X8R8G8B8_O1Z7R8G8B8, MkSurfaceFormat 4 (Some BGRAToRGBA) true);
   (SURFACE_FORMAT_X1A7R8G8B8_Z1A7R8G8B8, MkSurfaceFormat 4 (Some BGRAToRGBA) true);
   (SURFACE_FORMAT_X1A7R8G8B8_O1A7R8G8B8, MkSurfaceFormat 4 (Some BGRAToRGBA) true);
   (SURFACE_FORMAT_X8R8G8B8_O8R8G8B8, MkSurfaceFormat 4 (Some BGRAToRGBA) true);
   (SURFACE_FORMAT_A8R8G8B8, MkSurfaceFormat 4 (Some BGRAToRGBA) true)].

Definition kSurfaceFormatNames : gmap Z bytes := list_to_map
  [(SURFACE_FORMAT_Y8, "Y8"%bs);
   (SURFACE_FORMAT_X1R5G5B5_Z1R5G5B5, "X1R5G5B5_Z1R5G5B5"%bs);
   (SURFACE_FORMAT_X1R5G5B5_O1R5G5B5, "X1R5G5B5_O1R5G5B5"%bs);
   (SURFACE_FORMAT_A1R5G5B5, "A1R5G5B5"%bs);
   (SURFACE_FORMAT_R5G6B5, "R5G6B5"%bs);
   (SURFACE_FORMAT_Y16, "Y16"%bs);
   (SURFACE_FORMAT_X8R8G8B8_Z8R8G8B8, "X8R8G8B8_Z8R8G8B8"%bs);
   (SURFACE_FORMAT_X8R8G8B8_O1Z7R8G8B8, "X8R8G8B8_O1Z7R8G8B8"%bs);
   (SURFACE_FORMAT_X1A7R8G8B8_Z1A7R8G8B8, "X1A7R8G8B8_Z1A7R8G8B8"%bs);
   (SURFACE_FORMAT_X1A7R8G8B8_O1A7R8G8B8, "X1A7R8G8B8_O1A7R8G8B8"%bs);
   (SURFACE_FORMAT_X8R8G8B8_O8R8G8B8, "X8R8G8B8_O8R8G8B8"%bs);
   (SURFACE_FORMAT_A8R8G8B8, "A8R8G8B8"%bs)].

(** ** Textures *)

Definition NV097_SET_TEXTURE_FORMAT_COLOR_SZ_Y8 : Z := 0x00.
Definition NV097_SET_TEXTURE_FORMAT_COLOR_SZ_AY8 : Z := 0x01.
Definition NV097_SET_TEXTURE_FORMAT_COLOR_SZ_A1R5G5B5 : Z := 0x02.
Definition NV097_SET_TEXTURE_FORMAT_COLOR_SZ_X1R5G5B5 : Z := 0x03.
Definition NV097_SET_TEXTURE_FORMAT_COLOR_SZ_A4R4G4B4 : Z := 0x04.
Definition NV097_SET_TEXTURE_FORMAT_COLOR_SZ_R5G6B5 : Z := 0x05.
Definition NV097_SET_TEXTURE_FORMAT_COLOR_SZ_A8R8G8B8 : Z := 0x06.
Definition NV097_SET_TEXTURE_FORMAT_COLOR_SZ_X8R8G8B8 : Z := 0x07.
Definition NV097_SET_TEXTURE_FORMAT_COLOR_SZ_I8_A8R8G8B8 : Z := 0x0B.
Definition NV097_SET_TEXTURE_FORMAT_COLOR_L_DXT1_A1R5G5B5 : Z := 0x0C.
Definition NV097_SET_TEXTURE_FORMAT_COLOR_L_DXT23_A8R8G8B8 : Z := 0x0E.
Definition NV097_SET_TEXTURE_FORMAT_COLOR_L_DXT45_A8R8G8B8 : Z := 0x0F.
Definition NV097_SET_TEXTURE_FORMAT_COLOR_LU_IMAGE_A1R5G5B5 : Z := 0x10.
Definition NV097_SET_TEXTURE_FORMAT_COLOR_LU_IMAGE_R5G6B5 : Z := 0x11.
Definition NV097_SET_TEXTURE_FORMAT_COLOR_LU_IMAGE_A8R8G8B8 : Z := 0x12.
Definition NV097_SET_TEXTURE_FORMAT_COLOR_LU_IMAGE_Y8 : Z := 0x13.
Definition NV097_SET_TEXTURE_FORMAT_COLOR_LU_IMAGE_R8B8 : Z := 0x16.
Definition NV097_SET_TEXTURE_FORMAT_COLOR_LU_IMAGE_G8B8 : Z := 0x17.
Definition NV097_SET_TEXTURE_FORMAT_COLOR_SZ_A8 : Z := 0x19.
Definition NV097_SET_TEXTURE_FORMAT_COLOR_SZ_A8Y8 : Z := 0x1A.
Definition NV097_SET_TEXTURE_FORMAT_COLOR_LU_IMAGE_AY8 : Z := 0x1B.
Definition NV097_SET_TEXTURE_FORMAT_COLOR_LU_IMAGE_X1R5G5B5 : Z := 0x1C.
Definition NV097_SET_TEXTURE_FORMAT_COLOR_LU_IMAGE_A4R4G4B4 : Z := 0x1D.
Definition NV097_SET_TEXTURE_FORMAT_COLOR_LU_IMAGE_X8R8G8B8 : Z := 0x1E.
Definition NV097_SET_TEXTURE_FORMAT_COLOR_LU_IMAGE_A8 : Z := 0x1F.
Definition NV097_SET_TEXTURE_FORMAT_COLOR_LU_IMAGE_A8Y8 : Z := 0x20.
Definition NV097_SET_TEXTURE_FORMAT_COLOR_LC_IMAGE_CR8YB8CB8YA8 : Z := 0x24.
Definition NV097_SET_TEXTURE_FORMAT_COLOR_LC_IMAGE_YB8CR8YA8CB8 : Z := 0x25.
Definition NV097_SET_TEXTURE_FORMAT_COLOR_SZ_R6G5B5 : Z := 0x27.
Definition NV097_SET_TEXTURE_FORMAT_COLOR_SZ_G8B8 : Z := 0x28.
Definition NV097_SET_TEXTURE_FORMAT_COLOR_SZ_R8B8 : Z := 0x29.
Definition NV097_SET_TEXTURE_FORMAT_COLOR_SZ_DEPTH_Y16_FIXED : Z := 0x2C.
Definition NV097_SET_TEXTURE_FORMAT_COLOR_LU_IMAGE_DEPTH_X8_Y24_FIXED : Z := 0x2E.
Definition NV097_SET_TEXTURE_FORMAT_COLOR_LU_IMAGE_DEPTH_Y16_FIXED : Z := 0x30.
Definition NV097_SET_TEXTURE_FORMAT_COLOR_LU_IMAGE_DEPTH_Y16_FLOAT : Z := 0x31.
Definition NV097_SET_TEXTURE_FORMAT_COLOR_LU_IMAGE_Y16 : Z := 0x35.
Definition NV097_SET_TEXTURE_FORMAT_COLOR_SZ_A8B8G8R8 : Z := 0x3A.
Definition NV097_SET_TEXTURE_FORMAT_COLOR_SZ_B8G8R8A8 : Z := 0x3B.
Definition NV097_SET_TEXTURE_FORMAT_COLOR_SZ_R8G8B8A8 : Z := 0x3C.
Definition NV097_SET_TEXTURE_FORMAT_COLOR_LU_IMAGE_A8B8G8R8 : Z := 0x3F.
Definition NV097_SET_TEXTURE_FORMAT_COLOR_LU_IMAGE_B8G8R8A8 : Z := 0x40.
Definition NV097_SET_TEXTURE_FORMAT_COLOR_LU_IMAGE_R8G8B8A8 : Z := 0x41.

Record TextureFormatDefinition := MkTextureFormat {
  swizzled : bool;
  bytes_per_pixel : Z;
  compressed : bool;
  converter : option Converter;
  has_alpha : bool
}.

Definition kTextureFormats : gmap Z TextureFormatDefinition := list_to_map
  [(NV097_SET_TEXTURE_FORMAT_COLOR_SZ_Y8, MkTextureFormat true 1 false None false);
   (NV097_SET_TEXTURE_FORMAT_COLOR_SZ_A1R5G5B5, MkTextureFormat true 2 false (Some A1R5G5B5ToRGBA888) true);
   (NV097_SET_TEXTURE_FORMAT_COLOR_SZ_X1R5G5B5, MkTextureFormat true 2 false (Some AXR5G5B5ToRGB888) false);
   (NV097_SET_TEXTURE_FORMAT_COLOR_SZ_A4R4G4B4, MkTextureFormat true 2 false (Some A4R4G4B4ToRGBA888) true);
   (NV097_SET_TEXTURE_FORMAT_COLOR_SZ_R5G6B5, MkTextureFormat true 2 false (Some RGB565ToRGB88) false);
   (NV097_SET_TEXTURE_FORMAT_COLOR_LU_IMAGE_A1R5G5B5, MkTextureFormat false 2 false (Some A1R5G5B5ToRGBA888) true);
   (NV097_SET_TEXTURE_FORMAT_COLOR_LU_IMAGE_R5G6B5, MkTextureFormat false 2 false (Some RGB565ToRGB88) false);
   (NV097_SET_TEXTURE_FORMAT_COLOR_LU_IMAGE_X1R5G5B5, MkTextureFormat false 2 false (Some AXR5G5B5ToRGB888) false);
   (NV097_SET_TEXTURE_FORMAT_COLOR_LU_IMAGE_A4R4G4B4, MkTextureFormat false 2 false (Some A4R4G4B4ToRGBA888) true);
   (NV097_SET_TEXTURE_FORMAT_COLOR_SZ_I8_A8R8G8B8, MkTextureFormat true 1 false None true);
   (NV097_SET_TEXTURE_FORMAT_COLOR_L_DXT1_A1R5G5B5, MkTextureFormat false 2 true None true);
   (NV097_SET_TEXTURE_FORMAT_COLOR_L_DXT23_A8R8G8B8, MkTextureFormat false 4 true None true);
   (NV097_SET_TEXTURE_FORMAT_COLOR_L_DXT45_A8R8G8B8, MkTextureFormat false 4 true None true);
   (NV097_SET_TEXTURE_FORMAT_COLOR_SZ_A8R8G8B8, MkTextureFormat true 4 false (Some BGRAToRGBA) true);
   (NV097_SET_TEXTURE_FORMAT_COLOR_LU_IMAGE_A8R8G8B8, MkTextureFormat false 4 false (Some BGRAToRGBA) true);
   (NV097_SET_TEXTURE_FORMAT_COLOR_SZ_X8R8G8B8, MkTextureFormat true 4 false (Some BGRAToRGBA) false);
   (NV097_SET_TEXTURE_FORMAT_COLOR_LU_IMAGE_X8R8G8B8, MkTextureFormat false 4 false (Some BGRAToRGBA) false);
   (NV097_SET_TEXTURE_FORMAT_COLOR_SZ_A8B8G8R8, MkTextureFormat true 4 false None true);
   (NV097_SET_TEXTURE_FORMAT_COLOR_LU_IMAGE_A8B8G8R8, MkTextureFormat false 4 false None true);
   (NV097_SET_TEXTURE_FORMAT_COLOR_LU_IMAGE_B8G8R8A8, MkTextureFormat false 4 false (Some ARGBToRGBA) true);
   (NV097_SET_TEXTURE_FORMAT_COLOR_SZ_B8G8R8A8, MkTextureFormat true 4 false (Some ARGBToRGBA) true);
   (NV097_SET_TEXTURE_FORMAT_COLOR_SZ_R8G8B8A8, MkTextureFormat true 4 false (Some ABGRToRGBA) true);
   (NV097_SET_TEXTURE_FORMAT_COLOR_LU_IMAGE_R8G8B8A8, MkTextureFormat false 4 false (Some ABGRToRGBA) true);
   (NV097_SET_TEXTURE_FORMAT_COLOR_LU_IMAGE_Y8, MkTextureFormat false 1 false None false);
   (NV097_SET_TEXTURE_FORMAT_COLOR_LU_IMAGE_Y16, MkTextureFormat false 2 false None false);
   (NV097_SET_TEXTURE_FORMAT_COLOR_SZ_A8, MkTextureFormat true 1 false None false);
   (NV097_SET_TEXTURE_FORMAT_COLOR_LC_IMAGE_CR8YB8CB8YA8, MkTextureFormat false 4 false None true);
   (NV097_SET_TEXTURE_FORMAT_COLOR_LC_IMAGE_YB8CR8YA8CB8, MkTextureFormat false 4 false None true);
   (NV097_SET_TEXTURE_FORMAT_COLOR_SZ_R6G5B5, MkTextureFormat true 2 false None false);
   (NV097_SET_TEXTURE_FORMAT_COLOR_LU_IMAGE_DEPTH_X8_Y24_FIXED, MkTextureFormat false 4 false None true)].

Definition kTextureFormatNames : gmap Z bytes := list_to_map
  [(NV097_SET_TEXTURE_FORMAT_COLOR_SZ_Y8, "SZ_Y8"%bs);
   (NV097_SET_TEXTURE_FORMAT_COLOR_SZ_AY8, "SZ_AY8"%bs);
   (NV097_SET_TEXTURE_FORMAT_COLOR_SZ_A1R5G5B5, "SZ_A1R5G5B5"%bs);
   (NV097_SET_TEXTURE_FORMAT_COLOR_SZ_X1R5G5B5, "SZ_X1R5G5B5"%bs);
   (NV097_SET_TEXTURE_FORMAT_COLOR_SZ_A4R4G4B4, "SZ_A4R4G4B4"%bs);
   (NV097_SET_TEXTURE_FORMAT_COLOR_SZ_R5G6B5, "SZ_R5G6B5"%bs);
   (NV097_SET_TEXTURE_FORMAT_COLOR_SZ_A8R8G8B8, "SZ_A8R8G8B8"%bs);
   (NV097_SET_TEXTURE_FORMAT_COLOR_SZ_X8R8G8B8, "SZ_X8R8G8B8"%bs);
   (NV097_SET_TEXTURE_FORMAT_COLOR_SZ_I8_A8R8G8B8, "SZ_I8_A8R8G8B8"%bs);
   (NV097_SET_TEXTURE_FORMAT_COLOR_L_DXT1_A1R5G5B5, "L_DXT1_A1R5G5B5"%bs);
   (NV097_SET_TEXTURE_FORMAT_COLOR_L_DXT23_A8R8G8B8, "L_DXT23_A8R8G8B8"%bs);
   (NV097_SET_TEXTURE_FORMAT_COLOR_L_DXT45_A8R8G8B8, "L_DXT45_A8R8G8B8"%bs);
   (NV097_SET_TEXTURE_FORMAT_COLOR_LU_IMAGE_A1R5G5B5, "LU_IMAGE_A1R5G5B5"%bs);
   (NV097_SET_TEXTURE_FORMAT_COLOR_LU_IMAGE_R5G6B5, "LU_IMAGE_R5G6B5"%bs);
   (NV097_SET_TEXTURE_FORMAT_COLOR_LU_IMAGE_A8R8G8B8, "LU_IMAGE_A8R8G8B8"%bs);
   (NV097_SET_TEXTURE_FORMAT_COLOR_LU_IMAGE_Y8, "LU_IMAGE_Y8"%bs);
   (NV097_SET_TEXTURE_FORMAT_COLOR_LU_IMAGE_R8B8, "LU_IMAGE_R8B8"%bs);
   (NV097_SET_TEXTURE_FORMAT_COLOR_LU_IMAGE_G8B8, "LU_IMAGE_G8B8"%bs);
   (NV097_SET_TEXTURE_FORMAT_COLOR_SZ_A8, "SZ_A8"%bs);
   (NV097_SET_TEXTURE_FORMAT_COLOR_SZ_A8Y8, "SZ_A8Y8"%bs);
   (NV097_SET_TEXTURE_FORMAT_COLOR_LU_IMAGE_AY8, "LU_IMAGE_AY8"%bs);
   (NV097_SET_TEXTURE_FORMAT_COLOR_LU_IMAGE_X1R5G5B5, "LU_IMAGE_X1R5G5B5"%bs);
   (NV097_SET_TEXTURE_FORMAT_COLOR_LU_IMAGE_A4R4G4B4, "LU_IMAGE_A4R4G4B4"%bs);
   (NV097_SET_TEXTURE_FORMAT_COLOR_LU_IMAGE_X8R8G8B8, "LU_IMAGE_X8R8G8B8"%bs);
   (NV097_SET_TEXTURE_FORMAT_COLOR_LU_IMAGE_A8, "LU_IMAGE_A8"%bs);
   (NV097_SET_TEXTURE_FORMAT_COLOR_LU_IMAGE_A8Y8, "LU_IMAGE_A8Y8"%bs);
   (NV097_SET_TEXTURE_FORMAT_COLOR_LC_IMAGE_CR8YB8CB8YA8, "LC_IMAGE_CR8YB8CB8YA8"%bs);
   (NV097_SET_TEXTURE_FORMAT_COLOR_LC_IMAGE_YB8CR8YA8CB8, "LC_IMAGE_YB8CR8YA8CB8"%bs);
   (NV097_SET_TEXTURE_FORMAT_COLOR_SZ_R6G5B5, "SZ_R6G5B5"%bs);
   (NV097_SET_TEXTURE_FORMAT_COLOR_SZ_G8B8, "SZ_G8B8"%bs);
   (NV097_SET_TEXTURE_FORMAT_COLOR_SZ_R8B8, "SZ_R8B8"%bs);
   (NV097_SET_TEXTURE_FORMAT_COLOR_SZ_DEPTH_Y16_FIXED, "SZ_DEPTH_Y16_FIXED"%bs);
   (NV097_SET_TEXTURE_FORMAT_COLOR_LU_IMAGE_DEPTH_X8_Y24_FIXED, "LU_IMAGE_DEPTH_X8_Y24_FIXED"%bs);
   (NV097_SET_TEXTURE_FORMAT_COLOR_LU_IMAGE_DEPTH_Y16_FIXED, "LU_IMAGE_DEPTH_Y16_FIXED"%bs);
   (NV097_SET_TEXTURE_FORMAT_COLOR_LU_IMAGE_DEPTH_Y16_FLOAT, "LU_IMAGE_DEPTH_Y16_FLOAT"%bs);
   (NV097_SET_TEXTURE_FORMAT_COLOR_LU_IMAGE_Y16, "LU_IMAGE_Y16"%bs);
   (NV097_SET_TEXTURE_FORMAT_COLOR_SZ_A8B8G8R8, "SZ_A8B8G8R8"%bs);
   (NV097_SET_TEXTURE_FORMAT_COLOR_SZ_B8G8R8A8, "SZ_B8G8R8A8"%bs);
   (NV097_SET_TEXTURE_FORMAT_COLOR_SZ_R8G8B8A8, "SZ_R8G8B8A8"%bs);
   (NV097_SET_TEXTURE_FORMAT_COLOR_LU_IMAGE_A8B8G8R8, "LU_IMAGE_A8B8G8R8"%bs);
   (NV097_SET_TEXTURE_FORMAT_COLOR_LU_IMAGE_B8G8R8A8, "LU_IMAGE_B8G8R8A8"%bs);
   (NV097_SET_TEXTURE_FORMAT_COLOR_LU_IMAGE_R8G8B8A8, "LU_IMAGE_R8G8B8A8"%bs)].

(** A structure of [n] dwords at the front of the bytes; [None] for a read beyond
    their end. *)
Definition read_struct {T} (n : nat) (of_dwords : list Z → option T) (s : bytes) : option T :=
  dwords ← read_addresses n s; of_dwords dwords.
(** A structure as it is sent. *)
Definition struct_bytes (dwords : list Z) : bytes := concat (map (le_bytes 4) dwords).

(** ** Commands of the push buffer *)

Record PushBufferCommand := MkCommand {
  command_valid : Z;
  non_increasing : Z;
  method : Z;
  subchannel : Z;
  parameter_count : Z
}.

Definition PBCPDS_INVALID : Z := 0.
Definition PBCPDS_SMALL_BUFFER : Z := 1.
Definition PBCPDS_HEAP_BUFFER : Z := 2.

(** [data] is the union: the parameters, or an id and three dwords without meaning. *)
Record PushBufferCommandParameters := MkParameters {
  data_state : Z;
  data_id : Z;
  data_rest : list Z  (* 3 *)
}.
Definition data_buffer (p : PushBufferCommandParameters) : list Z := data_id p :: data_rest p.

Record PushBufferCommandTraceInfo := MkTraceInfo {
  valid : Z;
  packet_index : Z;
  draw_index : Z;
  surface_dump_index : Z;
  packet_command : PushBufferCommand;
  address : Z;
  graphics_class : Z;
  packet_data : PushBufferCommandParameters;
  subroutine_return_address : Z
}.

Definition command_dwords (c : PushBufferCommand) : list Z :=
  [command_valid c; non_increasing c; method c; subchannel c; parameter_count c].
Definition parameters_dwords (p : PushBufferCommandParameters) : list Z := data_state p :: data_buffer p.
Definition trace_info_dwords (p : PushBufferCommandTraceInfo) : list Z :=
  [valid p; packet_index p; draw_index p; surface_dump_index p] ++ command_dwords (packet_command p)
  ++ [address p; graphics_class p] ++ parameters_dwords (packet_data p) ++ [subroutine_return_address p].

Definition trace_info_of (dwords : list Z) : option PushBufferCommandTraceInfo :=
  match dwords with
  | [v; i; d; s; cv; ni; m; sc; n; a; g; st; id; b1; b2; b3; ret] =>
    Some (MkTraceInfo v i d s (MkCommand cv ni m sc n) a g (MkParameters st id [b1; b2; b3]) ret)
  | _ => None
  end.
Definition sizeof_PushBufferCommandTraceInfo : nat := 68.

(** ** Auxiliary data *)

Definition ADT_PGRAPH_DUMP : Z := 0.
Definition ADT_PFB_DUMP : Z := 1.
Definition ADT_RDI_DUMP : Z := 2.
Definition ADT_SURFACE : Z := 3.
Definition ADT_TEXTURE : Z := 4.

Record AuxDataHeader := MkAuxData { aux_packet_index : Z; aux_draw_index : Z; data_type : Z; len : Z }.
Definition aux_header_dwords (h : AuxDataHeader) : list Z := [aux_packet_index h; aux_draw_index h; data_type h; len h].
Definition aux_header_of (dwords : list Z) : option AuxDataHeader :=
  match dwords with [i; d; t; n] => Some (MkAuxData i d t n) | _ => None end.
Definition sizeof_AuxDataHeader : nat := 16.

(** [RDIHeader]: the offset and the number of the values that follow. *)
Definition sizeof_RDIHeader : nat := 8.

Definition ST_COLOR : Z := 0.
Definition ST_DEPTH : Z := 1.

Record ImageSaveContext := MkContext {
  provoking_command : Z;
  context_draw_index : Z;
  context_surface_dump_index : Z
}.

Record SurfaceHeader := MkSurface {
  surface_type : Z; surface_format : Z; description_len : Z; surface_len : Z;
  surface_width : Z; surface_height : Z; surface_pitch : Z;
  clip_x : Z; clip_y : Z; clip_width : Z; clip_height : Z;
  surface_swizzle : Z; swizzle_param : Z;
  surface_context : ImageSaveContext
}.
Definition surface_header_of (dwords : list Z) : option SurfaceHeader :=
  match dwords with
  | [t; f; dl; l; w; h; p; cx; cy; cw; ch; s; sp; pc; d; sd] =>
    Some (MkSurface t f dl l w h p cx cy cw ch s sp (MkContext pc d sd))
  | _ => None
  end.
Definition sizeof_SurfaceHeader : nat := 64.

Record TextureHeader := MkTexture {
  stage : Z; layer : Z; texture_len : Z; texture_format : Z;
  texture_width : Z; texture_height : Z; texture_depth : Z; texture_pitch : Z;
  control0 : Z; control1 : Z; image_rect : Z;
  texture_context : ImageSaveContext
}.
Definition texture_header_of (dwords : list Z) : option TextureHeader :=
  match dwords with
  | [st; la; l; f; w; h; d; p; c0; c1; r; pc; di; sd] =>
    Some (MkTexture st la l f w h d p c0 c1 r (MkContext pc di sd))
  | _ => None
  end.
Definition sizeof_TextureHeader : nat := 56.

(** ** Reading what was sent *)

Lemma struct_bytes_length dwords : length (struct_bytes dwords) = (4 * length dwords)%nat.
Proof. unfold struct_bytes. apply concat_length_const. intros. apply le_bytes_length. Qed.

Lemma read_struct_sent {T} (of_dwords : list Z → option T) dwords x rest :
  Forall is_u32 dwords → of_dwords dwords = Some x → read_struct (length dwords) of_dwords (struct_bytes dwords ++ rest) = Some x.
Proof.
  intros Hw Hx. unfold read_struct. enough (read_addresses (length dwords) (struct_bytes dwords ++ rest) = Some dwords) as -> by done.
  clear Hx. induction Hw as [|d l Hd Hl IH]; [done|]. cbn [length read_addresses]. unfold struct_bytes. cbn [map concat]. rewrite <- app_assoc.
  rewrite (proj2 (Nat.ltb_ge _ _)) by (rewrite length_app, le_bytes_length; lia).
  rewrite drop_app_length' by (by rewrite le_bytes_length). fold (struct_bytes l). rewrite IH. cbn [mbind option_bind].
  rewrite take_app_length' by (by rewrite le_bytes_length). by rewrite le_int_bytes.
Qed.

(** A structure is read from its own bytes. *)
Lemma read_struct_front {T} n (of_dwords : list Z → option T) s rest :
  (4 * n ≤ length s)%nat → read_struct n of_dwords (s ++ rest) = read_struct n of_dwords s.
Proof.
  intros Hl. unfold read_struct. enough (read_addresses n (s ++ rest) = read_addresses n s) as -> by done.
  revert s Hl. induction n as [|n IH]; intros s Hl; [done|]. cbn [read_addresses].
  rewrite !(proj2 (Nat.ltb_ge _ _)) by (rewrite ?length_app; lia). rewrite drop_app_le by lia. rewrite IH by (rewrite length_drop; lia).
  by rewrite take_app_le by lia.
Qed.

Lemma trace_info_length p : length (data_rest (packet_data p)) = 3%nat → length (trace_info_dwords p) = 17%nat.
Proof. intros Hl. unfold trace_info_dwords, parameters_dwords, data_buffer. rewrite !length_app. cbn [length command_dwords]. rewrite Hl. done. Qed.

Lemma trace_info_of_dwords p : length (data_rest (packet_data p)) = 3%nat → trace_info_of (trace_info_dwords p) = Some p.
Proof.
  destruct p as [v i d s [cv ni m sc n] a g [st id rest] ret]. cbn. intros Hl.
  destruct rest as [|b1 [|b2 [|b3 [|]]]]; try discriminate. reflexivity.
Qed.

Lemma read_struct_some {T} n (of_dwords : list Z → option T) s :
  (4 * n ≤ length s)%nat → (∀ l, length l = n → is_Some (of_dwords l)) → is_Some (read_struct n of_dwords s).
Proof.
  intros Hl Hof. unfold read_struct. enough (∃ l, read_addresses n s = Some l ∧ length l = n) as (l & -> & Hn) by (cbn; auto).
  clear Hof. revert s Hl. induction n as [|n IH]; intros s Hl; [by exists []|]. cbn [read_addresses].
  rewrite (proj2 (Nat.ltb_ge _ _)) by lia. destruct (IH (drop 4 s)) as (l & -> & Hn); [rewrite length_drop; lia|]. cbn.
  eexists. split; [done|]. cbn. lia.
Qed.
