(* ===== verification/FrameCapture.v ===== *)
(** * Frames captured from the console (src/tracer/frame_capture.h, frame_capture.cpp)

    The commands of a frame and the images and dumps that belong to them, as the
    tracer on the console sends them: bytes that are kept until they make up a whole
    packet.  The log and the files of the frame go to the local disk.  [None] stands
    for a failed assertion, an exception nobody catches, or an access outside a
    buffer; messages to the program's own log are left out. *)

From S2P Require Import Prelude CLib Boost Parsing RdcpResponse RdcpRequest Requests Target FileUtil DxtLibrary DxtRequests ImageUtil Swizzle TraceTypes.

(** ** State *)

(** [nv2a_log_] is the text of the log and whether its file could be opened. *)
Record FrameCapture := MkCapture {
  pgraph_parameter_map : gmap Z (list Z);
  pgraph_commands : list PushBufferCommandTraceInfo;
  next_free_id : Z;
  artifact_path_ : bytes;
  nv2a_log_ : bytes;
  log_opened : bool;
  verbose_logging_ : bool;
  pgraph_trace_buffer_ : bytes;
  aux_trace_buffer_ : bytes
}.

(** [verbose_logging_] is not initialised. *)
Definition new_capture (verbose : bool) : FrameCapture := MkCapture ∅ [] 0 [] [] false verbose [] [].

Definition with_parameters (m : gmap Z (list Z)) (c : FrameCapture) : FrameCapture :=
  MkCapture m (pgraph_commands c) (next_free_id c) (artifact_path_ c) (nv2a_log_ c) (log_opened c) (verbose_logging_ c)
    (pgraph_trace_buffer_ c) (aux_trace_buffer_ c).
Definition with_next_id (id : Z) (c : FrameCapture) : FrameCapture :=
  MkCapture (pgraph_parameter_map c) (pgraph_commands c) id (artifact_path_ c) (nv2a_log_ c) (log_opened c) (verbose_logging_ c)
    (pgraph_trace_buffer_ c) (aux_trace_buffer_ c).
Definition push_command (p : PushBufferCommandTraceInfo) (c : FrameCapture) : FrameCapture :=
  MkCapture (pgraph_parameter_map c) (pgraph_commands c ++ [p]) (next_free_id c) (artifact_path_ c) (nv2a_log_ c) (log_opened c)
    (verbose_logging_ c) (pgraph_trace_buffer_ c) (aux_trace_buffer_ c).
Definition write_log (text : bytes) (c : FrameCapture) : FrameCapture :=
  MkCapture (pgraph_parameter_map c) (pgraph_commands c) (next_free_id c) (artifact_path_ c) (nv2a_log_ c ++ text) (log_opened c)
    (verbose_logging_ c) (pgraph_trace_buffer_ c) (aux_trace_buffer_ c).
Definition with_log_opened (opened : bool) (c : FrameCapture) : FrameCapture :=
  MkCapture (pgraph_parameter_map c) (pgraph_commands c) (next_free_id c) (artifact_path_ c) (nv2a_log_ c) opened
    (verbose_logging_ c) (pgraph_trace_buffer_ c) (aux_trace_buffer_ c).
Definition with_pgraph_buffer (b : bytes) (c : FrameCapture) : FrameCapture :=
  MkCapture (pgraph_parameter_map c) (pgraph_commands c) (next_free_id c) (artifact_path_ c) (nv2a_log_ c) (log_opened c)
    (verbose_logging_ c) b (aux_trace_buffer_ c).
Definition with_aux_buffer (b : bytes) (c : FrameCapture) : FrameCapture :=
  MkCapture (pgraph_parameter_map c) (pgraph_commands c) (next_free_id c) (artifact_path_ c) (nv2a_log_ c) (log_opened c)
    (verbose_logging_ c) (pgraph_trace_buffer_ c) b.

(** ** The log of the commands *)

Definition NV097_CLEAR_SURFACE : Z := 0x1D94.
Definition NV097_BACK_END_WRITE_SEMAPHORE_RELEASE : Z := 0x1D70.
Definition NV097_SET_BEGIN_END : Z := 0x17FC.

Definition is_surface_dump_trigger (command : Z) : bool :=
  (command =? NV097_CLEAR_SURFACE) || (command =? NV097_BACK_END_WRITE_SEMAPHORE_RELEASE) || (command =? NV097_SET_BEGIN_END).

Definition kProvokingCommandNames : gmap Z bytes := list_to_map
  [(NV097_CLEAR_SURFACE, "NV097_CLEAR_SURFACE"%bs);
   (NV097_BACK_END_WRITE_SEMAPHORE_RELEASE, "NV097_BACK_END_WRITE_SEMAPHORE_RELEASE"%bs);
   (NV097_SET_BEGIN_END, "NV097_SET_BEGIN_END"%bs)].

(** [<< std::endl] *)
Definition endl (text : bytes) : bytes := text ++ [Byte.x0a].

(** The closure [log]. *)
Definition log_method (p : PushBufferCommandTraceInfo) (method : Z) (param : option Z) : bytes :=
  endl ("nv2a_pgraph_method "%bs ++ fmt_u (subchannel (packet_command p)) ++ ": 0x"%bs ++ fmt_x (graphics_class p) ++ " -> 0x"%bs
        ++ fmt_x method ++ match param with None => " <NO_DATA>"%bs | Some v => " 0x"%bs ++ fmt_x v end)
  ++ (if (graphics_class p =? 0x97) && is_surface_dump_trigger method
      then endl ("// Surface dump: frame_draw="%bs ++ fmt_u (draw_index p) ++ " surface_dump="%bs ++ fmt_u (surface_dump_index p))
      else []).

(** [data ? data + i : nullptr], dereferenced. *)
Definition param_at (params : option (list Z)) (i : nat) : option (option Z) :=
  match params with None => Some None | Some l => Some <$> l !! i end.

(** The loop over the parameters. *)
Fixpoint log_methods (p : PushBufferCommandTraceInfo) (params : option (list Z)) (count i : nat) (method : Z) : option bytes :=
  match count with
  | O => Some []
  | S count =>
    param ← param_at params i;
    rest ← log_methods p params count (S i) (if non_increasing (packet_command p) =? 0 then u32 (method + 4) else method);
    Some (log_method p method param ++ rest)
  end.

(** [std::hex] is in force for the numbers of the parameters. *)
Fixpoint log_params (params : list Z) (count i : nat) : option bytes :=
  match count with
  | O => Some []
  | S count =>
    v ← params !! i;
    rest ← log_params params count (S i);
    Some (endl ("    Param["%bs ++ fmt_x (Z.of_nat (S i)) ++ "]: 0x"%bs ++ fmt_x v) ++ rest)
  end.

Definition detailed_info (p : PushBufferCommandTraceInfo) (params : option (list Z)) : option bytes :=
  let c := packet_command p in
  listed ← match params with None => Some [] | Some l => log_params l (Z.to_nat (parameter_count c)) 0 end;
  Some (endl "  Detailed info:"%bs ++ endl ("    Address: 0x"%bs ++ fmt_x (address p)) ++ endl ("    Method: 0x"%bs ++ fmt_x (method c))
        ++ endl ("    Non increasing: "%bs ++ (if non_increasing c =? 0 then "FALSE"%bs else "TRUE"%bs))
        ++ endl ("    Subchannel: 0x"%bs ++ fmt_x (subchannel c)) ++ listed ++ endl []).

(** What [LogPacket] writes. *)
Definition packet_text (verbose : bool) (p : PushBufferCommandTraceInfo) (params : option (list Z)) : option bytes :=
  let c := packet_command p in
  methods ← (if command_valid c =? 0 then Some [] else log_methods p params (Z.to_nat (parameter_count c)) 0 (method c));
  details ← (if verbose then detailed_info p params else Some []);
  Some (methods ++ details).

(** [pgraph_parameter_map[id]] adds an entry that is missing; [data()] of an empty
    vector is a null pointer. *)
Definition parameters_entry (id : Z) (c : FrameCapture) : list Z * FrameCapture :=
  match pgraph_parameter_map c !! id with
  | Some l => (l, c)
  | None => ([], with_parameters (<[id := []]> (pgraph_parameter_map c)) c)
  end.
Definition vector_data (l : list Z) : option (list Z) := match l with [] => None | _ => Some l end.

Definition packet_data_pointer (p : PushBufferCommandTraceInfo) (c : FrameCapture) : option (list Z) * FrameCapture :=
  let d := packet_data p in
  if data_state d =? PBCPDS_SMALL_BUFFER then (Some (data_buffer d), c)
  else if data_state d =? PBCPDS_HEAP_BUFFER then
    let '(l, c) := parameters_entry (data_id d) c in (vector_data l, c)
  else (None, c).

Definition LogPacket (p : PushBufferCommandTraceInfo) (c : FrameCapture) : option FrameCapture :=
  let '(params, c) := packet_data_pointer p c in
  text ← packet_text (verbose_logging_ c) p params;
  Some (write_log text c).

(** ** Packets of commands *)

(** Whether parameters follow the packet, and how many bytes. *)
Definition has_parameters (p : PushBufferCommandTraceInfo) : bool :=
  negb (command_valid (packet_command p) =? 0) && (data_state (packet_data p) =? PBCPDS_HEAP_BUFFER)
  && negb (parameter_count (packet_command p) =? 0).
Definition additional_data_size (p : PushBufferCommandTraceInfo) : Z := u32 (4 * parameter_count (packet_command p)).

Definition with_data_id (id : Z) (p : PushBufferCommandTraceInfo) : PushBufferCommandTraceInfo :=
  MkTraceInfo (valid p) (packet_index p) (draw_index p) (surface_dump_index p) (packet_command p) (address p) (graphics_class p)
    (MkParameters (data_state (packet_data p)) id (data_rest (packet_data p))) (subroutine_return_address p).

Definition take_packet (p : PushBufferCommandTraceInfo) (c : FrameCapture) : option FrameCapture :=
  LogPacket p (push_command p c).

Definition take_parameters (p : PushBufferCommandTraceInfo) (params : list Z) (c : FrameCapture) : option FrameCapture :=
  let id := next_free_id c in
  if id <? 0xFFFFFFFF then
    take_packet (with_data_id id p) (with_parameters (emplace id params (pgraph_parameter_map c)) (with_next_id (id + 1) c))
  else None.

(** The loop over the buffer, which returns what is left of it. *)
Fixpoint process_packets (fuel : nat) (buffer : bytes) (c : FrameCapture) : option (bytes * FrameCapture) :=
  match fuel with
  | O => None
  | S fuel =>
    if (length buffer <? sizeof_PushBufferCommandTraceInfo)%nat then Some (buffer, c)
    else
      packet ← read_struct 17 trace_info_of buffer;
      let rest := drop sizeof_PushBufferCommandTraceInfo buffer in
      if has_parameters packet then
        if Z.of_nat (length rest) <? additional_data_size packet then Some (buffer, c)
        else
          params ← read_addresses (Z.to_nat (parameter_count (packet_command packet))) rest;
          c ← take_parameters packet params c;
          process_packets fuel (drop (Z.to_nat (additional_data_size packet)) rest) c
      else
        c ← take_packet packet c;
        process_packets fuel rest c
  end.

Definition ProcessPGRAPHBuffer (c : FrameCapture) : option FrameCapture :=
  '(left_over, c) ← process_packets (S (length (pgraph_trace_buffer_ c))) (pgraph_trace_buffer_ c) c;
  Some (with_pgraph_buffer left_over c).
