(* ===== verification/FrameImages.v ===== *)
(** * Images of a frame (src/tracer/frame_capture.cpp)

    The image files of surfaces and textures and the descriptions beside them.  The
    PNG encoder (lodepng) and the contents of memory that was just allocated are
    the interface [ImageTools].  [None] stands for a failed assertion or an access
    outside a buffer. *)

From S2P Require Import Prelude CLib Boost ImageUtil DxtLibrary Swizzle TraceTypes FrameCapture.

(** ** The PNG encoder *)

Inductive LodePNGColorType := LCT_GREY | LCT_RGB | LCT_RGBA.

Class ImageTools := {
  (** [lodepng::encode(out, in, w, h, colortype, bitdepth)] into an empty [out]:
      the status and the file; [None] when it reads beyond the bytes at [in] *)
  lodepng_encode : bytes → Z → Z → LodePNGColorType → Z → option (Z * bytes);
  (** [new uint8_t[n]] *)
  fresh_memory : nat → bytes;
  fresh_memory_length n : length (fresh_memory n) = n;
  (** the encoder reads the pixels and nothing behind them *)
  encode_reads_pixels input more w h color depth r :
    lodepng_encode input w h color depth = Some r → lodepng_encode (input ++ more) w h color depth = Some r
}.

(** The bytes of the pixels of an image. *)
Definition color_channels (color : LodePNGColorType) : Z := match color with LCT_GREY => 1 | LCT_RGB => 3 | LCT_RGBA => 4 end.
Definition image_size (width height : Z) (color : LodePNGColorType) (bitdepth : Z) : Z :=
  width * height * (color_channels color * bitdepth / 8).

Section Images.
Context `{!ImageTools}.

(** The pixels as rows: unswizzled into a new buffer, or as they are. *)
Definition linear_pixels (swizzled : bool) (raw : bytes) (data_len width height pitch bytes_per_pixel : Z) : option bytes :=
  if swizzled then unswizzle_rect raw width height (fresh_memory (Z.to_nat data_len)) pitch bytes_per_pixel else Some raw.

Definition converted_pixels (convert : option Converter) (input : bytes) (data_len : Z) : option bytes :=
  match convert with Some f => f input data_len | None => Some input end.

(** What is written to the file: nothing when the encoder fails. *)
Definition encoded_file (result : Z * bytes) : bytes := if result.1 =? 0 then result.2 else [].

Definition surface_color (surface_type : Z) (f : SurfaceFormatDefinition) : LodePNGColorType * Z :=
  if (surface_type =? SURFACE_FORMAT_Y8) || (surface_type =? SURFACE_FORMAT_Y16) then (LCT_GREY, surface_bytes_per_pixel f * 8)
  else if surface_has_alpha f then (LCT_RGBA, 8) else (LCT_RGB, 8).

(** The bytes written to the stream. *)
Definition SaveSurfaceImage (raw : bytes) (data_len surface_type width height pitch : Z) (swizzle : bool) : option bytes :=
  f ← kSurfaceFormats !! surface_type;
  input ← linear_pixels swizzle raw data_len width height pitch (surface_bytes_per_pixel f);
  input ← converted_pixels (surface_converter f) input data_len;
  let '(color, bitdepth) := surface_color surface_type f in
  result ← lodepng_encode input width height color bitdepth;
  Some (encoded_file result).

Definition texture_compression (texture_type : Z) : DXTCompression :=
  if texture_type =? NV097_SET_TEXTURE_FORMAT_COLOR_L_DXT1_A1R5G5B5 then DXT1
  else if texture_type =? NV097_SET_TEXTURE_FORMAT_COLOR_L_DXT23_A8R8G8B8 then DXT3
  else if texture_type =? NV097_SET_TEXTURE_FORMAT_COLOR_L_DXT45_A8R8G8B8 then DXT5
  else INVALID.

Definition texture_color (texture_type : Z) (f : TextureFormatDefinition) : LodePNGColorType * Z :=
  if (texture_type =? NV097_SET_TEXTURE_FORMAT_COLOR_SZ_Y8) || (texture_type =? NV097_SET_TEXTURE_FORMAT_COLOR_LU_IMAGE_Y16)
     || (texture_type =? NV097_SET_TEXTURE_FORMAT_COLOR_SZ_A8) then (LCT_GREY, bytes_per_pixel f * 8)
  else if has_alpha f then (LCT_RGBA, 8) else (LCT_RGB, 8).

Definition SaveTextureImage (raw : bytes) (data_len texture_type : Z) (f : TextureFormatDefinition)
    (mipmap_count width height depth pitch : Z) : option bytes :=
  input ← linear_pixels (swizzled f) raw data_len width height pitch (bytes_per_pixel f);
  input ← converted_pixels (converter f) input data_len;
  result ← (if compressed f then EncodeDDS [] input data_len width height (texture_compression texture_type)
            else let '(color, bitdepth) := texture_color texture_type f in lodepng_encode input width height color bitdepth);
  Some (encoded_file result).
End Images.

(** ** Descriptions *)

(** [   "key": ] in front of a value, numbers, texts, and numbers in hexadecimal. *)
Definition member (key value : bytes) : bytes := "    "%bs ++ quote :: key ++ quote :: ": "%bs ++ value.
Definition in_quotes (s : bytes) : bytes := quote :: s ++ [quote].
Definition hex_text (n : Z) : bytes := in_quotes ("0x"%bs ++ fmt_0x 8 n).
Definition member_line (key value : bytes) : bytes := endl (member key value ++ ","%bs).
Definition last_member_line (key value : bytes) : bytes := endl (member key value).

(** A member that is left out when the code has no name. *)
Definition name_line (key : bytes) (names : gmap Z bytes) (code : Z) : bytes :=
  match names !! code with Some name => member_line key (in_quotes name) | None => [] end.

Definition object_text (name members : bytes) : bytes :=
  endl "{"%bs ++ endl ("  "%bs ++ in_quotes name ++ ": {"%bs) ++ members ++ endl "  }"%bs ++ endl "}"%bs.

Definition surface_description (packet : AuxDataHeader) (h : SurfaceHeader) (surface_type description : bytes) : bytes :=
  object_text "surface"%bs
    (member_line "description"%bs (in_quotes description)
     ++ member_line "draw"%bs (fmt_u (aux_draw_index packet))
     ++ member_line "surface_dump"%bs (fmt_u (context_surface_dump_index (surface_context h)))
     ++ name_line "provoking_command"%bs kProvokingCommandNames (provoking_command (surface_context h))
     ++ member_line "provoking_command_hex"%bs (hex_text (provoking_command (surface_context h)))
     ++ member_line "type"%bs (in_quotes surface_type)
     ++ name_line "format"%bs kSurfaceFormatNames (surface_format h)
     ++ member_line "format_hex"%bs (hex_text (surface_format h))
     ++ member_line "swizzle"%bs (fmt_u (surface_swizzle h))
     ++ member_line "format_hex"%bs (hex_text (swizzle_param h))
     ++ member_line "clip_x"%bs (fmt_u (clip_x h)) ++ member_line "clip_y"%bs (fmt_u (clip_y h))
     ++ member_line "clip_width"%bs (fmt_u (clip_width h)) ++ member_line "clip_height"%bs (fmt_u (clip_height h))
     ++ member_line "width"%bs (fmt_u (surface_width h)) ++ member_line "height"%bs (fmt_u (surface_height h))
     ++ last_member_line "pitch"%bs (fmt_u (surface_pitch h))).

(** [texture_type] and [mipmap_levels]. *)
Definition texture_type_of (h : TextureHeader) : Z := Z.land (Z.shiftr (texture_format h) 8) 0x7F.
Definition mipmap_levels_of (h : TextureHeader) : Z := Z.land (Z.shiftr (texture_format h) 16) 0x0F.

Definition texture_description (packet : AuxDataHeader) (h : TextureHeader) : bytes :=
  object_text "texture"%bs
    (member_line "stage"%bs (in_quotes (fmt_u (stage h))) ++ member_line "layer"%bs (in_quotes (fmt_u (layer h)))
     ++ member_line "draw"%bs (fmt_u (aux_draw_index packet))
     ++ member_line "surface_dump"%bs (fmt_u (context_surface_dump_index (texture_context h)))
     ++ name_line "provoking_command"%bs kProvokingCommandNames (provoking_command (texture_context h))
     ++ member_line "provoking_command_hex"%bs (hex_text (provoking_command (texture_context h)))
     ++ member_line "width"%bs (fmt_u (texture_width h)) ++ member_line "height"%bs (fmt_u (texture_height h))
     ++ member_line "depth"%bs (fmt_u (texture_depth h)) ++ member_line "pitch"%bs (fmt_u (texture_pitch h))
     ++ member_line "mipmap_levels"%bs (fmt_u (mipmap_levels_of h))
     ++ name_line "type"%bs kTextureFormatNames (texture_type_of h)
     ++ member_line "type_hex"%bs (hex_text (texture_type_of h))
     ++ member_line "format"%bs (fmt_u (texture_format h)) ++ member_line "format_hex"%bs (hex_text (texture_format h))
     ++ member_line "imagerect_hex"%bs (hex_text (image_rect h))
     ++ member_line "control0"%bs (fmt_u (control0 h)) ++ member_line "control0_hex"%bs (hex_text (control0 h))
     ++ member_line "control1"%bs (fmt_u (control1 h)) ++ last_member_line "control1_hex"%bs (hex_text (control1 h))).

(** ** An encoder for the examples

    It stores the pixels as they are. *)
Definition store_pixels (input : bytes) (width height : Z) (color : LodePNGColorType) (bitdepth : Z) : option (Z * bytes) :=
  let size := image_size width height color bitdepth in
  if size <=? Z.of_nat (length input) then Some (0, take (Z.to_nat size) input) else None.

#[export, refine] Instance stored_images : ImageTools := {
  lodepng_encode := store_pixels;
  fresh_memory n := replicate n NUL
}.
Proof.
  - intros n. apply length_replicate.
  - intros input more w h color depth r. unfold store_pixels. destruct (Z.leb_spec (image_size w h color depth) (Z.of_nat (length input))); [|done].
    rewrite (proj2 (Z.leb_le _ _)) by (rewrite length_app; lia). by rewrite take_app_le by lia.
Defined.
