(* ===== verification/TraceImages.v ===== *)
(** * Pixels for the encoder

    The conversion of a format and the color type the PNG encoder is told have to
    agree on the bytes of a pixel: which formats this is so for. *)

From S2P Require Import Prelude CLib ImageUtil DxtLibrary Swizzle TraceTypes FrameCapture FrameImages.

(** [size] bytes for each pixel become [k]. *)
Definition yields (size : Z) (f : option Converter) (k : Z) : Prop :=
  ∀ (n : Z) (src : bytes), 0 ≤ n → n * size < 2 ^ 31 → Z.of_nat (length src) = n * size →
  ∃ out, converted_pixels f src (n * size) = Some out ∧ Z.of_nat (length out) = n * k.

Lemma yields_none size : yields size None size.
Proof. intros n src _ _ Hl. by exists src. Qed.

Lemma yields_pixels channels (k : nat) : (∀ p, length (channels p) = k) → (k ≤ 4)%nat → yields 2 (Some (convert_pixels channels)) (Z.of_nat k).
Proof.
  intros Hk Hk4 n src Hn Hs Hl. destruct (convert_pixels_some channels k src (n * 2) Hk Hk4) as (pixels & _ & Hp & _ & Hc); [lia..|].
  rewrite Z.div_mul in Hp by done. eexists. split; [exact Hc|]. rewrite (concat_length_const _ k) by (intros p; by rewrite length_map). nia.
Qed.

Lemma yields_swizzled order : length order = 4%nat → Forall (λ i, (i < 4)%nat) order → yields 4 (Some (convert_swizzled order)) 4.
Proof.
  intros Ho Hin n src Hn Hs Hl. destruct (swizzle_spec order (Z.to_nat n) src Hin) as (out & Hout & Hol & _); [lia|]. rewrite Ho in Hol.
  exists out. split; [|lia]. cbn [converted_pixels]. unfold convert_swizzled. rewrite Z.div_mul, Hout by done. cbn [mbind option_bind].
  unfold written. destruct (Z.leb_spec (Z.of_nat (length out)) (n * 4)); [done|lia].
Qed.

(** ** The formats *)

(** The encoder reads more than there is. *)
Definition short_formats : list Z :=
  [NV097_SET_TEXTURE_FORMAT_COLOR_SZ_I8_A8R8G8B8; NV097_SET_TEXTURE_FORMAT_COLOR_LU_IMAGE_Y8; NV097_SET_TEXTURE_FORMAT_COLOR_SZ_R6G5B5].
(** It takes pixels of four bytes for pixels of three. *)
Definition padded_formats : list Z :=
  [NV097_SET_TEXTURE_FORMAT_COLOR_SZ_X8R8G8B8; NV097_SET_TEXTURE_FORMAT_COLOR_LU_IMAGE_X8R8G8B8].

Definition pixel_bytes (c : LodePNGColorType * Z) : Z := color_channels c.1 * c.2 / 8.

Definition texture_yield (type : Z) (f : TextureFormatDefinition) (k : Z) : Prop :=
  if decide (type ∈ short_formats) then 0 < k < pixel_bytes (texture_color type f)
  else if decide (type ∈ padded_formats) then k = 4 ∧ pixel_bytes (texture_color type f) = 3
  else k = pixel_bytes (texture_color type f).

Create HintDb yields.
#[export] Hint Resolve yields_none : yields.
#[export] Hint Extern 2 (yields 4 (Some _) _) => apply yields_swizzled; [done|repeat (constructor; [lia|]); constructor] : yields.

Lemma yields_A1R5G5B5 : yields 2 (Some A1R5G5B5ToRGBA888) 4.
Proof. by apply (yields_pixels _ 4). Qed.
Lemma yields_A4R4G4B4 : yields 2 (Some A4R4G4B4ToRGBA888) 4.
Proof. by apply (yields_pixels _ 4). Qed.
Lemma yields_AXR5G5B5 : yields 2 (Some AXR5G5B5ToRGB888) 3.
Proof. apply (yields_pixels _ 3); [done|lia]. Qed.
Lemma yields_RGB565 : yields 2 (Some RGB565ToRGB88) 3.
Proof. apply (yields_pixels _ 3); [done|lia]. Qed.
#[export] Hint Resolve yields_A1R5G5B5 yields_A4R4G4B4 yields_AXR5G5B5 yields_RGB565 : yields.

Ltac table_entries H :=
  apply elem_of_list_to_map_2 in H; repeat (apply elem_of_cons in H as [[= -> ->]|H]); [..|by apply not_elem_of_nil in H].

Lemma surface_yields type f : kSurfaceFormats !! type = Some f →
  yields (surface_bytes_per_pixel f) (surface_converter f) (pixel_bytes (surface_color type f)).
Proof.
  intros H. unfold kSurfaceFormats in H. table_entries H; unfold pixel_bytes; cbn [surface_bytes_per_pixel surface_converter];
    match goal with |- yields _ _ ?k => let v := eval vm_compute in k in change k with v end; auto with yields.
Qed.

Lemma texture_yields type f : kTextureFormats !! type = Some f → compressed f = false →
  ∃ k, yields (bytes_per_pixel f) (converter f) k ∧ texture_yield type f k.
Proof.
  intros H Hc. unfold kTextureFormats in H. table_entries H; try discriminate Hc; clear Hc; eexists; (split; [cbn; auto with yields|]); vm_compute; intuition congruence.
Qed.

(** C40. What is given to the PNG encoder for a surface, and for a texture without
    compression, is as long as the encoder takes it to be for the size of the image
    and the color type it is told, except for textures of five formats: the encoder
    reads beyond the pixels of three of them, and takes the four bytes of a pixel for
    three in the other two. *)
Theorem encoder_input `{!ImageTools} (type width height : Z) (src : bytes) :
  0 < width → 0 < height →
  (∀ f, kSurfaceFormats !! type = Some f → let n := width * height * surface_bytes_per_pixel f in
    n < 2 ^ 31 → Z.of_nat (length src) = n →
    ∃ input, converted_pixels (surface_converter f) src n = Some input
      ∧ Z.of_nat (length input) = image_size width height (surface_color type f).1 (surface_color type f).2)
  ∧ (∀ f, kTextureFormats !! type = Some f → compressed f = false → let n := width * height * bytes_per_pixel f in
    n < 2 ^ 31 → Z.of_nat (length src) = n →
    ∃ input, converted_pixels (converter f) src n = Some input
      ∧ let needed := image_size width height (texture_color type f).1 (texture_color type f).2 in
        (type ∈ short_formats → Z.of_nat (length input) < needed)
        ∧ (type ∈ padded_formats → Z.of_nat (length input) = 4 * (width * height) ∧ needed = 3 * (width * height))
        ∧ (type ∉ short_formats → type ∉ padded_formats → Z.of_nat (length input) = needed)).
Proof.
  intros Hw Hh. split; intros f Hf.
  - intros n Hn Hl. apply surface_yields in Hf. apply (Hf (width * height) src) in Hl as (input & Hi & Hlen); [|nia|done].
    exists input. split; [exact Hi|]. rewrite Hlen. reflexivity.
  - intros Hc n Hn Hl. destruct (texture_yields type f Hf Hc) as (k & Hy & Hk).
    destruct (Hy (width * height) src) as (input & Hi & Hlen); [nia|done..|]. exists input. split; [exact Hi|].
    rewrite Hlen. change (image_size width height (texture_color type f).1 (texture_color type f).2) with (width * height * pixel_bytes (texture_color type f)).
    assert (0 < width * height) by nia. unfold texture_yield in Hk. split_and!.
    + intros Hs. rewrite decide_True in Hk by done. nia.
    + intros Hp. rewrite decide_False, decide_True in Hk; [lia|done|]. intros Hs. revert Hp Hs. unfold padded_formats, short_formats. clear. set_solver.
    + intros Hs Hp. rewrite !decide_False in Hk by done. by rewrite Hk.
Qed.

Lemma encoder_input_witness :
  ∃ input, converted_pixels None "abcd"%bs 4 = Some input ∧ Z.of_nat (length input) < image_size 2 2 LCT_RGB 8.
Proof.
  destruct (encoder_input NV097_SET_TEXTURE_FORMAT_COLOR_LU_IMAGE_Y8 2 2 "abcd"%bs) as [_ Htexture]; [lia|lia|].
  destruct (Htexture (MkTextureFormat false 1 false None false)) as (input & Hi & Hshort & _); [reflexivity..|].
  exists input. split; [exact Hi|]. apply Hshort. by_evaluation.
Defined.
