(* ===== verification/FrameAux.v ===== *)
(** * Auxiliary data of a frame, and fetching it (src/tracer/frame_capture.cpp)

    Dumps of the graphics hardware, surfaces and textures, each of which becomes a
    file or several in the directory of the frame, and the requests that fetch the
    data from the tracer on the console. *)

From S2P Require Import Prelude CLib Boost Parsing RdcpResponse RdcpRequest Requests Notifications Target FileUtil DxtRequests ImageUtil Swizzle TraceTypes FrameCapture FrameImages.

(** [os.write(d, n)] of the bytes at [d]. *)
Definition first_bytes (n : Z) (d : bytes) : option bytes :=
  if n <=? Z.of_nat (length d) then Some (take (Z.to_nat n) d) else None.

(** ** Names of files *)

(** [%010u_%u_] and [%010u_%u_%u_]. *)
Definition record_prefix (packet : AuxDataHeader) : bytes :=
  pad_left "0" 10 (fmt_u (aux_packet_index packet)) ++ "_"%bs ++ fmt_u (aux_draw_index packet) ++ "_"%bs.
Definition image_prefix (packet : AuxDataHeader) (context : ImageSaveContext) : bytes :=
  record_prefix packet ++ fmt_u (context_surface_dump_index context) ++ "_"%bs.

Definition pgraph_filename (packet : AuxDataHeader) : bytes := snprintf 64 (record_prefix packet ++ "PGRAPH.bin"%bs).
Definition pfb_filename (packet : AuxDataHeader) : bytes := snprintf 64 (record_prefix packet ++ "PFB.bin"%bs).
Definition rdi_filename (packet : AuxDataHeader) (region : bytes) : bytes :=
  snprintf 64 (record_prefix packet ++ "RDI_"%bs ++ region ++ ".bin"%bs).
Definition surface_filename (packet : AuxDataHeader) (h : SurfaceHeader) (surface_type extension : bytes) : bytes :=
  snprintf 64 (image_prefix packet (surface_context h) ++ "Surface_"%bs ++ surface_type ++ "."%bs ++ extension).
Definition texture_filename (packet : AuxDataHeader) (h : TextureHeader) (extension : bytes) : bytes :=
  snprintf 64 (image_prefix packet (texture_context h) ++ "Texture_"%bs ++ fmt_d (i32 (stage h)) ++ "_"%bs
               ++ fmt_d (i32 (layer h)) ++ "."%bs ++ extension).

Definition rdi_region (offset : Z) : bytes :=
  if offset =? 0x100000 then "Shader"%bs
  else if offset =? 0x170000 then "Constants_0"%bs
  else if offset =? 0xCC0000 then "Constants_1"%bs
  else snprintf 32 ("UNKNOWN_0x"%bs ++ pad_left "0" 8 (fmt_X offset)).

Definition surface_type_name (type : Z) : bytes :=
  if type =? ST_COLOR then "Color"%bs
  else if type =? ST_DEPTH then "Depth"%bs
  else snprintf 32 ("UNKNOWN_"%bs ++ fmt_d (i32 type)).

(** The format a description names behind [format ], up to the next comma; the
    conversion of what is there throws when it is no number. *)
Definition described_format (description : bytes) : option Z :=
  match find_sub "format "%bs description with
  | None => Some 0
  | Some start =>
    let text := drop (start + 7) description in
    match find_byte "," text with
    | None => Some 0
    | Some stop => match stoul 16 (take stop text) with inl v => Some (u32 v) | inr _ => None end
    end
  end.

(** ** Artifacts

    [d] is everything from the start of the data to the end of the buffer. *)

Section Artifacts.
Context {E : Type} `{!LocalDisk E, !ImageTools}.
Implicit Types (dir d : bytes) (packet : AuxDataHeader).

(** A stream that is opened for the contents and closed; a file that cannot be
    opened goes unnoticed. *)
Definition save_artifact dir (filename contents : bytes) : M E unit :=
  λ e, Some (tt, snd (write_local (path_append dir filename) contents e)).

Definition LogPGRAPH dir packet (data_len : Z) d : M E unit :=
  contents ← lift_option (first_bytes data_len d); save_artifact dir (pgraph_filename packet) contents.

Definition LogPFB dir packet (data_len : Z) d : M E unit :=
  contents ← lift_option (first_bytes data_len d); save_artifact dir (pfb_filename packet) contents.

(** A negative length writes nothing. *)
Definition LogRDI dir packet (data_len : Z) d : M E unit :=
  offset ← lift_option (read_struct 1 head d);
  contents ← lift_option (if data_len <? Z.of_nat sizeof_RDIHeader then Some []
                          else first_bytes (data_len - Z.of_nat sizeof_RDIHeader) (drop sizeof_RDIHeader d));
  save_artifact dir (rdi_filename packet (rdi_region offset)) contents.

Definition LogSurface dir packet (data_len : Z) d : M E unit :=
  h ← lift_option (read_struct 16 surface_header_of d);
  let surface_type := surface_type_name (surface_type h) in
  let d := drop sizeof_SurfaceHeader d in
  let data_len := u32 (data_len - Z.of_nat sizeof_SurfaceHeader) in
  format ← (if description_len h =? 0 then mret 0
            else
              description ← lift_option (first_bytes (description_len h) d);
              save_artifact dir (surface_filename packet h surface_type "txt"%bs) (surface_description packet h surface_type description) ;;
              lift_option (described_format description));
  let d := drop (Z.to_nat (description_len h)) d in
  let data_len := u32 (data_len - description_len h) in
  contents ← lift_option (first_bytes data_len d);
  save_artifact dir (surface_filename packet h surface_type "bin"%bs) contents ;;
  if format =? 0 then mret tt
  else
    image ← lift_option (SaveSurfaceImage d data_len format (surface_width h) (surface_height h) (surface_pitch h)
                           (negb (surface_swizzle h =? 0)));
    save_artifact dir (surface_filename packet h surface_type "png"%bs) image.

Definition LogTexture dir packet (data_len : Z) d : M E unit :=
  h ← lift_option (read_struct 14 texture_header_of d);
  let d := drop sizeof_TextureHeader d in
  let data_len := u32 (data_len - Z.of_nat sizeof_TextureHeader) in
  save_artifact dir (texture_filename packet h "txt"%bs) (texture_description packet h) ;;
  contents ← lift_option (first_bytes data_len d);
  save_artifact dir (texture_filename packet h "bin"%bs) contents ;;
  f ← lift_option (kTextureFormats !! texture_type_of h);
  image ← (if (texture_width h =? 0) || (texture_height h =? 0) then mret []
           else lift_option (SaveTextureImage d data_len (texture_type_of h) f (mipmap_levels_of h) (texture_width h)
                               (texture_height h) (texture_depth h) (texture_pitch h)));
  save_artifact dir (texture_filename packet h (if compressed f then "dds"%bs else "png"%bs)) image.

(** The [switch]. *)
Definition log_record dir packet (d : bytes) : M E unit :=
  if data_type packet =? ADT_PGRAPH_DUMP then LogPGRAPH dir packet (len packet) d
  else if data_type packet =? ADT_PFB_DUMP then LogPFB dir packet (len packet) d
  else if data_type packet =? ADT_RDI_DUMP then LogRDI dir packet (len packet) d
  else if data_type packet =? ADT_SURFACE then LogSurface dir packet (len packet) d
  else if data_type packet =? ADT_TEXTURE then LogTexture dir packet (len packet) d
  else mret tt.

(** The loop over the buffer, which returns what is left of it. *)
Fixpoint process_records (fuel : nat) dir (buffer : bytes) : M E bytes :=
  match fuel with
  | O => mfail
  | S fuel =>
    if (length buffer <? sizeof_AuxDataHeader)%nat then mret buffer
    else
      packet ← lift_option (read_struct 4 aux_header_of buffer);
      let d := drop sizeof_AuxDataHeader buffer in
      if Z.of_nat (length d) <? len packet then mret buffer
      else log_record dir packet d ;; process_records fuel dir (drop (Z.to_nat (len packet)) d)
  end.

Definition ProcessAuxBuffer : M (FrameCapture * E) unit :=
  c ← gets fst;
  left_over ← on_right (process_records (S (length (aux_trace_buffer_ c))) (artifact_path_ c) (aux_trace_buffer_ c));
  on_left (modify (with_aux_buffer left_over)).
End Artifacts.

(** ** The frame *)

Section Frame.
Context {C E : Type} `{!Target C E, !LocalDisk E, !ImageTools} (NTRC_HANDLER_NAME : bytes).
Abbreviation F := (M (FrameCapture * E)).

Definition log_path (c : FrameCapture) : bytes := path_append (artifact_path_ c) "nv2a_log.txt"%bs.

(** The end of every line flushes the stream. *)
Definition flush_log : F unit := λ '(c, e),
  Some (tt, (c, if log_opened c then snd (write_local (log_path c) (nv2a_log_ c) e) else e)).

(** The buffers and the next id stay. *)
Definition Setup (artifact_path : bytes) (verbose : bool) : F unit := λ '(c, e),
  let c := MkCapture ∅ [] (next_free_id c) artifact_path (endl "pgraph method log from nvtrc"%bs) false verbose
             (pgraph_trace_buffer_ c) (aux_trace_buffer_ c) in
  let '(opened, e) := write_local (log_path c) [] e in
  flush_log (with_log_opened opened c, e).

Definition Close : F unit := on_left (modify (with_log_opened false)).

Inductive FetchResult := NO_DATA_AVAILABLE | ERROR | DATA_FETCHED.

#[global] Instance fetch_result_eq : EqDecision FetchResult.
Proof. solve_decision. Defined.

(** A request for data: why there is none, or the data. *)
Definition fetch_data (what : bytes) : M E (FetchResult + bytes) :=
  done ← SendCommandSync InvokeReceiveSizePrefixedBinary_class
           (InvokeReceiveSizePrefixedBinary (NTRC_HANDLER_NAME ++ what ++ " maxsize=0x1000000"%bs) []) None [];
  mret (if IsOK InvokeReceiveSizePrefixedBinary_class (status done)
        then match members done with [] => inl NO_DATA_AVAILABLE | response_data => inr response_data end
        else if status done =? ERR_DATA_NOT_AVAILABLE then inl NO_DATA_AVAILABLE else inl ERROR).

(** What is done with the data of one answer. *)
Definition feed_pgraph (response_data : bytes) : F unit :=
  c ← gets fst;
  c ← lift_option (ProcessPGRAPHBuffer (with_pgraph_buffer (pgraph_trace_buffer_ c ++ response_data) c));
  on_left (put c) ;;
  flush_log.

Definition feed_aux (response_data : bytes) : F unit :=
  on_left (modify (λ c, with_aux_buffer (aux_trace_buffer_ c ++ response_data) c)) ;;
  ProcessAuxBuffer.

Definition FetchPGRAPHTraceData : F FetchResult :=
  fetched ← on_right (fetch_data "!read_pgraph"%bs);
  match fetched with
  | inl result => mret result
  | inr response_data => feed_pgraph response_data ;; mret DATA_FETCHED
  end.

(** [while (true)], as long as there is data. *)
Fixpoint fetch_aux_loop (fuel : nat) (has_fetched_data : bool) : F FetchResult :=
  match fuel with
  | O => mfail
  | S fuel =>
    fetched ← on_right (fetch_data "!read_aux"%bs);
    match fetched with
    | inl ERROR => mret ERROR
    | inl _ => mret (if has_fetched_data then DATA_FETCHED else NO_DATA_AVAILABLE)
    | inr response_data => feed_aux response_data ;; fetch_aux_loop fuel true
    end
  end.
Definition FetchAuxTraceData (fuel : nat) : F FetchResult := fetch_aux_loop fuel false.
End Frame.

(** ** A disk that remembers what was written to it *)

Definition Writes : Type := list (bytes * bytes).

#[export] Instance writes_disk : LocalDisk Writes := {
  read_local p w := snd <$> List.find (λ f : bytes * bytes, bool_decide (f.1 = p)) (rev w);
  last_write_seconds _ _ := None;
  local_file_size _ _ := None;
  directory_entries _ _ := None;
  relative_path _ _ _ := None;
  write_local p contents w := (true, w ++ [(p, contents)]);
  create_directories _ w := w
}.
