(* ===== verification/FrameStream.v ===== *)
(** * Messages that arrive in pieces, and the stream of commands

    A reader keeps the bytes that do not make up a whole message yet.  When it
    handles a whole message at the front of its buffer and goes on, and leaves the
    beginning of a message alone, the messages of a stream are handled once each and
    in order however the stream is cut.  So the commands of a frame, each followed by
    its parameters where these do not fit the packet, are captured once and in order,
    with their parameters, and logged. *)

From S2P Require Import Prelude CLib Boost Parsing RdcpResponse Requests Target FileUtil DxtLibrary DxtRequests TraceTypes FrameCapture FrameImages FrameAux.

Section Framing.
Context {X S : Type} (encode : X → bytes) (ok : X → Prop) (handle : X → M S unit) (process : bytes → M S bytes).

Definition stream (xs : list X) : bytes := concat (map encode xs).

Hypothesis encode_nonempty : ∀ x, encode x ≠ [].
Hypothesis process_nothing : ∀ s, process [] s = Some ([], s).
Hypothesis process_message : ∀ x rest s, ok x → process (encode x ++ rest) s = (handle x ;; process rest) s.
Hypothesis process_beginning : ∀ x front back s, ok x → encode x = front ++ back → back ≠ [] → process front s = Some (front, s).

(** What is processed of the beginning of a stream are the messages that are
    there completely. *)
Lemma process_prefix xs : ∀ front back, Forall ok xs → front ++ back = stream xs →
  ∃ done rest left_over, xs = done ++ rest ∧ left_over ++ back = stream rest
    ∧ (back = [] → left_over = [])
    ∧ ∀ s, process front s = (for_each done handle ;; mret left_over) s.
Proof.
  induction xs as [|x xs IH]; intros front back Hok Hfb.
  { apply app_eq_nil in Hfb as [-> ->]. exists [], [], []. split_and!; [done..|]. intros s. by rewrite process_nothing. }
  apply Forall_cons in Hok as [Hx Hxs]. unfold stream in Hfb. cbn [map concat] in Hfb. fold (stream xs) in Hfb.
  destruct (decide (length front < length (encode x))%nat) as [Hlt|Hge].
  - assert (∃ tail, encode x = front ++ tail ∧ back = tail ++ stream xs ∧ tail ≠ []) as (tail & Hx' & -> & Htail).
    { exists (drop (length front) (encode x)). split_and!.
      - rewrite <- (take_drop (length front) (encode x)) at 1. f_equal.
        apply (f_equal (take (length front))) in Hfb. by rewrite take_app_length, take_app_le in Hfb by lia.
      - apply (f_equal (drop (length front))) in Hfb. by rewrite drop_app_length, drop_app_le in Hfb by lia.
      - intros E%(f_equal length). rewrite length_drop in E. cbn in E. lia. }
    exists [], (x :: xs), front. split_and!; [done| | |].
    + unfold stream at 2. cbn [map concat]. by rewrite Hx', <- app_assoc.
    + intros E. apply app_eq_nil in E as [E _]. done.
    + intros s. by rewrite (process_beginning x front tail).
  - assert (∃ front', front = encode x ++ front' ∧ front' ++ back = stream xs) as (front' & -> & Hfb').
    { exists (drop (length (encode x)) front). split.
      - rewrite <- (take_drop (length (encode x)) front) at 1. f_equal.
        apply (f_equal (take (length (encode x)))) in Hfb. by rewrite take_app_length, take_app_le in Hfb by lia.
      - apply (f_equal (drop (length (encode x)))) in Hfb. by rewrite drop_app_length, drop_app_le in Hfb by lia. }
    destruct (IH front' back Hxs Hfb') as (done_ & rest & left_over & -> & Hrest & Hback & Hp).
    exists (x :: done_), rest, left_over. split_and!; [done..|]. intros s. rewrite process_message by done.
    cbn [for_each]. unfold mbind, M_bind. destruct (handle x s) as [[[] s1]|]; [|done]. cbn. by rewrite Hp.
Qed.

Lemma for_each_app {A} (xs ys : list A) (f : A → M S unit) s :
  for_each (xs ++ ys) f s = (for_each xs f ;; for_each ys f) s.
Proof.
  revert s. induction xs as [|x xs IH]; intros s; [done|]. cbn [app for_each]. unfold mbind, M_bind.
  destruct (f x s) as [[[] s1]|]; [|done]. cbn. by rewrite IH.
Qed.

(** ** Progress

    [progress xs s0 left_over unread s]: of the messages [xs] some were handled,
    which led from [s0] to [s]; [left_over] is kept for the rest, of which [unread]
    is to come. *)
Definition progress (xs : list X) (s0 : S) (left_over unread : bytes) (s : S) : Prop :=
  ∃ done rest, xs = done ++ rest ∧ left_over ++ unread = stream rest ∧ (unread = [] → left_over = [])
    ∧ for_each done handle s0 = Some (tt, s).

Lemma progress_start xs s0 : progress xs s0 [] (stream xs) s0.
Proof. by exists [], xs. Qed.

Lemma progress_step xs s0 left_over chunk unread s :
  Forall ok xs → is_Some (for_each xs handle s0) → progress xs s0 left_over (chunk ++ unread) s →
  ∃ left_over' s', process (left_over ++ chunk) s = Some (left_over', s') ∧ progress xs s0 left_over' unread s'.
Proof.
  intros Hok Hrun (done1 & rest & -> & Hs & _ & Hd). rewrite app_assoc in Hs. apply Forall_app in Hok as [_ Hok].
  destruct (process_prefix rest _ _ Hok Hs) as (done2 & rest' & left' & -> & Hrest & Hback & Hp).
  rewrite app_assoc, for_each_app in Hrun. unfold mbind, M_bind in Hrun.
  destruct (for_each (done1 ++ done2) handle s0) as [[[] s']|] eqn:Hd'; [|by destruct Hrun].
  exists left', s'. split; [|by exists (done1 ++ done2), rest'; rewrite <- app_assoc].
  rewrite Hp. rewrite for_each_app in Hd'. unfold mbind, M_bind in Hd' |- *. rewrite Hd in Hd'. cbn in Hd'. by rewrite Hd'.
Qed.

Lemma progress_end xs s0 left_over s :
  progress xs s0 left_over [] s → left_over = [] ∧ for_each xs handle s0 = Some (tt, s).
Proof.
  intros (done_ & rest & -> & Hs & Hl & Hd). rewrite (Hl eq_refl) in *. split; [done|].
  assert (rest = []) as ->; [|by rewrite app_nil_r].
  destruct rest as [|x rest]; [done|]. symmetry in Hs. unfold stream in Hs. cbn in Hs. apply app_eq_nil in Hs as [Hs _]. by apply encode_nonempty in Hs.
Qed.
End Framing.

(** ** What is sent *)

Record TraceItem := MkItem { item_packet : PushBufferCommandTraceInfo; item_params : list Z }.

Definition item_dwords (it : TraceItem) : list Z := trace_info_dwords (item_packet it) ++ item_params it.
Definition item_bytes (it : TraceItem) : bytes := struct_bytes (item_dwords it).

(** Parameters follow a packet that says so, and only these; a heap buffer without
    parameters, whose id would be the address of the buffer, is left out, and so is
    a count of parameters beyond what the packet can hold. *)
Record item_ok (it : TraceItem) : Prop := {
  item_u32 : Forall is_u32 (item_dwords it);
  item_union : length (data_rest (packet_data (item_packet it))) = 3%nat;
  item_tail : if has_parameters (item_packet it)
              then Z.of_nat (length (item_params it)) = parameter_count (packet_command (item_packet it))
                   ∧ parameter_count (packet_command (item_packet it)) < 2 ^ 30
              else item_params it = [];
  item_heap : data_state (packet_data (item_packet it)) = PBCPDS_HEAP_BUFFER → has_parameters (item_packet it) = true;
  item_small : data_state (packet_data (item_packet it)) = PBCPDS_SMALL_BUFFER → parameter_count (packet_command (item_packet it)) ≤ 4
}.

(** ** One packet *)

Definition capture_item (it : TraceItem) : M FrameCapture unit := λ c,
  c' ← (if has_parameters (item_packet it) then take_parameters (item_packet it) (item_params it) c
        else take_packet (item_packet it) c);
  Some (tt, c').

Lemma capture_then {B} it (k : M FrameCapture B) c :
  (capture_item it ;; k) c
  = (c' ← (if has_parameters (item_packet it) then take_parameters (item_packet it) (item_params it) c
           else take_packet (item_packet it) c); k c').
Proof. unfold capture_item, mbind, M_bind. destruct (has_parameters _); [by destruct (take_parameters _ _ _)|by destruct (take_packet _ _)]. Qed.

Definition process_pgraph (buffer : bytes) : M FrameCapture bytes := process_packets (S (length buffer)) buffer.

Lemma item_bytes_length it : item_ok it → length (item_bytes it) = (68 + 4 * length (item_params it))%nat.
Proof.
  intros Hok. unfold item_bytes. rewrite struct_bytes_length. unfold item_dwords.
  rewrite length_app, trace_info_length by apply (item_union _ Hok). lia.
Qed.

Lemma item_bytes_split it : item_bytes it = struct_bytes (trace_info_dwords (item_packet it)) ++ struct_bytes (item_params it).
Proof. unfold item_bytes, struct_bytes, item_dwords. by rewrite map_app, concat_app. Qed.

Lemma head_bytes_length it : item_ok it → length (struct_bytes (trace_info_dwords (item_packet it))) = 68%nat.
Proof. intros Hok. rewrite struct_bytes_length, trace_info_length by apply (item_union _ Hok). done. Qed.

Lemma read_packet it rest : item_ok it →
  read_struct 17 trace_info_of (struct_bytes (trace_info_dwords (item_packet it)) ++ rest) = Some (item_packet it).
Proof.
  intros Hok. rewrite <- (trace_info_length (item_packet it)) by apply (item_union _ Hok).
  apply read_struct_sent; [|by apply trace_info_of_dwords, (item_union _ Hok)].
  pose proof (item_u32 _ Hok) as Hw. unfold item_dwords in Hw. by apply Forall_app in Hw as [Hw _].
Qed.

Lemma read_addresses_sent params rest : Forall is_u32 params →
  read_addresses (length params) (struct_bytes params ++ rest) = Some params.
Proof.
  intros Hw. pose proof (read_struct_sent (λ l, Some l) params params rest Hw eq_refl) as Hr. unfold read_struct in Hr.
  destruct (read_addresses _ _); [done|discriminate].
Qed.

Lemma additional_size it : item_ok it → has_parameters (item_packet it) = true →
  additional_data_size (item_packet it) = 4 * Z.of_nat (length (item_params it)) ∧ item_params it ≠ [].
Proof.
  intros Hok Hh. pose proof (item_tail _ Hok) as Ht. rewrite Hh in Ht. destruct Ht as [Hl Hlt].
  unfold additional_data_size. rewrite u32_id by (unfold is_u32; lia). split; [lia|].
  unfold has_parameters in Hh. apply andb_prop in Hh as [_ Hc]. destruct (item_params it); [|done]. cbn in Hl. by rewrite <- Hl in Hc.
Qed.

(** *** The length of the buffer is enough fuel *)

Lemma process_packets_fuel f1 : ∀ f2 buffer c, (length buffer < f1)%nat → (length buffer < f2)%nat →
  process_packets f1 buffer c = process_packets f2 buffer c.
Proof.
  induction f1 as [|f1 IH]; intros [|f2] buffer c H1 H2; try lia. cbn [process_packets].
  destruct (Nat.ltb_spec (length buffer) sizeof_PushBufferCommandTraceInfo) as [|Hl]; [done|].
  unfold sizeof_PushBufferCommandTraceInfo in Hl.
  destruct (read_struct 17 trace_info_of buffer) as [p|]; [|done]. cbn [mbind option_bind].
  assert (length (drop sizeof_PushBufferCommandTraceInfo buffer) < f1 ∧ length (drop sizeof_PushBufferCommandTraceInfo buffer) < f2)%nat as [Hd1 Hd2]
    by (rewrite length_drop; unfold sizeof_PushBufferCommandTraceInfo; lia).
  destruct (has_parameters p).
  - destruct (_ <? _); [done|]. destruct (read_addresses _ _) as [params|]; [|done]. cbn [mbind option_bind].
    destruct (take_parameters _ _ _) as [c'|]; [|done]. cbn [mbind option_bind]. apply IH; rewrite length_drop; lia.
  - destruct (take_packet _ _) as [c'|]; [|done]. cbn [mbind option_bind]. by apply IH.
Qed.

(** *** A whole packet and the beginning of one *)

Lemma process_item it rest c : item_ok it →
  process_pgraph (item_bytes it ++ rest) c = (capture_item it ;; process_pgraph rest) c.
Proof.
  intros Hok. unfold process_pgraph at 1. cbn [process_packets]. pose proof (item_bytes_length it Hok) as Hl. pose proof (head_bytes_length it Hok) as Hh.
  rewrite (proj2 (Nat.ltb_ge _ _)) by (unfold sizeof_PushBufferCommandTraceInfo; rewrite length_app; lia).
  rewrite item_bytes_split, <- app_assoc, read_packet by done. cbn [mbind option_bind]. rewrite drop_app_length' by done.
  rewrite capture_then. destruct (has_parameters (item_packet it)) eqn:Hp.
  - destruct (additional_size it Hok Hp) as [Hsize Hne]. pose proof (item_tail _ Hok) as Ht. rewrite Hp in Ht. destruct Ht as [Hn _].
    rewrite (length_app (struct_bytes (item_params it)) rest), struct_bytes_length, Hsize. destruct (Z.ltb_spec (Z.of_nat (4 * length (item_params it) + length rest)) (4 * Z.of_nat (length (item_params it)))); [lia|].
    rewrite <- Hn, Nat2Z.id, read_addresses_sent.
    2: { pose proof (item_u32 _ Hok) as Hw. unfold item_dwords in Hw. by apply Forall_app in Hw as [_ Hw]. }
    cbn [mbind option_bind]. destruct (take_parameters _ _ _) as [c'|]; [|done]. cbn [mbind option_bind].
    rewrite drop_app_length' by (rewrite struct_bytes_length; lia). unfold process_pgraph. apply process_packets_fuel; rewrite ?length_app; lia.
  - pose proof (item_tail _ Hok) as Ht. rewrite Hp in Ht. rewrite Ht. cbn [struct_bytes map concat app].
    destruct (take_packet _ _) as [c'|]; [|done]. cbn [mbind option_bind]. unfold process_pgraph. apply process_packets_fuel; rewrite ?length_app; lia.
Qed.

Lemma process_partial it front back c : item_ok it → item_bytes it = front ++ back → back ≠ [] →
  process_pgraph front c = Some (front, c).
Proof.
  intros Hok Hs Hb. unfold process_pgraph. cbn [process_packets]. unfold sizeof_PushBufferCommandTraceInfo.
  destruct (Nat.ltb_spec (length front) 68) as [|Hge]; [done|]. rewrite item_bytes_split in Hs. pose proof (head_bytes_length it Hok) as Hh.
  assert (∃ part, front = struct_bytes (trace_info_dwords (item_packet it)) ++ part ∧ struct_bytes (item_params it) = part ++ back) as (part & -> & Hpart).
  { exists (drop 68 front). split.
    - rewrite <- (take_drop 68 front) at 1. f_equal. apply (f_equal (take 68)) in Hs. rewrite take_app_length' in Hs by done. by rewrite take_app_le in Hs by lia.
    - apply (f_equal (drop 68)) in Hs. rewrite drop_app_length' in Hs by done. by rewrite drop_app_le in Hs by lia. }
  rewrite read_packet by done. cbn [mbind option_bind]. rewrite drop_app_length' by done.
  apply (f_equal length) in Hpart. rewrite struct_bytes_length, length_app in Hpart. assert (length back ≠ 0%nat) by (by destruct back).
  destruct (has_parameters (item_packet it)) eqn:Hp.
  - destruct (additional_size it Hok Hp) as [-> _]. destruct (Z.ltb_spec (Z.of_nat (length part)) (4 * Z.of_nat (length (item_params it)))); [done|lia].
  - pose proof (item_tail _ Hok) as Ht. rewrite Hp in Ht. rewrite Ht in Hpart. cbn in Hpart. lia.
Qed.

(** ** What is captured *)

(** What the log gets for the parameters: those in the packet or behind it, or for
    each that there should be that there is no data. *)
Definition item_values (it : TraceItem) : list (option Z) :=
  let p := item_packet it in
  let count := Z.to_nat (parameter_count (packet_command p)) in
  if command_valid (packet_command p) =? 0 then []
  else if data_state (packet_data p) =? PBCPDS_SMALL_BUFFER then Some <$> take count (data_buffer (packet_data p))
  else if data_state (packet_data p) =? PBCPDS_HEAP_BUFFER then Some <$> item_params it
  else replicate count None.

(** The method a parameter is for. *)
Definition method_at (p : PushBufferCommandTraceInfo) (i : nat) : Z :=
  if non_increasing (packet_command p) =? 0 then u32 (method (packet_command p) + 4 * Z.of_nat i) else method (packet_command p).

Definition item_lines (it : TraceItem) : bytes :=
  concat (imap (λ i v, log_method (item_packet it) (method_at (item_packet it) i) v) (item_values it)).

(** The packet as it is kept. *)
Definition kept_packet (id : Z) (it : TraceItem) : PushBufferCommandTraceInfo :=
  if has_parameters (item_packet it) then with_data_id id (item_packet it) else item_packet it.
Definition next_id (id : Z) (it : TraceItem) : Z := if has_parameters (item_packet it) then id + 1 else id.

(** No id from the next one on is taken. *)
Definition ids_free (c : FrameCapture) : Prop := ∀ id, next_free_id c ≤ id → pgraph_parameter_map c !! id = None.

Lemma method_next p (i : nat) :
  is_u32 (method (packet_command p)) →
  (if non_increasing (packet_command p) =? 0 then u32 (method_at p i + 4) else method_at p i) = method_at p (S i).
Proof.
  intros Hm. unfold method_at. destruct (_ =? 0); [|done]. unfold u32. rewrite Z.add_mod_idemp_l by done. f_equal. lia.
Qed.

Lemma log_methods_values p params values : is_u32 (method (packet_command p)) →
  ∀ i, (∀ k v, values !! k = Some v → param_at params (i + k) = Some v) →
  log_methods p params (length values) i (method_at p i)
  = Some (concat (imap (λ k v, log_method p (method_at p (i + k)) v) values)).
Proof.
  intros Hm. induction values as [|v values IH]; intros i Hv; [done|]. cbn [length log_methods].
  pose proof (Hv 0%nat v eq_refl) as H0. rewrite Nat.add_0_r in H0. rewrite H0. cbn [mbind option_bind]. rewrite method_next by done.
  rewrite IH by (intros k v' Hk; replace (S i + k)%nat with (i + S k)%nat by lia; by apply Hv). cbn [mbind option_bind].
  rewrite imap_cons. cbn [concat]. rewrite Nat.add_0_r. do 3 f_equal. apply imap_ext. intros k v' _. cbn. by rewrite Nat.add_succ_r.
Qed.

Lemma log_params_some params count i : (i + count ≤ length params)%nat → is_Some (log_params params count i).
Proof.
  revert i. induction count as [|count IH]; intros i Hl; [done|]. cbn [log_params].
  destruct (lookup_lt_is_Some_2 params i) as [v ->]; [lia|]. cbn [mbind option_bind]. destruct (IH (S i)) as [t ->]; [lia|]. done.
Qed.

(** *** What one item does *)

Definition item_pointer (it : TraceItem) : option (list Z) :=
  let d := packet_data (item_packet it) in
  if data_state d =? PBCPDS_SMALL_BUFFER then Some (data_buffer d)
  else if data_state d =? PBCPDS_HEAP_BUFFER then Some (item_params it)
  else None.

(** The members that change. *)
Definition captured (it : TraceItem) (details : bytes) (c : FrameCapture) : FrameCapture :=
  MkCapture (if has_parameters (item_packet it) then <[next_free_id c := item_params it]> (pgraph_parameter_map c)
             else pgraph_parameter_map c)
    (pgraph_commands c ++ [kept_packet (next_free_id c) it]) (next_id (next_free_id c) it) (artifact_path_ c)
    (nv2a_log_ c ++ item_lines it ++ details) (log_opened c) (verbose_logging_ c) (pgraph_trace_buffer_ c) (aux_trace_buffer_ c).

Lemma item_counts it : item_ok it →
  0 ≤ parameter_count (packet_command (item_packet it)) ∧ is_u32 (method (packet_command (item_packet it))).
Proof.
  intros Hok. pose proof (item_u32 _ Hok) as Hw. unfold item_dwords, trace_info_dwords, command_dwords in Hw.
  rewrite !Forall_app in Hw. destruct Hw as [[_ [Hc _]] _]. rewrite !Forall_cons in Hc. unfold is_u32 in *. naive_solver.
Qed.

(** What the pointer gives access to is enough. *)
Lemma pointer_length it l : item_ok it → item_pointer it = Some l →
  (Z.to_nat (parameter_count (packet_command (item_packet it))) ≤ length l)%nat.
Proof.
  intros Hok. unfold item_pointer. destruct (Z.eqb_spec (data_state (packet_data (item_packet it))) PBCPDS_SMALL_BUFFER) as [Hs|_].
  - intros [= <-]. unfold data_buffer. cbn [length]. rewrite (item_union _ Hok). pose proof (item_small _ Hok Hs). lia.
  - destruct (Z.eqb_spec (data_state (packet_data (item_packet it))) PBCPDS_HEAP_BUFFER) as [Hh|_]; [|done]. intros [= <-].
    pose proof (item_tail _ Hok) as Ht. rewrite (item_heap _ Hok Hh) in Ht. lia.
Qed.

Lemma item_values_spec it : item_ok it → command_valid (packet_command (item_packet it)) ≠ 0 →
  length (item_values it) = Z.to_nat (parameter_count (packet_command (item_packet it)))
  ∧ ∀ k v, item_values it !! k = Some v → param_at (item_pointer it) k = Some v.
Proof.
  intros Hok Hv. pose proof (pointer_length it) as Hl. unfold item_values, item_pointer in *.
  rewrite (proj2 (Z.eqb_neq _ _) Hv). set (count := Z.to_nat _) in *.
  destruct (_ =? PBCPDS_SMALL_BUFFER) eqn:Hs; [|destruct (_ =? PBCPDS_HEAP_BUFFER) eqn:Hh].
  - specialize (Hl _ Hok eq_refl). split; [rewrite length_fmap, length_take; lia|].
    intros k v. rewrite list_lookup_fmap. intros (x & Hx & ->)%fmap_Some. apply lookup_take_Some in Hx as [Hx _]. unfold param_at. by rewrite Hx.
  - apply Z.eqb_eq in Hh. pose proof (item_tail _ Hok) as Ht. rewrite (item_heap _ Hok Hh) in Ht.
    split; [rewrite length_fmap; unfold count; lia|].
    intros k v. rewrite list_lookup_fmap. intros (x & Hx & ->)%fmap_Some. unfold param_at. by rewrite Hx.
  - split; [by rewrite length_replicate|]. intros k v. intros [-> _]%lookup_replicate. done.
Qed.

Lemma packet_text_item verbose it : item_ok it →
  ∃ details, packet_text verbose (item_packet it) (item_pointer it) = Some (item_lines it ++ details) ∧ (verbose = false → details = []).
Proof.
  intros Hok. destruct (item_counts it Hok) as [_ Hm].
  assert ((if command_valid (packet_command (item_packet it)) =? 0 then Some []
           else log_methods (item_packet it) (item_pointer it) (Z.to_nat (parameter_count (packet_command (item_packet it)))) 0 (method (packet_command (item_packet it))))
          = Some (item_lines it)) as Hlines.
  { unfold item_lines. destruct (Z.eqb_spec (command_valid (packet_command (item_packet it))) 0) as [Hv|Hv].
    - unfold item_values. by rewrite Hv.
    - destruct (item_values_spec it Hok Hv) as [<- Hat].
      assert (method (packet_command (item_packet it)) = method_at (item_packet it) 0) as ->.
      { unfold method_at. destruct (_ =? 0); [|done]. by rewrite Z.mul_0_r, Z.add_0_r, u32_id. }
      by rewrite (log_methods_values _ _ _ Hm 0 Hat). }
  unfold packet_text. rewrite Hlines. cbn [mbind option_bind]. destruct verbose; [|by exists []].
  unfold detailed_info.
  assert (is_Some (match item_pointer it with None => Some [] | Some l => log_params l (Z.to_nat (parameter_count (packet_command (item_packet it)))) 0 end)) as [listed ->].
  { destruct (item_pointer it) as [l|] eqn:Hl; [|done]. apply log_params_some. by apply pointer_length in Hl. }
  eexists. split; [reflexivity|done].
Qed.

Lemma log_methods_id id p params count : ∀ i m, log_methods (with_data_id id p) params count i m = log_methods p params count i m.
Proof. induction count as [|count IH]; intros i m; [done|]. cbn [log_methods]. destruct (param_at _ _); [|done]. cbn [mbind option_bind]. by rewrite IH. Qed.

Lemma packet_text_id verbose id p params : packet_text verbose (with_data_id id p) params = packet_text verbose p params.
Proof. unfold packet_text. cbn [packet_command with_data_id]. by rewrite log_methods_id. Qed.

Lemma capture_item_run it c : item_ok it → ids_free c → (has_parameters (item_packet it) = true → next_free_id c < 0xFFFFFFFF) →
  ∃ details, capture_item it c = Some (tt, captured it details c) ∧ (verbose_logging_ c = false → details = []).
Proof.
  intros Hok Hfree Hroom. destruct (packet_text_item (verbose_logging_ c) it Hok) as (details & Htext & Hd). exists details. split; [|done].
  unfold capture_item, captured, kept_packet, next_id. unfold item_pointer in Htext. pose proof (item_heap _ Hok) as Hheap. destruct c as [m cs id path log opened verbose pb ab].
  cbn in *. destruct (has_parameters (item_packet it)) eqn:Hp.
  - unfold take_parameters. cbn [next_free_id]. rewrite (proj2 (Z.ltb_lt _ _)) by auto. unfold take_packet, LogPacket, push_command, packet_data_pointer.
    assert (data_state (packet_data (item_packet it)) = PBCPDS_HEAP_BUFFER) as Hs.
    { unfold has_parameters in Hp. apply andb_prop in Hp as [Hp _]. apply andb_prop in Hp as [_ Hp]. by apply Z.eqb_eq. }
    cbn. rewrite Hs in Htext |- *. cbn in Htext |- *. unfold parameters_entry. cbn. rewrite emplace_absent by apply (Hfree id), Z.le_refl.
    rewrite lookup_insert_eq. destruct (additional_size it Hok Hp) as [_ Hne]. destruct (item_params it) as [|x l] eqn:Hparams; [done|]. cbn.
    rewrite packet_text_id, Htext. reflexivity.
  - unfold take_packet, LogPacket, push_command, packet_data_pointer. cbn.
    destruct (data_state (packet_data (item_packet it)) =? PBCPDS_SMALL_BUFFER); [cbn; by rewrite Htext|].
    destruct (Z.eqb_spec (data_state (packet_data (item_packet it))) PBCPDS_HEAP_BUFFER) as [Hs|]; [by specialize (Hheap Hs)|].
    cbn. by rewrite Htext.
Qed.

(** *** What the items of a stream do *)

(** The packet that is kept for an item, with the parameters under its id. *)
Definition kept (m : gmap Z (list Z)) (it : TraceItem) (p : PushBufferCommandTraceInfo) : Prop :=
  ∃ id, p = kept_packet id it ∧ (has_parameters (item_packet it) = true → m !! id = Some (item_params it)).

Record captures (items : list TraceItem) (c c' : FrameCapture) : Prop := {
  captures_commands : ∃ ps, pgraph_commands c' = pgraph_commands c ++ ps ∧ Forall2 (kept (pgraph_parameter_map c')) items ps;
  captures_earlier : pgraph_parameter_map c ⊆ pgraph_parameter_map c';
  captures_ids : ids_free c';
  captures_log : verbose_logging_ c = false → nv2a_log_ c' = nv2a_log_ c ++ concat (map item_lines items);
  captures_path : artifact_path_ c' = artifact_path_ c;
  captures_opened : log_opened c' = log_opened c
}.

(** Ids for the items with parameters. *)
Definition ids_needed (items : list TraceItem) : Z := Z.of_nat (length (List.filter (λ it, has_parameters (item_packet it)) items)).
Definition ids_left (items : list TraceItem) (c : FrameCapture) : Prop := next_free_id c + ids_needed items ≤ 0xFFFFFFFF.

Lemma kept_mono m m' it p : m ⊆ m' → kept m it p → kept m' it p.
Proof. intros Hm (id & -> & Hp). exists id. split; [done|]. intros Hh. by eapply lookup_weaken; [apply Hp|]. Qed.

Lemma captured_spec it details c : ids_free c →
  pgraph_parameter_map c ⊆ pgraph_parameter_map (captured it details c)
  ∧ ids_free (captured it details c)
  ∧ kept (pgraph_parameter_map (captured it details c)) it (kept_packet (next_free_id c) it).
Proof.
  intros Hfree. unfold captured, ids_free, next_id. cbn [pgraph_parameter_map next_free_id]. destruct (has_parameters (item_packet it)) eqn:Hp.
  - split_and!.
    + apply insert_subseteq. apply Hfree. lia.
    + intros id Hid. rewrite lookup_insert_ne by lia. apply Hfree. lia.
    + exists (next_free_id c). split; [done|]. intros _. apply lookup_insert_eq.
  - split_and!; [done|exact Hfree|]. exists (next_free_id c). split; [done|]. by rewrite Hp.
Qed.

Lemma capture_items_run items : ∀ c, Forall item_ok items → ids_free c → ids_left items c →
  ∃ c', for_each items capture_item c = Some (tt, c') ∧ captures items c c'.
Proof.
  induction items as [|it items IH]; intros c Hok Hfree Hleft.
  { exists c. split; [done|]. split; try done; [|by rewrite app_nil_r]. exists []. by rewrite app_nil_r. }
  apply Forall_cons in Hok as [Hit Hok]. unfold ids_left, ids_needed in Hleft. cbn [List.filter] in Hleft.
  destruct (capture_item_run it c Hit Hfree) as (details & Hrun & Hdetails).
  { intros Hh. rewrite Hh in Hleft. cbn [length] in Hleft. lia. }
  destruct (captured_spec it details c Hfree) as (Hsub & Hfree' & Hkept).
  destruct (IH (captured it details c) Hok Hfree') as (c' & Hrest & [(ps & Hps & Hall) Hsub' Hids Hlog Hpath Hopen]).
  { unfold ids_left, ids_needed, captured, next_id. cbn [next_free_id]. destruct (has_parameters _); cbn [length] in Hleft; lia. }
  exists c'. split.
  { cbn [for_each]. unfold mbind, M_bind. rewrite Hrun. exact Hrest. }
  split; [|by etrans|done| |by rewrite Hpath|by rewrite Hopen].
  - exists (kept_packet (next_free_id c) it :: ps). split; [by rewrite Hps; cbn; rewrite <- app_assoc|].
    constructor; [by eapply kept_mono|done].
  - intros Hv. rewrite (Hlog Hv). cbn [nv2a_log_ captured map concat]. by rewrite (Hdetails Hv), app_nil_r, <- app_assoc.
Qed.

(** ** In pieces *)

(** What happens to a frame does not depend on what the buffers hold. *)
Definition with_buffers (pb ab : bytes) (c : FrameCapture) : FrameCapture := with_aux_buffer ab (with_pgraph_buffer pb c).

Lemma with_buffers_same c : with_buffers (pgraph_trace_buffer_ c) (aux_trace_buffer_ c) c = c.
Proof. by destruct c. Qed.

Lemma take_packet_blind p pb ab c : take_packet p (with_buffers pb ab c) = with_buffers pb ab <$> take_packet p c.
Proof.
  unfold take_packet, LogPacket, packet_data_pointer, parameters_entry. destruct c as [m ? ? ? ? ? verbose ? ?]. cbn.
  destruct (_ =? PBCPDS_SMALL_BUFFER); [cbn; by destruct (packet_text _ _ _)|].
  destruct (_ =? PBCPDS_HEAP_BUFFER); [|cbn; by destruct (packet_text _ _ _)].
  destruct (m !! _); cbn; by destruct (packet_text _ _ _).
Qed.

Lemma take_parameters_blind p params pb ab c :
  take_parameters p params (with_buffers pb ab c) = with_buffers pb ab <$> take_parameters p params c.
Proof.
  unfold take_parameters. change (next_free_id (with_buffers pb ab c)) with (next_free_id c).
  destruct (next_free_id c <? 0xFFFFFFFF); [|done].
  exact (take_packet_blind _ pb ab (with_parameters (emplace (next_free_id c) params (pgraph_parameter_map c)) (with_next_id (next_free_id c + 1) c))).
Qed.

Lemma process_packets_blind fuel : ∀ buffer pb ab c,
  process_packets fuel buffer (with_buffers pb ab c) = prod_map id (with_buffers pb ab) <$> process_packets fuel buffer c.
Proof.
  induction fuel as [|fuel IH]; intros buffer pb ab c; [done|]. cbn [process_packets].
  destruct (_ <? _)%nat; [done|]. destruct (read_struct 17 trace_info_of buffer) as [p|]; [|done]. cbn [mbind option_bind].
  destruct (has_parameters p).
  - destruct (_ <? _); [done|]. destruct (read_addresses _ _) as [params|]; [|done]. cbn [mbind option_bind].
    rewrite take_parameters_blind. destruct (take_parameters p params c); [apply IH|done].
  - rewrite take_packet_blind. destruct (take_packet p c); [apply IH|done].
Qed.

Lemma process_blind buffer pb ab c left_over c' :
  process_pgraph buffer c = Some (left_over, c') → process_pgraph buffer (with_buffers pb ab c) = Some (left_over, with_buffers pb ab c').
Proof. unfold process_pgraph. intros Hp. by rewrite process_packets_blind, Hp. Qed.

Section Pieces.
Context {E : Type} `{!LocalDisk E}.

(** The frame [c] after a part of the stream of the items, of which [unread] is to
    come; [c0] is the frame at the start. *)
Definition pgraph_progress (items : list TraceItem) (c0 c : FrameCapture) (unread : bytes) : Prop :=
  ∃ c1, progress item_bytes capture_item items c0 (pgraph_trace_buffer_ c) unread c1
    ∧ c = with_buffers (pgraph_trace_buffer_ c) (aux_trace_buffer_ c) c1.

Lemma item_bytes_nonempty it : item_bytes it ≠ [].
Proof. intros E0%(f_equal length). unfold item_bytes in E0. rewrite struct_bytes_length in E0. unfold item_dwords, trace_info_dwords in E0. cbn in E0. lia. Qed.

Definition flushed (c : FrameCapture) (e : E) : E := if log_opened c then snd (write_local (log_path c) (nv2a_log_ c) e) else e.

Lemma feed_pgraph_step items c0 c chunk unread (e : E) :
  Forall item_ok items → is_Some (for_each items capture_item c0) → pgraph_progress items c0 c (chunk ++ unread) →
  ∃ c', feed_pgraph chunk (c, e) = Some (tt, (c', flushed c' e)) ∧ pgraph_progress items c0 c' unread
    ∧ aux_trace_buffer_ c' = aux_trace_buffer_ c.
Proof.
  intros Hok Hrun (c1 & Hpr & Hc).
  destruct (progress_step item_bytes item_ok capture_item process_pgraph (λ s, eq_refl) (λ it rest s Hit, process_item it rest s Hit)
              (λ it front back s Hit Hs Hb, process_partial it front back s Hit Hs Hb) _ _ _ _ _ _ Hok Hrun Hpr) as (left_over & c2 & Hp & Hpr').
  exists (with_buffers left_over (aux_trace_buffer_ c) c2). split_and!; [|by exists c2|done].
  unfold feed_pgraph. erewrite bind_run by reflexivity. cbn [fst]. unfold ProcessPGRAPHBuffer. cbn [pgraph_trace_buffer_ with_pgraph_buffer].
  assert (with_pgraph_buffer (pgraph_trace_buffer_ c ++ chunk) c = with_buffers (pgraph_trace_buffer_ c ++ chunk) (aux_trace_buffer_ c) c1) as ->
    by (rewrite Hc; reflexivity).
  apply (process_blind _ (pgraph_trace_buffer_ c ++ chunk) (aux_trace_buffer_ c)) in Hp. unfold process_pgraph in Hp.
  unfold with_pgraph_buffer in Hp |- *. cbn [pgraph_trace_buffer_] in Hp |- *. rewrite Hp. reflexivity.
Qed.

Lemma pgraph_progress_start items c : pgraph_trace_buffer_ c = [] → pgraph_progress items c c (stream item_bytes items).
Proof. intros Hb. exists c. rewrite Hb. split; [apply progress_start|]. rewrite <- Hb. by rewrite with_buffers_same. Qed.

(** At the end of the stream all of it is captured. *)
Lemma pgraph_progress_end items c0 c :
  Forall item_ok items → ids_free c0 → ids_left items c0 → pgraph_progress items c0 c [] →
  pgraph_trace_buffer_ c = [] ∧ captures items c0 c.
Proof.
  intros Hok Hfree Hleft (c1 & Hpr & Hc). apply (progress_end item_bytes capture_item item_bytes_nonempty) in Hpr as [Hb Hrun]. split; [done|].
  destruct (capture_items_run items c0 Hok Hfree Hleft) as (c' & Hrun' & Hcap). rewrite Hrun in Hrun'. injection Hrun' as <-.
  rewrite Hc. destruct Hcap. by split.
Qed.

Lemma feed_all items c0 : Forall item_ok items → is_Some (for_each items capture_item c0) →
  ∀ chunks c (e : E), pgraph_progress items c0 c (concat chunks) →
  ∃ c' e', for_each chunks feed_pgraph (c, e) = Some (tt, (c', e')) ∧ pgraph_progress items c0 c' [].
Proof.
  intros Hok Hrun chunks. induction chunks as [|chunk chunks IH]; intros c e Hpr; [by exists c, e|].
  destruct (feed_pgraph_step items c0 c chunk (concat chunks) e Hok Hrun Hpr) as (c1 & Hfeed & Hpr1 & _).
  destruct (IH c1 (flushed c1 e) Hpr1) as (c' & e' & Hrest & Hend). exists c', e'. split; [|done].
  cbn [for_each]. unfold mbind, M_bind. by rewrite Hfeed.
Qed.

(** C26. The commands of a frame, each followed by its parameters where the packet
    says so, are captured once each and in order, with their parameters and the
    lines the log has for them, however the console cuts the stream into answers;
    nothing is left over. *)
Theorem stream_captured (items : list TraceItem) (chunks : list bytes) (c : FrameCapture) (e : E) :
  Forall item_ok items → ids_free c → ids_left items c → pgraph_trace_buffer_ c = [] →
  concat chunks = stream item_bytes items →
  ∃ c' e', for_each chunks feed_pgraph (c, e) = Some (tt, (c', e')) ∧ pgraph_trace_buffer_ c' = [] ∧ captures items c c'.
Proof.
  intros Hok Hfree Hleft Hb Hs. destruct (capture_items_run items c Hok Hfree Hleft) as (cn & Hrun & _).
  destruct (feed_all items c Hok ltac:(eauto) chunks c e) as (c' & e' & He & Hend); [by rewrite Hs; apply pgraph_progress_start|].
  exists c', e'. split; [done|]. by apply pgraph_progress_end.
Qed.
End Pieces.

(** A clear of the surface with two parameters behind the packet, and the end of a
    primitive with one inside. *)
Definition example_items : list TraceItem :=
  [MkItem (MkTraceInfo 1 7 0 0 (MkCommand 1 0 0x1D94 0 2) 0x80010000 0x97 (MkParameters PBCPDS_HEAP_BUFFER 0x80020000 [0; 0; 0]) 0) [1; 2];
   MkItem (MkTraceInfo 1 8 1 1 (MkCommand 1 1 0x17FC 0 1) 0x80010010 0x97 (MkParameters PBCPDS_SMALL_BUFFER 0 [0; 0; 0]) 0) []].

Lemma example_items_ok : Forall item_ok example_items.
Proof. repeat constructor; try done; vm_compute; intuition discriminate. Qed.

Lemma stream_captured_witness :
  let s := stream item_bytes example_items in
  ∃ c' e', for_each [take 30 s; take 41 (drop 30 s); drop 71 s] feed_pgraph (new_capture false, [] : Writes) = Some (tt, (c', e'))
    ∧ length (pgraph_commands c') = 2%nat ∧ pgraph_parameter_map c' !! 0 = Some [1; 2]
    ∧ pgraph_trace_buffer_ c' = [] ∧ captures example_items (new_capture false) c'.
Proof.
  destruct (stream_captured example_items [take 30 (stream item_bytes example_items); take 41 (drop 30 (stream item_bytes example_items));
    drop 71 (stream item_bytes example_items)] (new_capture false) ([] : Writes)) as (c' & e' & Hrun & Hb & Hc).
  - exact example_items_ok.
  - intros id _. apply lookup_empty.
  - unfold ids_left. vm_compute. discriminate.
  - reflexivity.
  - vm_compute. reflexivity.
  - exists c', e'. split; [exact Hrun|]. split_and!; [| |exact Hb|exact Hc].
    + destruct (captures_commands _ _ _ Hc) as (ps & -> & Hps). apply Forall2_length in Hps. by rewrite length_app, <- Hps.
    + vm_compute in Hrun. injection Hrun as <- _. vm_compute. reflexivity.
Defined.
