(* ===== verification/FrameRecords.v ===== *)
(** * The stream of auxiliary data

    The tracer sends dumps, surfaces and textures one after the other, each with a
    header that has its length.  However the console cuts the stream into answers,
    each of them is stored as if it had been received alone. *)

From S2P Require Import Prelude CLib Boost RdcpResponse Requests Target FileUtil DxtLibrary DxtRequests ImageUtil Swizzle TraceTypes FrameCapture FrameImages FrameAux FrameStream.

(** ** Computations that are defined more often *)

(** Where [m] ends in a result, [m'] ends in the same. *)
Definition extends {S A} (m m' : M S A) : Prop := ∀ s x, m s = Some x → m' s = Some x.
Definition option_extends {A} (o o' : option A) : Prop := ∀ a, o = Some a → o' = Some a.

Section Extends.
Context {S A B : Type}.

Lemma extends_bind (m m' : M S A) (k k' : A → M S B) :
  extends m m' → (∀ s a s', m s = Some (a, s') → extends (k a) (k' a)) → extends (m ≫= k) (m' ≫= k').
Proof.
  intros Hm Hk s x. unfold mbind, M_bind. destruct (m s) as [[a s']|] eqn:E; [|done]. cbn. intros Hx.
  rewrite (Hm _ _ E). cbn. by eapply Hk.
Qed.

Lemma extends_lift (o o' : option A) (k k' : A → M S B) :
  option_extends o o' → (∀ a, o = Some a → extends (k a) (k' a)) → extends (lift_option o ≫= k) (lift_option o' ≫= k').
Proof.
  intros Ho Hk. apply extends_bind.
  - intros s x Hx. unfold lift_option in *. apply bind_Some in Hx as (a & Ha & [= <-]). by rewrite (Ho a Ha).
  - intros s a s' Hx. unfold lift_option in Hx. apply bind_Some in Hx as (a' & Ha & [= -> ->]). by apply Hk.
Qed.

Lemma extends_then (m : M S A) (k k' : A → M S B) : (∀ a, extends (k a) (k' a)) → extends (m ≫= k) (m ≫= k').
Proof. intros Hk. apply extends_bind; [by intros s x|]. intros. apply Hk. Qed.

Lemma extends_refl (m : M S A) : extends m m.
Proof. by intros s x. Qed.
End Extends.

Lemma option_extends_bind {A B} (o o' : option A) (k k' : A → option B) :
  option_extends o o' → (∀ a, o = Some a → option_extends (k a) (k' a)) → option_extends (o ≫= k) (o' ≫= k').
Proof. intros Ho Hk b. destruct o as [a|]; [|done]. rewrite (Ho a eq_refl). cbn. by apply Hk. Qed.

(** ** More bytes behind the data *)

Lemma first_bytes_more n d more : option_extends (first_bytes n d) (first_bytes n (d ++ more)).
Proof.
  intros x. unfold first_bytes. destruct (Z.leb_spec n (Z.of_nat (length d))); [|done]. intros [= <-].
  rewrite (proj2 (Z.leb_le _ _)) by (rewrite length_app; lia). by rewrite take_app_le by lia.
Qed.

Lemma first_bytes_length n d x : first_bytes n d = Some x → n ≤ Z.of_nat (length d).
Proof. unfold first_bytes. destruct (Z.leb_spec n (Z.of_nat (length d))); done. Qed.

Lemma read_addresses_length n : ∀ d l, read_addresses n d = Some l → (4 * n ≤ length d)%nat.
Proof.
  induction n as [|n IH]; intros d l; [lia|]. cbn [read_addresses]. destruct (Nat.ltb_spec (length d) 4); [done|].
  intros (l' & Hl & _)%bind_Some. apply IH in Hl. rewrite length_drop in Hl. lia.
Qed.

Lemma read_struct_length {T} n (f : list Z → option T) d x : read_struct n f d = Some x → (4 * n ≤ length d)%nat.
Proof. unfold read_struct. intros (l & Hl & _)%bind_Some. by eapply read_addresses_length. Qed.

Lemma read_struct_more {T} n (f : list Z → option T) d more : option_extends (read_struct n f d) (read_struct n f (d ++ more)).
Proof. intros x Hx. rewrite read_struct_front; [done|]. by eapply read_struct_length. Qed.

(** *** Conversions *)

Definition reads_front (f : Converter) : Prop := ∀ src more n, option_extends (f src n) (f (src ++ more) n).

Lemma read_pixels_more count : ∀ src more, option_extends (read_pixels count src) (read_pixels count (src ++ more)).
Proof.
  induction count as [|count IH]; intros src more x; [done|]. cbn [read_pixels]. destruct src as [|a [|b src]]; [done..|]. cbn [app].
  intros (l & Hl & Hx)%bind_Some. by rewrite (IH _ more _ Hl).
Qed.

Lemma convert_pixels_front channels : reads_front (convert_pixels channels).
Proof. intros src more n. apply option_extends_bind; [apply read_pixels_more|]. by intros a _ x. Qed.

Lemma swizzle_more order count : (3 ∈ order)%nat →
  ∀ src more, option_extends (ImageUtil.swizzle order count src) (ImageUtil.swizzle order count (src ++ more)).
Proof.
  intros Ho. induction count as [|count IH]; intros src more x; [done|]. cbn [ImageUtil.swizzle].
  intros (p & Hp & Hx)%bind_Some. apply bind_Some in Hx as (rest & Hrest & [= <-]).
  apply mapM_Some in Hp. assert (4 ≤ length src)%nat as Hl.
  { apply list_elem_of_lookup_1 in Ho as [i Hi]. destruct (Forall2_lookup_l _ _ _ _ _ Hp Hi) as (c & _ & Hc). apply lookup_lt_Some in Hc. lia. }
  assert (mapM (λ i, (src ++ more) !! i) order = Some p) as ->.
  { apply mapM_Some. eapply Forall2_impl; [exact Hp|]. cbn. intros i c Hc. rewrite lookup_app_l; [done|]. by eapply lookup_lt_Some. }
  cbn [mbind option_bind]. rewrite drop_app_le by done. by rewrite (IH _ more _ Hrest).
Qed.

Lemma convert_swizzled_front order : (3 ∈ order)%nat → reads_front (convert_swizzled order).
Proof. intros Ho src more n. apply option_extends_bind; [by apply swizzle_more|]. by intros a _ x. Qed.

Definition converter_front (f : option Converter) : Prop := match f with Some f => reads_front f | None => True end.

Lemma BGRAToRGBA_front : reads_front BGRAToRGBA.
Proof. apply convert_swizzled_front. by_evaluation. Qed.
Lemma ABGRToRGBA_front : reads_front ABGRToRGBA.
Proof. apply convert_swizzled_front. by_evaluation. Qed.
Lemma ARGBToRGBA_front : reads_front ARGBToRGBA.
Proof. apply convert_swizzled_front. by_evaluation. Qed.

Ltac front_entries H :=
  apply elem_of_list_to_map_2 in H; repeat (apply elem_of_cons in H as [[= -> ->]|H]); [..|by apply not_elem_of_nil in H];
  first [exact I|apply BGRAToRGBA_front|apply ABGRToRGBA_front|apply ARGBToRGBA_front|apply convert_pixels_front].

Lemma surface_formats_front k f : kSurfaceFormats !! k = Some f → converter_front (surface_converter f).
Proof. intros H. unfold kSurfaceFormats in H. front_entries H. Qed.

Lemma texture_formats_front k f : kTextureFormats !! k = Some f → converter_front (converter f).
Proof. intros H. unfold kTextureFormats in H. front_entries H. Qed.

(** *** Images *)

Section Images.
Context `{!ImageTools}.

Lemma linear_pixels_more swizzled raw more n w h pitch bpp input : linear_pixels swizzled raw n w h pitch bpp = Some input →
  ∃ more', linear_pixels swizzled (raw ++ more) n w h pitch bpp = Some (input ++ more').
Proof.
  unfold linear_pixels. destruct swizzled.
  - intros Hu. exists []. rewrite app_nil_r. by apply unswizzle_rect_more.
  - intros [= <-]. by exists more.
Qed.

Lemma converted_pixels_more f input more n out : converter_front f → converted_pixels f input n = Some out →
  ∃ more', converted_pixels f (input ++ more) n = Some (out ++ more').
Proof.
  unfold converted_pixels. destruct f as [f|].
  - intros Hf Ho. exists []. rewrite app_nil_r. by apply Hf.
  - intros _ [= <-]. by exists more.
Qed.

Lemma EncodeDDS_more out input more n w h c : option_extends (EncodeDDS out input n w h c) (EncodeDDS out (input ++ more) n w h c).
Proof.
  intros x. unfold EncodeDDS. destruct (compression_format c) as [[[fourcc size] flags]|]; [|done].
  destruct (Z.ltb_spec (Z.of_nat (length input)) n); [done|]. intros [= <-].
  rewrite (proj2 (Z.ltb_ge _ _)) by (rewrite length_app; lia). by rewrite take_app_le by lia.
Qed.

Lemma SaveSurfaceImage_more raw more n type w h pitch swizzle :
  option_extends (SaveSurfaceImage raw n type w h pitch swizzle) (SaveSurfaceImage (raw ++ more) n type w h pitch swizzle).
Proof.
  intros x. unfold SaveSurfaceImage. destruct (kSurfaceFormats !! type) as [f|] eqn:Hf; [|done]. cbn [mbind option_bind].
  apply surface_formats_front in Hf. intros (input & Hi & Hx)%bind_Some. apply bind_Some in Hx as (pixels & Hp & Hx).
  apply (linear_pixels_more _ _ more) in Hi as [more1 ->]. apply (converted_pixels_more _ _ more1) in Hp as [more2 Hp]; [|done].
  cbn [mbind option_bind]. rewrite Hp. cbn [mbind option_bind]. destruct (surface_color type f) as [color depth].
  apply bind_Some in Hx as (r & Hr & Hx). by rewrite (encode_reads_pixels _ more2 _ _ _ _ _ Hr).
Qed.

Lemma SaveTextureImage_more k raw more n type f mips w h depth pitch : kTextureFormats !! k = Some f →
  option_extends (SaveTextureImage raw n type f mips w h depth pitch) (SaveTextureImage (raw ++ more) n type f mips w h depth pitch).
Proof.
  intros Hf x. apply texture_formats_front in Hf. unfold SaveTextureImage. intros (input & Hi & Hx)%bind_Some. apply bind_Some in Hx as (pixels & Hp & Hx).
  apply (linear_pixels_more _ _ more) in Hi as [more1 ->]. apply (converted_pixels_more _ _ more1) in Hp as [more2 Hp]; [|done].
  cbn [mbind option_bind]. rewrite Hp. cbn [mbind option_bind]. apply bind_Some in Hx as (r & Hr & Hx). destruct (compressed f).
  - by rewrite (EncodeDDS_more _ _ more2 _ _ _ _ _ Hr).
  - destruct (texture_color type f) as [color bitdepth]. by rewrite (encode_reads_pixels _ more2 _ _ _ _ _ Hr).
Qed.

(** ** Records *)

Context {E : Type} `{!LocalDisk E}.

Lemma LogSurface_more dir packet n d more : extends (LogSurface (E := E) dir packet n d) (LogSurface dir packet n (d ++ more)).
Proof.
  unfold LogSurface. apply extends_lift; [apply read_struct_more|]. intros h Hh%read_struct_length.
  rewrite drop_app_le by (unfold sizeof_SurfaceHeader; lia). set (d1 := drop sizeof_SurfaceHeader d).
  apply extends_bind.
  - destruct (description_len h =? 0); [apply extends_refl|]. apply extends_lift; [apply first_bytes_more|]. intros text _. apply extends_refl.
  - intros s format s' Hdescription.
    assert (Z.to_nat (description_len h) ≤ length d1)%nat as Hlen.
    { destruct (Z.eqb_spec (description_len h) 0); [lia|]. unfold mbind, M_bind, lift_option in Hdescription.
      destruct (first_bytes (description_len h) d1) eqn:Hfirst; [|done]. apply first_bytes_length in Hfirst. lia. }
    rewrite drop_app_le by done. apply extends_lift; [apply first_bytes_more|]. intros contents _. apply extends_then. intros _.
    destruct (format =? 0); [apply extends_refl|]. apply extends_lift; [apply SaveSurfaceImage_more|]. intros image _. apply extends_refl.
Qed.

Lemma LogTexture_more dir packet n d more : extends (LogTexture (E := E) dir packet n d) (LogTexture dir packet n (d ++ more)).
Proof.
  unfold LogTexture. apply extends_lift; [apply read_struct_more|]. intros h Hh%read_struct_length.
  rewrite drop_app_le by (unfold sizeof_TextureHeader; lia). apply extends_then. intros _.
  apply extends_lift; [apply first_bytes_more|]. intros contents _. apply extends_then. intros _.
  apply extends_lift; [by intros ?|]. intros f Hf. apply extends_bind; [|intros; apply extends_refl].
  destruct (_ || _); [apply extends_refl|]. intros s x Hx. unfold lift_option in *. apply bind_Some in Hx as (image & Hi & [= <-]).
  by rewrite (SaveTextureImage_more _ _ more _ _ _ _ _ _ _ _ Hf _ Hi).
Qed.

Lemma LogRDI_more dir packet n d more : extends (LogRDI (E := E) dir packet n d) (LogRDI dir packet n (d ++ more)).
Proof.
  unfold LogRDI. apply extends_lift; [apply read_struct_more|]. intros offset _.
  apply extends_lift; [|intros; apply extends_refl]. destruct (Z.ltb_spec n (Z.of_nat sizeof_RDIHeader)); [by intros ?|].
  intros x Hx. destruct (decide (sizeof_RDIHeader ≤ length d)%nat).
  - rewrite drop_app_le by done. by apply first_bytes_more.
  - rewrite (drop_ge d) in Hx by lia. apply first_bytes_length in Hx as Hl. cbn in Hl.
    assert (n - Z.of_nat sizeof_RDIHeader = 0) as Hz by lia. rewrite Hz in Hx |- *. unfold first_bytes in *. cbn in Hx. injection Hx as <-.
    rewrite (proj2 (Z.leb_le _ _)) by lia. done.
Qed.

(** What a record does does not depend on what is behind it. *)
Lemma log_record_more dir packet d more : extends (log_record (E := E) dir packet d) (log_record dir packet (d ++ more)).
Proof.
  assert (∀ k : bytes → M E unit, extends (x ← lift_option (first_bytes (len packet) d); k x) (x ← lift_option (first_bytes (len packet) (d ++ more)); k x)) as Hdump.
  { intros k. apply extends_lift; [apply first_bytes_more|]. intros. apply extends_refl. }
  unfold log_record. destruct (_ =? _); [apply Hdump|]. destruct (_ =? _); [apply Hdump|]. destruct (_ =? _); [apply LogRDI_more|].
  destruct (_ =? _); [apply LogSurface_more|]. destruct (_ =? _); [apply LogTexture_more|]. apply extends_refl.
Qed.
End Images.

(** ** What is stored *)

Definition write_all `{!LocalDisk E} (files : list (bytes * bytes)) (e : E) : E :=
  foldl (λ e f, snd (write_local f.1 f.2 e)) e files.

Lemma write_all_app `{!LocalDisk E} xs ys (e : E) : write_all (xs ++ ys) e = write_all ys (write_all xs e).
Proof. apply foldl_app. Qed.

(** A computation does nothing to the disk but write the files that [mw] writes. *)
Definition stores `{!LocalDisk E} {A} (m : M E A) (mw : M Writes A) : Prop :=
  (∃ a new, (∀ w, mw w = Some (a, w ++ new)) ∧ ∀ e, m e = Some (a, write_all new e))
  ∨ ((∀ w, mw w = None) ∧ ∀ e, m e = None).

Section Stores.
Context {E : Type} `{!LocalDisk E, !ImageTools}.

Lemma stores_ret {A} (a : A) : stores (mret a : M E A) (mret a).
Proof. left. exists a, []. split; [|done]. intros w. by rewrite app_nil_r. Qed.

Lemma stores_bind {A B} (m : M E A) mw (k : A → M E B) kw : stores m mw → (∀ a, stores (k a) (kw a)) → stores (m ≫= k) (mw ≫= kw).
Proof.
  intros [(a & new & Hw & He)|[Hw He]] Hk.
  - destruct (Hk a) as [(b & new' & Hw' & He')|[Hw' He']]; [left; exists b, (new ++ new')|right]; split; intros x; unfold mbind, M_bind; rewrite ?Hw, ?He; cbn.
    + by rewrite Hw', app_assoc.
    + by rewrite He', write_all_app.
    + apply Hw'.
    + apply He'.
  - right. split; intros x; unfold mbind, M_bind; by rewrite ?Hw, ?He.
Qed.

Lemma stores_lift {A} (o : option A) : stores (lift_option o : M E A) (lift_option o).
Proof. destruct o as [a|]; [apply stores_ret|by right]. Qed.

Lemma stores_save dir name contents : stores (save_artifact (E := E) dir name contents) (save_artifact dir name contents).
Proof. left. by exists tt, [(path_append dir name, contents)]. Qed.

Ltac stores_step :=
  match goal with
  | |- stores (_ ≫= _) _ => apply stores_bind; [|intros ?]
  | |- stores (mret _) _ => apply stores_ret
  | |- stores (lift_option _) _ => apply stores_lift
  | |- stores (save_artifact _ _ _) _ => apply stores_save
  | |- stores (if ?b then _ else _) _ => destruct b
  end.

Lemma stores_log_record dir packet d : stores (log_record (E := E) dir packet d) (log_record dir packet d).
Proof. unfold log_record, LogPGRAPH, LogPFB, LogRDI, LogSurface, LogTexture. repeat stores_step. Qed.

Lemma stores_process_records dir fuel : ∀ buffer, stores (process_records (E := E) fuel dir buffer) (process_records fuel dir buffer).
Proof.
  induction fuel as [|fuel IH]; intros buffer; [by right|]. cbn [process_records]. repeat stores_step.
  - apply stores_log_record.
  - apply IH.
Qed.

(** ** The stream *)

Record AuxRecord := MkRecord { record_header : AuxDataHeader; record_data : bytes }.

Definition record_bytes (r : AuxRecord) : bytes := struct_bytes (aux_header_dwords (record_header r)) ++ record_data r.

(** The files of a record that is received alone. *)
Definition artifacts (dir : bytes) (r : AuxRecord) : option (list (bytes * bytes)) :=
  snd <$> log_record (E := Writes) dir (record_header r) (record_data r) [].

(** A record with its length, that can be handled when it is received alone. *)
Record record_ok (dir : bytes) (r : AuxRecord) : Prop := {
  record_u32 : Forall is_u32 (aux_header_dwords (record_header r));
  record_len : len (record_header r) = Z.of_nat (length (record_data r));
  record_handled : is_Some (artifacts dir r)
}.

Definition store_record (dir : bytes) (r : AuxRecord) : M Writes unit := log_record dir (record_header r) (record_data r).
Definition process_aux (dir buffer : bytes) : M Writes bytes := process_records (S (length buffer)) dir buffer.
End Stores.

Section Stream.
Context `{!ImageTools} (dir : bytes).

Lemma artifacts_run r files w : artifacts dir r = Some files → store_record dir r w = Some (tt, w ++ files).
Proof.
  unfold artifacts, store_record. destruct (stores_log_record (E := Writes) dir (record_header r) (record_data r)) as [([] & new & Hw & _)|[Hw _]].
  - rewrite !Hw. by intros [= <-].
  - by rewrite Hw.
Qed.

Lemma header_bytes_length h : length (struct_bytes (aux_header_dwords h)) = 16%nat.
Proof. by rewrite struct_bytes_length. Qed.

Lemma record_bytes_nonempty r : record_bytes r ≠ [].
Proof. intros E0%(f_equal length). unfold record_bytes in E0. rewrite length_app, header_bytes_length in E0. cbn in E0. lia. Qed.

Lemma read_header r rest : record_ok dir r → read_struct 4 aux_header_of (struct_bytes (aux_header_dwords (record_header r)) ++ rest) = Some (record_header r).
Proof.
  intros Hok. change 4%nat with (length (aux_header_dwords (record_header r))).
  apply read_struct_sent; [apply (record_u32 _ _ Hok)|by destruct (record_header r)].
Qed.

Lemma process_records_fuel `{!LocalDisk E} f1 : ∀ f2 buffer (e : E), (length buffer < f1)%nat → (length buffer < f2)%nat →
  process_records f1 dir buffer e = process_records f2 dir buffer e.
Proof.
  induction f1 as [|f1 IH]; intros [|f2] buffer e H1 H2; try lia. cbn [process_records]. unfold sizeof_AuxDataHeader.
  destruct (Nat.ltb_spec (length buffer) 16) as [|Hl]; [done|]. unfold mbind, M_bind, lift_option.
  destruct (read_struct 4 aux_header_of buffer) as [p|]; [|done]. cbn. destruct (_ <? _); [done|].
  destruct (log_record dir p (drop 16 buffer) e) as [[[] e']|]; [|done]. cbn. apply IH; rewrite !length_drop; lia.
Qed.

Lemma lift_run {S A B} (o : option A) (k : A → M S B) s a : o = Some a → (lift_option o ≫= k) s = k a s.
Proof. intros ->. done. Qed.

Lemma process_record r rest w : record_ok dir r →
  process_aux dir (record_bytes r ++ rest) w = (store_record dir r ;; process_aux dir rest) w.
Proof.
  intros Hok. unfold process_aux at 1. cbn [process_records]. unfold record_bytes, sizeof_AuxDataHeader. rewrite <- app_assoc.
  rewrite (proj2 (Nat.ltb_ge _ _)) by (rewrite length_app, header_bytes_length; lia).
  rewrite (lift_run _ _ _ _ (read_header r _ Hok)). rewrite (drop_app_length' _ _ _ (eq_sym (header_bytes_length _))). rewrite (record_len _ _ Hok), Nat2Z.id.
  destruct (Z.ltb_spec (Z.of_nat (length (record_data r ++ rest))) (Z.of_nat (length (record_data r)))) as [Hlt|_]; [rewrite length_app in Hlt; lia|].
  destruct (record_handled _ _ Hok) as [files Hf]. pose proof (artifacts_run _ _ w Hf) as Hw.
  rewrite (bind_run _ _ _ _ _ Hw), (bind_run _ _ _ _ _ (log_record_more dir (record_header r) (record_data r) rest _ _ Hw)).
  rewrite drop_app_length. unfold process_aux. apply process_records_fuel; rewrite ?length_app, ?header_bytes_length; lia.
Qed.

Lemma process_record_part r front back w : record_ok dir r → record_bytes r = front ++ back → back ≠ [] →
  process_aux dir front w = Some (front, w).
Proof.
  intros Hok Hs Hb. unfold process_aux. cbn [process_records]. unfold sizeof_AuxDataHeader.
  destruct (Nat.ltb_spec (length front) 16) as [|Hge]; [done|]. unfold record_bytes in Hs. pose proof (header_bytes_length (record_header r)) as Hh.
  assert (∃ part, front = struct_bytes (aux_header_dwords (record_header r)) ++ part ∧ record_data r = part ++ back) as (part & -> & Hpart).
  { exists (drop 16 front). split.
    - rewrite <- (take_drop 16 front) at 1. f_equal. apply (f_equal (take 16)) in Hs. rewrite take_app_length' in Hs by done. by rewrite take_app_le in Hs by lia.
    - apply (f_equal (drop 16)) in Hs. rewrite drop_app_length' in Hs by done. by rewrite drop_app_le in Hs by lia. }
  rewrite (lift_run _ _ _ _ (read_header r _ Hok)). rewrite drop_app_length' by done.
  rewrite (record_len _ _ Hok), Hpart, length_app. assert (length back ≠ 0%nat) by (by destruct back).
  rewrite (proj2 (Z.ltb_lt _ _)) by lia. done.
Qed.

(** The frame [c] and the files [w] that were written after a part of the stream of
    the records, of which [unread] is to come. *)
Definition aux_progress (records : list AuxRecord) (c : FrameCapture) (unread : bytes) (w : Writes) : Prop :=
  progress record_bytes (store_record dir) records [] (aux_trace_buffer_ c) unread w.

(** All the files of the records. *)
Definition all_artifacts (records : list AuxRecord) : list (bytes * bytes) := concat (map (λ r, default [] (artifacts dir r)) records).

Lemma store_records_run records : ∀ w, Forall (record_ok dir) records →
  for_each records (store_record dir) w = Some (tt, w ++ all_artifacts records).
Proof.
  induction records as [|r records IH]; intros w Hok; [by rewrite app_nil_r|]. apply Forall_cons in Hok as [Hr Hok].
  cbn [for_each]. destruct (record_handled _ _ Hr) as [files Hf]. rewrite (bind_run _ _ _ _ _ (artifacts_run _ _ w Hf)), IH by done.
  unfold all_artifacts. cbn [map concat]. rewrite Hf. cbn. by rewrite <- app_assoc.
Qed.

Context {E : Type} `{!LocalDisk E}.

Lemma feed_aux_step records c chunk unread w (e : E) :
  Forall (record_ok dir) records → artifact_path_ c = dir → aux_progress records c (chunk ++ unread) w →
  ∃ left_over new, feed_aux chunk (c, e) = Some (tt, (with_aux_buffer left_over c, write_all new e))
    ∧ aux_progress records (with_aux_buffer left_over c) unread (w ++ new).
Proof.
  intros Hok Hdir Hpr.
  destruct (progress_step record_bytes (record_ok dir) (store_record dir) (process_aux dir) (λ s, eq_refl) (λ r rest s Hr, process_record r rest s Hr)
              (λ r front back s Hr Hs Hb, process_record_part r front back s Hr Hs Hb) _ _ _ _ _ _ Hok
              (ex_intro _ _ (store_records_run records [] Hok)) Hpr) as (left_over & w' & Hp & Hpr').
  unfold process_aux in Hp. set (buffer := aux_trace_buffer_ c ++ chunk) in *.
  destruct (stores_process_records (E := E) dir (S (length buffer)) buffer) as [(l & new & Hw & He)|[Hw _]]; [|by rewrite Hw in Hp].
  rewrite Hw in Hp. injection Hp as -> <-. exists left_over, new. split; [|done].
  unfold feed_aux. erewrite bind_run by reflexivity. unfold ProcessAuxBuffer. erewrite bind_run by reflexivity.
  cbn [fst aux_trace_buffer_ artifact_path_ with_aux_buffer]. fold buffer. rewrite Hdir.
  erewrite bind_run by (unfold on_right; rewrite He; reflexivity). done.
Qed.

Lemma aux_progress_start records c : aux_trace_buffer_ c = [] → aux_progress records c (stream record_bytes records) [].
Proof. intros Hb. unfold aux_progress. rewrite Hb. apply progress_start. Qed.

Lemma aux_progress_end records c w : Forall (record_ok dir) records → aux_progress records c [] w →
  aux_trace_buffer_ c = [] ∧ w = all_artifacts records.
Proof.
  intros Hok Hpr. apply (progress_end record_bytes (store_record dir) record_bytes_nonempty) in Hpr as [Hb Hrun].
  rewrite store_records_run in Hrun by done. by injection Hrun as <-.
Qed.

Lemma feed_aux_all records : Forall (record_ok dir) records →
  ∀ chunks c w (e : E), artifact_path_ c = dir → aux_progress records c (concat chunks) w →
  ∃ left_over new, for_each chunks feed_aux (c, e) = Some (tt, (with_aux_buffer left_over c, write_all new e))
    ∧ aux_progress records (with_aux_buffer left_over c) [] (w ++ new).
Proof.
  intros Hok chunks. induction chunks as [|chunk chunks IH]; intros c w e Hdir Hpr.
  { exists (aux_trace_buffer_ c), []. rewrite app_nil_r. by destruct c. }
  destruct (feed_aux_step records c chunk (concat chunks) w e Hok Hdir Hpr) as (l1 & new1 & Hfeed & Hpr1).
  destruct (IH (with_aux_buffer l1 c) (w ++ new1) (write_all new1 e) Hdir Hpr1) as (l2 & new2 & Hrest & Hend).
  exists l2, (new1 ++ new2). rewrite write_all_app, app_assoc. split; [|exact Hend].
  cbn [for_each]. by rewrite (bind_run _ _ _ _ _ Hfeed).
Qed.

(** C27. The dumps, surfaces and textures of a frame are stored in the files each of
    them would be stored in had it been received alone, once and in order, however
    the console cuts the stream into answers; nothing is left over, and the rest of
    the frame stays. *)
Theorem records_stored (records : list AuxRecord) (chunks : list bytes) (c : FrameCapture) (e : E) :
  Forall (record_ok dir) records → artifact_path_ c = dir → aux_trace_buffer_ c = [] →
  concat chunks = stream record_bytes records →
  for_each chunks feed_aux (c, e) = Some (tt, (c, write_all (all_artifacts records) e)).
Proof.
  intros Hok Hdir Hb Hs. destruct (feed_aux_all records Hok chunks c [] e Hdir) as (l & new & Hrun & Hend).
  { rewrite Hs. by apply aux_progress_start. }
  apply aux_progress_end in Hend as [Hl Hnew]; [|done]. cbn in Hl, Hnew. rewrite Hrun, Hl, Hnew. destruct c; cbn in *. by subst.
Qed.
End Stream.

(** *** What is in the files *)

Lemma dump_artifacts `{!ImageTools} dir h data :
  data_type h = ADT_PGRAPH_DUMP ∨ data_type h = ADT_PFB_DUMP → len h = Z.of_nat (length data) →
  artifacts dir (MkRecord h data)
  = Some [(path_append dir (if data_type h =? ADT_PGRAPH_DUMP then pgraph_filename h else pfb_filename h), data)].
Proof.
  intros Ht Hl. unfold artifacts, log_record. cbn [record_header record_data].
  assert (first_bytes (len h) data = Some data) as Hf.
  { unfold first_bytes. rewrite (proj2 (Z.leb_le _ _)) by lia. by rewrite Hl, Nat2Z.id, take_ge. }
  destruct Ht as [-> | ->]; cbn; unfold LogPGRAPH, LogPFB; by rewrite (lift_run _ _ _ _ Hf).
Qed.

(** A dump, and a swizzled surface of two by two pixels with its description. *)
Definition example_records : list AuxRecord :=
  [MkRecord (MkAuxData 7 3 ADT_PGRAPH_DUMP 4) "dump"%bs;
   MkRecord (MkAuxData 8 3 ADT_SURFACE 95)
     (struct_bytes [ST_COLOR; SURFACE_FORMAT_A8R8G8B8; 15; 16; 2; 2; 8; 0; 0; 2; 2; 1; 0; NV097_CLEAR_SURFACE; 3; 1]
      ++ "format 0xC, end"%bs ++ "BGRAbgraBGRAbgra"%bs)].

Lemma example_records_ok : Forall (record_ok "frame"%bs) example_records.
Proof.
  repeat constructor; try done; try (vm_compute; intuition discriminate).
Qed.

Lemma records_stored_witness :
  let s := stream record_bytes example_records in
  let c := MkCapture ∅ [] 0 "frame"%bs [] false false [] [] in
  ∃ description, for_each [take 10 s; take 60 (drop 10 s); drop 70 s] feed_aux (c, [] : Writes)
  = Some (tt, (c, [("frame/0000000007_3_PGRAPH.bin"%bs, "dump"%bs);
                   ("frame/0000000008_3_1_Surface_Color.txt"%bs, description);
                   ("frame/0000000008_3_1_Surface_Color.bin"%bs, "BGRAbgraBGRAbgra"%bs);
                   ("frame/0000000008_3_1_Surface_Color.png"%bs, "RGBArgbaRGBArgba"%bs)])).
Proof.
  eexists. erewrite (records_stored "frame"%bs example_records); [|exact example_records_ok|reflexivity|reflexivity|vm_compute; reflexivity].
  vm_compute. reflexivity.
Defined.
