(* ===== verification/Tracer.v ===== *)
(** * The tracer (src/tracer/tracer.h, tracer.cpp, notification_ntrc.h, notification_ntrc.cpp)

    Tracing frames with the help of the tracer that runs on the console: it is
    installed and asked to trace, tells of its progress in notifications, and hands
    the data of the frame over on request.  Its name, the codes of its states and its
    image (ntrc_dyndxt.h, fetched when the program is built) are the interface
    [NTRC].  The flags that notifications set are read at the moments the code reads
    them; what arrives before is handled first, in an order the environment chooses. *)

From S2P Require Import Prelude CLib Boost Parsing RdcpResponse RdcpMaps RdcpTypes RdcpRequest Requests Notifications Target.
From S2P Require Import DebuggerMemory DebuggerThread DebuggerThreads Debugger DebuggerControl DxtRequests DxtLoader.
From S2P Require Import FileUtil ImageUtil TraceTypes FrameCapture FrameImages FrameAux.

(** ** Notifications of the tracer *)

Record NotificationNTRC := MkNTRC { content : RDCPMapResponse }.

Definition NotificationNTRC_of `{!Boost} (buffer : bytes) : outcome NotificationNTRC :=
  match RDCPMapResponse_of buffer with Some parsed => Parsed (Custom (MkNTRC parsed)) | None => Threw end.

(** ** What is not part of the program *)

(** The states, by the names of the header; the compiler makes sure that the ones
    in one [switch] are different. *)
Class NTRC := {
  NTRC_HANDLER_NAME : bytes;
  STATE_FATAL_NOT_IN_NEW_FRAME_STATE : Z;
  STATE_FATAL_NOT_IN_STABLE_STATE : Z;
  STATE_FATAL_DISCARDING_FAILED : Z;
  STATE_FATAL_PROCESS_PUSH_BUFFER_COMMAND_FAILED : Z;
  STATE_FATAL_PERMANENT_STALL : Z;
  STATE_SHUTDOWN : Z;
  kNTRCDynDXT : bytes
}.

(** What the tracer uses beside [Target], [NTRC] being the name of the channel. *)
Class TracerLink (E : Type) := {
  (** the answer on the dedicated channel of a handler *)
  answer_dedicated : bytes → RDCPRequest → option bytes → E → option RDCPResponse * E;
  (** the notifications that were handled since the last look at a flag *)
  arrivals : E → list (Notification NotificationNTRC) * E;
  (** [RegisterXBDMNotificationConstructor] and its reverse *)
  register_constructor : bytes → E → E;
  unregister_constructor : bytes → E → E;
  path_exists : bytes → E → bool
}.

(** ** State *)

(** [captured_frames_] is never used. *)
Record Tracer := MkTracer {
  notification_handler_id_ : Z;
  request_failed_ : bool;
  request_processed_ : bool;
  pgraph_data_available_ : bool;
  aux_data_available_ : bool;
  in_progress_frame_ : FrameCapture
}.

Definition new_tracer : Tracer := MkTracer 0 false false false false (new_capture false).

Definition set_handler (id : Z) (t : Tracer) : Tracer :=
  MkTracer id (request_failed_ t) (request_processed_ t) (pgraph_data_available_ t) (aux_data_available_ t) (in_progress_frame_ t).
Definition set_failed (b : bool) (t : Tracer) : Tracer :=
  MkTracer (notification_handler_id_ t) b (request_processed_ t) (pgraph_data_available_ t) (aux_data_available_ t) (in_progress_frame_ t).
Definition set_processed (b : bool) (t : Tracer) : Tracer :=
  MkTracer (notification_handler_id_ t) (request_failed_ t) b (pgraph_data_available_ t) (aux_data_available_ t) (in_progress_frame_ t).
Definition set_pgraph_available (b : bool) (t : Tracer) : Tracer :=
  MkTracer (notification_handler_id_ t) (request_failed_ t) (request_processed_ t) b (aux_data_available_ t) (in_progress_frame_ t).
Definition set_aux_available (b : bool) (t : Tracer) : Tracer :=
  MkTracer (notification_handler_id_ t) (request_failed_ t) (request_processed_ t) (pgraph_data_available_ t) b (in_progress_frame_ t).
Definition set_frame (c : FrameCapture) (t : Tracer) : Tracer :=
  MkTracer (notification_handler_id_ t) (request_failed_ t) (request_processed_ t) (pgraph_data_available_ t) (aux_data_available_ t) c.

Section Tracing.
Context `{!Boost} {E : Type} `{!Target NotificationNTRC E, !LocalDisk E, !ImageTools, !NTRC, !TracerLink E}.
Abbreviation R := (M (Tracer * E)).

(** Commands go to the channel of the tracer. *)
Definition dedicated : Target NotificationNTRC E := {|
  answer := answer_dedicated NTRC_HANDLER_NAME;
  next_notification := next_notification;
  burst := burst;
  GetNotificationServerAddress := GetNotificationServerAddress;
  StartNotificationListener := StartNotificationListener;
  RegisterNotificationHandler := RegisterNotificationHandler;
  UnregisterNotificationHandler := UnregisterNotificationHandler;
  has_handler := has_handler;
  CloseActiveConnections := CloseActiveConnections
|}.

Definition dedicated_command (r : RDCPRequest) : R bool :=
  '(ok, _) ← on_right (command (Target0 := dedicated) plain_class r None tt); mret ok.
Definition ntrc_command (name args : bytes) : R bool := dedicated_command (InvokeSimple (NTRC_HANDLER_NAME ++ name) args).

Definition set (f : Tracer → Tracer) : R unit := on_left (modify f).
Definition on_console (f : E → E) : R unit := on_right (modify f).

(** ** Notifications *)

Definition OnShutdown : R unit :=
  t ← gets fst;
  on_console (UnregisterNotificationHandler (notification_handler_id_ t)) ;;
  set (set_handler 0) ;;
  on_console (unregister_constructor NTRC_HANDLER_NAME).

Definition fatal_states : list Z :=
  [STATE_FATAL_NOT_IN_NEW_FRAME_STATE; STATE_FATAL_NOT_IN_STABLE_STATE; STATE_FATAL_DISCARDING_FAILED;
   STATE_FATAL_PROCESS_PUSH_BUFFER_COMMAND_FAILED; STATE_FATAL_PERMANENT_STALL].

(** The other states are only written to the log. *)
Definition OnNewState (new_state : Z) : R unit :=
  if decide (new_state ∈ fatal_states) then set (set_failed true)
  else if decide (new_state = STATE_SHUTDOWN) then OnShutdown
  else mret tt.

Definition OnNotification (n : NotificationNTRC) : R unit :=
  if HasKey "new_state"%bs (content n) then OnNewState (RdcpMaps.GetDWORD "new_state"%bs 0 (content n))
  else if HasKey "req_processed"%bs (content n) then set (set_processed true)
  else if HasKey "w_pgraph"%bs (content n) then set (set_pgraph_available true)
  else if HasKey "w_aux"%bs (content n) then set (set_aux_available true)
  else mret tt.

(** The handler that [Install] registers, as long as it is registered. *)
Definition handle (n : Notification NotificationNTRC) : R unit :=
  registered ← gets (λ s, has_handler (notification_handler_id_ s.1) s.2);
  match n with
  | Custom ntrc => if registered : bool then OnNotification ntrc else mret tt
  | _ => mret tt
  end.

Definition look : R unit := ns ← on_right (λ e, Some (arrivals e)); for_each ns handle.

(** Reading a flag, and [exchange(false)]. *)
Definition read_flag (flag : Tracer → bool) : R bool := look ;; gets (λ s, flag s.1).
Definition take_flag (flag : Tracer → bool) (clear : bool → Tracer → Tracer) : R bool :=
  b ← read_flag flag; set (clear false) ;; mret b.

(** Flags that are stored to: what came before is lost. *)
Definition reset (f : Tracer → Tracer) : R unit := look ;; set f.

(** ** Commands *)

Definition flag_text (b : bool) : bytes := if b then "1"%bs else "0"%bs.

Definition attach_command (tcap dcap ccap rdicap rawpgraph rawpfb : bool) : bytes :=
  snprintf 256 (NTRC_HANDLER_NAME ++ "!attach tcap="%bs ++ flag_text tcap ++ " dcap="%bs ++ flag_text dcap ++ " ccap="%bs ++ flag_text ccap
                ++ " rdicap="%bs ++ flag_text rdicap ++ " rawpgraph="%bs ++ flag_text rawpgraph ++ " rawpfb="%bs ++ flag_text rawpfb).
Definition Attach (tcap dcap ccap rdicap rawpgraph rawpfb : bool) : R bool :=
  dedicated_command (InvokeSimple (attach_command tcap dcap ccap rdicap rawpgraph rawpfb) []).

Definition Detach : R bool := ntrc_command "!detach"%bs [].

(** ** Tracing a frame *)

Definition on_frame {A} (m : M (FrameCapture * E) A) : R A := zoom in_progress_frame_ set_frame m.
Definition fetch_pgraph : R FetchResult := on_frame (FetchPGRAPHTraceData (Target0 := dedicated) NTRC_HANDLER_NAME).
Definition fetch_aux (fuel : nat) : R FetchResult := on_frame (FetchAuxTraceData (Target0 := dedicated) NTRC_HANDLER_NAME fuel).

(** [while (!request_processed_)]: [false] when the request failed. *)
Fixpoint trace_loop (fuel : nat) : R bool :=
  match fuel with
  | O => mfail
  | S fuel =>
    processed ← read_flag request_processed_;
    if processed : bool then mret true
    else
      failed ← read_flag request_failed_;
      if failed : bool then mret false
      else
        pgraph ← take_flag pgraph_data_available_ set_pgraph_available;
        (if pgraph : bool then result ← fetch_pgraph; mret tt else mret tt) ;;
        aux ← take_flag aux_data_available_ set_aux_available;
        (if aux : bool then result ← fetch_aux fuel; mret tt else mret tt) ;;
        trace_loop fuel
  end.

(** [while (!request_failed_)], until there is no more data. *)
Fixpoint drain (fuel : nat) (fetch : R FetchResult) : R unit :=
  match fuel with
  | O => mfail
  | S fuel =>
    failed ← read_flag request_failed_;
    if failed : bool then mret tt
    else
      result ← fetch;
      if decide (result = NO_DATA_AVAILABLE) then mret tt else drain fuel fetch
  end.

Definition reset_flags (t : Tracer) : Tracer :=
  set_aux_available false (set_pgraph_available false (set_failed false (set_processed false t))).

Definition TraceFrame (fuel : nat) (artifact_path : bytes) (verbose allow_partial_frame : bool) : R bool :=
  there ← gets (λ s, path_exists artifact_path s.2);
  (if there : bool then mret tt else on_console (create_directories artifact_path)) ;;
  on_frame (Setup artifact_path verbose) ;;
  reset reset_flags ;;
  ok ← ntrc_command "!trace_frame"%bs (if allow_partial_frame then "nodiscard"%bs else []);
  if negb ok then mret false
  else
    traced ← trace_loop fuel;
    if negb traced then mret false
    else
      drain fuel fetch_pgraph ;;
      drain fuel (fetch_aux fuel) ;;
      on_frame Close ;;
      mret true.

Definition frame_name (i : nat) : bytes := snprintf 32 ("frame_"%bs ++ fmt_u (Z.of_nat (S i))).

(** [i] runs as long as it is less than [num_frames]. *)
Fixpoint trace_frames (fuel : nat) (artifact_path : bytes) (num_frames i : nat) (verbose allow_partial_frame : bool) : R bool :=
  match num_frames with
  | O => mret true
  | S num_frames =>
    ok ← TraceFrame fuel (path_append artifact_path (frame_name i)) verbose allow_partial_frame;
    if ok : bool then trace_frames fuel artifact_path num_frames (S i) verbose allow_partial_frame else mret false
  end.

(** [while (!request_processed_.exchange(false)) WaitMilliseconds(10);] *)
Fixpoint wait_processed (fuel : nat) : R unit :=
  match fuel with
  | O => mfail
  | S fuel => processed ← take_flag request_processed_ set_processed; if processed : bool then mret tt else wait_processed fuel
  end.
End Tracing.

(** ** The interface of the tracer *)

Section Interface.
Context `{!Boost} {E : Type} `{!Target NotificationNTRC E, !Listeners NotificationNTRC E, !LocalDisk E, !ImageTools, !NTRC, !TracerLink E}.

Context (kBootstrapL1 kBootstrapL2 kDynamicDXTLoader : bytes).

(** The tracer there is, if any, beside the loader and the debugger. *)
Abbreviation Rest := (option Loader * (XBDMDebugger * E))%type.
Abbreviation I := (M (option Tracer * Rest)).

(** A method of the tracer there is. *)
Definition on_tracer {A} (m : M (Tracer * E) A) : M (Tracer * Rest) A := λ '(t, (l, (d, e))),
  '(a, (t, e)) ← m (t, e); Some (a, (t, (l, (d, e)))).
Definition with_singleton (m : M (Tracer * Rest) bool) : I bool := λ '(singleton_, s),
  match singleton_ with
  | None => Some (false, (None, s))
  | Some t => '(a, (t, s)) ← m (t, s); Some (a, (Some t, s))
  end.

Definition register_tracer : M (Tracer * E) unit :=
  t ← gets fst;
  if notification_handler_id_ t =? 0 then
    id ← on_right (λ e, Some (RegisterNotificationHandler e));
    set (set_handler id) ;;
    on_console (register_constructor NTRC_HANDLER_NAME)
  else mret tt.

Definition dedicate : M (Tracer * E) bool :=
  '(ok, _) ← on_right (command (Target0 := dedicated) Dedicate_class (Dedicate (Some NTRC_HANDLER_NAME)) None tt); mret ok.

Definition Install : M (Tracer * Rest) bool :=
  on_tracer register_tracer ;;
  ok ← on_tracer dedicate;
  if ok : bool then mret true
  else
    installed ← on_right (DxtLoader.Install kBootstrapL1 kBootstrapL2 kDynamicDXTLoader kNTRCDynDXT);
    if negb installed then mret false else on_tracer dedicate.

Definition Initialize : I bool := λ '(singleton_, s),
  '(ok, (t, s)) ← Install (default new_tracer singleton_, s); Some (ok, (Some t, s)).

(** What the debugger, if there is one, does. *)
Definition resume (attached : bool) : M (Tracer * Rest) unit :=
  if attached then on_right (on_right (going ← Go; continued ← on_threads (ContinueAll false); mret tt)) else mret tt.

Definition discard_command (require_flip : bool) : bytes :=
  snprintf 256 (NTRC_HANDLER_NAME ++ "!discard_until_flip"%bs ++ (if require_flip then " require_flip"%bs else [])).

Definition BreakOnFrameStart_ (fuel : nat) (attached require_flip : bool) : M (Tracer * Rest) bool :=
  on_tracer (reset (set_processed false)) ;;
  ok ← on_tracer (ntrc_command "!wait_stable_pb"%bs []);
  if negb ok then mret false
  else
    resume attached ;;
    on_tracer (wait_processed fuel) ;;
    on_tracer (reset (set_processed false)) ;;
    ok ← on_tracer (dedicated_command (InvokeSimple (discard_command require_flip) []));
    if negb ok then mret false else on_tracer (wait_processed fuel) ;; mret true.

Definition BreakOnFrameStart (fuel : nat) (attached require_flip : bool) : I bool :=
  with_singleton (BreakOnFrameStart_ fuel attached require_flip).

Definition TraceFrames (fuel : nat) (artifact_path : bytes) (num_frames : Z) (verbose allow_partial_frame : bool) : I bool :=
  with_singleton (on_tracer (trace_frames fuel artifact_path (Z.to_nat num_frames) 0 verbose allow_partial_frame)).
End Interface.
