(* ===== verification/TracerRuns.v ===== *)
(** * A frame from the console

    Against a console that hands the data of a frame over piece by piece and tells
    when it is done, [TraceFrame] ends, with the whole frame captured and stored. *)

From S2P Require Import Prelude CLib Boost Parsing RdcpResponse RdcpMaps RdcpTypes RdcpRequest Requests Notifications Target.
From S2P Require Import DxtRequests FileUtil ImageUtil DxtLibrary TraceTypes FrameCapture FrameImages FrameAux FrameStream FrameRecords Tracer.

(** ** Names of files *)

Definition log_name : bytes := "nv2a_log.txt"%bs.

Lemma path_append_inj dir a b : path_append dir a = path_append dir b → a = b.
Proof.
  unfold path_append. destruct dir as [|c dir]; [done|]. destruct (decide _).
  - apply app_inv_head.
  - intros Heq. apply app_inv_head in Heq. by injection Heq.
Qed.

Lemma pad_digits_head w n : 0 ≤ n → ∃ c s, pad_left "0" w (fmt_u n) = c :: s ∧ is_digit_of 10 c = true.
Proof.
  intros Hn. unfold pad_left, fmt_u. destruct (w - _)%nat as [|k]; [|by exists "0"%byte; eexists].
  pose proof (print_base_nonempty false 10 n) as Hne. destruct (print_base false 10 n) as [|c s] eqn:E; [done|].
  exists c, s. split; [done|]. pose proof (print_base_digits false 10 n) as Hd. rewrite E in Hd.
  specialize (Hd ltac:(lia) ltac:(lia)). by apply Forall_cons in Hd as [Hd%Is_true_true _].
Qed.

(** No artifact is called as the log. *)
Definition not_log (dir : bytes) (f : bytes * bytes) : Prop := f.1 ≠ path_append dir log_name.

#[export] Instance not_log_dec dir f : Decision (not_log dir f).
Proof. unfold not_log. apply _. Defined.

Section Names.
Context `{!ImageTools} (dir : bytes) (packet : AuxDataHeader).
Hypothesis Hindex : 0 ≤ aux_packet_index packet.
Abbreviation named := (Forall (not_log dir) : Writes → Prop).

Lemma artifact_name rest contents : keeps named (save_artifact dir (snprintf 64 (record_prefix packet ++ rest)) contents).
Proof.
  intros w Hw. unfold save_artifact, wp. cbn. apply Forall_app_2; [done|]. constructor; [|done].
  intros Heq%path_append_inj. destruct (pad_digits_head 10 _ Hindex) as (c & s & Hc & Hd). unfold record_prefix in Heq. rewrite Hc in Heq.
  cbn in Heq. injection Heq as -> _. discriminate Hd.
Qed.

Lemma log_record_named d : keeps named (log_record dir packet d).
Proof.
  assert (∀ context rest contents, keeps named (save_artifact dir (snprintf 64 (image_prefix packet context ++ rest)) contents)) as Himage.
  { intros context rest contents. unfold image_prefix. rewrite <- app_assoc. apply artifact_name. }
  unfold log_record, LogPGRAPH, LogPFB, LogRDI, LogSurface, LogTexture.
  repeat match goal with
  | |- keeps _ (_ ≫= _) => apply keeps_bind; [|intros ?]
  | |- keeps _ (lift_option _) => apply keeps_lift
  | |- keeps _ (mret _) => apply keeps_ret
  | |- keeps _ (if ?b then _ else _) => destruct b
  | |- keeps _ (save_artifact _ _ _) => first [apply artifact_name|apply Himage]
  end.
Qed.
End Names.

(** ** The console

    What the tracer on it promises for one frame: the data it has still to hand over,
    whether it has told that the frame is done, how many looks it takes until then,
    and the files written on the local disk. *)

Definition is_told `{!Boost} (n : Notification NotificationNTRC) : bool :=
  match n with Custom ntrc => negb (HasKey "new_state"%bs (content ntrc)) && HasKey "req_processed"%bs (content ntrc) | _ => false end.

(** Neither a failure nor a shutdown. *)
Definition is_progress `{!Boost, !NTRC} (n : Notification NotificationNTRC) : Prop :=
  match n with
  | Custom ntrc => HasKey "new_state"%bs (content ntrc) = true →
      (RdcpMaps.GetDWORD "new_state"%bs 0 (content ntrc) ∉ fatal_states) ∧ RdcpMaps.GetDWORD "new_state"%bs 0 (content ntrc) ≠ STATE_SHUTDOWN
  | _ => True
  end.

Definition read_request `{!NTRC} (what : bytes) : RDCPRequest :=
  InvokeReceiveSizePrefixedBinary (NTRC_HANDLER_NAME ++ what ++ " maxsize=0x1000000"%bs) [].
Definition trace_request `{!NTRC} (allow_partial_frame : bool) : RDCPRequest :=
  InvokeSimple (NTRC_HANDLER_NAME ++ "!trace_frame"%bs) (if allow_partial_frame then "nodiscard"%bs else []).

Record Observed := MkObserved { pgraph_unread : bytes; aux_unread : bytes; told : bool; patience : nat; listening : bool }.

Class FrameSource `{!Boost, !NTRC} {E : Type} `{!Target NotificationNTRC E, !LocalDisk E, !TracerLink E} (handler : Z) (pgraph aux : bytes) := {
  observed : E → Observed;
  files : E → Writes;
  (** an answer takes the next piece of the stream, or says that there is none,
      which is final once the frame is done *)
  reads_pgraph e : ∃ response e', answer_dedicated NTRC_HANDLER_NAME (read_request "!read_pgraph"%bs) None e = (Some response, e') ∧ files e' = files e ∧
    let o := observed e in let o' := observed e' in
    (aux_unread o' = aux_unread o ∧ told o' = told o ∧ (patience o' ≤ patience o)%nat ∧ listening o' = listening o) ∧
    ((status_ response = OK_BINARY_RESPONSE ∧ RdcpResponse.data_ response ≠ [] ∧ pgraph_unread o = RdcpResponse.data_ response ++ pgraph_unread o')
     ∨ (status_ response = ERR_DATA_NOT_AVAILABLE ∧ pgraph_unread o' = pgraph_unread o ∧ (told o = true → pgraph_unread o = [])));
  reads_aux e : ∃ response e', answer_dedicated NTRC_HANDLER_NAME (read_request "!read_aux"%bs) None e = (Some response, e') ∧ files e' = files e ∧
    let o := observed e in let o' := observed e' in
    (pgraph_unread o' = pgraph_unread o ∧ told o' = told o ∧ (patience o' ≤ patience o)%nat ∧ listening o' = listening o) ∧
    ((status_ response = OK_BINARY_RESPONSE ∧ RdcpResponse.data_ response ≠ [] ∧ aux_unread o = RdcpResponse.data_ response ++ aux_unread o')
     ∨ (status_ response = ERR_DATA_NOT_AVAILABLE ∧ aux_unread o' = aux_unread o ∧ (told o = true → aux_unread o = [])));
  (** what arrives is progress; that the frame is done is told once *)
  arrives e : let '(ns, e') := arrivals e in let o := observed e in let o' := observed e' in
    files e' = files e ∧ pgraph_unread o' = pgraph_unread o ∧ aux_unread o' = aux_unread o ∧ listening o' = listening o
    ∧ Forall is_progress ns ∧ told o' = told o || existsb is_told ns ∧ (told o' = true ∨ (patience o' < patience o)%nat) ∧ (patience o' ≤ patience o)%nat;
  (** the frame begins *)
  traces partial e : listening (observed e) = true →
    ∃ response e', answer_dedicated NTRC_HANDLER_NAME (trace_request partial) None e = (Some response, e') ∧ status_ response = OK ∧ files e' = files e
      ∧ pgraph_unread (observed e') = pgraph ∧ aux_unread (observed e') = aux ∧ told (observed e') = false ∧ listening (observed e') = true;
  (** the disk *)
  writes p contents e : (write_local p contents e).1 = true
    ∧ files (write_local p contents e).2 = files e ++ [(p, contents)] ∧ observed (write_local p contents e).2 = observed e;
  makes p e : files (create_directories p e) = files e ∧ observed (create_directories p e) = observed e;
  listens e : listening (observed e) = has_handler handler e
}.

Section Run.
Context `{!Boost, !NTRC, !ImageTools} {E : Type} `{!Target NotificationNTRC E, !LocalDisk E, !TracerLink E}.
Context (handler : Z) (items : list TraceItem) (records : list AuxRecord) (dir : bytes).
Context `{!FrameSource handler (stream item_bytes items) (stream record_bytes records)}.
Context (Hitems : Forall item_ok items) (Hrecords : Forall (record_ok dir) records).

Lemma files_write_all fs e : files (write_all fs e) = files e ++ fs ∧ observed (write_all fs e) = observed e.
Proof.
  revert e. induction fs as [|[p contents] fs IH]; intros e; [by rewrite app_nil_r|].
  change (write_all ((p, contents) :: fs) e) with (write_all fs (write_local p contents e).2).
  destruct (IH (write_local p contents e).2) as [-> ->]. destruct (writes p contents e) as (_ & -> & ->). by rewrite <- app_assoc.
Qed.

(** *** The frame between two steps *)

Context (c0 : FrameCapture) (Hpath : artifact_path_ c0 = dir) (Hopened : log_opened c0 = true) (Hfree : ids_free c0) (Hleft : ids_left items c0).
Context (f0 : Writes).

Definition artifacts_of (fs : list (bytes * bytes)) : list (bytes * bytes) := filter (not_log dir) fs.
Definition log_writes (fs : list (bytes * bytes)) : list (bytes * bytes) := filter (λ f, f.1 = path_append dir log_name) fs.

Record frame_inv (c : FrameCapture) (e : E) : Prop := {
  inv_pgraph : pgraph_progress items c0 c (pgraph_unread (observed e));
  inv_files : ∃ w, aux_progress dir records c (aux_unread (observed e)) w ∧ artifacts_of (files e) = f0 ++ w;
  inv_log : last (log_writes (files e)) = Some (path_append dir log_name, nv2a_log_ c)
}.

(** *** Fetching *)

Lemma names_of_progress c unread w : aux_progress dir records c unread w → Forall (not_log dir) w.
Proof.
  intros (done_ & rest & -> & _ & _ & Hrun). apply Forall_app in Hrecords as [Hdone _].
  assert (∀ rs w0, Forall (record_ok dir) rs → Forall (not_log dir) w0 → wp True (for_each rs (store_record dir)) w0 (λ _, Forall (not_log dir))) as Hkeeps.
  { induction rs as [|r rs IH]; intros w0 Hrs Hw0; [done|]. apply Forall_cons in Hrs as [Hr Hrs]. cbn [for_each]. apply wp_bind.
    eapply wp_mono; [apply (log_record_named dir)|].
    - pose proof (record_u32 _ _ Hr) as Hu. unfold aux_header_dwords in Hu. rewrite Forall_cons in Hu. unfold is_u32 in Hu. lia.
    - exact Hw0.
    - intros [] w1 Hw1. by apply IH. }
  specialize (Hkeeps done_ [] Hdone ltac:(constructor)). unfold wp in Hkeeps. by rewrite Hrun in Hkeeps.
Qed.

Lemma progress_frame c unread : pgraph_progress items c0 c unread → artifact_path_ c = dir ∧ log_opened c = true.
Proof.
  intros (c1 & (done_ & rest & Hi & _ & _ & Hrun) & ->). destruct (capture_items_run done_ c0) as (c' & Hrun' & Hcap).
  - rewrite Hi in Hitems. by apply Forall_app in Hitems as [? _].
  - exact Hfree.
  - unfold ids_left, ids_needed in *. rewrite Hi, List.filter_app, length_app in Hleft. lia.
  - rewrite Hrun in Hrun'. injection Hrun' as ->. cbn. destruct Hcap as [_ _ _ _ Hp Ho]. cbn in Hp, Ho. by rewrite Hp, Ho, Hpath, Hopened.
Qed.

Lemma captured_items_some : is_Some (for_each items capture_item c0).
Proof. destruct (capture_items_run items c0 Hitems Hfree Hleft) as (c' & Hrun & _). eauto. Qed.

Lemma log_path_of c : artifact_path_ c = dir → log_path c = path_append dir log_name.
Proof. intros <-. done. Qed.

Lemma pgraph_fed c e chunk w :
  pgraph_progress items c0 c (chunk ++ pgraph_unread (observed e)) →
  aux_progress dir records c (aux_unread (observed e)) w → artifacts_of (files e) = f0 ++ w →
  ∃ c' e', feed_pgraph chunk (c, e) = Some (tt, (c', e')) ∧ frame_inv c' e' ∧ observed e' = observed e.
Proof.
  intros Hp Ha Hf. destruct (feed_pgraph_step items c0 c chunk _ e Hitems captured_items_some Hp) as (c' & Hfeed & Hp' & Haux).
  destruct (progress_frame _ _ Hp') as [Hdir Hopen]. exists c', (flushed c' e). split; [exact Hfeed|].
  unfold flushed in *. rewrite Hopen in *. destruct (writes (log_path c') (nv2a_log_ c') e) as (_ & Hfiles & Hobs). split; [|done].
  rewrite (log_path_of _ Hdir) in Hfiles, Hobs |- *. split; rewrite ?Hobs, ?Hfiles.
  - exact Hp'.
  - exists w. unfold aux_progress in *. rewrite Haux. split; [done|]. unfold artifacts_of in *. rewrite filter_app, Hf.
    rewrite filter_cons_False, filter_nil, app_nil_r; [done|]. unfold not_log. cbn. tauto.
  - unfold log_writes. rewrite filter_app, filter_cons_True, filter_nil by done. by rewrite last_snoc.
Qed.

Lemma aux_fed c e chunk w :
  pgraph_progress items c0 c (pgraph_unread (observed e)) →
  aux_progress dir records c (chunk ++ aux_unread (observed e)) w → artifacts_of (files e) = f0 ++ w →
  last (log_writes (files e)) = Some (path_append dir log_name, nv2a_log_ c) →
  ∃ c' e', feed_aux chunk (c, e) = Some (tt, (c', e')) ∧ frame_inv c' e' ∧ observed e' = observed e.
Proof.
  intros Hp Ha Hf Hlog. destruct (progress_frame _ _ Hp) as [Hdir Hopen].
  destruct (feed_aux_step dir records c chunk _ w e Hrecords Hdir Ha) as (left_over & new & Hfeed & Ha').
  destruct (files_write_all new e) as [Hfiles Hobs]. pose proof (names_of_progress _ _ _ Ha') as Hnames. apply Forall_app in Hnames as [_ Hnames].
  do 2 eexists. split; [exact Hfeed|]. split; [|done]. split; rewrite ?Hobs, ?Hfiles.
  - destruct Hp as (c1 & Hp & Hc). exists c1. split; [exact Hp|]. rewrite Hc. reflexivity.
  - exists (w ++ new). split; [exact Ha'|]. unfold artifacts_of in *. rewrite filter_app, Hf, (filter_all _ new), app_assoc; [done|]. by apply Forall_forall.
  - unfold log_writes in *. rewrite filter_app, (filter_none _ new), app_nil_r by (eapply Forall_impl; [exact Hnames|]; intros ? Hn; exact Hn). exact Hlog.
Qed.

(** An answer with data, and one without. *)
Lemma fetch_data_some what response e e' :
  answer_dedicated NTRC_HANDLER_NAME (read_request what) None e = (Some response, e') → status_ response = OK_BINARY_RESPONSE → RdcpResponse.data_ response ≠ [] →
  fetch_data (Target0 := dedicated) NTRC_HANDLER_NAME what e = Some (inr (RdcpResponse.data_ response), e').
Proof.
  intros Ha Hs Hd. unfold fetch_data, SendCommandSync, mbind, M_bind. cbn [answer dedicated]. unfold read_request in Ha. rewrite Ha.
  unfold Complete. cbn. unfold prepend_data, if_ok. rewrite Hs. cbn. rewrite app_nil_r. by destruct (RdcpResponse.data_ response).
Qed.

Lemma fetch_data_none what response e e' :
  answer_dedicated NTRC_HANDLER_NAME (read_request what) None e = (Some response, e') → status_ response = ERR_DATA_NOT_AVAILABLE →
  fetch_data (Target0 := dedicated) NTRC_HANDLER_NAME what e = Some (inl NO_DATA_AVAILABLE, e').
Proof.
  intros Ha Hs. unfold fetch_data, SendCommandSync, mbind, M_bind. cbn [answer dedicated]. unfold read_request in Ha. rewrite Ha.
  unfold Complete. cbn. unfold prepend_data, if_ok. rewrite Hs. reflexivity.
Qed.

(** What a fetch changes of what is observed. *)
Definition steps (o o' : Observed) : Prop := told o' = told o ∧ (patience o' ≤ patience o)%nat ∧ listening o' = listening o.

Lemma fetch_pgraph_run c e : frame_inv c e →
  ∃ result c' e', FetchPGRAPHTraceData (Target0 := dedicated) NTRC_HANDLER_NAME (c, e) = Some (result, (c', e')) ∧ frame_inv c' e'
    ∧ steps (observed e) (observed e') ∧ aux_unread (observed e') = aux_unread (observed e)
    ∧ (result = DATA_FETCHED ∧ (length (pgraph_unread (observed e')) < length (pgraph_unread (observed e)))%nat
       ∨ result = NO_DATA_AVAILABLE ∧ pgraph_unread (observed e') = pgraph_unread (observed e)
         ∧ (told (observed e) = true → pgraph_unread (observed e) = [])).
Proof.
  intros [Hp (w & Ha & Hf) Hlog]. destruct (reads_pgraph e) as (response & e1 & Hanswer & Hfiles & (Haux & Htold & Hpat & Hlis) & [(Hs & Hd & Hu)|(Hs & Hu & Hdone)]);
    unfold FetchPGRAPHTraceData.
  - destruct (pgraph_fed c e1 (RdcpResponse.data_ response) w) as (c' & e' & Hfeed & Hinv & Hobs); [by rewrite <- Hu|by rewrite Haux|by rewrite Hfiles|].
    exists DATA_FETCHED, c', e'. split.
    { erewrite bind_run by (unfold on_right; rewrite (fetch_data_some _ _ _ _ Hanswer Hs Hd); reflexivity). cbv beta iota. by rewrite (bind_run _ _ _ _ _ Hfeed). }
    split; [exact Hinv|]. unfold steps. rewrite Hobs. split_and!; [done..|]. left. split; [done|]. rewrite Hu, length_app.
    destruct (RdcpResponse.data_ response); [done|]. cbn. lia.
  - exists NO_DATA_AVAILABLE, c, e1. split.
    { by erewrite bind_run by (unfold on_right; rewrite (fetch_data_none _ _ _ _ Hanswer Hs); reflexivity). }
    split; [|by split_and!; [..|right]]. split; rewrite ?Hu, ?Haux, ?Hfiles; [done|by exists w|done].
Qed.

(** Time goes on. *)
Record onward (o o' : Observed) : Prop := {
  onward_told : told o = true → told o' = true;
  onward_patience : (patience o' ≤ patience o)%nat;
  onward_pgraph : (length (pgraph_unread o') ≤ length (pgraph_unread o))%nat;
  onward_aux : (length (aux_unread o') ≤ length (aux_unread o))%nat
}.

Lemma onward_refl o : onward o o.
Proof. by split. Qed.
Lemma onward_trans o1 o2 o3 : onward o1 o2 → onward o2 o3 → onward o1 o3.
Proof. intros [] []. split; [auto|lia..]. Qed.

Lemma fetch_aux_run fuel : ∀ fetched c e, frame_inv c e → (length (aux_unread (observed e)) < fuel)%nat →
  ∃ result c' e', fetch_aux_loop (Target0 := dedicated) NTRC_HANDLER_NAME fuel fetched (c, e) = Some (result, (c', e')) ∧ frame_inv c' e'
    ∧ steps (observed e) (observed e') ∧ onward (observed e) (observed e')
    ∧ (result = DATA_FETCHED ∧ (fetched = true ∨ length (aux_unread (observed e')) < length (aux_unread (observed e)))%nat
       ∨ result = NO_DATA_AVAILABLE ∧ (told (observed e) = true → aux_unread (observed e') = [])).
Proof.
  induction fuel as [|fuel IH]; intros fetched c e Hinv Hfuel; [lia|]. destruct Hinv as [Hp (w & Ha & Hf) Hlog].
  destruct (reads_aux e) as (response & e1 & Hanswer & Hfiles & (Hpg & Htold & Hpat & Hlis) & [(Hs & Hd & Hu)|(Hs & Hu & Hdone)]); cbn [fetch_aux_loop].
  - destruct (aux_fed c e1 (RdcpResponse.data_ response) w) as (c1 & e2 & Hfeed & Hinv & Hobs); [by rewrite Hpg|by rewrite <- Hu|by rewrite Hfiles..|].
    assert (length (aux_unread (observed e2)) < length (aux_unread (observed e)))%nat as Hless.
    { rewrite Hobs, Hu, length_app. destruct (RdcpResponse.data_ response); [done|]. cbn. lia. }
    destruct (IH true c1 e2 Hinv) as (result & c' & e' & Hrun & Hinv' & (Ht & Hpt & Hli) & Hon & Hres); [lia|].
    exists result, c', e'. split.
    { erewrite bind_run by (unfold on_right; rewrite (fetch_data_some _ _ _ _ Hanswer Hs Hd); reflexivity). cbv beta iota. by rewrite (bind_run _ _ _ _ _ Hfeed). }
    rewrite Hobs in Ht, Hpt, Hli. split; [exact Hinv'|]. split; [split_and!; [congruence|lia|congruence]|]. split.
    + destruct Hon as [_ Hon1 Hon2 Hon3]. rewrite Hobs in Hon1, Hon2. split; [intros; congruence|lia|rewrite <- Hpg; lia|lia].
    + destruct Hres as [[-> _]|[-> Hn]]; [left|right]; (split; [done|]).
      * right. destruct Hon. lia.
      * intros Hto. apply Hn. by rewrite Hobs, Htold.
  - exists (if fetched then DATA_FETCHED else NO_DATA_AVAILABLE), c, e1. split.
    { by erewrite bind_run by (unfold on_right; rewrite (fetch_data_none _ _ _ _ Hanswer Hs); reflexivity). }
    split; [split; rewrite ?Hu, ?Hpg, ?Hfiles; [done|by exists w|done]|]. split; [done|].
    split; [split; [intros; congruence|done|by rewrite Hpg|by rewrite Hu]|].
    destruct fetched; [left; by split; [|left]|right]. split; [done|]. intros Hto. rewrite Hu. auto.
Qed.

(** *** The tracer between two steps *)

Record run_inv (t : Tracer) (e : E) : Prop := {
  run_handler : notification_handler_id_ t = handler;
  run_failed : request_failed_ t = false;
  run_processed : request_processed_ t = told (observed e);
  run_listening : listening (observed e) = true;
  run_frame : frame_inv (in_progress_frame_ t) e
}.

Lemma handles_run ns : ∀ t e, Forall is_progress ns → notification_handler_id_ t = handler → has_handler handler e = true →
  ∃ t', for_each ns handle (t, e) = Some (tt, (t', e)) ∧ notification_handler_id_ t' = handler ∧ request_failed_ t' = request_failed_ t
    ∧ in_progress_frame_ t' = in_progress_frame_ t ∧ request_processed_ t' = request_processed_ t || existsb is_told ns.
Proof.
  induction ns as [|n ns IH]; intros t e Hns Hid Hh; [exists t; by rewrite orb_false_r|]. apply Forall_cons in Hns as [Hn Hns].
  assert (∃ t1, handle n (t, e) = Some (tt, (t1, e)) ∧ notification_handler_id_ t1 = handler ∧ request_failed_ t1 = request_failed_ t
    ∧ in_progress_frame_ t1 = in_progress_frame_ t ∧ request_processed_ t1 = request_processed_ t || is_told n) as (t1 & Hrun & Hid1 & Hf1 & Hc1 & Hp1).
  { unfold handle. erewrite bind_run by reflexivity. cbn [fst snd]. rewrite Hid, Hh.
    destruct n as [| | | | | | | | | | | |ntrc]; try (exists t; by rewrite orb_false_r). unfold is_progress in Hn. unfold is_told, OnNotification.
    destruct (HasKey "new_state"%bs (content ntrc)).
    - destruct (Hn eq_refl) as [Hfatal Hshut]. exists t. unfold OnNewState. by rewrite !decide_False, orb_false_r.
    - destruct (HasKey "req_processed"%bs (content ntrc)); [exists (set_processed true t); by rewrite orb_true_r|].
      destruct (HasKey "w_pgraph"%bs (content ntrc)); [exists (set_pgraph_available true t); by rewrite orb_false_r|].
      destruct (HasKey "w_aux"%bs (content ntrc)); [exists (set_aux_available true t)|exists t]; by rewrite orb_false_r. }
  destruct (IH t1 e Hns Hid1 Hh) as (t' & Hrest & Hid' & Hf' & Hc' & Hp'). exists t'. cbn [for_each existsb].
  rewrite (bind_run _ _ _ _ _ Hrun). split_and!; [done|done|congruence|congruence|]. by rewrite Hp', Hp1, orb_assoc.
Qed.

Lemma frame_inv_same c e e' : files e' = files e → pgraph_unread (observed e') = pgraph_unread (observed e) →
  aux_unread (observed e') = aux_unread (observed e) → frame_inv c e → frame_inv c e'.
Proof. intros Hf Hp Ha [Hpg (w & Haux & Hw) Hlog]. split; rewrite ?Hf, ?Hp, ?Ha; [done|by exists w|done]. Qed.

Lemma look_run t e : run_inv t e →
  ∃ t' e', look (t, e) = Some (tt, (t', e')) ∧ run_inv t' e' ∧ onward (observed e) (observed e')
    ∧ (told (observed e') = true ∨ (patience (observed e') < patience (observed e))%nat).
Proof.
  intros [Hid Hfailed Hproc Hlis Hframe]. pose proof (arrives e) as Harr. destruct (arrivals e) as [ns e1] eqn:He.
  destruct Harr as (Hfiles & Hpg & Haux & Hli & Hns & Htold & Hdue & Hpat).
  assert (has_handler handler e1 = true) as Hh by (by rewrite <- listens, Hli).
  destruct (handles_run ns t e1 Hns Hid Hh) as (t' & Hrun & Hid' & Hf' & Hc' & Hp'). exists t', e1. split.
  { unfold look. erewrite bind_run by (unfold on_right; rewrite He; reflexivity). exact Hrun. }
  split; [|split; [split; [intros Hto; by rewrite Htold, Hto|done|by rewrite Hpg|by rewrite Haux]|done]].
  split; [done|congruence|by rewrite Hp', Hproc, Htold|congruence|]. rewrite Hc'. by eapply frame_inv_same.
Qed.

Lemma read_flag_run flag t e : run_inv t e →
  ∃ t' e', read_flag flag (t, e) = Some (flag t', (t', e')) ∧ run_inv t' e' ∧ onward (observed e) (observed e')
    ∧ (told (observed e') = true ∨ (patience (observed e') < patience (observed e))%nat).
Proof.
  intros Hinv. destruct (look_run t e Hinv) as (t' & e' & Hrun & Hrest). exists t', e'. split; [|exact Hrest].
  unfold read_flag. by rewrite (bind_run _ _ _ _ _ Hrun).
Qed.

(** A flag for data, which is nothing else's concern. *)
Definition data_flag (clear : bool → Tracer → Tracer) : Prop := ∀ b t e, run_inv t e → run_inv (clear b t) e.

Lemma pgraph_flag : data_flag set_pgraph_available.
Proof. intros b t e []. by split. Qed.
Lemma aux_flag : data_flag set_aux_available.
Proof. intros b t e []. by split. Qed.

Lemma take_flag_run flag clear t e : data_flag clear → run_inv t e →
  ∃ b t' e', take_flag flag clear (t, e) = Some (b, (t', e')) ∧ run_inv t' e' ∧ onward (observed e) (observed e').
Proof.
  intros Hclear Hinv. destruct (read_flag_run flag t e Hinv) as (t' & e' & Hrun & Hinv' & Hon & _). exists (flag t'), (clear false t'), e'.
  split; [|split; [by apply Hclear|done]]. unfold take_flag. by rewrite (bind_run _ _ _ _ _ Hrun).
Qed.

Lemma on_frame_run {A} (m : M (FrameCapture * E) A) t e a c' e' :
  m (in_progress_frame_ t, e) = Some (a, (c', e')) → on_frame m (t, e) = Some (a, (set_frame c' t, e')).
Proof. intros Hm. unfold on_frame, zoom. by rewrite Hm. Qed.

Lemma run_inv_frame t e c' e' : run_inv t e → steps (observed e) (observed e') → frame_inv c' e' → run_inv (set_frame c' t) e'.
Proof. intros [Hid Hf Hp Hl _] (Ht & _ & Hli) Hc. split; [done..|cbn; congruence|congruence|done]. Qed.

Lemma tracer_pgraph_run t e : run_inv t e →
  ∃ result t' e', fetch_pgraph (t, e) = Some (result, (t', e')) ∧ run_inv t' e' ∧ onward (observed e) (observed e')
    ∧ (result = DATA_FETCHED ∧ (length (pgraph_unread (observed e')) < length (pgraph_unread (observed e)))%nat
       ∨ result = NO_DATA_AVAILABLE ∧ (told (observed e) = true → pgraph_unread (observed e') = [])).
Proof.
  intros Hinv. destruct (fetch_pgraph_run _ _ (run_frame _ _ Hinv)) as (result & c' & e' & Hrun & Hc & Hs & Haux & Hres).
  exists result, (set_frame c' t), e'. split; [by apply on_frame_run|]. split; [by apply (run_inv_frame t e)|].
  destruct Hs as (Ht & Hp & _). split; [split; [congruence|done|destruct Hres as [[_ ?]|(_ & -> & _)]; lia|by rewrite Haux]|].
  destruct Hres as [?|(-> & Hsame & Hdone)]; [by left|right]. split; [done|]. rewrite Hsame. exact Hdone.
Qed.

Lemma tracer_aux_run fuel t e : run_inv t e → (length (aux_unread (observed e)) < fuel)%nat →
  ∃ result t' e', fetch_aux fuel (t, e) = Some (result, (t', e')) ∧ run_inv t' e' ∧ onward (observed e) (observed e')
    ∧ (result = DATA_FETCHED ∧ (length (aux_unread (observed e')) < length (aux_unread (observed e)))%nat
       ∨ result = NO_DATA_AVAILABLE ∧ (told (observed e) = true → aux_unread (observed e') = [])).
Proof.
  intros Hinv Hfuel. destruct (fetch_aux_run fuel false _ _ (run_frame _ _ Hinv) Hfuel) as (result & c' & e' & Hrun & Hc & Hs & Hon & Hres).
  exists result, (set_frame c' t), e'. split; [by apply on_frame_run|]. split; [by apply (run_inv_frame t e)|]. split; [done|].
  destruct Hres as [(? & [?|?])|?]; [done|by left|by right].
Qed.

(** *** The loops *)

Lemma trace_loop_run fuel : ∀ t e, run_inv t e →
  (patience (observed e) + length (aux_unread (observed e)) + 2 ≤ fuel)%nat →
  ∃ t' e', trace_loop fuel (t, e) = Some (true, (t', e')) ∧ run_inv t' e' ∧ onward (observed e) (observed e') ∧ told (observed e') = true.
Proof.
  induction fuel as [|fuel IH]; intros t e Hinv Hfuel; [lia|]. cbn [trace_loop].
  destruct (read_flag_run request_processed_ t e Hinv) as (t1 & e1 & Hr1 & Hinv1 & Hon1 & Hdue). rewrite (bind_run _ _ _ _ _ Hr1).
  rewrite (run_processed _ _ Hinv1). destruct (told (observed e1)) eqn:Htold; [exists t1, e1; by split_and!|].
  destruct Hdue as [?|Hpat]; [done|].
  destruct (read_flag_run request_failed_ t1 e1 Hinv1) as (t2 & e2 & Hr2 & Hinv2 & Hon2 & _). rewrite (bind_run _ _ _ _ _ Hr2).
  rewrite (run_failed _ _ Hinv2).
  destruct (take_flag_run pgraph_data_available_ _ t2 e2 pgraph_flag Hinv2) as (b3 & t3 & e3 & Hr3 & Hinv3 & Hon3). rewrite (bind_run _ _ _ _ _ Hr3).
  assert (∃ t4 e4, (if b3 then result ← fetch_pgraph; mret () else mret ()) (t3, e3) = Some (tt, (t4, e4)) ∧ run_inv t4 e4
    ∧ onward (observed e3) (observed e4)) as (t4 & e4 & Hr4 & Hinv4 & Hon4).
  { destruct b3; [|exists t3, e3; by split_and!; [|..|apply onward_refl]].
    destruct (tracer_pgraph_run t3 e3 Hinv3) as (result & t4 & e4 & Hrun & Hi & Ho & _). exists t4, e4. by rewrite (bind_run _ _ _ _ _ Hrun). }
  rewrite (bind_run _ _ _ _ _ Hr4).
  destruct (take_flag_run aux_data_available_ _ t4 e4 aux_flag Hinv4) as (b5 & t5 & e5 & Hr5 & Hinv5 & Hon5). rewrite (bind_run _ _ _ _ _ Hr5).
  pose proof (onward_trans _ _ _ Hon1 (onward_trans _ _ _ Hon2 (onward_trans _ _ _ Hon3 (onward_trans _ _ _ Hon4 Hon5)))) as Hon.
  assert (∃ t6 e6, (if b5 then result ← fetch_aux fuel; mret () else mret ()) (t5, e5) = Some (tt, (t6, e6)) ∧ run_inv t6 e6
    ∧ onward (observed e5) (observed e6)) as (t6 & e6 & Hr6 & Hinv6 & Hon6).
  { destruct b5; [|exists t5, e5; by split_and!; [|..|apply onward_refl]].
    destruct (tracer_aux_run fuel t5 e5 Hinv5) as (result & t6 & e6 & Hrun & Hi & Ho & _); [destruct Hon; lia|].
    exists t6, e6. by rewrite (bind_run _ _ _ _ _ Hrun). }
  rewrite (bind_run _ _ _ _ _ Hr6). pose proof (onward_trans _ _ _ Hon Hon6) as Hon'.
  destruct (IH t6 e6 Hinv6) as (t' & e' & Hrun & Hinv' & Hlast & Hto).
  { destruct Hon'. destruct (onward_trans _ _ _ Hon2 (onward_trans _ _ _ Hon3 (onward_trans _ _ _ Hon4 (onward_trans _ _ _ Hon5 Hon6)))). lia. }
  exists t', e'. split; [exact Hrun|]. split_and!; [done|by eapply onward_trans|done].
Qed.

(** A loop that ends when there is no more data, of which there is less each time. *)
Lemma drain_run (left_ : Observed → bytes) (fetch : M (Tracer * E) FetchResult) (bound : nat) :
  (∀ o o', onward o o' → (length (left_ o') ≤ length (left_ o))%nat) →
  (∀ t e, run_inv t e → (length (aux_unread (observed e)) < bound)%nat →
    ∃ result t' e', fetch (t, e) = Some (result, (t', e')) ∧ run_inv t' e' ∧ onward (observed e) (observed e')
      ∧ (result = DATA_FETCHED ∧ (length (left_ (observed e')) < length (left_ (observed e)))%nat
         ∨ result = NO_DATA_AVAILABLE ∧ (told (observed e) = true → left_ (observed e') = []))) →
  ∀ fuel t e, run_inv t e → told (observed e) = true → (length (aux_unread (observed e)) < bound)%nat →
    (length (left_ (observed e)) < fuel)%nat →
  ∃ t' e', drain fuel fetch (t, e) = Some (tt, (t', e')) ∧ run_inv t' e' ∧ onward (observed e) (observed e') ∧ left_ (observed e') = [].
Proof.
  intros Hmono Hfetch fuel. induction fuel as [|fuel IH]; intros t e Hinv Htold Hb Hl; [lia|]. cbn [drain].
  destruct (read_flag_run request_failed_ t e Hinv) as (t1 & e1 & Hr1 & Hinv1 & Hon1 & _). rewrite (bind_run _ _ _ _ _ Hr1).
  rewrite (run_failed _ _ Hinv1). pose proof (onward_told _ _ Hon1 Htold) as Htold1. pose proof (onward_aux _ _ Hon1). pose proof (Hmono _ _ Hon1).
  destruct (Hfetch t1 e1 Hinv1) as (result & t2 & e2 & Hrun & Hinv2 & Hon2 & Hres); [lia|]. rewrite (bind_run _ _ _ _ _ Hrun).
  pose proof (onward_trans _ _ _ Hon1 Hon2) as Hon. destruct Hres as [[-> Hless]|[-> Hdone]].
  - rewrite decide_False by done. pose proof (onward_aux _ _ Hon2).
    destruct (IH t2 e2 Hinv2 (onward_told _ _ Hon2 Htold1)) as (t' & e' & Hrest & Hinv' & Hon' & Hend); [lia..|].
    exists t', e'. split_and!; [exact Hrest|done|by eapply onward_trans|done].
  - rewrite decide_True by done. exists t2, e2. split_and!; [done|done|done|auto].
Qed.
End Run.

(** ** A frame *)

Definition log_header : bytes := endl "pgraph method log from nvtrc"%bs.

(** The frame that [Setup] leaves. *)
Definition frame_begun (dir : bytes) (verbose : bool) (c : FrameCapture) : FrameCapture :=
  MkCapture ∅ [] (next_free_id c) dir log_header true verbose (pgraph_trace_buffer_ c) (aux_trace_buffer_ c).

Section Frame.
Context `{!Boost, !NTRC, !ImageTools} {E : Type} `{!Target NotificationNTRC E, !LocalDisk E, !TracerLink E}.
Context (handler : Z) (items : list TraceItem) (records : list AuxRecord) (dir : bytes).
Context `{!FrameSource handler (stream item_bytes items) (stream record_bytes records)}.

Lemma Setup_run verbose c e :
  ∃ e', Setup dir verbose (c, e) = Some (tt, (frame_begun dir verbose c, e')) ∧ observed e' = observed e
    ∧ files e' = files e ++ [(path_append dir log_name, []); (path_append dir log_name, log_header)].
Proof.
  unfold Setup. cbv beta iota zeta. change (log_path _) with (path_append dir log_name).
  destruct (writes (path_append dir log_name) [] e) as (Hok & Hfiles & Hobs). destruct (write_local _ _ e) as [ok e1]. cbn in Hok, Hfiles, Hobs. subst ok.
  unfold flush_log. cbn [with_log_opened log_opened]. change (log_path _) with (path_append dir log_name).
  destruct (writes (path_append dir log_name) log_header e1) as (_ & Hfiles1 & Hobs1).
  exists (write_local (path_append dir log_name) log_header e1).2. split; [reflexivity|]. by rewrite Hfiles1, Hobs1, Hfiles, Hobs, <- app_assoc.
Qed.

(** Everything up to the loop. *)
Lemma frame_starts verbose partial t e :
  pgraph_trace_buffer_ (in_progress_frame_ t) = [] → aux_trace_buffer_ (in_progress_frame_ t) = [] →
  notification_handler_id_ t = handler → has_handler handler e = true →
  ∃ t' e', (∀ fuel, TraceFrame fuel dir verbose partial (t, e)
                    = (traced ← trace_loop fuel;
                       if negb traced then mret false
                       else drain fuel fetch_pgraph ;; drain fuel (fetch_aux fuel) ;; on_frame Close ;; mret true) (t', e'))
    ∧ run_inv handler items records dir (frame_begun dir verbose (in_progress_frame_ t)) (artifacts_of dir (files e)) t' e'.
Proof.
  intros Hpb Hab Hid Hh. unfold TraceFrame.
  set (e1 := if path_exists dir e then e else create_directories dir e).
  assert (files e1 = files e ∧ observed e1 = observed e) as [Hf1 Ho1] by (unfold e1; destruct (path_exists dir e); [done|apply makes]).
  destruct (Setup_run verbose (in_progress_frame_ t) e1) as (e2 & Hsetup & Ho2 & Hf2).
  pose proof (arrives e2) as Harr. destruct (arrivals e2) as [ns e3] eqn:Hns. destruct Harr as (Hf3 & Hpg3 & Haux3 & Hli3 & Hprog & _).
  assert (has_handler handler e3 = true) as Hh3 by (by rewrite <- listens, Hli3, Ho2, Ho1, listens).
  destruct (handles_run handler ns (set_frame (frame_begun dir verbose (in_progress_frame_ t)) t) e3 Hprog Hid Hh3) as (t3 & Hrun3 & Hid3 & _ & Hc3 & _).
  destruct (traces partial e3) as (response & e4 & Hanswer & Hs & Hf4 & Hpg4 & Haux4 & Hto4 & Hli4); [by rewrite listens|].
  exists (reset_flags t3), e4. split.
  - intros fuel. erewrite bind_run by reflexivity.
    assert ((if path_exists dir e then mret () else on_console (create_directories dir)) (t, e) = Some (tt, (t, e1))) as Hmade
      by (unfold e1; by destruct (path_exists dir e)).
    cbn [snd]. rewrite (bind_run _ _ _ _ _ Hmade). rewrite (bind_run _ _ _ _ _ (on_frame_run _ _ _ _ _ _ Hsetup)).
    assert (reset reset_flags (set_frame (frame_begun dir verbose (in_progress_frame_ t)) t, e2) = Some (tt, (reset_flags t3, e3))) as Hreset.
    { unfold reset, look. erewrite bind_run by (erewrite bind_run by (unfold on_right; rewrite Hns; reflexivity); exact Hrun3). done. }
    rewrite (bind_run _ _ _ _ _ Hreset).
    assert (ntrc_command "!trace_frame"%bs (if partial then "nodiscard"%bs else []) (reset_flags t3, e3) = Some (true, (reset_flags t3, e4))) as Hcmd.
    { assert (on_right (command (Target0 := dedicated) plain_class (trace_request partial) None tt) (reset_flags t3, e3)
              = Some ((true, tt), (reset_flags t3, e4))) as Hsent.
      { unfold on_right. erewrite (command_run (Target0 := dedicated)); [|exact Hanswer|reflexivity]. cbn. by rewrite Hs. }
      unfold ntrc_command, dedicated_command. by rewrite (bind_run _ _ _ _ _ Hsent). }
    rewrite (bind_run _ _ _ _ _ Hcmd). reflexivity.
  - split; [exact Hid3|done|by rewrite Hto4|done|]. change (in_progress_frame_ (reset_flags t3)) with (in_progress_frame_ t3). rewrite Hc3.
    cbn [in_progress_frame_ set_frame]. split.
    + rewrite Hpg4. by apply pgraph_progress_start.
    + exists []. rewrite Haux4. split; [by apply aux_progress_start|]. unfold artifacts_of. rewrite Hf4, Hf3, Hf2, Hf1, filter_app, app_nil_r.
      rewrite (filter_none _ [_; _]), app_nil_r; [done|]. repeat constructor; unfold not_log; cbn; tauto.
    + unfold log_writes. rewrite Hf4, Hf3, Hf2, filter_app, !filter_cons_True, filter_nil by done. by rewrite last_app.
Qed.

(** C25. Against a console that hands over the commands and the auxiliary data of a
    frame in pieces, says when there are none, and tells in time that the frame is
    done, [TraceFrame] ends with success: all commands are captured in order with
    their parameters and logged, the log file has the text of the log, and the files
    of all dumps, surfaces and textures are stored, in order and once each. *)
Theorem TraceFrame_captures (verbose partial : bool) (t : Tracer) (e : E) :
  Forall item_ok items → Forall (record_ok dir) records → ids_left items (in_progress_frame_ t) →
  pgraph_trace_buffer_ (in_progress_frame_ t) = [] → aux_trace_buffer_ (in_progress_frame_ t) = [] →
  notification_handler_id_ t = handler → has_handler handler e = true →
  ∃ n, ∀ fuel, (n ≤ fuel)%nat → ∃ t' e' c',
    TraceFrame fuel dir verbose partial (t, e) = Some (true, (t', e'))
    ∧ in_progress_frame_ t' = with_log_opened false c'
    ∧ captures items (frame_begun dir verbose (in_progress_frame_ t)) c'
    ∧ pgraph_trace_buffer_ c' = [] ∧ aux_trace_buffer_ c' = []
    ∧ artifacts_of dir (files e') = artifacts_of dir (files e) ++ all_artifacts dir records
    ∧ last (log_writes dir (files e')) = Some (path_append dir log_name, nv2a_log_ c').
Proof.
  intros Hitems Hrecords Hleft Hpb Hab Hid Hh.
  destruct (frame_starts verbose partial t e Hpb Hab Hid Hh) as (t1 & e1 & Hstart & Hinv1).
  set (c0 := frame_begun dir verbose (in_progress_frame_ t)) in *. set (f0 := artifacts_of dir (files e)) in *.
  assert (ids_free c0) as Hfree by (intros id _; apply lookup_empty).
  exists (patience (observed e1) + length (aux_unread (observed e1)) + length (pgraph_unread (observed e1)) + 2)%nat. intros fuel Hfuel. rewrite Hstart.
  destruct (trace_loop_run handler items records dir Hitems Hrecords c0 eq_refl eq_refl Hfree Hleft f0 fuel t1 e1 Hinv1) as (t2 & e2 & Hr2 & Hinv2 & Hon2 & Hto2); [lia|].
  rewrite (bind_run _ _ _ _ _ Hr2). cbn [negb]. destruct Hon2 as [_ _ Hlp2 Hla2].
  destruct (drain_run handler items records dir c0 f0 pgraph_unread fetch_pgraph fuel
              onward_pgraph (λ t e Hi _, tracer_pgraph_run handler items records dir Hitems Hrecords c0 eq_refl eq_refl Hfree Hleft f0 t e Hi) fuel t2 e2 Hinv2 Hto2)
    as (t3 & e3 & Hr3 & Hinv3 & Hon3 & Hp3); [lia..|].
  rewrite (bind_run _ _ _ _ _ Hr3). pose proof (onward_told _ _ Hon3 Hto2) as Hto3. destruct Hon3 as [_ _ Hlp3 Hla3].
  destruct (drain_run handler items records dir c0 f0 aux_unread (fetch_aux fuel) fuel
              onward_aux (tracer_aux_run handler items records dir Hitems Hrecords c0 eq_refl eq_refl Hfree Hleft f0 fuel) fuel t3 e3 Hinv3 Hto3)
    as (t4 & e4 & Hr4 & Hinv4 & Hon4 & Ha4); [lia..|].
  rewrite (bind_run _ _ _ _ _ Hr4). exists (set_frame (with_log_opened false (in_progress_frame_ t4)) t4), e4, (in_progress_frame_ t4).
  destruct (run_frame _ _ _ _ _ _ _ _ Hinv4) as [Hp (w & Ha & Hf) Hlog]. pose proof (onward_pgraph _ _ Hon4) as Hlast. rewrite Hp3 in Hlast.
  apply Nat.le_0_r, nil_length_inv in Hlast. rewrite Hlast in Hp. rewrite Ha4 in Ha.
  apply (pgraph_progress_end items c0 _ Hitems Hfree Hleft) in Hp as [Hb4 Hcap]. apply (aux_progress_end dir records _ _ Hrecords) in Ha as [Hab4 ->].
  split; [|split_and!; done]. erewrite bind_run by (apply on_frame_run; reflexivity). done.
Qed.
End Frame.

(** ** A console for the examples

    It has the frame of the example items and records, hands out at most fifty bytes
    at a time and tells after some looks that it is done. *)

#[local] Existing Instance Boost_reference.boost_reference.

#[export] Instance example_ntrc : NTRC := {
  NTRC_HANDLER_NAME := "ntrc"%bs;
  STATE_FATAL_NOT_IN_NEW_FRAME_STATE := -1;
  STATE_FATAL_NOT_IN_STABLE_STATE := -2;
  STATE_FATAL_DISCARDING_FAILED := -3;
  STATE_FATAL_PROCESS_PUSH_BUFFER_COMMAND_FAILED := -4;
  STATE_FATAL_PERMANENT_STALL := -5;
  STATE_SHUTDOWN := 1;
  kNTRCDynDXT := []
}.

Record TraceConsole := MkTraceConsole { pg_bytes : bytes; ax_bytes : bytes; done_told : bool; looks : nat; disk_writes : Writes }.

Definition answer_with (code : StatusCode) (data : bytes) : option RDCPResponse := Some (MkResponse code [] data).
Definition hand_over (b : bytes) : option RDCPResponse :=
  match b with [] => answer_with ERR_DATA_NOT_AVAILABLE [] | _ => answer_with OK_BINARY_RESPONSE (take 50 b) end.

Definition answer_frame (r : RDCPRequest) (c : TraceConsole) : option RDCPResponse * TraceConsole :=
  if decide (command_ r = command_ (read_request "!read_pgraph"%bs)) then
    (hand_over (pg_bytes c), MkTraceConsole (drop 50 (pg_bytes c)) (ax_bytes c) (done_told c) (looks c) (disk_writes c))
  else if decide (command_ r = command_ (read_request "!read_aux"%bs)) then
    (hand_over (ax_bytes c), MkTraceConsole (pg_bytes c) (drop 50 (ax_bytes c)) (done_told c) (looks c) (disk_writes c))
  else (answer_with OK [], MkTraceConsole (stream item_bytes example_items) (stream record_bytes example_records) false 2 (disk_writes c)).

Definition note (text : bytes) : Notification NotificationNTRC :=
  match NotificationNTRC_of text with Parsed n => n | _ => NotificationVX [] end.

Definition arrive (c : TraceConsole) : list (Notification NotificationNTRC) * TraceConsole :=
  if done_told c then ([], c)
  else match looks c with
       | O => ([note "req_processed"%bs], MkTraceConsole (pg_bytes c) (ax_bytes c) true 0 (disk_writes c))
       | S n => ([note "w_pgraph"%bs; note "w_aux"%bs], MkTraceConsole (pg_bytes c) (ax_bytes c) false n (disk_writes c))
       end.

Definition write_disk (p contents : bytes) (c : TraceConsole) : bool * TraceConsole :=
  (true, MkTraceConsole (pg_bytes c) (ax_bytes c) (done_told c) (looks c) (disk_writes c ++ [(p, contents)])).

#[local] Instance trace_console_target : Target NotificationNTRC TraceConsole := {
  answer _ _ c := (None, c);
  next_notification _ _ := None;
  burst _ _ := 0%nat;
  GetNotificationServerAddress _ := None;
  StartNotificationListener c := (true, c);
  RegisterNotificationHandler c := (1, c);
  UnregisterNotificationHandler _ c := c;
  has_handler id _ := bool_decide (id = 1);
  CloseActiveConnections c := c
}.

#[local] Instance trace_console_disk : LocalDisk TraceConsole := {
  read_local _ _ := None;
  last_write_seconds _ _ := None;
  local_file_size _ _ := None;
  directory_entries _ _ := None;
  relative_path _ _ _ := None;
  write_local := write_disk;
  create_directories _ c := c
}.

#[local] Instance trace_console_link : TracerLink TraceConsole := {
  answer_dedicated _ r _ c := answer_frame r c;
  arrivals := arrive;
  register_constructor _ c := c;
  unregister_constructor _ c := c;
  path_exists _ _ := false
}.

Lemma hand_over_spec (b : bytes) : ∃ response, hand_over b = Some response ∧
  (status_ response = OK_BINARY_RESPONSE ∧ RdcpResponse.data_ response ≠ [] ∧ b = RdcpResponse.data_ response ++ drop 50 b
   ∨ status_ response = ERR_DATA_NOT_AVAILABLE ∧ drop 50 b = b ∧ b = []).
Proof.
  destruct b as [|x b]; eexists; (split; [reflexivity|]); [by right|left]. split_and!; [done|done|]. cbn [RdcpResponse.data_]. by rewrite take_drop.
Qed.

Lemma example_notes :
  is_progress (note "req_processed"%bs) ∧ is_told (note "req_processed"%bs) = true
  ∧ is_progress (note "w_pgraph"%bs) ∧ is_told (note "w_pgraph"%bs) = false
  ∧ is_progress (note "w_aux"%bs) ∧ is_told (note "w_aux"%bs) = false.
Proof. split_and!; by vm_compute. Qed.

#[local, refine] Instance example_source : FrameSource (E := TraceConsole) 1 (stream item_bytes example_items) (stream record_bytes example_records) := {
  observed c := MkObserved (pg_bytes c) (ax_bytes c) (done_told c) (looks c) true;
  files := disk_writes
}.
Proof.
  - intros c. destruct (hand_over_spec (pg_bytes c)) as (response & Hr & Hcases). cbn [answer_dedicated trace_console_link]. unfold answer_frame.
    rewrite decide_True by done. rewrite Hr. do 2 eexists. split; [reflexivity|]. split; [done|]. cbn. split; [done|]. naive_solver.
  - intros c. destruct (hand_over_spec (ax_bytes c)) as (response & Hr & Hcases). cbn [answer_dedicated trace_console_link]. unfold answer_frame.
    rewrite decide_False, decide_True by done. rewrite Hr. do 2 eexists. split; [reflexivity|]. split; [done|]. cbn. split; [done|]. naive_solver.
  - intros c. destruct example_notes as (H1 & H2 & H3 & H4 & H5 & H6). cbn [arrivals trace_console_link]. unfold arrive. destruct (done_told c) eqn:Ht.
    + cbn. rewrite ?Ht. split_and!; [done..|by left|done].
    + destruct (looks c) eqn:Hl; cbn [existsb pgraph_unread aux_unread told patience listening done_told disk_writes pg_bytes ax_bytes looks].
      * rewrite ?H2, ?Ht. split_and!; [done..|by repeat constructor|done|by left|lia].
      * rewrite ?H4, ?H6, ?Ht. split_and!; [done..|by repeat constructor|done|right; lia|lia].
  - intros partial c _. cbn [answer_dedicated trace_console_link]. unfold answer_frame. rewrite !decide_False by (by destruct partial). do 2 eexists. by split_and!.
  - intros p contents c. by split_and!.
  - intros p c. by split_and!.
  - intros c. done.
Defined.

Lemma TraceFrame_captures_witness :
  let t := set_handler 1 new_tracer in
  let e := MkTraceConsole [] [] false 0 [] in
  ∃ n, ∀ fuel, (n ≤ fuel)%nat → ∃ t' e' c', TraceFrame fuel "frame"%bs false true (t, e) = Some (true, (t', e'))
    ∧ in_progress_frame_ t' = with_log_opened false c' ∧ length (pgraph_commands c') = 2%nat
    ∧ artifacts_of "frame"%bs (disk_writes e') = all_artifacts "frame"%bs example_records.
Proof.
  destruct (TraceFrame_captures 1 example_items example_records "frame"%bs false true (set_handler 1 new_tracer) (MkTraceConsole [] [] false 0 []))
    as (n & Hn); [exact example_items_ok|exact example_records_ok|unfold ids_left; vm_compute; discriminate|reflexivity..|].
  exists n. intros fuel Hfuel. destruct (Hn fuel Hfuel) as (t' & e' & c' & Hrun & Hframe & Hcap & _ & _ & Hfiles & _).
  exists t', e', c'. split_and!; [exact Hrun|exact Hframe| |exact Hfiles].
  destruct (captures_commands _ _ _ Hcap) as (ps & -> & Hps). apply Forall2_length in Hps. by rewrite length_app, <- Hps.
Defined.
