(* ===== verification/Output.v ===== *)
(** * Formatted output, and how the program prints its data

    What the shell uses of [std::ostream]: text and numbers are put into a stream
    that remembers the base, the fill character and the adjustment from one output
    to the next, and the width for one output.  All output of the shell goes to one
    stream, [std::cout], so a manipulator that is not taken back stays for every
    later command.  Then what the stream operators of the program's data put into
    it. *)

From S2P Require Import Notifications.
From S2P Require Import Prelude CLib Boost RdcpResponse RdcpMaps RdcpTypes StopReasons RdcpRequest Requests DebuggerThread FileUtil.

(** The state that stays from one output to the next. *)
Record Format := MkFormat { hex_base : bool; fill_char : byte; left_adjusted : bool }.

Record ostream := MkStream { written : bytes; format : Format; field_width : nat }.

Definition default_format : Format := MkFormat false space false.
Definition new_stream : ostream := MkStream [] default_format 0.

(** What stands between two [<<]: the arguments by their types, the manipulators,
    and [Raw] for what is written past the stream with [printf]. *)
Inductive item :=
  | Str (s : bytes)
  | Int (z : Z)       (* [int32_t] *)
  | UInt (z : Z)      (* [uint32_t] and [uint64_t] *)
  | Int64 (z : Z)
  | Bool (b : bool)
  | Hex | Dec
  | SetW (n : nat)
  | SetFill (c : byte)
  | LeftAdjust | RightAdjust
  | Endl
  | Raw (s : bytes).

Definition newline : byte := Byte.x0a.

(** In base 16 a negative number is the one of its bits. *)
Definition number_text (f : Format) (decimal hexadecimal : bytes) : bytes := if hex_base f then hexadecimal else decimal.

Definition pad_right (c : byte) (width : nat) (s : bytes) : bytes := s ++ replicate (width - length s) c.

Definition padded (f : Format) (width : nat) (s : bytes) : bytes :=
  if left_adjusted f then pad_right (fill_char f) width s else pad_left (fill_char f) width s.

(** A formatted output pads its text to the width, which is then 0 again. *)
Definition put (s : bytes) (o : ostream) : ostream :=
  MkStream (written o ++ padded (format o) (field_width o) s) (format o) 0.

Definition write_raw (s : bytes) (o : ostream) : ostream := MkStream (written o ++ s) (format o) (field_width o).

Definition set_format (f : Format) (o : ostream) : ostream := MkStream (written o) f (field_width o).

Definition emit (x : item) (o : ostream) : ostream :=
  let f := format o in
  match x with
  | Str s => put s o
  | Int z => put (number_text f (fmt_d z) (fmt_x (u32 z))) o
  | UInt z => put (number_text f (fmt_u z) (fmt_x z)) o
  | Int64 z => put (number_text f (fmt_d z) (fmt_x (u64 z))) o
  | Bool b => put (if b then "1"%bs else "0"%bs) o
  | Hex => set_format (MkFormat true (fill_char f) (left_adjusted f)) o
  | Dec => set_format (MkFormat false (fill_char f) (left_adjusted f)) o
  | SetW n => MkStream (written o) f n
  | SetFill c => set_format (MkFormat (hex_base f) c (left_adjusted f)) o
  | LeftAdjust => set_format (MkFormat (hex_base f) (fill_char f) true) o
  | RightAdjust => set_format (MkFormat (hex_base f) (fill_char f) false) o
  | Endl => write_raw [newline] o
  | Raw s => write_raw s o
  end.

Definition emits (l : list item) (o : ostream) : ostream := foldl (λ o x, emit x o) o l.

(** A path, which [std::quoted] prints. *)
Definition quoted_path (path : bytes) : bytes :=
  quote :: concat (map (λ c, if decide (c = quote ∨ c = "\"%byte) then ["\"%byte; c] else [c]) path) ++ [quote].
Definition PathText (path : bytes) : item := Str (quoted_path path).

(** ** Printing from a format *)

(** The format after some output. *)
Definition after (x : item) (f : Format) : Format :=
  match x with
  | Hex => MkFormat true (fill_char f) (left_adjusted f)
  | Dec => MkFormat false (fill_char f) (left_adjusted f)
  | SetFill c => MkFormat (hex_base f) c (left_adjusted f)
  | LeftAdjust => MkFormat (hex_base f) (fill_char f) true
  | RightAdjust => MkFormat (hex_base f) (fill_char f) false
  | _ => f
  end.
Definition afters (l : list item) (f : Format) : Format := foldl (λ f x, after x f) f l.

Lemma emits_app l1 l2 o : emits (l1 ++ l2) o = emits l2 (emits l1 o).
Proof. apply foldl_app. Qed.

Lemma emit_format x o : format (emit x o) = after x (format o).
Proof. by destruct x. Qed.

Lemma emits_format l : ∀ o, format (emits l o) = afters l (format o).
Proof. induction l as [|x l IH]; intros o; [done|].
  change (emits (x :: l) o) with (emits l (emit x o)). change (afters (x :: l) (format o)) with (afters l (after x (format o))).
  by rewrite <- emit_format, IH.
Qed.

(** What is written depends on the format and the width, and not on what was
    written before. *)
Definition text_from (f : Format) (width : nat) (l : list item) : bytes := written (emits l (MkStream [] f width)).
Definition shown (f : Format) (l : list item) : bytes := text_from f 0 l.

Lemma emit_prefix x (t : bytes) o :
  emit x (MkStream (t ++ written o) (format o) (field_width o))
  = MkStream (t ++ written (emit x o)) (format (emit x o)) (field_width (emit x o)).
Proof. destruct x; cbn; by rewrite ?app_assoc. Qed.

Lemma emits_prefix l : ∀ (t : bytes) o,
  emits l (MkStream (t ++ written o) (format o) (field_width o))
  = MkStream (t ++ written (emits l o)) (format (emits l o)) (field_width (emits l o)).
Proof.
  induction l as [|x l IH]; intros t o; [done|]. cbn [emits foldl]. rewrite emit_prefix. exact (IH t (emit x o)).
Qed.

Lemma emits_written l o : written (emits l o) = written o ++ text_from (format o) (field_width o) l.
Proof.
  pose proof (emits_prefix l (written o) (MkStream [] (format o) (field_width o))) as H. cbn [written format field_width] in H.
  rewrite app_nil_r in H. unfold text_from. destruct o as [w f n]; cbn [written format field_width] in *. by rewrite H.
Qed.

(** One item: what it writes, and the width after it. *)
Definition piece (f : Format) (width : nat) (x : item) : bytes := written (emit x (MkStream [] f width)).
Definition next_width (width : nat) (x : item) : nat := field_width (emit x (MkStream [] default_format width)).

Lemma text_nil f width : text_from f width [] = [].
Proof. done. Qed.

Lemma text_cons f width x l : text_from f width (x :: l) = piece f width x ++ text_from (after x f) (next_width width x) l.
Proof.
  unfold text_from, piece at 1. change (emits (x :: l) ?o) with (emits l (emit x o)). rewrite emits_written, emit_format.
  by destruct x.
Qed.

Lemma shown_cons f x l : shown f (x :: l) = piece f 0 x ++ text_from (after x f) (next_width 0 x) l.
Proof. apply text_cons. Qed.

Lemma text_app f width l1 l2 :
  text_from f width (l1 ++ l2) = text_from f width l1 ++ text_from (afters l1 f) (foldl next_width width l1) l2.
Proof.
  revert f width. induction l1 as [|x l1 IH]; intros f width; [done|]. cbn [app]. by rewrite !text_cons, IH, app_assoc.
Qed.

(** The width after a whole output. *)
Lemma emits_width l : ∀ o, field_width (emits l o) = foldl next_width (field_width o) l.
Proof.
  induction l as [|x l IH]; intros o; [done|]. change (emits (x :: l) o) with (emits l (emit x o)). rewrite IH. by destruct x.
Qed.

(** *** Numbers of a width *)

Lemma padded_right_adjusted c n s b : padded (MkFormat b c false) n s = pad_left c n s.
Proof. done. Qed.

Lemma padded_zero f s : padded f 0 s = s.
Proof. unfold padded, pad_right, pad_left. destruct (left_adjusted f); cbn; by rewrite ?app_nil_r. Qed.

(** A text that is no shorter than the width. *)
Lemma pad_left_long c n s : (n <= length s)%nat → pad_left c n s = s.
Proof. intros H. unfold pad_left. by rewrite (proj2 (Nat.sub_0_le _ _) H). Qed.

(** Texts of items one after the other. *)
Ltac show_items :=
  rewrite ?shown_cons, ?text_cons, ?text_nil;
  cbv [piece next_width after emit emits foldl put write_raw set_format written format field_width hex_base fill_char left_adjusted
       number_text default_format];
  rewrite ?padded_zero, ?padded_right_adjusted, ?app_nil_r, ?app_nil_l.

(** ** Requests and maps *)

Definition show_request {T} (r : RDCPProcessedRequest T) : list item :=
  [Str (command_ (RdcpRequest.base r)); Str ": "%bs; UInt (RdcpRequest.status r); Str " "%bs; Str (RdcpRequest.message r)].

(** [std::map] and [std::set] are walked in the order of their keys. *)
Definition show_map (r : RDCPMapResponse) : list item :=
  concat (map (λ k, [Str k; Str " = "%bs; Str (default [] (rmap r !! k)); Str " ; "%bs]) (in_order (dom (rmap r)))).

(** ** Modules and sections *)

Definition show_module (m : Module_) : list item :=
  [Str "Module "%bs; Str (module_name m); Str " base_address: 0x"%bs; Hex; SetFill "0"; SetW 8; UInt (module_base m);
   Str " size: "%bs; Dec; UInt (module_size m); Str " checksum: 0x"%bs; Hex; UInt (module_checksum m);
   Str " timestamp: 0x"%bs; UInt (module_timestamp m); Str " is_tls: "%bs; Bool (RdcpTypes.is_tls m);
   Str " is_xbe: "%bs; Bool (RdcpTypes.is_xbe m)].

Definition show_section (s : Section_) : list item :=
  [Str "Section "%bs; Str (section_name s); Str " base_address: 0x"%bs; Hex; SetFill "0"; SetW 8; UInt (section_base s);
   Str " size: "%bs; Dec; UInt (section_size s); Str " index: "%bs; UInt (section_index s);
   Str " flags: 0x"%bs; Hex; UInt (section_flags s); Dec].

Definition show_section_info (i : SectionInfo) : list item :=
  [Str "name: "%bs; Str (si_name i); Str " base: "%bs; UInt (si_base i); Str " size: "%bs; UInt (si_size i);
   Str " index: "%bs; UInt (si_index i); Str " flags: "%bs; UInt (si_flags i)]
  ++ concat (map (λ flag, [Str " "%bs; Str flag]) (in_order (additional_flags i))).

(** ** Registers *)

(** [PRINTREG] *)
Definition print_reg (name : bytes) (value : option Z) (prefix : bytes) : list item :=
  let buffer := match value with Some v => snprintf 16 ("0x"%bs ++ fmt_X (u32 v)) | None => "<N/A>"%bs end in
  [Str prefix; Str (name ++ ": "%bs); Str buffer].

Definition show_context (c : ThreadContext) : list item :=
  [Hex; Str []]
  ++ print_reg "ebp"%bs (ebp c) [] ++ print_reg "esp"%bs (esp c) " "%bs ++ print_reg "eip"%bs (eip c) " "%bs
  ++ print_reg "eflags"%bs (eflags c) " "%bs ++ print_reg "eax"%bs (eax c) " "%bs ++ print_reg "ebx"%bs (ebx c) " "%bs
  ++ print_reg "ecx"%bs (ecx c) " "%bs ++ print_reg "edx"%bs (edx c) " "%bs ++ print_reg "edi"%bs (edi c) " "%bs
  ++ print_reg "esi"%bs (esi c) " "%bs ++ print_reg "cr0_npx_state"%bs (RdcpTypes.cr0_npx_state c) " "%bs
  ++ [Dec].

Definition st_register (i : nat) (c : ThreadFloatContext) : Z := i64 (le_int (slice (8 * i) 8 (st_memory c))).

Definition show_float_context (c : ThreadFloatContext) : list item :=
  [Hex; Str "control: "%bs; Int (control c); Str " status: "%bs; Int (RdcpTypes.status c); Str " tag: "%bs; Int (tag c);
   Str " error_offset: "%bs; Int (error_offset c); Str " error_selector: "%bs; Int (error_selector c);
   Str " data_offset: "%bs; Int (data_offset c); Str " data_selector: "%bs; Int (data_selector c);
   Str " st0: "%bs; Int64 (st_register 0 c); Str " st1: "%bs; Int64 (st_register 1 c);
   Str " st2: "%bs; Int64 (st_register 2 c); Str " st3: "%bs; Int64 (st_register 3 c);
   Str " st4: "%bs; Int64 (st_register 4 c); Str " st5: "%bs; Int64 (st_register 5 c);
   Str " st6: "%bs; Int64 (st_register 6 c); Str " st7: "%bs; Int64 (st_register 7 c);
   Str " cr0_npx_state: "%bs; Int (i32 (le_int (slice 64 4 (st_memory c))))].

(** ** Threads *)

Definition print_decimal (prefix : bytes) (val : option Z) : list item :=
  [Str prefix; Str " "%bs] ++ match val with Some v => [Int v] | None => [Str "???"%bs] end ++ [Endl].

Definition print_hex (prefix : bytes) (val : option Z) : list item :=
  [Str prefix; Str " "%bs]
  ++ match val with Some v => [Str "0x"%bs; Hex; SetW 8; SetFill "0"; UInt v] | None => [Str "???"%bs] end ++ [Endl].

Definition show_thread (t : Thread) : list item :=
  [Str "Thread "%bs; Dec; UInt (id t); Endl]
  ++ print_decimal "Priority"%bs (DebuggerThread.priority t) ++ print_decimal "Suspend count"%bs (DebuggerThread.suspend_count t)
  ++ print_hex "Start: "%bs (start t) ++ print_hex "Base: "%bs (base t) ++ print_hex "Limit: "%bs (limit t)
  ++ print_hex "Thread local base: "%bs (DebuggerThread.tls_base t)
  ++ [Dec; SetFill space].

(** ** Notifications *)

Definition show_flags (flags : gset bytes) : list item :=
  match in_order flags with
  | [] => []
  | l => Str " flags:"%bs :: concat (map (λ f, [Str " "%bs; Str f]) l)
  end.

(** The number of an [AccessType]. *)
Definition access_value (type : Notifications.AccessType) : Z :=
  match type with Notifications.AT_INVALID => -1 | Notifications.AT_READ => 0 | Notifications.AT_WRITE => 1 | Notifications.AT_EXECUTE => 2 end.

Definition show_state (state : ExecutionState) : list item :=
  match state with
  | S_STOPPED => [Str "stopped"%bs]
  | S_STARTED => [Str "started"%bs]
  | S_REBOOTING => [Str "rebooting"%bs]
  | S_PENDING => [Str "pending"%bs]
  | S_INVALID => [Str "INAVLID "%bs; Int (-1)]
  end.

Definition show_debug_str (d : DebugStr) : list item :=
  [Str "DebugStr: thread_id: "%bs; Int (Notifications.thread_id d); Str " text: "%bs; Str (text d); Str (termination d)].

Definition show_breakpoint (thread_id address : Z) (flags : gset bytes) : list item :=
  [Str "Break thread_id: "%bs; Int thread_id; Str " address: 0x"%bs; SetW 8; SetFill "0"; Hex; UInt address] ++ show_flags flags.

Definition show_watchpoint (type : Notifications.AccessType) (thread_id address watched_address : Z) (flags : gset bytes) : list item :=
  [Str "Watchpoint type: "%bs; Int (access_value type); Str " thread_id: "%bs; Int thread_id; Str " address: 0x"%bs;
   SetW 8; SetFill "0"; Hex; UInt address; Str " watched_address: 0x"%bs; UInt watched_address] ++ show_flags flags.

Definition show_single_step (thread_id address : Z) : list item :=
  [Str "SingleStep thread_id: "%bs; Int thread_id; Str " address: 0x"%bs; Hex; SetW 8; SetFill "0"; UInt address].

Definition show_exception (code thread_id address read : Z) (flags : gset bytes) : list item :=
  [Str "Exception: code: 0x"%bs; SetW 8; SetFill "0"; Hex; UInt code; Str " thread_id: "%bs; Dec; Int thread_id;
   Str " address: 0x"%bs; Hex; UInt address; Str " read: 0x"%bs; UInt read] ++ show_flags flags.

(** [operator<<] of a notification, given that of the custom ones. *)
Definition show_notification {C} (show_custom : C → list item) (n : Notification C) : list item :=
  match n with
  | NotificationVX message => [Str "VX message: "%bs; Str message]
  | NotificationDebugStr d => show_debug_str d
  | NotificationModuleLoaded module => Str "ModuleLoaded: "%bs :: show_module module
  | NotificationSectionLoaded section => Str "SectionLoaded: "%bs :: show_section section
  | NotificationSectionUnloaded section => Str "SectionUnloaded: "%bs :: show_section section
  | NotificationThreadCreated thread_id start_address =>
    [Str "Thread created: "%bs; Int thread_id; Str " start address: 0x"%bs; Hex; UInt start_address]
  | NotificationThreadTerminated thread_id => [Str "Thread terminated: "%bs; Int thread_id]
  | NotificationExecutionStateChanged state => Str "Execution state changed: "%bs :: show_state state
  | NotificationBreakpoint thread_id address flags => show_breakpoint thread_id address flags
  | NotificationWatchpoint type thread_id address watched_address _ flags =>
    show_watchpoint type thread_id address watched_address flags
  | NotificationSingleStep thread_id address => show_single_step thread_id address
  | NotificationException code thread_id address read flags => show_exception code thread_id address read flags
  | Custom c => show_custom c
  end.

(** ** Stop reasons *)

Definition show_stop_reason (r : StopReason) : list item :=
  match body r with
  | UnknownBody => [Str "Unknown reason"%bs]
  | ThreadContextBody name thread_id => [Str name; Str " on thread "%bs; Int thread_id]
  | ThreadAndAddressBody name thread_id address =>
    [Str name; Str " on thread "%bs; Int thread_id; Str " at 0x"%bs; Hex; SetFill "0"; SetW 8; UInt address]
  | DataBreakpointBody thread_id address access_type access_address =>
    [Str "Watch breakpoint on thread "%bs; Int thread_id; Str " at 0x"%bs; Hex; SetFill "0"; SetW 8; UInt address;
     Str " "%bs; Str (access_name access_type); Str "@0x"%bs; UInt access_address]
  | ExecutionStateChangeBody _ state_name => [Str "execution state changed to "%bs; Str state_name]
  | ExceptionBody _ thread_id address _ _ type =>
    [Str "exception on thread "%bs; Int thread_id; Str " at 0x"%bs; Hex; SetFill "0"; SetW 8; UInt address]
    ++ match type with
       | ACCESS_VIOLATION_READ a => [Hex; SetFill "0"; SetW 8; Str " read violation at 0x"%bs; UInt a]
       | ACCESS_VIOLATION_WRITE a => [Hex; SetFill "0"; SetW 8; Str " write violation at 0x"%bs; UInt a]
       | GENERAL nparams params =>
         [Str " nparams: "%bs; Int nparams; Str " params: 0x"%bs; Hex; SetFill "0"; SetW 8; Int params]
       end
  | CreateThreadBody thread_id start_address =>
    [Str "create thread "%bs; Int thread_id; Str " start Address 0x"%bs; Hex; SetFill "0"; SetW 8; UInt start_address]
  | ModuleLoadBody name base_address size checksum timestamp is_tls is_xbe =>
    [Str "Module load: name: "%bs; Str name; Str " base_address: 0x"%bs; Hex; SetFill "0"; SetW 8; UInt base_address;
     Str " size: "%bs; Dec; UInt size; Str " checksum: 0x"%bs; Hex; UInt checksum; Str " timestamp: 0x"%bs; UInt timestamp;
     Str " is_tls: "%bs; Bool is_tls; Str " is_xbe: "%bs; Bool is_xbe]
  | SectionActionBody action name base_address size index flags =>
    [Str action; Str ": name: "%bs; Str name; Str " base_address: 0x"%bs; Hex; SetFill "0"; SetW 8; UInt base_address;
     Str " size: "%bs; Dec; UInt size; Str " index: "%bs; UInt index; Str " flags: 0x"%bs; Hex; UInt flags]
  | RIPBody name thread_id message =>
    [Str name; Str " on thread "%bs; Int thread_id]
    ++ (if decide (message = []) then [] else [Str [space; quote]; Str message; Str [quote]])
  end.

(** In the format of a new stream the reasons read as [WriteStream] has them. *)
Lemma show_stop_reason_text r : shown default_format (show_stop_reason r) = WriteStream r.
Proof.
  destruct r as [type signal b]. unfold WriteStream, show_stop_reason. cbn [body].
  destruct b as [|name t|name t a|t a k a'|st name|x t a fc nc v|t a|name base size check stamp tls xbe|action name base size index flags|name t m]; try destruct v;
    try (destruct (decide (m = [])) as [->|]); cbn [app]; show_items;
    rewrite ?(pad_left_long _ 8 (_ :: _ :: _ :: _ :: _ :: _ :: _ :: _ :: _)) by (cbn; lia); done.
Qed.

(** The base stays 16 after a thread was announced: the identifier of the next one is
    printed in it. *)
Example notification_leaves_base :
  shown default_format (concat (map (show_notification (λ _ : unit, []))
    [NotificationThreadCreated 28 0x10000; NotificationThreadTerminated 28]))
  = "Thread created: 28 start address: 0x10000Thread terminated: 1c"%bs.
Proof. reflexivity. Qed.
