(* ===== verification/Utilities.v ===== *)
(** * Logging and other utilities (src/util/logging.h, logging.cpp, config_path.cpp, thread_debug_util.cpp)

    Which records of the log are printed and how, where the files of the program's
    configuration are, and the names of threads.  The library that collects the records
    gives each its attributes; what it prints a record to is a stream whose format
    stays from one record to the next. *)

From S2P Require Import Notifications.
From S2P Require Import Prelude CLib Boost FileUtil Output.

(** ** Settings *)

(** [boost::log::trivial::severity_level], in its order. *)
Inductive severity_level := trace | debug | info | warning | error | fatal.

Definition severity_value (s : severity_level) : Z :=
  match s with trace => 0 | debug => 1 | info => 2 | warning => 3 | error => 4 | fatal => 5 end.

(** What [operator<<] puts into a stream for one. *)
Definition severity_text (s : severity_level) : bytes :=
  match s with
  | trace => "trace"%bs | debug => "debug"%bs | info => "info"%bs
  | warning => "warning"%bs | error => "error"%bs | fatal => "fatal"%bs
  end.

Definition kLoggingTagGDB : bytes := "GDB"%bs.
Definition kLoggingTagXBDM : bytes := "XBDM"%bs.
Definition kLoggingTagXBDMNotification : bytes := "XBDM_N"%bs.
Definition kLoggingTagDebugger : bytes := "DEBUGGER"%bs.

(** The static variables of logging.cpp; threads are told apart by numbers. *)
Record Settings := MkSettings {
  base_path : bytes;
  verbosity_level : Z;
  enable_gdb_messages : bool;
  enable_xbdm_messages : bool;
  enable_debugger_messages : bool;
  enable_colorized_output : bool;
  enable_log_location_info : bool;
  thread_names : gmap nat Z;
  next_thread_name : Z
}.

(** As they are initialised; [file] is the [__FILE__] of logging.cpp. *)
Definition initial_settings (file : bytes) : Settings :=
  MkSettings file (severity_value warning) true true true true true ∅ 1.

Definition SetVerbosity (verbosity : Z) (s : Settings) : Settings :=
  MkSettings (base_path s) verbosity (enable_gdb_messages s) (enable_xbdm_messages s) (enable_debugger_messages s)
    (enable_colorized_output s) (enable_log_location_info s) (thread_names s) (next_thread_name s).
Definition SetGDBTraceEnabled (b : bool) (s : Settings) : Settings :=
  MkSettings (base_path s) (verbosity_level s) b (enable_xbdm_messages s) (enable_debugger_messages s)
    (enable_colorized_output s) (enable_log_location_info s) (thread_names s) (next_thread_name s).
Definition SetXBDMTraceEnabled (b : bool) (s : Settings) : Settings :=
  MkSettings (base_path s) (verbosity_level s) (enable_gdb_messages s) b (enable_debugger_messages s)
    (enable_colorized_output s) (enable_log_location_info s) (thread_names s) (next_thread_name s).
Definition SetDebuggerTraceEnabled (b : bool) (s : Settings) : Settings :=
  MkSettings (base_path s) (verbosity_level s) (enable_gdb_messages s) (enable_xbdm_messages s) b
    (enable_colorized_output s) (enable_log_location_info s) (thread_names s) (next_thread_name s).
Definition SetColorizedLoggingEnabled (b : bool) (s : Settings) : Settings :=
  MkSettings (base_path s) (verbosity_level s) (enable_gdb_messages s) (enable_xbdm_messages s) (enable_debugger_messages s)
    b (enable_log_location_info s) (thread_names s) (next_thread_name s).
Definition SetLogLocationEnabled (b : bool) (s : Settings) : Settings :=
  MkSettings (base_path s) (verbosity_level s) (enable_gdb_messages s) (enable_xbdm_messages s) (enable_debugger_messages s)
    (enable_colorized_output s) b (thread_names s) (next_thread_name s).
Definition with_base_path (path : bytes) (s : Settings) : Settings :=
  MkSettings path (verbosity_level s) (enable_gdb_messages s) (enable_xbdm_messages s) (enable_debugger_messages s)
    (enable_colorized_output s) (enable_log_location_info s) (thread_names s) (next_thread_name s).
Definition with_threads (names : gmap nat Z) (next : Z) (s : Settings) : Settings :=
  MkSettings (base_path s) (verbosity_level s) (enable_gdb_messages s) (enable_xbdm_messages s) (enable_debugger_messages s)
    (enable_colorized_output s) (enable_log_location_info s) names next.

(** [std::string::npos], and [rfind('/', pos)]. *)
Definition npos : Z := 2 ^ 64 - 1.
Definition rfind_from (path : bytes) (pos : Z) : Z :=
  match rfind_slash (if pos <? Z.of_nat (length path) then take (S (Z.to_nat pos)) path else path) with
  | Some i => Z.of_nat i
  | None => npos
  end.

(** The third slash from the end and what stands before it; without one nothing. *)
Definition InitializeLogging (verbosity : Z) (s : Settings) : Settings :=
  let idx := rfind_from (base_path s) npos in
  let idx := rfind_from (base_path s) (u64 (idx - 1)) in
  let idx := rfind_from (base_path s) (u64 (idx - 1)) in
  SetVerbosity verbosity (with_base_path (take (Z.to_nat (u64 (idx + 1))) (base_path s)) s).

(** ** Records *)

(** The attributes of a record; the location is a file with a line. *)
Record record := MkRecord {
  severity : severity_level;
  tag : option bytes;
  location : option (bytes * Z);
  thread_of : option nat;
  message : bytes
}.

(** [LoggerSink::filter], which first cuts the verbosity down to the levels there are. *)
Definition filter_record (severity : severity_level) (s : Settings) : bool * Settings :=
  let info_level := severity_value info in
  let s :=
    if info_level <? verbosity_level s then SetVerbosity info_level s
    else if severity_value fatal <? info_level - verbosity_level s then SetVerbosity (info_level - severity_value fatal) s
    else s in
  (severity_value info - verbosity_level s <=? severity_value severity, s).

(** A record of a part of the program whose messages are off. *)
Definition is_disabled (r : record) (s : Settings) : bool :=
  match tag r with
  | None => false
  | Some t =>
    if severity_value (severity r) <? severity_value warning then
      if decide (t = kLoggingTagGDB) then negb (enable_gdb_messages s)
      else if decide (t = kLoggingTagXBDM ∨ t = kLoggingTagXBDMNotification) then negb (enable_xbdm_messages s)
      else if decide (t = kLoggingTagDebugger) then negb (enable_debugger_messages s)
      else false
    else false
  end.

Definition escape (code : bytes) : item := Str (Byte.x1b :: "["%bs ++ code ++ "m"%bs).
Definition ANSI_RED : item := escape "31"%bs.
Definition ANSI_GREEN : item := escape "32"%bs.
Definition ANSI_YELLOW : item := escape "33"%bs.
Definition ANSI_BLUE : item := escape "34"%bs.
Definition ANSI_MAGENTA : item := escape "35"%bs.
Definition ANSI_CYAN : item := escape "36"%bs.
Definition ANSI_BRIGHT_BLACK : item := escape "90"%bs.
Definition ANSI_BRIGHT_CYAN : item := escape "96"%bs.
Definition ANSI_RESET : item := escape "0"%bs.
Definition ANSI_REVERSED : item := escape "7"%bs.

Definition severity_color (s : severity_level) : item :=
  match s with
  | fatal | error => ANSI_RED
  | warning => ANSI_YELLOW
  | debug | trace => ANSI_BRIGHT_BLACK
  | info => ANSI_GREEN
  end.

Definition tag_color (t : bytes) : list item :=
  if decide (t = kLoggingTagXBDM) then [ANSI_CYAN; ANSI_REVERSED]
  else if decide (t = kLoggingTagXBDMNotification) then [ANSI_BRIGHT_CYAN; ANSI_REVERSED]
  else if decide (t = kLoggingTagGDB) then [ANSI_BLUE; ANSI_REVERSED]
  else if decide (t = kLoggingTagDebugger) then [ANSI_MAGENTA; ANSI_REVERSED]
  else [].

(** The file without the leading path and the line, cut by [snprintf]; [None] for the
    exception of [substr] when the path is shorter. *)
Definition show_location (r : record) (s : Settings) : option (list item) :=
  if enable_log_location_info s then
    match location r with
    | None => Some []
    | Some (file, line) =>
      if (length file <? length (base_path s))%nat then None
      else
        let buf := take 62 (c_str (drop (length (base_path s)) file) ++ ":"%bs ++ fmt_d (i32 line)) in
        Some [LeftAdjust; SetFill " "; SetW 42; Str buf; RightAdjust; Str " "%bs]
    end
  else Some [].

(** The number of a thread: the next one for a thread that is seen first. *)
Definition thread_number (thread : nat) (s : Settings) : Z * Settings :=
  match thread_names s !! thread with
  | Some n => (n, s)
  | None => (next_thread_name s, with_threads (<[thread := next_thread_name s]> (thread_names s)) (u32 (next_thread_name s + 1)) s)
  end.

Definition show_thread_number (r : record) (s : Settings) : list item * Settings :=
  match thread_of r with
  | None => ([], s)
  | Some thread =>
    let '(thread_short_id, s) := thread_number thread s in
    ([Str "("%bs; Hex; SetFill "0"; SetW 2; UInt thread_short_id; Str ") "%bs; SetFill " "], s)
  end.

Definition when (b : bool) (l : list item) : list item := if b then l else [].

Definition show_severity (r : record) (s : Settings) : list item :=
  when (enable_colorized_output s) [severity_color (severity r)]
  ++ [LeftAdjust; SetW 8; Str (severity_text (severity r)); Str "> "%bs]
  ++ when (enable_colorized_output s) [ANSI_RESET].

Definition show_tag (r : record) (s : Settings) : list item :=
  match tag r with
  | None => []
  | Some t =>
    when (enable_colorized_output s) (tag_color t) ++ [Str "["%bs; Str t; Str "]"%bs]
    ++ when (enable_colorized_output s) [ANSI_RESET] ++ [Str " "%bs]
  end.

(** [LoggerSink::format] *)
Definition format_record (r : record) (s : Settings) : option (list item * Settings) :=
  if is_disabled r s then Some ([], s)
  else
    place ← show_location r s;
    let '(thread, s) := show_thread_number r s in
    Some (place ++ thread ++ show_severity r s ++ show_tag r s ++ [Str (message r); Endl], s).

(** A record on its way through the sink: [filter], [format] and [consume]. *)
Definition log_record (r : record) (s : Settings) : option (list item * Settings) :=
  let '(pass, s) := filter_record (severity r) s in
  if pass : bool then format_record r s else Some ([], s).

(** ** Files of the configuration *)

(** The environment: [XDG_CONFIG_HOME], [HOME] and the current directory. *)
Record Environment := MkEnvironment { xdg_config : option bytes; home : option bytes; current : bytes }.

Definition GetConfigDirectoryPath (env : Environment) (app_name : bytes) : bytes :=
  let base_path :=
    match xdg_config env, home env with
    | Some path, _ => path
    | None, Some home => path_append home ".config"%bs
    | None, None => current env
    end in
  path_append base_path app_name.

Definition GetConfigFilePath (env : Environment) (app_name filename : bytes) : bytes :=
  path_append (GetConfigDirectoryPath env app_name) filename.

(** ** Names of threads *)

(** [SetCurrentThreadName] on Linux: the name a thread is given, if any. *)
Definition SetCurrentThreadName (name : bytes) : option bytes :=
  match name with [] => None | _ => Some (c_str (take 15 name)) end.

(** ** What is printed *)

Lemma filter_record_spec severity s :
  0 ≤ verbosity_level s →
  filter_record severity s = (2 - Z.min 2 (verbosity_level s) <=? severity_value severity, SetVerbosity (Z.min 2 (verbosity_level s)) s).
Proof.
  intros Hv. unfold filter_record. change (severity_value info) with 2. change (severity_value fatal) with 5.
  destruct (Z.ltb_spec 2 (verbosity_level s)); [by rewrite Z.min_l by lia|].
  rewrite (proj2 (Z.ltb_ge _ _)), Z.min_r by lia. by destruct s.
Qed.

Lemma format_record_ends r s items s' : format_record r s = Some (items, s') →
  if is_disabled r s then items = [] else ∃ front, items = front ++ [Str (message r); Endl].
Proof.
  unfold format_record. destruct (is_disabled r s); [by intros [= <- _]|].
  destruct (show_location r s) as [place|]; cbn; [|done]. destruct (show_thread_number r s) as [thread s1].
  intros [= <- _]. exists (place ++ thread ++ show_severity r s1 ++ show_tag r s1). by rewrite <- !app_assoc.
Qed.

(** A record is printed, as a line that ends with its message, exactly when its level is
    one the verbosity asks for and it does not come from a part of the program whose
    messages are off; one that warns is printed whatever the settings are. *)
Theorem record_printed (r : record) (s : Settings) (items : list item) (s' : Settings) :
  0 ≤ verbosity_level s → log_record r s = Some (items, s') →
  (items = [] ↔ severity_value (severity r) < 2 - Z.min 2 (verbosity_level s) ∨ is_disabled r s = true)
  ∧ (items ≠ [] → ∃ front, items = front ++ [Str (message r); Endl])
  ∧ (severity_value warning ≤ severity_value (severity r) → items ≠ []).
Proof.
  intros Hv. unfold log_record. rewrite filter_record_spec by done.
  set (s1 := SetVerbosity _ s). assert (Hd : is_disabled r s1 = is_disabled r s) by done.
  assert (Hwarning : severity_value warning ≤ severity_value (severity r) → is_disabled r s = false).
  { intros Hw. unfold is_disabled. destruct (tag r); [|done]. by rewrite (proj2 (Z.ltb_ge _ _)). }
  change (severity_value warning) with 3 in *.
  destruct (Z.leb_spec (2 - Z.min 2 (verbosity_level s)) (severity_value (severity r))) as [Hle|Hlt].
  - intros Hf. apply format_record_ends in Hf. rewrite Hd in Hf. destruct (is_disabled r s).
    + subst items. split_and!; [tauto|done|]. intros Hw. by specialize (Hwarning Hw).
    + destruct Hf as [front ->]. assert (Hne : front ++ [Str (message r); Endl] ≠ []) by (by destruct front).
      split_and!; [split; [done|intros [?|?]; [lia|done]]|by exists front|done].
  - intros [= <- _]. split_and!; [tauto|done|]. lia.
Qed.

(** ** Numbers of threads *)

(** Every thread has a number of its own, below the next one. *)
Definition numbered (s : Settings) : Prop :=
  (∀ t n, thread_names s !! t = Some n → 1 ≤ n < next_thread_name s)
  ∧ (∀ t1 t2 n, thread_names s !! t1 = Some n → thread_names s !! t2 = Some n → t1 = t2)
  ∧ 1 ≤ next_thread_name s.

Lemma thread_number_kept thread s : numbered s → next_thread_name s + 1 < 2 ^ 32 →
  numbered (thread_number thread s).2 ∧ thread_names s ⊆ thread_names (thread_number thread s).2
  ∧ thread_names (thread_number thread s).2 !! thread = Some (thread_number thread s).1
  ∧ next_thread_name (thread_number thread s).2 ≤ next_thread_name s + 1.
Proof.
  intros (Hrange & Hinj & Hpos) Hn. unfold thread_number. destruct (thread_names s !! thread) as [n|] eqn:Ht; cbn [fst snd].
  - split_and!; [by split_and!|done|done|lia].
  - unfold numbered. cbn [with_threads thread_names next_thread_name]. rewrite u32_id by (unfold is_u32; lia). split_and!.
    + intros t n. destruct (decide (t = thread)) as [->|Hne]; [rewrite lookup_insert_eq; intros [= <-]; lia|].
      rewrite lookup_insert_ne by done. intros Hl. apply Hrange in Hl. lia.
    + intros t1 t2 n. destruct (decide (t1 = thread)) as [->|H1], (decide (t2 = thread)) as [->|H2];
        rewrite ?lookup_insert_eq, ?lookup_insert_ne by done; [done| | |apply Hinj]; intros Ha Hb.
      * injection Ha as <-. apply Hrange in Hb. lia.
      * injection Hb as <-. apply Hrange in Ha. lia.
    + lia.
    + by apply insert_subseteq.
    + by rewrite lookup_insert_eq.
    + lia.
Qed.

(** The records of a run. *)
Fixpoint log_records (rs : list record) (s : Settings) : option Settings :=
  match rs with
  | [] => Some s
  | r :: rs => '(_, s) ← log_record r s; log_records rs s
  end.

Lemma log_record_threads r s items s' : log_record r s = Some (items, s') → numbered s → next_thread_name s + 1 < 2 ^ 32 →
  numbered s' ∧ thread_names s ⊆ thread_names s' ∧ next_thread_name s' ≤ next_thread_name s + 1.
Proof.
  intros Hlog Hs Hn. unfold log_record in Hlog. destruct (filter_record (severity r) s) as [pass s1] eqn:Hf.
  assert (Hs1 : numbered s1 ∧ thread_names s1 = thread_names s ∧ next_thread_name s1 = next_thread_name s).
  { unfold filter_record in Hf. injection Hf as _ <-. by repeat case_match. }
  destruct Hs1 as (Hs1 & Hnames & Hnext). rewrite <- Hnames, <- Hnext in *.
  assert (Hsame : numbered s1 ∧ thread_names s1 ⊆ thread_names s1 ∧ next_thread_name s1 ≤ next_thread_name s1 + 1) by (split_and!; [apply Hs1..|done|lia]).
  destruct pass; [|by injection Hlog as _ <-]. unfold format_record in Hlog. destruct (is_disabled r s1); [by injection Hlog as _ <-|].
  destruct (show_location r s1); cbn in Hlog; [|done]. unfold show_thread_number in Hlog. destruct (thread_of r) as [thread|]; [|by injection Hlog as _ <-].
  pose proof (thread_number_kept thread s1 Hs1 Hn) as (Hk & Hsub & _ & Hle). destruct (thread_number thread s1) as [n s2].
  by injection Hlog as _ <-.
Qed.

(** Lines of different threads bear different numbers, and those of one thread the same,
    over any run of less than 2^32 - 2 records. *)
Theorem threads_told_apart (file : bytes) (verbosity : Z) (before after : list record) (s s' : Settings) :
  Z.of_nat (length (before ++ after)) < 2 ^ 32 - 2 →
  log_records before (InitializeLogging verbosity (initial_settings file)) = Some s → log_records after s = Some s' →
  (∀ t1 t2 n, thread_names s' !! t1 = Some n → thread_names s' !! t2 = Some n → t1 = t2)
  ∧ (∀ t n, thread_names s !! t = Some n → thread_names s' !! t = Some n).
Proof.
  assert (Hrun : ∀ rs s s', log_records rs s = Some s' → numbered s → next_thread_name s + Z.of_nat (length rs) < 2 ^ 32 →
    numbered s' ∧ thread_names s ⊆ thread_names s' ∧ next_thread_name s' ≤ next_thread_name s + Z.of_nat (length rs)).
  { induction rs as [|r rs IH]; intros s0 s0' Hl Hs Hn; cbn [log_records length] in *; [injection Hl as <-; split_and!; [apply Hs..|done|lia]|].
    destruct (log_record r s0) as [[items s1]|] eqn:Hr; cbn in Hl; [|done].
    apply log_record_threads in Hr as (Hs1 & Hsub & Hle); [|done|lia].
    apply IH in Hl as (Hs2 & Hsub2 & Hle2); [|done|lia]. split_and!; [apply Hs2..|by etrans|lia]. }
  rewrite length_app. intros Hlen Hb Ha.
  assert (Hstart : numbered (InitializeLogging verbosity (initial_settings file))) by (split_and!; [done|done|cbn; lia]).
  apply Hrun in Hb as (Hs & _ & Hle); [|done|cbn; lia]. cbn in Hle.
  apply Hrun in Ha as ((_ & Hinj & _) & Hsub & _); [|done|lia]. split; [exact Hinj|].
  intros t n Ht. by apply (lookup_weaken _ _ _ _ Ht).
Qed.

Definition example_settings : Settings := InitializeLogging 0 (initial_settings "/build/app/src/util/logging.cpp"%bs).
Definition example_record (thread : nat) : record :=
  MkRecord warning (Some kLoggingTagGDB) (Some ("/build/app/src/main.cpp"%bs, 33)) (Some thread) "Startup"%bs.

Lemma threads_told_apart_witness : ∃ s s',
  log_records [example_record 7] example_settings = Some s ∧ log_records [example_record 9; example_record 7] s = Some s'
  ∧ ∀ t n, thread_names s !! t = Some n → thread_names s' !! t = Some n.
Proof.
  do 2 eexists. split; [reflexivity|]. split; [reflexivity|].
  refine (proj2 (threads_told_apart "/build/app/src/util/logging.cpp"%bs 0 [example_record 7] [example_record 9; example_record 7] _ _ _ _ _));
    [cbn; lia|reflexivity|reflexivity].
Defined.

Lemma record_printed_witness : ∃ items s', log_record (example_record 7) example_settings = Some (items, s')
  ∧ ∃ front, items = front ++ [Str "Startup"%bs; Endl].
Proof.
  do 2 eexists. split; [reflexivity|]. eapply (record_printed (example_record 7) example_settings); [cbn; lia|reflexivity|done].
Defined.

(** A line as it is printed without colors. *)
Example log_line : (λ x, shown default_format x.1) <$> log_record (example_record 7) (SetColorizedLoggingEnabled false example_settings)
  = Some ("src/main.cpp:33                            (01) warning > [GDB] Startup"%bs ++ [newline]).
Proof. reflexivity. Qed.

(** Without the location the number is padded on the side that the line before left. *)
Example number_padded_left :
  (λ x, shown (MkFormat false space true) (show_thread_number (example_record 7) x).1) <$> Some (SetLogLocationEnabled false example_settings)
  = Some "(10) "%bs.
Proof. reflexivity. Qed.
