(* ===== verification/Session.v ===== *)
(** * What the commands of the shell work on (src/xbox/debugger/debugger_xbox_interface.h, .cpp, src/shell/command.h)

    The interface to the console with the debugger, if one is attached, and its
    parser of expressions, beside the stream the commands print to; attaching and
    detaching; the arguments of commands that are expressions; sending a request
    and printing what became of it.  An argument that is a number or an expression
    gives the command what it means, over the registers of the active thread and the
    memory of the console. *)

From S2P Require Import Console.
From S2P Require Import Tracer DxtLoader.
From S2P Require Import Prelude CLib Boost Parsing RdcpResponse RdcpTypes RdcpRequest Notifications ExprParser Target.
From S2P Require Import DebuggerMemory DebuggerThread DebuggerThreads Debugger DebuggerControl Output.

Inductive Result := UNHANDLED | HANDLED | EXIT_REQUESTED.

#[global] Instance Result_eq_decision : EqDecision Result.
Proof. solve_decision. Defined.

(** [ContextAwareExpressionParser], or [DebuggerExpressionParser]; the context is
    set anew for each expression. *)
Record Parser := MkParser { context_aware : bool; parser_thread_id_ : option Z }.

(** The members of [DebuggerXBOXInterface], [std::cout], and the loader and the
    tracer, of which there is one. *)
Record Session := MkSession {
  cout : ostream;
  xbdm_debugger_ : option XBDMDebugger;
  expression_parser_ : option Parser;
  debug_notification_handler_id_ : Z;
  loader_ : option Loader;
  tracer_ : option Tracer
}.

(** At start-up the parser is one without a debugger. *)
Definition new_session : Session := MkSession new_stream None (Some (MkParser false None)) 0 None None.

Definition set_cout (o : ostream) (s : Session) : Session :=
  MkSession o (xbdm_debugger_ s) (expression_parser_ s) (debug_notification_handler_id_ s) (loader_ s) (tracer_ s).
Definition set_debugger (d : option XBDMDebugger) (s : Session) : Session :=
  MkSession (cout s) d (expression_parser_ s) (debug_notification_handler_id_ s) (loader_ s) (tracer_ s).
Definition SetExpressionParser (p : option Parser) (s : Session) : Session :=
  MkSession (cout s) (xbdm_debugger_ s) p (debug_notification_handler_id_ s) (loader_ s) (tracer_ s).
Definition set_notification_handler (id : Z) (s : Session) : Session :=
  MkSession (cout s) (xbdm_debugger_ s) (expression_parser_ s) id (loader_ s) (tracer_ s).
Definition set_loader (l : option Loader) (s : Session) : Session :=
  MkSession (cout s) (xbdm_debugger_ s) (expression_parser_ s) (debug_notification_handler_id_ s) l (tracer_ s).
Definition set_tracer (t : option Tracer) (s : Session) : Session :=
  MkSession (cout s) (xbdm_debugger_ s) (expression_parser_ s) (debug_notification_handler_id_ s) (loader_ s) t.

Section Commands.
Context `{!Boost} {C E : Type} `{!Target C E, !Listeners C E}.
Abbreviation R := (M (Session * E)).

Definition update_session (f : Session → Session) : R unit := on_left (modify f).
Definition on_console {A} (m : M E A) : R A := on_right m.

(** [out << ...]; every command is given [std::cout]. *)
Definition print (l : list item) : R unit := update_session (λ s, set_cout (emits l (cout s)) s).

(** ** The debugger *)

Definition has_debugger : R bool := gets (λ s, bool_decide (is_Some (xbdm_debugger_ s.1))).

(** A method of the debugger; [None] when there is none. *)
Definition on_debugger {A} (m : M (XBDMDebugger * E) A) : R A := λ '(s, e),
  d ← xbdm_debugger_ s;
  '(a, (d, e)) ← m (d, e);
  Some (a, (set_debugger (Some d) s, e)).

Definition AttachDebugger : R bool :=
  there ← has_debugger;
  (if there : bool then mret tt
   else update_session (λ s, SetExpressionParser (Some (MkParser true None)) (set_debugger (Some new_debugger) s))) ;;
  on_debugger Attach.

Definition DetachDebugger : R unit :=
  there ← has_debugger;
  if negb there then mret tt
  else
    on_debugger Shutdown ;;
    update_session (λ s, SetExpressionParser (Some (MkParser false None)) (set_debugger None s)).

(** What its handler prints, given the text of custom notifications. *)
Definition show_ntrc (n : NotificationNTRC) : list item := Str "NTRC: "%bs :: show_map (content n).
Definition debug_notification_handler (show_custom : C → list item) (n : Notification C) : R unit :=
  print (show_notification show_custom n ++ [Endl]).

Definition AttachDebugNotificationHandler : R unit :=
  id ← gets (λ s, debug_notification_handler_id_ s.1);
  if 0 <? id then mret tt
  else
    id ← on_console (λ e, Some (RegisterNotificationHandler e));
    update_session (set_notification_handler id).

Definition DetachDebugNotificationHandler : R unit :=
  id ← gets (λ s, debug_notification_handler_id_ s.1);
  if id <=? 0 then mret tt
  else
    on_console (modify (UnregisterNotificationHandler id)) ;;
    update_session (set_notification_handler 0).

(** ** Expressions *)

Definition result_of {St} (r : parsed (St := St)) : option ((Z + bytes) * St) :=
  match r with
  | Value v s => Some (inl v, s)
  | Error e s => Some (inr e, s)
  | AssertionFailure | NoFuel => None
  end.

(** [ContextAwareExpressionParser::Parse]: with the registers of the active thread
    when they are known, and with the identifier of the last such thread. *)
Definition Parse_with_context (p : Parser) (expr : bytes) : R (Z + bytes) :=
  found ← on_debugger (
    d ← gets fst;
    match ActiveThread (threads d) with
    | Some q => t ← on_threads (thread_at q); mret ((λ c, (c, id t)) <$> context t)
    | None => mret None
    end);
  let '(context, thread_id) :=
    match found with
    | Some (c, i) => (c, Some i)
    | None => (Reset, parser_thread_id_ p)
    end in
  update_session (SetExpressionParser (Some (MkParser (context_aware p) thread_id))) ;;
  on_debugger (λ s, result_of (ExprParser.Parse (MkEnv context thread_id (Some CreateMemoryReader)) expr s)).

(** Without a debugger there is no memory to read: the parser has no state. *)
Definition Parse_expression (p : Parser) (expr : bytes) : R (Z + bytes) :=
  if context_aware p then Parse_with_context p expr
  else
    '(r, _) ← lift_option (result_of (ExprParser.Parse (MkEnv (St := unit) Reset (parser_thread_id_ p) None) expr tt));
    mret r.

(** [args.Parse(arg_index, ret, interface.GetExpressionParser())]: the argument is
    given to the parser at most once. *)
Definition parse_expr (is_signed : bool) (p : ArgParser) (arg_index ret : Z) : R (ArgType * Z) :=
  parser ← gets (λ s, expression_parser_ s.1);
  match parser, nth_arg p arg_index with
  | Some parser, Some a =>
    if decide (val (type a) = PARENTHESIZED ∨ val (type a) = BASIC) then
      r ← Parse_expression parser (value a);
      mret (Parse_opt (Some (λ _, r)) is_signed p arg_index ret)
    else mret (Parse_opt (Some (λ _, inr [])) is_signed p arg_index ret)
  | _, _ => mret (Parse_opt None is_signed p arg_index ret)
  end.

(** ** Requests *)

Definition SendCommandSync {T} (k : RequestClass T) (r : RDCPRequest) (payload : option bytes) (init : T)
  : R (RDCPProcessedRequest T) := on_console (Target.SendCommandSync k r payload init).

Definition SendAndPrintMessage {T} (k : RequestClass T) (r : RDCPRequest) (init : T) : R unit :=
  done ← SendCommandSync k r None init;
  print (show_request done ++ [Endl]).

(** The common form: the message of a request that failed, or what it brought. *)
Definition send_and_show {T} (k : RequestClass T) (r : RDCPRequest) (init : T) (show : T → R unit) : R unit :=
  done ← SendCommandSync k r None init;
  if IsOK k (RdcpRequest.status done) then show (members done) else print (show_request done ++ [Endl]).

(** [PrintUsage] *)
Definition PrintUsage (help : bytes) : R unit := print [Str help; Endl].

(** A command that ends with [return HANDLED]. *)
Definition handled (m : R unit) : R Result := m ;; mret HANDLED.

(** [if (!args.Parse(i, x)) { ... return HANDLED; }] with what follows. *)
Definition with_int (is_signed : bool) (args : ArgParser) (i : Z) (otherwise : R unit) (k : Z → R unit) : R unit :=
  let '(t, v) := Parse_int is_signed args i 0 in if ArgType_bool t then k v else otherwise.
Definition with_string (args : ArgParser) (i : Z) (otherwise : R unit) (k : bytes → R unit) : R unit :=
  let '(t, v) := Parse_string args i [] in if ArgType_bool t then k v else otherwise.

(** [auto debugger = interface.Debugger(); if (!debugger) ...] *)
Definition with_debugger (k : R unit) : R unit :=
  there ← has_debugger;
  if there : bool then k else print [Str "Debugger not attached."%bs; Endl].

Definition with_active_thread (k : ptr → R unit) : R unit :=
  thread ← on_debugger (gets (λ s, ActiveThread (threads s.1)));
  match thread with
  | Some p => k p
  | None => print [Str "No active thread."%bs; Endl]
  end.

Definition on_thread_ {A} (p : ptr) (m : M (Thread * E) A) : R A := on_debugger (on_threads (on_thread p m)).
Definition the_thread (p : ptr) : R Thread := on_debugger (on_threads (thread_at p)).
End Commands.

(** ** What an argument means *)

(** The argument that stands for an expression: its text in parentheses, or the
    digits of a number. *)
Definition denotes (a : Argument) (ex : expr) : Prop :=
  a = MkArg (show ex) (arg_type PARENTHESIZED) ∨ ∃ n, ex = Number n ∧ a = MkArg (fmt_u n) (arg_type BASIC).

Lemma number_basic n : 0 ≤ n → basic_ok (fmt_u n) = true.
Proof.
  intros Hn. unfold basic_ok.
  assert (Hd : Forall (is_digit_of 10) (fmt_u n)) by (by apply print_base_digits).
  pose proof (print_base_nonempty false 10 n) as Hne. change (fmt_u n ≠ []) in Hne.
  rewrite bool_decide_eq_true_2 by done. rewrite bool_decide_eq_true_2.
  2: { destruct Hd as [|c l Hc _]; [done|]. intros [= ->]. by destruct Hc. }
  apply forallb_forall. intros c Hc%list_elem_of_In. rewrite Forall_forall in Hd. specialize (Hd c Hc).
  apply bool_decide_eq_true. split_and!; intros ->; by destruct Hd.
Qed.

Lemma denotes_printable a ex : wf_expr ex → denotes a ex → printable a = true.
Proof.
  intros Hwf [->|(n & -> & ->)]; unfold printable; cbn [type arg_type message val value].
  - by rewrite show_balanced.
  - by rewrite number_basic by apply Hwf.
Qed.

Lemma denotes_parsed `{!Boost, !BoostLaws _} {St} (env : Environment St) a ex (st : St) :
  env_ok env → wf_expr ex → denotes a ex → result_of (ExprParser.Parse env (value a) st) = eval env ex st.
Proof.
  intros Henv Hwf [->|(n & -> & ->)]; cbn [value].
  - rewrite Parse_meaning by done. by destruct (eval env ex st) as [[[]]|].
  - destruct Hwf as [H0 Hn]. rewrite Parse_number by done. rewrite (proj2 (Z.ltb_lt n (2 ^ 64))) by lia. cbn. by rewrite u32_id.
Qed.

(** What the command gets for a value of an expression, or for its error. *)
Definition converted (is_signed : bool) (a : Argument) (ret : Z) (r : Z + bytes) : ArgType * Z :=
  match r with
  | inl v => (type a, if is_signed then i32 v else v)
  | inr e => (MkArgType SYNTAX_ERROR e, ret)
  end.

(** The registers and the thread an expression is about: those of the active thread,
    when its registers are known, or none and the thread there was last. *)
Definition seen_from (last : option Z) (d : XBDMDebugger) : ThreadContext * option Z :=
  match thread ← (ActiveThread (threads d) ≫= λ q, objects (threads d) !! q); (λ c, (c, id thread)) <$> context thread with
  | Some (c, i) => (c, Some i)
  | None => (Reset, last)
  end.

Section Meaning.
Context `{HB : !Boost, !BoostLaws HB} {C E : Type} `{!Target C E}.
Abbreviation R := (M (Session * E)).

(** The meaning of an expression in a session: with a debugger, over the registers of
    the active thread and the memory the debugger reads; without, over neither. *)
Definition meaning (last : option Z) (ex : expr) : R (Z + bytes) := λ '(s, e),
  match xbdm_debugger_ s with
  | Some d =>
    let '(c, thread_id) := seen_from last d in
    '(r, (d', e')) ← eval (MkEnv c thread_id (Some CreateMemoryReader)) ex (d, e);
    Some (r, (set_debugger (Some d') (SetExpressionParser (Some (MkParser true thread_id)) s), e'))
  | None => '(r, _) ← eval (MkEnv (St := unit) Reset last None) ex tt; Some (r, (s, e))
  end.

(** The identifiers of threads are 32 bits wide. *)
Definition threads_typed (d : XBDMDebugger) : Prop := ∀ q thread, objects (threads d) !! q = Some thread → is_u32 (id thread).

Lemma seen_typed last d : threads_typed d → from_option is_u32 True last → from_option is_u32 True (seen_from last d).2.
Proof.
  intros Hd Hlast. unfold seen_from. destruct (ActiveThread (threads d)) as [q|]; [|done]. cbn [mbind option_bind].
  destruct (objects (threads d) !! q) as [thread|] eqn:Hq; [|done]. cbn. destruct (context thread); [|done]. by apply (Hd q).
Qed.

Lemma active_object (t : ThreadTable) q : ActiveThread t = Some q → ∃ thread, objects t !! q = Some thread.
Proof.
  unfold ActiveThread. destruct (active_thread_id_ t) as [i|]; [|done]. cbn. intros (_ & thread & Ht & _)%GetThread_Some. eauto.
Qed.

(** [ContextAwareExpressionParser::Parse] on the text of an expression. *)
Lemma Parse_with_context_means a ex last s e d :
  xbdm_debugger_ s = Some d → threads_typed d → from_option is_u32 True last → wf_expr ex → denotes a ex →
  Parse_with_context (MkParser true last) (value a) (s, e) = meaning last ex (s, e).
Proof.
  intros Hs Hd Hlast Hwf Ha. unfold Parse_with_context, meaning. rewrite Hs.
  set (found := thread ← (ActiveThread (threads d) ≫= λ q, objects (threads d) !! q); (λ c, (c, id thread)) <$> context thread).
  erewrite bind_run with (a := found) (s' := (set_debugger (Some d) s, e)).
  2: { unfold on_debugger. rewrite Hs. cbn. unfold found. clear found. unfold mbind, M_bind, gets. cbn.
    destruct (ActiveThread (threads d)) as [q|] eqn:Hq; [|done]. destruct (active_object _ _ Hq) as [thread Ht].
    assert (Hat : thread_at (E := E) q (threads d, e) = Some (thread, (threads d, e))).
    { unfold thread_at, mbind, M_bind, gets, lift_option. cbn. by rewrite Ht. }
    cbn. rewrite Hat, Ht. cbn. destruct d. by destruct (context thread). }
  pose proof (seen_typed last d Hd Hlast) as Henv. unfold seen_from in *. fold found in Henv |- *.
  destruct (match found with Some (c, i) => (c, Some i) | None => (Reset, last) end) as [c i] eqn:Hseen. cbn [snd] in Henv.
  replace (match found with Some (c, i) => (c, Some i) | None => (Reset, parser_thread_id_ (MkParser true last)) end) with (c, i).
  erewrite bind_run by reflexivity. unfold on_debugger. cbn -[ExprParser.Parse eval].
  rewrite (denotes_parsed _ a ex) by done. by destruct (eval _ ex (d, e)) as [[r [d' e']]|].
Qed.

End Meaning.

(** ** An example

    The word at [$eax + 10], with a breakpoint beside it; and what becomes of it
    without a debugger. *)

Section Witness.
#[local] Existing Instance Boost_reference.boost_reference.

Definition argument_expr : expr := LoadSized (Binary PLUS (Register "eax"%bs) (Number 10)) (Number 2).
Definition argument_thread : Thread :=
  with_context (Some (MkContext None None None None (Some 4088) None None None None None None)) (new_thread 28).
Definition argument_debugger : XBDMDebugger :=
  set_threads (MkTable (Some 28) [0%nat] [argument_thread]) (set_memory example_state new_debugger).
Definition argument_session : Session :=
  SetExpressionParser (Some (MkParser true None)) (set_debugger (Some argument_debugger) new_session).

Example argument_typed_in : Flatten (MkArgs "getmem"%bs [MkArg (show argument_expr) (arg_type PARENTHESIZED); MkArg "4"%bs (arg_type BASIC)])
  = "getmem (@ ( $eax + 10 , 2 ) ) 4"%bs.
Proof. reflexivity. Qed.

End Witness.
