(* ===== verification/ShellHelp.v ===== *)
(** * The help of the commands (src/src/shell/*.h)

    For each command the line that describes it in the list of commands, and the
    text that explains how it is used. *)

From S2P Require Import Prelude CLib Boost Output.

(** [Command(short_help, long_help)], with the members [short_help] and [help]. *)
Definition Command_help (short_help long_help : bytes) : bytes * bytes :=
  (short_help, match long_help with [] => newline :: short_help | _ => long_help end).

Definition lines (l : list bytes) : bytes := join [newline] l.

(** ** shell_commands.h *)

Definition ShellCommandQuit_help : bytes * bytes := Command_help "Terminate the connection and exit."%bs [].
Definition ShellCommandReconnect_help : bytes * bytes := Command_help "Attempt to disconnect and reconnect from XBDM."%bs [].
Definition ShellCommandTrace_help : bytes * bytes := Command_help "Inject the nv2a tracer and capture one or more frames."%bs
  (lines [
    "[<config> <value>] ..."%bs;
    [];
    "Configuration options:"%bs;
    "  path <path> - Local directory into which trace artifacts should be saved. Each frame will create a "%bs
      ++ "separate subdir of the form 'frame_X'. Default: <current working dir>."%bs;
    "  frames <int> - Number of consecutive frames to capture. Default: 1."%bs;
    "  nodiscard - Starts capture immediately without seeking the start of a new frame."%bs;
    "  tex <on|off> - Enables or disables capture of raw textures. Default: on."%bs;
    "  depth <on|off> - Enables or disables capture of the depth buffer. Default: off."%bs;
    "  color <on|off> - Enables or disables capture of the color buffer (framebuffer). Default: on."%bs;
    "  rdi <on|off> - Enables or disables capture of RDI regions (vertex shader program, constants). This "%bs
      ++ "may have a significant performance impact. Default: off."%bs;
    "  pgraph <on|off> - Enables or disables capture of the raw PGRAPH region. Default: off."%bs;
    "  pfb <on|off> - Enables or disables capture of the raw PFB region. Default: off."%bs]).

(** ** commands.h *)

Definition CommandAltAddr_help : bytes * bytes := Command_help "Print 'Game Configuration' IP information."%bs [].
Definition CommandBreak_help : bytes * bytes := Command_help "Manage breakpoints."%bs
  (lines [
    "<subcommand> [subcommand_args]"%bs;
    [];
    "Add or removes a breakpoint."%bs;
    [];
    "subcommands:"%bs;
    "  clearall - Clears all breakpoints"%bs;
    "  start - Sets a breakpoint at program entry. Only valid if the target is in state "%bs ++ [quote] ++ "execution pending"%bs ++ [quote] ++ "."%bs;
    "  [-]addr <Address> - Breaks on execution at the given Address."%bs;
    "  [-]read <Address> <length> - Breaks on read access to the given memory range."%bs;
    "  [-]write <Address> <length> - Breaks on write access to the given memory range."%bs;
    "  [-]execute <Address> <length> - Breaks on execution within the given memory range."%bs;
    [];
    "Subcommands with [-] can be prefixed with '-' to disable a previously set breakpoint."%bs;
    "    E.g., addr 0x12345   # sets a breakpoint at 0x12345"%bs;
    "          -addr 0x12345  # clears the breakpoint"%bs;
    [];
    "addr/read/write/execute breakpoints may be conditionally ignored by providing a trailing IF"%bs;
    "condition. The condition may reference basic registers using $reg syntax and perform simple"%bs;
    "C-style comparisons."%bs;
    "    E.g., addr 0x12345 IF $eax == 0xFF00DD"%bs;
    "In addition, the broken thread ID may be checked using 'tid'"%bs;
    "    E.g., addr 0x12345 IF tid == 28"%bs]).
Definition CommandBye_help : bytes * bytes := Command_help "Close the debugger connection gracefully."%bs [].
Definition CommandContinue_help : bytes * bytes := Command_help "Continue execution of a thread."%bs
  (lines [
    "<thread_id> [break_on_exception=false]"%bs;
    [];
    "Continue execution of the thread with the given `thread_id`."%bs]).
Definition CommandDebugOptions_help : bytes * bytes := Command_help "List or modify debug options."%bs
  (lines [
    "[crashdump | dpctrace] [...]"%bs;
    [];
    "If no arguments are given, retrieves the currently active debug options."%bs;
    "If at least one argument is given, enables that debug option and disables any options that are not "%bs
      ++ "given."%bs]).
Definition CommandDebugger_help : bytes * bytes := Command_help "Enable or disable debugging."%bs
  (lines [
    "[disable]"%bs;
    [];
    "If no args are given, notifies XBDM that this channel intends to act as a debugger."%bs;
    "If 'disable' is given, disables the previously set debugger flag."%bs]).
Definition CommandDedicate_help : bytes * bytes := Command_help "Dedicate the shell connection to a specific handler or reset to global."%bs
  (lines [
    "[handler_name]"%bs;
    [];
    "If no args are given, restores the shell connection to the global command handler. If a name is given, "%bs
      ++ "dedicates the shell connection to talking to only that handler, which must have been registered via "%bs
      ++ "DmCommandProcessorEx with a non-null thread creation argument."%bs]).
Definition CommandDelete_help : bytes * bytes := Command_help "Delete a file or directory."%bs
  (lines [
    "<path> [-r]"%bs;
    [];
    "Delete the given `path`."%bs;
    "If -r is given, deletes a the given directory recursively."%bs]).
Definition CommandEnablePerfCounters_help : bytes * bytes := Command_help "Enable performance counters."%bs [].
Definition CommandDisablePerfCounters_help : bytes * bytes := Command_help "Disable performance counters."%bs [].
Definition CommandDirList_help : bytes * bytes := Command_help "List details of a file or directory."%bs
  (lines [
    "<path>"%bs;
    [];
    "Retrieve a list of items in `path`."%bs]).
Definition CommandDebugMonitorVersion_help : bytes * bytes := Command_help "Print the debug monitor version."%bs [].
Definition CommandDriveFreeSpace_help : bytes * bytes := Command_help "Print free space on a drive."%bs
  (lines [
    "[drive_letter]"%bs;
    [];
    "Print the amount of free space on `drive_letter` (e.g., 'E')."%bs]).
Definition CommandDriveList_help : bytes * bytes := Command_help "List mounted drives."%bs [].
Definition CommandGetChecksum_help : bytes * bytes := Command_help "Print a checksum for a memory region."%bs
  (lines [
    "<Address> <length> <blocksize>"%bs;
    [];
    "Calculate a checksum for the memory region starting at 'address'."%bs]).
Definition CommandGetContext_help : bytes * bytes := Command_help "Retrieve register information for a thread."%bs
  (lines [
    "<thread_id> [<mode> [...]]"%bs;
    [];
    "Retrieve information about the registers for `thread_id`"%bs;
    [];
    "thread_id - The thread to retrieve information about"%bs;
    "mode - [control | int | fp | full]"%bs;
    " Optional list of one or more registry sets to query. If no `mode` is passed,"%bs;
    " all types are queried."%bs]).
Definition CommandGetExtContext_help : bytes * bytes := Command_help "Retrieve floating point register information for a thread."%bs
  (lines [
    "<thread_id>"%bs;
    [];
    "Retrieve information about the floating point registers for `thread_id`"%bs]).
Definition CommandGetFile_help : bytes * bytes := Command_help "Copy a file from the device."%bs
  (lines [
    "<path> [local_path]"%bs;
    [];
    "Retrieve the file at `path`."%bs;
    "If `path` is a directory, retrieves the contents recursively."%bs;
    "If `local_path` is given, writes the file into `local_path`. If `local_path` is a directory, the file "%bs
      ++ "will retain"%bs;
    "the original filename, if it does not exist, the file will saved as the given name."%bs]).
Definition CommandGetFileAttributes_help : bytes * bytes := Command_help "Print detailed file attributes for a remote path."%bs
  (lines [
    "<path>"%bs;
    [];
    "Retrieve information about the file at `path`."%bs]).
Definition CommandGetMem_help : bytes * bytes := Command_help "Fetch raw memory content."%bs
  (lines [
    "<Address> <size> [byte | word | dword | binary <filename>]"%bs;
    [];
    "Fetch the content of the given block of memory."%bs;
    "Mathematical arguments in parentheses will be resolved to integers."%bs;
    "An optional layout param may be given to adjust how the datais displayed:"%bs;
    "  byte - [default] render each byte in hex"%bs;
    "  word - render each pair of bytes as little endian words"%bs;
    "  dword - render every four bytes as little endian dwords"%bs;
    "  binary <filename> - save raw data to the given file"%bs]).
Definition CommandGetProcessID_help : bytes * bytes := Command_help "Print the currently running process ID."%bs
  (lines [
    "Print the ID of the currently running process (which must be debuggable)."%bs]).
Definition CommandGetUtilityDriveInfo_help : bytes * bytes := Command_help "Print information about the mounted utility partitions."%bs [].
Definition CommandGo_help : bytes * bytes := Command_help "Resume execution of all threads."%bs [].
Definition CommandHalt_help : bytes * bytes := Command_help "Halt one or more threads."%bs
  (lines [
    "[thread_id]"%bs;
    [];
    "Halt the given thread, or all threads if no `thread_id` is given."%bs]).
Definition CommandIsBreak_help : bytes * bytes := Command_help "Check for the existence of a breakpoint."%bs
  (lines [
    "<Address>"%bs;
    [];
    "Check to see if a breakpoint is set at `Address`."%bs]).
Definition CommandIsDebugger_help : bytes * bytes := Command_help "Check to see if the debugger is attached."%bs [].
Definition CommandIsStopped_help : bytes * bytes := Command_help "Check to see if a thread is stopped."%bs
  (lines [
    "<thread_id>"%bs;
    [];
    "Check to see if the thread `thread_id` is stopped."%bs]).
Definition CommandListPerfCounters_help : bytes * bytes := Command_help "List all available performance counters."%bs [].
Definition CommandMagicBoot_help : bytes * bytes := Command_help "Reboot into an XBE."%bs
  (lines [
    "<path> [noxbdm] [cold]"%bs;
    [];
    "Boots the XBE at 'path'."%bs;
    [];
    "noxbdm - Disables XBDM (no further commands will be accepted until the target is rebooted)."%bs;
    "cold - Performs a cold-reboot."%bs]).
Definition CommandMemoryMap_help : bytes * bytes := Command_help "Return global memory information."%bs [].
Definition CommandMakeDirectory_help : bytes * bytes := Command_help "Create a new directory on the target."%bs
  (lines [
    "<path>"%bs;
    [];
    "Create a new directory at the given path."%bs]).
Definition CommandModuleSections_help : bytes * bytes := Command_help "Print information about a module on the target."%bs
  (lines [
    "<name>"%bs;
    [];
    "Return information about the sections in the given executable Module."%bs]).
Definition CommandModuleLongName_help : bytes * bytes := Command_help "Print path information about a module on the target."%bs
  (lines [
    "<name>"%bs;
    [];
    "Return path information about the given executable Module."%bs]).
Definition CommandModules_help : bytes * bytes := Command_help "Print the currently running executable modules."%bs [].
Definition CommandNoStopOn_help : bytes * bytes := Command_help "Disable automatic breakpoints on certain events."%bs
  (lines [
    "<flag> [<flag> [...]]"%bs;
    [];
    "Disable automatic stop on the given 'flag' events."%bs;
    [];
    "flag:"%bs;
    "  all          - All events"%bs;
    "  fce          - First chance exceptions"%bs;
    "  debugstr     - debugstr() invocations"%bs;
    "  createthread - Thread creation"%bs;
    "  stacktrace   - Stack traces"%bs]).
Definition CommandNotifyAt_help : bytes * bytes := Command_help "Manage a debugger notification channel."%bs
  (lines [
    "<Port> [drop] [debug]"%bs;
    [];
    "Instruct the target to open a notification connection on the given Port."%bs;
    [];
    "drop - Instructs the target to close an existing connection instead of connecting."%bs;
    "debug - Sets the notification channel to debug mode."%bs]).
Definition CommandPutFile_help : bytes * bytes := Command_help "Upload a file to the target."%bs
  (lines [
    "<local_path> <remote_path> [-f]"%bs;
    [];
    "Upload the file at `local_path` to `remote_path`."%bs;
    [];
    "If `local_path` is a directory, sends the contents recursively."%bs;
    "If the `-f` flag is given, overwrites remote files."%bs]).
Definition CommandQueryPerfCounters_help : bytes * bytes := Command_help "Query a performance counter."%bs
  (lines [
    "<name> [type]"%bs;
    [];
    "Query the value of the specified performance counter."%bs]).
Definition CommandRename_help : bytes * bytes := Command_help "Rename/move a path on the target."%bs
  (lines [
    "<path> <new_path>"%bs;
    [];
    "Move the file at `path` to `new_path`."%bs]).
Definition CommandReboot_help : bytes * bytes := Command_help "Reboot the target."%bs
  (lines [
    "[<flag> [...]]"%bs;
    [];
    "Reboot the target machine."%bs;
    [];
    "flags:"%bs;
    "  wait - Wait for the debugger to attach on restart."%bs;
    "  stop - Stop at entry into the launch XBE."%bs;
    "  nodebug - Do not start XBDM when rebooting."%bs;
    "  warm - Do a warm reboot."%bs]).
Definition CommandResume_help : bytes * bytes := Command_help "Resume a thread."%bs
  (lines [
    "<thread_id>"%bs;
    [];
    "Resume thread 'thread_id'."%bs]).
Definition CommandScreenshot_help : bytes * bytes := Command_help "Capture a screenshot"%bs [].
Definition CommandSetMem_help : bytes * bytes := Command_help "Set the content of memory on the target."%bs
  (lines [
    "<address> <hex_string>"%bs;
    [];
    "Set the content of memory starting at `address` to the given `hex_string`."%bs;
    "The hex string is a series of hexadecimal digits without any prefix. E.g., 9090 would be 0x90 0x90."%bs]).
Definition CommandStop_help : bytes * bytes := Command_help "Break into the debugger."%bs [].
Definition CommandStopOn_help : bytes * bytes := Command_help "Enable a debugger breakpoints on events."%bs
  (lines [
    "<flag> [<flag> [...]]"%bs;
    [];
    "Enables automatic stop on event 'flag'."%bs;
    [];
    "flag:"%bs;
    "  all          - All events"%bs;
    "  fce          - First chance exceptions"%bs;
    "  debugstr     - debugstr() invocations"%bs;
    "  createthread - Thread creation"%bs;
    "  stacktrace   - Stack traces"%bs]).
Definition CommandSuspend_help : bytes * bytes := Command_help "Suspend a thread"%bs
  (lines [
    "<thread_id>"%bs;
    [];
    "Suspend (or increments the suspend count of) the given thread 'thread_id'."%bs]).
Definition CommandThreadInfo_help : bytes * bytes := Command_help "Print detailed information about a thread."%bs
  (lines [
    "<thread_id>"%bs;
    [];
    "Retrieve detailed info about the specified thread 'thread_id'."%bs]).
Definition CommandThreads_help : bytes * bytes := Command_help "List running threads."%bs [].
Definition CommandWalkMem_help : bytes * bytes := Command_help "Print info on mapped memory."%bs [].
Definition CommandXBEInfo_help : bytes * bytes := Command_help "Print detailed information about an XBE."%bs
  (lines [
    "[path [disk_only]]"%bs;
    [];
    "Print info on an XBE."%bs;
    [];
    "If no path is given, gets info on the currently running XBE."%bs;
    "If a path is given, gets info on the XBE at 'path'."%bs]).
Definition CommandXTLInfo_help : bytes * bytes := Command_help "Print last error info"%bs [].

(** ** debugger_commands.h *)

Definition DebuggerCommandRun_help : bytes * bytes := Command_help "Run an XBE without debugging."%bs
  (lines [
    "<path_to_xbe> [commandline_args]"%bs;
    [];
    "Launch the XBE at the given path, passing any remaining parameters as command line arguments. Does not "%bs
      ++ "set any breakpoints."%bs]).
Definition DebuggerCommandLaunch_help : bytes * bytes := Command_help "Launch an XBE with debugging."%bs
  (lines [
    "<path_to_xbe> [commandline_args]"%bs;
    [];
    "Launch the given path, passing any remaining parameters as command line arguments."%bs]).
Definition DebuggerCommandLaunchWait_help : bytes * bytes := Command_help "Launch XBE with debugging and break when the first application thread is created."%bs
  (lines [
    "<path_to_xbe> [commandline_args]"%bs;
    [];
    "Launch the given path, passing any remaining parameters as command line arguments."%bs;
    "A breakpoint will be set on the XBE entrypoint and execution will wait for a `go` command."%bs]).
Definition DebuggerCommandLaunchBreakAtEntrypoint_help : bytes * bytes := Command_help "Launch XBE with debugging and break at the entrypoint (before the first application thread is created)."%bs
  (lines [
    "<path_to_xbe> [commandline_args]"%bs;
    [];
    "Launch the given path, passing any remaining parameters as command line arguments."%bs;
    "A breakpoint will be set on the XBE entrypoint and execution will wait for a `go` command."%bs]).
Definition DebuggerCommandAttach_help : bytes * bytes := Command_help "Attach the debugger to the currently running process."%bs [].
Definition DebuggerCommandDetach_help : bytes * bytes := Command_help "Detach the debugger from the currently running process."%bs [].
Definition DebuggerCommandRestart_help : bytes * bytes := Command_help "Restart the currently running process and breaks at the entrypoint."%bs [].
Definition DebuggerCommandSetActiveThread_help : bytes * bytes := Command_help "Set active debugger thread."%bs
  (lines [
    "<thread_id>"%bs;
    "Set the current thread context for the debugger to `thread_id`."%bs]).
Definition DebuggerCommandStepInstruction_help : bytes * bytes := Command_help "Step one instruction in the current thread."%bs [].
Definition DebuggerCommandStepFunction_help : bytes * bytes := Command_help "Step one C function call in the current thread."%bs [].
Definition DebuggerCommandGetThreads_help : bytes * bytes := Command_help "Print basic information about all threads."%bs
  (lines [
    "[<context|ctx|c> [getcontext_args]]"%bs;
    [];
    "Prints basic thread information, optionally calling getcontext on each thread."%bs]).
Definition DebuggerCommandWhichThread_help : bytes * bytes := Command_help "Attempt to determine which thread owns a given stack."%bs
  (lines [
    "<stack_address>"%bs;
    [];
    "Attempts to find which thread owns a stack address. Typically this would be used along with a separate "%bs
      ++ "gdb connection by looking up $ebp or $esp and passing the value to this command."%bs]).
Definition DebuggerCommandGetThreadInfo_help : bytes * bytes := Command_help "Print detailed information about the active thread."%bs [].
Definition DebuggerCommandGetThreadInfoAndContext_help : bytes * bytes := Command_help ("Print detailed information about the active thread including current register values.

See help "%bs
      ++ "getcontext for arguments."%bs) [].
Definition DebuggerCommandSetAutoInfo_help : bytes * bytes := Command_help ("Enable/disable automatic output of thread context on breakpoints.
[basic] [off]

Modifies automatic "%bs
      ++ "output at breakpoints.

[basic] (default) - Automatically run `getcontext` when breakpoints are "%bs
      ++ "hit.
[off] - Disable automatic info output."%bs) [].
Definition DebuggerCommandHaltAll_help : bytes * bytes := Command_help "Halt all threads."%bs [].
Definition DebuggerCommandHalt_help : bytes * bytes := Command_help "Halt the current debugger thread."%bs [].
Definition DebuggerCommandContinueAll_help : bytes * bytes := Command_help "Continue halted threads."%bs
  (lines [
    "['n'o_break_on_exceptions]"%bs;
    [];
    "Continue all halted threads in the debugger."%bs;
    [];
    "no_break_on_exceptions - if 'n', do not break on exceptions when continuing."%bs]).
Definition DebuggerCommandContinue_help : bytes * bytes := Command_help "Continue the current thread."%bs
  (lines [
    "['n'o_break_on_exceptions]"%bs;
    [];
    "Continue the debugger's current thread."%bs;
    [];
    "no_break_on_exceptions - if 'n', do not break on exceptions when continuing."%bs]).
Definition DebuggerCommandSuspend_help : bytes * bytes := Command_help "Suspend (or raises the suspend count on) the current thread."%bs [].
Definition DebuggerCommandResume_help : bytes * bytes := Command_help "Resume (or reduce the suspend count on) the current thread."%bs [].
Definition DebuggerCommandGetModules_help : bytes * bytes := Command_help "Print basic information about loaded modules."%bs [].
Definition DebuggerCommandGetSections_help : bytes * bytes := Command_help "Print basic information about loaded sections."%bs [].
Definition DebuggerCommandContinueAllAndGo_help : bytes * bytes := Command_help "Combines 'go' and /continueall."%bs
  (lines [
    "['n'o_break_on_exceptions]"%bs;
    [];
    "'go' and then continue all halted threads in the debugger."%bs;
    [];
    "no_break_on_exceptions - if 'n', do not break on exceptions when continuing."%bs]).
Definition DebuggerCommandDisassemble_help : bytes * bytes := Command_help "Disassemble memory."%bs
  (lines [
    "[address]"%bs;
    [];
    "Disassemble instructions starting at [address]."%bs;
    [];
    "If [address] is omitted, the EIP of the active thread is used."%bs]).
Definition DebuggerCommandGuessBackTrace_help : bytes * bytes := Command_help "Guess backtrace by scanning the stack."%bs
  (lines [
    "[thread_id]"%bs;
    [];
    "Scans the stack of the given thread (or active thread) for potential return addresses."%bs]).
Definition DebuggerCommandLookupNV2ADMADescriptor_help : bytes * bytes := Command_help "Look up a DMA descriptor by its offset in PRAMIN."%bs
  (lines [
    "<dma_descriptor_offset>"%bs;
    [];
    "Returns the DMA descriptor with the given offset (typically something like 0x11170)."%bs]).

(** ** dyndxt_commands.h *)

Definition DynDXTCommandLoadBootstrap_help : bytes * bytes := Command_help "Load the XBDM handler injector."%bs [].
Definition DynDXTCommandHello_help : bytes * bytes := Command_help "Verify that the XBDM handler injector is available."%bs [].
Definition DynDXTCommandInvokeSimple_help : bytes * bytes := Command_help "Invoke a debug command processor, expecting a single response."%bs
  (lines [
    "<processor>!<command> [args]"%bs;
    [];
    "Invokes an arbitrary debug command processor with the given arguments."%bs]).
Definition DynDXTCommandInvokeMultiline_help : bytes * bytes := Command_help "Invoke a debug command processor, expecting a multiline response."%bs
  (lines [
    "<processor>!<command> [args]"%bs;
    [];
    "Invoke an arbitrary debug command processor with the given arguments, expecting a multiline response."%bs]).
Definition DynDXTCommandInvokeSendBinary_help : bytes * bytes := Command_help "Send a binary to a debug command processor."%bs
  (lines [
    "<processor>!<command> <binary_path> [args]"%bs;
    [];
    "Invoke an arbitrary debug command processor with the given arguments, sending the contents of "%bs
      ++ "`binary_path` as a binary attachment."%bs]).
Definition DynDXTCommandInvokeReceiveSizePrefixedBinary_help : bytes * bytes := Command_help "Receive a size-prefixed binary from a debug command processor."%bs
  (lines [
    "<processor>!<command> <save_path> [args]"%bs;
    [];
    "Invoke an arbitrary debug command processor with the given arguments, expecting a binary response which "%bs
      ++ "is prefixed with a 4-byte length, which will be saved into a file at the given path."%bs]).
Definition DynDXTCommandInvokeReceiveKnownSizedBinary_help : bytes * bytes := Command_help "Receive a binary with the provided size from a debug command processor."%bs
  (lines [
    "<processor>!<command> <save_path> <size_in_bytes> [args]"%bs;
    [];
    "Invoke an arbitrary debug command processor with the given arguments, expecting a binary response that "%bs
      ++ "is `size_in_bytes` bytes in length, which will be saved into a file at the given path."%bs]).
Definition DynDXTCommandLoad_help : bytes * bytes := Command_help "Load a DynamicDXT library onto the remote host."%bs
  (lines [
    "<dll_path>"%bs;
    [];
    "Load the given DXT DLL."%bs]).

(** ** tracer_commands.h *)

Definition TracerCommandInit_help : bytes * bytes := Command_help "Load the ntrc nv2a tracer DynamicDXT."%bs
  (lines [
    "[<config> <value>] ..."%bs;
    [];
    "Initializes the NTRC tracer on the remote."%bs;
    [];
    "Configuration options:"%bs;
    "  tex <on|off> - Enables or disables capture of raw textures. Default: on."%bs;
    "  depth <on|off> - Enables or disables capture of the depth buffer. Default: off."%bs;
    "  color <on|off> - Enables or disables capture of the color buffer (framebuffer). Default: on."%bs;
    "  rdi <on|off> - Enables or disables capture of RDI regions (vertex shader program, constants). This "%bs
      ++ "may have a significant performance impact. Default: off."%bs;
    "  pgraph <on|off> - Enables or disables capture of the raw PGRAPH region. Default: off."%bs;
    "  pfb <on|off> - Enables or disables capture of the raw PFB region. Default: off."%bs]).
Definition TracerCommandDetach_help : bytes * bytes := Command_help "Detaches from the ntrc nv2a tracer DynamicDXT."%bs [].
Definition TracerCommandBreakOnNextFlip_help : bytes * bytes := Command_help "Asks the tracer to break at the start of a frame."%bs
  (lines [
    "[require_flip]"%bs;
    [];
    "Asks the tracer to break at the start of a frame."%bs;
    [];
    "[require_flip] - Forces discard until the next frame, even if the tracer is already at the start of a "%bs
      ++ "frame."%bs]).
Definition TracerCommandTraceFrames_help : bytes * bytes := Command_help "Retrieves hardware interaction trace for one or more frames."%bs
  (lines [
    "[<config> <value>] ..."%bs;
    [];
    "Retrieves PGRAPH and graphics tracing from the XBOX."%bs;
    [];
    "Configuration options:"%bs;
    "  path <path> - Local directory into which trace artifacts should be saved. Each frame will create a "%bs
      ++ "separate subdir of the form 'frame_X'. Default: <current working dir>."%bs;
    "  frames <int> - Number of consecutive frames to capture. Default: 1."%bs;
    "  nodiscard - Starts capture immediately without seeking the start of a new frame."%bs;
    "  verbose - Emits more verbose information into the capture log."%bs]).

(** ** macro_commands.h *)

Definition MacroCommandSyncFile_help : bytes * bytes := Command_help "Upload a new XBE file to the target if needed."%bs
  (lines [
    "<local_path> <remote_path>"%bs;
    [];
    "Checks the file modification time of `remote_path` and uploads `local_path` if it is newer."%bs;
    []]).
Definition MacroCommandSyncDirectory_help : bytes * bytes := Command_help "Upload new files to the target if needed."%bs
  (lines [
    "<local_directory> <remote_directory> [-d]"%bs;
    [];
    "Checks the file modification time of each file in `remote_directory` and uploads the same file"%bs;
    " from `local_directory` if it is newer."%bs;
    "Files that only exist in `remote_directory` will be left alone unless the `-d` flag is given."%bs;
    []]).

(** ** gdb/gdb_commands.h *)

Definition ShellCommandGDB_help : bytes * bytes := Command_help "Start GDB <-> XBDM service."%bs
  (lines [
    "[IP]:port [xbe_launch_path]"%bs;
    [];
    "Start a GDB server, allowing GDB to communicate with the XBDM target."%bs;
    [];
    "[IP]:port - The IP and port at which GDB can connect."%bs;
    "              The IP is optional, where the default behavior is bind to all local interfaces."%bs;
    "[xbe_launch_path] - An XBOX path to an XBE (or directory containing a default.xbe) that should be "%bs
      ++ "launched when a GDB debugger first connects."%bs]).
