(* ===== verification/ShellCommands.v ===== *)
(** * The commands that send requests (src/shell/commands.h, commands.cpp)

    Each command reads its arguments, sends a request and prints what it brought,
    or the message of a request that failed.  What copying, deleting and uploading
    of files and directories ([FileUtil]) print on their way is left out, and so is
    the drawing of a screenshot, for which the program has a library. *)

From S2P Require Import Prelude CLib Boost Parsing RdcpResponse RdcpMaps RdcpTypes RdcpRequest StopReasons Requests Notifications.
From S2P Require Import Target FileUtil DebuggerMemory Debugger Output Session ShellHelp.

(** What the commands use of [std::filesystem]: the type of what a path names, the
    text of the error of [create_directory], the working directory. *)
Class LocalPaths (E : Type) := {
  local_type : bytes → E → option FileType;
  create_directory : bytes → E → option bytes * E;
  current_path : E → bytes
}.

(** ** Breakpoints *)

Section Commands.
Context `{!Boost} {C E : Type} `{!Target C E, !Listeners C E, !LocalDisk E, !LocalPaths E}.
Context (fuel : nat).
Abbreviation R := (M (Session * E)).

Definition usage (help : bytes * bytes) : R unit := PrintUsage help.2.
Definition missing (argument : bytes) (help : bytes * bytes) : R unit :=
  print [Str ("Missing required "%bs ++ argument ++ " argument."%bs); Endl] ;; usage help.

(** The lambda [UpdateCondition]. *)
Definition UpdateCondition (conditional_args : ArgParser) (has_conditional : bool) (mode : BreakpointType)
    (address : Z) (clear : bool) : R unit :=
  there ← has_debugger;
  if negb there then
    if negb clear && has_conditional
    then print [Str "Warning: Debugger not attached, condition not registered."%bs; Endl] else mret tt
  else if clear then on_debugger (update (RemoveBreakpointCondition mode address))
  else if has_conditional then on_debugger (update (SetBreakpointCondition mode address (Flatten conditional_args)))
  else mret tt.

(** One of the modes with an address, and a size where it has one. *)
Definition break_at (parser : ArgParser) (condition : BreakpointType → Z → R unit) (mode : BreakpointType)
    (default_size : Z) (request : Z → Z → RDCPRequest) : R unit :=
  with_int false parser 0 (missing "Address"%bs CommandBreak_help) (λ address,
    let '(_, size) := Parse_int true parser 1 default_size in
    condition mode address ;;
    SendAndPrintMessage plain_class (request address size) tt).

Definition CommandBreak (initial_args : ArgParser) : R unit :=
  let '(has_conditional, args, conditional_args) := SplitAt "if"%bs false initial_args in
  maybe_parser ← lift_option (ExtractSubcommand 1 args);
  match maybe_parser with
  | None => usage CommandBreak_help
  | Some parser =>
    if negb (HasCommand parser) then usage CommandBreak_help
    else if IsCommand ["start"%bs] parser then
      if has_conditional then
        print [Str "Conditional statements may not be provided for `start` breakpoints."%bs] ;; usage CommandBreak_help
      else SendAndPrintMessage plain_class Requests.BreakAtStart tt
    else if IsCommand ["clearall"%bs] parser then
      if has_conditional then
        print [Str "Conditional statements may not be provided for `clearall`"%bs] ;; usage CommandBreak_help
      else SendAndPrintMessage plain_class BreakClearAll tt
    else
      let '(clear, parser) := ShiftPrefixModifier "-" parser in
      let condition mode address := UpdateCondition conditional_args has_conditional mode address clear in
      if IsCommand ["a"%bs; "addr"%bs; "Address"%bs] parser then
        break_at parser condition BREAKPOINT 0 (λ address _, BreakAddress address clear)
      else if IsCommand ["r"%bs; "read"%bs] parser then
        break_at parser condition READ_WATCH 4 (λ address size, BreakOnRead address size clear)
      else if IsCommand ["w"%bs; "write"%bs] parser then
        break_at parser condition WRITE_WATCH 4 (λ address size, BreakOnWrite address size clear)
      else if IsCommand ["e"%bs; "exec"%bs; "execute"%bs] parser then
        break_at parser condition EXECUTE_WATCH 1 (λ address size, BreakOnExecute address size clear)
      else
        first ← lift_option (head (arguments args));
        print [Str "Invalid mode "%bs; Str (value first); Endl] ;; usage CommandBreak_help
  end.

(** ** Simple requests *)

Definition CommandBye (args : ArgParser) : R unit := SendAndPrintMessage plain_class Bye tt.

Definition CommandContinue (args : ArgParser) : R unit :=
  with_int true args 0 (missing "thread_id"%bs CommandContinue_help) (λ thread_id,
    let '(_, exception) := Parse_bool args 1 false in
    SendAndPrintMessage Continue_class (Continue thread_id exception) tt).

Definition CommandDebugOptions (args : ArgParser) : R unit :=
  match arguments args with
  | [] => SendAndPrintMessage GetDebugOptions_class GetDebugOptions (MkDebugOptions false false)
  | _ =>
    SendAndPrintMessage plain_class
      (SetDebugOptions (ArgExists ["c"%bs; "crashdump"%bs] args) (ArgExists ["d"%bs; "dpctrace"%bs] args)) tt
  end.

Definition CommandDebugger (args : ArgParser) : R unit :=
  let disable := ArgExists ["d"%bs; "disable"%bs; "off"%bs] args in
  SendAndPrintMessage Debugger_class (Requests.Debugger disable) None.

Definition CommandDedicate (args : ArgParser) : R unit :=
  SendAndPrintMessage Dedicate_class (Dedicate ((λ a, c_str (value a)) <$> head (arguments args))) tt.

Definition CommandEnablePerfCounters (args : ArgParser) : R unit := SendAndPrintMessage plain_class (EnableGPUCounter true) tt.
Definition CommandDisablePerfCounters (args : ArgParser) : R unit := SendAndPrintMessage plain_class (EnableGPUCounter false) tt.

Definition CommandGo (args : ArgParser) : R unit := SendAndPrintMessage plain_class Requests.Go tt.
Definition CommandStop (args : ArgParser) : R unit := SendAndPrintMessage Stop_class Requests.Stop tt.

Definition CommandHalt (args : ArgParser) : R unit :=
  with_int true args 0 (SendAndPrintMessage plain_class Halt_all tt)
    (λ thread_id, SendAndPrintMessage plain_class (Requests.Halt thread_id) tt).

Definition CommandResume (args : ArgParser) : R unit :=
  with_int true args 0 (missing "thread_id"%bs CommandResume_help)
    (λ thread_id, SendAndPrintMessage plain_class (Requests.Resume thread_id) tt).

Definition CommandSuspend (args : ArgParser) : R unit :=
  with_int true args 0 (missing "thread_id"%bs CommandSuspend_help)
    (λ thread_id, SendAndPrintMessage plain_class (Requests.Suspend thread_id) tt).

(** Flags that arguments add, in the order of the code. *)
Definition flags_of (args : ArgParser) (names : list (list bytes * Z)) : Z :=
  foldl (λ flags entry, if ArgExists entry.1 args then Z.lor flags entry.2 else flags) 0 names.

Definition stop_events : list (list bytes * Z) :=
  [(["fce"%bs; "exception"%bs], kFirstChanceException); (["debugstr"%bs], kDebugStr);
   (["createthread"%bs], kCreateThread); (["stacktrace"%bs], kStacktrace)].
Definition chosen_events (args : ArgParser) : Z :=
  let flags := flags_of args stop_events in if flags =? 0 then kAll else flags.

Definition CommandNoStopOn (args : ArgParser) : R unit := SendAndPrintMessage plain_class (NoStopOn (chosen_events args)) tt.
Definition CommandStopOn (args : ArgParser) : R unit := SendAndPrintMessage plain_class (StopOn (chosen_events args)) tt.

Definition CommandReboot (args : ArgParser) : R unit :=
  SendAndPrintMessage plain_class
    (Reboot (flags_of args [(["wait"%bs], kWait); (["warm"%bs], kWarm); (["nodebug"%bs], kNoDebug); (["stop"%bs], kStop)])) tt.

Definition CommandMagicBoot (args : ArgParser) : R unit :=
  with_string args 0 (missing "path"%bs CommandMagicBoot_help) (λ path,
    SendAndPrintMessage plain_class
      (MagicBoot (EnsureXFATStylePath path) (negb (ArgExists ["nodebug"%bs] args)) (ArgExists ["cold"%bs] args)) tt).

Definition CommandNotifyAt (args : ArgParser) : R unit :=
  with_int false args 0 (missing "Port"%bs CommandNotifyAt_help) (λ port,
    if (port <? 1024) || (65535 <? port) then
      print [Str "Invalid Port argument, must be between 1024 and 65535."%bs; Endl]
    else
      started ← on_console (λ e, Some (StartNotificationListener e));
      if negb started then print [Str "Failed to start notification listener on Port "%bs; UInt port; Endl]
      else
        let drop_flag := ArgExists ["drop"%bs] args in
        let debug_flag := ArgExists ["debug"%bs] args in
        SendAndPrintMessage plain_class (NotifyAt port drop_flag debug_flag) tt ;;
        if drop_flag then DetachDebugNotificationHandler else AttachDebugNotificationHandler).

(** ** Requests that bring values *)

Definition CommandAltAddr (args : ArgParser) : R unit :=
  done ← SendCommandSync AltAddr_class AltAddr None (MkAltAddr 0 []);
  if IsOK AltAddr_class (RdcpRequest.status done)
  then print [Str "Alternate IP Address: "%bs; Str (address_string (members done)); Endl] else mret tt.

Definition CommandDebugMonitorVersion (args : ArgParser) : R unit :=
  send_and_show DebugMonitorVersion_class DebugMonitorVersion [] (λ version, print [Str version; Endl]).

Definition CommandDriveFreeSpace (args : ArgParser) : R unit :=
  with_string args 0 (missing "drive_letter"%bs CommandDriveFreeSpace_help) (λ drive_letter,
    send_and_show DriveFreeSpace_class (DriveFreeSpace drive_letter) (MkFreeSpace 0 0 0) (λ space,
      print [Str "total: "%bs; Int64 (total_bytes space); Str " total free: "%bs; Int64 (free_bytes space);
             Str " free to caller: "%bs; Int64 (free_to_caller space); Endl])).

Definition CommandDriveList (args : ArgParser) : R unit :=
  send_and_show DriveList_class DriveList [] (λ drives, print (concat (map (λ letter, [Str letter; Endl]) drives))).

(** Eight digits in base 16, and back to base 10. *)
Definition hex_word (x : item) : list item := [Hex; SetFill "0"; SetW 8; x; Dec].

Definition CommandGetChecksum (args : ArgParser) : R unit :=
  with_int true args 0 (missing "Address"%bs CommandGetChecksum_help) (λ address,
  with_int true args 1 (missing "length"%bs CommandGetChecksum_help) (λ length,
  with_int true args 2 (missing "block_size"%bs CommandGetChecksum_help) (λ block_size,
    if negb (Z.land address 7 =? 0) then print [Str "Address must be evenly divisible by 8."%bs; Endl]
    else if negb (Z.land length 7 =? 0) then print [Str "length must be evenly divisible by 8."%bs; Endl]
    else if negb (Z.land block_size 7 =? 0) then print [Str "block_size must be evenly divisible by 8."%bs; Endl]
    else
      '(request, size) ← lift_option (GetChecksum (u32 address) (u32 length) (u32 block_size));
      send_and_show (GetChecksum_class size) request [] (λ checksums,
        print (concat (map (λ checksum, hex_word (UInt checksum) ++ [Endl]) checksums)))))).

Definition CommandGetContext (args : ArgParser) : R unit :=
  with_int true args 0 (missing "thread_id"%bs CommandGetContext_help) (λ thread_id,
    let all := (length (arguments args) <=? 1)%nat in
    request ← lift_option (GetContext thread_id (all || ArgExists ["control"%bs; "c"%bs] args)
                             (all || ArgExists ["integer"%bs; "int"%bs; "i"%bs] args)
                             (all || ArgExists ["float"%bs; "fp"%bs; "f"%bs] args));
    send_and_show GetContext_class request Reset (λ context, print (show_context context ++ [Endl]))).

Definition CommandGetExtContext (args : ArgParser) : R unit :=
  with_int true args 0 (missing "thread_id"%bs CommandGetExtContext_help) (λ thread_id,
    send_and_show GetExtContext_class (GetExtContext thread_id) float_init (λ context,
      print (show_float_context context ++ [Endl]))).

Definition CommandGetProcessID (args : ArgParser) : R unit :=
  send_and_show GetProcessID_class GetProcessID 0 (λ process_id, print (hex_word (Int process_id) ++ [Endl])).

Definition CommandGetUtilityDriveInfo (args : ArgParser) : R unit :=
  send_and_show GetUtilityDriveInfo_class GetUtilityDriveInfo ∅ (λ partitions,
    print (concat (map (λ name, [Str name; Str ": 0x"%bs] ++ hex_word (UInt (default 0 (partitions !! name))) ++ [Endl])
                       (in_order (dom partitions))))).

(** Other values of the type print nothing. *)
Definition break_type_text (type : Z) : list item :=
  if type =? 0 then [Str "No breakpoint"%bs; Endl]
  else if type =? 1 then [Str "Write"%bs; Endl]
  else if type =? 2 then [Str "Read/Write"%bs; Endl]
  else if type =? 3 then [Str "Execute"%bs; Endl]
  else if type =? 4 then [Str "Previously set breakpoint"%bs; Endl]
  else [].

Definition CommandIsBreak (args : ArgParser) : R unit :=
  with_int true args 0 (missing "Address"%bs CommandIsBreak_help) (λ address,
    send_and_show IsBreak_class (IsBreak address) 0 (λ type, print (break_type_text type))).

Definition CommandIsDebugger (args : ArgParser) : R unit :=
  send_and_show IsDebugger_class IsDebugger false (λ attached, print [Bool attached; Endl]).

(** A thread that stopped for a reason that is not known has none to print. *)
Definition CommandIsStopped (args : ArgParser) : R unit :=
  with_int true args 0 (missing "thread_id"%bs CommandIsStopped_help) (λ thread_id,
    send_and_show IsStopped_class (IsStopped thread_id) (MkStopped false None) (λ state,
      if negb (Requests.stopped state) then print [Str "Not stopped."%bs; Endl]
      else
        reason ← lift_option (stop_reason state);
        print (show_stop_reason reason ++ [Endl]))).

Definition CommandListPerfCounters (args : ArgParser) : R unit :=
  send_and_show PerformanceCounterList_class PerformanceCounterList [] (λ counters,
    print (concat (map (λ counter, [LeftAdjust; SetW 32; Str (counter_name counter); Str " 0x"%bs; Hex;
                                    Int (counter_type counter); Dec; Endl]) counters))).

Definition show_statistics (m : MemoryStatistics) : list item :=
  [SetFill "0"; Hex; SetW 8; Str "MmHighestPhysicalPage: 0x"%bs; UInt (mm_highest_physical_page m);
   Str " RetailPfnRegion: 0x"%bs; UInt (retail_pfn_region m); Str " SystemPteRange: 0x"%bs; UInt (system_pte_range m);
   Str " AvailablePages: "%bs; Dec; UInt (available_pages m);
   Str " AllocatedPagesByUsage: "%bs; UInt (allocated_pages_by_usage m);
   Str " PfnDatabase: 0x"%bs; Hex; UInt (pfn_database m);
   Str " AddressSpaceLock: "%bs; Dec; UInt (address_space_lock m);
   Str " VadRoot: 0x"%bs; Hex; UInt (vad_root m); Str " VadHint: 0x"%bs; UInt (vad_hint m);
   Str " VadFreeHint: 0x"%bs; UInt (vad_free_hint m);
   Str " MmNumberOfPhysicalPages: "%bs; Dec; UInt (mm_number_of_physical_pages m);
   Str " MmAvailablePages: "%bs; UInt (mm_available_pages m); Endl].

Definition CommandMemoryMap (args : ArgParser) : R unit :=
  send_and_show MemoryMapGlobal_class MemoryMapGlobal (MkStatistics 0 0 0 0 0 0 0 0 0 0 0 0) (λ m, print (show_statistics m)).

Definition CommandModuleSections (args : ArgParser) : R unit :=
  with_string args 0 (missing "name"%bs CommandModuleSections_help) (λ name,
    send_and_show ModSections_class (ModSections name) [] (λ sections,
      print (concat (map (λ m, show_section_info m ++ [Endl]) sections)))).

Definition CommandModuleLongName (args : ArgParser) : R unit :=
  with_string args 0 (missing "name"%bs CommandModuleLongName_help) (λ name,
    send_and_show ModLongName_class (ModLongName name) [] (λ path, print [Str path; Endl])).

Definition CommandModules (args : ArgParser) : R unit :=
  send_and_show Modules_class Requests.Modules [] (λ modules, print (concat (map (λ m, show_module m ++ [Endl]) modules))).

Definition CommandQueryPerfCounters (args : ArgParser) : R unit :=
  with_string args 0 (missing "name"%bs CommandQueryPerfCounters_help) (λ name,
    '(t, type) ← parse_expr true args 1 0;
    let request := if ArgType_bool t then QueryPerformanceCounter_type name (u32 type) else QueryPerformanceCounter name in
    send_and_show QueryPerformanceCounter_class request [] (λ maps,
      print (concat (map (λ m, show_map m ++ [Endl]) maps)))).

Definition CommandThreadInfo (args : ArgParser) : R unit :=
  with_int true args 0 (missing "thread_id"%bs CommandThreadInfo_help) (λ thread_id,
    send_and_show ThreadInfo_class (ThreadInfo thread_id) (MkThreadInfo 0 0 0 0 0 0 0) (λ i,
      print [Str "Suspend count: "%bs; Int (suspend_count i); Endl; Str "Priority: "%bs; Int (priority i); Endl;
             Str "Thread local storage addr: 0x"%bs; Hex; SetW 8; SetFill "0"; UInt (tls_base i); Endl;
             Str "Start addr: 0x"%bs; Hex; SetW 8; SetFill "0"; UInt (thread_start i); Endl;
             Str "Base addr: 0x"%bs; Hex; SetW 8; SetFill "0"; UInt (thread_base i); Endl;
             Str "limit: "%bs; UInt (thread_limit i); Dec; Endl])).

Definition CommandThreads (args : ArgParser) : R unit :=
  send_and_show Threads_class Threads [] (λ threads, print (concat (map (λ tid, [Int tid; Endl]) threads))).

Definition show_region (r : MemoryRegion) : list item :=
  [Str "Base Address: 0x"%bs; Hex; SetW 8; SetFill "0"; UInt (start r); Dec; Str " size: "%bs; UInt (RdcpTypes.size r);
   Str " protection: 0x"%bs; Hex; UInt (protect r)]
  ++ concat (map (λ flag, [Str " "%bs; Str flag]) (in_order (RdcpTypes.flags r))) ++ [Dec; Endl].

Definition CommandWalkMem (args : ArgParser) : R unit :=
  send_and_show WalkMem_class WalkMem [] (λ regions, print (concat (map show_region regions))).

Definition CommandXBEInfo (args : ArgParser) : R unit :=
  let request :=
    let '(t, path) := Parse_string args 0 [] in
    if ArgType_bool t then XBEInfo (EnsureXFATStylePath path) (ArgExists ["disk_only"%bs; "true"%bs] args) else XBEInfo_running in
  send_and_show XBEInfo_class request (MkXBEInfo [] 0 0) (λ i,
    print ([Str "Name: "%bs; Str (xbe_name i); Str " checksum "%bs] ++ hex_word (UInt (xbe_checksum i)) ++ [Endl])).

Definition CommandXTLInfo (args : ArgParser) : R unit :=
  send_and_show XTLInfo_class XTLInfo 0 (λ last_err, print (Str "Last error: "%bs :: hex_word (Int last_err) ++ [Endl])).
End Commands.
