(* ===== verification/ShellFiles.v ===== *)
(** * The commands on files and memory (src/shell/commands.cpp, macro_commands.cpp)

    Listing, copying, deleting and uploading files of the console; showing, saving
    and writing its memory; screenshots. *)

From S2P Require Import Prelude CLib Boost Parsing RdcpResponse RdcpTypes RdcpRequest Requests Notifications.
From S2P Require Import Target FileUtil DebuggerMemory Debugger Output Session ShellHelp ShellCommands.

Definition colon : byte := ":"%byte.

(** [std::list::sort] by the names in lower case: stable. *)
Section Sorting.
Context `{!Boost}.

Definition name_before (a b : Entry) : bool := string_ltb (to_lower_copy (entry_name a)) (to_lower_copy (entry_name b)).

Fixpoint insert_entry (x : Entry) (l : list Entry) : list Entry :=
  match l with
  | [] => [x]
  | y :: l' => if name_before y x then y :: insert_entry x l' else x :: l
  end.

Definition sort_entries (l : list Entry) : list Entry := foldr insert_entry [] l.
End Sorting.

(** The memory in elements of so many bytes, the last of which may be shorter. *)
Fixpoint memory_items (fuel : nat) (bytes_per_element count : nat) (data : bytes) : list item :=
  match fuel, data with
  | _, [] => []
  | O, _ => []
  | S fuel, _ =>
    let element := take bytes_per_element data in
    [SetW (length element * 2); UInt (le_int element); Str " "%bs]
    ++ (if negb (count =? 0)%nat && (count mod (32 / bytes_per_element) =? 0)%nat then [Endl] else [])
    ++ memory_items fuel bytes_per_element (S count) (drop bytes_per_element data)
  end.

Definition render_memory (bytes_per_element : nat) (data : bytes) : list item :=
  [Hex; SetFill "0"] ++ memory_items (length data) bytes_per_element 0 data ++ [Dec; Endl].

(** ** Formats of screenshots *)

(** The members that are looked at; the other formats of SDL do not occur. *)
Inductive SDL_PixelFormat := ABGR8888 | RGBA8888 | ARGB8888 | RGB888 | BGRA8888 | RGB565 | ARGB1555 | ARGB4444.

Record TextureFormatInfo := MkFormatInfo { sdl_format : SDL_PixelFormat; xbox_format : Z; xbox_bpp : Z }.

Definition kTextureFormats : list TextureFormatInfo :=
  [MkFormatInfo ABGR8888 0x3F 32; MkFormatInfo RGBA8888 0x41 32; MkFormatInfo ARGB8888 0x12 32;
   MkFormatInfo RGB888 0x1E 32; MkFormatInfo BGRA8888 0x40 32; MkFormatInfo RGB565 0x11 16;
   MkFormatInfo ARGB1555 0x10 16; MkFormatInfo ARGB1555 0x1C 16; MkFormatInfo ARGB4444 0x1D 16].

(** [None] is the format that is not valid. *)
Definition GetTextureFormatInfo (nv_texture_format : Z) : option TextureFormatInfo :=
  List.find (λ info, xbox_format info =? nv_texture_format) kTextureFormats.

(** What a screenshot needs: the local time as text, and of SDL a surface of a size
    and format, as the number of its bytes, locking it, and saving its pixels. *)
Class Screen (E : Type) := {
  local_time : E → bytes;
  SDL_CreateRGBSurfaceWithFormat : Z → Z → Z → SDL_PixelFormat → E → option Z;
  SDL_LockSurface : E → bool;   (* whether it fails *)
  IMG_SavePNG : bytes → bytes → E → bool * E   (* whether it fails *)
}.

(** ** The commands *)

Section Commands.
Context `{!Boost} {C E : Type} `{!Target C E, !Listeners C E, !LocalDisk E, !LocalPaths E, !Screen E}.
Context (fuel : nat).
Abbreviation R := (M (Session * E)).

(** As [FileUtil.CheckRemotePath] and [FileUtil.FetchDirectoryEntries], with the
    message of a request that failed. *)
Definition CheckRemotePath (path : bytes) : R (option RemoteAttributes) :=
  done ← SendCommandSync GetFileAttributes_class (GetFileAttributes path) None (MkAttributes None 0 0 0 ∅);
  if negb (IsOK GetFileAttributes_class (RdcpRequest.status done)) then print (show_request done ++ [Endl]) ;; mret None
  else
    let a := members done in
    found ← lift_option (file_exists a);
    mret (Some (MkRemote found (bool_decide ("directory"%bs ∈ attr_flags a)) (u64 (attr_filesize a))
                  (attr_create_timestamp a) (attr_change_timestamp a))).

Definition FetchDirectoryEntries (path : bytes) : R (option (list Entry * list Entry)) :=
  done ← SendCommandSync DirList_class (DirList (EnsureXFATStylePath path)) None [];
  if negb (IsOK DirList_class (RdcpRequest.status done)) then print (show_request done ++ [Endl]) ;; mret None
  else mret (Some (List.filter is_directory (members done), List.filter (λ e, negb (is_directory e)) (members done))).

(** A path in the style of the console. *)
Definition with_path (args : ArgParser) (help : bytes * bytes) (k : bytes → R unit) : R unit :=
  with_string args 0 (missing "path"%bs help) (λ path, k (EnsureXFATStylePath path)).

Definition CommandDelete (args : ArgParser) : R unit :=
  with_path args CommandDelete_help (λ path,
    let recursive := ArgExists ["-r"%bs] args in
    remote ← (if recursive then CheckRemotePath path else mret None);
    if (match remote with Some a => is_dir a | None => false end : bool) then
      deleted ← on_console (DeleteRecursively fuel path); mret tt
    else SendAndPrintMessage plain_class (Delete path recursive) tt).

Definition CommandDirList (args : ArgParser) : R unit :=
  with_path args CommandDirList_help (λ path,
    c ← lift_option (last path);
    let path := if decide (c = colon) then path ++ [backslash] else path in
    listing ← FetchDirectoryEntries path;
    match listing with
    | None => mret tt
    | Some (directories, files) =>
      print (concat (map (λ entry, [Str "           "%bs; Str (entry_name entry); Str [backslash]; Endl]) (sort_entries directories))
             ++ concat (map (λ entry, [SetW 10; Int64 (filesize entry); Str " "%bs; Str (entry_name entry); Endl])
                            (sort_entries files)))
    end).

Definition make_directories (path : bytes) : R unit := on_console (modify (create_directories path)).

Definition CommandGetFile (args : ArgParser) : R unit :=
  with_path args CommandGetFile_help (λ path,
    remote ← CheckRemotePath path;
    match remote with
    | None => mret tt
    | Some a =>
      if negb (exists_ a) then print [Str "No such file."%bs; Endl]
      else
        let '(t, given) := Parse_string args 1 [] in
        let local_path := if ArgType_bool t then given else filename (replace_byte backslash slash path) in
        if is_dir a then
          print [Str "Recursively fetching files from "%bs; Str path; Endl] ;;
          make_directories local_path ;;
          saved ← on_console (SaveDirectory fuel path local_path); mret tt
        else
          (if decide (parent_path local_path = []) then mret tt else make_directories (parent_path local_path)) ;;
          saved ← on_console (SaveFile path local_path);
          if saved : bool then print [Str path; Str " -> "%bs; PathText local_path; Endl] else mret tt
    end).

Definition CommandGetFileAttributes (args : ArgParser) : R unit :=
  with_path args CommandGetFileAttributes_help (λ path,
    send_and_show GetFileAttributes_class (GetFileAttributes path) (MkAttributes None 0 0 0 ∅) (λ a,
      print ([Str "Size: "%bs; Int64 (attr_filesize a); Str " "%bs]
             ++ concat (map (λ f, [Str f; Str " "%bs]) (in_order (attr_flags a))) ++ [Endl]))).

Definition CommandMakeDirectory (args : ArgParser) : R unit :=
  with_path args CommandMakeDirectory_help (λ path, SendAndPrintMessage plain_class (Mkdir path) tt).

Definition CommandRename (args : ArgParser) : R unit :=
  with_path args CommandRename_help (λ path,
  with_string args 1 (missing "new_path"%bs CommandRename_help) (λ new_path,
    SendAndPrintMessage plain_class (Rename path (EnsureXFATStylePath new_path)) tt)).

Definition CommandPutFile (args : ArgParser) : R unit :=
  with_string args 0 (missing "local_path"%bs CommandPutFile_help) (λ local_path,
  with_string args 1 (missing "remote_path"%bs CommandPutFile_help) (λ remote_path,
    let remote_path := EnsureXFATStylePath remote_path in
    type ← on_console (gets (local_type local_path));
    let is_directory := match type with Some DIRECTORY => true | _ => false end in
    match type with
    | Some DIRECTORY | Some REGULAR =>
      let overwrite_action :=
        if ArgExists ["allow_overwrite"%bs; "overwrite"%bs; "-f"%bs] args then OVERWRITE
        else if is_directory then SKIP else ABORT in
      uploaded ← on_console (if is_directory then UploadDirectory fuel local_path remote_path overwrite_action true
                             else UploadFile local_path remote_path overwrite_action);
      mret tt
    | _ => print [Str "Invalid local_path, must be a regular file or a directory."%bs; Endl]
    end)).

(** ** Memory *)

(** An argument that is an expression. *)
Definition with_expression (args : ArgParser) (i : Z) (name : bytes) (help : bytes * bytes) (k : Z → R unit) : R unit :=
  '(t, v) ← parse_expr false args i 0;
  if ArgType_bool t then k v
  else if decide (val t = SYNTAX_ERROR) then print [Str "Syntax error "%bs; Str (Parsing.message t); Endl] ;; usage help
  else missing name help.

(** The bytes of an element, or the file, for the ways of rendering. *)
Definition render_mode (args : ArgParser) : option (nat + unit) :=
  let '(t, given) := Parse_string args 2 [] in
  let mode := if ArgType_bool t then given else "b"%bs in
  if decide (mode ∈ ["b"%bs; "byte"%bs]) then Some (inl 1%nat)
  else if decide (mode ∈ ["w"%bs; "word"%bs]) then Some (inl 2%nat)
  else if decide (mode ∈ ["d"%bs; "dword"%bs]) then Some (inl 4%nat)
  else if decide (mode ∈ ["bin"%bs; "binary"%bs]) then Some (inr tt)
  else None.

Definition save_memory (target_path data : bytes) : R unit :=
  error ← (if decide (parent_path target_path = []) then mret None
           else on_console (λ e, Some (create_directory (parent_path target_path) e)));
  match error with
  | Some ec => print [Str "Failed to create target directory "%bs; PathText target_path; Str " "%bs; Str ec; Endl]
  | None =>
    opened ← on_console (on_disk (write_local target_path data));
    if negb opened then print [Str "Failed to open "%bs; PathText target_path; Str " for writing"%bs; Endl]
    else print [Str "Wrote "%bs; UInt (Z.of_nat (length data)); Str " bytes to "%bs; PathText target_path; Endl]
  end.

Definition CommandGetMem (args : ArgParser) : R unit :=
  with_expression args 0 "address"%bs CommandGetMem_help (λ address,
  with_expression args 1 "size"%bs CommandGetMem_help (λ size,
    let fetch (show : bytes → R unit) :=
      send_and_show GetMemBinary_class (GetMemBinary address size) [] show in
    match render_mode args with
    | None => print [Str "Invalid render mode "%bs; Str (Parse_string args 2 []).2; Endl]
    | Some (inl bytes_per_element) => fetch (λ data, print (render_memory bytes_per_element data))
    | Some (inr _) =>
      with_string args 3 (print [Str "Missing output file for 'binary' rendering mode"%bs; Endl]) (λ output_file,
        fetch (λ data, match output_file with [] => print (render_memory 1 data) | _ => save_memory output_file data end))
    end)).

Definition CommandSetMem (args : ArgParser) : R unit :=
  with_expression args 0 "address"%bs CommandSetMem_help (λ address,
    match arguments args with
    | _ :: first :: others =>
      request ← lift_option (SetMem_hex address (concat (map value (first :: others))));
      SendAndPrintMessage plain_class request tt
    | _ => print [Str "Missing required data string."%bs; Endl] ;; usage CommandSetMem_help
    end).

(** ** Screenshots *)

(** [TextureFormatInfo::Convert]: the pixels of the surface; the copy reads as many
    bytes as the surface has. *)
Definition Convert (info : TextureFormatInfo) (pixels : bytes) (width height : Z) : R (option bytes) :=
  surface ← on_console (gets (SDL_CreateRGBSurfaceWithFormat (i32 width) (i32 height) (xbox_bpp info) (sdl_format info)));
  match surface with
  | None => print [Str "Failed to create source surface"%bs; Endl] ;; mret None
  | Some size =>
    locked ← on_console (gets SDL_LockSurface);
    if locked : bool then print [Str "Failed to lock source surface"%bs; Endl] ;; mret None
    else if Z.of_nat (length pixels) <? size then mfail
    else mret (Some (take (Z.to_nat size) pixels))
  end.

Definition CommandScreenshot (args : ArgParser) : R unit :=
  send_and_show Screenshot_class Screenshot (MkScreenshot 0 0 0 0 []) (λ s,
    now ← on_console (gets local_time);
    let target_file := "Screenshot_"%bs ++ now in
    if width s =? 0 then mfail
    else
      let bpp := pitch s / width s in
      match GetTextureFormatInfo (Requests.format s) with
      | None =>
        print [Raw ("Unsupported screenshot format 0x"%bs ++ fmt_X (Requests.format s) ++ " - saving as .raw w:"%bs
                    ++ fmt_d (i32 (width s)) ++ " h:"%bs ++ fmt_d (i32 (height s)) ++ " bytes_per_pixel:"%bs
                    ++ fmt_d (i32 bpp) ++ [newline])] ;;
        saved ← on_console (SaveRawFile target_file (width s) (height s) bpp (Requests.format s) (screenshot_data s)); mret tt
      | Some info =>
        surface ← Convert info (screenshot_data s) (width s) (height s);
        match surface with
        | None => print [Str "Conversion to PNG failed."%bs; Endl]
        | Some pixels =>
          let target_file := target_file ++ ".png"%bs in
          failed ← on_console (λ e, Some (IMG_SavePNG pixels target_file e));
          if failed : bool then print [Str "Failed to save PNG file "%bs; Str target_file; Endl] else mret tt
        end
      end).

(** ** Synchronising *)

Definition MacroCommandSyncFile (args : ArgParser) : R unit :=
  with_string args 0 (missing "local_path"%bs MacroCommandSyncFile_help) (λ local_path,
  with_string args 1 (missing "remote_path"%bs MacroCommandSyncFile_help) (λ remote_path,
    type ← on_console (gets (local_type local_path));
    match type with
    | Some REGULAR =>
      let remote_path := EnsureXFATStylePath remote_path in
      remote ← CheckRemotePath remote_path;
      let sync path := synced ← on_console (SyncFile local_path path); mret tt in
      match remote with
      | None => mret tt
      | Some a =>
        if is_dir a then
          c ← lift_option (last remote_path);
          let remote_path := (if decide (c = backslash) then remote_path else remote_path ++ [backslash]) ++ filename local_path in
          remote ← CheckRemotePath remote_path;
          match remote with None => mret tt | Some _ => sync remote_path end
        else sync remote_path
      end
    | _ => print [Str "Invalid local_path, must be a regular file."%bs; Endl]
    end)).

Definition MacroCommandSyncDirectory (args : ArgParser) : R unit :=
  with_string args 0 (missing "local_directory"%bs MacroCommandSyncDirectory_help) (λ local_path,
  with_string args 1 (missing "remote_directory"%bs MacroCommandSyncDirectory_help) (λ remote_path,
    type ← on_console (gets (local_type local_path));
    match type with
    | Some DIRECTORY =>
      let missing_action := if ArgExists ["allow_delete"%bs; "delete"%bs; "-d"%bs] args then DELETE else LEAVE in
      synced ← on_console (SyncDirectory fuel local_path (EnsureXFATStylePath remote_path) missing_action); mret tt
    | _ =>
      print [Str "Invalid local_directory '"%bs; Str local_path; Str "', must be a directory."%bs; Endl]
    end)).
End Commands.
