(* ===== verification/ShellDebugger.v ===== *)
(** * The commands of the debugger (src/shell/debugger_commands.h, debugger_commands.cpp)

    Running a title under the debugger, attaching and detaching, stepping, threads,
    modules and sections, disassembly, the guessed back trace, and the descriptors of
    the graphics hardware.  The disassembler is an interface. *)

From stdpp Require Import sorting.
From S2P Require Import Prelude CLib Boost Parsing RdcpTypes RdcpRequest Requests Notifications ExprParser Target FileUtil.
From S2P Require Import DebuggerMemory DebuggerThread DebuggerThreads Debugger DebuggerControl DebuggerBacktrace.
From S2P Require Import Output Session ShellHelp ShellCommands.

(** An instruction as it is listed. *)
Record Listed := MkListed { listed_address : Z; listed_bytes : bytes; mnemonic : bytes; op_str : bytes }.

(** [cs_open], and the instructions of some bytes from an address, at most so many. *)
Class Lister := {
  lister_opens : bool;
  list_instructions : bytes → Z → nat → list Listed
}.

Definition kMaxInstructionBytes : nat := 15.
Definition kDisassemblyOpCount : nat := 16.
Definition kVideoBase : Z := 0xFD000000.
Definition kPRAMINOffset : Z := 0x00700000.
Definition kPRAMINAddress : Z := kVideoBase + kPRAMINOffset.

(** ** What is printed *)

Definition show_instruction (i : Listed) : list item :=
  [Str "0x"%bs; Hex; UInt (listed_address i); Str ": "%bs]
  ++ concat (map (λ b, [SetW 2; SetFill "0"; Int (byte_val b); Str " "%bs]) (listed_bytes i))
  ++ replicate (kMaxInstructionBytes - length (listed_bytes i)) (Str "   "%bs)
  ++ [Str (mnemonic i); Str " "%bs; Str (op_str i); Dec; Endl].

(** [upper_bound(key)] less one: the last entry whose key is not greater. *)
Definition section_at_most (address : Z) (sections : gmap Z Section_) : option Section_ :=
  last (omap (λ k, if k <=? address then sections !! k else None) (ascending (dom sections))).

(** The ranges in the order of pairs; a range is at most [(x, 0)] when it begins
    before [x], or at [x] and ends at 0. *)
Definition range_le (a b : Z * Z) : Prop := a.1 < b.1 ∨ (a.1 = b.1 ∧ a.2 ≤ b.2).
#[global] Instance range_le_decision a b : Decision (range_le a b).
Proof. unfold range_le. apply _. Defined.
Definition ranges_in_order (ranges : gmap (Z * Z) Module_) : list (Z * Z) := merge_sort range_le (elements (dom ranges)).
Definition range_at_most (x : Z) (ranges : gmap (Z * Z) Module_) : option ((Z * Z) * Module_) :=
  last (omap (λ k, if decide (range_le k (x, 0)) then pair k <$> ranges !! k else None) (ranges_in_order ranges)).

Definition show_section_of (ranges : gmap (Z * Z) Module_) (entry : Z * Section_) : list item :=
  match range_at_most entry.1 ranges with
  | Some (range, module) => if entry.1 <? range.2 then [Str (module_name module); Str ": "%bs] else []
  | None => []
  end ++ show_section entry.2 ++ [Endl].

(** Where an address of a back trace is. *)
Definition frame_location (sections : gmap Z Section_) (ranges : gmap (Z * Z) Module_) (addr : Z) : bytes :=
  match section_at_most addr sections with
  | Some section =>
    if (section_base section <=? addr) && (addr <? u32 (section_base section + section_size section)) then
      match range_at_most (section_base section) ranges with
      | Some (range, module) =>
        if (range.1 <=? section_base section) && (section_base section <? range.2)
        then module_name module ++ "!"%bs ++ section_name section else section_name section
      | None => section_name section
      end
    else []
  | None => []
  end.

Definition show_frame (sections : gmap Z Section_) (ranges : gmap (Z * Z) Module_) (frame : BacktraceFrame) : list item :=
  let location := frame_location sections ranges (frame_address frame) in
  [Str "#"%bs] ++ replicate (Z.to_nat (chain_id frame)) (Str " "%bs)
  ++ [Str " "%bs; UInt (chain_id frame); Str "      "%bs; Str "0x"%bs; Hex; UInt (frame_address frame); Dec]
  ++ (if decide (location = []) then [] else [Str " in "%bs; Str location])
  ++ match call_target frame with
     | Some target =>
       Str " "%bs :: (if is_suspicious frame then [Str "? "%bs; Str "0x"%bs; Hex; UInt target; Str " ?"%bs; Dec]
                      else [Str "[ 0x"%bs; Hex; UInt target; Str " ]"%bs; Dec])
     | None => []
     end
  ++ (if is_indirect_call frame then [Str " [calc]"%bs] else []) ++ [Endl].

(** [GET_MASK(v, mask)] for the masks of a descriptor. *)
Definition kDMAClass : Z := 0x00000FFF.
Definition kDMATarget : Z := 0x00030000.
Definition kDMAAdjust : Z := 0xFFF00000.
Definition kDMAAddress : Z := 0xFFFFF000.

Record DMADescriptor := MkDMA { dma_class : Z; dma_target : Z; dma_address : Z; dma_limit : Z }.

Definition decode_dma (entry : bytes) : DMADescriptor :=
  let e i := le_int (take 4 (drop (4 * i) entry)) in
  MkDMA (Z.land (e 0%nat) kDMAClass) (Z.shiftr (Z.land (e 0%nat) kDMATarget) 16)
    (Z.lor (Z.land (e 2%nat) kDMAAddress) (Z.shiftr (Z.land (e 0%nat) kDMAAdjust) 20)) (e 1%nat).

Definition show_dma (entry_offset : Z) (d : DMADescriptor) : list item :=
  [Str "DMA entry 0x"%bs; Hex; UInt entry_offset; Endl;
   Str (tab :: "Class: 0x"%bs); Hex; UInt (dma_class d); Str " ("%bs; Dec; UInt (dma_class d); Str ")"%bs; Endl;
   Str (tab :: "Target: 0x"%bs); Hex; UInt (dma_target d); Str " ("%bs; Dec; UInt (dma_target d); Str ")"%bs; Endl;
   Str (tab :: "Address: 0x"%bs); Hex; UInt (dma_address d); Dec; Endl;
   Str (tab :: "Limit: 0x"%bs); Hex; UInt (dma_limit d); Str " ("%bs; Dec; UInt (dma_limit d); Str ")"%bs; Endl].

Section Commands.
Context `{!Boost, !Disassembler, !Lister} {C E : Type} `{!Target C E, !Listeners C E}.
Abbreviation R := (M (Session * E)).

(** ** Running a title *)

(** [DebugXBE]: whether the path was given. *)
Definition debug_xbe (args : ArgParser) (wait_forever : bool) (launch_mode : LaunchMode) : R bool :=
  let '(t, path) := Parse_string args 0 [] in
  if negb (ArgType_bool t) then print [Str "Missing required path argument."%bs; Endl] ;; mret false
  else
    let '(_, command_line_args) := Parse_string args 1 [] in
    attached ← AttachDebugger;
    if negb attached then print [Str "Failed to attach debugger."%bs; Endl] ;; mret true
    else
      launched ← on_debugger (DebugXBE (EnsureXFATStylePath path) command_line_args wait_forever launch_mode);
      (if launched : bool then mret tt else print [Str "Failed to launch XBE"%bs; Endl]) ;;
      mret true.

Definition launch (help : bytes * bytes) (wait_forever : bool) (launch_mode : LaunchMode) (args : ArgParser) : R unit :=
  given ← debug_xbe args wait_forever launch_mode;
  if given : bool then mret tt else usage help.

Definition DebuggerCommandRun : ArgParser → R unit := launch DebuggerCommandRun_help false NORMAL.
Definition DebuggerCommandLaunch : ArgParser → R unit := launch DebuggerCommandLaunch_help false BREAK_AT_APPLICATION_START.
Definition DebuggerCommandLaunchWait : ArgParser → R unit :=
  launch DebuggerCommandLaunchWait_help true BREAK_AT_APPLICATION_START.
Definition DebuggerCommandLaunchBreakAtEntrypoint : ArgParser → R unit :=
  launch DebuggerCommandLaunchBreakAtEntrypoint_help true BREAK_AT_ENTRYPOINT.

Definition DebuggerCommandAttach (args : ArgParser) : R unit :=
  attached ← AttachDebugger;
  if attached : bool then mret tt else print [Str "Failed to attach debugger."%bs; Endl].

Definition DebuggerCommandDetach (args : ArgParser) : R unit := DetachDebugger.

Definition DebuggerCommandRestart (args : ArgParser) : R unit :=
  with_debugger (restarted ← on_debugger (RestartAndAttach kStop); mret tt).

(** ** Stepping and running *)

Definition or_print (m : R bool) (message : bytes) : R unit :=
  ok ← m; if ok : bool then mret tt else print [Str message; Endl].

Definition DebuggerCommandStepInstruction (args : ArgParser) : R unit :=
  with_debugger (or_print (on_debugger DebuggerControl.StepInstruction) "Failed to step instruction"%bs).
Definition DebuggerCommandStepFunction (args : ArgParser) : R unit :=
  with_debugger (or_print (on_debugger StepFunction) "Failed to step function"%bs).

Definition DebuggerCommandHaltAll (args : ArgParser) : R unit :=
  with_debugger (halted ← on_debugger (HaltAll kDefaultHaltAllMaxWaitMilliseconds); mret tt).

Definition no_break_words : list bytes := ["nobreak"%bs; "n"%bs; "false"%bs; "no"%bs].

Definition DebuggerCommandContinueAll (args : ArgParser) : R unit :=
  let no_break_on_exception := ArgExists (no_break_words ++ ["no_break_on_exception"%bs]) args in
  with_debugger (continued ← on_debugger (on_threads (ContinueAll no_break_on_exception)); mret tt).

Definition DebuggerCommandContinueAllAndGo (args : ArgParser) : R unit :=
  let no_break_on_exception := ArgExists (no_break_words ++ ["no_break_on_exception"%bs]) args in
  with_debugger (
    going ← on_debugger Debugger.Go;
    if negb going then print [Str "'go' command failed."%bs; Endl]
    else continued ← on_debugger (on_threads (ContinueAll no_break_on_exception)); mret tt).

(** A request about the active thread. *)
Definition active_thread_request (m : M (Thread * E) bool) (message : bytes) : R unit :=
  with_debugger (with_active_thread (λ p,
    ok ← on_thread_ p m;
    if ok : bool then mret tt
    else t ← the_thread p; print [Str message; UInt (id t); Endl])).

Definition DebuggerCommandHalt (args : ArgParser) : R unit :=
  active_thread_request DebuggerThread.Halt "Failed to halt thread "%bs.
Definition DebuggerCommandContinue (args : ArgParser) : R unit :=
  active_thread_request (DebuggerThread.Continue (ArgExists no_break_words args)) "Failed to continue thread "%bs.
Definition DebuggerCommandSuspend (args : ArgParser) : R unit :=
  active_thread_request DebuggerThread.Suspend "Failed to continue thread "%bs.
Definition DebuggerCommandResume (args : ArgParser) : R unit :=
  active_thread_request DebuggerThread.Resume "Failed to continue thread "%bs.

(** ** Threads *)

Definition DebuggerCommandSetActiveThread (args : ArgParser) : R unit :=
  with_debugger (with_int false args 0 (missing "thread_id"%bs DebuggerCommandSetActiveThread_help) (λ thread_id,
    known ← on_debugger (on_left (λ d, let '(ok, t) := SetActiveThread thread_id (threads d) in Some (ok, set_threads t d)));
    if known : bool then mret tt else print [Str "Invalid thread "%bs; UInt thread_id; Endl])).

(** The command [getcontext] for a thread. *)
Definition PrintThreadContext (p : ptr) (args : ArgParser) : R unit :=
  t ← the_thread p;
  CommandGetContext (of_strings "getcontext"%bs (fmt_u (id t) :: map value (arguments args))).

Definition no_args : ArgParser := MkArgs [] [].

Definition DebuggerCommandGetThreads (args : ArgParser) : R unit :=
  with_debugger (
    fetched ← on_debugger (on_threads FetchThreads);
    if negb fetched then print [Str "Failed to fetch threads."%bs; Endl]
    else
      let print_context := ArgExists ["context"%bs; "ctx"%bs; "c"%bs] args in
      table ← on_debugger (gets (λ s, threads s.1));
      for_each (threads_ table) (λ p,
        t ← the_thread p;
        (if decide (ActiveThreadID table = Some (id t)) then print [Str "[Active thread]"%bs; Endl] else mret tt) ;;
        print (show_thread t ++ [Endl]) ;;
        if print_context : bool then PrintThreadContext p args else mret tt)).

(** The first thread of a list whose stack an address is in. *)
Fixpoint first_with_stack (address : Z) (l : list ptr) : R (option ptr) :=
  match l with
  | [] => mret None
  | p :: l => t ← the_thread p; if HasStack address t then mret (Some p) else first_with_stack address l
  end.

Definition DebuggerCommandWhichThread (args : ArgParser) : R unit :=
  with_debugger (
    fetched ← on_debugger (on_threads FetchThreads);
    if negb fetched then print [Str "Failed to fetch threads."%bs; Endl]
    else with_int false args 0 (print [Str "Missing required `address` argument."%bs; Endl]) (λ address,
      l ← on_debugger (gets (λ s, threads_ (threads s.1)));
      found ← first_with_stack address l;
      match found with
      | Some p =>
        t ← the_thread p;
        print (show_thread t ++ [Endl]) ;; PrintThreadContext p no_args
      | None =>
        print [Str "Failed to find a thread with a stack containing "%bs; Hex; UInt address; Dec; Endl]
      end)).

(** All that is known of the active thread. *)
Definition show_active_thread (k : ptr → R unit) : R unit :=
  with_debugger (with_active_thread (λ p,
    info ← on_thread_ p FetchInfoSync;
    context ← on_thread_ p FetchContextSync;
    float_context ← on_thread_ p FetchFloatContextSync;
    t ← the_thread p;
    print (show_thread t ++ [Endl]) ;; k p)).

Definition DebuggerCommandGetThreadInfo (args : ArgParser) : R unit := show_active_thread (λ _, mret tt).
Definition DebuggerCommandGetThreadInfoAndContext (args : ArgParser) : R unit :=
  show_active_thread (λ p, PrintThreadContext p args).

Definition DebuggerCommandSetAutoInfo (args : ArgParser) : R unit :=
  with_debugger (
    let disable := ArgExists ["d"%bs; "disable"%bs; "off"%bs] args in
    on_debugger (update (SetDisplayExpandedBreakpointOutput (negb disable))) ;;
    print [Str "OK"%bs; Endl]).

(** ** Modules, sections and code *)

Definition DebuggerCommandGetModules (args : ArgParser) : R unit :=
  with_debugger (
    modules ← on_debugger Debugger.Modules;
    print (concat (map (λ m, show_module m ++ [Endl]) (map_values modules)))).

Definition DebuggerCommandGetSections (args : ArgParser) : R unit :=
  with_debugger (
    module_ranges ← on_debugger ModuleRanges;
    sections ← on_debugger Sections;
    print (concat (map (show_section_of module_ranges)
                       (omap (λ k, pair k <$> sections !! k) (ascending (dom sections)))))).

(** The address of the argument, or the instruction pointer of the active thread:
    an error is printed. *)
Definition code_address (args : ArgParser) : R (option Z) :=
  let '(t, address) := Parse_int false args 0 0 in
  if ArgType_bool t then mret (Some address)
  else
    thread ← on_debugger (gets (λ s, ActiveThread (threads s.1)));
    match thread with
    | None => print [Str "No address provided and no active thread."%bs; Endl] ;; mret None
    | Some p =>
      fetched ← on_thread_ p FetchContextSync;
      if negb fetched then print [Str "Failed to fetch thread context."%bs; Endl] ;; mret None
      else
        t ← the_thread p;
        match c ← context t; eip c with
        | Some eip => mret (Some (u32 eip))
        | None => print [Str "Thread context incomplete (missing EIP)."%bs; Endl] ;; mret None
        end
    end.

Definition DebuggerCommandDisassemble (args : ArgParser) : R unit :=
  with_debugger (
    found ← code_address args;
    match found with
    | None => mret tt
    | Some address =>
      memory ← on_debugger (on_memory (GetMemory address (Z.of_nat (kDisassemblyOpCount * kMaxInstructionBytes)) true));
      match memory with
      | None => print [Str "Failed to read memory at 0x"%bs; Hex; UInt address; Dec; Endl]
      | Some data =>
        if negb lister_opens then print [Str "Failed to initialize Capstone."%bs; Endl]
        else
          match list_instructions data address kDisassemblyOpCount with
          | [] => print [Str "Failed to disassemble."%bs; Endl]
          | listing => print (concat (map show_instruction listing))
          end
      end
    end).

(** ** Back trace and descriptors *)

Definition DebuggerCommandGuessBackTrace (args : ArgParser) : R unit :=
  with_debugger (
    active ← on_debugger (gets (λ s, ActiveThreadID (threads s.1)));
    let '(t, given) := Parse_int false args 0 0 in
    match (if ArgType_bool t then Some given else active) with
    | None => print [Str "No active thread and no thread_id provided."%bs; Endl]
    | Some thread_id =>
      frames ← on_debugger (GuessBackTrace thread_id);
      match frames with
      | [] => print [Str "No frames found."%bs; Endl]
      | _ =>
        sections ← on_debugger Sections;
        module_ranges ← on_debugger ModuleRanges;
        thread ← on_debugger (gets (λ s, GetThread thread_id (threads s.1)));
        (match thread with
         | None => mret tt
         | Some p =>
           fetched ← on_thread_ p FetchContextSync;
           t ← the_thread p;
           match c ← context t; eip c with
           | Some eip => if fetched : bool then print [Str "EIP: 0x"%bs; Hex; Int eip; Dec; Endl] else mret tt
           | None => mret tt
           end
         end) ;;
        print (concat (map (show_frame sections module_ranges) frames))
      end
    end).

Definition DebuggerCommandLookupNV2ADMADescriptor (args : ArgParser) : R unit :=
  with_debugger (with_int false args 0 (print [Str "Missing required dma_descriptor_offset argument."%bs; Endl]) (λ entry_offset,
    let resolved_address := u32 (kPRAMINAddress + entry_offset) in
    memory ← on_debugger (on_memory (GetMemory resolved_address 12 false));
    match memory with
    | None => print [Str "Failed to load DMA table entry from address 0x"%bs; Hex; UInt resolved_address; Dec; Endl]
    | Some data =>
      if (length data <? 12)%nat then mfail else print (show_dma entry_offset (decode_dma data))
    end)).
End Commands.
