(* ===== verification/ShellExtensions.v ===== *)
(** * The commands of the loader, of the tracer and of the shell itself (src/shell/dyndxt_commands.cpp,
    tracer_commands.cpp, shell_commands.h, shell_commands.cpp)

    Loading libraries and calling what they register, tracing frames, reconnecting.
    The loader attaches the debugger when there is none and its own greeting does not
    answer. *)

From S2P Require Import Notifications Tracer DxtRequests DxtLoader.
From S2P Require Import Prelude CLib Boost Parsing RdcpResponse RdcpMaps RdcpRequest Requests Target FileUtil FrameImages.
From S2P Require Import DebuggerThreads Debugger Output Session ShellHelp ShellCommands.

(** [XBOXInterface::ReconnectXBDM] *)
Class Reconnection (E : Type) := { ReconnectXBDM : E → bool * E }.

(** [std::stoi]: two of its exceptions. *)
Definition stoi (s : bytes) : Z + stoul_error :=
  let '(v, end_) := strtol 10 s in
  if (end_ =? 0)%nat then inr invalid_argument
  else if (- 2 ^ 31 <=? v) && (v <? 2 ^ 31) then inl v
  else inr out_of_range.

(** The request whose reply is printed as it arrives. *)
Definition InvokeMultiline_lines `{!Boost} : RequestClass (list bytes) :=
  MkClass ok_multiline (if_ok ok_multiline (λ response _, Some (RDCPMultilineResponse (RdcpResponse.data_ response)))).

Section Commands.
Context `{!Boost} {E : Type} `{!Target NotificationNTRC E, !Listeners NotificationNTRC E, !LocalDisk E, !LocalPaths E}.
Context `{!ImageTools, !NTRC, !TracerLink E, !Reconnection E}.
Context (kBootstrapL1 kBootstrapL2 kDynamicDXTLoader : bytes) (fuel : nat).
Abbreviation R := (M (Session * E)).

(** ** The loader *)

(** A method of the loader; one that uses the debugger is called when there is one. *)
Definition on_loader {A} (m : M (option Loader * (XBDMDebugger * E)) A) : R A := λ '(s, e),
  '(a, (l, (d, e))) ← m (loader_ s, (default new_debugger (xbdm_debugger_ s), e));
  Some (a, (set_loader l (set_debugger ((λ _, d) <$> xbdm_debugger_ s) s), e)).

Definition invoke_multiline (command args : bytes) : R (RDCPProcessedRequest (list bytes)) :=
  done ← SendCommandSync InvokeMultiline_lines (InvokeMultiline command args) None [];
  print (concat (map (λ line, [Str line; Endl]) (members done))) ;;
  mret done.

(** [InjectLoader], which attaches the debugger if there is none. *)
Definition InjectLoader_ : R bool :=
  there ← has_debugger;
  attached ← (if there : bool then mret true else AttachDebugger);
  if negb attached then mret false
  else on_loader (on_singleton (InjectLoader kBootstrapL1 kBootstrapL2 kDynamicDXTLoader)).

Definition Bootstrap_ : R bool :=
  on_loader (on_singleton (mret tt)) ;;
  hello ← invoke_multiline "ddxt!hello"%bs [];
  if ok_multiline (RdcpRequest.status hello) then mret true
  else
    ret ← InjectLoader_;
    (if ret : bool then mret tt else on_loader (on_left (Target.put None))) ;;
    mret ret.

Definition Install_ (data : bytes) : R bool :=
  running ← Bootstrap_;
  if negb running then mret false else on_loader (InstallDynDXT data).

(** [InstallDynDXT] of a file, with the debugger that was needed to get here. *)
Definition InstallDynDXT_path (path : bytes) : R bool :=
  file ← on_console (gets (read_local path));
  match file with None => mret false | Some data => on_loader (InstallDynDXT data) end.

Definition Load_ (path : bytes) : R bool :=
  running ← Bootstrap_;
  if negb running then mret false else InstallDynDXT_path path.

(** ** The commands of the loader *)

Definition DynDXTCommandLoadBootstrap (args : ArgParser) : R unit :=
  running ← Bootstrap_;
  if running : bool then mret tt
  else print [Str "Failed to inject handler loader. XBDM handlers will not work."%bs; Endl].

Definition DynDXTCommandHello (args : ArgParser) : R unit :=
  running ← Bootstrap_;
  if negb running then print [Str "Failed to install Dynamic DXT loader."%bs]
  else done ← invoke_multiline "ddxt!hello"%bs []; print (show_request done ++ [Endl]).

(** The required arguments, and the others as one line. *)
Definition with_command (args : ArgParser) (k : bytes → R unit) : R unit :=
  with_string args 0 (print [Str "Missing required `processor!command` argument."%bs; Endl]) k.
Definition with_file (args : ArgParser) (name : bytes) (k : bytes → R unit) : R unit :=
  with_string args 1 (print [Str ("Missing required `"%bs ++ name ++ "` argument."%bs); Endl]) k.
Definition with_line (args : ArgParser) (depth : nat) (k : bytes → R unit) : R unit :=
  command_args ← lift_option (ExtractSubcommand depth args);
  k (match command_args with Some p => FlattenArgs p | None => [] end).

Definition invoke {T} (k : RequestClass T) (request : RDCPRequest) (payload : option bytes) (init : T) : R unit :=
  done ← SendCommandSync k request payload init; print (show_request done ++ [Endl]).

Definition DynDXTCommandInvokeSimple (args : ArgParser) : R unit :=
  with_command args (λ command, with_line args 1 (λ line, invoke plain_class (InvokeSimple command line) None tt)).

Definition DynDXTCommandInvokeMultiline (args : ArgParser) : R unit :=
  with_command args (λ command, with_line args 1 (λ line,
    done ← invoke_multiline command line; print (show_request done ++ [Endl]))).

(** A file that can be opened can be read. *)
Definition DynDXTCommandInvokeSendBinary (args : ArgParser) : R unit :=
  with_command args (λ command, with_file args "binary_path"%bs (λ file_path, with_line args 2 (λ line,
    file ← on_console (gets (read_local file_path));
    match file with
    | None => print [Str "Failed to open '"%bs; Str file_path; Str "'"%bs; Endl]
    | Some data => let '(request, payload) := InvokeSendBinary command data line in invoke plain_class request (Some payload) tt
    end))).

Definition DynDXTCommandInvokeReceiveSizePrefixedBinary (args : ArgParser) : R unit :=
  with_command args (λ command, with_file args "save_path"%bs (λ file_path, with_line args 2 (λ line,
    invoke InvokeReceiveSizePrefixedBinary_class (InvokeReceiveSizePrefixedBinary command line) None []))).

Definition DynDXTCommandInvokeReceiveKnownSizedBinary (args : ArgParser) : R unit :=
  with_command args (λ command, with_file args "save_path"%bs (λ file_path,
  with_int false args 2 (print [Str "Missing required `size_in_bytes` argument."%bs; Endl]) (λ size, with_line args 3 (λ line,
    invoke InvokeReceiveKnownSizedBinary_class (InvokeReceiveKnownSizedBinary command line) None [])))).

Definition DynDXTCommandLoad (args : ArgParser) : R unit :=
  with_string args 0 (print [Str "Missing required <dll_path> argument."%bs; Endl]) (λ path,
    loaded ← Load_ path;
    if loaded : bool then mret tt else print [Str "Load failed."%bs; Endl]).

(** ** The tracer *)

(** A method of the tracer, made if there is none; one of the tracer there is. *)
Definition on_new_tracer {A} (m : M (Tracer * E) A) : R A := λ '(s, e),
  '(a, (t, e)) ← m (default new_tracer (tracer_ s), e); Some (a, (set_tracer (Some t) s, e)).
Definition on_tracing {A} (m : M (option Tracer * (option Loader * (XBDMDebugger * E))) A) : R A := λ '(s, e),
  '(a, (t, (l, (d, e)))) ← m (tracer_ s, (loader_ s, (default new_debugger (xbdm_debugger_ s), e)));
  Some (a, (set_tracer t (set_loader l (set_debugger ((λ _, d) <$> xbdm_debugger_ s) s)), e)).

Definition Initialize_ : R bool :=
  on_new_tracer register_tracer ;;
  ok ← on_new_tracer dedicate;
  if ok : bool then mret true
  else
    installed ← Install_ kNTRCDynDXT;
    if negb installed then mret false else on_new_tracer dedicate.

Definition BreakOnFrameStart_ (require_flip : bool) : R bool :=
  attached ← has_debugger;
  on_tracing (BreakOnFrameStart fuel attached require_flip).

(** ** The commands of the tracer *)

Definition true_words : list bytes := ["t"%bs; "true"%bs; "y"%bs; "yes"%bs; "on"%bs; "1"%bs].

Definition missing_value (key : bytes) : list item :=
  [Str "Invalid argument list, missing value for argument '"%bs; Str key; Str "'"%bs; Endl].

Definition default_options : gmap bytes bool :=
  list_to_map [("tex"%bs, true); ("depth"%bs, false); ("color"%bs, true); ("rdi"%bs, false); ("pgraph"%bs, false); ("pfb"%bs, false)].

(** The options, or what is printed about them. *)
Fixpoint init_options (l : list bytes) (opts : gmap bytes bool) : gmap bytes bool + list item :=
  match l with
  | [] => inl opts
  | key :: l =>
    let key := to_lower_copy key in
    if decide (opts !! key = None) then inr [Str "Unknown parameter '"%bs; Str key; Str "'."%bs; Endl]
    else
      match l with
      | [] => inr (missing_value key)
      | param :: l => init_options l (<[key := bool_decide (to_lower_copy param ∈ true_words)]> opts)
      end
  end.

Definition TracerCommandInit (args : ArgParser) : R unit :=
  initialized ← Initialize_;
  if negb initialized then print [Str "Failed to initialize tracer."%bs; Endl]
  else
    match init_options (map value (arguments args)) default_options with
    | inr complaint => print complaint
    | inl opts =>
      let opt name := default false (opts !! name) in
      attached ← on_tracing (with_singleton (on_tracer
                   (Attach (opt "tex"%bs) (opt "depth"%bs) (opt "color"%bs) (opt "rdi"%bs) (opt "pgraph"%bs) (opt "pfb"%bs))));
      if attached : bool then mret tt else print [Str "Failed to attach to tracer."%bs; Endl]
    end.

Definition TracerCommandDetach (args : ArgParser) : R unit :=
  detached ← on_tracing (with_singleton (on_tracer Detach));
  if detached : bool then mret tt else print [Str "Failed to detach from the tracer."%bs; Endl].

Definition TracerCommandBreakOnNextFlip (args : ArgParser) : R unit :=
  broken ← BreakOnFrameStart_ (negb (bool_decide (arguments args = [])));
  if broken : bool then mret tt else print [Str "Failed to request break."%bs; Endl].

Record TraceOptions := MkTraceOptions { artifact_path : bytes; num_frames : Z; verbose : bool; nodiscard : bool; complaints : list item }.

Definition is_relative (path : bytes) : bool := match path with c :: _ => negb (bool_decide (c = slash)) | [] => true end.

(** The loop over the arguments: the options, or what ends the command; an
    exception that is not caught is none of both. *)
Fixpoint trace_options (l : list bytes) (o : TraceOptions) : option (TraceOptions + list item) :=
  match l with
  | [] => Some (inl o)
  | key :: l =>
    let key := to_lower_copy key in
    if decide (key = "verbose"%bs) then
      trace_options l (MkTraceOptions (artifact_path o) (num_frames o) true (nodiscard o) (complaints o))
    else if decide (key = "nodiscard"%bs) then
      trace_options l (MkTraceOptions (artifact_path o) (num_frames o) (verbose o) true (complaints o))
    else
      match l with
      | [] => Some (inr (complaints o ++ missing_value key))
      | value :: l' =>
        if decide (key = "path"%bs) then
          let path := if is_relative value then path_append (artifact_path o) value else value in
          trace_options l' (MkTraceOptions path (num_frames o) (verbose o) (nodiscard o) (complaints o))
        else if decide (key = "frames"%bs) then
          match stoi value with
          | inl n => trace_options l' (MkTraceOptions (artifact_path o) n (verbose o) (nodiscard o) (complaints o))
          | inr invalid_argument =>
            Some (inr (complaints o ++ [Str "Invalid '"%bs; Str key; Str "' argument."%bs; Endl]))
          | inr out_of_range => None
          end
        else
          trace_options l (MkTraceOptions (artifact_path o) (num_frames o) (verbose o) (nodiscard o)
            (complaints o ++ [Str "Unknown config argument '"%bs; Str key; Str "'"%bs; Endl]))
      end
  end.

Definition TracerCommandTraceFrames (args : ArgParser) : R unit :=
  here ← on_console (gets current_path);
  options ← lift_option (trace_options (map value (arguments args)) (MkTraceOptions here 1 false false []));
  match options with
  | inr complaint => print complaint
  | inl o =>
    print (complaints o) ;;
    ready ← (if nodiscard o then mret true else BreakOnFrameStart_ false);
    if negb ready then print [Str "Failed to request break on frame start."%bs; Endl]
    else
      traced ← on_tracing (TraceFrames fuel (artifact_path o) (num_frames o) (verbose o) (nodiscard o));
      if traced : bool then mret tt else print [Str "Failed to trace frames."%bs; Endl]
  end.

(** ** The commands of the shell *)

Definition ShellCommandReconnect (args : ArgParser) : R unit :=
  connected ← on_console (λ e, Some (ReconnectXBDM e));
  print [Str (if connected : bool then "Connected."%bs else "Failed to connect."%bs); Endl].

(** The arguments of [init] and of [trace]. *)
Fixpoint split_options (l attach_args trace_args : list bytes) : (list bytes * list bytes) + list item :=
  match l with
  | [] => inl (attach_args, trace_args)
  | key :: l =>
    let key := to_lower_copy key in
    match l with
    | [] => inr (missing_value key)
    | value :: l' =>
      if decide (key ∈ ["path"%bs; "frames"%bs]) then split_options l' attach_args (trace_args ++ [key; value])
      else if decide (key = "nodiscard"%bs) then split_options l attach_args (trace_args ++ [key])
      else split_options l' (attach_args ++ [key; value]) trace_args
    end
  end.

Definition ShellCommandTrace (args : ArgParser) : R unit :=
  match split_options (map value (arguments args)) [] [] with
  | inr complaint => print complaint
  | inl (attach_args, trace_args) =>
    TracerCommandInit (of_strings "init"%bs attach_args) ;;
    TracerCommandTraceFrames (of_strings "trace"%bs trace_args) ;;
    TracerCommandDetach (of_strings "detach"%bs [])
  end.
End Commands.
