(* ===== verification/Shell.v ===== *)
(** * The shell (src/shell/shell.h, shell.cpp, command.h)

    The table of commands, the dispatch of a line, the help and the loop over the
    lines that are typed.  Editing of lines, with its history, is done by a
    library: what it reads is a list of lines.  Between two lines notifications may
    arrive, which the handlers get and the shell prints to the same stream; those that
    arrive in the wait of a command are not printed. *)

From S2P Require Import Notifications Tracer DxtRequests DxtLoader DebuggerBacktrace.
From S2P Require Import Prelude CLib Boost Parsing RdcpRequest Requests Target FileUtil FrameImages.
From S2P Require Import Debugger Output Session ShellHelp ShellCommands ShellFiles ShellDebugger ShellExtensions.

(** ** Commands *)

(** [Command]: what describes it, and [operator()]. *)
Record Command (E : Type) := MkCommand { help : bytes * bytes; run : ArgParser → M (Session * E) Result }.
Arguments MkCommand {E} _ _.
Arguments help {E} _.
Arguments run {E} _ _.

Definition short_help {E} (c : Command E) : bytes := (help c).1.

(** [Shell::commands_], where some names have no handler, and [last_command_]. *)
Record Shell (E : Type) := MkShell { commands_ : gmap bytes (option (Command E)); last_command_ : option ArgParser }.
Arguments MkShell {E} _ _.
Arguments commands_ {E} _.
Arguments last_command_ {E} _.

Definition kRerunCommandHelp : bytes := "Re-runs the last shell command."%bs.

(** ** The table *)

Section Table.
Context {E : Type}.
Abbreviation registration := (gmap bytes (option (Command E)) → gmap bytes (option (Command E))).

Definition command_of (help : bytes * bytes) (operator : ArgParser → M (Session * E) unit) : Command E :=
  MkCommand help (λ args, handled (operator args)).

Definition UNHANDLED_HERE (name : bytes) : registration := insert name None.
Definition REGISTER (name : bytes) (c : Command E) : registration := insert name (Some c).
Definition ALIAS (name alias : bytes) : registration := λ m, <[alias := default None (m !! name)]> m.

Definition ShellCommandQuit : Command E := MkCommand ShellCommandQuit_help (λ _, mret EXIT_REQUESTED).

Context `{!Boost, !Target NotificationNTRC E, !Listeners NotificationNTRC E, !LocalDisk E, !LocalPaths E, !Screen E}.
Context `{!Disassembler, !Lister, !ImageTools, !NTRC, !TracerLink E, !Reconnection E}.
Context (kBootstrapL1 kBootstrapL2 kDynamicDXTLoader : bytes) (fuel : nat).

(** The shell itself; the first three are seen to before the table is looked at. *)
Definition own_commands : list registration :=
  [UNHANDLED_HERE "help"%bs;
   UNHANDLED_HERE "?"%bs;
   UNHANDLED_HERE "!"%bs;
   REGISTER "trace"%bs (command_of ShellCommandTrace_help (ShellCommandTrace kBootstrapL1 kBootstrapL2 kDynamicDXTLoader fuel));
   REGISTER "reconnect"%bs (command_of ShellCommandReconnect_help ShellCommandReconnect);
   REGISTER "quit"%bs ShellCommandQuit;
   ALIAS "quit"%bs "exit"%bs].

(** The debugger. *)
Definition debugger_commands : list registration :=
  [REGISTER "/run"%bs (command_of DebuggerCommandRun_help DebuggerCommandRun);
   REGISTER "/launch"%bs (command_of DebuggerCommandLaunch_help DebuggerCommandLaunch);
   REGISTER "/launchwait"%bs (command_of DebuggerCommandLaunchWait_help DebuggerCommandLaunchWait);
   REGISTER "/launchbreak"%bs (command_of DebuggerCommandLaunchBreakAtEntrypoint_help DebuggerCommandLaunchBreakAtEntrypoint);
   REGISTER "/attach"%bs (command_of DebuggerCommandAttach_help DebuggerCommandAttach);
   REGISTER "/detach"%bs (command_of DebuggerCommandDetach_help DebuggerCommandDetach);
   REGISTER "/restart"%bs (command_of DebuggerCommandRestart_help DebuggerCommandRestart);
   REGISTER "/switch"%bs (command_of DebuggerCommandSetActiveThread_help DebuggerCommandSetActiveThread);
   REGISTER "/threads"%bs (command_of DebuggerCommandGetThreads_help DebuggerCommandGetThreads);
   REGISTER "/whichthread"%bs (command_of DebuggerCommandWhichThread_help DebuggerCommandWhichThread);
   ALIAS "/whichthread"%bs "/wt"%bs;
   REGISTER "/info"%bs (command_of DebuggerCommandGetThreadInfo_help DebuggerCommandGetThreadInfo);
   REGISTER "/infowithcontext"%bs (command_of DebuggerCommandGetThreadInfoAndContext_help DebuggerCommandGetThreadInfoAndContext);
   ALIAS "/infowithcontext"%bs "/ic"%bs;
   REGISTER "/autoinfo"%bs (command_of DebuggerCommandSetAutoInfo_help DebuggerCommandSetAutoInfo);
   REGISTER "/haltall"%bs (command_of DebuggerCommandHaltAll_help DebuggerCommandHaltAll);
   REGISTER "/halt"%bs (command_of DebuggerCommandHalt_help DebuggerCommandHalt);
   REGISTER "/continueall"%bs (command_of DebuggerCommandContinueAll_help DebuggerCommandContinueAll);
   REGISTER "/continueallgo"%bs (command_of DebuggerCommandContinueAllAndGo_help DebuggerCommandContinueAllAndGo);
   ALIAS "/continueallgo"%bs "/cag"%bs;
   REGISTER "/disassemble"%bs (command_of DebuggerCommandDisassemble_help DebuggerCommandDisassemble);
   ALIAS "/disassemble"%bs "/disasm"%bs;
   ALIAS "/disassemble"%bs "/u"%bs;
   REGISTER "/dma"%bs (command_of DebuggerCommandLookupNV2ADMADescriptor_help DebuggerCommandLookupNV2ADMADescriptor);
   REGISTER "/continue"%bs (command_of DebuggerCommandContinue_help DebuggerCommandContinue);
   REGISTER "/suspend"%bs (command_of DebuggerCommandSuspend_help DebuggerCommandSuspend);
   REGISTER "/resume"%bs (command_of DebuggerCommandResume_help DebuggerCommandResume);
   REGISTER "/modules"%bs (command_of DebuggerCommandGetModules_help DebuggerCommandGetModules);
   REGISTER "/sections"%bs (command_of DebuggerCommandGetSections_help DebuggerCommandGetSections);
   REGISTER "/stepi"%bs (command_of DebuggerCommandStepInstruction_help DebuggerCommandStepInstruction);
   ALIAS "/stepi"%bs "/si"%bs;
   REGISTER "/stepfun"%bs (command_of DebuggerCommandStepFunction_help DebuggerCommandStepFunction);
   ALIAS "/stepfun"%bs "/stepf"%bs;
   REGISTER "/guessbacktrace"%bs (command_of DebuggerCommandGuessBackTrace_help DebuggerCommandGuessBackTrace);
   ALIAS "/guessbacktrace"%bs "/gbt"%bs].

(** The loader and the tracer. *)
Definition extension_commands : list registration :=
  [REGISTER "@bootstrap"%bs (command_of DynDXTCommandLoadBootstrap_help (DynDXTCommandLoadBootstrap kBootstrapL1 kBootstrapL2 kDynamicDXTLoader));
   REGISTER "@hello"%bs (command_of DynDXTCommandHello_help (DynDXTCommandHello kBootstrapL1 kBootstrapL2 kDynamicDXTLoader));
   REGISTER "@load"%bs (command_of DynDXTCommandLoad_help (DynDXTCommandLoad kBootstrapL1 kBootstrapL2 kDynamicDXTLoader));
   REGISTER "@"%bs (command_of DynDXTCommandInvokeSimple_help DynDXTCommandInvokeSimple);
   REGISTER "@simple"%bs (command_of DynDXTCommandInvokeSimple_help DynDXTCommandInvokeSimple);
   REGISTER "@multiline"%bs (command_of DynDXTCommandInvokeMultiline_help DynDXTCommandInvokeMultiline);
   REGISTER "@m"%bs (command_of DynDXTCommandInvokeMultiline_help DynDXTCommandInvokeMultiline);
   REGISTER "@sendbin"%bs (command_of DynDXTCommandInvokeSendBinary_help DynDXTCommandInvokeSendBinary);
   REGISTER "@sb"%bs (command_of DynDXTCommandInvokeSendBinary_help DynDXTCommandInvokeSendBinary);
   REGISTER "@recvbin"%bs (command_of DynDXTCommandInvokeReceiveSizePrefixedBinary_help DynDXTCommandInvokeReceiveSizePrefixedBinary);
   REGISTER "@rbin"%bs (command_of DynDXTCommandInvokeReceiveSizePrefixedBinary_help DynDXTCommandInvokeReceiveSizePrefixedBinary);
   REGISTER "@recvbytes"%bs (command_of DynDXTCommandInvokeReceiveKnownSizedBinary_help DynDXTCommandInvokeReceiveKnownSizedBinary);
   REGISTER "@rby"%bs (command_of DynDXTCommandInvokeReceiveKnownSizedBinary_help DynDXTCommandInvokeReceiveKnownSizedBinary);
   REGISTER "@rbytes"%bs (command_of DynDXTCommandInvokeReceiveKnownSizedBinary_help DynDXTCommandInvokeReceiveKnownSizedBinary);
   REGISTER "$init"%bs (command_of TracerCommandInit_help (TracerCommandInit kBootstrapL1 kBootstrapL2 kDynamicDXTLoader));
   REGISTER "$detach"%bs (command_of TracerCommandDetach_help TracerCommandDetach);
   REGISTER "$stepflip"%bs (command_of TracerCommandBreakOnNextFlip_help (TracerCommandBreakOnNextFlip fuel));
   REGISTER "$trace"%bs (command_of TracerCommandTraceFrames_help (TracerCommandTraceFrames fuel))].

(** Requests. *)
Definition request_commands : list registration :=
  [REGISTER "altaddr"%bs (command_of CommandAltAddr_help CommandAltAddr);
   REGISTER "break"%bs (command_of CommandBreak_help CommandBreak);
   REGISTER "bye"%bs (command_of CommandBye_help CommandBye);
   REGISTER "continue"%bs (command_of CommandContinue_help CommandContinue);
   REGISTER "debugoptions"%bs (command_of CommandDebugOptions_help CommandDebugOptions);
   REGISTER "debugger"%bs (command_of CommandDebugger_help CommandDebugger);
   REGISTER "dedicate"%bs (command_of CommandDedicate_help CommandDedicate);
   REGISTER "dmversion"%bs (command_of CommandDebugMonitorVersion_help CommandDebugMonitorVersion);
   REGISTER "rm"%bs (command_of CommandDelete_help (CommandDelete fuel));
   REGISTER "disableperfcounters"%bs (command_of CommandDisablePerfCounters_help CommandDisablePerfCounters);
   ALIAS "disableperfcounters"%bs "disablepc"%bs;
   ALIAS "disableperfcounters"%bs "pcdisable"%bs;
   ALIAS "disableperfcounters"%bs "pcoff"%bs;
   REGISTER "enableperfcounters"%bs (command_of CommandEnablePerfCounters_help CommandEnablePerfCounters);
   ALIAS "enableperfcounters"%bs "enablepc"%bs;
   ALIAS "enableperfcounters"%bs "pcenable"%bs;
   ALIAS "enableperfcounters"%bs "pcon"%bs;
   REGISTER "ls"%bs (command_of CommandDirList_help CommandDirList);
   REGISTER "df"%bs (command_of CommandDriveFreeSpace_help CommandDriveFreeSpace);
   REGISTER "drivelist"%bs (command_of CommandDriveList_help CommandDriveList);
   REGISTER "getchecksum"%bs (command_of CommandGetChecksum_help CommandGetChecksum);
   REGISTER "getcontext"%bs (command_of CommandGetContext_help CommandGetContext);
   REGISTER "getextcontext"%bs (command_of CommandGetExtContext_help CommandGetExtContext);
   REGISTER "getfile"%bs (command_of CommandGetFile_help (CommandGetFile fuel));
   REGISTER "getfileattr"%bs (command_of CommandGetFileAttributes_help CommandGetFileAttributes);
   REGISTER "getmem"%bs (command_of CommandGetMem_help CommandGetMem);
   REGISTER "getpid"%bs (command_of CommandGetProcessID_help CommandGetProcessID);
   REGISTER "getutilitydriveinfo"%bs (command_of CommandGetUtilityDriveInfo_help CommandGetUtilityDriveInfo);
   REGISTER "go"%bs (command_of CommandGo_help CommandGo);
   REGISTER "halt"%bs (command_of CommandHalt_help CommandHalt);
   REGISTER "isbreak"%bs (command_of CommandIsBreak_help CommandIsBreak);
   REGISTER "isdebugger"%bs (command_of CommandIsDebugger_help CommandIsDebugger);
   REGISTER "isstopped"%bs (command_of CommandIsStopped_help CommandIsStopped);
   REGISTER "listperfcounters"%bs (command_of CommandListPerfCounters_help CommandListPerfCounters);
   ALIAS "listperfcounters"%bs "pclist"%bs;
   ALIAS "listperfcounters"%bs "listpc"%bs;
   REGISTER "run"%bs (command_of CommandMagicBoot_help CommandMagicBoot);
   REGISTER "memorymap"%bs (command_of CommandMemoryMap_help CommandMemoryMap);
   REGISTER "mem_map"%bs (command_of CommandMemoryMap_help CommandMemoryMap);
   REGISTER "mkdir"%bs (command_of CommandMakeDirectory_help CommandMakeDirectory);
   REGISTER "modsections"%bs (command_of CommandModuleSections_help CommandModuleSections);
   REGISTER "modlong"%bs (command_of CommandModuleLongName_help CommandModuleLongName);
   ALIAS "modlong"%bs "modpath"%bs;
   REGISTER "modules"%bs (command_of CommandModules_help CommandModules);
   REGISTER "nostopon"%bs (command_of CommandNoStopOn_help CommandNoStopOn);
   REGISTER "notifyat"%bs (command_of CommandNotifyAt_help CommandNotifyAt);
   REGISTER "mv"%bs (command_of CommandRename_help CommandRename);
   REGISTER "putfile"%bs (command_of CommandPutFile_help (CommandPutFile fuel));
   REGISTER "queryperfcounters"%bs (command_of CommandQueryPerfCounters_help CommandQueryPerfCounters);
   ALIAS "queryperfcounters"%bs "pcquery"%bs;
   ALIAS "queryperfcounters"%bs "querypc"%bs;
   ALIAS "queryperfcounters"%bs "qpc"%bs;
   REGISTER "reboot"%bs (command_of CommandReboot_help CommandReboot);
   REGISTER "resume"%bs (command_of CommandResume_help CommandResume);
   REGISTER "screenshot"%bs (command_of CommandScreenshot_help CommandScreenshot);
   REGISTER "setmem"%bs (command_of CommandSetMem_help CommandSetMem);
   REGISTER "stop"%bs (command_of CommandStop_help CommandStop);
   REGISTER "stopon"%bs (command_of CommandStopOn_help CommandStopOn);
   REGISTER "suspend"%bs (command_of CommandSuspend_help CommandSuspend);
   REGISTER "threadinfo"%bs (command_of CommandThreadInfo_help CommandThreadInfo);
   REGISTER "threads"%bs (command_of CommandThreads_help CommandThreads);
   REGISTER "memwalk"%bs (command_of CommandWalkMem_help CommandWalkMem);
   REGISTER "walkmem"%bs (command_of CommandWalkMem_help CommandWalkMem);
   REGISTER "xbeinfo"%bs (command_of CommandXBEInfo_help CommandXBEInfo);
   REGISTER "xtlinfo"%bs (command_of CommandXTLInfo_help CommandXTLInfo)].

(** Several requests. *)
Definition macro_commands : list registration :=
  [REGISTER "%syncfile"%bs (command_of MacroCommandSyncFile_help MacroCommandSyncFile);
   REGISTER "%syncdir"%bs (command_of MacroCommandSyncDirectory_help (MacroCommandSyncDirectory fuel))].

(** The constructor. *)
Definition all_commands : list registration :=
  own_commands ++ debugger_commands ++ extension_commands ++ request_commands ++ macro_commands.

Definition new_shell : Shell E := MkShell (foldl (λ m register, register m) ∅ all_commands) None.
End Table.

(** [RegisterCommand] *)
Definition RegisterCommand {E} (command : bytes) (processor : Command E) (aliases : list bytes) (s : Shell E) : Shell E :=
  MkShell (foldl (λ m alias, <[alias := Some processor]> m) (<[command := Some processor]> (commands_ s)) aliases) (last_command_ s).

(** The callback that completes what is typed: the completions and the length of
    what they complete, when it is set. *)
Definition completions {E} (s : Shell E) (context : bytes) : list bytes * option nat :=
  if decide (Exists (λ c, c = space ∨ c = tab) context) then ([], None)
  else (List.filter (λ cmd, starts_with context cmd) (in_order (dom (commands_ s))), Some (length context)).

(** ** Dispatch *)

Section Dispatch.
Context `{!Boost} {E : Type}.
Abbreviation S := (M (Shell E * (Session * E))).

Definition say (l : list item) : S unit := on_right (print l).

Definition describe (entry : bytes * option (Command E)) : list item :=
  [Str entry.1; Str " - "%bs;
   Str (match entry.2 with
        | Some c => short_help c
        | None =>
          if decide (entry.1 = "!"%bs) then kRerunCommandHelp
          else "Print this help list (pass an argument for detailed help)."%bs
        end); Endl].

Definition entries (m : gmap bytes (option (Command E))) : list (bytes * option (Command E)) :=
  omap (λ name, pair name <$> m !! name) (in_order (dom m)).

Definition PrintHelp (parser : ArgParser) : S unit :=
  s ← gets fst;
  match arguments parser with
  | [] => say ([Str "Commands:"%bs; Endl] ++ concat (map describe (entries (commands_ s))))
  | _ =>
    let target := to_lower_copy (Parse_string parser 0 []).2 in
    if decide (target ∈ ["help"%bs; "?"%bs]) then
      say [Str "[command]"%bs; Endl; Str "With no argument: print all commands."%bs; Endl;
           Str "With argument: print detailed help about `command`."%bs; Endl]
    else if decide (target = "!"%bs) then say [Str kRerunCommandHelp; Endl]
    else
      match commands_ s !! target with
      | Some (Some handler) => say [Str (help handler).2; Endl]
      | Some None => mfail
      | None => say [Str "Unknown command '"%bs; Str target; Str "'"%bs; Endl]
      end
  end.

Definition remember (parser : ArgParser) : S unit := on_left (modify (λ s, MkShell (commands_ s) (Some parser))).

(** What follows the replay of a command. *)
Definition execute (parser : ArgParser) : S Result :=
  remember parser ;;
  if decide (Parsing.command parser ∈ ["help"%bs; "?"%bs]) then PrintHelp parser ;; mret HANDLED
  else
    s ← gets fst;
    match commands_ s !! Parsing.command parser with
    | Some (Some handler) => on_right (run handler parser)
    | Some None => mfail
    | None => mret UNHANDLED
    end.

Definition ProcessCommand (parser : ArgParser) : S Result :=
  if decide (Parsing.command parser = "!"%bs) then
    s ← gets fst;
    match last_command_ s with
    | None => say [Str "No command to replay."%bs; Endl] ;; mret HANDLED
    | Some parser =>
      say ([Str (Parsing.command parser)] ++ concat (map (λ arg, [Str " "%bs; Str (value arg)]) (arguments parser)) ++ [Endl]) ;;
      execute parser
    end
  else execute parser.

(** What comes while the shell waits for a line, and the line. *)
Inductive Input := Arrived (n : Notification NotificationNTRC) | Line (c_line : bytes).

Context `{!Target NotificationNTRC E, !Listeners NotificationNTRC E}.

(** [XBDMContext::DispatchNotification]: to the debugger and to those that listen
    beside it, and to the handler of the shell when it is attached. *)
Definition arrive (n : Notification NotificationNTRC) : M (Session * E) unit :=
  there ← has_debugger;
  (if there : bool then on_debugger (DispatchNotification n) else mret tt) ;;
  id ← gets (λ s, debug_notification_handler_id_ s.1);
  admitted ← gets (λ s, has_handler id s.2);
  if (0 <? id) && admitted then debug_notification_handler show_ntrc n else mret tt.

(** The lines until the input ends or a command exits. *)
Fixpoint Run (input : list Input) : S unit :=
  match input with
  | [] => mret tt
  | Arrived n :: input => on_right (arrive n) ;; Run input
  | Line c_line :: input =>
    match trim c_line with
    | [] => Run input
    | line =>
      result ← ProcessCommand (of_line line);
      match result with
      | EXIT_REQUESTED => mret tt
      | UNHANDLED => say [Str "Unknown command."%bs; Endl] ;; Run input
      | HANDLED => Run input
      end
    end
  end.
End Dispatch.
