(* ===== verification/ShellFrame.v ===== *)
(** * What the commands leave as it was

    A console for the examples of the shell.  A command prints and works on the
    debugger and the console, and keeps two things: no width is left over for the
    next output, and the parser of expressions knows the registers exactly when there
    is a debugger, or only then where the GDB server may have made one.  Most commands also leave the numbers of the stream in base 10. *)

From S2P Require Import TracerRuns.
From S2P Require Import Notifications Tracer DxtRequests DxtLoader DebuggerBacktrace.
From S2P Require Import Prelude CLib Boost Parsing RdcpResponse RdcpMaps RdcpTypes RdcpRequest StopReasons Requests Target FileUtil FrameImages.
From S2P Require Import DebuggerMemory DebuggerThread DebuggerThreads Debugger DebuggerControl Output Session.
From S2P Require Import ShellHelp ShellCommands ShellFiles ShellDebugger ShellExtensions Shell.

Record Script := MkScript { answers : list RDCPResponse; sent : list RDCPRequest }.

Definition next_answer (r : RDCPRequest) (c : Script) : option RDCPResponse * Script :=
  (head (answers c), MkScript (tail (answers c)) (sent c ++ [r])).

#[export] Instance script_target : Target NotificationNTRC Script := {
  answer r _ c := next_answer r c;
  next_notification _ _ := None;
  burst _ _ := 0%nat;
  GetNotificationServerAddress _ := Some 1025;
  StartNotificationListener c := (true, c);
  RegisterNotificationHandler c := (1, c);
  UnregisterNotificationHandler _ c := c;
  has_handler _ _ := true;
  CloseActiveConnections c := c
}.
#[export] Instance script_listeners : Listeners NotificationNTRC Script := {| notify_others _ _ _ c := c |}.
#[export] Instance script_disk : LocalDisk Script := {
  read_local _ _ := None;
  last_write_seconds _ _ := None;
  local_file_size _ _ := None;
  directory_entries _ _ := None;
  relative_path _ _ _ := None;
  write_local _ _ c := (true, c);
  create_directories _ c := c
}.
#[export] Instance script_paths : LocalPaths Script := {
  local_type _ _ := None;
  create_directory _ c := (None, c);
  current_path _ := "/"%bs
}.
#[export] Instance script_screen : Screen Script := {
  local_time _ := "now"%bs;
  SDL_CreateRGBSurfaceWithFormat w h bpp _ _ := Some (w * h * bpp / 8);
  SDL_LockSurface _ := false;
  IMG_SavePNG _ _ c := (false, c)
}.
#[export] Instance script_disassembler : Disassembler := {| cs_open := false; cs_disasm _ _ := [] |}.
#[export] Instance script_lister : Lister := {| lister_opens := false; list_instructions _ _ _ := [] |}.
#[export] Instance script_link : TracerLink Script := {
  answer_dedicated _ _ _ c := (None, c);
  arrivals c := ([], c);
  register_constructor _ c := c;
  unregister_constructor _ c := c;
  path_exists _ _ := false
}.
#[export] Instance script_reconnection : Reconnection Script := {| ReconnectXBDM c := (true, c) |}.
#[export] Existing Instance Boost_reference.boost_reference.

(** The shell with nothing installed on the console, and the start of a session. *)
Definition example_shell : Shell Script := new_shell [] [] [] 100.
Definition example_start (answers : list RDCPResponse) : Shell Script * (Session * Script) :=
  (example_shell, (new_session, MkScript answers [])).

(** What a run over lines prints, and the requests it sends. *)
Definition example_run (answers : list RDCPResponse) (input : list bytes) : option (bytes * list bytes) :=
  (λ x, (written (cout x.2.2.1), map command_ (sent x.2.2.2))) <$> Run (map Line input) (example_start answers).

Example help_of_continue : example_run [] ["?  Continue"%bs] = Some (CommandContinue_help.2 ++ [newline], []).
Proof. vm_compute. reflexivity. Qed.

(** ** Output *)

(** An output that leaves no width, and base 10 if [b] says so and it began in it. *)
Definition quiet (b : bool) (l : list item) : Prop :=
  foldl next_width 0%nat l = 0%nat ∧ ∀ f, b = true → hex_base f = false → hex_base (afters l f) = false.

Lemma afters_app l1 l2 f : afters (l1 ++ l2) f = afters l2 (afters l1 f).
Proof. apply foldl_app. Qed.

Lemma quiet_nil b : quiet b [].
Proof. by split. Qed.

Lemma quiet_app b l1 l2 : quiet b l1 → quiet b l2 → quiet b (l1 ++ l2).
Proof.
  intros [Hw1 Hf1] [Hw2 Hf2]. split; [by rewrite foldl_app, Hw1|]. intros f Hb Hf. rewrite afters_app. auto.
Qed.

Lemma quiet_concat {A} b (g : A → list item) l : (∀ x, quiet b (g x)) → quiet b (concat (map g l)).
Proof. intros Hg. induction l; cbn; [apply quiet_nil|by apply quiet_app]. Qed.

Lemma quiet_replicate b n s : quiet b (replicate n (Str s)).
Proof. induction n; [apply quiet_nil|]. by apply (quiet_app b [_]). Qed.

(** A whole output from a format in base 10: whether the base is 10 again. *)
Lemma quiet_dec b l : foldl next_width 0%nat l = 0%nat → (∀ f, hex_base (afters l f) = false) → quiet b l.
Proof. by split. Qed.

(** Lists that are written out, in parts whose items are known. *)
Ltac quiet_literal := split; [reflexivity|intros ? ? ?; first [reflexivity|assumption|discriminate]].
Ltac quiet_cases :=
  repeat match goal with
  | |- quiet _ (?l1 ++ ?l2) => apply quiet_app
  | |- quiet _ (concat (map _ _)) => apply quiet_concat; intros ?
  | |- quiet ?b (?x :: (?l1 ++ ?l2)) => apply (quiet_app b [x] (l1 ++ l2))
  | |- quiet _ (if ?c then _ else _) => destruct c
  | |- quiet _ (match ?c with _ => _ end) => destruct c
  end.

Create HintDb quiet.
#[export] Hint Resolve quiet_nil quiet_replicate : quiet.

Ltac quiet := intros; quiet_cases; first [solve [auto with quiet]|quiet_literal].

Lemma quiet_show_request {T} b (r : RDCPProcessedRequest T) : quiet b (show_request r).
Proof. quiet_literal. Qed.
Lemma quiet_show_map b r : quiet b (show_map r).
Proof. unfold show_map. quiet. Qed.
Lemma quiet_show_module m : quiet false (show_module m).
Proof. quiet_literal. Qed.
Lemma quiet_show_section b s : quiet b (show_section s).
Proof. quiet_literal. Qed.
Lemma quiet_show_section_info b i : quiet b (show_section_info i).
Proof. unfold show_section_info. quiet. Qed.
Lemma quiet_show_context b c : quiet b (show_context c).
Proof. quiet_literal. Qed.
Lemma quiet_show_float_context c : quiet false (show_float_context c).
Proof. quiet_literal. Qed.
Lemma quiet_show_thread b t : quiet b (show_thread t).
Proof.
  unfold show_thread, print_decimal, print_hex.
  destruct (DebuggerThread.priority t), (DebuggerThread.suspend_count t), (start t), (base t), (limit t), (DebuggerThread.tls_base t); quiet_literal.
Qed.
Lemma quiet_show_stop_reason r : quiet false (show_stop_reason r).
Proof. unfold show_stop_reason. quiet. Qed.
Lemma quiet_show_region b r : quiet b (show_region r).
Proof.
  unfold show_region. split.
  - rewrite !foldl_app. apply (quiet_concat false (λ flag, [Str " "%bs; Str flag])). quiet.
  - intros f Hb Hf. rewrite !afters_app. reflexivity.
Qed.
Lemma quiet_break_type b t : quiet b (break_type_text t).
Proof. unfold break_type_text. quiet. Qed.
Lemma quiet_hex_word b x : foldl next_width 8%nat [x] = 0%nat → quiet b (hex_word x).
Proof. intros Hx. split; [exact Hx|]. by intros. Qed.
#[export] Hint Resolve quiet_show_request quiet_show_map quiet_show_module quiet_show_section quiet_show_section_info
  quiet_show_context quiet_show_float_context quiet_show_thread quiet_show_stop_reason quiet_show_region quiet_break_type : quiet.

(** What is written before the base is taken back does not matter. *)
Lemma quiet_closed b l1 l2 :
  quiet false l1 → quiet false l2 → (∀ f, hex_base (afters l2 f) = false) → quiet b (l1 ++ l2).
Proof.
  intros [Hw1 _] [Hw2 _] Hf. split; [by rewrite foldl_app, Hw1|]. intros f _ _. rewrite afters_app. apply Hf.
Qed.

Lemma quiet_memory_items b n data : ∀ fuel count, quiet b (memory_items fuel n count data).
Proof.
  intros fuel. revert data. induction fuel as [|fuel IH]; intros [|c data] count; try apply quiet_nil.
  cbn [memory_items]. repeat apply quiet_app; [quiet_literal|destruct (_ && _); quiet_literal|apply IH].
Qed.
Lemma quiet_render_memory b n data : quiet b (render_memory n data).
Proof.
  unfold render_memory. rewrite app_assoc. apply quiet_closed; [|quiet_literal|done].
  apply quiet_app; [quiet_literal|apply quiet_memory_items].
Qed.
Lemma quiet_show_instruction b i : quiet b (show_instruction i).
Proof.
  unfold show_instruction. rewrite !app_assoc. apply quiet_closed; [|quiet_literal|done]. quiet.
Qed.
Lemma quiet_show_section_of b ranges entry : quiet b (show_section_of ranges entry).
Proof.
  unfold show_section_of. repeat apply quiet_app; [|apply quiet_show_section|quiet_literal].
  destruct (range_at_most _ _) as [[range module]|]; [destruct (_ <? _); quiet_literal|quiet_literal].
Qed.
Lemma quiet_show_frame b sections ranges frame : quiet b (show_frame sections ranges frame).
Proof.
  unfold show_frame. repeat apply quiet_app; try apply quiet_replicate; try quiet_literal.
  - destruct (decide _); quiet_literal.
  - destruct (call_target frame); [destruct (is_suspicious frame)|]; quiet_literal.
  - destruct (is_indirect_call frame); quiet_literal.
Qed.
#[export] Hint Resolve quiet_render_memory quiet_show_instruction quiet_show_section_of quiet_show_frame : quiet.

(** ** The invariant *)

(** Whether every debugger comes with its parser of expressions; one that the GDB
    server makes does not. *)
Class Strictness := strict : bool.

(** The parser knows the registers of a debugger only when there is one, and exactly
    then where this is strict. *)
Definition paired `{!Strictness} (aware : bool) (d : option XBDMDebugger) : Prop :=
  if strict then aware = bool_decide (is_Some d) else aware = true → is_Some d.
Definition coupled `{!Strictness} (s : Session) : Prop :=
  match expression_parser_ s with
  | Some p => paired (context_aware p) (xbdm_debugger_ s)
  | None => False
  end.

Lemma paired_is `{!Strictness} d : paired (bool_decide (is_Some d)) d.
Proof. unfold paired. destruct strict; [done|]. by intros Hd%bool_decide_eq_true. Qed.
Lemma paired_other `{!Strictness} aware d d' : paired aware (Some d) → paired aware (Some d').
Proof. unfold paired. destruct strict; [done|]. by intros. Qed.

Definition settled (b : bool) (o : ostream) : Prop := field_width o = 0%nat ∧ (b = true → hex_base (Output.format o) = false).

Definition calm `{!Strictness} {E} (b : bool) (x : Session * E) : Prop := settled b (cout x.1) ∧ coupled x.1.

Lemma emits_settled b l o : quiet b l → settled b o → settled b (emits l o).
Proof.
  intros [Hw Hf] [Ho Hb]. split; [by rewrite emits_width, Ho|]. intros Hbt. rewrite emits_format. auto.
Qed.

Section Frame.
Context `{!Strictness, !Boost} {C E : Type} `{!Target C E, !Listeners C E}.
Abbreviation R := (M (Session * E)).
Implicit Types (b : bool).

Lemma keeps_update_session b (f : Session → Session) :
  (∀ s, settled b (cout s) → settled b (cout (f s))) → (∀ s, coupled s → coupled (f s)) →
  keeps (calm (E := E) b) (update_session f).
Proof. intros Ho Hp [s e] [H1 H2]. split; cbn; auto. Qed.

Lemma keeps_print b l : quiet b l → keeps (calm (E := E) b) (print l).
Proof. intros Hl. apply keeps_update_session; [|done]. intros s. by apply emits_settled. Qed.

Lemma keeps_on_console {A} b (m : M E A) : keeps (calm b) (on_console m).
Proof. intros [s e] Hs. apply wp_on_right. unfold wp. by destruct (m e) as [[a e']|]. Qed.

Lemma wp_calm_on_debugger {A} b (m : M (XBDMDebugger * E) A) s e :
  calm b (s, e) →
  wp True (on_debugger m) (s, e) (λ _ x, calm b x ∧ expression_parser_ x.1 = expression_parser_ s).
Proof.
  intros [Ho Hc]. unfold wp, on_debugger. destruct (xbdm_debugger_ s) as [d|] eqn:Hd; [|done].
  cbn [mbind option_bind]. destruct (m (d, e)) as [[a [d' e']]|]; [|done]. split; [split; [done|]|done].
  unfold coupled in *. cbn in *. rewrite Hd in Hc. destruct (expression_parser_ s); [|done]. by eapply paired_other.
Qed.

Lemma keeps_on_debugger {A} b (m : M (XBDMDebugger * E) A) : keeps (calm b) (on_debugger m).
Proof. intros [s e] Hs. eapply wp_mono; [by apply wp_calm_on_debugger|]. by intros a x [Hx _]. Qed.

Lemma keeps_has_debugger b : keeps (calm (E := E) b) has_debugger.
Proof. apply keeps_gets. Qed.

Lemma keeps_replace b d p :
  context_aware p = bool_decide (is_Some d) →
  keeps (calm (E := E) b) (update_session (λ s, SetExpressionParser (Some p) (set_debugger d s))).
Proof. intros Hp. apply keeps_update_session; [done|]. intros s _. unfold coupled. cbn. rewrite Hp. apply paired_is. Qed.

Hint Resolve keeps_print keeps_on_console keeps_on_debugger keeps_has_debugger : keeps.
Hint Extern 2 (keeps _ (if ?c then _ else _)) => destruct c : keeps.
Hint Extern 2 (keeps _ (match ?x with _ => _ end)) => destruct x : keeps.
Hint Extern 2 (keeps _ (let _ := _ in _)) => cbv zeta : keeps.
Hint Extern 3 (quiet _ _) => quiet : keeps.

Lemma keeps_AttachDebugger b : keeps (calm b) AttachDebugger.
Proof. unfold AttachDebugger. auto 20 using keeps_replace with keeps. Qed.
Lemma keeps_DetachDebugger b : keeps (calm b) DetachDebugger.
Proof. unfold DetachDebugger. auto 20 using keeps_replace with keeps. Qed.

Lemma keeps_set_handler b id : keeps (calm (E := E) b) (update_session (set_notification_handler id)).
Proof. by apply keeps_update_session. Qed.
Hint Resolve keeps_AttachDebugger keeps_DetachDebugger keeps_set_handler : keeps.

Lemma keeps_AttachHandler b : keeps (calm b) AttachDebugNotificationHandler.
Proof. unfold AttachDebugNotificationHandler. auto 20 with keeps. Qed.
Lemma keeps_DetachHandler b : keeps (calm b) DetachDebugNotificationHandler.
Proof. unfold DetachDebugNotificationHandler. auto 20 with keeps. Qed.

(** The parser that reads an expression is put back with what it knows of. *)
Lemma keeps_Parse_expression b p expr s e :
  calm b (s, e) → expression_parser_ s = Some p → wp True (Parse_expression p expr) (s, e) (λ _, calm b).
Proof.
  intros Hs Hp. unfold Parse_expression. destruct (context_aware p) eqn:Ha.
  - unfold Parse_with_context. apply wp_bind. eapply (wp_mono _ _ _ (λ _ x, calm b x ∧ expression_parser_ x.1 = Some p)).
    { rewrite <- Hp. by apply wp_calm_on_debugger. }
    intros found [s1 e1] [Hs1 Hp1]. cbn [fst] in Hp1.
    destruct (match found with Some (c, i) => _ | None => _ end) as [context thread_id].
    apply wp_bind. eapply (wp_mono _ _ _ (λ _, calm b)).
    { destruct Hs1 as [Ho Hc]. split; [done|]. unfold coupled in *. cbn in *. rewrite Hp1 in Hc. done. }
    intros _ x Hx. by apply keeps_on_debugger.
  - apply (keeps_bind _ _ _); [apply keeps_lift|intros [r []]; apply keeps_ret|done].
Qed.

Lemma keeps_parse_expr b is_signed args i ret : keeps (calm b) (parse_expr is_signed args i ret).
Proof.
  intros [s e] Hs. unfold parse_expr. apply wp_bind. change (gets ?g ?x) with (Some (g x, x)). unfold wp at 1. cbn [fst gets].
  destruct (expression_parser_ s) as [p|] eqn:Hp, (nth_arg args i) as [a|]; try done.
  destruct (decide _); [|done]. apply wp_bind. eapply wp_mono; [by apply keeps_Parse_expression|done].
Qed.
Hint Resolve keeps_AttachHandler keeps_DetachHandler keeps_parse_expr : keeps.

(** ** The steps the commands share *)

Lemma keeps_SendCommandSync {T} b (k : RequestClass T) r payload init :
  keeps (calm (E := E) b) (Session.SendCommandSync k r payload init).
Proof. apply keeps_on_console. Qed.
Hint Resolve keeps_SendCommandSync : keeps.

Lemma keeps_SendAndPrintMessage {T} b (k : RequestClass T) r init : keeps (calm (E := E) b) (SendAndPrintMessage k r init).
Proof. unfold SendAndPrintMessage. auto 20 with keeps. Qed.

Lemma keeps_send_and_show {T} b (k : RequestClass T) r init (show : T → R unit) :
  (∀ x, keeps (calm b) (show x)) → keeps (calm b) (send_and_show k r init show).
Proof. intros Hs. unfold send_and_show. auto 20 with keeps. Qed.

Lemma keeps_usage b help : keeps (calm (E := E) b) (usage help).
Proof. apply keeps_print. quiet. Qed.
Hint Resolve keeps_usage : keeps.

Lemma keeps_missing b argument help : keeps (calm (E := E) b) (missing argument help).
Proof. unfold missing. auto 20 with keeps. Qed.

Lemma keeps_with_int b is_signed args i otherwise (k : Z → R unit) :
  keeps (calm b) otherwise → (∀ v, keeps (calm b) (k v)) → keeps (calm b) (with_int is_signed args i otherwise k).
Proof. intros Ho Hk. unfold with_int. auto 20 with keeps. Qed.

Lemma keeps_with_string b args i otherwise (k : bytes → R unit) :
  keeps (calm b) otherwise → (∀ v, keeps (calm b) (k v)) → keeps (calm b) (with_string args i otherwise k).
Proof. intros Ho Hk. unfold with_string. auto 20 with keeps. Qed.

Lemma keeps_with_debugger b (k : R unit) : keeps (calm b) k → keeps (calm b) (with_debugger k).
Proof. intros Hk. unfold with_debugger. auto 20 with keeps. Qed.

Lemma keeps_with_active_thread b (k : ptr → R unit) : (∀ p, keeps (calm b) (k p)) → keeps (calm b) (with_active_thread k).
Proof. intros Hk. unfold with_active_thread. auto 20 with keeps. Qed.

Lemma keeps_on_thread_ {A} b p (m : M (Thread * E) A) : keeps (calm b) (on_thread_ p m).
Proof. apply keeps_on_debugger. Qed.
Lemma keeps_the_thread b p : keeps (calm (E := E) b) (the_thread p).
Proof. apply keeps_on_debugger. Qed.
End Frame.

#[export] Hint Resolve keeps_on_console keeps_on_debugger keeps_has_debugger keeps_AttachDebugger keeps_DetachDebugger
  keeps_AttachHandler keeps_DetachHandler keeps_parse_expr keeps_SendCommandSync keeps_SendAndPrintMessage keeps_usage
  keeps_missing keeps_on_thread_ keeps_the_thread : keeps.

(** One step into a command. *)
Ltac keep_step :=
  match goal with
  | |- keeps _ (_ ≫= _) => apply keeps_bind; [|intros ?]
  | |- keeps _ (print _) => apply keeps_print; quiet
  | |- keeps _ (send_and_show _ _ _ _) => apply keeps_send_and_show; intros ?
  | |- keeps _ (with_int _ _ _ _ _) => apply keeps_with_int; [|intros ?]
  | |- keeps _ (with_string _ _ _ _) => apply keeps_with_string; [|intros ?]
  | |- keeps _ (with_debugger _) => apply keeps_with_debugger
  | |- keeps _ (with_active_thread _) => apply keeps_with_active_thread; intros ?
  | |- keeps _ (for_each _ _) => apply keeps_for_each; intros ?
  | |- keeps _ (if ?c then _ else _) => destruct c
  | |- keeps _ (match ?x with _ => _ end) => destruct x
  | |- keeps _ (let _ := _ in _) => cbv zeta
  | |- keeps _ _ => solve [auto with keeps]
  end.
Ltac keep := intros; repeat keep_step.

Section Requests_.
Context `{!Strictness, !Boost} {C E : Type} `{!Target C E, !Listeners C E}.

Lemma keeps_UpdateCondition b a h m address c : keeps (calm (E := E) b) (UpdateCondition a h m address c).
Proof. unfold UpdateCondition. keep. Qed.
Lemma keeps_break_at b p (condition : BreakpointType → Z → M (Session * E) unit) mode size request :
  (∀ m a, keeps (calm b) (condition m a)) → keeps (calm b) (break_at p condition mode size request).
Proof. intros Hc. unfold break_at. keep. Qed.
Hint Resolve keeps_UpdateCondition keeps_break_at : keeps.
Lemma keeps_CommandGetContext b args : keeps (calm (E := E) b) (CommandGetContext args).
Proof. unfold CommandGetContext. keep. Qed.
End Requests_.
#[export] Hint Resolve keeps_UpdateCondition keeps_break_at keeps_CommandGetContext : keeps.

(** ** Files and memory *)

Section Files.
Context `{!Strictness, !Boost} {C E : Type} `{!Target C E, !Listeners C E, !LocalDisk E, !LocalPaths E, !Screen E}.

Lemma keeps_CheckRemotePath b path : keeps (calm (E := E) b) (ShellFiles.CheckRemotePath path).
Proof. unfold ShellFiles.CheckRemotePath. keep. Qed.
Lemma keeps_FetchDirectoryEntries b path : keeps (calm (E := E) b) (ShellFiles.FetchDirectoryEntries path).
Proof. unfold ShellFiles.FetchDirectoryEntries. keep. Qed.
Lemma keeps_with_path b args help (k : bytes → M (Session * E) unit) :
  (∀ p, keeps (calm b) (k p)) → keeps (calm b) (with_path args help k).
Proof. intros Hk. unfold with_path. keep. Qed.
Lemma keeps_with_expression b args i name help (k : Z → M (Session * E) unit) :
  (∀ v, keeps (calm b) (k v)) → keeps (calm b) (with_expression args i name help k).
Proof. intros Hk. unfold with_expression. keep. Qed.
Lemma keeps_make_directories b path : keeps (calm (E := E) b) (make_directories path).
Proof. apply keeps_on_console. Qed.
Lemma keeps_save_memory b path data : keeps (calm (E := E) b) (save_memory path data).
Proof. unfold save_memory. keep. Qed.
Lemma keeps_Convert b info pixels w h : keeps (calm (E := E) b) (Convert info pixels w h).
Proof. unfold Convert. keep. Qed.
End Files.
#[export] Hint Resolve keeps_CheckRemotePath keeps_FetchDirectoryEntries keeps_make_directories keeps_save_memory keeps_Convert : keeps.

(** ** The debugger *)

Section Debugger_.
Context `{!Strictness, !Boost, !Disassembler, !Lister} {C E : Type} `{!Target C E, !Listeners C E}.

Lemma keeps_debug_xbe b args w m : keeps (calm (E := E) b) (debug_xbe args w m).
Proof. unfold debug_xbe. keep. Qed.
Hint Resolve keeps_debug_xbe : keeps.
Lemma keeps_launch b help w m args : keeps (calm (E := E) b) (launch help w m args).
Proof. unfold launch. keep. Qed.
Lemma keeps_or_print b (m : M (Session * E) bool) message : keeps (calm b) m → keeps (calm b) (or_print m message).
Proof. intros Hm. unfold or_print. keep. Qed.
Lemma keeps_active_thread_request b (m : M (Thread * E) bool) message : keeps (calm b) (active_thread_request m message).
Proof. unfold active_thread_request. keep. Qed.
Lemma keeps_PrintThreadContext b p args : keeps (calm (E := E) b) (PrintThreadContext p args).
Proof. unfold PrintThreadContext. keep. Qed.
Lemma keeps_first_with_stack b address l : keeps (calm (E := E) b) (first_with_stack address l).
Proof. induction l as [|p l IH]; cbn [first_with_stack]; keep. Qed.
Lemma keeps_show_active_thread b (k : ptr → M (Session * E) unit) :
  (∀ p, keeps (calm b) (k p)) → keeps (calm b) (show_active_thread k).
Proof. intros Hk. unfold show_active_thread. keep. Qed.
Lemma keeps_code_address b args : keeps (calm (E := E) b) (code_address args).
Proof. unfold code_address. keep. Qed.
End Debugger_.
#[export] Hint Resolve keeps_launch keeps_active_thread_request keeps_PrintThreadContext keeps_first_with_stack
  keeps_code_address : keeps.

(** ** The loader and the tracer *)

Section Extensions.
Context `{!Strictness, !Boost} {E : Type} `{!Target NotificationNTRC E, !Listeners NotificationNTRC E, !LocalDisk E, !LocalPaths E}.
Context `{!ImageTools, !NTRC, !TracerLink E, !Reconnection E}.
Context (l1 l2 dxt : bytes) (fuel : nat).

(** A debugger is put back where there was one. *)
Lemma coupled_debugger s d : coupled s → coupled (set_debugger ((λ _ : XBDMDebugger, d) <$> xbdm_debugger_ s) s).
Proof.
  unfold coupled. cbn. destruct (expression_parser_ s); [|done]. destruct (xbdm_debugger_ s); [|done]. apply paired_other.
Qed.

Lemma keeps_on_loader {A} b (m : M (option Loader * (XBDMDebugger * E)) A) : keeps (calm b) (on_loader m).
Proof.
  intros [s e] [Ho Hc]. unfold wp, on_loader. destruct (m _) as [[a [l [d e']]]|]; [|done]. split; [done|].
  exact (coupled_debugger s d Hc).
Qed.
Lemma keeps_on_new_tracer {A} b (m : M (Tracer * E) A) : keeps (calm b) (on_new_tracer m).
Proof. intros [s e] [Ho Hc]. unfold wp, on_new_tracer. by destruct (m _) as [[a [t e']]|]. Qed.
Lemma keeps_on_tracing {A} b (m : M (option Tracer * (option Loader * (XBDMDebugger * E))) A) : keeps (calm b) (on_tracing m).
Proof.
  intros [s e] [Ho Hc]. unfold wp, on_tracing. destruct (m _) as [[a [t [l [d e']]]]|]; [|done]. split; [done|].
  exact (coupled_debugger s d Hc).
Qed.
Hint Resolve keeps_on_loader keeps_on_new_tracer keeps_on_tracing : keeps.

Lemma keeps_invoke_multiline b c args : keeps (calm (E := E) b) (invoke_multiline c args).
Proof. unfold invoke_multiline. keep. Qed.
Lemma keeps_InjectLoader_ b : keeps (calm (E := E) b) (InjectLoader_ l1 l2 dxt).
Proof. unfold InjectLoader_. keep. Qed.
Hint Resolve keeps_invoke_multiline keeps_InjectLoader_ : keeps.
Lemma keeps_Bootstrap_ b : keeps (calm (E := E) b) (Bootstrap_ l1 l2 dxt).
Proof. unfold Bootstrap_. keep. Qed.
Hint Resolve keeps_Bootstrap_ : keeps.
Lemma keeps_Install_ b data : keeps (calm (E := E) b) (Install_ l1 l2 dxt data).
Proof. unfold Install_. keep. Qed.
Lemma keeps_Load_ b path : keeps (calm (E := E) b) (Load_ l1 l2 dxt path).
Proof. unfold Load_, InstallDynDXT_path. keep. Qed.
Hint Resolve keeps_Install_ keeps_Load_ : keeps.
Lemma keeps_Initialize_ b : keeps (calm (E := E) b) (Initialize_ l1 l2 dxt).
Proof. unfold Initialize_. keep. Qed.
Lemma keeps_BreakOnFrameStart_ b flip : keeps (calm (E := E) b) (BreakOnFrameStart_ fuel flip).
Proof. unfold BreakOnFrameStart_. keep. Qed.

Lemma keeps_with_line b args depth (k : bytes → M (Session * E) unit) :
  (∀ l, keeps (calm b) (k l)) → keeps (calm b) (with_line args depth k).
Proof. intros Hk. unfold with_line. keep. Qed.
Lemma keeps_with_command b args (k : bytes → M (Session * E) unit) :
  (∀ l, keeps (calm b) (k l)) → keeps (calm b) (with_command args k).
Proof. intros Hk. unfold with_command. keep. Qed.
Lemma keeps_with_file b args name (k : bytes → M (Session * E) unit) :
  (∀ l, keeps (calm b) (k l)) → keeps (calm b) (with_file args name k).
Proof. intros Hk. unfold with_file. keep. Qed.
Lemma keeps_invoke {T} b (k : RequestClass T) r payload init : keeps (calm (E := E) b) (invoke k r payload init).
Proof. unfold invoke. keep. Qed.

Lemma quiet_init_options b l : ∀ opts complaint, init_options l opts = inr complaint → quiet b complaint.
Proof.
  induction l as [l IH] using (induction_ltof1 _ (@length bytes)). intros opts complaint. unfold ltof in IH.
  destruct l as [|key l]; cbn [init_options]; [done|].
  destruct (decide _); [by intros [= <-]; quiet_literal|]. destruct l as [|param l]; [by intros [= <-]; quiet_literal|].
  intros Hc. eapply IH; [|exact Hc]. cbn. lia.
Qed.

Lemma quiet_complaint b l key : quiet b l → quiet b (l ++ missing_value key).
Proof. intros Hl. apply quiet_app; [done|quiet_literal]. Qed.

Lemma quiet_trace_options b l : ∀ o, quiet b (complaints o) →
  match trace_options l o with Some (inl o') => quiet b (complaints o') | Some (inr complaint) => quiet b complaint | None => True end.
Proof.
  induction l as [l IH] using (induction_ltof1 _ (@length bytes)). intros o Ho. unfold ltof in IH.
  destruct l as [|key l]; cbn [trace_options]; [done|].
  repeat (destruct (decide _); [apply IH; [cbn; lia|done]|]). destruct l as [|v l]; [by apply quiet_complaint|].
  destruct (decide _); [apply IH; [cbn; lia|done]|].
  destruct (decide _); [destruct (stoi v) as [count|[]]; [apply IH; [cbn; lia|done]| |done]|apply IH; [cbn; lia|]].
  all: cbn; apply quiet_app; [done|quiet_literal].
Qed.

Lemma quiet_split_options b l : ∀ a t complaint, split_options l a t = inr complaint → quiet b complaint.
Proof.
  induction l as [l IH] using (induction_ltof1 _ (@length bytes)). intros a t complaint. unfold ltof in IH.
  destruct l as [|key [|v l]]; cbn [split_options]; [done|by intros [= <-]; quiet_literal|].
  destruct (decide _); [apply IH; cbn; lia|]. destruct (decide _); [apply (IH (v :: l)); cbn; lia|apply IH; cbn; lia].
Qed.

Lemma keeps_TracerCommandInit b args : keeps (calm (E := E) b) (TracerCommandInit l1 l2 dxt args).
Proof.
  unfold TracerCommandInit. apply keeps_bind; [apply keeps_Initialize_|intros initialized]. destruct (negb initialized); [keep|].
  destruct (init_options _ _) eqn:Ho; [keep|].
  apply keeps_print. by eapply quiet_init_options.
Qed.
Lemma keeps_TracerCommandDetach b args : keeps (calm (E := E) b) (TracerCommandDetach args).
Proof. unfold TracerCommandDetach. keep. Qed.
Lemma keeps_TracerCommandTraceFrames b args : keeps (calm (E := E) b) (TracerCommandTraceFrames fuel args).
Proof.
  unfold TracerCommandTraceFrames. apply keeps_bind; [keep|intros here]. apply keeps_lift_bind. intros options Ho.
  pose proof (quiet_trace_options b (map value (arguments args)) (MkTraceOptions here 1 false false []) (quiet_nil b)) as Hq.
  rewrite Ho in Hq. destruct options as [o|complaint]; [|by apply keeps_print].
  apply keeps_bind; [by apply keeps_print|intros _]. apply keeps_bind; [destruct (nodiscard o); [apply keeps_ret|apply keeps_BreakOnFrameStart_]|].
  keep.
Qed.

Hint Resolve keeps_TracerCommandInit keeps_TracerCommandDetach keeps_TracerCommandTraceFrames : keeps.
Lemma keeps_ShellCommandTrace b args : keeps (calm (E := E) b) (ShellCommandTrace l1 l2 dxt fuel args).
Proof.
  unfold ShellCommandTrace. destruct (split_options _ _ _) as [[attach_args trace_args]|] eqn:Ho; [keep|].
  apply keeps_print. by eapply quiet_split_options.
Qed.
End Extensions.
#[export] Hint Resolve keeps_on_loader keeps_on_new_tracer keeps_on_tracing keeps_invoke_multiline keeps_Bootstrap_
  keeps_Load_ keeps_invoke keeps_Initialize_ keeps_BreakOnFrameStart_ keeps_TracerCommandInit keeps_TracerCommandDetach
  keeps_TracerCommandTraceFrames keeps_ShellCommandTrace : keeps.
