(* ===== verification/ShellRuns.v ===== *)
(** * Runs of the shell

    What holds after any lines were typed, and what a line comes to. *)

From S2P Require Import Notifications Tracer DxtRequests DxtLoader DebuggerBacktrace.
From S2P Require Import Prelude CLib Boost Parsing RdcpResponse RdcpMaps RdcpTypes RdcpRequest StopReasons Requests Target FileUtil FrameImages.
From S2P Require Import DebuggerMemory DebuggerThread DebuggerThreads Debugger DebuggerControl Output Session.
From S2P Require Import ShellHelp ShellCommands ShellFiles ShellDebugger ShellExtensions Shell ShellFrame.

(** The commands that print in base 16 and leave it so. *)
Definition loud : list bytes := ["modules"%bs; "/modules"%bs; "isstopped"%bs; "getextcontext"%bs].
Definition restful (name : bytes) : bool := negb (bool_decide (name ∈ loud)).

(** The notifications that are printed so. *)
Definition loud_notification (n : Notification NotificationNTRC) : bool :=
  match n with
  | NotificationModuleLoaded _ | NotificationThreadCreated _ _ | NotificationBreakpoint _ _ _
  | NotificationWatchpoint _ _ _ _ _ _ | NotificationSingleStep _ _ | NotificationException _ _ _ _ _ => true
  | _ => false
  end.

(** The commands that leave the parser of expressions as it was beside a debugger they
    make. *)
Definition couples (name : bytes) : bool := negb (bool_decide (name = "gdb"%bs)).

(** The command of what is entered. *)
Definition command_of_line `{!Boost} (line : bytes) : bytes := Parsing.command (of_line (trim line)).

(** What comes to the shell leaves base 10, and the debugger its parser. *)
Definition restful_input `{!Boost} (i : Input) : Prop :=
  match i with Line line => restful (command_of_line line) = true | Arrived n => loud_notification n = false end.
Definition coupling_input `{!Boost} (i : Input) : Prop :=
  match i with Line line => couples (command_of_line line) = true | Arrived _ => True end.

#[global] Instance restful_input_decision `{!Boost} i : Decision (restful_input i).
Proof. destruct i; cbn; apply _. Defined.
#[global] Instance coupling_input_decision `{!Boost} i : Decision (coupling_input i).
Proof. destruct i; cbn; apply _. Defined.

Section Table.
Context `{!Strictness} {E : Type}.
Abbreviation table := (gmap bytes (option (Command E))).

(** Every command of a table has a property, which may depend on its name. *)
Definition every (P : bytes → Command E → Prop) (m : table) : Prop := ∀ name c, m !! name = Some (Some c) → P name c.

Lemma every_REGISTER P m name c : every P m → P name c → every P (REGISTER name c m).
Proof.
  intros Hm Hc name' c' Hl. unfold REGISTER in Hl. destruct (decide (name = name')) as [<-|Hne].
  - rewrite lookup_insert_eq in Hl. by simplify_eq.
  - rewrite lookup_insert_ne in Hl by done. by apply Hm.
Qed.

Lemma every_UNHANDLED P m name : every P m → every P (UNHANDLED_HERE name m).
Proof.
  intros Hm name' c Hl. unfold UNHANDLED_HERE in Hl. destruct (decide (name = name')) as [<-|Hne].
  - by rewrite lookup_insert_eq in Hl.
  - rewrite lookup_insert_ne in Hl by done. by apply Hm.
Qed.

Lemma every_ALIAS P m name alias : (∀ c, P name c → P alias c) → every P m → every P (ALIAS name alias m).
Proof.
  intros Ha Hm name' c Hl. unfold ALIAS in Hl. destruct (decide (alias = name')) as [<-|Hne].
  - rewrite lookup_insert_eq in Hl. apply Ha, Hm. destruct (m !! name) as [entry|]; [by f_equal; simplify_eq|done].
  - rewrite lookup_insert_ne in Hl by done. by apply Hm.
Qed.

Lemma every_foldl P l : Forall (λ register, ∀ m, every P m → every P (register m)) l →
  ∀ m, every P m → every P (foldl (λ m register, register m) m l).
Proof. induction 1 as [|register l Hr _ IH]; intros m Hm; [done|]. apply IH, Hr, Hm. Qed.

(** A word that is allowed where base 10 and the parser of the debugger are to be kept. *)
Definition allowed_word (b : bool) (name : bytes) : Prop :=
  (b = true → restful name = true) ∧ (strict = true → couples name = true).

(** Every command keeps base 10 and the parser where it must. *)
Definition calm_command (name : bytes) (c : Command E) : Prop :=
  ∀ args b, allowed_word b name → keeps (calm b) (run c args).
Definition calm_entries : table → Prop := every calm_command.

Lemma calm_handled b (m : M (Session * E) unit) : keeps (calm b) m → keeps (calm b) (handled m).
Proof. intros Hm. unfold handled. auto with keeps. Qed.
End Table.

(** A command is looked into from its name. *)
Ltac head_of t := lazymatch t with ?f _ => head_of f | _ => t end.
Ltac keep_command :=
  match goal with
  | |- keeps _ (with_path _ _ _) => apply keeps_with_path; intros ?
  | |- keeps _ (with_expression _ _ _ _ _) => apply keeps_with_expression; intros ?
  | |- keeps _ (with_line _ _ _) => apply keeps_with_line; intros ?
  | |- keeps _ (with_command _ _) => apply keeps_with_command; intros ?
  | |- keeps _ (with_file _ _ _) => apply keeps_with_file; intros ?
  | |- keeps _ (or_print _ _) => apply keeps_or_print
  | |- keeps _ (show_active_thread _) => apply keeps_show_active_thread; intros ?
  | |- _ => keep_step
  end.
Ltac calm_entry :=
  intros args b [Hb _]; match type of Hb with _ → ?r = true => let r' := eval vm_compute in r in change r with r' in Hb end;
  lazymatch type of Hb with
  | _ → false = true => destruct b; [discriminate (Hb eq_refl)|clear Hb]
  | _ => clear Hb
  end;
  lazymatch goal with
  | |- keeps (calm ?b) (run (command_of _ ?op) args) =>
    apply (calm_handled b (op args)); try solve [auto with keeps];
    let h := head_of op in unfold h; repeat keep_command
  | |- _ => apply keeps_ret
  end.

Section Shell_.
Context `{!Strictness} {E : Type} `{!Boost, !Target NotificationNTRC E, !Listeners NotificationNTRC E, !LocalDisk E, !LocalPaths E, !Screen E}.
Context `{!Disassembler, !Lister, !ImageTools, !NTRC, !TracerLink E, !Reconnection E}.
Context (l1 l2 dxt : bytes) (fuel : nat).

Definition keeps_calm (register : gmap bytes (option (Command E)) → gmap bytes (option (Command E))) : Prop :=
  ∀ m, calm_entries m → calm_entries (register m).

Ltac calm_registration :=
  intros m Hm; unfold calm_entries in *;
  lazymatch goal with
  | |- every _ (ALIAS _ _ _) => apply every_ALIAS; [intros c Hc args b Hb; exact (Hc args b Hb)|done]
  | |- every _ (REGISTER _ _ _) => apply every_REGISTER; [done|calm_entry]
  | |- _ => by apply every_UNHANDLED
  end.

Ltac calm_registrations := repeat (apply Forall_cons; split; [calm_registration|]); apply Forall_nil.

Lemma calm_own : Forall keeps_calm (own_commands l1 l2 dxt fuel).
Proof. calm_registrations. all: done. Qed.
Lemma calm_debugger : Forall keeps_calm debugger_commands.
Proof. calm_registrations. all: done. Qed.
Lemma calm_extensions : Forall keeps_calm (extension_commands l1 l2 dxt fuel).
Proof. calm_registrations. all: done. Qed.
Lemma calm_requests : Forall keeps_calm (request_commands fuel).
Proof. calm_registrations. all: done. Qed.
Lemma calm_macros : Forall keeps_calm (macro_commands fuel).
Proof. calm_registrations. all: done. Qed.

Lemma calm_constructor : calm_entries (commands_ (new_shell l1 l2 dxt fuel)).
Proof.
  apply every_foldl; [|by intros ? ? [=]]. unfold all_commands.
  repeat apply Forall_app_2; [apply calm_own|apply calm_debugger|apply calm_extensions|apply calm_requests|apply calm_macros].
Qed.
End Shell_.

(** ** Without a debugger *)

Definition needs_debugger : list bytes :=
  ["/restart"%bs; "/switch"%bs; "/threads"%bs; "/whichthread"%bs; "/wt"%bs; "/info"%bs; "/infowithcontext"%bs; "/ic"%bs;
   "/autoinfo"%bs; "/haltall"%bs; "/halt"%bs; "/continueall"%bs; "/continueallgo"%bs; "/cag"%bs; "/disassemble"%bs;
   "/disasm"%bs; "/u"%bs; "/dma"%bs; "/continue"%bs; "/suspend"%bs; "/resume"%bs; "/modules"%bs; "/sections"%bs;
   "/stepi"%bs; "/si"%bs; "/stepfun"%bs; "/stepf"%bs; "/guessbacktrace"%bs; "/gbt"%bs].

Definition refuses {E} (c : Command E) : Prop := ∀ args s e, xbdm_debugger_ s = None →
  run c args (s, e) = Some (HANDLED, (set_cout (emits [Str "Debugger not attached."%bs; Endl] (cout s)) s, e)).

Lemma refuses_with_debugger {E} help (operator : ArgParser → M (Session * E) unit) :
  (∀ args, ∃ k, operator args = with_debugger k) → refuses (command_of help operator).
Proof.
  intros Ho args s e Hd. destruct (Ho args) as [k Hk]. cbn [run command_of]. rewrite Hk.
  unfold handled, with_debugger, has_debugger, mbind, M_bind, gets. cbn. by rewrite Hd.
Qed.

Section Refusing.
Context {E : Type} `{!Boost, !Target NotificationNTRC E, !Listeners NotificationNTRC E, !LocalDisk E, !LocalPaths E, !Screen E}.
Context `{!Disassembler, !Lister, !ImageTools, !NTRC, !TracerLink E, !Reconnection E}.
Context (l1 l2 dxt : bytes) (fuel : nat).

Definition refusing (name : bytes) (c : Command E) : Prop := bool_decide (name ∈ needs_debugger) = true → refuses c.

Ltac refusing_registration :=
  intros m Hm;
  lazymatch goal with
  | |- every _ (ALIAS _ _ _) => apply every_ALIAS; [intros c Hc Hn; exact (Hc Hn)|done]
  | |- every _ (REGISTER _ _ _) =>
    apply every_REGISTER; [done|]; intros Hn;
    first [discriminate Hn|apply refuses_with_debugger; intros args; eexists; reflexivity]
  | |- _ => by apply every_UNHANDLED
  end.
Ltac refusing_registrations := repeat (apply Forall_cons; split; [refusing_registration|]); by apply Forall_nil.
Abbreviation keeps_refusing := (λ register, ∀ m, every refusing m → every refusing (register m)).

Lemma refusing_constructor : every refusing (commands_ (new_shell l1 l2 dxt fuel)).
Proof.
  apply every_foldl; [|by intros ? ? [=]]. unfold all_commands. repeat apply Forall_app_2; refusing_registrations.
Qed.

(** C24. A command that works with the debugger, given by its name or an alias, says when
    there is no debugger that none is attached: it sends no request and changes nothing
    but the stream, whatever its arguments are. *)
Theorem debugger_missing (name : bytes) (args : ArgParser) (s : Session) (e : E) :
  name ∈ needs_debugger → xbdm_debugger_ s = None →
  ∃ c, commands_ (new_shell l1 l2 dxt fuel) !! name = Some (Some c)
  ∧ run c args (s, e) = Some (HANDLED, (set_cout (emits [Str "Debugger not attached."%bs; Endl] (cout s)) s, e)).
Proof.
  intros Hn Hd.
  assert (Hall : List.forallb (λ name, match commands_ (new_shell l1 l2 dxt fuel) !! name with Some (Some _) => true | _ => false end)
    needs_debugger = true) by (vm_compute; reflexivity).
  rewrite List.forallb_forall in Hall. pose proof (Hall name (proj1 (list_elem_of_In _ _) Hn)) as Hl.
  destruct (commands_ _ !! name) as [[c|]|] eqn:Hc; [|done|done]. exists c. split; [done|].
  refine (refusing_constructor name c Hc _ args s e Hd). by apply bool_decide_eq_true.
Qed.
End Refusing.

(** ** Lines *)

Section Dispatch.
Context `{!Strictness, !Boost} {E : Type} `{!Target NotificationNTRC E, !Listeners NotificationNTRC E}.
Abbreviation S := (M (Shell E * (Session * E))).

(** A state of the shell: its table is calm, and the last command was one that is
    allowed. *)
Definition calm_state (b : bool) (x : Shell E * (Session * E)) : Prop :=
  calm_entries (commands_ x.1) ∧ calm b x.2
  ∧ match last_command_ x.1 with Some p => allowed_word b (Parsing.command p) | None => True end.

Lemma keeps_say b l : quiet b l → keeps (calm_state b) (say l).
Proof.
  intros Hl [sh x] (Ht & Hc & Hp). apply wp_on_right. eapply wp_mono; [by apply keeps_print|]. done.
Qed.

Lemma keeps_PrintHelp b p : keeps (calm_state b) (PrintHelp p).
Proof.
  unfold PrintHelp. apply keeps_bind; [apply keeps_gets|intros sh]. destruct (arguments p).
  - apply keeps_say. apply quiet_app; [quiet_literal|]. apply quiet_concat. intros [name entry]. quiet_literal.
  - repeat (destruct (decide _); [apply keeps_say; quiet_literal|]).
    destruct (commands_ sh !! _) as [[c|]|]; [|apply keeps_fail|]; apply keeps_say; quiet_literal.
Qed.

Lemma keeps_execute b p : allowed_word b (Parsing.command p) → keeps (calm_state b) (execute p).
Proof.
  intros Hb. unfold execute. apply keeps_bind; [|intros _].
  { intros [sh x] (Ht & Hc & _). exact (conj Ht (conj Hc Hb)). }
  destruct (decide _); [apply keeps_bind; [apply keeps_PrintHelp|intros _; apply keeps_ret]|].
  apply keeps_bind_wp. intros [sh x] (Ht & Hc & Hp). cbn [gets]. unfold wp at 1. cbn [fst gets].
  destruct (commands_ sh !! _) as [[c|]|] eqn:Hl; [|done|done].
  apply wp_on_right. eapply wp_mono; [by eapply Ht|]. done.
Qed.

Lemma keeps_ProcessCommand b p :
  allowed_word b (Parsing.command p) → keeps (calm_state b) (ProcessCommand p).
Proof.
  intros Hb. unfold ProcessCommand. destruct (decide _); [|by apply keeps_execute].
  apply keeps_bind_wp. intros [sh x] Hs. unfold wp at 1. cbn [fst gets].
  pose proof Hs as (_ & _ & Hp). cbn [fst] in Hp. destruct (last_command_ sh) as [q|].
  - refine (keeps_bind _ _ _ _ _ _ Hs); [|intros _; by apply keeps_execute]. apply keeps_say.
    repeat apply quiet_app; [quiet_literal|apply quiet_concat; intros a; quiet_literal|quiet_literal].
  - refine (keeps_bind _ _ _ _ _ _ Hs); [|intros _; apply keeps_ret]. apply keeps_say. quiet_literal.
Qed.

(** A notification that is printed. *)
Lemma quiet_show_flags b flags : quiet b (show_flags flags).
Proof.
  unfold show_flags. destruct (in_order flags) as [|flag l]; [apply quiet_nil|].
  apply (quiet_app b [_]); [quiet_literal|]. apply quiet_concat. intros f. quiet_literal.
Qed.

Lemma quiet_notification b n :
  (b = true → loud_notification n = false) → quiet b (show_notification show_ntrc n ++ [Endl]).
Proof.
  intros Hb. apply quiet_app; [|quiet_literal]. destruct b.
  - specialize (Hb eq_refl). destruct n; try discriminate Hb; cbn [show_notification].
    all: first [ quiet_literal
               | apply (quiet_app true [_]); [quiet_literal|first [apply quiet_show_section|apply quiet_show_map]]
               | unfold show_state; destruct state; quiet_literal ].
  - clear Hb. destruct n; cbn [show_notification].
    all: first [ quiet_literal
               | apply (quiet_app false [_]); [quiet_literal|first [apply quiet_show_module|apply quiet_show_section|apply quiet_show_map]]
               | apply quiet_app; [quiet_literal|apply quiet_show_flags]
               | unfold show_state; destruct state; quiet_literal ].
Qed.

Lemma keeps_arrive b n : (b = true → loud_notification n = false) → keeps (calm b) (arrive n).
Proof.
  intros Hb. unfold arrive. apply keeps_bind; [apply keeps_has_debugger|intros there].
  apply keeps_bind; [destruct there; [apply keeps_on_debugger|apply keeps_ret]|intros _].
  apply keeps_bind; [apply keeps_gets|intros id]. apply keeps_bind; [apply keeps_gets|intros admitted].
  destruct (_ && _); [|apply keeps_ret]. by apply keeps_print, quiet_notification.
Qed.

Lemma keeps_Run b input :
  (b = true → Forall restful_input input) → (strict = true → Forall coupling_input input) → keeps (calm_state b) (Run input).
Proof.
  induction input as [|i input IH]; intros Hb Hc; [apply keeps_ret|].
  assert (Ht : keeps (calm_state b) (Run input)).
  { apply IH; [intros Hbt; by apply Forall_cons in Hb as [_ Hb]|intros Hct; by apply Forall_cons in Hc as [_ Hc]]. }
  destruct i as [n|line]; cbn [Run].
  - apply keeps_bind; [|done]. intros [sh x] (Htable & Hx & Hp). apply wp_on_right.
    eapply (wp_mono _ _ _ (λ _, calm b)); [|intros u x' Hx'; exact (conj Htable (conj Hx' Hp))].
    apply (keeps_arrive b n); [|done]. intros Hbt. by apply Forall_cons in Hb as [Hb _].
  - destruct (trim line) as [|c text] eqn:Hline; [done|]. apply keeps_bind.
    + apply keeps_ProcessCommand. split; intros Hyes.
      * apply Forall_cons in Hb as [Hb _]; [|done]. unfold restful_input, command_of_line in Hb. by rewrite Hline in Hb.
      * apply Forall_cons in Hc as [Hc _]; [|done]. unfold coupling_input, command_of_line in Hc. by rewrite Hline in Hc.
    + intros []; [|done|apply keeps_ret]. apply keeps_bind; [apply keeps_say; quiet_literal|done].
Qed.
End Dispatch.

(** ** What a line comes to *)

Section Lines.
Context `{!Boost} {E : Type} `{!Target NotificationNTRC E, !Listeners NotificationNTRC E}.
Abbreviation S := (M (Shell E * (Session * E))).

(** The words without a handler are seen to before the table is looked at, and the
    last command is not the one that repeats it. *)
Definition words_without_handler : list bytes := ["help"%bs; "?"%bs; "!"%bs].
Definition sound (sh : Shell E) : Prop :=
  (∀ name, commands_ sh !! name = Some None → name ∈ words_without_handler)
  ∧ match last_command_ sh with Some p => Parsing.command p ≠ "!"%bs | None => True end.

(** Help fails for no topic. *)
Lemma PrintHelp_ends p sh s : sound sh → ∃ s', PrintHelp p (sh, s) = Some (tt, (sh, s')).
Proof.
  destruct s as [s e]. intros [Hn _].
  assert (Hsay : ∀ l, ∃ s', say l (sh, (s, e)) = Some (tt, (sh, s'))) by (intros l; eexists; reflexivity).
  unfold PrintHelp. rewrite (bind_run _ _ _ sh (sh, (s, e))) by done. destruct (arguments p); [apply Hsay|].
  destruct (decide _) as [|Hhelp]; [apply Hsay|]. destruct (decide _) as [|Hreplay]; [apply Hsay|].
  destruct (commands_ sh !! _) as [[c|]|] eqn:Hl; [apply Hsay| |apply Hsay].
  apply Hn in Hl. unfold words_without_handler in Hl. set_solver.
Qed.

(** A command that fails is one of the table, called with its own arguments. *)
Definition handler_fails (sh : Shell E) (p : ArgParser) (s : Session * E) : Prop :=
  ∃ c, commands_ sh !! Parsing.command p = Some (Some c) ∧ run c p s = None.

Lemma execute_run p sh s :
  sound sh → Parsing.command p ≠ "!"%bs →
  match execute p (sh, s) with
  | Some (_, (sh', _)) => commands_ sh' = commands_ sh ∧ last_command_ sh' = Some p
  | None => handler_fails sh p s
  end.
Proof.
  intros [Hn Hlast] Hp. set (sh1 := MkShell (commands_ sh) (Some p)).
  assert (Hs1 : sound sh1) by done.
  unfold execute. rewrite (bind_run _ _ _ tt (sh1, s)) by (by destruct s).
  destruct (decide _) as [|Hhelp].
  { destruct (PrintHelp_ends p sh1 s Hs1) as [s' Hr]. by rewrite (bind_run _ _ _ _ _ Hr). }
  rewrite (bind_run _ _ _ sh1 (sh1, s)) by done. cbn [commands_ sh1].
  destruct (commands_ sh !! Parsing.command p) as [[c|]|] eqn:Hl; [|apply Hn in Hl; unfold words_without_handler in Hl; set_solver|done].
  unfold on_right. destruct (run c p s) as [[r s']|] eqn:Hr; [done|]. by exists c.
Qed.

(** What is printed before a command is run again. *)
Definition echo (p : ArgParser) : list item :=
  [Str (Parsing.command p)] ++ concat (map (λ arg, [Str " "%bs; Str (value arg)]) (arguments p)) ++ [Endl].

Lemma say_run l (sh : Shell E) s : ∃ s', say l (sh, s) = Some (tt, (sh, s')).
Proof. destruct s as [s e]. by eexists. Qed.

Lemma ProcessCommand_run p sh s :
  sound sh →
  match ProcessCommand p (sh, s) with
  | Some (_, (sh', _)) =>
    sound sh' ∧ commands_ sh' = commands_ sh
    ∧ last_command_ sh' = (if decide (Parsing.command p = "!"%bs) then last_command_ sh else Some p)
  | None => ∃ q s', (q = p ∨ last_command_ sh = Some q) ∧ handler_fails sh q s'
  end.
Proof.
  intros Hs. pose proof Hs as [Hn Hlast].
  assert (Hgo : ∀ q s, Parsing.command q ≠ "!"%bs → match execute q (sh, s) with
    | Some (_, (sh', _)) => sound sh' ∧ commands_ sh' = commands_ sh ∧ last_command_ sh' = Some q
    | None => handler_fails sh q s end).
  { intros q s1 Hq. pose proof (execute_run q sh s1 Hs Hq) as Hx. destruct (execute q (sh, s1)) as [[r [sh' s']]|]; [|done].
    destruct Hx as [Hc Hl]. repeat split; [by rewrite Hc|by rewrite Hl|done..]. }
  unfold ProcessCommand. destruct (decide (Parsing.command p = "!"%bs)) as [Hp|Hp].
  - rewrite (bind_run _ _ _ sh (sh, s)) by done. destruct (last_command_ sh) as [q|] eqn:Hq.
    + destruct (say_run (echo q) sh s) as [s1 Hsay]. rewrite (bind_run _ _ _ _ _ Hsay).
      specialize (Hgo q s1 Hlast). destruct (execute q (sh, s1)) as [[r [sh' s']]|]; [done|]. exists q, s1. auto.
    + destruct (say_run [Str "No command to replay."%bs; Endl] sh s) as [s1 Hsay]. rewrite (bind_run _ _ _ _ _ Hsay).
      cbv [mret M_ret]. auto.
  - specialize (Hgo p s Hp). destruct (execute p (sh, s)) as [[r [sh' s']]|]; [done|]. exists p, s. auto.
Qed.

(** The lines of an input, and their commands without blank lines and repetitions. *)
Definition lines_of (input : list Input) : list bytes := omap (λ i, match i with Line line => Some line | Arrived _ => None end) input.
Definition typed (input : list Input) : list ArgParser :=
  List.filter (λ p, negb (bool_decide (Parsing.command p = "!"%bs)))
    (map of_line (List.filter (λ line, negb (bool_decide (line = []))) (map trim (lines_of input)))).

Lemma typed_app input1 input2 : typed (input1 ++ input2) = typed input1 ++ typed input2.
Proof. unfold typed, lines_of. by rewrite omap_app, map_app, List.filter_app, map_app, List.filter_app. Qed.

Lemma typed_line line : trim line ≠ [] → typed [Line line] =
  (if decide (Parsing.command (of_line (trim line)) = "!"%bs) then [] else [of_line (trim line)]).
Proof.
  intros Hl. unfold typed. cbn [lines_of omap list_omap map List.filter]. rewrite (bool_decide_eq_false_2 _ Hl). cbn [negb map List.filter].
  by destruct (decide _) as [Hd|Hd]; rewrite ?(bool_decide_eq_true_2 _ Hd), ?(bool_decide_eq_false_2 _ Hd).
Qed.

Lemma typed_blank line : trim line = [] → typed [Line line] = [].
Proof. intros Hl. unfold typed. cbn [lines_of omap list_omap map List.filter]. by rewrite Hl. Qed.

(** What was remembered after a line. *)
Lemma last_typed (o o' : option ArgParser) line l :
  trim line ≠ [] →
  o' = (if decide (Parsing.command (of_line (trim line)) = "!"%bs) then o else Some (of_line (trim line))) →
  last (option_list o' ++ typed l) = last (option_list o ++ typed (Line line :: l)).
Proof.
  intros Hl ->. change (Line line :: l) with ([Line line] ++ l). rewrite typed_app, (typed_line line Hl). destruct (decide _); [done|].
  cbn [option_list app]. by rewrite last_app_cons.
Qed.

(** From [x] to [x'] the first [k] of the inputs were read: all of them, or up to a line
    that asked to exit. *)
Definition read_to (k : nat) (input : list Input) (x x' : Shell E * (Session * E)) : Prop :=
  k = length input
  ∨ ∃ j line x1, k = Datatypes.S j ∧ input !! j = Some (Line line) ∧ Run (take j input) x = Some (tt, x1)
    ∧ ProcessCommand (of_line (trim line)) x1 = Some (EXIT_REQUESTED, x').

Lemma read_to_cons k i input x x1 x' :
  (∀ l, Run (i :: l) x = Run l x1) → read_to k input x1 x' → read_to (Datatypes.S k) (i :: input) x x'.
Proof.
  intros Hstep [->|(j & line & x2 & -> & Hl & Hrun & Hexit)]; [by left|]. right. exists (Datatypes.S j), line, x2.
  split_and!; [done|done| |done]. cbn [take]. by rewrite Hstep.
Qed.

(** What the shell remembers after a run. *)
Definition remembers (input : list Input) (x x' : Shell E * (Session * E)) : Prop :=
  sound x'.1 ∧ commands_ x'.1 = commands_ x.1
  ∧ ∃ k, last_command_ x'.1 = last (option_list (last_command_ x.1) ++ typed (take k input)) ∧ read_to k input x x'.

Lemma remembers_cons i input x x1 x' :
  (∀ l, Run (i :: l) x = Run l x1) → commands_ x1.1 = commands_ x.1 →
  (∀ l, last (option_list (last_command_ x1.1) ++ typed l) = last (option_list (last_command_ x.1) ++ typed (i :: l))) →
  remembers input x1 x' → remembers (i :: input) x x'.
Proof.
  intros Hstep Hc Hl (Hs & Hc' & k & Hk & Hread). split; [done|]. split; [by rewrite Hc'|]. exists (Datatypes.S k).
  split; [cbn [take]; by rewrite Hk, Hl|by eapply read_to_cons].
Qed.

(** One of the inputs: where the run goes on from, or the state it ends in. *)
Lemma Run_step i (sh : Shell E) s :
  sound sh →
  (∀ l, Run (i :: l) (sh, s) = None)
  ∨ ∃ x1, sound x1.1 ∧ commands_ x1.1 = commands_ sh
     ∧ (∀ l, last (option_list (last_command_ x1.1) ++ typed l) = last (option_list (last_command_ sh) ++ typed (i :: l)))
     ∧ ((∀ l, Run (i :: l) (sh, s) = Run l x1)
        ∨ (∀ l, Run (i :: l) (sh, s) = Some (tt, x1))
          ∧ ∃ line, i = Line line ∧ ProcessCommand (of_line (trim line)) (sh, s) = Some (EXIT_REQUESTED, x1)).
Proof.
  intros Hs. destruct i as [n|line].
  - cbn [Run]. unfold mbind, M_bind, on_right. destruct (arrive n s) as [[[] s1]|]; cbn; [right|by left].
    exists (sh, s1). split_and!; [done..|]. by left.
  - destruct (trim line) as [|c text] eqn:Hline.
    { right. exists (sh, s). split_and!; [done..| |left; intros l; cbn [Run]; by rewrite Hline]. intros l.
      change (Line line :: l) with ([Line line] ++ l). by rewrite typed_app, typed_blank. }
    assert (Hne : trim line ≠ []) by by rewrite Hline.
    assert (Hgo : ∀ l, Run (Line line :: l) (sh, s)
      = match ProcessCommand (of_line (trim line)) (sh, s) with
        | Some (UNHANDLED, x1) => (say [Str "Unknown command."%bs; Endl] ;; Run l) x1
        | Some (HANDLED, x1) => Run l x1
        | Some (EXIT_REQUESTED, x1) => Some (tt, x1)
        | None => None
        end).
    { intros l. cbn [Run]. rewrite Hline. unfold mbind at 1, M_bind at 1. by destruct (ProcessCommand _ _) as [[[] x1]|]. }
    pose proof (ProcessCommand_run (of_line (trim line)) sh s Hs) as Hp.
    destruct (ProcessCommand (of_line (trim line)) (sh, s)) as [[r [sh1 s1]]|] eqn:Hrun; [right|by left].
    destruct Hp as (Hs1 & Hc1 & Hl1). pose proof (λ l, last_typed _ _ line l Hne Hl1) as Hlast.
    destruct r.
    + destruct (say_run [Str "Unknown command."%bs; Endl] sh1 s1) as [s2 Hsay]. exists (sh1, s2). split_and!; [done..|]. left.
      intros l. rewrite Hgo. by rewrite (bind_run _ _ _ _ _ Hsay).
    + exists (sh1, s1). split_and!; [done..|]. by left.
    + exists (sh1, s1). split_and!; [done..|]. right. split; [done|]. by exists line.
Qed.

Lemma Run_run input : ∀ (sh : Shell E) s, sound sh →
  match Run input (sh, s) with Some (_, x') => remembers input (sh, s) x' | None => True end.
Proof.
  induction input as [|i input IH]; intros sh s Hs.
  { split; [done|]. split; [done|]. exists 0%nat. split; [cbn [fst take]; by destruct (last_command_ sh)|by left]. }
  destruct (Run_step i sh s Hs) as [->|([sh1 s1] & Hs1 & Hc1 & Hl1 & Hnext)]; [done|]. cbn [fst] in *.
  destruct Hnext as [Hgo|[Hend (line & -> & Hexit)]].
  - specialize (IH sh1 s1 Hs1). rewrite Hgo. destruct (Run input (sh1, s1)) as [[[] x']|]; [|done].
    by eapply remembers_cons.
  - rewrite Hend. split; [done|]. split; [done|]. exists 1%nat. split.
    + change (take 1 (Line line :: input)) with [Line line]. cbn [fst]. rewrite <- (Hl1 []). by destruct (last_command_ sh1).
    + right. exists 0%nat, line, (sh, s). by split_and!.
Qed.

(** A line whose command is in no table. *)
Lemma Run_unknown line (sh : Shell E) s e :
  let p := of_line (trim line) in
  trim line ≠ [] → Parsing.command p ∉ words_without_handler → commands_ sh !! Parsing.command p = None →
  Run [Line line] (sh, (s, e))
  = Some (tt, (MkShell (commands_ sh) (Some p), (set_cout (emits [Str "Unknown command."%bs; Endl] (cout s)) s, e))).
Proof.
  intros p Hl Hw Hn. subst p. cbn [Run]. destruct (trim line) as [|c text] eqn:Hline; [done|]. rewrite <- Hline in *.
  unfold words_without_handler in Hw. unfold ProcessCommand, execute.
  rewrite decide_False by set_solver. rewrite decide_False by set_solver.
  unfold mbind, M_bind, remember, on_left, modify, gets. cbn. by rewrite Hn.
Qed.

(** Registering commands leaves no word without a handler. *)
Definition registered (l : list (bytes * Command E * list bytes)) (sh : Shell E) : Shell E :=
  foldl (λ sh '(name, c, aliases), RegisterCommand name c aliases sh) sh l.

Lemma last_registered l : ∀ sh, last_command_ (registered l sh) = last_command_ sh.
Proof. induction l as [|[[name c] aliases] l IH]; intros sh; [done|]. apply (IH (RegisterCommand name c aliases sh)). Qed.

Definition no_nulls (m : gmap bytes (option (Command E))) : Prop := ∀ name, m !! name = Some None → name ∈ words_without_handler.

Lemma no_nulls_insert m name c : no_nulls m → no_nulls (<[name := Some c]> m).
Proof.
  intros Hm name' Hl. destruct (decide (name = name')) as [<-|Hne].
  - by rewrite lookup_insert_eq in Hl.
  - rewrite lookup_insert_ne in Hl by done. by apply Hm.
Qed.

Lemma sound_registered l : ∀ sh, sound sh → sound (registered l sh).
Proof.
  induction l as [|[[name c] aliases] l IH]; intros sh Hs; [done|]. apply IH. destruct Hs as [Hn Hl]. split; [|done].
  cbn [commands_ RegisterCommand]. apply (no_nulls_insert _ name c) in Hn. revert Hn.
  generalize (<[name := Some c]> (commands_ sh)). induction aliases as [|a aliases IHa]; intros m Hm; [done|].
  apply IHa. by apply no_nulls_insert.
Qed.
End Lines.

Section Start.
Context {E : Type} `{!Boost, !Target NotificationNTRC E, !Listeners NotificationNTRC E, !LocalDisk E, !LocalPaths E, !Screen E}.
Context `{!Disassembler, !Lister, !ImageTools, !NTRC, !TracerLink E, !Reconnection E}.
Context (l1 l2 dxt : bytes) (fuel : nat).

Lemma sound_new_shell : sound (new_shell l1 l2 dxt fuel).
Proof.
  split; [|done]. intros name Hl. apply elem_of_map_to_list in Hl.
  assert (Hall : List.forallb (λ entry, match entry.2 with None => bool_decide (entry.1 ∈ words_without_handler) | Some _ => true end)
    (map_to_list (commands_ (new_shell l1 l2 dxt fuel))) = true) by (vm_compute; reflexivity).
  rewrite List.forallb_forall in Hall. apply list_elem_of_In, Hall in Hl. by apply bool_decide_eq_true in Hl.
Qed.

(** C20. Whatever was typed, and whatever commands were added, no command without a handler
    is called: dispatch fails only when the handler of the line does, or that of the line
    that is repeated.  The line that [!] repeats is the last one that was not [!] itself
    of those that were read, which are all, or all up to the one that asked to exit; and
    repeating it prints it and does the same again. *)
Theorem line_dispatched (more : list (bytes * Command E * list bytes)) (input : list Input) (s0 : Session * E) sh s :
  let start := (registered more (new_shell l1 l2 dxt fuel), s0) in
  Run input start = Some (tt, (sh, s)) →
  (∃ k, last_command_ sh = last (typed (take k input))
    ∧ (k = length input
       ∨ ∃ j line x, k = S j ∧ input !! j = Some (Line line) ∧ Run (take j input) start = Some (tt, x)
           ∧ ProcessCommand (of_line (trim line)) x = Some (EXIT_REQUESTED, (sh, s))))
  ∧ (∀ p, is_Some (ProcessCommand p (sh, s))
          ∨ ∃ q s', (q = p ∨ last_command_ sh = Some q) ∧ handler_fails sh q s')
  ∧ (∀ p q, Parsing.command p = "!"%bs → last_command_ sh = Some q →
       ProcessCommand p (sh, s) = (say (echo q) ;; ProcessCommand q) (sh, s)).
Proof.
  intros start Hrun.
  pose proof (Run_run input (registered more (new_shell l1 l2 dxt fuel)) s0 (sound_registered _ _ sound_new_shell)) as Hr.
  fold start in Hr. rewrite Hrun in Hr. destruct Hr as (Hs & Hc & k & Hk & Hread). cbn [fst] in Hs, Hc, Hk. split; [|split].
  - exists k. split; [|exact Hread]. rewrite Hk. unfold start. cbn [fst]. by rewrite last_registered.
  - intros p. pose proof (ProcessCommand_run p sh s Hs) as Hp.
    destruct (ProcessCommand p (sh, s)) as [[r [sh' s']]|]; [by left|by right].
  - intros p q Hp Hq. destruct Hs as [_ Hl]. rewrite Hq in Hl. unfold ProcessCommand at 1. rewrite decide_True by done.
    rewrite (bind_run _ _ _ sh (sh, s)) by done. rewrite Hq.
    assert (ProcessCommand q = execute q) as -> by (unfold ProcessCommand; by rewrite decide_False). done.
Qed.
End Start.

(** ** Examples *)

Definition unknown_line : bytes := " Frobnicate  now"%bs.
Definition unknown_command : ArgParser := of_line (trim unknown_line).

(** The state after a line with an unknown command. *)
Definition after_unknown : Shell Script * (Session * Script) :=
  (MkShell (commands_ (registered [] example_shell)) (Some unknown_command),
   (set_cout (emits [Str "Unknown command."%bs; Endl] (cout new_session)) new_session, MkScript [] [])).

Lemma after_unknown_run : Run [Line unknown_line] (registered [] example_shell, (new_session, MkScript [] [])) = Some (tt, after_unknown).
Proof.
  refine (Run_unknown unknown_line (registered [] example_shell) new_session (MkScript [] []) _ _ _).
  - done.
  - apply (bool_decide_eq_false_1 _). vm_compute. reflexivity.
  - vm_compute. reflexivity.
Qed.

Lemma line_dispatched_witness :
  last_command_ after_unknown.1 = Some unknown_command
  ∧ ProcessCommand (of_line "!"%bs) after_unknown = (say (echo unknown_command) ;; ProcessCommand unknown_command) after_unknown.
Proof.
  split; [reflexivity|].
  refine (proj2 (proj2 (line_dispatched [] [] [] 100 [] [Line unknown_line] (new_session, MkScript [] [])
    after_unknown.1 after_unknown.2 after_unknown_run)) _ _ _ _); reflexivity.
Defined.

Lemma debugger_missing_witness : ∃ c, commands_ example_shell !! "/cag"%bs = Some (Some c)
  ∧ run c no_args (new_session, MkScript [] [])
    = Some (HANDLED, (set_cout (emits [Str "Debugger not attached."%bs; Endl] new_stream) new_session, MkScript [] [])).
Proof.
  apply (debugger_missing [] [] [] 100 "/cag"%bs no_args new_session (MkScript [] [])); [|reflexivity].
  apply (bool_decide_eq_true_1 _). vm_compute. reflexivity.
Defined.
