(* ===== verification/ShellMemory.v ===== *)
(** * What [getmem] shows can be read back

    The words of a dump are the elements of the memory, in base 16 and with the most
    significant digit first; reading them gives the memory.  It does not once the
    stream adjusts to the left. *)

From S2P Require Import Prelude CLib Boost Parsing RdcpResponse RdcpTypes RdcpRequest Requests Notifications Target FileUtil.
From S2P Require Import DebuggerMemory Debugger Output Session ShellHelp ShellCommands ShellFiles.

(** ** Reading a dump *)

(** The words between white space, after the beginning of one. *)
Fixpoint words_from (word s : bytes) : list bytes :=
  match s with
  | [] => match word with [] => [] | _ => [word] end
  | c :: s =>
    if isspace c then match word with [] => words_from [] s | _ => word :: words_from [] s end
    else words_from (word ++ [c]) s
  end.

(** Two digits are a byte, the last ones the first. *)
Definition word_bytes (word : bytes) : bytes := le_bytes (length word / 2) (number_of 16 word).

Definition read_dump (text : bytes) : bytes := concat (map word_bytes (words_from [] text)).

Lemma words_from_word word s : ∀ cur, Forall (λ c, isspace c = false) word → words_from cur (word ++ s) = words_from (cur ++ word) s.
Proof.
  induction word as [|c word IH]; intros cur Hw; cbn; [by rewrite app_nil_r|].
  apply Forall_cons in Hw as [Hc Hw]. rewrite Hc, IH by done. by rewrite <- app_assoc.
Qed.

Lemma read_dump_word word c s :
  Forall (λ c, isspace c = false) word → word ≠ [] → isspace c = true →
  read_dump (word ++ c :: s) = word_bytes word ++ read_dump s.
Proof.
  intros Hw Hne Hc. unfold read_dump. rewrite words_from_word by done. cbn [app words_from]. rewrite Hc.
  by destruct word.
Qed.

Lemma read_dump_space c s : isspace c = true → read_dump (c :: s) = read_dump s.
Proof. intros Hc. unfold read_dump. cbn [words_from]. by rewrite Hc. Qed.

Lemma digit_not_space c : is_digit_of 16 c = true → isspace c = false.
Proof. revert c. intros c. byte_cases c. Qed.

Lemma element_word (element : bytes) :
  element ≠ [] →
  let word := fmt_0x (length element * 2) (le_int element) in
  Forall (λ c, isspace c = false) word ∧ word ≠ [] ∧ word_bytes word = element.
Proof.
  intros Hne word. pose proof (le_int_range element) as Hr.
  assert (Hlen : length word = (length element * 2)%nat).
  { subst word. destruct element as [|c element]; [done|]. cbn [length] in *.
    change (S (length element) * 2)%nat with (S (S (length element * 2))). apply fmt_0x_length.
    replace (16 ^ Z.of_nat (S (S (length element * 2)))) with (256 ^ Z.of_nat (S (length element))); [done|].
    change 256 with (16 ^ 2). rewrite <- Z.pow_mul_r by lia. f_equal. lia. }
  split; [|split].
  - eapply Forall_impl; [apply fmt_0x_digits; lia|]. intros c Hc. by apply digit_not_space, Is_true_true_1.
  - intros Hw. rewrite Hw in Hlen. destruct element; [done|]. cbn in Hlen. lia.
  - unfold word_bytes. rewrite Hlen, Nat.div_mul by done. subst word. rewrite fmt_0x_value by lia. by apply le_bytes_int.
Qed.

(** ** Writing one *)

(** The format while a dump is written. *)
Definition dump_format : Output.Format := MkFormat true "0"%byte false.

Lemma memory_items_text n : ∀ fuel data count,
  (0 < n)%nat → (length data ≤ fuel)%nat → ∀ rest,
  read_dump (shown dump_format (memory_items fuel n count data) ++ rest) = data ++ read_dump rest.
Proof.
  induction fuel as [|fuel IH]; intros data count Hn Hl rest.
  { by destruct data; [|cbn in Hl; lia]. }
  destruct data as [|c data]; [done|].
  assert (Hne : take n (c :: data) ≠ []) by (destruct n; [lia|done]).
  destruct (element_word _ Hne) as (Hw & Hwne & Hb). cbn [memory_items].
  set (element := take n (c :: data)) in *. set (more := if _ && _ then _ else _).
  assert (Ht : shown dump_format ([SetW (length element * 2); UInt (le_int element); Str " "%bs] ++ more
                 ++ memory_items fuel n (S count) (drop n (c :: data)))
               = fmt_0x (length element * 2) (le_int element) ++ space ::
                 (if (negb (count =? 0)%nat && (count mod (32 / n) =? 0)%nat) then [newline] else [])
                 ++ shown dump_format (memory_items fuel n (S count) (drop n (c :: data)))).
  { subst more. destruct (_ && _); cbn [app]; unfold shown, dump_format; show_items; rewrite <- ?app_assoc; reflexivity. }
  rewrite Ht. rewrite <- app_assoc. cbn [app]. rewrite read_dump_word by done. rewrite Hb.
  transitivity (element ++ drop n (c :: data) ++ read_dump rest); [f_equal|by (rewrite app_assoc; unfold element; rewrite take_drop)].
  rewrite <- ?app_assoc. destruct (_ && _); cbn [app]; [rewrite read_dump_space by done|]; apply IH; try lia.
  all: rewrite length_drop; cbn [length] in *; lia.
Qed.

(** The text of a dump, and the memory it shows. *)
Lemma render_memory_text n data f :
  left_adjusted f = false →
  shown f (render_memory n data)
  = shown dump_format (memory_items (length data) n 0 data) ++ [newline].
Proof.
  intros Hf. unfold render_memory. destruct f as [hex fill left]. cbn in Hf. subst left.
  unfold shown at 1. cbn [app]. rewrite !text_cons. cbn [piece next_width emit set_format written field_width app].
  rewrite text_app. f_equal.
Qed.

(** A dump is read back whatever the format of the stream is, if it adjusts to the right. *)
Lemma render_memory_reads n data f :
  (0 < n)%nat → left_adjusted f = false → read_dump (shown f (render_memory n data)) = data.
Proof.
  intros Hn Hf. rewrite render_memory_text by done. rewrite memory_items_text by done. by rewrite read_dump_space, app_nil_r.
Qed.

(** It is not when the stream adjusts to the left. *)
Example left_adjusted_dump :
  shown (MkFormat false space true) (render_memory 1 [Byte.x0f]) = "f0 "%bs ++ [newline].
Proof. reflexivity. Qed.

(** ** The command *)

Section Command_.
Context `{!Boost} {C E : Type} `{!Target C E, !LocalDisk E, !LocalPaths E}.

Lemma with_expression_run args i name help (k : Z → M (Session * E) unit) x t v x' :
  parse_expr false args i 0 x = Some ((t, v), x') → ArgType_bool t = true → with_expression args i name help k x = k v x'.
Proof. intros Hp Ht. unfold with_expression. rewrite (bind_run _ _ _ _ _ Hp). cbv beta iota. by rewrite Ht. Qed.

(** C22. [getmem] with an address and a size that can be evaluated, and with elements of
    some bytes, asks for the memory and prints it so that the words of the text, read as
    numbers in base 16, are the memory again: for every size and length, whatever base
    and fill character earlier commands left, as long as none left the stream adjusting
    to the left. *)
Theorem getmem_reads_back args (s s1 s2 : Session) (e e1 e2 e3 : E) t0 t1 a n w msg data :
  parse_expr false args 0 0 (s, e) = Some ((t0, a), (s1, e1)) → ArgType_bool t0 = true →
  parse_expr false args 1 0 (s1, e1) = Some ((t1, n), (s2, e2)) → ArgType_bool t1 = true →
  render_mode args = Some (inl w) →
  answer (GetMemBinary a n) None e2 = (Some (MkResponse OK_BINARY_RESPONSE msg data), e3) →
  left_adjusted (Output.format (cout s2)) = false → field_width (cout s2) = 0%nat →
  ∃ o text,
    CommandGetMem args (s, e) = Some (tt, (set_cout o s2, e3))
    ∧ written o = written (cout s2) ++ text ∧ read_dump text = data.
Proof.
  intros Ha Hta Hn Htn Hm Hans Hl Hw. exists (emits (render_memory w data) (cout s2)), (shown (Output.format (cout s2)) (render_memory w data)).
  split; [|split].
  - unfold CommandGetMem. rewrite (with_expression_run _ _ _ _ _ _ _ _ _ Ha Hta), (with_expression_run _ _ _ _ _ _ _ _ _ Hn Htn), Hm.
    unfold send_and_show, mbind, M_bind, Session.SendCommandSync, on_console, on_right, Target.SendCommandSync. by rewrite Hans.
  - by rewrite emits_written, Hw.
  - apply render_memory_reads; [|done]. unfold render_mode in Hm. destruct (Parse_string args 2 []) as [t given].
    repeat (destruct (decide _); [injection Hm as <-; lia|]). destruct (decide _); congruence.
Qed.
End Command_.

(** ** An example *)

From S2P Require Import ShellFrame.

Definition example_getmem : ArgParser := of_line "getmem 0x1000 (4 + 1) w"%bs.
Definition example_memory : bytes := [Byte.x01; Byte.x00; Byte.xff; Byte.x0a; Byte.x7f].
Definition example_reply : RDCPResponse := MkResponse OK_BINARY_RESPONSE "binary"%bs example_memory.

Lemma getmem_reads_back_witness : ∃ o text,
  CommandGetMem example_getmem (new_session, MkScript [example_reply] [])
  = Some (tt, (set_cout o new_session, MkScript [] [GetMemBinary 0x1000 5]))
  ∧ written o = text ∧ read_dump text = example_memory.
Proof.
  apply (getmem_reads_back example_getmem new_session new_session new_session (MkScript [example_reply] [])
    (MkScript [example_reply] []) (MkScript [example_reply] []) (MkScript [] [GetMemBinary 0x1000 5])
    (MkArgType BASIC []) (MkArgType PARENTHESIZED []) 0x1000 5 2 "binary"%bs example_memory);
    vm_compute; reflexivity.
Defined.

Example getmem_text : example_run [example_reply] ["getmem 0x1000 (4 + 1) w"%bs]
  = Some ("0001 0aff 7f "%bs ++ [newline], [command_ (GetMemBinary 0x1000 5)]).
Proof. vm_compute. reflexivity. Qed.
