(* ===== verification/GdbServer.v ===== *)
(** * The server for GDB (src/xbox/bridge/gdb_xbox_interface.h, .cpp, src/shell/gdb/gdb_commands.h, .cpp)

    The server that accepts GDB, the executor that serves it, and the command of the
    shell that starts them.  The bridge and the server live beside the connection to
    the console: [GDBBridge * (GDBServer * E)] is what the debugger talks to.

    The debugger of the interface is the one of the bridge as long as it is not
    detached while the server runs; a bridge whose debugger was replaced is not
    modelled.  So is a notification for the handler a destroyed bridge left
    registered. *)

From S2P Require Import Notifications Tracer DxtRequests DxtLoader DebuggerBacktrace.
From S2P Require Import Prelude CLib Boost GdbPacket Parsing RdcpResponse RdcpRequest IpAddress TcpServer Target.
From S2P Require Import DebuggerMemory DebuggerThread DebuggerThreads Debugger DebuggerControl Output Session ShellHelp Shell.
From S2P Require Import TcpConnection GdbTransport Bridge BridgeCommands.

Definition kMaxDebuggerAttachAttempts : nat := 5.
Definition kMaxDebuggerHaltAttempts : nat := 5.

(** What the executor is given: a client to begin with, or a packet. *)
Inductive job := Greet (sock : Z) | Dispatch (p : GDBPacket).

(** What becomes of sockets and connections. *)
Inductive event :=
  | ServerAdded | ServerClosed
  | Refused (sock : Z)           (* [shutdown] and [close] of the socket *)
  | ClientAdded (sock : Z)       (* the select thread serves it *)
  | ClientClosed (sock : Z).

#[global] Instance event_eq_decision : EqDecision event.
Proof. solve_decision. Defined.

(** The members of [GDBXBOXInterface]; the bridge stands beside. *)
Record GDBServer := MkGDB {
  gdb_server_ : option TCPServer;
  gdb_bridge_ : bool;                    (* whether there is one *)
  gdb_executor_ : option (list job);
  gdb_launch_target_ : bytes;
  events : list event
}.

Definition no_gdb_server : GDBServer := MkGDB None false None [] [].

Definition with_server (s : option TCPServer) (g : GDBServer) : GDBServer :=
  MkGDB s (gdb_bridge_ g) (gdb_executor_ g) (gdb_launch_target_ g) (events g).
Definition with_bridge (b : bool) (g : GDBServer) : GDBServer :=
  MkGDB (gdb_server_ g) b (gdb_executor_ g) (gdb_launch_target_ g) (events g).
Definition with_executor (e : option (list job)) (g : GDBServer) : GDBServer :=
  MkGDB (gdb_server_ g) (gdb_bridge_ g) e (gdb_launch_target_ g) (events g).
Definition with_launch_target (path : bytes) (g : GDBServer) : GDBServer :=
  MkGDB (gdb_server_ g) (gdb_bridge_ g) (gdb_executor_ g) path (events g).
Definition with_event (x : event) (g : GDBServer) : GDBServer :=
  MkGDB (gdb_server_ g) (gdb_bridge_ g) (gdb_executor_ g) (gdb_launch_target_ g) (events g ++ [x]).

(** The console serves the debugger as before. *)
#[export] Instance server_target {C E} `{!Target C E} : Target C (GDBServer * E) := {
  answer r payload '(g, e) := let '(a, e') := answer r payload e in (a, (g, e'));
  next_notification ms '(g, e) :=
    '(n, remaining, e') ← next_notification ms e; Some (n, remaining, (g, e'));
  burst ms x := burst ms x.2;
  GetNotificationServerAddress x := GetNotificationServerAddress x.2;
  StartNotificationListener '(g, e) := let '(ok, e') := StartNotificationListener e in (ok, (g, e'));
  RegisterNotificationHandler '(g, e) := let '(i, e') := RegisterNotificationHandler e in (i, (g, e'));
  UnregisterNotificationHandler i x := (x.1, UnregisterNotificationHandler i x.2);
  has_handler i x := has_handler i x.2;
  CloseActiveConnections x := (x.1, CloseActiveConnections x.2)
}.

Section Server.
Context `{!Boost} {C E : Type} `{!Target C E, !ServerSockets E} (pf : GdbRegisters.platform).
Abbreviation World := (GDBBridge * (GDBServer * E))%type.
Abbreviation R := (M (Session * World)).

Definition the_bridge : R GDBBridge := gets (λ x, x.2.1).
Definition the_server : R GDBServer := gets (λ x, x.2.2.1).
Definition change_server (f : GDBServer → GDBServer) : R unit := on_console (on_right (on_left (modify f))).
Definition change_bridge (f : GDBBridge → GDBBridge) : R unit := on_console (on_left (modify f)).

(** A method of the server, [None] when there is none. *)
Definition on_server {A} (m : M (TCPServer * E) A) : R A :=
  on_console (on_right (λ '(g, e),
    s ← gdb_server_ g;
    '(a, (s, e)) ← m (s, e);
    Some (a, (with_server (Some s) g, e)))).

(** A method of the debugger that the bridge has, too. *)
Definition on_bridge_debugger {A} (m : M (XBDMDebugger * World) A) : R A := on_debugger m.

(** Jobs that are not begun are dropped, and the one that is runs to its end.  [Stop]
    closes the connection of the bridge, which then is gone with it. *)
Definition StopGDBServer : R unit :=
  g ← the_server;
  (match gdb_server_ g with
   | Some s => change_server (with_server None ∘ with_event ServerClosed)
   | None => mret tt
   end) ;;
  (if gdb_bridge_ g then change_bridge (λ _, new_bridge) ;; change_server (with_bridge false) else mret tt) ;;
  change_server (with_executor None).

(** The parser of expressions stays the one there was. *)
Definition StartGDBServer (address : IPAddress) : R bool :=
  StopGDBServer ;;
  change_server (with_executor (Some [])) ;;
  there ← has_debugger;
  (if there : bool then mret tt else update_session (set_debugger (Some new_debugger))) ;;
  change_bridge (λ _, new_bridge) ;;
  change_server (with_bridge true) ;;
  change_server (with_server (Some new_server)) ;;
  change_server (with_event ServerAdded) ;;
  on_server (Listen address).

Definition GetGDBListenAddress : R (option IPAddress) :=
  g ← the_server; mret (address_ <$> gdb_server_ g).

Definition SetGDBLaunchTarget (path : bytes) : R unit := change_server (with_launch_target path).
Definition ClearGDBLaunchTarget : R unit := change_server (with_launch_target []).

(** [boost::asio::dispatch] from another thread *)
Definition dispatch (j : job) : R unit :=
  g ← the_server;
  jobs ← lift_option (gdb_executor_ g);
  change_server (with_executor (Some (jobs ++ [j]))).

Definition OnGDBClientConnected (sock : Z) : R unit :=
  g ← the_server;
  if negb (gdb_bridge_ g) then mfail
  else
    b ← the_bridge;
    if HasGDBClient b then change_server (with_event (Refused sock)) else dispatch (Greet sock).

Definition OnGDBPacketReceived (p : GDBPacket) : R unit := dispatch (Dispatch p).

Definition DispatchGDBPacket (p : GDBPacket) : R unit :=
  done ← on_bridge_debugger (HandlePacket pf p); mret tt.

(** The loops over attempts: whether one succeeded. *)
Fixpoint attempt (attempts : nat) (m : R bool) : R bool :=
  match attempts with
  | 0%nat => mret false
  | S attempts =>
    ok ← m;
    if ok : bool then mret true else on_debugger (WaitMilliseconds 50) ;; attempt attempts m
  end.

Definition close_client (sock : Z) : R unit := change_server (with_event (ClientClosed sock)).

(** The job of [OnGDBClientConnected]; nothing arrives from the client between
    [AddConnection] and [AddTransport]. *)
Definition greet (sock : Z) : R unit :=
  attached ← on_debugger (gets (λ x, is_attached_ x.1));
  attached ← (if attached : bool then mret true else attempt kMaxDebuggerAttachAttempts (on_debugger Attach));
  if negb attached then close_client sock
  else
    g ← the_server;
    (match gdb_launch_target_ g with
     | [] => mret tt
     | path => launched ← on_debugger (DebugXBE path [] false BREAK_AT_APPLICATION_START); ClearGDBLaunchTarget
     end) ;;
    halted ← attempt kMaxDebuggerHaltAttempts (on_debugger (HaltAll kDefaultHaltAllMaxWaitMilliseconds));
    if negb halted then close_client sock
    else
      change_server (with_event (ClientAdded sock)) ;;
      added ← on_bridge_debugger (AddTransport GdbTransport.new_transport);
      if added : bool then mret tt else close_client sock.

Definition run_job (j : job) : R unit :=
  match j with Greet sock => greet sock | Dispatch p => DispatchGDBPacket p end.

(** The executor takes the next job. *)
Definition work : R unit :=
  g ← the_server;
  match gdb_executor_ g with
  | Some (j :: jobs) => change_server (with_executor (Some jobs)) ;; run_job j
  | _ => mret tt
  end.

(** Bytes that arrive from GDB. *)
Definition arrive (data : bytes) : R unit :=
  b ← the_bridge;
  match gdb_ b with
  | Some t =>
    if IsConnected (conn t) then
      let '(t', packets) := receive data t in
      change_bridge (with_gdb (Some t')) ;;
      for_each packets OnGDBPacketReceived
    else mret tt
  | None => mret tt
  end.

(** What the select thread finds at the server. *)
Definition serve (r : readiness) : R unit :=
  '(keep, accepted) ← on_server (TcpServer.Process r);
  match accepted with
  | Some (sock, address) => OnGDBClientConnected sock
  | None => mret tt
  end.
End Server.

(** ** The command *)

Definition ShellCommandGDB_help : bytes * bytes := Command_help "Start GDB <-> XBDM service."%bs
  (lines [
    "[IP]:port [xbe_launch_path]"%bs;
    [];
    "Start a GDB server, allowing GDB to communicate with the XBDM target."%bs;
    [];
    "[IP]:port - The IP and port at which GDB can connect."%bs;
    "              The IP is optional, where the default behavior is bind to all local interfaces."%bs;
    "[xbe_launch_path] - An XBOX path to an XBE (or directory containing a default.xbe) that should be launched "%bs
      ++ "when a GDB debugger first connects."%bs]).

(** An address as it is put into a stream. *)
Definition show_address (a : IPAddress) : list item := [Str (address_text (Address a)); Str ":"%bs; UInt (Port a)].

Section Command.
Context `{!Boost, !Inet} {C E : Type} `{!Target C E, !ServerSockets E}.
Abbreviation R := (M (Session * (GDBBridge * (GDBServer * E)))).

Definition ShellCommandGDB_run (args : ArgParser) : R unit :=
  match arguments args with
  | [] => print [Str "Missing required port argument."%bs; Endl] ;; PrintUsage ShellCommandGDB_help.2
  | front :: others =>
    started ← StartGDBServer (IPAddress_of (value front));
    if negb started then print [Str "Failed to start GDB server."%bs; Endl]
    else
      (match last others with Some back => SetGDBLaunchTarget (value back) | None => mret tt end) ;;
      address ← GetGDBListenAddress;
      match address with
      | None => print [Str "GDB server failed to bind."%bs; Endl] ;; ClearGDBLaunchTarget
      | Some address => print ([Str "GDB server listening at Address "%bs] ++ show_address address ++ [Endl])
      end
  end.

Definition ShellCommandGDB : Command (GDBBridge * (GDBServer * E)) := command_of ShellCommandGDB_help ShellCommandGDB_run.

Definition RegisterGDBCommands (s : Shell (GDBBridge * (GDBServer * E))) : Shell (GDBBridge * (GDBServer * E)) :=
  RegisterCommand "gdb"%bs ShellCommandGDB [] s.
End Command.
