(* ===== verification/GdbServerRuns.v ===== *)
(** * The service of GDB

    What becomes of a connection of GDB, and of the bytes that arrive on it. *)

From S2P Require Import Notifications Tracer DxtRequests DxtLoader DebuggerBacktrace.
From S2P Require Import Prelude CLib Boost GdbPacket Parsing RdcpResponse RdcpRequest IpAddress TcpServer Target.
From S2P Require Import DebuggerMemory DebuggerThread DebuggerThreads Debugger DebuggerControl Output Session Shell.
From S2P Require Import TcpConnection GdbTransport Bridge BridgeCommands DebuggerFrame BridgeReplies GdbServer.

(** ** What attaching and launching leave alone *)

Section Frame.
Context `{!Boost} {C E : Type} `{!Target C E, !Listeners C E}.
Context (J : E → Prop).
Context (HJ : ∀ r payload e, J e → J (answer r payload e).2).
Context (HN : ∀ ms e n remaining e', next_notification ms e = Some (n, remaining, e') → J e → J e').
Context (HL : ∀ admitted n d e, J e → J (notify_others admitted n d e)).
Context (HS : ∀ e, J e → J (StartNotificationListener e).2).
Context (HR : ∀ e, J e → J (RegisterNotificationHandler e).2).
Context (HU : ∀ i e, J e → J (UnregisterNotificationHandler i e)).
Context (HC : ∀ e, J e → J (CloseActiveConnections e)).

Hint Resolve held_command held_plain held_post held_left held_FetchThreads held_FetchMemoryMap held_Go held_Stop
  held_wait_for held_WaitMilliseconds held_ContinueAll : keeps.
Hint Extern 1 (keeps _ (on_right _)) => apply held_right : keeps.
Hint Extern 1 (keeps _ (on_target _)) => apply held_right : keeps.
Hint Extern 1 (keeps _ (on_memory _)) => apply held_zoom : keeps.
Hint Extern 1 (keeps _ (on_threads _)) => apply held_zoom : keeps.
Hint Extern 1 (keeps _ (update _)) => apply held_left : keeps.
Hint Extern 2 (keeps _ (if ?b then _ else _)) => destruct b : keeps.
Hint Extern 2 (keeps _ (match ?x with _ => _ end)) => destruct x : keeps.

Lemma held_request_ok r : keeps (held J) (request_ok r).
Proof. apply held_right, held_plain, HJ. Qed.
Hint Resolve held_request_ok : keeps.

Lemma held_effect {A} (f : E → A * E) : (∀ e, J e → J (f e).2) → keeps J (λ e, Some (f e)).
Proof. intros Hf e He. unfold wp. cbn. pose proof (Hf e He). by destruct (f e). Qed.

Lemma held_unregister : keeps (held J) unregister_handler.
Proof. unfold unregister_handler. apply keeps_bind; [auto with keeps|]. intros d. apply held_right, keeps_modify. auto. Qed.
Lemma held_port : keeps (held J) notification_server_port.
Proof.
  unfold notification_server_port. apply keeps_bind; [auto with keeps|]. intros [p|]; [apply keeps_ret|].
  apply keeps_bind; [apply held_right, held_effect, HS|]. intros started. apply keeps_unless.
  apply keeps_bind; [auto with keeps|]. intros [p|]; [apply keeps_ret|apply keeps_fail].
Qed.
Hint Resolve held_unregister held_port : keeps.

Lemma held_or_unregister m k : keeps (held J) m → keeps (held J) k → keeps (held J) (or_unregister m k).
Proof. intros Hm Hk. unfold or_unregister. auto 20 with keeps. Qed.

Hint Extern 1 (keeps _ (or_unregister _ _)) => apply held_or_unregister : keeps.

Lemma held_SetDebugger connect : keeps (held J) (SetDebugger connect).
Proof. unfold SetDebugger. auto 20 with keeps. Qed.
Lemma held_FetchSections name : keeps (held J) (FetchSections name).
Proof. unfold FetchSections. auto 20 with keeps. Qed.
Hint Resolve held_SetDebugger held_FetchSections : keeps.
Lemma held_FetchModules : keeps (held J) FetchModules.
Proof. unfold FetchModules. auto 20 with keeps. Qed.
Lemma held_RequestDebugNotifications port : keeps (held J) (RequestDebugNotifications port).
Proof. unfold RequestDebugNotifications. auto 20 with keeps. Qed.
Hint Resolve held_FetchModules held_RequestDebugNotifications : keeps.

Lemma held_register : keeps (held (S := XBDMDebugger) J) (on_target (λ e, Some (RegisterNotificationHandler e))).
Proof. apply held_right, held_effect, HR. Qed.
Hint Resolve held_register : keeps.

Lemma held_Attach : keeps (held J) Attach.
Proof. unfold Attach, WaitForStateNotIn. auto 40 with keeps. Qed.

Lemma held_close : keeps (held (S := XBDMDebugger) J) (on_target (modify CloseActiveConnections)).
Proof. apply held_right, keeps_modify. auto. Qed.
Hint Resolve held_close : keeps.

Lemma held_RestartAndReconnect flags : keeps (held J) (RestartAndReconnect flags).
Proof. unfold RestartAndReconnect, WaitForState, WaitForStateIn. auto 30 with keeps. Qed.
Lemma held_BreakAtStart : keeps (held J) BreakAtStart.
Proof. unfold BreakAtStart. auto 20 with keeps. Qed.
Lemma held_BreakOnNextThreadCreate : keeps (held J) BreakOnNextThreadCreate.
Proof. unfold BreakOnNextThreadCreate, remove_break_on_create, WaitForState. auto 40 with keeps. Qed.
Hint Resolve held_RestartAndReconnect held_BreakAtStart held_BreakOnNextThreadCreate : keeps.

Lemma held_DebugXBE path line forever mode : keeps (held J) (DebugXBE path line forever mode).
Proof. unfold DebugXBE, WaitForState. auto 40 with keeps. Qed.
End Frame.

(** ** A client that connects *)

Section Greeting.
Context `{!Boost} {C E : Type} `{!Target C E, !ServerSockets E}.
Abbreviation World := (GDBBridge * (GDBServer * E))%type.
Abbreviation R := (M (Session * World)).

(** A client that is served is still, and was only sent packets; the server is [g]. *)
Definition same_client (b : GDBBridge) (g : GDBServer) (x : World) : Prop :=
  x.2.1 = g ∧ if HasGDBClient b then ∃ t, gdb_ b = Some t ∧ grew t x else gdb_ x.1 = gdb_ b.

Lemma same_client_refl b g e : same_client b g (b, (g, e)).
Proof.
  split; [done|]. destruct (HasGDBClient b) eqn:Hb; [|done]. unfold HasGDBClient in Hb.
  destruct (gdb_ b) as [t|] eqn:Ht; [|done]. exists t. split; [done|]. exists [], t. split; [apply grown_nil|done].
Qed.

Lemma same_client_has b g x : same_client b g x → HasGDBClient x.1 = HasGDBClient b.
Proof.
  intros [_ Hx]. destruct (HasGDBClient b) eqn:Hb.
  - destruct Hx as (t & _ & ps & t' & _ & Ht & Hc). unfold HasGDBClient. by rewrite Ht.
  - unfold HasGDBClient in *. by rewrite Hx.
Qed.

(** Nothing is sent without a client. *)
Lemma OnNotification_unserved (n : Notification C) d b : HasGDBClient b = false → default b (snd <$> OnNotification n d b) = b.
Proof.
  intros Hb. assert (Hstop : OnStop d b = Some (tt, b)).
  { unfold OnStop. rewrite (bind_run _ _ _ b b) by done. destruct (waiting_on_stop_packet_ b); [|done].
    rewrite (bind_run _ _ _ false b); [done|]. unfold SendThreadStopPacket. by rewrite (bind_run _ _ _ false b) by (unfold gets; by rewrite Hb). }
  destruct n; cbn [OnNotification]; try done; try (by rewrite Hstop). destruct (decide _); [by rewrite Hstop|done].
Qed.

Lemma same_client_listener admitted (n : Notification C) d b g x : same_client b g x → same_client b g (notify_others admitted n d x).
Proof.
  intros Hx. pose proof (same_client_has _ _ _ Hx) as Hhas. destruct Hx as [Hg Hx]. split.
  { destruct x as [b' [g' e']]. cbn in *. by destruct (_ && _). }
  destruct (HasGDBClient b) eqn:Hb.
  - destruct Hx as (t & Ht & Hgrew). exists t. split; [done|]. by apply grew_listener.
  - destruct x as [b' [g' e']]. cbn in *. destruct (_ && _); [|done]. cbn [fst]. by rewrite OnNotification_unserved.
Qed.

(** It depends on the bridge's transport and the server only. *)
Lemma same_client_ext b g (x x' : World) : gdb_ x'.1 = gdb_ x.1 → x'.2.1 = x.2.1 → same_client b g x → same_client b g x'.
Proof.
  intros Hgdb Hserver [Hg Hx]. split; [by rewrite Hserver|]. destruct (HasGDBClient b); [|by rewrite Hgdb].
  destruct Hx as (t & Ht & ps & t' & Hgr & Ht' & Hc). exists t. split; [done|]. exists ps, t'. by rewrite Hgdb.
Qed.

Lemma held_on_debugger {S' A} (J : S' → Prop) (m : M (XBDMDebugger * S') A) :
  keeps (held J) m → keeps (held (S := Session) J) (on_debugger m).
Proof.
  intros Hm [s x] Hx. unfold wp, on_debugger. destruct (xbdm_debugger_ s) as [d|]; [|done]. cbn [mbind option_bind].
  specialize (Hm (d, x) Hx). unfold wp in Hm. by destruct (m (d, x)) as [[a [d' x']]|].
Qed.

(** What the debugger does keeps the client. *)
Ltac client_kept :=
  first
  [ intros r payload [b' [g' e']]; apply same_client_ext; cbn; by destruct (answer r payload e')
  | intros ? [b' [g' e']] n remaining x' Hn; cbn in Hn; destruct (next_notification _ e') as [[[n1 r1] e1]|]; cbn in Hn; [|done];
    injection Hn as _ _ <-; by apply same_client_ext
  | intros admitted n d x; apply same_client_listener
  | intros [b' [g' e']]; apply same_client_ext; cbn; by destruct (StartNotificationListener e')
  | intros [b' [g' e']]; apply same_client_ext; cbn; by destruct (RegisterNotificationHandler e')
  | intros i x; by apply same_client_ext
  | intros x; by apply same_client_ext ].

Lemma kept_Attach b g : keeps (held (same_client b g)) (on_debugger (E := World) Attach).
Proof. apply held_on_debugger, held_Attach; client_kept. Qed.
Lemma kept_DebugXBE b g path line forever mode : keeps (held (same_client b g)) (on_debugger (E := World) (DebugXBE path line forever mode)).
Proof. apply held_on_debugger, held_DebugXBE; client_kept. Qed.
Lemma kept_HaltAll b g ms : keeps (held (same_client b g)) (on_debugger (E := World) (HaltAll ms)).
Proof. apply held_on_debugger, held_HaltAll; client_kept. Qed.
Lemma kept_Wait b g ms : keeps (held (same_client b g)) (on_debugger (E := World) (WaitMilliseconds ms)).
Proof. apply held_on_debugger, held_WaitMilliseconds; client_kept. Qed.

Lemma kept_attempt b g n (m : R bool) : keeps (held (same_client b g)) m → keeps (held (same_client b g)) (attempt n m).
Proof.
  intros Hm. induction n as [|n IH]; cbn [attempt]; [apply keeps_ret|]. apply keeps_bind; [done|].
  intros []; [apply keeps_ret|]. apply keeps_bind; [apply kept_Wait|]. by intros _.
Qed.
(** The server after a change. *)
Lemma same_client_server b g f (s : Session) x :
  same_client b g x → wp True (change_server f) (s, x) (λ _ y, same_client b (f g) y.2).
Proof. destruct x as [b' [g' e']]. intros [Hg Hx]. cbn in Hg. subst g'. by split. Qed.

Lemma AddTransport_run t (s : Session) d (b : GDBBridge) (g : GDBServer) (e : E) : xbdm_debugger_ s = Some d →
  wp True (on_bridge_debugger (AddTransport t)) (s, (b, (g, e))) (λ added y,
    if HasGDBClient b then added = false ∧ y.2 = (b, (g, e)) else added = true ∧ gdb_ y.2.1 = Some t ∧ y.2.2.1 = g).
Proof.
  intros Hd. unfold on_bridge_debugger, on_debugger, wp. rewrite Hd. cbn [mbind option_bind].
  unfold AddTransport. rewrite (bind_run _ _ _ b (d, (b, (g, e)))) by done. destruct (HasGDBClient b); [by cbn|].
  unfold mbind, option_bind, M_bind, on_bridge, on_target, on_right, on_left, modify. cbn.
  by destruct (RegisterNotificationHandler (UnregisterNotificationHandler (bridge_handler_id_ b) e)).
Qed.

(** What is launched is launched once. *)
Lemma kept_launch b g (y : Session * World) : same_client b g y.2 →
  wp True (match gdb_launch_target_ g with
    | [] => mret tt
    | path => launched ← on_debugger (E := World) (DebugXBE path [] false BREAK_AT_APPLICATION_START); ClearGDBLaunchTarget
    end) y (λ _ y', same_client b (with_launch_target [] g) y'.2).
Proof.
  intros Hy. destruct (gdb_launch_target_ g) as [|c path] eqn:Hpath.
  - apply wp_ret. destruct g. cbn in *. subst. exact Hy.
  - apply wp_bind. eapply wp_mono; [by apply kept_DebugXBE, Hy|]. intros launched [s2 x2] Hx2. by apply same_client_server.
Qed.

(** C2. A client that connects while none is served is either served, from an empty
    buffer and with nothing left to be launched, or its connection is closed; one
    that comes to the executor while another is served is closed, and the other is
    not disturbed: it stays connected, and only packets are sent to it. *)
Theorem client_greeted (sock : Z) (s : Session) (b : GDBBridge) (g : GDBServer) (e : E) (s' : Session) (b' : GDBBridge)
    (g' : GDBServer) (e' : E) :
  greet (C := C) sock (s, (b, (g, e))) = Some (tt, (s', (b', (g', e')))) →
  gdb_executor_ g' = gdb_executor_ g ∧ gdb_server_ g' = gdb_server_ g
  ∧ if HasGDBClient b then
      (∃ t ps t', gdb_ b = Some t ∧ grown ps t t' ∧ gdb_ b' = Some t' ∧ IsConnected (conn t') = true)
      ∧ last (events g') = Some (ClientClosed sock)
    else
      (gdb_ b' = Some GdbTransport.new_transport ∧ events g' = events g ++ [ClientAdded sock] ∧ gdb_launch_target_ g' = [])
      ∨ (gdb_ b' = gdb_ b ∧ events g' = events g ++ [ClientClosed sock]).
Proof.
  intros Hrun.
  set (fate := λ (x : World), gdb_executor_ x.2.1 = gdb_executor_ g ∧ gdb_server_ x.2.1 = gdb_server_ g
    ∧ if HasGDBClient b then
        (∃ t, gdb_ b = Some t ∧ grew t x) ∧ last (events x.2.1) = Some (ClientClosed sock)
      else
        (gdb_ x.1 = Some GdbTransport.new_transport ∧ events x.2.1 = events g ++ [ClientAdded sock] ∧ gdb_launch_target_ x.2.1 = [])
        ∨ (gdb_ x.1 = gdb_ b ∧ events x.2.1 = events g ++ [ClientClosed sock])).
  assert (Hfate : wp True (greet sock) (s, (b, (g, e))) (λ _ y, fate y.2)).
  { unfold greet. apply wp_bind.
    assert (Hrefl := same_client_refl b g e).
    (* a client that is turned away *)
    assert (Hclose : ∀ g0 y, gdb_executor_ g0 = gdb_executor_ g → gdb_server_ g0 = gdb_server_ g →
      events g0 = events g ∨ HasGDBClient b = true → same_client b g0 (snd y) → wp True (close_client sock) y (λ _ y, fate y.2)).
    { intros g0 [s0 x0] He Hs Hev Hx. eapply wp_mono; [exact (same_client_server b g0 _ s0 x0 Hx)|].
      intros _ [s1 x1] [Hg Hc]. cbn [snd] in *. unfold fate. rewrite Hg. cbn [with_event gdb_executor_ gdb_server_ events].
      split_and!; [done|done|]. destruct (HasGDBClient b); [by rewrite last_snoc|]. right. by destruct Hev as [->|]. }
    eapply wp_mono; [apply (held_on_debugger (same_client b g) _ (keeps_gets _ _)), Hrefl|]. intros attached y Hy. apply wp_bind.
    assert (Hattach : keeps (held (same_client b g))
      (if attached then mret true else attempt kMaxDebuggerAttachAttempts (on_debugger (E := World) Attach))).
    { destruct attached; [apply keeps_ret|]. apply kept_attempt, kept_Attach. }
    eapply wp_mono; [apply Hattach, Hy|]. clear attached y Hy Hattach. intros attached y Hy.
    destruct attached; cbn [negb]; [|apply (Hclose g); [done|done|by left|exact Hy]].
    apply wp_bind. unfold the_server. change (wp True (gets ?f) y ?Q) with (Q (f y) y). cbv beta. rewrite (proj1 Hy).
    set (g1 := with_launch_target [] g). apply wp_bind.
    eapply wp_mono; [by apply kept_launch|]. clear y Hy. intros [] y Hy. apply wp_bind.
    eapply wp_mono; [apply (kept_attempt b g1), Hy; apply kept_HaltAll|]. clear y Hy. intros halted y Hy.
    destruct halted; cbn [negb]; [|apply (Hclose g1); [done|done|by left|exact Hy]].
    apply wp_bind. destruct y as [s1 x1]. eapply wp_mono; [by apply (same_client_server b g1)|]. intros [] [s2 [b2 [g2 e2]]] Hx2.
    apply wp_bind. destruct (xbdm_debugger_ s2) as [d|] eqn:Hd.
    2: { unfold on_bridge_debugger, on_debugger, wp at 1. by rewrite Hd. }
    eapply wp_mono; [by apply (AddTransport_run _ s2 d)|]. intros added [s3 x3] Hadd. cbn [snd] in *.
    pose proof (same_client_has _ _ _ Hx2) as Hhas. cbn [fst] in Hhas. rewrite Hhas in Hadd.
    destruct (HasGDBClient b) eqn:Hb.
    - destruct Hadd as [-> ->]. apply (Hclose (with_event (ClientAdded sock) g1)); [done|done|by right|exact Hx2].
    - destruct Hadd as (-> & Hgdb & Hg3). apply wp_ret. unfold fate. cbn [snd]. rewrite Hg3. destruct Hx2 as [Hg2 _]. cbn [fst snd] in Hg2. rewrite Hg2.
      split_and!; [done|done|]. by left. }
  apply (wp_partial _ _ _ _ _ Hfate) in Hrun as (He & Hs & Hend). cbn [snd fst] in He, Hs, Hend. split_and!; [done|done|].
  destruct (HasGDBClient b); [|exact Hend]. destruct Hend as [(t & Ht & ps & t' & Hgrown) Hlast]. split; [|done]. by exists t, ps, t'.
Qed.
End Greeting.

(** ** From bytes to bytes *)

Section Service.
Context `{!Boost} {C E : Type} `{!Target C E, !ServerSockets E} (pf : GdbRegisters.platform).
Abbreviation World := (GDBBridge * (GDBServer * E))%type.

(** Reading closes no connection. *)
Lemma ShiftReadBuffer_connected n c : IsConnected (ShiftReadBuffer n c) = IsConnected c.
Proof. unfold ShiftReadBuffer. by repeat case_match. Qed.

Lemma read_controls_connected buffer t : IsConnected (conn (read_controls buffer t).2) = IsConnected (conn t).
Proof.
  revert t. induction buffer as [|c buffer IH]; intros t; [done|]. cbn [read_controls]. repeat destruct (decide _); try done;
    match goal with |- context [read_controls buffer ?t'] => pose proof (IH t') as Ht; destruct (read_controls buffer t') as [m t2] end;
    cbn [snd] in *; rewrite Ht; try done. by destruct (ack_buffer_ t).
Qed.

Lemma receive_connected data t : IsConnected (conn (receive data t).1) = IsConnected (conn t).
Proof.
  unfold receive, OnBytesRead. set (t0 := with_conn t _).
  pose proof (read_controls_connected (read_buffer_ (conn t0)) t0) as Hc. destruct (read_controls _ t0) as [n t1]. cbn [snd] in Hc.
  destruct (UnescapeBuffer _ _) as [m unescaped].
  assert (Ht : IsConnected (conn t1) = IsConnected (conn t)) by (rewrite Hc; done).
  destruct (_ =? _)%nat; cbn [fst].
  - cbn [conn with_conn with_unescaped]. by rewrite !ShiftReadBuffer_connected.
  - unfold ProcessUnescapedReadBuffer. destruct (extract _ _ _) as [it packets]. cbn [fst conn with_unescaped send_bytes with_conn].
    change (IsConnected (Send ?b ?c)) with (IsConnected c). cbn [conn with_conn with_unescaped]. by rewrite !ShiftReadBuffer_connected.
Qed.

Lemma arrive_run data (s : Session) (b : GDBBridge) (g : GDBServer) (e : E) t jobs p t1 :
  gdb_ b = Some t → IsConnected (conn t) = true → gdb_executor_ g = Some jobs → receive data t = (t1, [p]) →
  arrive data (s, (b, (g, e))) = Some (tt, (s, (with_gdb (Some t1) b, (with_executor (Some (jobs ++ [Dispatch p])) g, e)))).
Proof.
  intros Hb Hc Hg Hr. unfold arrive. rewrite (bind_run _ _ _ b (s, (b, (g, e)))) by done. rewrite Hb, Hc, Hr.
  rewrite (bind_run _ _ _ tt (s, (with_gdb (Some t1) b, (g, e)))) by done. cbn [for_each].
  rewrite (bind_run _ _ _ tt (s, (with_gdb (Some t1) b, (with_executor (Some (jobs ++ [Dispatch p])) g, e)))); [done|].
  unfold OnGDBPacketReceived, dispatch. rewrite (bind_run _ _ _ g (s, (with_gdb (Some t1) b, (g, e)))) by done.
  rewrite Hg. done.
Qed.

Lemma dispatch_answers p t (s : Session) (x : World) y :
  gdb_ x.1 = Some t → IsConnected (conn t) = true → DispatchGDBPacket pf p (s, x) = Some (tt, y) →
  ∃ ps t', due p (length ps) ∧ grown ps t t' ∧ gdb_ y.2.1 = Some t' ∧ IsConnected (conn t') = true.
Proof.
  intros Hb Hc Hrun. unfold DispatchGDBPacket, on_bridge_debugger, on_debugger, mbind, M_bind in Hrun.
  destruct (xbdm_debugger_ s) as [d|]; [|done]. cbn [option_bind] in Hrun.
  pose proof (answers_HandlePacket pf p t (d, x) (conj Hb Hc)) as Ha.
  destruct (HandlePacket pf p (d, x)) as [[handled [d' x']]|] eqn:Hh; [|done]. cbn in Hrun. injection Hrun as <-.
  by apply (wp_partial _ _ _ _ _ Ha) in Hh.
Qed.

(** C1. From the bytes GDB sends to the bytes it gets: a packet with any payload free of
    reserved characters that arrives on a connection which is at rest, behind any
    number of acknowledgements, is acknowledged and then answered by the packets its
    command is answered by, and by nothing else. *)
Theorem client_answered (k : nat) (payload cs : bytes) (v : Z) (t : GDBTransport) (s s' : Session) (b : GDBBridge) (g : GDBServer)
    (e : E) (x' : World) :
  kPacketTrailer ∉ payload → kPacketEscapeChar ∉ payload →
  length cs = 2%nat → strtol 16 cs = (v, 2%nat) → kPacketEscapeChar ∉ cs → Z.of_nat (k + length payload + 4) < 2 ^ 64 →
  gdb_ b = Some t → IsConnected (conn t) = true → read_buffer_ (conn t) = [] → unescaped_read_buffer_ t = [] →
  gdb_executor_ g = Some [] →
  (arrive (replicate k "+"%byte ++ kPacketLeader :: payload ++ kPacketTrailer :: cs) ;; work pf) (s, (b, (g, e))) = Some (tt, (s', x')) →
  ∃ ps t', due (MkPacket payload (byte_sum payload mod 256) (v =? byte_sum payload mod 256)) (length ps)
  ∧ gdb_ x'.1 = Some t' ∧ IsConnected (conn t') = true
  ∧ write_buffer_ (conn t') = write_buffer_ (conn t) ++ (if no_ack_mode_ t then [] else kAck) ++ concat (map Serialize ps)
  ∧ read_buffer_ (conn t') = [] ∧ unescaped_read_buffer_ t' = [].
Proof.
  intros Hp He Hcs Hv Hec Hlen Hb Hc Hrb Hub Hg Hrun.
  set (p := MkPacket payload (byte_sum payload mod 256) (v =? byte_sum payload mod 256)) in *.
  pose proof (receive_frame k payload cs v t Hp He Hcs Hv Hec Hrb Hub Hlen) as Hr.
  destruct (receive _ t) as [t1 packets] eqn:Hrec. destruct Hr as (-> & Hw & _ & Hrb1 & Hub1).
  set (b1 := with_gdb (Some t1) b). set (g1 := with_executor (Some []) g).
  assert (Hc1 : IsConnected (conn t1) = true) by (rewrite <- Hc; erewrite <- (receive_connected _ t); by rewrite Hrec).
  erewrite bind_run in Hrun by (by eapply arrive_run). cbn [app] in Hrun. unfold work in Hrun.
  erewrite bind_run in Hrun by reflexivity. cbn [gdb_executor_ with_executor fst snd] in Hrun. cbv beta iota in Hrun.
  rewrite (bind_run _ _ _ tt (s, (b1, (g1, e)))) in Hrun by reflexivity. cbn [run_job] in Hrun.
  apply (dispatch_answers p t1) in Hrun as (ps & t' & Hdue & (_ & Hconn & Hun) & Hb' & Hc'); [|done|done].
  exists ps, t'. split_and!; [done|done|done|..]; rewrite ?Hconn, ?Hun; autorewrite with conn; [|done|done].
  by rewrite Hw, <- app_assoc.
Qed.
End Service.

(** ** Examples *)

From S2P Require Import ShellFrame.

#[export] Instance script_sockets : ServerSockets Script := {
  open_server c := (true, c);
  bind_server _ c := (true, c);
  bound_to c := (Some (Address (IPAddress_port 1999)), c);
  listen_server c := (true, c);
  accept_client c := (Some (9, Address example_address), c)
}.

(** An attached debugger without threads, a server, and no client. *)
Definition example_session : Session := set_debugger (Some (set_attached true new_debugger)) new_session.
Definition example_server : GDBServer := MkGDB (Some new_server) true (Some []) [] [].
Definition example_world (answers : list RDCPResponse) : GDBBridge * (GDBServer * Script) :=
  (new_bridge, (example_server, MkScript answers [])).

Lemma client_greeted_witness : ∃ s' b' g' e',
  greet 9 (example_session, example_world []) = Some (tt, (s', (b', (g', e'))))
  ∧ gdb_ b' = Some GdbTransport.new_transport ∧ events g' = [ClientAdded 9].
Proof.
  assert (Hrun : ∃ x, greet 9 (example_session, example_world []) = Some (tt, x)) by (eexists; vm_compute; reflexivity).
  destruct Hrun as [[s' [b' [g' e']]] Hrun]. exists s', b', g', e'. split; [exact Hrun|].
  destruct (client_greeted 9 example_session new_bridge example_server (MkScript [] []) s' b' g' e' Hrun) as (_ & _ & Hend).
  destruct Hend as [(Hg & He & _)|[Hg He]]; [done|].
  exfalso. assert (Hev : events g' = [ClientAdded 9]) by (vm_compute in Hrun; injection Hrun as <- <- <- <-; reflexivity).
  by rewrite Hev in He.
Defined.

(** The bytes that go to GDB after those that arrived from it. *)
Definition example_service (answers : list RDCPResponse) (data : bytes) : option (bytes * list bytes) :=
  (λ x, (match gdb_ x.2.2.1 with Some t => write_buffer_ (conn t) | None => [] end, map command_ (sent x.2.2.2.2)))
    <$> (greet 9 ;; arrive data ;; work GdbRegisters.HAVE_BE64TOH) (example_session, example_world answers).

Definition example_memory_reply : RDCPResponse := MkResponse OK_BINARY_RESPONSE "binary"%bs [Byte.x0a; Byte.xff].
Definition example_served : GDBBridge := with_gdb (Some GdbTransport.new_transport) new_bridge.

Lemma client_answered_witness : ∃ s' x' ps t',
  (arrive (kPacketLeader :: "m1000,2"%bs ++ kPacketTrailer :: "8c"%bs) ;; work GdbRegisters.HAVE_BE64TOH)
    (example_session, (example_served, (example_server, MkScript [example_memory_reply] []))) = Some (tt, (s', x'))
  ∧ gdb_ x'.1 = Some t' ∧ write_buffer_ (conn t') = kAck ++ concat (map GdbPacket.Serialize ps) ∧ due (packet_of "m1000,2"%bs) (length ps).
Proof.
  assert (Hrun : ∃ s' x', (arrive (kPacketLeader :: "m1000,2"%bs ++ kPacketTrailer :: "8c"%bs) ;; work GdbRegisters.HAVE_BE64TOH)
    (example_session, (example_served, (example_server, MkScript [example_memory_reply] []))) = Some (tt, (s', x')))
    by (do 2 eexists; vm_compute; reflexivity).
  destruct Hrun as (s' & x' & Hrun). exists s', x'.
  destruct (client_answered GdbRegisters.HAVE_BE64TOH 0 "m1000,2"%bs "8c"%bs 140 GdbTransport.new_transport example_session s'
    example_served example_server (MkScript [example_memory_reply] []) x') as (ps & t' & Hdue & Hb & _ & Hw & _).
  all: try (vm_compute; first [reflexivity|congruence]).
  all: try by_evaluation.
  1: exact Hrun.
  exists ps, t'. split_and!; [exact Hrun|exact Hb|exact Hw|exact Hdue].
Defined.

Example memory_on_the_wire : example_service [example_memory_reply] "$m1000,2#8c"%bs
  = Some ("+$0AFF#fd"%bs, ["getmem2"%bs]).
Proof. vm_compute. reflexivity. Qed.
