(* ===== verification/Startup.v ===== *)
(** * Start-up (src/main.cpp)

    The program: the options, the commands of the command line and the shell.  What
    [boost::program_options] makes of the arguments is given, and so is the started
    interface to the console whose address they name.  The log is set up beside the
    rest, which does not depend on it. *)

From S2P Require Import Utilities.
From S2P Require Import Notifications Tracer DxtRequests DxtLoader DebuggerBacktrace.
From S2P Require Import Prelude CLib Boost Parsing RdcpResponse RdcpRequest Requests IpAddress TcpServer Target FileUtil FrameImages.
From S2P Require Import Debugger Output Session ShellHelp ShellCommands ShellFiles ShellDebugger ShellExtensions Shell.
From S2P Require Import Bridge GdbServer.

Definition DEFAULT_PORT : Z := 731.

(** What the options say, once they are read without an error. *)
Record Options := MkOptions {
  help_asked : bool;
  xbox : option bytes;
  command : list bytes;
  shell_asked : bool;
  verbosity : Z;
  no_debugger : bool;
  no_gdb : bool;
  no_xbdm : bool
}.

(** [validate]: the console an argument stands for. *)
Definition validate `{!Inet} (value : bytes) : IPAddress := IPAddress_default value DEFAULT_PORT.

(** The log as [main] sets it up. *)
Definition setup_logging (vm : Options) (s : Settings) : Settings :=
  SetDebuggerTraceEnabled (negb (no_debugger vm))
    (SetXBDMTraceEnabled (negb (no_xbdm vm)) (SetGDBTraceEnabled (negb (no_gdb vm)) (InitializeLogging (verbosity vm) s))).

(** Beside another state the files, the screen and the channels are as before. *)
Section Beside.
Context {X E : Type}.

#[export] Instance beside_disk `{!LocalDisk E} : LocalDisk (X * E) := {
  read_local path s := read_local path s.2;
  last_write_seconds path s := last_write_seconds path s.2;
  local_file_size path s := local_file_size path s.2;
  directory_entries path s := directory_entries path s.2;
  relative_path path base s := relative_path path base s.2;
  write_local path data s := let '(ok, e) := write_local path data s.2 in (ok, (s.1, e));
  create_directories path s := (s.1, create_directories path s.2)
}.
#[export] Instance beside_paths `{!LocalPaths E} : LocalPaths (X * E) := {
  local_type path s := local_type path s.2;
  create_directory path s := let '(r, e) := create_directory path s.2 in (r, (s.1, e));
  current_path s := current_path s.2
}.
#[export] Instance beside_screen `{!Screen E} : Screen (X * E) := {
  local_time s := local_time s.2;
  SDL_CreateRGBSurfaceWithFormat w h bpp f s := SDL_CreateRGBSurfaceWithFormat w h bpp f s.2;
  SDL_LockSurface s := SDL_LockSurface s.2;
  IMG_SavePNG path data s := let '(r, e) := IMG_SavePNG path data s.2 in (r, (s.1, e))
}.
#[export] Instance beside_link `{!TracerLink E} : TracerLink (X * E) := {
  answer_dedicated h r payload s := let '(a, e) := answer_dedicated h r payload s.2 in (a, (s.1, e));
  arrivals s := let '(l, e) := arrivals s.2 in (l, (s.1, e));
  register_constructor name s := (s.1, register_constructor name s.2);
  unregister_constructor name s := (s.1, unregister_constructor name s.2);
  path_exists path s := path_exists path s.2
}.
#[export] Instance beside_reconnection `{!Reconnection E} : Reconnection (X * E) := {
  ReconnectXBDM s := let '(ok, e) := ReconnectXBDM s.2 in (ok, (s.1, e))
}.
End Beside.

(** [boost::algorithm::join(command, " ")] *)
Definition flat_command (command : list bytes) : bytes := join [space] command.

(** The loop over the commands, whose results are not looked at. *)
Fixpoint process_commands `{!Boost} {E} (commands : list (list bytes)) : M (Shell E * (Session * E)) unit :=
  match commands with
  | [] => mret tt
  | command :: commands => result ← ProcessCommand (of_line (flat_command command)); process_commands commands
  end.

Section Program.
Context {E : Type} `{!Boost, !Inet, !Target NotificationNTRC E, !ServerSockets E, !LocalDisk E, !LocalPaths E, !Screen E}.
Context `{!Disassembler, !Lister, !ImageTools, !NTRC, !TracerLink E, !Reconnection E}.
Context (kBootstrapL1 kBootstrapL2 kDynamicDXTLoader : bytes) (fuel : nat).
Abbreviation World := (GDBBridge * (GDBServer * E))%type.
Abbreviation S := (M (Shell World * (Session * World))).

Definition start_shell : Shell World := RegisterGDBCommands (new_shell kBootstrapL1 kBootstrapL2 kDynamicDXTLoader fuel).

(** [main_] from where the shell is made until the interface is stopped; the lines are
    those that are typed, with the notifications between them. *)
Definition main_ (commands : list (list bytes)) (run_shell : bool) (input : list Input) : S Z :=
  process_commands commands ;;
  (if run_shell then Run input else mret tt) ;;
  mret 0.

(** [main]: what is printed, and what the program ends with. *)
Definition main (usage : bytes) (parsed : Options + bytes) (input : list Input) : S Z :=
  match parsed with
  | inr what => say [Str "ERROR: "%bs; Str what; Endl; Str usage; Endl] ;; mret 1
  | inl vm =>
    if help_asked vm then say [Str usage; Endl] ;; mret 1
    else
      match xbox vm with
      | None => say [Str "Missing required 'xbox' parameter."%bs; Endl; Str usage; Endl] ;; mret 1
      | Some _ =>
        let commands := SplitCommands (command vm) in
        main_ commands (shell_asked vm || bool_decide (commands = [])) input
      end
  end.

(** The state the program starts from. *)
Definition start (e : E) : Shell World * (Session * World) := (start_shell, (new_session, (new_bridge, (no_gdb_server, e)))).
End Program.

(** ** The commands of the command line *)

From S2P Require Import TracerRuns ShellFrame ShellRuns GdbServerRuns.

Definition exits : list bytes := ["quit"%bs; "exit"%bs].

(** Every command but those that exit says that it handled the line. *)
Definition handles {E} (name : bytes) (c : Command E) : Prop :=
  bool_decide (name ∈ exits) = false → ∀ args x r x', run c args x = Some (r, x') → r = HANDLED.

Lemma handles_command_of {E} help (operator : ArgParser → M (Session * E) unit) args x r x' :
  run (command_of help operator) args x = Some (r, x') → r = HANDLED.
Proof.
  cbn [run command_of]. unfold handled, mbind, M_bind. destruct (operator args x) as [[[] x1]|]; [|done]. by intros [= <- _].
Qed.

Section Lines.
Context `{!Boost} {E : Type} `{!Target NotificationNTRC E, !Listeners NotificationNTRC E} (table : gmap bytes (option (Command E))) (Htable : every handles table).

(** A line of one command that is known, which neither exits nor repeats another. *)
Definition plain_line (line : bytes) : Prop :=
  trim line = line ∧ line ≠ []
  ∧ (Parsing.command (of_line line) ∈ ["help"%bs; "?"%bs] ∨ is_Some (m ← table !! Parsing.command (of_line line); m))
  ∧ Parsing.command (of_line line) ∉ "!"%bs :: exits.

Lemma plain_handled line sh (s : Session * E) :
  plain_line line → sound sh → commands_ sh = table →
  match ProcessCommand (of_line line) (sh, s) with
  | Some (r, (sh', _)) => r = HANDLED ∧ sound sh' ∧ commands_ sh' = table
  | None => True
  end.
Proof.
  intros (_ & _ & Hknown & Hname) Hs Hc. apply not_elem_of_cons in Hname as [Hbang Hexit].
  pose proof (ProcessCommand_run (of_line line) sh s Hs) as Hrun.
  destruct (ProcessCommand (of_line line) (sh, s)) as [[r [sh' s']]|] eqn:Hp; [|done].
  destruct Hrun as (Hs' & Hc' & _). split; [|by rewrite Hc', Hc].
  unfold ProcessCommand, execute in Hp. rewrite decide_False in Hp by done.
  destruct s as [s w]. rewrite (bind_run _ _ _ tt (MkShell (commands_ sh) (Some (of_line line)), (s, w))) in Hp by done.
  destruct (decide (Parsing.command (of_line line) ∈ ["help"%bs; "?"%bs])) as [Hh|Hh].
  - unfold mbind, M_bind in Hp. destruct (PrintHelp _ _) as [[[] x]|]; [|done]. by injection Hp as <- _.
  - destruct Hknown as [|[c Hk]]; [done|].
    rewrite (bind_run _ _ _ (MkShell (commands_ sh) (Some (of_line line))) (MkShell (commands_ sh) (Some (of_line line)), (s, w))) in Hp by done.
    cbn [commands_] in Hp. rewrite Hc in Hp.
    destruct (table !! Parsing.command (of_line line)) as [[c'|]|] eqn:Hl; [|done|done].
    unfold on_right in Hp. destruct (run c' _ _) as [[r1 s1]|] eqn:Hrun; [|done]. cbn in Hp. injection Hp as <- _ _.
    exact (Htable _ _ Hl (bool_decide_eq_false_2 _ Hexit) _ _ _ _ Hrun).
Qed.

Lemma process_as_Run groups input : Forall (λ g, plain_line (flat_command g)) groups →
  ∀ sh s, sound sh → commands_ sh = table →
  (process_commands groups ;; Run input) (sh, s) = Run (map Line (map flat_command groups) ++ input) (sh, s).
Proof.
  induction 1 as [|g groups Hg _ IH]; intros sh s Hs Hc; [done|]. cbn [map app Run process_commands].
  pose proof Hg as (Htrim & Hne & _). rewrite Htrim. destruct (flat_command g) as [|c text] eqn:Hline; [done|]. rewrite <- Hline in *.
  pose proof (plain_handled _ _ s Hg Hs Hc) as Hp. unfold mbind, M_bind in *.
  destruct (ProcessCommand (of_line (flat_command g)) (sh, s)) as [[r [sh' s']]|]; [|done].
  destruct Hp as (-> & Hs' & Hc'). exact (IH sh' s' Hs' Hc').
Qed.

End Lines.

Lemma RegisterCommand_alone {E} name (c : Command E) s : commands_ (RegisterCommand name c [] s) = REGISTER name c (commands_ s).
Proof. done. Qed.

Section Same.
Context {E : Type} `{!Boost, !Inet, !Target NotificationNTRC E, !ServerSockets E, !LocalDisk E, !LocalPaths E, !Screen E}.
Context `{!Disassembler, !Lister, !ImageTools, !NTRC, !TracerLink E, !Reconnection E}.
Context (l1 l2 dxt : bytes) (fuel : nat).
Abbreviation World := (GDBBridge * (GDBServer * E))%type.
Abbreviation the_shell := (start_shell (E := E) l1 l2 dxt fuel).

Ltac handles_registration :=
  intros m Hm;
  lazymatch goal with
  | |- every _ (ALIAS _ _ _) => apply every_ALIAS; [intros c Hc Hn; first [discriminate Hn|exact (Hc eq_refl)]|done]
  | |- every _ (REGISTER _ _ _) => apply every_REGISTER; [done|intros Hn; first [discriminate Hn|intros args x r x'; apply handles_command_of]]
  | |- _ => by apply every_UNHANDLED
  end.
Ltac handles_registrations := repeat (apply Forall_cons; split; [handles_registration|]); by apply Forall_nil.

Lemma handles_shell : every handles (commands_ the_shell).
Proof.
  unfold start_shell, RegisterGDBCommands. rewrite RegisterCommand_alone.
  apply every_REGISTER; [|intros _ args x r x'; apply handles_command_of].
  apply every_foldl; [|by intros ? ? [=]]. unfold all_commands. repeat apply Forall_app_2; handles_registrations.
Qed.

Lemma sound_start : sound the_shell.
Proof.
  unfold start_shell, RegisterGDBCommands. generalize (sound_new_shell (E := World) l1 l2 dxt fuel).
  generalize (new_shell (E := World) l1 l2 dxt fuel). intros sh Hs. exact (sound_registered [("gdb"%bs, ShellCommandGDB, [])] sh Hs).
Qed.

(** C21. Commands given on the command line, separated by [&&], are processed as if they
    were typed as lines of the shell: the program then does with the console, prints and
    keeps the same, and fails where the shell would.  This is so for commands that are
    known and none of [quit], [exit] and [!]. *)
Theorem startup_as_typed (usage : bytes) (vm : Options) (input : list Input) (e : E) :
  help_asked vm = false → is_Some (xbox vm) → shell_asked vm = true →
  Forall (λ g, plain_line (commands_ the_shell) (flat_command g)) (SplitCommands (command vm)) →
  main usage (inl vm) input (start l1 l2 dxt fuel e)
  = (Run (map Line (map flat_command (SplitCommands (command vm))) ++ input) ;; mret 0) (start l1 l2 dxt fuel e).
Proof.
  intros Hh [x Hx] Hs Hall. unfold main. rewrite Hh, Hx, Hs. unfold main_. cbn [orb].
  pose proof (process_as_Run _ handles_shell _ input Hall the_shell (new_session, (new_bridge, (no_gdb_server, e))) sound_start eq_refl) as Heq.
  unfold start, mbind, M_bind in *. rewrite <- Heq. by destruct (process_commands _ _) as [[[] y]|].
Qed.
End Same.

(** ** After a run of the program *)

Section Settled.
Context `{!Strictness} {E : Type} `{!Boost, !Inet, !Target NotificationNTRC E, !ServerSockets E, !LocalDisk E, !LocalPaths E, !Screen E}.
Context `{!Disassembler, !Lister, !ImageTools, !NTRC, !TracerLink E, !Reconnection E}.
Context (l1 l2 dxt : bytes) (fuel : nat).
Abbreviation World := (GDBBridge * (GDBServer * E))%type.
Abbreviation the_shell := (start_shell (E := E) l1 l2 dxt fuel).

(** The GDB server may leave a debugger without its parser. *)
Lemma keeps_StopGDBServer b : keeps (calm (E := World) b) StopGDBServer.
Proof.
  unfold StopGDBServer, the_server, change_server, change_bridge. apply keeps_bind; [apply keeps_gets|intros g].
  apply keeps_bind; [destruct (gdb_server_ g); [apply keeps_on_console|apply keeps_ret]|intros _].
  apply keeps_bind; [destruct (gdb_bridge_ g); [|apply keeps_ret]; apply keeps_bind; intros; apply keeps_on_console|].
  intros _. apply keeps_on_console.
Qed.

Lemma keeps_StartGDBServer b address : strict = false → keeps (calm (E := World) b) (StartGDBServer address).
Proof.
  intros Hstrict. unfold StartGDBServer, change_server, change_bridge, on_server.
  apply keeps_bind; [apply keeps_StopGDBServer|intros _]. apply keeps_bind; [apply keeps_on_console|intros _].
  apply keeps_bind; [apply keeps_has_debugger|intros there]. apply keeps_bind; [|intros _].
  { destruct there; [apply keeps_ret|]. apply keeps_update_session; [done|]. intros s Hs. unfold coupled, paired in *. cbn.
    rewrite Hstrict in *. destruct (expression_parser_ s); [|done]. intros _. by eexists. }
  repeat (apply keeps_bind; [apply keeps_on_console|intros _]). apply keeps_on_console.
Qed.

Lemma calm_gdb : calm_command "gdb"%bs (ShellCommandGDB (E := E)).
Proof.
  intros args b [_ Hc]. destruct strict eqn:Hstrict; [discriminate (Hc eq_refl)|]. apply calm_handled.
  unfold ShellCommandGDB_run. destruct (arguments args) as [|front others].
  - apply keeps_bind; [apply keeps_print; quiet_literal|intros _]. apply keeps_print. quiet_literal.
  - apply keeps_bind; [by apply keeps_StartGDBServer|intros started]. destruct (negb started); [apply keeps_print; quiet_literal|].
    apply keeps_bind; [destruct (last others); [apply keeps_on_console|apply keeps_ret]|intros _].
    apply keeps_bind; [apply keeps_bind; [apply keeps_gets|intros g; apply keeps_ret]|intros address].
    destruct address; [apply keeps_print; quiet_literal|].
    apply keeps_bind; [apply keeps_print; quiet_literal|intros _; apply keeps_on_console].
Qed.

Lemma calm_shell : calm_entries (commands_ the_shell).
Proof.
  unfold start_shell, RegisterGDBCommands. rewrite RegisterCommand_alone.
  apply every_REGISTER; [apply calm_constructor|apply calm_gdb].
Qed.

Lemma keeps_process_commands b (commands : list (list bytes)) :
  Forall (λ g, allowed_word b (Parsing.command (of_line (flat_command g)))) commands →
  keeps (calm_state (E := World) b) (process_commands commands).
Proof.
  induction 1 as [|g commands Hg _ IH]; [apply keeps_ret|]. cbn [process_commands].
  apply keeps_bind; [by apply keeps_ProcessCommand|by intros _].
Qed.

(** The commands of the command line, when there are any. *)
Definition given (parsed : Options + bytes) : list (list bytes) :=
  match parsed with inl vm => SplitCommands (command vm) | inr _ => [] end.

(** All words of the command line, and all that comes to the shell, are allowed. *)
Definition words (given : list (list bytes)) : list bytes := map (λ g, Parsing.command (of_line (flat_command g))) given.

Lemma keeps_main b usage parsed input :
  Forall (allowed_word b) (words (given parsed)) →
  (b = true → Forall restful_input input) → (strict = true → Forall coupling_input input) →
  keeps (calm_state (E := World) b) (main usage parsed input).
Proof.
  intros Hg Hb Hc. unfold main. destruct parsed as [vm|what].
  2: { apply keeps_bind; [apply keeps_say; quiet_literal|intros _; apply keeps_ret]. }
  destruct (help_asked vm); [apply keeps_bind; [apply keeps_say; quiet_literal|intros _; apply keeps_ret]|].
  destruct (xbox vm); [|apply keeps_bind; [apply keeps_say; quiet_literal|intros _; apply keeps_ret]].
  unfold main_. apply keeps_bind.
  - apply keeps_process_commands. unfold words in Hg. cbn [given] in Hg. by rewrite Forall_map in Hg.
  - intros _. apply keeps_bind; [|intros _; apply keeps_ret]. destruct (_ || _); [by apply keeps_Run|apply keeps_ret].
Qed.

Lemma calm_start b e : calm_state b (start l1 l2 dxt fuel e).
Proof.
  split; [apply calm_shell|]. split; [|done]. split; [by split|]. exact (paired_is None).
Qed.
End Settled.

Section After.
Context {E : Type} `{!Boost, !Inet, !Target NotificationNTRC E, !ServerSockets E, !LocalDisk E, !LocalPaths E, !Screen E}.
Context `{!Disassembler, !Lister, !ImageTools, !NTRC, !TracerLink E, !Reconnection E}.
Context (l1 l2 dxt : bytes) (fuel : nat).

(** C19. After a run of the program, whatever the command line was, the lines that were
    typed and the notifications that arrived between them: no width is left over for the
    next output; unless one of the commands is [modules], [/modules], [isstopped] or
    [getextcontext], or one of the notifications tells of a module, of a new thread or of
    a stop at an address, numbers are still printed in base 10; expressions are parsed
    with the registers and the memory of a debugger only when there is one, and unless a
    command is [gdb] always then. *)
Theorem run_settles (usage : bytes) (parsed : Options + bytes) (input : list Input) (e : E) :
  match main usage parsed input (start l1 l2 dxt fuel e) with
  | Some (_, (_, (s, _))) =>
    field_width (cout s) = 0%nat
    ∧ (Forall (λ name, restful name = true) (words (given parsed)) → Forall restful_input input →
       hex_base (Output.format (cout s)) = false)
    ∧ ∃ p, expression_parser_ s = Some p
      ∧ (context_aware p = true → is_Some (xbdm_debugger_ s))
      ∧ (Forall (λ name, couples name = true) (words (given parsed)) → Forall coupling_input input →
         context_aware p = bool_decide (is_Some (xbdm_debugger_ s)))
  | None => True
  end.
Proof.
  pose proof (λ (strictness : Strictness) b Hg Hb Hc,
    keeps_main (E := E) b usage parsed input Hg Hb Hc _ (calm_start l1 l2 dxt fuel b e)) as Hkeeps.
  unfold wp in Hkeeps. destruct (main usage parsed input _) as [[r [sh [s w]]]|]; [|done].
  assert (∀ (strictness : Strictness) b, (b = true → Forall (λ name, restful name = true) (words (given parsed))) →
    (strict = true → Forall (λ name, couples name = true) (words (given parsed))) →
    Forall (allowed_word b) (words (given parsed))) as Hallowed.
  { intros strictness b Hr Hc. apply Forall_forall. intros name Hin. split; intros Hyes.
    - specialize (Hr Hyes). rewrite Forall_forall in Hr. by apply Hr.
    - specialize (Hc Hyes). rewrite Forall_forall in Hc. by apply Hc. }
  pose proof (Hkeeps false false) as Hweak. destruct Hweak as (_ & [[Hw _] Hc] & _); [by apply Hallowed|done..|].
  unfold coupled in Hc. cbn [fst snd cout] in *. destruct (expression_parser_ s) as [p|] eqn:Hp; [|done].
  split; [exact Hw|]. split.
  - intros Hg Hi. destruct (Hkeeps false true) as (_ & [[_ Hd] _] & _); [by apply Hallowed|done..|]. by apply Hd.
  - exists p. split; [done|]. split; [exact Hc|]. intros Hg Hi.
    destruct (Hkeeps true false) as (_ & [_ Hstrict] & _); [by apply Hallowed|done..|].
    unfold coupled in Hstrict. cbn [fst snd] in Hstrict. by rewrite Hp in Hstrict.
Qed.
End After.

(** ** An example *)

#[local] Existing Instance inet_reference.

Definition example_options : Options :=
  MkOptions false (Some "192.168.1.2"%bs) ["getmem"%bs; "0x1000"%bs; "4"%bs; "&&"%bs; "help"%bs; "getmem"%bs] true 0 false false false.

Lemma startup_as_typed_witness :
  main "usage"%bs (inl example_options) [Line "?"%bs] (start [] [] [] 10 (MkScript [example_memory_reply] []))
  = (Run [Line "getmem 0x1000 4"%bs; Line "help getmem"%bs; Line "?"%bs] ;; mret 0) (start [] [] [] 10 (MkScript [example_memory_reply] [])).
Proof.
  refine (startup_as_typed [] [] [] 10 "usage"%bs example_options [Line "?"%bs] (MkScript [example_memory_reply] []) eq_refl _ eq_refl _).
  - by eexists.
  - repeat (apply Forall_cons; split; [unfold plain_line; split_and!; by_evaluation|]). by apply Forall_nil.
Defined.

(** What a run of the program prints, and the requests it sends. *)
Definition example_program (vm : Options) (answers : list RDCPResponse) (input : list bytes) : option (bytes * list bytes) :=
  (λ x, (written (cout x.2.2.1), map command_ (sent x.2.2.2.2.2)))
    <$> main "usage"%bs (inl vm) (map Line input) (start [] [] [] 10 (MkScript answers [])).

(** [quit] does not end the program before the lines are read, and an unknown command
    of the command line is passed over. *)
Example quit_is_not_obeyed :
  example_program (MkOptions false (Some "192.168.1.2"%bs) ["quit"%bs; "&&"%bs; "nosuch"%bs] true 0 false false false) [] ["nosuch"%bs]
  = Some ("Unknown command."%bs ++ [newline], []).
Proof. vm_compute. reflexivity. Qed.

(** The debugger the server makes comes without its parser of expressions. *)
Example server_started :
  (λ x, (written (cout x.2.2.1), bool_decide (is_Some (xbdm_debugger_ x.2.2.1)), context_aware <$> expression_parser_ x.2.2.1))
    <$> main "usage"%bs (inl (MkOptions false (Some "192.168.1.2"%bs) [] false 0 false false false)) [Line "gdb :1999"%bs] (start [] [] [] 10 (MkScript [] []))
  = Some ("GDB server listening at Address 0.0.0.0:1999"%bs ++ [newline], true, Some false).
Proof. vm_compute. reflexivity. Qed.

(** The handler of the shell is attached, and a thread ends before the next line. *)
Definition example_input : list Input :=
  [Line "notifyat 1025"%bs; Arrived (NotificationThreadTerminated 28); Line "getmem 0x1000 4"%bs].

Lemma run_settles_witness :
  ∃ x, main "usage"%bs (inl example_options) example_input
         (start [] [] [] 10 (MkScript [example_memory_reply; MkResponse OK [] []; example_memory_reply] [])) = Some (0, x)
  ∧ field_width (cout x.2.1) = 0%nat ∧ hex_base (Output.format (cout x.2.1)) = false
  ∧ ∃ p, expression_parser_ x.2.1 = Some p ∧ context_aware p = bool_decide (is_Some (xbdm_debugger_ x.2.1)).
Proof.
  pose (y := main "usage"%bs (inl example_options) example_input
         (start [] [] [] 10 (MkScript [example_memory_reply; MkResponse OK [] []; example_memory_reply] []))).
  pose proof (run_settles [] [] [] 10 "usage"%bs (inl example_options) example_input
    (MkScript [example_memory_reply; MkResponse OK [] []; example_memory_reply] [])) as Hsettled.
  assert (Hrun : fst <$> y = Some 0) by (vm_compute; reflexivity). fold y in Hsettled |- *. clearbody y.
  destruct y as [[r x]|]; [|discriminate Hrun]. injection Hrun as ->. exists x. split; [done|]. destruct x as [sh [s w]].
  destruct Hsettled as (Hw & Hbase & p & Hp & _ & Hstrict). split; [exact Hw|]. split; [apply Hbase; by_evaluation|].
  exists p. split; [exact Hp|]. apply Hstrict; by_evaluation.
Defined.

(** What is printed then, and that a notification leaves the stream in base 16. *)
Example notification_printed :
  (λ x, written (cout x.2.2.1)) <$> main "usage"%bs (inl (MkOptions false (Some "192.168.1.2"%bs) [] true 0 false false false))
    (example_input ++ [Arrived (NotificationThreadCreated 28 65536); Arrived (NotificationThreadTerminated 28)])
    (start [] [] [] 10 (MkScript [MkResponse OK [] []; example_memory_reply] []))
  = Some ("notifyat: 200 "%bs ++ newline :: "Thread terminated: 28"%bs ++ newline :: "0a ff "%bs
      ++ newline :: "Thread created: 28 start address: 0x10000"%bs ++ newline :: "Thread terminated: 1c"%bs ++ [newline]).
Proof. vm_compute. reflexivity. Qed.
